(* ===== verification/_CoqProject ===== *)
-Q . S2P
Prelude.v
Float64.v
Effects.v
Contracts.v
Artifacts.v
Tasks.v
Persistent.v
Docks.v
Zones.v
Safety.v
PlanContracts.v
Routes.v
Intents.v
Graphs.v
Trajectory.v
Envelope.v
Planning.v
Commands.v
Scripts.v
Syntax.v
Validation.v
Worker.v
Budgets.v
Runs.v
Uploads.v
Deconfliction.v
Multidrone.v
Conflicts.v
MissionPlans.v
Admission.v
Routing.v
Telemetry.v
Missions.v
Authority.v
Exclusion.v
Coroutines.v
Supervisor.v
Preparation.v
Observability.v
Evidence.v
Supervision.v
Guarantees.v
Readiness.v
Metrics.v
Fleet.v
Coordinator.v
Rotation.v
Coordination.v
FleetGuarantees.v
Handovers.v
