(* ===== verification/Prelude.v ===== *)
(** * A verification library for the CrazySwarm control system

    The program (under [src/src/crazyswarm_app/]) flies small fleets of
    Crazyflie drones, simulated or real. An operator or a mission talks to a
    _safety supervisor_, which owns the session of each vehicle, admits or
    refuses every command and recovers unhealthy vehicles. A _fleet layer_ above
    it gives vehicles work: a task ledger with leases, handovers of tasks
    between vehicles, docks for charging, the deployment contracts that say
    which fleet flies, and the preparation of that fleet for a start. A mission
    is a small Python file: the service accepts it, an isolated worker runs it,
    and the planners turn the commands it records into routes, programs and a
    deconflicted schedule that an operator approves. What happens is published as
    evidence on a bus and can be replayed. This library models those parts as
    executable definitions, one file per part, and proves what makes them correct.

    ** How the parts interact

    - [safety/supervisor.py] keeps one session per vehicle (its state, last
      telemetry, preflight report, control lease and running command), asks
      [safety/state_machine.py] and [safety/policy.py] for every decision,
      builds the payloads of [domain/commands.py] and [domain/trajectory.py],
      and awaits the adapters of [vehicles/base.py]. Its public coroutines run
      concurrently on one event loop and share the sessions.
    - [fleet/tasks.py] is the ledger of task ownership; [fleet/persistent.py]
      drives it to hand tasks over between vehicles; [fleet/docks.py] queues
      vehicles for charging and asks the handover record before it books an
      outgoing vehicle; [fleet/artifacts.py] defines the deployments all three
      read; [fleet/zones.py] plans the flight of one task.
    - [fleet/preparation.py] discovers, connects, observes and preflights the
      vehicles of a deployment. It is a client of the supervisor, which it calls
      and awaits while other clients do the same.
    - [fleet/coordinator.py] runs a prepared fleet. It assigns the tasks of the
      ledger, starts a mission per task, watches the separation of the vehicles,
      holds, aborts or lands them, hands tasks over to reserves and reports. It
      drives all the parts above and a mission runner, while its missions, the tasks
      that confirm its holds and the operator act at every await.
    - [missions/authority.py] serialises the commands of a mission with the
      changes of its lease; the vehicle ([simulation/vehicle.py]) checks each
      command against the binding that the authority last moved.
    - [missions/script.py] accepts the source of a mission with static budgets;
      [missions/_mission_worker.py] runs it and records the commands of each role.
      [missions/planning.py] compiles the recorded commands into role plans, has
      the planners of [planning/builtins.py] route them, [planning/safety.py]
      judge them and [planning/deconfliction.py] and [planning/multidrone.py]
      separate them, and issues a receipt that [planning/approval.py] binds to an
      approval. [planning/intent.py] compiles the graph of a mission's phases, and
      [planning/registry.py] resolves which planner serves.
    - [observability/bridge.py] is an audit sink of the supervisor: it files what
      it is told under the run of the command and publishes it on the bus of
      [observability/bus.py].

    ** Files

    - [Prelude]: automation, insertion-ordered dictionaries ([dict], Python's
      [dict]), [sorted], [min] and [max] as Python computes them.
    - [Float64]: IEEE binary64 as [spec_float], Python's comparisons, [round],
      the compensated [sum], and the class [Libm] of C mathematics.
    - [Effects]: exceptions, the state-and-exception monad [M] with a monotonic
      clock, its weakest preconditions [wp] and the step logic [steps].
    - [Contracts] ([domain/models.py]) and [Artifacts] ([fleet/artifacts.py]):
      the vocabulary, the deployment contracts, canonical documents and digests.
    - [Tasks] ([fleet/tasks.py]), [Persistent] ([fleet/persistent.py]),
      [Docks] ([fleet/docks.py]): the state of each class as a record of the same
      field names, one definition per method, the invariant, an abstract
      protocol with a refinement theorem, and concrete runs in [Examples].
    - [Zones] ([fleet/zones.py], [fleet/coordination.py]).
    - [PlanContracts] ([planning/contracts.py]), [Routes] ([planning/registry.py],
      [builtins.py]), [Intents] ([planning/intent.py]), [Planning]
      ([planning/safety.py], [service.py]); [Graphs] and [Routing]: the theorems on
      execution graphs, routes, the registry and recoveries.
    - [Scripts] ([missions/script.py]: contracts and arguments of commands),
      [Syntax] (the trees of Python's [ast]), [Validation] ([missions/script.py]:
      acceptance of a source), [Worker] ([missions/_mission_worker.py] with an
      evaluator of the permitted syntax); [Budgets], [Runs] and [Uploads]: static
      weights, a logic of runs, and the theorems on accepted missions.
    - [Deconfliction] ([planning/deconfliction.py]), [Multidrone]
      ([planning/multidrone.py]); [Conflicts]: their theorems.
    - [MissionPlans] ([missions/planning.py], [planning/approval.py]);
      [Admission]: its theorems.
    - [Safety] ([safety/state_machine.py], [policy.py], [models.py]),
      [Trajectory] ([domain/trajectory.py], [domain/goals.py]), [Telemetry]
      ([domain/telemetry.py]), [Commands] ([domain/commands.py]).
    - [Envelope]: the vocabulary in which the theorems state what a vehicle is held
      to (boxes, lengths, limits of motion, legs that miss a box, corridors that are
      apart), independent of the code, and that the code's own checks decide it.
    - [Missions] ([missions/models.py], run bindings of [domain/simulation.py]);
      [Authority] ([missions/authority.py] with its locks, the run binding of
      [simulation/vehicle.py]) as a step relation on tasks; [Exclusion]: its theorems.
    - [Coroutines]: coroutines as trees of atomic sections and awaits, a
      scheduler-free system of running coroutines, reachability, and a logic for
      invariants that hold at every await; [co_zoom] runs the coroutines of a
      part on an attribute of the whole.
    - [Supervisor] ([safety/supervisor.py], complete): every method, the public
      ones as coroutines cut at their awaits.
    - [Supervision]: the invariant of the supervisor and its proof for every
      coroutine; [Guarantees]: the theorems a user of the supervisor relies on.
    - [Preparation] ([fleet/preparation.py], [fleet/backends.py]); [Readiness]:
      its invariant on top of that of the supervisor, and its theorems.
    - [Metrics] ([fleet/metrics.py]); [Fleet]: the state and the records of
      [fleet/coordinator.py], the command gate of [missions/coordination.py] and the
      runner of [missions/runner.py] as the coordinator sees it; [Coordinator]: the
      runs without rotation (launch, separation, holds, formations, failure policies,
      cleanup, results, construction); [Rotation]: the persistent runs (coverage,
      handover of a task to a reserve, docking, [run]).
    - [Coordination]: the invariant of a coordinated fleet, on top of those of the
      preparation, the ledger, the handovers and the docks, and its proof for every
      coroutine, with what a stored handover keeps; [FleetGuarantees]: what an abort
      touches and what a report means; [Handovers]: the order in which authority
      changes hands, and a run of three vehicles up to the grant to the reserve.
    - [Observability] ([observability/events.py], [bus.py], [bridge.py], the clock
      of [replay.py]); [Evidence]: its theorems.

    ** How the code is represented

    - A method is a definition of the same name. Its guards come in the order of
      the code; [raise] ends it with the state changes made so far, which is how
      Python behaves. [try]/[except] is [try_except] or [co_try], with the set of
      exceptions it catches.
    - Floats are binary64 values, NaN and infinities included; nothing is
      replaced by reals. [**] and the trigonometric functions are the class
      [Libm]: a platform's C library, with the overflow exception of Python.
      Division by zero raises. [sum] is the compensated summation of CPython 3.12.
    - A pydantic model is a record with a boolean validator [_valid], which its
      constructor checks; [model_copy] does not validate, as in pydantic.
      [schema_version] constants, wall-clock stamps and free-form [details] are
      left out: no decision reads them.
    - [time.monotonic()] is the class [Clock], a reading per call; only where a
      theorem says so the readings are assumed to be monotone or non-negative.
    - SHA-256 is the class [Digest], a function from canonical documents; a
      document with an infinite number, which the code refuses to encode, is
      taken to have one too.
    - [float(s)], [str(v)] and the lenient floats of pydantic are the class
      [PyText]; the parser of Python and [ast.literal_eval] are the class
      [MissionFiles]; what the permitted syntax does not determine of Python's
      values is the class [PythonValues]; the answers of the worker process are
      the class [MissionWorker], with [isolated_worker] its model, and those of
      the parent the class [MissionParent].
    - The sessions of the supervisor live in a store of objects, because the
      coroutines keep references to them across awaits; the dictionary
      [_sessions] maps names to references.
    - The loops of the coordinator that poll until something happens take the number
      of [rounds] they may run as an argument; a loop whose rounds are used up waits
      for ever ([forever]) and can only be cancelled. The theorems hold for every
      number of rounds, so for every finite prefix of a run. A mission is an entry of
      a table that the environment ends once, with any result or exception.
    - An await asks the environment a [request]; the environment may answer any
      pending await in any order, with any result, any exception, a timeout or
      a cancellation. It may mark command tasks done and it starts any number of
      public coroutines at any time. This over-approximates asyncio.

    ** What is proved

    - The supervisor, under every interleaving: vehicles follow the state
      machine, commands are sent only in the state they belong to, the log is
      numbered and command identities are unique. Per operation: what arming,
      takeoff, flight commands, preflight, trajectories, health assessment,
      telemetry and control claims require and do.
    - The ledger: agreement of lease, owner and state in every reachable
      ledger, one holder per generation, refusal of stale leases, final tasks,
      reconstruction from evidence, monotone progress.
    - Handovers: exclusive and consistent in every reachable coordinator,
      refinement of the handover protocol, atomic takeover and its effect on
      the outgoing vehicle, selection of reserves, allocation and separation.
    - Docks: bounds in every reachable manager, refinement of the life cycle.
    - Preparation: whatever interleaves with it, it keeps the supervisor safe, a
      start is granted only to a fleet that is ready, a discovery binds the
      declared fleet or nothing, and its events are numbered.
    - The fleet coordinator, whatever interleaves with a run: every component it
      drives keeps its invariant, its events are numbered and its missions carry the
      authority of this run; an abort concerns one vehicle only; the status and the
      reason of a report are justified by the tasks, missions, docks and handovers the
      same report lists, and a run that failed with an error leaves every task over; a
      grant to a reserve names a handover that is stored and confirmed for this task,
      reserve and generation, and is asked for only when its outgoing vehicle is at
      rest, a mission of the task has succeeded and the ledger issued the generation.
    - Mission files: an accepted mission that keeps to the discipline of the
      language (counters set before their loops, no commands in tests) stays
      within its static budgets, its loops end, it takes off first and lands last;
      a linear mission previews as exactly its validated steps, under the conditions
      that the code leaves unchecked and the theorem names.
    - Planning: ready routes keep to the volume, miss every obstacle and have
      corridors apart from all others, an execution graph is rejected exactly
      when it is malformed and its compilation ends, recoveries are admitted
      exactly when declared and current, registries resolve exactly.
    - Mission plans: role plans follow the recorded commands, an unblocked plan
      keeps to every limit, programs cover their waypoints, resolved conflicts and
      joint schedules keep their separation, exact enumeration is optimal, and an
      approval holds for its plan alone.
    - Authority: operations run one at a time on the current binding, the lease
      of the authority and that of the vehicle move in step, commands go out
      under the lease they were sent with, and no task waits for ever.
    - Evidence: the bus refines its specification, reaches every subscriber and
      limits rates; a replay plays the recording in order.
    - Policies, trajectories, zone plans and deployment contracts: tightening
      never relaxes, the state machine's paths, the binary search against its
      linear specification, sampling, free waypoints, binding of sessions.
    - The [Examples] modules evaluate concrete runs; some of them exhibit
      behaviour the code does not intend (a takeover split by a long reason, a
      stranded queue, a stop-and-hold in an emergency, an endless mission that is
      accepted, and others).

    ** Bounds and fuel

    The binary search of [Trajectory] has fuel one more than the length of the
    list, and [Trajectory.bisect_is_linear_scan] shows the result is the right
    one. A traversal of an execution graph has one call per phase and one more,
    enough by [Graphs.graph_compilation_ends]; the permutations of roles recurse
    on their number; the grouping of operations has as much fuel as there are
    waypoints, enough by [Admission.compilation_ends]. The evaluator of missions
    bounds the iterations of each [while] by the time limit of the process, and
    66 are enough for a disciplined mission by [Uploads.run_keeps_its_budgets];
    [ast.walk] has the depth of the tree. The 200 steps of a zone intersection and the 19 samples of a trajectory
    segment are the constants of the code. Everything else is structural.

    ** Not modelled

    Input and output: the adapters of [vehicles/], the Isaac transport, storage,
    the HTTP API, the command line and the dashboard. They reach the supervisor
    only through the requests and calls that the environment makes freely here.
    [fleet/artifacts.py:load_versioned_contract] and the mission file library read
    files. [operator_summary] of the coordinator and [state_summary] of the preparation
    are views. The staged execution of fleets, the inside of the mission runner, the
    campaign services and the simulation's physics are not modelled. The evaluator of
    missions leaves out nested functions, starred arguments, calls of other
    objects and entry points other than a plain [async def mission(drone)], which end
    a run with an error of their own. Of the worker process the two seconds it is
    given by [preview_isolated_mission_role], its resource limits and the
    [MAX_PROTOCOL_BYTES] of its messages are left out; the 256 KiB of its start
    request are not. The recursion limit of the interpreter is left out: the outcome
    named after it in [Intents] stands for a lack of fuel, which never happens. The
    capabilities of a vehicle are constants, which [vehicles/crazyflie.py] derives
    from what its link reports; the environment of a simulated vehicle neither resets
    it nor binds a second run to it. *)

From Stdlib Require Export ZArith Lia Sorted.
From stdpp Require Export base tactics strings pretty option gmap list.

#[global] Open Scope Z_scope.

(** ** Automation *)

Create HintDb swarm discriminated.

(** Split every [match] scrutinee of the goal or of a hypothesis, keeping the
    equation, and close the branches that contradict it. *)
Ltac case_any :=
  match goal with
  | |- context [match ?x with _ => _ end] => destruct x eqn:?
  | H : context [match ?x with _ => _ end] |- _ => destruct x eqn:?
  end; simplify_eq/=.

(** Turn the boolean connectives of the context and of the goal into
    propositions. *)
Ltac bool_to_prop :=
  repeat match goal with
  | H : (_ && _)%bool = true |- _ => apply andb_true_iff in H; destruct H
  | H : (_ || _)%bool = false |- _ => apply orb_false_iff in H; destruct H
  | H : (_ && _)%bool = false |- _ => apply andb_false_iff in H
  | H : (_ || _)%bool = true |- _ => apply orb_true_iff in H
  | H : negb _ = true |- _ => apply negb_true_iff in H
  | H : negb _ = false |- _ => apply negb_false_iff in H
  | H : bool_decide _ = true |- _ => apply bool_decide_eq_true in H
  | H : bool_decide _ = false |- _ => apply bool_decide_eq_false in H
  | H : String.eqb _ _ = true |- _ => apply String.eqb_eq in H
  | H : String.eqb _ _ = false |- _ => apply String.eqb_neq in H
  | H : Z.leb _ _ = true |- _ => apply Z.leb_le in H
  | H : Z.leb _ _ = false |- _ => apply Z.leb_gt in H
  | H : Z.ltb _ _ = true |- _ => apply Z.ltb_lt in H
  | H : Z.ltb _ _ = false |- _ => apply Z.ltb_ge in H
  | H : Z.eqb _ _ = true |- _ => apply Z.eqb_eq in H
  | H : Z.eqb _ _ = false |- _ => apply Z.eqb_neq in H
  | |- (_ && _)%bool = true => apply andb_true_iff; split
  | |- negb _ = true => apply negb_true_iff
  end.

(** ** Enumerations

    A Python [StrEnum] is an inductive type without arguments: its equality is
    decided by [decide], and [is] on its members is that equality. *)
Declare Scope swarm_scope.
Delimit Scope swarm_scope with swarm.
Notation "x ≟ y" := (bool_decide (x = y)) (at level 70, no associativity) : swarm_scope.
Notation "x ≠? y" := (negb (bool_decide (x = y))) (at level 70, no associativity) : swarm_scope.
Notation "x ∈? l" := (bool_decide (x ∈ l)) (at level 70, no associativity) : swarm_scope.
#[global] Open Scope swarm_scope.

(** [x is not None] *)
Definition is_some {A} (o : option A) : bool :=
  match o with Some _ => true | None => false end.

Definition is_none {A} (o : option A) : bool := negb (is_some o).

Lemma is_some_true {A} (o : option A) : is_some o = true <-> is_Some o.
Proof. destruct o; simpl; split; [by eexists|done|done|by intros [? ?]]. Qed.

(** ** String order

    Identifiers are ASCII, for which Python's code point order is the
    lexicographic order of the characters. *)
Definition str_ltb (a b : string) : bool := String.ltb a b.

Fixpoint str_key (s : string) : list N :=
  match s with
  | EmptyString => []
  | String c s => Ascii.N_of_ascii c :: str_key s
  end.

Lemma str_ltb_cons c s d t :
  str_ltb (String c s) (String d t) =
  match N.compare (Ascii.N_of_ascii c) (Ascii.N_of_ascii d) with
  | Lt => true | Gt => false | Eq => str_ltb s t
  end.
Proof.
  unfold str_ltb, String.ltb. cbn [String.compare]. unfold Ascii.compare.
  by destruct (N.compare _ _).
Qed.

Lemma str_ltb_irrefl s : str_ltb s s = false.
Proof. induction s as [|c s IH]; [done|]. rewrite str_ltb_cons, N.compare_refl. done. Qed.

Lemma N_of_ascii_inj c d : Ascii.N_of_ascii c = Ascii.N_of_ascii d -> c = d.
Proof.
  intros H. rewrite <- (Ascii.ascii_N_embedding c), <- (Ascii.ascii_N_embedding d). by rewrite H.
Qed.

Lemma str_ltb_trans a b c :
  str_ltb a b = true -> str_ltb b c = true -> str_ltb a c = true.
Proof.
  revert b c; induction a as [|x a IH]; intros [|y b] [|z c]; try done.
  rewrite !str_ltb_cons.
  destruct (N.compare_spec (Ascii.N_of_ascii x) (Ascii.N_of_ascii y));
    destruct (N.compare_spec (Ascii.N_of_ascii y) (Ascii.N_of_ascii z));
    destruct (N.compare_spec (Ascii.N_of_ascii x) (Ascii.N_of_ascii z)); try done; try lia.
  apply IH.
Qed.

Lemma str_ltb_total a b : str_ltb a b = false -> str_ltb b a = false -> a = b.
Proof.
  revert b; induction a as [|x a IH]; intros [|y b]; try done.
  rewrite !str_ltb_cons, (N.compare_antisym (Ascii.N_of_ascii x)).
  destruct (N.compare_spec (Ascii.N_of_ascii x) (Ascii.N_of_ascii y)) as [E|E|E]; simpl; try done.
  apply N_of_ascii_inj in E as ->. intros ??. f_equal. by apply IH.
Qed.
#[export] Hint Resolve str_ltb_irrefl : swarm.

(** ** Sorting and extrema

    [sorted(l, key=...)], [min] and [max] are stated over the comparison
    [lt] that the keys induce.  [sorted] is stable, [min] and [max] return the
    first extremal element. *)
Class WeakOrder {A} (lt : A -> A -> bool) : Prop := {
  wo_irrefl : forall x, lt x x = false;
  wo_trans : forall x y z, lt x y = true -> lt y z = true -> lt x z = true;
  wo_neg_trans : forall x y z, lt x y = false -> lt y z = false -> lt x z = false;
}.

#[export] Instance str_ltb_order : WeakOrder str_ltb.
Proof.
  split; [apply str_ltb_irrefl|apply str_ltb_trans|].
  intros x y z Hxy Hyz. destruct (str_ltb x z) eqn:Hxz; [|done].
  destruct (str_ltb y x) eqn:Hyx.
  - by rewrite (str_ltb_trans _ _ _ Hyx Hxz) in Hyz.
  - rewrite (str_ltb_total _ _ Hxy Hyx) in Hxz. congruence.
Qed.

(** Sorting by a key pulls the order back along the key. *)
#[export] Instance key_order {A B} (key : A -> B) lt `{!WeakOrder lt} :
  WeakOrder (fun x y => lt (key x) (key y)).
Proof.
  split; intros *; [apply wo_irrefl|apply wo_trans|apply wo_neg_trans].
Qed.

#[export] Instance Z_ltb_order : WeakOrder Z.ltb.
Proof. split; intros *; rewrite ?Z.ltb_lt, ?Z.ltb_ge; lia. Qed.

Section sorting.
Context {A : Type} (lt : A -> A -> bool).

Fixpoint py_insert (x : A) (l : list A) : list A :=
  match l with
  | [] => [x]
  | y :: l' => if lt y x then y :: py_insert x l' else x :: l
  end.

Definition py_sorted (l : list A) : list A := foldr py_insert [] l.

Fixpoint py_min_from (m : A) (l : list A) : A :=
  match l with
  | [] => m
  | x :: l' => py_min_from (if lt x m then x else m) l'
  end.

Fixpoint py_max_from (m : A) (l : list A) : A :=
  match l with
  | [] => m
  | x :: l' => py_max_from (if lt m x then x else m) l'
  end.

Definition py_min (l : list A) : option A :=
  match l with [] => None | x :: l' => Some (py_min_from x l') end.

Definition py_max (l : list A) : option A :=
  match l with [] => None | x :: l' => Some (py_max_from x l') end.

(** No element precedes an element that is strictly below it. *)
Definition py_ordered : list A -> Prop := StronglySorted (fun x y => lt y x = false).

Lemma py_insert_perm x l : py_insert x l ≡ₚ x :: l.
Proof.
  induction l as [|y l IH]; simpl; [done|]. case_match; [|done].
  rewrite IH. apply Permutation_swap.
Qed.

Lemma py_sorted_perm l : py_sorted l ≡ₚ l.
Proof. induction l as [|x l IH]; simpl; [done|]. by rewrite py_insert_perm, IH. Qed.

Lemma elem_of_py_sorted x l : x ∈ py_sorted l <-> x ∈ l.
Proof. by rewrite py_sorted_perm. Qed.

Lemma py_insert_le x l : Forall (fun y => lt y x = false) l -> py_insert x l = x :: l.
Proof. destruct 1 as [|y l' Hy _]; simpl; [done|]. by rewrite Hy. Qed.

(** A list that is ordered already is left as it is. *)
Lemma py_sorted_ordered l : py_ordered l -> py_sorted l = l.
Proof.
  induction 1 as [|x l _ IH Hx]; simpl; [done|]. rewrite IH. by apply py_insert_le.
Qed.

Context `{!WeakOrder lt}.

Lemma py_insert_ordered x l : py_ordered l -> py_ordered (py_insert x l).
Proof.
  induction 1 as [|y l Hl IH Hy]; simpl; [by repeat constructor|].
  destruct (lt y x) eqn:Hyx.
  - constructor; [done|]. rewrite py_insert_perm. constructor; [|done].
    destruct (lt x y) eqn:Hxy; [|done].
    rewrite <- (wo_irrefl y). symmetry. by eapply wo_trans.
  - constructor; [by constructor|]. constructor; [done|].
    eapply Forall_impl; [exact Hy|]. simpl. intros z Hz. by eapply wo_neg_trans.
Qed.

Lemma py_sorted_is_ordered l : py_ordered (py_sorted l).
Proof. induction l; simpl; [constructor|]. by apply py_insert_ordered. Qed.
End sorting.

Section extrema.
Context {A : Type} (lt : A -> A -> bool).

Lemma py_min_from_elem m l : py_min_from lt m l ∈ m :: l.
Proof.
  revert m; induction l as [|x l IH]; intros m; simpl; [by constructor|].
  specialize (IH (if lt x m then x else m)). destruct (lt x m); set_solver.
Qed.

Lemma py_max_from_elem m l : py_max_from lt m l ∈ m :: l.
Proof.
  revert m; induction l as [|x l IH]; intros m; simpl; [by constructor|].
  specialize (IH (if lt m x then x else m)). destruct (lt m x); set_solver.
Qed.

Lemma py_min_elem l m : py_min lt l = Some m -> m ∈ l.
Proof. destruct l; simpl; [done|]. intros [= <-]. apply py_min_from_elem. Qed.

Lemma py_max_elem l m : py_max lt l = Some m -> m ∈ l.
Proof. destruct l; simpl; [done|]. intros [= <-]. apply py_max_from_elem. Qed.

Lemma py_min_None l : py_min lt l = None <-> l = [].
Proof. by destruct l. Qed.

Lemma py_max_None l : py_max lt l = None <-> l = [].
Proof. by destruct l. Qed.

(** The extrema need the order laws on the elements compared only: a float
    key is ordered as long as it is not a NaN. *)
Context (P : A -> Prop)
  (Hirr : forall x, P x -> lt x x = false)
  (Hneg : forall x y z, P x -> P y -> P z -> lt x y = false -> lt y z = false -> lt x z = false)
  (Hasym : forall x y, P x -> P y -> lt x y = true -> lt y x = false).

Lemma py_max_from_ge m l :
  P m -> Forall P l ->
  P (py_max_from lt m l) /\ forall x, x ∈ m :: l -> lt (py_max_from lt m l) x = false.
Proof.
  intros Hm Hl. revert m Hm; induction Hl as [|x l Hx Hl IH]; intros m Hm; simpl.
  { split; [done|]. intros y ->%list_elem_of_singleton. by apply Hirr. }
  assert (Hn : P (if lt m x then x else m)) by by destruct (lt m x).
  destruct (IH _ Hn) as [HP Hge]. split; [done|].
  intros y Hy. assert (y = m \/ y = x \/ y ∈ l) as [->|[->|Hin]] by set_solver.
  - destruct (lt m x) eqn:E; [|apply Hge; set_solver].
    apply (Hneg _ x); [done..|apply Hge; set_solver|by apply Hasym].
  - destruct (lt m x) eqn:E; [apply Hge; set_solver|].
    apply (Hneg _ m); [done..|apply Hge; set_solver|done].
  - apply Hge. set_solver.
Qed.

Lemma py_max_ge l m x :
  Forall P l -> py_max lt l = Some m -> x ∈ l -> lt m x = false.
Proof.
  destruct l as [|y l]; simpl; [done|]. intros [? ?]%Forall_cons [= <-] Hx.
  by apply (py_max_from_ge y l).
Qed.

Lemma py_min_from_le m l :
  P m -> Forall P l ->
  P (py_min_from lt m l) /\ forall x, x ∈ m :: l -> lt x (py_min_from lt m l) = false.
Proof.
  intros Hm Hl. revert m Hm; induction Hl as [|x l Hx Hl IH]; intros m Hm; simpl.
  { split; [done|]. intros y ->%list_elem_of_singleton. by apply Hirr. }
  assert (Hn : P (if lt x m then x else m)) by by destruct (lt x m).
  destruct (IH _ Hn) as [HP Hge]. split; [done|].
  intros y Hy. assert (y = m \/ y = x \/ y ∈ l) as [->|[->|Hin]] by set_solver.
  - destruct (lt x m) eqn:E; [|apply Hge; set_solver].
    apply (Hneg _ x); [done..|by apply Hasym|apply Hge; set_solver].
  - destruct (lt x m) eqn:E; [apply Hge; set_solver|].
    apply (Hneg _ m); [done..|apply Hge; set_solver].
  - apply Hge. set_solver.
Qed.

Lemma py_min_le l m x :
  Forall P l -> py_min lt l = Some m -> x ∈ l -> lt x m = false.
Proof.
  destruct l as [|y l]; simpl; [done|]. intros [? ?]%Forall_cons [= <-] Hx.
  by apply (py_min_from_le y l).
Qed.
End extrema.

(** ** Dictionaries

    A Python [dict] keyed by identifiers keeps its insertion order, which the
    code observes when it iterates over [.values()]: it is an association list
    in which assignment replaces in place or appends. *)
Notation dict V := (list (string * V)) (only parsing).

Section dict.
Context {V : Type}.
Implicit Types (d : dict V) (k : string) (v : V).

Fixpoint dict_get (k : string) (d : dict V) : option V :=
  match d with
  | [] => None
  | (k', v) :: d' => if String.eqb k k' then Some v else dict_get k d'
  end.

Fixpoint dict_set (k : string) (v : V) (d : dict V) : dict V :=
  match d with
  | [] => [(k, v)]
  | (k', v') :: d' => if String.eqb k k' then (k', v) :: d' else (k', v') :: dict_set k v d'
  end.

(** [d.pop(k, None)] and [del d[k]] (guarded by a lookup in the code). *)
Definition dict_del (k : string) (d : dict V) : dict V :=
  filter (fun kv => kv.1 <> k) d.

Definition dict_keys (d : dict V) : list string := d.*1.
Definition dict_values (d : dict V) : list V := d.*2.
Definition dict_mem (k : string) (d : dict V) : bool := is_some (dict_get k d).

(** [{key(item): item for item in items}] *)
Definition dict_of {A} (key : A -> string) (val : A -> V) (items : list A) : dict V :=
  foldl (fun d item => dict_set (key item) (val item) d) [] items.

(** The invariant of every dictionary: a key occurs once. *)
Definition dict_wf (d : dict V) : Prop := NoDup (dict_keys d).

Lemma dict_get_set_eq k v d : dict_get k (dict_set k v d) = Some v.
Proof.
  induction d as [|[k' v'] d IH]; simpl; [by rewrite String.eqb_refl|].
  destruct (String.eqb k k') eqn:E; simpl; by rewrite E.
Qed.

Lemma dict_get_set_ne k k' v d : k <> k' -> dict_get k (dict_set k' v d) = dict_get k d.
Proof.
  intros Hne. induction d as [|[k2 v2] d IH]; simpl.
  { by apply String.eqb_neq in Hne as ->. }
  destruct (String.eqb k' k2) eqn:E; simpl.
  - apply String.eqb_eq in E as <-. by apply String.eqb_neq in Hne as ->.
  - by destruct (String.eqb k k2).
Qed.

Lemma dict_get_set k k' v d :
  dict_get k (dict_set k' v d) = if decide (k = k') then Some v else dict_get k d.
Proof.
  case_decide as E; [subst; apply dict_get_set_eq|by apply dict_get_set_ne].
Qed.

Lemma dict_get_elem k v d : dict_get k d = Some v -> (k, v) ∈ d.
Proof.
  induction d as [|[k' v'] d IH]; simpl; [done|].
  destruct (String.eqb k k') eqn:E; [|intros; right; auto].
  apply String.eqb_eq in E as <-. intros [= ->]. left.
Qed.

Lemma dict_elem_get k v d : dict_wf d -> (k, v) ∈ d -> dict_get k d = Some v.
Proof.
  unfold dict_wf. induction d as [|[k' v'] d IH]; simpl; [set_solver|].
  rewrite NoDup_cons. intros [Hk Hd] [[= -> ->]|Hin]%elem_of_cons.
  - by rewrite String.eqb_refl.
  - destruct (String.eqb k k') eqn:E; [|by apply IH].
    apply String.eqb_eq in E as <-. destruct Hk. apply list_elem_of_fmap. by exists (k, v).
Qed.

Lemma dict_get_None k d : dict_get k d = None <-> k ∉ dict_keys d.
Proof.
  induction d as [|[k' v'] d IH]; simpl; [set_solver|].
  rewrite not_elem_of_cons. destruct (String.eqb k k') eqn:E.
  - apply String.eqb_eq in E as ->. naive_solver.
  - apply String.eqb_neq in E. rewrite IH. naive_solver.
Qed.

Lemma dict_keys_set k v d :
  dict_keys (dict_set k v d) = match dict_get k d with
                               | Some _ => dict_keys d
                               | None => dict_keys d ++ [k]
                               end.
Proof.
  induction d as [|[k' v'] d IH]; simpl; [done|].
  destruct (String.eqb k k') eqn:E; simpl; [done|].
  rewrite IH. by destruct (dict_get k d).
Qed.

Lemma elem_of_dict_keys_set r k v d : r ∈ dict_keys (dict_set k v d) <-> r = k \/ r ∈ dict_keys d.
Proof.
  rewrite dict_keys_set. destruct (dict_get k d) as [x|] eqn:E; [|set_solver].
  assert (k ∈ dict_keys d); [|set_solver].
  apply dec_stable. intros Hn. apply dict_get_None in Hn. congruence.
Qed.

Lemma dict_set_wf k v d : dict_wf d -> dict_wf (dict_set k v d).
Proof.
  unfold dict_wf. rewrite dict_keys_set. destruct (dict_get k d) eqn:E; [done|].
  apply dict_get_None in E. intros Hd. apply NoDup_app. split_and!; [done|set_solver|apply NoDup_singleton].
Qed.

Lemma dict_del_get k k' d :
  dict_get k (dict_del k' d) = if decide (k = k') then None else dict_get k d.
Proof.
  unfold dict_del. induction d as [|[k2 v2] d IH]; [by case_decide|].
  rewrite filter_cons. cbn [fst dict_get]. destruct (decide (k2 <> k')) as [Hk2|Hk2].
  - simpl. destruct (String.eqb k k2) eqn:E; [|exact IH]. apply String.eqb_eq in E as ->.
    by rewrite decide_False.
  - rewrite IH. apply dec_stable in Hk2 as ->. case_decide as E; [done|].
    by apply String.eqb_neq in E as ->.
Qed.

Lemma dict_del_wf k d : dict_wf d -> dict_wf (dict_del k d).
Proof.
  unfold dict_wf, dict_del, dict_keys. intros Hd.
  eapply sublist_NoDup; [exact Hd|]. apply fmap_sublist, sublist_filter.
Qed.

Lemma dict_values_get v d : v ∈ dict_values d -> exists k, (k, v) ∈ d.
Proof. intros ([k v'] & -> & Hin)%list_elem_of_fmap. by exists k. Qed.

Lemma dict_get_values k v d : dict_get k d = Some v -> v ∈ dict_values d.
Proof. intros Hk%dict_get_elem. apply list_elem_of_fmap. by exists (k, v). Qed.

(** The values after an assignment: the old ones, except the replaced one,
    and the new one. *)
Lemma dict_set_elem k v d k' v' :
  dict_wf d -> (k', v') ∈ dict_set k v d <->
  (k' = k /\ v' = v) \/ (k' <> k /\ (k', v') ∈ d).
Proof.
  intros Hd. split.
  - intros Hin%dict_elem_get; [|by apply dict_set_wf]. revert Hin.
    rewrite dict_get_set. case_decide; [naive_solver|].
    intros ?%dict_get_elem. by right.
  - intros [[-> ->]|[Hne Hin]]; apply dict_get_elem.
    + apply dict_get_set_eq.
    + rewrite dict_get_set_ne; [|done]. by apply dict_elem_get.
Qed.

Lemma dict_of_wf {A} (key : A -> string) (val : A -> V) items : dict_wf (dict_of key val items).
Proof.
  unfold dict_of. assert (H : dict_wf ([] : dict V)) by constructor. revert H.
  generalize ([] : dict V). induction items as [|x items IH]; intros d Hd; simpl; [done|].
  apply IH. by apply dict_set_wf.
Qed.
End dict.

#[export] Hint Resolve dict_set_wf dict_del_wf dict_of_wf : swarm.
#[export] Hint Rewrite @dict_get_set_eq : swarm.

Lemma existsb_false {A} (p : A -> bool) l x : existsb p l = false -> x ∈ l -> p x = false.
Proof.
  intros H Hx. apply not_true_iff_false. intros Hp. apply not_true_iff_false in H. apply H.
  apply existsb_exists. exists x. split; [by apply list_elem_of_In|done].
Qed.

(** [sum(predicate(item) for item in l)] *)
Definition count_if {A} (p : A -> bool) (l : list A) : Z :=
  Z.of_nat (length (filter (fun x => p x = true) l)).

Lemma count_if_nonneg {A} (p : A -> bool) l : 0 <= count_if p l.
Proof. unfold count_if. lia. Qed.

Definition b2z (b : bool) : Z := if b then 1 else 0.

Lemma count_if_cons {A} (p : A -> bool) x l : count_if p (x :: l) = b2z (p x) + count_if p l.
Proof.
  unfold count_if. rewrite filter_cons. case_decide as E; unfold b2z.
  - rewrite E. simpl. lia.
  - apply not_true_iff_false in E. rewrite E. lia.
Qed.

Lemma count_if_app {A} (p : A -> bool) l k : count_if p (l ++ k) = count_if p l + count_if p k.
Proof. unfold count_if. rewrite filter_app, length_app. lia. Qed.

(** The dictionary built from a list has the keys of its items, and values made
    from them. *)
Lemma dict_of_get {A V} (key : A -> string) (val : A -> V) items x :
  x ∈ items -> is_Some (dict_get (key x) (dict_of key val items)).
Proof.
  unfold dict_of. enough (Hd : forall d, x ∈ items \/ is_Some (dict_get (key x) d) ->
    is_Some (dict_get (key x) (foldl (fun d item => dict_set (key item) (val item) d) d items))).
  { intros Hx. apply Hd. by left. }
  induction items as [|y items IH]; simpl; intros d [Hx|Hx]; try done; [by apply elem_of_nil in Hx|..].
  - apply IH. apply elem_of_cons in Hx as [->|Hx]; [|by left]. right. by rewrite dict_get_set_eq.
  - apply IH. right. rewrite dict_get_set. by case_decide.
Qed.

Lemma dict_of_values {A V} (key : A -> string) (val : A -> V) items k v :
  dict_get k (dict_of key val items) = Some v -> exists x, x ∈ items /\ key x = k /\ val x = v.
Proof.
  unfold dict_of. enough (H : forall d, dict_get k
      (foldl (fun d item => dict_set (key item) (val item) d) d items) = Some v ->
      dict_get k d = Some v \/ exists x, x ∈ items /\ key x = k /\ val x = v).
  { intros Hk. by destruct (H [] Hk). }
  induction items as [|y items IH]; simpl; intros d Hk; [by left|].
  destruct (IH _ Hk) as [Hd|(x & ? & ? & ?)]; [|right; exists x; set_solver].
  rewrite dict_get_set in Hd. case_decide; [|by left]. simplify_eq. right. exists y. set_solver.
Qed.

(** Lists that correspond element by element *)
Lemma Forall2_elem_l {A B} (R : A -> B -> Prop) l k x :
  Forall2 R l k -> x ∈ l -> exists y, y ∈ k /\ R x y.
Proof.
  induction 1 as [|x' y l k Hxy _ IH]; intros Hx; [by apply elem_of_nil in Hx|].
  apply elem_of_cons in Hx as [->|Hx]; [exists y; split; [left|done]|].
  destruct (IH Hx) as (z & ? & ?). exists z. split; [by right|done].
Qed.

Lemma Forall2_elem_r {A B} (R : A -> B -> Prop) l k y :
  Forall2 R l k -> y ∈ k -> exists x, x ∈ l /\ R x y.
Proof. intros H. apply Forall2_flip in H. by apply (Forall2_elem_l (flip R)). Qed.

Lemma filter_empty {A} (P : A -> Prop) `{!forall x, Decision (P x)} l :
  filter P l = [] <-> forall x, x ∈ l -> ~ P x.
Proof.
  split; [intros E x Hx HP; by eapply filter_nil_not_elem_of|].
  intros HP. destruct (filter P l) as [|x l'] eqn:E; [done|]. exfalso.
  assert (Hx : x ∈ filter P l) by (rewrite E; left). apply list_elem_of_filter in Hx as [? Hx].
  by eapply HP.
Qed.

(** Counting each member of a list finds a repetition unless there is none. *)
Lemma count_once (l : list string) x :
  x ∈ l -> NoDup l -> count_if (String.eqb x) l = 1.
Proof.
  intros Hx Hl. induction Hl as [|y l Hy Hl IH]; [by apply elem_of_nil in Hx|].
  rewrite count_if_cons. destruct (String.eqb_spec x y) as [->|Hne]; unfold b2z.
  - enough (count_if (String.eqb y) l = 0) by lia. unfold count_if.
    enough (filter (fun z => String.eqb y z = true) l = []) as -> by done.
    apply filter_empty. by intros z Hz ->%String.eqb_eq.
  - rewrite IH; [done|]. by apply elem_of_cons in Hx as [->|?].
Qed.

Lemma count_no_repetition (l : list string) :
  (forall x, x ∈ l -> count_if (String.eqb x) l <= 1) <-> NoDup l.
Proof.
  split; [|intros Hl x Hx; by rewrite count_once].
  induction l as [|y l IH]; intros Hc; [constructor|]. constructor.
  - intros Hy. specialize (Hc y). rewrite count_if_cons, String.eqb_refl in Hc.
    assert (H : 0 < count_if (String.eqb y) l); [|unfold b2z in Hc; specialize (Hc (list_elem_of_here _ _)); lia].
    unfold count_if. assert (Hin : y ∈ filter (fun z => String.eqb y z = true) l).
    { apply list_elem_of_filter. by rewrite String.eqb_refl. }
    destruct (filter _ _); [by apply elem_of_nil in Hin|]. simpl. lia.
  - apply IH. intros x Hx. specialize (Hc x (list_elem_of_further _ _ _ Hx)).
    rewrite count_if_cons in Hc. unfold b2z in Hc. case_match; lia.
Qed.

(** [for a in l: if p(a): return a] *)
Fixpoint find_first {A} (p : A -> bool) (l : list A) : option A :=
  match l with
  | [] => None
  | a :: l' => if p a then Some a else find_first p l'
  end.

Lemma find_first_Some {A} (p : A -> bool) l a : find_first p l = Some a -> a ∈ l /\ p a = true.
Proof.
  induction l as [|b l IH]; simpl; [done|]. destruct (p b) eqn:E; [|set_solver].
  intros [= ->]. split; [left|done].
Qed.

Lemma find_first_None {A} (p : A -> bool) l : find_first p l = None <-> Forall (fun a => p a = false) l.
Proof.
  induction l as [|b l IH]; simpl; [by split|]. rewrite Forall_cons.
  destruct (p b); naive_solver.
Qed.


Lemma StronglySorted_snoc {A} (R : A -> A -> Prop) l x :
  StronglySorted R l -> Forall (fun y => R y x) l -> StronglySorted R (l ++ [x]).
Proof.
  induction 1 as [|y l Hl IH Hy]; simpl; intros HF; [by repeat constructor|].
  apply Forall_cons in HF as [Hyx HF]. constructor; [by apply IH|].
  apply Forall_app. split; [done|]. by repeat constructor.
Qed.

Lemma forallb_weaken {A} (p q : A -> bool) l :
  (forall a, p a = true -> q a = true) -> forallb p l = true -> forallb q l = true.
Proof. intros H. rewrite !List.forallb_forall. auto. Qed.

(** A list by its ends *)
Lemma list_last_case {A} (l : list A) : l = [] \/ exists init x, l = init ++ [x].
Proof. induction l using rev_ind; [by left|right; by eauto]. Qed.

Lemma first_and_last {A} (l : list A) a b :
  head l = Some a -> last l = Some b -> (2 <= length l)%nat -> exists middle, l = a :: middle ++ [b].
Proof.
  destruct l as [|x l]; [done|]. intros [= ->] Hb Hl.
  destruct (list_last_case l) as [->|(middle & y & ->)]; [simpl in Hl; lia|].
  rewrite app_comm_cons, last_snoc in Hb. injection Hb as ->. by exists middle.
Qed.

(** A key that is new goes to the end of a dictionary. *)
Lemma dict_set_fresh {V} k (v : V) d : dict_mem k d = false -> dict_set k v d = d ++ [(k, v)].
Proof.
  unfold dict_mem. induction d as [|[k' v'] d IH]; simpl; [done|]. case_match; [done|]. intros H'. by rewrite IH.
Qed.
