(* ===== verification/Float64.v ===== *)
(** * Python floats

    A Python [float] is an IEEE 754 binary64 number.  It is modelled by the
    Standard Library's executable specification of that format, [spec_float],
    with its rounding (to nearest, ties to even), its infinities, its signed
    zeros and its NaN, so that a comparison or a sum computes here the value it
    computes in the program.

    The file gives Python's operators on floats (a division by zero and an
    overflowing power raise), [min], [max], [math.isclose] and [math.sqrt], the
    functions of the platform's C library as an interface, and the order
    theory: away from NaN the comparison is a total preorder. *)

From S2P Require Import Prelude.
From Stdlib Require Export SpecFloat.

Notation float := spec_float (only parsing).

#[export] Instance float_eq_dec : EqDecision spec_float.
Proof. solve_decision. Defined.

(** ** Literals and arithmetic *)

Definition fprec : Z := 53.
Definition femax : Z := 1024.

Definition fadd (x y : float) : float := SFadd fprec femax x y.
Definition fsub (x y : float) : float := SFsub fprec femax x y.
Definition fmul (x y : float) : float := SFmul fprec femax x y.
Definition fdiv_ieee (x y : float) : float := SFdiv fprec femax x y.
Definition fsqrt_ieee (x : float) : float := SFsqrt fprec femax x.
Definition fabs (x : float) : float := SFabs x.
Definition fneg (x : float) : float := SFopp x.

(** [float(z)] for an integer the code converts implicitly. *)
Definition float_of_Z (z : Z) : float := binary_normalize fprec femax z 0 false.

(** A decimal literal [num/den] is the nearest float: numerator and denominator
    are exact, and the division rounds once. *)
Definition flit (num : Z) (den : Z) : float := fdiv_ieee (float_of_Z num) (float_of_Z den).

Definition f0 : float := S754_zero false.
Definition f1 : float := float_of_Z 1.
Definition f100 : float := float_of_Z 100.
Definition fnan : float := S754_nan.

Definition is_nan (x : float) : bool := match x with S754_nan => true | _ => false end.
Definition is_inf (x : float) : bool := match x with S754_infinity _ => true | _ => false end.

(** [math.isfinite] *)
Definition is_finite (x : float) : bool := negb (is_nan x) && negb (is_inf x).

(** ** Comparisons: every comparison with NaN is false *)
Definition feqb (x y : float) : bool := SFeqb x y.
Definition fltb (x y : float) : bool := SFltb x y.
Definition fleb (x y : float) : bool := SFleb x y.

(** [min(x, y)] and [max(x, y)] keep the first argument unless the second one
    is strictly better. *)
Definition py_fmin (x y : float) : float := if fltb y x then y else x.
Definition py_fmax (x y : float) : float := if fltb x y then y else x.

(** [math.isclose(a, b, abs_tol=tol)] with the default relative tolerance. *)
Definition isclose (a b abs_tol : float) : bool :=
  if feqb a b then true
  else if is_inf a || is_inf b then false
  else
    let diff := fabs (fsub b a) in
    let rel_tol := flit 1 1000000000 in
    fleb diff (fabs (fmul rel_tol b)) || fleb diff (fabs (fmul rel_tol a)) || fleb diff abs_tol.

(** [round(x, digits)]: the decimal with that many digits nearest to the exact
    value of [x], ties to even, read back as a float.  [m * 2^e] is scaled to an
    exact fraction first, so only the two roundings of the definition happen. *)
Definition div_half_even (a b : Z) : Z :=
  let q := a / b in
  let r := 2 * (a mod b) in
  if r <? b then q else if b <? r then q + 1 else if Z.even q then q else q + 1.

Definition py_round (x : float) (digits : Z) : float :=
  match x with
  | S754_finite s m e =>
      let scaled := Z.pos m * 10 ^ digits in
      let q := if 0 <=? e then scaled * 2 ^ e else div_half_even scaled (2 ^ (- e)) in
      match q with
      | Z.pos p => SFdiv fprec femax (S754_finite s p 0) (S754_finite false (Z.to_pos (10 ^ digits)) 0)
      | _ => S754_zero s
      end
  | _ => x
  end.

Example py_round_ok :
  py_round (flit 123456789 100000000) 6 = flit 1234568 1000000 /\ py_round (flit 1 3) 2 = flit 33 100.
Proof. split; reflexivity. Qed.

(** [sum(l)] over floats.  Since CPython 3.12 a sum of floats carries the
    rounding errors along (Neumaier's compensation) and adds them at the end. *)
Definition sum_step (acc : float * float) (x : float) : float * float :=
  let '(f, c) := acc in
  let t := fadd f x in
  let err := if fleb (fabs x) (fabs f) then fadd (fsub f t) x else fadd (fsub x t) f in
  (t, fadd c err).

Definition py_sum (l : list float) : float :=
  match l with
  | [] => f0
  | x :: l' =>
      let '(f, c) := foldl sum_step (fadd f0 x, f0) l' in
      if negb (feqb c f0) && is_finite c then fadd f c else f
  end.

(** [f"{x:.3f}"]: the sign, the integral part and three decimals of the value
    rounded half to even. *)
Definition pad3 (n : Z) : string :=
  (if n <? 10 then "00" else if n <? 100 then "0" else "") +:+ pretty n.

Definition format_3f (x : float) : string :=
  match x with
  | S754_nan => "nan"
  | S754_infinity s => if s then "-inf" else "inf"
  | S754_zero s => if s then "-0.000" else "0.000"
  | S754_finite s m e =>
      let scaled := Z.pos m * 1000 in
      let q := if 0 <=? e then scaled * 2 ^ e else div_half_even scaled (2 ^ (- e)) in
      (if s then "-" else "") +:+ pretty (q / 1000) +:+ "." +:+ pad3 (q mod 1000)
  end.

(** Tuples with a float component: Python compares the first components that
    are not equal. *)
Definition lex_ltb {B} (ltb2 : B -> B -> bool) (p q : float * B) : bool :=
  if feqb p.1 q.1 then ltb2 p.2 q.2 else fltb p.1 q.1.

(** ** The platform's C library

    The source calls [pow], [hypot], [sin] and [cos] of the platform, whose
    last bit IEEE 754 does not fix.  They are an interface, and no theorem
    depends on how they round. *)
Class Libm := {
  c_pow : float -> float -> float;
  c_hypot : float -> float -> float;
  c_sin : float -> float;
  c_cos : float -> float;
}.

(** A concrete library for the examples: powers by repeated multiplication,
    [hypot] by its definition, and [sin], [cos] at the angle zero. *)
Definition pow_by_mul (x y : float) : float :=
  if feqb y (float_of_Z 2) then fmul x x
  else if feqb y (float_of_Z 3) then fmul (fmul x x) x
  else if feqb y (float_of_Z 4) then fmul (fmul x x) (fmul x x)
  else if feqb y (float_of_Z 5) then fmul (fmul (fmul x x) (fmul x x)) x
  else fnan.

Definition example_libm : Libm := {|
  c_pow := pow_by_mul;
  c_hypot x y := fsqrt_ieee (fadd (fmul x x) (fmul y y));
  c_sin _ := f0;
  c_cos _ := f1;
|}.

(** ** Order theory *)

(** The position of a float in the order, as a lexicographic key; NaN has
    none. *)
Definition fkey (x : float) : Z * Z * Z :=
  match x with
  | S754_zero _ => (0, 0, 0)
  | S754_infinity s => (if s then -2 else 2, 0, 0)
  | S754_nan => (0, 0, 0)
  | S754_finite s m e => if s then (-1, - e, Z.neg m) else (1, e, Z.pos m)
  end.

Definition key_lt (k l : Z * Z * Z) : Prop :=
  let '(a, b, c) := k in
  let '(a', b', c') := l in
  a < a' \/ (a = a' /\ (b < b' \/ (b = b' /\ c < c'))).

Lemma SFcompare_key x y :
  is_nan x = false -> is_nan y = false ->
  match SFcompare x y with
  | Some Lt => key_lt (fkey x) (fkey y)
  | Some Eq => fkey x = fkey y
  | Some Gt => key_lt (fkey y) (fkey x)
  | None => False
  end.
Proof.
  destruct x as [sx|sx| |sx mx ex], y as [sy|sy| |sy my ey]; try done; intros _ _;
    try destruct sx; try destruct sy; simpl; try lia; try done;
    (destruct (Z.compare_spec ex ey) as [->|H|H]; simpl; [|lia..]);
    fold (Pos.compare mx my); destruct (Pos.compare_spec mx my) as [->|H|H]; simpl; try done; lia.
Qed.

Lemma fltb_spec x y :
  fltb x y = true <-> is_nan x = false /\ is_nan y = false /\ key_lt (fkey x) (fkey y).
Proof.
  unfold fltb, SFltb.
  destruct (is_nan x) eqn:Hx; [by destruct x; simpl; naive_solver|].
  destruct (is_nan y) eqn:Hy; [by destruct x, y; simpl; naive_solver|].
  pose proof (SFcompare_key x y Hx Hy) as H.
  destruct (fkey x) as [[a b] c] eqn:Ex, (fkey y) as [[a' b'] c'] eqn:Ey.
  destruct (SFcompare x y) as [[]|]; simpl in *; try done; simplify_eq; intuition lia.
Qed.

Lemma fleb_spec x y :
  fleb x y = true <-> is_nan x = false /\ is_nan y = false /\ ~ key_lt (fkey y) (fkey x).
Proof.
  unfold fleb, SFleb.
  destruct (is_nan x) eqn:Hx; [by destruct x; simpl; naive_solver|].
  destruct (is_nan y) eqn:Hy; [by destruct x, y; simpl; naive_solver|].
  pose proof (SFcompare_key x y Hx Hy) as H.
  destruct (fkey x) as [[a b] c] eqn:Ex, (fkey y) as [[a' b'] c'] eqn:Ey.
  destruct (SFcompare x y) as [[]|]; simpl in *; try done; simplify_eq; intuition lia.
Qed.

(** Decide a goal about float comparisons by their keys. *)
Ltac fsolve :=
  repeat match goal with
  | H : fltb _ _ = false |- _ => rewrite <- not_true_iff_false in H
  | H : fleb _ _ = false |- _ => rewrite <- not_true_iff_false in H
  | |- fltb _ _ = false => rewrite <- not_true_iff_false
  | |- fleb _ _ = false => rewrite <- not_true_iff_false
  end;
  rewrite ?fltb_spec, ?fleb_spec in *;
  repeat match goal with
  | |- context [fkey ?x] => destruct (fkey x) as [[??] ?]
  | H : context [fkey ?x] |- _ => destruct (fkey x) as [[??] ?]
  end; unfold key_lt in *; intuition (try congruence; try lia).

Lemma fltb_irrefl x : fltb x x = false.
Proof. fsolve. Qed.

Lemma fleb_refl x : is_nan x = false -> fleb x x = true.
Proof. intros. fsolve. Qed.

Lemma fltb_trans x y z : fltb x y = true -> fltb y z = true -> fltb x z = true.
Proof. intros. fsolve. Qed.

Lemma fleb_trans x y z : fleb x y = true -> fleb y z = true -> fleb x z = true.
Proof. intros. fsolve. Qed.

Lemma fltb_fleb_trans x y z : fltb x y = true -> fleb y z = true -> fltb x z = true.
Proof. intros. fsolve. Qed.

Lemma fleb_fltb_trans x y z : fleb x y = true -> fltb y z = true -> fltb x z = true.
Proof. intros. fsolve. Qed.

Lemma fltb_fleb x y : fltb x y = true -> fleb x y = true.
Proof. intros. fsolve. Qed.

Lemma fltb_asym x y : fltb x y = true -> fltb y x = false.
Proof. intros. fsolve. Qed.

(** Away from NaN, [not x < y] is [y <= x]. *)
Lemma fltb_false x y :
  is_nan x = false -> is_nan y = false -> fltb x y = false <-> fleb y x = true.
Proof. intros. split; intros; fsolve. Qed.

Lemma fleb_false x y :
  is_nan x = false -> is_nan y = false -> fleb x y = false <-> fltb y x = true.
Proof. intros. split; intros; fsolve. Qed.

Lemma fleb_not_nan x y : fleb x y = true -> is_nan x = false /\ is_nan y = false.
Proof. intros. fsolve. Qed.

Lemma fltb_not_nan x y : fltb x y = true -> is_nan x = false /\ is_nan y = false.
Proof. intros. fsolve. Qed.

Lemma fleb_nan_l x : fleb fnan x = false.
Proof. reflexivity. Qed.

Lemma fltb_nan_l x : fltb fnan x = false.
Proof. reflexivity. Qed.

Lemma fltb_neg_trans x y z :
  is_nan x = false -> is_nan y = false -> is_nan z = false ->
  fltb x y = false -> fltb y z = false -> fltb x z = false.
Proof. intros. fsolve. Qed.

Lemma feqb_spec x y :
  feqb x y = true <-> is_nan x = false /\ is_nan y = false /\ fkey x = fkey y.
Proof.
  unfold feqb, SFeqb.
  destruct (is_nan x) eqn:Hx; [by destruct x; simpl; naive_solver|].
  destruct (is_nan y) eqn:Hy; [by destruct x, y; simpl; naive_solver|].
  pose proof (SFcompare_key x y Hx Hy) as H.
  destruct (fkey x) as [[a b] c] eqn:Ex, (fkey y) as [[a' b'] c'] eqn:Ey.
  destruct (SFcompare x y) as [[]|]; simpl in *; simplify_eq; intuition; simplify_eq; lia.
Qed.

(** Away from NaN, a tuple that starts with a float is ordered by its key. *)
Section lex.
Context {B : Type} (ltb2 : B -> B -> bool) `{!WeakOrder ltb2}.
Implicit Types p q r : float * B.

Lemma lex_ltb_spec p q :
  is_nan p.1 = false -> is_nan q.1 = false ->
  lex_ltb ltb2 p q = true <->
  key_lt (fkey p.1) (fkey q.1) \/ (fkey p.1 = fkey q.1 /\ ltb2 p.2 q.2 = true).
Proof.
  intros Hp Hq. unfold lex_ltb. pose proof (feqb_spec p.1 q.1) as He.
  pose proof (fltb_spec p.1 q.1) as Hl.
  destruct (fkey p.1) as [[a b] c], (fkey q.1) as [[a' b'] c'].
  destruct (feqb p.1 q.1).
  - destruct He as [He _]. destruct (He eq_refl) as (_ & _ & [= -> -> ->]).
    unfold key_lt. intuition lia.
  - rewrite Hl. split; [intuition|]. intros [H|[H _]]; [done|].
    destruct He as [_ He]. by discriminate (He (conj Hp (conj Hq H))).
Qed.

Lemma lex_ltb_irrefl p : is_nan p.1 = false -> lex_ltb ltb2 p p = false.
Proof.
  intros Hp. apply not_true_iff_false. rewrite lex_ltb_spec by done.
  rewrite wo_irrefl. destruct (fkey p.1) as [[??]?]. unfold key_lt. intuition (try lia; done).
Qed.

Lemma lex_ltb_asym p q :
  is_nan p.1 = false -> is_nan q.1 = false ->
  lex_ltb ltb2 p q = true -> lex_ltb ltb2 q p = false.
Proof.
  intros Hp Hq. rewrite <- not_true_iff_false, !lex_ltb_spec by done.
  intros [H|[H1 H2]] [H'|[H1' H2']].
  1-3: destruct (fkey p.1) as [[??]?], (fkey q.1) as [[??]?]; unfold key_lt in *; simplify_eq; lia.
  pose proof (wo_irrefl p.2) as Hirr. by rewrite (wo_trans _ _ _ H2 H2') in Hirr.
Qed.

Lemma lex_ltb_neg_trans p q r :
  is_nan p.1 = false -> is_nan q.1 = false -> is_nan r.1 = false ->
  lex_ltb ltb2 p q = false -> lex_ltb ltb2 q r = false -> lex_ltb ltb2 p r = false.
Proof.
  intros Hp Hq Hr. rewrite <- !not_true_iff_false, !lex_ltb_spec by done.
  intros H1 H2 H3.
  destruct (ltb2 p.2 q.2) eqn:E1, (ltb2 q.2 r.2) eqn:E2, (ltb2 p.2 r.2) eqn:E3;
    try (pose proof (wo_neg_trans _ _ _ E1 E2));
    destruct (fkey p.1) as [[a b] c], (fkey q.1) as [[a' b'] c'], (fkey r.1) as [[a2 b2] c2];
    unfold key_lt in *; rewrite ?pair_equal_spec in *;
    intuition (try congruence; try lia).
Qed.
End lex.

Lemma py_fmin_le_l x y : is_nan x = false -> fleb (py_fmin x y) x = true.
Proof.
  unfold py_fmin. intros. destruct (fltb y x) eqn:E; [by apply fltb_fleb|by apply fleb_refl].
Qed.

(** [min(x, y)] is never above [x], NaN or not. *)
Lemma py_fmin_not_above x y : fltb x (py_fmin x y) = false.
Proof. unfold py_fmin. destruct (fltb y x) eqn:E; [by apply fltb_asym|apply fltb_irrefl]. Qed.

Lemma py_fmax_ge_l x y : is_nan x = false -> fleb x (py_fmax x y) = true.
Proof.
  unfold py_fmax. intros. destruct (fltb x y) eqn:E; [by apply fltb_fleb|by apply fleb_refl].
Qed.

Lemma py_fmax_ge_r x y : is_nan x = false -> is_nan y = false -> fleb y (py_fmax x y) = true.
Proof.
  unfold py_fmax. intros. destruct (fltb x y) eqn:E; [by apply fleb_refl|]. by apply fltb_false.
Qed.

#[export] Hint Resolve fleb_refl fltb_irrefl fltb_fleb fleb_trans : swarm.

(** The literals are the floats the Python parser produces. *)
Example flit_point_one : flit 1 10 = S754_finite false 7205759403792794 (-56).
Proof. vm_compute. reflexivity. Qed.

(** Ten tenths make one, the compensated way; naively they do not. *)
Example py_sum_tenths : py_sum (replicate 10 (flit 1 10)) = f1.
Proof. vm_compute. reflexivity. Qed.
Example format_3f_ok : format_3f (flit 12345 10000) = "1.234" /\ format_3f (flit (-5) 100) = "-0.050".
Proof. split; vm_compute; reflexivity. Qed.
