(* ===== verification/Effects.v ===== *)
(** * Exceptions, state and time

    Models [domain/errors.py] and fixes how effectful Python is translated.  A
    method of an object with attributes [S] that returns an [A] is a
    computation [M S A]: it takes the attributes and the number of clock
    readings so far, and gives an outcome together with the new attributes.
    The new attributes are there on the error path as well, because an
    assignment the method made before it raised stays.

    [wp m Q s n] says that running [m] from [s] ends in an outcome and a state
    that satisfy [Q]; its rules are the program logic of the library. *)

From S2P Require Import Prelude Float64.

(** ** Errors ([domain/errors.py]) *)
Inductive ErrorCode :=
| INVALID_COMMAND | INVALID_STATE | MODE_NOT_AUTHORIZED | CAPABILITY_MISSING
| PREFLIGHT_FAILED | COMMAND_TIMEOUT | COMMAND_DROPPED | LINK_LOST
| TELEMETRY_STALE | LOCALIZATION_INVALID | CRITICAL_BATTERY | GEOFENCE_BREACH
| IDENTITY_MISMATCH | EMERGENCY_STOPPED | INTERNAL_ERROR.

#[export] Instance ErrorCode_eq_dec : EqDecision ErrorCode.
Proof. solve_decision. Defined.

(** [code.value] *)
Definition ErrorCode_value (c : ErrorCode) : string :=
  match c with
  | INVALID_COMMAND => "INVALID_COMMAND"
  | INVALID_STATE => "INVALID_STATE"
  | MODE_NOT_AUTHORIZED => "MODE_NOT_AUTHORIZED"
  | CAPABILITY_MISSING => "CAPABILITY_MISSING"
  | PREFLIGHT_FAILED => "PREFLIGHT_FAILED"
  | COMMAND_TIMEOUT => "COMMAND_TIMEOUT"
  | COMMAND_DROPPED => "COMMAND_DROPPED"
  | LINK_LOST => "LINK_LOST"
  | TELEMETRY_STALE => "TELEMETRY_STALE"
  | LOCALIZATION_INVALID => "LOCALIZATION_INVALID"
  | CRITICAL_BATTERY => "CRITICAL_BATTERY"
  | GEOFENCE_BREACH => "GEOFENCE_BREACH"
  | IDENTITY_MISMATCH => "IDENTITY_MISMATCH"
  | EMERGENCY_STOPPED => "EMERGENCY_STOPPED"
  | INTERNAL_ERROR => "INTERNAL_ERROR"
  end.

(** The exceptions the modelled code raises or lets through.  The [details]
    dictionary of a [CrazySwarmError] repeats values for the operator's log and
    is left out. *)
Inductive exn :=
| CrazySwarmError (code : ErrorCode) (message : string)
| ValidationError (model : string)   (* pydantic, a subclass of ValueError *)
| ValueError (message : string)
| AssertionError
| ZeroDivisionError
| OverflowError
| TimeoutError
| CancelledError                     (* asyncio, not an [Exception] *)
| OtherError (name : string).        (* any other [Exception] of an adapter *)

#[export] Instance exn_eq_dec : EqDecision exn.
Proof. solve_decision. Defined.

(** [except Exception] catches everything but a cancellation. *)
Definition is_Exception (e : exn) : bool := negb (e ≟ CancelledError).
Definition is_CrazySwarmError (e : exn) : bool :=
  match e with CrazySwarmError _ _ => true | _ => false end.

Inductive outcome (A : Type) :=
| Ret (a : A)
| Raise (e : exn).
Arguments Ret {A} a.
Arguments Raise {A} e.

#[export] Instance outcome_eq_dec {A} `{!EqDecision A} : EqDecision (outcome A).
Proof. solve_decision. Defined.

Definition returned {A} (o : outcome A) : Prop := exists a, o = Ret a.
Definition is_ret {A} (o : outcome A) : bool := match o with Ret _ => true | Raise _ => false end.

(** A pure function that can raise. *)
#[export] Instance outcome_ret : MRet outcome := @Ret.
#[export] Instance outcome_bind : MBind outcome := fun A B f o =>
  match o with Ret a => f a | Raise e => Raise e end.

#[export] Instance outcome_fmap : FMap outcome := fun A B f o =>
  match o with Ret a => Ret (f a) | Raise e => Raise e end.

Lemma bind_Ret {A B} (o : outcome A) (f : A -> outcome B) b :
  o ≫= f = Ret b -> exists a, o = Ret a /\ f a = Ret b.
Proof. destruct o as [a|]; [|done]. by exists a. Qed.

Lemma fmap_Ret {A B} (f : A -> B) (o : outcome A) b :
  f <$> o = Ret b -> exists a, o = Ret a /\ f a = b.
Proof. destruct o as [a|]; [|done]. intros [= <-]. by exists a. Qed.

Lemma mapM_Ret {A B} (f : A -> outcome B) l ys :
  mapM f l = Ret ys -> Forall2 (fun x y => f x = Ret y) l ys.
Proof.
  revert ys. induction l as [|x l IH]; simpl; intros ys; [by intros [= <-]|].
  destruct (f x) as [y|] eqn:Hx; simpl; [|done].
  destruct (mapM f l) as [ys'|]; simpl; [|done]. intros [= <-]. constructor; auto.
Qed.

Lemma mapM_Raise {A B} (f : A -> outcome B) l e :
  mapM f l = Raise e -> exists x, x ∈ l /\ f x = Raise e.
Proof.
  induction l as [|x l IH]; simpl; [done|].
  destruct (f x) as [y|e'] eqn:Hx; simpl.
  - destruct (mapM f l); simpl; [done|]. intros [= ->].
    destruct IH as (x' & ? & ?); [done|]. exists x'. split; [by right|done].
  - intros [= ->]. exists x. split; [left|done].
Qed.

Lemma mapM_cons {A B} (f : A -> outcome B) x l y ys :
  f x = Ret y -> mapM f l = Ret ys -> mapM f (x :: l) = Ret (y :: ys).
Proof. intros Hx Hl. simpl. by rewrite Hx, Hl. Qed.

(** The constructor of a pydantic model, which validates its fields. *)
Definition checked {A} (model : string) (ok : bool) (a : A) : outcome A :=
  if ok then Ret a else Raise (ValidationError model).

Lemma checked_Ret {A} model ok (a b : A) : checked model ok a = Ret b -> ok = true /\ a = b.
Proof. destruct ok; simpl; [by intros [= ->]|done]. Qed.

(** Exceptions of the language that no component defines. *)
Notation IndexError := (OtherError "IndexError").
Notation StopIteration := (OtherError "StopIteration").
Notation KeyError := (OtherError "KeyError").
Notation TypeError := (OtherError "TypeError").
Notation AttributeError := (OtherError "AttributeError").

(** The first element of a sequence, and a value that may be missing *)
Definition first_or {A} (e : exn) (l : list A) : outcome A :=
  match l with a :: _ => Ret a | [] => Raise e end.
Definition some_or {A} (e : exn) (o : option A) : outcome A :=
  match o with Some a => Ret a | None => Raise e end.

Lemma some_or_Ret {A} e (o : option A) (x : A) : some_or e o = Ret x -> o = Some x.
Proof. destruct o; [|done]. by intros [= ->]. Qed.

(** A [CrazySwarmError] with its code and message. *)
Notation Err code msg := (Raise (CrazySwarmError code msg)) (only parsing).

(** ** Arithmetic that raises *)
Definition py_div (x y : float) : outcome float :=
  if feqb y f0 then Raise ZeroDivisionError else Ret (fdiv_ieee x y).

(** [x ** y] for the integral powers of the source. *)
Definition py_pow `{Libm} (x y : float) : outcome float :=
  let r := c_pow x y in
  if is_inf r && is_finite x && is_finite y then Raise OverflowError else Ret r.

Definition py_square `{Libm} (x : float) : outcome float := py_pow x (float_of_Z 2).

(** [math.sqrt] *)
Definition py_sqrt (x : float) : outcome float :=
  if fltb x f0 then Raise (ValueError "math domain error") else Ret (fsqrt_ieee x).

(** [math.cos] and [math.sin] *)
Definition py_cos `{Libm} (x : float) : outcome float :=
  if is_inf x then Raise (ValueError "math domain error") else Ret (c_cos x).
Definition py_sin `{Libm} (x : float) : outcome float :=
  if is_inf x then Raise (ValueError "math domain error") else Ret (c_sin x).

(** ** The clock

    [time.monotonic()] is read a finite number of times by a run; the n-th
    reading of the process is [monotonic n].  Python documents that readings do
    not decrease; theorems that need it say so with [ClockMonotonic]. *)
Class Clock := monotonic : nat -> float.

Class ClockMonotonic `{Clock} : Prop :=
  monotonic_le : forall i j, (i <= j)%nat -> fleb (monotonic i) (monotonic j) = true.

(** The clock of the examples ticks once a second from 100 s on. *)
Definition example_clock : Clock := fun n => float_of_Z (100 + Z.of_nat n).

(** ** Stateful computations *)
Definition M (S A : Type) : Type := S -> nat -> outcome A * S * nat.

Section monad.
Context {S : Type}.

#[export] Instance M_ret : MRet (M S) := fun A a s n => (Ret a, s, n).
#[export] Instance M_bind : MBind (M S) := fun A B f m s n =>
  match m s n with
  | (Ret a, s', n') => f a s' n'
  | (Raise e, s', n') => (Raise e, s', n')
  end.

Definition raise {A} (e : exn) : M S A := fun s n => (Raise e, s, n).
Definition get : M S S := fun s n => (Ret s, s, n).
Definition put (s : S) : M S unit := fun _ n => (Ret tt, s, n).
Definition modify (f : S -> S) : M S unit := fun s n => (Ret tt, f s, n).
Definition lift {A} (o : outcome A) : M S A := fun s n => (o, s, n).

(** [time.monotonic()] *)
Definition read_clock `{Clock} : M S float := fun s n => (Ret (monotonic n), s, Datatypes.S n).

(** [if b: raise e] *)
Definition raise_if (b : bool) (e : exn) : M S unit := if b then raise e else mret tt.

(** [try: m except <catches>: h e] *)
Definition try_except {A} (m : M S A) (catches : exn -> bool) (h : exn -> M S A) : M S A :=
  fun s n =>
    match m s n with
    | (Raise e, s', n') => if catches e then h e s' n' else (Raise e, s', n')
    | r => r
    end.

(** The constructor of a pydantic model validates its fields. *)
Definition validated {A} (model : string) (ok : bool) (a : A) : M S A :=
  if ok then mret a else raise (ValidationError model).

(** [for x in l: body x] *)
Fixpoint for_each {A} (l : list A) (body : A -> M S unit) : M S unit :=
  match l with
  | [] => mret tt
  | x :: l' => _ ← body x; for_each l' body
  end.

(** The final state and the outcome of a run. *)
Definition run {A} (m : M S A) (s : S) (n : nat) : outcome A := (m s n).1.1.
Definition exec {A} (m : M S A) (s : S) (n : nat) : S := (m s n).1.2.

(** ** Program logic *)
Definition wp {A} (m : M S A) (Q : outcome A -> S -> nat -> Prop) (s : S) (n : nat) : Prop :=
  Q (m s n).1.1 (m s n).1.2 (m s n).2.

Definition wp_ok {A} (Q : A -> S -> nat -> Prop) (R : exn -> S -> nat -> Prop) :
    outcome A -> S -> nat -> Prop :=
  fun o s n => match o with Ret a => Q a s n | Raise e => R e s n end.

Lemma wp_mono {A} (m : M S A) (Q Q' : outcome A -> S -> nat -> Prop) s n :
  wp m Q s n -> (forall o s' n', Q o s' n' -> Q' o s' n') -> wp m Q' s n.
Proof. unfold wp. auto. Qed.

Lemma wp_true {A} (m : M S A) s n : wp m (fun _ _ _ => True) s n.
Proof. done. Qed.

Lemma wp_and {A} (m : M S A) (Q Q' : outcome A -> S -> nat -> Prop) s n :
  wp m Q s n -> wp m Q' s n -> wp m (fun o s' n' => Q o s' n' /\ Q' o s' n') s n.
Proof. done. Qed.

Lemma wp_ret {A} (a : A) (Q : outcome A -> S -> nat -> Prop) s n :
  Q (Ret a) s n -> wp (mret a) Q s n.
Proof. done. Qed.

Lemma wp_bind {A B} (m : M S A) (f : A -> M S B) (Q : outcome B -> S -> nat -> Prop) s n :
  wp m (fun o s' n' => match o with
                       | Ret a => wp (f a) Q s' n'
                       | Raise e => Q (Raise e) s' n'
                       end) s n ->
  wp (m ≫= f) Q s n.
Proof. unfold wp, mbind, M_bind. by destruct (m s n) as [[[a|e] s'] n']. Qed.

(** A computation whose outcome is known *)
Lemma wp_bind_exact {A B} (m : M S A) (f : A -> M S B) Q s n a s' n' :
  m s n = (Ret a, s', n') -> wp (f a) Q s' n' -> wp (m ≫= f) Q s n.
Proof. intros E H. unfold wp, mbind, M_bind in *. by rewrite E. Qed.

Lemma wp_raise {A} e (Q : outcome A -> S -> nat -> Prop) s n :
  Q (Raise e) s n -> wp (raise e) Q s n.
Proof. done. Qed.

Lemma wp_get (Q : outcome S -> S -> nat -> Prop) s n : Q (Ret s) s n -> wp get Q s n.
Proof. done. Qed.

Lemma wp_put s' (Q : outcome unit -> S -> nat -> Prop) s n : Q (Ret tt) s' n -> wp (put s') Q s n.
Proof. done. Qed.

Lemma wp_modify f (Q : outcome unit -> S -> nat -> Prop) s n :
  Q (Ret tt) (f s) n -> wp (modify f) Q s n.
Proof. done. Qed.

Lemma wp_lift {A} (o : outcome A) (Q : outcome A -> S -> nat -> Prop) s n :
  Q o s n -> wp (lift o) Q s n.
Proof. done. Qed.

Lemma wp_read_clock `{Clock} (Q : outcome float -> S -> nat -> Prop) s n :
  Q (Ret (monotonic n)) s (Datatypes.S n) -> wp read_clock Q s n.
Proof. done. Qed.

Lemma wp_raise_if b e (Q : outcome unit -> S -> nat -> Prop) s n :
  (b = true -> Q (Raise e) s n) -> (b = false -> Q (Ret tt) s n) -> wp (raise_if b e) Q s n.
Proof. destruct b; intros H1 H2; [by apply H1|by apply H2]. Qed.

Lemma wp_validated {A} model ok (a : A) (Q : outcome A -> S -> nat -> Prop) s n :
  (ok = false -> Q (Raise (ValidationError model)) s n) ->
  (ok = true -> Q (Ret a) s n) -> wp (validated model ok a) Q s n.
Proof. destruct ok; intros H1 H2; [by apply H2|by apply H1]. Qed.

Lemma wp_if {A} (b : bool) (m1 m2 : M S A) (Q : outcome A -> S -> nat -> Prop) s n :
  (b = true -> wp m1 Q s n) -> (b = false -> wp m2 Q s n) ->
  wp (if b then m1 else m2) Q s n.
Proof. destruct b; auto. Qed.

Lemma wp_try_except {A} (m : M S A) (catches : exn -> bool) (h : exn -> M S A) (Q : outcome A -> S -> nat -> Prop) s n :
  wp m (fun o s' n' => match o with
                       | Raise e => if catches e then wp (h e) Q s' n' else Q (Raise e) s' n'
                       | Ret a => Q (Ret a) s' n'
                       end) s n ->
  wp (try_except m catches h) Q s n.
Proof.
  unfold wp, try_except. destruct (m s n) as [[[a|e] s'] n']; simpl; [done|].
  by destruct (catches e).
Qed.

Lemma wp_for_each {A} (I : S -> nat -> Prop) (E : exn -> S -> nat -> Prop)
    (l : list A) (body : A -> M S unit) s n :
  I s n ->
  (forall x s n, x ∈ l -> I s n -> wp (body x) (wp_ok (fun _ => I) E) s n) ->
  wp (for_each l body) (wp_ok (fun _ => I) E) s n.
Proof.
  revert s n. induction l as [|x l IH]; intros s n HI Hb; simpl; [done|].
  apply wp_bind. eapply wp_mono; [apply Hb; [by left|done]|].
  intros [[]|e] s' n' H; [|done]. apply IH; [done|]. intros. apply Hb; [by right|done].
Qed.

(** Each round achieves something that the later rounds do not undo. *)
Lemma wp_for_each_done {A} (I : S -> Prop) (D : A -> S -> Prop) (l : list A) (body : A -> M S unit) s n :
  I s ->
  (forall x s n, x ∈ l -> I s ->
     wp (body x) (fun o s' _ => I s' /\ (forall y, D y s -> D y s') /\ (o = Ret tt -> D x s')) s n) ->
  wp (for_each l body) (fun o s' _ => I s' /\ (forall y, D y s -> D y s') /\
                          (o = Ret tt -> forall x, x ∈ l -> D x s')) s n.
Proof.
  revert s n. induction l as [|x l IH]; intros s n HI Hb; simpl.
  { split_and!; [done|done|]. intros _ x Hx. by apply elem_of_nil in Hx. }
  apply wp_bind. eapply wp_mono; [apply Hb; [by left|done]|].
  intros [[]|e] s1 n1 (H1 & Hm & Hd); [|by split_and!].
  eapply wp_mono; [apply IH; [done|]|].
  { intros. apply Hb; [by right|done]. }
  intros o s2 n2 (H2 & Hm2 & Hd2). split_and!; [done|by auto|].
  intros Ho y [->|Hy]%elem_of_cons; [by apply Hm2, Hd|by apply Hd2].
Qed.

Lemma wp_assoc {A B C} (m1 : M S A) (m2 : A -> M S B) (f : B -> M S C)
    (Q : outcome C -> S -> nat -> Prop) s n :
  wp ((m1 ≫= m2) ≫= f) Q s n -> wp (m1 ≫= (fun a => m2 a ≫= f)) Q s n.
Proof. unfold wp, mbind, M_bind. by destruct (m1 s n) as [[[a|e] s'] n']. Qed.

Lemma wp_discard {A} (m : M S A) (Q : outcome unit -> S -> nat -> Prop) s n :
  wp m (wp_ok (fun _ => Q (Ret tt)) (fun e => Q (Raise e))) s n -> wp (_ ← m; mret tt) Q s n.
Proof.
  intros H. apply wp_bind. eapply wp_mono; [exact H|]. intros [a|e] s' n' HQ; exact HQ.
Qed.

(** A computation preserves an invariant, whether it returns or raises. *)
Definition preserves {A} (I : S -> Prop) (m : M S A) : Prop :=
  forall s n, I s -> wp m (fun _ s' _ => I s') s n.

(** A computation relates every initial state to its final state. *)
Definition steps {A} (R : S -> S -> Prop) (m : M S A) : Prop :=
  forall s n, wp m (fun _ s' _ => R s s') s n.

Lemma steps_bind {A B} (R : S -> S -> Prop) `{!Transitive R} (m : M S A) (f : A -> M S B) :
  steps R m -> (forall a, steps R (f a)) -> steps R (m ≫= f).
Proof.
  intros Hm Hf s n. apply wp_bind. eapply wp_mono; [apply Hm|].
  intros [a|e] s' n' H; [|done]. eapply wp_mono; [apply Hf|]. intros; by etrans.
Qed.

(** Steps along a preorder, statement by statement. *)
Section steps_rules.
Context (R : S -> S -> Prop) `{!PreOrder R}.

Lemma steps_ret {A} (a : A) : steps R (mret a).
Proof. intros s n. apply wp_ret. done. Qed.
Lemma steps_raise {A} e : steps R (raise e : M S A).
Proof. intros s n. apply wp_raise. done. Qed.
Lemma steps_get : steps R get.
Proof. intros s n. apply wp_get. done. Qed.
Lemma steps_lift {A} (o : outcome A) : steps R (lift o).
Proof. intros s n. apply wp_lift. done. Qed.
Lemma steps_read_clock `{Clock} : steps R read_clock.
Proof. intros s n. apply wp_read_clock. done. Qed.
Lemma steps_raise_if b e : steps R (raise_if b e).
Proof. intros s n. apply wp_raise_if; done. Qed.
Lemma steps_validated {A} model ok (a : A) : steps R (validated model ok a).
Proof. intros s n. apply wp_validated; done. Qed.
Lemma steps_modify f : (forall s, R s (f s)) -> steps R (modify f).
Proof. intros Hf s n. apply wp_modify, Hf. Qed.
Lemma steps_try_except {A} (m : M S A) catches h :
  steps R m -> (forall e, steps R (h e)) -> steps R (try_except m catches h).
Proof.
  intros Hm Hh s n. apply wp_try_except. eapply wp_mono; [apply Hm|].
  intros [a|e] s' n' H; [done|]. destruct (catches e); [|done].
  eapply wp_mono; [apply Hh|]. intros; by etrans.
Qed.
Lemma steps_for_each_in {A} (l : list A) (body : A -> M S unit) :
  (forall x, x ∈ l -> steps R (body x)) -> steps R (for_each l body).
Proof.
  intros Hb. induction l as [|x l IH]; simpl; [apply steps_ret|].
  apply steps_bind; [apply _|apply Hb; by left|]. intros _. apply IH. intros y Hy. apply Hb. by right.
Qed.

Lemma steps_for_each {A} (l : list A) (body : A -> M S unit) :
  (forall x, steps R (body x)) -> steps R (for_each l body).
Proof. intros Hb. apply steps_for_each_in. auto. Qed.
End steps_rules.
End monad.

(** Run a computation on an attribute of the object. *)
Definition zoom {S T A} (pi : S -> T) (upd : T -> S -> S) (m : M T A) : M S A := fun s n =>
  match m (pi s) n with (o, t, n') => (o, upd t s, n') end.

Lemma wp_zoom {S T A} (pi : S -> T) upd (m : M T A) (Q : outcome A -> S -> nat -> Prop) s n :
  wp m (fun o t n' => Q o (upd t s) n') (pi s) n -> wp (zoom pi upd m) Q s n.
Proof. unfold wp, zoom. by destruct (m (pi s) n) as [[o t] n']. Qed.

#[global] Typeclasses Opaque M.

(** [steps R m] by the structure of [m]; the lemmas about a component's own
    operations are in the hint database. *)
Create HintDb steps discriminated.
Ltac steps_rule :=
  first
    [ lazymatch goal with |- steps _ _ => fail | |- forall _, _ => fail | |- _ => done end
    | solve [eauto with steps]
    | lazymatch goal with
      | |- forall _, _ => intros ?
      | |- steps _ (mbind _ _) => apply steps_bind; [apply _| |intros ?]
      | |- steps _ (mret _) => apply steps_ret; apply _
      | |- steps _ (raise _) => apply steps_raise; apply _
      | |- steps _ get => apply steps_get; apply _
      | |- steps _ (lift _) => apply steps_lift; apply _
      | |- steps _ read_clock => apply steps_read_clock; apply _
      | |- steps _ (raise_if _ _) => apply steps_raise_if; apply _
      | |- steps _ (validated _ _ _) => apply steps_validated; apply _
      | |- steps _ (for_each _ _) => apply steps_for_each; [apply _|intros ?]
      | |- steps _ (try_except _ _ _) => apply steps_try_except; [apply _| |intros ?]
      | |- steps _ (modify _) => apply steps_modify; intros ?
      | |- steps _ (match ?x with _ => _ end) => destruct x
      end ].
Ltac steps_go := cbv zeta; repeat steps_rule.

(** The same where the values of the definitions inside do not matter. *)
Ltac steps_let :=
  lazymatch goal with
  | |- steps ?R (let x := ?v in @?b x) =>
      let H := fresh in cut (forall x, steps R (b x)); [intros H; exact (H v)|intros ?; cbv beta]
  end.
Ltac steps_go_opaque := repeat (first [steps_let | steps_rule]).

(** Symbolic execution: apply the rule of the first statement.  [wp_hook] is
    the place where a component adds the rules of its own operations. *)
Ltac wp_hook := fail.
Ltac wp_rule :=
  lazymatch goal with
  | |- wp (mbind _ _) _ _ _ => apply wp_bind
  | |- wp (mret _) _ _ _ => apply wp_ret
  | |- wp (raise _) _ _ _ => apply wp_raise
  | |- wp get _ _ _ => apply wp_get
  | |- wp (put _) _ _ _ => apply wp_put
  | |- wp (modify _) _ _ _ => apply wp_modify
  | |- wp (lift _) _ _ _ => apply wp_lift
  | |- wp read_clock _ _ _ => apply wp_read_clock
  | |- wp (raise_if _ _) _ _ _ => apply wp_raise_if; intros ?
  | |- wp (validated _ _ _) _ _ _ => apply wp_validated; intros ?
  | |- wp (try_except _ _ _) _ _ _ => apply wp_try_except
  | |- wp (zoom _ _ _) _ _ _ => apply wp_zoom
  | |- wp (if _ then _ else _) _ _ _ => apply wp_if; intros ?
  | |- wp _ _ _ _ => wp_hook
  end.
Ltac wp_go := cbv zeta; repeat (wp_rule; cbv beta iota zeta).

#[export] Hint Resolve wp_ret wp_raise wp_get wp_modify : swarm.

(** A run described by [run] and [exec] is a [wp] about equalities. *)
Lemma wp_run {S A} (m : M S A) (Q : outcome A -> S -> nat -> Prop) s n :
  wp m Q s n <-> Q (run m s n) (exec m s n) (m s n).2.
Proof. done. Qed.

(** What every returned value satisfies. *)
Lemma run_returns {S A} (m : M S A) (P : A -> Prop) s n a :
  wp m (fun o _ _ => forall a, o = Ret a -> P a) s n -> run m s n = Ret a -> P a.
Proof. intros H. apply H. Qed.

Ltac by_returned :=
  lazymatch goal with
  | |- run ?m ?s ?n = Ret ?a -> ?G =>
      let G' := eval pattern a in G in
      lazymatch G' with ?P _ => apply (run_returns m P s n a); cbv beta end
  end.
