(* ===== verification/Contracts.v ===== *)
(** * Application contracts ([domain/models.py])

    The enumerations and value types every component shares.  A Python
    enumeration is a Module with its members as constructors of [t]; a contract
    model is a record of its fields, and a [valid] test gives the constraints
    pydantic checks when the model is constructed. *)

From S2P Require Import Prelude Float64 Effects.

(** ** Constrained strings and numbers *)

Definition between (lo hi : N) (c : Ascii.ascii) : bool :=
  (lo <=? Ascii.N_of_ascii c)%N && (Ascii.N_of_ascii c <=? hi)%N.

(** [A-Za-z0-9] *)
Definition is_alnum (c : Ascii.ascii) : bool :=
  between 65 90 c || between 97 122 c || between 48 57 c.

(** [A-Za-z0-9_.:-] *)
Definition is_identifier_char (c : Ascii.ascii) : bool :=
  is_alnum c || (Ascii.N_of_ascii c =? 95)%N || (Ascii.N_of_ascii c =? 46)%N
  || (Ascii.N_of_ascii c =? 58)%N || (Ascii.N_of_ascii c =? 45)%N.

Fixpoint string_forall (p : Ascii.ascii -> bool) (s : string) : bool :=
  match s with
  | EmptyString => true
  | String c s => p c && string_forall p s
  end.

Definition str_len (s : string) : Z := Z.of_nat (String.length s).

(** [Identifier]: 1 to 96 characters of [^[A-Za-z0-9][A-Za-z0-9_.:-]*$] *)
Definition is_identifier (s : string) : bool :=
  match s with
  | EmptyString => false
  | String c s' => is_alnum c && string_forall is_identifier_char s' && (str_len s <=? 96)
  end.

(** [SHA256]: [^[a-f0-9]{64}$] *)
Definition is_sha256 (s : string) : bool :=
  (str_len s =? 64) && string_forall (fun c => between 97 102 c || between 48 57 c) s.

(** [T | None] fields are constrained when present. *)
Definition opt_ok {A} (p : A -> bool) (o : option A) : bool :=
  match o with Some a => p a | None => true end.

(** [Field(ge=0.0)], [Field(gt=0.0)] and percentages; each rejects NaN. *)
Definition ge0 (x : float) : bool := fleb f0 x.
Definition gt0 (x : float) : bool := fltb f0 x.
Definition is_percentage (x : float) : bool := fleb f0 x && fleb x f100.

Lemma is_percentage_not_nan x : is_percentage x = true -> is_nan x = false.
Proof. unfold is_percentage. intros [H _]%andb_true_iff. by apply fleb_not_nan in H as []. Qed.

(** ** Enumerations *)

Module OperatingMode.
Inductive t := SIM | LIVE | SHADOW | REPLAY.
End OperatingMode.
#[export] Instance OperatingMode_eq_dec : EqDecision OperatingMode.t.
Proof. solve_decision. Defined.

Definition OperatingMode_value (m : OperatingMode.t) : string :=
  match m with
  | OperatingMode.SIM => "SIM" | OperatingMode.LIVE => "LIVE"
  | OperatingMode.SHADOW => "SHADOW" | OperatingMode.REPLAY => "REPLAY"
  end.

Module BackendRole.
Inductive t := FAST_SIM | ISAAC_SIM | REAL_CRAZYFLIE | REPLAY | TWIN_OBSERVER.
End BackendRole.
#[export] Instance BackendRole_eq_dec : EqDecision BackendRole.t.
Proof. solve_decision. Defined.

Module AuthorityClass.
Inductive t := SIMULATION | PHYSICAL | OBSERVATION_ONLY.
End AuthorityClass.
#[export] Instance AuthorityClass_eq_dec : EqDecision AuthorityClass.t.
Proof. solve_decision. Defined.

Module SourceClockPolicy.
Inductive t := ACCELERATED_OR_REALTIME | REALTIME_MONOTONIC | REPLAY_CONTROLLED.
End SourceClockPolicy.
#[export] Instance SourceClockPolicy_eq_dec : EqDecision SourceClockPolicy.t.
Proof. solve_decision. Defined.

Module CommandCompletionMode.
Inductive t := BLOCKING_COMPLETION | ASYNC_ACCEPTANCE.
End CommandCompletionMode.
#[export] Instance CommandCompletionMode_eq_dec : EqDecision CommandCompletionMode.t.
Proof. solve_decision. Defined.

Module CoordinateFrame.
Inductive t := WORLD | HOME | BODY | SENSOR.
End CoordinateFrame.
#[export] Instance CoordinateFrame_eq_dec : EqDecision CoordinateFrame.t.
Proof. solve_decision. Defined.

Module VehicleState.
Inductive t :=
| DISCONNECTED | CONNECTING | READY | ARMING | TAKING_OFF | FLYING
| RETURNING | LANDING | ABORTING | FAULT | EMERGENCY.
End VehicleState.
#[export] Instance VehicleState_eq_dec : EqDecision VehicleState.t.
Proof. solve_decision. Defined.

Definition VehicleState_value (s : VehicleState.t) : string :=
  match s with
  | VehicleState.DISCONNECTED => "DISCONNECTED"
  | VehicleState.CONNECTING => "CONNECTING"
  | VehicleState.READY => "READY"
  | VehicleState.ARMING => "ARMING"
  | VehicleState.TAKING_OFF => "TAKING_OFF"
  | VehicleState.FLYING => "FLYING"
  | VehicleState.RETURNING => "RETURNING"
  | VehicleState.LANDING => "LANDING"
  | VehicleState.ABORTING => "ABORTING"
  | VehicleState.FAULT => "FAULT"
  | VehicleState.EMERGENCY => "EMERGENCY"
  end.

Module CommandSource.
Inductive t := CLI | UI | MISSION | SUPERVISOR | TEST.
End CommandSource.
#[export] Instance CommandSource_eq_dec : EqDecision CommandSource.t.
Proof. solve_decision. Defined.

Module VehicleCapability.
Inductive t :=
| ARMING | RELATIVE_POSITIONING | GLOBAL_POSITIONING | HIGH_LEVEL_COMMANDS
| RANGE_SENSING | PARAMETER_ACCESS | EMERGENCY_STOP | TIME_PARAMETERIZED_TRAJECTORY.
End VehicleCapability.
#[export] Instance VehicleCapability_eq_dec : EqDecision VehicleCapability.t.
Proof. solve_decision. Defined.

Definition capability_index (c : VehicleCapability.t) : nat :=
  match c with
  | VehicleCapability.ARMING => 0 | VehicleCapability.RELATIVE_POSITIONING => 1
  | VehicleCapability.GLOBAL_POSITIONING => 2 | VehicleCapability.HIGH_LEVEL_COMMANDS => 3
  | VehicleCapability.RANGE_SENSING => 4 | VehicleCapability.PARAMETER_ACCESS => 5
  | VehicleCapability.EMERGENCY_STOP => 6 | VehicleCapability.TIME_PARAMETERIZED_TRAJECTORY => 7
  end.

Definition capability_of (i : nat) : VehicleCapability.t :=
  match i with
  | 0 => VehicleCapability.ARMING | 1 => VehicleCapability.RELATIVE_POSITIONING
  | 2 => VehicleCapability.GLOBAL_POSITIONING | 3 => VehicleCapability.HIGH_LEVEL_COMMANDS
  | 4 => VehicleCapability.RANGE_SENSING | 5 => VehicleCapability.PARAMETER_ACCESS
  | 6 => VehicleCapability.EMERGENCY_STOP | _ => VehicleCapability.TIME_PARAMETERIZED_TRAJECTORY
  end%nat.

#[export] Instance VehicleCapability_countable : Countable VehicleCapability.t.
Proof. apply (inj_countable' capability_index capability_of). by intros []. Defined.

(** [frozenset[VehicleCapability]] *)
Notation capability_set := (gset VehicleCapability.t).

Module DeckType.
Inductive t := FLOW | MULTIRANGER | LIGHTHOUSE | LOCO | AI | UNKNOWN.
End DeckType.
#[export] Instance DeckType_eq_dec : EqDecision DeckType.t.
Proof. solve_decision. Defined.

Module HealthStatus.
Inductive t := HEALTHY | DEGRADED | FAILED | UNKNOWN.
End HealthStatus.
#[export] Instance HealthStatus_eq_dec : EqDecision HealthStatus.t.
Proof. solve_decision. Defined.

(** ** Value types *)

Record Vector3 := mkVector3 { v_x : float; v_y : float; v_z : float }.
#[export] Instance Vector3_eq_dec : EqDecision Vector3.
Proof. solve_decision. Defined.

(** [Vector3()] *)
Definition Vector3_zero : Vector3 := {| v_x := f0; v_y := f0; v_z := f0 |}.

Record EulerAttitude := { roll_rad : float; pitch_rad : float; yaw_rad : float }.

Record VehicleIdentity := {
  identity_vehicle_id : string;
  identity_display_name : string;
  identity_adapter : string;
  radio_uri : option string;
  firmware_version : option string;
}.

Definition VehicleIdentity_valid (i : VehicleIdentity) : bool :=
  is_identifier (identity_vehicle_id i)
  && (1 <=? str_len (identity_display_name i)) && (str_len (identity_display_name i) <=? 120)
  && is_identifier (identity_adapter i).

Record VehicleBackendProfile := {
  role : BackendRole.t;
  authority : AuthorityClass.t;
  clock_policy : SourceClockPolicy.t;
  command_completion : CommandCompletionMode.t;
  supports_duration_aware_timeout : bool;
  supports_source_clock_reset : bool;
  supports_parameters : bool;
  recommended_watchdog_period_s : float;
}.

Definition VehicleBackendProfile_valid (p : VehicleBackendProfile) : bool :=
  fleb f0 (recommended_watchdog_period_s p) && fleb (recommended_watchdog_period_s p) f1.

Definition is_simulation (p : VehicleBackendProfile) : bool :=
  authority p ≟ AuthorityClass.SIMULATION.
Definition is_physical (p : VehicleBackendProfile) : bool :=
  authority p ≟ AuthorityClass.PHYSICAL.

(** The [details] dictionary of a deck is display data. *)
Record DeckStatus := {
  deck_type : DeckType.t;
  deck_name : string;
  present : bool;
  deck_health : HealthStatus.t;
}.

Record VehicleCapabilities := {
  features : capability_set;
  decks : list DeckStatus;
}.

(** [required.issubset(self.features)] *)
Definition supports (c : VehicleCapabilities) (required : capability_set) : bool :=
  bool_decide (required ⊆ features c).

(** ** Distances

    [_distance] of the fleet modules: the Euclidean distance. Squaring uses the
    power operator, so a component beyond the square root of the largest float
    raises. *)
Definition v_distance `{Libm} (first second : Vector3) : outcome float :=
  dx ← py_square (fsub (v_x first) (v_x second));
  dy ← py_square (fsub (v_y first) (v_y second));
  dz ← py_square (fsub (v_z first) (v_z second));
  py_sqrt (fadd (fadd dx dy) dz).

Lemma v_distance_Raise `{Libm} a b e : v_distance a b = Raise e -> is_CrazySwarmError e = false.
Proof.
  unfold v_distance, py_square, py_pow, py_sqrt.
  repeat (case_match; simpl; try done); by intros [= <-].
Qed.

Example is_identifier_ok : is_identifier "drone-1.a:b_c" = true.
Proof. reflexivity. Qed.
Example is_identifier_bad : is_identifier "-drone" = false /\ is_identifier "" = false.
Proof. split; reflexivity. Qed.
