(* ===== verification/Artifacts.v ===== *)
(** * Fleet artifacts ([fleet/artifacts.py])

    Mission, deployment, binding and session contracts: the immutable documents
    a fleet execution is built from, with the validators pydantic runs on
    construction and the lookups the coordinators use. *)

From S2P Require Import Prelude Float64 Effects Contracts.

(** ** Canonical digests

    [canonical_sha256] serialises a value to canonical JSON and hashes it with
    SHA-256.  The digest of a JSON value is an interface: nothing here depends
    on the bytes of a hash. *)
Inductive json :=
| JNull
| JBool (b : bool)
| JInt (n : Z)
| JFloat (f : float)
| JStr (s : string)
| JList (l : list json)
| JObj (fields : list (string * json)).

Class Digest := canonical_sha256 : json -> string.

(** A digest for the examples: 64 zeros. *)
Definition example_digest : Digest := fun _ =>
  "0000000000000000000000000000000000000000000000000000000000000000".

Definition json_opt {A} (f : A -> json) (o : option A) : json :=
  match o with Some a => f a | None => JNull end.

(** ** Enumerations *)

Module ExecutionBackend.
Inductive t := FAST_SIM | MOCK_ISAAC | ISAAC | CRAZYFLIE.
End ExecutionBackend.
#[export] Instance ExecutionBackend_eq_dec : EqDecision ExecutionBackend.t.
Proof. solve_decision. Defined.

Module InitialFleetRole.
Inductive t := ACTIVE | RESERVE | UNASSIGNED.
End InitialFleetRole.
#[export] Instance InitialFleetRole_eq_dec : EqDecision InitialFleetRole.t.
Proof. solve_decision. Defined.

Module FleetFailurePolicy.
Inductive t := CONTINUE_HEALTHY | HOLD_ALL | LAND_ALL.
End FleetFailurePolicy.
#[export] Instance FleetFailurePolicy_eq_dec : EqDecision FleetFailurePolicy.t.
Proof. solve_decision. Defined.

(** ** Contract models *)

Module ZoneGeometry.
Record t := mk {
  minimum_m : Vector3;
  maximum_m : Vector3;
}.
End ZoneGeometry.

Definition ZoneGeometry_bounds_are_ordered (g : ZoneGeometry.t) : bool :=
  fltb (v_x (ZoneGeometry.minimum_m g)) (v_x (ZoneGeometry.maximum_m g))
  && fltb (v_y (ZoneGeometry.minimum_m g)) (v_y (ZoneGeometry.maximum_m g))
  && fleb (v_z (ZoneGeometry.minimum_m g)) (v_z (ZoneGeometry.maximum_m g)).

Definition midpoint (a b : float) : float := fdiv_ieee (fadd a b) (float_of_Z 2).

Definition center_m (g : ZoneGeometry.t) : Vector3 := {|
  v_x := midpoint (v_x (ZoneGeometry.minimum_m g)) (v_x (ZoneGeometry.maximum_m g));
  v_y := midpoint (v_y (ZoneGeometry.minimum_m g)) (v_y (ZoneGeometry.maximum_m g));
  v_z := midpoint (v_z (ZoneGeometry.minimum_m g)) (v_z (ZoneGeometry.maximum_m g));
|}.

Module ZoneDefinition.
Record t := mk {
  zone_id : string;
  geometry : ZoneGeometry.t;
}.
End ZoneDefinition.

Definition ZoneDefinition_valid (z : ZoneDefinition.t) : bool :=
  is_identifier (ZoneDefinition.zone_id z)
  && ZoneGeometry_bounds_are_ordered (ZoneDefinition.geometry z).

Module FleetMemberDefinition.
Record t := mk {
  vehicle_id : string;
  display_name : string;
  home : Vector3;
  initial_role : InitialFleetRole.t;
  required : bool;
  required_capabilities : capability_set;
}.
End FleetMemberDefinition.

(** [display_name: str = Field(min_length=1, max_length=n)] *)
Definition text_len (lo hi : Z) (s : string) : bool := (lo <=? str_len s) && (str_len s <=? hi).

Definition FleetMemberDefinition_valid (m : FleetMemberDefinition.t) : bool :=
  is_identifier (FleetMemberDefinition.vehicle_id m)
  && text_len 1 120 (FleetMemberDefinition.display_name m).

Module DeploymentTaskDefinition.
Record t := mk {
  task_id : string;
  task_type : string;
  zone_id : string;
  priority : Z;
  mission_id : string;
  mission_parameters : json;
  required_capabilities : capability_set;
  completion_progress_percent : float;
  estimated_duration_s : float;
  estimated_energy_percent : float;
  energy_margin_percent : float;
}.
End DeploymentTaskDefinition.

Definition DeploymentTaskDefinition_valid (d : DeploymentTaskDefinition.t) : bool :=
  is_identifier (DeploymentTaskDefinition.task_id d)
  && is_identifier (DeploymentTaskDefinition.task_type d)
  && is_identifier (DeploymentTaskDefinition.zone_id d)
  && (0 <=? DeploymentTaskDefinition.priority d) && (DeploymentTaskDefinition.priority d <=? 1000)
  && is_identifier (DeploymentTaskDefinition.mission_id d)
  && fltb f0 (DeploymentTaskDefinition.completion_progress_percent d)
  && fleb (DeploymentTaskDefinition.completion_progress_percent d) f100
  && gt0 (DeploymentTaskDefinition.estimated_duration_s d)
  && fltb f0 (DeploymentTaskDefinition.estimated_energy_percent d)
  && fleb (DeploymentTaskDefinition.estimated_energy_percent d) f100
  && is_percentage (DeploymentTaskDefinition.energy_margin_percent d).

Module DockDefinition.
Record t := mk {
  dock_id : string;
  capacity : Z;
  supported_charging_capability : string;
  modeled_charge_rate_percent_per_min : float;
}.
End DockDefinition.

Definition DockDefinition_valid (d : DockDefinition.t) : bool :=
  is_identifier (DockDefinition.dock_id d) && (1 <=? DockDefinition.capacity d)
  && is_identifier (DockDefinition.supported_charging_capability d)
  && gt0 (DockDefinition.modeled_charge_rate_percent_per_min d).

Module FleetConstraints.
Record t := mk {
  warning_separation_m : float;
  critical_separation_m : float;
  observation_freshness_s : float;
  child_failure_policy : FleetFailurePolicy.t;
}.
End FleetConstraints.

(** Field constraints and [separation_thresholds_are_ordered]. *)
Definition FleetConstraints_valid (c : FleetConstraints.t) : bool :=
  gt0 (FleetConstraints.warning_separation_m c) && gt0 (FleetConstraints.critical_separation_m c)
  && gt0 (FleetConstraints.observation_freshness_s c)
  && negb (fleb (FleetConstraints.warning_separation_m c)
                (FleetConstraints.critical_separation_m c)).

Module CompletionPolicy.
Record t := mk {
  require_all_tasks : bool;
  allow_partial_fleet : bool;
}.
End CompletionPolicy.

Module MissionArtifact.
Record t := mk {
  mission_id : string;
  mission_version : string;
  source_sha256 : string;
}.
End MissionArtifact.

Definition MissionArtifact_valid (m : MissionArtifact.t) : bool :=
  is_identifier (MissionArtifact.mission_id m) && text_len 1 64 (MissionArtifact.mission_version m)
  && is_sha256 (MissionArtifact.source_sha256 m).

Module DeploymentManifest.
Record t := mk {
  deployment_id : string;
  fleet : list FleetMemberDefinition.t;
  zones : list ZoneDefinition.t;
  tasks : list DeploymentTaskDefinition.t;
  constraints : FleetConstraints.t;
  docks : list DockDefinition.t;
  completion_policy : CompletionPolicy.t;
}.
End DeploymentManifest.

(** [_require_unique]: [len(sequence) == len(set(sequence))] *)
Definition require_unique (values : list string) (label : string) : outcome unit :=
  if bool_decide (length values = length (remove_dups values)) then Ret tt
  else Raise (ValueError (label +:+ " identities must be unique")).

(** [repr] of a list of identifiers *)
Definition repr_str_list (l : list string) : string :=
  "[" +:+ String.concat ", " ((fun s => "'" +:+ s +:+ "'") <$> l) +:+ "]".

Definition references_are_unique_and_complete (d : DeploymentManifest.t) : outcome unit :=
  _ ← require_unique (FleetMemberDefinition.vehicle_id <$> DeploymentManifest.fleet d) "fleet vehicle";
  _ ← require_unique (ZoneDefinition.zone_id <$> DeploymentManifest.zones d) "zone";
  _ ← require_unique (DeploymentTaskDefinition.task_id <$> DeploymentManifest.tasks d) "task";
  _ ← require_unique (DockDefinition.dock_id <$> DeploymentManifest.docks d) "dock";
  if bool_decide (DeploymentManifest.fleet d = []) then
    Raise (ValueError "deployment requires at least one fleet member")
  else
    let zones := ZoneDefinition.zone_id <$> DeploymentManifest.zones d in
    let unknown_zones := py_sorted str_ltb (remove_dups
      (filter (fun z => z ∉ zones)
              (DeploymentTaskDefinition.zone_id <$> DeploymentManifest.tasks d))) in
    if bool_decide (unknown_zones = []) then Ret tt
    else Raise (ValueError ("tasks reference unknown zones: " +:+ repr_str_list unknown_zones)).

(** A manifest pydantic constructed: its members are valid and
    [references_are_unique_and_complete] passed. *)
Definition DeploymentManifest_valid (d : DeploymentManifest.t) : Prop :=
  is_identifier (DeploymentManifest.deployment_id d) = true /\
  Forall (fun m => FleetMemberDefinition_valid m = true) (DeploymentManifest.fleet d) /\
  Forall (fun z => ZoneDefinition_valid z = true) (DeploymentManifest.zones d) /\
  Forall (fun t => DeploymentTaskDefinition_valid t = true) (DeploymentManifest.tasks d) /\
  Forall (fun k => DockDefinition_valid k = true) (DeploymentManifest.docks d) /\
  FleetConstraints_valid (DeploymentManifest.constraints d) = true /\
  references_are_unique_and_complete d = Ret tt.

(** [manifest.sha256]: the digest of the dumped model. *)
Definition vector_json (v : Vector3) : json :=
  JObj [("x", JFloat (v_x v)); ("y", JFloat (v_y v)); ("z", JFloat (v_z v))].

Definition capability_value (c : VehicleCapability.t) : string :=
  match c with
  | VehicleCapability.ARMING => "arming"
  | VehicleCapability.RELATIVE_POSITIONING => "relative_positioning"
  | VehicleCapability.GLOBAL_POSITIONING => "global_positioning"
  | VehicleCapability.HIGH_LEVEL_COMMANDS => "high_level_commands"
  | VehicleCapability.RANGE_SENSING => "range_sensing"
  | VehicleCapability.PARAMETER_ACCESS => "parameter_access"
  | VehicleCapability.EMERGENCY_STOP => "emergency_stop"
  | VehicleCapability.TIME_PARAMETERIZED_TRAJECTORY => "time_parameterized_trajectory"
  end.

(** [sorted(item.value for item in capabilities)] *)
Definition capability_values (c : capability_set) : list string :=
  py_sorted str_ltb (capability_value <$> elements c).

Definition capabilities_json (c : capability_set) : json := JList (JStr <$> capability_values c).

Definition initial_role_value (r : InitialFleetRole.t) : string :=
  match r with
  | InitialFleetRole.ACTIVE => "ACTIVE"
  | InitialFleetRole.RESERVE => "RESERVE"
  | InitialFleetRole.UNASSIGNED => "UNASSIGNED"
  end.

Definition failure_policy_value (p : FleetFailurePolicy.t) : string :=
  match p with
  | FleetFailurePolicy.CONTINUE_HEALTHY => "CONTINUE_HEALTHY"
  | FleetFailurePolicy.HOLD_ALL => "HOLD_ALL"
  | FleetFailurePolicy.LAND_ALL => "LAND_ALL"
  end.

Definition member_json (m : FleetMemberDefinition.t) : json := JObj [
  ("vehicle_id", JStr (FleetMemberDefinition.vehicle_id m));
  ("display_name", JStr (FleetMemberDefinition.display_name m));
  ("home", vector_json (FleetMemberDefinition.home m));
  ("initial_role", JStr (initial_role_value (FleetMemberDefinition.initial_role m)));
  ("required", JBool (FleetMemberDefinition.required m));
  ("required_capabilities", capabilities_json (FleetMemberDefinition.required_capabilities m))].

Definition zone_json (z : ZoneDefinition.t) : json := JObj [
  ("zone_id", JStr (ZoneDefinition.zone_id z));
  ("geometry", JObj [
    ("minimum_m", vector_json (ZoneGeometry.minimum_m (ZoneDefinition.geometry z)));
    ("maximum_m", vector_json (ZoneGeometry.maximum_m (ZoneDefinition.geometry z)))])].

Definition task_json (t : DeploymentTaskDefinition.t) : json := JObj [
  ("task_id", JStr (DeploymentTaskDefinition.task_id t));
  ("task_type", JStr (DeploymentTaskDefinition.task_type t));
  ("zone_id", JStr (DeploymentTaskDefinition.zone_id t));
  ("priority", JInt (DeploymentTaskDefinition.priority t));
  ("mission_id", JStr (DeploymentTaskDefinition.mission_id t));
  ("mission_parameters", DeploymentTaskDefinition.mission_parameters t);
  ("required_capabilities", capabilities_json (DeploymentTaskDefinition.required_capabilities t));
  ("completion_progress_percent", JFloat (DeploymentTaskDefinition.completion_progress_percent t));
  ("estimated_duration_s", JFloat (DeploymentTaskDefinition.estimated_duration_s t));
  ("estimated_energy_percent", JFloat (DeploymentTaskDefinition.estimated_energy_percent t));
  ("energy_margin_percent", JFloat (DeploymentTaskDefinition.energy_margin_percent t))].

Definition constraints_json (c : FleetConstraints.t) : json := JObj [
  ("warning_separation_m", JFloat (FleetConstraints.warning_separation_m c));
  ("critical_separation_m", JFloat (FleetConstraints.critical_separation_m c));
  ("observation_freshness_s", JFloat (FleetConstraints.observation_freshness_s c));
  ("child_failure_policy", JStr (failure_policy_value (FleetConstraints.child_failure_policy c)))].

Definition dock_json (d : DockDefinition.t) : json := JObj [
  ("dock_id", JStr (DockDefinition.dock_id d));
  ("capacity", JInt (DockDefinition.capacity d));
  ("supported_charging_capability", JStr (DockDefinition.supported_charging_capability d));
  ("modeled_charge_rate_percent_per_min",
    JFloat (DockDefinition.modeled_charge_rate_percent_per_min d))].

Definition completion_json (p : CompletionPolicy.t) : json := JObj [
  ("require_all_tasks", JBool (CompletionPolicy.require_all_tasks p));
  ("allow_partial_fleet", JBool (CompletionPolicy.allow_partial_fleet p))].

Definition DeploymentManifest_sha256 `{Digest} (d : DeploymentManifest.t) : string :=
  canonical_sha256 (JObj [
    ("schema_version", JInt 1);
    ("deployment_id", JStr (DeploymentManifest.deployment_id d));
    ("fleet", JList (member_json <$> DeploymentManifest.fleet d));
    ("zones", JList (zone_json <$> DeploymentManifest.zones d));
    ("tasks", JList (task_json <$> DeploymentManifest.tasks d));
    ("constraints", constraints_json (DeploymentManifest.constraints d));
    ("docks", JList (dock_json <$> DeploymentManifest.docks d));
    ("completion_policy", completion_json (DeploymentManifest.completion_policy d))]).

Definition MissionArtifact_sha256 `{Digest} (m : MissionArtifact.t) : string :=
  canonical_sha256 (JObj [
    ("schema_version", JInt 1);
    ("mission_id", JStr (MissionArtifact.mission_id m));
    ("mission_version", JStr (MissionArtifact.mission_version m));
    ("source_sha256", JStr (MissionArtifact.source_sha256 m))]).

Definition required_vehicle_ids (d : DeploymentManifest.t) : list string :=
  FleetMemberDefinition.vehicle_id <$>
    filter (fun m => FleetMemberDefinition.required m = true) (DeploymentManifest.fleet d).

(** The first declared member with the identity. *)
Definition member (d : DeploymentManifest.t) (vehicle_id : string) :
    outcome FleetMemberDefinition.t :=
  match find_first (fun m => String.eqb (FleetMemberDefinition.vehicle_id m) vehicle_id)
                   (DeploymentManifest.fleet d) with
  | Some m => Ret m
  | None => Err IDENTITY_MISMATCH ("vehicle is not declared by deployment: " +:+ vehicle_id)
  end.

(** ** Backend bindings *)

Module BackendVehicleBinding.
Record t := mk {
  vehicle_id : string;
  backend_identifier : string;
  expected_vehicle_id : string;
  operator_selected : bool;
}.
End BackendVehicleBinding.

Definition BackendVehicleBinding_valid (v : BackendVehicleBinding.t) : bool :=
  is_identifier (BackendVehicleBinding.vehicle_id v)
  && text_len 1 500 (BackendVehicleBinding.backend_identifier v)
  && is_identifier (BackendVehicleBinding.expected_vehicle_id v).

Module BackendBindingProfile.
Record t := mk {
  binding_id : string;
  backend : ExecutionBackend.t;
  vehicles : list BackendVehicleBinding.t;
  backend_options : list (string * json);
}.
End BackendBindingProfile.

Definition bindings_are_unique_and_not_crossed (b : BackendBindingProfile.t) : outcome unit :=
  let vehicles := BackendBindingProfile.vehicles b in
  _ ← require_unique (BackendVehicleBinding.vehicle_id <$> vehicles) "logical binding";
  _ ← require_unique (BackendVehicleBinding.backend_identifier <$> vehicles) "backend binding";
  let crossed := BackendVehicleBinding.vehicle_id <$>
    filter (fun v => BackendVehicleBinding.expected_vehicle_id v <> BackendVehicleBinding.vehicle_id v)
           vehicles in
  if negb (bool_decide (crossed = [])) then
    Raise (ValueError ("cross-bound vehicle identities are forbidden: " +:+ repr_str_list crossed))
  else if (BackendBindingProfile.backend b ≟ ExecutionBackend.CRAZYFLIE)
       && existsb (fun v => negb (BackendVehicleBinding.operator_selected v)) vehicles then
    Raise (ValueError "every physical binding must be selected explicitly by an operator")
  else Ret tt.

Definition backend_value (b : ExecutionBackend.t) : string :=
  match b with
  | ExecutionBackend.FAST_SIM => "FAST_SIM"
  | ExecutionBackend.MOCK_ISAAC => "MOCK_ISAAC"
  | ExecutionBackend.ISAAC => "ISAAC"
  | ExecutionBackend.CRAZYFLIE => "CRAZYFLIE"
  end.

Definition BackendBindingProfile_sha256 `{Digest} (b : BackendBindingProfile.t) : string :=
  canonical_sha256 (JObj [
    ("schema_version", JInt 1);
    ("binding_id", JStr (BackendBindingProfile.binding_id b));
    ("backend", JStr (backend_value (BackendBindingProfile.backend b)));
    ("vehicles", JList ((fun v => JObj [
       ("vehicle_id", JStr (BackendVehicleBinding.vehicle_id v));
       ("backend_identifier", JStr (BackendVehicleBinding.backend_identifier v));
       ("expected_vehicle_id", JStr (BackendVehicleBinding.expected_vehicle_id v));
       ("operator_selected", JBool (BackendVehicleBinding.operator_selected v))])
       <$> BackendBindingProfile.vehicles b));
    ("backend_options", JObj (BackendBindingProfile.backend_options b))]).

(** A profile pydantic constructed. *)
Definition BackendBindingProfile_valid (b : BackendBindingProfile.t) : Prop :=
  is_identifier (BackendBindingProfile.binding_id b) = true /\
  Forall (fun v => BackendVehicleBinding_valid v = true) (BackendBindingProfile.vehicles b) /\
  bindings_are_unique_and_not_crossed b = Ret tt.

Definition validate_for (b : BackendBindingProfile.t) (d : DeploymentManifest.t) : outcome unit :=
  let declared := FleetMemberDefinition.vehicle_id <$> DeploymentManifest.fleet d in
  let bound := BackendVehicleBinding.vehicle_id <$> BackendBindingProfile.vehicles b in
  let missing := filter (fun v => v ∉ bound) (required_vehicle_ids d) in
  let unexpected := filter (fun v => v ∉ declared) bound in
  if negb (bool_decide (missing = [])) || negb (bool_decide (unexpected = [])) then
    Err IDENTITY_MISMATCH "binding profile does not match the deployment fleet"
  else Ret tt.

Definition binding (b : BackendBindingProfile.t) (vehicle_id : string) :
    outcome BackendVehicleBinding.t :=
  match find_first (fun v => String.eqb (BackendVehicleBinding.vehicle_id v) vehicle_id)
                   (BackendBindingProfile.vehicles b) with
  | Some v => Ret v
  | None => Err IDENTITY_MISMATCH ("vehicle has no backend binding: " +:+ vehicle_id)
  end.

(** ** Fleet session identity *)

Module FleetSessionIdentity.
Record t := mk {
  fleet_session_id : string;
  fleet_run_id : string;
  backend : ExecutionBackend.t;
  mission_sha256 : string;
  deployment_sha256 : string;
  binding_sha256 : string;
  model_id : string;
  scenario_id : string;
  initial_state_sha256 : string;
}.
End FleetSessionIdentity.

Definition FleetSessionIdentity_valid (i : FleetSessionIdentity.t) : bool :=
  is_identifier (FleetSessionIdentity.fleet_session_id i)
  && is_identifier (FleetSessionIdentity.fleet_run_id i)
  && is_sha256 (FleetSessionIdentity.mission_sha256 i)
  && is_sha256 (FleetSessionIdentity.deployment_sha256 i)
  && is_sha256 (FleetSessionIdentity.binding_sha256 i)
  && is_identifier (FleetSessionIdentity.model_id i)
  && is_identifier (FleetSessionIdentity.scenario_id i)
  && is_sha256 (FleetSessionIdentity.initial_state_sha256 i).

Definition FleetSessionIdentity_create `{Digest} (fleet_session_id fleet_run_id : string)
    (backend : ExecutionBackend.t) (mission : MissionArtifact.t) (deployment : DeploymentManifest.t)
    (b : BackendBindingProfile.t) (model_id scenario_id : string) (initial_state : json) :
    outcome FleetSessionIdentity.t :=
  _ ← validate_for b deployment;
  if BackendBindingProfile.backend b ≠? backend then
    Err IDENTITY_MISMATCH "session backend mismatch"
  else
    let identity := {|
      FleetSessionIdentity.fleet_session_id := fleet_session_id;
      FleetSessionIdentity.fleet_run_id := fleet_run_id;
      FleetSessionIdentity.backend := backend;
      FleetSessionIdentity.mission_sha256 := MissionArtifact_sha256 mission;
      FleetSessionIdentity.deployment_sha256 := DeploymentManifest_sha256 deployment;
      FleetSessionIdentity.binding_sha256 := BackendBindingProfile_sha256 b;
      FleetSessionIdentity.model_id := model_id;
      FleetSessionIdentity.scenario_id := scenario_id;
      FleetSessionIdentity.initial_state_sha256 := canonical_sha256 initial_state |} in
    if FleetSessionIdentity_valid identity then Ret identity
    else Raise (ValidationError "FleetSessionIdentity").

Definition FleetSessionIdentity_sha256 `{Digest} (i : FleetSessionIdentity.t) : string :=
  canonical_sha256 (JObj [
    ("schema_version", JInt 1);
    ("fleet_session_id", JStr (FleetSessionIdentity.fleet_session_id i));
    ("fleet_run_id", JStr (FleetSessionIdentity.fleet_run_id i));
    ("backend", JStr (backend_value (FleetSessionIdentity.backend i)));
    ("mission_sha256", JStr (FleetSessionIdentity.mission_sha256 i));
    ("deployment_sha256", JStr (FleetSessionIdentity.deployment_sha256 i));
    ("binding_sha256", JStr (FleetSessionIdentity.binding_sha256 i));
    ("model_id", JStr (FleetSessionIdentity.model_id i));
    ("scenario_id", JStr (FleetSessionIdentity.scenario_id i));
    ("initial_state_sha256", JStr (FleetSessionIdentity.initial_state_sha256 i))]).

(** ** Lookups in validated documents *)

Lemma remove_dups_length {A} `{!EqDecision A} (l : list A) : (length (remove_dups l) <= length l)%nat.
Proof. induction l as [|x l IH]; simpl; [done|]. case_decide; simpl; lia. Qed.

Lemma require_unique_NoDup values label : require_unique values label = Ret tt -> NoDup values.
Proof.
  unfold require_unique. case_bool_decide as H; [|done]. intros _. revert H.
  induction values as [|x l IH]; simpl; [constructor|].
  pose proof (remove_dups_length l). case_decide as E; simpl; [lia|].
  intros H'. constructor; [done|]. apply IH. lia.
Qed.

Lemma find_first_exists {A} (p : A -> bool) l a :
  a ∈ l -> p a = true -> exists b, find_first p l = Some b /\ b ∈ l /\ p b = true.
Proof.
  intros Ha Hp. destruct (find_first p l) as [b|] eqn:E.
  - exists b. split; [done|]. by apply find_first_Some.
  - apply find_first_None in E. rewrite Forall_forall in E. by rewrite (E a Ha) in Hp.
Qed.

Lemma outcome_bind_Ret {A B} (o : outcome A) (f : A -> outcome B) b :
  o ≫= f = Ret b -> exists a, o = Ret a /\ f a = Ret b.
Proof. destruct o as [a|e]; [|done]. intros H. by exists a. Qed.

(** What [references_are_unique_and_complete] establishes. *)
Lemma references_spec d :
  references_are_unique_and_complete d = Ret tt ->
  NoDup (FleetMemberDefinition.vehicle_id <$> DeploymentManifest.fleet d) /\
  NoDup (DeploymentTaskDefinition.task_id <$> DeploymentManifest.tasks d) /\
  DeploymentManifest.fleet d <> [] /\
  forall t, t ∈ DeploymentManifest.tasks d ->
    DeploymentTaskDefinition.zone_id t ∈ ZoneDefinition.zone_id <$> DeploymentManifest.zones d.
Proof.
  intros H. apply outcome_bind_Ret in H as ([] & Hf & H). apply outcome_bind_Ret in H as ([] & _ & H).
  apply outcome_bind_Ret in H as ([] & Ht & H). apply outcome_bind_Ret in H as ([] & _ & H).
  case_bool_decide as Hne; [done|]. cbv zeta in H. case_bool_decide as Hz; [|done].
  split_and!; [by eapply require_unique_NoDup..|done|].
  intros t Ht'. destruct (decide (DeploymentTaskDefinition.zone_id t
    ∈ ZoneDefinition.zone_id <$> DeploymentManifest.zones d)) as [|Hnin]; [done|exfalso].
  assert (DeploymentTaskDefinition.zone_id t ∈ (@nil string)) as Hin; [|by apply elem_of_nil in Hin].
  rewrite <- Hz, elem_of_py_sorted, elem_of_remove_dups. apply list_elem_of_filter.
  split; [done|]. by apply list_elem_of_fmap_2.
Qed.

(** A session identity is only created for a fleet that is bound completely and
    without crossing.  When [create] returns for a validated binding profile, the
    backend matches, every required vehicle has a binding whose hardware expects
    exactly that vehicle, and no binding names a vehicle outside the
    deployment. *)
Theorem session_identity_binds_fleet {dig : Digest} sid rid backend mission d b model scenario init i :
  BackendBindingProfile_valid b ->
  FleetSessionIdentity_create sid rid backend mission d b model scenario init = Ret i ->
  FleetSessionIdentity_valid i = true /\ BackendBindingProfile.backend b = backend /\
  (forall v, v ∈ required_vehicle_ids d ->
     exists bound, binding b v = Ret bound /\ BackendVehicleBinding.vehicle_id bound = v /\
       BackendVehicleBinding.expected_vehicle_id bound = v) /\
  (forall bound, bound ∈ BackendBindingProfile.vehicles b ->
     returned (member d (BackendVehicleBinding.vehicle_id bound))).
Proof.
  intros (_ & _ & Hb) H. apply outcome_bind_Ret in H as ([] & Hfor & H).
  case_bool_decide as Hbk; [|done]. simpl in H.
  destruct (FleetSessionIdentity_valid _) eqn:Hv; [|done]. injection H as <-.
  apply outcome_bind_Ret in Hb as ([] & _ & Hb). apply outcome_bind_Ret in Hb as ([] & _ & Hb).
  cbv zeta in Hb. match type of Hb with context [negb (bool_decide ?P)] =>
    destruct (decide P) as [Hcross|Hn]; [clear Hb|by rewrite (bool_decide_eq_false_2 P Hn) in Hb] end.
  unfold validate_for in Hfor. cbv zeta in Hfor.
  match type of Hfor with context [(negb (bool_decide ?P) || negb (bool_decide ?Q))%bool] =>
    destruct (decide P) as [Hmiss|Hn]; [|by rewrite (bool_decide_eq_false_2 P Hn) in Hfor];
    destruct (decide Q) as [Hunexp|Hn];
      [|by rewrite (bool_decide_eq_false_2 Q Hn), orb_true_r in Hfor] end.
  clear Hfor. split_and!; [done|done| |].
  - intros v Hv'. destruct (decide (v ∈ BackendVehicleBinding.vehicle_id <$>
      BackendBindingProfile.vehicles b)) as [Hin|Hnin].
    2: { exfalso. assert (v ∈ (@nil string)) as Hin; [|by apply elem_of_nil in Hin].
         rewrite <- Hmiss. by apply list_elem_of_filter. }
    apply list_elem_of_fmap in Hin as (bound & -> & Hin).
    destruct (find_first_exists (fun v => String.eqb (BackendVehicleBinding.vehicle_id v)
      (BackendVehicleBinding.vehicle_id bound)) _ _ Hin (String.eqb_refl _)) as (b' & Hf & Hin' & E).
    bool_to_prop. exists b'. unfold binding. rewrite Hf. split_and!; [done|done|].
    destruct (decide (BackendVehicleBinding.expected_vehicle_id b' = BackendVehicleBinding.vehicle_id b'))
      as [|Hne]; [congruence|exfalso].
    assert (BackendVehicleBinding.vehicle_id b' ∈ (@nil string)) as Hn; [|by apply elem_of_nil in Hn].
    rewrite <- Hcross. apply list_elem_of_fmap_2, list_elem_of_filter. done.
  - intros bound Hin. unfold member.
    destruct (decide (BackendVehicleBinding.vehicle_id bound
      ∈ FleetMemberDefinition.vehicle_id <$> DeploymentManifest.fleet d)) as [Hd|Hnd].
    + apply list_elem_of_fmap in Hd as (m & E & Hm).
      destruct (find_first_exists (fun m => String.eqb (FleetMemberDefinition.vehicle_id m)
        (BackendVehicleBinding.vehicle_id bound)) _ m Hm) as (m' & -> & _); [|by exists m'].
      rewrite E. apply String.eqb_refl.
    + exfalso. assert (BackendVehicleBinding.vehicle_id bound ∈ (@nil string)) as Hn;
        [|by apply elem_of_nil in Hn].
      rewrite <- Hunexp. apply list_elem_of_filter. split; [done|]. by apply list_elem_of_fmap_2.
Qed.

(** A validated deployment resolves every reference: its vehicle and task
    identities are unique, every declared member is found under its identity, and
    every task lies in a declared zone. *)
Theorem validated_deployment_resolves d :
  DeploymentManifest_valid d ->
  NoDup (DeploymentTaskDefinition.task_id <$> DeploymentManifest.tasks d) /\
  (forall m, m ∈ DeploymentManifest.fleet d ->
     member d (FleetMemberDefinition.vehicle_id m) = Ret m) /\
  (forall t, t ∈ DeploymentManifest.tasks d -> exists z, z ∈ DeploymentManifest.zones d /\
     ZoneDefinition.zone_id z = DeploymentTaskDefinition.zone_id t).
Proof.
  intros (_ & _ & _ & _ & _ & _ & (Hf & Ht & _ & Hz)%references_spec). split_and!; [done| |].
  - intros m Hm. unfold member.
    destruct (find_first_exists (fun m' => String.eqb (FleetMemberDefinition.vehicle_id m')
      (FleetMemberDefinition.vehicle_id m)) _ _ Hm (String.eqb_refl _)) as (m' & -> & Hm' & E).
    bool_to_prop. f_equal.
    apply list_elem_of_lookup in Hm as [i Hi]. apply list_elem_of_lookup in Hm' as [j Hj].
    assert (i = j) as ->; [|congruence].
    eapply (NoDup_lookup _ i j (FleetMemberDefinition.vehicle_id m) Hf);
      rewrite list_lookup_fmap; [by rewrite Hi|by rewrite Hj; simpl; rewrite E].
  - intros t Hin. apply Hz in Hin. apply list_elem_of_fmap in Hin as (z & E & Hz'). by exists z.
Qed.

(** ** Witnesses: one vehicle in one zone *)
Module Examples.
#[local] Existing Instance example_digest.

Definition origin : Vector3 := Vector3_zero.
Definition corner : Vector3 := {| v_x := f1; v_y := f1; v_z := f1 |}.
Definition lab : DeploymentManifest.t := {|
  DeploymentManifest.deployment_id := "lab";
  DeploymentManifest.fleet :=
    [FleetMemberDefinition.mk "cf1" "One" origin InitialFleetRole.ACTIVE true ∅];
  DeploymentManifest.zones := [ZoneDefinition.mk "zone-a" (ZoneGeometry.mk origin corner)];
  DeploymentManifest.tasks :=
    [DeploymentTaskDefinition.mk "t1" "SURVEY" "zone-a" 1 "hover" (JObj []) ∅ f100 f1 f1 f1];
  DeploymentManifest.constraints := FleetConstraints.mk f100 f1 f1 FleetFailurePolicy.HOLD_ALL;
  DeploymentManifest.docks := [];
  DeploymentManifest.completion_policy := CompletionPolicy.mk true false |}.

Definition simulated : BackendBindingProfile.t := {|
  BackendBindingProfile.binding_id := "sim";
  BackendBindingProfile.backend := ExecutionBackend.FAST_SIM;
  BackendBindingProfile.vehicles := [BackendVehicleBinding.mk "cf1" "sim://1" "cf1" false];
  BackendBindingProfile.backend_options := [] |}.

Definition hover : MissionArtifact.t := MissionArtifact.mk "hover" "1" (canonical_sha256 JNull).

Lemma simulated_valid : BackendBindingProfile_valid simulated.
Proof. split_and!; [reflexivity|by repeat constructor|vm_compute; reflexivity]. Qed.

Lemma session_identity_witness :
  exists i, FleetSessionIdentity_create "s" "r" ExecutionBackend.FAST_SIM hover lab simulated
    "model" "scenario" JNull = Ret i /\ FleetSessionIdentity_valid i = true.
Proof.
  destruct (FleetSessionIdentity_create "s" "r" ExecutionBackend.FAST_SIM hover lab simulated
    "model" "scenario" JNull) as [i|e] eqn:Hc; [|vm_compute in Hc; discriminate Hc].
  exists i. split; [reflexivity|].
  apply (session_identity_binds_fleet "s" "r" ExecutionBackend.FAST_SIM hover lab simulated
    "model" "scenario" JNull i simulated_valid Hc).
Defined.

Lemma resolves_witness :
  exists z, z ∈ DeploymentManifest.zones lab /\ ZoneDefinition.zone_id z = "zone-a".
Proof.
  refine (proj2 (proj2 (validated_deployment_resolves lab _))
    (DeploymentTaskDefinition.mk "t1" "SURVEY" "zone-a" 1 "hover" (JObj []) ∅ f100 f1 f1 f1) _).
  - split_and!; try (by repeat constructor); vm_compute; reflexivity.
  - left.
Defined.
End Examples.
