(* ===== verification/Tasks.v ===== *)
(** * Task ledger ([fleet/tasks.py])

    The ledger owns the state of every fleet task: which vehicle holds the
    task's lease, under which generation, and the evidence of every change.
    [TaskLedger.t] has the attributes of the Python object; its operations are
    computations over it that end with [_emit], as in the source.

    Main results: the lease and the state of a task agree in every reachable
    ledger ([ledger_ok]), an operation under an old lease generation is refused
    and changes nothing, finished tasks stay finished, progress never goes
    down, and the evidence of a task replays to its current state. *)

From S2P Require Import Prelude Float64 Effects Contracts Artifacts.

Module TaskState.
Inductive t := DECLARED | ASSIGNED | IN_PROGRESS | PAUSED | RETRY_PENDING | COMPLETED | ABORTED.
End TaskState.
#[export] Instance TaskState_eq_dec : EqDecision TaskState.t.
Proof. solve_decision. Defined.

Module TaskDecision.
Inductive t := COMPLETE | RETRY | REASSIGN | ABORT.
End TaskDecision.
#[export] Instance TaskDecision_eq_dec : EqDecision TaskDecision.t.
Proof. solve_decision. Defined.

Module TaskLease.
Record t := mk {
  fleet_session_id : string;
  fleet_run_id : string;
  deployment_sha256 : string;
  task_id : string;
  vehicle_id : string;
  generation : Z;
  issued_at_monotonic_s : float;
  expires_at_monotonic_s : float;
}.

Definition set_expires_at_monotonic_s (v : float) (r : t) : t :=
  {| fleet_session_id := fleet_session_id r; fleet_run_id := fleet_run_id r; deployment_sha256 :=
     deployment_sha256 r; task_id := task_id r; vehicle_id := vehicle_id r; generation :=
     generation r; issued_at_monotonic_s := issued_at_monotonic_s r; expires_at_monotonic_s := v |}.
End TaskLease.

Definition TaskLease_valid (l : TaskLease.t) : bool :=
  is_identifier (TaskLease.fleet_session_id l) && is_identifier (TaskLease.fleet_run_id l)
  && is_sha256 (TaskLease.deployment_sha256 l) && is_identifier (TaskLease.task_id l)
  && is_identifier (TaskLease.vehicle_id l) && (1 <=? TaskLease.generation l)
  && ge0 (TaskLease.issued_at_monotonic_s l) && gt0 (TaskLease.expires_at_monotonic_s l).

Module TaskEvidenceEvent.
Record t := mk {
  fleet_session_id : string;
  fleet_run_id : string;
  deployment_sha256 : string;
  sequence : Z;
  task_id : string;
  event_type : string;
  state : TaskState.t;
  timestamp_monotonic_s : float;
  owner_vehicle_id : option string;
  lease_generation : Z;
  progress_percent : float;
  reason : option string;
  child_mission_run_id : option string;
}.
End TaskEvidenceEvent.

Definition TaskEvidenceEvent_valid (e : TaskEvidenceEvent.t) : bool :=
  is_identifier (TaskEvidenceEvent.fleet_session_id e)
  && is_identifier (TaskEvidenceEvent.fleet_run_id e)
  && is_sha256 (TaskEvidenceEvent.deployment_sha256 e)
  && (1 <=? TaskEvidenceEvent.sequence e) && is_identifier (TaskEvidenceEvent.task_id e)
  && is_identifier (TaskEvidenceEvent.event_type e)
  && ge0 (TaskEvidenceEvent.timestamp_monotonic_s e)
  && opt_ok is_identifier (TaskEvidenceEvent.owner_vehicle_id e)
  && (0 <=? TaskEvidenceEvent.lease_generation e)
  && is_percentage (TaskEvidenceEvent.progress_percent e)
  && opt_ok (fun r => str_len r <=? 500) (TaskEvidenceEvent.reason e)
  && opt_ok is_identifier (TaskEvidenceEvent.child_mission_run_id e).

Module TaskRecord.
Record t := mk {
  definition : DeploymentTaskDefinition.t;
  state : TaskState.t;
  owner_vehicle_id : option string;
  lease : option TaskLease.t;
  lease_generation : Z;
  progress_percent : float;
  attempts : Z;
  decision : option TaskDecision.t;
  terminal_reason : option string;
  child_mission_run_id : option string;
  events : list TaskEvidenceEvent.t;
}.

Definition set_state (v : TaskState.t) (r : t) : t :=
  {| definition := definition r; state := v; owner_vehicle_id := owner_vehicle_id r; lease :=
     lease r; lease_generation := lease_generation r; progress_percent := progress_percent r;
     attempts := attempts r; decision := decision r; terminal_reason := terminal_reason r;
     child_mission_run_id := child_mission_run_id r; events := events r |}.
Definition set_owner_vehicle_id (v : option string) (r : t) : t :=
  {| definition := definition r; state := state r; owner_vehicle_id := v; lease := lease r;
     lease_generation := lease_generation r; progress_percent := progress_percent r; attempts :=
     attempts r; decision := decision r; terminal_reason := terminal_reason r;
     child_mission_run_id := child_mission_run_id r; events := events r |}.
Definition set_lease (v : option TaskLease.t) (r : t) : t :=
  {| definition := definition r; state := state r; owner_vehicle_id := owner_vehicle_id r; lease
     := v; lease_generation := lease_generation r; progress_percent := progress_percent r;
     attempts := attempts r; decision := decision r; terminal_reason := terminal_reason r;
     child_mission_run_id := child_mission_run_id r; events := events r |}.
Definition set_lease_generation (v : Z) (r : t) : t :=
  {| definition := definition r; state := state r; owner_vehicle_id := owner_vehicle_id r; lease
     := lease r; lease_generation := v; progress_percent := progress_percent r; attempts :=
     attempts r; decision := decision r; terminal_reason := terminal_reason r;
     child_mission_run_id := child_mission_run_id r; events := events r |}.
Definition set_progress_percent (v : float) (r : t) : t :=
  {| definition := definition r; state := state r; owner_vehicle_id := owner_vehicle_id r; lease
     := lease r; lease_generation := lease_generation r; progress_percent := v; attempts :=
     attempts r; decision := decision r; terminal_reason := terminal_reason r;
     child_mission_run_id := child_mission_run_id r; events := events r |}.
Definition set_attempts (v : Z) (r : t) : t :=
  {| definition := definition r; state := state r; owner_vehicle_id := owner_vehicle_id r; lease
     := lease r; lease_generation := lease_generation r; progress_percent := progress_percent r;
     attempts := v; decision := decision r; terminal_reason := terminal_reason r;
     child_mission_run_id := child_mission_run_id r; events := events r |}.
Definition set_decision (v : option TaskDecision.t) (r : t) : t :=
  {| definition := definition r; state := state r; owner_vehicle_id := owner_vehicle_id r; lease
     := lease r; lease_generation := lease_generation r; progress_percent := progress_percent r;
     attempts := attempts r; decision := v; terminal_reason := terminal_reason r;
     child_mission_run_id := child_mission_run_id r; events := events r |}.
Definition set_terminal_reason (v : option string) (r : t) : t :=
  {| definition := definition r; state := state r; owner_vehicle_id := owner_vehicle_id r; lease
     := lease r; lease_generation := lease_generation r; progress_percent := progress_percent r;
     attempts := attempts r; decision := decision r; terminal_reason := v; child_mission_run_id
     := child_mission_run_id r; events := events r |}.
Definition set_child_mission_run_id (v : option string) (r : t) : t :=
  {| definition := definition r; state := state r; owner_vehicle_id := owner_vehicle_id r; lease
     := lease r; lease_generation := lease_generation r; progress_percent := progress_percent r;
     attempts := attempts r; decision := decision r; terminal_reason := terminal_reason r;
     child_mission_run_id := v; events := events r |}.
Definition set_events (v : list TaskEvidenceEvent.t) (r : t) : t :=
  {| definition := definition r; state := state r; owner_vehicle_id := owner_vehicle_id r; lease
     := lease r; lease_generation := lease_generation r; progress_percent := progress_percent r;
     attempts := attempts r; decision := decision r; terminal_reason := terminal_reason r;
     child_mission_run_id := child_mission_run_id r; events := v |}.
End TaskRecord.

Definition TaskRecord_valid (r : TaskRecord.t) : bool :=
  opt_ok is_identifier (TaskRecord.owner_vehicle_id r) && (0 <=? TaskRecord.lease_generation r)
  && is_percentage (TaskRecord.progress_percent r) && (0 <=? TaskRecord.attempts r)
  && opt_ok is_identifier (TaskRecord.child_mission_run_id r).

(** [TaskRecord(definition=definition)] *)
Definition TaskRecord_new (definition : DeploymentTaskDefinition.t) : TaskRecord.t := {|
  TaskRecord.definition := definition;
  TaskRecord.state := TaskState.DECLARED;
  TaskRecord.owner_vehicle_id := None;
  TaskRecord.lease := None;
  TaskRecord.lease_generation := 0;
  TaskRecord.progress_percent := f0;
  TaskRecord.attempts := 0;
  TaskRecord.decision := None;
  TaskRecord.terminal_reason := None;
  TaskRecord.child_mission_run_id := None;
  TaskRecord.events := [] |}.

Module TaskLedger.
Record t := mk {
  fleet_session_id : string;
  fleet_run_id : string;
  deployment_sha256 : string;
  lease_duration_s : float;
  _records : dict TaskRecord.t;
  _event_sequence : Z;
}.

Definition set__records (v : dict TaskRecord.t) (r : t) : t :=
  {| fleet_session_id := fleet_session_id r; fleet_run_id := fleet_run_id r; deployment_sha256 :=
     deployment_sha256 r; lease_duration_s := lease_duration_s r; _records := v; _event_sequence
     := _event_sequence r |}.
Definition set__event_sequence (v : Z) (r : t) : t :=
  {| fleet_session_id := fleet_session_id r; fleet_run_id := fleet_run_id r; deployment_sha256 :=
     deployment_sha256 r; lease_duration_s := lease_duration_s r; _records := _records r;
     _event_sequence := v |}.
End TaskLedger.

Import TaskRecord (set_state, set_owner_vehicle_id, set_lease, set_lease_generation,
  set_progress_percent, set_attempts, set_decision, set_terminal_reason,
  set_child_mission_run_id, set_events).

(** [record.model_copy(update={...})] applies the setters left to right. *)
Notation "r |> f" := (f r) (at level 62, left associativity, only parsing) : swarm_scope.

Section ledger.
Context {clk : Clock}.

Notation ledger := TaskLedger.t.

(** [_now]: the given time, or a reading of the clock. *)
Definition _now {S} (value : option float) : M S float :=
  match value with None => read_clock | Some v => mret v end.

(** [self._records[task_id] = record] *)
Definition store_record (task_id : string) (r : TaskRecord.t) : M ledger unit :=
  modify (fun self => TaskLedger.set__records (dict_set task_id r (TaskLedger._records self)) self).

Definition record (task_id : string) : M ledger TaskRecord.t :=
  self ← get;
  match dict_get task_id (TaskLedger._records self) with
  | Some r => mret r
  | None => raise (CrazySwarmError INVALID_COMMAND ("unknown fleet task: " +:+ task_id))
  end.

(** [records()]: in the order of the task identities. *)
Definition records (self : ledger) : list TaskRecord.t :=
  omap (fun key => dict_get key (TaskLedger._records self))
       (py_sorted str_ltb (dict_keys (TaskLedger._records self))).

Definition _emit (task_id event_type : string) (reason : option string) : M ledger TaskRecord.t :=
  record0 ← record task_id;
  _ ← modify (fun self => TaskLedger.set__event_sequence (TaskLedger._event_sequence self + 1) self);
  self ← get;
  timestamp ← read_clock;
  let event := {|
    TaskEvidenceEvent.fleet_session_id := TaskLedger.fleet_session_id self;
    TaskEvidenceEvent.fleet_run_id := TaskLedger.fleet_run_id self;
    TaskEvidenceEvent.deployment_sha256 := TaskLedger.deployment_sha256 self;
    TaskEvidenceEvent.sequence := TaskLedger._event_sequence self;
    TaskEvidenceEvent.task_id := task_id;
    TaskEvidenceEvent.event_type := event_type;
    TaskEvidenceEvent.state := TaskRecord.state record0;
    TaskEvidenceEvent.timestamp_monotonic_s := timestamp;
    TaskEvidenceEvent.owner_vehicle_id := TaskRecord.owner_vehicle_id record0;
    TaskEvidenceEvent.lease_generation := TaskRecord.lease_generation record0;
    TaskEvidenceEvent.progress_percent := TaskRecord.progress_percent record0;
    TaskEvidenceEvent.reason := reason;
    TaskEvidenceEvent.child_mission_run_id := TaskRecord.child_mission_run_id record0 |} in
  event ← validated "TaskEvidenceEvent" (TaskEvidenceEvent_valid event) event;
  let updated := record0 |> set_events (TaskRecord.events record0 ++ [event]) in
  _ ← store_record task_id updated;
  mret updated.

(** ** Construction *)

(** [TaskLedger(...)]: assigns the attributes of a fresh object and declares
    the tasks. *)
Definition TaskLedger_init (fleet_session_id fleet_run_id deployment_sha256 : string)
    (definitions : list DeploymentTaskDefinition.t) (lease_duration_s : float) : M ledger unit :=
  _ ← raise_if (fleb lease_duration_s f0) (ValueError "task lease duration must be positive");
  let _records := dict_of DeploymentTaskDefinition.task_id TaskRecord_new definitions in
  _ ← put {|
    TaskLedger.fleet_session_id := fleet_session_id;
    TaskLedger.fleet_run_id := fleet_run_id;
    TaskLedger.deployment_sha256 := deployment_sha256;
    TaskLedger.lease_duration_s := lease_duration_s;
    TaskLedger._records := _records;
    TaskLedger._event_sequence := 0 |};
  _ ← raise_if (negb (bool_decide (length _records = length definitions)))
               (ValueError "task identities must be unique");
  for_each (py_sorted str_ltb (dict_keys _records))
           (fun task_id => _ ← _emit task_id "TASK_DECLARED" None; mret tt).

(** ** Guards *)

(** [record.definition.required_capabilities - capabilities], nonempty *)
Definition capabilities_missing (record0 : TaskRecord.t) (capabilities : capability_set) : bool :=
  negb (bool_decide
    (DeploymentTaskDefinition.required_capabilities (TaskRecord.definition record0) ∖ capabilities = ∅)).

Definition required_energy (d : DeploymentTaskDefinition.t) : float :=
  fadd (DeploymentTaskDefinition.estimated_energy_percent d)
       (DeploymentTaskDefinition.energy_margin_percent d).

(** [battery_percent is None or battery_percent < required_energy] *)
Definition energy_inadequate (record0 : TaskRecord.t) (battery_percent : option float) : bool :=
  match battery_percent with
  | None => true
  | Some b => fltb b (required_energy (TaskRecord.definition record0))
  end.

Definition _validate_assignment_energy_and_capability (record0 : TaskRecord.t)
    (capabilities : capability_set) (battery_percent : option float) : M ledger unit :=
  _ ← raise_if (capabilities_missing record0 capabilities)
        (CrazySwarmError CAPABILITY_MISSING "vehicle does not satisfy task capabilities");
  raise_if (energy_inadequate record0 battery_percent)
    (CrazySwarmError CRITICAL_BATTERY "task assignment has inadequate observed energy margin").

(** The lease test of [_require_current_lease]. *)
Definition is_current_owner (record0 : TaskRecord.t) (vehicle_id : string) (generation : Z) : bool :=
  match TaskRecord.lease record0 with
  | None => false
  | Some lease =>
      String.eqb (TaskLease.vehicle_id lease) vehicle_id
      && (TaskLease.generation lease =? generation)
      && bool_decide (TaskRecord.owner_vehicle_id record0 = Some vehicle_id)
  end.

Definition lease_expired (record0 : TaskRecord.t) (now : float) : bool :=
  match TaskRecord.lease record0 with
  | None => false
  | Some lease => fleb (TaskLease.expires_at_monotonic_s lease) now
  end.

Definition _require_current_lease (task_id vehicle_id : string) (generation : Z)
    (now_s : option float) : M ledger TaskRecord.t :=
  record0 ← record task_id;
  now ← _now now_s;
  _ ← raise_if (negb (is_current_owner record0 vehicle_id generation))
        (CrazySwarmError MODE_NOT_AUTHORIZED "current task ownership is required");
  _ ← raise_if (lease_expired record0 now)
        (CrazySwarmError MODE_NOT_AUTHORIZED "task lease has expired");
  mret record0.

(** [TaskLease(...)] for the task's next generation *)
Definition new_lease (task_id vehicle_id : string) (generation : Z) (now : float) :
    M ledger TaskLease.t :=
  self ← get;
  let lease := {|
    TaskLease.fleet_session_id := TaskLedger.fleet_session_id self;
    TaskLease.fleet_run_id := TaskLedger.fleet_run_id self;
    TaskLease.deployment_sha256 := TaskLedger.deployment_sha256 self;
    TaskLease.task_id := task_id;
    TaskLease.vehicle_id := vehicle_id;
    TaskLease.generation := generation;
    TaskLease.issued_at_monotonic_s := now;
    TaskLease.expires_at_monotonic_s := fadd now (TaskLedger.lease_duration_s self) |} in
  validated "TaskLease" (TaskLease_valid lease) lease.

(** ** Operations *)

Definition assign (task_id vehicle_id : string) (capabilities : capability_set)
    (battery_percent : option float) (allow_inadequate_energy : bool) (now_s : option float) :
    M ledger TaskRecord.t :=
  record0 ← record task_id;
  _ ← raise_if (negb (TaskRecord.state record0 ∈? [TaskState.DECLARED; TaskState.RETRY_PENDING]))
        (CrazySwarmError INVALID_STATE "task is not available for assignment");
  _ ← raise_if (capabilities_missing record0 capabilities)
        (CrazySwarmError CAPABILITY_MISSING "vehicle does not satisfy task capabilities");
  _ ← raise_if (energy_inadequate record0 battery_percent && negb allow_inadequate_energy)
        (CrazySwarmError CRITICAL_BATTERY "task assignment has inadequate observed energy margin");
  now ← _now now_s;
  let generation := TaskRecord.lease_generation record0 + 1 in
  lease ← new_lease task_id vehicle_id generation now;
  _ ← store_record task_id (record0
    |> set_state TaskState.ASSIGNED
    |> set_owner_vehicle_id (Some vehicle_id)
    |> set_lease (Some lease)
    |> set_lease_generation generation
    |> set_attempts (TaskRecord.attempts record0 + 1)
    |> set_decision None
    |> set_terminal_reason None);
  _emit task_id "TASK_ASSIGNED" None.

Definition start (task_id vehicle_id : string) (child_mission_run_id : string) (generation : Z)
    (now_s : option float) : M ledger TaskRecord.t :=
  record0 ← _require_current_lease task_id vehicle_id generation now_s;
  _ ← raise_if (TaskRecord.state record0 ≠? TaskState.ASSIGNED)
        (CrazySwarmError INVALID_STATE "only an assigned task can start");
  _ ← store_record task_id (record0
    |> set_state TaskState.IN_PROGRESS
    |> set_child_mission_run_id (Some child_mission_run_id));
  _emit task_id "TASK_STARTED" None.

Definition renew (task_id vehicle_id : string) (generation : Z) (now_s : option float) :
    M ledger TaskLease.t :=
  now ← _now now_s;
  record0 ← _require_current_lease task_id vehicle_id generation (Some now);
  match TaskRecord.lease record0 with
  | None => raise AssertionError
  | Some lease0 =>
      self ← get;
      let lease :=
        TaskLease.set_expires_at_monotonic_s (fadd now (TaskLedger.lease_duration_s self)) lease0 in
      _ ← store_record task_id (record0 |> set_lease (Some lease));
      _ ← _emit task_id "TASK_LEASE_RENEWED" None;
      mret lease
  end.

Definition update_progress (task_id vehicle_id : string) (generation : Z)
    (progress_percent : float) (now_s : option float) : M ledger TaskRecord.t :=
  record0 ← _require_current_lease task_id vehicle_id generation now_s;
  _ ← raise_if (TaskRecord.state record0 ≠? TaskState.IN_PROGRESS)
        (CrazySwarmError INVALID_STATE "task is not in progress");
  _ ← raise_if (fltb progress_percent (TaskRecord.progress_percent record0)
                || fltb f100 progress_percent)
        (CrazySwarmError INVALID_COMMAND "task progress must be monotonic");
  _ ← store_record task_id (record0 |> set_progress_percent progress_percent);
  _emit task_id "TASK_PROGRESS" None.

Definition pause (task_id vehicle_id : string) (generation : Z) (reason : string)
    (now_s : option float) : M ledger TaskRecord.t :=
  record0 ← _require_current_lease task_id vehicle_id generation now_s;
  _ ← raise_if (TaskRecord.state record0 ≠? TaskState.IN_PROGRESS)
        (CrazySwarmError INVALID_STATE "task is not in progress");
  _ ← store_record task_id (record0 |> set_state TaskState.PAUSED);
  _emit task_id "TASK_PAUSED" (Some reason).

Definition resume (task_id vehicle_id : string) (generation : Z) (now_s : option float) :
    M ledger TaskRecord.t :=
  record0 ← _require_current_lease task_id vehicle_id generation now_s;
  _ ← raise_if (TaskRecord.state record0 ≠? TaskState.PAUSED)
        (CrazySwarmError INVALID_STATE "task is not paused");
  _ ← store_record task_id (record0 |> set_state TaskState.IN_PROGRESS);
  _emit task_id "TASK_RESUMED" None.

Definition retry (task_id reason : string) : M ledger TaskRecord.t :=
  record0 ← record task_id;
  _ ← raise_if (negb (TaskRecord.state record0
                      ∈? [TaskState.ASSIGNED; TaskState.IN_PROGRESS; TaskState.PAUSED]))
        (CrazySwarmError INVALID_STATE "task cannot enter retry");
  _ ← store_record task_id (record0
    |> set_state TaskState.RETRY_PENDING
    |> set_owner_vehicle_id None
    |> set_lease None
    |> set_decision (Some TaskDecision.RETRY)
    |> set_terminal_reason (Some reason)
    |> set_child_mission_run_id None);
  _emit task_id "TASK_RETRY_PENDING" (Some reason).

Definition reassign (task_id vehicle_id : string) (capabilities : capability_set)
    (battery_percent : option float) (reason : string) (now_s : option float) :
    M ledger TaskRecord.t :=
  record0 ← record task_id;
  _ ← raise_if (TaskRecord.state record0
                ∈? [TaskState.COMPLETED; TaskState.ABORTED; TaskState.DECLARED])
        (CrazySwarmError INVALID_STATE "task cannot be reassigned");
  _ ← retry task_id reason;
  reassigned ← assign task_id vehicle_id capabilities battery_percent false now_s;
  _ ← store_record task_id (reassigned |> set_decision (Some TaskDecision.REASSIGN));
  _emit task_id "TASK_REASSIGNED" (Some reason).

(** Atomically replace the current owner and invalidate every older lease. *)
Definition transfer (task_id outgoing_vehicle_id incoming_vehicle_id : string)
    (expected_generation : Z) (capabilities : capability_set) (battery_percent : option float)
    (reason : string) (now_s : option float) : M ledger TaskRecord.t :=
  _ ← raise_if (String.eqb outgoing_vehicle_id incoming_vehicle_id)
        (CrazySwarmError INVALID_COMMAND "handover requires a new owner");
  record0 ← _require_current_lease task_id outgoing_vehicle_id expected_generation now_s;
  _ ← raise_if (negb (TaskRecord.state record0
                      ∈? [TaskState.ASSIGNED; TaskState.IN_PROGRESS; TaskState.PAUSED]))
        (CrazySwarmError INVALID_STATE "task cannot be transferred");
  _ ← _validate_assignment_energy_and_capability record0 capabilities battery_percent;
  now ← _now now_s;
  let generation := TaskRecord.lease_generation record0 + 1 in
  lease ← new_lease task_id incoming_vehicle_id generation now;
  _ ← store_record task_id (record0
    |> set_state TaskState.ASSIGNED
    |> set_owner_vehicle_id (Some incoming_vehicle_id)
    |> set_lease (Some lease)
    |> set_lease_generation generation
    |> set_attempts (TaskRecord.attempts record0 + 1)
    |> set_decision (Some TaskDecision.REASSIGN)
    |> set_terminal_reason (Some reason)
    |> set_child_mission_run_id None);
  _emit task_id "TASK_OWNERSHIP_TRANSFERRED" (Some reason).

Definition complete (task_id vehicle_id : string) (generation : Z) (reason : string)
    (now_s : option float) : M ledger TaskRecord.t :=
  record0 ← _require_current_lease task_id vehicle_id generation now_s;
  _ ← raise_if (TaskRecord.state record0 ≠? TaskState.IN_PROGRESS)
        (CrazySwarmError INVALID_STATE "task is not in progress");
  _ ← raise_if (fltb (TaskRecord.progress_percent record0)
          (DeploymentTaskDefinition.completion_progress_percent (TaskRecord.definition record0)))
        (CrazySwarmError INVALID_STATE "task completion criteria are not satisfied");
  _ ← store_record task_id (record0
    |> set_state TaskState.COMPLETED
    |> set_lease None
    |> set_decision (Some TaskDecision.COMPLETE)
    |> set_terminal_reason (Some reason));
  _emit task_id "TASK_COMPLETED" (Some reason).

Definition abort (task_id reason : string) : M ledger TaskRecord.t :=
  record0 ← record task_id;
  if TaskRecord.state record0 ∈? [TaskState.COMPLETED; TaskState.ABORTED] then mret record0
  else
    _ ← store_record task_id (record0
      |> set_state TaskState.ABORTED
      |> set_lease None
      |> set_decision (Some TaskDecision.ABORT)
      |> set_terminal_reason (Some reason));
    _emit task_id "TASK_ABORTED" (Some reason).

(** ** Replay from evidence *)

Definition terminal_decision (state : TaskState.t) : option TaskDecision.t :=
  match state with
  | TaskState.COMPLETED => Some TaskDecision.COMPLETE
  | TaskState.ABORTED => Some TaskDecision.ABORT
  | TaskState.RETRY_PENDING => Some TaskDecision.RETRY
  | _ => None
  end.

Definition event_before (e1 e2 : TaskEvidenceEvent.t) : bool :=
  TaskEvidenceEvent.sequence e1 <? TaskEvidenceEvent.sequence e2.

Definition replay_task (definition : DeploymentTaskDefinition.t) (events : list TaskEvidenceEvent.t) :
    outcome TaskRecord.t :=
  if existsb (fun e => negb (String.eqb (TaskEvidenceEvent.task_id e)
                                        (DeploymentTaskDefinition.task_id definition))) events
  then Err IDENTITY_MISMATCH "task evidence identity mismatch"
  else
    let ordered := py_sorted event_before events in
    match last ordered with
    | None => Ret (TaskRecord_new definition)
    | Some latest =>
        let replayed := {|
          TaskRecord.definition := definition;
          TaskRecord.state := TaskEvidenceEvent.state latest;
          TaskRecord.owner_vehicle_id := TaskEvidenceEvent.owner_vehicle_id latest;
          TaskRecord.lease := None;
          TaskRecord.lease_generation := TaskEvidenceEvent.lease_generation latest;
          TaskRecord.progress_percent := TaskEvidenceEvent.progress_percent latest;
          TaskRecord.attempts := 0;
          TaskRecord.decision := terminal_decision (TaskEvidenceEvent.state latest);
          TaskRecord.terminal_reason := TaskEvidenceEvent.reason latest;
          TaskRecord.child_mission_run_id := TaskEvidenceEvent.child_mission_run_id latest;
          TaskRecord.events := ordered |} in
        if TaskRecord_valid replayed then Ret replayed else Raise (ValidationError "TaskRecord")
    end.

(** ** The task state machine

    The abstract specification the ledger implements: how one call may change
    one task.  It is stated on the whole record, so it also says what a
    transition leaves alone. *)
Definition leased_states : list TaskState.t :=
  [TaskState.ASSIGNED; TaskState.IN_PROGRESS; TaskState.PAUSED].

Inductive task_step (tid : string) (r : TaskRecord.t) : TaskRecord.t -> Prop :=
| step_evidence e :
    task_step tid r (r |> set_events (TaskRecord.events r ++ [e]))
| step_assign vehicle lease :
    TaskRecord.state r ∈ [TaskState.DECLARED; TaskState.RETRY_PENDING] ->
    TaskLease.vehicle_id lease = vehicle -> TaskLease.task_id lease = tid ->
    TaskLease.generation lease = TaskRecord.lease_generation r + 1 ->
    task_step tid r (r
      |> set_state TaskState.ASSIGNED |> set_owner_vehicle_id (Some vehicle)
      |> set_lease (Some lease) |> set_lease_generation (TaskRecord.lease_generation r + 1)
      |> set_attempts (TaskRecord.attempts r + 1) |> set_decision None |> set_terminal_reason None)
| step_start child :
    TaskRecord.state r = TaskState.ASSIGNED ->
    task_step tid r (r |> set_state TaskState.IN_PROGRESS |> set_child_mission_run_id (Some child))
| step_renew lease expiry :
    TaskRecord.lease r = Some lease ->
    task_step tid r (r |> set_lease (Some (TaskLease.set_expires_at_monotonic_s expiry lease)))
| step_progress p :
    TaskRecord.state r = TaskState.IN_PROGRESS ->
    fltb p (TaskRecord.progress_percent r) = false -> fltb f100 p = false ->
    task_step tid r (r |> set_progress_percent p)
| step_pause :
    TaskRecord.state r = TaskState.IN_PROGRESS ->
    task_step tid r (r |> set_state TaskState.PAUSED)
| step_resume :
    TaskRecord.state r = TaskState.PAUSED ->
    task_step tid r (r |> set_state TaskState.IN_PROGRESS)
| step_retry reason :
    TaskRecord.state r ∈ leased_states ->
    task_step tid r (r
      |> set_state TaskState.RETRY_PENDING |> set_owner_vehicle_id None |> set_lease None
      |> set_decision (Some TaskDecision.RETRY) |> set_terminal_reason (Some reason)
      |> set_child_mission_run_id None)
| step_decision :
    TaskRecord.state r = TaskState.ASSIGNED ->
    task_step tid r (r |> set_decision (Some TaskDecision.REASSIGN))
| step_transfer vehicle lease reason :
    TaskRecord.state r ∈ leased_states ->
    TaskLease.vehicle_id lease = vehicle -> TaskLease.task_id lease = tid ->
    TaskLease.generation lease = TaskRecord.lease_generation r + 1 ->
    TaskRecord.owner_vehicle_id r <> Some vehicle ->
    task_step tid r (r
      |> set_state TaskState.ASSIGNED |> set_owner_vehicle_id (Some vehicle)
      |> set_lease (Some lease) |> set_lease_generation (TaskRecord.lease_generation r + 1)
      |> set_attempts (TaskRecord.attempts r + 1)
      |> set_decision (Some TaskDecision.REASSIGN) |> set_terminal_reason (Some reason)
      |> set_child_mission_run_id None)
| step_complete reason :
    TaskRecord.state r = TaskState.IN_PROGRESS ->
    fltb (TaskRecord.progress_percent r)
         (DeploymentTaskDefinition.completion_progress_percent (TaskRecord.definition r)) = false ->
    task_step tid r (r
      |> set_state TaskState.COMPLETED |> set_lease None
      |> set_decision (Some TaskDecision.COMPLETE) |> set_terminal_reason (Some reason))
| step_abort reason :
    TaskRecord.state r ∉ [TaskState.COMPLETED; TaskState.ABORTED] ->
    task_step tid r (r
      |> set_state TaskState.ABORTED |> set_lease None
      |> set_decision (Some TaskDecision.ABORT) |> set_terminal_reason (Some reason)).

(** What a call about task [tid] may do to the ledger. *)
Record ledger_rel (tid : string) (l l' : ledger) : Prop := {
  rel_session : TaskLedger.fleet_session_id l' = TaskLedger.fleet_session_id l;
  rel_run : TaskLedger.fleet_run_id l' = TaskLedger.fleet_run_id l;
  rel_deployment : TaskLedger.deployment_sha256 l' = TaskLedger.deployment_sha256 l;
  rel_duration : TaskLedger.lease_duration_s l' = TaskLedger.lease_duration_s l;
  rel_sequence : TaskLedger._event_sequence l <= TaskLedger._event_sequence l';
  rel_keys : dict_keys (TaskLedger._records l') = dict_keys (TaskLedger._records l);
  rel_others : forall t, t <> tid ->
    dict_get t (TaskLedger._records l') = dict_get t (TaskLedger._records l);
  rel_task : forall r, dict_get tid (TaskLedger._records l) = Some r ->
    exists r', dict_get tid (TaskLedger._records l') = Some r' /\ rtc (task_step tid) r r';
}.

(** The calls a client can make. *)
Inductive call :=
| CallAssign (task_id vehicle_id : string) (capabilities : capability_set)
    (battery : option float) (allow_inadequate_energy : bool) (now_s : option float)
| CallStart (task_id vehicle_id child : string) (generation : Z) (now_s : option float)
| CallRenew (task_id vehicle_id : string) (generation : Z) (now_s : option float)
| CallProgress (task_id vehicle_id : string) (generation : Z) (p : float) (now_s : option float)
| CallPause (task_id vehicle_id : string) (generation : Z) (reason : string) (now_s : option float)
| CallResume (task_id vehicle_id : string) (generation : Z) (now_s : option float)
| CallRetry (task_id reason : string)
| CallReassign (task_id vehicle_id : string) (capabilities : capability_set)
    (battery : option float) (reason : string) (now_s : option float)
| CallTransfer (task_id outgoing incoming : string) (generation : Z)
    (capabilities : capability_set) (battery : option float) (reason : string) (now_s : option float)
| CallComplete (task_id vehicle_id : string) (generation : Z) (reason : string) (now_s : option float)
| CallAbort (task_id reason : string).

Definition call_task (c : call) : string :=
  match c with
  | CallAssign t _ _ _ _ _ | CallStart t _ _ _ _ | CallRenew t _ _ _ | CallProgress t _ _ _ _
  | CallPause t _ _ _ _ | CallResume t _ _ _ | CallRetry t _ | CallReassign t _ _ _ _ _
  | CallTransfer t _ _ _ _ _ _ _ | CallComplete t _ _ _ _ | CallAbort t _ => t
  end.

Definition perform (c : call) : M ledger unit :=
  match c with
  | CallAssign t v caps b allow now => _ ← assign t v caps b allow now; mret tt
  | CallStart t v child g now => _ ← start t v child g now; mret tt
  | CallRenew t v g now => _ ← renew t v g now; mret tt
  | CallProgress t v g p now => _ ← update_progress t v g p now; mret tt
  | CallPause t v g why now => _ ← pause t v g why now; mret tt
  | CallResume t v g now => _ ← resume t v g now; mret tt
  | CallRetry t why => _ ← retry t why; mret tt
  | CallReassign t v caps b why now => _ ← reassign t v caps b why now; mret tt
  | CallTransfer t out inc g caps b why now => _ ← transfer t out inc g caps b why now; mret tt
  | CallComplete t v g why now => _ ← complete t v g why now; mret tt
  | CallAbort t why => _ ← abort t why; mret tt
  end.

(** One client call, whatever its outcome. *)
Definition client_step (s1 s2 : ledger * nat) : Prop :=
  exists c o, perform c s1.1 s1.2 = (o, s2.1, s2.2).

(** Ledgers a client can reach. *)
Definition constructed (s : ledger * nat) : Prop :=
  exists sid rid dep defs dur l0 n0,
    TaskLedger_init sid rid dep defs dur l0 n0 = (Ret tt, s.1, s.2).

Definition reachable (s : ledger * nat) : Prop :=
  exists s0, constructed s0 /\ rtc client_step s0 s.

(** ** Invariants *)
Record record_ok (tid : string) (r : TaskRecord.t) : Prop := {
  ok_lease : match TaskRecord.lease r with
             | Some l => TaskRecord.owner_vehicle_id r = Some (TaskLease.vehicle_id l)
                         /\ TaskLease.generation l = TaskRecord.lease_generation r
                         /\ TaskLease.task_id l = tid
                         /\ TaskRecord.state r ∈ leased_states
             | None => TaskRecord.state r ∉ leased_states
             end;
  ok_attempts : TaskRecord.attempts r = TaskRecord.lease_generation r;
  ok_generation : 0 <= TaskRecord.lease_generation r;
  ok_unowned : TaskRecord.state r ∈ [TaskState.DECLARED; TaskState.RETRY_PENDING] ->
               TaskRecord.owner_vehicle_id r = None /\ TaskRecord.child_mission_run_id r = None;
  ok_definition : DeploymentTaskDefinition.task_id (TaskRecord.definition r) = tid;
  ok_completed : TaskRecord.state r = TaskState.COMPLETED ->
    fltb (TaskRecord.progress_percent r)
         (DeploymentTaskDefinition.completion_progress_percent (TaskRecord.definition r)) = false;
}.

Definition ledger_ok (l : ledger) : Prop :=
  dict_wf (TaskLedger._records l) /\
  forall tid r, dict_get tid (TaskLedger._records l) = Some r -> record_ok tid r.

(** ** Evidence *)

(** The fields replay reconstructs. *)
Definition observable (r : TaskRecord.t) :=
  (TaskRecord.state r, TaskRecord.owner_vehicle_id r, TaskRecord.lease_generation r,
   TaskRecord.progress_percent r, TaskRecord.child_mission_run_id r).

Definition event_observable (e : TaskEvidenceEvent.t) :=
  (TaskEvidenceEvent.state e, TaskEvidenceEvent.owner_vehicle_id e,
   TaskEvidenceEvent.lease_generation e, TaskEvidenceEvent.progress_percent e,
   TaskEvidenceEvent.child_mission_run_id e).

(** The evidence of a record is complete: it is in order, about this task, its
    numbers have been issued, and its last entry shows the current state. *)
Record evidence_ok (tid : string) (seq : Z) (r : TaskRecord.t) : Prop := {
  ev_task : Forall (fun e => TaskEvidenceEvent.task_id e = tid) (TaskRecord.events r);
  ev_bound : Forall (fun e => TaskEvidenceEvent.sequence e <= seq) (TaskRecord.events r);
  ev_valid : Forall (fun e => TaskEvidenceEvent_valid e = true) (TaskRecord.events r);
  ev_order : StronglySorted (fun e1 e2 => TaskEvidenceEvent.sequence e1 < TaskEvidenceEvent.sequence e2)
                            (TaskRecord.events r);
  ev_last : exists e, last (TaskRecord.events r) = Some e /\ event_observable e = observable r;
}.

Definition ledger_evidenced (l : ledger) : Prop :=
  forall tid r, dict_get tid (TaskLedger._records l) = Some r ->
    evidence_ok tid (TaskLedger._event_sequence l) r.

(** Histories in which every evidence event passed its own validation. *)
Definition evidence_lost (o : outcome unit) : Prop := o = Raise (ValidationError "TaskEvidenceEvent").

Definition recorded_step (s1 s2 : ledger * nat) : Prop :=
  exists c o, perform c s1.1 s1.2 = (o, s2.1, s2.2) /\ ~ evidence_lost o.

Definition recorded (s : ledger * nat) : Prop :=
  exists s0, constructed s0 /\ rtc recorded_step s0 s.

(** ** Rules of the ledger's building blocks *)

Lemma wp_now {S} value (Q : outcome float -> S -> nat -> Prop) s n :
  (forall v n', Q (Ret v) s n') -> wp (_now value) Q s n.
Proof. intros H. destruct value; apply H. Qed.

Lemma wp_now_exact {S} value (Q : outcome float -> S -> nat -> Prop) s n :
  (forall n', Q (Ret (default (monotonic n) value)) s n') -> wp (_now value) Q s n.
Proof. intros H. destruct value; apply H. Qed.

Lemma wp_record tid (Q : outcome TaskRecord.t -> ledger -> nat -> Prop) l n :
  (forall r, dict_get tid (TaskLedger._records l) = Some r -> Q (Ret r) l n) ->
  (dict_get tid (TaskLedger._records l) = None ->
   Q (Raise (CrazySwarmError INVALID_COMMAND ("unknown fleet task: " +:+ tid))) l n) ->
  wp (record tid) Q l n.
Proof.
  intros Hs Hn. unfold record. apply wp_bind, wp_get.
  destruct (dict_get tid (TaskLedger._records l)) eqn:E; [by apply Hs|by apply Hn].
Qed.

Lemma wp_require_lease tid vid gen now (Q : outcome TaskRecord.t -> ledger -> nat -> Prop) l n :
  (forall r n', dict_get tid (TaskLedger._records l) = Some r ->
     is_current_owner r vid gen = true -> Q (Ret r) l n') ->
  (forall code msg n', Q (Raise (CrazySwarmError code msg)) l n') ->
  wp (_require_current_lease tid vid gen now) Q l n.
Proof.
  intros Hok Herr. unfold _require_current_lease.
  apply wp_bind, wp_record; [|intros; apply Herr]. intros r Hr. simpl.
  apply wp_bind, wp_now. intros v n'. wp_go; try apply Herr.
  apply Hok; [done|]. by bool_to_prop.
Qed.

Lemma wp_store tid r (Q : outcome unit -> ledger -> nat -> Prop) l n :
  Q (Ret tt) (TaskLedger.set__records (dict_set tid r (TaskLedger._records l)) l) n ->
  wp (store_record tid r) Q l n.
Proof. done. Qed.

Lemma wp_new_lease tid vid gen now (Q : outcome TaskLease.t -> ledger -> nat -> Prop) l n :
  (forall lease, TaskLease_valid lease = true ->
     TaskLease.vehicle_id lease = vid -> TaskLease.task_id lease = tid ->
     TaskLease.generation lease = gen -> TaskLease.issued_at_monotonic_s lease = now ->
     Q (Ret lease) l n) ->
  (forall model, model <> "TaskEvidenceEvent" -> Q (Raise (ValidationError model)) l n) ->
  wp (new_lease tid vid gen now) Q l n.
Proof.
  intros Hok Herr. unfold new_lease. wp_go; [by apply Herr|by apply Hok].
Qed.

(** Where [_emit] ends: it numbers the event first, so a refused event leaves a
    gap in the numbers and nothing else. *)
Lemma wp_emit tid ty reason (Q : outcome TaskRecord.t -> ledger -> nat -> Prop) l n r :
  dict_get tid (TaskLedger._records l) = Some r ->
  let l1 := TaskLedger.set__event_sequence (TaskLedger._event_sequence l + 1) l in
  (forall n', Q (Raise (ValidationError "TaskEvidenceEvent")) l1 n') ->
  (forall e n', TaskEvidenceEvent_valid e = true ->
     TaskEvidenceEvent.sequence e = TaskLedger._event_sequence l + 1 ->
     TaskEvidenceEvent.task_id e = tid -> event_observable e = observable r ->
     let r' := r |> set_events (TaskRecord.events r ++ [e]) in
     Q (Ret r') (TaskLedger.set__records (dict_set tid r' (TaskLedger._records l)) l1) n') ->
  wp (_emit tid ty reason) Q l n.
Proof.
  intros Hr l1 Herr Hok. unfold _emit. apply wp_bind, wp_record; [|by rewrite Hr].
  intros r0 Hr0. rewrite Hr in Hr0. injection Hr0 as <-. simpl.
  wp_go; [apply Herr|]. apply wp_store. wp_go. by apply Hok.
Qed.

(** ** Refinement of the task state machine *)

#[local] Instance ledger_rel_refl tid : Reflexive (ledger_rel tid).
Proof. intros l. split; try done. intros r Hr. by exists r. Qed.

#[local] Instance ledger_rel_trans tid : Transitive (ledger_rel tid).
Proof.
  intros l1 l2 l3 H1 H2. destruct H1, H2. split; try congruence; [lia| |].
  - intros t Ht. rewrite rel_others1; auto.
  - intros r Hr. destruct (rel_task0 r Hr) as (r2 & Hr2 & Hs2).
    destruct (rel_task1 r2 Hr2) as (r3 & Hr3 & Hs3). exists r3. split; [done|]. by etrans.
Qed.

(** Storing a record one transition away. *)
Lemma ledger_rel_store tid r r' l :
  dict_get tid (TaskLedger._records l) = Some r -> rtc (task_step tid) r r' ->
  ledger_rel tid l (TaskLedger.set__records (dict_set tid r' (TaskLedger._records l)) l).
Proof.
  intros Hr Hstep. split; simpl; try done.
  - by rewrite dict_keys_set, Hr.
  - intros t Ht. by apply dict_get_set_ne.
  - intros r0 Hr0. exists r'. rewrite dict_get_set_eq. split; [done|]. congruence.
Qed.

Lemma ledger_rel_sequence tid l :
  ledger_rel tid l (TaskLedger.set__event_sequence (TaskLedger._event_sequence l + 1) l).
Proof. split; simpl; try done; [lia|]. intros r Hr. by exists r. Qed.

(** What every call guarantees: it refines the state machine of its task, and
    as long as no evidence event was refused the evidence stays complete. *)
Definition call_post {A} (tid : string) (l : ledger) (o : outcome A) (l' : ledger) : Prop :=
  ledger_rel tid l l' /\
  (ledger_evidenced l -> o <> Raise (ValidationError "TaskEvidenceEvent") -> ledger_evidenced l').

Lemma call_post_refused {A} tid l e :
  e <> ValidationError "TaskEvidenceEvent" -> call_post (A:=A) tid l (Raise e) l.
Proof. by split. Qed.

Lemma call_post_same {A} tid l (a : A) : call_post tid l (Ret a) l.
Proof. by split. Qed.

Lemma call_post_trans {A B} tid l1 l2 l3 (a : A) (o : outcome B) :
  call_post tid l1 (Ret a) l2 -> call_post tid l2 o l3 -> call_post tid l1 o l3.
Proof.
  intros [H1 E1] [H2 E2]. split; [by etrans|]. intros Hl Ho. apply E2; [|done]. by apply E1.
Qed.

(** The outcome of a call only matters when it refused an evidence event. *)
Lemma call_post_outcome {A B} tid l (o : outcome A) (o' : outcome B) l' :
  call_post tid l o l' ->
  (o = Raise (ValidationError "TaskEvidenceEvent") ->
   o' = Raise (ValidationError "TaskEvidenceEvent")) ->
  call_post tid l o' l'.
Proof. intros [Hrel Hev] Ho. split; [done|]. intros Hl Hne. apply Hev; [done|]. by intros ->%Ho. Qed.

Lemma evidence_ok_mono tid seq seq' r : seq <= seq' -> evidence_ok tid seq r -> evidence_ok tid seq' r.
Proof.
  intros Hle [H1 H2 H3 H4 H5]. split; try done.
  eapply Forall_impl; [exact H2|]. simpl. intros. lia.
Qed.

(** A new last event keeps the evidence complete. *)
Lemma evidence_ok_snoc tid seq r e :
  Forall (fun e => TaskEvidenceEvent.task_id e = tid) (TaskRecord.events r) ->
  Forall (fun e => TaskEvidenceEvent.sequence e <= seq) (TaskRecord.events r) ->
  Forall (fun e => TaskEvidenceEvent_valid e = true) (TaskRecord.events r) ->
  StronglySorted (fun e1 e2 => TaskEvidenceEvent.sequence e1 < TaskEvidenceEvent.sequence e2)
                 (TaskRecord.events r) ->
  TaskEvidenceEvent_valid e = true -> TaskEvidenceEvent.sequence e = seq + 1 ->
  TaskEvidenceEvent.task_id e = tid -> event_observable e = observable r ->
  evidence_ok tid (seq + 1) (r |> set_events (TaskRecord.events r ++ [e])).
Proof.
  intros Ht Hb Hv Ho Hev Hes Het Heo. split; simpl.
  - apply Forall_app. by repeat constructor.
  - apply Forall_app. split; [|repeat constructor; lia].
    eapply Forall_impl; [exact Hb|]. simpl. intros. lia.
  - apply Forall_app. by repeat constructor.
  - apply StronglySorted_snoc; [done|].
    eapply Forall_impl; [exact Hb|]. simpl. intros. lia.
  - exists e. by rewrite last_snoc.
Qed.

(** The common shape of a transition: store the new record, then record the
    evidence. *)
Lemma store_emit_post tid r r1 ty reason l n :
  dict_get tid (TaskLedger._records l) = Some r ->
  task_step tid r r1 -> TaskRecord.events r1 = TaskRecord.events r ->
  wp (_ ← store_record tid r1; _emit tid ty reason)
     (fun o l' _ => call_post tid l o l' /\
       forall r', o = Ret r' -> dict_get tid (TaskLedger._records l') = Some r' /\
         exists e, r' = r1 |> set_events (TaskRecord.events r1 ++ [e])) l n.
Proof.
  intros Hr Hstep Hev. apply wp_bind, wp_store.
  set (l1 := TaskLedger.set__records _ l).
  assert (Hl1 : ledger_rel tid l l1) by (eapply ledger_rel_store; [done|by apply rtc_once]).
  assert (Hr1 : dict_get tid (TaskLedger._records l1) = Some r1) by apply dict_get_set_eq.
  eapply wp_emit; [exact Hr1|..]; cbv zeta.
  { intros n'. split; [split|done]; [|intros _ Hne; by destruct Hne].
    etrans; [exact Hl1|apply ledger_rel_sequence]. }
  intros e n' Hval Hseq Htid Hobs. split; [split|].
  - etrans; [exact Hl1|]. etrans; [apply ledger_rel_sequence|].
    set (l2 := TaskLedger.set__event_sequence _ l1).
    eapply (ledger_rel_store tid r1 _ l2 Hr1), rtc_once, step_evidence.
  - intros Hl _ t r'. simpl. rewrite dict_get_set. case_decide as Ht.
    + intros [= <-]. subst t. rewrite Hev in *. destruct (Hl _ _ Hr).
      rewrite <- Hev. apply evidence_ok_snoc; rewrite ?Hev; try done.
    + rewrite dict_get_set_ne by done. intros Hr'.
      eapply evidence_ok_mono; [|by apply Hl]. simpl. lia.
  - intros r' [= <-]. simpl. rewrite dict_get_set_eq. split; [done|]. by exists e.
Qed.

Ltac wp_hook ::=
  lazymatch goal with
  | |- wp (record _) _ _ _ => apply wp_record; [intros ?r0 ?Hr0|intros _]
  | |- wp (_now _) _ _ _ => apply wp_now_exact; intros ?
  | |- wp (_require_current_lease _ _ _ _) _ _ _ =>
      apply wp_require_lease; [intros ?r0 ? ?Hr0 ?Hown|intros ???]
  | |- wp (new_lease _ _ _ _) _ _ _ => apply wp_new_lease; intros
  | |- wp (_validate_assignment_energy_and_capability _ _ _) _ _ _ =>
      unfold _validate_assignment_energy_and_capability
  end.

(** Run the guards of an operation: each one that fails leaves the ledger as it
    is; what remains is the transition at the end. *)
Ltac op_guards :=
  cbv zeta;
  repeat (lazymatch goal with
          | |- wp (mbind _ (store_record _ _)) _ _ _ => fail
          | _ => wp_rule
          end; cbv beta iota zeta);
  try apply call_post_same; try (apply call_post_refused; congruence).

Ltac op_transition :=
  eapply wp_mono; [eapply store_emit_post; [eassumption| |reflexivity]|intros ??? [? _]; assumption].

(** An assignment also reports the state it reached. *)
Lemma assign_post tid vid caps battery allow now l n :
  wp (assign tid vid caps battery allow now) (fun o l' _ => call_post tid l o l' /\
    forall r', o = Ret r' -> dict_get tid (TaskLedger._records l') = Some r' /\
      TaskRecord.state r' = TaskState.ASSIGNED /\ TaskRecord.owner_vehicle_id r' = Some vid) l n.
Proof.
  unfold assign. op_guards; try (split; [apply call_post_refused; congruence|done]).
  eapply wp_mono; [eapply store_emit_post; [eassumption| |reflexivity]|].
  - bool_to_prop. by apply step_assign.
  - intros o l' ? [Hrel Hret]. split; [done|]. intros r' Hr'.
    destruct (Hret r' Hr') as [Hget [e ->]]. split; [exact Hget|by split].
Qed.

Lemma retry_post tid reason l n :
  wp (retry tid reason) (fun o l' _ => call_post tid l o l') l n.
Proof. unfold retry. op_guards. op_transition. bool_to_prop. by apply step_retry. Qed.

Lemma reassign_post tid vid caps battery reason now l n :
  wp (reassign tid vid caps battery reason now) (fun o l' _ => call_post tid l o l') l n.
Proof.
  unfold reassign. apply wp_bind, wp_record; [|intros _; by apply call_post_refused].
  intros r0 Hr0. apply wp_bind, wp_raise_if; intros ?; [by apply call_post_refused|].
  apply wp_bind. eapply wp_mono; [apply retry_post|]. intros [r1|e] l1 n1 H1; [|exact H1].
  apply wp_bind. eapply wp_mono; [apply assign_post|]. intros [r2|e] l2 n2 [H2 Hret].
  2: by eapply call_post_trans.
  destruct (Hret r2 eq_refl) as (Hget & Hst & _).
  eapply wp_mono; [eapply store_emit_post; [exact Hget|by apply step_decision|reflexivity]|].
  intros o l3 n3 [H3 _]. eapply call_post_trans; [exact H1|]. by eapply call_post_trans.
Qed.

Lemma transfer_post tid out inc g caps battery reason now l n :
  wp (transfer tid out inc g caps battery reason now) (fun o l' _ => call_post tid l o l') l n.
Proof.
  unfold transfer. op_guards. op_transition. bool_to_prop. apply step_transfer; try done.
  unfold is_current_owner in *. case_match; [|done]. bool_to_prop. congruence.
Qed.

Lemma renew_post tid vid g now l n :
  wp (renew tid vid g now) (fun o l' _ => call_post tid l o l') l n.
Proof.
  unfold renew. op_guards. destruct (TaskRecord.lease r0) eqn:Hl; op_guards.
  apply wp_assoc, wp_bind.
  eapply wp_mono; [eapply store_emit_post; [eassumption|by eapply step_renew|reflexivity]|].
  intros [r'|e] l' ? [Hpost _]; [apply wp_ret|];
    (eapply call_post_outcome; [exact Hpost|]; congruence).
Qed.

Lemma perform_discard {A} tid (m : M ledger A) l n :
  wp m (fun o l' _ => call_post tid l o l') l n ->
  wp (_ ← m; mret tt) (fun o l' _ => call_post tid l o l') l n.
Proof.
  intros H. apply wp_discard. eapply wp_mono; [exact H|].
  intros [a|e] l' n' Hpost; (eapply call_post_outcome; [exact Hpost|]; congruence).
Qed.

(** Every call refines the task state machine on its task, and touches no
    other task. *)
Lemma perform_post c l n :
  wp (perform c) (fun o l' _ => call_post (call_task c) l o l') l n.
Proof.
  destruct c; simpl; apply perform_discard.
  - eapply wp_mono; [apply assign_post|]. by intros ??? [].
  - unfold start. op_guards. op_transition. bool_to_prop. by apply step_start.
  - apply renew_post.
  - unfold update_progress. op_guards. op_transition. bool_to_prop. by apply step_progress.
  - unfold pause. op_guards. op_transition. bool_to_prop. by apply step_pause.
  - unfold resume. op_guards. op_transition. bool_to_prop. by apply step_resume.
  - apply retry_post.
  - apply reassign_post.
  - apply transfer_post.
  - unfold complete. op_guards. op_transition. bool_to_prop. by apply step_complete.
  - unfold abort. op_guards. op_transition. bool_to_prop. by apply step_abort.
Qed.

(** ** Invariants of the state machine *)

Lemma task_step_ok tid r r' : task_step tid r r' -> record_ok tid r -> record_ok tid r'.
Proof.
  intros Hstep [Hl Ha Hg Hu Hd Hc]; destruct Hstep; split; simpl in *; unfold leased_states in *;
    try done; try lia; try congruence; try set_solver.
  all: repeat match goal with H : _ = _ |- _ => rewrite H in Hl end;
    try destruct (TaskRecord.lease r); set_solver.
Qed.

Lemma rtc_task_step_ok tid r r' : rtc (task_step tid) r r' -> record_ok tid r -> record_ok tid r'.
Proof. induction 1; eauto using task_step_ok. Qed.

(** Generations only grow. *)
Lemma generation_mono tid r r' :
  rtc (task_step tid) r r' -> TaskRecord.lease_generation r <= TaskRecord.lease_generation r'.
Proof.
  induction 1 as [|r1 r2 r3 Hs _ IH]; [lia|]. destruct Hs; simpl in *; lia.
Qed.

Lemma ledger_rel_ok tid l l' : ledger_rel tid l l' -> ledger_ok l -> ledger_ok l'.
Proof.
  intros Hrel [Hwf Hok]. split; [unfold dict_wf; by rewrite (rel_keys _ _ _ Hrel)|].
  intros t r' Hr'. destruct (decide (t = tid)) as [->|Hne].
  - destruct (dict_get tid (TaskLedger._records l)) as [r|] eqn:Hr.
    + destruct (rel_task _ _ _ Hrel r Hr) as (r2 & Hr2 & Hsteps).
      assert (r2 = r') as -> by congruence. eapply rtc_task_step_ok; [exact Hsteps|by apply Hok].
    + apply dict_get_None in Hr. rewrite <- (rel_keys _ _ _ Hrel) in Hr.
      apply dict_get_None in Hr. congruence.
  - rewrite (rel_others _ _ _ Hrel t Hne) in Hr'. by apply Hok.
Qed.

(** A property of one task's record that every transition keeps holds after
    any calls. *)
Lemma client_steps_record (P : TaskRecord.t -> Prop) tid s1 s2 r1 :
  (forall r r', task_step tid r r' -> record_ok tid r -> P r -> P r') ->
  ledger_ok s1.1 -> rtc client_step s1 s2 ->
  dict_get tid (TaskLedger._records s1.1) = Some r1 -> P r1 ->
  exists r2, dict_get tid (TaskLedger._records s2.1) = Some r2 /\ P r2.
Proof.
  intros HP Hok Hsteps. revert r1 Hok.
  induction Hsteps as [s|s1 s2 s3 (c & o & Hc) _ IH]; intros r1 Hok Hr1 H1; [by exists r1|].
  pose proof (perform_post c s1.1 s1.2) as [Hrel _]. rewrite Hc in Hrel. simpl in Hrel.
  assert (exists r2, dict_get tid (TaskLedger._records s2.1) = Some r2 /\ P r2) as (r2 & Hr2 & H2).
  { destruct (decide (tid = call_task c)) as [->|Hne].
    - destruct (rel_task _ _ _ Hrel r1 Hr1) as (r2 & Hr2 & Hs). exists r2. split; [done|].
      assert (record_ok (call_task c) r1) as Hr1ok by by apply Hok.
      clear Hr1 Hr2. induction Hs; eauto using task_step_ok.
    - exists r1. by rewrite (rel_others _ _ _ Hrel tid Hne). }
  eapply IH; [by eapply ledger_rel_ok|exact Hr2|exact H2].
Qed.

(** ** Construction *)

Lemma dict_of_records definitions tid r :
  dict_get tid (dict_of DeploymentTaskDefinition.task_id TaskRecord_new definitions) = Some r ->
  exists d, r = TaskRecord_new d /\ DeploymentTaskDefinition.task_id d = tid.
Proof.
  unfold dict_of.
  assert (forall d0 : dict TaskRecord.t,
    (forall t r, dict_get t d0 = Some r ->
       exists d, r = TaskRecord_new d /\ DeploymentTaskDefinition.task_id d = t) ->
    forall t r, dict_get t (foldl (fun d item =>
        dict_set (DeploymentTaskDefinition.task_id item) (TaskRecord_new item) d) d0 definitions)
      = Some r -> exists d, r = TaskRecord_new d /\ DeploymentTaskDefinition.task_id d = t) as Hgen.
  { induction definitions as [|x xs IH]; intros d0 Hd0; simpl; [done|].
    apply IH. intros t r0. rewrite dict_get_set. case_decide; [|apply Hd0].
    intros [= <-]. by exists x. }
  apply Hgen. done.
Qed.

Lemma record_ok_new d : record_ok (DeploymentTaskDefinition.task_id d) (TaskRecord_new d).
Proof. split; simpl; unfold leased_states; try done; set_solver. Qed.

(** Declaring the tasks gives each of them its first evidence. *)
Lemma declare_post keys l n :
  NoDup keys ->
  (forall t, t ∈ keys -> exists r, dict_get t (TaskLedger._records l) = Some r /\
     TaskRecord.events r = []) ->
  (forall t r, dict_get t (TaskLedger._records l) = Some r -> t ∉ keys ->
     evidence_ok t (TaskLedger._event_sequence l) r) ->
  ledger_ok l ->
  wp (for_each keys (fun task_id => _ ← _emit task_id "TASK_DECLARED" None; mret tt))
     (fun o l' _ => ledger_ok l' /\ (o = Ret tt -> ledger_evidenced l')) l n.
Proof.
  revert l n. induction keys as [|k keys IH]; intros l n Hnd Hin Hout Hok; simpl.
  { split; [done|]. intros _ t r Hr. by apply Hout; [|set_solver]. }
  apply NoDup_cons in Hnd as [Hk Hnd].
  destruct (Hin k) as (r & Hr & Hre); [by left|].
  apply wp_bind, wp_bind. eapply wp_emit; [exact Hr|..]; cbv zeta.
  { intros n'. split; [|done]. by apply (ledger_rel_ok k l), Hok; apply ledger_rel_sequence. }
  intros e n' Hval Hseq Htid Hobs. apply wp_ret. apply IH; clear IH; [done|..]; simpl.
  - intros t Ht. rewrite dict_get_set_ne by set_solver. by apply Hin; right.
  - intros t r0. rewrite dict_get_set. case_decide as Ht.
    + intros [= <-] _. subst t. apply evidence_ok_snoc; rewrite ?Hre; try done; constructor.
    + intros Hr0 Hnin. eapply evidence_ok_mono; [|by apply Hout; [|set_solver]]. lia.
  - eapply (ledger_rel_ok k l); [|exact Hok].
    etrans; [apply ledger_rel_sequence|].
    eapply (ledger_rel_store k r _ (TaskLedger.set__event_sequence (TaskLedger._event_sequence l + 1) l));
      [exact Hr|apply rtc_once, step_evidence].
Qed.

Lemma constructed_ok s : constructed s -> ledger_ok s.1 /\ ledger_evidenced s.1.
Proof.
  intros (sid & rid & dep & defs & dur & l0 & n0 & Hrun).
  assert (wp (TaskLedger_init sid rid dep defs dur)
    (fun o l' _ => o = Ret tt -> ledger_ok l' /\ ledger_evidenced l') l0 n0) as H.
  { unfold TaskLedger_init. wp_rule. wp_rule; [done|]. cbv beta iota zeta.
    wp_rule. wp_rule. wp_rule. wp_rule; [done|].
    eapply wp_mono; [apply declare_post|]; simpl.
    - rewrite py_sorted_perm. apply dict_of_wf.
    - intros t Ht. apply elem_of_py_sorted in Ht.
      destruct (dict_get t _) as [r|] eqn:Hr; [|by apply dict_get_None in Hr].
      destruct (dict_of_records _ _ _ Hr) as (d & -> & _). by eexists.
    - intros t r Hr Hnin. destruct Hnin. apply elem_of_py_sorted.
      apply dict_get_elem in Hr. apply list_elem_of_fmap. by exists (t, r).
    - split; [apply dict_of_wf|]. intros t r (d & -> & <-)%dict_of_records. apply record_ok_new.
    - intros o l' n' [Hok Hev] ->. split; [done|by apply Hev]. }
  unfold wp in H. rewrite Hrun in H. by apply H.
Qed.

Lemma reachable_ok s : reachable s -> ledger_ok s.1.
Proof.
  intros (s0 & [Hok _]%constructed_ok & Hsteps).
  induction Hsteps as [s|s1 s2 s3 (c & o & Hc) _ IH]; [done|]. apply IH.
  pose proof (perform_post c s1.1 s1.2) as [Hrel _]. rewrite Hc in Hrel.
  by eapply ledger_rel_ok.
Qed.

Lemma recorded_evidenced s1 s2 :
  ledger_ok s1.1 -> ledger_evidenced s1.1 -> rtc recorded_step s1 s2 ->
  ledger_ok s2.1 /\ ledger_evidenced s2.1.
Proof.
  intros Hok Hev Hsteps. induction Hsteps as [s|s1 s2 s3 (c & o & Hc & Ho) _ IH]; [done|].
  pose proof (perform_post c s1.1 s1.2) as [Hrel He]. rewrite Hc in Hrel, He.
  apply IH; [by eapply ledger_rel_ok|by apply He].
Qed.

(** ** Ownership *)

(** While [lease1] is the latest lease, its holder is the only one. *)
Definition held_since (lease1 : TaskLease.t) (r : TaskRecord.t) : Prop :=
  TaskLease.generation lease1 <= TaskRecord.lease_generation r /\
  (TaskRecord.lease_generation r = TaskLease.generation lease1 ->
   forall lease, TaskRecord.lease r = Some lease ->
   TaskLease.vehicle_id lease = TaskLease.vehicle_id lease1).

Lemma held_since_step lease1 tid r r' :
  task_step tid r r' -> record_ok tid r -> held_since lease1 r -> held_since lease1 r'.
Proof.
  intros Hstep _ [Hle Hsame]; destruct Hstep; split; simpl in *; try done; try lia.
  intros Hg l [= <-]. simpl. by apply Hsame.
Qed.

(** [Some (v, g)] when a call presents the lease of vehicle [v], generation
    [g]. *)
Definition presented_lease (c : call) : option (string * Z) :=
  match c with
  | CallStart _ v _ g _ | CallRenew _ v g _ | CallProgress _ v g _ _ | CallPause _ v g _ _
  | CallResume _ v g _ | CallComplete _ v g _ _ => Some (v, g)
  | CallTransfer _ out inc g _ _ _ _ => if String.eqb out inc then None else Some (out, g)
  | _ => None
  end.

Definition ownership_required : exn :=
  CrazySwarmError MODE_NOT_AUTHORIZED "current task ownership is required".

Lemma require_lease_refused tid vid g now l n r :
  dict_get tid (TaskLedger._records l) = Some r -> is_current_owner r vid g = false ->
  wp (_require_current_lease tid vid g now) (fun o l' _ => o = Raise ownership_required /\ l' = l) l n.
Proof.
  intros Hr Hown. unfold _require_current_lease.
  apply wp_bind, wp_record; [|congruence]. intros r0 Hr0.
  assert (r0 = r) as -> by congruence. apply wp_bind, wp_now. intros v n'.
  rewrite Hown. by apply wp_bind, wp_raise.
Qed.

Lemma require_lease_bind {A} tid vid g now (k : TaskRecord.t -> M ledger A) l n r :
  dict_get tid (TaskLedger._records l) = Some r -> is_current_owner r vid g = false ->
  wp (_require_current_lease tid vid g now ≫= k)
     (fun o l' _ => o = Raise ownership_required /\ l' = l) l n.
Proof.
  intros Hr Hown. apply wp_bind. eapply wp_mono; [by eapply require_lease_refused|].
  by intros ??? [-> ->].
Qed.

Lemma not_current_owner tid r vid g :
  record_ok tid r ->
  TaskRecord.lease_generation r <> g \/ TaskRecord.owner_vehicle_id r <> Some vid
    \/ TaskRecord.lease r = None ->
  is_current_owner r vid g = false.
Proof.
  intros [Hl _ _ _ _ _] Hne. unfold is_current_owner. destruct (TaskRecord.lease r) as [lease|]; [|done].
  destruct Hl as (Ho & Hg & _). apply not_true_iff_false. intros Hb. bool_to_prop.
  destruct Hne as [?|[?|?]]; congruence.
Qed.

Lemma presented_lease_refused c vid g l n r :
  presented_lease c = Some (vid, g) ->
  dict_get (call_task c) (TaskLedger._records l) = Some r -> is_current_owner r vid g = false ->
  wp (perform c) (fun o l' _ => o = Raise ownership_required /\ l' = l) l n.
Proof.
  intros Hc Hr Hown.
  assert (forall A (m : M ledger A),
    wp m (fun o l' _ => o = Raise ownership_required /\ l' = l) l n ->
    wp (_ ← m; mret tt) (fun o l' _ => o = Raise ownership_required /\ l' = l) l n) as Hdisc.
  { intros A m Hm. apply wp_discard. eapply wp_mono; [exact Hm|].
    intros [a|e] l' n' [Ho ->]; [done|]. split; [congruence|done]. }
  destruct c; simpl in *; simplify_eq; apply Hdisc.
  all: try (eapply require_lease_bind; eassumption).
  - unfold renew. apply wp_bind, wp_now. intros v n'. eapply require_lease_bind; eassumption.
  - unfold transfer. destruct (String.eqb outgoing incoming) eqn:E; [done|]. simplify_eq.
    apply wp_bind, wp_ret. eapply require_lease_bind; eassumption.
Qed.

(** ** Properties *)

(** C7: in every ledger a client can reach, whatever its calls raised, the lease
    of each task, its owner, its generation, its attempts and its state agree: a
    lease names the owner and the latest generation, the task is assigned, in
    progress or paused exactly when it is leased, and a task nobody was given
    has no owner and no mission run. *)
Theorem reachable_ledger_ok s : reachable s -> ledger_ok s.1.
Proof. apply reachable_ok. Qed.

(** C8: a task has one holder per lease generation: two leases of the same task
    with the same generation, however many calls lie between them, belong to the
    same vehicle. *)
Theorem one_holder_per_generation s1 s2 tid r1 r2 lease1 lease2 :
  reachable s1 -> rtc client_step s1 s2 ->
  dict_get tid (TaskLedger._records s1.1) = Some r1 -> TaskRecord.lease r1 = Some lease1 ->
  dict_get tid (TaskLedger._records s2.1) = Some r2 -> TaskRecord.lease r2 = Some lease2 ->
  TaskLease.generation lease1 = TaskLease.generation lease2 ->
  TaskLease.vehicle_id lease1 = TaskLease.vehicle_id lease2.
Proof.
  intros Hreach Hsteps Hr1 Hl1 Hr2 Hl2 Hg.
  pose proof (reachable_ok _ Hreach) as Hok.
  pose proof (ok_lease _ _ (proj2 Hok _ _ Hr1)) as H1. rewrite Hl1 in H1.
  destruct (client_steps_record (held_since lease1) tid s1 s2 r1) as (r & Hr & Hle & Hsame);
    eauto using held_since_step.
  { split; [lia|]. intros _ l Hl. congruence. }
  assert (r = r2) as -> by congruence.
  assert (ledger_ok s2.1) as Hok2.
  { clear -Hok Hsteps. induction Hsteps as [s|s1 s2 s3 (c & o & Hc) _ IH]; [done|]. apply IH.
    pose proof (perform_post c s1.1 s1.2) as [Hrel _]. rewrite Hc in Hrel.
    by eapply ledger_rel_ok. }
  pose proof (ok_lease _ _ (proj2 Hok2 _ _ Hr2)) as H2. rewrite Hl2 in H2.
  symmetry. apply Hsame; [|done]. destruct H1 as (_ & ? & _), H2 as (_ & ? & _). congruence.
Qed.

(** C34: a call that presents an old generation, or a vehicle that is not the
    owner, is refused with "current task ownership is required" and leaves the
    ledger exactly as it was. *)
Theorem stale_lease_refused s c vid g r :
  reachable s -> presented_lease c = Some (vid, g) ->
  dict_get (call_task c) (TaskLedger._records s.1) = Some r ->
  TaskRecord.lease_generation r <> g \/ TaskRecord.owner_vehicle_id r <> Some vid ->
  run (perform c) s.1 s.2 = Raise ownership_required /\ exec (perform c) s.1 s.2 = s.1.
Proof.
  intros Hreach Hc Hr Hne. apply (presented_lease_refused c vid g s.1 s.2 r); [done..|].
  eapply not_current_owner; [|naive_solver].
  by apply (reachable_ok _ Hreach).
Qed.

(** How a transfer ends: with the task under the next generation of the
    incoming vehicle, or with the ledger untouched, unless the evidence event was
    refused after the record had been stored. *)
Definition transfer_post_state (tid incoming : string) (g : Z) (l l' : ledger) : Prop :=
  exists r', dict_get tid (TaskLedger._records l') = Some r' /\
    TaskRecord.owner_vehicle_id r' = Some incoming /\ TaskRecord.lease_generation r' = g + 1.

Lemma transfer_outcome tid out inc g caps battery why now l n :
  ledger_ok l ->
  wp (transfer tid out inc g caps battery why now) (fun o l' _ => ledger_rel tid l l' /\
    match o with
    | Ret r' => dict_get tid (TaskLedger._records l') = Some r' /\
        TaskRecord.owner_vehicle_id r' = Some inc /\ TaskRecord.lease_generation r' = g + 1 /\
        is_identifier inc = true /\ (forall t, now = Some t -> ge0 t = true)
    | Raise e =>
        l' = l \/ (e = ValidationError "TaskEvidenceEvent" /\ transfer_post_state tid inc g l l')
    end) l n.
Proof.
  intros Hok. unfold transfer. op_guards; try (split; [reflexivity|by left]).
  bool_to_prop. unfold is_current_owner in *.
  destruct (TaskRecord.lease r0) as [l0|] eqn:El; [|done].
  pose proof (ok_lease _ _ (proj2 Hok _ _ Hr0)) as Hlease. rewrite El in Hlease. bool_to_prop.
  match goal with |- wp (_ ← store_record _ ?r1; _emit _ ?ty ?reason) _ _ ?m =>
    pose proof (store_emit_post tid r0 r1 ty reason l m Hr0) as Hpost;
    assert (wp (_ ← store_record tid r1; _emit tid ty reason) (fun o l' _ =>
      match o with Raise e => e = ValidationError "TaskEvidenceEvent" /\
        transfer_post_state tid inc g l l' | _ => True end) l m) as Herr
  end.
  { apply wp_bind, wp_store. eapply wp_emit; [apply dict_get_set_eq| |done].
    cbv zeta. intros ?. split; [done|]. eexists. split; [apply dict_get_set_eq|].
    simpl. split; [done|lia]. }
  eapply wp_mono; [eapply wp_and; [apply Hpost|exact Herr]|].
  - apply step_transfer; try done. congruence.
  - reflexivity.
  - intros o l1 n1 [[[Hrel _] Hret] He]. split; [done|]. destruct o as [r1|e]; [|by right].
    destruct (Hret r1 eq_refl) as [Hget [e ->]]. simpl.
    unfold TaskLease_valid in *. bool_to_prop. split_and!; try done; try lia; try congruence.
    intros t ->. simpl in *. congruence.
Qed.

(** An ownership transfer that returns gave the task to the incoming vehicle
    under the next generation, so every later call that presents the outgoing
    vehicle's lease is refused and changes nothing, until the ledger itself
    assigns the task again. *)
Theorem transfer_invalidates_outgoing s tid out inc g caps battery why now r' c :
  reachable s ->
  run (transfer tid out inc g caps battery why now) s.1 s.2 = Ret r' ->
  call_task c = tid -> presented_lease c = Some (out, g) ->
  let l' := exec (transfer tid out inc g caps battery why now) s.1 s.2 in
  TaskRecord.owner_vehicle_id r' = Some inc /\ TaskRecord.lease_generation r' = g + 1 /\
  dict_get tid (TaskLedger._records l') = Some r' /\
  forall n, run (perform c) l' n = Raise ownership_required /\ exec (perform c) l' n = l'.
Proof.
  intros Hreach Hrun Hct Hpres l'. pose proof (reachable_ok _ Hreach) as Hok.
  pose proof (transfer_outcome tid out inc g caps battery why now s.1 s.2 Hok) as [Hrel H].
  unfold run in Hrun. rewrite Hrun in H. destruct H as (Hget & Ho & Hg & _).
  split_and!; [done..|]. intros n. subst tid.
  apply (presented_lease_refused c out g l' n r'); [done..|].
  eapply not_current_owner; [|by left; lia].
  by apply (ledger_rel_ok _ _ _ Hrel Hok).
Qed.

Lemma finished_states st :
  st ∈ [TaskState.COMPLETED; TaskState.ABORTED] ->
  st ∉ leased_states /\ st ∉ [TaskState.DECLARED; TaskState.RETRY_PENDING] /\
  st ∈ [TaskState.COMPLETED; TaskState.ABORTED; TaskState.DECLARED].
Proof.
  unfold leased_states. intros [->| ->%list_elem_of_singleton]%elem_of_cons; set_solver.
Qed.

(** A completed or aborted task is final: every later call about it leaves
    the whole ledger as it is. *)
Theorem finished_task_is_final s c r :
  reachable s ->
  dict_get (call_task c) (TaskLedger._records s.1) = Some r ->
  TaskRecord.state r ∈ [TaskState.COMPLETED; TaskState.ABORTED] ->
  exec (perform c) s.1 s.2 = s.1.
Proof.
  intros Hreach Hr Hst. pose proof (proj2 (reachable_ok _ Hreach) _ _ Hr) as Hok.
  pose proof (finished_states _ Hst) as (Hnl & Hna & Hnr).
  assert (TaskRecord.lease r = None) as Hl.
  { pose proof (ok_lease _ _ Hok) as H. destruct (TaskRecord.lease r); [|done].
    by destruct H as (_ & _ & _ & H). }
  destruct (presented_lease c) as [[v g]|] eqn:Hc.
  { destruct (presented_lease_refused c v g s.1 s.2 r Hc Hr) as [_ H]; [|exact H].
    eapply not_current_owner; [exact Hok|by right; right]. }
  assert (wp (perform c) (fun _ l' _ => l' = s.1) s.1 s.2) as H; [|exact H].
  destruct c; simpl in *; simplify_eq; apply wp_discard.
  4: { unfold transfer. destruct (String.eqb outgoing incoming); [by apply wp_bind, wp_raise|done]. }
  all: unfold assign, retry, reassign, abort; apply wp_bind, wp_record; [|congruence];
    intros r0 Hr0; assert (r0 = r) as -> by congruence.
  1, 2: rewrite bool_decide_eq_false_2; [by apply wp_bind, wp_raise|done].
  all: rewrite bool_decide_eq_true_2; [|done].
  - by apply wp_bind, wp_raise.
  - by apply wp_ret.
Qed.

(** C35: the evidence of a task replays to its state.  In every history in which
    no evidence event was refused by its own validation, [replay_task] on the
    events of a record returns a record with the same state, owner, lease
    generation, progress and mission run, and with the same events. *)
Theorem replay_reconstructs s tid r :
  recorded s -> dict_get tid (TaskLedger._records s.1) = Some r ->
  exists r', replay_task (TaskRecord.definition r) (TaskRecord.events r) = Ret r' /\
    observable r' = observable r /\ TaskRecord.events r' = TaskRecord.events r.
Proof.
  intros (s0 & [Hok Hev]%constructed_ok & Hsteps) Hr.
  destruct (recorded_evidenced _ _ Hok Hev Hsteps) as [Hok' Hev'].
  destruct (Hev' _ _ Hr) as [Ht Hb Hv Ho (e & Hlast & Hobs)].
  pose proof (ok_definition _ _ (proj2 Hok' _ _ Hr)) as Hd.
  unfold replay_task. rewrite Hd.
  assert (existsb (fun e => negb (String.eqb (TaskEvidenceEvent.task_id e) tid))
            (TaskRecord.events r) = false) as ->.
  { apply not_true_iff_false. intros (e' & Hin & He')%existsb_exists.
    rewrite Forall_forall in Ht. rewrite (Ht e'), String.eqb_refl in He'; [done|].
    by apply list_elem_of_In. }
  rewrite py_sorted_ordered.
  2: { unfold py_ordered, event_before. clear -Ho.
       induction Ho as [|x l Hl IH Hx]; constructor; [done|].
       eapply Forall_impl; [exact Hx|]. simpl. intros. apply Z.ltb_ge. lia. }
  rewrite Hlast. unfold event_observable, observable in Hobs. simplify_eq/=.
  assert (TaskEvidenceEvent_valid e = true) as Hve.
  { rewrite Forall_forall in Hv. apply Hv. by eapply last_Some_elem_of. }
  unfold TaskEvidenceEvent_valid in Hve. bool_to_prop.
  match goal with |- context [TaskRecord_valid ?x] => assert (TaskRecord_valid x = true) as -> end.
  { unfold TaskRecord_valid. simpl.
    rewrite !andb_true_iff. split_and!; try done; by apply Z.leb_le. }
  eexists. split_and!; [reflexivity|unfold observable; simpl; congruence|reflexivity].
Qed.


(** ** Leases *)

(** The time a guarded call is judged at: the one it gives, or the next reading
    of the clock. *)
Definition call_now (c : call) (n : nat) : float :=
  match c with
  | CallAssign _ _ _ _ _ now | CallStart _ _ _ _ now | CallRenew _ _ _ now
  | CallProgress _ _ _ _ now | CallPause _ _ _ _ now | CallResume _ _ _ now
  | CallReassign _ _ _ _ _ now | CallTransfer _ _ _ _ _ _ _ now | CallComplete _ _ _ _ now =>
      default (monotonic n) now
  | CallRetry _ _ | CallAbort _ _ => monotonic n
  end.

Definition live_lease (l : ledger) (tid vid : string) (g : Z) (now : float) : Prop :=
  exists r lease, dict_get tid (TaskLedger._records l) = Some r /\
    TaskRecord.lease r = Some lease /\ TaskLease.vehicle_id lease = vid /\
    TaskLease.generation lease = g /\ TaskRecord.owner_vehicle_id r = Some vid /\
    fleb (TaskLease.expires_at_monotonic_s lease) now = false.

Lemma require_lease_live tid vid g now l n :
  wp (_require_current_lease tid vid g now)
     (fun o _ _ => returned o -> live_lease l tid vid g (default (monotonic n) now)) l n.
Proof.
  unfold _require_current_lease.
  apply wp_bind, wp_record; [|intros ? [? ?]; congruence]. intros r Hr.
  apply wp_bind, wp_now_exact. intros n'.
  wp_go; intros [? ?]; try congruence. bool_to_prop.
  unfold is_current_owner, lease_expired in *.
  destruct (TaskRecord.lease r) as [lease|] eqn:Hl; [|done]. bool_to_prop. by exists r, lease.
Qed.

Lemma require_lease_bind_live {A} tid vid g now (k : TaskRecord.t -> M ledger A) l n :
  wp (_require_current_lease tid vid g now ≫= k)
     (fun o _ _ => returned o -> live_lease l tid vid g (default (monotonic n) now)) l n.
Proof.
  apply wp_bind. eapply wp_mono; [apply require_lease_live|].
  intros [r|e] l' n' H; [|intros [? ?]; congruence].
  unfold wp. intros _. apply H. by eexists.
Qed.

Lemma returned_discard {A} (m : M ledger A) P l n :
  wp m (fun o _ _ => returned o -> P) l n -> wp (_ ← m; mret tt) (fun o _ _ => returned o -> P) l n.
Proof.
  intros H. apply wp_discard. eapply wp_mono; [exact H|].
  intros [a|e] ?? HP Hret; [apply HP; by eexists|by destruct Hret].
Qed.

(** A call that acts for a vehicle (start, renew, progress, pause, resume,
    complete, or the outgoing side of a transfer) returns only if that vehicle
    owns the task under exactly the presented generation and the lease has not
    expired at the time of the call. *)
Theorem guarded_call_needs_live_lease s c vid g :
  presented_lease c = Some (vid, g) -> run (perform c) s.1 s.2 = Ret tt ->
  live_lease s.1 (call_task c) vid g (call_now c s.2).
Proof.
  intros Hc Hrun.
  enough (wp (perform c) (fun o _ _ => returned o ->
    live_lease s.1 (call_task c) vid g (call_now c s.2)) s.1 s.2) as H by (apply H; by eexists).
  destruct c; simpl in *; simplify_eq; apply returned_discard.
  all: try apply require_lease_bind_live.
  - unfold renew. apply wp_bind, wp_now_exact. intros n'.
    apply (require_lease_bind_live _ _ _ (Some _)).
  - unfold transfer. destruct (String.eqb outgoing incoming) eqn:E; [done|]. simplify_eq.
    apply wp_bind, wp_ret. apply require_lease_bind_live.
Qed.

(** ** Admission *)

(** An assignment that returns had a task nobody holds, a vehicle with every
    required capability and, unless the caller waived it, an observed battery
    that is not below the task's energy plus its margin; it gives the vehicle
    the next generation. *)
Theorem assign_admission tid vid caps battery allow now l n r' :
  run (assign tid vid caps battery allow now) l n = Ret r' ->
  exists r, dict_get tid (TaskLedger._records l) = Some r /\
    TaskRecord.state r ∈ [TaskState.DECLARED; TaskState.RETRY_PENDING] /\
    DeploymentTaskDefinition.required_capabilities (TaskRecord.definition r) ⊆ caps /\
    (allow = true \/ exists b, battery = Some b /\
       fltb b (required_energy (TaskRecord.definition r)) = false) /\
    TaskRecord.state r' = TaskState.ASSIGNED /\ TaskRecord.owner_vehicle_id r' = Some vid /\
    TaskRecord.lease_generation r' = TaskRecord.lease_generation r + 1.
Proof.
  by_returned.
  unfold assign.
  repeat (lazymatch goal with
          | |- wp (mbind _ (store_record _ _)) _ _ _ => fail
          | _ => wp_rule
          end; cbv beta iota zeta); try done.
  apply wp_bind, wp_store. eapply wp_emit; [apply dict_get_set_eq|done|].
  cbv zeta. intros e ? _ _ _ _ ? [= <-]. exists r0. bool_to_prop. split_and!; try done.
  - unfold capabilities_missing in *. bool_to_prop. set_solver.
  - unfold energy_inadequate in *. destruct allow; [by left|right].
    destruct battery as [b|]; [exists b|]; naive_solver.
Qed.

(** ** Progress *)
Definition progress_at (p : float) (r : TaskRecord.t) : Prop :=
  fleb p (TaskRecord.progress_percent r) = true.

(** While the evidence is complete, the progress of a task is a percentage. *)
Lemma evidence_percentage tid seq r :
  evidence_ok tid seq r -> is_percentage (TaskRecord.progress_percent r) = true.
Proof.
  intros [_ _ Hv _ (e & Hlast & Hobs)].
  assert (TaskEvidenceEvent_valid e = true) as Hve.
  { rewrite Forall_forall in Hv. apply Hv. by eapply last_Some_elem_of. }
  unfold TaskEvidenceEvent_valid in Hve. bool_to_prop.
  unfold event_observable, observable in Hobs. simplify_eq/=. congruence.
Qed.

(** [tid] keeps its progress. *)
Definition keeps_progress (tid : string) (l l' : ledger) : Prop :=
  forall r, dict_get tid (TaskLedger._records l) = Some r ->
  exists r', dict_get tid (TaskLedger._records l') = Some r' /\
    TaskRecord.progress_percent r' = TaskRecord.progress_percent r.

#[local] Instance keeps_progress_trans tid : Transitive (keeps_progress tid).
Proof.
  intros l1 l2 l3 H1 H2 r Hr. destruct (H1 r Hr) as (r2 & Hr2 & E2).
  destruct (H2 r2 Hr2) as (r3 & Hr3 & E3). exists r3. split; [done|congruence].
Qed.

#[local] Instance keeps_progress_refl tid : Reflexive (keeps_progress tid).
Proof. intros l r Hr. by exists r. Qed.

Lemma store_emit_progress tid r1 ty reason l n :
  wp (_ ← store_record tid r1; _emit tid ty reason)
     (fun o l' _ => (exists r', dict_get tid (TaskLedger._records l') = Some r' /\
       TaskRecord.progress_percent r' = TaskRecord.progress_percent r1) /\
       forall r', o = Ret r' -> TaskRecord.progress_percent r' = TaskRecord.progress_percent r1) l n.
Proof.
  apply wp_bind, wp_store. eapply wp_emit; [apply dict_get_set_eq|..]; cbv zeta.
  - intros n'. split; [|done]. exists r1. split; [apply dict_get_set_eq|done].
  - intros e n' _ _ _ _. split; [|by intros ? [= <-]].
    eexists. split; [apply dict_get_set_eq|done].
Qed.

Ltac quiet_transition :=
  try (eapply wp_mono; [apply store_emit_progress|]; intros ??? [(? & ? & ?) ?];
       intros ??; eexists; split; [eassumption|simpl in *; congruence]).

Lemma retry_progress tid why : steps (keeps_progress tid) (retry tid why).
Proof. intros l n. unfold retry. op_guards; try done. quiet_transition. Qed.

Lemma assign_progress tid vid caps b allow now :
  steps (keeps_progress tid) (assign tid vid caps b allow now).
Proof. intros l n. unfold assign. op_guards; try done. quiet_transition. Qed.

Lemma decision_progress tid why r l n :
  dict_get tid (TaskLedger._records l) = Some r ->
  wp (_ ← store_record tid (r |> set_decision (Some TaskDecision.REASSIGN));
      _emit tid "TASK_REASSIGNED" why)
     (fun _ l' _ => keeps_progress tid l l') l n.
Proof. intros Hr. quiet_transition. Qed.

Lemma reassign_progress tid vid caps b why now :
  steps (keeps_progress tid) (reassign tid vid caps b why now).
Proof.
  intros l n. unfold reassign. apply wp_bind, wp_record; [|done]. intros r0 _.
  apply wp_bind, wp_raise_if; intros _; [done|].
  apply wp_bind. eapply wp_mono; [apply retry_progress|]. intros [r1|e] l1 n1 H1; [|done].
  apply wp_bind. eapply wp_mono; [apply wp_and; [apply assign_progress|apply assign_post]|].
  intros [r2|e] l2 n2 [H2 [_ Hret]]; [|by etrans].
  destruct (Hret r2 eq_refl) as [Hget _].
  eapply wp_mono; [by apply decision_progress|]. intros o l3 n3 H3. etrans; [exact H1|]. by etrans.
Qed.

(** The progress of [tid] has not gone down. *)
Definition not_lowered (tid : string) (l l' : ledger) : Prop :=
  forall r, dict_get tid (TaskLedger._records l) = Some r ->
  exists r', dict_get tid (TaskLedger._records l') = Some r' /\
    fltb (TaskRecord.progress_percent r') (TaskRecord.progress_percent r) = false.

Lemma keeps_not_lowered tid l l' : keeps_progress tid l l' -> not_lowered tid l l'.
Proof.
  intros Hl r Hr. destruct (Hl r Hr) as (r' & Hr' & E). exists r'. split; [done|].
  rewrite E. apply fltb_irrefl.
Qed.

Lemma wp_quiet {A} tid (m : M ledger A) l n :
  wp m (fun _ l' _ => keeps_progress tid l l') l n ->
  wp (_ ← m; mret tt) (fun _ l' _ => not_lowered tid l l') l n.
Proof.
  intros H. apply wp_discard. eapply wp_mono; [exact H|].
  intros [a|e] l' n' Hl; by apply keeps_not_lowered.
Qed.

(** No call lowers the progress of its task. *)
Lemma perform_progress c l n :
  wp (perform c) (fun _ l' _ => not_lowered (call_task c) l l') l n.
Proof.
  destruct c; simpl; [apply wp_quiet|apply wp_quiet|apply wp_quiet| |apply wp_quiet..].
  - apply assign_progress.
  - unfold start. op_guards; try done. quiet_transition.
  - unfold renew. op_guards; try done. destruct (TaskRecord.lease r0); op_guards; try done.
    apply wp_assoc, wp_bind. eapply wp_mono; [apply store_emit_progress|].
    intros [r'|e] l' ? [(r1 & Hr1 & E) _]; intros r2 Hr2; exists r1; (split; [done|]);
      simpl in E; congruence.
  - apply wp_discard.
    unfold update_progress. op_guards; try by apply keeps_not_lowered.
    eapply wp_mono; [apply store_emit_progress|].
    intros [r'|e] l' ? [(r1 & Hr1 & E) _]; intros r2 Hr2; exists r1; (split; [done|]);
      assert (r2 = r0) as -> by congruence; rewrite E; by bool_to_prop.
  - unfold pause. op_guards; try done. quiet_transition.
  - unfold resume. op_guards; try done. quiet_transition.
  - apply retry_progress.
  - apply reassign_progress.
  - unfold transfer. op_guards; try done. quiet_transition.
  - unfold complete. op_guards; try done. quiet_transition.
  - unfold abort. op_guards; try done. quiet_transition.
Qed.

(** In a history whose evidence was all accepted, the progress of a task is
    a percentage and never goes down, whichever vehicles held the task and
    however often it was reassigned. *)
Theorem progress_is_monotone s1 s2 tid r1 :
  recorded s1 -> rtc recorded_step s1 s2 ->
  dict_get tid (TaskLedger._records s1.1) = Some r1 ->
  exists r2, dict_get tid (TaskLedger._records s2.1) = Some r2 /\
    is_percentage (TaskRecord.progress_percent r2) = true /\
    fleb (TaskRecord.progress_percent r1) (TaskRecord.progress_percent r2) = true.
Proof.
  intros (s0 & [Hok Hev]%constructed_ok & H0) Hsteps Hr1.
  destruct (recorded_evidenced _ _ Hok Hev H0) as [Hok1 Hev1]. clear Hok Hev H0 s0.
  revert r1 Hr1. induction Hsteps as [s|s1 s2 s3 Hstep Hrest IH]; intros r1 Hr1.
  { pose proof (evidence_percentage _ _ _ (Hev1 _ _ Hr1)) as Hp. exists r1. split_and!; try done.
    apply fleb_refl. by apply is_percentage_not_nan. }
  destruct (recorded_evidenced _ _ Hok1 Hev1 (rtc_once _ _ Hstep)) as [Hok2 Hev2].
  destruct Hstep as (c & o & Hc & Ho).
  assert (exists r2, dict_get tid (TaskLedger._records s2.1) = Some r2 /\
    fltb (TaskRecord.progress_percent r2) (TaskRecord.progress_percent r1) = false)
    as (r2 & Hr2 & Hlt).
  { destruct (decide (tid = call_task c)) as [->|Hne].
    - pose proof (perform_progress c s1.1 s1.2) as H. unfold wp in H. rewrite Hc in H. by apply H.
    - pose proof (perform_post c s1.1 s1.2) as [Hrel _]. rewrite Hc in Hrel. simpl in Hrel.
      exists r1. rewrite (rel_others _ _ _ Hrel tid Hne). split; [done|]. apply fltb_irrefl. }
  destruct (IH Hok2 Hev2 r2 Hr2) as (r3 & Hr3 & Hp & Hle). exists r3. split_and!; try done.
  eapply fleb_trans; [|exact Hle].
  pose proof (evidence_percentage _ _ _ (Hev1 _ _ Hr1)) as Hp1%is_percentage_not_nan.
  pose proof (evidence_percentage _ _ _ (Hev2 _ _ Hr2)) as Hp2%is_percentage_not_nan.
  by apply fltb_false in Hlt.
Qed.

(** The progress guard lets NaN through.  A progress of NaN is not below the
    old progress and not above 100, so [update_progress] stores it; the evidence
    event then refuses it, and the caller sees a validation error after the
    record has changed.  The task can then be completed at any criterion. *)
Theorem nan_progress_is_stored tid vid g now l n r lease :
  dict_get tid (TaskLedger._records l) = Some r ->
  TaskRecord.lease r = Some lease -> is_current_owner r vid g = true ->
  TaskRecord.state r = TaskState.IN_PROGRESS ->
  fleb (TaskLease.expires_at_monotonic_s lease) now = false ->
  run (update_progress tid vid g fnan (Some now)) l n = Raise (ValidationError "TaskEvidenceEvent")
  /\ exists r', dict_get tid (TaskLedger._records
       (exec (update_progress tid vid g fnan (Some now)) l n)) = Some r' /\
     TaskRecord.progress_percent r' = fnan /\
     fltb (TaskRecord.progress_percent r')
       (DeploymentTaskDefinition.completion_progress_percent (TaskRecord.definition r')) = false.
Proof.
  intros Hr Hl Hown Hst Hexp.
  enough (wp (update_progress tid vid g fnan (Some now)) (fun o l' _ =>
    o = Raise (ValidationError "TaskEvidenceEvent") /\
    exists r', dict_get tid (TaskLedger._records l') = Some r' /\
     TaskRecord.progress_percent r' = fnan /\
     fltb (TaskRecord.progress_percent r')
       (DeploymentTaskDefinition.completion_progress_percent (TaskRecord.definition r')) = false) l n)
    as H by exact H.
  unfold update_progress, _require_current_lease. apply wp_bind, wp_bind, wp_record; [|congruence].
  intros r0 Hr0. assert (r0 = r) as -> by congruence. apply wp_bind, wp_ret.
  assert (lease_expired r now = false) as Hexp' by (unfold lease_expired; by rewrite Hl).
  rewrite Hown, Hexp'. apply wp_bind, wp_ret, wp_bind, wp_ret, wp_ret.
  rewrite Hst, bool_decide_eq_true_2 by done. apply wp_bind, wp_ret.
  assert (fltb fnan (TaskRecord.progress_percent r) || fltb f100 fnan = false)%bool as -> by done.
  apply wp_bind, wp_ret, wp_bind, wp_store.
  eapply wp_emit; [apply dict_get_set_eq|..]; cbv zeta.
  - intros n'. split; [done|]. eexists. split; [apply dict_get_set_eq|done].
  - intros e n' Hv _ _ Hobs. exfalso. unfold TaskEvidenceEvent_valid in Hv. bool_to_prop.
    unfold event_observable, observable in Hobs. simplify_eq/=.
    match goal with H : is_percentage _ = true |- _ => apply is_percentage_not_nan in H end.
    by match goal with H : _ = fnan |- _ => rewrite H in * end.
Qed.

End ledger.

(** ** Witnesses: one task on a ledger whose leases last 10 s, under a clock
    that ticks once a second. *)
Module Examples.
#[local] Existing Instance example_clock.

Definition survey : DeploymentTaskDefinition.t := {|
  DeploymentTaskDefinition.task_id := "survey";
  DeploymentTaskDefinition.task_type := "SURVEY";
  DeploymentTaskDefinition.zone_id := "zone-a";
  DeploymentTaskDefinition.priority := 1;
  DeploymentTaskDefinition.mission_id := "hover";
  DeploymentTaskDefinition.mission_parameters := JObj [];
  DeploymentTaskDefinition.required_capabilities := {[VehicleCapability.RELATIVE_POSITIONING]};
  DeploymentTaskDefinition.completion_progress_percent := f100;
  DeploymentTaskDefinition.estimated_duration_s := float_of_Z 60;
  DeploymentTaskDefinition.estimated_energy_percent := float_of_Z 20;
  DeploymentTaskDefinition.energy_margin_percent := float_of_Z 5 |}.

Definition zeros : string := example_digest JNull.

Definition empty_ledger : TaskLedger.t := TaskLedger.mk "" "" "" f0 [] 0.

(** The state a computation leaves, with the clock. *)
Definition after {A} (m : M TaskLedger.t A) (s : TaskLedger.t * nat) : TaskLedger.t * nat :=
  let r := m s.1 s.2 in (r.1.2, r.2).

Definition declared : TaskLedger.t * nat :=
  Eval vm_compute in
    after (TaskLedger_init "session" "run" zeros [survey] (float_of_Z 10)) (empty_ledger, 0%nat).

Definition calls (cs : list call) (s : TaskLedger.t * nat) : TaskLedger.t * nat :=
  foldl (fun s c => after (perform c) s) s cs.

Definition caps : capability_set := {[VehicleCapability.RELATIVE_POSITIONING]}.

Definition to_assigned : list call := [CallAssign "survey" "cf1" caps (Some (float_of_Z 90)) false None].
Definition to_started : list call := to_assigned ++ [CallStart "survey" "cf1" "run-1" 1 None].
Definition to_completed : list call := to_started ++
  [CallProgress "survey" "cf1" 1 f100 None; CallComplete "survey" "cf1" 1 "done" None].

Definition assigned := Eval vm_compute in calls to_assigned declared.
Definition started := Eval vm_compute in calls to_started declared.
Definition completed := Eval vm_compute in calls to_completed declared.

Lemma declared_constructed : constructed declared.
Proof. by exists "session", "run", zeros, [survey], (float_of_Z 10), empty_ledger, 0%nat. Qed.

Lemma calls_steps cs s : rtc client_step s (calls cs s).
Proof.
  revert s. induction cs as [|c cs IH]; intros s; simpl; [done|].
  eapply rtc_l; [|apply IH]. exists c, (run (perform c) s.1 s.2).
  unfold after, run. by destruct (perform c s.1 s.2) as [[o l] n].
Qed.

Lemma calls_reachable cs s : calls cs declared = s -> reachable s.
Proof. intros <-. exists declared. split; [apply declared_constructed|apply calls_steps]. Qed.

(** Every call of [cs] had its evidence accepted. *)
Fixpoint all_recorded (cs : list call) (s : TaskLedger.t * nat) : bool :=
  match cs with
  | [] => true
  | c :: cs => negb (bool_decide (run (perform c) s.1 s.2 = Raise (ValidationError "TaskEvidenceEvent")))
               && all_recorded cs (after (perform c) s)
  end.

Lemma calls_recorded_steps cs s : all_recorded cs s = true -> rtc recorded_step s (calls cs s).
Proof.
  revert s. induction cs as [|c cs IH]; intros s H; simpl in *; [done|]. bool_to_prop.
  eapply rtc_l; [|by apply IH]. exists c, (run (perform c) s.1 s.2). split; [|done].
  unfold after, run. by destruct (perform c s.1 s.2) as [[o l] n].
Qed.

Lemma calls_recorded cs s :
  calls cs declared = s -> all_recorded cs declared = true -> recorded s.
Proof.
  intros <- H. exists declared. split; [apply declared_constructed|by apply calls_recorded_steps].
Qed.

Lemma started_steps : rtc client_step assigned started.
Proof.
  apply (calls_steps [CallStart "survey" "cf1" "run-1" 1 None] assigned).
Qed.

Definition record_of (s : TaskLedger.t * nat) : TaskRecord.t :=
  default (TaskRecord_new survey) (dict_get "survey" (TaskLedger._records s.1)).
Definition lease_of (s : TaskLedger.t * nat) : TaskLease.t :=
  default (TaskLease.mk "" "" "" "" "" 0 f0 f0) (TaskRecord.lease (record_of s)).

Lemma reachable_ledger_ok_witness : ledger_ok started.1.
Proof. apply reachable_ledger_ok. by apply (calls_reachable to_started). Defined.

Lemma one_holder_witness :
  TaskLease.vehicle_id (lease_of assigned) = TaskLease.vehicle_id (lease_of started).
Proof.
  apply (one_holder_per_generation assigned started "survey" (record_of assigned)
           (record_of started)); try reflexivity.
  - by apply (calls_reachable to_assigned).
  - apply started_steps.
Defined.

Lemma stale_lease_witness :
  run (perform (CallStart "survey" "cf1" "run-2" 7 None)) started.1 started.2
  = Raise ownership_required.
Proof.
  refine (proj1 (stale_lease_refused started (CallStart "survey" "cf1" "run-2" 7 None)
    "cf1" 7 (record_of started) _ _ _ _)); [by apply (calls_reachable to_started)|done|done|].
  by left.
Defined.

Definition handed_over : TaskRecord.t :=
  match run (transfer "survey" "cf1" "cf2" 1 caps (Some (float_of_Z 90)) "battery" None)
            started.1 started.2 with
  | Ret r => r
  | Raise _ => TaskRecord_new survey
  end.

Lemma transfer_witness : TaskRecord.owner_vehicle_id handed_over = Some "cf2".
Proof.
  refine (proj1 (transfer_invalidates_outgoing started "survey" "cf1" "cf2" 1 caps
    (Some (float_of_Z 90)) "battery" None handed_over
    (CallProgress "survey" "cf1" 1 f100 None) _ _ _ _)); [|vm_compute; reflexivity|done..].
  by apply (calls_reachable to_started).
Defined.

Lemma finished_task_witness :
  exec (perform (CallAbort "survey" "late")) completed.1 completed.2 = completed.1.
Proof.
  apply (finished_task_is_final completed _ (record_of completed));
    [by apply (calls_reachable to_completed)|done|by left].
Defined.

Lemma replay_witness :
  exists r', replay_task survey (TaskRecord.events (record_of completed)) = Ret r' /\
    observable r' = observable (record_of completed) /\
    TaskRecord.events r' = TaskRecord.events (record_of completed).
Proof.
  apply (replay_reconstructs completed "survey" (record_of completed)); [|done].
  apply (calls_recorded to_completed); vm_compute; reflexivity.
Defined.

Lemma guarded_call_witness : live_lease started.1 "survey" "cf1" 1 (monotonic started.2).
Proof.
  refine (guarded_call_needs_live_lease started (CallProgress "survey" "cf1" 1 f100 None)
    "cf1" 1 _ _); vm_compute; reflexivity.
Defined.

Lemma assign_admission_witness :
  exists r, dict_get "survey" (TaskLedger._records declared.1) = Some r /\
    TaskRecord.state r ∈ [TaskState.DECLARED; TaskState.RETRY_PENDING].
Proof.
  destruct (assign_admission "survey" "cf1" caps (Some (float_of_Z 90)) false None declared.1
    declared.2 (record_of assigned)) as (r & Hr & Hst & _); [vm_compute; reflexivity|].
  by exists r.
Defined.

Lemma progress_witness :
  exists r2, dict_get "survey" (TaskLedger._records completed.1) = Some r2 /\
    is_percentage (TaskRecord.progress_percent r2) = true /\
    fleb (TaskRecord.progress_percent (record_of started)) (TaskRecord.progress_percent r2) = true.
Proof.
  apply (progress_is_monotone started completed "survey"); [..|done].
  - apply (calls_recorded to_started); vm_compute; reflexivity.
  - exact (calls_recorded_steps [CallProgress "survey" "cf1" 1 f100 None;
      CallComplete "survey" "cf1" 1 "done" None] started eq_refl).
Defined.

Lemma nan_progress_witness :
  run (update_progress "survey" "cf1" 1 fnan (Some (float_of_Z 105))) started.1 started.2
  = Raise (ValidationError "TaskEvidenceEvent").
Proof.
  refine (proj1 (nan_progress_is_stored "survey" "cf1" 1 (float_of_Z 105) started.1 started.2
    (record_of started) (lease_of started) _ _ _ _ _)); vm_compute; reflexivity.
Defined.
End Examples.
