(* ===== verification/Persistent.v ===== *)
(** * Persistent coverage and reserve handover ([fleet/persistent.py])

    The coordinator keeps every task of a deployment covered: it allocates the
    active vehicles, and hands a task over to a reserve in phases.  It embeds the
    task ledger: [with_tasks] runs a ledger operation on its [tasks] attribute.

    Main results: a task has at most one active handover and a reserve takes part
    in at most one; the outgoing vehicle is released only after the lease moved;
    a takeover moves ownership, phase and vehicle states together or not at all,
    except when the ledger refuses the evidence; the allocator picks the best
    admissible vehicle; the separation check looks at every pair. *)

From S2P Require Import Prelude Float64 Effects Contracts Artifacts Tasks.

Module CoverageVehicleState.
Inductive t := ACTIVE | RESERVE | HANDOVER | RETURNING | UNAVAILABLE.
End CoverageVehicleState.
#[export] Instance CoverageVehicleState_eq_dec : EqDecision CoverageVehicleState.t.
Proof. solve_decision. Defined.

Module HandoverPhase.
Inductive t :=
| REQUESTED | REPLACEMENT_SELECTED | PREPARING | TAKEOVER_PENDING | TAKEOVER_CONFIRMED
| OUTGOING_RELEASED | COMPLETED | DEGRADED | FAILED.
End HandoverPhase.
#[export] Instance HandoverPhase_eq_dec : EqDecision HandoverPhase.t.
Proof. solve_decision. Defined.

Definition HandoverPhase_value (p : HandoverPhase.t) : string :=
  match p with
  | HandoverPhase.REQUESTED => "REQUESTED"
  | HandoverPhase.REPLACEMENT_SELECTED => "REPLACEMENT_SELECTED"
  | HandoverPhase.PREPARING => "PREPARING"
  | HandoverPhase.TAKEOVER_PENDING => "TAKEOVER_PENDING"
  | HandoverPhase.TAKEOVER_CONFIRMED => "TAKEOVER_CONFIRMED"
  | HandoverPhase.OUTGOING_RELEASED => "OUTGOING_RELEASED"
  | HandoverPhase.COMPLETED => "COMPLETED"
  | HandoverPhase.DEGRADED => "DEGRADED"
  | HandoverPhase.FAILED => "FAILED"
  end.

Module CoverageCandidate.
Record t := mk {
  vehicle_id : string;
  capabilities : capability_set;
  battery_percent : float;
  position_m : Vector3;
  state : CoverageVehicleState.t;
  connected : bool;
  armed : bool;
  available : bool;
}.
End CoverageCandidate.


Definition CoverageCandidate_valid (c : CoverageCandidate.t) : bool :=
  is_identifier (CoverageCandidate.vehicle_id c)
  && is_percentage (CoverageCandidate.battery_percent c).

Definition reserve_ready (c : CoverageCandidate.t) : bool :=
  CoverageCandidate.available c && CoverageCandidate.connected c
  && negb (CoverageCandidate.armed c)
  && (CoverageCandidate.state c ≟ CoverageVehicleState.RESERVE).

Module AllocationDecision.
Record t := mk {
  task_id : string;
  vehicle_id : string;
  task_priority : Z;
  distance_m : float;
  observed_battery_percent : float;
  predicted_energy_margin_percent : float;
  score : float;
  reason : string;
}.
End AllocationDecision.


Definition AllocationDecision_valid (d : AllocationDecision.t) : bool :=
  is_identifier (AllocationDecision.task_id d) && is_identifier (AllocationDecision.vehicle_id d)
  && ge0 (AllocationDecision.distance_m d)
  && is_percentage (AllocationDecision.observed_battery_percent d).

Module SeparationThreshold.
Inductive t := CLEAR | WARNING | CRITICAL.
End SeparationThreshold.
#[export] Instance SeparationThreshold_eq_dec : EqDecision SeparationThreshold.t.
Proof. solve_decision. Defined.

Module SeparationAction.
Inductive t := NONE | HOLD | BLOCK_HANDOVER.
End SeparationAction.
#[export] Instance SeparationAction_eq_dec : EqDecision SeparationAction.t.
Proof. solve_decision. Defined.

Module CoverageSeparation.
Record t := mk {
  first_vehicle_id : string;
  second_vehicle_id : string;
  distance_m : float;
  threshold : SeparationThreshold.t;
  action : SeparationAction.t;
}.
End CoverageSeparation.


Definition CoverageSeparation_valid (s : CoverageSeparation.t) : bool :=
  is_identifier (CoverageSeparation.first_vehicle_id s)
  && is_identifier (CoverageSeparation.second_vehicle_id s)
  && ge0 (CoverageSeparation.distance_m s).

Module HandoverEvent.
Record t := mk {
  sequence : Z;
  handover_id : string;
  task_id : string;
  phase : HandoverPhase.t;
  timestamp_monotonic_s : float;
  outgoing_vehicle_id : string;
  incoming_vehicle_id : option string;
  lease_generation : Z;
  reason : string;
}.
End HandoverEvent.


Definition HandoverEvent_valid (e : HandoverEvent.t) : bool :=
  (1 <=? HandoverEvent.sequence e) && is_identifier (HandoverEvent.handover_id e)
  && is_identifier (HandoverEvent.task_id e) && ge0 (HandoverEvent.timestamp_monotonic_s e)
  && is_identifier (HandoverEvent.outgoing_vehicle_id e)
  && opt_ok is_identifier (HandoverEvent.incoming_vehicle_id e)
  && (1 <=? HandoverEvent.lease_generation e).

Module HandoverRecord.
Record t := mk {
  handover_id : string;
  task_id : string;
  outgoing_vehicle_id : string;
  incoming_vehicle_id : option string;
  reason : string;
  phase : HandoverPhase.t;
  outgoing_lease_generation : Z;
  incoming_lease_generation : option Z;
  requested_at_monotonic_s : float;
  replacement_ready_at_monotonic_s : option float;
  takeover_confirmed_at_monotonic_s : option float;
  outgoing_released_at_monotonic_s : option float;
  predicted_energy_margin_percent : option float;
  takeover_confirmed : bool;
  release_reason : option string;
  events : list HandoverEvent.t;
}.

Definition set_incoming_vehicle_id (v : option string) (r : t) : t :=
  {| handover_id := handover_id r; task_id := task_id r; outgoing_vehicle_id :=
     outgoing_vehicle_id r; incoming_vehicle_id := v; reason := reason r; phase := phase r;
     outgoing_lease_generation := outgoing_lease_generation r; incoming_lease_generation :=
     incoming_lease_generation r; requested_at_monotonic_s := requested_at_monotonic_s r;
     replacement_ready_at_monotonic_s := replacement_ready_at_monotonic_s r;
     takeover_confirmed_at_monotonic_s := takeover_confirmed_at_monotonic_s r;
     outgoing_released_at_monotonic_s := outgoing_released_at_monotonic_s r;
     predicted_energy_margin_percent := predicted_energy_margin_percent r; takeover_confirmed :=
     takeover_confirmed r; release_reason := release_reason r; events := events r |}.
Definition set_phase (v : HandoverPhase.t) (r : t) : t :=
  {| handover_id := handover_id r; task_id := task_id r; outgoing_vehicle_id :=
     outgoing_vehicle_id r; incoming_vehicle_id := incoming_vehicle_id r; reason := reason r;
     phase := v; outgoing_lease_generation := outgoing_lease_generation r;
     incoming_lease_generation := incoming_lease_generation r; requested_at_monotonic_s :=
     requested_at_monotonic_s r; replacement_ready_at_monotonic_s :=
     replacement_ready_at_monotonic_s r; takeover_confirmed_at_monotonic_s :=
     takeover_confirmed_at_monotonic_s r; outgoing_released_at_monotonic_s :=
     outgoing_released_at_monotonic_s r; predicted_energy_margin_percent :=
     predicted_energy_margin_percent r; takeover_confirmed := takeover_confirmed r;
     release_reason := release_reason r; events := events r |}.
Definition set_incoming_lease_generation (v : option Z) (r : t) : t :=
  {| handover_id := handover_id r; task_id := task_id r; outgoing_vehicle_id :=
     outgoing_vehicle_id r; incoming_vehicle_id := incoming_vehicle_id r; reason := reason r;
     phase := phase r; outgoing_lease_generation := outgoing_lease_generation r;
     incoming_lease_generation := v; requested_at_monotonic_s := requested_at_monotonic_s r;
     replacement_ready_at_monotonic_s := replacement_ready_at_monotonic_s r;
     takeover_confirmed_at_monotonic_s := takeover_confirmed_at_monotonic_s r;
     outgoing_released_at_monotonic_s := outgoing_released_at_monotonic_s r;
     predicted_energy_margin_percent := predicted_energy_margin_percent r; takeover_confirmed :=
     takeover_confirmed r; release_reason := release_reason r; events := events r |}.
Definition set_replacement_ready_at_monotonic_s (v : option float) (r : t) : t :=
  {| handover_id := handover_id r; task_id := task_id r; outgoing_vehicle_id :=
     outgoing_vehicle_id r; incoming_vehicle_id := incoming_vehicle_id r; reason := reason r;
     phase := phase r; outgoing_lease_generation := outgoing_lease_generation r;
     incoming_lease_generation := incoming_lease_generation r; requested_at_monotonic_s :=
     requested_at_monotonic_s r; replacement_ready_at_monotonic_s := v;
     takeover_confirmed_at_monotonic_s := takeover_confirmed_at_monotonic_s r;
     outgoing_released_at_monotonic_s := outgoing_released_at_monotonic_s r;
     predicted_energy_margin_percent := predicted_energy_margin_percent r; takeover_confirmed :=
     takeover_confirmed r; release_reason := release_reason r; events := events r |}.
Definition set_takeover_confirmed_at_monotonic_s (v : option float) (r : t) : t :=
  {| handover_id := handover_id r; task_id := task_id r; outgoing_vehicle_id :=
     outgoing_vehicle_id r; incoming_vehicle_id := incoming_vehicle_id r; reason := reason r;
     phase := phase r; outgoing_lease_generation := outgoing_lease_generation r;
     incoming_lease_generation := incoming_lease_generation r; requested_at_monotonic_s :=
     requested_at_monotonic_s r; replacement_ready_at_monotonic_s :=
     replacement_ready_at_monotonic_s r; takeover_confirmed_at_monotonic_s := v;
     outgoing_released_at_monotonic_s := outgoing_released_at_monotonic_s r;
     predicted_energy_margin_percent := predicted_energy_margin_percent r; takeover_confirmed :=
     takeover_confirmed r; release_reason := release_reason r; events := events r |}.
Definition set_outgoing_released_at_monotonic_s (v : option float) (r : t) : t :=
  {| handover_id := handover_id r; task_id := task_id r; outgoing_vehicle_id :=
     outgoing_vehicle_id r; incoming_vehicle_id := incoming_vehicle_id r; reason := reason r;
     phase := phase r; outgoing_lease_generation := outgoing_lease_generation r;
     incoming_lease_generation := incoming_lease_generation r; requested_at_monotonic_s :=
     requested_at_monotonic_s r; replacement_ready_at_monotonic_s :=
     replacement_ready_at_monotonic_s r; takeover_confirmed_at_monotonic_s :=
     takeover_confirmed_at_monotonic_s r; outgoing_released_at_monotonic_s := v;
     predicted_energy_margin_percent := predicted_energy_margin_percent r; takeover_confirmed :=
     takeover_confirmed r; release_reason := release_reason r; events := events r |}.
Definition set_predicted_energy_margin_percent (v : option float) (r : t) : t :=
  {| handover_id := handover_id r; task_id := task_id r; outgoing_vehicle_id :=
     outgoing_vehicle_id r; incoming_vehicle_id := incoming_vehicle_id r; reason := reason r;
     phase := phase r; outgoing_lease_generation := outgoing_lease_generation r;
     incoming_lease_generation := incoming_lease_generation r; requested_at_monotonic_s :=
     requested_at_monotonic_s r; replacement_ready_at_monotonic_s :=
     replacement_ready_at_monotonic_s r; takeover_confirmed_at_monotonic_s :=
     takeover_confirmed_at_monotonic_s r; outgoing_released_at_monotonic_s :=
     outgoing_released_at_monotonic_s r; predicted_energy_margin_percent := v; takeover_confirmed
     := takeover_confirmed r; release_reason := release_reason r; events := events r |}.
Definition set_takeover_confirmed (v : bool) (r : t) : t :=
  {| handover_id := handover_id r; task_id := task_id r; outgoing_vehicle_id :=
     outgoing_vehicle_id r; incoming_vehicle_id := incoming_vehicle_id r; reason := reason r;
     phase := phase r; outgoing_lease_generation := outgoing_lease_generation r;
     incoming_lease_generation := incoming_lease_generation r; requested_at_monotonic_s :=
     requested_at_monotonic_s r; replacement_ready_at_monotonic_s :=
     replacement_ready_at_monotonic_s r; takeover_confirmed_at_monotonic_s :=
     takeover_confirmed_at_monotonic_s r; outgoing_released_at_monotonic_s :=
     outgoing_released_at_monotonic_s r; predicted_energy_margin_percent :=
     predicted_energy_margin_percent r; takeover_confirmed := v; release_reason := release_reason
     r; events := events r |}.
Definition set_release_reason (v : option string) (r : t) : t :=
  {| handover_id := handover_id r; task_id := task_id r; outgoing_vehicle_id :=
     outgoing_vehicle_id r; incoming_vehicle_id := incoming_vehicle_id r; reason := reason r;
     phase := phase r; outgoing_lease_generation := outgoing_lease_generation r;
     incoming_lease_generation := incoming_lease_generation r; requested_at_monotonic_s :=
     requested_at_monotonic_s r; replacement_ready_at_monotonic_s :=
     replacement_ready_at_monotonic_s r; takeover_confirmed_at_monotonic_s :=
     takeover_confirmed_at_monotonic_s r; outgoing_released_at_monotonic_s :=
     outgoing_released_at_monotonic_s r; predicted_energy_margin_percent :=
     predicted_energy_margin_percent r; takeover_confirmed := takeover_confirmed r;
     release_reason := v; events := events r |}.
Definition set_events (v : list HandoverEvent.t) (r : t) : t :=
  {| handover_id := handover_id r; task_id := task_id r; outgoing_vehicle_id :=
     outgoing_vehicle_id r; incoming_vehicle_id := incoming_vehicle_id r; reason := reason r;
     phase := phase r; outgoing_lease_generation := outgoing_lease_generation r;
     incoming_lease_generation := incoming_lease_generation r; requested_at_monotonic_s :=
     requested_at_monotonic_s r; replacement_ready_at_monotonic_s :=
     replacement_ready_at_monotonic_s r; takeover_confirmed_at_monotonic_s :=
     takeover_confirmed_at_monotonic_s r; outgoing_released_at_monotonic_s :=
     outgoing_released_at_monotonic_s r; predicted_energy_margin_percent :=
     predicted_energy_margin_percent r; takeover_confirmed := takeover_confirmed r;
     release_reason := release_reason r; events := v |}.
End HandoverRecord.


Definition HandoverRecord_valid (h : HandoverRecord.t) : bool :=
  is_identifier (HandoverRecord.handover_id h) && is_identifier (HandoverRecord.task_id h)
  && is_identifier (HandoverRecord.outgoing_vehicle_id h)
  && opt_ok is_identifier (HandoverRecord.incoming_vehicle_id h)
  && (1 <=? HandoverRecord.outgoing_lease_generation h)
  && opt_ok (fun g => 2 <=? g) (HandoverRecord.incoming_lease_generation h)
  && ge0 (HandoverRecord.requested_at_monotonic_s h)
  && opt_ok ge0 (HandoverRecord.replacement_ready_at_monotonic_s h)
  && opt_ok ge0 (HandoverRecord.takeover_confirmed_at_monotonic_s h)
  && opt_ok ge0 (HandoverRecord.outgoing_released_at_monotonic_s h).

Definition normalized_sha256 `{Digest} (h : HandoverRecord.t) : string :=
  canonical_sha256 (JObj [
    ("handover_id", JStr (HandoverRecord.handover_id h));
    ("task_id", JStr (HandoverRecord.task_id h));
    ("outgoing", JStr (HandoverRecord.outgoing_vehicle_id h));
    ("incoming", json_opt JStr (HandoverRecord.incoming_vehicle_id h));
    ("phase", JStr (HandoverPhase_value (HandoverRecord.phase h)));
    ("outgoing_generation", JInt (HandoverRecord.outgoing_lease_generation h));
    ("incoming_generation", json_opt JInt (HandoverRecord.incoming_lease_generation h));
    ("takeover_confirmed", JBool (HandoverRecord.takeover_confirmed h));
    ("release_reason", json_opt JStr (HandoverRecord.release_reason h))]).

Module CoverageStatus.
Inductive t := SUCCEEDED | DEGRADED | FAILED.
End CoverageStatus.
#[export] Instance CoverageStatus_eq_dec : EqDecision CoverageStatus.t.
Proof. solve_decision. Defined.

Module PersistentCoverageResult.
Record t := mk {
  status : CoverageStatus.t;
  reason_code : string;
  active_owners : dict string;
  handovers : list HandoverRecord.t;
  separation : list CoverageSeparation.t;
  normalized_outcome_sha256 : string;
}.
End PersistentCoverageResult.


Module PersistentCoverageCoordinator.
Record t := mk {
  deployment : DeploymentManifest.t;
  tasks : TaskLedger.t;
  vehicle_states : dict CoverageVehicleState.t;
  _handovers : dict HandoverRecord.t;
  _handover_sequence : Z;
  _separation : list CoverageSeparation.t;
}.

Definition set_tasks (v : TaskLedger.t) (r : t) : t :=
  {| deployment := deployment r; tasks := v; vehicle_states := vehicle_states r; _handovers :=
     _handovers r; _handover_sequence := _handover_sequence r; _separation := _separation r |}.
Definition set_vehicle_states (v : dict CoverageVehicleState.t) (r : t) : t :=
  {| deployment := deployment r; tasks := tasks r; vehicle_states := v; _handovers := _handovers
     r; _handover_sequence := _handover_sequence r; _separation := _separation r |}.
Definition set__handovers (v : dict HandoverRecord.t) (r : t) : t :=
  {| deployment := deployment r; tasks := tasks r; vehicle_states := vehicle_states r; _handovers
     := v; _handover_sequence := _handover_sequence r; _separation := _separation r |}.
Definition set__handover_sequence (v : Z) (r : t) : t :=
  {| deployment := deployment r; tasks := tasks r; vehicle_states := vehicle_states r; _handovers
     := _handovers r; _handover_sequence := v; _separation := _separation r |}.
Definition set__separation (v : list CoverageSeparation.t) (r : t) : t :=
  {| deployment := deployment r; tasks := tasks r; vehicle_states := vehicle_states r; _handovers
     := _handovers r; _handover_sequence := _handover_sequence r; _separation := v |}.
End PersistentCoverageCoordinator.

Import HandoverRecord (set_incoming_vehicle_id, set_phase, set_incoming_lease_generation,
  set_replacement_ready_at_monotonic_s, set_takeover_confirmed_at_monotonic_s,
  set_outgoing_released_at_monotonic_s, set_predicted_energy_margin_percent,
  set_takeover_confirmed, set_release_reason).

Section coverage.
Context {clk : Clock} {libm : Libm} {dig : Digest}.

Notation coordinator := PersistentCoverageCoordinator.t.

(** Run a ledger operation on [self.tasks]. *)
Definition with_tasks {A} (m : M TaskLedger.t A) : M coordinator A :=
  zoom PersistentCoverageCoordinator.tasks PersistentCoverageCoordinator.set_tasks m.

Definition set_vehicle_state (vehicle_id : string) (st : CoverageVehicleState.t) :
    M coordinator unit :=
  modify (fun self => PersistentCoverageCoordinator.set_vehicle_states
    (dict_set vehicle_id st (PersistentCoverageCoordinator.vehicle_states self)) self).

(** [self._handovers[handover_id] = record] *)
Definition store_handover (handover_id : string) (h : HandoverRecord.t) : M coordinator unit :=
  modify (fun self => PersistentCoverageCoordinator.set__handovers
    (dict_set handover_id h (PersistentCoverageCoordinator._handovers self)) self).

Definition PersistentCoverageCoordinator_init (fleet_session_id fleet_run_id : string)
    (deployment : DeploymentManifest.t) (task_lease_duration_s : float) : M coordinator unit :=
  _ ← raise_if ((Z.of_nat (length (DeploymentManifest.fleet deployment)) <? 3)
                || (Z.of_nat (length (DeploymentManifest.tasks deployment)) <? 2))
        (ValueError "persistent coverage requires at least three vehicles and two tasks");
  _ ← modify (fun self => {|
        PersistentCoverageCoordinator.deployment := deployment;
        PersistentCoverageCoordinator.tasks := PersistentCoverageCoordinator.tasks self;
        PersistentCoverageCoordinator.vehicle_states := [];
        PersistentCoverageCoordinator._handovers := [];
        PersistentCoverageCoordinator._handover_sequence := 0;
        PersistentCoverageCoordinator._separation := [] |});
  _ ← with_tasks (TaskLedger_init fleet_session_id fleet_run_id
        (DeploymentManifest_sha256 deployment) (DeploymentManifest.tasks deployment)
        task_lease_duration_s);
  modify (PersistentCoverageCoordinator.set_vehicle_states
    (dict_of FleetMemberDefinition.vehicle_id
      (fun member => if FleetMemberDefinition.initial_role member ≟ InitialFleetRole.RESERVE
                     then CoverageVehicleState.RESERVE else CoverageVehicleState.ACTIVE)
      (DeploymentManifest.fleet deployment))).

(** ** Allocation *)

(** The zone of a task; [next] over no zone raises [StopIteration]. *)
Definition zone_of (d : DeploymentManifest.t) (definition : DeploymentTaskDefinition.t) :
    outcome ZoneDefinition.t :=
  match find_first (fun z => String.eqb (ZoneDefinition.zone_id z)
                                        (DeploymentTaskDefinition.zone_id definition))
                   (DeploymentManifest.zones d) with
  | Some z => Ret z
  | None => Raise (OtherError "StopIteration")
  end.

(** One round of the loop of [_select]: [None] is [continue]. *)
Definition consider (task_id : string) (definition : DeploymentTaskDefinition.t)
    (zone : ZoneDefinition.t) (allow_inadequate_energy : bool) (candidate : CoverageCandidate.t) :
    outcome (option AllocationDecision.t) :=
  if negb (bool_decide (DeploymentTaskDefinition.required_capabilities definition
                        ⊆ CoverageCandidate.capabilities candidate)) then Ret None
  else
    let margin := fsub (CoverageCandidate.battery_percent candidate) (required_energy definition) in
    if fltb margin f0 && negb allow_inadequate_energy then Ret None
    else
      distance ← v_distance (CoverageCandidate.position_m candidate)
                            (center_m (ZoneDefinition.geometry zone));
      let score :=
        fsub (fadd (fmul (float_of_Z (DeploymentTaskDefinition.priority definition))
                         (float_of_Z 1000)) margin)
             (fmul distance (float_of_Z 10)) in
      let decision := {|
        AllocationDecision.task_id := task_id;
        AllocationDecision.vehicle_id := CoverageCandidate.vehicle_id candidate;
        AllocationDecision.task_priority := DeploymentTaskDefinition.priority definition;
        AllocationDecision.distance_m := distance;
        AllocationDecision.observed_battery_percent := CoverageCandidate.battery_percent candidate;
        AllocationDecision.predicted_energy_margin_percent := margin;
        AllocationDecision.score := score;
        AllocationDecision.reason :=
          "capability, availability, energy margin, distance, and priority" |} in
      if AllocationDecision_valid decision then Ret (Some decision)
      else Raise (ValidationError "AllocationDecision").

(** The key [(item.score, item.vehicle_id)] of the best decision. *)
Definition decision_ltb (d1 d2 : AllocationDecision.t) : bool :=
  lex_ltb str_ltb (AllocationDecision.score d1, AllocationDecision.vehicle_id d1)
                  (AllocationDecision.score d2, AllocationDecision.vehicle_id d2).

Definition _select (task_id : string) (candidates : list CoverageCandidate.t)
    (allow_inadequate_energy : bool) : M coordinator AllocationDecision.t :=
  task ← with_tasks (record task_id);
  let definition := TaskRecord.definition task in
  self ← get;
  zone ← lift (zone_of (PersistentCoverageCoordinator.deployment self) definition);
  considered ← lift (mapM (consider task_id definition zone allow_inadequate_energy) candidates);
  match py_max decision_ltb (omap id considered) with
  | None => raise (CrazySwarmError PREFLIGHT_FAILED
                     "no serviceable vehicle satisfies coverage allocation")
  | Some best => mret best
  end.

(** [sorted(tasks, key=lambda item: (-item.priority, item.task_id))] *)
Definition task_ltb (t1 t2 : DeploymentTaskDefinition.t) : bool :=
  if DeploymentTaskDefinition.priority t1 =? DeploymentTaskDefinition.priority t2
  then str_ltb (DeploymentTaskDefinition.task_id t1) (DeploymentTaskDefinition.task_id t2)
  else DeploymentTaskDefinition.priority t2 <? DeploymentTaskDefinition.priority t1.

Definition eligible_initially (preferred_assignments : option (dict string)) (claimed : list string)
    (task_id : string) (item : CoverageCandidate.t) : bool :=
  negb (CoverageCandidate.vehicle_id item ∈? claimed)
  && CoverageCandidate.available item && CoverageCandidate.connected item
  && (CoverageCandidate.state item ≟ CoverageVehicleState.ACTIVE)
  && match preferred_assignments with
     | None => true
     | Some preferred =>
         bool_decide (dict_get task_id preferred = Some (CoverageCandidate.vehicle_id item))
     end.

Fixpoint allocate_tasks (available : dict CoverageCandidate.t) (allow_inadequate_energy : bool)
    (preferred_assignments : option (dict string)) (now_s : option float)
    (definitions : list DeploymentTaskDefinition.t) (claimed : list string) :
    M coordinator (list AllocationDecision.t) :=
  match definitions with
  | [] => mret []
  | definition :: rest =>
      let task_id := DeploymentTaskDefinition.task_id definition in
      let eligible := filter (fun item =>
        eligible_initially preferred_assignments claimed task_id item = true) (dict_values available) in
      decision ← _select task_id eligible allow_inadequate_energy;
      match dict_get (AllocationDecision.vehicle_id decision) available with
      | None => raise (OtherError "KeyError")
      | Some vehicle =>
          _ ← with_tasks (assign task_id (AllocationDecision.vehicle_id decision)
                (CoverageCandidate.capabilities vehicle)
                (Some (CoverageCandidate.battery_percent vehicle)) allow_inadequate_energy now_s);
          decisions ← allocate_tasks available allow_inadequate_energy preferred_assignments now_s
                        rest (claimed ++ [AllocationDecision.vehicle_id decision]);
          mret (decision :: decisions)
      end
  end.

Definition allocate_initial (candidates : list CoverageCandidate.t) (allow_inadequate_energy : bool)
    (preferred_assignments : option (dict string)) (now_s : option float) :
    M coordinator (list AllocationDecision.t) :=
  let available := dict_of CoverageCandidate.vehicle_id id candidates in
  self ← get;
  let tasks := DeploymentManifest.tasks (PersistentCoverageCoordinator.deployment self) in
  decisions ← allocate_tasks available allow_inadequate_energy preferred_assignments now_s
                (py_sorted task_ltb tasks) [];
  _ ← raise_if (negb (bool_decide (length decisions = length tasks)))
        (CrazySwarmError PREFLIGHT_FAILED "coverage allocation is incomplete");
  mret decisions.

(** ** Handover *)

Definition terminal_phase (p : HandoverPhase.t) : bool :=
  p ∈? [HandoverPhase.COMPLETED; HandoverPhase.DEGRADED; HandoverPhase.FAILED].

(** [_event]: numbers and validates the event, and moves the copy to its phase. *)
Definition _event (h : HandoverRecord.t) (phase : HandoverPhase.t) (reason : string)
    (timestamp_s : float) : M coordinator HandoverRecord.t :=
  _ ← modify (fun self => PersistentCoverageCoordinator.set__handover_sequence
        (PersistentCoverageCoordinator._handover_sequence self + 1) self);
  self ← get;
  let event := {|
    HandoverEvent.sequence := PersistentCoverageCoordinator._handover_sequence self;
    HandoverEvent.handover_id := HandoverRecord.handover_id h;
    HandoverEvent.task_id := HandoverRecord.task_id h;
    HandoverEvent.phase := phase;
    HandoverEvent.timestamp_monotonic_s := timestamp_s;
    HandoverEvent.outgoing_vehicle_id := HandoverRecord.outgoing_vehicle_id h;
    HandoverEvent.incoming_vehicle_id := HandoverRecord.incoming_vehicle_id h;
    HandoverEvent.lease_generation :=
      match HandoverRecord.incoming_lease_generation h with
      | Some g => if g =? 0 then HandoverRecord.outgoing_lease_generation h else g
      | None => HandoverRecord.outgoing_lease_generation h
      end;
    HandoverEvent.reason := reason |} in
  event ← validated "HandoverEvent" (HandoverEvent_valid event) event;
  mret (h |> set_phase phase |> HandoverRecord.set_events (HandoverRecord.events h ++ [event])).

Definition handover (handover_id : string) : M coordinator HandoverRecord.t :=
  self ← get;
  match dict_get handover_id (PersistentCoverageCoordinator._handovers self) with
  | Some h => mret h
  | None => raise (CrazySwarmError INVALID_COMMAND "unknown handover")
  end.

Definition _candidate (candidates : list CoverageCandidate.t) (vehicle_id : string) :
    outcome CoverageCandidate.t :=
  match find_first (fun c => String.eqb (CoverageCandidate.vehicle_id c) vehicle_id) candidates with
  | Some c => Ret c
  | None => Err IDENTITY_MISMATCH "handover vehicle is unavailable"
  end.

Definition active_handover (h : HandoverRecord.t) : bool :=
  negb (terminal_phase (HandoverRecord.phase h)).

Definition current_owners (l : TaskLedger.t) : list string :=
  filter (fun v => v <> "") (omap TaskRecord.owner_vehicle_id (records l)).

Definition reserved_for_handover (d : dict HandoverRecord.t) : list (option string) :=
  HandoverRecord.incoming_vehicle_id <$> filter (fun h => active_handover h = true) (dict_values d).

Definition eligible_reserve (self : coordinator) (item : CoverageCandidate.t) : bool :=
  reserve_ready item
  && negb (CoverageCandidate.vehicle_id item ∈? current_owners (PersistentCoverageCoordinator.tasks self))
  && negb (Some (CoverageCandidate.vehicle_id item)
           ∈? reserved_for_handover (PersistentCoverageCoordinator._handovers self)).

(** [f"handover-{task_id}-{generation}"] *)
Definition handover_id_of (task_id : string) (generation : Z) : string :=
  "handover-" +:+ task_id +:+ "-" +:+ pretty generation.

(** [HandoverRecord(...)] of a request *)
Definition new_handover (handover_id task_id owner reason : string) (generation : Z)
    (timestamp : float) : HandoverRecord.t := {|
  HandoverRecord.handover_id := handover_id;
  HandoverRecord.task_id := task_id;
  HandoverRecord.outgoing_vehicle_id := owner;
  HandoverRecord.incoming_vehicle_id := None;
  HandoverRecord.reason := reason;
  HandoverRecord.phase := HandoverPhase.REQUESTED;
  HandoverRecord.outgoing_lease_generation := generation;
  HandoverRecord.incoming_lease_generation := None;
  HandoverRecord.requested_at_monotonic_s := timestamp;
  HandoverRecord.replacement_ready_at_monotonic_s := None;
  HandoverRecord.takeover_confirmed_at_monotonic_s := None;
  HandoverRecord.outgoing_released_at_monotonic_s := None;
  HandoverRecord.predicted_energy_margin_percent := None;
  HandoverRecord.takeover_confirmed := false;
  HandoverRecord.release_reason := None;
  HandoverRecord.events := [] |}.

Definition begin_handover (task_id reason : string) (candidates : list CoverageCandidate.t)
    (now_s : option float) : M coordinator HandoverRecord.t :=
  task ← with_tasks (record task_id);
  match TaskRecord.owner_vehicle_id task, TaskRecord.lease task with
  | Some owner, Some _ =>
      self ← get;
      _ ← raise_if (existsb (fun h => String.eqb (HandoverRecord.task_id h) task_id && active_handover h)
                            (dict_values (PersistentCoverageCoordinator._handovers self)))
            (CrazySwarmError INVALID_STATE "task already has an active handover");
      timestamp ← _now now_s;
      let handover_id := handover_id_of task_id (TaskRecord.lease_generation task + 1) in
      let h := new_handover handover_id task_id owner reason (TaskRecord.lease_generation task) timestamp in
      h ← validated "HandoverRecord" (HandoverRecord_valid h) h;
      h ← _event h HandoverPhase.REQUESTED reason timestamp;
      self ← get;
      let eligible := filter (fun item => eligible_reserve self item = true) candidates in
      selected ← try_except (d ← _select task_id eligible false; mret (Some d))
                   is_CrazySwarmError (fun _ => mret None);
      match selected with
      | None =>
          h ← _event (h |> set_phase HandoverPhase.DEGRADED) HandoverPhase.DEGRADED
                     "NO_SERVICEABLE_RESERVE" timestamp;
          _ ← store_handover handover_id h;
          mret h
      | Some decision =>
          let h := h
            |> set_incoming_vehicle_id (Some (AllocationDecision.vehicle_id decision))
            |> set_phase HandoverPhase.PREPARING
            |> set_predicted_energy_margin_percent
                 (Some (AllocationDecision.predicted_energy_margin_percent decision)) in
          h ← _event h HandoverPhase.REPLACEMENT_SELECTED reason timestamp;
          h ← _event h HandoverPhase.PREPARING "replacement preparation started" timestamp;
          _ ← set_vehicle_state (AllocationDecision.vehicle_id decision) CoverageVehicleState.HANDOVER;
          _ ← store_handover handover_id h;
          mret h
      end
  | _, _ => raise (CrazySwarmError INVALID_STATE "task has no current owner")
  end.

Definition confirm_replacement_ready (handover_id : string) (candidates : list CoverageCandidate.t)
    (now_s : option float) : M coordinator HandoverRecord.t :=
  h ← handover handover_id;
  match HandoverRecord.phase h, HandoverRecord.incoming_vehicle_id h with
  | HandoverPhase.PREPARING, Some incoming_id =>
      incoming ← lift (_candidate candidates incoming_id);
      _ ← raise_if (negb (CoverageCandidate.connected incoming)
                    || negb (CoverageCandidate.available incoming))
            (CrazySwarmError PREFLIGHT_FAILED "replacement is unavailable");
      timestamp ← _now now_s;
      let updated := h
        |> set_phase HandoverPhase.TAKEOVER_PENDING
        |> set_replacement_ready_at_monotonic_s (Some timestamp) in
      updated ← _event updated HandoverPhase.TAKEOVER_PENDING
                  "replacement ready; outgoing lease retained" timestamp;
      _ ← store_handover handover_id updated;
      mret updated
  | _, _ => raise (CrazySwarmError INVALID_STATE "handover is not preparing")
  end.

(** ** Separation *)

(** [for index, first in enumerate(l): for second in l[index + 1:]] *)
Fixpoint pairs {A} (l : list A) : list (A * A) :=
  match l with
  | [] => []
  | first :: rest => ((fun second => (first, second)) <$> rest) ++ pairs rest
  end.

Definition observe_pair (constraints : FleetConstraints.t)
    (pair : CoverageCandidate.t * CoverageCandidate.t) : outcome CoverageSeparation.t :=
  distance ← v_distance (CoverageCandidate.position_m pair.1) (CoverageCandidate.position_m pair.2);
  let '(threshold, action) :=
    if fleb distance (FleetConstraints.critical_separation_m constraints)
    then (SeparationThreshold.CRITICAL, SeparationAction.BLOCK_HANDOVER)
    else if fleb distance (FleetConstraints.warning_separation_m constraints)
    then (SeparationThreshold.WARNING, SeparationAction.HOLD)
    else (SeparationThreshold.CLEAR, SeparationAction.NONE) in
  let observation := {|
    CoverageSeparation.first_vehicle_id := CoverageCandidate.vehicle_id pair.1;
    CoverageSeparation.second_vehicle_id := CoverageCandidate.vehicle_id pair.2;
    CoverageSeparation.distance_m := distance;
    CoverageSeparation.threshold := threshold;
    CoverageSeparation.action := action |} in
  if CoverageSeparation_valid observation then Ret observation
  else Raise (ValidationError "CoverageSeparation").

Definition positioned (candidates : list CoverageCandidate.t) : list CoverageCandidate.t :=
  py_sorted (fun c1 c2 => str_ltb (CoverageCandidate.vehicle_id c1) (CoverageCandidate.vehicle_id c2))
    (filter (fun c => CoverageCandidate.available c = true) candidates).

Definition is_critical (o : CoverageSeparation.t) : bool :=
  CoverageSeparation.threshold o ≟ SeparationThreshold.CRITICAL.

Definition enforce_separation (candidates : list CoverageCandidate.t) :
    M coordinator (list CoverageSeparation.t) :=
  self ← get;
  observations ← lift (mapM (observe_pair (DeploymentManifest.constraints
                               (PersistentCoverageCoordinator.deployment self)))
                            (pairs (positioned candidates)));
  _ ← modify (fun self => PersistentCoverageCoordinator.set__separation
        (PersistentCoverageCoordinator._separation self ++ observations) self);
  _ ← raise_if (existsb is_critical observations)
        (CrazySwarmError PREFLIGHT_FAILED "critical separation blocks handover");
  mret observations.

Definition confirm_takeover (handover_id : string) (candidates : list CoverageCandidate.t)
    (now_s : option float) : M coordinator HandoverRecord.t :=
  h ← handover handover_id;
  match HandoverRecord.phase h, HandoverRecord.incoming_vehicle_id h with
  | HandoverPhase.TAKEOVER_PENDING, Some incoming_id =>
      incoming ← lift (_candidate candidates incoming_id);
      _ ← enforce_separation candidates;
      timestamp ← _now now_s;
      transferred ← with_tasks (transfer (HandoverRecord.task_id h)
        (HandoverRecord.outgoing_vehicle_id h) (CoverageCandidate.vehicle_id incoming)
        (HandoverRecord.outgoing_lease_generation h) (CoverageCandidate.capabilities incoming)
        (Some (CoverageCandidate.battery_percent incoming)) (HandoverRecord.reason h)
        (Some timestamp));
      let updated := h
        |> set_phase HandoverPhase.TAKEOVER_CONFIRMED
        |> set_incoming_lease_generation (Some (TaskRecord.lease_generation transferred))
        |> set_takeover_confirmed_at_monotonic_s (Some timestamp)
        |> set_takeover_confirmed true in
      updated ← _event updated HandoverPhase.TAKEOVER_CONFIRMED
                  "atomic task lease transfer confirmed" timestamp;
      _ ← set_vehicle_state (CoverageCandidate.vehicle_id incoming) CoverageVehicleState.ACTIVE;
      _ ← set_vehicle_state (HandoverRecord.outgoing_vehicle_id h) CoverageVehicleState.RETURNING;
      _ ← store_handover handover_id updated;
      mret updated
  | _, _ => raise (CrazySwarmError INVALID_STATE "replacement is not ready for takeover")
  end.

Definition release_outgoing (handover_id reason : string) (now_s : option float) :
    M coordinator HandoverRecord.t :=
  h ← handover handover_id;
  _ ← raise_if ((HandoverRecord.phase h ≠? HandoverPhase.TAKEOVER_CONFIRMED)
                || negb (HandoverRecord.takeover_confirmed h))
        (CrazySwarmError MODE_NOT_AUTHORIZED
           "outgoing vehicle cannot be released before confirmed takeover");
  timestamp ← _now now_s;
  let updated := h
    |> set_phase HandoverPhase.OUTGOING_RELEASED
    |> set_outgoing_released_at_monotonic_s (Some timestamp)
    |> set_release_reason (Some reason) in
  updated ← _event updated HandoverPhase.OUTGOING_RELEASED reason timestamp;
  let updated := updated |> set_phase HandoverPhase.COMPLETED in
  updated ← _event updated HandoverPhase.COMPLETED "handover completed" timestamp;
  _ ← store_handover handover_id updated;
  mret updated.

(** End an unconfirmed handover explicitly while retaining the outgoing lease. *)
Definition terminate_handover (handover_id reason : string) (failed : bool) (now_s : option float) :
    M coordinator HandoverRecord.t :=
  h ← handover handover_id;
  _ ← raise_if (HandoverRecord.takeover_confirmed h
                || (HandoverRecord.phase h ≟ HandoverPhase.COMPLETED))
        (CrazySwarmError INVALID_STATE
           "confirmed or completed handover cannot be terminated as unconfirmed");
  timestamp ← _now now_s;
  let phase := if failed then HandoverPhase.FAILED else HandoverPhase.DEGRADED in
  let updated := h |> set_phase phase |> set_release_reason (Some reason) in
  updated ← _event updated phase reason timestamp;
  _ ← match HandoverRecord.incoming_vehicle_id h with
      | Some incoming => set_vehicle_state incoming CoverageVehicleState.RESERVE
      | None => mret tt
      end;
  _ ← store_handover handover_id updated;
  mret updated.

(** Record a terminal failure after ownership may already have transferred. *)
Definition fail_handover (handover_id reason : string) (now_s : option float) :
    M coordinator HandoverRecord.t :=
  h ← handover handover_id;
  if HandoverRecord.phase h ≟ HandoverPhase.FAILED then mret h
  else
    timestamp ← _now now_s;
    let updated := h |> set_phase HandoverPhase.FAILED |> set_release_reason (Some reason) in
    updated ← _event updated HandoverPhase.FAILED reason timestamp;
    _ ← match HandoverRecord.incoming_vehicle_id h with
        | Some incoming => set_vehicle_state incoming CoverageVehicleState.UNAVAILABLE
        | None => mret tt
        end;
    _ ← store_handover handover_id updated;
    mret updated.

(** ** Result *)

Definition status_value (s : CoverageStatus.t) : string :=
  match s with
  | CoverageStatus.SUCCEEDED => "SUCCEEDED"
  | CoverageStatus.DEGRADED => "DEGRADED"
  | CoverageStatus.FAILED => "FAILED"
  end.

Definition threshold_value (t : SeparationThreshold.t) : string :=
  match t with
  | SeparationThreshold.CLEAR => "CLEAR"
  | SeparationThreshold.WARNING => "WARNING"
  | SeparationThreshold.CRITICAL => "CRITICAL"
  end.

Definition action_value (a : SeparationAction.t) : string :=
  match a with
  | SeparationAction.NONE => "NONE"
  | SeparationAction.HOLD => "HOLD"
  | SeparationAction.BLOCK_HANDOVER => "BLOCK_HANDOVER"
  end.

(** [{task_id: owner for item in self.tasks.records() if owner is not None}] *)
Definition owners_of (l : TaskLedger.t) : dict string :=
  foldl (fun d r =>
    match TaskRecord.owner_vehicle_id r with
    | Some v => dict_set (DeploymentTaskDefinition.task_id (TaskRecord.definition r)) v d
    | None => d
    end) [] (records l).

Definition separation_json (o : CoverageSeparation.t) : json := JObj [
  ("pair", JList [JStr (CoverageSeparation.first_vehicle_id o);
                  JStr (CoverageSeparation.second_vehicle_id o)]);
  ("threshold", JStr (threshold_value (CoverageSeparation.threshold o)));
  ("action", JStr (action_value (CoverageSeparation.action o)));
  ("distance_m", JFloat (py_round (CoverageSeparation.distance_m o) 6))].

Definition result : M coordinator PersistentCoverageResult.t :=
  self ← get;
  let by_id := PersistentCoverageCoordinator._handovers self in
  let handovers := omap (fun key => dict_get key by_id) (py_sorted str_ltb (dict_keys by_id)) in
  let degraded := existsb (fun h => HandoverRecord.phase h ≟ HandoverPhase.DEGRADED) handovers in
  let failed := existsb (fun h => HandoverRecord.phase h ≟ HandoverPhase.FAILED) handovers in
  let status :=
    if failed then CoverageStatus.FAILED
    else if degraded then CoverageStatus.DEGRADED else CoverageStatus.SUCCEEDED in
  let owners := owners_of (PersistentCoverageCoordinator.tasks self) in
  let normalized := JObj [
    ("status", JStr (status_value status));
    ("owners", JObj ((fun kv => (kv.1, JStr kv.2)) <$> owners));
    ("handovers", JList (JStr ∘ normalized_sha256 <$> handovers));
    ("separation", JList (separation_json <$> PersistentCoverageCoordinator._separation self))] in
  let result := {|
    PersistentCoverageResult.status := status;
    PersistentCoverageResult.reason_code :=
      match status with
      | CoverageStatus.SUCCEEDED => "COVERAGE_MAINTAINED"
      | CoverageStatus.DEGRADED => "NO_SERVICEABLE_RESERVE"
      | CoverageStatus.FAILED => "HANDOVER_FAILED"
      end;
    PersistentCoverageResult.active_owners := owners;
    PersistentCoverageResult.handovers := handovers;
    PersistentCoverageResult.separation := PersistentCoverageCoordinator._separation self;
    PersistentCoverageResult.normalized_outcome_sha256 := canonical_sha256 normalized |} in
  validated "PersistentCoverageResult"
    (is_sha256 (PersistentCoverageResult.normalized_outcome_sha256 result)
     && forallb (fun kv => is_identifier kv.1 && is_identifier kv.2) owners) result.


(** ** The handover state machine

    How one operation may change one handover: the abstract protocol.  [es] are
    the events the operation recorded. *)
Definition with_events (es : list HandoverEvent.t) (h : HandoverRecord.t) : HandoverRecord.t :=
  HandoverRecord.set_events (HandoverRecord.events h ++ es) h.

(** The ledger [l] has given the task of [h] to a later lease generation. *)
Definition lease_moved (l : TaskLedger.t) (h : HandoverRecord.t) : Prop :=
  exists r, dict_get (HandoverRecord.task_id h) (TaskLedger._records l) = Some r /\
    HandoverRecord.outgoing_lease_generation h < TaskRecord.lease_generation r.

(** One step, next to the ledger [l] the operation leaves behind: a takeover is
    confirmed only if that ledger shows it. *)
Inductive handover_step (l : TaskLedger.t) (h : HandoverRecord.t) : HandoverRecord.t -> Prop :=
| step_ready t es :
    HandoverRecord.phase h = HandoverPhase.PREPARING ->
    handover_step l h (with_events es (h
      |> set_phase HandoverPhase.TAKEOVER_PENDING
      |> set_replacement_ready_at_monotonic_s (Some t)))
| step_takeover t es :
    HandoverRecord.phase h = HandoverPhase.TAKEOVER_PENDING -> lease_moved l h ->
    handover_step l h (with_events es (h
      |> set_phase HandoverPhase.TAKEOVER_CONFIRMED
      |> set_incoming_lease_generation (Some (HandoverRecord.outgoing_lease_generation h + 1))
      |> set_takeover_confirmed_at_monotonic_s (Some t)
      |> set_takeover_confirmed true))
| step_release t reason es :
    HandoverRecord.phase h = HandoverPhase.TAKEOVER_CONFIRMED ->
    HandoverRecord.takeover_confirmed h = true ->
    handover_step l h (with_events es (h
      |> set_phase HandoverPhase.COMPLETED
      |> set_outgoing_released_at_monotonic_s (Some t)
      |> set_release_reason (Some reason)))
| step_terminate phase reason es :
    phase ∈ [HandoverPhase.DEGRADED; HandoverPhase.FAILED] ->
    HandoverRecord.takeover_confirmed h = false ->
    handover_step l h (with_events es (h
      |> set_phase phase |> set_release_reason (Some reason)))
| step_fail reason es :
    handover_step l h (with_events es (h
      |> set_phase HandoverPhase.FAILED |> set_release_reason (Some reason))).

(** The identity of a handover determines its task and its generation: a number has no
    dash in it. *)
Fixpoint dashless (s : string) : Prop :=
  match s with EmptyString => True | String c s' => c <> Ascii.ascii_of_nat 45 /\ dashless s' end.

Lemma pretty_N_go_dashless x s : dashless s -> dashless (pretty_N_go x s).
Proof.
  revert s. induction (N.lt_wf_0 x) as [x _ IH]. intros s Hs.
  destruct (decide (x = 0%N)) as [->|Hx]; [by rewrite pretty_N_go_0|].
  rewrite pretty_N_go_step by lia. apply IH; [apply N.div_lt; lia|]. split; [|done].
  unfold pretty_N_char. by repeat case_match.
Qed.

Lemma pretty_dashless z : 0 <= z -> dashless (pretty z).
Proof.
  intros Hz. destruct z as [|p|p]; [by repeat split| |lia].
  change (dashless (pretty (N.pos p))). unfold pretty, pretty_N. case_decide; [by repeat split|].
  by apply pretty_N_go_dashless.
Qed.

Lemma dash_split a b d e :
  dashless d -> dashless e -> a +:+ "-" +:+ d = b +:+ "-" +:+ e -> a = b /\ d = e.
Proof.
  assert (Hno : forall b d e, dashless d -> d <> b +:+ "-" +:+ e).
  { clear. induction b as [|c b IH]; intros d e Hd ->; simpl in Hd; [by destruct Hd|].
    destruct Hd as [_ Hd]. exact (IH _ e Hd eq_refl). }
  intros Hd He. revert b. induction a as [|c a IH]; intros [|c' b] H; simpl in H.
  - split; [done|]. by injection H.
  - exfalso. injection H as _ H. by apply (Hno b d e) in H.
  - exfalso. injection H as _ H. symmetry in H. by apply (Hno a e d) in H.
  - injection H as -> H. apply IH in H as [-> ->]. done.
Qed.

Lemma handover_id_of_inj t t' g g' :
  0 <= g -> 0 <= g' -> handover_id_of t g = handover_id_of t' g' -> t = t' /\ g = g'.
Proof.
  intros Hg Hg' H. unfold handover_id_of in H. apply (inj (String.append "handover-")) in H.
  apply dash_split in H as [-> H]; [|by apply pretty_dashless..]. split; [done|by apply (inj pretty)].
Qed.

(** The generation [g] of a task has been issued, and it was [v] that held it. *)
Definition held_by (l : TaskLedger.t) (tid : string) (g : Z) (v : string) : Prop :=
  exists r, dict_get tid (TaskLedger._records l) = Some r /\ g <= TaskRecord.lease_generation r /\
    (TaskRecord.lease_generation r = g -> forall o, TaskRecord.owner_vehicle_id r = Some o -> o = v).

Lemma task_step_held tid r r' g v :
  task_step tid r r' -> g <= TaskRecord.lease_generation r ->
  (TaskRecord.lease_generation r = g -> forall o, TaskRecord.owner_vehicle_id r = Some o -> o = v) ->
  g <= TaskRecord.lease_generation r' /\
  (TaskRecord.lease_generation r' = g -> forall o, TaskRecord.owner_vehicle_id r' = Some o -> o = v).
Proof. destruct 1; simpl; intros Hg Ho; split; try lia; auto; try (intros ?; lia); done. Qed.

Lemma held_by_rel l l' tid t g v : ledger_rel t l l' -> held_by l tid g v -> held_by l' tid g v.
Proof.
  intros Hrel (r & Hr & Hg & Ho). destruct (decide (tid = t)) as [<-|Hne].
  - destruct (rel_task _ _ _ Hrel r Hr) as (r' & Hr' & Hs). exists r'. split; [done|].
    clear Hr Hr'. induction Hs as [|r1 r2 r3 H1 _ IH]; [done|].
    destruct (task_step_held _ _ _ _ _ H1 Hg Ho). by apply IH.
  - exists r. by rewrite (rel_others _ _ _ Hrel).
Qed.

(** What is true of every stored handover. *)
Record handover_ok (id : string) (h : HandoverRecord.t) : Prop := {
  ho_id : HandoverRecord.handover_id h = id;
  ho_named : id = handover_id_of (HandoverRecord.task_id h) (HandoverRecord.outgoing_lease_generation h + 1);
  ho_idents : is_identifier id = true /\ is_identifier (HandoverRecord.task_id h) = true /\
    is_identifier (HandoverRecord.outgoing_vehicle_id h) = true /\
    opt_ok is_identifier (HandoverRecord.incoming_vehicle_id h) = true;
  ho_outgoing : 1 <= HandoverRecord.outgoing_lease_generation h;
  ho_generation : HandoverRecord.incoming_lease_generation h =
    if HandoverRecord.takeover_confirmed h
    then Some (HandoverRecord.outgoing_lease_generation h + 1) else None;
  ho_phase : match HandoverRecord.phase h with
    | HandoverPhase.PREPARING | HandoverPhase.TAKEOVER_PENDING =>
        is_Some (HandoverRecord.incoming_vehicle_id h) /\
        HandoverRecord.takeover_confirmed h = false
    | HandoverPhase.TAKEOVER_CONFIRMED | HandoverPhase.COMPLETED =>
        is_Some (HandoverRecord.incoming_vehicle_id h) /\
        HandoverRecord.takeover_confirmed h = true
    | HandoverPhase.DEGRADED => HandoverRecord.takeover_confirmed h = false
    | HandoverPhase.FAILED => True
    | _ => False
    end;
  ho_released : is_Some (HandoverRecord.outgoing_released_at_monotonic_s h) ->
    HandoverRecord.takeover_confirmed h = true;
}.

Lemma handover_step_ok l id h h' : handover_step l h h' -> handover_ok id h -> handover_ok id h'.
Proof.
  intros Hs [H1 H1' H2 H3 H4 H5 H6]; destruct Hs; split; simpl in *; try done.
  all: try (match goal with H : HandoverRecord.phase _ = _ |- _ => rewrite H in * end;
            destruct H5; try done).
  match goal with H : _ ∈ _ |- _ =>
      apply elem_of_cons in H as [->| ->%list_elem_of_singleton] end;
    done.
Qed.

Lemma handover_step_active l h h' :
  handover_step l h h' -> active_handover h' = true -> active_handover h = true.
Proof.
  unfold active_handover, terminal_phase.
  destruct 1; simpl; intros Ha; bool_to_prop; try (exfalso; set_solver);
    match goal with H : HandoverRecord.phase h = _ |- _ => rewrite H end;
    by rewrite bool_decide_eq_false_2 by set_solver.
Qed.

Lemma handover_step_parties l h h' :
  handover_step l h h' ->
  HandoverRecord.task_id h' = HandoverRecord.task_id h /\
  HandoverRecord.incoming_vehicle_id h' = HandoverRecord.incoming_vehicle_id h /\
  HandoverRecord.outgoing_vehicle_id h' = HandoverRecord.outgoing_vehicle_id h /\
  HandoverRecord.outgoing_lease_generation h' = HandoverRecord.outgoing_lease_generation h.
Proof. by destruct 1. Qed.

Lemma handover_step_stays l h h' :
  handover_step l h h' -> HandoverRecord.takeover_confirmed h = true ->
  HandoverRecord.takeover_confirmed h' = true.
Proof. by destruct 1. Qed.

(** An operation changes the stored handovers by one step of the protocol, adds
    one handover whose task and reserve are not engaged in another, or leaves
    them alone. *)
Inductive handovers_step (l : TaskLedger.t) (d : dict HandoverRecord.t) :
    dict HandoverRecord.t -> Prop :=
| hs_same : handovers_step l d d
| hs_step id h h' :
    dict_get id d = Some h -> handover_step l h h' -> handovers_step l d (dict_set id h' d)
| hs_begin id h :
    handover_ok id h -> HandoverRecord.takeover_confirmed h = false ->
    (exists r, dict_get (HandoverRecord.task_id h) (TaskLedger._records l) = Some r /\
       TaskRecord.lease_generation r = HandoverRecord.outgoing_lease_generation h /\
       TaskRecord.owner_vehicle_id r = Some (HandoverRecord.outgoing_vehicle_id h)) ->
    (forall k h2, dict_get k d = Some h2 -> active_handover h2 = true ->
       HandoverRecord.task_id h2 <> HandoverRecord.task_id h) ->
    (active_handover h = true -> forall k h2, dict_get k d = Some h2 -> active_handover h2 = true ->
       HandoverRecord.incoming_vehicle_id h2 <> HandoverRecord.incoming_vehicle_id h) ->
    handovers_step l d (dict_set id h d).

Record handovers_ok (d : dict HandoverRecord.t) : Prop := {
  hok_wf : dict_wf d;
  hok_each : forall id h, dict_get id d = Some h -> handover_ok id h;
  hok_active : forall k1 k2 h1 h2,
    dict_get k1 d = Some h1 -> dict_get k2 d = Some h2 ->
    active_handover h1 = true -> active_handover h2 = true ->
    HandoverRecord.task_id h1 = HandoverRecord.task_id h2 \/
    HandoverRecord.incoming_vehicle_id h1 = HandoverRecord.incoming_vehicle_id h2 -> k1 = k2;
}.

Lemma handovers_step_ok l d d' : handovers_step l d d' -> handovers_ok d -> handovers_ok d'.
Proof.
  intros Hs [Hwf Heach Hact]. destruct Hs as [|id h h' Hh Hstep|id h Hok _ _ Htask Hinc]; [done| |].
  - split; [by apply dict_set_wf| |].
    + intros k h0. rewrite dict_get_set. case_decide as Hk; [|apply Heach].
      subst k. intros [= <-]. eapply handover_step_ok; [exact Hstep|by apply Heach].
    + pose proof (handover_step_active _ _ _ Hstep) as Ha.
      destruct (handover_step_parties _ _ _ Hstep) as (Et & Ei & _ & _).
      intros k1 k2 h1 h2. rewrite !dict_get_set. repeat case_decide; subst; try done.
      * intros [= <-] H2 A1 A2. rewrite Et, Ei. apply (Hact id k2 h h2); auto.
      * intros H1 [= <-] A1 A2. rewrite Et, Ei. apply (Hact k1 id h1 h); auto.
      * apply Hact.
  - split; [by apply dict_set_wf| |].
    + intros k h0. rewrite dict_get_set. case_decide as Hk; [|apply Heach].
      subst k. by intros [= <-].
    + intros k1 k2 h1 h2. rewrite !dict_get_set. repeat case_decide; subst; try done.
      * intros [= <-] H2 A1 A2 [E|E]; [by destruct (Htask _ _ H2 A2)|].
        by destruct (Hinc A1 _ _ H2 A2).
      * intros H1 [= <-] A1 A2 [E|E]; [by destruct (Htask _ _ H1 A1)|].
        by destruct (Hinc A2 _ _ H1 A1).
      * apply Hact.
Qed.

(** ** What the coordinator may do to its state *)

(** A ledger evolves by calls, each about one task. *)
Definition ledger_steps : TaskLedger.t -> TaskLedger.t -> Prop :=
  rtc (fun l l' => exists tid, ledger_rel tid l l').

Lemma ledger_steps_ok l l' : ledger_steps l l' -> ledger_ok l -> ledger_ok l'.
Proof. induction 1 as [|l1 l2 l3 [tid H] _ IH]; [done|]. intros Hok. apply IH. by eapply ledger_rel_ok. Qed.

Record coordinator_step (self self' : coordinator) : Prop := {
  cs_deployment : PersistentCoverageCoordinator.deployment self'
                  = PersistentCoverageCoordinator.deployment self;
  cs_tasks : ledger_steps (PersistentCoverageCoordinator.tasks self)
                          (PersistentCoverageCoordinator.tasks self');
  cs_handovers : handovers_step (PersistentCoverageCoordinator.tasks self')
                                (PersistentCoverageCoordinator._handovers self)
                                (PersistentCoverageCoordinator._handovers self');
  cs_sequence : PersistentCoverageCoordinator._handover_sequence self
                <= PersistentCoverageCoordinator._handover_sequence self';
}.

Record coordinator_ok (self : coordinator) : Prop := {
  co_tasks : ledger_ok (PersistentCoverageCoordinator.tasks self);
  co_handovers : handovers_ok (PersistentCoverageCoordinator._handovers self);
  co_sequence : 0 <= PersistentCoverageCoordinator._handover_sequence self;
  co_confirmed : forall id h,
    dict_get id (PersistentCoverageCoordinator._handovers self) = Some h ->
    HandoverRecord.takeover_confirmed h = true ->
    lease_moved (PersistentCoverageCoordinator.tasks self) h;
  co_outgoing : forall id h,
    dict_get id (PersistentCoverageCoordinator._handovers self) = Some h ->
    held_by (PersistentCoverageCoordinator.tasks self) (HandoverRecord.task_id h)
      (HandoverRecord.outgoing_lease_generation h) (HandoverRecord.outgoing_vehicle_id h);
}.

Lemma held_by_steps l l' tid g v : ledger_steps l l' -> held_by l tid g v -> held_by l' tid g v.
Proof. induction 1 as [|l1 l2 l3 [t H] _ IH]; [done|]. intros Hh. by eapply IH, held_by_rel. Qed.

Lemma lease_moved_steps l l' h : ledger_steps l l' -> lease_moved l h -> lease_moved l' h.
Proof.
  induction 1 as [|l1 l2 l3 [tid Hrel] _ IH]; [done|]. intros (r & Hr & Hlt). apply IH.
  destruct (decide (HandoverRecord.task_id h = tid)) as [<-|Hne].
  - destruct (rel_task _ _ _ Hrel r Hr) as (r' & Hr' & Hs). exists r'. split; [done|].
    pose proof (generation_mono _ _ _ Hs). lia.
  - exists r. by rewrite (rel_others _ _ _ Hrel).
Qed.

(** A step confirms a takeover only when the ledger has moved the lease. *)
Lemma handover_step_confirmed l h h' :
  handover_step l h h' -> (HandoverRecord.takeover_confirmed h = true -> lease_moved l h) ->
  HandoverRecord.takeover_confirmed h' = true -> lease_moved l h'.
Proof. destruct 1; simpl; auto. Qed.

Lemma coordinator_step_ok self self' :
  coordinator_step self self' -> coordinator_ok self -> coordinator_ok self'.
Proof.
  intros [_ Ht Hh Hs] [H1 H2 H3 H4 H5].
  assert (forall id h, dict_get id (PersistentCoverageCoordinator._handovers self) = Some h ->
    HandoverRecord.takeover_confirmed h = true ->
    lease_moved (PersistentCoverageCoordinator.tasks self') h) as Hold.
  { intros id h Hd Hc. eapply lease_moved_steps; [exact Ht|by eapply H4]. }
  assert (forall id h, dict_get id (PersistentCoverageCoordinator._handovers self) = Some h ->
    held_by (PersistentCoverageCoordinator.tasks self') (HandoverRecord.task_id h)
      (HandoverRecord.outgoing_lease_generation h) (HandoverRecord.outgoing_vehicle_id h)) as Hout.
  { intros id h Hd. eapply held_by_steps; [exact Ht|by eapply H5]. }
  split; [by eapply ledger_steps_ok|by eapply handovers_step_ok|lia|..];
    inversion Hh as [Heq|id h h' Hd Hstep Heq|id h Hok Hc (r & Hr & Hg & Ho) _ _ Heq];
    try (by rewrite <- Heq in * ); intros id0 h0; rewrite dict_get_set; case_decide as E;
    try (by apply Hold); try (by apply Hout); intros [= <-].
  - eapply handover_step_confirmed; [exact Hstep|by eapply Hold].
  - congruence.
  - destruct (handover_step_parties _ _ _ Hstep) as (-> & _ & -> & ->). by eapply Hout.
  - exists r. split; [done|]. split; [lia|]. intros _ o Heq'. congruence.
Qed.

(** ** What a stored handover keeps

    Its task, its outgoing vehicle and its generation, whatever the operations do; once
    its takeover is confirmed, its reserve as well. *)
Definition coverage_kept (self self' : coordinator) : Prop :=
  forall id h, dict_get id (PersistentCoverageCoordinator._handovers self) = Some h ->
    exists h', dict_get id (PersistentCoverageCoordinator._handovers self') = Some h' /\
      HandoverRecord.task_id h' = HandoverRecord.task_id h /\
      HandoverRecord.outgoing_vehicle_id h' = HandoverRecord.outgoing_vehicle_id h /\
      HandoverRecord.outgoing_lease_generation h' = HandoverRecord.outgoing_lease_generation h /\
      (HandoverRecord.takeover_confirmed h = true ->
       HandoverRecord.takeover_confirmed h' = true /\
       HandoverRecord.incoming_vehicle_id h' = HandoverRecord.incoming_vehicle_id h).

#[export] Instance coverage_kept_preorder : PreOrder coverage_kept.
Proof.
  split; [by intros s id h Hh; exists h|]. intros s1 s2 s3 H12 H23 id h Hh.
  destruct (H12 id h Hh) as (h2 & H2 & E1 & E2 & E3 & E4).
  destruct (H23 id h2 H2) as (h3 & H3 & F1 & F2 & F3 & F4). exists h3.
  split_and!; [done|congruence..|]. intros Hc. destruct (E4 Hc) as [Hc2 <-]. by apply F4.
Qed.

Lemma coordinator_step_kept self self' :
  coordinator_step self self' -> coordinator_ok self -> coverage_kept self self'.
Proof.
  intros [_ Ht Hh _] [_ Hhok _ Hmoved Hout] id h Hd.
  inversion Hh as [Heq|id' h1 h' Hd' Hstep Heq|id' h' Hok Hc (r & Hr & Hg & Ho) _ _ Heq].
  - by exists h.
  - destruct (decide (id = id')) as [<-|Hne]; [|exists h; by rewrite dict_get_set_ne].
    assert (h1 = h) as -> by congruence. exists h'. rewrite dict_get_set_eq.
    pose proof (handover_step_stays _ _ _ Hstep).
    destruct (handover_step_parties _ _ _ Hstep) as (-> & -> & -> & ->). split_and!; auto.
  - destruct (decide (id = id')) as [<-|Hne]; [|exists h; by rewrite dict_get_set_ne].
    exists h'. rewrite dict_get_set_eq. split; [done|].
    pose proof (hok_each _ Hhok _ _ Hd) as Hok1.
    pose proof (ho_named _ _ Hok1) as N1. rewrite (ho_named _ _ Hok) in N1.
    pose proof (ho_outgoing _ _ Hok1). pose proof (ho_outgoing _ _ Hok).
    apply handover_id_of_inj in N1 as [Etask Egen]; [|lia..].
    destruct (held_by_steps _ _ _ _ _ Ht (Hout _ _ Hd)) as (r' & Hr' & Hge & Howner).
    rewrite <- Etask in Hr'. assert (r' = r) as -> by congruence.
    split_and!; [done|apply Howner; [lia|done]|lia|]. intros Hconf. exfalso.
    destruct (lease_moved_steps _ _ _ Ht (Hmoved _ _ Hd Hconf)) as (r2 & Hr2 & Hlt).
    rewrite <- Etask in Hr2. assert (r2 = r) as -> by congruence. lia.
Qed.

(** Everything but the event counter and the separation log is untouched. *)
Record quiet (self self' : coordinator) : Prop := {
  q_deployment : PersistentCoverageCoordinator.deployment self'
                 = PersistentCoverageCoordinator.deployment self;
  q_tasks : PersistentCoverageCoordinator.tasks self' = PersistentCoverageCoordinator.tasks self;
  q_states : PersistentCoverageCoordinator.vehicle_states self'
             = PersistentCoverageCoordinator.vehicle_states self;
  q_handovers : PersistentCoverageCoordinator._handovers self'
                = PersistentCoverageCoordinator._handovers self;
  q_sequence : PersistentCoverageCoordinator._handover_sequence self
               <= PersistentCoverageCoordinator._handover_sequence self';
}.

#[local] Instance quiet_refl : Reflexive quiet.
Proof. done. Qed.

#[local] Instance quiet_trans : Transitive quiet.
Proof. intros s1 s2 s3 [] []. split; try congruence. lia. Qed.

Lemma quiet_step self self' : quiet self self' -> coordinator_step self self'.
Proof. intros [? Ht ? Hh ?]. split; try done; [by rewrite Ht|rewrite Hh; constructor]. Qed.

(** ** Rules of the building blocks *)

Lemma wp_handover id (Q : outcome HandoverRecord.t -> coordinator -> nat -> Prop) self n :
  (forall h, dict_get id (PersistentCoverageCoordinator._handovers self) = Some h -> Q (Ret h) self n) ->
  Q (Raise (CrazySwarmError INVALID_COMMAND "unknown handover")) self n ->
  wp (handover id) Q self n.
Proof.
  intros H1 H2. unfold handover. wp_go.
  destruct (dict_get id (PersistentCoverageCoordinator._handovers self)) eqn:E; wp_go; auto.
Qed.

(** [_event] only takes a number; the copy it returns has the new phase and one
    more event. *)
Lemma wp_event h phase reason t (Q : outcome HandoverRecord.t -> coordinator -> nat -> Prop) self n :
  let self' := PersistentCoverageCoordinator.set__handover_sequence
    (PersistentCoverageCoordinator._handover_sequence self + 1) self in
  Q (Raise (ValidationError "HandoverEvent")) self' n ->
  (forall e, HandoverEvent_valid e = true -> Q (Ret (with_events [e] (h |> set_phase phase))) self' n) ->
  wp (_event h phase reason t) Q self n.
Proof. intros self' H1 H2. unfold _event. wp_go; [exact H1|]. by apply H2. Qed.

(** [d] is the decision [_select] considers for the candidate [c]. *)
Definition admits (self : coordinator) (task_id : string) (allow : bool)
    (c : CoverageCandidate.t) (d : AllocationDecision.t) : Prop :=
  exists r zone,
    dict_get task_id (TaskLedger._records (PersistentCoverageCoordinator.tasks self)) = Some r /\
    zone_of (PersistentCoverageCoordinator.deployment self) (TaskRecord.definition r) = Ret zone /\
    consider task_id (TaskRecord.definition r) zone allow c = Ret (Some d).

Definition selected (self : coordinator) (task_id : string) (cands : list CoverageCandidate.t)
    (allow : bool) (d : AllocationDecision.t) : Prop :=
  (exists c, c ∈ cands /\ admits self task_id allow c d) /\
  ((forall c d', c ∈ cands -> admits self task_id allow c d' ->
      is_nan (AllocationDecision.score d') = false) ->
   forall c d', c ∈ cands -> admits self task_id allow c d' -> decision_ltb d d' = false).

Lemma considered_elem task_id definition zone allow cands
    (considered : list (option AllocationDecision.t)) d :
  mapM (consider task_id definition zone allow) cands = Ret considered ->
  d ∈ omap id considered <->
  exists c, c ∈ cands /\ consider task_id definition zone allow c = Ret (Some d).
Proof.
  intros H%mapM_Ret. rewrite list_elem_of_omap. split.
  - intros (o & Ho & Hd). simpl in Hd. subst o.
    apply list_elem_of_lookup in Ho as [i Hi].
    apply (Forall2_lookup_r _ _ _ _ _ H) in Hi as (c & Hc & Hcd). exists c. split; [|done].
    by eapply list_elem_of_lookup_2.
  - intros (c & Hc & Hcd). apply list_elem_of_lookup in Hc as [i Hi].
    apply (Forall2_lookup_l _ _ _ _ _ H) in Hi as (o & Ho & Ho'). exists o.
    split; [by eapply list_elem_of_lookup_2|]. simpl. congruence.
Qed.

Lemma decision_ltb_best (decisions : list AllocationDecision.t) best d :
  Forall (fun d => is_nan (AllocationDecision.score d) = false) decisions ->
  py_max decision_ltb decisions = Some best -> d ∈ decisions -> decision_ltb best d = false.
Proof.
  apply (py_max_ge decision_ltb (fun d => is_nan (AllocationDecision.score d) = false));
    cbv beta; unfold decision_ltb; intros.
  - by apply (lex_ltb_irrefl str_ltb (_, _)).
  - eapply (lex_ltb_neg_trans str_ltb (_, _) (_, _) (_, _)); [..|eassumption|eassumption]; done.
  - by apply (lex_ltb_asym str_ltb (_, _) (_, _)).
Qed.

(** [_select] reads only, and takes the best admissible candidate. *)
Lemma wp_select task_id cands allow (Q : outcome AllocationDecision.t -> coordinator -> nat -> Prop) self n :
  (forall d, selected self task_id cands allow d -> Q (Ret d) self n) ->
  (forall e, Q (Raise e) self n) -> wp (_select task_id cands allow) Q self n.
Proof.
  intros Hret Herr. unfold _select, with_tasks.
  assert (forall l, PersistentCoverageCoordinator.set_tasks (PersistentCoverageCoordinator.tasks l) l = l)
    as Hset by by intros [].
  wp_go. apply wp_record; [intros r Hr|intros _]; rewrite Hset; [|apply Herr]. simpl.
  wp_go. destruct (zone_of _ _) as [zone|] eqn:Hz; [|apply Herr]. wp_go.
  destruct (mapM _ _) as [considered|] eqn:Hm; [|apply Herr].
  destruct (py_max _ _) as [best|] eqn:Hmax; [|apply Herr].
  pose proof (considered_elem _ _ _ _ _ _ best Hm) as Hbest.
  apply Hret. split.
  - destruct (proj1 Hbest (py_max_elem _ _ _ Hmax)) as (c & Hc & Hd).
    exists c. split; [done|]. by exists r, zone.
  - intros Hnan c d' Hc (r' & zone' & Hr' & Hz' & Hd').
    assert (r' = r) as -> by congruence. assert (zone' = zone) as -> by congruence.
    eapply decision_ltb_best; [|exact Hmax|].
    + apply Forall_forall. intros d Hd%(considered_elem _ _ _ _ _ _ d Hm).
      destruct Hd as (c2 & Hc2 & Hd). apply (Hnan c2); [done|]. by exists r, zone.
    + apply (considered_elem _ _ _ _ _ _ d' Hm). by exists c.
Qed.

Lemma wp_enforce_separation cands
    (Q : outcome (list CoverageSeparation.t) -> coordinator -> nat -> Prop) self n :
  (forall o self', quiet self self' -> Q o self' n) ->
  wp (enforce_separation cands) Q self n.
Proof.
  intros H. unfold enforce_separation. wp_go.
  destruct (mapM _ _); wp_go; apply H; done.
Qed.

(** ** The operations refine the protocol *)

Ltac wp_hook ::=
  lazymatch goal with
  | |- wp (handover _) _ _ _ => apply wp_handover; [intros ?h ?Hh|]
  | |- wp (_event _ _ _ _) _ _ _ => apply wp_event; [|intros ?e ?He]; cbv zeta
  | |- wp (_now _) _ _ _ => apply wp_now_exact; intros ?
  | |- wp (_select _ _ _) _ _ _ => apply wp_select; [intros ?d ?Hsel|intros ?err]
  | |- wp (enforce_separation _) _ _ _ => apply wp_enforce_separation; intros [?obs|?err] ?self' ?Hq
  | |- wp (set_vehicle_state _ _) _ _ _ => apply wp_modify
  | |- wp (store_handover _ _) _ _ _ => apply wp_modify
  | |- wp (with_tasks _) _ _ _ => apply wp_zoom
  | |- wp (match HandoverRecord.phase ?h with _ => _ end) _ _ _ =>
      destruct (HandoverRecord.phase h) eqn:?
  | |- wp (match ?x with Some _ => _ | None => _ end) _ _ _ => destruct x eqn:?
  | |- wp (match ?x with Ret _ => _ | Raise _ => _ end) _ _ _ => destruct x eqn:?
  end.

(** Close the paths on which only the event counter moved. *)
Ltac quiet_path :=
  try (lazymatch goal with |- coordinator_step _ _ => apply quiet_step end;
       split; simpl; first [reflexivity|lia]).

(** The stored handover is one protocol step away. *)
Ltac step_path lem :=
  split; simpl; [done|by apply rtc_refl|simpl; eapply hs_step; [eassumption|]; by eapply lem|lia].

Lemma confirm_replacement_ready_step id cands now : steps coordinator_step (confirm_replacement_ready id cands now).
Proof.
  intros self n. unfold confirm_replacement_ready. wp_go; quiet_path.
  destruct (_candidate _ _); wp_go; quiet_path.
  step_path step_ready.
Qed.

Lemma with_events_app h es1 es2 p f :
  (forall h es, f (with_events es h) = with_events es (f h)) ->
  with_events es2 (set_phase p (f (with_events es1 h))) = with_events (es1 ++ es2) (set_phase p (f h)).
Proof.
  intros ->. unfold with_events. simpl. by rewrite <- app_assoc.
Qed.

Lemma release_outgoing_step id reason now : steps coordinator_step (release_outgoing id reason now).
Proof.
  intros self n. unfold release_outgoing. wp_go; quiet_path.
  rewrite with_events_app by done.
  bool_to_prop. step_path step_release.
Qed.

Lemma terminate_handover_step id reason failed now :
  steps coordinator_step (terminate_handover id reason failed now).
Proof.
  intros self n. unfold terminate_handover. wp_go; quiet_path; bool_to_prop.
  all: split; simpl; [done|by apply rtc_refl| |lia].
  all: eapply hs_step; [eassumption|]; eapply step_terminate; [|done].
  all: destruct failed; set_solver.
Qed.

Lemma fail_handover_step id reason now : steps coordinator_step (fail_handover id reason now).
Proof.
  intros self n. unfold fail_handover. wp_go; quiet_path; step_path step_fail.
Qed.

Lemma tasks_step self l' :
  ledger_steps (PersistentCoverageCoordinator.tasks self) l' ->
  coordinator_step self (PersistentCoverageCoordinator.set_tasks l' self).
Proof. intros H. split; simpl; [done|done|constructor|lia]. Qed.

#[local] Instance ledger_steps_trans : Transitive ledger_steps.
Proof. intros l1 l2 l3 H1 H2. unfold ledger_steps in *. by etrans. Qed.

Lemma ledger_rel_steps tid l l' : ledger_rel tid l l' -> ledger_steps l l'.
Proof. intros H. apply rtc_once. by exists tid. Qed.

(** How a takeover ends.  [self] is the state before the call. *)
Record taken_over (id : string) (self self' : coordinator) (h' : HandoverRecord.t) : Prop := {
  to_before : exists h, dict_get id (PersistentCoverageCoordinator._handovers self) = Some h /\
    HandoverRecord.phase h = HandoverPhase.TAKEOVER_PENDING /\
    handover_step (PersistentCoverageCoordinator.tasks self') h h';
  to_stored : PersistentCoverageCoordinator._handovers self'
    = dict_set id h' (PersistentCoverageCoordinator._handovers self);
  to_phase : HandoverRecord.phase h' = HandoverPhase.TAKEOVER_CONFIRMED;
  to_owner : exists r incoming, HandoverRecord.incoming_vehicle_id h' = Some incoming /\
    dict_get (HandoverRecord.task_id h') (TaskLedger._records (PersistentCoverageCoordinator.tasks self')) = Some r /\
    TaskRecord.owner_vehicle_id r = Some incoming /\
    TaskRecord.lease_generation r = HandoverRecord.outgoing_lease_generation h' + 1 /\
    HandoverRecord.incoming_lease_generation h' = Some (TaskRecord.lease_generation r) /\
    dict_get (HandoverRecord.outgoing_vehicle_id h') (PersistentCoverageCoordinator.vehicle_states self')
      = Some CoverageVehicleState.RETURNING /\
    (incoming <> HandoverRecord.outgoing_vehicle_id h' ->
     dict_get incoming (PersistentCoverageCoordinator.vehicle_states self')
      = Some CoverageVehicleState.ACTIVE);
}.

Definition evidence_refused : exn := ValidationError "TaskEvidenceEvent".

Lemma candidate_id cands id c : _candidate cands id = Ret c -> CoverageCandidate.vehicle_id c = id.
Proof.
  unfold _candidate. destruct (find_first _ _) eqn:E; [|done]. intros [= <-].
  apply find_first_Some in E as [_ E]. by apply String.eqb_eq.
Qed.

(** The event of a confirmed takeover is valid: the identities were validated
    when the handover began, and the time when the lease was issued. *)
Lemma takeover_event_valid seq id h t reason :
  handover_ok id h -> 0 <= seq -> ge0 t = true ->
  HandoverEvent_valid {|
    HandoverEvent.sequence := seq + 1;
    HandoverEvent.handover_id := HandoverRecord.handover_id h;
    HandoverEvent.task_id := HandoverRecord.task_id h;
    HandoverEvent.phase := HandoverPhase.TAKEOVER_CONFIRMED;
    HandoverEvent.timestamp_monotonic_s := t;
    HandoverEvent.outgoing_vehicle_id := HandoverRecord.outgoing_vehicle_id h;
    HandoverEvent.incoming_vehicle_id := HandoverRecord.incoming_vehicle_id h;
    HandoverEvent.lease_generation :=
      if HandoverRecord.outgoing_lease_generation h + 1 =? 0
      then HandoverRecord.outgoing_lease_generation h
      else HandoverRecord.outgoing_lease_generation h + 1;
    HandoverEvent.reason := reason |} = true.
Proof.
  intros [Hid _ (? & ? & ? & ?) ? _ _ _] Hseq Ht.
  replace (HandoverRecord.outgoing_lease_generation h + 1 =? 0) with false by lia.
  unfold HandoverEvent_valid. simpl. rewrite Hid. rewrite !andb_true_iff.
  split_and!; try done; apply Z.leb_le; lia.
Qed.

(** The call was refused: nothing but the separation log and the event counter
    moved. *)
Definition takeover_refused (self self' : coordinator) (h : HandoverRecord.t) : Prop :=
  PersistentCoverageCoordinator._handovers self' = PersistentCoverageCoordinator._handovers self /\
  PersistentCoverageCoordinator.vehicle_states self' = PersistentCoverageCoordinator.vehicle_states self /\
  transfer_post_state (HandoverRecord.task_id h)
    (default "" (HandoverRecord.incoming_vehicle_id h)) (HandoverRecord.outgoing_lease_generation h)
    (PersistentCoverageCoordinator.tasks self) (PersistentCoverageCoordinator.tasks self').

Lemma confirm_takeover_outcome id cands now self n :
  coordinator_ok self ->
  wp (confirm_takeover id cands now) (fun o self' _ => coordinator_step self self' /\
    match o with
    | Ret h' => taken_over id self self' h'
    | Raise e => quiet self self' \/
        (e = evidence_refused /\ exists h,
           dict_get id (PersistentCoverageCoordinator._handovers self) = Some h /\
           HandoverRecord.phase h = HandoverPhase.TAKEOVER_PENDING /\ takeover_refused self self' h)
    end) self n.
Proof.
  intros Hok.
  assert (forall e, coordinator_step self self /\ (quiet self self \/
    e = evidence_refused /\ exists h,
      dict_get id (PersistentCoverageCoordinator._handovers self) = Some h /\
      HandoverRecord.phase h = HandoverPhase.TAKEOVER_PENDING /\ takeover_refused self self h)) as Hsame.
  { intros e. split; [by apply quiet_step|by left]. }
  unfold confirm_takeover. wp_rule. wp_rule; [|exact (Hsame _)].
  cbv beta iota. wp_hook; try (wp_rule; exact (Hsame _)).
  destruct (HandoverRecord.incoming_vehicle_id h) as [inc|] eqn:Hinc; [|wp_rule; exact (Hsame _)].
  wp_rule. wp_rule. destruct (_candidate cands inc) as [c|e] eqn:Hc; [|exact (Hsame _)].
  apply candidate_id in Hc.
  wp_rule. wp_rule; [|by split; [apply quiet_step|left]].
  wp_rule. wp_rule. set (t := default _ now). wp_rule. wp_rule.
  pose proof Hq as [Hd Ht Hs Hh' Hseq]. rewrite Ht.
  eapply wp_mono; [apply transfer_outcome, Hok|].
  intros [r'|e] l' ? [Hrel Hout].
  2: { destruct Hout as [->|[-> Hpost]].
       - assert (quiet self (PersistentCoverageCoordinator.set_tasks
           (PersistentCoverageCoordinator.tasks self) self')) as Hq' by (split; simpl; congruence || lia).
         split; [by apply quiet_step|by left].
       - split.
         + split; simpl; [done|by eapply ledger_rel_steps|rewrite Hh'; constructor|done].
         + right. split; [done|]. exists h. split_and!; [done..|]. unfold takeover_refused. rewrite Hinc. simpl.
           by rewrite <- Hc. }
  destruct Hout as (Hget & Howner & Hgen & Hident & Hge0).
  cbv zeta. wp_rule. unfold _event. wp_rule. wp_rule. wp_rule. wp_rule. wp_rule. wp_rule.
  { exfalso. match goal with H : HandoverEvent_valid ?e = false |- _ =>
      assert (HandoverEvent_valid e = true); [clear H|congruence] end.
    rewrite Hgen. refine (takeover_event_valid _ id h t _ _ _ (Hge0 _ eq_refl)).
    - by apply (co_handovers _ Hok).
    - simpl. pose proof (co_sequence _ Hok). lia. }
  wp_go. rewrite Hgen.
  match goal with |- context [HandoverRecord.events _ ++ [?e]] => generalize e; intros ev end.
  assert (lease_moved l' h) as Hmoved by (exists r'; split; [done|lia]).
  pose proof (step_takeover l' h t [ev] Heqt Hmoved) as Hstep.
  split.
  - split; simpl; [done|by eapply ledger_rel_steps|rewrite Hh'|lia].
    eapply hs_step; [exact Hh|exact Hstep].
  - split; simpl; [by exists h|by rewrite Hh'|done|].
    exists r', inc. rewrite <- Hc in *. split_and!; try done; try congruence.
    + by rewrite dict_get_set_eq.
    + intros Hne. rewrite dict_get_set_ne by done. apply dict_get_set_eq.
Qed.

(** The identity a candidate is considered under. *)
Lemma admits_vehicle self task_id allow c d :
  admits self task_id allow c d ->
  AllocationDecision.vehicle_id d = CoverageCandidate.vehicle_id c /\
  AllocationDecision.task_id d = task_id /\ AllocationDecision_valid d = true.
Proof.
  intros (r & zone & _ & _ & Hd). revert Hd. unfold consider.
  repeat case_match; try done. destruct (v_distance _ _); simpl; [|done].
  destruct (AllocationDecision_valid _) eqn:Hv; [|done]. intros [= <-]. done.
Qed.

(** A handover that began: it is stored, with which reserve if any, and the outgoing
    vehicle keeps its lease. *)
Record began (task_id : string) (cands : list CoverageCandidate.t) (self self' : coordinator)
    (h : HandoverRecord.t) : Prop := {
  bg_tasks : PersistentCoverageCoordinator.tasks self' = PersistentCoverageCoordinator.tasks self;
  bg_task : HandoverRecord.task_id h = task_id;
  bg_stored : dict_get (HandoverRecord.handover_id h) (PersistentCoverageCoordinator._handovers self') = Some h;
  bg_owner : exists r lease,
    dict_get task_id (TaskLedger._records (PersistentCoverageCoordinator.tasks self)) = Some r /\
    TaskRecord.lease r = Some lease /\
    TaskRecord.owner_vehicle_id r = Some (HandoverRecord.outgoing_vehicle_id h) /\
    HandoverRecord.outgoing_lease_generation h = TaskRecord.lease_generation r;
  bg_phase : match HandoverRecord.incoming_vehicle_id h with
    | None => HandoverRecord.phase h = HandoverPhase.DEGRADED
    | Some incoming => HandoverRecord.phase h = HandoverPhase.PREPARING /\
        exists d, selected self task_id
            (filter (fun c => eligible_reserve self c = true) cands) false d /\
          AllocationDecision.vehicle_id d = incoming /\
          dict_get incoming (PersistentCoverageCoordinator.vehicle_states self')
            = Some CoverageVehicleState.HANDOVER
    end;
}.

Lemma reserved_elem d k h :
  dict_get k d = Some h -> active_handover h = true ->
  HandoverRecord.incoming_vehicle_id h ∈ reserved_for_handover d.
Proof.
  intros Hk Ha. unfold reserved_for_handover. apply list_elem_of_fmap. exists h. split; [done|].
  apply list_elem_of_filter. split; [done|by eapply dict_get_values].
Qed.

Lemma begin_step l d task_id id h :
  existsb (fun h => String.eqb (HandoverRecord.task_id h) task_id && active_handover h)
    (dict_values d) = false ->
  handover_ok id h -> HandoverRecord.takeover_confirmed h = false ->
  (exists r, dict_get (HandoverRecord.task_id h) (TaskLedger._records l) = Some r /\
     TaskRecord.lease_generation r = HandoverRecord.outgoing_lease_generation h /\
     TaskRecord.owner_vehicle_id r = Some (HandoverRecord.outgoing_vehicle_id h)) ->
  HandoverRecord.task_id h = task_id ->
  (active_handover h = true -> HandoverRecord.incoming_vehicle_id h ∉ reserved_for_handover d) ->
  handovers_step l d (dict_set id h d).
Proof.
  intros Hno Hok Hc Hr Ht Hinc. apply hs_begin; [done|done|done|..].
  - intros k h2 Hk Ha Heq. pose proof (existsb_false _ _ _ Hno (dict_get_values _ _ _ Hk)) as H.
    simpl in H. rewrite Ha, Heq, Ht, String.eqb_refl in H. done.
  - intros Ha k h2 Hk Ha2 Heq. apply (Hinc Ha). rewrite <- Heq. by eapply reserved_elem.
Qed.

Ltac refused_path :=
  try (split; [apply quiet_step; split; simpl; first [reflexivity|lia]|intros ? [=]]; fail).

Lemma begin_handover_outcome task_id reason cands now self n :
  coordinator_ok self ->
  wp (begin_handover task_id reason cands now) (fun o self' _ => coordinator_step self self' /\
    forall h, o = Ret h -> began task_id cands self self' h) self n.
Proof.
  intros Hok. unfold begin_handover, with_tasks.
  assert (PersistentCoverageCoordinator.set_tasks (PersistentCoverageCoordinator.tasks self) self = self)
    as Hset by by destruct self.
  wp_rule. wp_rule. apply wp_record; [intros r Hr|intros _]; rewrite Hset.
  2: { split; [by apply quiet_step|done]. }
  pose proof (proj2 (co_tasks _ Hok) _ _ Hr) as Hrok.
  destruct (TaskRecord.owner_vehicle_id r) as [owner|] eqn:Howner;
    [|wp_rule; split; [by apply quiet_step|done]].
  destruct (TaskRecord.lease r) as [lease|] eqn:Hlease;
    [|wp_rule; split; [by apply quiet_step|done]].
  wp_go; refused_path.
  2: destruct (is_CrazySwarmError err); [wp_go|]; refused_path.
  all: assert (Hled : exists r0, dict_get task_id (TaskLedger._records (PersistentCoverageCoordinator.tasks self)) = Some r0 /\
         TaskRecord.lease_generation r0 = TaskRecord.lease_generation r /\
         TaskRecord.owner_vehicle_id r0 = Some owner) by (by exists r).
  all: set (id := handover_id_of _ _) in *.
  all: assert (Hnamed : id = handover_id_of task_id (TaskRecord.lease_generation r + 1)) by done.
  all: clearbody id.
  all: pose proof H0 as Hv; unfold HandoverRecord_valid in Hv; simpl in Hv; bool_to_prop.
  - destruct Hsel as [(c & Hc & Had) Hbest].
    pose proof (admits_vehicle _ _ _ _ _ Had) as (Hid & _ & Hdv).
    apply list_elem_of_filter in Hc as [Hel Hc]. unfold AllocationDecision_valid in Hdv. bool_to_prop.
    split.
    + split; simpl; [done|apply rtc_refl| |lia].
      eapply begin_step; [eassumption| |done|done|done|].
      * split; simpl; done.
      * intros _. simpl. rewrite Hid. unfold eligible_reserve in Hel. by bool_to_prop.
    + intros h [= <-]. split; simpl; [done|done|apply dict_get_set_eq| |].
      * by exists r, lease.
      * split; [done|]. exists d. split_and!; [|done|apply dict_get_set_eq].
        split; [|exact Hbest]. exists c. split; [by apply list_elem_of_filter|done].
  - split.
    + split; simpl; [done|apply rtc_refl| |lia].
      eapply begin_step; [eassumption| |done|done|done|done].
      split; simpl; done.
    + intros h [= <-]. split; simpl; [done|done|apply dict_get_set_eq| |done]. by exists r, lease.
Qed.

(** ** Initial allocation *)

(** Only the ledger moved. *)
Record tasks_only (self self' : coordinator) : Prop := {
  tk_deployment : PersistentCoverageCoordinator.deployment self'
                  = PersistentCoverageCoordinator.deployment self;
  tk_tasks : ledger_steps (PersistentCoverageCoordinator.tasks self)
                          (PersistentCoverageCoordinator.tasks self');
  tk_handovers : PersistentCoverageCoordinator._handovers self'
                 = PersistentCoverageCoordinator._handovers self;
  tk_sequence : PersistentCoverageCoordinator._handover_sequence self'
                = PersistentCoverageCoordinator._handover_sequence self;
}.

#[local] Instance tasks_only_refl : Reflexive tasks_only.
Proof. by split. Qed.

#[local] Instance tasks_only_trans : Transitive tasks_only.
Proof. intros s1 s2 s3 [] []. split; try congruence. by etrans. Qed.

Lemma tasks_only_step self self' : tasks_only self self' -> coordinator_step self self'.
Proof. intros [? ? Hh Hs]. split; try done; [rewrite Hh; constructor|lia]. Qed.

Definition owns (self : coordinator) (task_id vehicle_id : string) : Prop :=
  exists r, dict_get task_id (TaskLedger._records (PersistentCoverageCoordinator.tasks self)) = Some r /\
    TaskRecord.owner_vehicle_id r = Some vehicle_id.

Lemma owns_other self self' tid task_id vehicle_id :
  ledger_rel tid (PersistentCoverageCoordinator.tasks self) (PersistentCoverageCoordinator.tasks self') ->
  task_id <> tid -> owns self task_id vehicle_id -> owns self' task_id vehicle_id.
Proof.
  intros Hrel Hne (r & Hr & Ho). exists r. by rewrite (rel_others _ _ _ Hrel _ Hne).
Qed.

(** What the loop over [definitions] has done when it ends: one decision for each
    task, in order, for a vehicle that was not claimed, and that now owns the
    task; the vehicles are distinct. *)
Record allocated (available : dict CoverageCandidate.t) (definitions : list DeploymentTaskDefinition.t)
    (claimed : list string) (self' : coordinator) (ds : list AllocationDecision.t) : Prop := {
  al_tasks : AllocationDecision.task_id <$> ds = DeploymentTaskDefinition.task_id <$> definitions;
  al_distinct : NoDup (AllocationDecision.vehicle_id <$> ds);
  al_unclaimed : Forall (fun d => AllocationDecision.vehicle_id d ∉ claimed) ds;
  al_candidates : Forall (fun d => exists c, c ∈ dict_values available /\
    CoverageCandidate.vehicle_id c = AllocationDecision.vehicle_id d /\
    CoverageCandidate.available c = true /\ CoverageCandidate.connected c = true /\
    CoverageCandidate.state c = CoverageVehicleState.ACTIVE) ds;
  al_owners : Forall (fun d =>
    owns self' (AllocationDecision.task_id d) (AllocationDecision.vehicle_id d)) ds;
}.

Lemma allocate_tasks_outcome available allow preferred now definitions claimed self n :
  NoDup (DeploymentTaskDefinition.task_id <$> definitions) ->
  wp (allocate_tasks available allow preferred now definitions claimed) (fun o self' _ =>
    tasks_only self self' /\
    (forall t v, t ∉ (DeploymentTaskDefinition.task_id <$> definitions) -> owns self t v -> owns self' t v) /\
    forall ds, o = Ret ds -> allocated available definitions claimed self' ds) self n.
Proof.
  revert claimed self n. induction definitions as [|definition rest IH]; intros claimed self n Hnd.
  { simpl. wp_rule. split_and!; [done|done|]. intros ds [= <-]. by split; try constructor. }
  simpl in Hnd. apply NoDup_cons in Hnd as [Hnin Hnd]. cbn [allocate_tasks]. cbv zeta.
  wp_rule. wp_hook; [|by split_and!].
  destruct Hsel as [(c & Hc & Had) _]. apply list_elem_of_filter in Hc as [Hel Hc].
  destruct (admits_vehicle _ _ _ _ _ Had) as (Hid & Htid & _).
  destruct (dict_get (AllocationDecision.vehicle_id d) available) as [vehicle|];
    [|by wp_rule; split_and!].
  wp_rule. wp_rule. eapply wp_mono; [apply assign_post|].
  intros [r1|e] l' n' [[Hrel _] Hret].
  2: { split_and!; [|intros t v Ht; 
         apply (owns_other self (PersistentCoverageCoordinator.set_tasks l' self) _ _ _ Hrel); set_solver|done].
       split; simpl; try done. by eapply ledger_rel_steps. }
  destruct (Hret r1 eq_refl) as (Hget & _ & Ho).
  set (self1 := PersistentCoverageCoordinator.set_tasks l' self).
  assert (tasks_only self self1) as H1 by (split; simpl; try done; by eapply ledger_rel_steps).
  wp_rule. eapply wp_mono; [apply (IH _ self1), Hnd|].
  intros o self2 n2 (H2 & Hkeep & Hds).
  assert (forall t v, t ∉ (DeploymentTaskDefinition.task_id <$> definition :: rest) ->
    owns self t v -> owns self2 t v) as Hkeep2.
  { intros t v Ht Hown. apply Hkeep; [set_solver|].
    eapply (owns_other self self1); [exact Hrel|set_solver|done]. }
  destruct o as [ds|e]; [wp_rule|split_and!; [by etrans|done|done]].
  split_and!; [by etrans|done|]. intros ds2 [= <-].
  destruct (Hds ds eq_refl) as [Ht Hdist Hun Hcand Hown]. unfold eligible_initially in Hel. bool_to_prop.
  split; simpl.
  - f_equal; done.
  - constructor; [|done]. intros Hin. apply list_elem_of_fmap in Hin as (d2 & Heq & Hd2).
    rewrite Forall_forall in Hun. apply (Hun d2 Hd2). rewrite <- Heq. set_solver.
  - constructor; [by rewrite Hid|]. eapply Forall_impl; [exact Hun|]. simpl. set_solver.
  - constructor; [|done]. by exists c.
  - constructor; [|done]. apply Hkeep; [by rewrite Htid|]. exists r1. rewrite Htid. done.
Qed.

Lemma py_sorted_task_ids tasks :
  NoDup (DeploymentTaskDefinition.task_id <$> tasks) ->
  NoDup (DeploymentTaskDefinition.task_id <$> py_sorted task_ltb tasks).
Proof. by rewrite py_sorted_perm. Qed.

Lemma allocate_initial_outcome cands allow preferred now self n :
  NoDup (DeploymentTaskDefinition.task_id <$>
         DeploymentManifest.tasks (PersistentCoverageCoordinator.deployment self)) ->
  wp (allocate_initial cands allow preferred now) (fun o self' _ =>
    tasks_only self self' /\
    forall ds, o = Ret ds -> allocated (dict_of CoverageCandidate.vehicle_id id cands)
      (py_sorted task_ltb (DeploymentManifest.tasks (PersistentCoverageCoordinator.deployment self)))
      [] self' ds) self n.
Proof.
  intros Hnd. unfold allocate_initial. wp_rule. wp_rule. wp_rule.
  eapply wp_mono; [apply allocate_tasks_outcome; by apply py_sorted_task_ids|].
  intros [ds|e] self' n' (H1 & _ & Hds); [|done]. wp_go; [done|].
  split; [done|]. intros ? [= <-]. by apply Hds.
Qed.

Lemma allocate_tasks_step available allow preferred now definitions claimed self n :
  wp (allocate_tasks available allow preferred now definitions claimed)
     (fun _ self' _ => tasks_only self self') self n.
Proof.
  revert claimed self n. induction definitions as [|definition rest IH]; intros claimed self n.
  { simpl. by wp_rule. }
  cbn [allocate_tasks]. cbv zeta. wp_rule. wp_hook; [|done].
  destruct (dict_get _ available) as [vehicle|]; [|by wp_rule].
  wp_rule. wp_rule. eapply wp_mono; [apply assign_post|].
  intros o l' n' [[Hrel _] _]. set (self1 := PersistentCoverageCoordinator.set_tasks l' self).
  assert (tasks_only self self1) as H1 by (split; simpl; try done; by eapply ledger_rel_steps).
  destruct o as [r1|e]; [|done].
  wp_rule. eapply wp_mono; [apply (IH _ self1)|].
  intros [ds|e] self2 n2 H2; [wp_rule|]; by etrans.
Qed.

Lemma allocate_initial_step cands allow preferred now :
  steps coordinator_step (allocate_initial cands allow preferred now).
Proof.
  intros self n. unfold allocate_initial. wp_rule. wp_rule. wp_rule.
  eapply wp_mono; [apply allocate_tasks_step|].
  intros [ds|e] self' n' H%tasks_only_step; [wp_go; exact H|exact H].
Qed.

(** ** Reachable coordinators *)

(** What a client can do: the operations of the coordinator, and the ledger calls
    it makes directly on [coordinator.tasks]. *)
Inductive operation :=
| OpAllocate (cands : list CoverageCandidate.t) (allow : bool) (preferred : option (dict string))
    (now : option float)
| OpBegin (task_id reason : string) (cands : list CoverageCandidate.t) (now : option float)
| OpReady (id : string) (cands : list CoverageCandidate.t) (now : option float)
| OpTakeover (id : string) (cands : list CoverageCandidate.t) (now : option float)
| OpRelease (id reason : string) (now : option float)
| OpTerminate (id reason : string) (failed : bool) (now : option float)
| OpFail (id reason : string) (now : option float)
| OpSeparation (cands : list CoverageCandidate.t)
| OpResult
| OpLedger (c : call).

Definition operate (op : operation) : M coordinator unit :=
  match op with
  | OpAllocate cands allow preferred now => _ ← allocate_initial cands allow preferred now; mret tt
  | OpBegin task_id reason cands now => _ ← begin_handover task_id reason cands now; mret tt
  | OpReady id cands now => _ ← confirm_replacement_ready id cands now; mret tt
  | OpTakeover id cands now => _ ← confirm_takeover id cands now; mret tt
  | OpRelease id reason now => _ ← release_outgoing id reason now; mret tt
  | OpTerminate id reason failed now => _ ← terminate_handover id reason failed now; mret tt
  | OpFail id reason now => _ ← fail_handover id reason now; mret tt
  | OpSeparation cands => _ ← enforce_separation cands; mret tt
  | OpResult => _ ← result; mret tt
  | OpLedger c => with_tasks (perform c)
  end.

Definition client_operation (s1 s2 : coordinator * nat) : Prop :=
  exists op o, operate op s1.1 s1.2 = (o, s2.1, s2.2).

Definition established (s : coordinator * nat) : Prop :=
  exists sid rid dep dur self0 n0,
    PersistentCoverageCoordinator_init sid rid dep dur self0 n0 = (Ret tt, s.1, s.2).

Definition coverage_reachable (s : coordinator * nat) : Prop :=
  exists s0, established s0 /\ rtc client_operation s0 s.

Lemma wp_outcome_free {A} (m : M coordinator A) (Q : coordinator -> Prop) self n :
  wp m (fun _ self' _ => Q self') self n ->
  wp (_ ← m; mret tt) (fun _ self' _ => Q self') self n.
Proof. intros H. apply wp_discard. eapply wp_mono; [exact H|]. by intros []. Qed.

(** Every operation refines the protocol, whatever its outcome. *)
Lemma operate_step op self n :
  coordinator_ok self -> wp (operate op) (fun _ self' _ => coordinator_step self self') self n.
Proof.
  intros Hok. destruct op; simpl; [apply wp_outcome_free..|].
  - apply allocate_initial_step.
  - eapply wp_mono; [by apply begin_handover_outcome|]. by intros ??? [].
  - apply confirm_replacement_ready_step.
  - eapply wp_mono; [by apply confirm_takeover_outcome|]. by intros ??? [].
  - apply release_outgoing_step.
  - apply terminate_handover_step.
  - apply fail_handover_step.
  - apply wp_enforce_separation. intros o self' Hq. by apply quiet_step.
  - unfold result. wp_rule. wp_rule. wp_go; by apply quiet_step.
  - unfold with_tasks. wp_rule. eapply wp_mono; [apply perform_post|].
    intros o l' n' [Hrel _]. split; simpl; [done|by eapply ledger_rel_steps|constructor|lia].
Qed.

Lemma established_ok s : established s -> coordinator_ok s.1.
Proof.
  intros (sid & rid & dep & dur & self0 & n0 & Hrun).
  assert (wp (PersistentCoverageCoordinator_init sid rid dep dur)
    (fun o self' _ => o = Ret tt -> coordinator_ok self') self0 n0) as H.
  { unfold PersistentCoverageCoordinator_init. wp_rule. wp_rule; [done|]. wp_rule. wp_rule.
    wp_rule. unfold with_tasks. wp_rule. simpl.
    destruct (TaskLedger_init sid rid (DeploymentManifest_sha256 dep) (DeploymentManifest.tasks dep) dur
      (PersistentCoverageCoordinator.tasks self0) n0)
      as [[o l] n] eqn:Hinit.
    unfold wp. rewrite Hinit. simpl. destruct o as [[]|e]; [|done]. intros _.
    split; simpl; [|split; simpl; [constructor|done|done]|lia|done|done].
    apply (constructed_ok (l, n)). by exists sid, rid, (DeploymentManifest_sha256 dep), (DeploymentManifest.tasks dep), dur,
      (PersistentCoverageCoordinator.tasks self0), n0. }
  unfold wp in H. rewrite Hrun in H. by apply H.
Qed.

Lemma coverage_reachable_ok s : coverage_reachable s -> coordinator_ok s.1.
Proof.
  intros (s0 & Hest & Hsteps). apply established_ok in Hest.
  induction Hsteps as [s|s1 s2 s3 (op & o & Hop) _ IH]; [done|]. apply IH.
  pose proof (operate_step op s1.1 s1.2 Hest) as H. unfold wp in H. rewrite Hop in H.
  by eapply coordinator_step_ok.
Qed.

(** ** Properties *)

(** C9: in every coordinator a client can reach, whatever its operations raised,
    a task takes part in at most one active handover and a reserve vehicle is the
    incoming side of at most one; and every stored handover is consistent: its
    phase fits its takeover flag, the incoming generation is the one after the
    outgoing one exactly when the takeover was confirmed, and an outgoing vehicle
    was released only under a confirmed takeover. *)
Theorem handovers_are_exclusive s :
  coverage_reachable s -> handovers_ok (PersistentCoverageCoordinator._handovers s.1).
Proof. intros H. apply (coverage_reachable_ok _ H). Qed.

(** C36: every operation of the coordinator refines the handover protocol: it
    leaves the stored handovers alone, moves one of them by one step of the phase
    machine (a takeover only when the ledger it leaves behind has moved the
    lease), or begins one whose task and reserve are free. *)
Theorem operations_refine_protocol s op :
  coverage_reachable s ->
  let self' := exec (operate op) s.1 s.2 in
  handovers_step (PersistentCoverageCoordinator.tasks self')
    (PersistentCoverageCoordinator._handovers s.1) (PersistentCoverageCoordinator._handovers self').
Proof. intros H. apply (operate_step op s.1 s.2 (coverage_reachable_ok _ H)). Qed.

(** From the moment a takeover is confirmed, the outgoing vehicle has lost the
    task for good: every ledger call that presents the lease it held when the
    handover began is refused and changes nothing. *)
Theorem confirmed_takeover_revokes_outgoing s id h c n :
  coverage_reachable s ->
  dict_get id (PersistentCoverageCoordinator._handovers s.1) = Some h ->
  HandoverRecord.takeover_confirmed h = true ->
  call_task c = HandoverRecord.task_id h ->
  presented_lease c =
    Some (HandoverRecord.outgoing_vehicle_id h, HandoverRecord.outgoing_lease_generation h) ->
  run (perform c) (PersistentCoverageCoordinator.tasks s.1) n = Raise ownership_required /\
  exec (perform c) (PersistentCoverageCoordinator.tasks s.1) n
    = PersistentCoverageCoordinator.tasks s.1.
Proof.
  intros Hreach Hh Hc Ht Hp. destruct (coverage_reachable_ok _ Hreach) as [Hl _ _ Hconf].
  destruct (Hconf _ _ Hh Hc) as (r & Hr & Hlt). rewrite <- Ht in Hr.
  apply (presented_lease_refused c _ _ _ n r Hp Hr).
  eapply not_current_owner; [by apply (proj2 Hl)|left; lia].
Qed.

(** C37: a takeover is atomic.  When it returns, the incoming vehicle owns the task
    under the next generation, the outgoing one is marked returning, and the
    handover is confirmed with that generation; when it raises, the ledger, the
    vehicle states and the handovers are as before, unless the ledger refused the
    evidence event of the transfer. *)
Theorem takeover_is_atomic s id cands now :
  coverage_reachable s ->
  let self' := exec (confirm_takeover id cands now) s.1 s.2 in
  match run (confirm_takeover id cands now) s.1 s.2 with
  | Ret h' => taken_over id s.1 self' h'
  | Raise e => e <> evidence_refused -> quiet s.1 self'
  end.
Proof.
  intros Hreach. pose proof (confirm_takeover_outcome id cands now s.1 s.2
    (coverage_reachable_ok _ Hreach)) as [_ H].
  unfold run, exec. destruct (confirm_takeover id cands now s.1 s.2) as [[[h'|e] self'] n']; simpl in *;
    [done|]. intros Hne. destruct H as [H|[-> _]]; done.
Qed.

(** Beginning a handover never touches the ledger, so the outgoing vehicle
    keeps its lease; the reserve it selects is available, connected, disarmed, in
    the reserve state, owns no task and is promised to no other handover, and
    among such vehicles it has the best score; without one the handover is
    degraded. *)
Theorem begin_handover_selects_reserve s task_id reason cands now h :
  coverage_reachable s ->
  run (begin_handover task_id reason cands now) s.1 s.2 = Ret h ->
  began task_id cands s.1 (exec (begin_handover task_id reason cands now) s.1 s.2) h.
Proof.
  intros Hreach. apply (begin_handover_outcome task_id reason cands now s.1 s.2
    (coverage_reachable_ok _ Hreach)).
Qed.

(** An initial allocation that returns gives every task of the deployment, in
    order of priority, to a vehicle of its own, and that vehicle owns the task in
    the ledger; each vehicle was offered as active, available and connected. *)
Theorem allocation_covers_every_task cands allow preferred now self n ds :
  NoDup (DeploymentTaskDefinition.task_id <$>
         DeploymentManifest.tasks (PersistentCoverageCoordinator.deployment self)) ->
  run (allocate_initial cands allow preferred now) self n = Ret ds ->
  allocated (dict_of CoverageCandidate.vehicle_id id cands)
    (py_sorted task_ltb (DeploymentManifest.tasks (PersistentCoverageCoordinator.deployment self)))
    [] (exec (allocate_initial cands allow preferred now) self n) ds.
Proof. intros Hnd. by apply allocate_initial_outcome. Qed.

(** ** Separation *)

Lemma pairs_ordered (l : list CoverageCandidate.t) a b :
  py_ordered (fun c1 c2 => str_ltb (CoverageCandidate.vehicle_id c1) (CoverageCandidate.vehicle_id c2)) l ->
  a ∈ l -> b ∈ l ->
  str_ltb (CoverageCandidate.vehicle_id a) (CoverageCandidate.vehicle_id b) = true -> (a, b) ∈ pairs l.
Proof.
  induction 1 as [|z l _ IH Hz]; intros Ha Hb Hlt; [by apply elem_of_nil in Ha|]. simpl.
  apply elem_of_app. apply elem_of_cons in Ha as [->|Ha]; apply elem_of_cons in Hb as [->|Hb].
  - by rewrite str_ltb_irrefl in Hlt.
  - left. apply list_elem_of_fmap. by exists b.
  - rewrite Forall_forall in Hz. by rewrite (Hz a Ha) in Hlt.
  - right. by apply IH.
Qed.

Lemma pairs_elem {A} (l : list A) a b : (a, b) ∈ pairs l -> a ∈ l /\ b ∈ l.
Proof.
  induction l as [|z l IH]; simpl; [by intros ?%elem_of_nil|].
  intros [H|H]%elem_of_app; [|by destruct (IH H); split; right].
  apply list_elem_of_fmap in H as (y & [= -> ->] & Hy). split; [left|by right].
Qed.

Lemma positioned_elem cands c :
  c ∈ positioned cands <-> c ∈ cands /\ CoverageCandidate.available c = true.
Proof. unfold positioned. rewrite elem_of_py_sorted, list_elem_of_filter. naive_solver. Qed.

Lemma observe_pair_Ret constraints a b o :
  observe_pair constraints (a, b) = Ret o ->
  v_distance (CoverageCandidate.position_m a) (CoverageCandidate.position_m b)
    = Ret (CoverageSeparation.distance_m o) /\
  CoverageSeparation.first_vehicle_id o = CoverageCandidate.vehicle_id a /\
  CoverageSeparation.second_vehicle_id o = CoverageCandidate.vehicle_id b /\
  is_critical o = fleb (CoverageSeparation.distance_m o) (FleetConstraints.critical_separation_m constraints).
Proof.
  unfold observe_pair, is_critical. simpl. destruct (v_distance _ _) as [d|]; simpl; [|done].
  destruct (fleb d (FleetConstraints.critical_separation_m constraints)) eqn:E1;
    [|destruct (fleb d (FleetConstraints.warning_separation_m constraints))];
    (destruct (CoverageSeparation_valid _); [|done]); intros [= <-]; simpl; by rewrite E1.
Qed.

Lemma observe_pair_Raise constraints p e :
  observe_pair constraints p = Raise e -> is_CrazySwarmError e = false.
Proof.
  unfold observe_pair. destruct (v_distance _ _) as [d|e'] eqn:Hd; simpl.
  - repeat case_match; try done; by intros [= <-].
  - intros [= ->]. by eapply v_distance_Raise.
Qed.

(** [a] and [b] are within the critical separation of the deployment. *)
Definition too_close (self : coordinator) (a b : CoverageCandidate.t) (d : float) : Prop :=
  v_distance (CoverageCandidate.position_m a) (CoverageCandidate.position_m b) = Ret d /\
  fleb d (FleetConstraints.critical_separation_m
    (DeploymentManifest.constraints (PersistentCoverageCoordinator.deployment self))) = true.

(** The separation check decides every pair.  It returns only when any two
    available vehicles have an observation with their distance, which is above
    the critical separation; it refuses a handover only when two available
    vehicles are at or below it; and any other error leaves the log as it was. *)
Theorem separation_checks_every_pair cands self n :
  match run (enforce_separation cands) self n with
  | Ret obs =>
      (forall a b, a ∈ cands -> b ∈ cands ->
         CoverageCandidate.available a = true -> CoverageCandidate.available b = true ->
         str_ltb (CoverageCandidate.vehicle_id a) (CoverageCandidate.vehicle_id b) = true ->
         exists o, o ∈ obs /\
           CoverageSeparation.first_vehicle_id o = CoverageCandidate.vehicle_id a /\
           CoverageSeparation.second_vehicle_id o = CoverageCandidate.vehicle_id b /\
           v_distance (CoverageCandidate.position_m a) (CoverageCandidate.position_m b)
             = Ret (CoverageSeparation.distance_m o) /\
           ~ too_close self a b (CoverageSeparation.distance_m o))
  | Raise (CrazySwarmError PREFLIGHT_FAILED _) =>
      exists a b d, a ∈ cands /\ b ∈ cands /\ CoverageCandidate.available a = true /\
        CoverageCandidate.available b = true /\ too_close self a b d
  | Raise _ => exec (enforce_separation cands) self n = self
  end.
Proof.
  unfold run, exec, enforce_separation, mbind, M_bind, get, lift, modify, raise_if.
  destruct (mapM _ (pairs (positioned cands))) as [obs|e] eqn:Hm.
  2: { apply mapM_Raise in Hm as (p & _ & He%observe_pair_Raise). by destruct e. }
  apply mapM_Ret in Hm. simpl. destruct (existsb is_critical obs) eqn:Hcrit; simpl.
  - apply existsb_exists in Hcrit as (o & Ho%list_elem_of_In & Hc).
    apply list_elem_of_lookup in Ho as [i Hi].
    apply (Forall2_lookup_r _ _ _ _ _ Hm) in Hi as ([a b] & Hab & Hobs).
    apply list_elem_of_lookup_2, pairs_elem in Hab as [[Ha Hav]%positioned_elem [Hb Hbv]%positioned_elem].
    apply observe_pair_Ret in Hobs as (Hd & _ & _ & Hcr). exists a, b, (CoverageSeparation.distance_m o).
    split_and!; [done..|]. split; [done|]. congruence.
  - intros a b Ha Hb Hav Hbv Hlt.
    assert ((a, b) ∈ pairs (positioned cands)) as Hab.
    { apply pairs_ordered; [|by apply positioned_elem..|done]. apply py_sorted_is_ordered. apply _. }
    apply list_elem_of_lookup in Hab as [i Hi].
    apply (Forall2_lookup_l _ _ _ _ _ Hm) in Hi as (o & Hi & Hobs).
    apply list_elem_of_lookup_2 in Hi. exists o.
    apply observe_pair_Ret in Hobs as (Hd & Hf & Hs & Hcr). split_and!; [done..|].
    intros [_ Hclose]. pose proof (existsb_false _ _ _ Hcrit Hi). congruence.
Qed.

End coverage.

(** ** Witnesses: three vehicles, two tasks, one handover *)
Module Examples.
#[local] Existing Instance example_clock.
#[local] Existing Instance example_libm.
#[local] Existing Instance example_digest.

Definition caps : capability_set := {[VehicleCapability.RELATIVE_POSITIONING]}.
Definition at_x (x : Z) : Vector3 := {| v_x := float_of_Z x; v_y := f0; v_z := f1 |}.

Definition example_member (id : string) (x : Z) (role : InitialFleetRole.t) : FleetMemberDefinition.t := {|
  FleetMemberDefinition.vehicle_id := id;
  FleetMemberDefinition.display_name := id;
  FleetMemberDefinition.home := at_x x;
  FleetMemberDefinition.initial_role := role;
  FleetMemberDefinition.required := true;
  FleetMemberDefinition.required_capabilities := caps |}.

Definition example_task (id : string) (priority : Z) : DeploymentTaskDefinition.t := {|
  DeploymentTaskDefinition.task_id := id;
  DeploymentTaskDefinition.task_type := "SURVEY";
  DeploymentTaskDefinition.zone_id := "zone-a";
  DeploymentTaskDefinition.priority := priority;
  DeploymentTaskDefinition.mission_id := "hover";
  DeploymentTaskDefinition.mission_parameters := JObj [];
  DeploymentTaskDefinition.required_capabilities := caps;
  DeploymentTaskDefinition.completion_progress_percent := f100;
  DeploymentTaskDefinition.estimated_duration_s := float_of_Z 60;
  DeploymentTaskDefinition.estimated_energy_percent := float_of_Z 20;
  DeploymentTaskDefinition.energy_margin_percent := float_of_Z 5 |}.

Definition example_deployment : DeploymentManifest.t := {|
  DeploymentManifest.deployment_id := "lab";
  DeploymentManifest.fleet := [example_member "cf1" 0 InitialFleetRole.ACTIVE;
    example_member "cf2" 3 InitialFleetRole.ACTIVE; example_member "cf3" 6 InitialFleetRole.RESERVE];
  DeploymentManifest.zones := [ZoneDefinition.mk "zone-a" (ZoneGeometry.mk (at_x 0) (at_x 4))];
  DeploymentManifest.tasks := [example_task "t1" 2; example_task "t2" 1];
  DeploymentManifest.constraints := FleetConstraints.mk f1 (flit 1 2) f1 FleetFailurePolicy.HOLD_ALL;
  DeploymentManifest.docks := [];
  DeploymentManifest.completion_policy := CompletionPolicy.mk true false |}.

Definition candidate (id : string) (x : Z) (st : CoverageVehicleState.t) : CoverageCandidate.t := {|
  CoverageCandidate.vehicle_id := id;
  CoverageCandidate.capabilities := caps;
  CoverageCandidate.battery_percent := float_of_Z 90;
  CoverageCandidate.position_m := at_x x;
  CoverageCandidate.state := st;
  CoverageCandidate.connected := true;
  CoverageCandidate.armed := false;
  CoverageCandidate.available := true |}.

Definition fleet : list CoverageCandidate.t :=
  [candidate "cf1" 0 CoverageVehicleState.ACTIVE; candidate "cf2" 3 CoverageVehicleState.ACTIVE;
   candidate "cf3" 6 CoverageVehicleState.RESERVE].

Definition blank : PersistentCoverageCoordinator.t :=
  PersistentCoverageCoordinator.mk example_deployment (TaskLedger.mk "" "" "" f0 [] 0) [] [] 0 [].

Definition after {A} (m : M PersistentCoverageCoordinator.t A)
    (s : PersistentCoverageCoordinator.t * nat) : PersistentCoverageCoordinator.t * nat :=
  let r := m s.1 s.2 in (r.1.2, r.2).

Definition initial : PersistentCoverageCoordinator.t * nat :=
  Eval vm_compute in after (PersistentCoverageCoordinator_init "session" "run" example_deployment
    (float_of_Z 60)) (blank, 0%nat).

Definition operations (ops : list operation) (s : PersistentCoverageCoordinator.t * nat) :
    PersistentCoverageCoordinator.t * nat :=
  foldl (fun s op => after (operate op) s) s ops.

Lemma operations_reachable ops s : operations ops initial = s -> coverage_reachable s.
Proof.
  intros <-. exists initial. split.
  { by exists "session", "run", example_deployment, (float_of_Z 60), blank, 0%nat. }
  generalize initial. induction ops as [|op ops IH]; intros s; simpl; [done|].
  eapply rtc_l; [|apply IH]. exists op, (run (operate op) s.1 s.2).
  unfold after, run. by destruct (operate op s.1 s.2) as [[o l] n].
Qed.

Definition to_pending (reason : string) : list operation :=
  [OpAllocate fleet false None None; OpBegin "t1" reason fleet None;
   OpReady "handover-t1-2" fleet None].
Definition to_confirmed (reason : string) : list operation :=
  to_pending reason ++ [OpTakeover "handover-t1-2" fleet None].

Definition started := Eval vm_compute in operations [OpAllocate fleet false None None] initial.
Definition pending := Eval vm_compute in operations (to_pending "battery") initial.
Definition confirmed := Eval vm_compute in operations (to_confirmed "battery") initial.

Definition handover_of (s : PersistentCoverageCoordinator.t * nat) (id : string) : HandoverRecord.t :=
  default (new_handover "" "" "" "" 0 f0)
    (dict_get id (PersistentCoverageCoordinator._handovers s.1)).

(** 501 characters *)
Definition long_reason : string := Eval vm_compute in
  String.concat "" (replicate 501 "x").

Definition pending_long := Eval vm_compute in operations (to_pending long_reason) initial.

(** The takeover is not atomic when the handover's reason is longer than the
    500 characters of a task evidence event.  The ledger has already stored the
    new owner when the event is refused: the incoming vehicle owns the task, while
    the handover still awaits its takeover and can be terminated as if the
    outgoing vehicle had kept its lease. *)
Theorem long_reason_splits_takeover :
  coverage_reachable pending_long /\
  run (confirm_takeover "handover-t1-2" fleet None) pending_long.1 pending_long.2
    = Raise evidence_refused /\
  let self' := exec (confirm_takeover "handover-t1-2" fleet None) pending_long.1 pending_long.2 in
  owns pending_long.1 "t1" "cf2" /\ owns self' "t1" "cf3" /\
  HandoverRecord.phase (handover_of (self', 0%nat) "handover-t1-2") = HandoverPhase.TAKEOVER_PENDING /\
  HandoverRecord.outgoing_vehicle_id (handover_of (self', 0%nat) "handover-t1-2") = "cf2" /\
  is_ret (run (terminate_handover "handover-t1-2" "cancelled" false None) self' 50) = true.
Proof.
  split; [by apply (operations_reachable (to_pending long_reason))|].
  split; [vm_compute; reflexivity|]. intros self'.
  split_and!; try (eexists; split; vm_compute; reflexivity); vm_compute; reflexivity.
Qed.

Lemma exclusive_witness : handovers_ok (PersistentCoverageCoordinator._handovers confirmed.1).
Proof. apply handovers_are_exclusive. by apply (operations_reachable (to_confirmed "battery")). Defined.

Lemma protocol_witness :
  handovers_step
    (PersistentCoverageCoordinator.tasks
      (exec (operate (OpTakeover "handover-t1-2" fleet None)) pending.1 pending.2))
    (PersistentCoverageCoordinator._handovers pending.1)
    (PersistentCoverageCoordinator._handovers
      (exec (operate (OpTakeover "handover-t1-2" fleet None)) pending.1 pending.2)).
Proof.
  apply (operations_refine_protocol pending (OpTakeover "handover-t1-2" fleet None)).
  by apply (operations_reachable (to_pending "battery")).
Defined.

Lemma revoked_witness :
  run (perform (CallProgress "t1" "cf2" 1 f100 None))
    (PersistentCoverageCoordinator.tasks confirmed.1) 0%nat = Raise ownership_required.
Proof.
  refine (proj1 (confirmed_takeover_revokes_outgoing confirmed "handover-t1-2"
    (handover_of confirmed "handover-t1-2") (CallProgress "t1" "cf2" 1 f100 None) 0%nat _ _ _ _ _));
    [|vm_compute; reflexivity..].
  by apply (operations_reachable (to_confirmed "battery")).
Defined.

Lemma atomic_witness :
  match run (confirm_takeover "handover-t1-2" fleet None) pending.1 pending.2 with
  | Ret h' => taken_over "handover-t1-2" pending.1
      (exec (confirm_takeover "handover-t1-2" fleet None) pending.1 pending.2) h'
  | Raise e => e <> evidence_refused ->
      quiet pending.1 (exec (confirm_takeover "handover-t1-2" fleet None) pending.1 pending.2)
  end.
Proof.
  apply takeover_is_atomic. by apply (operations_reachable (to_pending "battery")).
Defined.

Lemma begin_witness :
  exists h, began "t1" fleet started.1
    (exec (begin_handover "t1" "battery" fleet None) started.1 started.2) h.
Proof.
  destruct (run (begin_handover "t1" "battery" fleet None) started.1 started.2) as [h|e] eqn:Hrun;
    [|vm_compute in Hrun; discriminate Hrun].
  exists h. apply (begin_handover_selects_reserve started "t1" "battery" fleet None h); [|exact Hrun].
  by apply (operations_reachable [OpAllocate fleet false None None]).
Defined.

Lemma allocation_witness :
  exists ds, allocated (dict_of CoverageCandidate.vehicle_id id fleet)
    (py_sorted task_ltb (DeploymentManifest.tasks example_deployment)) []
    (exec (allocate_initial fleet false None None) initial.1 initial.2) ds.
Proof.
  destruct (run (allocate_initial fleet false None None) initial.1 initial.2) as [ds|e] eqn:Hrun;
    [|vm_compute in Hrun; discriminate Hrun].
  exists ds. apply (allocation_covers_every_task fleet false None None initial.1 initial.2 ds);
    [|exact Hrun].
  apply (bool_decide_unpack _). vm_compute. exact I.
Defined.

Lemma separation_witness :
  exists obs, run (enforce_separation fleet) initial.1 initial.2 = Ret obs /\
    exists o, o ∈ obs /\ CoverageSeparation.first_vehicle_id o = "cf1".
Proof.
  pose proof (separation_checks_every_pair fleet initial.1 initial.2) as H.
  destruct (run (enforce_separation fleet) initial.1 initial.2) as [obs|e] eqn:Hrun;
    [|vm_compute in Hrun; discriminate Hrun].
  exists obs. split; [reflexivity|].
  destruct (H (candidate "cf1" 0 CoverageVehicleState.ACTIVE)
              (candidate "cf2" 3 CoverageVehicleState.ACTIVE)) as (o & Ho & Hf & _);
    [by left|by right; left|done..|].
  by exists o.
Defined.
End Examples.
