(* ===== verification/Docks.v ===== *)
(** * Dock reservations ([fleet/docks.py])

    The dock manager hands out dock capacity, keeps a queue per dock, drives each
    reservation through its landing and charging life cycle, and schedules a
    modelled charge.

    Main results: a dock never holds more vehicles than its capacity and never
    queues more than the limit, a vehicle has at most one open reservation, a
    reservation never attempts to dock more often than its maximum, and every
    operation is a sequence of steps of the reservation life cycle.  Three
    theorems show defects of the scheduler. *)

From S2P Require Import Prelude Float64 Effects Contracts Artifacts Tasks Persistent.

Module DockHealth.
Inductive t := AVAILABLE | DEGRADED | UNAVAILABLE.
End DockHealth.
#[export] Instance DockHealth_eq_dec : EqDecision DockHealth.t.
Proof. solve_decision. Defined.

Module DockOperationState.
Inductive t :=
| AVAILABLE | RESERVED | RETURN_TO_DOCK_AREA | APPROACH_REQUESTED | DOCK_ATTEMPT
| LANDED_UNCONFIRMED | CHARGING_CONFIRMED | CHARGING | READY | FAILED | RETRY_PENDING
| DIVERTED | QUEUED.
End DockOperationState.
#[export] Instance DockOperationState_eq_dec : EqDecision DockOperationState.t.
Proof. solve_decision. Defined.

Definition DockOperationState_value (s : DockOperationState.t) : string :=
  match s with
  | DockOperationState.AVAILABLE => "AVAILABLE"
  | DockOperationState.RESERVED => "RESERVED"
  | DockOperationState.RETURN_TO_DOCK_AREA => "RETURN_TO_DOCK_AREA"
  | DockOperationState.APPROACH_REQUESTED => "APPROACH_REQUESTED"
  | DockOperationState.DOCK_ATTEMPT => "DOCK_ATTEMPT"
  | DockOperationState.LANDED_UNCONFIRMED => "LANDED_UNCONFIRMED"
  | DockOperationState.CHARGING_CONFIRMED => "CHARGING_CONFIRMED"
  | DockOperationState.CHARGING => "CHARGING"
  | DockOperationState.READY => "READY"
  | DockOperationState.FAILED => "FAILED"
  | DockOperationState.RETRY_PENDING => "RETRY_PENDING"
  | DockOperationState.DIVERTED => "DIVERTED"
  | DockOperationState.QUEUED => "QUEUED"
  end.

Module DockEvent.
Record t := mk {
  sequence : Z;
  reservation_id : string;
  dock_id : string;
  vehicle_id : string;
  state : DockOperationState.t;
  timestamp_monotonic_s : float;
  event_type : string;
  reason : string;
}.
End DockEvent.


Definition DockEvent_valid (e : DockEvent.t) : bool :=
  (1 <=? DockEvent.sequence e) && is_identifier (DockEvent.reservation_id e)
  && is_identifier (DockEvent.dock_id e) && is_identifier (DockEvent.vehicle_id e)
  && ge0 (DockEvent.timestamp_monotonic_s e) && is_identifier (DockEvent.event_type e).

Module DockReservation.
Record t := mk {
  reservation_id : string;
  dock_id : string;
  vehicle_id : string;
  state : DockOperationState.t;
  created_at_monotonic_s : float;
  expires_at_monotonic_s : float;
  queue_position : option Z;
  attempts : Z;
  maximum_attempts : Z;
  modeled_landing_observed : bool;
  modeled_contact_observed : bool;
  modeled_charging_confirmed : bool;
  battery_percent : option float;
  target_battery_percent : float;
  charging_started_at_monotonic_s : option float;
  estimated_ready_at_monotonic_s : option float;
  terminal_reason : option string;
  events : list DockEvent.t;
}.

Definition set_state (v : DockOperationState.t) (r : t) : t :=
  {| reservation_id := reservation_id r; dock_id := dock_id r; vehicle_id := vehicle_id r; state
     := v; created_at_monotonic_s := created_at_monotonic_s r; expires_at_monotonic_s :=
     expires_at_monotonic_s r; queue_position := queue_position r; attempts := attempts r;
     maximum_attempts := maximum_attempts r; modeled_landing_observed := modeled_landing_observed
     r; modeled_contact_observed := modeled_contact_observed r; modeled_charging_confirmed :=
     modeled_charging_confirmed r; battery_percent := battery_percent r; target_battery_percent
     := target_battery_percent r; charging_started_at_monotonic_s :=
     charging_started_at_monotonic_s r; estimated_ready_at_monotonic_s :=
     estimated_ready_at_monotonic_s r; terminal_reason := terminal_reason r; events := events r |}.
Definition set_queue_position (v : option Z) (r : t) : t :=
  {| reservation_id := reservation_id r; dock_id := dock_id r; vehicle_id := vehicle_id r; state
     := state r; created_at_monotonic_s := created_at_monotonic_s r; expires_at_monotonic_s :=
     expires_at_monotonic_s r; queue_position := v; attempts := attempts r; maximum_attempts :=
     maximum_attempts r; modeled_landing_observed := modeled_landing_observed r;
     modeled_contact_observed := modeled_contact_observed r; modeled_charging_confirmed :=
     modeled_charging_confirmed r; battery_percent := battery_percent r; target_battery_percent
     := target_battery_percent r; charging_started_at_monotonic_s :=
     charging_started_at_monotonic_s r; estimated_ready_at_monotonic_s :=
     estimated_ready_at_monotonic_s r; terminal_reason := terminal_reason r; events := events r |}.
Definition set_attempts (v : Z) (r : t) : t :=
  {| reservation_id := reservation_id r; dock_id := dock_id r; vehicle_id := vehicle_id r; state
     := state r; created_at_monotonic_s := created_at_monotonic_s r; expires_at_monotonic_s :=
     expires_at_monotonic_s r; queue_position := queue_position r; attempts := v;
     maximum_attempts := maximum_attempts r; modeled_landing_observed := modeled_landing_observed
     r; modeled_contact_observed := modeled_contact_observed r; modeled_charging_confirmed :=
     modeled_charging_confirmed r; battery_percent := battery_percent r; target_battery_percent
     := target_battery_percent r; charging_started_at_monotonic_s :=
     charging_started_at_monotonic_s r; estimated_ready_at_monotonic_s :=
     estimated_ready_at_monotonic_s r; terminal_reason := terminal_reason r; events := events r |}.
Definition set_modeled_landing_observed (v : bool) (r : t) : t :=
  {| reservation_id := reservation_id r; dock_id := dock_id r; vehicle_id := vehicle_id r; state
     := state r; created_at_monotonic_s := created_at_monotonic_s r; expires_at_monotonic_s :=
     expires_at_monotonic_s r; queue_position := queue_position r; attempts := attempts r;
     maximum_attempts := maximum_attempts r; modeled_landing_observed := v;
     modeled_contact_observed := modeled_contact_observed r; modeled_charging_confirmed :=
     modeled_charging_confirmed r; battery_percent := battery_percent r; target_battery_percent
     := target_battery_percent r; charging_started_at_monotonic_s :=
     charging_started_at_monotonic_s r; estimated_ready_at_monotonic_s :=
     estimated_ready_at_monotonic_s r; terminal_reason := terminal_reason r; events := events r |}.
Definition set_modeled_contact_observed (v : bool) (r : t) : t :=
  {| reservation_id := reservation_id r; dock_id := dock_id r; vehicle_id := vehicle_id r; state
     := state r; created_at_monotonic_s := created_at_monotonic_s r; expires_at_monotonic_s :=
     expires_at_monotonic_s r; queue_position := queue_position r; attempts := attempts r;
     maximum_attempts := maximum_attempts r; modeled_landing_observed := modeled_landing_observed
     r; modeled_contact_observed := v; modeled_charging_confirmed := modeled_charging_confirmed
     r; battery_percent := battery_percent r; target_battery_percent := target_battery_percent r;
     charging_started_at_monotonic_s := charging_started_at_monotonic_s r;
     estimated_ready_at_monotonic_s := estimated_ready_at_monotonic_s r; terminal_reason :=
     terminal_reason r; events := events r |}.
Definition set_modeled_charging_confirmed (v : bool) (r : t) : t :=
  {| reservation_id := reservation_id r; dock_id := dock_id r; vehicle_id := vehicle_id r; state
     := state r; created_at_monotonic_s := created_at_monotonic_s r; expires_at_monotonic_s :=
     expires_at_monotonic_s r; queue_position := queue_position r; attempts := attempts r;
     maximum_attempts := maximum_attempts r; modeled_landing_observed := modeled_landing_observed
     r; modeled_contact_observed := modeled_contact_observed r; modeled_charging_confirmed := v;
     battery_percent := battery_percent r; target_battery_percent := target_battery_percent r;
     charging_started_at_monotonic_s := charging_started_at_monotonic_s r;
     estimated_ready_at_monotonic_s := estimated_ready_at_monotonic_s r; terminal_reason :=
     terminal_reason r; events := events r |}.
Definition set_battery_percent (v : option float) (r : t) : t :=
  {| reservation_id := reservation_id r; dock_id := dock_id r; vehicle_id := vehicle_id r; state
     := state r; created_at_monotonic_s := created_at_monotonic_s r; expires_at_monotonic_s :=
     expires_at_monotonic_s r; queue_position := queue_position r; attempts := attempts r;
     maximum_attempts := maximum_attempts r; modeled_landing_observed := modeled_landing_observed
     r; modeled_contact_observed := modeled_contact_observed r; modeled_charging_confirmed :=
     modeled_charging_confirmed r; battery_percent := v; target_battery_percent :=
     target_battery_percent r; charging_started_at_monotonic_s := charging_started_at_monotonic_s
     r; estimated_ready_at_monotonic_s := estimated_ready_at_monotonic_s r; terminal_reason :=
     terminal_reason r; events := events r |}.
Definition set_charging_started_at_monotonic_s (v : option float) (r : t) : t :=
  {| reservation_id := reservation_id r; dock_id := dock_id r; vehicle_id := vehicle_id r; state
     := state r; created_at_monotonic_s := created_at_monotonic_s r; expires_at_monotonic_s :=
     expires_at_monotonic_s r; queue_position := queue_position r; attempts := attempts r;
     maximum_attempts := maximum_attempts r; modeled_landing_observed := modeled_landing_observed
     r; modeled_contact_observed := modeled_contact_observed r; modeled_charging_confirmed :=
     modeled_charging_confirmed r; battery_percent := battery_percent r; target_battery_percent
     := target_battery_percent r; charging_started_at_monotonic_s := v;
     estimated_ready_at_monotonic_s := estimated_ready_at_monotonic_s r; terminal_reason :=
     terminal_reason r; events := events r |}.
Definition set_estimated_ready_at_monotonic_s (v : option float) (r : t) : t :=
  {| reservation_id := reservation_id r; dock_id := dock_id r; vehicle_id := vehicle_id r; state
     := state r; created_at_monotonic_s := created_at_monotonic_s r; expires_at_monotonic_s :=
     expires_at_monotonic_s r; queue_position := queue_position r; attempts := attempts r;
     maximum_attempts := maximum_attempts r; modeled_landing_observed := modeled_landing_observed
     r; modeled_contact_observed := modeled_contact_observed r; modeled_charging_confirmed :=
     modeled_charging_confirmed r; battery_percent := battery_percent r; target_battery_percent
     := target_battery_percent r; charging_started_at_monotonic_s :=
     charging_started_at_monotonic_s r; estimated_ready_at_monotonic_s := v; terminal_reason :=
     terminal_reason r; events := events r |}.
Definition set_terminal_reason (v : option string) (r : t) : t :=
  {| reservation_id := reservation_id r; dock_id := dock_id r; vehicle_id := vehicle_id r; state
     := state r; created_at_monotonic_s := created_at_monotonic_s r; expires_at_monotonic_s :=
     expires_at_monotonic_s r; queue_position := queue_position r; attempts := attempts r;
     maximum_attempts := maximum_attempts r; modeled_landing_observed := modeled_landing_observed
     r; modeled_contact_observed := modeled_contact_observed r; modeled_charging_confirmed :=
     modeled_charging_confirmed r; battery_percent := battery_percent r; target_battery_percent
     := target_battery_percent r; charging_started_at_monotonic_s :=
     charging_started_at_monotonic_s r; estimated_ready_at_monotonic_s :=
     estimated_ready_at_monotonic_s r; terminal_reason := v; events := events r |}.
Definition set_events (v : list DockEvent.t) (r : t) : t :=
  {| reservation_id := reservation_id r; dock_id := dock_id r; vehicle_id := vehicle_id r; state
     := state r; created_at_monotonic_s := created_at_monotonic_s r; expires_at_monotonic_s :=
     expires_at_monotonic_s r; queue_position := queue_position r; attempts := attempts r;
     maximum_attempts := maximum_attempts r; modeled_landing_observed := modeled_landing_observed
     r; modeled_contact_observed := modeled_contact_observed r; modeled_charging_confirmed :=
     modeled_charging_confirmed r; battery_percent := battery_percent r; target_battery_percent
     := target_battery_percent r; charging_started_at_monotonic_s :=
     charging_started_at_monotonic_s r; estimated_ready_at_monotonic_s :=
     estimated_ready_at_monotonic_s r; terminal_reason := terminal_reason r; events := v |}.
End DockReservation.


Definition DockReservation_valid (r : DockReservation.t) : bool :=
  is_identifier (DockReservation.reservation_id r) && is_identifier (DockReservation.dock_id r)
  && is_identifier (DockReservation.vehicle_id r) && ge0 (DockReservation.created_at_monotonic_s r)
  && gt0 (DockReservation.expires_at_monotonic_s r)
  && opt_ok (fun q => 1 <=? q) (DockReservation.queue_position r)
  && (0 <=? DockReservation.attempts r) && (1 <=? DockReservation.maximum_attempts r)
  && opt_ok is_percentage (DockReservation.battery_percent r)
  && fltb f0 (DockReservation.target_battery_percent r)
  && fleb (DockReservation.target_battery_percent r) f100
  && opt_ok ge0 (DockReservation.charging_started_at_monotonic_s r)
  && opt_ok ge0 (DockReservation.estimated_ready_at_monotonic_s r).

Module DockSnapshot.
Record t := mk {
  dock_id : string;
  capacity : Z;
  health : DockHealth.t;
  supported_charging_capability : string;
  occupied_vehicle_ids : list string;
  queued_vehicle_ids : list string;
  reservations : list DockReservation.t;
}.
End DockSnapshot.


Module DockManager.
Record t := mk {
  definitions : dict DockDefinition.t;
  health : dict DockHealth.t;
  reservation_ttl_s : float;
  maximum_attempts : Z;
  queue_limit : Z;
  _reservations : dict DockReservation.t;
  _sequence : Z;
}.

Definition set_health (v : dict DockHealth.t) (r : t) : t :=
  {| definitions := definitions r; health := v; reservation_ttl_s := reservation_ttl_s r;
     maximum_attempts := maximum_attempts r; queue_limit := queue_limit r; _reservations :=
     _reservations r; _sequence := _sequence r |}.
Definition set__reservations (v : dict DockReservation.t) (r : t) : t :=
  {| definitions := definitions r; health := health r; reservation_ttl_s := reservation_ttl_s r;
     maximum_attempts := maximum_attempts r; queue_limit := queue_limit r; _reservations := v;
     _sequence := _sequence r |}.
Definition set__sequence (v : Z) (r : t) : t :=
  {| definitions := definitions r; health := health r; reservation_ttl_s := reservation_ttl_s r;
     maximum_attempts := maximum_attempts r; queue_limit := queue_limit r; _reservations :=
     _reservations r; _sequence := v |}.
End DockManager.


Import DockReservation (set_state, set_queue_position, set_attempts, set_modeled_landing_observed,
  set_modeled_contact_observed, set_modeled_charging_confirmed, set_battery_percent,
  set_charging_started_at_monotonic_s, set_estimated_ready_at_monotonic_s, set_terminal_reason).

Section docks.
Context {clk : Clock}.

Notation manager := DockManager.t.

Definition _occupies_capacity (s : DockOperationState.t) : bool :=
  negb (s ∈? [DockOperationState.AVAILABLE; DockOperationState.READY; DockOperationState.FAILED;
              DockOperationState.DIVERTED; DockOperationState.QUEUED]).

Definition _terminal (s : DockOperationState.t) : bool :=
  s ∈? [DockOperationState.READY; DockOperationState.FAILED; DockOperationState.DIVERTED].

(** [DockManager(definitions, ...)] *)
Definition DockManager_init (definitions : list DockDefinition.t) (reservation_ttl_s : float)
    (maximum_attempts queue_limit : Z) : outcome manager :=
  if bool_decide (definitions = []) then Raise (ValueError "dock manager requires at least one dock")
  else if fleb reservation_ttl_s f0 || (maximum_attempts <? 1) || (queue_limit <? 1) then
    Raise (ValueError "dock scheduler bounds must be positive")
  else Ret {|
    DockManager.definitions := dict_of DockDefinition.dock_id id definitions;
    DockManager.health := dict_of DockDefinition.dock_id (fun _ => DockHealth.AVAILABLE) definitions;
    DockManager.reservation_ttl_s := reservation_ttl_s;
    DockManager.maximum_attempts := maximum_attempts;
    DockManager.queue_limit := queue_limit;
    DockManager._reservations := [];
    DockManager._sequence := 0 |}.

(** [self._reservations[reservation_id] = reservation] *)
Definition store_reservation (reservation_id : string) (r : DockReservation.t) : M manager unit :=
  modify (fun self => DockManager.set__reservations
    (dict_set reservation_id r (DockManager._reservations self)) self).

Definition _definition (dock_id : option string) : M manager DockDefinition.t :=
  match dock_id with
  | None => raise (CrazySwarmError INVALID_COMMAND "dock identity is required")
  | Some dock_id =>
      self ← get;
      match dict_get dock_id (DockManager.definitions self) with
      | Some d => mret d
      | None => raise (CrazySwarmError INVALID_COMMAND "unknown dock")
      end
  end.

Definition occupies (dock_id : string) (r : DockReservation.t) : bool :=
  String.eqb (DockReservation.dock_id r) dock_id && _occupies_capacity (DockReservation.state r).

Definition queues (dock_id : string) (r : DockReservation.t) : bool :=
  String.eqb (DockReservation.dock_id r) dock_id
  && (DockReservation.state r ≟ DockOperationState.QUEUED).

Definition _occupancy (self : manager) (dock_id : string) : Z :=
  count_if (occupies dock_id) (dict_values (DockManager._reservations self)).

Definition _queue_length (self : manager) (dock_id : string) : Z :=
  count_if (queues dock_id) (dict_values (DockManager._reservations self)).

Definition _event (r : DockReservation.t) (event_type reason : string) (timestamp_s : float) :
    M manager DockReservation.t :=
  _ ← modify (fun self => DockManager.set__sequence (DockManager._sequence self + 1) self);
  self ← get;
  let event := {|
    DockEvent.sequence := DockManager._sequence self;
    DockEvent.reservation_id := DockReservation.reservation_id r;
    DockEvent.dock_id := DockReservation.dock_id r;
    DockEvent.vehicle_id := DockReservation.vehicle_id r;
    DockEvent.state := DockReservation.state r;
    DockEvent.timestamp_monotonic_s := timestamp_s;
    DockEvent.event_type := event_type;
    DockEvent.reason := reason |} in
  event ← validated "DockEvent" (DockEvent_valid event) event;
  mret (DockReservation.set_events (DockReservation.events r ++ [event]) r).

Definition reservation (reservation_id : string) : M manager DockReservation.t :=
  self ← get;
  match dict_get reservation_id (DockManager._reservations self) with
  | Some r => mret r
  | None => raise (CrazySwarmError INVALID_COMMAND "unknown dock reservation")
  end.

(** ** Reservation *)

(** The order of [min(usable, key=lambda item: (occupancy, item.dock_id))]. *)
Definition dock_ltb (self : manager) (d1 d2 : DockDefinition.t) : bool :=
  let o1 := _occupancy self (DockDefinition.dock_id d1) in
  let o2 := _occupancy self (DockDefinition.dock_id d2) in
  if o1 =? o2 then str_ltb (DockDefinition.dock_id d1) (DockDefinition.dock_id d2) else o1 <? o2.

Definition dock_usable (self : manager) (d : DockDefinition.t) : bool :=
  negb (bool_decide (dict_get (DockDefinition.dock_id d) (DockManager.health self)
                     = Some DockHealth.UNAVAILABLE)).

Definition dock_candidates (preferred_dock_id : option string) : M manager (list DockDefinition.t) :=
  match preferred_dock_id with
  | Some _ => d ← _definition preferred_dock_id; mret [d]
  | None =>
      self ← get;
      mret (omap (fun key => dict_get key (DockManager.definitions self))
                 (py_sorted str_ltb (dict_keys (DockManager.definitions self))))
  end.

Definition has_open_request (self : manager) (vehicle_id : string) : bool :=
  existsb (fun r => String.eqb (DockReservation.vehicle_id r) vehicle_id
                    && negb (_terminal (DockReservation.state r)))
          (dict_values (DockManager._reservations self)).

(** [f"dock-{selected.dock_id}-{vehicle_id}"] *)
Definition reservation_id_of (dock_id vehicle_id : string) : string :=
  "dock-" +:+ dock_id +:+ "-" +:+ vehicle_id.

Definition reserve (vehicle_id : string) (preferred_dock_id : option string)
    (battery_percent : option float) (target_battery_percent : float) (now_s : option float) :
    M manager DockReservation.t :=
  self ← get;
  _ ← raise_if (has_open_request self vehicle_id)
        (CrazySwarmError INVALID_STATE "vehicle already has a dock request");
  candidates ← dock_candidates preferred_dock_id;
  let usable := filter (fun d => dock_usable self d = true) candidates in
  match py_min (dock_ltb self) usable with
  | None => raise (CrazySwarmError PREFLIGHT_FAILED "no dock is available")
  | Some selected =>
      let dock_id := DockDefinition.dock_id selected in
      let queued := DockDefinition.capacity selected <=? _occupancy self dock_id in
      _ ← raise_if (queued && (DockManager.queue_limit self <=? _queue_length self dock_id))
            (CrazySwarmError INVALID_STATE "dock queue capacity is exhausted");
      timestamp ← _now now_s;
      let reservation_id := reservation_id_of dock_id vehicle_id in
      let r := {|
        DockReservation.reservation_id := reservation_id;
        DockReservation.dock_id := dock_id;
        DockReservation.vehicle_id := vehicle_id;
        DockReservation.state :=
          if queued then DockOperationState.QUEUED else DockOperationState.RESERVED;
        DockReservation.created_at_monotonic_s := timestamp;
        DockReservation.expires_at_monotonic_s := fadd timestamp (DockManager.reservation_ttl_s self);
        DockReservation.queue_position :=
          if queued then Some (_queue_length self dock_id + 1) else None;
        DockReservation.attempts := 0;
        DockReservation.maximum_attempts := DockManager.maximum_attempts self;
        DockReservation.modeled_landing_observed := false;
        DockReservation.modeled_contact_observed := false;
        DockReservation.modeled_charging_confirmed := false;
        DockReservation.battery_percent := battery_percent;
        DockReservation.target_battery_percent := target_battery_percent;
        DockReservation.charging_started_at_monotonic_s := None;
        DockReservation.estimated_ready_at_monotonic_s := None;
        DockReservation.terminal_reason := None;
        DockReservation.events := [] |} in
      r ← validated "DockReservation" (DockReservation_valid r) r;
      r ← _event r (if queued then "DOCK_QUEUED" else "DOCK_RESERVED")
                 "software dock allocation" timestamp;
      _ ← store_reservation reservation_id r;
      mret r
  end.

(** ** Life cycle *)

Definition allowed (s : DockOperationState.t) : list DockOperationState.t :=
  match s with
  | DockOperationState.RESERVED => [DockOperationState.RETURN_TO_DOCK_AREA]
  | DockOperationState.RETURN_TO_DOCK_AREA => [DockOperationState.APPROACH_REQUESTED]
  | DockOperationState.APPROACH_REQUESTED => [DockOperationState.DOCK_ATTEMPT]
  | DockOperationState.RETRY_PENDING =>
      [DockOperationState.APPROACH_REQUESTED; DockOperationState.DIVERTED]
  | _ => []
  end.

Definition transition (reservation_id : string) (target : DockOperationState.t) (reason : string)
    (now_s : option float) : M manager DockReservation.t :=
  r ← reservation reservation_id;
  _ ← raise_if (negb (target ∈? allowed (DockReservation.state r)))
        (CrazySwarmError INVALID_STATE "invalid dock lifecycle transition");
  timestamp ← _now now_s;
  let attempts :=
    DockReservation.attempts r + (if target ≟ DockOperationState.DOCK_ATTEMPT then 1 else 0) in
  let updated := r |> set_state target |> set_attempts attempts in
  updated ← _event updated ("DOCK_" +:+ DockOperationState_value target) reason timestamp;
  _ ← store_reservation reservation_id updated;
  mret updated.

Definition reserve_after_handover (handover : HandoverRecord.t) (battery_percent : option float)
    (now_s : option float) : M manager DockReservation.t :=
  _ ← raise_if ((HandoverRecord.phase handover ≠? HandoverPhase.COMPLETED)
                || negb (HandoverRecord.takeover_confirmed handover))
        (CrazySwarmError MODE_NOT_AUTHORIZED
           "dock return cannot start before confirmed takeover and release");
  r ← reserve (HandoverRecord.outgoing_vehicle_id handover) None battery_percent
        (float_of_Z 90) now_s;
  if DockReservation.state r ≟ DockOperationState.RESERVED
  then transition (DockReservation.reservation_id r) DockOperationState.RETURN_TO_DOCK_AREA
         "outgoing vehicle released after takeover" now_s
  else mret r.

Definition confirm_modeled_landing (reservation_id : string) (modeled_contact : bool)
    (now_s : option float) : M manager DockReservation.t :=
  r ← reservation reservation_id;
  _ ← raise_if (DockReservation.state r ≠? DockOperationState.DOCK_ATTEMPT)
        (CrazySwarmError INVALID_STATE "dock attempt is not active");
  timestamp ← _now now_s;
  let updated := r
    |> set_state DockOperationState.LANDED_UNCONFIRMED
    |> set_modeled_landing_observed true
    |> set_modeled_contact_observed modeled_contact in
  updated ← _event updated "MODELED_LANDING_OBSERVED"
    (if modeled_contact then "modeled contact observed" else "modeled contact absent") timestamp;
  _ ← store_reservation reservation_id updated;
  mret updated.

(** [value or 0.0] *)
Definition or_zero (value : option float) : float :=
  match value with
  | Some v => if feqb v f0 then f0 else v
  | None => f0
  end.

Definition confirm_modeled_charging (reservation_id : string) (confirmed : bool)
    (now_s : option float) : M manager DockReservation.t :=
  r ← reservation reservation_id;
  _ ← raise_if (DockReservation.state r ≠? DockOperationState.LANDED_UNCONFIRMED)
        (CrazySwarmError INVALID_STATE "modeled landing is not awaiting charge");
  timestamp ← _now now_s;
  if negb confirmed || negb (DockReservation.modeled_contact_observed r) then
    let terminal := DockReservation.maximum_attempts r <=? DockReservation.attempts r in
    let target := if terminal then DockOperationState.FAILED else DockOperationState.RETRY_PENDING in
    let updated := r
      |> set_state target
      |> set_terminal_reason (if terminal then Some "LANDED_NOT_CHARGING" else None) in
    updated ← _event updated "MODELED_CHARGING_CONFIRMATION_FAILED"
                "landed but modeled charging was not confirmed" timestamp;
    _ ← store_reservation reservation_id updated;
    mret updated
  else
    definition ← _definition (Some (DockReservation.dock_id r));
    let current := or_zero (DockReservation.battery_percent r) in
    minutes ← lift (py_div (fsub (DockReservation.target_battery_percent r) current)
                           (DockDefinition.modeled_charge_rate_percent_per_min definition));
    let duration_s := py_fmax f0 (fmul minutes (float_of_Z 60)) in
    let updated := r
      |> set_state DockOperationState.CHARGING_CONFIRMED
      |> set_modeled_charging_confirmed true
      |> set_charging_started_at_monotonic_s (Some timestamp)
      |> set_estimated_ready_at_monotonic_s (Some (fadd timestamp duration_s)) in
    updated ← _event updated "MODELED_CHARGING_CONFIRMED"
                "software scheduling model only; no physical charge claim" timestamp;
    _ ← store_reservation reservation_id updated;
    mret updated.

(** The order of the queue: [(item.created_at_monotonic_s, item.reservation_id)]. *)
Definition queue_ltb (r1 r2 : DockReservation.t) : bool :=
  lex_ltb str_ltb (DockReservation.created_at_monotonic_s r1, DockReservation.reservation_id r1)
                  (DockReservation.created_at_monotonic_s r2, DockReservation.reservation_id r2).

Definition _promote_queue (dock_id : string) (now_s : float) : M manager unit :=
  definition ← _definition (Some dock_id);
  self ← get;
  if DockDefinition.capacity definition <=? _occupancy self dock_id then mret tt
  else
    match py_sorted queue_ltb (filter (fun r => queues dock_id r = true)
                                      (dict_values (DockManager._reservations self))) with
    | [] => mret tt
    | first :: _ =>
        let selected := first |> set_state DockOperationState.RESERVED |> set_queue_position None in
        updated ← _event selected "DOCK_QUEUE_PROMOTED" "capacity released" now_s;
        store_reservation (DockReservation.reservation_id selected) updated
    end.

Definition update_modeled_charge (reservation_id : string) (now_s : option float) :
    M manager DockReservation.t :=
  r ← reservation reservation_id;
  _ ← raise_if (negb (DockReservation.state r
                      ∈? [DockOperationState.CHARGING_CONFIRMED; DockOperationState.CHARGING]))
        (CrazySwarmError INVALID_STATE "modeled charging is not active");
  match DockReservation.charging_started_at_monotonic_s r with
  | None => raise AssertionError
  | Some started =>
      timestamp ← _now now_s;
      definition ← _definition (Some (DockReservation.dock_id r));
      let elapsed_min := fdiv_ieee (py_fmax f0 (fsub timestamp started)) (float_of_Z 60) in
      let initial := or_zero (DockReservation.battery_percent r) in
      let battery := py_fmin (DockReservation.target_battery_percent r)
        (fadd initial (fmul elapsed_min
           (DockDefinition.modeled_charge_rate_percent_per_min definition))) in
      let ready := fleb (DockReservation.target_battery_percent r) battery in
      let target := if ready then DockOperationState.READY else DockOperationState.CHARGING in
      let updated := r |> set_state target |> set_battery_percent (Some battery) in
      updated ← _event updated
                  (if ready then "MODELED_CHARGE_READY" else "MODELED_CHARGE_PROGRESS")
                  "software scheduling model" timestamp;
      _ ← store_reservation reservation_id updated;
      _ ← (if ready then _promote_queue (DockReservation.dock_id r) timestamp else mret tt);
      mret updated
  end.

(** ** Health and snapshot *)

Definition snapshot (dock_id : string) : M manager DockSnapshot.t :=
  definition ← _definition (Some dock_id);
  self ← get;
  let reservations := py_sorted
    (fun r1 r2 => str_ltb (DockReservation.reservation_id r1) (DockReservation.reservation_id r2))
    (filter (fun r => DockReservation.dock_id r = dock_id)
            (dict_values (DockManager._reservations self))) in
  match dict_get dock_id (DockManager.health self) with
  | None => raise (OtherError "KeyError")
  | Some health => mret {|
      DockSnapshot.dock_id := dock_id;
      DockSnapshot.capacity := DockDefinition.capacity definition;
      DockSnapshot.health := health;
      DockSnapshot.supported_charging_capability :=
        DockDefinition.supported_charging_capability definition;
      DockSnapshot.occupied_vehicle_ids := DockReservation.vehicle_id <$>
        filter (fun r => _occupies_capacity (DockReservation.state r) = true) reservations;
      DockSnapshot.queued_vehicle_ids := DockReservation.vehicle_id <$>
        filter (fun r => DockReservation.state r = DockOperationState.QUEUED) reservations;
      DockSnapshot.reservations := reservations |}
  end.

(** The body of the loop of [set_health] over the reservations of the dock. *)
Definition divert (dock_id : string) (timestamp : float) (r : DockReservation.t) : M manager unit :=
  if String.eqb (DockReservation.dock_id r) dock_id && negb (_terminal (DockReservation.state r))
  then
    let target := if DockReservation.state r ≟ DockOperationState.QUEUED
                  then DockOperationState.QUEUED else DockOperationState.DIVERTED in
    let updated := r |> set_state target |> set_terminal_reason (Some "DOCK_UNAVAILABLE") in
    updated ← _event updated "DOCK_UNAVAILABLE" "dock health changed to unavailable" timestamp;
    store_reservation (DockReservation.reservation_id r) updated
  else mret tt.

Definition set_health (dock_id : string) (health : DockHealth.t) (now_s : option float) :
    M manager DockSnapshot.t :=
  _ ← _definition (Some dock_id);
  _ ← modify (fun self => DockManager.set_health
        (dict_set dock_id health (DockManager.health self)) self);
  _ ← (if health ≟ DockHealth.UNAVAILABLE then
         timestamp ← _now now_s;
         self ← get;
         for_each (dict_values (DockManager._reservations self)) (divert dock_id timestamp)
       else mret tt);
  snapshot dock_id.

(** ** The reservation life cycle

    How an operation may change one open reservation: the abstract protocol. *)
Definition with_dock_events (es : list DockEvent.t) (r : DockReservation.t) : DockReservation.t :=
  DockReservation.set_events (DockReservation.events r ++ es) r.

Inductive dock_step (r : DockReservation.t) : DockReservation.t -> Prop :=
| ds_transition target es :
    target ∈ allowed (DockReservation.state r) ->
    dock_step r (with_dock_events es (r |> set_state target |> set_attempts
      (DockReservation.attempts r + (if target ≟ DockOperationState.DOCK_ATTEMPT then 1 else 0))))
| ds_landing contact es :
    DockReservation.state r = DockOperationState.DOCK_ATTEMPT ->
    dock_step r (with_dock_events es (r
      |> set_state DockOperationState.LANDED_UNCONFIRMED |> set_modeled_landing_observed true
      |> set_modeled_contact_observed contact))
| ds_exhausted why es :
    DockReservation.state r = DockOperationState.LANDED_UNCONFIRMED ->
    DockReservation.maximum_attempts r <= DockReservation.attempts r ->
    dock_step r (with_dock_events es (r
      |> set_state DockOperationState.FAILED |> set_terminal_reason why))
| ds_retry why es :
    DockReservation.state r = DockOperationState.LANDED_UNCONFIRMED ->
    DockReservation.attempts r < DockReservation.maximum_attempts r ->
    dock_step r (with_dock_events es (r
      |> set_state DockOperationState.RETRY_PENDING |> set_terminal_reason why))
| ds_charging t1 t2 es :
    DockReservation.state r = DockOperationState.LANDED_UNCONFIRMED ->
    DockReservation.modeled_contact_observed r = true ->
    dock_step r (with_dock_events es (r
      |> set_state DockOperationState.CHARGING_CONFIRMED |> set_modeled_charging_confirmed true
      |> set_charging_started_at_monotonic_s (Some t1)
      |> set_estimated_ready_at_monotonic_s (Some t2)))
| ds_charge target battery es :
    DockReservation.state r ∈ [DockOperationState.CHARGING_CONFIRMED; DockOperationState.CHARGING] ->
    target ∈ [DockOperationState.READY; DockOperationState.CHARGING] ->
    dock_step r (with_dock_events es (r
      |> set_state target |> set_battery_percent (Some battery)))
| ds_unavailable es :
    _terminal (DockReservation.state r) = false ->
    dock_step r (with_dock_events es (r
      |> set_state (if DockReservation.state r ≟ DockOperationState.QUEUED
                    then DockOperationState.QUEUED else DockOperationState.DIVERTED)
      |> set_terminal_reason (Some "DOCK_UNAVAILABLE"))).

Definition occupancy_in (d : dict DockReservation.t) (dock_id : string) : Z :=
  count_if (occupies dock_id) (dict_values d).
Definition queue_in (d : dict DockReservation.t) (dock_id : string) : Z :=
  count_if (queues dock_id) (dict_values d).

(** [v] has no reservation but finished ones. *)
Definition no_open_request (d : dict DockReservation.t) (v : string) : Prop :=
  forall k r, dict_get k d = Some r -> DockReservation.vehicle_id r = v ->
    _terminal (DockReservation.state r) = true.

(** One step of the reservations of manager [m]. *)
Inductive docks_step (m : manager) (d : dict DockReservation.t) : dict DockReservation.t -> Prop :=
| dk_advance k r r' :
    dict_get k d = Some r -> dock_step r r' -> docks_step m d (dict_set k r' d)
| dk_reserve k r def :
    DockReservation.reservation_id r = k -> DockReservation.attempts r = 0 ->
    DockReservation.maximum_attempts r = DockManager.maximum_attempts m ->
    no_open_request d (DockReservation.vehicle_id r) ->
    dict_get (DockReservation.dock_id r) (DockManager.definitions m) = Some def ->
    (DockReservation.state r = DockOperationState.RESERVED /\
       occupancy_in d (DockReservation.dock_id r) < DockDefinition.capacity def) \/
    (DockReservation.state r = DockOperationState.QUEUED /\
       queue_in d (DockReservation.dock_id r) < DockManager.queue_limit m) ->
    docks_step m d (dict_set k r d)
| dk_promote k r def es :
    dict_get k d = Some r -> DockReservation.state r = DockOperationState.QUEUED ->
    dict_get (DockReservation.dock_id r) (DockManager.definitions m) = Some def ->
    occupancy_in d (DockReservation.dock_id r) < DockDefinition.capacity def ->
    docks_step m d (dict_set k (with_dock_events es (r
      |> set_state DockOperationState.RESERVED |> set_queue_position None)) d).

(** ** Invariant *)

(** The attempts a state may have used up. *)
Definition attempts_ok (r : DockReservation.t) : Prop :=
  0 <= DockReservation.attempts r /\
  match DockReservation.state r with
  | DockOperationState.QUEUED | DockOperationState.RESERVED => DockReservation.attempts r = 0
  | DockOperationState.RETURN_TO_DOCK_AREA | DockOperationState.APPROACH_REQUESTED
  | DockOperationState.RETRY_PENDING =>
      DockReservation.attempts r < DockReservation.maximum_attempts r
  | _ => DockReservation.attempts r <= DockReservation.maximum_attempts r
  end.

Record docks_ok (m : manager) (d : dict DockReservation.t) : Prop := {
  dk_wf : dict_wf d;
  dk_key : forall k r, dict_get k d = Some r -> DockReservation.reservation_id r = k;
  dk_attempts : forall k r, dict_get k d = Some r ->
    attempts_ok r /\ DockReservation.maximum_attempts r = DockManager.maximum_attempts m;
  dk_open : forall k1 k2 r1 r2, dict_get k1 d = Some r1 -> dict_get k2 d = Some r2 ->
    DockReservation.vehicle_id r1 = DockReservation.vehicle_id r2 ->
    _terminal (DockReservation.state r1) = false -> _terminal (DockReservation.state r2) = false ->
    k1 = k2;
  dk_capacity : forall dock_id def, dict_get dock_id (DockManager.definitions m) = Some def ->
    occupancy_in d dock_id <= DockDefinition.capacity def;
  dk_queue : forall dock_id, queue_in d dock_id <= DockManager.queue_limit m;
}.

Lemma dock_step_parties r r' :
  dock_step r r' ->
  DockReservation.reservation_id r' = DockReservation.reservation_id r /\
  DockReservation.vehicle_id r' = DockReservation.vehicle_id r /\
  DockReservation.dock_id r' = DockReservation.dock_id r /\
  DockReservation.maximum_attempts r' = DockReservation.maximum_attempts r.
Proof. by destruct 1. Qed.

Ltac by_state r := destruct (DockReservation.state r) eqn:?; simpl in *; try set_solver.

Lemma dock_step_open r r' :
  dock_step r r' -> _terminal (DockReservation.state r') = false ->
  _terminal (DockReservation.state r) = false.
Proof.
  unfold _terminal. destruct 1; simpl; intros Ht; try done;
    try (match goal with H : DockReservation.state r = _ |- _ => by rewrite H end); by_state r.
Qed.

Lemma dock_step_occupies r r' dock_id :
  dock_step r r' -> occupies dock_id r' = true -> occupies dock_id r = true.
Proof.
  unfold occupies, _occupies_capacity. intros Hs. destruct (dock_step_parties _ _ Hs) as (_ & _ & -> & _).
  destruct (String.eqb _ _); [|done]. simpl. destruct Hs; simpl; intros Ht;
    try (match goal with H : DockReservation.state r = _ |- _ => by rewrite H end); by_state r.
Qed.

Lemma dock_step_queues r r' dock_id :
  dock_step r r' -> queues dock_id r' = true -> queues dock_id r = true.
Proof.
  unfold queues. intros Hs. destruct (dock_step_parties _ _ Hs) as (_ & _ & -> & _).
  destruct (String.eqb _ _); [|done]. simpl. destruct Hs; simpl; intros Ht; bool_to_prop; try done;
    by_state r.
Qed.

Lemma dock_step_attempts r r' :
  1 <= DockReservation.maximum_attempts r -> dock_step r r' -> attempts_ok r -> attempts_ok r'.
Proof.
  unfold attempts_ok. intros Hm Hs [H0 H]. destruct Hs as [target es Ht| | | | |target b es Hr Ht|es Ht];
    simpl in *; try (match goal with H : DockReservation.state r = _ |- _ => rewrite H in * end; lia).
  - destruct (DockReservation.state r); simpl in Ht; try (by apply elem_of_nil in Ht);
      repeat (apply elem_of_cons in Ht as [->|Ht]); try (by apply elem_of_nil in Ht);
      case_bool_decide; simplify_eq; lia.
  - destruct (DockReservation.state r); try set_solver;
      repeat (apply elem_of_cons in Ht as [->|Ht]); try (by apply elem_of_nil in Ht); lia.
  - case_bool_decide as E; [by rewrite E in H|]. by_state r; lia.
Qed.

(** ** Counting reservations *)

(** Assigning a key counts its new value instead of its old one. *)
Lemma count_if_dict_set {V} (p : V -> bool) k v (d : dict V) :
  count_if p (dict_values (dict_set k v d)) =
  count_if p (dict_values d) + b2z (p v)
  - match dict_get k d with Some old => b2z (p old) | None => 0 end.
Proof.
  induction d as [|[k' v'] d IH]; cbn [dict_set dict_get].
  { change (dict_values [(k, v)]) with [v]. rewrite count_if_cons. simpl. lia. }
  assert (forall k v (d : dict V), dict_values ((k, v) :: d) = v :: dict_values d) as Hcons by done.
  destruct (String.eqb k k'); rewrite !Hcons, !count_if_cons; [lia|]. rewrite IH. lia.
Qed.

Lemma b2z_le (b1 b2 : bool) : (b1 = true -> b2 = true) -> b2z b1 <= b2z b2.
Proof. destruct b1, b2; simpl; intros H; lia. Qed.

Lemma b2z_range b : 0 <= b2z b <= 1.
Proof. destruct b; simpl; lia. Qed.

Lemma advance_counts (p : DockReservation.t -> bool) k r r' d :
  dict_get k d = Some r -> (p r' = true -> p r = true) ->
  count_if p (dict_values (dict_set k r' d)) <= count_if p (dict_values d).
Proof. intros Hr Hp. rewrite count_if_dict_set, Hr. pose proof (b2z_le _ _ Hp). lia. Qed.

Lemma reserve_counts (p : DockReservation.t -> bool) k r d :
  count_if p (dict_values (dict_set k r d)) <= count_if p (dict_values d) + b2z (p r).
Proof.
  rewrite count_if_dict_set. destruct (dict_get k d) as [old|]; [|lia].
  pose proof (b2z_range (p old)). lia.
Qed.

Record manager_ok (m : manager) : Prop := {
  mk_attempts : 1 <= DockManager.maximum_attempts m;
  mk_definitions : forall k def, dict_get k (DockManager.definitions m) = Some def ->
    DockDefinition.dock_id def = k;
  mk_docks : docks_ok m (DockManager._reservations m);
}.

Lemma occupies_other r dock_id : DockReservation.dock_id r <> dock_id -> occupies dock_id r = false.
Proof. intros H. unfold occupies. by apply String.eqb_neq in H as ->. Qed.

Lemma queues_other r dock_id : DockReservation.dock_id r <> dock_id -> queues dock_id r = false.
Proof. intros H. unfold queues. by apply String.eqb_neq in H as ->. Qed.

(** Taking a place at one's own dock. *)
Lemma taken_capacity m d k r def dock_id def' :
  docks_ok m d -> dict_get (DockReservation.dock_id r) (DockManager.definitions m) = Some def ->
  occupancy_in d (DockReservation.dock_id r) < DockDefinition.capacity def ->
  dict_get dock_id (DockManager.definitions m) = Some def' ->
  occupancy_in (dict_set k r d) dock_id <= DockDefinition.capacity def'.
Proof.
  intros Hok Hdef Hlt Hdef'. unfold occupancy_in. pose proof (reserve_counts (occupies dock_id) k r d).
  destruct (decide (DockReservation.dock_id r = dock_id)) as [<-|Hne].
  - assert (def' = def) as -> by congruence. unfold occupancy_in in Hlt.
    pose proof (b2z_range (occupies (DockReservation.dock_id r) r)). lia.
  - rewrite occupies_other in H by done. pose proof (dk_capacity _ _ Hok _ _ Hdef') as Hc.
    unfold occupancy_in in Hc. simpl in H. lia.
Qed.

Lemma advance_ok m d k r r' :
  1 <= DockManager.maximum_attempts m -> dict_get k d = Some r -> dock_step r r' ->
  docks_ok m d -> docks_ok m (dict_set k r' d).
Proof.
  intros Hmax Hr Hstep [Hwf Hkey Hatt Hopen Hcap Hq].
  destruct (dock_step_parties _ _ Hstep) as (E1 & E2 & E3 & E4).
  split; [by apply dict_set_wf| | | | |].
  - intros k0 r0. rewrite dict_get_set. case_decide as E; [|by apply Hkey].
    intros [= <-]. subst k0. rewrite E1. by apply Hkey.
  - intros k0 r0. rewrite dict_get_set. case_decide as E; [|by apply Hatt].
    intros [= <-]. destruct (Hatt _ _ Hr) as [Har Hmr]. rewrite E4. split; [|done].
    eapply dock_step_attempts; [|exact Hstep|exact Har]. lia.
  - intros k1 k2 r1 r2. rewrite !dict_get_set. repeat case_decide; subst; try done.
    + intros [= <-] H2 Hv T1 T2. apply (Hopen k k2 r r2); try done; [congruence|].
      by eapply dock_step_open.
    + intros H1 [= <-] Hv T1 T2. apply (Hopen k1 k r1 r); try done; [congruence|].
      by eapply dock_step_open.
    + apply Hopen.
  - intros dock_id def Hdef. etrans; [|by apply Hcap].
    apply (advance_counts _ _ r); [done|by apply dock_step_occupies].
  - intros dock_id. etrans; [|apply Hq].
    apply (advance_counts _ _ r); [done|by apply dock_step_queues].
Qed.

(** A reservation that is not in state [st] counts as nothing there. *)
Lemma reserved_not_queued dock_id r :
  DockReservation.state r = DockOperationState.RESERVED -> queues dock_id r = false.
Proof. intros H. unfold queues. rewrite H. by destruct (String.eqb _ _). Qed.

Lemma queued_not_occupying dock_id r :
  DockReservation.state r = DockOperationState.QUEUED -> occupies dock_id r = false.
Proof. intros H. unfold occupies. rewrite H. by destruct (String.eqb _ _). Qed.

Lemma free_counts (p : DockReservation.t -> bool) k r d :
  p r = false -> count_if p (dict_values (dict_set k r d)) <= count_if p (dict_values d).
Proof. intros H. pose proof (reserve_counts p k r d) as Hc. rewrite H in Hc. simpl in Hc. lia. Qed.

Lemma taken_queue m d k r dock_id :
  docks_ok m d -> queue_in d (DockReservation.dock_id r) < DockManager.queue_limit m ->
  queue_in (dict_set k r d) dock_id <= DockManager.queue_limit m.
Proof.
  intros Hok Hlt. pose proof (reserve_counts (queues dock_id) k r d) as H.
  pose proof (dk_queue _ _ Hok dock_id) as Hq. unfold queue_in in *.
  destruct (decide (DockReservation.dock_id r = dock_id)) as [<-|Hne].
  - pose proof (b2z_range (queues (DockReservation.dock_id r) r)). lia.
  - rewrite queues_other in H by done. simpl in H. lia.
Qed.

Lemma reserve_ok m d k r def :
  DockReservation.reservation_id r = k -> DockReservation.attempts r = 0 ->
  DockReservation.maximum_attempts r = DockManager.maximum_attempts m ->
  no_open_request d (DockReservation.vehicle_id r) ->
  dict_get (DockReservation.dock_id r) (DockManager.definitions m) = Some def ->
  (DockReservation.state r = DockOperationState.RESERVED /\
     occupancy_in d (DockReservation.dock_id r) < DockDefinition.capacity def) \/
  (DockReservation.state r = DockOperationState.QUEUED /\
     queue_in d (DockReservation.dock_id r) < DockManager.queue_limit m) ->
  docks_ok m d -> docks_ok m (dict_set k r d).
Proof.
  intros Hk Ha Hm Hnone Hdef Hst Hok. pose proof Hok as [Hwf Hkey Hatt Hopen Hcap Hq].
  split; [by apply dict_set_wf| | | | |].
  - intros k0 r0. rewrite dict_get_set. case_decide as E; [|by apply Hkey].
    intros [= <-]. congruence.
  - intros k0 r0. rewrite dict_get_set. case_decide as E; [|by apply Hatt].
    intros [= <-]. split; [|done]. unfold attempts_ok. rewrite Ha.
    destruct Hst as [[-> _]|[-> _]]; lia.
  - intros k1 k2 r1 r2. rewrite !dict_get_set. repeat case_decide; subst; try done.
    + intros [= <-] H2 Hv T1 T2. by rewrite (Hnone _ _ H2 (eq_sym Hv)) in T2.
    + intros H1 [= <-] Hv T1 T2. by rewrite (Hnone _ _ H1 Hv) in T1.
    + apply Hopen.
  - intros dock_id def' Hdef'. destruct Hst as [[_ Hlt]|[Hst _]]; [by eapply taken_capacity|].
    etrans; [|by apply Hcap]. by apply free_counts, queued_not_occupying.
  - intros dock_id. destruct Hst as [[Hst _]|[_ Hlt]]; [|by apply taken_queue].
    etrans; [|apply Hq]. by apply free_counts, reserved_not_queued.
Qed.

Lemma promote_ok m d k r def es :
  dict_get k d = Some r -> DockReservation.state r = DockOperationState.QUEUED ->
  dict_get (DockReservation.dock_id r) (DockManager.definitions m) = Some def ->
  occupancy_in d (DockReservation.dock_id r) < DockDefinition.capacity def ->
  docks_ok m d ->
  docks_ok m (dict_set k (with_dock_events es (r
    |> set_state DockOperationState.RESERVED |> set_queue_position None)) d).
Proof.
  intros Hr Hst Hdef Hcap' Hok. pose proof Hok as [Hwf Hkey Hatt Hopen Hcap Hq].
  split; [by apply dict_set_wf| | | | |].
  - intros k0 r0. rewrite dict_get_set. case_decide as E; [|by apply Hkey].
    intros [= <-]. subst k0. exact (Hkey _ _ Hr).
  - intros k0 r0. rewrite dict_get_set. case_decide as E; [|by apply Hatt].
    intros [= <-]. destruct (Hatt _ _ Hr) as [Har Hmr]. split; [|done].
    unfold attempts_ok in *. rewrite Hst in Har. done.
  - intros k1 k2 r1 r2. rewrite !dict_get_set. repeat case_decide; subst; try done.
    + intros [= <-] H2 Hv T1 T2. apply (Hopen k k2 r r2); try done. by rewrite Hst.
    + intros H1 [= <-] Hv T1 T2. apply (Hopen k1 k r1 r); try done. by rewrite Hst.
    + apply Hopen.
  - intros dock_id def' Hdef'. by eapply taken_capacity.
  - intros dock_id. etrans; [|apply Hq]. by apply free_counts, reserved_not_queued.
Qed.

Lemma docks_step_ok m d d' :
  1 <= DockManager.maximum_attempts m -> docks_step m d d' -> docks_ok m d -> docks_ok m d'.
Proof.
  intros Hmax [k r r' Hr Hstep|k r def|k r def es] Hok;
    [by eapply advance_ok|by eapply reserve_ok|by eapply promote_ok].
Qed.

(** ** The operations refine the life cycle *)

(** The configuration of a manager never changes; its reservations move by steps
    of the life cycle. *)
Record manager_rel (m m' : manager) : Prop := {
  mr_definitions : DockManager.definitions m' = DockManager.definitions m;
  mr_attempts : DockManager.maximum_attempts m' = DockManager.maximum_attempts m;
  mr_limit : DockManager.queue_limit m' = DockManager.queue_limit m;
  mr_steps : rtc (docks_step m) (DockManager._reservations m) (DockManager._reservations m');
}.

Lemma docks_step_config m m' d d' :
  DockManager.definitions m' = DockManager.definitions m ->
  DockManager.maximum_attempts m' = DockManager.maximum_attempts m ->
  DockManager.queue_limit m' = DockManager.queue_limit m ->
  docks_step m d d' -> docks_step m' d d'.
Proof.
  intros Ed Ea El []; [by eapply dk_advance|eapply dk_reserve|eapply dk_promote];
    rewrite ?Ed, ?Ea, ?El; eauto.
Qed.

#[local] Instance manager_rel_refl : Reflexive manager_rel.
Proof. by split. Qed.

#[local] Instance manager_rel_trans : Transitive manager_rel.
Proof.
  intros m1 m2 m3 [E1 E2 E3 S1] [E4 E5 E6 S2]. split; try congruence. etrans; [exact S1|].
  eapply rtc_subrel; [|exact S2]. intros d d'. by apply docks_step_config.
Qed.

Lemma docks_ok_config m m' d :
  DockManager.definitions m' = DockManager.definitions m ->
  DockManager.maximum_attempts m' = DockManager.maximum_attempts m ->
  DockManager.queue_limit m' = DockManager.queue_limit m ->
  docks_ok m d -> docks_ok m' d.
Proof. intros Ed Ea El []. split; rewrite ?Ed, ?Ea, ?El; auto. Qed.

Lemma manager_rel_ok m m' : manager_rel m m' -> manager_ok m -> manager_ok m'.
Proof.
  intros [Ed Ea El Hs] [H1 H2 H3]. split; [lia|by rewrite Ed|].
  eapply docks_ok_config; [exact Ed|exact Ea|exact El|].
  clear -Hs H1 H3. induction Hs as [|d1 d2 d3 Hd _ IH]; [done|]. apply IH. by eapply docks_step_ok.
Qed.

(** Only the event counter or the health table moved. *)
Definition idle (m m' : manager) : Prop :=
  DockManager.definitions m' = DockManager.definitions m /\
  DockManager.maximum_attempts m' = DockManager.maximum_attempts m /\
  DockManager.queue_limit m' = DockManager.queue_limit m /\
  DockManager._reservations m' = DockManager._reservations m.

Lemma idle_rel m m' : idle m m' -> manager_rel m m'.
Proof. intros (? & ? & ? & E). split; try done. by rewrite E. Qed.

Lemma stored_rel m m' d' :
  DockManager.definitions m' = DockManager.definitions m ->
  DockManager.maximum_attempts m' = DockManager.maximum_attempts m ->
  DockManager.queue_limit m' = DockManager.queue_limit m ->
  DockManager._reservations m' = d' -> docks_step m (DockManager._reservations m) d' ->
  manager_rel m m'.
Proof. intros ??? <- H. split; try done. by apply rtc_once. Qed.

Lemma wp_reservation id (Q : outcome DockReservation.t -> manager -> nat -> Prop) m n :
  (forall r, dict_get id (DockManager._reservations m) = Some r -> Q (Ret r) m n) ->
  Q (Raise (CrazySwarmError INVALID_COMMAND "unknown dock reservation")) m n ->
  wp (reservation id) Q m n.
Proof.
  intros H1 H2. unfold reservation. wp_go.
  destruct (dict_get id (DockManager._reservations m)) eqn:E; wp_go; auto.
Qed.

Lemma wp_definition id (Q : outcome DockDefinition.t -> manager -> nat -> Prop) m n :
  (forall def, dict_get id (DockManager.definitions m) = Some def -> Q (Ret def) m n) ->
  (forall code msg, Q (Raise (CrazySwarmError code msg)) m n) -> wp (_definition (Some id)) Q m n.
Proof.
  intros H1 H2. unfold _definition. wp_go.
  destruct (dict_get id (DockManager.definitions m)) eqn:E; wp_go; auto.
Qed.

Lemma wp_dock_event r ty reason t (Q : outcome DockReservation.t -> manager -> nat -> Prop) m n :
  let m' := DockManager.set__sequence (DockManager._sequence m + 1) m in
  Q (Raise (ValidationError "DockEvent")) m' n ->
  (forall e, DockEvent_valid e = true -> Q (Ret (with_dock_events [e] r)) m' n) ->
  wp (_event r ty reason t) Q m n.
Proof. intros m' H1 H2. unfold _event. wp_go; [exact H1|]. by apply H2. Qed.

Lemma wp_snapshot id (Q : outcome DockSnapshot.t -> manager -> nat -> Prop) m n :
  (forall o, Q o m n) -> wp (snapshot id) Q m n.
Proof.
  intros H. unfold snapshot. wp_rule. apply wp_definition; intros; [|apply H]. wp_go.
  destruct (dict_get id (DockManager.health m)); apply H.
Qed.

Ltac wp_hook ::=
  lazymatch goal with
  | |- wp (reservation _) _ _ _ => apply wp_reservation; [intros ?r ?Hr|]
  | |- wp (_event _ _ _ _) _ _ _ => apply wp_dock_event; [|intros ?e ?He]; cbv zeta
  | |- wp (_definition (Some _)) _ _ _ => apply wp_definition; [intros ?def ?Hdef|intros ? ?]
  | |- wp (_now _) _ _ _ => apply wp_now_exact; intros ?
  | |- wp (snapshot _) _ _ _ => apply wp_snapshot; intros ?
  | |- wp (store_reservation _ _) _ _ _ => apply wp_modify
  | |- wp (match ?x with Some _ => _ | None => _ end) _ _ _ => destruct x eqn:?
  end.

(** Close the paths that store nothing, and reduce a stored reservation to its
    step. *)
Ltac idle_path := try (apply idle_rel; done).
Ltac advance_path :=
  eapply stored_rel; [done|done|done|reflexivity|]; eapply dk_advance; [eassumption|].

Lemma transition_rel id target reason now : steps manager_rel (transition id target reason now).
Proof.
  intros m n. unfold transition. wp_go; idle_path. advance_path.
  bool_to_prop. by apply ds_transition.
Qed.

Lemma confirm_modeled_landing_rel id contact now : steps manager_rel (confirm_modeled_landing id contact now).
Proof.
  intros m n. unfold confirm_modeled_landing. wp_go; idle_path. advance_path.
  bool_to_prop. by apply ds_landing.
Qed.

Lemma confirm_modeled_charging_rel id confirmed now :
  steps manager_rel (confirm_modeled_charging id confirmed now).
Proof.
  intros m n. unfold confirm_modeled_charging. wp_go; idle_path; bool_to_prop.
  - advance_path. destruct (DockReservation.maximum_attempts r <=? DockReservation.attempts r) eqn:E.
    + apply ds_exhausted; [done|lia].
    + apply ds_retry; [done|lia].
  - destruct (py_div _ _); [|by apply idle_rel]. wp_go; idle_path. advance_path. by apply ds_charging.
Qed.

Lemma value_get m d r : docks_ok m d -> r ∈ dict_values d -> dict_get (DockReservation.reservation_id r) d = Some r.
Proof.
  intros Hok Hr. unfold dict_values in Hr. apply list_elem_of_fmap in Hr as ([k r'] & -> & Hin).
  apply dict_elem_get in Hin; [|apply Hok]. simpl. by rewrite (dk_key _ _ Hok _ _ Hin).
Qed.

Lemma promote_queue_rel id now m n :
  manager_ok m -> wp (_promote_queue id now) (fun _ m' _ => manager_rel m m') m n.
Proof.
  intros Hok. unfold _promote_queue. wp_go; idle_path.
  destruct (py_sorted _ _) as [|first rest] eqn:Hs; [by wp_go; apply idle_rel|].
  assert (first ∈ py_sorted queue_ltb (filter (fun r => queues id r = true)
    (dict_values (DockManager._reservations m)))) as Hin by (rewrite Hs; left).
  rewrite elem_of_py_sorted, list_elem_of_filter in Hin. destruct Hin as [Hq Hin].
  apply (value_get m) in Hin; [|apply Hok]. unfold queues in Hq. bool_to_prop. subst id.
  wp_go; idle_path. eapply stored_rel; [done|done|done|reflexivity|]. simpl.
  eapply (dk_promote _ _ _ first def [e]); done.
Qed.

Lemma update_modeled_charge_rel id now m n :
  manager_ok m -> wp (update_modeled_charge id now) (fun _ m' _ => manager_rel m m') m n.
Proof.
  intros Hok. unfold update_modeled_charge. wp_go; idle_path; bool_to_prop.
  - match goal with |- wp _ _ ?m1 _ => assert (manager_rel m m1) as H1 end.
    { advance_path. apply ds_charge; [done|]. case_match; set_solver. }
    eapply wp_mono; [apply promote_queue_rel; by eapply manager_rel_ok|].
    intros [[]|e'] m2 n2 H2; [wp_rule|]; by etrans.
  - advance_path. apply ds_charge; [done|]. case_match; set_solver.
Qed.

(** The loop of [set_health]: the reservations it has not come to are as they were
    when the loop started. *)
Lemma divert_loop_rel id t rs m n :
  manager_ok m -> NoDup (DockReservation.reservation_id <$> rs) ->
  Forall (fun r => dict_get (DockReservation.reservation_id r) (DockManager._reservations m) = Some r) rs ->
  wp (for_each rs (divert id t)) (fun _ m' _ => manager_rel m m') m n.
Proof.
  revert m n. induction rs as [|r rs IH]; intros m n Hok Hnd Hrs; [by apply wp_ret|].
  simpl in Hnd. apply NoDup_cons in Hnd as [Hnin Hnd]. apply Forall_cons in Hrs as [Hr Hrs]. simpl.
  wp_rule. unfold divert at 1. wp_go; idle_path; [|by apply IH].
  bool_to_prop.
  match goal with |- wp _ _ ?m1 _ => assert (manager_rel m m1) as H1 end.
  { advance_path. by apply ds_unavailable. }
  eapply wp_mono; [apply IH; [by eapply manager_rel_ok|done|]|].
  - apply Forall_forall. intros r' Hr'. simpl. rewrite dict_get_set_ne.
    + rewrite Forall_forall in Hrs. by apply Hrs.
    + intros Heq. apply Hnin. rewrite <- Heq. by apply list_elem_of_fmap_2.
  - intros o m2 n2 H2. by etrans.
Qed.

Lemma values_ids m d :
  docks_ok m d -> DockReservation.reservation_id <$> dict_values d = dict_keys d.
Proof.
  intros Hok. unfold dict_values, dict_keys. rewrite <- list_fmap_compose. apply list_fmap_ext.
  intros i [k r] Hi. simpl. apply (dk_key _ _ Hok). apply dict_elem_get; [apply Hok|].
  by eapply list_elem_of_lookup_2.
Qed.

Lemma set_health_rel id health now m n :
  manager_ok m -> wp (set_health id health now) (fun _ m' _ => manager_rel m m') m n.
Proof.
  intros Hok. unfold set_health. wp_rule. wp_hook; [|by apply idle_rel]. wp_rule. wp_rule.
  set (m1 := DockManager.set_health _ m). assert (manager_rel m m1) as H1 by (by apply idle_rel).
  wp_rule. wp_rule.
  - do 4 wp_rule.
    pose proof (manager_rel_ok _ _ H1 Hok) as Hok1.
    eapply wp_mono; [apply divert_loop_rel; [done|..]|].
    + rewrite (values_ids m1); [|apply Hok1]. apply Hok1.
    + apply Forall_forall. intros r Hr. by apply (value_get m1); [apply Hok1|].
    + intros [[]|e] m2 n2 H2; [wp_hook|]; by etrans.
  - wp_rule. by wp_hook.
Qed.

Lemma no_open_request_spec m v :
  manager_ok m -> has_open_request m v = false -> no_open_request (DockManager._reservations m) v.
Proof.
  intros Hok H k r Hr <-. unfold has_open_request in H.
  pose proof (existsb_false _ _ _ H (dict_get_values _ _ _ Hr)) as Hr'. simpl in Hr'.
  rewrite String.eqb_refl in Hr'. simpl in Hr'. by bool_to_prop.
Qed.

(** What [reserve] chooses from is declared. *)
Lemma wp_dock_candidates preferred (Q : outcome (list DockDefinition.t) -> manager -> nat -> Prop) m n :
  manager_ok m ->
  (forall l, (forall def, def ∈ l ->
     dict_get (DockDefinition.dock_id def) (DockManager.definitions m) = Some def) -> Q (Ret l) m n) ->
  (forall e, Q (Raise e) m n) ->
  wp (dock_candidates preferred) Q m n.
Proof.
  intros [_ Hdefs _] Hret Herr. unfold dock_candidates. destruct preferred as [id|].
  - wp_rule. wp_hook; [|apply Herr]. wp_rule. apply Hret. intros d ->%list_elem_of_singleton.
    by rewrite (Hdefs _ _ Hdef).
  - wp_go. apply Hret. intros def (k & _ & Hk)%list_elem_of_omap. by rewrite (Hdefs _ _ Hk).
Qed.

(** A reservation that returns is queued only at a full dock, and otherwise took
    a free place. *)
Lemma reserve_rel v preferred battery target now m n :
  manager_ok m ->
  wp (reserve v preferred battery target now) (fun o m' _ => manager_rel m m' /\
    forall r, o = Ret r -> DockReservation.vehicle_id r = v /\
      dict_get (DockReservation.reservation_id r) (DockManager._reservations m') = Some r) m n.
Proof.
  intros Hok. unfold reserve. wp_rule. wp_rule. wp_rule. wp_rule; [by split; [apply idle_rel|]|].
  wp_rule. apply wp_dock_candidates; [done| |by split; [apply idle_rel|]]. intros l Hl.
  destruct (py_min _ _) as [selected|] eqn:Hmin; [|by wp_rule; split; [apply idle_rel|]].
  apply py_min_elem, list_elem_of_filter in Hmin as [_ Hsel]. apply Hl in Hsel.
  set (queued := DockDefinition.capacity selected <=? _) in *.
  wp_go; try (by split; [apply idle_rel|]).
  split; [|intros r [= <-]; split; [done|apply dict_get_set_eq]].
  eapply stored_rel; [done|done|done|reflexivity|].
  eapply (dk_reserve _ _ _ _ selected); try done; [by apply no_open_request_spec|].
  unfold queued in *. simpl. destruct (_ <=? _) eqn:Hq; [right|left]; (split; [done|]).
  - simpl in *. unfold queue_in, _queue_length in *. lia.
  - unfold occupancy_in, _occupancy in *. lia.
Qed.

Lemma reserve_after_handover_rel h battery now m n :
  manager_ok m -> wp (reserve_after_handover h battery now) (fun _ m' _ => manager_rel m m') m n.
Proof.
  intros Hok. unfold reserve_after_handover. wp_rule. wp_rule; [by apply idle_rel|]. wp_rule.
  eapply wp_mono; [by apply reserve_rel|]. intros [r|e] m1 n1 [H1 _]; [|done].
  wp_go; [|done]. eapply wp_mono; [apply transition_rel|]. intros o m2 n2 H2. by etrans.
Qed.

(** ** Reachable managers *)
Inductive dock_call :=
| DockReserve (vehicle_id : string) (preferred : option string) (battery : option float)
    (target : float) (now : option float)
| DockReserveAfter (handover : HandoverRecord.t) (battery : option float) (now : option float)
| DockTransition (id : string) (target : DockOperationState.t) (reason : string) (now : option float)
| DockLanding (id : string) (contact : bool) (now : option float)
| DockCharging (id : string) (confirmed : bool) (now : option float)
| DockUpdate (id : string) (now : option float)
| DockHealthChange (id : string) (health : DockHealth.t) (now : option float).

Definition dock_perform (c : dock_call) : M manager unit :=
  match c with
  | DockReserve v preferred battery target now =>
      _ ← reserve v preferred battery target now; mret tt
  | DockReserveAfter h battery now => _ ← reserve_after_handover h battery now; mret tt
  | DockTransition id target reason now => _ ← transition id target reason now; mret tt
  | DockLanding id contact now => _ ← confirm_modeled_landing id contact now; mret tt
  | DockCharging id confirmed now => _ ← confirm_modeled_charging id confirmed now; mret tt
  | DockUpdate id now => _ ← update_modeled_charge id now; mret tt
  | DockHealthChange id health now => _ ← set_health id health now; mret tt
  end.

Definition dock_client_step (s1 s2 : manager * nat) : Prop :=
  exists c o, dock_perform c s1.1 s1.2 = (o, s2.1, s2.2).

(** A manager over valid dock definitions. *)
Definition opened (m : manager) : Prop :=
  exists definitions ttl attempts limit,
    Forall (fun d => DockDefinition_valid d = true) definitions /\
    DockManager_init definitions ttl attempts limit = Ret m.

Definition docks_reachable (s : manager * nat) : Prop :=
  exists m0 n0, opened m0 /\ rtc dock_client_step (m0, n0) s.

Lemma dock_perform_rel c m n :
  manager_ok m -> wp (dock_perform c) (fun _ m' _ => manager_rel m m') m n.
Proof.
  intros Hok.
  assert (forall A (x : M manager A), wp x (fun _ m' _ => manager_rel m m') m n ->
    wp (_ ← x; mret tt) (fun _ m' _ => manager_rel m m') m n) as Hd.
  { intros A x Hx. apply wp_discard. eapply wp_mono; [exact Hx|]. by intros []. }
  destruct c; simpl; apply Hd.
  - eapply wp_mono; [by apply reserve_rel|]. by intros ??? [].
  - by apply reserve_after_handover_rel.
  - apply transition_rel.
  - apply confirm_modeled_landing_rel.
  - apply confirm_modeled_charging_rel.
  - by apply update_modeled_charge_rel.
  - by apply set_health_rel.
Qed.

Lemma dict_of_keyed (definitions : list DockDefinition.t) k def :
  dict_get k (dict_of DockDefinition.dock_id id definitions) = Some def ->
  DockDefinition.dock_id def = k /\ def ∈ definitions.
Proof.
  unfold dict_of.
  assert (forall d0 : dict DockDefinition.t,
    (forall k def, dict_get k d0 = Some def -> DockDefinition.dock_id def = k /\ def ∈ definitions) ->
    forall l, (forall x, x ∈ l -> x ∈ definitions) ->
    forall k def, dict_get k (foldl (fun d item =>
        dict_set (DockDefinition.dock_id item) (id item) d) d0 l) = Some def ->
      DockDefinition.dock_id def = k /\ def ∈ definitions) as Hgen.
  { intros d0 Hd0 l. revert d0 Hd0. induction l as [|x l IH]; intros d0 Hd0 Hl; simpl; [done|].
    apply IH; [|intros; apply Hl; by right]. intros k0 def0. rewrite dict_get_set. case_decide; [|apply Hd0].
    intros [= <-]. split; [done|]. apply Hl. left. }
  by apply Hgen.
Qed.

Lemma opened_ok m : opened m -> manager_ok m.
Proof.
  intros (defs & ttl & attempts & limit & Hval & Hinit). unfold DockManager_init in Hinit.
  destruct (bool_decide _); [done|]. destruct (_ || _)%bool eqn:E; [done|]. injection Hinit as <-.
  bool_to_prop. split; simpl; [done|by intros k def [? _]%dict_of_keyed|].
  split; simpl; try done; [constructor| |intros; unfold queue_in, count_if; simpl; lia].
  intros id def [_ Hin]%dict_of_keyed. rewrite Forall_forall in Hval. apply Hval in Hin.
  unfold DockDefinition_valid in Hin. bool_to_prop. unfold occupancy_in, count_if. simpl. lia.
Qed.

Lemma docks_reachable_ok s : docks_reachable s -> manager_ok s.1.
Proof.
  intros (m0 & n0 & Ho%opened_ok & Hsteps).
  assert (manager_ok (m0, n0).1) as Hok by done. clear Ho. revert Hok.
  induction Hsteps as [s|s1 s2 s3 (c & o & Hc) _ IH]; [done|]. intros Hok. apply IH.
  pose proof (dock_perform_rel c s1.1 s1.2 Hok) as H. unfold wp in H. rewrite Hc in H.
  by eapply manager_rel_ok.
Qed.

(** ** Properties *)

(** C10: in every dock manager a client can reach, a dock never holds more
    vehicles than its capacity and never queues more than the limit, a vehicle
    has at most one open reservation over all docks, and a reservation has never
    attempted to dock more often than the maximum; before an attempt there is one
    left, so the retries end. *)
Theorem docks_are_bounded s : docks_reachable s -> docks_ok s.1 (DockManager._reservations s.1).
Proof. intros H. apply (docks_reachable_ok _ H). Qed.

(** C38: every operation of the dock manager refines the reservation life cycle:
    whatever its outcome, it moves the reservations by steps that advance one
    reservation along its life cycle, admit a new one into a free place or a free
    queue slot, or promote a queued one into a free place. *)
Theorem dock_operations_refine s c :
  docks_reachable s -> manager_rel s.1 (exec (dock_perform c) s.1 s.2).
Proof. intros H. apply (dock_perform_rel c s.1 s.2 (docks_reachable_ok _ H)). Qed.

(** The level [r] was charged to is capped and decides its state. *)
Definition charge_ends (r : DockReservation.t) : Prop :=
  exists battery, DockReservation.battery_percent r = Some battery /\
    fltb (DockReservation.target_battery_percent r) battery = false /\
    DockReservation.state r =
      if fleb (DockReservation.target_battery_percent r) battery
      then DockOperationState.READY else DockOperationState.CHARGING.

(** A modelled charge is capped: the new level is not above the target, and the
    reservation is ready exactly when the level has reached it; otherwise it keeps
    charging. *)
Theorem charge_is_capped id now m n r' :
  run (update_modeled_charge id now) m n = Ret r' ->
  charge_ends r'.
Proof.
  by_returned. unfold update_modeled_charge.
  assert (forall r b es, let target := DockReservation.target_battery_percent r in
    charge_ends (with_dock_events es (r
      |> set_state (if fleb target (py_fmin target b)
                    then DockOperationState.READY else DockOperationState.CHARGING)
      |> set_battery_percent (Some (py_fmin target b))))) as Hend.
  { intros r b es. eexists. split; [reflexivity|]. split; [apply py_fmin_not_above|done]. }
  wp_go; try done; [|by intros ? [= <-]].
  eapply wp_mono; [apply (wp_true (_promote_queue _ _))|].
  intros [[]|e'] m2 n2 _; [wp_rule|done]. by intros ? [= <-].
Qed.

(** The return of an outgoing vehicle cannot be booked before its handover has
    been confirmed and completed: the call is refused and the manager untouched. *)
Theorem dock_return_needs_completed_handover h battery now m n :
  HandoverRecord.phase h <> HandoverPhase.COMPLETED \/ HandoverRecord.takeover_confirmed h = false ->
  run (reserve_after_handover h battery now) m n
    = Err MODE_NOT_AUTHORIZED "dock return cannot start before confirmed takeover and release" /\
  exec (reserve_after_handover h battery now) m n = m.
Proof.
  intros H. unfold reserve_after_handover, run, exec, mbind, M_bind, raise_if.
  assert ((HandoverRecord.phase h ≠? HandoverPhase.COMPLETED)
          || negb (HandoverRecord.takeover_confirmed h) = true)%bool as ->; [|done].
  destruct H as [H| ->]; [|by rewrite orb_true_r].
  by rewrite bool_decide_eq_false_2 by done.
Qed.

End docks.

(** ** Defects and witnesses *)
Module Examples.
#[local] Existing Instance example_clock.

Definition dock (id : string) : DockDefinition.t := DockDefinition.mk id 1 "wireless" (float_of_Z 10).

Definition blank : DockManager.t := DockManager.mk [] [] f0 0 0 [] 0.

Definition manager_of (o : outcome DockManager.t) : DockManager.t :=
  match o with Ret m => m | Raise _ => blank end.

(** Two docks with one place each, and one attempt per reservation. *)
Definition docks : DockManager.t * nat := Eval vm_compute in
  (manager_of (DockManager_init [dock "a"; dock "a-b"] (float_of_Z 120) 1 8), 0%nat).

Definition dock_calls (cs : list dock_call) (s : DockManager.t * nat) : DockManager.t * nat :=
  foldl (fun s c => let r := dock_perform c s.1 s.2 in (r.1.2, r.2)) s cs.

Lemma dock_calls_steps cs s : rtc dock_client_step s (dock_calls cs s).
Proof.
  revert s. induction cs as [|c cs IH]; intros s; simpl; [done|].
  eapply rtc_l; [|apply IH]. exists c, (run (dock_perform c) s.1 s.2).
  unfold run. simpl. by destruct (dock_perform c s.1 s.2) as [[o m] n].
Qed.

Lemma dock_calls_reachable cs s : dock_calls cs docks = s -> docks_reachable s.
Proof.
  intros <-. exists docks.1, docks.2. split; [|apply dock_calls_steps].
  exists [dock "a"; dock "a-b"], (float_of_Z 120), 1, 8. split; [|reflexivity].
  by repeat constructor.
Qed.

Definition state_of (s : DockManager.t * nat) (id : string) : option DockOperationState.t :=
  DockReservation.state <$> dict_get id (DockManager._reservations s.1).
Definition vehicle_of (s : DockManager.t * nat) (id : string) : option string :=
  DockReservation.vehicle_id <$> dict_get id (DockManager._reservations s.1).
Definition level_of (s : DockManager.t * nat) (id : string) : option float :=
  dict_get id (DockManager._reservations s.1) ≫= DockReservation.battery_percent.

Definition dock_at (v : string) : dock_call :=
  DockReserve v (Some "a") (Some (float_of_Z 50)) (float_of_Z 90) None.

Definition docked (v : string) (contact confirmed : bool) (t : Z) : list dock_call :=
  let id := "dock-a-" +:+ v in
  [DockTransition id DockOperationState.RETURN_TO_DOCK_AREA "" None;
   DockTransition id DockOperationState.APPROACH_REQUESTED "" None;
   DockTransition id DockOperationState.DOCK_ATTEMPT "" None;
   DockLanding id contact None; DockCharging id confirmed (Some (float_of_Z t))].

(** The occupant fails to charge while another vehicle waits. *)
Definition occupant_failed : list dock_call :=
  [dock_at "v1"; dock_at "v2"] ++ docked "v1" false false 1000.

(** A failed docking does not promote the queue.  The place is free again, the
    waiting vehicle stays queued, and a vehicle that asks afterwards is given the
    place ahead of it. *)
Theorem failed_docking_strands_queue :
  docks_reachable (dock_calls occupant_failed docks) /\
  state_of (dock_calls occupant_failed docks) "dock-a-v1" = Some DockOperationState.FAILED /\
  _occupancy (dock_calls occupant_failed docks).1 "a" = 0 /\
  state_of (dock_calls occupant_failed docks) "dock-a-v2" = Some DockOperationState.QUEUED /\
  state_of (dock_calls (occupant_failed ++ [dock_at "v3"]) docks) "dock-a-v3"
    = Some DockOperationState.RESERVED /\
  state_of (dock_calls (occupant_failed ++ [dock_at "v3"]) docks) "dock-a-v2"
    = Some DockOperationState.QUEUED.
Proof.
  split; [by eapply dock_calls_reachable|]. split_and!; vm_compute; reflexivity.
Qed.

Definition charging : list dock_call := dock_at "v1" :: docked "v1" true true 1000.
Definition update_at (t : Z) : dock_call := DockUpdate "dock-a-v1" (Some (float_of_Z t)).

(** The modelled charge depends on how often it is read.  Charging from 50% at
    10% a minute, two minutes give 70% when read once, and 80% when also read
    after the first minute, because a reading stores the new level but keeps the
    start of the charge. *)
Theorem charge_compounds_with_reading :
  docks_reachable (dock_calls (charging ++ [update_at 1060; update_at 1120]) docks) /\
  level_of (dock_calls (charging ++ [update_at 1120]) docks) "dock-a-v1" = Some (float_of_Z 70) /\
  level_of (dock_calls (charging ++ [update_at 1060; update_at 1120]) docks) "dock-a-v1"
    = Some (float_of_Z 80).
Proof.
  split; [by eapply dock_calls_reachable|]. split; vm_compute; reflexivity.
Qed.

Definition colliding : list dock_call :=
  [DockReserve "b-c" (Some "a") None (float_of_Z 90) None;
   DockReserve "c" (Some "a-b") None (float_of_Z 90) None].

(** Reservation identities collide.  Vehicle "b-c" at dock "a" and vehicle "c"
    at dock "a-b" share one identity, so the second reservation erases the first,
    which still was open. *)
Theorem reservation_identities_collide :
  docks_reachable (dock_calls colliding docks) /\
  vehicle_of (dock_calls (firstn 1 colliding) docks) "dock-a-b-c" = Some "b-c" /\
  vehicle_of (dock_calls colliding docks) "dock-a-b-c" = Some "c" /\
  dict_keys (DockManager._reservations (dock_calls colliding docks).1) = ["dock-a-b-c"] /\
  has_open_request (dock_calls colliding docks).1 "b-c" = false.
Proof.
  split; [by eapply dock_calls_reachable|]. split_and!; vm_compute; reflexivity.
Qed.

Lemma docks_bounded_witness :
  docks_ok (dock_calls occupant_failed docks).1
    (DockManager._reservations (dock_calls occupant_failed docks).1).
Proof. apply docks_are_bounded. by eapply dock_calls_reachable. Defined.

Lemma dock_refine_witness :
  manager_rel (dock_calls occupant_failed docks).1
    (exec (dock_perform (dock_at "v3")) (dock_calls occupant_failed docks).1
      (dock_calls occupant_failed docks).2).
Proof. apply dock_operations_refine. by eapply dock_calls_reachable. Defined.

Lemma charge_capped_witness :
  exists r, charge_ends r /\ DockReservation.vehicle_id r = "v1".
Proof.
  destruct (run (update_modeled_charge "dock-a-v1" (Some (float_of_Z 1060)))
    (dock_calls charging docks).1 (dock_calls charging docks).2) as [r|e] eqn:Hrun;
    [|vm_compute in Hrun; discriminate Hrun].
  exists r. split; [exact (charge_is_capped _ _ _ _ r Hrun)|].
  vm_compute in Hrun. injection Hrun as <-. reflexivity.
Defined.

Lemma dock_return_witness :
  exec (reserve_after_handover (new_handover "h" "t" "v1" "" 1 f0) None None) docks.1 docks.2 = docks.1.
Proof.
  refine (proj2 (dock_return_needs_completed_handover (new_handover "h" "t" "v1" "" 1 f0)
    None None docks.1 docks.2 _)). by right.
Defined.
End Examples.
