(* ===== verification/Zones.v ===== *)
(** * Zone planning and formation ([fleet/zones.py], [fleet/coordination.py])

    The planner that decomposes a zone task into takeoff, moves around box
    obstacles, hold and landing, and the assessment of a leader-follower
    formation. *)

From S2P Require Import Prelude Float64 Effects Contracts Artifacts.

Module ZoneActionKind.
Inductive t := TAKEOFF | MOVE_TO | HOLD | LAND.
End ZoneActionKind.
#[export] Instance ZoneActionKind_eq_dec : EqDecision ZoneActionKind.t.
Proof. solve_decision. Defined.

Definition ZoneActionKind_value (k : ZoneActionKind.t) : string :=
  match k with
  | ZoneActionKind.TAKEOFF => "TAKEOFF"
  | ZoneActionKind.MOVE_TO => "MOVE_TO"
  | ZoneActionKind.HOLD => "HOLD"
  | ZoneActionKind.LAND => "LAND"
  end.

Module ZoneObstacle.
Record t := mk { obstacle_id : string; minimum_m : Vector3; maximum_m : Vector3 }.
End ZoneObstacle.

Module ZoneAction.
Record t := mk { kind : ZoneActionKind.t; target_m : option Vector3; duration_s : float }.
End ZoneAction.

Module ZoneTaskPlan.
Record t := mk {
  task_id : string;
  zone_id : string;
  actions : list ZoneAction.t;
  waypoints_m : list Vector3;
  obstacle_aware : bool;
  path_length_m : float;
  estimated_duration_s : float;
  estimated_energy_percent : float;
  plan_sha256 : string;
}.
End ZoneTaskPlan.

Definition ZoneTaskPlan_valid (p : ZoneTaskPlan.t) : bool :=
  is_identifier (ZoneTaskPlan.task_id p) && is_identifier (ZoneTaskPlan.zone_id p)
  && ge0 (ZoneTaskPlan.path_length_m p) && gt0 (ZoneTaskPlan.estimated_duration_s p)
  && gt0 (ZoneTaskPlan.estimated_energy_percent p) && is_sha256 (ZoneTaskPlan.plan_sha256 p).

Module ZoneTaskPlanner.
Record t := mk {
  cruise_speed_m_s : float;
  safety_margin_m : float;
  transit_energy_percent_per_m : float;
}.
End ZoneTaskPlanner.

(** [ZoneTaskPlanner(...)] *)
Definition ZoneTaskPlanner_new (cruise margin energy : float) : outcome ZoneTaskPlanner.t :=
  if fleb cruise f0 || fleb margin f0
  then Raise (ValueError "zone planner parameters must be positive")
  else Ret (ZoneTaskPlanner.mk cruise margin energy).

(** [==] of two contract vectors *)
Definition v_eqb (a b : Vector3) : bool :=
  feqb (v_x a) (v_x b) && feqb (v_y a) (v_y b) && feqb (v_z a) (v_z b).

Definition with_z (v : Vector3) (z : float) : Vector3 := mkVector3 (v_x v) (v_y v) z.

(** [_inside_expanded_box] *)
Definition inside_expanded_box (point : Vector3) (o : ZoneObstacle.t) (margin_m : float) : bool :=
  fleb (fsub (v_x (ZoneObstacle.minimum_m o)) margin_m) (v_x point)
  && fleb (v_x point) (fadd (v_x (ZoneObstacle.maximum_m o)) margin_m)
  && (fleb (fsub (v_y (ZoneObstacle.minimum_m o)) margin_m) (v_y point)
      && fleb (v_y point) (fadd (v_y (ZoneObstacle.maximum_m o)) margin_m))
  && (fleb (v_z (ZoneObstacle.minimum_m o)) (v_z point)
      && fleb (v_z point) (v_z (ZoneObstacle.maximum_m o))).

Definition inside (o : ZoneObstacle.t) (point : Vector3) : bool := inside_expanded_box point o f0.

(** The point of [_segment_intersects_box_xy] at a step of 200. *)
Definition segment_point (start end_ : Vector3) (height_m : float) (index : nat) : Vector3 :=
  let ratio := fdiv_ieee (float_of_Z (Z.of_nat index)) (float_of_Z 200) in
  mkVector3 (fadd (v_x start) (fmul (fsub (v_x end_) (v_x start)) ratio))
            (fadd (v_y start) (fmul (fsub (v_y end_) (v_y start)) ratio)) height_m.

(** [_segment_intersects_box_xy] *)
Definition segment_intersects_box_xy (start end_ : Vector3) (o : ZoneObstacle.t)
    (height_m : float) : bool :=
  if negb (fleb (v_z (ZoneObstacle.minimum_m o)) height_m
           && fleb height_m (v_z (ZoneObstacle.maximum_m o)))
  then false
  else existsb (fun index => inside o (segment_point start end_ height_m index)) (seq 0 201).

(** The key of the choice between two detours: tuples compare by length, then
    by the y of the first point. *)
Definition detour_ltb : float * float -> float * float -> bool := lex_ltb fltb.

(** [tuple(point for index, point in enumerate(waypoints) if index == 0 or point
    != waypoints[index - 1])] *)
Fixpoint drop_repeats (previous : Vector3) (l : list Vector3) : list Vector3 :=
  match l with
  | [] => []
  | p :: l' => if v_eqb p previous then drop_repeats p l' else p :: drop_repeats p l'
  end.

Definition compacted (l : list Vector3) : list Vector3 :=
  match l with [] => [] | p :: l' => p :: drop_repeats p l' end.

Definition action_json (a : ZoneAction.t) : json := JObj [
  ("kind", JStr (ZoneActionKind_value (ZoneAction.kind a)));
  ("target_m", json_opt vector_json (ZoneAction.target_m a));
  ("duration_s", JFloat (ZoneAction.duration_s a))].

(** [ZoneAction(...)] *)
Definition new_action (k : ZoneActionKind.t) (target : option Vector3) (duration_s : float) :
    outcome ZoneAction.t :=
  if gt0 duration_s then Ret (ZoneAction.mk k target duration_s)
  else Raise (ValidationError "ZoneAction").

Section planner.
Context `{LM : Libm} `{DG : Digest} (self : ZoneTaskPlanner.t).

(** [_path_length] *)
Definition path_length (points : list Vector3) : outcome float :=
  lengths ← mapM (fun ab => v_distance ab.1 ab.2) (zip points (tail points));
  Ret (py_sum lengths).

(** The two candidates of an obstacle that blocks the way, the better one
    first chosen by [min]. *)
Definition detour (cursor target : Vector3) (o : ZoneObstacle.t) : outcome (list Vector3) :=
  let lower_y := fsub (v_y (ZoneObstacle.minimum_m o)) (ZoneTaskPlanner.safety_margin_m self) in
  let upper_y := fadd (v_y (ZoneObstacle.maximum_m o)) (ZoneTaskPlanner.safety_margin_m self) in
  let candidate y := [mkVector3 (v_x cursor) y (v_z target); mkVector3 (v_x target) y (v_z target)] in
  lower ← path_length (cursor :: candidate lower_y ++ [target]);
  upper ← path_length (cursor :: candidate upper_y ++ [target]);
  Ret (if detour_ltb (upper, upper_y) (lower, lower_y) then candidate upper_y else candidate lower_y).

(** The loop over the obstacles: waypoints so far, cursor, and whether an
    obstacle was met. *)
Fixpoint route_around (target : Vector3) (obstacles : list ZoneObstacle.t)
    (waypoints : list Vector3) (cursor : Vector3) (aware : bool) : outcome (list Vector3 * bool) :=
  match obstacles with
  | [] => Ret (waypoints, aware)
  | o :: obstacles' =>
      if negb (segment_intersects_box_xy cursor target o (v_z target))
      then route_around target obstacles' waypoints cursor aware
      else
        selected ← detour cursor target o;
        route_around target obstacles' (waypoints ++ selected) (List.last selected cursor) true
  end.

(** [max(0.1, _distance(previous, point) / self.cruise_speed_m_s)] *)
Definition move_action (ab : Vector3 * Vector3) : outcome ZoneAction.t :=
  d ← v_distance ab.1 ab.2;
  t ← py_div d (ZoneTaskPlanner.cruise_speed_m_s self);
  new_action ZoneActionKind.MOVE_TO (Some ab.2) (py_fmax (flit 1 10) t).

(** The actions of a compacted route. *)
Definition route_actions (compact : list Vector3) (target : Vector3) (hold_duration : float) :
    outcome (list ZoneAction.t) :=
  takeoff ← new_action ZoneActionKind.TAKEOFF (head compact) (float_of_Z 2);
  moves ← mapM move_action (zip compact (tail compact));
  hold ← new_action ZoneActionKind.HOLD (Some target) hold_duration;
  land ← new_action ZoneActionKind.LAND None (float_of_Z 2);
  Ret (takeoff :: moves ++ [hold; land]).

Definition plan_json (task_id zone_id : string) (compact : list Vector3)
    (actions : list ZoneAction.t) (aware : bool) (length duration energy : float) : json := JObj [
  ("task_id", JStr task_id);
  ("zone_id", JStr zone_id);
  ("waypoints", JList (vector_json <$> compact));
  ("actions", JList (action_json <$> actions));
  ("obstacle_aware", JBool aware);
  ("path_length_m", JFloat (py_round length 9));
  ("estimated_duration_s", JFloat (py_round duration 9));
  ("estimated_energy_percent", JFloat (py_round energy 9))].

(** [target] and [start] of a plan, at the height of the flight. *)
Definition plan_target (zone : ZoneDefinition.t) (flight_height_m : float) : Vector3 :=
  let center := center_m (ZoneDefinition.geometry zone) in
  with_z center (py_fmax flight_height_m (v_z center)).

Definition sorted_obstacles (obstacles : list ZoneObstacle.t) : list ZoneObstacle.t :=
  py_sorted (fun a b => str_ltb (ZoneObstacle.obstacle_id a) (ZoneObstacle.obstacle_id b)) obstacles.

Definition plan (task : DeploymentTaskDefinition.t) (zone : ZoneDefinition.t) (start_m : Vector3)
    (obstacles : list ZoneObstacle.t) (flight_height_m : float) : outcome ZoneTaskPlan.t :=
  if negb (String.eqb (DeploymentTaskDefinition.zone_id task) (ZoneDefinition.zone_id zone))
  then Err IDENTITY_MISMATCH "task and zone do not match"
  else
    let target := plan_target zone flight_height_m in
    let start := with_z start_m (v_z target) in
    route ← route_around target (sorted_obstacles obstacles) [start] start false;
    let compact := compacted (route.1 ++ [target]) in
    if existsb (fun point => existsb (fun o => inside o point) obstacles) compact
    then Err PREFLIGHT_FAILED "planned waypoint is obstructed"
    else
      length ← path_length compact;
      transit_duration ← py_div length (ZoneTaskPlanner.cruise_speed_m_s self);
      let hold_duration :=
        py_fmax (flit 1 10)
          (fsub (fsub (DeploymentTaskDefinition.estimated_duration_s task) transit_duration)
                (float_of_Z 4)) in
      actions ← route_actions compact target hold_duration;
      let duration := py_sum (ZoneAction.duration_s <$> actions) in
      let energy :=
        py_fmax (flit 1 100)
          (fadd (DeploymentTaskDefinition.estimated_energy_percent task)
             (fmul length (ZoneTaskPlanner.transit_energy_percent_per_m self))) in
      let p := ZoneTaskPlan.mk (DeploymentTaskDefinition.task_id task) (ZoneDefinition.zone_id zone)
                 actions compact route.2 length duration energy
                 (canonical_sha256
                    (plan_json (DeploymentTaskDefinition.task_id task)
                       (ZoneDefinition.zone_id zone) compact actions route.2 length duration energy)) in
      if ZoneTaskPlan_valid p then Ret p else Raise (ValidationError "ZoneTaskPlan").
End planner.

(** ** Formation ([fleet/coordination.py]) *)

Module LeaderFollowerAssessment.
Record t := mk {
  expected_follower_position_m : Vector3;
  observed_offset_m : Vector3;
  relative_velocity_m_s : Vector3;
  tracking_error_m : float;
  speed_error_m_s : float;
  separation_m : float;
}.
End LeaderFollowerAssessment.

(** [_add] and [_subtract] *)
Definition v_add (a b : Vector3) : Vector3 :=
  mkVector3 (fadd (v_x a) (v_x b)) (fadd (v_y a) (v_y b)) (fadd (v_z a) (v_z b)).
Definition v_subtract (a b : Vector3) : Vector3 :=
  mkVector3 (fsub (v_x a) (v_x b)) (fsub (v_y a) (v_y b)) (fsub (v_z a) (v_z b)).

(** [_length] and [_distance] *)
Definition v_norm `{Libm} (v : Vector3) : outcome float :=
  x ← py_square (v_x v);
  y ← py_square (v_y v);
  z ← py_square (v_z v);
  py_sqrt (fadd (fadd x y) z).

Definition offset_distance `{Libm} (a b : Vector3) : outcome float := v_norm (v_subtract a b).

Definition assess_leader_follower `{Libm} (leader_position follower_position expected_offset : Vector3)
    (leader_velocity follower_velocity : option Vector3) : outcome LeaderFollowerAssessment.t :=
  let expected_follower_position := v_add leader_position expected_offset in
  let observed_offset := v_subtract follower_position leader_position in
  let relative_velocity :=
    v_subtract (default Vector3_zero follower_velocity) (default Vector3_zero leader_velocity) in
  tracking_error ← offset_distance follower_position expected_follower_position;
  speed_error ← v_norm relative_velocity;
  separation ← offset_distance leader_position follower_position;
  Ret (LeaderFollowerAssessment.mk expected_follower_position observed_offset relative_velocity
         tracking_error speed_error separation).

(** ** Lemmas *)

Lemma new_action_Ret k t d a :
  new_action k t d = Ret a -> a = ZoneAction.mk k t d /\ gt0 d = true.
Proof. unfold new_action. destruct (gt0 d); [|done]. by intros [= <-]. Qed.

Section planner_lemmas.
Context `{LM : Libm} `{DG : Digest} (self : ZoneTaskPlanner.t).

Lemma move_actions_Ret l acts :
  mapM (move_action self) l = Ret acts ->
  ZoneAction.kind <$> acts = replicate (length l) ZoneActionKind.MOVE_TO /\
  ZoneAction.target_m <$> acts = Some <$> l.*2 /\
  Forall (fun a => gt0 (ZoneAction.duration_s a) = true) acts.
Proof.
  intros Hm%mapM_Ret. induction Hm as [|[a b] act l acts Ha _ (IH1 & IH2 & IH3)]; [by repeat constructor|].
  unfold move_action in Ha. simpl in Ha. destruct (v_distance a b) as [d|]; [|done]. simpl in Ha.
  destruct (py_div d _) as [t|]; [|done]. apply new_action_Ret in Ha as [-> Hd].
  rewrite !fmap_cons, IH1, IH2. split_and!; [done..|by constructor].
Qed.

Lemma zip_tail_snd {A} (x : A) l : (zip (x :: l) l).*2 = l.
Proof.
  revert x. induction l as [|y l IH]; intros x; [done|].
  change (zip (x :: y :: l) (y :: l)) with ((x, y) :: zip (y :: l) l). by rewrite fmap_cons, IH.
Qed.

Lemma zip_tail_length {A} (x : A) l : length (zip (x :: l) l) = length l.
Proof. rewrite <- (zip_tail_snd x l) at 3. by rewrite length_fmap. Qed.

(** The actions of a non-empty route. *)
Lemma route_actions_Ret w l target hold acts :
  route_actions self (w :: l) target hold = Ret acts ->
  ZoneAction.kind <$> acts
    = ZoneActionKind.TAKEOFF :: replicate (length l) ZoneActionKind.MOVE_TO
      ++ [ZoneActionKind.HOLD; ZoneActionKind.LAND] /\
  ZoneAction.target_m <$> acts = Some w :: (Some <$> l) ++ [Some target; None] /\
  Forall (fun a => gt0 (ZoneAction.duration_s a) = true) acts.
Proof.
  unfold route_actions. cbn [tail head].
  destruct (new_action ZoneActionKind.TAKEOFF _ _) as [up|] eqn:E1; [|done]. cbn [mbind outcome_bind].
  destruct (mapM _ _) as [moves|] eqn:E2; [|done]. cbn [mbind outcome_bind].
  destruct (new_action ZoneActionKind.HOLD _ _) as [hd|] eqn:E3; [|done]. cbn [mbind outcome_bind].
  destruct (new_action ZoneActionKind.LAND _ _) as [ld|] eqn:E4; [|done]. intros [= <-].
  apply new_action_Ret in E1 as [-> ?], E3 as [-> ?], E4 as [-> ?].
  apply move_actions_Ret in E2 as (Hk & Ht & Hd).
  rewrite zip_tail_length in Hk. rewrite zip_tail_snd in Ht.
  rewrite !fmap_cons, !fmap_app, Hk, Ht. simpl. split_and!; [done..|].
  constructor; [done|]. apply Forall_app. split; [done|]. by repeat constructor.
Qed.

(** The route starts at the start. *)
Lemma route_around_head target obstacles waypoints cursor aware r w :
  route_around self target obstacles waypoints cursor aware = Ret r ->
  head waypoints = Some w -> head r.1 = Some w.
Proof.
  revert waypoints cursor aware. induction obstacles as [|o obstacles IH]; intros waypoints cursor aware.
  - intros [= <-]. done.
  - simpl. destruct (negb _); [by apply IH|]. destruct (detour self cursor target o) as [sel|]; [|done].
    simpl. intros Hr Hw. eapply IH; [exact Hr|]. by destruct waypoints.
Qed.

Lemma compacted_cons w l : compacted (w :: l) = w :: drop_repeats w l.
Proof. done. Qed.
End planner_lemmas.

(** ** Properties *)

(** A zone plan that the planner returns starts over its start point at the
    flight height, has no waypoint inside any of the obstacles, and its actions
    are exactly a takeoff at the first waypoint, a move to each further waypoint
    in order, a hold at the target and a landing, each with a positive
    duration. *)
Theorem plan_visits_free_waypoints `{Libm} `{Digest} self task zone start_m obstacles h p :
  plan self task zone start_m obstacles h = Ret p ->
  let target := plan_target zone h in
  let start := with_z start_m (v_z target) in
  DeploymentTaskDefinition.zone_id task = ZoneDefinition.zone_id zone /\
  (forall w o, w ∈ ZoneTaskPlan.waypoints_m p -> o ∈ obstacles -> inside o w = false) /\
  exists further, ZoneTaskPlan.waypoints_m p = start :: further /\
    ZoneAction.kind <$> ZoneTaskPlan.actions p
      = ZoneActionKind.TAKEOFF :: replicate (length further) ZoneActionKind.MOVE_TO
        ++ [ZoneActionKind.HOLD; ZoneActionKind.LAND] /\
    ZoneAction.target_m <$> ZoneTaskPlan.actions p
      = Some start :: (Some <$> further) ++ [Some target; None] /\
    Forall (fun a => gt0 (ZoneAction.duration_s a) = true) (ZoneTaskPlan.actions p).
Proof.
  unfold plan. cbv zeta. destruct (String.eqb_spec (DeploymentTaskDefinition.zone_id task)
    (ZoneDefinition.zone_id zone)) as [Hz|]; [|done]. cbn [negb].
  set (target := plan_target zone h). set (start := with_z start_m (v_z target)).
  destruct (route_around _ _ _ _ _ _) as [r|] eqn:Hr; [|done]. cbn [mbind outcome_bind].
  destruct (existsb _ _) eqn:He; [done|].
  pose proof (route_around_head self target _ [start] start false r start Hr eq_refl) as Hh.
  destruct r as [[|w l] aware]; [done|]. simpl in Hh. simplify_eq. cbn [fst snd] in *.
  change ((start :: l) ++ [target]) with (start :: (l ++ [target])) in *.
  rewrite compacted_cons in *. set (further := drop_repeats start (l ++ [target])) in *.
  destruct (path_length _) as [len|]; [|done]. cbn [mbind outcome_bind].
  destruct (py_div _ _) as [transit|]; [|done]. cbn [mbind outcome_bind].
  destruct (route_actions _ _ _ _) as [acts|] eqn:Ha; [|done]. cbn [mbind outcome_bind].
  destruct (ZoneTaskPlan_valid _); [|done]. intros [= <-]. split_and!; [done| |].
  - intros w o Hw Ho. simpl in Hw. pose proof (existsb_false _ _ w He Hw) as Hx.
    by apply (existsb_false _ _ o Hx).
  - exists further. split; [done|]. by eapply (route_actions_Ret self).
Qed.

Module Examples.
Definition zone : ZoneDefinition.t := {|
  ZoneDefinition.zone_id := "east";
  ZoneDefinition.geometry := {|
    ZoneGeometry.minimum_m := mkVector3 (float_of_Z 3) (float_of_Z (-1)) f0;
    ZoneGeometry.maximum_m := mkVector3 (float_of_Z 5) f1 f0 |} |}.

Definition task : DeploymentTaskDefinition.t := {|
  DeploymentTaskDefinition.task_id := "inspect-east";
  DeploymentTaskDefinition.task_type := "inspect";
  DeploymentTaskDefinition.zone_id := "east";
  DeploymentTaskDefinition.priority := 1;
  DeploymentTaskDefinition.mission_id := "inspect";
  DeploymentTaskDefinition.mission_parameters := JNull;
  DeploymentTaskDefinition.required_capabilities := ∅;
  DeploymentTaskDefinition.completion_progress_percent := f100;
  DeploymentTaskDefinition.estimated_duration_s := float_of_Z 30;
  DeploymentTaskDefinition.estimated_energy_percent := float_of_Z 10;
  DeploymentTaskDefinition.energy_margin_percent := float_of_Z 10;
|}.

Definition box (name : string) (x0 x1 y0 y1 : float) : ZoneObstacle.t :=
  ZoneObstacle.mk name (mkVector3 x0 y0 f0) (mkVector3 x1 y1 f1).

(** A wall across the straight way, and a pillar just south of the way. *)
Definition wall := box "wall" f1 (float_of_Z 2) (flit (-5) 10) (flit 5 10).
Definition pillar := box "pillar" (flit 25 10) (float_of_Z 3) (flit (-9) 10) (flit (-6) 10).

Definition planner : ZoneTaskPlanner.t :=
  ZoneTaskPlanner.mk (flit 4 10) (flit 2 10) f1.

Definition detoured : outcome ZoneTaskPlan.t :=
  @plan example_libm example_digest planner task zone Vector3_zero [wall; pillar] (flit 3 10).

Lemma plan_witness :
  exists p, detoured = Ret p /\
    forall w o, w ∈ ZoneTaskPlan.waypoints_m p -> o ∈ [wall; pillar] -> inside o w = false.
Proof.
  assert (H : exists p, detoured = Ret p) by (eexists; vm_compute; reflexivity).
  destruct H as [p Hp]. exists p. split; [exact Hp|].
  apply (@plan_visits_free_waypoints example_libm example_digest planner task zone Vector3_zero
           [wall; pillar] (flit 3 10) p Hp).
Defined.

(** Only waypoints are checked in the end, not the legs between them: the detour
    south of the wall goes straight through the pillar, by the planner's own
    test, and the plan is returned. *)
Theorem detour_crosses_pillar :
  exists p a b, detoured = Ret p /\
    ZoneTaskPlan.waypoints_m p !! 1%nat = Some a /\ ZoneTaskPlan.waypoints_m p !! 2%nat = Some b /\
    segment_intersects_box_xy a b pillar (v_z a) = true.
Proof.
  assert (H : match detoured with
    | Ret p => match ZoneTaskPlan.waypoints_m p !! 1%nat, ZoneTaskPlan.waypoints_m p !! 2%nat with
               | Some a, Some b => segment_intersects_box_xy a b pillar (v_z a) = true
               | _, _ => False
               end
    | Raise _ => False
    end) by (vm_compute; reflexivity).
  destruct detoured as [p|]; [|done].
  destruct (ZoneTaskPlan.waypoints_m p !! 1%nat) as [a|] eqn:Ha; [|done].
  destruct (ZoneTaskPlan.waypoints_m p !! 2%nat) as [b|] eqn:Hb; [|done].
  by exists p, a, b.
Qed.
End Examples.
