(* ===== verification/Safety.v ===== *)
(** * Safety envelope ([safety/state_machine.py], [safety/policy.py],
    [safety/models.py])

    The vehicle state machine with its table of permitted transitions, the
    safety policy with the override that may only tighten it, and the records
    of preflight, health, events and leases that the supervisor keeps. *)

From S2P Require Import Prelude Float64 Effects Contracts.

(** ** The vehicle state machine ([safety/state_machine.py]) *)

Definition ALLOWED_TRANSITIONS (s : VehicleState.t) : list VehicleState.t :=
  match s with
  | VehicleState.DISCONNECTED => [VehicleState.CONNECTING]
  | VehicleState.CONNECTING =>
      [VehicleState.READY; VehicleState.DISCONNECTED; VehicleState.FAULT]
  | VehicleState.READY =>
      [VehicleState.ARMING; VehicleState.TAKING_OFF; VehicleState.DISCONNECTED;
       VehicleState.FAULT; VehicleState.EMERGENCY]
  | VehicleState.ARMING => [VehicleState.READY; VehicleState.FAULT; VehicleState.EMERGENCY]
  | VehicleState.TAKING_OFF =>
      [VehicleState.FLYING; VehicleState.LANDING; VehicleState.ABORTING;
       VehicleState.FAULT; VehicleState.EMERGENCY]
  | VehicleState.FLYING =>
      [VehicleState.RETURNING; VehicleState.LANDING; VehicleState.ABORTING;
       VehicleState.FAULT; VehicleState.EMERGENCY]
  | VehicleState.RETURNING =>
      [VehicleState.FLYING; VehicleState.LANDING; VehicleState.ABORTING;
       VehicleState.FAULT; VehicleState.EMERGENCY]
  | VehicleState.LANDING => [VehicleState.READY; VehicleState.FAULT; VehicleState.EMERGENCY]
  | VehicleState.ABORTING =>
      [VehicleState.LANDING; VehicleState.READY; VehicleState.FAULT; VehicleState.EMERGENCY]
  | VehicleState.FAULT =>
      [VehicleState.READY; VehicleState.DISCONNECTED; VehicleState.EMERGENCY]
  | VehicleState.EMERGENCY => [VehicleState.DISCONNECTED]
  end.

Definition can_transition (current target : VehicleState.t) : bool :=
  (current ≟ target) || (target ∈? ALLOWED_TRANSITIONS current).

Definition require_transition (current target : VehicleState.t) : outcome unit :=
  if can_transition current target then Ret tt
  else Err INVALID_STATE
         ("transition " +:+ VehicleState_value current +:+ " -> "
          +:+ VehicleState_value target +:+ " is not permitted").

(** [session.state in {TAKING_OFF, FLYING, RETURNING}], the states in which the
    supervisor has to bring the vehicle down. *)
Definition airborne (s : VehicleState.t) : bool :=
  match s with
  | VehicleState.TAKING_OFF | VehicleState.FLYING | VehicleState.RETURNING => true
  | _ => false
  end.

(** [session.state in {DISCONNECTED, FAULT, EMERGENCY}] *)
Definition terminal (s : VehicleState.t) : bool :=
  match s with
  | VehicleState.DISCONNECTED | VehicleState.FAULT | VehicleState.EMERGENCY => true
  | _ => false
  end.

(** ** The policy ([safety/policy.py]) *)

Module FlightVolume.
Record t := mk { minimum_m : Vector3; maximum_m : Vector3 }.
End FlightVolume.

Definition FlightVolume_valid (v : FlightVolume.t) : bool :=
  fltb (v_x (FlightVolume.minimum_m v)) (v_x (FlightVolume.maximum_m v))
  && fltb (v_y (FlightVolume.minimum_m v)) (v_y (FlightVolume.maximum_m v))
  && fltb (v_z (FlightVolume.minimum_m v)) (v_z (FlightVolume.maximum_m v)).

Definition FlightVolume_default : FlightVolume.t := {|
  FlightVolume.minimum_m := mkVector3 (float_of_Z (-2)) (float_of_Z (-2)) f0;
  FlightVolume.maximum_m := mkVector3 (float_of_Z 2) (float_of_Z 2) f1;
|}.

(** [lo <= x <= hi] *)
Definition in_range (lo x hi : float) : bool := fleb lo x && fleb x hi.

Definition contains (v : FlightVolume.t) (point : Vector3) : bool :=
  in_range (v_x (FlightVolume.minimum_m v)) (v_x point) (v_x (FlightVolume.maximum_m v))
  && in_range (v_y (FlightVolume.minimum_m v)) (v_y point) (v_y (FlightVolume.maximum_m v))
  && in_range (v_z (FlightVolume.minimum_m v)) (v_z point) (v_z (FlightVolume.maximum_m v)).

Module SafetyPolicyOverride.
Record t := mk {
  max_altitude_m : option float;
  max_horizontal_speed_m_s : option float;
  max_vertical_speed_m_s : option float;
  max_acceleration_m_s2 : option float;
  max_yaw_rate_rad_s : option float;
  max_mission_duration_s : option float;
  command_timeout_s : option float;
  telemetry_timeout_s : option float;
  health_watchdog_period_s : option float;
  control_lease_timeout_s : option float;
  preflight_valid_s : option float;
  minimum_takeoff_battery_percent : option float;
  critical_battery_percent : option float;
  minimum_link_quality_percent : option float;
  minimum_localization_quality_percent : option float;
  flight_volume : option FlightVolume.t;
}.
End SafetyPolicyOverride.

Module SafetyPolicy.
Record t := mk {
  max_altitude_m : float;
  max_horizontal_speed_m_s : float;
  max_vertical_speed_m_s : float;
  max_acceleration_m_s2 : float;
  max_yaw_rate_rad_s : float;
  max_mission_duration_s : float;
  command_timeout_s : float;
  telemetry_timeout_s : float;
  health_watchdog_period_s : float;
  control_lease_timeout_s : float;
  preflight_valid_s : float;
  minimum_takeoff_battery_percent : float;
  critical_battery_percent : float;
  minimum_link_quality_percent : float;
  minimum_localization_quality_percent : float;
  flight_volume : FlightVolume.t;
}.
End SafetyPolicy.

(** [SafetyPolicy()] *)
Definition SafetyPolicy_default : SafetyPolicy.t := {|
  SafetyPolicy.max_altitude_m := f1;
  SafetyPolicy.max_horizontal_speed_m_s := flit 5 10;
  SafetyPolicy.max_vertical_speed_m_s := flit 3 10;
  SafetyPolicy.max_acceleration_m_s2 := f1;
  SafetyPolicy.max_yaw_rate_rad_s := flit 15707963268 10000000000;
  SafetyPolicy.max_mission_duration_s := float_of_Z 300;
  SafetyPolicy.command_timeout_s := float_of_Z 10;
  SafetyPolicy.telemetry_timeout_s := f1;
  SafetyPolicy.health_watchdog_period_s := flit 2 100;
  SafetyPolicy.control_lease_timeout_s := float_of_Z 2;
  SafetyPolicy.preflight_valid_s := float_of_Z 30;
  SafetyPolicy.minimum_takeoff_battery_percent := float_of_Z 30;
  SafetyPolicy.critical_battery_percent := float_of_Z 10;
  SafetyPolicy.minimum_link_quality_percent := float_of_Z 70;
  SafetyPolicy.minimum_localization_quality_percent := float_of_Z 60;
  SafetyPolicy.flight_volume := FlightVolume_default;
|}.

(** [maximum_fields]: the limits an override may only lower. *)
Definition maximum_fields :
    list (string * (SafetyPolicyOverride.t -> option float) * (SafetyPolicy.t -> float)) :=
  [("max_altitude_m", SafetyPolicyOverride.max_altitude_m, SafetyPolicy.max_altitude_m);
   ("max_horizontal_speed_m_s", SafetyPolicyOverride.max_horizontal_speed_m_s,
    SafetyPolicy.max_horizontal_speed_m_s);
   ("max_vertical_speed_m_s", SafetyPolicyOverride.max_vertical_speed_m_s,
    SafetyPolicy.max_vertical_speed_m_s);
   ("max_acceleration_m_s2", SafetyPolicyOverride.max_acceleration_m_s2,
    SafetyPolicy.max_acceleration_m_s2);
   ("max_yaw_rate_rad_s", SafetyPolicyOverride.max_yaw_rate_rad_s,
    SafetyPolicy.max_yaw_rate_rad_s);
   ("max_mission_duration_s", SafetyPolicyOverride.max_mission_duration_s,
    SafetyPolicy.max_mission_duration_s);
   ("command_timeout_s", SafetyPolicyOverride.command_timeout_s, SafetyPolicy.command_timeout_s);
   ("telemetry_timeout_s", SafetyPolicyOverride.telemetry_timeout_s,
    SafetyPolicy.telemetry_timeout_s);
   ("health_watchdog_period_s", SafetyPolicyOverride.health_watchdog_period_s,
    SafetyPolicy.health_watchdog_period_s);
   ("control_lease_timeout_s", SafetyPolicyOverride.control_lease_timeout_s,
    SafetyPolicy.control_lease_timeout_s);
   ("preflight_valid_s", SafetyPolicyOverride.preflight_valid_s, SafetyPolicy.preflight_valid_s)].

(** [minimum_fields]: the thresholds an override may only raise. *)
Definition minimum_fields :
    list (string * (SafetyPolicyOverride.t -> option float) * (SafetyPolicy.t -> float)) :=
  [("minimum_takeoff_battery_percent", SafetyPolicyOverride.minimum_takeoff_battery_percent,
    SafetyPolicy.minimum_takeoff_battery_percent);
   ("critical_battery_percent", SafetyPolicyOverride.critical_battery_percent,
    SafetyPolicy.critical_battery_percent);
   ("minimum_link_quality_percent", SafetyPolicyOverride.minimum_link_quality_percent,
    SafetyPolicy.minimum_link_quality_percent);
   ("minimum_localization_quality_percent",
    SafetyPolicyOverride.minimum_localization_quality_percent,
    SafetyPolicy.minimum_localization_quality_percent)].

(** The constraints of the fields of an override. *)
Definition SafetyPolicyOverride_valid (o : SafetyPolicyOverride.t) : bool :=
  forallb (fun f => opt_ok gt0 (f.1.2 o)) maximum_fields
  && forallb (fun f => opt_ok is_percentage (f.1.2 o)) minimum_fields
  && opt_ok FlightVolume_valid (SafetyPolicyOverride.flight_volume o).

(** The constraints of the fields and [thresholds_are_consistent]. *)
Definition SafetyPolicy_valid (p : SafetyPolicy.t) : bool :=
  forallb (fun f => gt0 (f.2 p)) maximum_fields
  && fleb (SafetyPolicy.health_watchdog_period_s p) f1
  && forallb (fun f => is_percentage (f.2 p)) minimum_fields
  && FlightVolume_valid (SafetyPolicy.flight_volume p)
  && negb (fleb (SafetyPolicy.minimum_takeoff_battery_percent p)
                (SafetyPolicy.critical_battery_percent p))
  && negb (fltb (SafetyPolicy.max_altitude_m p)
                (v_z (FlightVolume.maximum_m (SafetyPolicy.flight_volume p)))).

Definition contains_volume (p : SafetyPolicy.t) (candidate : FlightVolume.t) : bool :=
  contains (SafetyPolicy.flight_volume p) (FlightVolume.minimum_m candidate)
  && contains (SafetyPolicy.flight_volume p) (FlightVolume.maximum_m candidate).

(** [values = self.model_dump(); values.update(updates)] *)
Definition updated (p : SafetyPolicy.t) (o : SafetyPolicyOverride.t) : SafetyPolicy.t := {|
  SafetyPolicy.max_altitude_m :=
    default (SafetyPolicy.max_altitude_m p) (SafetyPolicyOverride.max_altitude_m o);
  SafetyPolicy.max_horizontal_speed_m_s :=
    default (SafetyPolicy.max_horizontal_speed_m_s p)
      (SafetyPolicyOverride.max_horizontal_speed_m_s o);
  SafetyPolicy.max_vertical_speed_m_s :=
    default (SafetyPolicy.max_vertical_speed_m_s p)
      (SafetyPolicyOverride.max_vertical_speed_m_s o);
  SafetyPolicy.max_acceleration_m_s2 :=
    default (SafetyPolicy.max_acceleration_m_s2 p) (SafetyPolicyOverride.max_acceleration_m_s2 o);
  SafetyPolicy.max_yaw_rate_rad_s :=
    default (SafetyPolicy.max_yaw_rate_rad_s p) (SafetyPolicyOverride.max_yaw_rate_rad_s o);
  SafetyPolicy.max_mission_duration_s :=
    default (SafetyPolicy.max_mission_duration_s p)
      (SafetyPolicyOverride.max_mission_duration_s o);
  SafetyPolicy.command_timeout_s :=
    default (SafetyPolicy.command_timeout_s p) (SafetyPolicyOverride.command_timeout_s o);
  SafetyPolicy.telemetry_timeout_s :=
    default (SafetyPolicy.telemetry_timeout_s p) (SafetyPolicyOverride.telemetry_timeout_s o);
  SafetyPolicy.health_watchdog_period_s :=
    default (SafetyPolicy.health_watchdog_period_s p)
      (SafetyPolicyOverride.health_watchdog_period_s o);
  SafetyPolicy.control_lease_timeout_s :=
    default (SafetyPolicy.control_lease_timeout_s p)
      (SafetyPolicyOverride.control_lease_timeout_s o);
  SafetyPolicy.preflight_valid_s :=
    default (SafetyPolicy.preflight_valid_s p) (SafetyPolicyOverride.preflight_valid_s o);
  SafetyPolicy.minimum_takeoff_battery_percent :=
    default (SafetyPolicy.minimum_takeoff_battery_percent p)
      (SafetyPolicyOverride.minimum_takeoff_battery_percent o);
  SafetyPolicy.critical_battery_percent :=
    default (SafetyPolicy.critical_battery_percent p)
      (SafetyPolicyOverride.critical_battery_percent o);
  SafetyPolicy.minimum_link_quality_percent :=
    default (SafetyPolicy.minimum_link_quality_percent p)
      (SafetyPolicyOverride.minimum_link_quality_percent o);
  SafetyPolicy.minimum_localization_quality_percent :=
    default (SafetyPolicy.minimum_localization_quality_percent p)
      (SafetyPolicyOverride.minimum_localization_quality_percent o);
  SafetyPolicy.flight_volume :=
    default (SafetyPolicy.flight_volume p) (SafetyPolicyOverride.flight_volume o);
|}.

(** [value is not None and relaxes(value, getattr(self, name))] of the two
    loops.  Python visits the names of the set in an unspecified order, which
    decides only which name the message has. *)
Definition relaxes (lt : float -> float -> bool) (p : SafetyPolicy.t) (o : SafetyPolicyOverride.t)
    (f : string * (SafetyPolicyOverride.t -> option float) * (SafetyPolicy.t -> float)) : bool :=
  match f.1.2 o with Some value => lt value (f.2 p) | None => false end.

Definition fgtb (x y : float) : bool := fltb y x.

Definition relax_error (name : string) : exn :=
  ValueError (name +:+ " override would relax the safety envelope").

Definition tighten (p : SafetyPolicy.t) (o : SafetyPolicyOverride.t) : outcome SafetyPolicy.t :=
  match find_first (relaxes fgtb p o) maximum_fields with
  | Some f => Raise (relax_error f.1.1)
  | None =>
      match find_first (relaxes fltb p o) minimum_fields with
      | Some f => Raise (relax_error f.1.1)
      | None =>
          if opt_ok (contains_volume p) (SafetyPolicyOverride.flight_volume o)
          then
            let values := updated p o in
            if SafetyPolicy_valid values then Ret values
            else Raise (ValidationError "SafetyPolicy")
          else Raise (relax_error "flight_volume")
      end
  end.

(** ** Records ([safety/models.py]) *)

(** The [observed] and [required] fields are display values. *)
Module PreflightCheck.
Record t := mk { code : string; passed : bool; message : string }.
End PreflightCheck.

Module PreflightReport.
Record t := mk {
  report_id : string;
  vehicle_id : string;
  mode : OperatingMode.t;
  operator_id : string;
  created_at_monotonic_s : float;
  expires_at_monotonic_s : float;
  approved : bool;
  checks : list PreflightCheck.t;
}.
End PreflightReport.

Definition PreflightReport_valid (r : PreflightReport.t) : bool :=
  is_identifier (PreflightReport.report_id r) && is_identifier (PreflightReport.vehicle_id r)
  && is_identifier (PreflightReport.operator_id r)
  && ge0 (PreflightReport.created_at_monotonic_s r)
  && ge0 (PreflightReport.expires_at_monotonic_s r).

Module RecoveryAction.
Inductive t := NONE | REJECT_NEW_COMMANDS | ABORT_AND_LAND | EMERGENCY_STOP.
End RecoveryAction.
#[export] Instance RecoveryAction_eq_dec : EqDecision RecoveryAction.t.
Proof. solve_decision. Defined.

Module HealthIssue.
Record t := mk { code : string; message : string; action : RecoveryAction.t }.
End HealthIssue.

Module HealthAssessment.
Record t := mk {
  vehicle_id : string;
  healthy : bool;
  action : RecoveryAction.t;
  issues : list HealthIssue.t;
}.
End HealthAssessment.

Module SafetyEvent.
Record t := mk {
  sequence : Z;
  timestamp_monotonic_s : float;
  vehicle_id : string;
  event_type : string;
  source : CommandSource.t;
  message : string;
  from_state : option VehicleState.t;
  to_state : option VehicleState.t;
  command_id : option string;
}.
End SafetyEvent.

Definition SafetyEvent_valid (e : SafetyEvent.t) : bool :=
  (0 <=? SafetyEvent.sequence e) && ge0 (SafetyEvent.timestamp_monotonic_s e)
  && is_identifier (SafetyEvent.vehicle_id e)
  && opt_ok is_identifier (SafetyEvent.command_id e).

Module ControlLease.
Record t := mk { owner_id : string; expires_at_monotonic_s : float }.
End ControlLease.

Definition ControlLease_valid (l : ControlLease.t) : bool :=
  is_identifier (ControlLease.owner_id l) && ge0 (ControlLease.expires_at_monotonic_s l).

Module LiveModeAuthorization.
Record t := mk {
  vehicle_id : string;
  operator_id : string;
  mode : OperatingMode.t;
  confirmed : bool;
  authorized_at_monotonic_s : float;
}.
End LiveModeAuthorization.

(** ** Lemmas *)

Lemma can_transition_spec current target :
  can_transition current target = true <->
  current = target \/ target ∈ ALLOWED_TRANSITIONS current.
Proof. unfold can_transition. by rewrite orb_true_iff, !bool_decide_eq_true. Qed.

Lemma require_transition_spec current target :
  (can_transition current target = true /\ require_transition current target = Ret tt) \/
  (can_transition current target = false /\
   exists msg, require_transition current target = Err INVALID_STATE msg).
Proof. unfold require_transition. destruct (can_transition current target); eauto. Qed.

(** A path of the state machine. *)
Inductive path : VehicleState.t -> list VehicleState.t -> VehicleState.t -> Prop :=
| path_end s : path s [] s
| path_step s s' l t : can_transition s s' = true -> path s' l t -> path s (s' :: l) t.

(** The only edge of the table that leads up from the ground. *)
Lemma airborne_entry s t :
  can_transition s t = true -> airborne s = false -> airborne t = true ->
  s = VehicleState.READY /\ t = VehicleState.TAKING_OFF.
Proof. by destruct s, t. Qed.

Lemma contains_spec v p :
  contains v p = true <->
  (fleb (v_x (FlightVolume.minimum_m v)) (v_x p) = true /\
   fleb (v_x p) (v_x (FlightVolume.maximum_m v)) = true) /\
  (fleb (v_y (FlightVolume.minimum_m v)) (v_y p) = true /\
   fleb (v_y p) (v_y (FlightVolume.maximum_m v)) = true) /\
  (fleb (v_z (FlightVolume.minimum_m v)) (v_z p) = true /\
   fleb (v_z p) (v_z (FlightVolume.maximum_m v)) = true).
Proof. unfold contains, in_range. rewrite !andb_true_iff. tauto. Qed.

(** A box is convex: between two contained corners lies nothing else. *)
Lemma contains_between v lo hi p :
  contains v lo = true -> contains v hi = true ->
  contains (FlightVolume.mk lo hi) p = true -> contains v p = true.
Proof. rewrite !contains_spec. simpl. intuition eauto using fleb_trans. Qed.

(** One field of an override that passed its loop. *)
Lemma tightened_max p o f :
  f ∈ maximum_fields -> find_first (relaxes fgtb p o) maximum_fields = None ->
  SafetyPolicyOverride_valid o = true -> SafetyPolicy_valid p = true ->
  fleb (default (f.2 p) (f.1.2 o)) (f.2 p) = true.
Proof.
  intros Hf Hnone Ho Hp. rewrite find_first_None, Forall_forall in Hnone.
  specialize (Hnone _ Hf). unfold relaxes, fgtb in Hnone.
  unfold SafetyPolicyOverride_valid, SafetyPolicy_valid in *. bool_to_prop.
  assert (Hpf : gt0 (f.2 p) = true).
  { match goal with H : forallb (fun f => gt0 _) _ = true |- _ => rewrite forallb_forall in H; apply (H f) end.
    by apply list_elem_of_In. }
  assert (Hof : opt_ok gt0 (f.1.2 o) = true).
  { match goal with H : forallb (fun f => opt_ok gt0 _) _ = true |- _ => rewrite forallb_forall in H; apply (H f) end.
    by apply list_elem_of_In. }
  unfold gt0 in *. apply fltb_not_nan in Hpf as [_ Hpf].
  destruct (f.1.2 o) as [v|]; simpl in *; [|by apply fleb_refl].
  apply fltb_not_nan in Hof as [_ Hof]. by apply fltb_false.
Qed.

Lemma tightened_min p o f :
  f ∈ minimum_fields -> find_first (relaxes fltb p o) minimum_fields = None ->
  SafetyPolicyOverride_valid o = true -> SafetyPolicy_valid p = true ->
  fleb (f.2 p) (default (f.2 p) (f.1.2 o)) = true.
Proof.
  intros Hf Hnone Ho Hp. rewrite find_first_None, Forall_forall in Hnone.
  specialize (Hnone _ Hf). unfold relaxes in Hnone.
  unfold SafetyPolicyOverride_valid, SafetyPolicy_valid in *. bool_to_prop.
  assert (Hpf : is_percentage (f.2 p) = true).
  { match goal with H : forallb (fun f => is_percentage _) _ = true |- _ => rewrite forallb_forall in H; apply (H f) end.
    by apply list_elem_of_In. }
  assert (Hof : opt_ok is_percentage (f.1.2 o) = true).
  { match goal with H : forallb (fun f => opt_ok is_percentage _) _ = true |- _ => rewrite forallb_forall in H; apply (H f) end.
    by apply list_elem_of_In. }
  apply is_percentage_not_nan in Hpf.
  destruct (f.1.2 o) as [v|]; simpl in *; [|by apply fleb_refl].
  apply is_percentage_not_nan in Hof. by apply fltb_false.
Qed.

Lemma tighten_Ret p o q :
  tighten p o = Ret q ->
  find_first (relaxes fgtb p o) maximum_fields = None /\
  find_first (relaxes fltb p o) minimum_fields = None /\
  opt_ok (contains_volume p) (SafetyPolicyOverride.flight_volume o) = true /\
  q = updated p o /\ SafetyPolicy_valid q = true.
Proof.
  unfold tighten.
  destruct (find_first (relaxes fgtb p o) maximum_fields) eqn:?; [done|].
  destruct (find_first (relaxes fltb p o) minimum_fields) eqn:?; [done|].
  destruct (opt_ok (contains_volume p) _) eqn:?; [|done]. cbv zeta.
  destruct (SafetyPolicy_valid (updated p o)) eqn:?; [|done]. by intros [= <-].
Qed.

(** ** Properties *)

(** On every path of the vehicle state machine that starts on the ground
    and ends in an airborne state (TAKING_OFF, FLYING, RETURNING), some step
    goes from READY to TAKING_OFF: no fault, emergency, landing or abort leads
    back into the air without passing READY and a takeoff. *)
Theorem only_takeoff_leads_up s l t :
  path s l t -> airborne s = false -> airborne t = true ->
  exists l1 l2, s :: l = l1 ++ VehicleState.READY :: VehicleState.TAKING_OFF :: l2.
Proof.
  induction 1 as [s|s s' l t Hst Hp IH]; intros Hs Ht; [congruence|].
  destruct (airborne s') eqn:Hs'.
  - destruct (airborne_entry _ _ Hst Hs Hs') as [-> ->]. by exists [], l.
  - destruct (IH eq_refl Ht) as (l1 & l2 & E). exists (s :: l1), l2. simpl. by rewrite E.
Qed.

(** A vehicle in EMERGENCY leaves it only through DISCONNECTED: on every
    path from EMERGENCY to another state, DISCONNECTED is the first state that
    differs from EMERGENCY. *)
Theorem emergency_latches l t :
  path VehicleState.EMERGENCY l t -> t <> VehicleState.EMERGENCY ->
  exists k l', l = replicate k VehicleState.EMERGENCY ++ VehicleState.DISCONNECTED :: l'
               /\ path VehicleState.DISCONNECTED l' t.
Proof.
  remember VehicleState.EMERGENCY as s eqn:Es. intros Hp Ht. revert Es Ht.
  induction Hp as [s|s s' l t Hst Hp IH]; intros -> Ht; [done|].
  apply can_transition_spec in Hst as [<-| ->%list_elem_of_singleton].
  - destruct (IH eq_refl Ht) as (k & l' & -> & ?). by exists (S k), l'.
  - by exists 0%nat, l.
Qed.

(** C39: [SafetyPolicy.tighten] never relaxes the safety envelope: whatever
    override it accepts, every limit of the new policy (altitude, speeds,
    acceleration, yaw rate, mission duration, timeouts, watchdog period, lease
    and preflight lifetimes) is at most the old one, every threshold (batteries,
    link and localization quality) at least the old one, every point of the
    new flight volume is in the old one, and the new policy satisfies the
    constraints of a policy. *)
Theorem tighten_never_relaxes p o q :
  SafetyPolicy_valid p = true -> SafetyPolicyOverride_valid o = true -> tighten p o = Ret q ->
  Forall (fun f => fleb (f.2 q) (f.2 p) = true) maximum_fields /\
  Forall (fun f => fleb (f.2 p) (f.2 q) = true) minimum_fields /\
  (forall pt, contains (SafetyPolicy.flight_volume q) pt = true ->
              contains (SafetyPolicy.flight_volume p) pt = true) /\
  SafetyPolicy_valid q = true.
Proof.
  intros Hp Ho (Hmax & Hmin & Hvol & -> & Hq)%tighten_Ret.
  assert (Hm : Forall (fun f => f.2 (updated p o) = default (f.2 p) (f.1.2 o))
                 (maximum_fields ++ minimum_fields)) by repeat constructor.
  apply Forall_app in Hm as [Hm1 Hm2]. rewrite Forall_forall in Hm1, Hm2. split_and!.
  - apply Forall_forall. intros f Hf. rewrite (Hm1 f Hf). by apply tightened_max.
  - apply Forall_forall. intros f Hf. rewrite (Hm2 f Hf). by apply tightened_min.
  - intros pt. simpl. destruct (SafetyPolicyOverride.flight_volume o) as [[lo hi]|]; simpl; [|done].
    apply andb_true_iff in Hvol as [Hlo Hhi]. by apply contains_between.
  - done.
Qed.

Module Examples.
Definition no_override : SafetyPolicyOverride.t :=
  SafetyPolicyOverride.mk None None None None None None None None None None None None None None
    None None.

(** An override that halves the altitude and shrinks the volume accordingly. *)
Definition low_flight : SafetyPolicyOverride.t :=
  SafetyPolicyOverride.mk (Some (flit 5 10)) None None None None None None None None None None
    (Some (float_of_Z 40)) None None None
    (Some (FlightVolume.mk (mkVector3 (float_of_Z (-1)) (float_of_Z (-1)) f0)
                           (mkVector3 f1 f1 (flit 4 10)))).

Example default_policy_valid : SafetyPolicy_valid SafetyPolicy_default = true.
Proof. vm_compute. reflexivity. Qed.

Example relaxing_is_refused :
  tighten SafetyPolicy_default
    (SafetyPolicyOverride.mk (Some (float_of_Z 2)) None None None None None None None None None
       None None None None None None)
  = Raise (ValueError "max_altitude_m override would relax the safety envelope").
Proof. vm_compute. reflexivity. Qed.

Lemma only_takeoff_witness :
  exists l1 l2,
    [VehicleState.FAULT; VehicleState.READY; VehicleState.TAKING_OFF; VehicleState.FLYING]
    = l1 ++ VehicleState.READY :: VehicleState.TAKING_OFF :: l2.
Proof.
  apply (only_takeoff_leads_up VehicleState.FAULT
           [VehicleState.READY; VehicleState.TAKING_OFF; VehicleState.FLYING]
           VehicleState.FLYING);
    [|reflexivity|reflexivity].
  repeat (apply path_step; [reflexivity|]). apply path_end.
Defined.

Lemma emergency_witness :
  exists k l', [VehicleState.DISCONNECTED; VehicleState.CONNECTING]
    = replicate k VehicleState.EMERGENCY ++ VehicleState.DISCONNECTED :: l'
    /\ path VehicleState.DISCONNECTED l' VehicleState.CONNECTING.
Proof.
  apply emergency_latches; [|discriminate].
  repeat (apply path_step; [reflexivity|]). apply path_end.
Defined.

Lemma tighten_witness :
  exists q, tighten SafetyPolicy_default low_flight = Ret q /\
  Forall (fun f => fleb (f.2 q) (f.2 SafetyPolicy_default) = true) maximum_fields /\
  Forall (fun f => fleb (f.2 SafetyPolicy_default) (f.2 q) = true) minimum_fields /\
  (forall pt, contains (SafetyPolicy.flight_volume q) pt = true ->
              contains FlightVolume_default pt = true) /\
  SafetyPolicy_valid q = true.
Proof.
  eexists. split; [reflexivity|].
  apply (tighten_never_relaxes SafetyPolicy_default low_flight);
    [vm_compute; reflexivity|vm_compute; reflexivity|reflexivity].
Defined.
End Examples.
