(* ===== verification/PlanContracts.v ===== *)
(** * Planning contracts ([planning/contracts.py], records of [planning/intent.py])

    The documents that route planners, fleet policies and recovery strategies
    exchange: their fields, the constraints pydantic checks when they are
    constructed, and the canonical documents their digests are taken of.
    [X_dump] is the whole document of a record, [X_json] the document without
    the record's own digest, for the records that carry one. *)

From S2P Require Import Prelude Float64 Effects Contracts Artifacts Safety.

(** ** Documents of sets and lists *)

Definition json_list {A} (f : A -> json) (l : list A) : json := JList (f <$> l).

(** A set of strings is a sorted list. *)
Definition strings_json (s : gset string) : json := JList (JStr <$> py_sorted str_ltb (elements s)).

(** [a.b.c] in decimal without leading zeros *)
Definition is_digit (c : Ascii.ascii) : bool := between 48 57 c.

Definition is_numeral (s : string) : bool :=
  match s with
  | EmptyString => false
  | String c s' => string_forall is_digit s
                   && (negb (Ascii.eqb c (Ascii.ascii_of_N 48)) || String.eqb s' "")
  end.

Fixpoint split_dots (s : string) : list string :=
  match s with
  | EmptyString => [""]
  | String c s' =>
      if Ascii.eqb c (Ascii.ascii_of_N 46) then "" :: split_dots s'
      else match split_dots s' with
           | part :: parts => String c part :: parts
           | [] => [String c ""]
           end
  end.

Definition is_version (s : string) : bool :=
  match split_dots s with
  | [a; b; c] => is_numeral a && is_numeral b && is_numeral c
  | _ => false
  end.

(** [^1\.[0-9]+\.[0-9]+$] *)
Definition is_contract_version (s : string) : bool :=
  match split_dots s with
  | [a; b; c] => String.eqb a "1" && negb (String.eqb b "") && string_forall is_digit b
                 && negb (String.eqb c "") && string_forall is_digit c
  | _ => false
  end.

(** ** Policies as documents ([safety/policy.py]) *)

Definition FlightVolume_dump (r : FlightVolume.t) : json := JObj [
  ("minimum_m", vector_json (FlightVolume.minimum_m r));
  ("maximum_m", vector_json (FlightVolume.maximum_m r))].

Definition SafetyPolicyOverride_dump (r : SafetyPolicyOverride.t) : json := JObj [
  ("max_altitude_m", (json_opt JFloat) (SafetyPolicyOverride.max_altitude_m r));
  ("max_horizontal_speed_m_s", (json_opt JFloat) (SafetyPolicyOverride.max_horizontal_speed_m_s r));
  ("max_vertical_speed_m_s", (json_opt JFloat) (SafetyPolicyOverride.max_vertical_speed_m_s r));
  ("max_acceleration_m_s2", (json_opt JFloat) (SafetyPolicyOverride.max_acceleration_m_s2 r));
  ("max_yaw_rate_rad_s", (json_opt JFloat) (SafetyPolicyOverride.max_yaw_rate_rad_s r));
  ("max_mission_duration_s", (json_opt JFloat) (SafetyPolicyOverride.max_mission_duration_s r));
  ("command_timeout_s", (json_opt JFloat) (SafetyPolicyOverride.command_timeout_s r));
  ("telemetry_timeout_s", (json_opt JFloat) (SafetyPolicyOverride.telemetry_timeout_s r));
  ("health_watchdog_period_s", (json_opt JFloat) (SafetyPolicyOverride.health_watchdog_period_s r));
  ("control_lease_timeout_s", (json_opt JFloat) (SafetyPolicyOverride.control_lease_timeout_s r));
  ("preflight_valid_s", (json_opt JFloat) (SafetyPolicyOverride.preflight_valid_s r));
  ("minimum_takeoff_battery_percent", (json_opt JFloat) (SafetyPolicyOverride.minimum_takeoff_battery_percent r));
  ("critical_battery_percent", (json_opt JFloat) (SafetyPolicyOverride.critical_battery_percent r));
  ("minimum_link_quality_percent", (json_opt JFloat) (SafetyPolicyOverride.minimum_link_quality_percent r));
  ("minimum_localization_quality_percent", (json_opt JFloat) (SafetyPolicyOverride.minimum_localization_quality_percent r));
  ("flight_volume", (json_opt FlightVolume_dump) (SafetyPolicyOverride.flight_volume r))].

Definition SafetyPolicy_dump (r : SafetyPolicy.t) : json := JObj [
  ("max_altitude_m", JFloat (SafetyPolicy.max_altitude_m r));
  ("max_horizontal_speed_m_s", JFloat (SafetyPolicy.max_horizontal_speed_m_s r));
  ("max_vertical_speed_m_s", JFloat (SafetyPolicy.max_vertical_speed_m_s r));
  ("max_acceleration_m_s2", JFloat (SafetyPolicy.max_acceleration_m_s2 r));
  ("max_yaw_rate_rad_s", JFloat (SafetyPolicy.max_yaw_rate_rad_s r));
  ("max_mission_duration_s", JFloat (SafetyPolicy.max_mission_duration_s r));
  ("command_timeout_s", JFloat (SafetyPolicy.command_timeout_s r));
  ("telemetry_timeout_s", JFloat (SafetyPolicy.telemetry_timeout_s r));
  ("health_watchdog_period_s", JFloat (SafetyPolicy.health_watchdog_period_s r));
  ("control_lease_timeout_s", JFloat (SafetyPolicy.control_lease_timeout_s r));
  ("preflight_valid_s", JFloat (SafetyPolicy.preflight_valid_s r));
  ("minimum_takeoff_battery_percent", JFloat (SafetyPolicy.minimum_takeoff_battery_percent r));
  ("critical_battery_percent", JFloat (SafetyPolicy.critical_battery_percent r));
  ("minimum_link_quality_percent", JFloat (SafetyPolicy.minimum_link_quality_percent r));
  ("minimum_localization_quality_percent", JFloat (SafetyPolicy.minimum_localization_quality_percent r));
  ("flight_volume", FlightVolume_dump (SafetyPolicy.flight_volume r))].

(** ** Plug-ins *)

Module PluginKind.
Inductive t := ROUTE_PLANNER | FLEET_POLICY | RECOVERY_STRATEGY.
End PluginKind.
#[export] Instance PluginKind_eq_dec : EqDecision PluginKind.t.
Proof. solve_decision. Defined.
Definition PluginKind_value (v : PluginKind.t) : string :=
  match v with
  | PluginKind.ROUTE_PLANNER => "ROUTE_PLANNER"
  | PluginKind.FLEET_POLICY => "FLEET_POLICY"
  | PluginKind.RECOVERY_STRATEGY => "RECOVERY_STRATEGY"
  end.

Module QualificationState.
Inductive t := QUALIFIED | NOT_QUALIFIED.
End QualificationState.
#[export] Instance QualificationState_eq_dec : EqDecision QualificationState.t.
Proof. solve_decision. Defined.
Definition QualificationState_value (v : QualificationState.t) : string :=
  match v with
  | QualificationState.QUALIFIED => "QUALIFIED"
  | QualificationState.NOT_QUALIFIED => "NOT_QUALIFIED"
  end.

Module PluginManifest.
Record t := mk {
  plugin_id : string;
  kind : PluginKind.t;
  implementation_version : string;
  control_contract_minimum : string;
  control_contract_maximum : string;
  capabilities : gset string;
  required_observations : gset string;
  implementation_sha256 : string;
  qualification : QualificationState.t;
}.
End PluginManifest.

Definition PluginManifest_valid (r : PluginManifest.t) : bool :=
  is_identifier (PluginManifest.plugin_id r)
  && is_version (PluginManifest.implementation_version r)
  && is_contract_version (PluginManifest.control_contract_minimum r)
  && is_contract_version (PluginManifest.control_contract_maximum r)
  && forallb is_identifier (elements (PluginManifest.capabilities r))
  && forallb is_identifier (elements (PluginManifest.required_observations r))
  && is_sha256 (PluginManifest.implementation_sha256 r)
  && negb (bool_decide (PluginManifest.capabilities r = ∅)).

Definition PluginManifest_dump (r : PluginManifest.t) : json := JObj [
  ("schema_version", JInt 1);
  ("plugin_id", JStr (PluginManifest.plugin_id r));
  ("kind", (fun e => JStr (PluginKind_value e)) (PluginManifest.kind r));
  ("implementation_version", JStr (PluginManifest.implementation_version r));
  ("input_schema_version", JInt 1);
  ("output_schema_version", JInt 1);
  ("control_contract_minimum", JStr (PluginManifest.control_contract_minimum r));
  ("control_contract_maximum", JStr (PluginManifest.control_contract_maximum r));
  ("capabilities", strings_json (PluginManifest.capabilities r));
  ("required_observations", strings_json (PluginManifest.required_observations r));
  ("deterministic", JBool true);
  ("bounded", JBool true);
  ("implementation_sha256", JStr (PluginManifest.implementation_sha256 r));
  ("qualification", (fun e => JStr (QualificationState_value e)) (PluginManifest.qualification r))].

Definition PluginManifest_sha256 `{Digest} (r : PluginManifest.t) : string :=
  canonical_sha256 (PluginManifest_dump r).

Module PluginSelection.
Record t := mk {
  plugin_id : string;
  kind : PluginKind.t;
  implementation_version : string;
  capabilities_used : gset string;
  manifest_sha256 : string;
  implementation_sha256 : string;
}.
End PluginSelection.

Definition PluginSelection_valid (r : PluginSelection.t) : bool :=
  is_identifier (PluginSelection.plugin_id r)
  && forallb is_identifier (elements (PluginSelection.capabilities_used r))
  && is_sha256 (PluginSelection.manifest_sha256 r)
  && is_sha256 (PluginSelection.implementation_sha256 r).

Definition PluginSelection_dump (r : PluginSelection.t) : json := JObj [
  ("plugin_id", JStr (PluginSelection.plugin_id r));
  ("kind", (fun e => JStr (PluginKind_value e)) (PluginSelection.kind r));
  ("implementation_version", JStr (PluginSelection.implementation_version r));
  ("capabilities_used", strings_json (PluginSelection.capabilities_used r));
  ("manifest_sha256", JStr (PluginSelection.manifest_sha256 r));
  ("implementation_sha256", JStr (PluginSelection.implementation_sha256 r))].

(** [PluginSelection.from_manifest] *)
Definition from_manifest `{Digest} (manifest : PluginManifest.t) (capabilities_used : gset string) :
    outcome PluginSelection.t :=
  if negb (bool_decide (capabilities_used ⊆ PluginManifest.capabilities manifest))
  then Raise (ValueError "selection requests an undeclared plugin capability")
  else
    let r := PluginSelection.mk (PluginManifest.plugin_id manifest) (PluginManifest.kind manifest)
               (PluginManifest.implementation_version manifest) capabilities_used
               (PluginManifest_sha256 manifest) (PluginManifest.implementation_sha256 manifest) in
    if PluginSelection_valid r then Ret r else Raise (ValidationError "PluginSelection").

(** ** Routes *)

Module RouteCapability.
Inductive t := DIRECT | ZONE | COVERAGE | OBSTACLE_AWARE | TEMPORAL_SEPARATION | DOCK_APPROACH | LEADER_FOLLOWER.
End RouteCapability.
#[export] Instance RouteCapability_eq_dec : EqDecision RouteCapability.t.
Proof. solve_decision. Defined.
Definition RouteCapability_value (v : RouteCapability.t) : string :=
  match v with
  | RouteCapability.DIRECT => "DIRECT"
  | RouteCapability.ZONE => "ZONE"
  | RouteCapability.COVERAGE => "COVERAGE"
  | RouteCapability.OBSTACLE_AWARE => "OBSTACLE_AWARE"
  | RouteCapability.TEMPORAL_SEPARATION => "TEMPORAL_SEPARATION"
  | RouteCapability.DOCK_APPROACH => "DOCK_APPROACH"
  | RouteCapability.LEADER_FOLLOWER => "LEADER_FOLLOWER"
  end.

Module RouteObstacle.
Record t := mk {
  obstacle_id : string;
  minimum_m : Vector3;
  maximum_m : Vector3;
}.
End RouteObstacle.

Definition RouteObstacle_valid (r : RouteObstacle.t) : bool :=
  is_identifier (RouteObstacle.obstacle_id r)
  && fleb (v_x (RouteObstacle.minimum_m r)) (v_x (RouteObstacle.maximum_m r)) && fleb (v_y (RouteObstacle.minimum_m r)) (v_y (RouteObstacle.maximum_m r)) && fleb (v_z (RouteObstacle.minimum_m r)) (v_z (RouteObstacle.maximum_m r)).

Definition RouteObstacle_dump (r : RouteObstacle.t) : json := JObj [
  ("obstacle_id", JStr (RouteObstacle.obstacle_id r));
  ("minimum_m", vector_json (RouteObstacle.minimum_m r));
  ("maximum_m", vector_json (RouteObstacle.maximum_m r))].

Module RouteTarget.
Record t := mk {
  position_m : Vector3;
  hold_s : float;
}.
End RouteTarget.

Definition RouteTarget_valid (r : RouteTarget.t) : bool :=
  ge0 (RouteTarget.hold_s r).

Definition RouteTarget_dump (r : RouteTarget.t) : json := JObj [
  ("position_m", vector_json (RouteTarget.position_m r));
  ("hold_s", JFloat (RouteTarget.hold_s r))].

Module TemporalReservation.
Record t := mk {
  reservation_id : string;
  role_id : string;
  starts_at_s : float;
  ends_at_s : float;
  minimum_m : Vector3;
  maximum_m : Vector3;
}.
End TemporalReservation.

Definition TemporalReservation_valid (r : TemporalReservation.t) : bool :=
  is_identifier (TemporalReservation.reservation_id r)
  && is_identifier (TemporalReservation.role_id r)
  && ge0 (TemporalReservation.starts_at_s r)
  && gt0 (TemporalReservation.ends_at_s r)
  && negb (fleb (TemporalReservation.ends_at_s r) (TemporalReservation.starts_at_s r))
  && fleb (v_x (TemporalReservation.minimum_m r)) (v_x (TemporalReservation.maximum_m r)) && fleb (v_y (TemporalReservation.minimum_m r)) (v_y (TemporalReservation.maximum_m r)) && fleb (v_z (TemporalReservation.minimum_m r)) (v_z (TemporalReservation.maximum_m r)).

Definition TemporalReservation_dump (r : TemporalReservation.t) : json := JObj [
  ("reservation_id", JStr (TemporalReservation.reservation_id r));
  ("role_id", JStr (TemporalReservation.role_id r));
  ("starts_at_s", JFloat (TemporalReservation.starts_at_s r));
  ("ends_at_s", JFloat (TemporalReservation.ends_at_s r));
  ("minimum_m", vector_json (TemporalReservation.minimum_m r));
  ("maximum_m", vector_json (TemporalReservation.maximum_m r))].

Module RoutePlanRequest.
Record t := mk {
  request_id : string;
  role_id : string;
  capability : RouteCapability.t;
  start_m : Vector3;
  targets : list RouteTarget.t;
  zone_minimum_m : option Vector3;
  zone_maximum_m : option Vector3;
  coverage_spacing_m : float;
  flight_volume_minimum_m : Vector3;
  flight_volume_maximum_m : Vector3;
  obstacles : list RouteObstacle.t;
  existing_reservations : list TemporalReservation.t;
  cruise_speed_m_s : float;
  maximum_duration_s : float;
  energy_percent_per_m : float;
  minimum_separation_m : float;
  maximum_hold_s : float;
  supersedes_route_sha256 : option string;
}.
End RoutePlanRequest.

Definition RoutePlanRequest_valid (r : RoutePlanRequest.t) : bool :=
  is_identifier (RoutePlanRequest.request_id r)
  && is_identifier (RoutePlanRequest.role_id r)
  && gt0 (RoutePlanRequest.coverage_spacing_m r)
  && gt0 (RoutePlanRequest.cruise_speed_m_s r)
  && gt0 (RoutePlanRequest.maximum_duration_s r)
  && gt0 (RoutePlanRequest.energy_percent_per_m r)
  && gt0 (RoutePlanRequest.minimum_separation_m r)
  && ge0 (RoutePlanRequest.maximum_hold_s r)
  && opt_ok is_sha256 (RoutePlanRequest.supersedes_route_sha256 r)
  && negb (bool_decide (RoutePlanRequest.targets r = []))
  && Bool.eqb (is_none (RoutePlanRequest.zone_minimum_m r)) (is_none (RoutePlanRequest.zone_maximum_m r))
  && match RoutePlanRequest.zone_minimum_m r, RoutePlanRequest.zone_maximum_m r with
     | Some lo, Some hi => fltb (v_x lo) (v_x hi) && fltb (v_y lo) (v_y hi) && fleb (v_z lo) (v_z hi)
     | _, _ => true
     end
  && fltb (v_x (RoutePlanRequest.flight_volume_minimum_m r)) (v_x (RoutePlanRequest.flight_volume_maximum_m r)) && fltb (v_y (RoutePlanRequest.flight_volume_minimum_m r)) (v_y (RoutePlanRequest.flight_volume_maximum_m r)) && fltb (v_z (RoutePlanRequest.flight_volume_minimum_m r)) (v_z (RoutePlanRequest.flight_volume_maximum_m r)).

Definition RoutePlanRequest_dump (r : RoutePlanRequest.t) : json := JObj [
  ("schema_version", JInt 1);
  ("request_id", JStr (RoutePlanRequest.request_id r));
  ("role_id", JStr (RoutePlanRequest.role_id r));
  ("capability", (fun e => JStr (RouteCapability_value e)) (RoutePlanRequest.capability r));
  ("start_m", vector_json (RoutePlanRequest.start_m r));
  ("targets", (json_list RouteTarget_dump) (RoutePlanRequest.targets r));
  ("zone_minimum_m", (json_opt vector_json) (RoutePlanRequest.zone_minimum_m r));
  ("zone_maximum_m", (json_opt vector_json) (RoutePlanRequest.zone_maximum_m r));
  ("coverage_spacing_m", JFloat (RoutePlanRequest.coverage_spacing_m r));
  ("flight_volume_minimum_m", vector_json (RoutePlanRequest.flight_volume_minimum_m r));
  ("flight_volume_maximum_m", vector_json (RoutePlanRequest.flight_volume_maximum_m r));
  ("obstacles", (json_list RouteObstacle_dump) (RoutePlanRequest.obstacles r));
  ("existing_reservations", (json_list TemporalReservation_dump) (RoutePlanRequest.existing_reservations r));
  ("cruise_speed_m_s", JFloat (RoutePlanRequest.cruise_speed_m_s r));
  ("maximum_duration_s", JFloat (RoutePlanRequest.maximum_duration_s r));
  ("energy_percent_per_m", JFloat (RoutePlanRequest.energy_percent_per_m r));
  ("minimum_separation_m", JFloat (RoutePlanRequest.minimum_separation_m r));
  ("maximum_hold_s", JFloat (RoutePlanRequest.maximum_hold_s r));
  ("frame", JStr "world");
  ("supersedes_route_sha256", (json_opt JStr) (RoutePlanRequest.supersedes_route_sha256 r))].

Module RouteWaypoint.
Record t := mk {
  sequence : Z;
  position_m : Vector3;
  arrival_s : float;
  departure_s : float;
}.
End RouteWaypoint.

Definition RouteWaypoint_valid (r : RouteWaypoint.t) : bool :=
  (0 <=? (RouteWaypoint.sequence r))
  && ge0 (RouteWaypoint.arrival_s r)
  && ge0 (RouteWaypoint.departure_s r)
  && negb (fltb (RouteWaypoint.departure_s r) (RouteWaypoint.arrival_s r)).

Definition RouteWaypoint_dump (r : RouteWaypoint.t) : json := JObj [
  ("sequence", JInt (RouteWaypoint.sequence r));
  ("position_m", vector_json (RouteWaypoint.position_m r));
  ("arrival_s", JFloat (RouteWaypoint.arrival_s r));
  ("departure_s", JFloat (RouteWaypoint.departure_s r))].

Module RoutePlanStatus.
Inductive t := READY | BLOCKED.
End RoutePlanStatus.
#[export] Instance RoutePlanStatus_eq_dec : EqDecision RoutePlanStatus.t.
Proof. solve_decision. Defined.
Definition RoutePlanStatus_value (v : RoutePlanStatus.t) : string :=
  match v with
  | RoutePlanStatus.READY => "READY"
  | RoutePlanStatus.BLOCKED => "BLOCKED"
  end.

Module RoutePlanArtifact.
Record t := mk {
  request_id : string;
  role_id : string;
  planner : PluginSelection.t;
  capability : RouteCapability.t;
  status : RoutePlanStatus.t;
  waypoints : list RouteWaypoint.t;
  reservations : list TemporalReservation.t;
  route_length_m : float;
  expected_energy_percent : float;
  expected_duration_s : float;
  expected_minimum_separation_m : float;
  completion_conditions : list string;
  limitations : list string;
  findings : list string;
  supersedes_route_sha256 : option string;
  route_sha256 : string;
}.
End RoutePlanArtifact.

Definition RoutePlanArtifact_valid (r : RoutePlanArtifact.t) : bool :=
  is_identifier (RoutePlanArtifact.request_id r)
  && is_identifier (RoutePlanArtifact.role_id r)
  && ge0 (RoutePlanArtifact.route_length_m r)
  && ge0 (RoutePlanArtifact.expected_energy_percent r)
  && ge0 (RoutePlanArtifact.expected_duration_s r)
  && ge0 (RoutePlanArtifact.expected_minimum_separation_m r)
  && forallb is_identifier (RoutePlanArtifact.findings r)
  && opt_ok is_sha256 (RoutePlanArtifact.supersedes_route_sha256 r)
  && is_sha256 (RoutePlanArtifact.route_sha256 r).

Definition RoutePlanArtifact_dump (r : RoutePlanArtifact.t) : json := JObj [
  ("schema_version", JInt 1);
  ("request_id", JStr (RoutePlanArtifact.request_id r));
  ("role_id", JStr (RoutePlanArtifact.role_id r));
  ("planner", PluginSelection_dump (RoutePlanArtifact.planner r));
  ("capability", (fun e => JStr (RouteCapability_value e)) (RoutePlanArtifact.capability r));
  ("status", (fun e => JStr (RoutePlanStatus_value e)) (RoutePlanArtifact.status r));
  ("waypoints", (json_list RouteWaypoint_dump) (RoutePlanArtifact.waypoints r));
  ("reservations", (json_list TemporalReservation_dump) (RoutePlanArtifact.reservations r));
  ("route_length_m", JFloat (RoutePlanArtifact.route_length_m r));
  ("expected_energy_percent", JFloat (RoutePlanArtifact.expected_energy_percent r));
  ("expected_duration_s", JFloat (RoutePlanArtifact.expected_duration_s r));
  ("expected_minimum_separation_m", JFloat (RoutePlanArtifact.expected_minimum_separation_m r));
  ("completion_conditions", (json_list JStr) (RoutePlanArtifact.completion_conditions r));
  ("limitations", (json_list JStr) (RoutePlanArtifact.limitations r));
  ("findings", (json_list JStr) (RoutePlanArtifact.findings r));
  ("supersedes_route_sha256", (json_opt JStr) (RoutePlanArtifact.supersedes_route_sha256 r));
  ("route_sha256", JStr (RoutePlanArtifact.route_sha256 r))].

(** [canonical_payload], without its own digest *)
Definition RoutePlanArtifact_json (r : RoutePlanArtifact.t) : json := JObj [
  ("schema_version", JInt 1);
  ("request_id", JStr (RoutePlanArtifact.request_id r));
  ("role_id", JStr (RoutePlanArtifact.role_id r));
  ("planner", PluginSelection_dump (RoutePlanArtifact.planner r));
  ("capability", (fun e => JStr (RouteCapability_value e)) (RoutePlanArtifact.capability r));
  ("status", (fun e => JStr (RoutePlanStatus_value e)) (RoutePlanArtifact.status r));
  ("waypoints", (json_list RouteWaypoint_dump) (RoutePlanArtifact.waypoints r));
  ("reservations", (json_list TemporalReservation_dump) (RoutePlanArtifact.reservations r));
  ("route_length_m", JFloat (RoutePlanArtifact.route_length_m r));
  ("expected_energy_percent", JFloat (RoutePlanArtifact.expected_energy_percent r));
  ("expected_duration_s", JFloat (RoutePlanArtifact.expected_duration_s r));
  ("expected_minimum_separation_m", JFloat (RoutePlanArtifact.expected_minimum_separation_m r));
  ("completion_conditions", (json_list JStr) (RoutePlanArtifact.completion_conditions r));
  ("limitations", (json_list JStr) (RoutePlanArtifact.limitations r));
  ("findings", (json_list JStr) (RoutePlanArtifact.findings r));
  ("supersedes_route_sha256", (json_opt JStr) (RoutePlanArtifact.supersedes_route_sha256 r))].

(** The document its digest is taken of *)
Definition RoutePlanArtifact_payload (r : RoutePlanArtifact.t) : json := JObj [
  ("request_id", JStr (RoutePlanArtifact.request_id r));
  ("role_id", JStr (RoutePlanArtifact.role_id r));
  ("planner", PluginSelection_dump (RoutePlanArtifact.planner r));
  ("capability", (fun e => JStr (RouteCapability_value e)) (RoutePlanArtifact.capability r));
  ("status", (fun e => JStr (RoutePlanStatus_value e)) (RoutePlanArtifact.status r));
  ("waypoints", (json_list RouteWaypoint_dump) (RoutePlanArtifact.waypoints r));
  ("reservations", (json_list TemporalReservation_dump) (RoutePlanArtifact.reservations r));
  ("route_length_m", JFloat (RoutePlanArtifact.route_length_m r));
  ("expected_energy_percent", JFloat (RoutePlanArtifact.expected_energy_percent r));
  ("expected_duration_s", JFloat (RoutePlanArtifact.expected_duration_s r));
  ("expected_minimum_separation_m", JFloat (RoutePlanArtifact.expected_minimum_separation_m r));
  ("completion_conditions", (json_list JStr) (RoutePlanArtifact.completion_conditions r));
  ("limitations", (json_list JStr) (RoutePlanArtifact.limitations r));
  ("findings", (json_list JStr) (RoutePlanArtifact.findings r));
  ("supersedes_route_sha256", (json_opt JStr) (RoutePlanArtifact.supersedes_route_sha256 r))].

Module RouteReplanRequest.
Record t := mk {
  previous_route_sha256 : string;
  changed_observation_sha256 : string;
  replacement_request : RoutePlanRequest.t;
  planning_budget_s : float;
}.
End RouteReplanRequest.

Definition RouteReplanRequest_valid (r : RouteReplanRequest.t) : bool :=
  is_sha256 (RouteReplanRequest.previous_route_sha256 r)
  && is_sha256 (RouteReplanRequest.changed_observation_sha256 r)
  && gt0 (RouteReplanRequest.planning_budget_s r)
  && fleb (RouteReplanRequest.planning_budget_s r) (float_of_Z 10)
  && bool_decide (RoutePlanRequest.supersedes_route_sha256 (RouteReplanRequest.replacement_request r)
       = Some (RouteReplanRequest.previous_route_sha256 r)).

Definition RouteReplanRequest_dump (r : RouteReplanRequest.t) : json := JObj [
  ("schema_version", JInt 1);
  ("previous_route_sha256", JStr (RouteReplanRequest.previous_route_sha256 r));
  ("changed_observation_sha256", JStr (RouteReplanRequest.changed_observation_sha256 r));
  ("replacement_request", RoutePlanRequest_dump (RouteReplanRequest.replacement_request r));
  ("planning_budget_s", JFloat (RouteReplanRequest.planning_budget_s r))].

Module RouteReplanResult.
Record t := mk {
  previous_route_sha256 : string;
  stale_route_sha256 : string;
  replacement_route : RoutePlanArtifact.t;
  changed_observation_sha256 : string;
  replan_sha256 : string;
}.
End RouteReplanResult.

Definition RouteReplanResult_valid (r : RouteReplanResult.t) : bool :=
  is_sha256 (RouteReplanResult.previous_route_sha256 r)
  && is_sha256 (RouteReplanResult.stale_route_sha256 r)
  && is_sha256 (RouteReplanResult.changed_observation_sha256 r)
  && is_sha256 (RouteReplanResult.replan_sha256 r)
  && String.eqb (RouteReplanResult.previous_route_sha256 r) (RouteReplanResult.stale_route_sha256 r)
  && bool_decide (RoutePlanArtifact.supersedes_route_sha256 (RouteReplanResult.replacement_route r)
       = Some (RouteReplanResult.previous_route_sha256 r)).

Definition RouteReplanResult_dump (r : RouteReplanResult.t) : json := JObj [
  ("schema_version", JInt 1);
  ("previous_route_sha256", JStr (RouteReplanResult.previous_route_sha256 r));
  ("stale_route_sha256", JStr (RouteReplanResult.stale_route_sha256 r));
  ("replacement_route", RoutePlanArtifact_dump (RouteReplanResult.replacement_route r));
  ("changed_observation_sha256", JStr (RouteReplanResult.changed_observation_sha256 r));
  ("replan_sha256", JStr (RouteReplanResult.replan_sha256 r))].

(** [canonical_payload], without its own digest *)
Definition RouteReplanResult_json (r : RouteReplanResult.t) : json := JObj [
  ("schema_version", JInt 1);
  ("previous_route_sha256", JStr (RouteReplanResult.previous_route_sha256 r));
  ("stale_route_sha256", JStr (RouteReplanResult.stale_route_sha256 r));
  ("replacement_route", RoutePlanArtifact_dump (RouteReplanResult.replacement_route r));
  ("changed_observation_sha256", JStr (RouteReplanResult.changed_observation_sha256 r))].

(** The document its digest is taken of *)
Definition RouteReplanResult_payload (r : RouteReplanResult.t) : json := JObj [
  ("previous_route_sha256", JStr (RouteReplanResult.previous_route_sha256 r));
  ("stale_route_sha256", JStr (RouteReplanResult.stale_route_sha256 r));
  ("replacement_route", RoutePlanArtifact_json (RouteReplanResult.replacement_route r));
  ("changed_observation_sha256", JStr (RouteReplanResult.changed_observation_sha256 r))].

(** ** Fleet policies and recovery *)

Module RecoveryTrigger.
Inductive t := LOW_BATTERY | LEADER_LOSS | LINK_LOSS | LOCALIZATION_LOSS | RESERVE_LOSS | DOCK_UNAVAILABLE | COMMAND_TIMEOUT | ACKNOWLEDGEMENT_LOSS.
End RecoveryTrigger.
#[export] Instance RecoveryTrigger_eq_dec : EqDecision RecoveryTrigger.t.
Proof. solve_decision. Defined.
Definition RecoveryTrigger_value (v : RecoveryTrigger.t) : string :=
  match v with
  | RecoveryTrigger.LOW_BATTERY => "LOW_BATTERY"
  | RecoveryTrigger.LEADER_LOSS => "LEADER_LOSS"
  | RecoveryTrigger.LINK_LOSS => "LINK_LOSS"
  | RecoveryTrigger.LOCALIZATION_LOSS => "LOCALIZATION_LOSS"
  | RecoveryTrigger.RESERVE_LOSS => "RESERVE_LOSS"
  | RecoveryTrigger.DOCK_UNAVAILABLE => "DOCK_UNAVAILABLE"
  | RecoveryTrigger.COMMAND_TIMEOUT => "COMMAND_TIMEOUT"
  | RecoveryTrigger.ACKNOWLEDGEMENT_LOSS => "ACKNOWLEDGEMENT_LOSS"
  end.

Module RecoveryAction.
Inductive t := HOLD | REPLAN | RETURN_HOME | HANDOVER | LAND | ABORT_AND_LAND | EMERGENCY_STOP.
End RecoveryAction.
#[export] Instance RecoveryAction_eq_dec : EqDecision RecoveryAction.t.
Proof. solve_decision. Defined.
Definition RecoveryAction_value (v : RecoveryAction.t) : string :=
  match v with
  | RecoveryAction.HOLD => "HOLD"
  | RecoveryAction.REPLAN => "REPLAN"
  | RecoveryAction.RETURN_HOME => "RETURN_HOME"
  | RecoveryAction.HANDOVER => "HANDOVER"
  | RecoveryAction.LAND => "LAND"
  | RecoveryAction.ABORT_AND_LAND => "ABORT_AND_LAND"
  | RecoveryAction.EMERGENCY_STOP => "EMERGENCY_STOP"
  end.

Definition RecoveryAction_of (s : string) : option RecoveryAction.t :=
  if String.eqb s "HOLD" then Some RecoveryAction.HOLD else
  if String.eqb s "REPLAN" then Some RecoveryAction.REPLAN else
  if String.eqb s "RETURN_HOME" then Some RecoveryAction.RETURN_HOME else
  if String.eqb s "HANDOVER" then Some RecoveryAction.HANDOVER else
  if String.eqb s "LAND" then Some RecoveryAction.LAND else
  if String.eqb s "ABORT_AND_LAND" then Some RecoveryAction.ABORT_AND_LAND else
  if String.eqb s "EMERGENCY_STOP" then Some RecoveryAction.EMERGENCY_STOP else
  None.
#[export] Instance RecoveryAction_countable : Countable RecoveryAction.t.
Proof. refine (inj_countable RecoveryAction_value RecoveryAction_of _). by intros []. Defined.

Module FleetPolicyRequest.
Record t := mk {
  request_id : string;
  mission_id : string;
  policy_capability : string;
  role_ids : list string;
  active_role_ids : list string;
  reserve_role_ids : list string;
  route_sha256s : list string;
  warning_separation_m : float;
  critical_separation_m : float;
}.
End FleetPolicyRequest.

Definition FleetPolicyRequest_valid (r : FleetPolicyRequest.t) : bool :=
  is_identifier (FleetPolicyRequest.request_id r)
  && is_identifier (FleetPolicyRequest.mission_id r)
  && is_identifier (FleetPolicyRequest.policy_capability r)
  && forallb is_identifier (FleetPolicyRequest.role_ids r)
  && forallb is_identifier (FleetPolicyRequest.active_role_ids r)
  && forallb is_identifier (FleetPolicyRequest.reserve_role_ids r)
  && forallb is_sha256 (FleetPolicyRequest.route_sha256s r)
  && gt0 (FleetPolicyRequest.warning_separation_m r)
  && gt0 (FleetPolicyRequest.critical_separation_m r).

Definition FleetPolicyRequest_dump (r : FleetPolicyRequest.t) : json := JObj [
  ("schema_version", JInt 1);
  ("request_id", JStr (FleetPolicyRequest.request_id r));
  ("mission_id", JStr (FleetPolicyRequest.mission_id r));
  ("policy_capability", JStr (FleetPolicyRequest.policy_capability r));
  ("role_ids", (json_list JStr) (FleetPolicyRequest.role_ids r));
  ("active_role_ids", (json_list JStr) (FleetPolicyRequest.active_role_ids r));
  ("reserve_role_ids", (json_list JStr) (FleetPolicyRequest.reserve_role_ids r));
  ("route_sha256s", (json_list JStr) (FleetPolicyRequest.route_sha256s r));
  ("warning_separation_m", JFloat (FleetPolicyRequest.warning_separation_m r));
  ("critical_separation_m", JFloat (FleetPolicyRequest.critical_separation_m r))].

Module FleetPolicyDecision.
Record t := mk {
  request_id : string;
  policy : PluginSelection.t;
  launch_order : list string;
  held_role_ids : list string;
  active_role_ids : list string;
  reserve_role_ids : list string;
  rationale : list string;
  decision_sha256 : string;
}.
End FleetPolicyDecision.

Definition FleetPolicyDecision_valid (r : FleetPolicyDecision.t) : bool :=
  is_identifier (FleetPolicyDecision.request_id r)
  && forallb is_identifier (FleetPolicyDecision.launch_order r)
  && forallb is_identifier (FleetPolicyDecision.held_role_ids r)
  && forallb is_identifier (FleetPolicyDecision.active_role_ids r)
  && forallb is_identifier (FleetPolicyDecision.reserve_role_ids r)
  && is_sha256 (FleetPolicyDecision.decision_sha256 r).

Definition FleetPolicyDecision_dump (r : FleetPolicyDecision.t) : json := JObj [
  ("schema_version", JInt 1);
  ("request_id", JStr (FleetPolicyDecision.request_id r));
  ("policy", PluginSelection_dump (FleetPolicyDecision.policy r));
  ("launch_order", (json_list JStr) (FleetPolicyDecision.launch_order r));
  ("held_role_ids", (json_list JStr) (FleetPolicyDecision.held_role_ids r));
  ("active_role_ids", (json_list JStr) (FleetPolicyDecision.active_role_ids r));
  ("reserve_role_ids", (json_list JStr) (FleetPolicyDecision.reserve_role_ids r));
  ("rationale", (json_list JStr) (FleetPolicyDecision.rationale r));
  ("decision_sha256", JStr (FleetPolicyDecision.decision_sha256 r))].

(** [canonical_payload], without its own digest *)
Definition FleetPolicyDecision_json (r : FleetPolicyDecision.t) : json := JObj [
  ("schema_version", JInt 1);
  ("request_id", JStr (FleetPolicyDecision.request_id r));
  ("policy", PluginSelection_dump (FleetPolicyDecision.policy r));
  ("launch_order", (json_list JStr) (FleetPolicyDecision.launch_order r));
  ("held_role_ids", (json_list JStr) (FleetPolicyDecision.held_role_ids r));
  ("active_role_ids", (json_list JStr) (FleetPolicyDecision.active_role_ids r));
  ("reserve_role_ids", (json_list JStr) (FleetPolicyDecision.reserve_role_ids r));
  ("rationale", (json_list JStr) (FleetPolicyDecision.rationale r))].

(** The document its digest is taken of *)
Definition FleetPolicyDecision_payload (r : FleetPolicyDecision.t) : json := JObj [
  ("request_id", JStr (FleetPolicyDecision.request_id r));
  ("policy", PluginSelection_dump (FleetPolicyDecision.policy r));
  ("launch_order", (json_list JStr) (FleetPolicyDecision.launch_order r));
  ("held_role_ids", (json_list JStr) (FleetPolicyDecision.held_role_ids r));
  ("active_role_ids", (json_list JStr) (FleetPolicyDecision.active_role_ids r));
  ("reserve_role_ids", (json_list JStr) (FleetPolicyDecision.reserve_role_ids r));
  ("rationale", (json_list JStr) (FleetPolicyDecision.rationale r))].

Module RecoveryRequest.
Record t := mk {
  request_id : string;
  mission_id : string;
  trigger : RecoveryTrigger.t;
  role_id : string;
  vehicle_id : string;
  available_actions : gset RecoveryAction.t;
  observation_current : bool;
  authority_current : bool;
  lease_generation : option Z;
  deadline_s : float;
}.
End RecoveryRequest.

Definition RecoveryRequest_valid (r : RecoveryRequest.t) : bool :=
  is_identifier (RecoveryRequest.request_id r)
  && is_identifier (RecoveryRequest.mission_id r)
  && is_identifier (RecoveryRequest.role_id r)
  && is_identifier (RecoveryRequest.vehicle_id r)
  && opt_ok (fun x => (1 <=? x)) (RecoveryRequest.lease_generation r)
  && gt0 (RecoveryRequest.deadline_s r).

Definition RecoveryRequest_dump (r : RecoveryRequest.t) : json := JObj [
  ("schema_version", JInt 1);
  ("request_id", JStr (RecoveryRequest.request_id r));
  ("mission_id", JStr (RecoveryRequest.mission_id r));
  ("trigger", (fun e => JStr (RecoveryTrigger_value e)) (RecoveryRequest.trigger r));
  ("role_id", JStr (RecoveryRequest.role_id r));
  ("vehicle_id", JStr (RecoveryRequest.vehicle_id r));
  ("available_actions", (fun s => strings_json (set_map RecoveryAction_value s)) (RecoveryRequest.available_actions r));
  ("observation_current", JBool (RecoveryRequest.observation_current r));
  ("authority_current", JBool (RecoveryRequest.authority_current r));
  ("lease_generation", (json_opt JInt) (RecoveryRequest.lease_generation r));
  ("deadline_s", JFloat (RecoveryRequest.deadline_s r))].

Module RecoveryProposal.
Record t := mk {
  request_id : string;
  strategy : PluginSelection.t;
  action : RecoveryAction.t;
  role_id : string;
  vehicle_id : string;
  reason : string;
  preconditions : list string;
  deadline_s : float;
  fallback : RecoveryAction.t;
  required_evidence : list string;
  proposal_sha256 : string;
}.
End RecoveryProposal.

Definition RecoveryProposal_valid (r : RecoveryProposal.t) : bool :=
  is_identifier (RecoveryProposal.request_id r)
  && is_identifier (RecoveryProposal.role_id r)
  && is_identifier (RecoveryProposal.vehicle_id r)
  && text_len 1 500 (RecoveryProposal.reason r)
  && gt0 (RecoveryProposal.deadline_s r)
  && forallb is_identifier (RecoveryProposal.required_evidence r)
  && is_sha256 (RecoveryProposal.proposal_sha256 r).

Definition RecoveryProposal_dump (r : RecoveryProposal.t) : json := JObj [
  ("schema_version", JInt 1);
  ("request_id", JStr (RecoveryProposal.request_id r));
  ("strategy", PluginSelection_dump (RecoveryProposal.strategy r));
  ("action", (fun e => JStr (RecoveryAction_value e)) (RecoveryProposal.action r));
  ("role_id", JStr (RecoveryProposal.role_id r));
  ("vehicle_id", JStr (RecoveryProposal.vehicle_id r));
  ("reason", JStr (RecoveryProposal.reason r));
  ("preconditions", (json_list JStr) (RecoveryProposal.preconditions r));
  ("deadline_s", JFloat (RecoveryProposal.deadline_s r));
  ("fallback", (fun e => JStr (RecoveryAction_value e)) (RecoveryProposal.fallback r));
  ("required_evidence", (json_list JStr) (RecoveryProposal.required_evidence r));
  ("proposal_sha256", JStr (RecoveryProposal.proposal_sha256 r))].

(** [canonical_payload], without its own digest *)
Definition RecoveryProposal_json (r : RecoveryProposal.t) : json := JObj [
  ("schema_version", JInt 1);
  ("request_id", JStr (RecoveryProposal.request_id r));
  ("strategy", PluginSelection_dump (RecoveryProposal.strategy r));
  ("action", (fun e => JStr (RecoveryAction_value e)) (RecoveryProposal.action r));
  ("role_id", JStr (RecoveryProposal.role_id r));
  ("vehicle_id", JStr (RecoveryProposal.vehicle_id r));
  ("reason", JStr (RecoveryProposal.reason r));
  ("preconditions", (json_list JStr) (RecoveryProposal.preconditions r));
  ("deadline_s", JFloat (RecoveryProposal.deadline_s r));
  ("fallback", (fun e => JStr (RecoveryAction_value e)) (RecoveryProposal.fallback r));
  ("required_evidence", (json_list JStr) (RecoveryProposal.required_evidence r))].

(** The document its digest is taken of *)
Definition RecoveryProposal_payload (r : RecoveryProposal.t) : json := JObj [
  ("request_id", JStr (RecoveryProposal.request_id r));
  ("strategy", PluginSelection_dump (RecoveryProposal.strategy r));
  ("action", (fun e => JStr (RecoveryAction_value e)) (RecoveryProposal.action r));
  ("role_id", JStr (RecoveryProposal.role_id r));
  ("vehicle_id", JStr (RecoveryProposal.vehicle_id r));
  ("reason", JStr (RecoveryProposal.reason r));
  ("preconditions", (json_list JStr) (RecoveryProposal.preconditions r));
  ("deadline_s", JFloat (RecoveryProposal.deadline_s r));
  ("fallback", (fun e => JStr (RecoveryAction_value e)) (RecoveryProposal.fallback r));
  ("required_evidence", (json_list JStr) (RecoveryProposal.required_evidence r))].

(** ** Safety cases *)

Module MissionSafetyDeclaration.
Record t := mk {
  declaration_id : string;
  policy_override : SafetyPolicyOverride.t;
  required_observations : gset string;
  environmental_assumptions : list string;
  allowed_recovery_actions : gset RecoveryAction.t;
}.
End MissionSafetyDeclaration.

Definition MissionSafetyDeclaration_valid (r : MissionSafetyDeclaration.t) : bool :=
  is_identifier (MissionSafetyDeclaration.declaration_id r)
  && forallb is_identifier (elements (MissionSafetyDeclaration.required_observations r)).

Definition MissionSafetyDeclaration_dump (r : MissionSafetyDeclaration.t) : json := JObj [
  ("schema_version", JInt 1);
  ("declaration_id", JStr (MissionSafetyDeclaration.declaration_id r));
  ("policy_override", SafetyPolicyOverride_dump (MissionSafetyDeclaration.policy_override r));
  ("required_observations", strings_json (MissionSafetyDeclaration.required_observations r));
  ("environmental_assumptions", (json_list JStr) (MissionSafetyDeclaration.environmental_assumptions r));
  ("allowed_recovery_actions", (fun s => strings_json (set_map RecoveryAction_value s)) (MissionSafetyDeclaration.allowed_recovery_actions r))].

Module SafetyCaseFinding.
Record t := mk {
  code : string;
  blocking : bool;
  message : string;
  owner : string;
  mitigation : string;
}.
End SafetyCaseFinding.

Definition SafetyCaseFinding_valid (r : SafetyCaseFinding.t) : bool :=
  is_identifier (SafetyCaseFinding.code r)
  && text_len 1 500 (SafetyCaseFinding.message r)
  && is_identifier (SafetyCaseFinding.owner r)
  && text_len 1 500 (SafetyCaseFinding.mitigation r).

Definition SafetyCaseFinding_dump (r : SafetyCaseFinding.t) : json := JObj [
  ("code", JStr (SafetyCaseFinding.code r));
  ("blocking", JBool (SafetyCaseFinding.blocking r));
  ("message", JStr (SafetyCaseFinding.message r));
  ("owner", JStr (SafetyCaseFinding.owner r));
  ("mitigation", JStr (SafetyCaseFinding.mitigation r))].

Module SafetyCaseReceipt.
Record t := mk {
  declaration_sha256 : string;
  global_policy_sha256 : string;
  effective_policy_sha256 : string;
  selected_plugin_manifest_sha256s : list string;
  hazards : list string;
  mitigations : list string;
  findings : list SafetyCaseFinding.t;
  safety_case_sha256 : string;
}.
End SafetyCaseReceipt.

Definition SafetyCaseReceipt_valid (r : SafetyCaseReceipt.t) : bool :=
  is_sha256 (SafetyCaseReceipt.declaration_sha256 r)
  && is_sha256 (SafetyCaseReceipt.global_policy_sha256 r)
  && is_sha256 (SafetyCaseReceipt.effective_policy_sha256 r)
  && forallb is_sha256 (SafetyCaseReceipt.selected_plugin_manifest_sha256s r)
  && forallb is_identifier (SafetyCaseReceipt.hazards r)
  && is_sha256 (SafetyCaseReceipt.safety_case_sha256 r).

Definition SafetyCaseReceipt_dump (r : SafetyCaseReceipt.t) : json := JObj [
  ("schema_version", JInt 1);
  ("declaration_sha256", JStr (SafetyCaseReceipt.declaration_sha256 r));
  ("global_policy_sha256", JStr (SafetyCaseReceipt.global_policy_sha256 r));
  ("effective_policy_sha256", JStr (SafetyCaseReceipt.effective_policy_sha256 r));
  ("selected_plugin_manifest_sha256s", (json_list JStr) (SafetyCaseReceipt.selected_plugin_manifest_sha256s r));
  ("hazards", (json_list JStr) (SafetyCaseReceipt.hazards r));
  ("mitigations", (json_list JStr) (SafetyCaseReceipt.mitigations r));
  ("findings", (json_list SafetyCaseFinding_dump) (SafetyCaseReceipt.findings r));
  ("safety_case_sha256", JStr (SafetyCaseReceipt.safety_case_sha256 r))].

(** [canonical_payload], without its own digest *)
Definition SafetyCaseReceipt_json (r : SafetyCaseReceipt.t) : json := JObj [
  ("schema_version", JInt 1);
  ("declaration_sha256", JStr (SafetyCaseReceipt.declaration_sha256 r));
  ("global_policy_sha256", JStr (SafetyCaseReceipt.global_policy_sha256 r));
  ("effective_policy_sha256", JStr (SafetyCaseReceipt.effective_policy_sha256 r));
  ("selected_plugin_manifest_sha256s", (json_list JStr) (SafetyCaseReceipt.selected_plugin_manifest_sha256s r));
  ("hazards", (json_list JStr) (SafetyCaseReceipt.hazards r));
  ("mitigations", (json_list JStr) (SafetyCaseReceipt.mitigations r));
  ("findings", (json_list SafetyCaseFinding_dump) (SafetyCaseReceipt.findings r))].

(** The document its digest is taken of *)
Definition SafetyCaseReceipt_payload (r : SafetyCaseReceipt.t) : json := JObj [
  ("declaration_sha256", JStr (SafetyCaseReceipt.declaration_sha256 r));
  ("global_policy_sha256", JStr (SafetyCaseReceipt.global_policy_sha256 r));
  ("effective_policy_sha256", JStr (SafetyCaseReceipt.effective_policy_sha256 r));
  ("selected_plugin_manifest_sha256s", (json_list JStr) (SafetyCaseReceipt.selected_plugin_manifest_sha256s r));
  ("hazards", (json_list JStr) (SafetyCaseReceipt.hazards r));
  ("mitigations", (json_list JStr) (SafetyCaseReceipt.mitigations r));
  ("findings", (json_list SafetyCaseFinding_dump) (SafetyCaseReceipt.findings r))].

Module SafetyAdmission.
Record t := mk {
  authorized : bool;
  action : RecoveryAction.t;
  reason : string;
  effective_policy_sha256 : string;
  proposal_sha256 : string;
}.
End SafetyAdmission.

Definition SafetyAdmission_valid (r : SafetyAdmission.t) : bool :=
  is_sha256 (SafetyAdmission.effective_policy_sha256 r)
  && is_sha256 (SafetyAdmission.proposal_sha256 r).

Definition SafetyAdmission_dump (r : SafetyAdmission.t) : json := JObj [
  ("authorized", JBool (SafetyAdmission.authorized r));
  ("action", (fun e => JStr (RecoveryAction_value e)) (SafetyAdmission.action r));
  ("reason", JStr (SafetyAdmission.reason r));
  ("effective_policy_sha256", JStr (SafetyAdmission.effective_policy_sha256 r));
  ("proposal_sha256", JStr (SafetyAdmission.proposal_sha256 r))].

(** ** Intents and execution graphs ([planning/intent.py]) *)

Module TransitionKind.
Inductive t := COMPLETE | HOLD | RESUME | REPLAN | RETRY | HANDOVER | RETURN_HOME | LAND | ABORT.
End TransitionKind.
#[export] Instance TransitionKind_eq_dec : EqDecision TransitionKind.t.
Proof. solve_decision. Defined.
Definition TransitionKind_value (v : TransitionKind.t) : string :=
  match v with
  | TransitionKind.COMPLETE => "COMPLETE"
  | TransitionKind.HOLD => "HOLD"
  | TransitionKind.RESUME => "RESUME"
  | TransitionKind.REPLAN => "REPLAN"
  | TransitionKind.RETRY => "RETRY"
  | TransitionKind.HANDOVER => "HANDOVER"
  | TransitionKind.RETURN_HOME => "RETURN_HOME"
  | TransitionKind.LAND => "LAND"
  | TransitionKind.ABORT => "ABORT"
  end.

Module IntentPhase.
Record t := mk {
  phase_id : string;
  objective : string;
  role_ids : list string;
  route_capability : RouteCapability.t;
  completion_conditions : list string;
  maximum_duration_s : float;
  checkpoint_required : bool;
}.
End IntentPhase.

Definition IntentPhase_valid (r : IntentPhase.t) : bool :=
  is_identifier (IntentPhase.phase_id r)
  && text_len 1 500 (IntentPhase.objective r)
  && forallb is_identifier (IntentPhase.role_ids r)
  && gt0 (IntentPhase.maximum_duration_s r)
  && negb (bool_decide (IntentPhase.role_ids r = []))
  && negb (bool_decide (IntentPhase.completion_conditions r = [])).

Definition IntentPhase_dump (r : IntentPhase.t) : json := JObj [
  ("phase_id", JStr (IntentPhase.phase_id r));
  ("objective", JStr (IntentPhase.objective r));
  ("role_ids", (json_list JStr) (IntentPhase.role_ids r));
  ("route_capability", (fun e => JStr (RouteCapability_value e)) (IntentPhase.route_capability r));
  ("completion_conditions", (json_list JStr) (IntentPhase.completion_conditions r));
  ("maximum_duration_s", JFloat (IntentPhase.maximum_duration_s r));
  ("checkpoint_required", JBool (IntentPhase.checkpoint_required r))].

Module IntentTransition.
Record t := mk {
  transition_id : string;
  from_phase_id : string;
  kind : TransitionKind.t;
  to_phase_id : option string;
  maximum_retries : Z;
  recovery_action : option RecoveryAction.t;
}.
End IntentTransition.

Definition IntentTransition_valid (r : IntentTransition.t) : bool :=
  is_identifier (IntentTransition.transition_id r)
  && is_identifier (IntentTransition.from_phase_id r)
  && opt_ok is_identifier (IntentTransition.to_phase_id r)
  && (0 <=? (IntentTransition.maximum_retries r))
  && ((IntentTransition.maximum_retries r) <=? 10)
  && negb (bool_decide (IntentTransition.kind r = TransitionKind.RETRY)
           && (IntentTransition.maximum_retries r <? 1))
  && negb (negb (bool_decide (IntentTransition.kind r = TransitionKind.RETRY))
           && negb (IntentTransition.maximum_retries r =? 0)).

Definition IntentTransition_dump (r : IntentTransition.t) : json := JObj [
  ("transition_id", JStr (IntentTransition.transition_id r));
  ("from_phase_id", JStr (IntentTransition.from_phase_id r));
  ("kind", (fun e => JStr (TransitionKind_value e)) (IntentTransition.kind r));
  ("to_phase_id", (json_opt JStr) (IntentTransition.to_phase_id r));
  ("maximum_retries", JInt (IntentTransition.maximum_retries r));
  ("recovery_action", (json_opt (fun e => JStr (RecoveryAction_value e))) (IntentTransition.recovery_action r))].

Module MissionIntent.
Record t := mk {
  intent_id : string;
  mission_id : string;
  objective : string;
  success_criteria : list string;
  role_ids : list string;
  phases : list IntentPhase.t;
  entry_phase_id : string;
  transitions : list IntentTransition.t;
  safety_declaration : MissionSafetyDeclaration.t;
  source_compatibility : string;
}.
End MissionIntent.

Definition MissionIntent_valid (r : MissionIntent.t) : bool :=
  is_identifier (MissionIntent.intent_id r)
  && is_identifier (MissionIntent.mission_id r)
  && text_len 1 500 (MissionIntent.objective r)
  && forallb is_identifier (MissionIntent.role_ids r)
  && is_identifier (MissionIntent.entry_phase_id r)
  && (String.eqb (MissionIntent.source_compatibility r) "RESTRICTED_PYTHON_EXPLICIT_ACTIONS" || String.eqb (MissionIntent.source_compatibility r) "DECLARED_INTENT")
  && negb (bool_decide (MissionIntent.success_criteria r = []))
  && bool_decide (NoDup (MissionIntent.role_ids r))
  && bool_decide (NoDup (IntentPhase.phase_id <$> MissionIntent.phases r))
  && (MissionIntent.entry_phase_id r ∈? (IntentPhase.phase_id <$> MissionIntent.phases r))
  && forallb (fun phase => forallb (fun role => role ∈? MissionIntent.role_ids r) (IntentPhase.role_ids phase))
       (MissionIntent.phases r).

Definition MissionIntent_dump (r : MissionIntent.t) : json := JObj [
  ("schema_version", JInt 1);
  ("intent_id", JStr (MissionIntent.intent_id r));
  ("mission_id", JStr (MissionIntent.mission_id r));
  ("objective", JStr (MissionIntent.objective r));
  ("success_criteria", (json_list JStr) (MissionIntent.success_criteria r));
  ("role_ids", (json_list JStr) (MissionIntent.role_ids r));
  ("phases", (json_list IntentPhase_dump) (MissionIntent.phases r));
  ("entry_phase_id", JStr (MissionIntent.entry_phase_id r));
  ("transitions", (json_list IntentTransition_dump) (MissionIntent.transitions r));
  ("safety_declaration", MissionSafetyDeclaration_dump (MissionIntent.safety_declaration r));
  ("source_compatibility", JStr (MissionIntent.source_compatibility r))].

Definition MissionIntent_sha256 `{Digest} (r : MissionIntent.t) : string :=
  canonical_sha256 (MissionIntent_dump r).

Module ExecutionNode.
Record t := mk {
  node_id : string;
  phase_id : string;
  role_ids : list string;
  route_sha256s : list string;
  maximum_duration_s : float;
  completion_conditions : list string;
}.
End ExecutionNode.

Definition ExecutionNode_valid (r : ExecutionNode.t) : bool :=
  is_identifier (ExecutionNode.node_id r)
  && is_identifier (ExecutionNode.phase_id r)
  && forallb is_identifier (ExecutionNode.role_ids r)
  && forallb is_sha256 (ExecutionNode.route_sha256s r)
  && gt0 (ExecutionNode.maximum_duration_s r).

Definition ExecutionNode_dump (r : ExecutionNode.t) : json := JObj [
  ("node_id", JStr (ExecutionNode.node_id r));
  ("phase_id", JStr (ExecutionNode.phase_id r));
  ("role_ids", (json_list JStr) (ExecutionNode.role_ids r));
  ("route_sha256s", (json_list JStr) (ExecutionNode.route_sha256s r));
  ("maximum_duration_s", JFloat (ExecutionNode.maximum_duration_s r));
  ("completion_conditions", (json_list JStr) (ExecutionNode.completion_conditions r))].

Module ExecutionEdge.
Record t := mk {
  edge_id : string;
  from_node_id : string;
  kind : TransitionKind.t;
  to_node_id : option string;
  maximum_retries : Z;
  recovery_action : option RecoveryAction.t;
}.
End ExecutionEdge.

Definition ExecutionEdge_valid (r : ExecutionEdge.t) : bool :=
  is_identifier (ExecutionEdge.edge_id r)
  && is_identifier (ExecutionEdge.from_node_id r)
  && opt_ok is_identifier (ExecutionEdge.to_node_id r)
  && (0 <=? (ExecutionEdge.maximum_retries r))
  && ((ExecutionEdge.maximum_retries r) <=? 10).

Definition ExecutionEdge_dump (r : ExecutionEdge.t) : json := JObj [
  ("edge_id", JStr (ExecutionEdge.edge_id r));
  ("from_node_id", JStr (ExecutionEdge.from_node_id r));
  ("kind", (fun e => JStr (TransitionKind_value e)) (ExecutionEdge.kind r));
  ("to_node_id", (json_opt JStr) (ExecutionEdge.to_node_id r));
  ("maximum_retries", JInt (ExecutionEdge.maximum_retries r));
  ("recovery_action", (json_opt (fun e => JStr (RecoveryAction_value e))) (ExecutionEdge.recovery_action r))].

Module ExecutionGraph.
Record t := mk {
  graph_id : string;
  intent_sha256 : string;
  entry_node_id : string;
  nodes : list ExecutionNode.t;
  edges : list ExecutionEdge.t;
  selected_plugins : list PluginSelection.t;
  graph_sha256 : string;
}.
End ExecutionGraph.

Definition ExecutionGraph_valid (r : ExecutionGraph.t) : bool :=
  is_identifier (ExecutionGraph.graph_id r)
  && is_sha256 (ExecutionGraph.intent_sha256 r)
  && is_identifier (ExecutionGraph.entry_node_id r)
  && is_sha256 (ExecutionGraph.graph_sha256 r).

Definition ExecutionGraph_dump (r : ExecutionGraph.t) : json := JObj [
  ("schema_version", JInt 1);
  ("graph_id", JStr (ExecutionGraph.graph_id r));
  ("intent_sha256", JStr (ExecutionGraph.intent_sha256 r));
  ("entry_node_id", JStr (ExecutionGraph.entry_node_id r));
  ("nodes", (json_list ExecutionNode_dump) (ExecutionGraph.nodes r));
  ("edges", (json_list ExecutionEdge_dump) (ExecutionGraph.edges r));
  ("selected_plugins", (json_list PluginSelection_dump) (ExecutionGraph.selected_plugins r));
  ("graph_sha256", JStr (ExecutionGraph.graph_sha256 r))].

(** [canonical_payload], without its own digest *)
Definition ExecutionGraph_json (r : ExecutionGraph.t) : json := JObj [
  ("schema_version", JInt 1);
  ("graph_id", JStr (ExecutionGraph.graph_id r));
  ("intent_sha256", JStr (ExecutionGraph.intent_sha256 r));
  ("entry_node_id", JStr (ExecutionGraph.entry_node_id r));
  ("nodes", (json_list ExecutionNode_dump) (ExecutionGraph.nodes r));
  ("edges", (json_list ExecutionEdge_dump) (ExecutionGraph.edges r));
  ("selected_plugins", (json_list PluginSelection_dump) (ExecutionGraph.selected_plugins r))].

(** The document its digest is taken of *)
Definition ExecutionGraph_payload (r : ExecutionGraph.t) : json := JObj [
  ("graph_id", JStr (ExecutionGraph.graph_id r));
  ("intent_sha256", JStr (ExecutionGraph.intent_sha256 r));
  ("entry_node_id", JStr (ExecutionGraph.entry_node_id r));
  ("nodes", (json_list ExecutionNode_dump) (ExecutionGraph.nodes r));
  ("edges", (json_list ExecutionEdge_dump) (ExecutionGraph.edges r));
  ("selected_plugins", (json_list PluginSelection_dump) (ExecutionGraph.selected_plugins r))].
