(* ===== verification/Routes.v ===== *)
(** * Plug-ins and route planners ([planning/registry.py], [planning/builtins.py])

    The registry of plug-ins, the four built-in route planners, the fleet
    policies and the recovery strategies.  A plug-in protocol of the source is a
    record of its manifest and its operation; the built-ins are values of it. *)

From S2P Require Import Prelude Float64 Effects Contracts Artifacts Safety Zones PlanContracts.

(** ** Protocols *)

Module RoutePlanner.
Record t := mk {
  manifest : PluginManifest.t;
  plan : RoutePlanRequest.t -> outcome RoutePlanArtifact.t;
}.
End RoutePlanner.

Module FleetPolicy.
Record t := mk {
  manifest : PluginManifest.t;
  decide : FleetPolicyRequest.t -> outcome FleetPolicyDecision.t;
}.
End FleetPolicy.

Module RecoveryStrategy.
Record t := mk {
  manifest : PluginManifest.t;
  propose : RecoveryRequest.t -> outcome RecoveryProposal.t;
}.
End RecoveryStrategy.

(** What the registry needs of a plug-in. *)
Class Plugin (P : Type) := manifest_of : P -> PluginManifest.t.
#[export] Instance RoutePlanner_plugin : Plugin RoutePlanner.t := RoutePlanner.manifest.
#[export] Instance FleetPolicy_plugin : Plugin FleetPolicy.t := FleetPolicy.manifest.
#[export] Instance RecoveryStrategy_plugin : Plugin RecoveryStrategy.t := RecoveryStrategy.manifest.

(** ** The registry *)

(** [(plugin_id, implementation_version)] *)
Notation plugin_key := (string * string)%type.

Module PluginRegistry.
Record t {P : Type} := mk {
  kind : PluginKind.t;
  _plugins : list (plugin_key * P);
}.
Arguments t : clear implicits.
End PluginRegistry.

Section registry.
Context `{Plugin P}.

Definition key_of (plugin : P) : plugin_key :=
  (PluginManifest.plugin_id (manifest_of plugin),
   PluginManifest.implementation_version (manifest_of plugin)).

(** [self._plugins.get(key)] *)
Definition get_plugin (key : plugin_key) (plugins : list (plugin_key * P)) : option P :=
  snd <$> find_first (fun item => item.1 ≟ key) plugins.

Definition register_plugin (plugin : P) (self : PluginRegistry.t P) : outcome (PluginRegistry.t P) :=
  let key := key_of plugin in
  if PluginManifest.kind (manifest_of plugin) ≠? PluginRegistry.kind self
  then Raise (ValueError (PluginManifest.plugin_id (manifest_of plugin) +:+ " has the wrong plugin kind"))
  else if is_some (get_plugin key (PluginRegistry._plugins self))
  then Raise (ValueError ("duplicate plugin registration: " +:+ key.1 +:+ "@" +:+ key.2))
  else Ret (PluginRegistry.mk P (PluginRegistry.kind self)
              (PluginRegistry._plugins self ++ [(key, plugin)])).

Fixpoint register_all (plugins : list P) (self : PluginRegistry.t P) : outcome (PluginRegistry.t P) :=
  match plugins with
  | [] => Ret self
  | plugin :: rest => self' ← register_plugin plugin self; register_all rest self'
  end.

(** [PluginRegistry(kind, plugins)] *)
Definition PluginRegistry_new (kind : PluginKind.t) (plugins : list P) : outcome (PluginRegistry.t P) :=
  register_all plugins (PluginRegistry.mk P kind []).

Definition resolve (plugin_id version : string) (required_capabilities : gset string)
    (require_qualified : bool) (self : PluginRegistry.t P) : outcome P :=
  let name := plugin_id +:+ "@" +:+ version in
  match get_plugin (plugin_id, version) (PluginRegistry._plugins self) with
  | None => Err CAPABILITY_MISSING ("plugin is not registered: " +:+ name)
  | Some plugin =>
      let manifest := manifest_of plugin in
      if negb (bool_decide (required_capabilities ⊆ PluginManifest.capabilities manifest))
      then Err CAPABILITY_MISSING ("plugin does not provide required capabilities: " +:+ name)
      else if require_qualified
              && (PluginManifest.qualification manifest ≠? QualificationState.QUALIFIED)
      then Err PREFLIGHT_FAILED ("plugin is not qualified: " +:+ name)
      else Ret plugin
  end.

(** The order of pairs of strings *)
Definition plugin_key_ltb (a b : plugin_key) : bool :=
  str_ltb a.1 b.1 || (String.eqb a.1 b.1 && str_ltb a.2 b.2).

Definition manifests (self : PluginRegistry.t P) : list PluginManifest.t :=
  (fun item => manifest_of item.2) <$>
    py_sorted (fun a b => plugin_key_ltb a.1 b.1) (PluginRegistry._plugins self).
End registry.

Section builtins.
Context `{LM : Libm} `{DG : Digest}.

(** [_manifest]; the built-in manifests are constants that satisfy the
    constraints of [PluginManifest]. *)
Definition _manifest (plugin_id : string) (kind : PluginKind.t)
    (capabilities required_observations : gset string) : PluginManifest.t := {|
  PluginManifest.plugin_id := plugin_id;
  PluginManifest.kind := kind;
  PluginManifest.implementation_version := "1.0.0";
  PluginManifest.control_contract_minimum := "1.0.0";
  PluginManifest.control_contract_maximum := "1.0.0";
  PluginManifest.capabilities := capabilities;
  PluginManifest.required_observations := required_observations;
  PluginManifest.implementation_sha256 :=
    canonical_sha256 (JObj [("implementation", JStr plugin_id); ("version", JStr "1.0.0");
                            ("contract", JStr "planning-plugin-v1")]);
  PluginManifest.qualification := QualificationState.QUALIFIED;
|}.

(** ** Geometry *)

Definition _inside_volume (point : Vector3) (request : RoutePlanRequest.t) : bool :=
  let low := RoutePlanRequest.flight_volume_minimum_m request in
  let high := RoutePlanRequest.flight_volume_maximum_m request in
  fleb (v_x low) (v_x point) && fleb (v_x point) (v_x high)
  && (fleb (v_y low) (v_y point) && fleb (v_y point) (v_y high))
  && (fleb (v_z low) (v_z point) && fleb (v_z point) (v_z high)).

(** The loop over the axes: (origin, target, low, high), with the part of the
    segment that is left. The division is by a number that is not zero. *)
Fixpoint slabs (axes : list (float * float * float * float)) (lower upper : float) : bool :=
  match axes with
  | [] => true
  | (origin, target, low, high) :: axes' =>
      let delta := fsub target origin in
      if fleb (fabs delta) (flit 1 1000000000000) then
        if fltb origin low || fltb high origin then false else slabs axes' lower upper
      else
        let entry := fdiv_ieee (fsub low origin) delta in
        let exit_ := fdiv_ieee (fsub high origin) delta in
        let '(entry, exit_) := if fltb exit_ entry then (exit_, entry) else (entry, exit_) in
        let lower' := py_fmax lower entry in
        let upper' := py_fmin upper exit_ in
        if fltb upper' lower' then false else slabs axes' lower' upper'
  end.

Definition _segment_intersects_box (start end_ : Vector3) (obstacle : RouteObstacle.t) : bool :=
  let low := RouteObstacle.minimum_m obstacle in
  let high := RouteObstacle.maximum_m obstacle in
  slabs [(v_x start, v_x end_, v_x low, v_x high); (v_y start, v_y end_, v_y low, v_y high);
         (v_z start, v_z end_, v_z low, v_z high)] f0 f1.

(** ** Corridors *)

Definition _reservations_conflict (first second : TemporalReservation.t) : bool :=
  let lo := TemporalReservation.minimum_m in
  let hi := TemporalReservation.maximum_m in
  let temporal := fltb (TemporalReservation.starts_at_s first) (TemporalReservation.ends_at_s second)
                  && fltb (TemporalReservation.starts_at_s second) (TemporalReservation.ends_at_s first) in
  let spatial := negb (fltb (v_x (hi first)) (v_x (lo second)) || fltb (v_x (hi second)) (v_x (lo first))
                       || fltb (v_y (hi first)) (v_y (lo second)) || fltb (v_y (hi second)) (v_y (lo first))
                       || fltb (v_z (hi first)) (v_z (lo second)) || fltb (v_z (hi second)) (v_z (lo first))) in
  temporal && spatial.

(** [min(...)] and [max(...)] of the coordinates of the waypoints; there is one. *)
Definition least (l : list float) : float := default f0 (py_min fltb l).
Definition greatest (l : list float) : float := default f0 (py_max fltb l).

Definition _reservation (request : RoutePlanRequest.t) (waypoints : list RouteWaypoint.t)
    (duration_s : float) : outcome TemporalReservation.t :=
  let margin := fdiv_ieee (RoutePlanRequest.minimum_separation_m request) (float_of_Z 2) in
  let coordinate (c : Vector3 -> float) := (fun w => c (RouteWaypoint.position_m w)) <$> waypoints in
  let r := TemporalReservation.mk ("corridor-" +:+ RoutePlanRequest.request_id request)
      (RoutePlanRequest.role_id request) f0 (py_fmax duration_s (flit 1 1000))
      (mkVector3 (fsub (least (coordinate v_x)) margin) (fsub (least (coordinate v_y)) margin)
                 (fsub (least (coordinate v_z)) margin))
      (mkVector3 (fadd (greatest (coordinate v_x)) margin) (fadd (greatest (coordinate v_y)) margin)
                 (fadd (greatest (coordinate v_z)) margin)) in
  checked "TemporalReservation" (TemporalReservation_valid r) r.

(** ** Artifacts *)

Definition _route_artifact (manifest : PluginManifest.t) (request : RoutePlanRequest.t)
    (status : RoutePlanStatus.t) (waypoints : list RouteWaypoint.t)
    (reservations : list TemporalReservation.t) (route_length_m duration_s : float)
    (limitations findings : list string) : outcome RoutePlanArtifact.t :=
  planner ← from_manifest manifest
              {[RouteCapability_value (RoutePlanRequest.capability request)]};
  let artifact sha := RoutePlanArtifact.mk (RoutePlanRequest.request_id request)
      (RoutePlanRequest.role_id request) planner (RoutePlanRequest.capability request) status
      waypoints reservations route_length_m
      (fmul route_length_m (RoutePlanRequest.energy_percent_per_m request)) duration_s
      (RoutePlanRequest.minimum_separation_m request)
      ["final waypoint reached"; "role completion acknowledged"] limitations findings
      (RoutePlanRequest.supersedes_route_sha256 request) sha in
  let r := artifact (canonical_sha256 (RoutePlanArtifact_payload (artifact ""))) in
  checked "RoutePlanArtifact" (RoutePlanArtifact_valid r) r.

Definition _blocked (manifest : PluginManifest.t) (request : RoutePlanRequest.t) (finding : string) :
    outcome RoutePlanArtifact.t :=
  _route_artifact manifest request RoutePlanStatus.BLOCKED [] [] f0 f0 [] [finding].

(** *** [_plan_polyline] *)

Definition new_waypoint (sequence : Z) (position_m : Vector3) (arrival_s departure_s : float) :
    outcome RouteWaypoint.t :=
  let w := RouteWaypoint.mk sequence position_m arrival_s departure_s in
  checked "RouteWaypoint" (RouteWaypoint_valid w) w.

(** [request.targets[min(index - 1, len(request.targets) - 1)].hold_s]; a request
    has a target. *)
Definition hold_at (request : RoutePlanRequest.t) (index : nat) : float :=
  let targets := RoutePlanRequest.targets request in
  default f0 (RouteTarget.hold_s <$> targets !! Nat.min (index - 1) (length targets - 1)).

(** The legs from [previous] on: the waypoints of the targets, the time and the
    length at the end. *)
Fixpoint fly_legs (request : RoutePlanRequest.t) (previous : Vector3) (targets : list Vector3)
    (index : nat) (elapsed_s length_m : float) : outcome (list RouteWaypoint.t * float * float) :=
  match targets with
  | [] => Ret ([], elapsed_s, length_m)
  | target :: rest =>
      segment_m ← v_distance previous target;
      travel_s ← py_div segment_m (RoutePlanRequest.cruise_speed_m_s request);
      let arrival_s := fadd elapsed_s travel_s in
      let departure_s := fadd arrival_s (hold_at request index) in
      waypoint ← new_waypoint (Z.of_nat index) target arrival_s departure_s;
      legs ← fly_legs request target rest (S index) departure_s (fadd length_m segment_m);
      Ret (waypoint :: legs.1.1, legs.1.2, legs.2)
  end.

(** Some leg of the polyline meets an obstacle. *)
Definition obstructed (request : RoutePlanRequest.t) (points : list Vector3) : bool :=
  existsb (fun leg => existsb (_segment_intersects_box leg.1 leg.2) (RoutePlanRequest.obstacles request))
    (zip points (tail points)).

Definition _plan_polyline (manifest : PluginManifest.t) (request : RoutePlanRequest.t)
    (targets : list Vector3) (apply_temporal_shift : bool) : outcome RoutePlanArtifact.t :=
  let points := RoutePlanRequest.start_m request :: targets in
  if existsb (fun point => negb (_inside_volume point request)) points
  then _blocked manifest request "ROUTE_OUTSIDE_FLIGHT_VOLUME"
  else if obstructed request points
  then _blocked manifest request "ROUTE_INTERSECTS_OBSTACLE"
  else
    first ← new_waypoint 0 (RoutePlanRequest.start_m request) f0 f0;
    legs ← fly_legs request (RoutePlanRequest.start_m request) targets 1 f0 f0;
    let '(flown, elapsed_s, length_m) := legs in
    let waypoints := first :: flown in
    if fltb (RoutePlanRequest.maximum_duration_s request) elapsed_s
    then _blocked manifest request "ROUTE_DURATION_EXCEEDS_BOUND"
    else
      corridor ← _reservation request waypoints elapsed_s;
      if apply_temporal_shift
         && existsb (_reservations_conflict corridor) (RoutePlanRequest.existing_reservations request)
      then _blocked manifest request "TEMPORAL_RESERVATION_REQUIRED"
      else _route_artifact manifest request RoutePlanStatus.READY waypoints [corridor] length_m
             elapsed_s [] [].

Definition positions (request : RoutePlanRequest.t) : list Vector3 :=
  RouteTarget.position_m <$> RoutePlanRequest.targets request.
End builtins.

(** ** Route planners *)

Module DirectRoutePlanner.
Section planner.
Context `{LM : Libm} `{DG : Digest}.

Definition manifest : PluginManifest.t :=
  _manifest "route.direct" PluginKind.ROUTE_PLANNER {["DIRECT"; "DOCK_APPROACH"; "LEADER_FOLLOWER"]} ∅.

Definition plan (request : RoutePlanRequest.t) : outcome RoutePlanArtifact.t :=
  _plan_polyline manifest request (positions request) true.
End planner.
End DirectRoutePlanner.

(** [request.targets[-1].position_m]; a request has a target. *)
Definition last_target (request : RoutePlanRequest.t) : Vector3 :=
  default Vector3_zero (last (positions request)).

Module ZoneRoutePlanner.
Section planner.
Context `{LM : Libm} `{DG : Digest}.

Definition manifest : PluginManifest.t :=
  _manifest "route.zone" PluginKind.ROUTE_PLANNER {["ZONE"; "OBSTACLE_AWARE"]} ∅.

(** [ZoneTaskPlanner()] *)
Definition _planner : ZoneTaskPlanner.t := ZoneTaskPlanner.mk (flit 4 10) (flit 2 10) f1.

Definition zone_minimum (request : RoutePlanRequest.t) : Vector3 :=
  let target := last_target request in
  default (mkVector3 (fsub (v_x target) (flit 1 100)) (fsub (v_y target) (flit 1 100)) (v_z target))
    (RoutePlanRequest.zone_minimum_m request).
Definition zone_maximum (request : RoutePlanRequest.t) : Vector3 :=
  let target := last_target request in
  default (mkVector3 (fadd (v_x target) (flit 1 100)) (fadd (v_y target) (flit 1 100)) (v_z target))
    (RoutePlanRequest.zone_maximum_m request).

Definition plan (request : RoutePlanRequest.t) : outcome RoutePlanArtifact.t :=
  let zone := ZoneDefinition.mk ("zone-" +:+ RoutePlanRequest.request_id request)
                (ZoneGeometry.mk (zone_minimum request) (zone_maximum request)) in
  zone ← checked "ZoneDefinition" (ZoneDefinition_valid zone) zone;
  let task := DeploymentTaskDefinition.mk (RoutePlanRequest.role_id request) "route-zone"
                (ZoneDefinition.zone_id zone) 100 (RoutePlanRequest.request_id request) (JObj []) ∅ f100
                (py_fmax (flit 41 10) (RoutePlanRequest.maximum_duration_s request)) (flit 1 100) f0 in
  task ← checked "DeploymentTaskDefinition" (DeploymentTaskDefinition_valid task) task;
  route ← Zones.plan _planner task zone (RoutePlanRequest.start_m request)
            ((fun o => ZoneObstacle.mk (RouteObstacle.obstacle_id o) (RouteObstacle.minimum_m o)
                         (RouteObstacle.maximum_m o)) <$> RoutePlanRequest.obstacles request)
            (py_fmax (v_z (last_target request)) (v_z (zone_minimum request)));
  _plan_polyline manifest request (ZoneTaskPlan.waypoints_m route) true.
End planner.
End ZoneRoutePlanner.

(** [math.ceil] *)
Definition py_ceil (x : float) : outcome Z :=
  match x with
  | S754_nan => Raise (ValueError "cannot convert float NaN to integer")
  | S754_infinity _ => Raise OverflowError
  | S754_zero _ => Ret 0
  | S754_finite s m e =>
      let v := if s then - Z.pos m else Z.pos m in
      Ret (if 0 <=? e then v * 2 ^ e else - (- v / 2 ^ (- e)))
  end.

Module CoverageRoutePlanner.
Section planner.
Context `{LM : Libm} `{DG : Digest}.

Definition manifest : PluginManifest.t :=
  _manifest "route.coverage" PluginKind.ROUTE_PLANNER {["COVERAGE"]} ∅.

(** The two ends of the row [index]; every other row is flown backwards. *)
Definition row (request : RoutePlanRequest.t) (minimum maximum : Vector3) (index : nat) : list Vector3 :=
  let z_m := v_z (last_target request) in
  let y_m := py_fmin (v_y maximum)
               (fadd (v_y minimum)
                  (fmul (float_of_Z (Z.of_nat index)) (RoutePlanRequest.coverage_spacing_m request))) in
  let ends := if Nat.even index then [v_x minimum; v_x maximum] else [v_x maximum; v_x minimum] in
  (fun x_m => mkVector3 x_m y_m z_m) <$> ends.

Definition plan (request : RoutePlanRequest.t) : outcome RoutePlanArtifact.t :=
  match RoutePlanRequest.zone_minimum_m request, RoutePlanRequest.zone_maximum_m request with
  | Some minimum, Some maximum =>
      quotient ← py_div (fsub (v_y maximum) (v_y minimum)) (RoutePlanRequest.coverage_spacing_m request);
      ceiling ← py_ceil quotient;
      let rows := Z.max 1 ceiling in
      _plan_polyline manifest request
        (concat (row request minimum maximum <$> seq 0 (Z.to_nat rows + 1))) true
  | _, _ => _blocked manifest request "COVERAGE_ZONE_UNAVAILABLE"
  end.
End planner.
End CoverageRoutePlanner.

Module TemporalRoutePlanner.
Section planner.
Context `{LM : Libm} `{DG : Digest}.

Definition manifest : PluginManifest.t :=
  _manifest "route.temporal" PluginKind.ROUTE_PLANNER {["TEMPORAL_SEPARATION"]}
    {["peer-route-reservations"]}.

(** The hold that clears every reservation the route conflicts with. *)
Definition hold_for (current existing : TemporalReservation.t) (shift_s : float) : float :=
  if _reservations_conflict current existing
  then py_fmax shift_s
         (fadd (fsub (TemporalReservation.ends_at_s existing) (TemporalReservation.starts_at_s current))
               (flit 1 1000))
  else shift_s.

Definition shift (currents existings : list TemporalReservation.t) : float :=
  foldl (fun s current => foldl (fun s existing => hold_for current existing s) s existings) f0 currents.

Definition shift_waypoint (shift_s : float) (w : RouteWaypoint.t) : RouteWaypoint.t :=
  RouteWaypoint.mk (RouteWaypoint.sequence w) (RouteWaypoint.position_m w)
    (fadd (RouteWaypoint.arrival_s w) shift_s) (fadd (RouteWaypoint.departure_s w) shift_s).

Definition shift_reservation (shift_s : float) (r : TemporalReservation.t) : TemporalReservation.t :=
  TemporalReservation.mk (TemporalReservation.reservation_id r) (TemporalReservation.role_id r)
    (fadd (TemporalReservation.starts_at_s r) shift_s) (fadd (TemporalReservation.ends_at_s r) shift_s)
    (TemporalReservation.minimum_m r) (TemporalReservation.maximum_m r).

Definition plan (request : RoutePlanRequest.t) : outcome RoutePlanArtifact.t :=
  base ← _plan_polyline manifest request (positions request) false;
  if RoutePlanArtifact.status base ≟ RoutePlanStatus.BLOCKED then Ret base
  else
    let shift_s := shift (RoutePlanArtifact.reservations base)
                     (RoutePlanRequest.existing_reservations request) in
    if fltb (RoutePlanRequest.maximum_hold_s request) shift_s
    then _blocked manifest request "TEMPORAL_CORRIDOR_UNAVAILABLE"
    else if fleb shift_s f0 then Ret base
    else
      _route_artifact manifest request RoutePlanStatus.READY
        (shift_waypoint shift_s <$> RoutePlanArtifact.waypoints base)
        (shift_reservation shift_s <$> RoutePlanArtifact.reservations base)
        (RoutePlanArtifact.route_length_m base)
        (fadd (RoutePlanArtifact.expected_duration_s base) shift_s)
        ["role held for " +:+ format_3f shift_s +:+ "s for temporal precedence"] [].
End planner.
End TemporalRoutePlanner.

Section registries.
Context `{LM : Libm} `{DG : Digest}.

Definition direct_planner : RoutePlanner.t :=
  RoutePlanner.mk DirectRoutePlanner.manifest DirectRoutePlanner.plan.
Definition zone_planner : RoutePlanner.t :=
  RoutePlanner.mk ZoneRoutePlanner.manifest ZoneRoutePlanner.plan.
Definition coverage_planner : RoutePlanner.t :=
  RoutePlanner.mk CoverageRoutePlanner.manifest CoverageRoutePlanner.plan.
Definition temporal_planner : RoutePlanner.t :=
  RoutePlanner.mk TemporalRoutePlanner.manifest TemporalRoutePlanner.plan.

Definition default_route_planner_registry : outcome (PluginRegistry.t RoutePlanner.t) :=
  PluginRegistry_new PluginKind.ROUTE_PLANNER
    [direct_planner; zone_planner; coverage_planner; temporal_planner].
End registries.

(** ** Fleet policies *)

Module DeterministicFleetPolicy.
Section planner.
Context `{DG : Digest}.

(** The launch order, the held roles and the second reason. *)
Definition arrange (request : FleetPolicyRequest.t) (active : list string) :
    list string * list string * list string :=
  let capability := FleetPolicyRequest.policy_capability request in
  if String.eqb capability "crossing-route" && (1 <? Z.of_nat (length active)) then
    let launch_order := py_sorted str_ltb active in
    (launch_order, tail launch_order, ["lexical role precedence resolves the initial crossing"])
  else if String.eqb capability "persistent-coverage" then
    (active, [], ["reserve roles remain connected, ready, and disarmed"])
  else if String.eqb capability "leader-follower" then
    (active, [], match active with
                 | leader :: _ => [leader +:+ " is the deterministic initial leader"]
                 | [] => []
                 end)
  else (active, [], []).

Definition decide (manifest : PluginManifest.t) (request : FleetPolicyRequest.t) :
    outcome FleetPolicyDecision.t :=
  let active := py_sorted str_ltb (FleetPolicyRequest.active_role_ids request) in
  let reserve := py_sorted str_ltb (FleetPolicyRequest.reserve_role_ids request) in
  let '(launch_order, held, reasons) := arrange request active in
  policy ← from_manifest manifest {[FleetPolicyRequest.policy_capability request]};
  let decision sha := FleetPolicyDecision.mk (FleetPolicyRequest.request_id request) policy
      launch_order held active reserve
      (("policy capability " +:+ FleetPolicyRequest.policy_capability request +:+ " selected") :: reasons)
      sha in
  let d := decision (canonical_sha256 (FleetPolicyDecision_payload (decision ""))) in
  checked "FleetPolicyDecision" (FleetPolicyDecision_valid d) d.
End planner.
End DeterministicFleetPolicy.

Section policies.
Context `{DG : Digest}.

Definition fleet_policy (capability : string) : FleetPolicy.t :=
  let manifest := _manifest ("fleet." +:+ capability) PluginKind.FLEET_POLICY {[capability]}
                    {["fleet-state"; "route-reservations"]} in
  FleetPolicy.mk manifest (DeterministicFleetPolicy.decide manifest).

Definition default_fleet_policy_registry : outcome (PluginRegistry.t FleetPolicy.t) :=
  PluginRegistry_new PluginKind.FLEET_POLICY
    (fleet_policy <$> ["persistent-coverage"; "crossing-route"; "leader-follower"; "independent-tasks"]).
End policies.

(** ** Recovery strategies *)

(** [value.lower().replace("_", "-")] *)
Definition lower_dashed (c : Ascii.ascii) : Ascii.ascii :=
  let n := Ascii.N_of_ascii c in
  if between 65 90 c then Ascii.ascii_of_N (n + 32)
  else if (n =? 95)%N then Ascii.ascii_of_N 45 else c.

Fixpoint string_map (f : Ascii.ascii -> Ascii.ascii) (s : string) : string :=
  match s with
  | EmptyString => EmptyString
  | String c s' => String (f c) (string_map f s')
  end.

Module DeterministicRecoveryStrategy.
Record t := mk {
  manifest : PluginManifest.t;
  trigger : RecoveryTrigger.t;
  preferred_action : RecoveryAction.t;
  fallback : RecoveryAction.t;
}.

Section strategy.
Context `{DG : Digest}.

Definition chosen (self : t) (request : RecoveryRequest.t) : RecoveryAction.t :=
  if preferred_action self ∈? RecoveryRequest.available_actions request
  then preferred_action self else fallback self.

Definition propose (self : t) (request : RecoveryRequest.t) : outcome RecoveryProposal.t :=
  if RecoveryRequest.trigger request ≠? trigger self
  then Raise (ValueError ("strategy does not handle trigger "
                          +:+ RecoveryTrigger_value (RecoveryRequest.trigger request)))
  else
    let action := chosen self request in
    if negb (action ∈? RecoveryRequest.available_actions request)
    then Raise (ValueError "no declared recovery action is available")
    else
      strategy ← from_manifest (manifest self)
                   {[RecoveryTrigger_value (RecoveryRequest.trigger request)]};
      let proposal sha := RecoveryProposal.mk (RecoveryRequest.request_id request) strategy action
          (RecoveryRequest.role_id request) (RecoveryRequest.vehicle_id request)
          ("deterministic response to " +:+ RecoveryTrigger_value (RecoveryRequest.trigger request))
          ["current vehicle and role identity"; "current execution authority";
           "Safety Kernel admission"]
          (RecoveryRequest.deadline_s request) (fallback self)
          ["trigger-observation"; "authority-snapshot"; "safety-admission"] sha in
      let p := proposal (canonical_sha256 (RecoveryProposal_payload (proposal ""))) in
      checked "RecoveryProposal" (RecoveryProposal_valid p) p.
End strategy.
End DeterministicRecoveryStrategy.

Section recovery.
Context `{DG : Digest}.

Definition recovery_strategy (entry : RecoveryTrigger.t * (RecoveryAction.t * RecoveryAction.t)) :
    RecoveryStrategy.t :=
  let '(trigger, (preferred, fallback)) := entry in
  let value := RecoveryTrigger_value trigger in
  let self := DeterministicRecoveryStrategy.mk
      (_manifest ("recovery." +:+ string_map lower_dashed value) PluginKind.RECOVERY_STRATEGY
         {[value]} {["vehicle-health"; "authority-state"]})
      trigger preferred fallback in
  RecoveryStrategy.mk (DeterministicRecoveryStrategy.manifest self)
    (DeterministicRecoveryStrategy.propose self).

Definition recovery_actions : list (RecoveryTrigger.t * (RecoveryAction.t * RecoveryAction.t)) :=
  [(RecoveryTrigger.LOW_BATTERY, (RecoveryAction.HANDOVER, RecoveryAction.LAND));
   (RecoveryTrigger.LEADER_LOSS, (RecoveryAction.LAND, RecoveryAction.ABORT_AND_LAND));
   (RecoveryTrigger.LINK_LOSS, (RecoveryAction.RETURN_HOME, RecoveryAction.LAND));
   (RecoveryTrigger.LOCALIZATION_LOSS, (RecoveryAction.LAND, RecoveryAction.EMERGENCY_STOP));
   (RecoveryTrigger.RESERVE_LOSS, (RecoveryAction.HOLD, RecoveryAction.LAND));
   (RecoveryTrigger.DOCK_UNAVAILABLE, (RecoveryAction.REPLAN, RecoveryAction.LAND));
   (RecoveryTrigger.COMMAND_TIMEOUT, (RecoveryAction.ABORT_AND_LAND, RecoveryAction.LAND));
   (RecoveryTrigger.ACKNOWLEDGEMENT_LOSS, (RecoveryAction.ABORT_AND_LAND, RecoveryAction.LAND))].

Definition default_recovery_registry : outcome (PluginRegistry.t RecoveryStrategy.t) :=
  PluginRegistry_new PluginKind.RECOVERY_STRATEGY (recovery_strategy <$> recovery_actions).
End recovery.
