(* ===== verification/Intents.v ===== *)
(** * Mission intents and their execution graphs ([planning/intent.py])

    [compile_execution_graph] checks the phases of an intent for cycles and
    unreachable phases and compiles them into nodes and edges. *)

From S2P Require Import Prelude Float64 Effects Contracts Artifacts Safety PlanContracts.

(** [_reject] *)
Notation Reject msg := (Err PREFLIGHT_FAILED msg) (only parsing).

Section compilation.
Context `{DG : Digest}.

(** ** Transitions by their phase *)

(** One transition is filed under its source. *)
Definition file_transition (phases : list string) (allowed : gset RecoveryAction.t)
    (outgoing : dict (list IntentTransition.t)) (transition : IntentTransition.t) :
    outcome (dict (list IntentTransition.t)) :=
  let from := IntentTransition.from_phase_id transition in
  if negb (from ∈? phases) then Reject "transition source phase is missing"
  else if match IntentTransition.to_phase_id transition with
          | Some to => negb (to ∈? phases)
          | None => false
          end
  then Reject "transition target phase is missing"
  else if match IntentTransition.recovery_action transition with
          | Some action => negb (action ∈? allowed)
          | None => false
          end
  then Reject "transition recovery is outside the safety declaration"
  else Ret (dict_set from (default [] (dict_get from outgoing) ++ [transition]) outgoing).

Fixpoint file_transitions (phases : list string) (allowed : gset RecoveryAction.t)
    (outgoing : dict (list IntentTransition.t)) (transitions : list IntentTransition.t) :
    outcome (dict (list IntentTransition.t)) :=
  match transitions with
  | [] => Ret outgoing
  | transition :: rest =>
      outgoing' ← file_transition phases allowed outgoing transition;
      file_transitions phases allowed outgoing' rest
  end.

(** ** The traversal *)

(** [reachable] and [visiting] *)
Notation marks := (gset string * gset string)%type.

(** The loop of [visit] over the transitions of a phase; [visit] is the recursive
    call. *)
Fixpoint visit_targets (visit : string -> marks -> outcome marks)
    (transitions : list IntentTransition.t) (m : marks) : outcome marks :=
  match transitions with
  | [] => Ret m
  | transition :: rest =>
      m' ← match IntentTransition.to_phase_id transition with
           | Some target => visit target m
           | None => Ret m
           end;
      visit_targets visit rest m'
  end.

(** [visit], with fuel for its recursion. *)
Fixpoint visit (outgoing : dict (list IntentTransition.t)) (fuel : nat) (phase_id : string)
    (m : marks) : outcome marks :=
  let '(reachable, visiting) := m in
  if phase_id ∈? visiting then Reject "execution graph contains a cycle"
  else if phase_id ∈? reachable then Ret m
  else
    match fuel with
    | O => Raise (OtherError "RecursionError")
    | S fuel' =>
        match dict_get phase_id outgoing with
        | None => Raise (OtherError "KeyError")
        | Some transitions =>
            m' ← visit_targets (visit outgoing fuel') transitions
                   ({[phase_id]} ∪ reachable, {[phase_id]} ∪ visiting);
            Ret (m'.1, m'.2 ∖ {[phase_id]})
        end
    end.

(** ** The graph *)

Definition node_of (route_by_role : dict RoutePlanArtifact.t) (phase : IntentPhase.t) :
    outcome ExecutionNode.t :=
  routes ← mapM (fun role_id => match dict_get role_id route_by_role with
                                | Some route => Ret (RoutePlanArtifact.route_sha256 route)
                                | None => Raise (OtherError "KeyError")
                                end) (IntentPhase.role_ids phase);
  let node := ExecutionNode.mk ("node-" +:+ IntentPhase.phase_id phase) (IntentPhase.phase_id phase)
                (IntentPhase.role_ids phase) routes (IntentPhase.maximum_duration_s phase)
                (IntentPhase.completion_conditions phase) in
  checked "ExecutionNode" (ExecutionNode_valid node) node.

Definition edge_of (transition : IntentTransition.t) : outcome ExecutionEdge.t :=
  let edge := ExecutionEdge.mk ("edge-" +:+ IntentTransition.transition_id transition)
                ("node-" +:+ IntentTransition.from_phase_id transition)
                (IntentTransition.kind transition)
                ((fun to => "node-" +:+ to) <$> IntentTransition.to_phase_id transition)
                (IntentTransition.maximum_retries transition)
                (IntentTransition.recovery_action transition) in
  checked "ExecutionEdge" (ExecutionEdge_valid edge) edge.

(** The fuel of the traversal: one call per phase, and one that finds the last
    phase visited already. *)
Definition visit_fuel (outgoing : dict (list IntentTransition.t)) : nat := S (length outgoing).

Definition compile_execution_graph (intent : MissionIntent.t) (routes : list RoutePlanArtifact.t)
    (selections : list PluginSelection.t) : outcome ExecutionGraph.t :=
  let phases := IntentPhase.phase_id <$> MissionIntent.phases intent in
  let route_by_role := dict_of RoutePlanArtifact.role_id id routes in
  if existsb (fun role_id => negb (dict_mem role_id route_by_role)) (MissionIntent.role_ids intent)
  then Reject "intent roles are missing compiled routes"
  else
    outgoing ← file_transitions phases
                 (MissionSafetyDeclaration.allowed_recovery_actions
                    (MissionIntent.safety_declaration intent))
                 (dict_of id (fun _ => []) phases) (MissionIntent.transitions intent);
    m ← visit outgoing (visit_fuel outgoing) (MissionIntent.entry_phase_id intent) (∅, ∅);
    if existsb (fun phase_id => negb (phase_id ∈? m.1)) phases
    then Reject "execution graph contains unreachable phases"
    else if existsb (fun item => bool_decide (item.2 = [])) outgoing
    then Reject "execution phase has no bounded terminal transition"
    else
      nodes ← mapM (node_of route_by_role) (MissionIntent.phases intent);
      edges ← mapM edge_of (MissionIntent.transitions intent);
      let graph sha := ExecutionGraph.mk ("graph-" +:+ MissionIntent.intent_id intent)
          (MissionIntent_sha256 intent) ("node-" +:+ MissionIntent.entry_phase_id intent)
          nodes edges selections sha in
      let g := graph (canonical_sha256 (ExecutionGraph_payload (graph ""))) in
      checked "ExecutionGraph" (ExecutionGraph_valid g) g.
End compilation.
