(* ===== verification/Graphs.v ===== *)
(** * Execution graphs: theorems

    The traversal of [compile_execution_graph] ends within its fuel, accepts an
    intent exactly if its phases form an acyclic graph in which every phase can
    be reached and left, and compiles that graph. *)

From stdpp Require Import relations.
From S2P Require Import Prelude Float64 Effects Contracts Artifacts Safety PlanContracts Intents.

(** ** The traversal *)

Section traversal.
Context (outgoing : dict (list IntentTransition.t)) (entry : string).

(** [q] is the target of a transition of [p]. *)
Definition leads (p q : string) : Prop :=
  exists ts t, dict_get p outgoing = Some ts /\ t ∈ ts /\ IntentTransition.to_phase_id t = Some q.

Definition phase_keys : gset string := list_to_set (dict_keys outgoing).

Lemma elem_of_phase_keys p : p ∈ phase_keys <-> is_Some (dict_get p outgoing).
Proof.
  unfold phase_keys. rewrite elem_of_list_to_set. pose proof (dict_get_None p outgoing) as HN.
  destruct (dict_get p outgoing) as [ts|].
  - split; [by exists ts|]. intros _. destruct (decide (p ∈ dict_keys outgoing)) as [|Hn]; [done|].
    by apply HN in Hn.
  - split; [|by intros [? ?]]. intros Hp. by destruct (proj1 HN eq_refl).
Qed.

(** A node without an infinite path is not on a cycle. *)
Lemma Acc_no_cycle p : Acc (flip leads) p -> ~ tc leads p p.
Proof.
  induction 1 as [p _ IH]. intros Hc. inversion Hc as [? ? Hpq|? q ? Hpq Hqp]; subst.
  - by apply (IH p Hpq).
  - apply (IH q Hpq). by eapply tc_r.
Qed.

(** The marks of a traversal: what was reached is reached from the entry, and
    what is reached and no longer being visited leads to such phases only and to
    no cycle. *)
Record marks_ok (R V : gset string) : Prop := {
  mo_visiting : V ⊆ R;
  mo_reached : forall p, p ∈ R -> rtc leads entry p;
  mo_closed : forall p q, p ∈ R -> p ∉ V -> leads p q -> q ∈ R /\ q ∉ V;
  mo_acyclic : forall p, p ∈ R -> p ∉ V -> Acc (flip leads) p;
}.

Notation cycle_error := (CrazySwarmError PREFLIGHT_FAILED "execution graph contains a cycle").

Definition visited (R V : gset string) (p : string) (o : outcome (gset string * gset string)) : Prop :=
  match o with
  | Ret (R', V') => V' = V /\ marks_ok R' V /\ R ⊆ R' /\ p ∈ R' /\ p ∉ V
  | Raise e => e = cycle_error /\ exists c, tc leads c c
  end.

(** Opening a phase, and closing it when its targets are done. *)
Lemma marks_open R V p :
  marks_ok R V -> p ∉ R -> rtc leads entry p -> marks_ok ({[p]} ∪ R) ({[p]} ∪ V).
Proof.
  intros [H1 H2 H3 H4] Hp Hr. split.
  - set_solver.
  - intros q [->%elem_of_singleton|Hq]%elem_of_union; [done|by apply H2].
  - intros q r [->%elem_of_singleton|Hq]%elem_of_union Hv; [set_solver|].
    intros Hl. destruct (H3 q r Hq ltac:(set_solver) Hl). set_solver.
  - intros q [->%elem_of_singleton|Hq]%elem_of_union Hv; [set_solver|]. apply H4; set_solver.
Qed.

Lemma marks_close R V p :
  marks_ok R ({[p]} ∪ V) -> p ∉ V -> p ∈ R ->
  (forall q, leads p q -> q ∈ R /\ q ∉ {[p]} ∪ V) -> marks_ok R V.
Proof.
  intros [H1 H2 H3 H4] Hp Hin Hq. split.
  - set_solver.
  - done.
  - intros x y Hx Hxv Hl. destruct (decide (x = p)) as [->|Hne].
    + destruct (Hq y Hl). set_solver.
    + destruct (H3 x y Hx ltac:(set_solver) Hl). set_solver.
  - intros x Hx Hxv. destruct (decide (x = p)) as [->|Hne]; [|apply H4; set_solver].
    constructor. intros y Hl. destruct (Hq y Hl). by apply H4.
Qed.

Context (closed : forall p q, leads p q -> q ∈ phase_keys).

Lemma visit_targets_ok (f : string -> gset string * gset string -> outcome (gset string * gset string))
    V p ts R :
  (forall q R, marks_ok R V -> leads p q -> visited R V q (f q (R, V))) ->
  (forall t q, t ∈ ts -> IntentTransition.to_phase_id t = Some q -> leads p q) ->
  marks_ok R V ->
  match visit_targets f ts (R, V) with
  | Ret (R', V') => V' = V /\ marks_ok R' V /\ R ⊆ R' /\
      forall t q, t ∈ ts -> IntentTransition.to_phase_id t = Some q -> q ∈ R' /\ q ∉ V
  | Raise e => e = cycle_error /\ exists c, tc leads c c
  end.
Proof.
  intros Hf. revert R. induction ts as [|t ts IH]; intros R Hts Hm; simpl.
  { split_and!; [done..|]. intros t q Ht. by apply elem_of_nil in Ht. }
  destruct (IntentTransition.to_phase_id t) as [q|] eqn:Et; simpl.
  - assert (Hl : leads p q) by (eapply Hts; [left|done]).
    pose proof (Hf q R Hm Hl) as Hq. destruct (f q (R, V)) as [[R1 V1]|e]; simpl in *; [|done].
    destruct Hq as (-> & Hm1 & HR1 & Hq1 & Hq2).
    specialize (IH R1 (fun t' q' Ht' => Hts t' q' (list_elem_of_further _ _ _ Ht')) Hm1).
    destruct (visit_targets f ts (R1, V)) as [[R2 V2]|e]; [|done].
    destruct IH as (-> & Hm2 & HR2 & Hall). split_and!; [done|done|set_solver|].
    intros t' q' [->|Ht']%elem_of_cons E; [simplify_eq; set_solver|by eapply Hall].
  - specialize (IH R (fun t' q' Ht' => Hts t' q' (list_elem_of_further _ _ _ Ht')) Hm).
    destruct (visit_targets f ts (R, V)) as [[R2 V2]|e]; [|done].
    destruct IH as (-> & Hm2 & HR2 & Hall). split_and!; [done..|].
    intros t' q' [->|Ht']%elem_of_cons E; [congruence|by eapply Hall].
Qed.

(** A call ends within the fuel of the phases that are not being visited; it
    marks its phase, or there is a cycle. *)
Lemma visit_ok fuel p R V :
  marks_ok R V -> p ∈ phase_keys -> rtc leads entry p ->
  (forall v, v ∈ V -> tc leads v p) -> (size (phase_keys ∖ V) <= fuel)%nat ->
  visited R V p (visit outgoing fuel p (R, V)).
Proof.
  revert p R V. induction fuel as [|fuel IH]; intros p R V Hm Hp Hr Hpath Hsize;
    (destruct (decide (p ∈ V)) as [Hv|Hv]; [cbn [visit]; rewrite bool_decide_true by done; split; [done|];
       exists p; by apply Hpath|]);
    (destruct (decide (p ∈ R)) as [HR|HR]; [cbn [visit]; rewrite bool_decide_false, bool_decide_true by done;
       by split_and!|]); cbn [visit]; rewrite !bool_decide_false by done.
  { assert (Hin : p ∈ phase_keys ∖ V) by set_solver.
    assert (size (phase_keys ∖ V) <> 0%nat) by (apply size_non_empty_iff; set_solver). lia. }
  pose proof Hp as [ts Hts]%elem_of_phase_keys. rewrite Hts.
  assert (Hlead : forall t q, t ∈ ts -> IntentTransition.to_phase_id t = Some q -> leads p q).
  { intros t q ? ?. by exists ts, t. }
  assert (Hsub : (size (phase_keys ∖ ({[p]} ∪ V)) <= fuel)%nat).
  { apply Nat.lt_succ_r. eapply Nat.lt_le_trans; [|exact Hsize]. apply subset_size. set_solver. }
  pose proof (visit_targets_ok (visit outgoing fuel) ({[p]} ∪ V) p ts ({[p]} ∪ R)) as Hloop.
  cbn [mbind outcome_bind].
  destruct (visit_targets _ ts _) as [[R' V']|e]; simpl.
  - destruct Hloop as (-> & Hm' & HR' & Hall).
    { intros q R1 Hm1 Hl. apply IH; [done|by eapply closed| | |done].
      - eapply rtc_r; [exact Hr|done].
      - intros v [->%elem_of_singleton|Hv']%elem_of_union; [by apply tc_once|].
        eapply tc_r; [by apply Hpath|done]. }
    { exact Hlead. }
    { by apply marks_open. }
    split_and!; [set_solver| |set_solver|set_solver|done].
    apply (marks_close R' V p); [done|done|set_solver|].
    intros q (ts' & t & Hts' & Ht & Hq). simplify_eq. by eapply Hall.
  - apply Hloop; [|exact Hlead|by apply marks_open].
    intros q R1 Hm1 Hl. apply IH; [done|by eapply closed| | |done].
    + eapply rtc_r; [exact Hr|done].
    + intros v [->%elem_of_singleton|Hv']%elem_of_union; [by apply tc_once|].
      eapply tc_r; [by apply Hpath|done].
Qed.

(** The whole traversal. *)
Lemma visit_entry fuel :
  entry ∈ phase_keys -> (size phase_keys <= fuel)%nat ->
  match visit outgoing fuel entry (∅, ∅) with
  | Ret (R, V) =>
      (forall p, p ∈ R -> rtc leads entry p /\ ~ tc leads p p) /\
      (forall p, rtc leads entry p -> p ∈ R)
  | Raise e => e = cycle_error /\ exists c, tc leads c c
  end.
Proof.
  intros He Hf. pose proof (visit_ok fuel entry ∅ ∅) as H.
  assert (Hv : visited ∅ ∅ entry (visit outgoing fuel entry (∅, ∅))).
  { apply H; [|done|done|set_solver|by rewrite difference_empty_L]. split; set_solver. }
  destruct (visit outgoing fuel entry (∅, ∅)) as [[R V]|e]; [|done].
  destruct Hv as (-> & [_ H2 H3 H4] & _ & HR & _). split.
  - intros p Hp. split; [by apply H2|]. apply Acc_no_cycle, H4; set_solver.
  - apply rtc_ind_r; [done|]. intros y z _ Hyz Hy. by eapply (H3 y z).
Qed.
End traversal.

(** ** The specification of a graph *)

(** The phases of an intent, its steps, and what a transition must satisfy. *)
Definition phase_ids (intent : MissionIntent.t) : list string :=
  IntentPhase.phase_id <$> MissionIntent.phases intent.

Definition step (intent : MissionIntent.t) (p q : string) : Prop :=
  exists t, t ∈ MissionIntent.transitions intent /\ IntentTransition.from_phase_id t = p /\
    IntentTransition.to_phase_id t = Some q.

Definition allowed_actions (intent : MissionIntent.t) : gset RecoveryAction.t :=
  MissionSafetyDeclaration.allowed_recovery_actions (MissionIntent.safety_declaration intent).

Definition admitted (phases : list string) (allowed : gset RecoveryAction.t) (t : IntentTransition.t) :
    Prop :=
  IntentTransition.from_phase_id t ∈ phases /\
  (forall q, IntentTransition.to_phase_id t = Some q -> q ∈ phases) /\
  (forall a, IntentTransition.recovery_action t = Some a -> a ∈ allowed).

Record graph_ok (intent : MissionIntent.t) (routes : list RoutePlanArtifact.t) : Prop := {
  go_routes : forall role, role ∈ MissionIntent.role_ids intent ->
    exists route, route ∈ routes /\ RoutePlanArtifact.role_id route = role;
  go_transitions : forall t, t ∈ MissionIntent.transitions intent ->
    admitted (phase_ids intent) (allowed_actions intent) t;
  go_reachable : forall p, p ∈ phase_ids intent -> rtc (step intent) (MissionIntent.entry_phase_id intent) p;
  go_acyclic : forall p, ~ tc (step intent) p p;
  go_leaves : forall p, p ∈ phase_ids intent ->
    exists t, t ∈ MissionIntent.transitions intent /\ IntentTransition.from_phase_id t = p;
}.

(** ** Filing the transitions *)

Notation rejected e := (exists msg, e = CrazySwarmError PREFLIGHT_FAILED msg).

Lemma file_transition_ok phases allowed d t :
  match file_transition phases allowed d t with
  | Ret d' => admitted phases allowed t /\
      d' = dict_set (IntentTransition.from_phase_id t)
             (default [] (dict_get (IntentTransition.from_phase_id t) d) ++ [t]) d
  | Raise e => rejected e /\ ~ admitted phases allowed t
  end.
Proof.
  unfold file_transition, admitted.
  destruct (decide (IntentTransition.from_phase_id t ∈ phases)) as [Hf|Hf].
  2: { rewrite bool_decide_false by done. simpl. split; [by eexists|naive_solver]. }
  rewrite bool_decide_true by done. simpl.
  destruct (IntentTransition.to_phase_id t) as [q|]; [destruct (decide (q ∈ phases)) as [Hq|Hq]|].
  2: { rewrite bool_decide_false by done. simpl. split; [by eexists|naive_solver]. }
  1: rewrite bool_decide_true by done.
  all: simpl; destruct (IntentTransition.recovery_action t) as [a|];
    [destruct (decide (a ∈ allowed)); [rewrite bool_decide_true by done|rewrite bool_decide_false by done]|];
    simpl; (split; [|try done]); try (by eexists); try (intros (_ & _ & Ha); by eapply n, Ha);
    split_and!; [done|..]; naive_solver.
Qed.

Lemma filed_wf phases allowed ts d d' :
  dict_wf d -> file_transitions phases allowed d ts = Ret d' -> dict_wf d'.
Proof.
  revert d. induction ts as [|t ts IH]; intros d Hd; simpl; [by intros [= <-]|].
  pose proof (file_transition_ok phases allowed d t) as Ht.
  destruct (file_transition phases allowed d t) as [d1|]; simpl; [|done].
  destruct Ht as [_ ->]. apply IH. by apply dict_set_wf.
Qed.

Lemma file_transitions_ok phases allowed ts d :
  (forall p, p ∈ phases -> is_Some (dict_get p d)) ->
  match file_transitions phases allowed d ts with
  | Ret d' => (forall t, t ∈ ts -> admitted phases allowed t) /\
      forall p, dict_get p d' =
        (fun l => l ++ filter (fun t => IntentTransition.from_phase_id t = p) ts) <$> dict_get p d
  | Raise e => rejected e /\ ~ (forall t, t ∈ ts -> admitted phases allowed t)
  end.
Proof.
  revert d. induction ts as [|t ts IH]; intros d Hd; simpl.
  { split; [intros t Ht; by apply elem_of_nil in Ht|]. intros p. destruct (dict_get p d); simpl; [|done].
    by rewrite app_nil_r. }
  pose proof (file_transition_ok phases allowed d t) as Ht.
  destruct (file_transition phases allowed d t) as [d1|e]; simpl.
  2: { destruct Ht as [? Hn]. split; [done|]. intros Ha. apply Hn, Ha. left. }
  destruct Ht as [Ht ->].
  set (d1 := dict_set _ _ d). assert (Hd1 : forall p, p ∈ phases -> is_Some (dict_get p d1)).
  { intros p Hp. unfold d1. rewrite dict_get_set. case_decide; [done|by apply Hd]. }
  specialize (IH d1 Hd1). destruct (file_transitions phases allowed d1 ts) as [d2|e].
  - destruct IH as [Hall Hget]. split; [intros x [->|Hx]%elem_of_cons; auto|].
    intros p. rewrite Hget. unfold d1. rewrite dict_get_set, filter_cons.
    destruct Ht as [Hf _]. destruct (Hd _ Hf) as [l Hl].
    destruct (decide (p = IntentTransition.from_phase_id t)) as [->|Hne].
    + rewrite Hl, decide_True by done. simpl. by rewrite <- app_assoc.
    + by rewrite decide_False by done.
  - destruct IH as [? Hn]. split; [done|]. intros Ha. apply Hn. intros x Hx. apply Ha. by right.
Qed.

(** ** Compilation *)

Section compilation.
Context `{DG : Digest}.

(** The transitions filed under each phase are those of the intent. *)
Lemma filed_transitions intent outgoing :
  file_transitions (phase_ids intent) (allowed_actions intent)
    (dict_of id (fun _ => []) (phase_ids intent)) (MissionIntent.transitions intent) = Ret outgoing ->
  (forall t, t ∈ MissionIntent.transitions intent -> admitted (phase_ids intent) (allowed_actions intent) t) /\
  (forall p ts, dict_get p outgoing = Some ts ->
     p ∈ phase_ids intent /\
     ts = filter (fun t => IntentTransition.from_phase_id t = p) (MissionIntent.transitions intent)) /\
  (forall p, p ∈ phase_ids intent -> is_Some (dict_get p outgoing)).
Proof.
  intros Hf. pose proof (file_transitions_ok (phase_ids intent) (allowed_actions intent)
    (MissionIntent.transitions intent) (dict_of id (fun _ => []) (phase_ids intent))
    (fun p => dict_of_get id (fun _ => []) (phase_ids intent) p)) as H.
  rewrite Hf in H. destruct H as [Ha Hg]. split_and!; [done|..].
  - intros p ts Hp. rewrite Hg in Hp. destruct (dict_get p _) as [l|] eqn:E; [|done].
    apply dict_of_values in E as (x & Hx & <- & <-). by simplify_eq/=.
  - intros p Hp. rewrite Hg. destruct (dict_of_get id (fun _ : string => @nil IntentTransition.t)
      (phase_ids intent) p Hp) as [l Hl]. simpl in Hl. rewrite Hl. by eexists.
Qed.

Lemma leads_step intent outgoing p q :
  (forall p ts, dict_get p outgoing = Some ts ->
     p ∈ phase_ids intent /\
     ts = filter (fun t => IntentTransition.from_phase_id t = p) (MissionIntent.transitions intent)) ->
  (forall p, p ∈ phase_ids intent -> is_Some (dict_get p outgoing)) ->
  (forall t, t ∈ MissionIntent.transitions intent ->
     admitted (phase_ids intent) (allowed_actions intent) t) ->
  leads outgoing p q <-> step intent p q.
Proof.
  intros Hg Hs Ha. split.
  - intros (ts & t & Hp & Ht & Hq). destruct (Hg _ _ Hp) as [_ ->].
    apply list_elem_of_filter in Ht as [Hf Ht]. by exists t.
  - intros (t & Ht & Hf & Hq). destruct (Ha t Ht) as [Hin _]. rewrite Hf in Hin.
    destruct (Hs p Hin) as [ts Hts]. exists ts, t. split_and!; [done| |done].
    destruct (Hg _ _ Hts) as [_ ->]. by apply list_elem_of_filter.
Qed.

Lemma leads_target intent p q :
  (forall t, t ∈ MissionIntent.transitions intent ->
     admitted (phase_ids intent) (allowed_actions intent) t) ->
  step intent p q -> q ∈ phase_ids intent.
Proof. intros Ha (t & Ht & _ & Hq). destruct (Ha t Ht) as (_ & Hto & _). by apply Hto. Qed.

(** The graph that is built of an admissible intent. *)
Definition graph_matches (intent : MissionIntent.t) (routes : list RoutePlanArtifact.t)
    (g : ExecutionGraph.t) : Prop :=
  Forall2 (fun phase node => node_of (dict_of RoutePlanArtifact.role_id id routes) phase = Ret node)
    (MissionIntent.phases intent) (ExecutionGraph.nodes g) /\
  Forall2 (fun t edge => edge_of t = Ret edge) (MissionIntent.transitions intent) (ExecutionGraph.edges g) /\
  ExecutionGraph.entry_node_id g = "node-" +:+ MissionIntent.entry_phase_id intent.

Definition compiled (intent : MissionIntent.t) (routes : list RoutePlanArtifact.t)
    (o : outcome ExecutionGraph.t) : Prop :=
  match o with
  | Ret g => graph_ok intent routes /\ graph_matches intent routes g
  | Raise (CrazySwarmError code _) => code = PREFLIGHT_FAILED /\ ~ graph_ok intent routes
  | Raise (ValidationError _) => graph_ok intent routes
  | Raise _ => False
  end.

Lemma checked_compiled {A} intent routes model ok (a : A) (f : A -> outcome ExecutionGraph.t) :
  graph_ok intent routes -> (ok = true -> compiled intent routes (f a)) ->
  compiled intent routes (checked model ok a ≫= f).
Proof. intros Hg Hf. destruct ok; simpl; auto. Qed.

(** What can go wrong after the checks. *)
Lemma nodes_of_intent intent routes phase :
  graph_ok intent routes -> MissionIntent_valid intent = true -> phase ∈ MissionIntent.phases intent ->
  match node_of (dict_of RoutePlanArtifact.role_id id routes) phase with
  | Raise (ValidationError _) | Ret _ => True
  | Raise _ => False
  end.
Proof.
  intros Hg Hv Hp. unfold node_of.
  destruct (mapM _ (IntentPhase.role_ids phase)) as [l|e] eqn:E; simpl.
  { unfold checked. by destruct (ExecutionNode_valid _). }
  apply mapM_Raise in E as (role & Hr & He).
  unfold MissionIntent_valid in Hv. bool_to_prop.
  match goal with Hx : forallb (fun _ => forallb _ _) _ = true |- _ => rename Hx into Hroles end.
  rewrite forallb_forall in Hroles. specialize (Hroles phase (proj1 (list_elem_of_In _ _) Hp)).
  rewrite forallb_forall in Hroles. specialize (Hroles role (proj1 (list_elem_of_In _ _) Hr)).
  apply bool_decide_eq_true in Hroles. destruct (go_routes _ _ Hg role Hroles) as (route & Hin & <-).
  destruct (dict_of_get RoutePlanArtifact.role_id id routes route Hin) as [r Hr']. by rewrite Hr' in He.
Qed.

Lemma edge_of_outcome t :
  match edge_of t with Raise (ValidationError _) | Ret _ => True | Raise _ => False end.
Proof. unfold edge_of, checked. by destruct (ExecutionEdge_valid _). Qed.

Lemma compile_outcome intent routes selections :
  MissionIntent_valid intent = true ->
  compiled intent routes (compile_execution_graph intent routes selections).
Proof.
  intros Hv. unfold compile_execution_graph. fold (phase_ids intent) (allowed_actions intent).
  destruct (existsb _ (MissionIntent.role_ids intent)) eqn:Er.
  { split; [done|]. intros Hg. apply existsb_exists in Er as (role & Hr%list_elem_of_In & Hn).
    destruct (go_routes _ _ Hg role Hr) as (route & Hin & <-). unfold dict_mem in Hn.
    destruct (dict_of_get RoutePlanArtifact.role_id id routes route Hin) as [r Hr']. by rewrite Hr' in Hn. }
  pose proof (file_transitions_ok (phase_ids intent) (allowed_actions intent)
    (MissionIntent.transitions intent) (dict_of id (fun _ => []) (phase_ids intent))
    (fun p => dict_of_get id (fun _ => []) (phase_ids intent) p)) as Hf.
  pose proof (filed_transitions intent) as Hfiled.
  destruct (file_transitions _ _ _ _) as [outgoing|e] eqn:Efile; cbn [mbind outcome_bind].
  2: { destruct Hf as [[msg ->] Hn]. split; [done|]. intros Hg. apply Hn. apply Hg. }
  destruct (Hfiled outgoing eq_refl) as (Hadm & Hget & Hsome). clear Hf Hfiled.
  assert (Hwf : dict_wf outgoing) by (by eapply filed_wf, Efile; apply dict_of_wf).
  assert (Hls : forall p q, leads outgoing p q <-> step intent p q).
  { intros p q. by apply leads_step. }
  assert (Hkeys : forall p, p ∈ phase_keys outgoing <-> p ∈ phase_ids intent).
  { intros p. rewrite elem_of_phase_keys. split; [intros [ts Hts]; by eapply Hget|apply Hsome]. }
  assert (Hentry : MissionIntent.entry_phase_id intent ∈ phase_keys outgoing).
  { apply Hkeys. unfold MissionIntent_valid in Hv. bool_to_prop. by bool_to_prop. }
  assert (Hsize : (size (phase_keys outgoing) <= visit_fuel outgoing)%nat).
  { unfold visit_fuel, phase_keys. rewrite size_list_to_set by done. unfold dict_keys. rewrite length_fmap. lia. }
  pose proof (visit_entry outgoing (MissionIntent.entry_phase_id intent)) as Hvisit.
  specialize (Hvisit (fun p q Hpq => proj2 (Hkeys q) (leads_target _ _ _ Hadm (proj1 (Hls p q) Hpq)))
    (visit_fuel outgoing) Hentry Hsize).
  destruct (visit outgoing _ _ _) as [[R V]|e]; cbn [mbind outcome_bind fst].
  2: { destruct Hvisit as [-> [c Hc]]. split; [done|]. intros Hg. apply (go_acyclic _ _ Hg c).
       revert Hc. apply (tc_congruence id). intros p q. apply Hls. }
  destruct Hvisit as [Hreach Hall].
  destruct (existsb (fun phase_id => negb (phase_id ∈? R)) (phase_ids intent)) eqn:Eu.
  { split; [done|]. intros Hg. apply existsb_exists in Eu as (p & Hp%list_elem_of_In & Hn).
    bool_to_prop. apply Hn, Hall.
    eapply (rtc_congruence id); [|by apply Hg]. intros x y. apply Hls. }
  assert (Hin : forall p, p ∈ phase_ids intent -> p ∈ R).
  { intros p Hp. pose proof (existsb_false _ _ p Eu Hp) as Hn. by apply negb_false_iff, bool_decide_eq_true in Hn. }
  destruct (existsb _ outgoing) eqn:El.
  { split; [done|]. intros Hg. apply existsb_exists in El as ([p ts] & Hp%list_elem_of_In & Hn).
    bool_to_prop. simpl in Hn. subst ts.
    assert (Hd : dict_get p outgoing = Some []) by (by apply dict_elem_get).
    destruct (Hget _ _ Hd) as [Hph Hnil]. destruct (go_leaves _ _ Hg p Hph) as (t & Ht & Hf).
    assert (Hel : t ∈ filter (fun t => IntentTransition.from_phase_id t = p) (MissionIntent.transitions intent))
      by (by apply list_elem_of_filter). rewrite <- Hnil in Hel. by apply elem_of_nil in Hel. }
  assert (Hg : graph_ok intent routes).
  { split; [|done| | |].
    - intros role Hr. pose proof (existsb_false _ _ role Er Hr) as Hn. apply negb_false_iff in Hn. unfold dict_mem in Hn.
      destruct (dict_get role _) as [r|] eqn:E; [|done]. apply dict_of_values in E as (x & ? & ? & _). by exists x.
    - intros p Hp. eapply (rtc_congruence id); [|apply (Hreach p), Hin, Hp]. intros x y. apply Hls.
    - intros p Hc. assert (Hp : p ∈ phase_ids intent).
      { assert (Hs : exists q, step intent p q) by (inversion Hc; subst; eauto).
        destruct Hs as (q & t & Ht & <- & _). by apply Hadm. }
      destruct (Hreach p (Hin p Hp)) as [_ Hn]. apply Hn. revert Hc. apply (tc_congruence id). intros x y. apply Hls.
    - intros p Hp. destruct (Hsome p Hp) as [ts Hts]. pose proof (dict_get_elem _ _ _ Hts) as Hel.
      pose proof (existsb_false _ _ _ El Hel) as Hn. simpl in Hn. apply bool_decide_eq_false in Hn.
      destruct (Hget _ _ Hts) as [_ ->]. destruct (filter _ _) as [|t l] eqn:Ef; [done|].
      assert (Ht : t ∈ t :: l) by left. rewrite <- Ef in Ht. apply list_elem_of_filter in Ht as [? ?]. by exists t. }
  destruct (mapM _ (MissionIntent.phases intent)) as [nodes|e] eqn:En; cbn [mbind outcome_bind].
  2: { apply mapM_Raise in En as (phase & Hp & He). pose proof (nodes_of_intent intent routes phase Hg Hv Hp) as Ho.
       rewrite He in Ho. by destruct e. }
  destruct (mapM edge_of _) as [edges|e] eqn:Ee; cbn [mbind outcome_bind].
  2: { apply mapM_Raise in Ee as (t & _ & He). pose proof (edge_of_outcome t) as Ho.
       rewrite He in Ho. by destruct e. }
  unfold checked. destruct (ExecutionGraph_valid _); [|done]. split; [done|].
  split_and!; [by apply mapM_Ret|by apply mapM_Ret|done].
Qed.

(** C31: the compiler rejects exactly the intents without a flyable graph. A valid
    intent is rejected if and only if a role has no route, a transition leaves the
    declared phases or recovery actions, the phases contain a cycle, or some phase
    cannot be reached from the entry or cannot be left. *)
Theorem graph_rejected_exactly intent routes selections :
  MissionIntent_valid intent = true ->
  (exists msg, compile_execution_graph intent routes selections = Err PREFLIGHT_FAILED msg) <->
  ~ graph_ok intent routes.
Proof.
  intros Hv. pose proof (compile_outcome intent routes selections Hv) as H. split.
  - intros [msg E]. rewrite E in H. apply H.
  - intros Hn. unfold compiled in H.
    destruct (compile_execution_graph _ _ _) as [g|[]]; try done; try (by destruct H).
    destruct H as [-> _]. by eexists.
Qed.

(** C32: the traversal ends. For a valid intent the recursion of the compiler stays
    within one call per phase and finds every phase it looks up: it never fails
    for a lack of fuel or a missing key. *)
Theorem graph_compilation_ends intent routes selections name :
  MissionIntent_valid intent = true ->
  compile_execution_graph intent routes selections <> Raise (OtherError name).
Proof.
  intros Hv E. pose proof (compile_outcome intent routes selections Hv) as H. by rewrite E in H.
Qed.

(** The edges of a graph. *)
Definition graph_edge (g : ExecutionGraph.t) (a b : string) : Prop :=
  exists e, e ∈ ExecutionGraph.edges g /\ ExecutionEdge.from_node_id e = a /\
    ExecutionEdge.to_node_id e = Some b.

Notation node p := ("node-" +:+ p).

Lemma edge_of_Ret t e :
  edge_of t = Ret e ->
  ExecutionEdge.from_node_id e = node (IntentTransition.from_phase_id t) /\
  ExecutionEdge.to_node_id e = (fun to => node to) <$> IntentTransition.to_phase_id t.
Proof. by intros [_ <-]%checked_Ret. Qed.

Lemma graph_edge_step intent routes g a b :
  graph_matches intent routes g ->
  graph_edge g a b <-> exists p q, a = node p /\ b = node q /\ step intent p q.
Proof.
  intros (_ & He & _). split.
  - intros (e & Hin & <- & Hto). destruct (Forall2_elem_r _ _ _ _ He Hin) as (t & Ht & Hed).
    apply edge_of_Ret in Hed as [-> Hed]. rewrite Hto in Hed.
    destruct (IntentTransition.to_phase_id t) as [q|] eqn:Eq; simplify_eq/=.
    eexists _, q. split_and!; [done..|]. by exists t.
  - intros (p & q & -> & -> & t & Ht & <- & Hq).
    destruct (Forall2_elem_l _ _ _ _ He Ht) as (e & Hin & Hed). apply edge_of_Ret in Hed as [Hf Hto].
    exists e. split_and!; [done..|]. by rewrite Hto, Hq.
Qed.

(** A path between nodes is a path between their phases. *)
Lemma graph_cycle intent g p q :
  (forall a b, graph_edge g a b <-> exists p q, a = node p /\ b = node q /\ step intent p q) ->
  tc (graph_edge g) (node p) (node q) -> tc (step intent) p q.
Proof.
  intros He. generalize (eq_refl (node p)). generalize (node p) at 1 3 as a. intros a Ha H.
  revert p Ha. remember (node q) as b eqn:Hb. induction H as [a b Hab|a c b Hac _ IH]; intros p Ha; subst.
  - apply He in Hab as (p' & q' & Hp & Hq & Hs).
    apply (inj _) in Hp, Hq. subst. by apply tc_once.
  - apply He in Hac as (p' & q' & Hp & -> & Hs). apply (inj _) in Hp. subst.
    eapply tc_l; [exact Hs|]. by apply IH.
Qed.

Lemma node_of_Ret routes phase n :
  node_of (dict_of RoutePlanArtifact.role_id id routes) phase = Ret n ->
  ExecutionNode.node_id n = node (IntentPhase.phase_id phase) /\
  ExecutionNode.phase_id n = IntentPhase.phase_id phase /\
  ExecutionNode.role_ids n = IntentPhase.role_ids phase /\
  Forall2 (fun role sha => exists route, route ∈ routes /\ RoutePlanArtifact.role_id route = role /\
             RoutePlanArtifact.route_sha256 route = sha)
    (ExecutionNode.role_ids n) (ExecutionNode.route_sha256s n).
Proof.
  unfold node_of. destruct (mapM _ _) as [shas|] eqn:E; cbn [mbind outcome_bind]; [|done].
  intros [_ <-]%checked_Ret. split_and!; [done..|]. simpl. apply mapM_Ret in E.
  eapply Forall2_impl; [exact E|]. intros role sha Hr. simpl in Hr.
  destruct (dict_get role _) as [route|] eqn:Hg; [|done]. injection Hr as <-.
  apply dict_of_values in Hg as (x & Hx & <- & Hid). unfold id in Hid. subst. by eexists.
Qed.

(** C33: a compiled graph can be flown from its entry. Its nodes are the phases of
    the intent with the digests of the routes of their roles; every node is
    reached from the entry node along the edges, no node lies on a cycle, and
    every node has an edge that leaves it. *)
Theorem compiled_graph_is_flyable intent routes selections g :
  MissionIntent_valid intent = true ->
  compile_execution_graph intent routes selections = Ret g ->
  ExecutionNode.phase_id <$> ExecutionGraph.nodes g = phase_ids intent /\
  forall n, n ∈ ExecutionGraph.nodes g ->
    ExecutionNode.node_id n = node (ExecutionNode.phase_id n) /\
    Forall2 (fun role sha => exists route, route ∈ routes /\ RoutePlanArtifact.role_id route = role /\
               RoutePlanArtifact.route_sha256 route = sha)
      (ExecutionNode.role_ids n) (ExecutionNode.route_sha256s n) /\
    rtc (graph_edge g) (ExecutionGraph.entry_node_id g) (ExecutionNode.node_id n) /\
    ~ tc (graph_edge g) (ExecutionNode.node_id n) (ExecutionNode.node_id n) /\
    exists e, e ∈ ExecutionGraph.edges g /\ ExecutionEdge.from_node_id e = ExecutionNode.node_id n.
Proof.
  intros Hv E. pose proof (compile_outcome intent routes selections Hv) as H. rewrite E in H.
  destruct H as [Hg Hm]. pose proof Hm as (Hn & He & Hentry).
  pose proof (fun a b => graph_edge_step intent routes g a b Hm) as Hedge. split.
  - unfold phase_ids. clear -Hn. induction Hn as [|phase n phases nodes Hpn _ IH]; [done|].
    rewrite !fmap_cons, IH. f_equal. by apply node_of_Ret in Hpn as (_ & -> & _).
  - intros n Hin. destruct (Forall2_elem_r _ _ _ _ Hn Hin) as (phase & Hp & Hnode).
    apply node_of_Ret in Hnode as (-> & Hid & _ & Hroutes). rewrite Hid.
    assert (Hph : IntentPhase.phase_id phase ∈ phase_ids intent) by (by apply list_elem_of_fmap_2).
    split_and!; [done|done|..].
    + rewrite Hentry. apply (rtc_congruence (R := step intent) (fun p => node p)); [|by apply Hg].
      intros p q Hpq. apply Hedge. by exists p, q.
    + intros Hc. apply (go_acyclic _ _ Hg (IntentPhase.phase_id phase)).
      eapply graph_cycle; [exact Hedge|exact Hc].
    + destruct (go_leaves _ _ Hg _ Hph) as (t & Ht & Hf).
      destruct (Forall2_elem_l _ _ _ _ He Ht) as (e & Hel & Hed). apply edge_of_Ret in Hed as [Hfrom _].
      exists e. split; [done|]. by rewrite Hfrom, Hf.
Qed.
End compilation.

(** ** Concrete intents *)

Module Examples.
#[local] Existing Instance example_digest.

Definition sha : string := "aaaaaaaaaaaaaaaaaaaaaaaaaaaaaaaaaaaaaaaaaaaaaaaaaaaaaaaaaaaaaaaa".

Definition declaration : MissionSafetyDeclaration.t :=
  MissionSafetyDeclaration.mk "safety" (SafetyPolicyOverride.mk None None None None None None None None
    None None None None None None None None) ∅ [] {[RecoveryAction.LAND]}.

Definition phase (name : string) : IntentPhase.t :=
  IntentPhase.mk name "fly" ["scout"] RouteCapability.DIRECT ["arrived"] f1 false.

Definition transition (name from : string) (kind : TransitionKind.t) (to : option string) : IntentTransition.t :=
  IntentTransition.mk name from kind to 0 None.

(** Search, then return; from the search the mission may also land at once. *)
Definition intent (more : list IntentTransition.t) : MissionIntent.t :=
  MissionIntent.mk "patrol" "mission" "search and return" ["done"] ["scout"]
    [phase "search"; phase "return"] "search"
    ([transition "t1" "search" TransitionKind.COMPLETE (Some "return");
      transition "t2" "search" TransitionKind.LAND None;
      transition "t3" "return" TransitionKind.COMPLETE None] ++ more)
    declaration "DECLARED_INTENT".

Definition route : RoutePlanArtifact.t :=
  RoutePlanArtifact.mk "route-1" "scout" (PluginSelection.mk "route.direct" PluginKind.ROUTE_PLANNER "1.0.0"
    ∅ sha sha) RouteCapability.DIRECT RoutePlanStatus.READY [] [] f0 f0 f0 f0 [] [] [] None sha.

Definition graph : outcome ExecutionGraph.t := compile_execution_graph (intent []) [route] [].

(** A transition back to the search makes a cycle. *)
Definition looping : MissionIntent.t :=
  intent [transition "t4" "return" TransitionKind.RESUME (Some "search")].

Example looping_rejected :
  compile_execution_graph looping [route] []
  = Err PREFLIGHT_FAILED "execution graph contains a cycle".
Proof. vm_compute. reflexivity. Qed.

Lemma rejected_witness :
  MissionIntent_valid looping = true /\ ~ graph_ok looping [route].
Proof.
  assert (Hv : MissionIntent_valid looping = true) by (vm_compute; reflexivity).
  split; [exact Hv|]. apply (graph_rejected_exactly looping [route] [] Hv).
  exists "execution graph contains a cycle". vm_compute. reflexivity.
Defined.

Lemma ends_witness :
  MissionIntent_valid looping = true /\
  compile_execution_graph looping [route] [] <> Raise (OtherError "RecursionError").
Proof.
  assert (Hv : MissionIntent_valid looping = true) by (vm_compute; reflexivity).
  split; [exact Hv|]. apply (graph_compilation_ends looping [route] [] "RecursionError" Hv).
Defined.

Lemma flyable_witness :
  exists g, graph = Ret g /\ ExecutionNode.phase_id <$> ExecutionGraph.nodes g = ["search"; "return"].
Proof.
  assert (Hv : MissionIntent_valid (intent []) = true) by (vm_compute; reflexivity).
  destruct graph as [g|e] eqn:E; [|exfalso; vm_compute in E; discriminate E].
  exists g. split; [reflexivity|].
  apply (compiled_graph_is_flyable (intent []) [route] [] g Hv E).
Defined.
End Examples.
