(* ===== verification/Trajectory.v ===== *)
(** * Goals and trajectories ([domain/goals.py], [domain/trajectory.py])

    The time-parameterised trajectories a mission plan is accepted with: their
    contracts, the quintic sampling of a segment, the binary search for the
    segment of a sample time and the schedule of an execution program. *)

From S2P Require Import Prelude Float64 Effects Contracts Artifacts.

(** ** Landing goals ([domain/goals.py]) *)

Module GoalFailureAction.
Inductive t := ABORT_AND_LAND | DIVERT.
End GoalFailureAction.
#[export] Instance GoalFailureAction_eq_dec : EqDecision GoalFailureAction.t.
Proof. solve_decision. Defined.

Module GoalCaptureOutcome.
Inductive t := CAPTURED | DIVERTED | REJECTED | TERMINAL_MISS.
End GoalCaptureOutcome.
#[export] Instance GoalCaptureOutcome_eq_dec : EqDecision GoalCaptureOutcome.t.
Proof. solve_decision. Defined.

Module LandingGoalRegion.
Record t := mk {
  goal_id : string;
  role_id : string;
  vehicle_id : string;
  landing_target_m : Vector3;
  approach_point_m : Vector3;
  horizontal_tolerance_m : float;
  vertical_tolerance_m : float;
  maximum_capture_speed_m_s : float;
  maximum_correction_attempts : Z;
  correction_duration_s : float;
  failure_action : GoalFailureAction.t;
  diversion_target_m : option Vector3;
}.
End LandingGoalRegion.

(** [abs_tol=1e-9] *)
Definition close9 (a b : float) : bool := isclose a b (flit 1 1000000000).

(** [Field(gt=0.0, le=hi)] *)
Definition gt0_le (hi x : float) : bool := fltb f0 x && fleb x hi.

(** Field constraints and [valid_approach_and_fallback]. *)
Definition LandingGoalRegion_valid (g : LandingGoalRegion.t) : bool :=
  is_identifier (LandingGoalRegion.goal_id g) && is_identifier (LandingGoalRegion.role_id g)
  && is_identifier (LandingGoalRegion.vehicle_id g)
  && gt0_le f1 (LandingGoalRegion.horizontal_tolerance_m g)
  && gt0_le (flit 5 10) (LandingGoalRegion.vertical_tolerance_m g)
  && gt0_le f1 (LandingGoalRegion.maximum_capture_speed_m_s g)
  && (0 <=? LandingGoalRegion.maximum_correction_attempts g)
  && (LandingGoalRegion.maximum_correction_attempts g <=? 5)
  && gt0_le (float_of_Z 10) (LandingGoalRegion.correction_duration_s g)
  && negb (fleb (v_z (LandingGoalRegion.approach_point_m g))
                (v_z (LandingGoalRegion.landing_target_m g)))
  && close9 (v_x (LandingGoalRegion.approach_point_m g))
            (v_x (LandingGoalRegion.landing_target_m g))
  && close9 (v_y (LandingGoalRegion.approach_point_m g))
            (v_y (LandingGoalRegion.landing_target_m g))
  && negb ((LandingGoalRegion.failure_action g ≟ GoalFailureAction.DIVERT)
           && is_none (LandingGoalRegion.diversion_target_m g))
  && negb ((LandingGoalRegion.failure_action g ≟ GoalFailureAction.ABORT_AND_LAND)
           && is_some (LandingGoalRegion.diversion_target_m g)).

Module GoalCaptureAttempt.
Record t := mk {
  attempt : Z;
  estimated_position_m : option Vector3;
  truth_position_m : option Vector3;
  speed_m_s : option float;
  horizontal_error_m : option float;
  vertical_error_m : option float;
  horizontal_capture_margin_m : option float;
  vertical_capture_margin_m : option float;
  speed_capture_margin_m_s : option float;
  aligned : bool;
}.
End GoalCaptureAttempt.

Definition GoalCaptureAttempt_valid (a : GoalCaptureAttempt.t) : bool :=
  (1 <=? GoalCaptureAttempt.attempt a) && opt_ok ge0 (GoalCaptureAttempt.speed_m_s a)
  && opt_ok ge0 (GoalCaptureAttempt.horizontal_error_m a)
  && opt_ok ge0 (GoalCaptureAttempt.vertical_error_m a).

Module GoalCaptureRecord.
Record t := mk {
  goal : LandingGoalRegion.t;
  attempts : list GoalCaptureAttempt.t;
  attempt_count : Z;
  descent_authorized : bool;
  outcome : GoalCaptureOutcome.t;
  terminal_estimated_position_m : option Vector3;
  terminal_truth_position_m : option Vector3;
  terminal_speed_m_s : option float;
  target_center_horizontal_error_m : option float;
  alignment_completed_source_timestamp_s : option float;
  pre_contact_vertical_speed_m_s : option float;
  contact_source_timestamp_s : option float;
  disarmed_source_timestamp_s : option float;
  post_contact_settling_s : option float;
  motors_cut_after_contact : option bool;
  correction_count : Z;
  terminal_state : option string;
  terminal_contact : string;
}.
End GoalCaptureRecord.

(** Field constraints and [attempts_and_outcome_agree]. *)
Definition GoalCaptureRecord_valid (r : GoalCaptureRecord.t) : bool :=
  LandingGoalRegion_valid (GoalCaptureRecord.goal r)
  && forallb GoalCaptureAttempt_valid (GoalCaptureRecord.attempts r)
  && (1 <=? GoalCaptureRecord.attempt_count r)
  && opt_ok ge0 (GoalCaptureRecord.terminal_speed_m_s r)
  && opt_ok ge0 (GoalCaptureRecord.target_center_horizontal_error_m r)
  && opt_ok ge0 (GoalCaptureRecord.alignment_completed_source_timestamp_s r)
  && opt_ok ge0 (GoalCaptureRecord.pre_contact_vertical_speed_m_s r)
  && opt_ok ge0 (GoalCaptureRecord.contact_source_timestamp_s r)
  && opt_ok ge0 (GoalCaptureRecord.disarmed_source_timestamp_s r)
  && opt_ok ge0 (GoalCaptureRecord.post_contact_settling_s r)
  && (0 <=? GoalCaptureRecord.correction_count r)
  && (GoalCaptureRecord.terminal_contact r
      ∈? ["SIMULATED_GROUND_CONTACT"; "NO_CONTACT_EVIDENCE"; "DESCENT_NOT_AUTHORIZED"])
  && (GoalCaptureRecord.attempt_count r =? Z.of_nat (length (GoalCaptureRecord.attempts r)))
  && Bool.eqb (GoalCaptureRecord.descent_authorized r)
       (GoalCaptureRecord.outcome r ≠? GoalCaptureOutcome.REJECTED).

Definition landing_goal_json (g : LandingGoalRegion.t) : json := JObj [
  ("schema_version", JInt 1);
  ("goal_id", JStr (LandingGoalRegion.goal_id g));
  ("role_id", JStr (LandingGoalRegion.role_id g));
  ("vehicle_id", JStr (LandingGoalRegion.vehicle_id g));
  ("frame", JStr "world");
  ("landing_target_m", vector_json (LandingGoalRegion.landing_target_m g));
  ("approach_point_m", vector_json (LandingGoalRegion.approach_point_m g));
  ("horizontal_tolerance_m", JFloat (LandingGoalRegion.horizontal_tolerance_m g));
  ("vertical_tolerance_m", JFloat (LandingGoalRegion.vertical_tolerance_m g));
  ("maximum_capture_speed_m_s", JFloat (LandingGoalRegion.maximum_capture_speed_m_s g));
  ("maximum_correction_attempts", JInt (LandingGoalRegion.maximum_correction_attempts g));
  ("correction_duration_s", JFloat (LandingGoalRegion.correction_duration_s g));
  ("failure_action", JStr (match LandingGoalRegion.failure_action g with
                           | GoalFailureAction.ABORT_AND_LAND => "ABORT_AND_LAND"
                           | GoalFailureAction.DIVERT => "DIVERT" end));
  ("diversion_target_m", json_opt vector_json (LandingGoalRegion.diversion_target_m g))].

(** ** Trajectories ([domain/trajectory.py]) *)

Module TrajectorySetpoint.
Record t := mk {
  position_m : Vector3;
  velocity_m_s : Vector3;
  acceleration_m_s2 : Vector3;
  yaw_rad : float;
  yaw_rate_rad_s : float;
}.
End TrajectorySetpoint.

Module TrajectoryPoint.
Record t := mk {
  sequence : Z;
  time_from_start_s : float;
  position_m : Vector3;
  velocity_m_s : Vector3;
  acceleration_m_s2 : Vector3;
  yaw_rad : float;
  yaw_rate_rad_s : float;
}.
End TrajectoryPoint.

Definition v_finite (v : Vector3) : bool :=
  is_finite (v_x v) && is_finite (v_y v) && is_finite (v_z v).

(** Field constraints and [finite_values]. *)
Definition TrajectoryPoint_valid (p : TrajectoryPoint.t) : bool :=
  (1 <=? TrajectoryPoint.sequence p) && ge0 (TrajectoryPoint.time_from_start_s p)
  && is_finite (TrajectoryPoint.time_from_start_s p)
  && v_finite (TrajectoryPoint.position_m p) && v_finite (TrajectoryPoint.velocity_m_s p)
  && v_finite (TrajectoryPoint.acceleration_m_s2 p)
  && is_finite (TrajectoryPoint.yaw_rad p) && is_finite (TrajectoryPoint.yaw_rate_rad_s p).

Module TimeParameterizedTrajectory.
Record t := mk {
  trajectory_id : string;
  role_id : string;
  vehicle_id : string;
  route_sha256 : string;
  points : list TrajectoryPoint.t;
  declared_stop_sequences : list Z;
  completion_position_tolerance_m : float;
  completion_velocity_tolerance_m_s : float;
}.
End TimeParameterizedTrajectory.

Module ExecutionClockMode.
Inductive t := ACCELERATED | REALTIME.
End ExecutionClockMode.

(** The literal fields of the contract have one value each. *)
Module ExecutionClockContract.
Record t := mk {
  source_policy : SourceClockPolicy.t;
  supported_modes : list ExecutionClockMode.t;
}.
End ExecutionClockContract.

(** [ExecutionClockContract()] *)
Definition ExecutionClockContract_default : ExecutionClockContract.t :=
  ExecutionClockContract.mk SourceClockPolicy.ACCELERATED_OR_REALTIME
    [ExecutionClockMode.ACCELERATED; ExecutionClockMode.REALTIME].

(** Execution programs: one accepted operation per phase of a role. *)

Module ExecutionOperation.
Inductive t :=
| Takeoff (sequence : Z) (starts_at_s ends_at_s target_height_m : float)
| GroundWait (sequence : Z) (starts_at_s ends_at_s : float)
| Hold (sequence : Z) (starts_at_s ends_at_s : float)
| Trajectory (sequence : Z) (starts_at_s ends_at_s : float)
    (trajectory_sha256 : string) (trajectory : TimeParameterizedTrajectory.t)
| Land (sequence : Z) (starts_at_s ends_at_s target_height_m : float)
    (goal_region : option LandingGoalRegion.t).

Definition sequence (o : t) : Z :=
  match o with
  | Takeoff n _ _ _ | GroundWait n _ _ | Hold n _ _ | Trajectory n _ _ _ _ | Land n _ _ _ _ => n
  end.

Definition starts_at_s (o : t) : float :=
  match o with
  | Takeoff _ s _ _ | GroundWait _ s _ | Hold _ s _ | Trajectory _ s _ _ _ | Land _ s _ _ _ => s
  end.

Definition ends_at_s (o : t) : float :=
  match o with
  | Takeoff _ _ e _ | GroundWait _ _ e | Hold _ _ e | Trajectory _ _ e _ _ | Land _ _ e _ _ => e
  end.
End ExecutionOperation.

Module AcceptedExecutionProgram.
Record t := mk {
  program_id : string;
  mission_source_sha256 : string;
  role_id : string;
  vehicle_id : string;
  operations : list ExecutionOperation.t;
  route_sha256s : list string;
  schedule_duration_s : float;
  contingency_reserve_s : float;
  recovery_reserve_s : float;
  execution_timeout_s : float;
  clock : ExecutionClockContract.t;
}.
End AcceptedExecutionProgram.

(** [zip(l, l[1:])] *)
Definition adjacent {A} (l : list A) : list (A * A) := zip l (tail l).

(** [tuple(range(1, n + 1))] *)
Definition one_to (n : nat) : list Z := Z.of_nat <$> seq 1 n.

Section trajectory.
Context `{LM : Libm} `{DG : Digest}.

(** [_length] *)
Definition v_length (v : Vector3) : outcome float :=
  x ← py_square (v_x v);
  y ← py_square (v_y v);
  z ← py_square (v_z v);
  py_sqrt (fadd (fadd x y) z).

Definition quintic_sample
    (start start_velocity start_acceleration end_ end_velocity end_acceleration
     duration_s elapsed_s : float) : outcome (float * float * float) :=
  let lit := float_of_Z in
  let a0 := start in
  let a1 := start_velocity in
  let a2 := fdiv_ieee start_acceleration (lit 2) in
  d2 ← py_pow duration_s (lit 2);
  let c0 := fsub end_ (fadd (fadd a0 (fmul a1 duration_s)) (fmul a2 d2)) in
  let c1 := fsub end_velocity (fadd a1 (fmul (fmul (lit 2) a2) duration_s)) in
  let c2 := fsub end_acceleration (fmul (lit 2) a2) in
  d3 ← py_pow duration_s (lit 3);
  a3 ← py_div (fadd (fsub (fmul (lit 10) c0) (fmul (fmul (lit 4) c1) duration_s))
                    (fmul (fmul (flit 5 10) c2) d2)) d3;
  d4 ← py_pow duration_s (lit 4);
  a4 ← py_div (fsub (fadd (fmul (lit (-15)) c0) (fmul (fmul (lit 7) c1) duration_s))
                    (fmul c2 d2)) d4;
  d5 ← py_pow duration_s (lit 5);
  a5 ← py_div (fadd (fsub (fmul (lit 6) c0) (fmul (fmul (lit 3) c1) duration_s))
                    (fmul (fmul (flit 5 10) c2) d2)) d5;
  let time_s := py_fmax f0 (py_fmin duration_s elapsed_s) in
  t2 ← py_pow time_s (lit 2);
  t3 ← py_pow time_s (lit 3);
  t4 ← py_pow time_s (lit 4);
  t5 ← py_pow time_s (lit 5);
  let position :=
    fadd (fadd (fadd (fadd (fadd a0 (fmul a1 time_s)) (fmul a2 t2)) (fmul a3 t3)) (fmul a4 t4))
         (fmul a5 t5) in
  let velocity :=
    fadd (fadd (fadd (fadd a1 (fmul (fmul (lit 2) a2) time_s)) (fmul (fmul (lit 3) a3) t2))
               (fmul (fmul (lit 4) a4) t3)) (fmul (fmul (lit 5) a5) t4) in
  let acceleration :=
    fadd (fadd (fadd (fmul (lit 2) a2) (fmul (fmul (lit 6) a3) time_s))
               (fmul (fmul (lit 12) a4) t2)) (fmul (fmul (lit 20) a5) t3) in
  Ret (position, velocity, acceleration).

Definition sample_trajectory_segment (start end_ : TrajectoryPoint.t) (sample_time_s : float) :
    outcome TrajectorySetpoint.t :=
  let duration_s :=
    fsub (TrajectoryPoint.time_from_start_s end_) (TrajectoryPoint.time_from_start_s start) in
  let elapsed_s := fsub sample_time_s (TrajectoryPoint.time_from_start_s start) in
  let axis_sample (axis : Vector3 -> float) :=
    quintic_sample
      (axis (TrajectoryPoint.position_m start)) (axis (TrajectoryPoint.velocity_m_s start))
      (axis (TrajectoryPoint.acceleration_m_s2 start))
      (axis (TrajectoryPoint.position_m end_)) (axis (TrajectoryPoint.velocity_m_s end_))
      (axis (TrajectoryPoint.acceleration_m_s2 end_)) duration_s elapsed_s in
  x ← axis_sample v_x;
  y ← axis_sample v_y;
  z ← axis_sample v_z;
  yaw ← quintic_sample (TrajectoryPoint.yaw_rad start) (TrajectoryPoint.yaw_rate_rad_s start) f0
          (TrajectoryPoint.yaw_rad end_) (TrajectoryPoint.yaw_rate_rad_s end_) f0
          duration_s elapsed_s;
  Ret {|
    TrajectorySetpoint.position_m := mkVector3 x.1.1 y.1.1 z.1.1;
    TrajectorySetpoint.velocity_m_s := mkVector3 x.1.2 y.1.2 z.1.2;
    TrajectorySetpoint.acceleration_m_s2 := mkVector3 x.2 y.2 z.2;
    TrajectorySetpoint.yaw_rad := yaw.1.1;
    TrajectorySetpoint.yaw_rate_rad_s := yaw.1.2;
  |}.

Definition point_json (p : TrajectoryPoint.t) : json := JObj [
  ("sequence", JInt (TrajectoryPoint.sequence p));
  ("time_from_start_s", JFloat (TrajectoryPoint.time_from_start_s p));
  ("position_m", vector_json (TrajectoryPoint.position_m p));
  ("velocity_m_s", vector_json (TrajectoryPoint.velocity_m_s p));
  ("acceleration_m_s2", vector_json (TrajectoryPoint.acceleration_m_s2 p));
  ("yaw_rad", JFloat (TrajectoryPoint.yaw_rad p));
  ("yaw_rate_rad_s", JFloat (TrajectoryPoint.yaw_rate_rad_s p))].

Definition trajectory_json (t : TimeParameterizedTrajectory.t) : json := JObj [
  ("schema_version", JInt 1);
  ("trajectory_id", JStr (TimeParameterizedTrajectory.trajectory_id t));
  ("role_id", JStr (TimeParameterizedTrajectory.role_id t));
  ("vehicle_id", JStr (TimeParameterizedTrajectory.vehicle_id t));
  ("route_sha256", JStr (TimeParameterizedTrajectory.route_sha256 t));
  ("frame", JStr "world");
  ("interpolation", JStr "QUINTIC_HERMITE_C2");
  ("points", JList (point_json <$> TimeParameterizedTrajectory.points t));
  ("declared_stop_sequences",
    JList (JInt <$> TimeParameterizedTrajectory.declared_stop_sequences t));
  ("completion_position_tolerance_m",
    JFloat (TimeParameterizedTrajectory.completion_position_tolerance_m t));
  ("completion_velocity_tolerance_m_s",
    JFloat (TimeParameterizedTrajectory.completion_velocity_tolerance_m_s t))].

(** [TimeParameterizedTrajectory.sha256] *)
Definition trajectory_sha256 (t : TimeParameterizedTrajectory.t) : string :=
  canonical_sha256 (trajectory_json t).

(** [self.points[-1].time_from_start_s] of a non-empty tuple *)
Definition last_time (points : list TrajectoryPoint.t) : float :=
  match last points with
  | Some p => TrajectoryPoint.time_from_start_s p
  | None => f0
  end.

Definition trajectory_duration_s (t : TimeParameterizedTrajectory.t) : float :=
  last_time (TimeParameterizedTrajectory.points t).

(** The conditions of [ordered_and_continuous] before its loop. *)
Definition times_increase (points : list TrajectoryPoint.t) : bool :=
  forallb (fun pc => negb (fleb (TrajectoryPoint.time_from_start_s pc.2)
                                (TrajectoryPoint.time_from_start_s pc.1))) (adjacent points).

Definition stops_declared (points : list TrajectoryPoint.t) (stops : list Z) : bool :=
  (stops ≟ py_sorted Z.ltb (remove_dups stops))
  && negb ((stops ≟ []) || (head stops ≠? Some 1)
           || (last stops ≠? Some (Z.of_nat (length points)))).

Definition points_ordered (t : TimeParameterizedTrajectory.t) : bool :=
  let points := TimeParameterizedTrajectory.points t in
  match head points with
  | Some p => feqb (TrajectoryPoint.time_from_start_s p) f0
  | None => false
  end
  && ((TrajectoryPoint.sequence <$> points) ≟ one_to (length points))
  && times_increase points
  && stops_declared points (TimeParameterizedTrajectory.declared_stop_sequences t).

Definition TimeParameterizedTrajectory_fields (t : TimeParameterizedTrajectory.t) : bool :=
  is_identifier (TimeParameterizedTrajectory.trajectory_id t)
  && is_identifier (TimeParameterizedTrajectory.role_id t)
  && is_identifier (TimeParameterizedTrajectory.vehicle_id t)
  && is_sha256 (TimeParameterizedTrajectory.route_sha256 t)
  && forallb TrajectoryPoint_valid (TimeParameterizedTrajectory.points t)
  && (2 <=? length (TimeParameterizedTrajectory.points t))%nat
  && gt0_le f1 (TimeParameterizedTrajectory.completion_position_tolerance_m t)
  && fleb f0 (TimeParameterizedTrajectory.completion_velocity_tolerance_m_s t)
  && fleb (TimeParameterizedTrajectory.completion_velocity_tolerance_m_s t) f1.

(** A [ValueError] of a validator becomes the [ValidationError] of the model;
    any other exception passes. *)
Definition in_validator {A} (model : string) (o : outcome A) : outcome A :=
  match o with
  | Raise (ValueError _) => Raise (ValidationError model)
  | _ => o
  end.

(** The body of the loop over the declared stops. *)
Definition check_stop (t : TimeParameterizedTrajectory.t) (sequence : Z) : outcome unit :=
  let points := TimeParameterizedTrajectory.points t in
  if (sequence <? 1) || (Z.of_nat (length points) <? sequence)
  then Raise (ValueError "declared trajectory stop sequence is absent")
  else
    match points !! Z.to_nat (sequence - 1) with
    | None => Raise (OtherError "IndexError")
    | Some point =>
        speed ← v_length (TrajectoryPoint.velocity_m_s point);
        if fltb (TimeParameterizedTrajectory.completion_velocity_tolerance_m_s t) speed
        then Raise (ValueError "declared trajectory stop has non-zero velocity")
        else Ret tt
    end.

(** The construction of a trajectory. *)
Definition TimeParameterizedTrajectory_new (t : TimeParameterizedTrajectory.t) :
    outcome TimeParameterizedTrajectory.t :=
  if TimeParameterizedTrajectory_fields t && points_ordered t
  then in_validator "TimeParameterizedTrajectory"
         (_ ← mapM (check_stop t) (TimeParameterizedTrajectory.declared_stop_sequences t); Ret t)
  else Raise (ValidationError "TimeParameterizedTrajectory").

(** [bisect.bisect_right(a, x, key=...)], the loop of the Standard Library:
    the range halves, so the length bounds the number of its iterations. *)
Fixpoint bisect_loop (fuel : nat) (keys : list float) (x : float) (lo hi : nat) : nat :=
  match fuel with
  | O => lo
  | S fuel =>
      if (lo <? hi)%nat
      then
        let mid := Nat.div (lo + hi) 2 in
        if fltb x (nth mid keys fnan)
        then bisect_loop fuel keys x lo mid
        else bisect_loop fuel keys x (S mid) hi
      else lo
  end.

Definition bisect_right (keys : list float) (x : float) : nat :=
  bisect_loop (S (length keys)) keys x 0 (length keys).

(** [max(0.0, min(trajectory.duration_s, sample_time_s))] *)
Definition bounded_time (t : TimeParameterizedTrajectory.t) (sample_time_s : float) : float :=
  py_fmax f0 (py_fmin (trajectory_duration_s t) sample_time_s).

Definition segment_index (t : TimeParameterizedTrajectory.t) (bounded_time_s : float) : Z :=
  let points := TimeParameterizedTrajectory.points t in
  Z.max 0 (Z.min (Z.of_nat (length points) - 2)
                 (Z.of_nat (bisect_right (TrajectoryPoint.time_from_start_s <$> points)
                                         bounded_time_s) - 1)).

Definition sample_trajectory (t : TimeParameterizedTrajectory.t) (sample_time_s : float) :
    outcome TrajectorySetpoint.t :=
  let bounded_time_s := bounded_time t sample_time_s in
  let i := Z.to_nat (segment_index t bounded_time_s) in
  match TimeParameterizedTrajectory.points t !! i, TimeParameterizedTrajectory.points t !! S i with
  | Some p, Some q => sample_trajectory_segment p q bounded_time_s
  | _, _ => Raise (OtherError "IndexError")
  end.

(** Field constraints, [identity_matches] and [goal_matches_descent]. *)
Definition ExecutionOperation_valid (o : ExecutionOperation.t) : bool :=
  (1 <=? ExecutionOperation.sequence o) && ge0 (ExecutionOperation.starts_at_s o)
  && gt0 (ExecutionOperation.ends_at_s o)
  && match o with
     | ExecutionOperation.Takeoff _ _ _ h => gt0 h
     | ExecutionOperation.Trajectory _ starts ends sha t =>
         is_sha256 sha && String.eqb sha (trajectory_sha256 t)
         && close9 (fsub ends starts) (trajectory_duration_s t)
     | ExecutionOperation.Land _ _ _ h goal =>
         ge0 h
         && opt_ok (fun g => close9 (v_z (LandingGoalRegion.landing_target_m g)) h) goal
     | _ => true
     end.

(** [tuple(o for o in operations if isinstance(o, TrajectoryExecutionOperation))] *)
Definition program_trajectories (ops : list ExecutionOperation.t) :
    list (string * TimeParameterizedTrajectory.t) :=
  omap (fun o => match o with
                 | ExecutionOperation.Trajectory _ _ _ sha t => Some (sha, t)
                 | _ => None
                 end) ops.

(** [trajectory_sha256s] *)
Definition program_trajectory_sha256s (p : AcceptedExecutionProgram.t) : list string :=
  (program_trajectories (AcceptedExecutionProgram.operations p)).*1.

Definition coherent_schedule (p : AcceptedExecutionProgram.t) : bool :=
  let ops := AcceptedExecutionProgram.operations p in
  let trajectories := program_trajectories ops in
  ((ExecutionOperation.sequence <$> ops) ≟ one_to (length ops))
  && match head ops with
     | Some o => feqb (ExecutionOperation.starts_at_s o) f0
     | None => false
     end
  && forallb (fun pc => close9 (ExecutionOperation.ends_at_s pc.1)
                               (ExecutionOperation.starts_at_s pc.2)) (adjacent ops)
  && match last ops with
     | Some o => close9 (ExecutionOperation.ends_at_s o)
                        (AcceptedExecutionProgram.schedule_duration_s p)
     | None => false
     end
  && close9 (AcceptedExecutionProgram.execution_timeout_s p)
       (fadd (fadd (AcceptedExecutionProgram.schedule_duration_s p)
                   (AcceptedExecutionProgram.contingency_reserve_s p))
             (AcceptedExecutionProgram.recovery_reserve_s p))
  && (AcceptedExecutionProgram.route_sha256s p
      ≟ ((fun st => TimeParameterizedTrajectory.route_sha256 st.2) <$> trajectories))
  && negb (existsb (fun st =>
       negb (String.eqb (TimeParameterizedTrajectory.role_id st.2)
                        (AcceptedExecutionProgram.role_id p))
       || negb (String.eqb (TimeParameterizedTrajectory.vehicle_id st.2)
                           (AcceptedExecutionProgram.vehicle_id p))) trajectories).

(** What the constructor of a program checks. Pydantic takes operations that are
    contract objects already as they are. *)
Definition AcceptedExecutionProgram_check (p : AcceptedExecutionProgram.t) : bool :=
  is_identifier (AcceptedExecutionProgram.program_id p)
  && is_sha256 (AcceptedExecutionProgram.mission_source_sha256 p)
  && is_identifier (AcceptedExecutionProgram.role_id p)
  && is_identifier (AcceptedExecutionProgram.vehicle_id p)
  && (1 <=? length (AcceptedExecutionProgram.operations p))%nat
  && forallb is_sha256 (AcceptedExecutionProgram.route_sha256s p)
  && gt0 (AcceptedExecutionProgram.schedule_duration_s p)
  && ge0 (AcceptedExecutionProgram.contingency_reserve_s p)
  && ge0 (AcceptedExecutionProgram.recovery_reserve_s p)
  && gt0 (AcceptedExecutionProgram.execution_timeout_s p)
  && coherent_schedule p.

Definition AcceptedExecutionProgram_valid (p : AcceptedExecutionProgram.t) : bool :=
  forallb ExecutionOperation_valid (AcceptedExecutionProgram.operations p)
  && AcceptedExecutionProgram_check p.

(** [AcceptedExecutionProgram.sha256] *)
Definition operation_fields (kind : string) (o : ExecutionOperation.t) : list (string * json) :=
  [("kind", JStr kind); ("sequence", JInt (ExecutionOperation.sequence o));
   ("starts_at_s", JFloat (ExecutionOperation.starts_at_s o));
   ("ends_at_s", JFloat (ExecutionOperation.ends_at_s o))].

Definition operation_json (o : ExecutionOperation.t) : json :=
  JObj (match o with
        | ExecutionOperation.Takeoff _ _ _ h =>
            operation_fields "takeoff" o ++ [("target_height_m", JFloat h)]
        | ExecutionOperation.GroundWait _ _ _ =>
            operation_fields "ground_wait" o ++ [("readiness_revalidation_required", JBool true)]
        | ExecutionOperation.Hold _ _ _ => operation_fields "hold" o ++ [("declared", JBool true)]
        | ExecutionOperation.Trajectory _ _ _ sha t =>
            operation_fields "trajectory" o
            ++ [("trajectory_sha256", JStr sha); ("trajectory", trajectory_json t)]
        | ExecutionOperation.Land _ _ _ h goal =>
            operation_fields "land" o
            ++ [("target_height_m", JFloat h); ("goal_region", json_opt landing_goal_json goal)]
        end).

Definition clock_json (c : ExecutionClockContract.t) : json := JObj [
  ("source_policy", JStr (match ExecutionClockContract.source_policy c with
     | SourceClockPolicy.ACCELERATED_OR_REALTIME => "ACCELERATED_OR_REALTIME"
     | SourceClockPolicy.REALTIME_MONOTONIC => "REALTIME_MONOTONIC"
     | SourceClockPolicy.REPLAY_CONTROLLED => "REPLAY_CONTROLLED" end));
  ("supported_modes", JList ((fun m => JStr (match m with
     | ExecutionClockMode.ACCELERATED => "ACCELERATED"
     | ExecutionClockMode.REALTIME => "REALTIME" end))
     <$> ExecutionClockContract.supported_modes c));
  ("schedule_time_basis", JStr "SOURCE_CLOCK");
  ("watchdog_time_basis", JStr "MONOTONIC_WALL_CLOCK");
  ("blocking_completion", JBool true)].

Definition program_json (p : AcceptedExecutionProgram.t) : json :=
  JObj [
    ("schema_version", JInt 1);
    ("program_id", JStr (AcceptedExecutionProgram.program_id p));
    ("mission_source_sha256", JStr (AcceptedExecutionProgram.mission_source_sha256 p));
    ("role_id", JStr (AcceptedExecutionProgram.role_id p));
    ("vehicle_id", JStr (AcceptedExecutionProgram.vehicle_id p));
    ("operations", JList (operation_json <$> AcceptedExecutionProgram.operations p));
    ("route_sha256s", JList (JStr <$> AcceptedExecutionProgram.route_sha256s p));
    ("schedule_duration_s", JFloat (AcceptedExecutionProgram.schedule_duration_s p));
    ("contingency_reserve_s", JFloat (AcceptedExecutionProgram.contingency_reserve_s p));
    ("recovery_reserve_s", JFloat (AcceptedExecutionProgram.recovery_reserve_s p));
    ("execution_timeout_s", JFloat (AcceptedExecutionProgram.execution_timeout_s p));
    ("clock", clock_json (AcceptedExecutionProgram.clock p))].

Definition program_sha256 (p : AcceptedExecutionProgram.t) : string :=
  canonical_sha256 (program_json p).
End trajectory.

(** ** Lemmas *)

Lemma adjacent_Sorted {A} (R : A -> A -> Prop) l :
  Forall (fun pc => R pc.1 pc.2) (adjacent l) -> Sorted R l.
Proof.
  unfold adjacent. induction l as [|a l IH]; simpl; [constructor|].
  destruct l as [|b l]; simpl; [by repeat constructor|].
  intros [Hab Hl]%Forall_cons. constructor; [by apply IH|by constructor].
Qed.

Lemma StronglySorted_nth {A} (R : A -> A -> Prop) l d i j :
  StronglySorted R l -> (i < j)%nat -> (j < length l)%nat -> R (nth i l d) (nth j l d).
Proof.
  intros Hl. revert i j. induction Hl as [|a l _ IH Ha]; intros i j Hij Hj; simpl in *; [lia|].
  destruct j as [|j]; [lia|]. destruct i as [|i].
  - rewrite Forall_forall in Ha. apply Ha, list_elem_of_In, nth_In. lia.
  - apply IH; lia.
Qed.

(** The loop invariant of the binary search: everything left of [lo] is at
    most [x], everything from [hi] on is above it. *)
Lemma bisect_loop_spec keys x fuel lo hi :
  (forall i j, (i < j < length keys)%nat ->
     fltb x (nth i keys fnan) = true -> fltb x (nth j keys fnan) = true) ->
  (hi - lo < fuel)%nat -> (lo <= hi <= length keys)%nat ->
  (forall i, (i < lo)%nat -> fltb x (nth i keys fnan) = false) ->
  (forall i, (hi <= i < length keys)%nat -> fltb x (nth i keys fnan) = true) ->
  let r := bisect_loop fuel keys x lo hi in
  (r <= length keys)%nat /\ (forall i, (i < r)%nat -> fltb x (nth i keys fnan) = false) /\
  (forall i, (r <= i < length keys)%nat -> fltb x (nth i keys fnan) = true).
Proof.
  intros Hmono. revert lo hi. induction fuel as [|fuel IH]; intros lo hi Hf Hlh Hl Hh; [lia|].
  cbn [bisect_loop]. destruct (Nat.ltb_spec lo hi) as [Hlt|Hge].
  - pose proof (Nat.div_mod (lo + hi) 2 ltac:(lia)) as Hdm.
    pose proof (Nat.mod_upper_bound (lo + hi) 2 ltac:(lia)) as Hmb.
    set (mid := Nat.div (lo + hi) 2) in *. cbv zeta.
    destruct (fltb x (nth mid keys fnan)) eqn:E; apply IH; try lia; try done.
    + intros i Hi. destruct (decide (i = mid)) as [->|]; [done|].
      apply (Hmono mid); [lia|done].
    + intros i Hi. destruct (fltb x (nth i keys fnan)) eqn:Ei; [|done].
      destruct (decide (i = mid)) as [->|]; [congruence|].
      rewrite <- E. symmetry. apply (Hmono i); [lia|done].
  - split_and!; [lia|done|]. intros i Hi. apply Hh. lia.
Qed.

Section sorted_keys.
Context (keys : list float) (x : float).
Hypothesis keys_sorted : StronglySorted (fun a b => fltb a b = true) keys.

Lemma keys_monotone i j :
  (i < j < length keys)%nat -> fltb x (nth i keys fnan) = true -> fltb x (nth j keys fnan) = true.
Proof.
  intros [Hij Hj] Hi. eapply fltb_trans; [exact Hi|].
  by apply (StronglySorted_nth (fun a b => fltb a b = true)).
Qed.

Lemma bisect_right_spec :
  let r := bisect_right keys x in
  (r <= length keys)%nat /\ (forall i, (i < r)%nat -> fltb x (nth i keys fnan) = false) /\
  (forall i, (r <= i < length keys)%nat -> fltb x (nth i keys fnan) = true).
Proof. apply bisect_loop_spec; [apply keys_monotone|lia|lia|lia|lia]. Qed.
End sorted_keys.

Lemma count_prefix {A} (p : A -> bool) l d r :
  (r <= length l)%nat -> (forall i, (i < r)%nat -> p (nth i l d) = true) ->
  (forall i, (r <= i < length l)%nat -> p (nth i l d) = false) -> count_if p l = Z.of_nat r.
Proof.
  unfold count_if. intros Hr Hlt Hge. f_equal. revert r Hr Hlt Hge.
  induction l as [|a l IH]; intros r Hr Hlt Hge; simpl in *; [lia|].
  rewrite filter_cons. destruct r as [|r].
  - rewrite decide_False; [|rewrite (Hge 0%nat) by lia; done].
    apply (IH 0%nat); [lia..|]. intros i Hi. apply (Hge (S i)). lia.
  - rewrite decide_True; [|apply (Hlt 0%nat); lia]. simpl. f_equal.
    apply IH; [lia|intros i Hi; apply (Hlt (S i)); lia|intros i Hi; apply (Hge (S i)); lia].
Qed.

Section constructed.
Context `{LM : Libm} (t : TimeParameterizedTrajectory.t).
Hypothesis constructed : TimeParameterizedTrajectory_new t = Ret t.

Let times := TrajectoryPoint.time_from_start_s <$> TimeParameterizedTrajectory.points t.

Lemma constructed_facts :
  TimeParameterizedTrajectory_fields t = true /\ points_ordered t = true.
Proof.
  unfold TimeParameterizedTrajectory_new in constructed.
  destruct (_ && _) eqn:E in constructed; [|done]. by apply andb_true_iff in E.
Qed.

Lemma times_finite : Forall (fun x => is_nan x = false) times.
Proof.
  destruct constructed_facts as [Hf _]. unfold TimeParameterizedTrajectory_fields in Hf.
  bool_to_prop. unfold times. apply Forall_fmap, Forall_forall. intros p Hp. simpl.
  match goal with H : forallb TrajectoryPoint_valid _ = true |- _ =>
    rewrite forallb_forall in H; specialize (H p (proj1 (list_elem_of_In _ _) Hp)) end.
  unfold TrajectoryPoint_valid, is_finite in *. bool_to_prop. by destruct (TrajectoryPoint.time_from_start_s p).
Qed.

Lemma times_length : (2 <= length times)%nat.
Proof.
  destruct constructed_facts as [Hf _]. unfold TimeParameterizedTrajectory_fields in Hf.
  bool_to_prop. unfold times. rewrite length_fmap.
  match goal with H : (2 <=? _)%nat = true |- _ => by apply Nat.leb_le in H end.
Qed.

Lemma times_sorted : StronglySorted (fun a b => fltb a b = true) times.
Proof.
  apply Sorted_StronglySorted; [intros a b c; apply fltb_trans|].
  apply adjacent_Sorted. destruct constructed_facts as [_ Ho]. unfold points_ordered in Ho.
  bool_to_prop. match goal with H : times_increase _ = true |- _ => unfold times_increase in H; rewrite forallb_forall in H; rename H into Hinc end.
  assert (Hadj : adjacent times =
    (fun pc => (TrajectoryPoint.time_from_start_s pc.1, TrajectoryPoint.time_from_start_s pc.2))
      <$> adjacent (TimeParameterizedTrajectory.points t)).
  { unfold times, adjacent. generalize (TimeParameterizedTrajectory.points t).
    intros [|a l]; [done|]. simpl. revert a. induction l as [|b l IH]; intros a; simpl; [done|].
    by rewrite IH. }
  pose proof times_finite as Hfin. rewrite Forall_forall in Hfin.
  apply Forall_forall. intros [a b] Hab. pose proof Hab as Hin. rewrite Hadj in Hab.
  apply list_elem_of_fmap in Hab as ([p q] & [= -> ->] & Hpq). simpl.
  apply list_elem_of_In, Hinc in Hpq. apply negb_true_iff in Hpq.
  unfold adjacent in Hin. apply elem_of_zip_l in Hin as Hl. apply elem_of_zip_r in Hin as Hr.
  apply fleb_false; [apply Hfin|apply Hfin|done]; [|done].
  destruct times; [done|]. by right.
Qed.

Lemma times_first : fkey (nth 0 times fnan) = fkey f0.
Proof.
  destruct constructed_facts as [_ Ho]. unfold points_ordered in Ho. bool_to_prop.
  unfold times. destruct (TimeParameterizedTrajectory.points t); simpl in *; [done|].
  match goal with H : feqb _ _ = true |- _ => by apply feqb_spec in H as (_ & _ & ->) end.
Qed.

Lemma times_last : trajectory_duration_s t = nth (length times - 1) times fnan.
Proof.
  pose proof times_length as Hl. unfold trajectory_duration_s, last_time, times in *.
  rewrite length_fmap in *. destruct (last _) as [p|] eqn:E.
  - rewrite last_lookup in E.
    assert (Hx : (TrajectoryPoint.time_from_start_s <$> TimeParameterizedTrajectory.points t)
      !! (length (TimeParameterizedTrajectory.points t) - 1)%nat = Some (TrajectoryPoint.time_from_start_s p)).
    { rewrite list_lookup_fmap. replace (_ - 1)%nat with (pred (length (TimeParameterizedTrajectory.points t))) by lia.
      by rewrite E. }
    symmetry. by apply nth_lookup_Some.
  - apply last_None in E. rewrite E in Hl. simpl in Hl. lia.
Qed.
End constructed.

Section bounded.
Context `{LM : Libm} (t : TimeParameterizedTrajectory.t) (x : float).
Hypothesis constructed : TimeParameterizedTrajectory_new t = Ret t.

Let times := TrajectoryPoint.time_from_start_s <$> TimeParameterizedTrajectory.points t.

Lemma times_nth_finite i : (i < length times)%nat -> is_nan (nth i times fnan) = false.
Proof.
  intros Hi. pose proof (times_finite t constructed) as H. rewrite Forall_forall in H.
  by apply H, list_elem_of_In, nth_In.
Qed.

(** The bounded time lies in the trajectory, whatever the sample time (a NaN
    is bounded to the duration). *)
Lemma bounded_time_range :
  is_nan (bounded_time t x) = false /\
  fleb (nth 0 times fnan) (bounded_time t x) = true /\
  fleb (bounded_time t x) (nth (length times - 1) times fnan) = true.
Proof.
  pose proof (times_length t constructed) as Hlen.
  pose proof (times_first t constructed) as H0.
  assert (Hfin0 : is_nan (nth 0 times fnan) = false) by (apply times_nth_finite; unfold times; lia).
  assert (Hd : is_nan (trajectory_duration_s t) = false).
  { rewrite times_last by done. apply times_nth_finite. unfold times. lia. }
  assert (H0d : fltb f0 (trajectory_duration_s t) = true).
  { rewrite times_last by done.
    pose proof (StronglySorted_nth _ _ fnan 0 (length times - 1) (times_sorted t constructed)) as Hs.
    assert (Hlt : fltb (nth 0 times fnan) (nth (length times - 1) times fnan) = true)
      by (apply Hs; unfold times; lia).
    apply fltb_spec in Hlt as (_ & Hn & Hk). apply fltb_spec. rewrite <- H0. done. }
  fold times. unfold times at 2. rewrite <- times_last by done.
  assert (Hb : is_nan (py_fmin (trajectory_duration_s t) x) = false /\
               fleb (py_fmin (trajectory_duration_s t) x) (trajectory_duration_s t) = true).
  { split; [|by apply py_fmin_le_l]. unfold py_fmin. destruct (fltb x _) eqn:E; [|done].
    by apply fltb_not_nan in E as []. }
  destruct Hb as [Hbn Hbd].
  assert (Hge : fleb f0 (bounded_time t x) = true) by by apply py_fmax_ge_l.
  split_and!.
  - by apply fleb_not_nan in Hge as [].
  - apply fleb_spec in Hge as (_ & Hn & Hk). apply fleb_spec. fold times in H0. by rewrite H0.
  - unfold bounded_time, py_fmax. case_match; [done|by apply fltb_fleb].
Qed.

Lemma segment_facts :
  let i := Z.to_nat (segment_index t (bounded_time t x)) in
  (S i < length times)%nat /\
  fleb (nth i times fnan) (bounded_time t x) = true /\
  fleb (bounded_time t x) (nth (S i) times fnan) = true.
Proof.
  destruct bounded_time_range as (Hnan & Hlo & Hhi).
  pose proof (times_length t constructed) as Hlen. fold times in Hlen.
  destruct (bisect_right_spec times (bounded_time t x) (times_sorted t constructed))
    as (Hr & Hlt & Hge).
  set (r := bisect_right times (bounded_time t x)) in *.
  assert (Hle : forall i, (i < r)%nat -> fleb (nth i times fnan) (bounded_time t x) = true).
  { intros i Hi. apply fltb_false; [done|apply times_nth_finite; lia|by apply Hlt]. }
  assert (Hr1 : (1 <= r)%nat).
  { destruct (decide (r = 0)%nat) as [E|]; [|lia].
    specialize (Hge 0%nat ltac:(lia)). apply fltb_spec in Hge as (_ & _ & Hk).
    apply fleb_spec in Hlo as (_ & _ & Hk'). by destruct Hk'. }
  unfold segment_index. rewrite <- (length_fmap TrajectoryPoint.time_from_start_s). fold times.
  fold r. cbv zeta. destruct (decide (r = length times)) as [E|Hne].
  - replace (Z.to_nat _) with (length times - 2)%nat by lia. split_and!; [lia|apply Hle; lia|].
    by replace (S (length times - 2)) with (length times - 1)%nat by lia.
  - replace (Z.to_nat _) with (r - 1)%nat by lia. split_and!; [lia|apply Hle; lia|].
    apply fltb_fleb, Hge. lia.
Qed.
End bounded.

(** ** Properties *)

(** On strictly increasing times, the binary search [bisect_right] that
    [sample_trajectory] uses returns what the linear scan it replaced computes:
    the number of times that are not after the sample time. *)
Theorem bisect_is_linear_scan (keys : list float) (x : float) :
  StronglySorted (fun a b => fltb a b = true) keys ->
  Z.of_nat (bisect_right keys x) = count_if (fun k => negb (fltb x k)) keys.
Proof.
  intros Hs. destruct (bisect_right_spec keys x Hs) as (Hr & Hlt & Hge). symmetry.
  apply (count_prefix _ _ fnan); [done|..]; intros i Hi; by rewrite ?Hlt, ?Hge by lia.
Qed.

(** Sampling a constructed trajectory at any time, even a NaN or a time
    outside of the trajectory, interpolates an existing segment, and the
    bounded sample time lies between the times of its two points. *)
Theorem sample_uses_bracketing_segment `{Libm} (t : TimeParameterizedTrajectory.t)
    (x : float) :
  TimeParameterizedTrajectory_new t = Ret t ->
  exists i p q,
    TimeParameterizedTrajectory.points t !! i = Some p /\
    TimeParameterizedTrajectory.points t !! S i = Some q /\
    fleb (TrajectoryPoint.time_from_start_s p) (bounded_time t x) = true /\
    fleb (bounded_time t x) (TrajectoryPoint.time_from_start_s q) = true /\
    sample_trajectory t x = sample_trajectory_segment p q (bounded_time t x).
Proof.
  intros Hc. destruct (segment_facts t x Hc) as (Hi & Hlo & Hhi).
  rewrite length_fmap in Hi. unfold sample_trajectory. cbv zeta.
  set (i := Z.to_nat (segment_index t (bounded_time t x))) in *.
  destruct (lookup_lt_is_Some_2 (TimeParameterizedTrajectory.points t) i) as [p Hp]; [lia|].
  destruct (lookup_lt_is_Some_2 (TimeParameterizedTrajectory.points t) (S i)) as [q Hq]; [lia|].
  rewrite Hp, Hq. exists i, p, q.
  rewrite (nth_lookup_Some _ i fnan (TrajectoryPoint.time_from_start_s p)) in Hlo
    by (by rewrite list_lookup_fmap, Hp).
  rewrite (nth_lookup_Some _ (S i) fnan (TrajectoryPoint.time_from_start_s q)) in Hhi
    by (by rewrite list_lookup_fmap, Hq).
  done.
Qed.

Module Examples.
Definition point (n : Z) (time x : float) : TrajectoryPoint.t := {|
  TrajectoryPoint.sequence := n;
  TrajectoryPoint.time_from_start_s := time;
  TrajectoryPoint.position_m := mkVector3 x f0 (flit 3 10);
  TrajectoryPoint.velocity_m_s := Vector3_zero;
  TrajectoryPoint.acceleration_m_s2 := Vector3_zero;
  TrajectoryPoint.yaw_rad := f0;
  TrajectoryPoint.yaw_rate_rad_s := f0;
|}.

Definition zeros : string :=
  "0000000000000000000000000000000000000000000000000000000000000000".

(** Three points, one metre along x, with a stop in the middle. *)
Definition trajectory : TimeParameterizedTrajectory.t := {|
  TimeParameterizedTrajectory.trajectory_id := "trajectory-1";
  TimeParameterizedTrajectory.role_id := "scout";
  TimeParameterizedTrajectory.vehicle_id := "cf-1";
  TimeParameterizedTrajectory.route_sha256 := zeros;
  TimeParameterizedTrajectory.points :=
    [point 1 f0 f0; point 2 (float_of_Z 4) (flit 5 10); point 3 (float_of_Z 8) f1];
  TimeParameterizedTrajectory.declared_stop_sequences := [1; 2; 3];
  TimeParameterizedTrajectory.completion_position_tolerance_m := flit 1 10;
  TimeParameterizedTrajectory.completion_velocity_tolerance_m_s := flit 1 10;
|}.

(** The sample at a third of the way is in the first segment, and at half of
    the duration the vehicle is half a metre along. *)
Example sample_midway :
  match @sample_trajectory example_libm trajectory (float_of_Z 4) with
  | Ret s => v_x (TrajectorySetpoint.position_m s) = flit 5 10
  | Raise _ => False
  end.
Proof. vm_compute. reflexivity. Qed.

Lemma bisect_witness :
  Z.of_nat (bisect_right [f0; float_of_Z 4; float_of_Z 8] (float_of_Z 4))
  = count_if (fun k => negb (fltb (float_of_Z 4) k)) [f0; float_of_Z 4; float_of_Z 8]
  /\ bisect_right [f0; float_of_Z 4; float_of_Z 8] (float_of_Z 4) = 2%nat.
Proof.
  split; [|reflexivity]. apply bisect_is_linear_scan. repeat constructor.
Defined.

Lemma sample_witness :
  exists i p q,
    TimeParameterizedTrajectory.points trajectory !! i = Some p /\
    TimeParameterizedTrajectory.points trajectory !! S i = Some q /\
    fleb (TrajectoryPoint.time_from_start_s p) (bounded_time trajectory fnan) = true /\
    fleb (bounded_time trajectory fnan) (TrajectoryPoint.time_from_start_s q) = true /\
    @sample_trajectory example_libm trajectory fnan
    = @sample_trajectory_segment example_libm p q (bounded_time trajectory fnan).
Proof.
  apply (@sample_uses_bracketing_segment example_libm trajectory fnan).
  vm_compute. reflexivity.
Defined.
End Examples.
