(* ===== verification/Envelope.v ===== *)
(** * The envelope of a flight

    What it means for a point to lie in a box, for a leg to miss an obstacle, for two
    reserved corridors to be apart and for a motion to keep to the limits of a policy,
    coordinate by coordinate: the vocabulary in which the theorems state that admitted
    flights are safe. Nothing here is computed the way the code computes it; the
    lemmas say that the tests of the code decide it. *)

From S2P Require Import Prelude Float64 Effects Contracts Artifacts Safety Trajectory.
From S2P Require Import PlanContracts Routes.

(** Between the corners [lo] and [hi], on every axis. *)
Record in_box (lo hi q : Vector3) : Prop := {
  box_x : fleb (v_x lo) (v_x q) = true /\ fleb (v_x q) (v_x hi) = true;
  box_y : fleb (v_y lo) (v_y q) = true /\ fleb (v_y q) (v_y hi) = true;
  box_z : fleb (v_z lo) (v_z q) = true /\ fleb (v_z q) (v_z hi) = true;
}.

Definition in_volume (v : FlightVolume.t) (q : Vector3) : Prop :=
  in_box (FlightVolume.minimum_m v) (FlightVolume.maximum_m v) q.

Lemma contains_in_volume v q : contains v q = true <-> in_volume v q.
Proof.
  unfold contains, in_range, in_volume. rewrite !andb_true_iff. split; [by intros [[] ]; split|].
  by intros [? ? ?].
Qed.

Section motion.
Context `{LM : Libm}.

(** The length of a vector: the root of the sum of its squares. *)
Definition length_is (v : Vector3) (l : float) : Prop :=
  exists x y z, py_square (v_x v) = Ret x /\ py_square (v_y v) = Ret y /\ py_square (v_z v) = Ret z /\
    py_sqrt (fadd (fadd x y) z) = Ret l.

Lemma v_length_is v l : v_length v = Ret l <-> length_is v l.
Proof.
  unfold v_length, length_is. split.
  - intros (x & Hx & (y & Hy & (z & Hz & H)%bind_Ret)%bind_Ret)%bind_Ret. by exists x, y, z.
  - intros (x & y & z & -> & -> & -> & H). exact H.
Qed.

Definition distance_is (a b : Vector3) (d : float) : Prop :=
  length_is (mkVector3 (fsub (v_x a) (v_x b)) (fsub (v_y a) (v_y b)) (fsub (v_z a) (v_z b))) d.

Lemma v_distance_is a b d : v_distance a b = Ret d <-> distance_is a b d.
Proof. apply (v_length_is (mkVector3 _ _ _)). Qed.

(** Velocity, acceleration and yaw rate of a motion within the limits of a policy. *)
Record motion_within (p : SafetyPolicy.t) (velocity acceleration : Vector3) (yaw_rate : float) : Prop := {
  mw_horizontal : fltb (SafetyPolicy.max_horizontal_speed_m_s p)
                    (c_hypot (v_x velocity) (v_y velocity)) = false;
  mw_vertical : fltb (SafetyPolicy.max_vertical_speed_m_s p) (fabs (v_z velocity)) = false;
  mw_acceleration : exists a, length_is acceleration a /\
                      fltb (SafetyPolicy.max_acceleration_m_s2 p) a = false;
  mw_yaw_rate : fltb (SafetyPolicy.max_yaw_rate_rad_s p) (fabs yaw_rate) = false;
}.
End motion.

(** ** Legs and boxes *)

Definition axes : list (Vector3 -> float) := [v_x; v_y; v_z].

Section leg.
Context (start end_ lo hi : Vector3).

(** The leg does not move along an axis. *)
Definition still (c : Vector3 -> float) : bool :=
  fleb (fabs (fsub (c end_) (c start))) (flit 1 1000000000000).

(** The fraction of the leg after which it meets the plane at [at_] of an axis. *)
Definition fraction_to (c : Vector3 -> float) (at_ : float) : float :=
  fdiv_ieee (fsub at_ (c start)) (fsub (c end_) (c start)).

(** The two planes of the box in the order in which the leg meets them. *)
Definition planes_met (c : Vector3 -> float) (entry exit_ : float) : Prop :=
  let low := fraction_to c (c lo) in
  let high := fraction_to c (c hi) in
  fltb high low = false /\ entry = low /\ exit_ = high \/
  fltb high low = true /\ entry = high /\ exit_ = low.

Definition beside (c : Vector3 -> float) : Prop :=
  still c = true /\ (fltb (c start) (c lo) = true \/ fltb (c hi) (c start) = true).

Definition enters_after (cs : list (Vector3 -> float)) (first enter : float) : Prop :=
  enter = first \/ exists c exit_, c ∈ cs /\ still c = false /\ planes_met c enter exit_.

Definition leaves_before (cs : list (Vector3 -> float)) (last leave : float) : Prop :=
  leave = last \/ exists c entry, c ∈ cs /\ still c = false /\ planes_met c entry leave.

Definition misses_on (cs : list (Vector3 -> float)) (first last : float) : Prop :=
  (exists c, c ∈ cs /\ beside c) \/
  (exists enter leave, enters_after cs first enter /\ leaves_before cs last leave /\ fltb leave enter = true).

(** The leg misses the box: it runs beside it along some axis, or it leaves it along
    one axis, or ends, before it has entered it along another, or begun. *)
Definition leg_misses : Prop := misses_on axes f0 f1.

Lemma planes_met_unique c e x e' x' : planes_met c e x -> planes_met c e' x' -> e' = e /\ x' = x.
Proof. unfold planes_met. intros [(E & -> & ->)|(E & -> & ->)] [(E' & -> & ->)|(E' & -> & ->)]; by rewrite ?E in E'. Qed.

Lemma enters_cons c cs first enter e x leave :
  is_nan first = false -> still c = false -> planes_met c e x ->
  enters_after (c :: cs) first enter -> fltb leave enter = true ->
  exists enter', enters_after cs (py_fmax first e) enter' /\ fltb leave enter' = true.
Proof.
  intros Hn Hs Hm He Hlt. pose proof (fltb_not_nan _ _ Hlt) as [_ Hne]. destruct He as [->|(c' & x' & Hc & Hs' & Hm')].
  - exists (py_fmax first e). split; [by left|]. eapply fltb_fleb_trans; [exact Hlt|]. by apply py_fmax_ge_l.
  - apply elem_of_cons in Hc as [->|Hc].
    + destruct (planes_met_unique _ _ _ _ _ Hm Hm') as [-> ->]. exists (py_fmax first e). split; [by left|].
      eapply fltb_fleb_trans; [exact Hlt|]. by apply py_fmax_ge_r.
    + exists enter. split; [|done]. right. by exists c', x'.
Qed.

Lemma py_fmin_le_r a b : is_nan a = false -> is_nan b = false -> fleb (py_fmin a b) b = true.
Proof.
  intros Ha Hb. unfold py_fmin. destruct (fltb b a) eqn:E; [by apply fleb_refl|].
  by apply fltb_false in E.
Qed.

Lemma leaves_cons c cs last leave e x enter :
  is_nan last = false -> still c = false -> planes_met c e x ->
  leaves_before (c :: cs) last leave -> fltb leave enter = true ->
  exists leave', leaves_before cs (py_fmin last x) leave' /\ fltb leave' enter = true.
Proof.
  intros Hn Hs Hm He Hlt. pose proof (fltb_not_nan _ _ Hlt) as [Hne _]. destruct He as [->|(c' & e' & Hc & Hs' & Hm')].
  - exists (py_fmin last x). split; [by left|]. eapply fleb_fltb_trans; [|exact Hlt]. by apply py_fmin_le_l.
  - apply elem_of_cons in Hc as [->|Hc].
    + destruct (planes_met_unique _ _ _ _ _ Hm Hm') as [-> ->]. exists (py_fmin last x). split; [by left|].
      eapply fleb_fltb_trans; [|exact Hlt]. by apply py_fmin_le_r.
    + exists leave. split; [|done]. right. by exists c', e'.
Qed.
Lemma misses_still c cs first last :
  still c = true -> ~ beside c -> misses_on (c :: cs) first last <-> misses_on cs first last.
Proof.
  intros Hs Hb.
  assert (Hin : forall c', c' ∈ c :: cs /\ still c' = false <-> c' ∈ cs /\ still c' = false).
  { intros c'. rewrite elem_of_cons. naive_solver congruence. }
  assert (He : forall enter, enters_after (c :: cs) first enter <-> enters_after cs first enter)
    by (intros enter; unfold enters_after; naive_solver).
  assert (Hl : forall leave, leaves_before (c :: cs) last leave <-> leaves_before cs last leave)
    by (intros leave; unfold leaves_before; naive_solver).
  unfold misses_on. setoid_rewrite He. setoid_rewrite Hl.
  apply or_iff_compat_r. setoid_rewrite elem_of_cons. clear Hin He Hl. naive_solver.
Qed.

Lemma misses_moving c cs first last e x :
  is_nan first = false -> is_nan last = false -> still c = false -> planes_met c e x ->
  misses_on (c :: cs) first last <-> misses_on cs (py_fmax first e) (py_fmin last x).
Proof.
  intros Hf Hl Hs Hm. split.
  - intros [(c' & [->|Hc]%elem_of_cons & Hb)|(enter & leave & He & Hv & Hlt)].
    + by destruct Hb; congruence.
    + left. by exists c'.
    + right. edestruct enters_cons as (enter' & ? & Hlt'); [exact Hf|exact Hs|exact Hm|exact He|exact Hlt|].
      edestruct leaves_cons as (leave' & ? & ?); [exact Hl|exact Hs|exact Hm|exact Hv|exact Hlt'|].
      by exists enter', leave'.
  - intros [(c' & Hc & Hb)|(enter & leave & He & Hv & Hlt)]; [left; exists c'; set_solver|].
    right. exists enter, leave. split_and!; [| |done].
    + destruct He as [->|(c' & x' & ? & ? & ?)]; [|right; exists c', x'; set_solver].
      unfold py_fmax. case_match; [right; exists c, x; set_solver|by left].
    + destruct Hv as [->|(c' & x' & ? & ? & ?)]; [|right; exists c', x'; set_solver].
      unfold py_fmin. case_match; [right; exists c, e; set_solver|by left].
Qed.

Lemma slabs_exact cs first last :
  is_nan first = false -> is_nan last = false -> fltb last first = false ->
  slabs ((fun c => (c start, c end_, c lo, c hi)) <$> cs) first last = false <-> misses_on cs first last.
Proof.
  revert first last. induction cs as [|c cs IH]; intros first last Hf Hl Hlt.
  - simpl. split; [done|]. intros [(c & []%not_elem_of_nil & _)|(enter & leave & He & Hv & H)].
    destruct He as [->|(c & x & []%not_elem_of_nil & _)], Hv as [->|(c & x & []%not_elem_of_nil & _)].
    congruence.
  - rewrite fmap_cons. simpl. fold (still c). destruct (still c) eqn:Hs.
    + destruct (fltb (c start) (c lo) || fltb (c hi) (c start)) eqn:Hb.
      * split; [intros _|done]. left. exists c. split; [left|]. split; [done|]. by apply orb_true_iff.
      * rewrite misses_still; [by apply IH|done|]. intros [_ H]. apply orb_true_iff in H. congruence.
    + fold (fraction_to c (c lo)) (fraction_to c (c hi)).
      assert (exists e x, planes_met c e x /\
        (if fltb (fraction_to c (c hi)) (fraction_to c (c lo))
         then (fraction_to c (c hi), fraction_to c (c lo)) else (fraction_to c (c lo), fraction_to c (c hi)))
        = (e, x)) as (e & x & Hm & ->).
      { unfold planes_met. cbv zeta. destruct (fltb (fraction_to _ _) _) eqn:E; eexists _, _; (split; [|reflexivity]); auto. }
      rewrite (misses_moving c cs first last e x) by done.
      destruct (fltb (py_fmin last x) (py_fmax first e)) eqn:Hcut.
      * split; [intros _|done]. right. eexists _, _. split_and!; [by left|by left|done].
      * apply IH; [..|done].
        -- by apply fleb_not_nan with (x := first), py_fmax_ge_l.
        -- by apply fleb_not_nan with (y := last), py_fmin_le_l.
Qed.
End leg.

Lemma segment_intersects_box_misses a b o :
  _segment_intersects_box a b o = false <->
  leg_misses a b (RouteObstacle.minimum_m o) (RouteObstacle.maximum_m o).
Proof. apply (slabs_exact _ _ _ _ axes); reflexivity. Qed.

(** ** Corridors *)

(** Two corridors are apart: one ends before the other starts, or along some axis one
    lies below the other. *)
Definition corridors_apart (a b : TemporalReservation.t) : Prop :=
  let lo := TemporalReservation.minimum_m in
  let hi := TemporalReservation.maximum_m in
  fltb (TemporalReservation.starts_at_s a) (TemporalReservation.ends_at_s b) = false \/
  fltb (TemporalReservation.starts_at_s b) (TemporalReservation.ends_at_s a) = false \/
  exists c, c ∈ axes /\ (fltb (c (hi a)) (c (lo b)) = true \/ fltb (c (hi b)) (c (lo a)) = true).

Lemma reservations_conflict_apart a b : _reservations_conflict a b = false <-> corridors_apart a b.
Proof.
  unfold _reservations_conflict, corridors_apart, axes. cbv zeta.
  rewrite !andb_false_iff, negb_false_iff, !orb_true_iff. setoid_rewrite elem_of_cons.
  setoid_rewrite elem_of_cons. setoid_rewrite list_elem_of_singleton. split.
  - intros [[?|?]|H]; [by left|by right; left|]. right. right.
    destruct H as [[[[[?|?]|?]|?]|?]|?]; [exists v_x|exists v_x|exists v_y|exists v_y|exists v_z|exists v_z]; auto.
  - intros [?|[?|(c & [->|[->| ->]] & [?|?])]]; auto 10.
Qed.

(** A box around some points: along every axis it reaches a margin beyond the least and
    the greatest of their coordinates. *)
Definition box_around (points : list Vector3) (margin : float) (lo hi : Vector3) : Prop :=
  forall c, c ∈ axes -> exists least greatest, least ∈ points /\ greatest ∈ points /\
    c lo = fsub (c least) margin /\ c hi = fadd (c greatest) margin /\
    forall q, q ∈ points -> fleb (c least) (c q) = true /\ fleb (c q) (c greatest) = true.
