(* ===== verification/Planning.v ===== *)
(** * Planning of missions ([planning/service.py], [safety.py], [approval.py])

    The service that compiles the roles of a mission into routes, a fleet policy
    decision, an execution graph and a safety case; the safety kernel that admits
    recoveries; and the approval an operator gives to a plan. *)

From S2P Require Import Prelude Float64 Effects Contracts Artifacts Trajectory Safety.
From S2P Require Import PlanContracts Routes Intents.

(** ** The safety kernel ([planning/safety.py]) *)

Section kernel.
Context `{DG : Digest}.

Definition default_finding : SafetyCaseFinding.t :=
  SafetyCaseFinding.mk "OBSERVATIONS_DECLARED_BY_GLOBAL_POLICY" false
    "mission declares no additional observation requirements" "safety-kernel"
    "global supervisor freshness and quality checks remain mandatory".

Definition compile_safety_case (global_policy : SafetyPolicy.t)
    (declaration : MissionSafetyDeclaration.t) (manifests : list PluginManifest.t) :
    outcome SafetyCaseReceipt.t :=
  effective ← tighten global_policy (MissionSafetyDeclaration.policy_override declaration);
  let findings := if bool_decide (MissionSafetyDeclaration.required_observations declaration = ∅)
                  then [default_finding] else [] in
  let receipt sha := SafetyCaseReceipt.mk (canonical_sha256 (MissionSafetyDeclaration_dump declaration))
      (canonical_sha256 (SafetyPolicy_dump global_policy))
      (canonical_sha256 (SafetyPolicy_dump effective))
      (py_sorted str_ltb (PluginManifest_sha256 <$> manifests))
      ["STALE_AUTHORITY"; "STALE_OBSERVATION"; "BOUNDARY_OR_DYNAMICS_VIOLATION"; "UNDECLARED_RECOVERY"]
      ["SafetySupervisor remains final command authority";
       "mission policy may only tighten the global policy";
       "recovery actions are declaration allow-listed";
       "plan and plugin manifests are hash-bound"]
      findings sha in
  let r := receipt (canonical_sha256 (SafetyCaseReceipt_payload (receipt ""))) in
  checked "SafetyCaseReceipt" (SafetyCaseReceipt_valid r) r.

(** The reasons against a proposal, in the order they are checked. *)
Definition recovery_reasons (declaration : MissionSafetyDeclaration.t) (request : RecoveryRequest.t)
    (proposal : RecoveryProposal.t) : list string :=
  let unless (ok : bool) reason := if ok then [] else [reason] in
  unless (String.eqb (RecoveryProposal.request_id proposal) (RecoveryRequest.request_id request))
    "proposal request identity is stale"
  ++ unless (String.eqb (RecoveryProposal.role_id proposal) (RecoveryRequest.role_id request)
             && String.eqb (RecoveryProposal.vehicle_id proposal) (RecoveryRequest.vehicle_id request))
       "proposal role or vehicle identity is stale"
  ++ unless (RecoveryProposal.action proposal ∈? RecoveryRequest.available_actions request)
       "proposal action is unavailable"
  ++ unless (RecoveryProposal.action proposal
             ∈? MissionSafetyDeclaration.allowed_recovery_actions declaration)
       "proposal action is outside the mission declaration"
  ++ unless (RecoveryRequest.authority_current request) "execution authority is stale"
  ++ unless (RecoveryRequest.observation_current request) "required observation is stale".

Definition authorize_recovery (global_policy : SafetyPolicy.t)
    (declaration : MissionSafetyDeclaration.t) (request : RecoveryRequest.t)
    (proposal : RecoveryProposal.t) : outcome SafetyAdmission.t :=
  effective ← tighten global_policy (MissionSafetyDeclaration.policy_override declaration);
  let reasons := recovery_reasons declaration request proposal in
  let admission := SafetyAdmission.mk (bool_decide (reasons = [])) (RecoveryProposal.action proposal)
      (if bool_decide (reasons = []) then "proposal admitted by Safety Kernel"
       else String.concat "; " reasons)
      (canonical_sha256 (SafetyPolicy_dump effective)) (RecoveryProposal.proposal_sha256 proposal) in
  checked "SafetyAdmission" (SafetyAdmission_valid admission) admission.
End kernel.

(** ** The planning service ([planning/service.py]) *)

Module OperationalRouteInput.
Record t := mk {
  role_id : string;
  vehicle_id : string;
  initial_role : InitialFleetRole.t;
  start_m : Vector3;
  targets_m : list Vector3;
  planned_duration_s : float;
}.
End OperationalRouteInput.

Definition OperationalRouteInput_valid (r : OperationalRouteInput.t) : bool :=
  is_identifier (OperationalRouteInput.role_id r)
  && is_identifier (OperationalRouteInput.vehicle_id r)
  && ge0 (OperationalRouteInput.planned_duration_s r).

Module PlanningBundle.
Record t := mk {
  plugin_selections : list PluginSelection.t;
  route_plans : list RoutePlanArtifact.t;
  fleet_policy_decision : FleetPolicyDecision.t;
  mission_intent : MissionIntent.t;
  execution_graph : ExecutionGraph.t;
  safety_case : SafetyCaseReceipt.t;
  bundle_sha256 : string;
}.
End PlanningBundle.

Definition PlanningBundle_valid (r : PlanningBundle.t) : bool :=
  is_sha256 (PlanningBundle.bundle_sha256 r).

Definition PlanningBundle_dump (r : PlanningBundle.t) : json := JObj [
  ("schema_version", JInt 1);
  ("plugin_selections", (json_list PluginSelection_dump) (PlanningBundle.plugin_selections r));
  ("route_plans", (json_list RoutePlanArtifact_dump) (PlanningBundle.route_plans r));
  ("fleet_policy_decision", FleetPolicyDecision_dump (PlanningBundle.fleet_policy_decision r));
  ("mission_intent", MissionIntent_dump (PlanningBundle.mission_intent r));
  ("execution_graph", ExecutionGraph_dump (PlanningBundle.execution_graph r));
  ("safety_case", SafetyCaseReceipt_dump (PlanningBundle.safety_case r));
  ("bundle_sha256", JStr (PlanningBundle.bundle_sha256 r))].

(** [canonical_payload], without its own digest *)
Definition PlanningBundle_json (r : PlanningBundle.t) : json := JObj [
  ("schema_version", JInt 1);
  ("plugin_selections", (json_list PluginSelection_dump) (PlanningBundle.plugin_selections r));
  ("route_plans", (json_list RoutePlanArtifact_dump) (PlanningBundle.route_plans r));
  ("fleet_policy_decision", FleetPolicyDecision_dump (PlanningBundle.fleet_policy_decision r));
  ("mission_intent", MissionIntent_dump (PlanningBundle.mission_intent r));
  ("execution_graph", ExecutionGraph_dump (PlanningBundle.execution_graph r));
  ("safety_case", SafetyCaseReceipt_dump (PlanningBundle.safety_case r))].

(** The document its digest is taken of *)
Definition PlanningBundle_payload (r : PlanningBundle.t) : json := JObj [
  ("plugin_selections", (json_list PluginSelection_dump) (PlanningBundle.plugin_selections r));
  ("route_plans", (json_list RoutePlanArtifact_json) (PlanningBundle.route_plans r));
  ("fleet_policy_decision", FleetPolicyDecision_json (PlanningBundle.fleet_policy_decision r));
  ("mission_intent", MissionIntent_dump (PlanningBundle.mission_intent r));
  ("execution_graph", ExecutionGraph_json (PlanningBundle.execution_graph r));
  ("safety_case", SafetyCaseReceipt_json (PlanningBundle.safety_case r))].

Section service.
Context `{CK : Clock} `{LM : Libm} `{DG : Digest}.

(** [replan_route] *)
Definition replan_route {S} (planner : RoutePlanner.t) (request : RouteReplanRequest.t) :
    M S RouteReplanResult.t :=
  started ← read_clock;
  replacement ← lift (RoutePlanner.plan planner (RouteReplanRequest.replacement_request request));
  now ← read_clock;
  _ ← raise_if (fltb (RouteReplanRequest.planning_budget_s request) (fsub now started)) TimeoutError;
  let result sha := RouteReplanResult.mk (RouteReplanRequest.previous_route_sha256 request)
      (RouteReplanRequest.previous_route_sha256 request) replacement
      (RouteReplanRequest.changed_observation_sha256 request) sha in
  let r := result (canonical_sha256 (RouteReplanResult_payload (result ""))) in
  validated "RouteReplanResult" (RouteReplanResult_valid r) r.

(** [_path_length] *)
Definition path_length (points : list Vector3) : outcome float :=
  lengths ← mapM (fun leg => v_distance leg.2 leg.1) (zip points (tail points));
  Ret (py_sum lengths).

(** [substring in text] *)
Fixpoint contains (substring text : string) : bool :=
  String.prefix substring text
  || match text with
     | EmptyString => false
     | String _ text' => contains substring text'
     end.

Definition _policy_capability (deployment : DeploymentManifest.t) : string :=
  let task_types := DeploymentTaskDefinition.task_type <$> DeploymentManifest.tasks deployment in
  if existsb (fun t => contains "persistent" t || contains "coverage" t) task_types
  then "persistent-coverage"
  else if existsb (contains "crossing") task_types then "crossing-route"
  else if existsb (fun t => contains "leader" t || contains "follower" t) task_types
  then "leader-follower"
  else "independent-tasks".

Definition manifest_ltb (a b : PluginManifest.t) : bool :=
  plugin_key_ltb (PluginKind_value (PluginManifest.kind a), PluginManifest.plugin_id a)
    (PluginKind_value (PluginManifest.kind b), PluginManifest.plugin_id b).

Definition _selections (manifests : list PluginManifest.t) : outcome (list PluginSelection.t) :=
  mapM (fun m => from_manifest m (PluginManifest.capabilities m)) (py_sorted manifest_ltb manifests).

(** [RouteTarget(...)] for the targets of a role; the last one holds. *)
Definition route_targets (targets : list Vector3) (final_hold : float) : outcome (list RouteTarget.t) :=
  mapM (fun item : nat * Vector3 =>
          let t := RouteTarget.mk item.2
                     (if (item.1 =? length targets - 1)%nat then final_hold else f0) in
          checked "RouteTarget" (RouteTarget_valid t) t)
    (imap pair targets).

Definition route_request (mission_id : string) (deployment : DeploymentManifest.t)
    (policy : SafetyPolicy.t) (obstacles : list RouteObstacle.t) (capability : RouteCapability.t)
    (reservations : list TemporalReservation.t) (role : OperationalRouteInput.t) :
    outcome RoutePlanRequest.t :=
  let start := OperationalRouteInput.start_m role in
  let targets := match OperationalRouteInput.targets_m role with [] => [start] | targets => targets end in
  let speed := py_fmin (flit 4 10) (SafetyPolicy.max_horizontal_speed_m_s policy) in
  route_length ← path_length (start :: targets);
  transit_duration ← py_div route_length speed;
  route_targets ← route_targets targets
    (py_fmax f0 (fsub (OperationalRouteInput.planned_duration_s role) transit_duration));
  quarter ← py_div (SafetyPolicy.max_mission_duration_s policy) (float_of_Z 4);
  let request := RoutePlanRequest.mk
      ("route-" +:+ mission_id +:+ "-" +:+ OperationalRouteInput.role_id role)
      (OperationalRouteInput.role_id role) capability start route_targets None None (flit 25 100)
      (FlightVolume.minimum_m (SafetyPolicy.flight_volume policy))
      (FlightVolume.maximum_m (SafetyPolicy.flight_volume policy)) obstacles reservations speed
      (SafetyPolicy.max_mission_duration_s policy) f1
      (FleetConstraints.critical_separation_m (DeploymentManifest.constraints deployment))
      (py_fmin (float_of_Z 30) quarter) None in
  checked "RoutePlanRequest" (RoutePlanRequest_valid request) request.

(** The loop over the active roles; every route sees the corridors before it. *)
Fixpoint plan_roles (planner : RoutePlanner.t)
    (request_of : list TemporalReservation.t -> OperationalRouteInput.t -> outcome RoutePlanRequest.t)
    (roles : list OperationalRouteInput.t) (reservations : list TemporalReservation.t) :
    outcome (list RoutePlanArtifact.t) :=
  match roles with
  | [] => Ret []
  | role :: rest =>
      request ← request_of reservations role;
      route ← RoutePlanner.plan planner request;
      routes ← plan_roles planner request_of rest (reservations ++ RoutePlanArtifact.reservations route);
      Ret (route :: routes)
  end.

Definition is_role (r : InitialFleetRole.t) (role : OperationalRouteInput.t) : bool :=
  OperationalRouteInput.initial_role role ≟ r.

Definition role_ltb (a b : OperationalRouteInput.t) : bool :=
  str_ltb (OperationalRouteInput.role_id a) (OperationalRouteInput.role_id b).

Definition active_roles_of (roles : list OperationalRouteInput.t) : list OperationalRouteInput.t :=
  py_sorted role_ltb (filter (fun r => is_role InitialFleetRole.ACTIVE r = true) roles).

(** The decision of the selected fleet policy. *)
Definition fleet_decision_of (mission_id : string) (deployment : DeploymentManifest.t)
    (roles active_roles : list OperationalRouteInput.t) (route_plans : list RoutePlanArtifact.t)
    (policy : FleetPolicy.t) : outcome FleetPolicyDecision.t :=
  let ids l := OperationalRouteInput.role_id <$> l in
  let request := FleetPolicyRequest.mk ("fleet-policy-" +:+ mission_id) mission_id
      (_policy_capability deployment) (py_sorted str_ltb (ids roles)) (ids active_roles)
      (py_sorted str_ltb (ids (filter (fun r => is_role InitialFleetRole.RESERVE r = true) roles)))
      (RoutePlanArtifact.route_sha256 <$> route_plans)
      (FleetConstraints.warning_separation_m (DeploymentManifest.constraints deployment))
      (FleetConstraints.critical_separation_m (DeploymentManifest.constraints deployment)) in
  request ← checked "FleetPolicyRequest" (FleetPolicyRequest_valid request) request;
  FleetPolicy.decide policy request.

Definition all_recovery_actions : gset RecoveryAction.t :=
  {[RecoveryAction.HOLD; RecoveryAction.REPLAN; RecoveryAction.RETURN_HOME; RecoveryAction.HANDOVER;
    RecoveryAction.LAND; RecoveryAction.ABORT_AND_LAND; RecoveryAction.EMERGENCY_STOP]}.

(** [SafetyPolicyOverride()] *)
Definition no_override : SafetyPolicyOverride.t :=
  SafetyPolicyOverride.mk None None None None None None None None None None None None None None None None.

Definition declaration_of (mission_id : string) : outcome MissionSafetyDeclaration.t :=
  let d := MissionSafetyDeclaration.mk ("safety-" +:+ mission_id) no_override
      {["vehicle-health"; "authority-state"; "localization"; "link"; "battery"]}
      ["configured world geometry is current"; "simulation observations retain source and freshness"]
      all_recovery_actions in
  checked "MissionSafetyDeclaration" (MissionSafetyDeclaration_valid d) d.

Definition intent_of (mission_id : string) (active_role_ids : list string)
    (capability : RouteCapability.t) (policy : SafetyPolicy.t) (declaration : MissionSafetyDeclaration.t) :
    outcome MissionIntent.t :=
  let phase := IntentPhase.mk "explicit-actions" "execute accepted backend-neutral role actions"
      active_role_ids capability ["all active roles report terminal success"]
      (SafetyPolicy.max_mission_duration_s policy) false in
  phase ← checked "IntentPhase" (IntentPhase_valid phase) phase;
  let transition := IntentTransition.mk "explicit-actions-complete" "explicit-actions"
      TransitionKind.COMPLETE None 0 None in
  let intent := MissionIntent.mk ("intent-" +:+ mission_id) mission_id
      "execute the restricted Python mission's declared actions exactly"
      ["all required roles complete their accepted action sequence"] active_role_ids [phase]
      "explicit-actions" [transition] declaration "RESTRICTED_PYTHON_EXPLICIT_ACTIONS" in
  checked "MissionIntent" (MissionIntent_valid intent) intent.

Definition compile_operational_planning_bundle (mission_id : string)
    (deployment : DeploymentManifest.t) (roles : list OperationalRouteInput.t)
    (policy : SafetyPolicy.t) (obstacles : list RouteObstacle.t) : outcome PlanningBundle.t :=
  route_registry ← default_route_planner_registry;
  policy_registry ← default_fleet_policy_registry;
  recovery_registry ← default_recovery_registry;
  let active_roles := active_roles_of roles in
  let several := (1 <? Z.of_nat (length active_roles)) in
  let capability := if several then RouteCapability.TEMPORAL_SEPARATION else RouteCapability.DIRECT in
  planner ← resolve (if several then "route.temporal" else "route.direct") "1.0.0"
              {[RouteCapability_value capability]} true route_registry;
  route_plans ← plan_roles planner (route_request mission_id deployment policy obstacles capability)
                  active_roles [];
  let policy_capability := _policy_capability deployment in
  fleet_policy ← resolve ("fleet." +:+ policy_capability) "1.0.0" {[policy_capability]} true
                   policy_registry;
  fleet_decision ← fleet_decision_of mission_id deployment roles active_roles route_plans fleet_policy;
  declaration ← declaration_of mission_id;
  let all_manifests := RoutePlanner.manifest planner :: FleetPolicy.manifest fleet_policy
                       :: manifests recovery_registry in
  selections ← _selections all_manifests;
  intent ← intent_of mission_id (OperationalRouteInput.role_id <$> active_roles) capability policy
             declaration;
  graph ← compile_execution_graph intent route_plans selections;
  safety_case ← compile_safety_case policy declaration all_manifests;
  let bundle sha := PlanningBundle.mk selections route_plans fleet_decision intent graph safety_case sha in
  let b := bundle (canonical_sha256 (PlanningBundle_payload (bundle ""))) in
  checked "PlanningBundle" (PlanningBundle_valid b) b.
End service.
