(* ===== verification/Commands.v ===== *)
(** * Commands ([domain/commands.py])

    The payloads a vehicle is commanded with, the envelope that identifies a
    command, and the acknowledgement of an adapter. *)

From S2P Require Import Prelude Float64 Effects Contracts Artifacts Trajectory.

Module CommandKind.
Inductive t :=
| CONNECT | DISCONNECT | ARM | DISARM | TAKEOFF | HOVER | MOVE_RELATIVE
| EXECUTE_TRAJECTORY | STOP_AND_HOLD | LAND | ABORT | EMERGENCY_STOP.
End CommandKind.
#[export] Instance CommandKind_eq_dec : EqDecision CommandKind.t.
Proof. solve_decision. Defined.

Definition CommandKind_value (k : CommandKind.t) : string :=
  match k with
  | CommandKind.CONNECT => "connect"
  | CommandKind.DISCONNECT => "disconnect"
  | CommandKind.ARM => "arm"
  | CommandKind.DISARM => "disarm"
  | CommandKind.TAKEOFF => "takeoff"
  | CommandKind.HOVER => "hover"
  | CommandKind.MOVE_RELATIVE => "move_relative"
  | CommandKind.EXECUTE_TRAJECTORY => "execute_trajectory"
  | CommandKind.STOP_AND_HOLD => "stop_and_hold"
  | CommandKind.LAND => "land"
  | CommandKind.ABORT => "abort"
  | CommandKind.EMERGENCY_STOP => "emergency_stop"
  end.

Lemma CommandKind_value_inj k1 k2 : CommandKind_value k1 = CommandKind_value k2 -> k1 = k2.
Proof. by destruct k1, k2. Qed.

Module MoveRelativeCommand.
Record t := mk {
  x_m : float;
  y_m : float;
  z_m : float;
  yaw_rad : float;
  duration_s : float;
  frame : CoordinateFrame.t;
}.
End MoveRelativeCommand.

(** Field constraints and [require_motion], whose test is the chain
    [x_m == y_m == z_m == yaw_rad == 0.0]. *)
Definition MoveRelativeCommand_valid (m : MoveRelativeCommand.t) : bool :=
  gt0 (MoveRelativeCommand.duration_s m)
  && negb (feqb (MoveRelativeCommand.x_m m) (MoveRelativeCommand.y_m m)
           && feqb (MoveRelativeCommand.y_m m) (MoveRelativeCommand.z_m m)
           && feqb (MoveRelativeCommand.z_m m) (MoveRelativeCommand.yaw_rad m)
           && feqb (MoveRelativeCommand.yaw_rad m) f0)
  && ((MoveRelativeCommand.frame m ≟ CoordinateFrame.HOME)
      || (MoveRelativeCommand.frame m ≟ CoordinateFrame.BODY)).

Module ExecuteTrajectoryCommand.
Record t := mk {
  accepted_plan_id : string;
  accepted_plan_sha256 : string;
  execution_program_sha256 : string;
  trajectory_sha256 : string;
  route_sha256 : string;
  trajectory : TimeParameterizedTrajectory.t;
}.
End ExecuteTrajectoryCommand.

(** Field constraints and [identities_match_payload]. *)
Definition ExecuteTrajectoryCommand_valid `{Digest} (c : ExecuteTrajectoryCommand.t) : bool :=
  is_identifier (ExecuteTrajectoryCommand.accepted_plan_id c)
  && is_sha256 (ExecuteTrajectoryCommand.accepted_plan_sha256 c)
  && is_sha256 (ExecuteTrajectoryCommand.execution_program_sha256 c)
  && is_sha256 (ExecuteTrajectoryCommand.trajectory_sha256 c)
  && is_sha256 (ExecuteTrajectoryCommand.route_sha256 c)
  && String.eqb (ExecuteTrajectoryCommand.trajectory_sha256 c)
       (trajectory_sha256 (ExecuteTrajectoryCommand.trajectory c))
  && String.eqb (ExecuteTrajectoryCommand.route_sha256 c)
       (TimeParameterizedTrajectory.route_sha256 (ExecuteTrajectoryCommand.trajectory c)).

Module LandCommand.
Record t := mk {
  target_height_m : float;
  target_position_m : option Vector3;
  goal_region : option LandingGoalRegion.t;
  duration_s : float;
}.
End LandCommand.

(** Field constraints and [target_height_agrees]. *)
Definition LandCommand_valid (l : LandCommand.t) : bool :=
  ge0 (LandCommand.target_height_m l) && gt0 (LandCommand.duration_s l)
  && opt_ok (fun p => close9 (v_z p) (LandCommand.target_height_m l))
       (LandCommand.target_position_m l)
  && opt_ok (fun g =>
       match LandCommand.target_position_m l with
       | None => false
       | Some p =>
           close9 (v_x p) (v_x (LandingGoalRegion.landing_target_m g))
           && close9 (v_y p) (v_y (LandingGoalRegion.landing_target_m g))
       end) (LandCommand.goal_region l).

(** [CommandPayload], the union discriminated by [kind] *)
Module CommandPayload.
Inductive t :=
| ConnectCommand
| DisconnectCommand
| ArmCommand
| DisarmCommand
| TakeoffCommand (height_m duration_s : float) (yaw_rad : option float)
| HoverCommand (duration_s : float)
| MoveRelative (command : MoveRelativeCommand.t)
| ExecuteTrajectory (command : ExecuteTrajectoryCommand.t)
| StopAndHoldCommand
| Land (command : LandCommand.t)
| AbortCommand (reason : string)
| EmergencyStopCommand (reason : string).

Definition kind (p : t) : CommandKind.t :=
  match p with
  | ConnectCommand => CommandKind.CONNECT
  | DisconnectCommand => CommandKind.DISCONNECT
  | ArmCommand => CommandKind.ARM
  | DisarmCommand => CommandKind.DISARM
  | TakeoffCommand _ _ _ => CommandKind.TAKEOFF
  | HoverCommand _ => CommandKind.HOVER
  | MoveRelative _ => CommandKind.MOVE_RELATIVE
  | ExecuteTrajectory _ => CommandKind.EXECUTE_TRAJECTORY
  | StopAndHoldCommand => CommandKind.STOP_AND_HOLD
  | Land _ => CommandKind.LAND
  | AbortCommand _ => CommandKind.ABORT
  | EmergencyStopCommand _ => CommandKind.EMERGENCY_STOP
  end.
End CommandPayload.

(** The constraints each payload's constructor checks. *)
Definition CommandPayload_valid `{Digest} (p : CommandPayload.t) : bool :=
  match p with
  | CommandPayload.TakeoffCommand h d _ => gt0 h && gt0 d
  | CommandPayload.HoverCommand d => gt0 d
  | CommandPayload.MoveRelative m => MoveRelativeCommand_valid m
  | CommandPayload.ExecuteTrajectory c => ExecuteTrajectoryCommand_valid c
  | CommandPayload.Land l => LandCommand_valid l
  | CommandPayload.AbortCommand r | CommandPayload.EmergencyStopCommand r => text_len 1 500 r
  | _ => true
  end.

Module FleetCommandBinding.
Record t := mk {
  fleet_session_id : string;
  fleet_run_id : string;
  deployment_sha256 : string;
  task_id : string;
  task_lease_generation : Z;
  backend_namespace : string;
}.
End FleetCommandBinding.

Definition FleetCommandBinding_valid (b : FleetCommandBinding.t) : bool :=
  is_identifier (FleetCommandBinding.fleet_session_id b)
  && is_identifier (FleetCommandBinding.fleet_run_id b)
  && is_sha256 (FleetCommandBinding.deployment_sha256 b)
  && is_identifier (FleetCommandBinding.task_id b)
  && (1 <=? FleetCommandBinding.task_lease_generation b)
  && text_len 1 500 (FleetCommandBinding.backend_namespace b).

Module CommandEnvelope.
Record t := mk {
  vehicle_id : string;
  command_id : string;
  mission_run_id : option string;
  fleet : option FleetCommandBinding.t;
  issued_at_monotonic_s : float;
  source : CommandSource.t;
  mode : OperatingMode.t;
  payload : CommandPayload.t;
}.
End CommandEnvelope.

(** Field constraints and [replay_cannot_command]. *)
Definition CommandEnvelope_valid (e : CommandEnvelope.t) : bool :=
  is_identifier (CommandEnvelope.vehicle_id e) && is_identifier (CommandEnvelope.command_id e)
  && opt_ok is_identifier (CommandEnvelope.mission_run_id e)
  && ge0 (CommandEnvelope.issued_at_monotonic_s e)
  && (CommandEnvelope.mode e ≠? OperatingMode.REPLAY).

Module AcknowledgementStatus.
Inductive t := ACCEPTED | COMPLETED | REJECTED | TIMED_OUT | UNKNOWN_OUTCOME.
End AcknowledgementStatus.
#[export] Instance AcknowledgementStatus_eq_dec : EqDecision AcknowledgementStatus.t.
Proof. solve_decision. Defined.

Module CommandAcknowledgement.
Record t := mk {
  vehicle_id : string;
  command_id : string;
  status : AcknowledgementStatus.t;
  received_at_monotonic_s : float;
  completed_at_monotonic_s : option float;
  reason_code : option string;
  message : option string;
}.
End CommandAcknowledgement.

(** [not s] of an optional string *)
Definition falsy (s : option string) : bool :=
  match s with None | Some "" => true | _ => false end.

(** Field constraints and [completion_is_ordered_and_explicit]. *)
Definition CommandAcknowledgement_valid (a : CommandAcknowledgement.t) : bool :=
  is_identifier (CommandAcknowledgement.vehicle_id a)
  && is_identifier (CommandAcknowledgement.command_id a)
  && ge0 (CommandAcknowledgement.received_at_monotonic_s a)
  && opt_ok ge0 (CommandAcknowledgement.completed_at_monotonic_s a)
  && negb ((CommandAcknowledgement.status a ≟ AcknowledgementStatus.COMPLETED)
           && is_none (CommandAcknowledgement.completed_at_monotonic_s a))
  && opt_ok (fun c => negb (fltb c (CommandAcknowledgement.received_at_monotonic_s a)))
       (CommandAcknowledgement.completed_at_monotonic_s a)
  && negb (match CommandAcknowledgement.status a with
           | AcknowledgementStatus.REJECTED | AcknowledgementStatus.TIMED_OUT
           | AcknowledgementStatus.UNKNOWN_OUTCOME => true
           | _ => false
           end && falsy (CommandAcknowledgement.reason_code a)).
