(* ===== verification/Scripts.v ===== *)
(** * Mission files ([missions/script.py]): contracts and commands

    The record of a mission file with its package of roles, the validation of the
    arguments of a mission command, and the command branch of a role that the
    isolated worker records.  The worker is a process of its own: what it answers
    is an argument, and what the code does with the answer is modelled. *)

From S2P Require Import Prelude Float64 Effects Contracts Artifacts Trajectory Commands.

(** ** Python values

    [float(s)] of a string, [str(v)] of a value that is not a string, and
    [str(error)] belong to the language; pydantic turns a value into a float with
    rules of its own.  They are interfaces. *)
Class PyText := {
  float_of_str : string -> option float;
  str_of_json : json -> string;
  str_of_exn : exn -> string;
  lax_float : json -> option float;
}.

(** An instance for the examples: no string is a number. *)
Definition example_text : PyText := {|
  float_of_str _ := None;
  str_of_json _ := "";
  str_of_exn _ := "";
  lax_float v := match v with
                 | JFloat f => Some f
                 | JInt n => Some (float_of_Z n)
                 | _ => None
                 end;
|}.

(** [bool(v)] *)
Definition truthy (v : json) : bool :=
  match v with
  | JNull => false
  | JBool b => b
  | JInt n => negb (n =? 0)
  | JFloat f => negb (feqb f f0)
  | JStr s => negb (String.eqb s "")
  | JList l => negb (bool_decide (length l = 0%nat))
  | JObj l => negb (bool_decide (length l = 0%nat))
  end.

(** [try: o except (TypeError, ValueError): raise e] *)
Definition is_TypeError_or_ValueError (e : exn) : bool :=
  match e with
  | ValueError _ | ValidationError _ => true
  | OtherError name => String.eqb name "TypeError"
  | _ => false
  end.

Definition except_raise {A} (o : outcome A) (catches : exn -> bool) (raised : exn -> exn) : outcome A :=
  match o with
  | Raise e => if catches e then Raise (raised e) else Raise e
  | Ret a => Ret a
  end.

Lemma except_raise_Ret {A} (o : outcome A) catches raised a :
  except_raise o catches raised = Ret a -> o = Ret a.
Proof. by destruct o as [|e]; simpl; [|destruct (catches e)]. Qed.

(** A value of [dict[str, float | str]] *)
Inductive argument :=
| Num (f : float)
| Text (s : string).

#[export] Instance argument_eq_dec : EqDecision argument.
Proof. solve_decision. Defined.

Definition argument_json (a : argument) : json :=
  match a with Num f => JFloat f | Text s => JStr s end.

Section values.
Context `{TX : PyText}.

(** [float(v)]; an integer beyond the range of floats raises. *)
Definition py_float (v : json) : outcome float :=
  match v with
  | JFloat f => Ret f
  | JInt n => let f := float_of_Z n in if is_inf f then Raise OverflowError else Ret f
  | JBool b => Ret (if b then f1 else f0)
  | JStr s => match float_of_str s with
              | Some f => Ret f
              | None => Raise (ValueError "could not convert string to float")
              end
  | JNull | JList _ | JObj _ => Raise TypeError
  end.

Definition float_of_argument (a : argument) : outcome float := py_float (argument_json a).

Definition py_str (v : json) : string :=
  match v with JStr s => s | _ => str_of_json v end.

Definition str_of_argument (a : argument) : string := py_str (argument_json a).

(** [float(arguments[key])] and [float(arguments.get(key, default))] *)
Definition float_at (key : string) (arguments : dict argument) : outcome float :=
  match dict_get key arguments with
  | Some a => float_of_argument a
  | None => Raise KeyError
  end.

Definition float_or (key : string) (fallback : float) (arguments : dict argument) : outcome float :=
  match dict_get key arguments with
  | Some a => float_of_argument a
  | None => Ret fallback
  end.
End values.

(** ** Contracts *)

Definition MAX_COMMAND_BUDGET : Z := 128.
Definition MAX_OBSERVATION_BUDGET : Z := 64.
Definition MAX_LOOP_ITERATIONS : Z := 64.

Definition TIER_A_ACTIONS : list string := ["takeoff"; "hover"; "move_relative"; "land"].
Definition TIER_B_ACTIONS : list string := TIER_A_ACTIONS ++ ["observe"; "wait"; "checkpoint"].

Module MissionTier.
Inductive t := LINEAR | BOUNDED_OBSERVATION.
End MissionTier.
#[export] Instance MissionTier_eq_dec : EqDecision MissionTier.t.
Proof. solve_decision. Defined.
Definition MissionTier_value (v : MissionTier.t) : string :=
  match v with
  | MissionTier.LINEAR => "TIER_A_LINEAR"
  | MissionTier.BOUNDED_OBSERVATION => "TIER_B_BOUNDED_OBSERVATION"
  end.

Module ScriptStep.
Record t := mk {
  action : string;
  arguments : dict argument;
}.
End ScriptStep.

Definition ScriptStep_valid (r : ScriptStep.t) : bool := ScriptStep.action r ∈? TIER_B_ACTIONS.

Definition ScriptStep_dump (r : ScriptStep.t) : json := JObj [
  ("action", JStr (ScriptStep.action r));
  ("arguments", JObj ((fun item => (item.1, argument_json item.2)) <$> ScriptStep.arguments r))].

Module MissionZoneSpec.
Record t := mk {
  minimum_m : float * float * float;
  maximum_m : float * float * float;
}.
End MissionZoneSpec.

(** [ordered] *)
Definition MissionZoneSpec_valid (r : MissionZoneSpec.t) : bool :=
  let '(x0, y0, z0) := MissionZoneSpec.minimum_m r in
  let '(x1, y1, z1) := MissionZoneSpec.maximum_m r in
  fleb x0 x1 && fleb y0 y1 && fleb z0 z1 && fltb x0 x1 && fltb y0 y1.

Module MissionTaskSpec.
Record t := mk {
  task_type : string;
  priority : Z;
  estimated_energy_percent : option float;
  energy_margin_percent : float;
}.
End MissionTaskSpec.

Definition MissionTaskSpec_valid (r : MissionTaskSpec.t) : bool :=
  is_identifier (MissionTaskSpec.task_type r)
  && (0 <=? MissionTaskSpec.priority r) && (MissionTaskSpec.priority r <=? 1000)
  && opt_ok (fun x => gt0 x && fleb x f100) (MissionTaskSpec.estimated_energy_percent r)
  && is_percentage (MissionTaskSpec.energy_margin_percent r).

Module MissionRoleSpec.
Record t := mk {
  role_id : string;
  logical_vehicle_id : string;
  display_name : option string;
  home_m : float * float * float;
  initial_role : InitialFleetRole.t;
  required : bool;
  required_capabilities : capability_set;
  zone : option MissionZoneSpec.t;
  task : MissionTaskSpec.t;
}.
End MissionRoleSpec.

(** [initial_role] is one of the literals ["ACTIVE"] and ["RESERVE"]. *)
Definition MissionRoleSpec_valid (r : MissionRoleSpec.t) : bool :=
  is_identifier (MissionRoleSpec.role_id r)
  && is_identifier (MissionRoleSpec.logical_vehicle_id r)
  && opt_ok (text_len 1 120) (MissionRoleSpec.display_name r)
  && (MissionRoleSpec.initial_role r ≠? InitialFleetRole.UNASSIGNED)
  && opt_ok MissionZoneSpec_valid (MissionRoleSpec.zone r)
  && MissionTaskSpec_valid (MissionRoleSpec.task r).

(** The five literals of [deconfliction_strategies] *)
Definition strategy_literals : list string :=
  ["STAGING_HOLD"; "SPEED_RETIMING"; "HORIZONTAL_DETOUR"; "VERTICAL_SEPARATION";
   "COMBINED_RETIMING_VERTICAL"].

Module MissionPackageV2.
Record t := mk {
  roles : list MissionRoleSpec.t;
  warning_separation_m : float;
  critical_separation_m : float;
  observation_freshness_s : float;
  child_failure_policy : FleetFailurePolicy.t;
  planned_hold_permitted : bool;
  deconfliction_strategies : list string;
}.
End MissionPackageV2.

(** [len(set(l)) == len(l)] *)
Definition all_distinct (l : list string) : bool :=
  bool_decide (length l = length (remove_dups l)).

(** The field constraints and [valid_fleet] *)
Definition MissionPackageV2_valid (r : MissionPackageV2.t) : bool :=
  let roles := MissionPackageV2.roles r in
  let strategies := MissionPackageV2.deconfliction_strategies r in
  forallb MissionRoleSpec_valid roles
  && gt0 (MissionPackageV2.warning_separation_m r)
  && gt0 (MissionPackageV2.critical_separation_m r)
  && gt0 (MissionPackageV2.observation_freshness_s r)
  && forallb (fun s => s ∈? strategy_literals) strategies
  && (1 <=? Z.of_nat (length roles)) && (Z.of_nat (length roles) <=? 3)
  && all_distinct (MissionRoleSpec.role_id <$> roles)
  && all_distinct (MissionRoleSpec.logical_vehicle_id <$> roles)
  && existsb (fun x => MissionRoleSpec.initial_role x ≟ InitialFleetRole.ACTIVE) roles
  && negb (fleb (MissionPackageV2.warning_separation_m r) (MissionPackageV2.critical_separation_m r))
  && negb (bool_decide (strategies = []))
  && all_distinct strategies
  && negb (negb (MissionPackageV2.planned_hold_permitted r) && ("STAGING_HOLD" ∈? strategies)).

Module MissionFileRecord.
Record t := mk {
  mission_id : string;
  name : string;
  filename : string;
  source_sha256 : string;
  source : string;
  language_version : string;
  tier : MissionTier.t;
  steps : list ScriptStep.t;
  planned_command_budget : Z;
  planned_observation_budget : Z;
  planned_duration_s : float;
  requires_range : bool;
  package_schema_version : Z;
  roles : list MissionRoleSpec.t;
  package : option MissionPackageV2.t;
  archived : bool;
}.
End MissionFileRecord.

Definition MissionFileRecord_valid (r : MissionFileRecord.t) : bool :=
  forallb ScriptStep_valid (MissionFileRecord.steps r)
  && (2 <=? MissionFileRecord.planned_command_budget r)
  && (MissionFileRecord.planned_command_budget r <=? MAX_COMMAND_BUDGET)
  && (0 <=? MissionFileRecord.planned_observation_budget r)
  && (MissionFileRecord.planned_observation_budget r <=? MAX_OBSERVATION_BUDGET)
  && ge0 (MissionFileRecord.planned_duration_s r)
  && fleb (MissionFileRecord.planned_duration_s r) (float_of_Z 300)
  && ((MissionFileRecord.package_schema_version r =? 1) || (MissionFileRecord.package_schema_version r =? 2))
  && forallb MissionRoleSpec_valid (MissionFileRecord.roles r)
  && opt_ok MissionPackageV2_valid (MissionFileRecord.package r).

(** ** Arguments of a mission command *)

(** [set(values) == keys] and [set(values).issubset(keys)] *)
Definition keys_are (keys : list string) (values : dict json) : bool :=
  bool_decide (list_to_set (dict_keys values) =@{gset string} list_to_set keys).
Definition keys_within (keys : list string) (values : dict json) : bool :=
  forallb (fun k => k ∈? keys) (dict_keys values).

Definition frame_value (f : CoordinateFrame.t) : string :=
  match f with
  | CoordinateFrame.WORLD => "world"
  | CoordinateFrame.HOME => "home"
  | CoordinateFrame.BODY => "body"
  | CoordinateFrame.SENSOR => "sensor"
  end.

Definition frame_of (v : json) : option CoordinateFrame.t :=
  match v with
  | JStr s => find_first (fun f => String.eqb (frame_value f) s)
                [CoordinateFrame.WORLD; CoordinateFrame.HOME; CoordinateFrame.BODY; CoordinateFrame.SENSOR]
  | _ => None
  end.

Section arguments.
Context `{TX : PyText}.

(** [MoveRelativeCommand.model_validate(values)]; every key is a field. *)
Definition model_validate_move (values : dict json) : outcome MoveRelativeCommand.t :=
  let invalid {A} : outcome A := Raise (ValidationError "MoveRelativeCommand") in
  let field key fallback :=
    match dict_get key values with
    | None => Ret fallback
    | Some v => match lax_float v with Some f => Ret f | None => invalid end
    end in
  x ← field "x_m" f0;
  y ← field "y_m" f0;
  z ← field "z_m" f0;
  yaw ← field "yaw_rad" f0;
  duration ← field "duration_s" f1;
  frame ← match dict_get "frame" values with
          | None => Ret CoordinateFrame.HOME
          | Some v => match frame_of v with Some f => Ret f | None => invalid end
          end;
  let command := MoveRelativeCommand.mk x y z yaw duration frame in
  checked "MoveRelativeCommand" (MoveRelativeCommand_valid command) command.

(** [not 0.0 < x <= maximum] *)
Definition positive_to (maximum x : float) : bool := fltb f0 x && fleb x maximum.

Definition json_at (key : string) (values : dict json) : outcome json :=
  match dict_get key values with Some v => Ret v | None => Raise KeyError end.

(** The body of the [try] *)
Definition checked_arguments (action : string) (values : dict json) : outcome (dict argument) :=
  let reject {A} : outcome A := Raise (ValueError "") in
  if String.eqb action "takeoff" then
    if negb (keys_are ["height_m"; "duration_s"] values) then reject
    else
      height ← json_at "height_m" values ≫= py_float;
      duration ← json_at "duration_s" values ≫= py_float;
      if negb (positive_to f1 height) || negb (positive_to (float_of_Z 30) duration) then reject
      else Ret [("height_m", Num height); ("duration_s", Num duration)]
  else if action ∈? ["hover"; "wait"; "land"] then
    let maximum := float_of_Z (if action ∈? ["hover"; "wait"] then 300 else 30) in
    if negb (keys_are ["duration_s"] values) then reject
    else
      duration ← json_at "duration_s" values ≫= py_float;
      if negb (positive_to maximum duration) then reject else Ret [("duration_s", Num duration)]
  else if String.eqb action "move_relative" then
    if negb (keys_within ["x_m"; "y_m"; "z_m"; "yaw_rad"; "duration_s"; "frame"] values)
       || negb (dict_mem "duration_s" values) then reject
    else
      command ← model_validate_move values;
      Ret [("x_m", Num (MoveRelativeCommand.x_m command)); ("y_m", Num (MoveRelativeCommand.y_m command));
           ("z_m", Num (MoveRelativeCommand.z_m command));
           ("yaw_rad", Num (MoveRelativeCommand.yaw_rad command));
           ("duration_s", Num (MoveRelativeCommand.duration_s command));
           ("frame", Text (frame_value (MoveRelativeCommand.frame command)))]
  else if String.eqb action "observe" then
    if negb (keys_within ["timeout_s"; "required"] values) then reject
    else
      timeout ← py_float (default (JFloat (flit 5 10)) (dict_get "timeout_s" values));
      let required := py_str (default (JStr "position") (dict_get "required" values)) in
      if negb (positive_to (float_of_Z 5) timeout) then reject
      else Ret [("timeout_s", Num timeout); ("required", Text required)]
  else if String.eqb action "checkpoint" then
    match values with [] => Ret [] | _ => reject end
  else reject.

Definition _validate_arguments (action : string) (values : dict json) : outcome (dict argument) :=
  except_raise (checked_arguments action values) is_TypeError_or_ValueError
    (fun _ => CrazySwarmError INVALID_COMMAND ("invalid arguments for " +:+ action)).

(** ** The recorded command branch of a role

    [None] as output is a text that is not JSON. *)
Inductive worker_answer :=
| TimedOut
| Exited (returncode : Z) (stdout : option json) (stderr : string).

Class MissionWorker := record_role : MissionFileRecord.t -> string -> worker_answer.

Definition get_attr (v : json) (key : string) : outcome (option json) :=
  match v with
  | JObj fields => Ret (dict_get key fields)
  | _ => Raise AttributeError
  end.

Definition get_item (v : json) (key : string) : outcome json :=
  match v with
  | JObj fields => json_at key fields
  | _ => Raise TypeError
  end.

(** [dict(v)]; the worker writes objects, and of other values only their rejection
    is modelled, not that Python also takes an array of pairs. *)
Definition py_dict (v : json) : outcome (dict json) :=
  match v with
  | JObj fields => Ret fields
  | _ => Raise TypeError
  end.

Fixpoint characters (s : string) : list json :=
  match s with
  | EmptyString => []
  | String c s' => JStr (String c EmptyString) :: characters s'
  end.

(** The iteration over a value *)
Definition py_iter (v : json) : outcome (list json) :=
  match v with
  | JList l => Ret l
  | JObj fields => Ret (JStr <$> dict_keys fields)
  | JStr s => Ret (characters s)
  | JNull | JBool _ | JInt _ | JFloat _ => Raise TypeError
  end.

Definition step_of (item : json) : outcome ScriptStep.t :=
  action ← get_item item "action";
  arguments ← get_item item "arguments" ≫= py_dict;
  let action := py_str action in
  arguments ← _validate_arguments action arguments;
  let step := ScriptStep.mk action arguments in
  checked "ScriptStep" (ScriptStep_valid step) step.

(** The exceptions [json.loads] and the construction of the steps may raise. *)
Definition is_rejection (e : exn) : bool :=
  is_TypeError_or_ValueError e || match e with OtherError name => String.eqb name "KeyError" | _ => false end.

(** The body of the [try]: the answer, and the steps it holds. *)
Definition steps_of (returncode : Z) (stdout : option json) (stderr : string) :
    outcome (json * list ScriptStep.t) :=
  response ← match stdout with
             | Some v => Ret v
             | None => Raise (ValueError "not JSON")
             end;
  ok ← (if negb (returncode =? 0) then Ret false
        else v ← get_attr response "ok"; Ret (truthy (default JNull v)));
  if negb ok then
    error ← get_attr response "error";
    let error := default JNull error in
    Raise (ValueError (if truthy error then py_str error else stderr))
  else
    items ← get_item response "steps" ≫= py_iter;
    steps ← mapM step_of items;
    Ret (response, steps).

Definition preview_isolated_mission_role `{MissionWorker} (record : MissionFileRecord.t)
    (role_id : string) : outcome (list ScriptStep.t) :=
  match record_role record role_id with
  | TimedOut => Err INVALID_COMMAND "mission worker timed out"
  | Exited returncode stdout stderr =>
      '(response, steps) ← except_raise (steps_of returncode stdout stderr) is_rejection
          (fun e => CrazySwarmError INVALID_COMMAND ("mission worker rejected artifact: " +:+ str_of_exn e));
      source ← get_attr response "source_sha256";
      if negb (match source with
               | Some (JStr s) => String.eqb s (MissionFileRecord.source_sha256 record)
               | _ => false
               end)
      then Err INVALID_COMMAND "mission preview output does not match the validated artifact"
      else if MissionFileRecord.planned_command_budget record <? Z.of_nat (length steps)
      then Err INVALID_COMMAND "mission preview exceeded the validated command budget"
      else Ret steps
  end.
End arguments.
