(* ===== verification/Syntax.v ===== *)
(** * Mission source: the syntax tree ([missions/script.py])

    The trees [ast.parse] builds for a mission file, as one type of nodes because the
    code inspects them by their class, with [ast.iter_child_nodes] and [ast.walk].
    [walk] visits level by level; the depth of the tree is fuel enough for it. *)

From S2P Require Import Prelude Float64 Effects Contracts Artifacts.

Module ast.
Inductive constant :=
| None_
| Bool (b : bool)
| Int (n : Z)
| Float (f : float)
| Str (s : string)
| OtherConstant.

Inductive cmpop := Eq | NotEq | Lt | LtE | Gt | GtE | Is | IsNot | In | NotIn.
Inductive boolop := And | Or.
Inductive operator := Add | Sub | Mult | Div | OtherOperator (name : string).
Inductive unaryop := USub | Not | OtherUnary (name : string).

(** A call has its position in the file. Contexts ([ast.Load], [ast.Store]), which are
    children without children that the language always allows, are left out. [Other] is
    any class the mission language does not know. *)
Inductive node :=
| Module_ (body : list node)
| Constant (value : constant)
| Name (id : string)
| Attribute (value : node) (attr : string)
| Call (lineno col_offset : Z) (func : node) (args keywords : list node)
| keyword (arg : option string) (value : node)
| Await (value : node)
| Cmpop (op : cmpop)
| Boolop (op : boolop)
| Operator (op : operator)
| Unaryop (op : unaryop)
| Compare (left : node) (ops : list cmpop) (comparators : list node)
| BoolOp (op : boolop) (values : list node)
| BinOp (left : node) (op : operator) (right : node)
| UnaryOp (op : unaryop) (operand : node)
| Expr (value : node)
| Assign (targets : list node) (value : node)
| If (test : node) (body orelse : list node)
| For (target iter : node) (body orelse : list node)
| While (test : node) (body orelse : list node)
| Break
| Continue
| Pass
| arg (name : string) (annotation : list node)
| arguments (posonlyargs args vararg kwonlyargs kw_defaults kwarg defaults : list node)
| AsyncFunctionDef (name : string) (args : node) (body decorator_list returns type_params : list node)
| Other (kind : string) (fields : list node).
End ast.

#[export] Instance constant_eq_dec : EqDecision ast.constant.
Proof. solve_decision. Defined.
#[export] Instance cmpop_eq_dec : EqDecision ast.cmpop.
Proof. solve_decision. Defined.
#[export] Instance operator_eq_dec : EqDecision ast.operator.
Proof. solve_decision. Defined.
#[export] Instance unaryop_eq_dec : EqDecision ast.unaryop.
Proof. solve_decision. Defined.

(** [ast.iter_child_nodes]: the fields in their order; an optional field is a list *)
Definition children (n : ast.node) : list ast.node :=
  match n with
  | ast.Module_ b => b
  | ast.Constant _ | ast.Name _ | ast.Break | ast.Continue | ast.Pass
  | ast.Cmpop _ | ast.Boolop _ | ast.Operator _ | ast.Unaryop _ => []
  | ast.Attribute v _ | ast.keyword _ v | ast.Await v | ast.Expr v => [v]
  | ast.UnaryOp o v => [ast.Unaryop o; v]
  | ast.Call _ _ f args keywords => f :: args ++ keywords
  | ast.Compare l os cs => l :: map ast.Cmpop os ++ cs
  | ast.BoolOp o vs => ast.Boolop o :: vs
  | ast.BinOp l o r => [l; ast.Operator o; r]
  | ast.Assign ts v => ts ++ [v]
  | ast.If t b e | ast.While t b e => t :: b ++ e
  | ast.For t i b e => t :: i :: b ++ e
  | ast.arg _ a => a
  | ast.arguments p a v k kd kw d => p ++ a ++ v ++ k ++ kd ++ kw ++ d
  | ast.AsyncFunctionDef _ a b d r t => a :: b ++ d ++ r ++ t
  | ast.Other _ l => l
  end.

(** The recursion over a tree: a value from the node and the values of its children *)
Definition fold_node {A} (f : ast.node -> list A -> A) : ast.node -> A :=
  fix go n :=
    f n (match n with
         | ast.Module_ b => map go b
         | ast.Constant _ | ast.Name _ | ast.Break | ast.Continue | ast.Pass
         | ast.Cmpop _ | ast.Boolop _ | ast.Operator _ | ast.Unaryop _ => []
         | ast.Attribute v _ | ast.keyword _ v | ast.Await v | ast.Expr v => [go v]
         | ast.UnaryOp o v => [f (ast.Unaryop o) []; go v]
         | ast.Call _ _ g args keywords => go g :: map go args ++ map go keywords
         | ast.Compare l os cs => go l :: map (fun o => f (ast.Cmpop o) []) os ++ map go cs
         | ast.BoolOp o vs => f (ast.Boolop o) [] :: map go vs
         | ast.BinOp l o r => [go l; f (ast.Operator o) []; go r]
         | ast.Assign ts v => map go ts ++ [go v]
         | ast.If t b e | ast.While t b e => go t :: map go b ++ map go e
         | ast.For t i b e => go t :: go i :: map go b ++ map go e
         | ast.arg _ a => map go a
         | ast.arguments p a v k kd kw d =>
             map go p ++ map go a ++ map go v ++ map go k ++ map go kd ++ map go kw ++ map go d
         | ast.AsyncFunctionDef _ a b d r t => go a :: map go b ++ map go d ++ map go r ++ map go t
         | ast.Other _ l => map go l
         end).

Lemma fold_node_eq {A} (f : ast.node -> list A -> A) n :
  fold_node f n = f n (map (fold_node f) (children n)).
Proof. destruct n; simpl; rewrite ?map_app; simpl; rewrite ?map_app, ?map_map; done. Qed.

Definition depth : ast.node -> nat := fold_node (fun _ ds => S (list_max ds)).

(** The nodes of a tree from the root down, in the order of the text *)
Definition preorder : ast.node -> list ast.node := fold_node (fun n ls => n :: mjoin ls).

Lemma depth_child c n : c ∈ children n -> (depth c < depth n)%nat.
Proof.
  intros Hc. unfold depth at 2. rewrite fold_node_eq. fold depth.
  pose proof (proj1 (list_max_le (map depth (children n)) _) (le_n _)) as H.
  rewrite List.Forall_forall in H. specialize (H (depth c)).
  assert (depth c <= list_max (map depth (children n)))%nat; [|lia].
  apply H, in_map. by apply list_elem_of_In.
Qed.

(** Induction over a tree: a property holds of a node when it holds of its children. *)
Lemma node_ind (P : ast.node -> Prop) :
  (forall n, (forall c, c ∈ children n -> P c) -> P n) -> forall n, P n.
Proof.
  intros H n. induction n as [n IH] using (well_founded_induction (Wf_nat.well_founded_ltof _ depth)).
  apply H. intros c Hc. apply IH. by apply depth_child.
Qed.

Lemma preorder_eq n : preorder n = n :: mjoin (map preorder (children n)).
Proof. unfold preorder at 1. by rewrite fold_node_eq. Qed.

(** A predicate of nodes decided over a whole tree *)
Definition all_nodes (p : ast.node -> bool) : ast.node -> bool :=
  fold_node (fun n bs => p n && forallb id bs).

Lemma all_nodes_eq p n : all_nodes p n = p n && forallb (all_nodes p) (children n).
Proof.
  unfold all_nodes at 1. rewrite fold_node_eq. fold (all_nodes p). f_equal.
  induction (children n) as [|c l IH]; simpl; [done|]. by rewrite IH.
Qed.

(** [ast.walk] of a list of trees: a level and the levels below it *)
Fixpoint walk_levels (fuel : nat) (level : list ast.node) : list ast.node :=
  match fuel with
  | O => []
  | S fuel => level ++ walk_levels fuel (mjoin (map children level))
  end.

Definition walk (n : ast.node) : list ast.node := walk_levels (depth n) [n].

Lemma join_app {A} (l k : list (list A)) : mjoin (l ++ k) = mjoin l ++ mjoin k.
Proof. induction l; simpl; [done|]. by rewrite IHl, app_assoc. Qed.

Lemma walk_levels_perm fuel level :
  Forall (fun n => (depth n <= fuel)%nat) level ->
  walk_levels fuel level ≡ₚ mjoin (map preorder level).
Proof.
  revert level. induction fuel as [|fuel IH]; intros level Hd; simpl.
  { destruct Hd as [|n l Hn _]; [done|]. unfold depth in Hn. rewrite fold_node_eq in Hn. lia. }
  rewrite IH.
  - clear. induction level as [|n level IH]; simpl; [done|].
    rewrite preorder_eq. simpl. rewrite map_app, join_app, <-IH.
    by rewrite !app_assoc, (Permutation_app_comm level).
  - clear IH. induction Hd as [|n level Hn _ IH]; simpl; [done|]. apply Forall_app. split; [|done].
    apply Forall_forall. intros c Hc. apply depth_child in Hc. lia.
Qed.

(** Walking visits every node of the tree, each once. *)
Lemma walk_perm n : walk n ≡ₚ preorder n.
Proof.
  unfold walk. rewrite walk_levels_perm by (by constructor). simpl. by rewrite app_nil_r.
Qed.

Lemma forallb_Permutation {A} (p : A -> bool) l k : l ≡ₚ k -> forallb p l = forallb p k.
Proof. induction 1; simpl; [done|by f_equal|by rewrite !andb_assoc, (andb_comm (p y))|congruence]. Qed.

Lemma forallb_join {A} (p : A -> bool) l : forallb p (mjoin l) = forallb (forallb p) l.
Proof. induction l; simpl; [done|]. by rewrite forallb_app, IHl. Qed.

Lemma forallb_preorder p n : forallb p (preorder n) = all_nodes p n.
Proof.
  induction n as [n IH] using node_ind. rewrite preorder_eq, all_nodes_eq. simpl. f_equal.
  rewrite forallb_join. clear -IH. induction (children n) as [|c l IHl]; simpl; [done|].
  rewrite IH by left. f_equal. apply IHl. intros c' ?. apply IH. by right.
Qed.

(** A test of every node that the walk finds is a test of the tree. *)
Lemma forallb_walk p n : forallb p (walk n) = all_nodes p n.
Proof. by rewrite (forallb_Permutation _ _ _ (walk_perm n)), forallb_preorder. Qed.
