(* ===== verification/Validation.v ===== *)
(** * Mission source: what the service accepts ([missions/script.py])

    [parse_python_mission] and everything it calls: the shape of the file, the
    declared package, linear missions as a list of steps, and bounded missions with
    their permitted syntax, their loops, their life cycle and the estimate of the
    commands, observations and time they need.

    The parser of Python, [ast.literal_eval], the digest of a text and the parsing of
    a literal into the fields of a package are interfaces. A string is a sequence of
    code points below 256, the characters of Rocq. *)

From S2P Require Import Prelude Float64 Effects Contracts Artifacts Trajectory Commands Scripts Syntax.

(** ** Interfaces *)

Inductive parsed :=
| Tree (module : ast.node)
| SyntaxError (lineno : string)
| ParseError (e : exn).

(** What [ast.literal_eval] returns *)
Inductive literal :=
| LNone
| LBool (b : bool)
| LInt (n : Z)
| LFloat (f : float)
| LComplex (re im : float)
| LStr (s : string)
| LDict (items : list (literal * literal))
| LOther.

(** [literal_role] and [literal_package] read the fields of the two models from the
    items of a dictionary; [None] when a field is missing or has another type. *)
Class MissionFiles := {
  ast_parse : string -> string -> parsed;
  sha256_text : string -> string;
  literal_eval : ast.node -> outcome literal;
  sorted_items : list (literal * literal) -> outcome (list (literal * literal));
  literal_role : list (literal * literal) -> option MissionRoleSpec.t;
  literal_package : list (literal * literal) -> list MissionRoleSpec.t -> option MissionPackageV2.t;
}.

(** A loop that stops at the first exception *)
Section loop.
Context {A B : Type} (f : B -> A -> outcome B).
Fixpoint foldM (b : B) (l : list A) : outcome B :=
  match l with
  | [] => Ret b
  | a :: l => b' ← f b a; foldM b' l
  end.
End loop.

(** ** Text *)

(** [len(s.encode("utf-8"))] *)
Fixpoint encoded_length (s : string) : Z :=
  match s with
  | EmptyString => 0
  | String c s' => (if (Ascii.N_of_ascii c <? 128)%N then 1 else 2) + encoded_length s'
  end.

Definition is_whitespace (c : Ascii.ascii) : bool :=
  let n := Ascii.N_of_ascii c in
  ((9 <=? n) && (n <=? 13))%N || ((28 <=? n) && (n <=? 32))%N || (n =? 133)%N || (n =? 160)%N.

(** [s.strip()] *)
Fixpoint lstrip (s : string) : string :=
  match s with
  | String c s' => if is_whitespace c then lstrip s' else s
  | EmptyString => s
  end.
Fixpoint rstrip (s : string) : string :=
  match s with
  | EmptyString => s
  | String c s' =>
      match rstrip s' with
      | EmptyString => if is_whitespace c then EmptyString else String c EmptyString
      | t => String c t
      end
  end.
Definition strip (s : string) : string := rstrip (lstrip s).

Fixpoint endswith (suffix s : string) : bool :=
  String.eqb s suffix || match s with String _ s' => endswith suffix s' | EmptyString => false end.

(** [sub in s] *)
Fixpoint substring_in (sub s : string) : bool :=
  String.prefix sub s || match s with String _ s' => substring_in sub s' | EmptyString => false end.

(** The parts of a text between slashes *)
Fixpoint split_slash (s : string) : list string :=
  match s with
  | EmptyString => [EmptyString]
  | String c s' =>
      let parts := split_slash s' in
      if (Ascii.N_of_ascii c =? 47)%N then EmptyString :: parts
      else match parts with
           | p :: ps => String c p :: ps
           | [] => [String c EmptyString]
           end
  end.

(** [Path(s).name]: the last part that is neither empty nor a dot *)
Definition path_name (s : string) : string :=
  List.last (List.filter (fun p => negb (String.eqb p "") && negb (String.eqb p ".")) (split_slash s)) "".

(** ** Shape of a file *)

Definition MAX_SOURCE_BYTES : Z := 128 * 1024.

(** A call of [drone.<action>], and its action *)
Definition drone_call (n : ast.node) : option string :=
  match n with
  | ast.Call _ _ (ast.Attribute (ast.Name id) attr) _ _ => if String.eqb id "drone" then Some attr else None
  | _ => None
  end.

Definition is_drone_call (n : ast.node) : bool := is_some (drone_call n).

Definition _is_mission_declaration (n : ast.node) : bool :=
  match n with
  | ast.Assign [ast.Name id] _ => String.eqb id "MISSION"
  | _ => false
  end.

Definition is_function (n : ast.node) : bool :=
  match n with ast.AsyncFunctionDef _ _ _ _ _ _ => true | _ => false end.

Definition is_docstring (n : ast.node) : bool :=
  match n with ast.Expr (ast.Constant (ast.Str _)) => true | _ => false end.

Definition module_body (tree : ast.node) : list ast.node :=
  match tree with ast.Module_ body => body | _ => [] end.

(** The body of a function definition *)
Definition function_body (f : ast.node) : list ast.node :=
  match f with ast.AsyncFunctionDef _ _ body _ _ _ => body | _ => [] end.

Definition argument_names (l : list ast.node) : list string :=
  omap (fun a => match a with ast.arg name _ => Some name | _ => None end) l.

Definition _mission_function (tree : ast.node) : outcome ast.node :=
  let body := module_body tree in
  let functions := List.filter is_function body in
  let other_nodes := List.filter (fun n =>
    negb (is_function n) && negb (_is_mission_declaration n) && negb (is_docstring n)) body in
  let reject {A} : outcome A := Err INVALID_COMMAND
    "file must contain only async def mission(drone), plus an optional MISSION declaration" in
  match other_nodes, functions with
  | [], [ast.AsyncFunctionDef name (ast.arguments _ args vararg _ _ kwarg _) _ decorators _ _ as f] =>
      if negb (String.eqb name "mission") then reject
      else if negb (bool_decide (decorators = [])) || negb (bool_decide (vararg = []))
              || negb (bool_decide (kwarg = []))
      then Err INVALID_COMMAND "mission decorators and variable arguments are not allowed"
      else if argument_names args ≠? ["drone"]
      then Err INVALID_COMMAND "mission must accept exactly one drone argument"
      else Ret f
  | _, _ => reject
  end.

(** ** Declared package *)

Definition literal_string (l : literal) : option string :=
  match l with LStr s => Some s | _ => None end.

Definition literal_dict (l : literal) : option (list (literal * literal)) :=
  match l with LDict items => Some items | _ => None end.

(** [raw.get(key)] for a string *)
Definition literal_get (key : string) (items : list (literal * literal)) : option literal :=
  snd <$> find_first (fun kv => match literal_string (fst kv) with Some s => String.eqb s key | None => false end) items.

(** [literal == 2] *)
Definition equals_two (l : literal) : bool :=
  match l with
  | LInt n => n =? 2
  | LFloat f => feqb f (float_of_Z 2)
  | LComplex re im => feqb re (float_of_Z 2) && feqb im f0
  | _ => false
  end.

(** [{"role_id": role_id, **definition}] *)
Definition with_role_id (role_id : string) (definition : list (literal * literal)) : list (literal * literal) :=
  match literal_get "role_id" definition with
  | None => (LStr "role_id", LStr role_id) :: definition
  | Some v => (LStr "role_id", v)
                :: List.filter (fun kv => negb (bool_decide (literal_string (fst kv) = Some "role_id"))) definition
  end.

Section package.
Context `{TX : PyText} `{MF : MissionFiles}.

(** [sorted(raw_roles.items())]: keys that are strings are distinct and ordered. *)
Definition sorted_roles (items : list (literal * literal)) : outcome (list (literal * literal)) :=
  if forallb (fun kv => is_some (literal_string (fst kv))) items
  then Ret (py_sorted (fun p q => str_ltb (default "" (literal_string (fst p))) (default "" (literal_string (fst q)))) items)
  else sorted_items items.

(** [MissionRoleSpec.model_validate(fields)] *)
Definition validate_role (fields : list (literal * literal)) : outcome MissionRoleSpec.t :=
  role ← some_or (ValidationError "MissionRoleSpec") (literal_role fields);
  checked "MissionRoleSpec" (MissionRoleSpec_valid role) role.

(** [MissionPackageV2.model_validate({**payload, "roles": roles})] *)
Definition validate_package (payload : list (literal * literal)) (roles : list MissionRoleSpec.t) :
    outcome MissionPackageV2.t :=
  package ← some_or (ValidationError "MissionPackageV2") (literal_package payload roles);
  checked "MissionPackageV2" (MissionPackageV2_valid package) package.

(** The body of the [try] *)
Definition package_of_declaration (value : ast.node) : outcome MissionPackageV2.t :=
  raw ← literal_eval value;
  items ← some_or (ValueError "MISSION schema_version must be 2") (literal_dict raw);
  if negb (match literal_get "schema_version" items with Some v => equals_two v | None => false end)
  then Raise (ValueError "MISSION schema_version must be 2")
  else
    raw_roles ← some_or (ValueError "MISSION roles must be a mapping")
                        (literal_get "roles" items ≫= literal_dict);
    sorted ← sorted_roles raw_roles;
    roles ← mapM (fun rd => validate_role (with_role_id (fst rd) (snd rd)))
                 (omap (fun kv => role_id ← literal_string (fst kv);
                                  definition ← literal_dict (snd kv);
                                  Some (role_id, definition)) sorted);
    if negb (bool_decide (length roles = length raw_roles))
    then Raise (ValueError "MISSION role definitions must be literal mappings")
    else validate_package (List.filter (fun kv => negb (bool_decide (literal_string (fst kv) = Some "roles"))) items) roles.

Definition _mission_package (tree : ast.node) : outcome (option MissionPackageV2.t) :=
  match List.filter _is_mission_declaration (module_body tree) with
  | [] => Ret None
  | [ast.Assign _ value] =>
      Some <$> except_raise (package_of_declaration value) is_TypeError_or_ValueError
        (fun e => CrazySwarmError INVALID_COMMAND ("invalid MISSION package: " +:+ str_of_exn e))
  | _ => Err INVALID_COMMAND "MISSION must be declared exactly once"
  end.
End package.

(** ** Commands *)

Definition is_Await (n : ast.node) : bool := match n with ast.Await _ => true | _ => false end.

(** Every operation of the drone is the child of an [await]. *)
Definition awaits_children (n : ast.node) : bool :=
  is_Await n || negb (existsb is_drone_call (children n)).

Definition _require_awaited_drone_calls (tree : ast.node) : outcome unit :=
  if forallb awaits_children (walk tree) then Ret tt
  else Err INVALID_COMMAND "every drone operation must be awaited".

Section commands.
Context `{TX : PyText} `{MF : MissionFiles}.

(** The value of a literal, its sign applied to numbers alone *)
Definition literal_argument (sign : float) (value : ast.node) : outcome argument :=
  match value with
  | ast.Constant (ast.Int n) => x ← py_float (JInt n); Ret (Num (fmul sign x))
  | ast.Constant (ast.Float x) => Ret (Num (fmul sign x))
  | ast.Constant (ast.Str s) => Ret (Text s)
  | _ => Err INVALID_COMMAND "mission command values must be literals"
  end.

Definition keyword_argument (value : ast.node) : outcome argument :=
  match value with
  | ast.UnaryOp ast.USub operand => literal_argument (fneg f1) operand
  | _ => literal_argument f1 value
  end.

(** [_literal_keywords], on the keywords of the call *)
Fixpoint literal_keywords_from (arguments : dict argument) (keywords : list ast.node) : outcome (dict argument) :=
  match keywords with
  | [] => Ret arguments
  | ast.keyword (Some name) value :: rest =>
      if dict_mem name arguments then Err INVALID_COMMAND "mission command keywords must be unique"
      else
        a ← keyword_argument value;
        literal_keywords_from (dict_set name a arguments) rest
  | _ :: _ => Err INVALID_COMMAND "mission command keywords must be unique"
  end.

Definition call_keywords (call : ast.node) : list ast.node :=
  match call with ast.Call _ _ _ _ keywords => keywords | _ => [] end.

Definition _literal_keywords (call : ast.node) : outcome (dict argument) :=
  literal_keywords_from [] (call_keywords call).

(** [_validate_arguments(action, _literal_keywords(call))] *)
Definition call_arguments (action : string) (call : ast.node) : outcome (dict argument) :=
  arguments ← _literal_keywords call;
  _validate_arguments action (prod_map id argument_json <$> arguments).

Definition call_step (action : string) (call : ast.node) : outcome ScriptStep.t :=
  arguments ← call_arguments action call;
  let step := ScriptStep.mk action arguments in
  checked "ScriptStep" (ScriptStep_valid step) step.

Definition _parse_direct_step (actions : list string) (statement : ast.node) : outcome ScriptStep.t :=
  match statement with
  | ast.Expr (ast.Await call) =>
      match call with
      | ast.Call _ _ (ast.Attribute target action) args _ =>
          match target with
          | ast.Name id =>
              if negb (String.eqb id "drone")
              then Err INVALID_COMMAND "mission commands must target drone"
              else if negb (action ∈? actions) || negb (bool_decide (args = []))
              then Err INVALID_COMMAND ("unsupported mission command: " +:+ action)
              else call_step action call
          | _ => Err INVALID_COMMAND "mission commands must target drone"
          end
      | _ => Err INVALID_COMMAND "mission command must call drone.<action>"
      end
  | _ => Err INVALID_COMMAND "mission body contains online control flow"
  end.

Definition action_count (action : string) (steps : list ScriptStep.t) : Z :=
  count_if (fun step => String.eqb (ScriptStep.action step) action) steps.

Definition takeoff_first_land_last (steps : list ScriptStep.t) : bool :=
  (2 <=? Z.of_nat (length steps))
  && bool_decide (ScriptStep.action <$> head steps = Some "takeoff")
  && bool_decide (ScriptStep.action <$> last steps = Some "land").

(** [None] when a statement is not a linear command *)
Definition _direct_steps (function : ast.node) : outcome (option (list ScriptStep.t)) :=
  match mapM (_parse_direct_step TIER_A_ACTIONS) (function_body function) with
  | Raise e => if is_CrazySwarmError e then Ret None else Raise e
  | Ret result =>
      if negb (takeoff_first_land_last result)
      then Err INVALID_COMMAND "mission must start with takeoff and end with land"
      else if negb (action_count "takeoff" result =? 1) || negb (action_count "land" result =? 1)
      then Err INVALID_COMMAND "mission requires one takeoff and one landing"
      else Ret (Some result)
  end.

(** ** Bounded missions: permitted syntax *)

(** [isinstance(node, _ALLOWED_NODES)] *)
Definition allowed_node (n : ast.node) : bool :=
  match n with
  | ast.Cmpop ast.In | ast.Cmpop ast.NotIn => false
  | ast.Operator (ast.OtherOperator _) => false
  | ast.Unaryop (ast.OtherUnary _) => false
  | ast.Other _ _ => false
  | _ => true
  end.

Definition kind_of (n : ast.node) : string :=
  match n with
  | ast.Cmpop ast.In => "In"
  | ast.Cmpop ast.NotIn => "NotIn"
  | ast.Operator (ast.OtherOperator k) | ast.Unaryop (ast.OtherUnary k) | ast.Other k _ => k
  | _ => ""
  end.

(** An integer constant that is not a Boolean *)
Definition integer_literal (n : ast.node) : option Z :=
  match n with ast.Constant (ast.Int z) => Some z | _ => None end.

(** [isinstance(value, int)] holds of Booleans too. *)
Definition int_instance (n : ast.node) : option Z :=
  match n with
  | ast.Constant (ast.Int z) => Some z
  | ast.Constant (ast.Bool b) => Some (b2z b)
  | _ => None
  end.

Definition loop_bound (z : Z) : bool := (0 <=? z) && (z <=? MAX_LOOP_ITERATIONS).

(** The counter, the limit, and whether the limit is included *)
Definition _bounded_while_condition (test : ast.node) : outcome (string * Z * bool) :=
  let reject {A} : outcome A := Err INVALID_COMMAND "mission while loop requires counter < literal bound" in
  match test with
  | ast.Compare (ast.Name counter) [op] [comparator] =>
      match op, integer_literal comparator with
      | ast.Lt, Some limit => if loop_bound limit then Ret (counter, limit, false) else reject
      | ast.LtE, Some limit => if loop_bound limit then Ret (counter, limit, true) else reject
      | _, _ => reject
      end
  | _ => reject
  end.

(** [value == 1] *)
Definition equals_one (n : ast.node) : bool :=
  match n with
  | ast.Constant (ast.Int z) => z =? 1
  | ast.Constant (ast.Bool b) => b
  | ast.Constant (ast.Float x) => feqb x f1
  | _ => false
  end.

Definition _is_counter_increment (statement : ast.node) (counter : string) : bool :=
  match statement with
  | ast.Assign [ast.Name target] (ast.BinOp (ast.Name operand) ast.Add increment) =>
      String.eqb target counter && String.eqb operand counter && equals_one increment
  | _ => false
  end.

Definition is_name (name : string) (n : ast.node) : bool :=
  match n with ast.Name id => String.eqb id name | _ => false end.

(** An assignment with the counter among its targets *)
Definition assigns (counter : string) (n : ast.node) : bool :=
  match n with ast.Assign targets _ => existsb (is_name counter) targets | _ => false end.

Definition is_Continue (n : ast.node) : bool := match n with ast.Continue => true | _ => false end.

(** ** [_BoundedMissionValidator]

    A visitor takes the known integer constants, [_integer_constants], to the new
    ones. The visitor of a node is made from those of its children. *)
Definition visitor : Type := dict Z -> outcome (dict Z).

Definition visit_all (visits : list visitor) : visitor := fun constants =>
  foldl (fun acc visit => acc ≫= visit) (Ret constants) visits.

Definition generic_visit (node : ast.node) (visits : list visitor) : visitor := fun constants =>
  if negb (allowed_node node)
  then Err INVALID_COMMAND ("unsupported bounded mission syntax: " +:+ kind_of node)
  else visit_all visits constants.

Definition visit_Attribute (node : ast.node) (attr : string) (visits : list visitor) : visitor :=
  if String.prefix "_" attr
  then fun _ => Err INVALID_COMMAND "private/reflection access is forbidden"
  else generic_visit node visits.

(** The constant that an assignment makes known *)
Definition known_integer (value : ast.node) : option Z :=
  match integer_literal value with
  | Some z => if loop_bound z then Some z else None
  | None => None
  end.

Definition visit_Assign (node : ast.node) (targets : list ast.node) (value : ast.node)
    (visits : list visitor) : visitor := fun constants =>
  match targets with
  | [ast.Name target] =>
      if String.eqb target "drone" then Err INVALID_COMMAND "mission cannot replace drone"
      else generic_visit node visits (match known_integer value with
                                      | Some z => dict_set target z constants
                                      | None => dict_del target constants
                                      end)
  | _ => Err INVALID_COMMAND "mission assignment must target one name"
  end.

Definition visit_Call (node func : ast.node) (args keywords : list ast.node)
    (visits : list visitor) : visitor := fun constants =>
  if is_name "range" func then
    if negb (bool_decide (keywords = [])) then Err INVALID_COMMAND "range keywords are not allowed"
    else generic_visit node visits constants
  else if negb (bool_decide (args = []))
  then Err INVALID_COMMAND "mission calls require keyword arguments"
  else
    match drone_call node with
    | Some action =>
        if negb (action ∈? TIER_B_ACTIONS)
        then Err INVALID_COMMAND "direct adapter or host calls are forbidden"
        else call_arguments action node ≫= fun _ => generic_visit node visits constants
    | None => Err INVALID_COMMAND "direct adapter or host calls are forbidden"
    end.

(** [range(n)] with a literal bound *)
Definition range_bound (iter : ast.node) : option Z :=
  match iter with
  | ast.Call _ _ func [argument] _ => if is_name "range" func then int_instance argument else None
  | _ => None
  end.

Definition visit_For (node target iter : ast.node) (orelse : list ast.node)
    (visits : list visitor) : visitor := fun constants =>
  match target, orelse with
  | ast.Name _, [] =>
      if match range_bound iter with Some z => loop_bound z | None => false end
      then generic_visit node visits constants
      else Err INVALID_COMMAND "mission loop requires literal bounded range"
  | _, _ => Err INVALID_COMMAND "mission for loop must be simple and bounded"
  end.

(** The only assignment of the counter in the body is its last statement: every
    occurrence in a tree is an object of its own. *)
Definition counter_changes (counter : string) (body : list ast.node) : list ast.node :=
  List.filter (assigns counter) (mjoin (map walk body)).

Definition visit_While (node test : ast.node) (body orelse : list ast.node)
    (visits : list visitor) : visitor := fun constants =>
  condition ← _bounded_while_condition test;
  let '(counter, limit, inclusive) := condition : string * Z * bool in
  let maximum_iterations :=
    match dict_get counter constants with
    | Some initial => limit - initial + (if inclusive then 1 else 0)
    | None => -1
    end in
  if negb (loop_bound maximum_iterations)
  then Err INVALID_COMMAND "mission while loop requires a preceding bounded integer counter"
  else if negb (bool_decide (orelse = [])) || existsb is_Continue (walk node)
  then Err INVALID_COMMAND "bounded mission while loops cannot use else or continue"
  else if negb (match last body with Some s => _is_counter_increment s counter | None => false end)
  then Err INVALID_COMMAND "bounded mission while loop must end by incrementing its counter"
  else if negb (bool_decide (length (counter_changes counter body) = 1%nat))
  then Err INVALID_COMMAND "bounded mission while counter can only change in its final increment"
  else generic_visit node visits constants.

(** The method that [NodeVisitor.visit] selects by the class of the node *)
Definition visit_node (node : ast.node) (visits : list visitor) : visitor :=
  match node with
  | ast.Attribute _ attr => visit_Attribute node attr visits
  | ast.Assign targets value => visit_Assign node targets value visits
  | ast.Call _ _ func args keywords => visit_Call node func args keywords visits
  | ast.For target iter _ orelse => visit_For node target iter orelse visits
  | ast.While test body orelse => visit_While node test body orelse visits
  | _ => generic_visit node visits
  end.

Definition visit : ast.node -> visitor := fold_node visit_node.

(** ** Life cycle, steps and estimate *)

Definition drone_actions (nodes : list ast.node) : list string := omap drone_call nodes.

Definition _require_lifecycle (function : ast.node) : outcome unit :=
  match head (function_body function), last (function_body function) with
  | Some first_statement, Some last_statement =>
      if bool_decide (length (function_body function) < 2)%nat
      then Err INVALID_COMMAND "mission must start with takeoff and end with land"
      else
        first ← _parse_direct_step TIER_B_ACTIONS first_statement;
        last ← _parse_direct_step TIER_B_ACTIONS last_statement;
        if negb (String.eqb (ScriptStep.action first) "takeoff") || negb (String.eqb (ScriptStep.action last) "land")
        then Err INVALID_COMMAND "mission must start with takeoff and end with land"
        else
          let calls := drone_actions (walk function) in
          if negb (count_if (String.eqb "takeoff") calls =? 1) || negb (count_if (String.eqb "land") calls =? 1)
          then Err INVALID_COMMAND "mission requires one takeoff and one landing"
          else Ret tt
  | _, _ => Err INVALID_COMMAND "mission must start with takeoff and end with land"
  end.

(** [(lineno, col_offset)]; calls of one file have distinct positions, so the steps
    themselves are never compared. *)
Definition position_ltb (p q : Z * Z * ScriptStep.t) : bool :=
  (fst (fst p) <? fst (fst q)) || ((fst (fst p) =? fst (fst q)) && (snd (fst p) <? snd (fst q))).

Definition located_step (node : ast.node) : option (outcome (Z * Z * ScriptStep.t)) :=
  match node, drone_call node with
  | ast.Call lineno col_offset _ _ _, Some action =>
      if action ∈? TIER_B_ACTIONS
      then Some (step ← call_step action node; Ret (lineno, col_offset, step))
      else None
  | _, _ => None
  end.

Definition _all_steps (function : ast.node) : outcome (list ScriptStep.t) :=
  located ← mapM id (omap located_step (walk function));
  Ret (snd <$> py_sorted position_ltb located).

Definition budget : Type := Z * Z * float.

(** [key(b) > key(a)] of the tuples *)
Definition budget_gt (b a : budget) : bool :=
  let '(ca, oa, da) := a in
  let '(cb, ob, db) := b in
  if negb (cb =? ca) then ca <? cb
  else if negb (ob =? oa) then oa <? ob
  else fltb da db.

(** A call outside a compound statement *)
Definition add_call (acc : budget) (call : ast.node) : outcome budget :=
  match drone_call call with
  | None => Ret acc
  | Some action =>
      arguments ← call_arguments action call;
      let '(commands, observations, duration) := acc in
      if String.eqb action "observe" then Ret (commands, observations + 1, duration)
      else if String.eqb action "checkpoint" then Ret acc
      else
        seconds ← float_or "duration_s" f0 arguments;
        Ret (commands + 1, observations, fadd duration seconds)
  end.

(** The budget of [iterations] runs of a block *)
Definition add_iterations (iterations : Z) (acc child : budget) : budget :=
  let '(commands, observations, duration) := acc in
  let '(c, o, d) := child in
  (commands + iterations * c, observations + iterations * o, fadd duration (fmul (float_of_Z iterations) d)).

Definition no_budget : budget := (0, 0, f0).

Fixpoint estimate_statement (acc : budget) (statement : ast.node) : outcome budget :=
  match statement with
  | ast.For _ iter body _ =>
      iterations ← match iter with
                   | ast.Call _ _ _ (argument :: _) _ => some_or AttributeError (int_instance argument)
                   | ast.Call _ _ _ [] _ => Raise IndexError
                   | _ => Raise AttributeError
                   end;
      child ← foldM estimate_statement no_budget body;
      Ret (add_iterations iterations acc child)
  | ast.While test body _ =>
      condition ← _bounded_while_condition test;
      let '(_, limit, inclusive) := condition : string * Z * bool in
      child ← foldM estimate_statement no_budget body;
      Ret (add_iterations (limit + (if inclusive then 1 else 0)) acc child)
  | ast.If _ body orelse =>
      body ← foldM estimate_statement no_budget body;
      alternate ← foldM estimate_statement no_budget orelse;
      let selected := if budget_gt alternate body then alternate else body in
      let '(commands, observations, duration) := acc in
      Ret (commands + fst (fst selected), observations + snd (fst selected),
           fadd duration (py_fmax (snd body) (snd alternate)))
  | _ => foldM add_call acc (walk statement)
  end.

Definition _estimate_block (statements : list ast.node) : outcome budget :=
  foldM estimate_statement no_budget statements.

(** ** [parse_python_mission] *)

Definition MISSION_LANGUAGE_VERSION : string := "bounded-python-1".

(** The tier, the steps and the budgets of a mission *)
Definition static_plan (tree function : ast.node) :
    outcome (MissionTier.t * list ScriptStep.t * budget) :=
  direct ← _direct_steps function;
  match direct with
  | Some steps =>
      durations ← mapM (fun step => float_or "duration_s" f0 (ScriptStep.arguments step)) steps;
      Ret (MissionTier.LINEAR, steps, (Z.of_nat (length steps), 0, py_sum durations))
  | None =>
      _require_awaited_drone_calls tree ≫= fun _ =>
      visit function [] ≫= fun _ =>
      _require_lifecycle function ≫= fun _ =>
      steps ← _all_steps function;
      estimate ← _estimate_block (function_body function);
      Ret (MissionTier.BOUNDED_OBSERVATION, steps, estimate)
  end.

Definition parse_tree (filename source : string) : outcome ast.node :=
  match ast_parse filename source with
  | Tree tree => Ret tree
  | SyntaxError lineno => Err INVALID_COMMAND ("invalid Python at line " +:+ lineno)
  | ParseError e => Raise e
  end.

Definition parse_python_mission (filename name source : string) : outcome MissionFileRecord.t :=
  let clean_filename := path_name filename in
  let clean_name := strip name in
  if negb (endswith ".py" clean_filename) then Err INVALID_COMMAND "mission file must use .py"
  else if String.eqb clean_name "" || (120 <? Z.of_nat (String.length clean_name))
  then Err INVALID_COMMAND "mission name is required"
  else if String.eqb source "" || (MAX_SOURCE_BYTES <? encoded_length source)
  then Err INVALID_COMMAND "mission file is empty or too large"
  else
    tree ← parse_tree clean_filename source;
    function ← _mission_function tree;
    package ← _mission_package tree;
    plan ← static_plan tree function;
    let '(tier, steps, (command_budget, observation_budget, duration)) :=
      plan : MissionTier.t * list ScriptStep.t * budget in
    if (MAX_COMMAND_BUDGET <? command_budget) || (MAX_OBSERVATION_BUDGET <? observation_budget)
    then Err INVALID_COMMAND "mission static budget exceeded"
    else if fltb (float_of_Z 300) duration
    then Err INVALID_COMMAND "mission duration budget exceeded"
    else
      let source_sha256 := sha256_text source in
      let record := MissionFileRecord.mk
        ("py-" +:+ String.substring 0 20 source_sha256) clean_name clean_filename source_sha256
        source MISSION_LANGUAGE_VERSION tier steps command_budget observation_budget duration
        (substring_in ".ranges" source) (if is_some package then 2 else 1)
        (match package with Some p => MissionPackageV2.roles p | None => [] end) package false in
      checked "MissionFileRecord" (MissionFileRecord_valid record) record.
End commands.
