(* ===== verification/Worker.v ===== *)
(** * The mission worker ([missions/_mission_worker.py])

    The worker runs the source of a mission in a process of its own. Its two drones,
    the one that records commands and the one that asks the parent for each of them,
    are modelled with their state and their budgets. The source is Python, so the
    worker's [exec] is an evaluator of the permitted syntax: expressions, statements
    and their control flow over the values a mission can reach.

    What is not determined by the permitted syntax is an interface: operations on
    values other than integers, floats, [None] and observations, and the globals other
    than the entry point and [range]. Nested functions, starred arguments and calls of
    anything but [range] and the methods of the drone raise [Uninterpreted]. A loop
    has a limit on its iterations, the time limit of the process. *)

From S2P Require Import Prelude Float64 Effects Contracts Artifacts Trajectory Commands Scripts Syntax Validation.

(** ** Values *)

(** Data: JSON, where an object is an [AttrView], and other objects of the language *)
Inductive plain :=
| Json (j : json)
| Opaque (kind : string).

Inductive value :=
| Plain (p : plain)
| RangeObject (start stop step : Z)
| DroneObject
| Method (action : string)
| Coroutine (action : string) (arguments : list (string * value))
| MissionFunction
| Builtin (name : string).

Notation VNone := (Plain (Json JNull)).
Notation VBool b := (Plain (Json (JBool b))).
Notation VInt n := (Plain (Json (JInt n))).
Notation VFloat x := (Plain (Json (JFloat x))).

Notation NameError := (OtherError "NameError").
Notation UnboundLocalError := (OtherError "UnboundLocalError").
Notation RuntimeError msg := (OtherError ("RuntimeError: " +:+ msg)).
Notation Uninterpreted := (OtherError "outside the interpreted language").
Notation OperationError := (OtherError "an operation of the language").

(** [None]: the operation raises. [op_describe] is [f"{type(error).__name__}: {error}"]. *)
Class PythonValues := {
  op_compare : ast.cmpop -> value -> value -> option bool;
  op_binary : ast.operator -> value -> value -> option plain;
  op_negative : value -> option plain;
  op_attribute : value -> string -> option plain;
  op_truth : string -> bool;
  op_global : string -> option plain;
  op_describe : exn -> string;
}.

(** ** The drones *)

(** The methods both drones have *)
Definition drone_methods : list string :=
  ["takeoff"; "hover"; "move_relative"; "land"; "observe"; "wait"; "checkpoint"].

(** What the evaluator needs of a drone: its other attributes, and the effect of
    awaiting one of its methods *)
Class DroneClass (D : Type) := {
  drone_attribute : D -> string -> option plain;
  perform : string -> dict value -> M D value;
}.

Module RecorderDrone.
Record t := mk {
  role : string;
  steps : list (string * list (string * value));
}.
End RecorderDrone.

Definition record_step (action : string) (arguments : dict value) (d : RecorderDrone.t) : RecorderDrone.t :=
  RecorderDrone.mk (RecorderDrone.role d) (RecorderDrone.steps d ++ [(action, arguments)]).

(** Waiting is recorded as hovering. *)
Definition RecorderDrone_perform (action : string) (arguments : dict value) : M RecorderDrone.t value :=
  if String.eqb action "observe" then mret (Plain (Json (JObj [])))
  else if String.eqb action "checkpoint" then mret VNone
  else
    _ ← modify (record_step (if String.eqb action "wait" then "hover" else action) arguments);
    mret VNone.

#[export] Instance RecorderDrone_class : DroneClass RecorderDrone.t := {|
  drone_attribute d name :=
    if String.eqb name "role" then Some (Json (JStr (RecorderDrone.role d)))
    else if String.eqb name "steps"
    then Some (Opaque (if bool_decide (RecorderDrone.steps d = []) then "empty list" else "list"))
    else None;
  perform := RecorderDrone_perform;
|}.

Module ProtocolDrone.
Record t := mk {
  role : string;
  command_budget : Z;
  observation_budget : Z;
  commands : Z;
  observations : Z;
  request_id : Z;
}.
End ProtocolDrone.

(** The line the parent answers to a request *)
Inductive parent_line :=
| Closed
| NotJson
| Response (response : json).

Class MissionParent := parent_answer : Z -> string -> dict json -> parent_line.

Section protocol.
Context `{TX : PyText} `{MP : MissionParent}.

(** [json.dumps] of an argument; an [AttrView] is not serialisable. *)
Definition dumps (v : value) : outcome json :=
  match v with
  | Plain (Json (JObj _)) => Raise TypeError
  | Plain (Json j) => Ret j
  | _ => Raise TypeError
  end.

Definition dumps_arguments (arguments : dict value) : outcome (dict json) :=
  mapM (fun kv => j ← dumps (snd kv); Ret (fst kv, j)) arguments.

Definition count_observation (d : ProtocolDrone.t) : ProtocolDrone.t :=
  ProtocolDrone.mk (ProtocolDrone.role d) (ProtocolDrone.command_budget d) (ProtocolDrone.observation_budget d)
    (ProtocolDrone.commands d) (ProtocolDrone.observations d + 1) (ProtocolDrone.request_id d).

Definition count_command (d : ProtocolDrone.t) : ProtocolDrone.t :=
  ProtocolDrone.mk (ProtocolDrone.role d) (ProtocolDrone.command_budget d) (ProtocolDrone.observation_budget d)
    (ProtocolDrone.commands d + 1) (ProtocolDrone.observations d) (ProtocolDrone.request_id d).

Definition next_request (d : ProtocolDrone.t) : ProtocolDrone.t :=
  ProtocolDrone.mk (ProtocolDrone.role d) (ProtocolDrone.command_budget d) (ProtocolDrone.observation_budget d)
    (ProtocolDrone.commands d) (ProtocolDrone.observations d) (ProtocolDrone.request_id d + 1).

(** [response.get("id") != self.request_id] *)
Definition is_request (id : Z) (v : option json) : bool :=
  match v with
  | Some (JInt n) => n =? id
  | Some (JBool b) => b2z b =? id
  | Some (JFloat x) => feqb x (float_of_Z id)
  | _ => false
  end.

(** The answer of the parent, checked *)
Definition response_result (id : Z) (line : parent_line) : outcome json :=
  match line with
  | Closed => Raise (RuntimeError "mission parent closed the protocol")
  | NotJson => Raise (ValueError "not JSON")
  | Response response =>
      answered ← get_attr response "id";
      if negb (is_request id answered)
      then Raise (RuntimeError "mission protocol response identity mismatch")
      else
        ok ← get_attr response "ok";
        if negb (truthy (default JNull ok))
        then
          error ← get_attr response "error";
          let error := default JNull error in
          Raise (RuntimeError (if truthy error then py_str error else "mission call failed"))
        else
          result ← get_attr response "result";
          Ret (default JNull result)
  end.

Definition _request (action : string) (arguments : dict value) : M ProtocolDrone.t json :=
  _ ← (if String.eqb action "observe" then
         _ ← modify count_observation;
         d ← get;
         raise_if (ProtocolDrone.observation_budget d <? ProtocolDrone.observations d)
                  (RuntimeError "mission observation budget exceeded")
       else if negb (String.eqb action "checkpoint") then
         _ ← modify count_command;
         d ← get;
         raise_if (ProtocolDrone.command_budget d <? ProtocolDrone.commands d)
                  (RuntimeError "mission command budget exceeded")
       else mret tt);
  _ ← modify next_request;
  d ← get;
  let id := ProtocolDrone.request_id d in
  sent ← lift (dumps_arguments arguments);
  lift (response_result id (parent_answer id action sent)).

Definition ProtocolDrone_perform (action : string) (arguments : dict value) : M ProtocolDrone.t value :=
  result ← _request action arguments;
  if String.eqb action "observe" then
    match result with
    | JObj fields => mret (Plain (Json (JObj fields)))
    | _ => raise (RuntimeError "mission observation response is malformed")
    end
  else mret VNone.

#[export] Instance ProtocolDrone_class : DroneClass ProtocolDrone.t := {|
  drone_attribute d name :=
    if String.eqb name "role" then Some (Json (JStr (ProtocolDrone.role d)))
    else if String.eqb name "command_budget" then Some (Json (JInt (ProtocolDrone.command_budget d)))
    else if String.eqb name "observation_budget" then Some (Json (JInt (ProtocolDrone.observation_budget d)))
    else if String.eqb name "commands" then Some (Json (JInt (ProtocolDrone.commands d)))
    else if String.eqb name "observations" then Some (Json (JInt (ProtocolDrone.observations d)))
    else if String.eqb name "request_id" then Some (Json (JInt (ProtocolDrone.request_id d)))
    else None;
  perform := ProtocolDrone_perform;
|}.
End protocol.

(** ** Operations on values *)

Definition constant_value (c : ast.constant) : value :=
  match c with
  | ast.None_ => VNone
  | ast.Bool b => VBool b
  | ast.Int n => VInt n
  | ast.Float x => VFloat x
  | ast.Str s => Plain (Json (JStr s))
  | ast.OtherConstant => Plain (Opaque "constant")
  end.

(** Booleans are integers. *)
Definition as_int (v : value) : option Z :=
  match v with
  | VInt n => Some n
  | VBool b => Some (b2z b)
  | _ => None
  end.

Definition is_none_value (v : value) : bool := match v with VNone => true | _ => false end.

Definition range_length (start stop step : Z) : Z :=
  if 0 <? step then Z.max 0 ((stop - start + step - 1) / step)
  else Z.max 0 ((start - stop - step - 1) / (- step)).

Definition range_elements (start stop step : Z) : list Z :=
  (fun i => start + Z.of_nat i * step) <$> seq 0 (Z.to_nat (range_length start stop step)).

Section operations.
Context `{PV : PythonValues}.

(** [bool(v)]; an [AttrView] is always true. *)
Definition is_true (v : value) : bool :=
  match v with
  | Plain (Json (JObj _)) => true
  | Plain (Json j) => truthy j
  | Plain (Opaque kind) => op_truth kind
  | RangeObject start stop step => negb (range_length start stop step =? 0)
  | _ => true
  end.

Definition compare_ints (op : ast.cmpop) (a b : Z) : option bool :=
  match op with
  | ast.Eq => Some (a =? b)
  | ast.NotEq => Some (negb (a =? b))
  | ast.Lt => Some (a <? b)
  | ast.LtE => Some (a <=? b)
  | ast.Gt => Some (b <? a)
  | ast.GtE => Some (b <=? a)
  | _ => None
  end.

Definition compare_floats (op : ast.cmpop) (a b : float) : option bool :=
  match op with
  | ast.Eq => Some (feqb a b)
  | ast.NotEq => Some (negb (feqb a b))
  | ast.Lt => Some (fltb a b)
  | ast.LtE => Some (fleb a b)
  | ast.Gt => Some (fltb b a)
  | ast.GtE => Some (fleb b a)
  | _ => None
  end.

(** The comparisons the interface does not decide *)
Definition compare_known (op : ast.cmpop) (v w : value) : option bool :=
  match as_int v, as_int w, v, w with
  | Some a, Some b, _, _ => compare_ints op a b
  | _, _, VFloat a, VFloat b => compare_floats op a b
  | _, _, _, _ =>
      if is_none_value v || is_none_value w then
        let same := is_none_value v && is_none_value w in
        match op with ast.Is => Some same | ast.IsNot => Some (negb same) | _ => None end
      else None
  end.

Definition compare (op : ast.cmpop) (v w : value) : outcome bool :=
  match compare_known op v w with
  | Some b => Ret b
  | None => some_or OperationError (op_compare op v w)
  end.

Definition binary (op : ast.operator) (v w : value) : outcome value :=
  match as_int v, as_int w, v, w, op with
  | Some a, Some b, _, _, ast.Add => Ret (VInt (a + b))
  | Some a, Some b, _, _, ast.Sub => Ret (VInt (a - b))
  | Some a, Some b, _, _, ast.Mult => Ret (VInt (a * b))
  | _, _, VFloat a, VFloat b, ast.Add => Ret (VFloat (fadd a b))
  | _, _, VFloat a, VFloat b, ast.Sub => Ret (VFloat (fsub a b))
  | _, _, VFloat a, VFloat b, ast.Mult => Ret (VFloat (fmul a b))
  | _, _, VFloat a, VFloat b, ast.Div => x ← py_div a b; Ret (VFloat x)
  | _, _, _, _, _ => Plain <$> some_or OperationError (op_binary op v w)
  end.

Definition unary (op : ast.unaryop) (v : value) : outcome value :=
  match op with
  | ast.Not => Ret (VBool (negb (is_true v)))
  | ast.USub =>
      match as_int v, v with
      | Some n, _ => Ret (VInt (- n))
      | None, VFloat x => Ret (VFloat (fneg x))
      | None, _ => Plain <$> some_or OperationError (op_negative v)
      end
  | ast.OtherUnary _ => Raise Uninterpreted
  end.

(** The call of a value with positional and keyword arguments *)
Definition range_of (args : list value) : outcome value :=
  bounds ← mapM (fun v => some_or TypeError (as_int v)) args;
  match bounds with
  | [stop] => Ret (RangeObject 0 stop 1)
  | [start; stop] => Ret (RangeObject start stop 1)
  | [start; stop; step] =>
      if step =? 0 then Raise (ValueError "range() arg 3 must not be zero") else Ret (RangeObject start stop step)
  | _ => Raise TypeError
  end.

Definition call_value (v : value) (args : list value) (keywords : dict value) : outcome value :=
  match v with
  | Method action =>
      if negb (bool_decide (length args = 0%nat)) then Raise TypeError
      else if String.eqb action "checkpoint" && negb (bool_decide (length keywords = 0%nat)) then Raise TypeError
      else Ret (Coroutine action keywords)
  | Builtin name =>
      if String.eqb name "range"
      then if negb (bool_decide (length keywords = 0%nat)) then Raise TypeError else range_of args
      else Raise Uninterpreted
  | MissionFunction => Raise Uninterpreted
  | _ => Raise TypeError
  end.
End operations.

(** ** The evaluator *)

Module mission_run.
Record t {D : Type} := mk {
  locals : list (string * value);
  drone : D;
}.
Arguments t : clear implicits.
End mission_run.

Inductive flow := Next | BreakLoop | ContinueLoop | OutOfTime.

(** The names a function binds are its local variables. *)
Definition bound_names (n : ast.node) : list string :=
  match n with
  | ast.Assign targets _ => omap (fun t => match t with ast.Name id => Some id | _ => None end) targets
  | ast.For (ast.Name id) _ _ _ => [id]
  | _ => []
  end.

Definition local_names (function : ast.node) : list string :=
  "drone" :: mjoin (map bound_names (walk function)).

(** Control flow, on the effect of the parts *)
Section control.
Context {S : Type}.

Section block.
Context (execute : ast.node -> M S flow).
Fixpoint run_block (statements : list ast.node) : M S flow :=
  match statements with
  | [] => mret Next
  | s :: rest =>
      f ← execute s;
      match f with Next => run_block rest | _ => mret f end
  end.
End block.

(** [for]: the body is run for every element unless it breaks. *)
Fixpoint for_loop (body : Z -> M S flow) (orelse : M S flow) (elements : list Z) : M S flow :=
  match elements with
  | [] => orelse
  | i :: rest =>
      f ← body i;
      match f with
      | Next | ContinueLoop => for_loop body orelse rest
      | BreakLoop => mret Next
      | OutOfTime => mret OutOfTime
      end
  end.

Fixpoint while_loop (time : nat) (test : M S bool) (body orelse : M S flow) : M S flow :=
  match time with
  | O => mret OutOfTime
  | Datatypes.S time =>
      b ← test;
      if negb b then orelse
      else
        f ← body;
        match f with
        | Next | ContinueLoop => while_loop time test body orelse
        | BreakLoop => mret Next
        | OutOfTime => mret OutOfTime
        end
  end.
End control.

(** ** Expressions and statements *)
Section evaluator.
Context `{PV : PythonValues} {D : Type} `{DC : DroneClass D}.
Context (names : list string) (time : nat).

Local Notation R := (mission_run.t D).

Definition set_local (name : string) (v : value) : M R unit :=
  modify (fun r => mission_run.mk D (dict_set name v (mission_run.locals r)) (mission_run.drone r)).

(** The globals: the entry point and the permitted builtins *)
Definition global (name : string) : outcome value :=
  if String.eqb name "mission" then Ret MissionFunction
  else match op_global name with
       | Some p => Ret (Plain p)
       | None =>
           if name ∈? ["range"; "min"; "max"; "abs"; "len"] then Ret (Builtin name) else Raise NameError
       end.

Definition lookup_name (name : string) : M R value :=
  if name ∈? names then
    r ← get;
    lift (some_or UnboundLocalError (dict_get name (mission_run.locals r)))
  else lift (global name).

Definition get_attribute (v : value) (name : string) : M R value :=
  match v with
  | DroneObject =>
      if name ∈? drone_methods then mret (Method name)
      else
        r ← get;
        lift (Plain <$> some_or AttributeError (drone_attribute (mission_run.drone r) name))
  | Plain (Json (JObj fields)) => lift ((fun j => Plain (Json j)) <$> some_or AttributeError (dict_get name fields))
  | _ => lift (Plain <$> some_or AttributeError (op_attribute v name))
  end.

(** A computation of the drone within the run *)
Definition on_drone {A} (m : M D A) : M R A := fun r n =>
  match m (mission_run.drone r) n with
  | (o, d, n') => (o, mission_run.mk D (mission_run.locals r) d, n')
  end.

Definition await_value (v : value) : M R value :=
  match v with
  | Coroutine action arguments => on_drone (perform action arguments)
  | _ => raise TypeError
  end.

(** The rest of a chain of comparisons *)
Section chain.
Context (evaluate : ast.node -> M R value).

Fixpoint compare_chain (v : value) (ops : list ast.cmpop) (comparators : list ast.node)
    {struct comparators} : M R value :=
  match ops, comparators with
  | op :: ops', c :: comparators' =>
      w ← evaluate c;
      b ← lift (compare op v w);
      match comparators' with
      | [] => mret (VBool b)
      | _ => if b : bool then compare_chain w ops' comparators' else mret (VBool false)
      end
  | _, _ => raise Uninterpreted
  end.

(** [and] and [or] stop at the first value that decides. *)
Fixpoint bool_chain (op : ast.boolop) (values : list ast.node) : M R value :=
  match values with
  | [] => raise Uninterpreted
  | [e] => evaluate e
  | e :: rest =>
      v ← evaluate e;
      let stop := match op with ast.And => negb (is_true v) | ast.Or => is_true v end in
      if stop : bool then mret v else bool_chain op rest
  end.

Fixpoint evaluate_all (es : list ast.node) : M R (list value) :=
  match es with
  | [] => mret []
  | e :: rest => v ← evaluate e; vs ← evaluate_all rest; mret (v :: vs)
  end.

Fixpoint evaluate_keywords (keywords : list ast.node) : M R (dict value) :=
  match keywords with
  | [] => mret []
  | ast.keyword (Some name) e :: rest =>
      v ← evaluate e;
      vs ← evaluate_keywords rest;
      mret ((name, v) :: vs)
  | _ => raise Uninterpreted
  end.
End chain.

Fixpoint evaluate (e : ast.node) : M R value :=
  match e with
  | ast.Constant c => mret (constant_value c)
  | ast.Name id => lookup_name id
  | ast.Attribute e attr => v ← evaluate e; get_attribute v attr
  | ast.Call _ _ func args keywords =>
      f ← evaluate func;
      vs ← evaluate_all evaluate args;
      ks ← evaluate_keywords evaluate keywords;
      lift (call_value f vs ks)
  | ast.Await e => v ← evaluate e; await_value v
  | ast.Compare e ops comparators => v ← evaluate e; compare_chain evaluate v ops comparators
  | ast.BoolOp op values => bool_chain evaluate op values
  | ast.BinOp e op e' => v ← evaluate e; w ← evaluate e'; lift (binary op v w)
  | ast.UnaryOp op e => v ← evaluate e; lift (unary op v)
  | _ => raise Uninterpreted
  end.

Definition assign_target (v : value) (target : ast.node) : M R unit :=
  match target with
  | ast.Name id => set_local id v
  | _ => raise Uninterpreted
  end.

Fixpoint execute (s : ast.node) : M R flow :=
  match s with
  | ast.Expr e => _ ← evaluate e; mret Next
  | ast.Assign targets e =>
      v ← evaluate e;
      _ ← for_each targets (assign_target v);
      mret Next
  | ast.If test body orelse =>
      v ← evaluate test;
      if is_true v then run_block execute body else run_block execute orelse
  | ast.For target iter body orelse =>
      it ← evaluate iter;
      match it with
      | RangeObject start stop step =>
          for_loop (fun i => _ ← assign_target (VInt i) target; run_block execute body)
                   (run_block execute orelse) (range_elements start stop step)
      | _ => raise Uninterpreted
      end
  | ast.While test body orelse =>
      while_loop time (v ← evaluate test; mret (is_true v)) (run_block execute body) (run_block execute orelse)
  | ast.Break => mret BreakLoop
  | ast.Continue => mret ContinueLoop
  | ast.Pass => mret Next
  | _ => raise Uninterpreted
  end.
End evaluator.

(** ** The entry point *)

Definition is_constant_node (n : ast.node) : bool := match n with ast.Constant _ => true | _ => false end.

(** [async def mission(drone)], at most with constants as annotations *)
Definition plain_signature (f : ast.node) : bool :=
  match f with
  | ast.AsyncFunctionDef _ (ast.arguments [] [ast.arg _ annotation] [] [] [] [] []) _ [] returns [] =>
      forallb is_constant_node annotation && forallb is_constant_node returns
  | _ => false
  end.

Section entry.
Context `{TX : PyText} `{MF : MissionFiles} `{PV : PythonValues} `{MP : MissionParent}.
Context (time : nat).

(** [await mission(drone)] *)
Definition run_function {D} `{DC : DroneClass D} (function : ast.node) : M D flow := fun d n =>
  match run_block (execute (local_names function) time) (function_body function)
          (mission_run.mk D [("drone", DroneObject)] d) n with
  | (o, r, n') => (o, mission_run.drone r, n')
  end.

(** The statements of the file beside the function have no effect on the drone. *)
Definition _entrypoint {D} `{DC : DroneClass D} (source : string) : M D flow :=
  match ast_parse "<mission-artifact>" source with
  | SyntaxError _ => raise (OtherError "SyntaxError")
  | ParseError e => raise e
  | Tree tree =>
      match _mission_function tree, _mission_package tree with
      | Ret function, Ret _ =>
          if plain_signature function then run_function function else raise Uninterpreted
      | _, _ => raise Uninterpreted
      end
  end.

(** The characters of [json.dumps(v, separators=(",", ":"))]. A quote, a backslash and
    the control characters with a short escape take two, any other character that is
    not printable ASCII the six of a [\u] escape. *)
Definition escaped_length (c : Ascii.ascii) : Z :=
  let n := Z.of_N (Ascii.N_of_ascii c) in
  if n ∈? [34; 92; 8; 9; 10; 12; 13] then 2
  else if (32 <=? n) && (n <=? 126) then 1 else 6.

Fixpoint escaped_lengths (s : string) : Z :=
  match s with EmptyString => 0 | String c s' => escaped_length c + escaped_lengths s' end.

Definition dumped_text (s : string) : Z := 2 + escaped_lengths s.

(** The brackets, the members and the commas between them *)
Definition bracketed (sizes : list Z) : Z :=
  2 + foldr Z.add 0 sizes + Z.of_nat (length sizes - 1).

Fixpoint dumped_length (v : json) : Z :=
  match v with
  | JNull => 4
  | JBool b => if b then 4 else 5
  | JInt n => Z.of_nat (String.length (pretty n))
  | JFloat _ => Z.of_nat (String.length (str_of_json v))
  | JStr s => dumped_text s
  | JList l => bracketed (dumped_length <$> l)
  | JObj fields => bracketed ((fun kv => dumped_text (fst kv) + 1 + dumped_length (snd kv)) <$> fields)
  end.

(** The bytes that the worker reads of its first line; what it has read of a longer line
    is an object without its end. *)
Definition START_REQUEST_BYTES : Z := 256 * 1024.

Definition _initial_request (line : parent_line) : outcome (json * string) :=
  match line with
  | Closed => Raise (RuntimeError "mission start request missing")
  | NotJson => Raise (ValueError "not JSON")
  | Response request =>
      if START_REQUEST_BYTES <? dumped_length request then Raise (ValueError "not JSON") else
      source ← py_str <$> get_item request "source";
      expected ← get_item request "source_sha256";
      if negb (match expected with JStr s => String.eqb (sha256_text source) s | _ => false end)
      then Raise (RuntimeError "mission artifact hash mismatch")
      else Ret (request, source)
  end.

Definition failure (e : exn) : worker_answer :=
  Exited 1 (Some (JObj [("type", JStr "result"); ("ok", JBool false); ("error", JStr (op_describe e))])) "".

Definition recorded_step (step : string * list (string * value)) : outcome json :=
  arguments ← dumps_arguments (snd step);
  Ret (JObj [("action", JStr (fst step)); ("arguments", JObj arguments)]).

(** [int(v)]; the parent sends integers, and other values are not modelled. *)
Definition json_int (v : json) : outcome Z :=
  match v with JInt n => Ret n | JBool b => Ret (b2z b) | _ => Raise Uninterpreted end.

Definition record_result (request : json) (steps : list (string * list (string * value))) : worker_answer :=
  match get_item request "source_sha256", mapM recorded_step steps with
  | Ret digest, Ret recorded =>
      Exited 0 (Some (JObj [("type", JStr "result"); ("ok", JBool true); ("source_sha256", digest);
                            ("steps", JList recorded)])) ""
  | Raise e, _ => failure e
  | _, Raise e => Exited 1 None (op_describe e)
  end.

Definition protocol_result (request : json) (d : ProtocolDrone.t) : worker_answer :=
  match get_item request "source_sha256" with
  | Ret digest =>
      Exited 0 (Some (JObj [("type", JStr "result"); ("ok", JBool true); ("source_sha256", digest);
                            ("commands", JInt (ProtocolDrone.commands d));
                            ("observations", JInt (ProtocolDrone.observations d))])) ""
  | Raise e => failure e
  end.

(** What a run of the entry point makes of the process *)
Definition answer_of {D} (result : D -> worker_answer) (run : outcome flow * D * nat) : worker_answer :=
  match run with
  | (Ret OutOfTime, _, _) => TimedOut
  | (Ret _, d, _) => result d
  | (Raise e, _, _) => failure e
  end.

Definition worker_main (line : parent_line) : worker_answer :=
  match _initial_request line with
  | Raise e => failure e
  | Ret (request, source) =>
      let field key fallback := match get_attr request key with Ret (Some v) => v | _ => fallback end in
      let role := py_str (field "role_id" (JStr "primary")) in
      if match field "mode" (JStr "record") with JStr mode => String.eqb mode "record" | _ => false end
      then answer_of (fun d => record_result request (RecorderDrone.steps d))
             (_entrypoint source (RecorderDrone.mk role []) 0%nat)
      else
        match c ← get_item request "command_budget" ≫= json_int;
              o ← get_item request "observation_budget" ≫= json_int;
              Ret (c, o) with
        | Raise e => failure e
        | Ret (c, o) =>
            answer_of (protocol_result request)
              (_entrypoint source (ProtocolDrone.mk role c o 0 0 0) 0%nat)
        end
  end.

(** ** The parent's side of the start ([missions/script.py]) *)

(** The request that [_start_worker] writes *)
Definition start_request (record : MissionFileRecord.t) (mode role_id : string) : json := JObj [
  ("mode", JStr mode);
  ("source", JStr (MissionFileRecord.source record));
  ("source_sha256", JStr (MissionFileRecord.source_sha256 record));
  ("language_version", JStr (MissionFileRecord.language_version record));
  ("command_budget", JInt (MissionFileRecord.planned_command_budget record));
  ("observation_budget", JInt (MissionFileRecord.planned_observation_budget record));
  ("role_id", JStr role_id)].

(** The worker as a service of the planner *)
Definition isolated_worker : MissionWorker := fun record role_id =>
  worker_main (Response (start_request record "record" role_id)).

(** [steps != record.steps]: models are equal when their fields are. *)
Definition argument_eqb (a b : argument) : bool :=
  match a, b with
  | Num x, Num y => feqb x y
  | Text s, Text t => String.eqb s t
  | _, _ => false
  end.

Definition arguments_eqb (a b : dict argument) : bool :=
  bool_decide (length a = length b)
  && forallb (fun kv => match dict_get (fst kv) b with Some v => argument_eqb (snd kv) v | None => false end) a.

Definition step_eqb (s t : ScriptStep.t) : bool :=
  String.eqb (ScriptStep.action s) (ScriptStep.action t)
  && arguments_eqb (ScriptStep.arguments s) (ScriptStep.arguments t).

Fixpoint steps_eqb (l k : list ScriptStep.t) : bool :=
  match l, k with
  | [], [] => true
  | s :: l', t :: k' => step_eqb s t && steps_eqb l' k'
  | _, _ => false
  end.

Definition execute_isolated_mission `{MissionWorker} (record : MissionFileRecord.t) :
    outcome (list ScriptStep.t) :=
  let role_id := match MissionFileRecord.roles record with
                 | role :: _ => MissionRoleSpec.role_id role
                 | [] => "primary"
                 end in
  steps ← preview_isolated_mission_role record role_id;
  if negb (steps_eqb steps (MissionFileRecord.steps record))
  then Err INVALID_COMMAND "mission worker output does not match the validated artifact"
  else Ret steps.
End entry.
