(* ===== verification/Budgets.v ===== *)
(** * Static budgets of a mission ([missions/script.py])

    What acceptance by the validator says of every node of a mission, the discipline
    the mission language intends, how often a statement can perform an action (its
    weight), and the theorem that the estimate of the service counts these weights.
    The runs are in [Runs], the theorems on accepted missions in [Uploads]. *)

From S2P Require Import Prelude Float64 Effects Contracts Artifacts Trajectory Commands Scripts Syntax Validation Worker.

(** ** What acceptance says of every node

    The tests of [visit_node] that do not depend on the known constants *)
Definition call_ok (n : ast.node) : bool :=
  match n with
  | ast.Call _ _ func _ keywords =>
      (is_name "range" func && bool_decide (keywords = [])) || is_drone_call n
  | _ => true
  end.

Definition loop_ok (n : ast.node) : bool :=
  match n with
  | ast.For (ast.Name _) iter _ [] =>
      match range_bound iter with Some z => loop_bound z | None => false end
  | ast.For _ _ _ _ => false
  | ast.While test body orelse =>
      match _bounded_while_condition test with
      | Ret (counter, _, _) =>
          bool_decide (orelse = [])
          && negb (existsb is_Continue (walk n))
          && match last body with Some s => _is_counter_increment s counter | None => false end
          && bool_decide (length (counter_changes counter body) = 1%nat)
      | Raise _ => false
      end
  | ast.Assign [ast.Name _] _ => true
  | ast.Assign _ _ => false
  | _ => true
  end.

Definition node_ok (n : ast.node) : bool := call_ok n && loop_ok n.

Section visiting.
Context `{TX : PyText}.

Lemma visit_eq n c : visit n c = visit_node n (map visit (children n)) c.
Proof. unfold visit at 1. by rewrite fold_node_eq. Qed.

Lemma visit_all_Ret (visits : list visitor) c c' :
  visit_all visits c = Ret c' -> forall v, v ∈ visits -> exists k k', v k = Ret k'.
Proof.
  unfold visit_all. revert c. induction visits as [|v visits IH]; intros c H u Hu; [by apply elem_of_nil in Hu|].
  simpl in H. destruct (v c) as [k|e] eqn:Hv.
  - apply elem_of_cons in Hu as [->|Hu]; [by eauto|]. by eapply IH.
  - exfalso. clear -H. induction visits; simpl in H; [done|auto].
Qed.

Lemma generic_visit_Ret n visits c c' :
  generic_visit n visits c = Ret c' -> allowed_node n = true /\ visit_all visits c = Ret c'.
Proof. unfold generic_visit. by destruct (allowed_node n). Qed.

(** A node that is visited passes its own test, and its children are visited. *)
Lemma visit_node_Ret n visits c c' :
  visit_node n visits c = Ret c' -> node_ok n = true /\ exists k, visit_all visits k = Ret c'.
Proof.
  unfold node_ok. destruct n; simpl; try (intros [_ H]%generic_visit_Ret; by eauto).
  - unfold visit_Attribute. destruct (String.prefix "_" attr); [done|]. intros [_ H]%generic_visit_Ret. by eauto.
  - unfold visit_Call. destruct (is_name "range" n) eqn:Hr.
    + case_bool_decide; simpl; [|done]. intros [_ H']%generic_visit_Ret. by eauto.
    + destruct (negb _); [done|]. unfold is_drone_call.
      destruct (drone_call _) as [action|]; [|done]. destruct (negb _); [done|].
      intros (? & _ & [_ H]%generic_visit_Ret)%bind_Ret. by eauto.
  - unfold visit_Assign. destruct targets as [|[] [|]]; try done.
    destruct (String.eqb id "drone"); [done|]. intros [_ H]%generic_visit_Ret. by eauto.
  - unfold visit_For. destruct n1, orelse; try done.
    destruct (range_bound n2) as [z|]; [|done]. destruct (loop_bound z); [|done].
    intros [_ H]%generic_visit_Ret. by eauto.
  - unfold visit_While. intros ([[counter limit] inclusive] & Hc & H)%bind_Ret. rewrite Hc.
    destruct (negb (loop_bound _)); [done|].
    destruct (bool_decide (orelse = [])), (existsb is_Continue _); try done; simpl in H.
    destruct (last body) as [s|]; [|done]. destruct (_is_counter_increment s counter); [|done].
    simpl in H. case_bool_decide; [|done]. apply generic_visit_Ret in H as [_ H]. by eauto.
Qed.

(** A mission that the validator accepts passes the tests at every node. *)
Lemma visit_all_nodes n c c' : visit n c = Ret c' -> all_nodes node_ok n = true.
Proof.
  revert c c'. induction n as [n IH] using node_ind. intros c c'. rewrite visit_eq.
  intros [Hok [k Hk]]%visit_node_Ret. rewrite all_nodes_eq, Hok. simpl.
  apply List.forallb_forall. intros m Hm%list_elem_of_In.
  destruct (visit_all_Ret _ _ _ Hk (visit m)) as (j & j' & Hj).
  - by apply list_elem_of_fmap_2.
  - by eapply IH.
Qed.
End visiting.

(** ** Discipline

    A loop counter is set to a natural number right before its loop, a [for] inside
    the loop does not rebind it, and it grows by the integer 1. Tests make no calls
    and nothing rebinds [range]. No function is nested. *)
Definition sets_counter (counter : string) (previous : option ast.node) : bool :=
  match previous with
  | Some (ast.Assign [ast.Name target] (ast.Constant (ast.Int k))) => String.eqb target counter && (0 <=? k)
  | _ => false
  end.

Definition while_counter (s : ast.node) : option string :=
  match s with
  | ast.While test _ _ =>
      match _bounded_while_condition test with Ret (counter, _, _) => Some counter | Raise _ => None end
  | _ => None
  end.

Fixpoint initialised (previous : option ast.node) (statements : list ast.node) : bool :=
  match statements with
  | [] => true
  | s :: rest =>
      match s with
      | ast.While _ _ _ =>
          match while_counter s with Some counter => sets_counter counter previous | None => false end
      | _ => true
      end
      && initialised (Some s) rest
  end.

(** A loop variable that is the counter *)
Definition rebinds (counter : string) (n : ast.node) : bool :=
  match n with ast.For target _ _ _ => is_name counter target | _ => false end.

Definition increments_by_int (s : ast.node) : bool :=
  match s with ast.Assign _ (ast.BinOp _ _ (ast.Constant (ast.Int 1))) => true | _ => false end.

Definition disciplined_node (n : ast.node) : bool :=
  match n with
  | ast.If test body orelse =>
      all_nodes (fun m => negb (is_drone_call m)) test && initialised None body && initialised None orelse
  | ast.For _ _ body _ => initialised None body
  | ast.While _ body _ =>
      initialised None body
      && match while_counter n with
         | Some counter => forallb (all_nodes (fun m => negb (rebinds counter m))) body
         | None => false
         end
      && match last body with Some s => increments_by_int s | None => false end
  | ast.AsyncFunctionDef _ _ _ _ _ _ => false
  | _ => true
  end.

Definition disciplined (function : ast.node) : bool :=
  initialised None (function_body function)
  && forallb (all_nodes disciplined_node) (function_body function)
  && negb ("range" ∈? local_names function).

(** ** Weights

    How often a run can perform an action that [w] selects *)
Section weights.
Context (w : string -> bool).

Definition own_weight (n : ast.node) : Z :=
  match drone_call n with Some action => b2z (w action) | None => 0 end.

Definition sum_Z (l : list Z) : Z := foldr Z.add 0 l.

Definition weight : ast.node -> Z := fold_node (fun n ws => own_weight n + sum_Z ws).

Definition statement_iterations (s : ast.node) : Z :=
  match s with
  | ast.For _ iter _ _ => default 0 (range_bound iter)
  | ast.While test _ _ =>
      match _bounded_while_condition test with
      | Ret (_, limit, inclusive) => limit + b2z inclusive
      | Raise _ => 0
      end
  | _ => 1
  end.

Fixpoint statement_weight (s : ast.node) : Z :=
  match s with
  | ast.For _ _ body _ | ast.While _ body _ => statement_iterations s * sum_Z (map statement_weight body)
  | ast.If _ body orelse => Z.max (sum_Z (map statement_weight body)) (sum_Z (map statement_weight orelse))
  | _ => weight s
  end.

Definition block_weight (l : list ast.node) : Z := sum_Z (map statement_weight l).

Lemma weight_eq n : weight n = own_weight n + sum_Z (map weight (children n)).
Proof. unfold weight at 1. by rewrite fold_node_eq. Qed.

Lemma sum_Z_app l k : sum_Z (l ++ k) = sum_Z l + sum_Z k.
Proof. induction l; simpl; lia. Qed.

Lemma sum_Z_nonneg l : Forall (fun z => 0 <= z) l -> 0 <= sum_Z l.
Proof. induction 1; simpl; lia. Qed.

Lemma own_weight_nonneg n : 0 <= own_weight n.
Proof. unfold own_weight, b2z. by destruct (drone_call n) as [a|]; [destruct (w a)|]. Qed.

Lemma weight_nonneg n : 0 <= weight n.
Proof.
  induction n as [n IH] using node_ind. rewrite weight_eq.
  pose proof (own_weight_nonneg n). enough (0 <= sum_Z (map weight (children n))) by lia.
  apply sum_Z_nonneg, Forall_forall. intros z (c & -> & Hc)%list_elem_of_fmap. auto.
Qed.

Lemma weights_nonneg l : 0 <= sum_Z (map weight l).
Proof. apply sum_Z_nonneg, Forall_forall. intros z (c & -> & _)%list_elem_of_fmap. apply weight_nonneg. Qed.

(** The walk of a tree counts every call once. *)
Lemma sum_walk n : sum_Z (map own_weight (walk n)) = weight n.
Proof.
  assert (forall l k, l ≡ₚ k -> sum_Z l = sum_Z k) as Hperm by (induction 1; simpl; lia).
  rewrite (Hperm _ _ (Permutation_map own_weight (walk_perm n))).
  induction n as [n IH] using node_ind. rewrite preorder_eq, weight_eq. simpl. f_equal.
  clear -IH. induction (children n) as [|c l IHl]; simpl; [done|].
  rewrite map_app, sum_Z_app, IH by left. f_equal. apply IHl. intros c' ?. apply IH. by right.
Qed.

Lemma loop_ok_iterations s : loop_ok s = true -> 0 <= statement_iterations s.
Proof.
  destruct s; simpl; try lia.
  - destruct s1, orelse; try done. destruct (range_bound s2) as [z|]; [|done]. simpl. unfold loop_bound. lia.
  - unfold _bounded_while_condition. intros _. destruct s; try lia. destruct s; try lia.
    destruct ops as [|op [|]]; try lia. destruct comparators as [|c [|]]; try lia.
    destruct op; try lia; destruct (integer_literal c) as [l|]; try lia;
      unfold loop_bound; destruct (_ && _) eqn:Hb; simpl; lia.
Qed.

Lemma statement_weight_nonneg s : all_nodes loop_ok s = true -> 0 <= statement_weight s.
Proof.
  induction s as [s IH] using node_ind. rewrite all_nodes_eq. intros [Hs Hc]%andb_prop.
  assert (forall l, (forall c, c ∈ l -> c ∈ children s) -> 0 <= sum_Z (map statement_weight l)) as Hsum.
  { intros l Hl. apply sum_Z_nonneg, Forall_forall. intros z (c & -> & Hin)%list_elem_of_fmap.
    apply IH; [auto|]. rewrite List.forallb_forall in Hc. apply Hc, list_elem_of_In. auto. }
  pose proof (loop_ok_iterations s Hs) as Hit.
  assert (0 <= weight s) as Hw by apply weight_nonneg.
  destruct s; try exact Hw; cbn [statement_weight].
  - specialize (Hsum body). etransitivity; [apply Hsum|lia]. intros c ?. simpl. set_solver.
  - apply Z.mul_nonneg_nonneg; [done|]. apply Hsum. intros c ?. simpl. set_solver.
  - apply Z.mul_nonneg_nonneg; [done|]. apply Hsum. intros c ?. simpl. set_solver.
Qed.
End weights.

(** ** The estimate *)
Definition is_command (action : string) : bool :=
  negb (String.eqb action "observe") && negb (String.eqb action "checkpoint").
Definition is_observation (action : string) : bool := String.eqb action "observe".

Definition block_commands : list ast.node -> Z := block_weight is_command.
Definition block_observations : list ast.node -> Z := block_weight is_observation.

(** The branch with more commands does not have fewer observations. *)
Definition balanced_node (n : ast.node) : bool :=
  match n with
  | ast.If _ body orelse =>
      0 <=? (block_commands orelse - block_commands body) * (block_observations orelse - block_observations body)
  | _ => true
  end.

Section estimate.
Context `{TX : PyText}.

Lemma foldM_Ret {A B} (f : B -> A -> outcome B) (P : A -> Prop) (R : B -> list A -> B -> Prop) :
  (forall b, R b [] b) ->
  (forall b a b' l b'', P a -> f b a = Ret b' -> R b' l b'' -> R b (a :: l) b'') ->
  forall l b b', (forall a, a ∈ l -> P a) -> foldM f b l = Ret b' -> R b l b'.
Proof.
  intros Hnil Hcons l. induction l as [|a l IH]; intros b b' Hl H; simpl in H.
  - injection H as <-. apply Hnil.
  - apply bind_Ret in H as (b1 & Ha & H). eapply Hcons; [apply Hl; left|exact Ha|].
    apply IH; [|done]. intros x ?. apply Hl. by right.
Qed.

Definition commands_of (b : budget) : Z := fst (fst b).
Definition observations_of (b : budget) : Z := snd (fst b).

Lemma add_call_counts b n b' :
  add_call b n = Ret b' ->
  commands_of b' = commands_of b + own_weight is_command n
  /\ observations_of b' = observations_of b + own_weight is_observation n.
Proof.
  unfold add_call, own_weight, is_command, is_observation, commands_of, observations_of.
  destruct (drone_call n) as [action|]; [|intros [= <-]; lia].
  intros (arguments & _ & H)%bind_Ret. destruct b as [[c o] d].
  destruct (String.eqb action "observe"); [injection H as <-; simpl; lia|].
  destruct (String.eqb action "checkpoint"); [injection H as <-; simpl; lia|].
  apply bind_Ret in H as (seconds & _ & H). injection H as <-. simpl. lia.
Qed.

Lemma walk_counts b s b' :
  foldM add_call b (walk s) = Ret b' ->
  commands_of b' = commands_of b + weight is_command s
  /\ observations_of b' = observations_of b + weight is_observation s.
Proof.
  rewrite <-!sum_walk.
  apply (foldM_Ret add_call (fun _ => True) (fun b l b' =>
    commands_of b' = commands_of b + sum_Z (map (own_weight is_command) l)
    /\ observations_of b' = observations_of b + sum_Z (map (own_weight is_observation) l))); [| |done].
  - intros. simpl. lia.
  - intros b1 n b2 l b3 _ H%add_call_counts. simpl. lia.
Qed.

Lemma iteration_counts iterations acc child :
  commands_of (add_iterations iterations acc child) = commands_of acc + iterations * commands_of child
  /\ observations_of (add_iterations iterations acc child) = observations_of acc + iterations * observations_of child.
Proof. by destruct acc as [[c o] d], child as [[c' o'] d']. Qed.

(** The estimate of a statement counts as many commands as its weight; it counts as
    many observations when the branches are balanced. *)
Definition counts (acc : budget) (l : list ast.node) (acc' : budget) : Prop :=
  commands_of acc' = commands_of acc + block_commands l
  /\ (forallb (all_nodes balanced_node) l = true ->
      observations_of acc' = observations_of acc + block_observations l).

Lemma counts_cons acc s acc' l acc'' : counts acc [s] acc' -> counts acc' l acc'' -> counts acc (s :: l) acc''.
Proof.
  unfold counts, block_commands, block_observations, block_weight. simpl.
  intros [Hc Ho] [Hc' Ho']. split; [lia|]. intros [Hs Hl]%andb_prop.
  rewrite Ho', Ho; [lia| |done]. by rewrite Hs.
Qed.

Lemma selected_counts body orelse b a :
  counts no_budget body b -> counts no_budget orelse a ->
  let selected := if budget_gt a b then a else b in
  commands_of selected = Z.max (block_commands body) (block_commands orelse)
  /\ (forallb (all_nodes balanced_node) (body ++ orelse) = true ->
      0 <= (block_commands orelse - block_commands body) * (block_observations orelse - block_observations body) ->
      observations_of selected = Z.max (block_observations body) (block_observations orelse)).
Proof.
  unfold counts, commands_of, observations_of, no_budget. destruct a as [[ca oa] da], b as [[cb ob] db]. cbn [fst snd].
  intros [-> Hb] [-> Ha]. cbn [budget_gt].
  set (cb := block_commands body) in *. set (ca := block_commands orelse) in *. rewrite !Z.add_0_l in *.
  split.
  - destruct (ca =? cb) eqn:Ec; simpl.
    + destruct (oa =? ob); simpl; [destruct (fltb _ _)|destruct (ob <? oa)]; simpl; lia.
    + destruct (cb <? ca) eqn:El; simpl; lia.
  - rewrite forallb_app. intros [Hbal1 Hbal2]%andb_prop Hbal. specialize (Hb Hbal1). specialize (Ha Hbal2).
    destruct (ca =? cb) eqn:Ec; simpl.
    + destruct (oa =? ob) eqn:Eo; simpl; [destruct (fltb _ _)|destruct (ob <? oa) eqn:El]; simpl; lia.
    + destruct (cb <? ca) eqn:El; simpl; nia.
Qed.

Lemma counts_plain acc s acc' :
  (forall w, statement_weight w s = weight w s) -> foldM add_call acc (walk s) = Ret acc' -> counts acc [s] acc'.
Proof.
  intros Hw [H1 H2]%walk_counts. unfold counts, block_commands, block_observations, block_weight. simpl.
  rewrite !Hw. split; [|intros _]; lia.
Qed.

Lemma balanced_blocks s l :
  (forall c, c ∈ l -> c ∈ children s) -> all_nodes balanced_node s = true ->
  forallb (all_nodes balanced_node) l = true.
Proof.
  intros Hl. rewrite all_nodes_eq. intros [_ H]%andb_prop. apply List.forallb_forall.
  rewrite List.forallb_forall in H. intros c Hin. apply H, list_elem_of_In, Hl. by apply list_elem_of_In.
Qed.

Lemma counts_loop iterations s body acc child :
  (forall w, statement_weight w s = iterations * block_weight w body) ->
  (forall c, c ∈ body -> c ∈ children s) ->
  counts no_budget body child -> counts acc [s] (add_iterations iterations acc child).
Proof.
  intros Hw Hsub [H1 H2]. unfold counts. destruct (iteration_counts iterations acc child) as [-> ->].
  unfold block_commands, block_observations, block_weight in *. cbn [map sum_Z foldr forallb]. rewrite !Hw.
  unfold block_weight. change (commands_of no_budget) with 0 in H1. change (observations_of no_budget) with 0 in H2.
  split; [rewrite H1; lia|]. intros [Hs _]%andb_prop. rewrite H2 by (by eapply balanced_blocks). lia.
Qed.

Lemma counts_branches test body orelse acc b a :
  counts no_budget body b -> counts no_budget orelse a ->
  let selected := if budget_gt a b then a else b in
  counts acc [ast.If test body orelse]
    (commands_of acc + commands_of selected, observations_of acc + observations_of selected,
     fadd (snd acc) (py_fmax (snd b) (snd a))).
Proof.
  intros Hb Ha. destruct (selected_counts _ _ _ _ Hb Ha) as [H1 H2]. cbv zeta in H1, H2 |- *.
  unfold counts, commands_of, observations_of in *. cbn [fst snd]. rewrite H1.
  unfold block_commands, block_observations, block_weight. cbn [map sum_Z foldr statement_weight forallb].
  split; [lia|]. intros [Hs _]%andb_prop. rewrite H2; [unfold block_observations, block_weight; lia| |].
  - eapply balanced_blocks; [|exact Hs]. intros c ?. simpl. set_solver.
  - rewrite all_nodes_eq in Hs. apply andb_prop in Hs as [Hn%Z.leb_le _]. exact Hn.
Qed.

Lemma for_iterations target iter body orelse z :
  loop_ok (ast.For target iter body orelse) = true ->
  match iter with
  | ast.Call _ _ _ (argument :: _) _ => some_or AttributeError (int_instance argument)
  | ast.Call _ _ _ [] _ => Raise IndexError
  | _ => Raise AttributeError
  end = Ret z ->
  z = default 0 (range_bound iter).
Proof.
  cbn [loop_ok]. destruct target, orelse; try done. destruct iter; simpl; try done.
  destruct args as [|argument [|]]; try done. destruct (is_name "range" iter); [|done].
  destruct (int_instance argument); [|done]. simpl. intros _ H. by injection H.
Qed.

Lemma estimate_statement_counts s :
  all_nodes loop_ok s = true -> forall acc acc', estimate_statement acc s = Ret acc' -> counts acc [s] acc'.
Proof.
  induction s as [s IH] using node_ind. rewrite all_nodes_eq. intros [Hs Hc]%andb_prop acc acc'.
  assert (forall l child, (forall c, c ∈ l -> c ∈ children s) ->
    foldM estimate_statement no_budget l = Ret child -> counts no_budget l child) as Hblock.
  { intros l child Hl. apply (foldM_Ret estimate_statement (fun c => c ∈ children s)); [| |exact Hl].
    - intros b. split; [|intros _]; unfold block_commands, block_observations, block_weight; simpl; lia.
    - intros b c b' l' b'' Hin H H'. eapply counts_cons; [|exact H']. eapply IH; [done| |exact H].
      rewrite List.forallb_forall in Hc. by apply Hc, list_elem_of_In. }
  destruct s; try (intros H; apply counts_plain; [done|exact H]); cbn [estimate_statement].
  - intros (b & Hb & (a & Ha & H)%bind_Ret)%bind_Ret. cbv zeta in H.
    apply Hblock in Hb; [|intros c ?; simpl; set_solver]. apply Hblock in Ha; [|intros c ?; simpl; set_solver].
    destruct acc as [[c o] d]. injection H as <-. apply (counts_branches _ _ _ (c, o, d) b a Hb Ha).
  - intros (z & Hz & (child & Hch & H)%bind_Ret)%bind_Ret. injection H as <-.
    rewrite (for_iterations _ _ _ _ _ Hs Hz).
    apply (counts_loop _ _ body); [done|intros c ?; simpl; set_solver|].
    apply Hblock; [intros c ?; simpl; set_solver|done].
  - intros ([[counter limit] inclusive] & Hi & (child & Hch & H)%bind_Ret)%bind_Ret. injection H as <-.
    apply (counts_loop _ _ body); [|intros c ?; simpl; set_solver|].
    + intros w. cbn [statement_weight statement_iterations]. by rewrite Hi.
    + apply Hblock; [intros c ?; simpl; set_solver|done].
Qed.

Lemma estimate_block_counts body acc :
  forallb (all_nodes loop_ok) body = true -> _estimate_block body = Ret acc -> counts no_budget body acc.
Proof.
  intros Hok. apply (foldM_Ret estimate_statement (fun s => all_nodes loop_ok s = true)).
  - intros b. split; [|intros _]; unfold block_commands, block_observations, block_weight; simpl; lia.
  - intros b s b' l b'' Hs H H'. eapply counts_cons; [|exact H']. by apply estimate_statement_counts.
  - intros s Hin. rewrite List.forallb_forall in Hok. by apply Hok, list_elem_of_In.
Qed.
End estimate.
