(* ===== verification/Runs.v ===== *)
(** * Runs of a mission against its weights ([missions/_mission_worker.py])

    A logic for the evaluator of [Worker]: how often an expression, a statement and a
    block can perform the actions that a meter counts, what they do to the variables,
    and that loops over a counter end. It holds for every drone whose meter grows by
    at most one with every action that counts. *)

From S2P Require Import Prelude Float64 Effects Contracts Artifacts Trajectory Commands Scripts Syntax Validation Worker Budgets.

(** ** Runs *)

(** A value that awaiting cannot run *)
Definition tame (v : value) : Prop := match v with Coroutine _ _ => False | _ => True end.
Definition tame_locals (locals : list (string * value)) : Prop := Forall (fun kv => tame (snd kv)) locals.

(** A meter of a drone grows by at most one when an action that [w] selects is
    awaited, and not at all otherwise. No method answers with a coroutine. *)
Class Metered {D : Type} `{DC : DroneClass D} (w : string -> bool) (used : D -> Z) : Prop :=
  perform_metered : forall action arguments d n,
    wp (perform action arguments) (fun o d' _ =>
      used d' <= used d + b2z (w action)
      /\ match o with Ret v => tame v | Raise _ => True end) d n.

Lemma tame_get name locals v : tame_locals locals -> dict_get name locals = Some v -> tame v.
Proof.
  intros H. induction H as [|[k u] l Hu _ IH]; simpl; [done|].
  case_match; [by intros [= <-]|done].
Qed.
Lemma tame_set name v locals : tame_locals locals -> tame v -> tame_locals (dict_set name v locals).
Proof.
  intros H Hv. induction H as [|[k u] l Hu Hl IH]; simpl; [by repeat constructor|].
  case_match; by constructor.
Qed.

(** The nodes an accepted expression is made of *)
Definition expression_ok (n : ast.node) : bool := call_ok n && awaits_children n.

Section runs.
Context `{PV : PythonValues} {D : Type} `{DC : DroneClass D} (w : string -> bool) (used : D -> Z).
Context `{MT : !Metered w used} (names : list string) (time : nat).
Hypothesis range_free : "range" ∉ names.

Local Notation R := (mission_run.t D).
Local Notation locals := mission_run.locals.
Local Notation eval := (evaluate names).

(** A computation that leaves the variables alone, uses at most [k], and returns a
    value in [P] *)
Definition spends {A} (k : Z) (P : A -> Prop) (m : M R A) : Prop :=
  forall r n, tame_locals (locals r) ->
    wp m (fun o r' _ =>
      locals r' = locals r
      /\ used (mission_run.drone r') <= used (mission_run.drone r) + k
      /\ match o with Ret a => P a | Raise _ => True end) r n.

Lemma spends_mono {A} k k' (P Q : A -> Prop) m :
  spends k P m -> k <= k' -> (forall a, P a -> Q a) -> spends k' Q m.
Proof.
  intros H Hk HPQ r n Hr. eapply wp_mono; [by apply H|]. intros o r' n' (? & ? & Ho).
  split_and!; [done|lia|]. destruct o; auto.
Qed.

Lemma spends_bind {A B} k1 k2 (P : A -> Prop) (Q : B -> Prop) m (f : A -> M R B) :
  spends k1 P m -> 0 <= k2 -> (forall a, P a -> spends k2 Q (f a)) -> spends (k1 + k2) Q (m ≫= f).
Proof.
  intros Hm Hk Hf r n Hr. apply wp_bind. eapply wp_mono; [by apply Hm|].
  intros [a|e] r' n' (El & Hu & HP); [|split_and!; [done|lia|done]].
  eapply wp_mono; [apply Hf; [done|by rewrite El]|]. intros o r'' n'' (El' & Hu' & HQ).
  split_and!; [by rewrite El'|lia|done].
Qed.

Lemma spends_ret {A} (P : A -> Prop) a : P a -> spends 0 P (mret a).
Proof. intros Ha r n Hr. apply wp_ret. split_and!; [done|lia|done]. Qed.

Lemma spends_lift {A} (P : A -> Prop) o : (forall a, o = Ret a -> P a) -> spends 0 P (lift o).
Proof. intros Ho r n Hr. apply wp_lift. split_and!; [done|lia|]. destruct o; auto. Qed.

Lemma spends_raise {A} k (P : A -> Prop) e : 0 <= k -> spends k P (raise e).
Proof. intros Hk r n Hr. apply wp_raise. split_and!; [done|lia|done]. Qed.

Lemma spends_get_lift {A} (P : A -> Prop) (f : R -> outcome A) :
  (forall r a, tame_locals (locals r) -> f r = Ret a -> P a) -> spends 0 P (r ← get; lift (f r)).
Proof.
  intros Hf r n Hr. apply wp_bind, wp_get, wp_lift. split_and!; [done|lia|]. destruct (f r) eqn:E; [|done]. by eapply Hf.
Qed.

Lemma lookup_spends name : spends 0 tame (lookup_name names name).
Proof.
  unfold lookup_name. case_bool_decide.
  - apply spends_get_lift. intros r v Hr Hv%some_or_Ret. by eapply tame_get.
  - apply spends_lift. intros v. unfold global.
    destruct (String.eqb name "mission"); [by intros [= <-]|].
    destruct (op_global name); [by intros [= <-]|]. case_bool_decide; [by intros [= <-]|done].
Qed.

(** What an attribute can be *)
Definition method_or_plain (attr : string) (v : value) : Prop := v = Method attr \/ exists p, v = Plain p.

Lemma get_attribute_spends v attr : spends 0 (method_or_plain attr) (get_attribute v attr).
Proof.
  assert (forall o : outcome plain, spends 0 (method_or_plain attr) (lift (Plain <$> o))) as Hplain.
  { intros o. apply spends_lift. intros v' (p & _ & <-)%fmap_Ret. right. by eexists. }
  destruct v; cbn [get_attribute]; try apply Hplain.
  - destruct p as [[]|]; try apply Hplain.
    apply spends_lift. intros v' (j & _ & <-)%fmap_Ret. right. by eexists.
  - case_bool_decide; [apply spends_ret; by left|]. apply spends_get_lift.
    intros r v' _ (p & _ & <-)%fmap_Ret. right. by eexists.
Qed.

Lemma binary_tame op v v' u : binary op v v' = Ret u -> tame u.
Proof.
  assert (forall o : outcome plain, Plain <$> o = Ret u -> tame u) as Hplain.
  { intros o (p & _ & <-)%fmap_Ret. done. }
  unfold binary. destruct (as_int v), (as_int v'), v as [[[]|]| | | | | |], v' as [[[]|]| | | | | |], op;
    try apply Hplain; try (by intros [= <-]); by intros (x & _ & [= <-])%bind_Ret.
Qed.

Lemma unary_tame op v u : unary op v = Ret u -> tame u.
Proof.
  unfold unary. destruct op; [|by intros [= <-]|done].
  destruct (as_int v); [by intros [= <-]|].
  destruct v as [[[]|]| | | | | |]; try (by intros [= <-]); by intros (p & _ & <-)%fmap_Ret.
Qed.

Lemma range_of_tame args v : range_of args = Ret v -> tame v.
Proof.
  unfold range_of. intros (l & _ & H)%bind_Ret.
  destruct l as [|a [|b [|c [|]]]]; try done; try (by injection H as <-).
  destruct (c =? 0); [done|]. by injection H as <-.
Qed.

(** A call by the name [range] makes no coroutine, and a call of an attribute only
    one of the method it names. *)
Lemma call_plain attr v args keywords u :
  method_or_plain attr v -> call_value v args keywords = Ret u -> exists ks, u = Coroutine attr ks.
Proof.
  intros [->|[p ->]]; [|done]. simpl. destruct (negb _); [done|]. destruct (_ && _); [done|].
  intros [= <-]. by eexists.
Qed.

Lemma global_range v args keywords u :
  global "range" = Ret v -> call_value v args keywords = Ret u -> tame u.
Proof.
  unfold global. simpl. destruct (op_global "range"); intros [= <-]; simpl; [done|].
  destruct (negb _); [done|]. apply range_of_tame.
Qed.

(** ** Expressions *)
Definition result_ok (e : ast.node) (v : value) : Prop :=
  match e with
  | ast.Attribute _ attr => method_or_plain attr v
  | _ => match drone_call e with Some action => exists ks, v = Coroutine action ks | None => tame v end
  end.

(** What the children of a node cost *)
Definition children_weight (e : ast.node) : Z := sum_Z (map (weight w) (children e)).

Definition evaluates (e : ast.node) : Prop := spends (children_weight e) (result_ok e) (eval e).

Lemma children_weight_nonneg e : 0 <= children_weight e.
Proof. apply weights_nonneg. Qed.

Lemma result_tame e v : is_drone_call e = false -> result_ok e v -> tame v.
Proof.
  unfold is_drone_call, result_ok. destruct e; try done.
  - by intros _ [->|[p ->]].
  - by destruct (drone_call _).
Qed.

Lemma children_weight_le e : children_weight e <= weight w e.
Proof. rewrite weight_eq. pose proof (own_weight_nonneg w e). unfold children_weight. lia. Qed.

(** The value of a child is tame, and costs no more than the weight of the child. *)
Lemma child_spends c : is_drone_call c = false -> evaluates c -> spends (weight w c) tame (eval c).
Proof.
  intros Hc H. eapply spends_mono; [exact H| |].
  - apply children_weight_le.
  - intros v. by apply result_tame.
Qed.

Lemma spends_zero_bind {A B} k (P : A -> Prop) (Q : B -> Prop) m (f : A -> M R B) :
  spends k P m -> (forall a, P a -> spends 0 Q (f a)) -> spends k Q (m ≫= f).
Proof. intros Hm Hf. rewrite <-(Z.add_0_r k). eapply spends_bind; [exact Hm|lia|exact Hf]. Qed.

Lemma spends_free_bind {A B} k (P : A -> Prop) (Q : B -> Prop) m (f : A -> M R B) :
  spends 0 P m -> 0 <= k -> (forall a, P a -> spends k Q (f a)) -> spends k Q (m ≫= f).
Proof. intros Hm Hk Hf. rewrite <-(Z.add_0_l k). by eapply spends_bind. Qed.

Lemma weights_cons c l : sum_Z (map (weight w) (c :: l)) = weight w c + sum_Z (map (weight w) l).
Proof. done. Qed.

Lemma weights_nil : sum_Z (map (weight w) []) = 0.
Proof. done. Qed.

(** Expressions evaluated one after the other *)
Definition children_spend (l : list ast.node) : Prop :=
  Forall (fun c => spends (weight w c) tame (eval c)) l.

Lemma evaluate_all_spends l :
  children_spend l -> spends (sum_Z (map (weight w) l)) (fun _ => True) (evaluate_all eval l).
Proof.
  induction 1 as [|c l Hc _ IH]; [by apply spends_ret|].
  rewrite weights_cons. cbn [evaluate_all].
  eapply spends_bind; [exact Hc|apply weights_nonneg|]. intros v _.
  eapply spends_zero_bind; [exact IH|]. intros vs _. by apply spends_ret.
Qed.

Definition keyword_spends (k : ast.node) : Prop :=
  match k with ast.keyword _ e => spends (weight w e) tame (eval e) | _ => True end.

Lemma evaluate_keywords_spends l :
  Forall keyword_spends l ->
  spends (sum_Z (map (weight w) l)) (fun _ => True) (evaluate_keywords eval l).
Proof.
  induction 1 as [|k l Hk _ IH]; [by apply spends_ret|].
  assert (spends (sum_Z (map (weight w) (k :: l))) (fun _ => True) (raise (S := R) (A := dict value) Uninterpreted)) as Hraise.
  { apply spends_raise, weights_nonneg. }
  destruct k as [| | | | |name e| | | | | | | | | | | | | | | | | | | | | ]; try exact Hraise.
  destruct name as [name|]; [|exact Hraise]. rewrite weights_cons. cbn [evaluate_keywords].
  rewrite weight_eq. simpl. rewrite Z.add_0_r.
  eapply spends_bind; [exact Hk|apply weights_nonneg|]. intros v _.
  eapply spends_zero_bind; [exact IH|]. intros vs _. by apply spends_ret.
Qed.

Lemma compare_chain_spends v ops l :
  children_spend l -> spends (sum_Z (map (weight w) l)) tame (compare_chain eval v ops l).
Proof.
  intros H. revert v ops. induction H as [|c l Hc Hl IH]; intros v ops.
  { by destruct ops; apply spends_raise. }
  destruct ops as [|op ops]; [apply spends_raise, weights_nonneg|].
  rewrite weights_cons. cbn [compare_chain].
  eapply spends_bind; [exact Hc|apply weights_nonneg|]. intros v' _.
  eapply (spends_free_bind _ (fun _ => True)); [by apply spends_lift|apply weights_nonneg|]. intros b _.
  destruct l as [|c' l]; [by apply spends_ret|]. destruct b; [apply IH|].
  eapply spends_mono; [by apply (spends_ret tame)|apply weights_nonneg|done].
Qed.

Lemma bool_chain_spends op l :
  children_spend l -> spends (sum_Z (map (weight w) l)) tame (bool_chain eval op l).
Proof.
  induction 1 as [|c l Hc Hl IH]; [by apply spends_raise|].
  destruct l as [|c' l].
  { simpl. rewrite Z.add_0_r. exact Hc. }
  change (bool_chain eval op (c :: c' :: l)) with
    (v ← eval c;
     if match op with ast.And => negb (is_true v) | ast.Or => is_true v end
     then mret v else bool_chain eval op (c' :: l)).
  rewrite weights_cons. eapply spends_bind; [exact Hc|apply weights_nonneg|].
  intros v Hv. destruct (match op with ast.And => _ | ast.Or => _ end); [|exact IH].
  eapply spends_mono; [by apply (spends_ret tame)|apply weights_nonneg|done].
Qed.

(** ** Every accepted expression *)
Lemma ok_children e c :
  all_nodes expression_ok e = true -> c ∈ children e -> all_nodes expression_ok c = true.
Proof.
  rewrite all_nodes_eq. intros [_ H]%andb_prop Hc. rewrite List.forallb_forall in H.
  by apply H, list_elem_of_In.
Qed.

Lemma ok_awaits e :
  all_nodes expression_ok e = true -> is_Await e = false ->
  forall c, c ∈ children e -> is_drone_call c = false.
Proof.
  rewrite all_nodes_eq. intros [[_ H]%andb_prop _]%andb_prop He c Hc.
  unfold awaits_children in H. rewrite He in H. simpl in H. apply negb_true_iff in H.
  destruct (is_drone_call c) eqn:E; [|done]. exfalso. apply not_true_iff_false in H. apply H.
  apply List.existsb_exists. exists c. split; [by apply list_elem_of_In|done].
Qed.

Lemma await_spends v action :
  (exists ks, v = Coroutine action ks) -> spends (b2z (w action)) tame (await_value v).
Proof.
  intros [ks ->] r n Hr. simpl. unfold on_drone, wp.
  pose proof (perform_metered (w := w) (used := used) action ks (mission_run.drone r) n) as H. unfold wp in H.
  destruct (perform action ks (mission_run.drone r) n) as [[o d] n']. simpl in H |- *. by destruct H.
Qed.

Lemma call_spends line column func args keywords :
  let e := ast.Call line column func args keywords in
  all_nodes expression_ok e = true ->
  children_spend (func :: args) -> evaluates func ->
  Forall keyword_spends keywords -> evaluates e.
Proof.
  intros e Hok Hargs Hfunc Hks. inversion Hargs as [|? ? Hf Hargs']; subst.
  unfold evaluates, children_weight. change (children e) with (func :: args ++ keywords).
  rewrite weights_cons, map_app, sum_Z_app. cbn [evaluate].
  assert (forall v, (forall vs ks u, call_value v vs ks = Ret u -> result_ok e u) ->
    spends (sum_Z (map (weight w) args) + sum_Z (map (weight w) keywords)) (result_ok e)
      (vs ← evaluate_all eval args; ks ← evaluate_keywords eval keywords; lift (call_value v vs ks))) as Hrest.
  { intros v Hv. eapply spends_bind; [by apply evaluate_all_spends|apply weights_nonneg|]. intros vs _.
    eapply spends_zero_bind; [by apply evaluate_keywords_spends|]. intros ks _. apply spends_lift. apply Hv. }
  pose proof (weights_nonneg w args). pose proof (weights_nonneg w keywords).
  rewrite all_nodes_eq in Hok. apply andb_prop in Hok as [[Hc _]%andb_prop _]. simpl in Hc.
  destruct (is_name "range" func) eqn:Er.
  - destruct func; try done. apply String.eqb_eq in Er as ->.
    eapply (spends_bind _ _ (fun v => global "range" = Ret v)); [|lia|].
    + eapply spends_mono; [|apply weight_nonneg|intros v Hv; exact Hv].
      cbn [evaluate]. unfold lookup_name. rewrite bool_decide_eq_false_2 by done. by apply spends_lift.
    + intros v Hv. apply Hrest. intros vs ks u Hu. by eapply global_range.
  - unfold is_drone_call, e, drone_call in Hc. destruct func; try done. destruct func; try done.
    destruct (String.eqb id "drone") eqn:Ed; [|done].
    eapply (spends_bind _ _ (method_or_plain attr)); [|lia|].
    + eapply spends_mono; [exact Hfunc|apply children_weight_le|done].
    + intros v Hv. apply Hrest. intros vs ks u Hu. unfold result_ok, e, drone_call. rewrite Ed. by eapply call_plain.
Qed.

(** The compound expressions, from what their parts spend *)
Lemma await_expression e :
  evaluates e -> spends (sum_Z (map (weight w) [e])) tame (v ← eval e; await_value v).
Proof.
  intros He. rewrite weights_cons, weights_nil, Z.add_0_r, weight_eq, Z.add_comm. fold (children_weight e).
  unfold own_weight. destruct (drone_call e) as [action|] eqn:Ed.
  - eapply spends_bind; [exact He|by destruct (w action)|]. intros v Hv. apply await_spends.
    unfold result_ok in Hv. destruct e; try done. by rewrite Ed in Hv.
  - eapply spends_bind; [exact He|done|]. intros v Hv.
    apply result_tame in Hv; [|by unfold is_drone_call; rewrite Ed]. destruct v; try done; by apply spends_raise.
Qed.

Lemma compare_expression e ops l :
  children_spend (e :: map ast.Cmpop ops ++ l) ->
  spends (sum_Z (map (weight w) (e :: map ast.Cmpop ops ++ l))) tame (v ← eval e; compare_chain eval v ops l).
Proof.
  intros H. inversion H as [|? ? He Hrest]; subst. apply Forall_app in Hrest as [_ Hl].
  rewrite weights_cons, map_app, sum_Z_app.
  pose proof (weights_nonneg w l). pose proof (weights_nonneg w (map ast.Cmpop ops)).
  eapply spends_bind; [exact He|lia|]. intros v _.
  eapply spends_mono; [by apply compare_chain_spends|lia|done].
Qed.

Lemma binary_expression e op e' :
  children_spend [e; ast.Operator op; e'] ->
  spends (sum_Z (map (weight w) [e; ast.Operator op; e'])) tame (v ← eval e; v' ← eval e'; lift (binary op v v')).
Proof.
  intros H. inversion H as [|? ? H1 Hr]; subst. inversion Hr as [|? ? _ Hr']; subst. inversion Hr' as [|? ? H2 _]; subst.
  rewrite !weights_cons, weights_nil.
  pose proof (weight_nonneg w (ast.Operator op)). pose proof (weight_nonneg w e').
  eapply spends_bind; [exact H1|lia|]. intros v _. eapply spends_zero_bind with (P := tame).
  - eapply spends_mono; [exact H2|lia|done].
  - intros v' _. apply spends_lift. apply binary_tame.
Qed.

Lemma unary_expression op e :
  children_spend [ast.Unaryop op; e] ->
  spends (sum_Z (map (weight w) [ast.Unaryop op; e])) tame (v ← eval e; lift (unary op v)).
Proof.
  intros H. inversion H as [|? ? _ Hr]; subst. inversion Hr as [|? ? H1 _]; subst.
  rewrite !weights_cons, weights_nil. pose proof (weight_nonneg w (ast.Unaryop op)).
  eapply spends_zero_bind with (P := tame).
  - eapply spends_mono; [exact H1|lia|done].
  - intros v _. apply spends_lift. apply unary_tame.
Qed.

Lemma evaluate_spends_all e :
  all_nodes expression_ok e = true -> evaluates e /\ Forall evaluates (children e).
Proof.
  induction e as [e IH] using node_ind. intros Hok.
  assert (Forall evaluates (children e)) as Hch.
  { apply Forall_forall. intros c Hc. apply IH; [done|]. by eapply ok_children. }
  split; [|done].
  assert (is_Await e = false -> children_spend (children e)) as Hsp.
  { intros He. apply Forall_forall. intros c Hc. apply child_spends; [by eapply ok_awaits|].
    rewrite Forall_forall in Hch. auto. }
  pose proof (children_weight_nonneg e) as Hn.
  destruct e; try (by apply spends_raise); unfold evaluates, children_weight; cbn [evaluate].
  - apply spends_ret. by destruct value.
  - apply lookup_spends.
  - specialize (Hsp eq_refl). inversion Hsp as [|? ? Hv _]; subst. simpl. rewrite Z.add_0_r.
    eapply spends_zero_bind; [exact Hv|]. intros v _. apply get_attribute_spends.
  - specialize (Hsp eq_refl). cbn [children] in Hsp. rewrite app_comm_cons in Hsp.
    apply Forall_app in Hsp as [Hargs Hks]. apply call_spends; [done|done|by inversion Hch|].
    apply Forall_forall. intros k Hk. destruct k; try done. cbn [keyword_spends].
    assert (ast.keyword arg k ∈ children (ast.Call lineno col_offset e args keywords)) as Hin by (simpl; set_solver).
    pose proof (ok_children _ _ Hok Hin) as Hkok. destruct (IH _ Hin Hkok) as [_ Hkc].
    apply child_spends; [|by inversion Hkc]. by eapply ok_awaits; [exact Hkok|done|left].
  - inversion Hch; subst. by apply await_expression.
  - apply compare_expression, Hsp. done.
  - specialize (Hsp eq_refl). cbn [children] in Hsp |- *. rewrite weights_cons. inversion Hsp; subst.
    eapply spends_mono; [by apply bool_chain_spends|pose proof (weight_nonneg w (ast.Boolop op)); lia|done].
  - apply binary_expression, Hsp. done.
  - apply unary_expression, Hsp. done.
Qed.

Lemma evaluate_spends e : all_nodes expression_ok e = true -> evaluates e.
Proof. intros H. by apply evaluate_spends_all. Qed.

(** ** Statements *)

Definition node_fine (n : ast.node) : bool :=
  expression_ok n && loop_ok n && disciplined_node n && forallb (fun x => x ∈? names) (bound_names n).

(** A name that a statement does not bind *)
Definition unbound (x : string) : ast.node -> bool := all_nodes (fun n => negb (x ∈? bound_names n)).

(** A run from [r] that uses at most [k], and binds only what the statements bind *)
Definition within (k : Z) (l : list ast.node) (r : R) (o : outcome flow) (r' : R) : Prop :=
  used (mission_run.drone r') <= used (mission_run.drone r) + k
  /\ tame_locals (locals r')
  /\ (forall x, (forall s, s ∈ l -> unbound x s = true) -> dict_get x (locals r') = dict_get x (locals r))
  /\ match o with
     | Ret f => f <> OutOfTime /\ (f = ContinueLoop -> forallb (all_nodes (fun n => negb (is_Continue n))) l = false)
     | Raise _ => True
     end.

(** What a statement needs: a loop, a counter that is set. What one leaves: an
    assignment of an integer, a variable with that value. *)
Definition ready (s : ast.node) (r : R) : Prop :=
  forall counter, while_counter s = Some counter -> exists k, 0 <= k /\ dict_get counter (locals r) = Some (VInt k).

Definition established (s : ast.node) (r : R) : Prop :=
  match s with
  | ast.Assign [ast.Name x] (ast.Constant (ast.Int k)) => dict_get x (locals r) = Some (VInt k)
  | _ => True
  end.

Local Notation exec := (execute names time).

Definition runs (s : ast.node) : Prop :=
  forall r n, tame_locals (locals r) -> ready s r ->
    wp (exec s) (fun o r' _ => within (statement_weight w s) [s] r o r' /\ (o = Ret Next -> established s r')) r n.

Definition block_runs (l : list ast.node) : Prop :=
  forall previous r n, initialised previous l = true -> tame_locals (locals r) ->
    (forall s, previous = Some s -> established s r) ->
    wp (run_block exec l) (fun o r' _ => within (block_weight w l) l r o r') r n.

Lemma within_mono k k' l l' r o r' :
  within k l r o r' -> k <= k' -> (forall s, s ∈ l -> s ∈ l') -> within k' l' r o r'.
Proof.
  intros (Hu & Ht & Hf & Ho) Hk Hl. split_and!; [lia|done| |].
  - intros x Hx. apply Hf. auto.
  - destruct o as [f|]; [|done]. destruct Ho as [? Hc]. split; [done|]. intros E. specialize (Hc E).
    apply not_true_iff_false. apply not_true_iff_false in Hc. contradict Hc.
    rewrite List.forallb_forall in *. intros s Hs%list_elem_of_In. apply Hc, list_elem_of_In. auto.
Qed.

Lemma within_trans k1 k2 l r o1 r1 o r2 :
  within k1 l r o1 r1 -> within k2 l r1 o r2 -> within (k1 + k2) l r o r2.
Proof.
  intros (Hu & Ht & Hf & _) (Hu' & Ht' & Hf' & Ho). split_and!; [lia|done| |done].
  intros x Hx. rewrite Hf', Hf; auto.
Qed.

Lemma within_next k l r : tame_locals (locals r) -> 0 <= k -> within k l r (Ret Next) r.
Proof. intros Hr Hk. split_and!; try done. lia. Qed.

Lemma sets_counter_ready s r counter :
  sets_counter counter (Some s) = true -> established s r ->
  exists k, 0 <= k /\ dict_get counter (locals r) = Some (VInt k).
Proof.
  unfold sets_counter, established. destruct s; try done.
  destruct targets as [|[] [|]], s; try done. destruct value; try done.
  intros [->%String.eqb_eq ?%Z.leb_le]%andb_prop. eauto.
Qed.

Lemma run_block_within l :
  Forall (fun s => runs s /\ 0 <= statement_weight w s) l -> block_runs l.
Proof.
  induction 1 as [|s l [Hs Hw] Hl IH]; intros previous r n Hi Hr Hp.
  { apply wp_ret. by apply within_next. }
  cbn [initialised] in Hi. apply andb_prop in Hi as [Hi Hrest]. cbn [run_block].
  assert (0 <= block_weight w l) as Hlw.
  { apply sum_Z_nonneg, Forall_forall. intros z (c & -> & Hc)%list_elem_of_fmap.
    rewrite Forall_forall in Hl. by apply Hl. }
  change (block_weight w (s :: l)) with (statement_weight w s + block_weight w l).
  apply wp_bind. eapply wp_mono; [apply Hs; [done|]|].
  { intros counter Hc. destruct s; try done. rewrite Hc in Hi.
    destruct previous as [p|]; [|done]. by eapply sets_counter_ready; [|apply Hp]. }
  intros [f|e] r' n' [Hin He].
  2: { eapply within_mono; [exact Hin|lia|]. intros s' ->%list_elem_of_singleton. left. }
  destruct f; try (apply wp_ret; eapply within_mono; [exact Hin|lia|]; intros s' ->%list_elem_of_singleton; left).
  eapply wp_mono.
  - apply (IH (Some s)); [done|by destruct Hin as (_ & ? & _)|]. intros s' [= <-]. by apply He.
  - intros o r'' n'' Hin'. eapply within_trans.
    + eapply within_mono; [exact Hin|done|]. intros s' ->%list_elem_of_singleton. left.
    + eapply within_mono; [exact Hin'|done|]. intros s' ?. by right.
Qed.

(** ** Loops over a counter *)
Lemma counter_value c v r n :
  c ∈ names -> dict_get c (locals r) = Some v -> eval (ast.Name c) r n = (Ret v, r, n).
Proof.
  intros Hc Hv. cbn [evaluate]. unfold lookup_name. rewrite bool_decide_eq_true_2 by done.
  unfold mbind, M_bind, get, lift. by rewrite Hv.
Qed.

Lemma while_test test c limit inclusive k r n :
  _bounded_while_condition test = Ret (c, limit, inclusive) -> c ∈ names ->
  dict_get c (locals r) = Some (VInt k) ->
  eval test r n = (Ret (VBool (k <? limit + b2z inclusive)), r, n).
Proof.
  intros Ht Hc Hk. destruct test; try done. destruct test; try done.
  destruct ops as [|op [|]]; try done. destruct comparators as [|e [|]]; try done.
  unfold _bounded_while_condition in Ht.
  assert (exists l, e = ast.Constant (ast.Int l) /\ id = c /\ l = limit
    /\ compare op (VInt k) (VInt l) = Ret (k <? limit + b2z inclusive)) as (l & -> & -> & -> & Hop).
  { destruct e; try (by destruct op). destruct value; try (by destruct op). simpl in Ht.
    exists n0. destruct op; try done; destruct (loop_bound n0); try done; injection Ht as -> -> <-;
      unfold compare; simpl; split_and!; try done; f_equal; lia. }
  cbn [evaluate]. unfold mbind at 1, M_bind at 1.
  pose proof (counter_value c _ r n Hc Hk) as E. cbn [evaluate] in E. rewrite E.
  cbn [compare_chain evaluate constant_value]. unfold mbind, M_bind, mret, M_ret, lift. by rewrite Hop.
Qed.

Lemma increment_runs s c k r n :
  _is_counter_increment s c = true -> increments_by_int s = true -> c ∈ names ->
  dict_get c (locals r) = Some (VInt k) ->
  exec s r n = (Ret Next, mission_run.mk D (dict_set c (VInt (k + 1)) (locals r)) (mission_run.drone r), n).
Proof.
  intros Hs Hi Hc Hk. destruct s; try done. destruct targets as [|[] [|]]; try done.
  destruct s; try done. destruct s1; try done. destruct op; try done. destruct s2; try done.
  destruct value; try done. destruct n0 as [|[]|]; try done.
  simpl in Hs. apply andb_prop in Hs as [[->%String.eqb_eq ->%String.eqb_eq]%andb_prop _].
  cbn [execute for_each]. cbn [evaluate]. unfold mbind, M_bind.
  pose proof (counter_value c _ r n Hc Hk) as E. cbn [evaluate] in E. rewrite E. reflexivity.
Qed.

(** The body of a loop with its increment at the end *)
Lemma run_block_app l k r n :
  run_block exec (l ++ k) r n
  = (f ← run_block exec l; match f with Next => run_block exec k | _ => mret f end) r n.
Proof.
  revert r n. induction l as [|s l IH]; intros r n; simpl; [done|].
  unfold mbind, M_bind in *. destruct (exec s r n) as [[[f|e] r'] n']; [|done]. by destruct f; [apply IH|..].
Qed.


Lemma increment_assigns s c : _is_counter_increment s c = true -> exists e, s = ast.Assign [ast.Name c] e.
Proof.
  destruct s; try done. destruct targets as [|[] [|]]; try done. destruct s; try done.
  destruct s1; try done. destruct op; try done. simpl.
  intros [[->%String.eqb_eq _]%andb_prop _]%andb_prop. by eexists.
Qed.

Section counted.
Context (test : ast.node) (c : string) (limit : Z) (inclusive : bool) (init : list ast.node) (final : ast.node).
Hypothesis Htest : _bounded_while_condition test = Ret (c, limit, inclusive).
Hypothesis Hname : c ∈ names.
Hypothesis Hfinal : _is_counter_increment final c = true.
Hypothesis Hint : increments_by_int final = true.
Hypothesis Hinit : Forall (fun s => runs s /\ 0 <= statement_weight w s) init.
Hypothesis Horder : initialised None init = true.
Hypothesis Hframe : forall s, s ∈ init -> unbound c s = true.
Hypothesis Hcontinue : forallb (all_nodes (fun n => negb (is_Continue n))) init = true.

Local Notation body := (init ++ [final]).

Lemma final_binds x : unbound x final = true -> x <> c.
Proof.
  unfold unbound. rewrite all_nodes_eq. intros [H _]%andb_prop Hx. subst x.
  destruct (increment_assigns _ _ Hfinal) as [e E]. rewrite E in H. simpl in H.
  by rewrite bool_decide_eq_true_2 in H by (by left).
Qed.

Lemma counted_body k r n :
  tame_locals (locals r) -> dict_get c (locals r) = Some (VInt k) ->
  wp (run_block exec body) (fun o r' _ =>
    within (block_weight w init) body r o r'
    /\ (o = Ret Next -> dict_get c (locals r') = Some (VInt (k + 1)))
    /\ o <> Ret ContinueLoop) r n.
Proof.
  intros Hr Hk. unfold wp. rewrite run_block_app.
  pose proof (run_block_within init Hinit None r n Horder Hr ltac:(done)) as Hb. unfold wp in Hb.
  unfold mbind, M_bind. destruct (run_block exec init r n) as [[o r'] n']. simpl in Hb.
  assert (dict_get c (locals r') = Some (VInt k)) as Hk'.
  { destruct Hb as (_ & _ & Hf & _). by rewrite Hf. }
  assert (within (block_weight w init) body r o r') as Hb'.
  { eapply within_mono; [exact Hb|done|]. intros s ?. apply elem_of_app. by left. }
  destruct o as [f|e]; [|by split_and!].
  destruct f; try (by split_and!).
  2: { destruct Hb as (_ & _ & _ & _ & Hc). by rewrite Hc in Hcontinue. }
  cbn [run_block]. unfold mbind, M_bind. rewrite (increment_runs final c k r' n' Hfinal Hint Hname Hk').
  destruct Hb' as (Hu & Ht & Hf & _). unfold mret, M_ret. cbn [fst snd]. unfold within. split_and!; try done.
  - by apply tame_set.
  - intros x Hx. cbn [mission_run.locals]. rewrite dict_get_set_ne; [by apply Hf|].
    apply final_binds, Hx. apply elem_of_app. right. by left.
  - intros _. cbn [mission_run.locals]. rewrite dict_get_set. by rewrite decide_True.
Qed.

(** The loop runs its body once for every value of the counter below the limit. *)
Lemma counted_loop t k r n :
  tame_locals (locals r) -> dict_get c (locals r) = Some (VInt k) ->
  0 <= block_weight w init -> Z.max 0 (limit + b2z inclusive - k) < Z.of_nat t ->
  wp (while_loop t (v ← eval test; mret (is_true v)) (run_block exec body) (run_block exec []))
    (fun o r' _ => within (Z.max 0 (limit + b2z inclusive - k) * block_weight w init) body r o r') r n.
Proof.
  intros Hr Hk Hw. revert k r n Hr Hk. induction t as [|t IH]; intros k r n Hr Hk Ht; [lia|].
  cbn [while_loop].
  assert ((v ← eval test; mret (is_true v)) r n = (Ret (k <? limit + b2z inclusive), r, n)) as Et.
  { unfold mbind, M_bind. by rewrite (while_test _ _ _ _ k r n Htest Hname Hk). }
  eapply wp_bind_exact; [exact Et|]. destruct (k <? limit + b2z inclusive) eqn:Elt; cbn [negb].
  2: { apply wp_ret, within_next; [done|]. apply Z.mul_nonneg_nonneg; lia. }
  replace (Z.max 0 (limit + b2z inclusive - k)) with (1 + Z.max 0 (limit + b2z inclusive - (k + 1))) by lia.
  rewrite Z.mul_add_distr_r, Z.mul_1_l.
  apply wp_bind. eapply wp_mono; [by apply (counted_body k)|].
  intros o r' n' (Hin & Hnext & Hcont).
  assert (0 <= Z.max 0 (limit + b2z inclusive - (k + 1)) * block_weight w init) as Hrest by nia.
  destruct o as [f|e]; [|eapply within_mono; [exact Hin|lia|done]].
  destruct f.
  - eapply wp_mono; [apply IH; [by destruct Hin as (_ & ? & _)|by apply Hnext|lia]|].
    intros o r'' n'' Hin'. by eapply within_trans.
  - apply wp_ret. destruct Hin as (Hu & Htm & Hf & _). split_and!; try done. lia.
  - done.
  - by destruct Hin as (_ & _ & _ & [] & _).
Qed.
End counted.

Lemma range_runs iter z r n :
  range_bound iter = Some z -> call_ok iter = true ->
  (exists e, eval iter r n = (Raise e, r, n)) \/ eval iter r n = (Ret (RangeObject 0 z 1), r, n).
Proof.
  destruct iter; try done. destruct args as [|argument [|]]; try done. cbn [range_bound call_ok].
  destruct (is_name "range" iter) eqn:Er; [|done]. destruct iter; try done. apply String.eqb_eq in Er as ->.
  intros Hz Hk. rewrite orb_false_r in Hk. simpl in Hk. apply bool_decide_eq_true in Hk as ->.
  cbn [evaluate evaluate_all evaluate_keywords]. unfold lookup_name. rewrite bool_decide_eq_false_2 by done.
  unfold mbind, M_bind, lift, mret, M_ret, global. simpl.
  destruct argument; try done. destruct value; try done; injection Hz as <-; simpl;
    (destruct (op_global "range"); simpl; [left; by eexists|by right]).
Qed.

Lemma range_elements_length z : 0 <= z -> Z.of_nat (length (range_elements 0 z 1)) = z.
Proof.
  intros Hz. unfold range_elements, range_length. rewrite length_fmap, length_seq. simpl.
  rewrite Z.div_1_r. lia.
Qed.

Lemma unbound_children x s c : unbound x s = true -> c ∈ children s -> unbound x c = true.
Proof.
  unfold unbound. rewrite (all_nodes_eq _ s). intros [_ H]%andb_prop Hc.
  rewrite List.forallb_forall in H. by apply H, list_elem_of_In.
Qed.

Lemma for_runs x iter body elements r n :
  let s := ast.For (ast.Name x) iter body [] in
  block_runs body -> initialised None body = true -> 0 <= block_weight w body -> tame_locals (locals r) ->
  wp (for_loop (fun i => _ ← assign_target (VInt i) (ast.Name x); run_block exec body) (run_block exec []) elements)
    (fun o r' _ => within (Z.of_nat (length elements) * block_weight w body) [s] r o r' /\ o <> Ret ContinueLoop) r n.
Proof.
  intros s Hbody Hi Hw. revert r n. induction elements as [|i l IH]; intros r n Hr.
  { apply wp_ret. split; [by apply within_next|done]. }
  cbn [for_loop]. rewrite length_cons, Nat2Z.inj_succ, <-Z.add_1_l, Z.mul_add_distr_r, Z.mul_1_l.
  assert (0 <= Z.of_nat (length l) * block_weight w body) as Hl by nia.
  set (r1 := mission_run.mk D (dict_set x (VInt i) (locals r)) (mission_run.drone r)).
  apply wp_bind. eapply wp_bind_exact; [reflexivity|]. fold r1.
  eapply wp_mono; [apply (Hbody None r1 n Hi); [by apply tame_set|done]|].
  intros o r' n' (Hu & Ht & Hf & Ho).
  assert (forall f, f <> OutOfTime -> f <> ContinueLoop -> within (block_weight w body) [s] r (Ret f) r') as Hin.
  { intros f Hf1 Hf2. split_and!; try done. intros y Hy.
    assert (unbound y s = true) as Hs by (apply Hy; by left). rewrite Hf.
    - cbn [mission_run.locals r1]. rewrite dict_get_set_ne; [done|]. intros ->.
      unfold unbound in Hs. rewrite all_nodes_eq in Hs. apply andb_prop in Hs as [Hs _]. simpl in Hs.
      by rewrite bool_decide_eq_true_2 in Hs by (by left).
    - intros c Hc. eapply unbound_children; [exact Hs|]. simpl. set_solver. }
  assert (forall e, within (block_weight w body + Z.of_nat (length l) * block_weight w body) [s] r (Raise e) r') as Hraise.
  { intros e. destruct (Hin Next) as (? & ? & ? & _); [done|done|]. split_and!; try done. lia. }
  destruct o as [f|e]; [|by split].
  assert (f <> OutOfTime) as Hft by apply Ho.
  destruct f; try done.
  - eapply wp_mono; [apply IH; done|]. intros o r'' n'' [Hin' ?]. split; [|done].
    by eapply within_trans; [apply (Hin Next)|exact Hin'].
  - apply wp_ret. split; [|done]. eapply within_mono; [apply (Hin Next); done|lia|done].
  - eapply wp_mono; [apply IH; done|]. intros o r'' n'' [Hin' ?]. split; [|done].
    by eapply within_trans; [apply (Hin Next)|exact Hin'].
Qed.

(** ** What a loop of an accepted mission has *)
Lemma bound_names_changes c n :
  assigns c n = false -> rebinds c n = false -> (c ∈? bound_names n) = false.
Proof.
  intros Ha Hr. apply bool_decide_eq_false. destruct n; simpl in *; try by intros ?%elem_of_nil.
  - intros (t & Ht & Hc)%list_elem_of_omap. destruct t; try done. injection Hc as ->.
    apply not_true_iff_false in Ha. apply Ha, List.existsb_exists. exists (ast.Name c).
    split; [by apply list_elem_of_In|apply String.eqb_refl].
  - destruct n1; try by intros ?%elem_of_nil. intros ->%list_elem_of_singleton.
    simpl in Hr. by rewrite String.eqb_refl in Hr.
Qed.

Lemma walk_root n : n ∈ walk n.
Proof. rewrite walk_perm, preorder_eq. left. Qed.

Lemma all_nodes_weaken p q n :
  (forall m, p m = true -> q m = true) -> all_nodes p n = true -> all_nodes q n = true.
Proof. intros H. rewrite <-!forallb_walk. by apply forallb_weaken. Qed.

(** The counter changes in the last statement alone. *)
Lemma counter_frame c init final :
  length (counter_changes c (init ++ [final])) = 1%nat -> _is_counter_increment final c = true ->
  forallb (all_nodes (fun m => negb (rebinds c m))) init = true ->
  forall s, s ∈ init -> unbound c s = true.
Proof.
  unfold counter_changes. rewrite map_app, join_app, List.filter_app, length_app. simpl. rewrite app_nil_r.
  intros Hl Hf Hr s Hs.
  assert (final ∈ List.filter (assigns c) (walk final)) as Hin.
  { apply list_elem_of_In, List.filter_In. split; [apply list_elem_of_In, walk_root|].
    destruct (increment_assigns _ _ Hf) as [e ->]. simpl. by rewrite String.eqb_refl. }
  assert (List.filter (assigns c) (mjoin (map walk init)) = []) as Hnil.
  { apply length_zero_iff_nil. destruct (List.filter (assigns c) (walk final)); [by apply elem_of_nil in Hin|].
    simpl in Hl. lia. }
  unfold unbound. rewrite <-forallb_walk. apply List.forallb_forall. intros m Hm.
  rewrite List.forallb_forall in Hr. specialize (Hr s ltac:(by apply list_elem_of_In)).
  rewrite <-forallb_walk, List.forallb_forall in Hr. specialize (Hr m Hm).
  apply negb_true_iff, bound_names_changes; [|by apply negb_true_iff].
  destruct (assigns c m) eqn:E; [|done]. exfalso.
  assert (m ∈ List.filter (assigns c) (mjoin (map walk init))) as H; [|rewrite Hnil in H; by apply elem_of_nil in H].
  apply list_elem_of_In, List.filter_In. split; [|done]. apply list_elem_of_In, list_elem_of_join.
  exists (walk s). split; [by apply list_elem_of_In|]. apply list_elem_of_In, in_map. by apply list_elem_of_In.
Qed.

Lemma initialised_app previous l k : initialised previous (l ++ k) = true -> initialised previous l = true.
Proof.
  revert previous. induction l as [|s l IH]; intros previous; simpl; [done|].
  intros [-> H]%andb_prop. by eapply IH.
Qed.

Lemma condition_bound test c limit inclusive :
  _bounded_while_condition test = Ret (c, limit, inclusive) -> 0 <= limit <= MAX_LOOP_ITERATIONS.
Proof.
  unfold _bounded_while_condition. destruct test; try done. destruct test; try done.
  destruct ops as [|op [|]]; try done. destruct comparators as [|e [|]]; try done.
  destruct op; try done; destruct (integer_literal e); try done; unfold loop_bound; destruct (_ && _) eqn:E; try done;
    intros [= _ <- _]; lia.
Qed.

(** A loop that is accepted and disciplined has the shape that [counted_loop] needs. *)
Definition counted_shape (s test : ast.node) (body orelse : list ast.node) : Prop :=
  exists c limit inclusive init final,
    _bounded_while_condition test = Ret (c, limit, inclusive) /\ body = init ++ [final] /\ orelse = []
    /\ _is_counter_increment final c = true /\ increments_by_int final = true
    /\ initialised None init = true /\ (forall m, m ∈ init -> unbound c m = true)
    /\ forallb (all_nodes (fun n => negb (is_Continue n))) body = true.

Lemma while_shape test body orelse :
  loop_ok (ast.While test body orelse) = true -> disciplined_node (ast.While test body orelse) = true ->
  counted_shape (ast.While test body orelse) test body orelse.
Proof.
  cbn [loop_ok disciplined_node while_counter]. destruct (_bounded_while_condition test) as [[[c limit] inclusive]|] eqn:Et; [|done].
  intros [[[Ho%bool_decide_eq_true Hcont]%andb_prop Hinc]%andb_prop Hlen%bool_decide_eq_true]%andb_prop.
  intros [[Hi Hr]%andb_prop Hint]%andb_prop.
  destruct (list_last_case body) as [->|(init & final & ->)]; [done|]. rewrite last_snoc in Hinc, Hint.
  exists c, limit, inclusive, init, final. split_and!; try done.
  - by eapply initialised_app.
  - rewrite forallb_app in Hr. apply andb_prop in Hr as [Hr _]. by eapply counter_frame.
  - apply negb_true_iff in Hcont. apply List.forallb_forall. intros m Hm. rewrite <-forallb_walk.
    apply List.forallb_forall. intros k Hk. apply negb_true_iff. destruct (is_Continue k) eqn:E; [|done].
    exfalso. apply not_true_iff_false in Hcont. apply Hcont, List.existsb_exists. exists k. split; [|done].
    apply list_elem_of_In. rewrite walk_perm, preorder_eq. right. apply list_elem_of_join.
    exists (preorder m). split; [rewrite <-walk_perm; by apply list_elem_of_In|].
    apply list_elem_of_In, in_map. simpl. right. apply in_or_app. by left.
Qed.

(** ** Every accepted and disciplined statement *)
Hypothesis enough_time : (65 < time)%nat.

Lemma fine_node n : node_fine n = true ->
  expression_ok n = true /\ loop_ok n = true /\ disciplined_node n = true
  /\ (forall x, x ∈ bound_names n -> x ∈ names).
Proof.
  unfold node_fine. intros [[[H1 H2]%andb_prop H3]%andb_prop H4]%andb_prop. split_and!; try done.
  rewrite List.forallb_forall in H4. intros x Hx. specialize (H4 x ltac:(by apply list_elem_of_In)).
  by apply bool_decide_eq_true in H4.
Qed.

Lemma fine_child s c : all_nodes node_fine s = true -> c ∈ children s -> all_nodes node_fine c = true.
Proof.
  rewrite all_nodes_eq. intros [_ H]%andb_prop Hc. rewrite List.forallb_forall in H.
  by apply H, list_elem_of_In.
Qed.

Lemma fine_expression s : all_nodes node_fine s = true -> all_nodes expression_ok s = true.
Proof. apply all_nodes_weaken. intros m Hm. by apply fine_node in Hm as (? & _). Qed.

Lemma fine_weight s : all_nodes node_fine s = true -> 0 <= statement_weight w s.
Proof.
  intros H. apply statement_weight_nonneg. revert H. apply all_nodes_weaken.
  intros m Hm. by apply fine_node in Hm as (_ & ? & _).
Qed.

(** The value of an expression statement, an assignment or a test *)
Lemma statement_expression s e :
  all_nodes node_fine s = true -> is_Await s = false -> e ∈ children s -> spends (weight w e) tame (eval e).
Proof.
  intros Hs Ha He. apply fine_expression in Hs. apply child_spends; [by eapply ok_awaits|].
  apply evaluate_spends. by eapply ok_children.
Qed.

Lemma raise_within k s r e : 0 <= k -> tame_locals (locals r) -> within k [s] r (Raise e) r.
Proof. intros Hk Hr. split_and!; try done. lia. Qed.

(** From the value of an expression to the run of a statement *)
Lemma expression_within {A} k P (m : M R A) (f : A -> M R flow) s r n Q :
  spends k P m -> tame_locals (locals r) ->
  (forall e r', within k [s] r (Raise e) r' -> Q (Raise e) r') ->
  (forall a r' n', P a -> locals r' = locals r -> used (mission_run.drone r') <= used (mission_run.drone r) + k ->
    wp (f a) (fun o r'' _ => Q o r'') r' n') ->
  wp (m ≫= f) (fun o r' _ => Q o r') r n.
Proof.
  intros Hm Hr He Ha. apply wp_bind. eapply wp_mono; [by apply Hm|].
  intros [a|e] r' n' (El & Hu & HP); [by apply Ha|]. apply He. split_and!; try done.
  - by rewrite El.
  - intros x _. by rewrite El.
Qed.

Lemma runs_Expr e : all_nodes node_fine (ast.Expr e) = true -> runs (ast.Expr e).
Proof.
  intros Hs r n Hr _. cbn [execute]. pose proof (fine_weight _ Hs) as Hw.
  assert (statement_weight w (ast.Expr e) = weight w e) as ->.
  { cbn [statement_weight]. rewrite weight_eq. unfold own_weight. simpl. lia. }
  eapply (expression_within _ _ _ _ (ast.Expr e) r n (fun o r' => within (weight w e) [ast.Expr e] r o r' /\ (o = Ret Next -> established (ast.Expr e) r'))).
  - apply (statement_expression (ast.Expr e)); [done|done|left].
  - done.
  - intros. by split.
  - intros v r' n' _ El Hu. apply wp_ret. split; [|done]. split_and!; try done; [by rewrite El|]. intros x _. by rewrite El.
Qed.

Lemma unbound_target x y e : unbound x (ast.Assign [ast.Name y] e) = true -> x <> y.
Proof.
  unfold unbound. rewrite all_nodes_eq. intros [H _]%andb_prop ->. simpl in H.
  by rewrite bool_decide_eq_true_2 in H by (by left).
Qed.

Lemma runs_Assign x e : all_nodes node_fine (ast.Assign [ast.Name x] e) = true -> runs (ast.Assign [ast.Name x] e).
Proof.
  intros Hs r n Hr _. cbn [execute]. set (s := ast.Assign [ast.Name x] e) in *.
  assert (statement_weight w s = weight w e) as ->.
  { cbn [statement_weight s]. rewrite weight_eq. cbn [children app map sum_Z foldr]. rewrite (weight_eq w (ast.Name x)).
    unfold own_weight. simpl. lia. }
  assert (forall v r', locals r' = locals r -> used (mission_run.drone r') <= used (mission_run.drone r) + weight w e -> tame v ->
    within (weight w e) [s] r (Ret Next) (mission_run.mk D (dict_set x v (locals r')) (mission_run.drone r'))) as Hset.
  { intros v r' El Hu Hv. unfold within. cbn [mission_run.locals mission_run.drone]. rewrite El.
    split_and!; try done; [by apply tame_set|]. intros y Hy. rewrite dict_get_set_ne; [done|].
    apply (unbound_target _ _ e), Hy. by left. }
  destruct (integer_literal e) as [k|] eqn:Ek.
  - destruct e; try done. destruct value; try done. injection Ek as <-.
    unfold wp. simpl. split; [apply Hset; [done| |done]|].
    + pose proof (weight_nonneg w (ast.Constant (ast.Int n0))). lia.
    + intros _. apply dict_get_set_eq.
  - eapply (expression_within _ _ _ _ s r n (fun o r' => within (weight w e) [s] r o r' /\ (o = Ret Next -> established s r'))).
    + apply (statement_expression s); [done|done|]. simpl. set_solver.
    + done.
    + intros. by split.
    + intros v r' n' Hv El Hu. unfold wp. simpl. split; [by apply Hset|]. intros _.
      unfold established, s. destruct e; try done. by destruct value.
Qed.

(** Blocks of children *)
Lemma block_of_children s l :
  all_nodes node_fine s = true -> (forall c, c ∈ children s -> runs c) -> (forall c, c ∈ l -> c ∈ children s) ->
  block_runs l /\ 0 <= block_weight w l.
Proof.
  intros Hs IH Hl. split.
  - apply run_block_within, Forall_forall. intros c Hc. split; [auto|].
    apply fine_weight. eapply fine_child; [exact Hs|auto].
  - apply sum_Z_nonneg, Forall_forall. intros z (c & -> & Hc)%list_elem_of_fmap.
    apply fine_weight. eapply fine_child; [exact Hs|auto].
Qed.

(** What a run of a block of a statement is for the statement *)
Lemma within_statement k l s r o r' :
  within k l r o r' -> (forall c, c ∈ l -> c ∈ children s) -> within k [s] r o r'.
Proof.
  intros (Hu & Ht & Hf & Ho) Hl. split_and!; try done.
  - intros x Hx. apply Hf. intros c Hc. eapply unbound_children; [apply Hx; by left|auto].
  - destruct o as [f|]; [|done]. destruct Ho as [? Hc]. split; [done|]. intros E. specialize (Hc E).
    apply not_true_iff_false. apply not_true_iff_false in Hc. contradict Hc.
    cbn [forallb] in Hc. rewrite andb_true_r, all_nodes_eq in Hc. apply andb_prop in Hc as [_ Hc].
    rewrite List.forallb_forall in *. intros c Hin%list_elem_of_In. apply Hc, list_elem_of_In. auto.
Qed.

Lemma no_calls_weight e : all_nodes (fun m => negb (is_drone_call m)) e = true -> weight w e = 0.
Proof.
  intros H. rewrite <-sum_walk. rewrite <-forallb_walk in H. induction (walk e) as [|m l IH]; [done|].
  simpl in H. apply andb_prop in H as [Hm H]. simpl. rewrite IH by done. unfold own_weight.
  unfold is_drone_call in Hm. by destruct (drone_call m).
Qed.

Lemma runs_If test body orelse :
  let s := ast.If test body orelse in
  all_nodes node_fine s = true -> (forall c, c ∈ children s -> runs c) -> runs s.
Proof.
  intros s Hs IH r n Hr _. pose proof (proj1 (andb_prop _ _ (eq_ind _ (fun b => b = true) Hs _ (all_nodes_eq _ _)))) as Hn.
  destruct (fine_node _ Hn) as (_ & _ & Hd & _). cbn [disciplined_node s] in Hd.
  apply andb_prop in Hd as [[Hcalls Hib]%andb_prop Hio].
  destruct (block_of_children s body Hs IH) as [Hb Hbw]; [intros c ?; simpl; set_solver|].
  destruct (block_of_children s orelse Hs IH) as [Ho How]; [intros c ?; simpl; set_solver|].
  change (statement_weight w s) with (Z.max (block_weight w body) (block_weight w orelse)).
  set (k := Z.max _ _). assert (0 <= k) as Hk by lia. cbn [execute s].
  assert (forall l, block_runs l -> initialised None l = true -> block_weight w l <= k -> (forall c, c ∈ l -> c ∈ children s) ->
    forall r', locals r' = locals r -> used (mission_run.drone r') <= used (mission_run.drone r) + 0 -> forall n',
    wp (run_block exec l) (fun o r'' _ => within k [s] r o r'' /\ (o = Ret Next -> established s r'')) r' n') as Hblock.
  { intros l Hl Hi Hkl Hc r' El Hu n'. eapply wp_mono; [apply (Hl None); [done|by rewrite El|done]|].
    intros o r'' n'' Hin. split; [|done]. apply (within_statement _ _ s) in Hin; [|done].
    destruct Hin as (Hu' & Ht & Hf & Hfl). split_and!; try done; [lia|]. intros x Hx. rewrite Hf by done. by rewrite El. }
  eapply (expression_within 0 tame _ _ s r n (fun o r' => within k [s] r o r' /\ (o = Ret Next -> established s r'))).
  - rewrite <-(no_calls_weight test Hcalls). apply (statement_expression s); [done|done|left].
  - done.
  - intros e r' Hin. split; [|done]. by eapply within_mono.
  - intros v r' n' _ El Hu. destruct (is_true v).
    + apply Hblock; [done|done|lia|intros c ?; simpl; set_solver|done|done].
    + apply Hblock; [done|done|lia|intros c ?; simpl; set_solver|done|done].
Qed.

Lemma runs_For target iter body orelse :
  let s := ast.For target iter body orelse in
  all_nodes node_fine s = true -> (forall c, c ∈ children s -> runs c) -> runs s.
Proof.
  intros s Hs IH r n Hr _. pose proof (proj1 (andb_prop _ _ (eq_ind _ (fun b => b = true) Hs _ (all_nodes_eq _ _)))) as Hn.
  destruct (fine_node _ Hn) as (_ & Hl & Hd & _). cbn [disciplined_node loop_ok s] in Hd, Hl.
  destruct target; try done. destruct orelse; [|done].
  destruct (range_bound iter) as [z|] eqn:Ez; [|done]. unfold loop_bound in Hl.
  destruct (block_of_children s body Hs IH) as [Hb Hbw]; [intros c ?; simpl; set_solver|].
  assert (statement_weight w s = z * block_weight w body) as ->.
  { cbn [statement_weight s statement_iterations]. by rewrite Ez. }
  assert (call_ok iter = true) as Hc.
  { assert (all_nodes node_fine iter = true) as Hi by (eapply fine_child; [exact Hs|]; simpl; set_solver).
    apply fine_expression in Hi. rewrite all_nodes_eq in Hi. unfold expression_ok in Hi.
    by apply andb_prop in Hi as [[? _]%andb_prop _]. }
  cbn [execute s]. destruct (range_runs iter z r n Ez Hc) as [[e He]|He].
  - unfold wp, mbind, M_bind. rewrite He. split; [|done]. apply raise_within; [nia|done].
  - eapply wp_bind_exact; [exact He|]. eapply wp_mono; [by apply for_runs|].
    intros o r' n' [Hin _]. rewrite range_elements_length in Hin by lia. by split.
Qed.

Lemma runs_While test body orelse :
  let s := ast.While test body orelse in
  all_nodes node_fine s = true -> (forall c, c ∈ children s -> runs c) -> runs s.
Proof.
  intros s Hs IH r n Hr Hready. pose proof (proj1 (andb_prop _ _ (eq_ind _ (fun b => b = true) Hs _ (all_nodes_eq _ _)))) as Hn.
  destruct (fine_node _ Hn) as (_ & Hl & Hd & _).
  destruct (while_shape _ _ _ Hl Hd) as (c & limit & inclusive & init & final & Et & -> & -> & Hf & Hint & Hi & Hfr & Hcont).
  pose proof (condition_bound _ _ _ _ Et) as Hlim. unfold MAX_LOOP_ITERATIONS in Hlim.
  destruct (Hready c) as (k & Hk & Hget); [cbn [while_counter s]; by rewrite Et|].
  assert (forall m, m ∈ init ++ [final] -> m ∈ children s) as Hsub by (intros m ?; simpl; set_solver).
  assert (all_nodes node_fine final = true) as Hff.
  { eapply fine_child; [exact Hs|]. apply Hsub, elem_of_app. right. by left. }
  assert (c ∈ names) as Hname.
  { rewrite all_nodes_eq in Hff. apply andb_prop in Hff as [Hff _]. apply fine_node in Hff as (_ & _ & _ & Hb).
    destruct (increment_assigns _ _ Hf) as [e ->]. apply Hb. by left. }
  assert (Forall (fun m => runs m /\ 0 <= statement_weight w m) init) as Hinit.
  { apply Forall_forall. intros m Hm. assert (m ∈ children s) by (apply Hsub, elem_of_app; by left).
    split; [auto|]. apply fine_weight. by apply (fine_child s). }
  assert (forallb (all_nodes (fun m => negb (is_Continue m))) init = true) as Hci.
  { rewrite forallb_app in Hcont. by apply andb_prop in Hcont as [? _]. }
  assert (0 <= block_weight w init) as Hw.
  { apply sum_Z_nonneg, Forall_forall. intros z (m & -> & Hm)%list_elem_of_fmap.
    rewrite Forall_forall in Hinit. by apply Hinit. }
  assert (block_weight w init <= block_weight w (init ++ [final])) as Hww.
  { unfold block_weight. rewrite map_app, sum_Z_app. simpl. pose proof (fine_weight _ Hff). lia. }
  cbn [execute s]. eapply wp_mono.
  - apply (counted_loop test c limit inclusive init final Et Hname Hf Hint Hinit Hi Hfr Hci time k r n Hr Hget Hw).
    unfold b2z. destruct inclusive; lia.
  - intros o r' n' Hin. split; [|done].
    apply (within_statement _ _ s) in Hin; [|done]. eapply within_mono; [exact Hin| |done].
    cbn [statement_weight statement_iterations s]. rewrite Et. fold (block_weight w (init ++ [final])).
    unfold b2z in *. destruct inclusive; nia.
Qed.

Lemma fine_runs s : all_nodes node_fine s = true -> runs s.
Proof.
  induction s as [s IH] using node_ind. intros Hs.
  assert (forall c, c ∈ children s -> runs c) as Hch.
  { intros c Hc. apply IH; [done|]. by eapply fine_child. }
  pose proof (fine_weight _ Hs) as Hw.
  assert (forall r n e, tame_locals (locals r) ->
    wp (raise (A := flow) e) (fun o r' _ => within (statement_weight w s) [s] r o r' /\ (o = Ret Next -> established s r')) r n) as Hraise.
  { intros r n e Hr. apply wp_raise. split; [|done]. by apply raise_within. }
  pose proof (proj1 (andb_prop _ _ (eq_ind _ (fun b => b = true) Hs _ (all_nodes_eq _ _)))) as Hn.
  destruct (fine_node _ Hn) as (_ & Hl & Hd & _).
  destruct s; try (intros r n Hr _; by apply Hraise).
  - by apply runs_Expr.
  - cbn [loop_ok] in Hl. destruct targets as [|[] [|]]; try done. by apply runs_Assign.
  - by apply runs_If.
  - by apply runs_For.
  - by apply runs_While.
  - intros r n Hr _. apply wp_ret. split; [|done]. split_and!; try done. lia.
  - intros r n Hr _. apply wp_ret. split; [|done]. split_and!; try done. lia.
  - intros r n Hr _. apply wp_ret. split; [|done]. by apply within_next.
Qed.

Lemma fine_block l : forallb (all_nodes node_fine) l = true -> block_runs l.
Proof.
  intros Hl. rewrite List.forallb_forall in Hl. apply run_block_within, Forall_forall. intros s Hs.
  split; [apply fine_runs|apply fine_weight]; by apply Hl, list_elem_of_In.
Qed.
End runs.
