(* ===== verification/Uploads.v ===== *)
(** * Uploaded missions: acceptance against the runs

    The estimate of [missions/script.py] counts the calls of a mission on paper; the
    worker of [missions/_mission_worker.py] runs it. For missions that keep to the
    discipline of [Budgets] a run never goes over the estimate and its loops end, and
    a recorded run takes off first and lands last. For linear missions the recorded
    commands are the static steps. The examples at the end are missions outside the
    discipline that the service accepts. *)

From S2P Require Import Prelude Float64 Effects Contracts Artifacts Trajectory Commands Scripts Syntax Validation Worker Budgets Runs.

(** ** Accepted missions are made of such statements *)

(** The mission function of a source *)
Definition mission_of `{MissionFiles} (filename source : string) : outcome ast.node :=
  tree ← parse_tree filename source; _mission_function tree.

Section accepted.
Context `{TX : PyText} `{MF : MissionFiles}.

Lemma mission_function_child tree f : _mission_function tree = Ret f -> f ∈ children tree.
Proof.
  intros H. assert (f ∈ List.filter is_function (module_body tree)) as Hin.
  { unfold _mission_function in H. repeat case_match; try done; simplify_eq; by left. }
  apply list_elem_of_In, List.filter_In in Hin as [Hin _]. apply list_elem_of_In in Hin.
  destruct tree; try by apply elem_of_nil in Hin. done.
Qed.

Lemma all_nodes_child p n c : all_nodes p n = true -> c ∈ children n -> all_nodes p c = true.
Proof.
  rewrite all_nodes_eq. intros [_ H]%andb_prop Hc. rewrite List.forallb_forall in H.
  by apply H, list_elem_of_In.
Qed.

Lemma all_nodes_and p q n : all_nodes (fun m => p m && q m) n = all_nodes p n && all_nodes q n.
Proof.
  rewrite <-!forallb_walk. induction (walk n) as [|m l IH]; simpl; [done|]. rewrite IH.
  by destruct (p m), (q m), (forallb p l), (forallb q l).
Qed.

Lemma body_child f s : s ∈ function_body f -> s ∈ children f.
Proof. destruct f; simpl; intros H; try by apply elem_of_nil in H. set_solver. Qed.

Lemma local_names_all f : all_nodes (fun n => forallb (fun x => x ∈? local_names f) (bound_names n)) f = true.
Proof.
  rewrite <-forallb_walk. apply List.forallb_forall. intros n Hn. apply List.forallb_forall. intros x Hx.
  apply bool_decide_eq_true. right. apply list_elem_of_join. exists (bound_names n).
  split; [by apply list_elem_of_In|]. apply list_elem_of_In, in_map. exact Hn.
Qed.

(** A linear command is made of permitted nodes. *)
Lemma literal_keyword_fine p k name value a :
  (forall v, p (ast.Constant v) = true) -> (forall op, p (ast.Unaryop op) = true) ->
  (forall op v, p (ast.UnaryOp op (ast.Constant v)) = true) ->
  (forall v, p (ast.keyword (Some name) (ast.Constant v)) = true) ->
  (forall op v, p (ast.keyword (Some name) (ast.UnaryOp op (ast.Constant v))) = true) ->
  k = ast.keyword (Some name) value -> keyword_argument value = Ret a -> all_nodes p k = true.
Proof.
  intros Hc Ho Hu Hk1 Hk2 -> Ha. unfold keyword_argument, literal_argument in Ha.
  destruct value; try done.
  - do 2 (rewrite all_nodes_eq; cbn [children forallb]). by rewrite Hk1, Hc.
  - destruct op; try done. destruct value; try done.
    do 2 (rewrite all_nodes_eq; cbn [children forallb]). rewrite !(all_nodes_eq _ (ast.Unaryop _)), !(all_nodes_eq _ (ast.Constant _)).
    cbn [children forallb]. by rewrite Hk2, Hu, Ho, Hc.
Qed.

Lemma literal_keywords_fine p l d d' :
  (forall v, p (ast.Constant v) = true) -> (forall op, p (ast.Unaryop op) = true) ->
  (forall op v, p (ast.UnaryOp op (ast.Constant v)) = true) ->
  (forall name v, p (ast.keyword name (ast.Constant v)) = true) ->
  (forall name op v, p (ast.keyword name (ast.UnaryOp op (ast.Constant v))) = true) ->
  literal_keywords_from d l = Ret d' -> forallb (all_nodes p) l = true.
Proof.
  intros Hc Ho Hu Hk1 Hk2. revert d. induction l as [|k l IH]; intros d H; [done|].
  destruct k; try done. destruct arg as [name|]; [|done]. cbn [literal_keywords_from] in H.
  destruct (dict_mem name d); [done|]. apply bind_Ret in H as (a & Ha & H).
  cbn [forallb]. rewrite (IH _ H), andb_true_r. eapply literal_keyword_fine; eauto.
Qed.

Lemma direct_step_fine actions s step names :
  _parse_direct_step actions s = Ret step -> all_nodes (node_fine names) s = true.
Proof.
  unfold _parse_direct_step. destruct s; try done. destruct s; try done. destruct s; try done.
  destruct s; try done. destruct s; try done. destruct (negb (String.eqb id "drone")) eqn:Eid; [done|].
  apply negb_false_iff, String.eqb_eq in Eid as ->.
  destruct (negb (attr ∈? actions)); [done|]. cbn [orb]. case_bool_decide as Ea; [|done]. subst args. cbn [negb].
  unfold call_step, call_arguments, _literal_keywords. cbn [call_keywords].
  intros (arguments & (raw & Hk & _)%bind_Ret & _)%bind_Ret.
  assert (forallb (all_nodes (node_fine names)) keywords = true) as Hks by (eapply literal_keywords_fine; [..|exact Hk]; done).
  do 5 (rewrite all_nodes_eq; cbn [children forallb app]). rewrite Hks.
  assert (awaits_children (ast.Call lineno col_offset (ast.Attribute (ast.Name "drone") attr) [] keywords) = true) as Haw.
  { unfold awaits_children. simpl. apply negb_true_iff. clear -Hk. revert Hk. generalize (@nil (string * argument)) as d.
    induction keywords as [|k l IH]; intros d Hk; [done|]. destruct k; try done. destruct arg as [name|]; [|done].
    cbn [literal_keywords_from] in Hk. destruct (dict_mem name d); [done|]. apply bind_Ret in Hk as (a & _ & Hk).
    simpl. by eapply IH. }
  unfold node_fine, expression_ok at 1 2 3 4 5. rewrite Haw. done.
Qed.

(** A linear command weighs one when its action counts. *)
Lemma direct_step_weight w actions s step :
  _parse_direct_step actions s = Ret step ->
  statement_weight w s = b2z (w (ScriptStep.action step)) /\ ScriptStep.action step ∈ actions.
Proof.
  unfold _parse_direct_step. destruct s; try done. destruct s; try done. destruct s; try done.
  destruct s; try done. destruct s; try done. destruct (negb (String.eqb id "drone")) eqn:Eid; [done|].
  apply negb_false_iff, String.eqb_eq in Eid as ->.
  destruct (negb (attr ∈? actions)) eqn:Eat; [done|]. apply negb_false_iff, bool_decide_eq_true in Eat.
  cbn [orb]. case_bool_decide as Ea; [|done]. subst args. cbn [negb].
  unfold call_step, call_arguments, _literal_keywords. cbn [call_keywords].
  intros (arguments & (raw & Hk & _)%bind_Ret & [_ <-]%checked_Ret)%bind_Ret.
  assert (forallb (all_nodes (fun m => negb (is_drone_call m))) keywords = true) as Hks
    by (eapply literal_keywords_fine; [..|exact Hk]; done).
  assert (sum_Z (map (weight w) keywords) = 0) as Hsum.
  { rewrite List.forallb_forall in Hks. assert (forall k, k ∈ keywords -> weight w k = 0) as H.
    { intros k Hin. by apply no_calls_weight, Hks, list_elem_of_In. }
    clear -H. induction keywords as [|k l IH]; simpl; [done|]. rewrite H by left. apply IH. intros ? ?. apply H. by right. }
  split; [|done]. cbn [statement_weight ScriptStep.action].
  do 5 (rewrite weight_eq; cbn [children map app sum_Z foldr]). unfold sum_Z in Hsum. rewrite Hsum.
  unfold own_weight. cbn [drone_call]. rewrite String.eqb_refl. lia.
Qed.

Lemma direct_steps_weight w actions l steps :
  mapM (_parse_direct_step actions) l = Ret steps ->
  block_weight w l = sum_Z (map (fun step => b2z (w (ScriptStep.action step))) steps)
  /\ Forall (fun step => ScriptStep.action step ∈ actions) steps.
Proof.
  intros H%mapM_Ret. induction H as [|s step l steps Hs _ [IH1 IH2]]; [done|].
  destruct (direct_step_weight w _ _ _ Hs) as [Hw Ha]. split; [|by constructor].
  unfold block_weight in *. simpl. rewrite Hw. unfold sum_Z in *. lia.
Qed.

(** The plan of a mission counts the commands of its body, and the observations when
    branches are balanced. *)
Lemma static_plan_counts tree f tier steps estimate :
  static_plan tree f = Ret (tier, steps, estimate) ->
  commands_of estimate = block_commands (function_body f)
  /\ (forallb (all_nodes balanced_node) (function_body f) = true ->
      observations_of estimate = block_observations (function_body f)).
Proof.
  unfold static_plan. intros (direct & Hd & H)%bind_Ret. destruct direct as [l|].
  - apply bind_Ret in H as (durations & _ & H). injection H as <- <- <-.
    unfold _direct_steps in Hd. destruct (mapM _ _) as [l'|e] eqn:Em; [|by destruct (is_CrazySwarmError e)].
    assert (l' = l) as ->.
    { destruct (negb _); [done|]. destruct (_ || _); [done|]. by injection Hd. }
    destruct (direct_steps_weight is_command _ _ _ Em) as [Hc Ha].
    destruct (direct_steps_weight is_observation _ _ _ Em) as [Ho _].
    unfold block_commands, block_observations. rewrite Hc, Ho. unfold commands_of, observations_of. cbn [fst snd].
    clear -Ha. induction Ha as [|step l Hs _ [IH1 IH2]]; [done|].
    assert (is_command (ScriptStep.action step) = true /\ is_observation (ScriptStep.action step) = false) as [E1 E2].
    { revert Hs. unfold TIER_A_ACTIONS. generalize (ScriptStep.action step). intros a.
      by intros [->|[->|[->|[->|[]%elem_of_nil]%elem_of_cons]%elem_of_cons]%elem_of_cons]%elem_of_cons. }
    cbn [map length sum_Z foldr] in *. rewrite E1, E2. cbn [b2z]. unfold sum_Z in *. split; [lia|]. intros Hb. specialize (IH2 Hb). lia.
  - apply bind_Ret in H as (? & _ & (constants & Hv & H)%bind_Ret).
    apply bind_Ret in H as (? & _ & (l & _ & (b & Hb & H)%bind_Ret)%bind_Ret). injection H as <- <- <-.
    apply visit_all_nodes in Hv. assert (forallb (all_nodes loop_ok) (function_body f) = true) as Hl.
    { apply List.forallb_forall. intros s Hs%list_elem_of_In.
      assert (all_nodes node_ok s = true) as H by (eapply all_nodes_child; [exact Hv|by apply body_child]).
      revert H. apply all_nodes_weaken. unfold node_ok. by intros m [_ ?]%andb_prop. }
    destruct (estimate_block_counts _ _ Hl Hb) as [H1 H2]. split; [by rewrite H1|]. intros Hbal. by rewrite H2.
Qed.

(** The statements of an accepted mission that keeps to the discipline *)
Lemma accepted_fine tree f plan :
  static_plan tree f = Ret plan -> f ∈ children tree -> disciplined f = true ->
  forallb (all_nodes (node_fine (local_names f))) (function_body f) = true.
Proof.
  intros H Hf [[_ Hdisc]%andb_prop _]%andb_prop. unfold static_plan in H.
  apply bind_Ret in H as (direct & Hd & H). destruct direct as [l|].
  - unfold _direct_steps in Hd. destruct (mapM _ _) as [l'|e] eqn:Em; [|by destruct (is_CrazySwarmError e)].
    apply mapM_Ret in Em. clear -Em. induction Em as [|s step l steps Hs _ IH]; [done|].
    cbn [forallb]. by rewrite IH, (direct_step_fine _ _ _ _ Hs).
  - apply bind_Ret in H as (? & Haw & (constants & Hv & _)%bind_Ret). apply visit_all_nodes in Hv.
    unfold _require_awaited_drone_calls in Haw. rewrite forallb_walk in Haw.
    destruct (all_nodes awaits_children tree) eqn:Ha; [|done].
    apply List.forallb_forall. intros s Hs. rewrite List.forallb_forall in Hdisc. specialize (Hdisc s Hs).
    apply list_elem_of_In, body_child in Hs.
    pose proof (all_nodes_child _ _ _ Hv Hs) as H1. pose proof (all_nodes_child _ _ _ (all_nodes_child _ _ _ Ha Hf) Hs) as H2.
    pose proof (all_nodes_child _ _ _ (local_names_all f) Hs) as H3.
    assert (all_nodes (fun m => (node_ok m && awaits_children m) && (disciplined_node m
      && forallb (fun x => x ∈? local_names f) (bound_names m))) s = true) as Hall.
    { by rewrite all_nodes_and, (all_nodes_and node_ok), (all_nodes_and disciplined_node), H1, H2, Hdisc, H3. }
    revert Hall. apply all_nodes_weaken. intros m. unfold node_fine, node_ok, expression_ok.
    by intros [[[-> ->]%andb_prop ->]%andb_prop [-> ->]%andb_prop]%andb_prop.
Qed.
End accepted.

(** ** The theorems on budgets *)
Section budgets.
Context `{TX : PyText} `{MF : MissionFiles} `{PV : PythonValues} `{MP : MissionParent}.

Lemma request_counts action arguments d n :
  wp (_request action arguments) (fun _ d' _ =>
    ProtocolDrone.commands d' = ProtocolDrone.commands d + b2z (is_command action)
    /\ ProtocolDrone.observations d' = ProtocolDrone.observations d + b2z (is_observation action)) d n.
Proof.
  unfold _request, is_command, is_observation.
  destruct (String.eqb action "observe") eqn:Eo; [|destruct (String.eqb action "checkpoint") eqn:Ec]; cbn [negb andb b2z].
  - apply wp_bind, wp_bind, wp_modify, wp_bind, wp_get, wp_raise_if; intros _; [simpl; lia|].
    apply wp_bind, wp_modify, wp_bind, wp_get, wp_bind, wp_lift.
    destruct (dumps_arguments arguments); [apply wp_lift|]; simpl; lia.
  - apply wp_bind, wp_ret, wp_bind, wp_modify, wp_bind, wp_get, wp_bind, wp_lift.
    destruct (dumps_arguments arguments); [apply wp_lift|]; simpl; lia.
  - apply wp_bind, wp_bind, wp_modify, wp_bind, wp_get, wp_raise_if; intros _; [simpl; lia|].
    apply wp_bind, wp_modify, wp_bind, wp_get, wp_bind, wp_lift.
    destruct (dumps_arguments arguments); [apply wp_lift|]; simpl; lia.
Qed.

Lemma perform_counts action arguments d n :
  wp (ProtocolDrone_perform action arguments) (fun o d' _ =>
    (ProtocolDrone.commands d' = ProtocolDrone.commands d + b2z (is_command action)
     /\ ProtocolDrone.observations d' = ProtocolDrone.observations d + b2z (is_observation action))
    /\ match o with Ret v => tame v | Raise _ => True end) d n.
Proof.
  unfold ProtocolDrone_perform. apply wp_bind. eapply wp_mono; [apply request_counts|].
  intros [result|e] d' n' H; [|done]. destruct (String.eqb action "observe"); [|by apply wp_ret].
  destruct result; try (by apply wp_raise). by apply wp_ret.
Qed.

#[local] Instance commands_metered : Metered is_command ProtocolDrone.commands.
Proof.
  intros action arguments d n. eapply wp_mono; [apply perform_counts|]. intros o d' n' [[-> _] ?]. split; [lia|done].
Qed.

#[local] Instance observations_metered : Metered is_observation ProtocolDrone.observations.
Proof.
  intros action arguments d n. eapply wp_mono; [apply perform_counts|]. intros o d' n' [[_ ->] ?]. split; [lia|done].
Qed.

(** The run of a mission function stays within the weight of its body. *)
Lemma run_function_within {D} `{DC : DroneClass D} (w : string -> bool) (used : D -> Z) `{!Metered w used}
    time tree f plan d n :
  static_plan tree f = Ret plan -> f ∈ children tree -> disciplined f = true -> (65 < time)%nat ->
  wp (run_function time f) (fun o d' _ =>
    used d' <= used d + block_weight w (function_body f)
    /\ o <> Ret OutOfTime) d n.
Proof.
  intros Hp Hf Hd Ht. pose proof (accepted_fine _ _ _ Hp Hf Hd) as Hfine.
  unfold disciplined in Hd. apply andb_prop in Hd as [[Hi _]%andb_prop Hr].
  apply negb_true_iff, bool_decide_eq_false in Hr.
  pose proof (fine_block w used (local_names f) time Hr Ht _ Hfine None
    (mission_run.mk D [("drone", DroneObject)] d) n Hi) as H.
  specialize (H ltac:(by repeat constructor) ltac:(done)). revert H. unfold wp, run_function.
  destruct (run_block _ _ _ _) as [[o r] n']. simpl. intros (Hu & _ & _ & Ho). split; [done|].
  destruct o as [fl|]; [|done]. destruct Ho as [Hne _]. by intros [= ->].
Qed.

(** What acceptance of a source means *)
Lemma parse_inversion filename name source record :
  parse_python_mission filename name source = Ret record ->
  exists tree f package plan,
    parse_tree (path_name filename) source = Ret tree /\ _mission_function tree = Ret f
    /\ _mission_package tree = Ret package /\ static_plan tree f = Ret plan
    /\ MissionFileRecord.planned_command_budget record = commands_of (snd plan)
    /\ MissionFileRecord.planned_observation_budget record = observations_of (snd plan)
    /\ MissionFileRecord.steps record = snd (fst plan)
    /\ MissionFileRecord.tier record = fst (fst plan)
    /\ MissionFileRecord.source record = source
    /\ MissionFileRecord.source_sha256 record = sha256_text source
    /\ MissionFileRecord_valid record = true.
Proof.
  unfold parse_python_mission. cbv zeta.
  destruct (negb _); [done|]. destruct (_ || _); [done|]. destruct (_ || _); [done|].
  intros (tree & Ht & (f & Hf & (package & Hp & (plan & Hplan & H)%bind_Ret)%bind_Ret)%bind_Ret)%bind_Ret.
  exists tree, f, package, plan. destruct plan as [[tier steps] [[c o] duration]].
  destruct (_ || _); [done|]. destruct (fltb _ _); [done|]. apply checked_Ret in H as [Hv <-]. by split_and!.
Qed.

Lemma record_budgets record :
  MissionFileRecord_valid record = true ->
  0 <= MissionFileRecord.planned_command_budget record /\ 0 <= MissionFileRecord.planned_observation_budget record.
Proof. unfold MissionFileRecord_valid. rewrite !andb_true_iff. lia. Qed.

Definition is_out_of_time (o : outcome flow) : bool := match o with Ret OutOfTime => true | _ => false end.

(** C25: a mission that the service accepts and that keeps to the discipline never
    exceeds its command budget, whatever the parent and the observations answer, and
    its loops end. It stays within its observation budget as well when its branches
    are balanced. *)
Theorem run_keeps_its_budgets filename name source record f time role n :
  parse_python_mission filename name source = Ret record ->
  mission_of (path_name filename) source = Ret f ->
  ast_parse "<mission-artifact>" source = ast_parse (path_name filename) source ->
  disciplined f = true -> (65 < time)%nat ->
  let budget := MissionFileRecord.planned_command_budget record in
  let observations := MissionFileRecord.planned_observation_budget record in
  wp (_entrypoint time source) (fun o d _ =>
      ProtocolDrone.commands d <= budget
      /\ (forallb (all_nodes balanced_node) (function_body f) = true -> ProtocolDrone.observations d <= observations)
      /\ is_out_of_time o = false)
    (ProtocolDrone.mk role budget observations 0 0 0) n.
Proof.
  intros Hp Hm Ha Hd Ht. cbv zeta.
  destruct (parse_inversion _ _ _ _ Hp) as (tree & f' & package & plan & Htree & Hf & Hpk & Hplan & Hc & Ho & _ & _ & _ & _ & Hv).
  unfold mission_of in Hm. rewrite Htree in Hm. cbn [mbind outcome_bind] in Hm. rewrite Hf in Hm. injection Hm as ->.
  destruct plan as [[tier steps] estimate]. destruct (static_plan_counts _ _ _ _ _ Hplan) as [Ec Eo].
  cbn [snd] in Hc, Ho. unfold _entrypoint. rewrite Ha. unfold parse_tree in Htree.
  destruct (ast_parse (path_name filename) source); [|done|done]. injection Htree as ->. rewrite Hf, Hpk.
  destruct (plain_signature f).
  - pose proof (mission_function_child _ _ Hf) as Hchild. eapply wp_mono; [apply wp_and|].
    + by eapply (run_function_within is_command ProtocolDrone.commands).
    + by eapply (run_function_within is_observation ProtocolDrone.observations).
    + intros o d n' [[H1 H2] [H3 _]]. cbn in H1, H3. split_and!; [rewrite Hc, Ec; exact H1| |].
      * intros Hb. rewrite Ho, (Eo Hb). exact H3.
      * destruct o as [[]|]; done.
  - destruct (record_budgets _ Hv). apply wp_raise. cbn. split_and!; [lia|intros _; lia|done].
Qed.
End budgets.

(** ** Linear missions *)

(** The value that a literal argument has in the worker *)
Definition literal_value (e : ast.node) : option value :=
  match e with
  | ast.Constant c => Some (constant_value c)
  | ast.UnaryOp ast.USub (ast.Constant (ast.Int n)) => Some (VInt (- n))
  | ast.UnaryOp ast.USub (ast.Constant (ast.Float x)) => Some (VFloat (fneg x))
  | _ => None
  end.

(** The static value of a literal is the float of its value in the worker. It is not
    for a text with a sign, nor for the integer zero with one. *)
Definition literal_agrees (e : ast.node) : bool :=
  match e with
  | ast.UnaryOp ast.USub (ast.Constant (ast.Int n)) => (fmul (fneg f1) (float_of_Z n) ≟ float_of_Z (- n)) && negb (is_inf (float_of_Z (- n)))
  | ast.UnaryOp ast.USub (ast.Constant (ast.Float x)) => fmul (fneg f1) x ≟ fneg x
  | ast.UnaryOp _ _ => false
  | ast.Constant (ast.Float x) => fmul f1 x ≟ x
  | ast.Constant (ast.Int n) => fmul f1 (float_of_Z n) ≟ float_of_Z n
  | _ => true
  end.

Definition keyword_agrees (n : ast.node) : bool :=
  match n with ast.keyword _ e => literal_agrees e | _ => true end.

(** Data that pydantic and [float] read alike *)
Definition same_number (v w : json) : Prop :=
  v = w \/ exists n, v = JInt n /\ w = JFloat (float_of_Z n) /\ is_inf (float_of_Z n) = false.

Class LaxNumbers `{TX : PyText} : Prop := {
  lax_JFloat x : lax_float (JFloat x) = Some x;
  lax_JInt n : is_inf (float_of_Z n) = false -> lax_float (JInt n) = Some (float_of_Z n);
}.

Section linear.
Context `{TX : PyText} `{LX : !LaxNumbers}.

Definition same_arguments (d d' : dict json) : Prop :=
  Forall2 (fun p q => fst p = fst q /\ same_number (snd p) (snd q)) d d'.

Lemma same_get k d d' :
  same_arguments d d' ->
  (dict_get k d = None /\ dict_get k d' = None)
  \/ exists v w, dict_get k d = Some v /\ dict_get k d' = Some w /\ same_number v w.
Proof.
  induction 1 as [|[k1 v1] [k2 v2] d d' [Hk Hv] _ IH]; [by left|]. simpl in *. subst k2.
  case_match; [|done]. right. by exists v1, v2.
Qed.

Lemma same_keys d d' : same_arguments d d' -> dict_keys d = dict_keys d'.
Proof.
  unfold dict_keys. induction 1 as [|p q d d' [Hk _] _ IH]; [done|]. rewrite !fmap_cons. by rewrite Hk, IH.
Qed.

Lemma same_float v w : same_number v w -> py_float v = py_float w.
Proof. intros [->|(n & -> & -> & Hi)]; [done|]. simpl. by rewrite Hi. Qed.

Lemma same_lax v w : same_number v w -> lax_float v = lax_float w.
Proof. intros [->|(n & -> & -> & Hi)]; [done|]. by rewrite lax_JFloat, lax_JInt. Qed.

Lemma same_frame v w : same_number v w -> frame_of v = frame_of w.
Proof. by intros [->|(n & -> & -> & Hi)]. Qed.

Lemma same_json_at k d d' :
  same_arguments d d' -> (json_at k d ≫= py_float) = (json_at k d' ≫= py_float).
Proof.
  intros H. unfold json_at. destruct (same_get k _ _ H) as [[-> ->]|(v & w & -> & -> & Hv)]; [done|].
  by apply same_float.
Qed.

Lemma same_move d d' : same_arguments d d' -> model_validate_move d = model_validate_move d'.
Proof.
  intros H. unfold model_validate_move. cbv zeta.
  assert (forall k fallback,
    match dict_get k d with
    | None => Ret fallback
    | Some v => match lax_float v with Some f => Ret f | None => Raise (ValidationError "MoveRelativeCommand") end
    end = match dict_get k d' with
    | None => Ret fallback
    | Some v => match lax_float v with Some f => Ret f | None => Raise (ValidationError "MoveRelativeCommand") end
    end) as Hfield.
  { intros k fallback. destruct (same_get k _ _ H) as [[-> ->]|(v & w & -> & -> & Hv)]; [done|].
    by rewrite (same_lax _ _ Hv). }
  rewrite !Hfield. destruct (same_get "frame" _ _ H) as [[-> ->]|(v & w & -> & -> & Hv)]; [done|].
  by rewrite (same_frame _ _ Hv).
Qed.

(** The arguments of a linear command are validated alike. *)
Lemma same_validated action d d' :
  action ∈ TIER_A_ACTIONS -> same_arguments d d' -> _validate_arguments action d = _validate_arguments action d'.
Proof.
  intros Ha H. unfold _validate_arguments. f_equal. unfold checked_arguments, keys_are, keys_within, dict_mem.
  rewrite <-(same_keys _ _ H), !(same_json_at _ _ _ H), (same_move _ _ H).
  assert (is_some (dict_get "duration_s" d) = is_some (dict_get "duration_s" d')) as ->.
  { by destruct (same_get "duration_s" _ _ H) as [[-> ->]|(v & w & -> & -> & _)]. }
  unfold TIER_A_ACTIONS in Ha. destruct (String.eqb action "takeoff") eqn:Et; [done|].
  destruct (action ∈? ["hover"; "wait"; "land"]) eqn:Eh; [done|].
  destruct (String.eqb action "move_relative") eqn:Em; [done|].
  exfalso. apply String.eqb_neq in Em, Et. apply bool_decide_eq_false in Eh. set_solver.
Qed.

(** The literals of a linear command in the worker *)
Lemma literal_value_same e a :
  keyword_argument e = Ret a -> literal_agrees e = true ->
  exists v j, literal_value e = Some v /\ dumps v = Ret j /\ same_number j (argument_json a).
Proof.
  unfold keyword_argument, literal_argument, literal_agrees. destruct e; try done.
  - destruct value; try done; cbn [py_float].
    + intros (x & Hx & [= <-])%bind_Ret Hf%bool_decide_eq_true. destruct (is_inf (float_of_Z n)) eqn:Ei; [done|].
      injection Hx as <-. exists (VInt n), (JInt n). split_and!; [done|done|]. right. exists n. split_and!; [done| |done]. exact (f_equal JFloat Hf).
    + intros [= <-] Hf%bool_decide_eq_true. exists (VFloat f), (JFloat f). split_and!; [done|done|]. left. exact (eq_sym (f_equal JFloat Hf)).
    + intros [= <-] _. exists (Plain (Json (JStr s))), (JStr s). split_and!; [done|done|by left].
  - destruct op; try done. destruct e; try done. destruct value; try done; cbn [py_float].
    + intros (x & Hx & [= <-])%bind_Ret [Hf%bool_decide_eq_true Hi%negb_true_iff]%andb_prop.
      destruct (is_inf (float_of_Z n)); [done|]. injection Hx as <-.
      exists (VInt (- n)), (JInt (- n)). split_and!; [done|done|]. right. exists (- n). split_and!; [done| |done]. exact (f_equal JFloat Hf).
    + intros [= <-] Hf%bool_decide_eq_true. exists (VFloat (fneg f)), (JFloat (fneg f)). split_and!; [done|done|].
      left. exact (eq_sym (f_equal JFloat Hf)).
Qed.

Section recording.
Context `{MF : MissionFiles} `{PV : PythonValues} (names : list string) (time : nat).
Local Notation R := (mission_run.t RecorderDrone.t).

Lemma literal_evaluates {D} `{DC : DroneClass D} e v (r : mission_run.t D) n :
  literal_value e = Some v -> evaluate names e r n = (Ret v, r, n).
Proof.
  destruct e; try done; simpl; [by intros [= <-]|].
  destruct op; try done. destruct e; try done. destruct value; try done; by intros [= <-].
Qed.

(** The keywords of a linear command: what the worker records, and that it means
    what the static arguments say *)
Lemma keywords_recorded l d d' (r : R) n :
  literal_keywords_from d l = Ret d' -> forallb keyword_agrees l = true ->
  exists vs js new, evaluate_keywords (evaluate names) l r n = (Ret vs, r, n)
    /\ dumps_arguments vs = Ret js /\ d' = d ++ new /\ same_arguments js (prod_map id argument_json <$> new).
Proof.
  revert d. induction l as [|k l IH]; intros d Hl Ha.
  { injection Hl as <-. exists [], [], []. rewrite app_nil_r. by repeat constructor. }
  destruct k; try done. destruct arg as [name|]; [|done]. cbn [literal_keywords_from] in Hl.
  destruct (dict_mem name d) eqn:Em; [done|]. apply bind_Ret in Hl as (a & Hka & Hl).
  cbn [forallb keyword_agrees] in Ha. apply andb_prop in Ha as [Hag Ha].
  destruct (literal_value_same _ _ Hka Hag) as (v & j & Hv & Hj & Hs).
  destruct (IH _ Hl Ha) as (vs & js & new & He & Hd & Hnew & Hsame).
  rewrite dict_set_fresh in Hnew by done. exists ((name, v) :: vs), ((name, j) :: js), ((name, a) :: new). split_and!.
  - cbn [evaluate_keywords]. unfold mbind, M_bind. rewrite (literal_evaluates _ _ _ _ Hv).
    unfold mbind, M_bind in He. by rewrite He.
  - unfold dumps_arguments in *. cbn [mapM snd fst]. rewrite Hj. cbn [mbind outcome_bind]. by rewrite Hd.
  - by rewrite Hnew, <-app_assoc.
  - by constructor.
Qed.

(** A linear command in the worker adds one step. *)
Definition records (step : ScriptStep.t) (recorded : string * list (string * value)) : Prop :=
  fst recorded = ScriptStep.action step
  /\ ScriptStep_valid step = true
  /\ exists js, dumps_arguments (snd recorded) = Ret js
      /\ _validate_arguments (ScriptStep.action step) js = Ret (ScriptStep.arguments step).

Lemma direct_step_recorded s step (r : R) n :
  _parse_direct_step TIER_A_ACTIONS s = Ret step -> all_nodes keyword_agrees s = true ->
  "drone" ∈ names -> dict_get "drone" (mission_run.locals r) = Some DroneObject ->
  exists recorded, records step recorded
    /\ execute names time s r n
       = (Ret Next, mission_run.mk _ (mission_run.locals r) (record_step (fst recorded) (snd recorded) (mission_run.drone r)), n).
Proof.
  unfold _parse_direct_step. destruct s; try done. destruct s; try done. destruct s; try done.
  destruct s; try done. destruct s; try done. destruct (negb (String.eqb id "drone")) eqn:Eid; [done|].
  apply negb_false_iff, String.eqb_eq in Eid as ->.
  destruct (negb (attr ∈? TIER_A_ACTIONS)) eqn:Eat; [done|]. apply negb_false_iff, bool_decide_eq_true in Eat.
  cbn [orb]. case_bool_decide as Ea; [|done]. subst args. cbn [negb].
  unfold call_step, call_arguments, _literal_keywords. cbn [call_keywords].
  intros (arguments & (raw & Hk & Hval)%bind_Ret & [Hok <-]%checked_Ret)%bind_Ret Hag Hn Hd.
  assert (forallb keyword_agrees keywords = true) as Hks.
  { do 3 (rewrite all_nodes_eq in Hag; cbn [children forallb app keyword_agrees andb] in Hag; try rewrite andb_true_r in Hag).
    apply andb_prop in Hag as [_ Hag]. rewrite List.forallb_forall in Hag |- *. intros k Hin. specialize (Hag k Hin).
    rewrite all_nodes_eq in Hag. by apply andb_prop in Hag as [? _]. }
  destruct (keywords_recorded _ _ _ r n Hk Hks) as (vs & js & new & He & Hdump & -> & Hsame). cbn [app] in *.
  exists (attr, vs). split.
  - split_and!; [done|done|]. exists js. split; [done|]. cbn [ScriptStep.action ScriptStep.arguments].
    rewrite <-Hval. by apply same_validated.
  - assert (forall m, attr ∈ TIER_A_ACTIONS -> on_drone (perform attr vs) r m
      = (Ret VNone, mission_run.mk _ (mission_run.locals r) (record_step attr vs (mission_run.drone r)), m)
      /\ (attr ∈? drone_methods) = true /\ String.eqb attr "checkpoint" = false) as Hp.
    { intros m. unfold TIER_A_ACTIONS.
      by intros [->|[->|[->|[->|[]%elem_of_nil]%elem_of_cons]%elem_of_cons]%elem_of_cons]%elem_of_cons. }
    destruct (Hp n Eat) as (Hperform & Hm & Hc). cbn [execute evaluate evaluate_all]. unfold lookup_name.
    rewrite bool_decide_eq_true_2 by done. unfold mbind, M_bind, get, lift, mret, M_ret. rewrite Hd. cbn [some_or get_attribute].
    rewrite Hm. unfold mret, M_ret. unfold mbind, M_bind in He. rewrite He. cbn [call_value length]. rewrite Hc. cbn [negb andb].
    rewrite bool_decide_eq_true_2 by done. cbn [negb await_value]. by rewrite Hperform.
Qed.

Lemma direct_steps_recorded l steps (r : R) n :
  mapM (_parse_direct_step TIER_A_ACTIONS) l = Ret steps -> forallb (all_nodes keyword_agrees) l = true ->
  "drone" ∈ names -> dict_get "drone" (mission_run.locals r) = Some DroneObject ->
  exists recorded, Forall2 records steps recorded
    /\ run_block (execute names time) l r n
       = (Ret Next, mission_run.mk _ (mission_run.locals r)
            (RecorderDrone.mk (RecorderDrone.role (mission_run.drone r)) (RecorderDrone.steps (mission_run.drone r) ++ recorded)), n).
Proof.
  intros H%mapM_Ret. revert r. induction H as [|s step l steps Hs _ IH]; intros r Ha Hn Hd.
  { exists []. split; [constructor|]. rewrite app_nil_r. by destruct r as [? []]. }
  cbn [forallb] in Ha. apply andb_prop in Ha as [Has Ha].
  destruct (direct_step_recorded s step r n Hs Has Hn Hd) as (rec & Hrec & He).
  edestruct (IH (mission_run.mk _ (mission_run.locals r) (record_step (fst rec) (snd rec) (mission_run.drone r)))) as (recs & Hrecs & Hrun); [done..|].
  exists (rec :: recs). split; [by constructor|]. cbn [run_block]. unfold mbind, M_bind. rewrite He.
  unfold mbind, M_bind in Hrun. rewrite Hrun. cbn. rewrite <-app_assoc. by destruct rec.
Qed.

Lemma recorded_items steps recorded :
  Forall2 records steps recorded ->
  exists items, mapM recorded_step recorded = Ret items /\ mapM step_of items = Ret steps.
Proof.
  induction 1 as [|step [action vs] steps recorded (Ha & Hok & js & Hd & Hv) _ IH]; [by exists []|].
  cbn [fst snd] in Ha, Hd. subst action. destruct IH as (items & Hi & Hs).
  exists (JObj [("action", JStr (ScriptStep.action step)); ("arguments", JObj js)] :: items). split.
  - apply mapM_cons; [|done]. unfold recorded_step. cbn [snd fst]. by rewrite Hd.
  - apply mapM_cons; [|done]. unfold step_of. simpl. rewrite Hv. simpl.
    assert (ScriptStep.mk (ScriptStep.action step) (ScriptStep.arguments step) = step) as -> by (by destruct step).
    by rewrite Hok.
Qed.
End recording.

Context `{MF : MissionFiles} `{PV : PythonValues} `{MP : MissionParent} (time : nat).

(** C26: the worker records for a linear mission exactly the steps the service
    validated, for every role: the preview of an accepted linear mission returns the
    steps of its record, and no check of the preview fails. It does so for a mission
    that, beyond being accepted, is the plain [async def mission(drone)] without
    defaults, keyword-only parameters or decorators, has keyword arguments whose value
    Python and the static reader agree on (a sign before a text or before the integer
    zero is not), parses alike under the two file names, and whose start request is no
    longer than the 256 KiB that the worker reads. *)
Theorem linear_preview_is_its_steps filename name source record f role_id :
  parse_python_mission filename name source = Ret record ->
  MissionFileRecord.tier record = MissionTier.LINEAR ->
  mission_of (path_name filename) source = Ret f ->
  ast_parse "<mission-artifact>" source = ast_parse (path_name filename) source ->
  plain_signature f = true -> forallb (all_nodes keyword_agrees) (function_body f) = true ->
  dumped_length (start_request record "record" role_id) <= START_REQUEST_BYTES ->
  @preview_isolated_mission_role TX (isolated_worker time) record role_id = Ret (MissionFileRecord.steps record).
Proof.
  intros Hp Htier Hm Ha Hsig Hag Hfits.
  destruct (parse_inversion _ _ _ _ Hp) as (tree & f' & package & plan & Htree & Hf & Hpk & Hplan & Hc & _ & Hsteps & Ht & Hsrc & Hsha & _).
  unfold mission_of in Hm. rewrite Htree in Hm. cbn [mbind outcome_bind] in Hm. rewrite Hf in Hm. injection Hm as ->.
  unfold parse_tree in Htree. destruct (ast_parse (path_name filename) source) as [tree'| |] eqn:Etree; [|done|done]. injection Htree as ->.
  unfold static_plan in Hplan. apply bind_Ret in Hplan as (direct & Hd & Hplan).
  destruct direct as [l|]; [|by repeat (apply bind_Ret in Hplan as (? & _ & Hplan)); injection Hplan as <-; rewrite Ht in Htier].
  apply bind_Ret in Hplan as (durations & _ & [= <-]). cbn [fst snd] in Hsteps, Hc. rewrite Hsteps.
  unfold commands_of in Hc. cbn [fst snd] in Hc.
  unfold _direct_steps in Hd. destruct (mapM _ _) as [l'|e] eqn:Em; [|by destruct (is_CrazySwarmError e)].
  assert (l' = l) as -> by (destruct (negb _); [done|]; destruct (_ || _); [done|]; by injection Hd).
  destruct (direct_steps_recorded (local_names f) time _ _
    (mission_run.mk _ [("drone", DroneObject)] (RecorderDrone.mk role_id [])) 0%nat Em Hag) as (recorded & Hrec & Hrun); [by left|done|].
  destruct (recorded_items _ _ Hrec) as (items & Hitems & Hback).
  assert (record_role (MissionWorker := isolated_worker time) record role_id
    = Exited 0 (Some (JObj [("type", JStr "result"); ("ok", JBool true);
        ("source_sha256", JStr (MissionFileRecord.source_sha256 record)); ("steps", JList items)])) "") as Hanswer.
  { unfold record_role, isolated_worker, worker_main, _initial_request. rewrite (proj2 (Z.ltb_ge _ _) Hfits).
    unfold start_request. simpl. rewrite Hsrc, Hsha, String.eqb_refl. simpl. unfold _entrypoint. rewrite Ha, Hf, Hpk, Hsig. unfold answer_of, run_function.
    rewrite Hrun. simpl. unfold record_result. simpl. by rewrite Hitems. }
  unfold preview_isolated_mission_role. rewrite Hanswer. unfold steps_of. simpl. rewrite Hback. simpl.
  rewrite String.eqb_refl. simpl. rewrite Hc. by rewrite Z.ltb_irrefl.
Qed.
End linear.

(** ** The life cycle of a recorded mission *)
Definition is_action (a : string) : string -> bool := String.eqb a.
Definition is_edge (action : string) : bool := String.eqb action "takeoff" || String.eqb action "land".

Lemma weight_zero_statement w s : all_nodes loop_ok s = true -> weight w s = 0 -> statement_weight w s = 0.
Proof.
  induction s as [s IH] using node_ind. rewrite all_nodes_eq. intros [Hs Hc]%andb_prop Hw.
  assert (forall c, c ∈ children s -> weight w c = 0) as Hch.
  { intros c Hin. rewrite weight_eq in Hw. pose proof (own_weight_nonneg w s). pose proof (weights_nonneg w (children s)).
    assert (sum_Z (map (weight w) (children s)) = 0) as Hsum by lia. clear -Hsum Hin.
    induction (children s) as [|x l IHl]; [by apply elem_of_nil in Hin|]. cbn [map sum_Z foldr] in Hsum.
    pose proof (weight_nonneg w x). pose proof (weights_nonneg w l). unfold sum_Z in *.
    apply elem_of_cons in Hin as [->|Hin]; [lia|]. apply IHl; [done|lia]. }
  assert (forall l, (forall c, c ∈ l -> c ∈ children s) -> sum_Z (map (statement_weight w) l) = 0) as Hl.
  { induction l as [|c l IHl]; intros Hsub; [done|]. cbn [map sum_Z foldr].
    rewrite IH; [apply IHl; intros ? ?; apply Hsub; by right|apply Hsub; left| |apply Hch, Hsub; left].
    rewrite List.forallb_forall in Hc. apply Hc, list_elem_of_In, Hsub. left. }
  destruct s; try exact Hw; cbn [statement_weight].
  - rewrite !Hl; [done|intros c ?; simpl; set_solver..].
  - rewrite Hl; [lia|intros c ?; simpl; set_solver].
  - rewrite Hl; [lia|intros c ?; simpl; set_solver].
Qed.

Section lifecycle.
Context `{TX : PyText} `{MF : MissionFiles} `{PV : PythonValues}.

(** A body that takes off in its first statement, lands in its last, and has no other
    call of either *)
Definition flies_once (body : list ast.node) : Prop :=
  exists first middle last first_step last_step,
    body = first :: middle ++ [last]
    /\ _parse_direct_step TIER_B_ACTIONS first = Ret first_step /\ ScriptStep.action first_step = "takeoff"
    /\ _parse_direct_step TIER_B_ACTIONS last = Ret last_step /\ ScriptStep.action last_step = "land"
    /\ Forall (fun s => statement_weight is_edge s = 0) middle.

Lemma parse_direct_step_more actions actions' s step :
  (forall a, a ∈ actions -> a ∈ actions') ->
  _parse_direct_step actions s = Ret step -> _parse_direct_step actions' s = Ret step.
Proof.
  intros Hsub. unfold _parse_direct_step. destruct s; try done. destruct s; try done. destruct s; try done.
  destruct s; try done. destruct s; try done. destruct (negb _); [done|].
  destruct (negb (attr ∈? actions)) eqn:E; [done|]. apply negb_false_iff, bool_decide_eq_true in E.
  rewrite (bool_decide_eq_true_2 (attr ∈ actions')) by auto. done.
Qed.

Lemma is_edge_sum s : b2z (is_edge s) = b2z (is_action "takeoff" s) + b2z (is_action "land" s).
Proof.
  unfold is_edge, is_action. rewrite (String.eqb_sym s), (String.eqb_sym s "land").
  destruct (String.eqb "takeoff" s) eqn:E; [|by destruct (String.eqb "land" s)].
  apply String.eqb_eq in E as <-. done.
Qed.

Lemma count_weight a l : count_if (String.eqb a) (drone_actions l) = sum_Z (map (own_weight (is_action a)) l).
Proof.
  unfold drone_actions, own_weight, is_action. induction l as [|n l IH]; [done|].
  change (omap drone_call (n :: l)) with
    (match drone_call n with Some action => action :: omap drone_call l | None => omap drone_call l end).
  cbn [map sum_Z foldr]. unfold sum_Z in IH. destruct (drone_call n) as [action|]; rewrite ?count_if_cons, IH; lia.
Qed.

Lemma edge_weight n : weight is_edge n = weight (is_action "takeoff") n + weight (is_action "land") n.
Proof.
  rewrite <-!sum_walk. induction (walk n) as [|m l IH]; [done|]. cbn [map sum_Z foldr] in *. unfold sum_Z in *. rewrite IH.
  unfold own_weight. destruct (drone_call m); [rewrite is_edge_sum|]; lia.
Qed.

Lemma sum_Z_zero (f : ast.node -> Z) l : Forall (fun s => 0 <= f s) l -> sum_Z (map f l) <= 0 -> Forall (fun s => f s = 0) l.
Proof.
  induction 1 as [|s l Hs Hl IH]; [constructor|]. cbn [map sum_Z foldr]. intros H.
  assert (0 <= sum_Z (map f l)) as Hn.
  { apply sum_Z_nonneg, Forall_forall. intros z (c & -> & Hc)%list_elem_of_fmap. rewrite Forall_forall in Hl. auto. }
  unfold sum_Z in *. constructor; [lia|]. apply IH. lia.
Qed.

Lemma sum_ends (g : ast.node -> Z) first middle last :
  sum_Z (map g (first :: middle ++ [last])) = g first + sum_Z (map g middle) + g last.
Proof. cbn [map]. rewrite map_app. cbn [sum_Z foldr]. fold (sum_Z (map g middle ++ map g [last])). rewrite sum_Z_app. simpl. lia. Qed.

Lemma bounded_flies_once f constants k :
  visit f constants = Ret k -> _require_lifecycle f = Ret tt -> flies_once (function_body f).
Proof.
  intros Hv Hl. apply visit_all_nodes in Hv. unfold _require_lifecycle in Hl.
  destruct (head (function_body f)) as [first|] eqn:Eh; [|done].
  destruct (last (function_body f)) as [final|] eqn:El; [|done].
  case_bool_decide as Elen; [done|].
  apply bind_Ret in Hl as (step & Hs & (step' & Hs' & Hl)%bind_Ret).
  destruct (negb _) eqn:Ea; [done|]; cbn [orb] in Hl. destruct (negb (String.eqb (ScriptStep.action step') "land")) eqn:Ea'; [done|].
  apply negb_false_iff, String.eqb_eq in Ea, Ea'. rewrite !count_weight, !sum_walk in Hl.
  destruct (negb _) eqn:Et; [done|]; cbn [orb] in Hl. destruct (negb (_ =? _)) eqn:Et' in Hl; [done|].
  destruct (first_and_last _ _ _ Eh El) as [middle Eb]; [lia|].
  exists first, middle, final, step, step'. split_and!; try done.
  pose proof (edge_weight f) as He. rewrite weight_eq in He. pose proof (own_weight_nonneg is_edge f) as Ho.
  assert (sum_Z (map (weight is_edge) (function_body f)) <= sum_Z (map (weight is_edge) (children f))) as Hb.
  { destruct f; cbn [function_body children]; try apply weights_nonneg.
    cbn [map]. rewrite !map_app. cbn [sum_Z foldr]. fold (sum_Z (map (weight is_edge) body ++ map (weight is_edge) decorator_list ++ map (weight is_edge) returns ++ map (weight is_edge) type_params)).
    rewrite !sum_Z_app. pose proof (weight_nonneg is_edge f). pose proof (weights_nonneg is_edge decorator_list).
    pose proof (weights_nonneg is_edge returns). pose proof (weights_nonneg is_edge type_params). lia. }
  rewrite Eb, sum_ends in Hb.
  assert (forall s st, _parse_direct_step TIER_B_ACTIONS s = Ret st -> is_edge (ScriptStep.action st) = true -> weight is_edge s = 1) as Hone.
  { intros s st Hst Hed. destruct (direct_step_weight is_edge _ _ _ Hst) as [Hw _]. rewrite Hed in Hw. by destruct s. }
  rewrite (Hone _ _ Hs), (Hone _ _ Hs') in Hb by (by rewrite ?Ea, ?Ea').
  assert (Forall (fun s => weight is_edge s = 0) middle) as Hz.
  { apply sum_Z_zero; [|lia]. apply Forall_forall. intros. apply weight_nonneg. }
  rewrite Forall_forall in Hz |- *. intros s Hin. apply weight_zero_statement; [|by apply Hz].
  assert (all_nodes node_ok s = true) as Hok.
  { eapply all_nodes_child; [exact Hv|]. apply body_child. rewrite Eb. set_solver. }
  revert Hok. apply all_nodes_weaken. unfold node_ok. by intros m [_ ?]%andb_prop.
Qed.

Lemma edge_count steps :
  sum_Z (map (fun step => b2z (is_edge (ScriptStep.action step))) steps)
  = action_count "takeoff" steps + action_count "land" steps.
Proof.
  unfold action_count. induction steps as [|step steps IH]; [done|]. rewrite !count_if_cons. cbn [map sum_Z foldr].
  unfold sum_Z in IH. rewrite IH, is_edge_sum. unfold is_action.
  rewrite (String.eqb_sym "takeoff"), (String.eqb_sym "land"). lia.
Qed.

Lemma linear_flies_once l steps :
  mapM (_parse_direct_step TIER_A_ACTIONS) l = Ret steps -> takeoff_first_land_last steps = true ->
  action_count "takeoff" steps = 1 -> action_count "land" steps = 1 -> flies_once l.
Proof.
  intros Hm Ht Hc1 Hc2. unfold takeoff_first_land_last in Ht.
  apply andb_prop in Ht as [[Hlen%Z.leb_le Hh%bool_decide_eq_true]%andb_prop Hl%bool_decide_eq_true].
  destruct (head steps) as [s1|] eqn:Eh; [|done]. destruct (last steps) as [s2|] eqn:El; [|done].
  destruct (first_and_last _ _ _ Eh El) as [ms ->]; [lia|]. injection Hh as Hh. injection Hl as Hl.
  destruct (direct_steps_weight is_edge _ _ _ Hm) as [Hw _]. rewrite edge_count, Hc1, Hc2 in Hw.
  apply mapM_Ret in Hm. apply Forall2_cons_inv_r in Hm as (first & l' & Hf & Hm & ->).
  apply Forall2_app_inv_r in Hm as (middle & l2 & Hm & Hl2 & ->).
  apply Forall2_cons_inv_r in Hl2 as (final & l3 & Hfinal & ->%Forall2_nil_inv_r & ->).
  assert (forall s st, _parse_direct_step TIER_A_ACTIONS s = Ret st -> _parse_direct_step TIER_B_ACTIONS s = Ret st) as Hmore.
  { intros s st. apply parse_direct_step_more. unfold TIER_B_ACTIONS. set_solver. }
  exists first, middle, final, s1, s2. split_and!; [done|by apply Hmore|done|by apply Hmore|done|].
  unfold block_weight in Hw. rewrite sum_ends in Hw.
  destruct (direct_step_weight is_edge _ _ _ Hf) as [-> _] in Hw. destruct (direct_step_weight is_edge _ _ _ Hfinal) as [-> _] in Hw.
  rewrite Hh, Hl in Hw. apply sum_Z_zero; [|simpl in Hw; lia].
  clear -Hm. induction Hm as [|s st middle ms Hs _ IH]; constructor; [|done].
  destruct (direct_step_weight is_edge _ _ _ Hs) as [-> _]. by destruct (is_edge _).
Qed.

(** Every accepted mission flies once. *)
Lemma static_plan_flies_once tree f plan : static_plan tree f = Ret plan -> flies_once (function_body f).
Proof.
  unfold static_plan. intros (direct & Hd & H)%bind_Ret. destruct direct as [l|].
  - unfold _direct_steps in Hd. destruct (mapM _ _) as [l'|e] eqn:Em; [|by destruct (is_CrazySwarmError e)].
    destruct (takeoff_first_land_last l') eqn:Et; [|done]. cbn [negb] in Hd.
    destruct (action_count "takeoff" l' =? 1) eqn:E1; [|done]. destruct (action_count "land" l' =? 1) eqn:E2; [|done].
    eapply linear_flies_once; [exact Em|done|lia|lia].
  - apply bind_Ret in H as (? & _ & (constants & Hv & (u & Hl & _)%bind_Ret)%bind_Ret).
    destruct u. by eapply bounded_flies_once.
Qed.
End lifecycle.

Definition recorded_actions (d : RecorderDrone.t) : list string := map fst (RecorderDrone.steps d).
Definition edges (d : RecorderDrone.t) : Z := count_if is_edge (recorded_actions d).
(** 0 as long as the recorded actions begin with [p] *)
Definition departs_from (p : list string) (d : RecorderDrone.t) : Z :=
  if bool_decide (p `prefix_of` recorded_actions d) then 0 else 1.

Lemma recorder_appends action arguments d n :
  wp (RecorderDrone_perform action arguments) (fun o d' _ =>
    (exists l, recorded_actions d' = recorded_actions d ++ l /\ count_if is_edge l = b2z (is_edge action))
    /\ match o with Ret v => tame v | Raise _ => True end) d n.
Proof.
  unfold RecorderDrone_perform. destruct (String.eqb action "observe") eqn:Eo.
  { apply String.eqb_eq in Eo as ->. apply wp_ret. split; [|done]. exists []. by rewrite app_nil_r. }
  destruct (String.eqb action "checkpoint") eqn:Ec.
  { apply String.eqb_eq in Ec as ->. apply wp_ret. split; [|done]. exists []. by rewrite app_nil_r. }
  apply wp_bind, wp_modify, wp_ret. split; [|done].
  exists [if String.eqb action "wait" then "hover" else action]. split.
  - unfold recorded_actions, record_step. cbn [RecorderDrone.steps]. by rewrite map_app.
  - rewrite count_if_cons. destruct (String.eqb action "wait") eqn:Ew; [by apply String.eqb_eq in Ew as ->|].
    unfold count_if. simpl. lia.
Qed.

#[local] Instance edges_metered : Metered is_edge edges.
Proof.
  intros action arguments d n. eapply wp_mono; [apply recorder_appends|]. intros o d' n' [(l & Hl & Hc) ?].
  split; [|done]. unfold edges. rewrite Hl, count_if_app. lia.
Qed.

#[local] Instance prefix_metered p : Metered (fun _ => false) (departs_from p).
Proof.
  intros action arguments d n. eapply wp_mono; [apply recorder_appends|]. intros o d' n' [(l & Hl & _) ?].
  split; [|done]. unfold departs_from. rewrite Hl. cbn [b2z].
  case_bool_decide as H1; case_bool_decide as H2; try lia. exfalso. apply H1. by apply prefix_app_r.
Qed.

Section recorded_lifecycle.
Context `{TX : PyText} `{MF : MissionFiles} `{PV : PythonValues} (time : nat).

(** A literal has one value, whatever the state. *)
Lemma literal_pure names e a :
  keyword_argument e = Ret a ->
  exists o, forall (r : mission_run.t RecorderDrone.t) n, evaluate names e r n = (o, r, n).
Proof.
  unfold keyword_argument, literal_argument. destruct e; try done.
  - intros _. by eexists.
  - destruct op; try done. destruct e; try done. intros _. by eexists.
Qed.

Lemma keywords_pure names l d d' :
  literal_keywords_from d l = Ret d' ->
  exists o, forall (r : mission_run.t RecorderDrone.t) n, evaluate_keywords (evaluate names) l r n = (o, r, n).
Proof.
  revert d. induction l as [|k l IH]; intros d Hl; [by eexists|].
  destruct k; try done. destruct arg as [name|]; [|done]. cbn [literal_keywords_from] in Hl.
  destruct (dict_mem name d); [done|]. apply bind_Ret in Hl as (a & Hka & Hl).
  destruct (literal_pure names _ _ Hka) as [o Ho]. destruct (IH _ Hl) as [o' Ho'].
  cbn [evaluate_keywords]. destruct o as [v|e].
  - destruct o' as [vs|e']; eexists; intros r n; unfold mbind, M_bind in *; by rewrite Ho, Ho'.
  - eexists. intros r n. unfold mbind, M_bind. by rewrite Ho.
Qed.

Lemma get_attribute_pure v attr (r : mission_run.t RecorderDrone.t) n :
  wp (get_attribute v attr) (fun o r' _ => r' = r /\ match o with Ret u => method_or_plain attr u | _ => True end) r n.
Proof.
  assert (forall o : outcome plain, wp (lift (Plain <$> o))
    (fun o r' _ => r' = r /\ match o with Ret u => method_or_plain attr u | _ => True end) r n) as Hplain.
  { intros [p|e]; apply wp_lift; split; try done. right. by eexists. }
  destruct v; cbn [get_attribute]; try apply Hplain.
  - destruct p as [[]|]; try apply Hplain. apply wp_lift. split; [done|].
    destruct (dict_get attr fields); simpl; [|done]. right. by eexists.
  - case_bool_decide; [apply wp_ret; split; [done|by left]|]. apply wp_bind, wp_get, Hplain.
Qed.

(** A direct step that takes off or lands either raises and changes nothing, or is
    recorded. *)
Lemma edge_step_runs names actions s step r n :
  _parse_direct_step actions s = Ret step -> is_edge (ScriptStep.action step) = true ->
  wp (execute names time s) (fun o r' _ =>
    (exists e, o = Raise e)
    \/ (o = Ret Next /\ recorded_actions (mission_run.drone r')
          = recorded_actions (mission_run.drone r) ++ [ScriptStep.action step]
        /\ mission_run.locals r' = mission_run.locals r)) r n.
Proof.
  unfold _parse_direct_step. destruct s; try done. destruct s; try done. destruct s; try done.
  destruct s; try done. destruct s; try done. destruct (negb (String.eqb id "drone")); [done|].
  destruct (negb (attr ∈? actions)); [done|]. cbn [orb]. case_bool_decide as Ea; [|done]. subst args. cbn [negb].
  unfold call_step, call_arguments, _literal_keywords. cbn [call_keywords].
  intros (arguments & (raw & Hk & _)%bind_Ret & [_ <-]%checked_Ret)%bind_Ret Hedge. cbn [ScriptStep.action] in *.
  destruct (keywords_pure names _ _ _ Hk) as [o Ho].
  cbn [execute evaluate evaluate_all]. apply wp_bind, wp_bind, wp_bind, wp_bind.
  assert (forall e (r' : mission_run.t RecorderDrone.t), (exists e', (Raise e : outcome flow) = Raise e')
    \/ (Raise e = Ret Next /\ recorded_actions (mission_run.drone r') = recorded_actions (mission_run.drone r) ++ [attr]
      /\ mission_run.locals r' = mission_run.locals r)) as Hraise
    by (left; eauto).
  (* the drone, or whatever the name is bound to *)
  eapply wp_mono with (Q := fun _ r' _ => r' = r).
  { unfold lookup_name. case_bool_decide; [apply wp_bind, wp_get|]; by apply wp_lift. }
  intros [v|e] r' n' ->; [|apply Hraise].
  eapply wp_mono with (Q := fun o r' _ => r' = r /\ match o with Ret u => method_or_plain attr u | _ => True end).
  { apply get_attribute_pure. }
  intros [u|e] r' n'' [-> Hu]; [|apply Hraise]. apply wp_bind, wp_ret. apply wp_bind.
  unfold wp. rewrite Ho. cbn [fst snd]. destruct o as [vs|e]; [|apply Hraise].
  destruct Hu as [->|[p ->]]; [|apply Hraise]. unfold is_edge in Hedge.
  unfold recorded_actions.
  destruct (String.eqb attr "takeoff") eqn:Et; [apply String.eqb_eq in Et as ->|apply String.eqb_eq in Hedge as ->].
  - right. split_and!; [done|exact (map_app fst (RecorderDrone.steps (mission_run.drone r)) [("takeoff", vs)])|done].
  - right. split_and!; [done|exact (map_app fst (RecorderDrone.steps (mission_run.drone r)) [("land", vs)])|done].
Qed.

Lemma never_block names l :
  forallb (all_nodes (node_fine names)) l = true -> block_weight (fun _ => false) l = 0.
Proof.
  intros Hl. assert (forall n, weight (fun _ => false) n = 0) as Hw.
  { intros n. rewrite <-sum_walk. induction (walk n) as [|m k IH]; [done|]. cbn [map sum_Z foldr]. unfold sum_Z in IH.
    rewrite IH. unfold own_weight. by destruct (drone_call m). }
  unfold block_weight. induction l as [|s l IH]; [done|]. cbn [map sum_Z foldr forallb] in *.
  apply andb_prop in Hl as [Hs Hl]. unfold sum_Z in IH. rewrite (IH Hl), weight_zero_statement; [done| |done].
  revert Hs. apply all_nodes_weaken. unfold node_fine. by intros m [[[_ ?]%andb_prop _]%andb_prop _]%andb_prop.
Qed.

Lemma recorded_block names l prefix previous (r : mission_run.t RecorderDrone.t) n :
  "range" ∉ names -> (65 < time)%nat -> forallb (all_nodes (node_fine names)) l = true ->
  initialised previous l = true -> tame_locals (mission_run.locals r) ->
  (forall s, previous = Some s -> established s r) ->
  Forall (fun s => statement_weight is_edge s = 0) l ->
  prefix = recorded_actions (mission_run.drone r) ->
  wp (run_block (execute names time) l) (fun o r' _ =>
    exists added, recorded_actions (mission_run.drone r') = prefix ++ added
      /\ Forall (fun a => is_edge a = false) added /\ tame_locals (mission_run.locals r')) r n.
Proof.
  intros Hr Ht Hl Hi Htame Hp Hz ->.
  pose proof (fine_block is_edge edges names time Hr Ht l Hl previous r n Hi Htame Hp) as H1.
  pose proof (fine_block (fun _ => false) (departs_from (recorded_actions (mission_run.drone r))) names time Hr Ht l Hl
    previous r n Hi Htame Hp) as H2.
  eapply wp_mono; [apply (wp_and _ _ _ _ _ H1 H2)|]. clear H1 H2. intros o r' n' [(Hu & Htm & _) (Hd & _)].
  assert (block_weight is_edge l = 0) as Hw.
  { unfold block_weight. clear -Hz. induction Hz as [|s l Hs _ IH]; [done|]. cbn [map sum_Z foldr]. unfold sum_Z in IH. lia. }
  assert (block_weight (fun _ => false) l = 0) as Hw'.
  { by eapply never_block. }
  rewrite Hw in Hu. rewrite Hw' in Hd. unfold departs_from in Hd.
  rewrite (bool_decide_eq_true_2 (recorded_actions (mission_run.drone r) `prefix_of` recorded_actions (mission_run.drone r))) in Hd by done.
  case_bool_decide as Hpre; [|lia]. destruct Hpre as [added Ha].
  exists added. split_and!; [done| |done]. unfold edges in Hu. rewrite Ha, count_if_app in Hu.
  apply Forall_forall. intros a Hin. destruct (is_edge a) eqn:E; [|done]. exfalso.
  assert (1 <= count_if is_edge added); [|lia]. clear -Hin E.
  apply list_elem_of_split in Hin as (l1 & l2 & ->). rewrite count_if_app, count_if_cons, E. cbn [b2z].
  pose proof (count_if_nonneg is_edge l1). pose proof (count_if_nonneg is_edge l2). lia.
Qed.

(** Commands from a takeoff to a landing, with neither in between *)
Definition one_flight (actions : list string) : Prop :=
  exists middle, actions = "takeoff" :: middle ++ ["land"]
    /\ Forall (fun a => a <> "takeoff" /\ a <> "land") middle.

(** C27: a mission that the service accepts and that keeps to the discipline, run to
    its end by the recording worker, takes off as its first command, lands as its
    last, and does neither in between. *)
Theorem recorded_mission_flies_once filename name source record f role n :
  parse_python_mission filename name source = Ret record ->
  mission_of (path_name filename) source = Ret f ->
  ast_parse "<mission-artifact>" source = ast_parse (path_name filename) source ->
  disciplined f = true -> (65 < time)%nat ->
  wp (_entrypoint time source) (fun o d _ => o = Ret Next -> one_flight (recorded_actions d))
    (RecorderDrone.mk role []) n.
Proof.
  intros Hp Hm Ha Hd Ht.
  destruct (parse_inversion _ _ _ _ Hp) as (tree & f' & package & plan & Htree & Hf & Hpk & Hplan & _).
  unfold mission_of in Hm. rewrite Htree in Hm. cbn [mbind outcome_bind] in Hm. rewrite Hf in Hm. injection Hm as ->.
  unfold _entrypoint. rewrite Ha. unfold parse_tree in Htree.
  destruct (ast_parse (path_name filename) source) as [tree'| |]; [|done|done]. injection Htree as ->. rewrite Hf, Hpk.
  destruct (plain_signature f); [|by apply wp_raise].
  pose proof (accepted_fine _ _ _ Hplan (mission_function_child _ _ Hf) Hd) as Hfine.
  destruct (static_plan_flies_once _ _ _ Hplan) as (first & middle & final & s1 & s2 & Eb & H1 & E1 & H2 & E2 & Hz).
  unfold disciplined in Hd. apply andb_prop in Hd as [[Hi _]%andb_prop Hr]. apply negb_true_iff, bool_decide_eq_false in Hr.
  rewrite Eb in Hi, Hfine. cbn [forallb] in Hfine. rewrite forallb_app in Hfine.
  apply andb_prop in Hfine as [_ [Hfm _]%andb_prop]. cbn [initialised] in Hi. apply andb_prop in Hi as [_ Hi].
  apply initialised_app in Hi.
  set (r := mission_run.mk _ [("drone", DroneObject)] (RecorderDrone.mk role [])).
  assert (forall P : list string -> Prop,
    wp (run_block (execute (local_names f) time) (function_body f))
      (fun o r' _ => o = Ret Next -> P (recorded_actions (mission_run.drone r'))) r n ->
    wp (run_function time f) (fun o d _ => o = Ret Next -> P (recorded_actions d)) (RecorderDrone.mk role []) n) as Hrun.
  { intros P. unfold wp, run_function. fold r. by destruct (run_block _ _ r n) as [[o r'] n']. }
  apply (Hrun one_flight). rewrite Eb. cbn [run_block]. apply wp_bind. eapply wp_mono.
  { eapply edge_step_runs; [exact H1|by rewrite E1]. }
  intros o r1 n1 [[e ->]|(-> & Hr1 & El1)]; [done|]. rewrite E1 in Hr1. unfold wp. rewrite run_block_app.
  change (wp (fl ← run_block (execute (local_names f) time) middle;
              match fl with Next => run_block (execute (local_names f) time) [final] | _ => mret fl end)
    (fun o r' _ => o = Ret Next -> one_flight (recorded_actions (mission_run.drone r'))) r1 n1).
  apply wp_bind. eapply wp_mono.
  { apply (recorded_block (local_names f) middle (recorded_actions (mission_run.drone r1)) (Some first) r1 n1 Hr Ht Hfm Hi); [|intros s [= <-]; by destruct first|done|done].
    rewrite El1. by repeat constructor. }
  intros [fl|e] r2 n2 (added & Hr2 & Hadded & _); [|done]. rewrite Hr1 in Hr2. destruct fl; try by apply wp_ret.
  cbn [run_block]. apply wp_bind. eapply wp_mono.
  { eapply edge_step_runs; [exact H2|by rewrite E2]. }
  intros o r3 n3 [[e ->]|(-> & Hr3 & _)]; [done|]. apply wp_ret. intros _. exists added.
  rewrite Hr3, Hr2, E2. split; [done|]. eapply Forall_impl; [exact Hadded|]. intros a. unfold is_edge.
  intros [?%String.eqb_neq ?%String.eqb_neq]%orb_false_elim. done.
Qed.
End recorded_lifecycle.

(** ** Concrete missions *)
Module Examples.

#[local] Existing Instance example_text.
#[local] Existing Instance commands_metered.
#[local] Existing Instance observations_metered.

(** A file service that holds one tree *)
Definition files_of (tree : ast.node) : MissionFiles := {|
  ast_parse _ _ := Tree tree;
  sha256_text _ := "0000000000000000000000000000000000000000000000000000000000000000";
  literal_eval _ := Raise (ValueError "malformed node");
  sorted_items l := Ret l;
  literal_role _ := None;
  literal_package _ _ := None;
|}.

#[local] Instance values : PythonValues := {|
  op_compare _ _ _ := None;
  op_binary _ _ _ := None;
  op_negative _ := None;
  op_attribute _ _ := None;
  op_truth _ := true;
  op_global _ := None;
  op_describe e := match e with OtherError name => name | _ => "" end;
|}.

(** A parent that grants everything *)
#[local] Instance parent : MissionParent := fun id _ _ =>
  Response (JObj [("id", JInt id); ("ok", JBool true); ("result", JObj [("valid", JBool true)])]).

(** [await drone.action(...)], for the position of the call *)
Definition awaited (line : Z) (action : string) (keywords : list (string * ast.constant)) : ast.node :=
  ast.Await (ast.Call line 10 (ast.Attribute (ast.Name "drone") action) []
    (map (fun kv => ast.keyword (Some (fst kv)) (ast.Constant (snd kv))) keywords)).

Definition seconds (n : Z) : list (string * ast.constant) := [("duration_s", ast.Float (float_of_Z n))].
Definition takeoff (line : Z) : ast.node :=
  ast.Expr (awaited line "takeoff" [("height_m", ast.Float (flit 1 2)); ("duration_s", ast.Float (float_of_Z 2))]).
Definition land (line : Z) : ast.node := ast.Expr (awaited line "land" (seconds 2)).
Definition hover (line : Z) : ast.node := ast.Expr (awaited line "hover" (seconds 1)).
Definition int (n : Z) : ast.node := ast.Constant (ast.Int n).
Definition assign (x : string) (e : ast.node) : ast.node := ast.Assign [ast.Name x] e.
Definition less (e e' : ast.node) : ast.node := ast.Compare e [ast.Lt] [e'].
Definition increment (x : string) : ast.node := assign x (ast.BinOp (ast.Name x) ast.Add (int 1)).
Definition for_range (x : string) (n : Z) (body : list ast.node) : ast.node :=
  ast.For (ast.Name x) (ast.Call 0 0 (ast.Name "range") [int n] []) body [].

Definition mission (body : list ast.node) : ast.node :=
  ast.AsyncFunctionDef "mission" (ast.arguments [] [ast.arg "drone" []] [] [] [] [] []) body [] [] [].
Definition file (body : list ast.node) : ast.node := ast.Module_ [mission body].

(** What the service makes of a body, and its online run with the budgets of its record *)
Definition accept (body : list ast.node) : outcome MissionFileRecord.t :=
  @parse_python_mission example_text (files_of (file body)) "patrol.py" "Patrol" "...".

Definition budgets (body : list ast.node) : option (Z * Z) :=
  match accept body with
  | Ret r => Some (MissionFileRecord.planned_command_budget r, MissionFileRecord.planned_observation_budget r)
  | Raise _ => None
  end.

Definition online (time : nat) (body : list ast.node) : option (outcome flow * Z * Z) :=
  match budgets body with
  | Some (c, o) =>
      match @_entrypoint example_text (files_of (file body)) values time _ _ "..."
              (ProtocolDrone.mk "primary" c o 0 0 0) 0%nat with
      | (result, d, _) => Some (result, ProtocolDrone.commands d, ProtocolDrone.observations d)
      end
  | None => None
  end.

(** Three rounds of an observation and a hover *)
Definition patrol : list ast.node :=
  [takeoff 1; assign "i" (int 0);
   ast.While (less (ast.Name "i") (int 3))
     [assign "seen" (awaited 4 "observe" []);
      ast.If (ast.Attribute (ast.Name "seen") "valid") [hover 6] [];
      increment "i"] [];
   land 8].

Example patrol_runs : online 66 patrol = Some (Ret Next, 5, 3) /\ budgets patrol = Some (5, 3).
Proof. vm_compute. done. Qed.

Lemma run_keeps_its_budgets_witness :
  exists record, accept patrol = Ret record
  /\ wp (@_entrypoint example_text (files_of (file patrol)) values 66 _ _ "...")
       (fun o d _ => ProtocolDrone.commands d <= 5 /\ ProtocolDrone.observations d <= 3 /\ is_out_of_time o = false)
       (ProtocolDrone.mk "primary" 5 3 0 0 0) 0%nat.
Proof.
  destruct (accept patrol) as [record|] eqn:E; [|exfalso; revert E; by vm_compute].
  exists record. split; [done|].
  assert (budgets patrol = Some (5, 3)) as Hb by (vm_compute; reflexivity).
  unfold budgets in Hb. rewrite E in Hb. injection Hb as Hc Ho. unfold accept in E.
  pose proof (@run_keeps_its_budgets example_text (files_of (file patrol)) values parent
    "patrol.py" "Patrol" "..." record (mission patrol) 66 "primary" 0%nat E
    ltac:(vm_compute; reflexivity) ltac:(reflexivity) ltac:(vm_compute; reflexivity) ltac:(lia)) as H.
  cbv zeta in H. rewrite Hc, Ho in H. eapply wp_mono; [exact H|]. intros o d n (H1 & H2 & H3).
  split_and!; [done|apply H2; vm_compute; reflexivity|done].
Defined.

(** A linear mission with an integer and a negative argument *)
Definition line : list ast.node :=
  [takeoff 1;
   ast.Expr (ast.Await (ast.Call 2 10 (ast.Attribute (ast.Name "drone") "move_relative") []
     [ast.keyword (Some "x_m") (ast.UnaryOp ast.USub (ast.Constant (ast.Float (flit 1 2))));
      ast.keyword (Some "duration_s") (int 2)]));
   hover 3; land 4].

#[local] Instance lax_numbers : @LaxNumbers example_text.
Proof. split; [done|]. by intros n. Qed.

Lemma linear_preview_is_its_steps_witness :
  exists record, accept line = Ret record /\ length (MissionFileRecord.steps record) = 4%nat
  /\ @preview_isolated_mission_role example_text
       (@isolated_worker example_text (files_of (file line)) values parent 0) record "scout"
     = Ret (MissionFileRecord.steps record).
Proof.
  destruct (accept line) as [record|] eqn:E; [|exfalso; revert E; by vm_compute].
  exists record. split; [done|].
  assert (match accept line with
          | Ret r => bool_decide (MissionFileRecord.tier r = MissionTier.LINEAR)
                     && bool_decide (length (MissionFileRecord.steps r) = 4%nat)
                     && (dumped_length (start_request r "record" "scout") <=? START_REQUEST_BYTES)
          | Raise _ => false
          end = true) as Ht by (vm_compute; reflexivity).
  rewrite E in Ht. apply andb_prop in Ht as [Ht Hfits%Z.leb_le].
  apply andb_prop in Ht as [Ht%bool_decide_eq_true Hl%bool_decide_eq_true]. split; [done|].
  unfold accept in E.
  apply (@linear_preview_is_its_steps example_text lax_numbers (files_of (file line)) values parent 0
    "patrol.py" "Patrol" "..." record (mission line) "scout" E Ht);
    [vm_compute; reflexivity|reflexivity|vm_compute; reflexivity|vm_compute; reflexivity|exact Hfits].
Defined.

(** A source of fifty thousand control characters, which the service accepts: each is one
    byte of the source and six of the start request. *)
Definition controls : string := String.concat "" (replicate 50000 (String (Ascii.ascii_of_nat 1) "")).

Example long_request_is_refused :
  match @parse_python_mission example_text (files_of (file line)) "patrol.py" "Patrol" controls with
  | Ret record =>
      match @isolated_worker example_text (files_of (file line)) values parent 0 record "scout" with
      | Exited 1 _ _ => true
      | _ => false
      end
  | Raise _ => false
  end = true.
Proof. vm_compute. reflexivity. Qed.


(** Two laps of a hover and a wait *)
Definition laps : list ast.node :=
  [takeoff 1; assign "lap" (int 0);
   ast.While (less (ast.Name "lap") (int 2))
     [hover 4; ast.Expr (awaited 5 "wait" (seconds 1)); ast.Expr (awaited 6 "checkpoint" []); increment "lap"] [];
   land 8].

Definition recorded (time : nat) (body : list ast.node) : outcome flow * RecorderDrone.t * nat :=
  @_entrypoint example_text (files_of (file body)) values time _ _ "..." (RecorderDrone.mk "primary" []) 0%nat.

Example laps_recorded :
  recorded_actions (recorded 66 laps).1.2 = ["takeoff"; "hover"; "hover"; "hover"; "hover"; "land"].
Proof. vm_compute. reflexivity. Qed.

Lemma recorded_mission_flies_once_witness :
  is_ret (accept laps) = true /\ one_flight (recorded_actions (recorded 66 laps).1.2).
Proof.
  split; [vm_compute; reflexivity|].
  destruct (accept laps) as [record|] eqn:E; [|exfalso; revert E; by vm_compute]. unfold accept in E.
  apply (@recorded_mission_flies_once example_text (files_of (file laps)) values 66
    "patrol.py" "Patrol" "..." record (mission laps) "primary" 0%nat E);
    [vm_compute; reflexivity|reflexivity|vm_compute; reflexivity|lia|vm_compute; reflexivity].
Defined.

(** *** Missions outside the discipline that the service accepts *)

(** A branch with fewer commands and more observations *)
Definition unbalanced : list ast.node :=
  [takeoff 1;
   ast.If (less (int 0) (int 0)) [hover 3]
     [ast.Expr (awaited 5 "observe" []); ast.Expr (awaited 6 "observe" [])];
   land 7].

Example unbalanced_exceeds_its_observations :
  budgets unbalanced = Some (3, 0)
  /\ online 66 unbalanced = Some (Raise (RuntimeError "mission observation budget exceeded"), 1, 1)
  /\ disciplined (mission unbalanced) = true.
Proof. vm_compute. done. Qed.

(** A command in a test *)
Definition command_in_test : list ast.node :=
  [takeoff 1;
   ast.If (ast.Compare (awaited 2 "hover" (seconds 1)) [ast.Is] [ast.Constant ast.None_]) [ast.Pass] [];
   land 4].

Example command_in_test_is_not_counted :
  budgets command_in_test = Some (2, 0)
  /\ online 66 command_in_test = Some (Raise (RuntimeError "mission command budget exceeded"), 3, 0).
Proof. vm_compute. done. Qed.

(** A loop variable that is the counter of the loop around it *)
Definition endless : list ast.node :=
  [takeoff 1; assign "i" (int 0);
   ast.While (less (ast.Name "i") (int 2)) [for_range "i" 1 [ast.Pass]; increment "i"] [];
   land 6].

Example endless_is_accepted : budgets endless = Some (2, 0) /\ online 500 endless = Some (Ret OutOfTime, 1, 0).
Proof. vm_compute. done. Qed.

(** A counter whose constant the validator takes from a branch that is not taken *)
Definition other_branch : list ast.node :=
  [takeoff 1; assign "i" (ast.UnaryOp ast.USub (int 3));
   ast.If (less (int 0) (int 0)) [assign "i" (int 0)] [];
   ast.While (less (ast.Name "i") (int 3)) [hover 5; increment "i"] [];
   land 7].

Example other_branch_exceeds_its_commands :
  budgets other_branch = Some (5, 0)
  /\ online 66 other_branch = Some (Raise (RuntimeError "mission command budget exceeded"), 6, 0).
Proof. vm_compute. done. Qed.

(** A method of the drone under the name [range] *)
Definition renamed : list ast.node :=
  [takeoff 1; assign "range" (ast.Attribute (ast.Name "drone") "observe");
   ast.Expr (ast.Await (ast.Call 3 10 (ast.Name "range") [] []));
   land 4].

Example renamed_is_not_counted :
  budgets renamed = Some (2, 0)
  /\ online 66 renamed = Some (Raise (RuntimeError "mission observation budget exceeded"), 1, 1).
Proof. vm_compute. done. Qed.

(** A sign on a text: its validation drops it, and the run has no such operation. *)
Definition negative_text : list ast.node :=
  [takeoff 1;
   ast.Expr (ast.Await (ast.Call 2 10 (ast.Attribute (ast.Name "drone") "observe") []
     [ast.keyword (Some "required") (ast.UnaryOp ast.USub (ast.Constant (ast.Str "position")))]));
   land 3].

Example negative_text_is_accepted :
  budgets negative_text = Some (2, 1) /\ online 66 negative_text = Some (Raise OperationError, 1, 0).
Proof. vm_compute. done. Qed.

(** An integer beyond the range of floats: not a [CrazySwarmError] *)
Definition huge : list ast.node :=
  [takeoff 1; ast.Expr (ast.Await (ast.Call 2 10 (ast.Attribute (ast.Name "drone") "hover") []
     [ast.keyword (Some "duration_s") (int (10 ^ 400))])); land 3].

Example huge_literal_escapes : accept huge = Raise OverflowError.
Proof. vm_compute. done. Qed.
End Examples.
