(* ===== verification/Deconfliction.v ===== *)
(** * Deconfliction of two crossing roles ([planning/deconfliction.py])

    The prediction of the separation of two accepted programs, the five ways to
    resolve a predicted conflict, and the plan that selects the first of them that
    is feasible. *)

From S2P Require Import Prelude Float64 Effects Contracts Artifacts Trajectory Safety.
From S2P Require Import PlanContracts Routes.

(** Pairs, and dictionaries with the keys sorted, as documents *)
Definition pair_json {A} (f : A -> json) (p : A * A) : json := JList [f p.1; f p.2].

Definition dict_json {A} (f : A -> json) (d : dict A) : json :=
  JObj (py_sorted (fun a b => str_ltb a.1 b.1) ((fun item => (item.1, f item.2)) <$> d)).

(** [s[:n]] *)
Definition str_take (n : nat) (s : string) : string := String.substring 0 n s.

(** ** Contracts *)

Module ConflictResolutionStrategy.
Inductive t := STAGING_HOLD | SPEED_RETIMING | HORIZONTAL_DETOUR | VERTICAL_SEPARATION | COMBINED_RETIMING_VERTICAL.
End ConflictResolutionStrategy.
#[export] Instance ConflictResolutionStrategy_eq_dec : EqDecision ConflictResolutionStrategy.t.
Proof. solve_decision. Defined.
Definition ConflictResolutionStrategy_value (v : ConflictResolutionStrategy.t) : string :=
  match v with
  | ConflictResolutionStrategy.STAGING_HOLD => "STAGING_HOLD"
  | ConflictResolutionStrategy.SPEED_RETIMING => "SPEED_RETIMING"
  | ConflictResolutionStrategy.HORIZONTAL_DETOUR => "HORIZONTAL_DETOUR"
  | ConflictResolutionStrategy.VERTICAL_SEPARATION => "VERTICAL_SEPARATION"
  | ConflictResolutionStrategy.COMBINED_RETIMING_VERTICAL => "COMBINED_RETIMING_VERTICAL"
  end.

Definition strategy_json (s : ConflictResolutionStrategy.t) : json :=
  JStr (ConflictResolutionStrategy_value s).

Module DeconflictionStatus.
Inductive t := NOT_REQUIRED | RESOLVED | BLOCKED.
End DeconflictionStatus.
#[export] Instance DeconflictionStatus_eq_dec : EqDecision DeconflictionStatus.t.
Proof. solve_decision. Defined.
Definition DeconflictionStatus_value (v : DeconflictionStatus.t) : string :=
  match v with
  | DeconflictionStatus.NOT_REQUIRED => "NOT_REQUIRED"
  | DeconflictionStatus.RESOLVED => "RESOLVED"
  | DeconflictionStatus.BLOCKED => "BLOCKED"
  end.

Definition deconfliction_status_json (s : DeconflictionStatus.t) : json :=
  JStr (DeconflictionStatus_value s).

Module TrajectoryTubeReservation.
Record t := mk {
  reservation_id : string;
  role_id : string;
  starts_at_s : float;
  ends_at_s : float;
  minimum_m : Vector3;
  maximum_m : Vector3;
  uncertainty_radius_m : float;
}.
End TrajectoryTubeReservation.

Definition TrajectoryTubeReservation_valid (r : TrajectoryTubeReservation.t) : bool :=
  is_identifier (TrajectoryTubeReservation.reservation_id r)
  && is_identifier (TrajectoryTubeReservation.role_id r)
  && ge0 (TrajectoryTubeReservation.starts_at_s r)
  && gt0 (TrajectoryTubeReservation.ends_at_s r)
  && ge0 (TrajectoryTubeReservation.uncertainty_radius_m r)
  && negb (fleb (TrajectoryTubeReservation.ends_at_s r) (TrajectoryTubeReservation.starts_at_s r))
  && fleb (v_x (TrajectoryTubeReservation.minimum_m r)) (v_x (TrajectoryTubeReservation.maximum_m r)) && fleb (v_y (TrajectoryTubeReservation.minimum_m r)) (v_y (TrajectoryTubeReservation.maximum_m r)) && fleb (v_z (TrajectoryTubeReservation.minimum_m r)) (v_z (TrajectoryTubeReservation.maximum_m r)).

Definition TrajectoryTubeReservation_dump (r : TrajectoryTubeReservation.t) : json := JObj [
  ("reservation_id", JStr (TrajectoryTubeReservation.reservation_id r));
  ("role_id", JStr (TrajectoryTubeReservation.role_id r));
  ("starts_at_s", JFloat (TrajectoryTubeReservation.starts_at_s r));
  ("ends_at_s", JFloat (TrajectoryTubeReservation.ends_at_s r));
  ("minimum_m", vector_json (TrajectoryTubeReservation.minimum_m r));
  ("maximum_m", vector_json (TrajectoryTubeReservation.maximum_m r));
  ("uncertainty_radius_m", JFloat (TrajectoryTubeReservation.uncertainty_radius_m r))].

Module PredictedConflict.
Record t := mk {
  conflict_id : string;
  role_ids : string * string;
  starts_at_s : float;
  ends_at_s : float;
  closest_approach_s : float;
  predicted_minimum_separation_m : float;
  required_separation_m : float;
  warning_separation_m : float;
  uncertainty_margin_m : float;
  tubes : TrajectoryTubeReservation.t * TrajectoryTubeReservation.t;
}.
End PredictedConflict.

Definition PredictedConflict_valid (r : PredictedConflict.t) : bool :=
  is_identifier (PredictedConflict.conflict_id r)
  && is_identifier (fst (PredictedConflict.role_ids r))
  && is_identifier (snd (PredictedConflict.role_ids r))
  && ge0 (PredictedConflict.starts_at_s r)
  && gt0 (PredictedConflict.ends_at_s r)
  && ge0 (PredictedConflict.closest_approach_s r)
  && ge0 (PredictedConflict.predicted_minimum_separation_m r)
  && gt0 (PredictedConflict.required_separation_m r)
  && gt0 (PredictedConflict.warning_separation_m r)
  && ge0 (PredictedConflict.uncertainty_margin_m r).

Definition PredictedConflict_dump (r : PredictedConflict.t) : json := JObj [
  ("conflict_id", JStr (PredictedConflict.conflict_id r));
  ("role_ids", (pair_json JStr) (PredictedConflict.role_ids r));
  ("starts_at_s", JFloat (PredictedConflict.starts_at_s r));
  ("ends_at_s", JFloat (PredictedConflict.ends_at_s r));
  ("closest_approach_s", JFloat (PredictedConflict.closest_approach_s r));
  ("predicted_minimum_separation_m", JFloat (PredictedConflict.predicted_minimum_separation_m r));
  ("required_separation_m", JFloat (PredictedConflict.required_separation_m r));
  ("warning_separation_m", JFloat (PredictedConflict.warning_separation_m r));
  ("uncertainty_margin_m", JFloat (PredictedConflict.uncertainty_margin_m r));
  ("tubes", (pair_json TrajectoryTubeReservation_dump) (PredictedConflict.tubes r))].

Module ResolutionCandidate.
Record t := mk {
  strategy : ConflictResolutionStrategy.t;
  feasible : bool;
  precedence_role_id : option string;
  held_role_id : option string;
  staging_point_m : option Vector3;
  planned_hold_s : float;
  retiming_factor : option float;
  horizontal_detour_m : option float;
  vertical_offset_m : option float;
  predicted_minimum_separation_m : option float;
  added_duration_s : float;
  added_path_length_m : float;
  execution_program_sha256 : option string;
  reason : string;
}.
End ResolutionCandidate.

Definition ResolutionCandidate_valid (r : ResolutionCandidate.t) : bool :=
  opt_ok is_identifier (ResolutionCandidate.precedence_role_id r)
  && opt_ok is_identifier (ResolutionCandidate.held_role_id r)
  && ge0 (ResolutionCandidate.planned_hold_s r)
  && opt_ok (fun x => fleb f1 x) (ResolutionCandidate.retiming_factor r)
  && opt_ok ge0 (ResolutionCandidate.predicted_minimum_separation_m r)
  && ge0 (ResolutionCandidate.added_duration_s r)
  && ge0 (ResolutionCandidate.added_path_length_m r)
  && opt_ok is_sha256 (ResolutionCandidate.execution_program_sha256 r).

Definition ResolutionCandidate_dump (r : ResolutionCandidate.t) : json := JObj [
  ("strategy", strategy_json (ResolutionCandidate.strategy r));
  ("feasible", JBool (ResolutionCandidate.feasible r));
  ("precedence_role_id", (json_opt JStr) (ResolutionCandidate.precedence_role_id r));
  ("held_role_id", (json_opt JStr) (ResolutionCandidate.held_role_id r));
  ("staging_point_m", (json_opt vector_json) (ResolutionCandidate.staging_point_m r));
  ("planned_hold_s", JFloat (ResolutionCandidate.planned_hold_s r));
  ("retiming_factor", (json_opt JFloat) (ResolutionCandidate.retiming_factor r));
  ("horizontal_detour_m", (json_opt JFloat) (ResolutionCandidate.horizontal_detour_m r));
  ("vertical_offset_m", (json_opt JFloat) (ResolutionCandidate.vertical_offset_m r));
  ("predicted_minimum_separation_m", (json_opt JFloat) (ResolutionCandidate.predicted_minimum_separation_m r));
  ("added_duration_s", JFloat (ResolutionCandidate.added_duration_s r));
  ("added_path_length_m", JFloat (ResolutionCandidate.added_path_length_m r));
  ("execution_program_sha256", (json_opt JStr) (ResolutionCandidate.execution_program_sha256 r));
  ("reason", JStr (ResolutionCandidate.reason r))].

Module FleetDeconflictionPlan.
Record t := mk {
  deconfliction_id : string;
  status : DeconflictionStatus.t;
  conflict : option PredictedConflict.t;
  candidates : list ResolutionCandidate.t;
  selected_strategy : option ConflictResolutionStrategy.t;
  selected_candidate_index : option Z;
  selected_program_sha256s : list string;
  plan_sha256 : string;
}.
End FleetDeconflictionPlan.

Definition FleetDeconflictionPlan_valid (r : FleetDeconflictionPlan.t) : bool :=
  is_identifier (FleetDeconflictionPlan.deconfliction_id r)
  && opt_ok (fun x => (0 <=? x)) (FleetDeconflictionPlan.selected_candidate_index r)
  && forallb is_sha256 (FleetDeconflictionPlan.selected_program_sha256s r)
  && is_sha256 (FleetDeconflictionPlan.plan_sha256 r).

Definition FleetDeconflictionPlan_dump (r : FleetDeconflictionPlan.t) : json := JObj [
  ("schema_version", JInt 1);
  ("deconfliction_id", JStr (FleetDeconflictionPlan.deconfliction_id r));
  ("status", deconfliction_status_json (FleetDeconflictionPlan.status r));
  ("conflict", (json_opt PredictedConflict_dump) (FleetDeconflictionPlan.conflict r));
  ("candidates", (json_list ResolutionCandidate_dump) (FleetDeconflictionPlan.candidates r));
  ("selected_strategy", (json_opt strategy_json) (FleetDeconflictionPlan.selected_strategy r));
  ("selected_candidate_index", (json_opt JInt) (FleetDeconflictionPlan.selected_candidate_index r));
  ("selected_program_sha256s", (json_list JStr) (FleetDeconflictionPlan.selected_program_sha256s r));
  ("deterministic_tie_break", JStr "FEASIBLE_THEN_DECLARED_ORDER_THEN_COST_THEN_ROLE_ID");
  ("plan_sha256", JStr (FleetDeconflictionPlan.plan_sha256 r))].

(** [canonical_payload], without its own digest *)
Definition FleetDeconflictionPlan_json (r : FleetDeconflictionPlan.t) : json := JObj [
  ("schema_version", JInt 1);
  ("deconfliction_id", JStr (FleetDeconflictionPlan.deconfliction_id r));
  ("status", deconfliction_status_json (FleetDeconflictionPlan.status r));
  ("conflict", (json_opt PredictedConflict_dump) (FleetDeconflictionPlan.conflict r));
  ("candidates", (json_list ResolutionCandidate_dump) (FleetDeconflictionPlan.candidates r));
  ("selected_strategy", (json_opt strategy_json) (FleetDeconflictionPlan.selected_strategy r));
  ("selected_candidate_index", (json_opt JInt) (FleetDeconflictionPlan.selected_candidate_index r));
  ("selected_program_sha256s", (json_list JStr) (FleetDeconflictionPlan.selected_program_sha256s r));
  ("deterministic_tie_break", JStr "FEASIBLE_THEN_DECLARED_ORDER_THEN_COST_THEN_ROLE_ID")].

(** ** Constants *)

Definition PREDICTION_STEP_S : float := flit 2 100.
Definition DEFAULT_POSITION_UNCERTAINTY_M : float := flit 5 100.
Definition STAGING_RELEASE_BUFFER_S : float := flit 25 100.

(** [math.pi] *)
Definition math_pi : float := S754_finite false 7074237752028440 (-51).

(** ** Trajectory operations *)

Module TrajectoryView.
Record t := mk {
  starts_at_s : float;
  ends_at_s : float;
  trajectory : TimeParameterizedTrajectory.t;
}.
End TrajectoryView.

Definition view_trajectory (o : ExecutionOperation.t) : option TrajectoryView.t :=
  match o with
  | ExecutionOperation.Trajectory _ starts ends _ t => Some (TrajectoryView.mk starts ends t)
  | _ => None
  end.

(** The trajectory operations of a program *)
Definition _trajectory_operations (program : AcceptedExecutionProgram.t) : list TrajectoryView.t :=
  omap view_trajectory (AcceptedExecutionProgram.operations program).

(** [_trajectory_operations(program)[0]] *)
Definition first_trajectory (program : AcceptedExecutionProgram.t) : outcome TrajectoryView.t :=
  first_or IndexError (_trajectory_operations program).

(** [trajectory.points[0].position_m] and [points[-1].position_m] *)
Definition first_position (t : TimeParameterizedTrajectory.t) : outcome Vector3 :=
  TrajectoryPoint.position_m <$> first_or IndexError (TimeParameterizedTrajectory.points t).
Definition last_position (t : TimeParameterizedTrajectory.t) : outcome Vector3 :=
  TrajectoryPoint.position_m <$> some_or IndexError (last (TimeParameterizedTrajectory.points t)).

(** The sample times of [range(count + 1)] over a duration *)
Definition sample_at (duration_s : float) (count index : Z) : float :=
  py_fmin duration_s (fdiv_ieee (fmul (float_of_Z index) duration_s) (float_of_Z count)).

Definition sample_count (duration_s : float) : outcome Z :=
  Z.max 1 <$> py_ceil (fdiv_ieee duration_s PREDICTION_STEP_S).

Definition sample_times (duration_s : float) : outcome (list float) :=
  count ← sample_count duration_s;
  Ret ((fun index => sample_at duration_s count (Z.of_nat index)) <$> seq 0 (S (Z.to_nat count))).

(** ** Prediction *)

Module _Prediction.
Record t := mk {
  minimum_separation_m : float;
  closest_approach_s : float;
  conflict_start_s : option float;
  conflict_end_s : option float;
}.
End _Prediction.

Section deconfliction.
Context `{LM : Libm} `{DG : Digest}.

Definition _program_position (program : AcceptedExecutionProgram.t) (time_s : float) : outcome Vector3 :=
  op ← first_trajectory program;
  if fleb time_s (TrajectoryView.starts_at_s op) then first_position (TrajectoryView.trajectory op)
  else if fleb (TrajectoryView.ends_at_s op) time_s then last_position (TrajectoryView.trajectory op)
  else
    TrajectorySetpoint.position_m <$>
      sample_trajectory (TrajectoryView.trajectory op) (fsub time_s (TrajectoryView.starts_at_s op)).

(** The distance of two programs at one time *)
Definition separation_at (first second : AcceptedExecutionProgram.t) (time_s : float) : outcome float :=
  a ← _program_position first time_s;
  b ← _program_position second time_s;
  v_distance a b.

(** The body of the loop: the minimum, its time and the times of conflict. *)
Definition consider_sample (required_separation_m : float) (state : float * float * list float)
    (sample : float * float) : float * float * list float :=
  let '(minimum, closest_s, conflict_times) := state in
  let '(time_s, distance) := sample in
  let '(minimum, closest_s) := if fltb distance minimum then (distance, time_s) else (minimum, closest_s) in
  (minimum, closest_s,
   if fltb distance required_separation_m then conflict_times ++ [time_s] else conflict_times).

Definition _prediction (first second : AcceptedExecutionProgram.t) (required_separation_m : float) :
    outcome _Prediction.t :=
  let duration_s := py_fmax (AcceptedExecutionProgram.schedule_duration_s first)
                      (AcceptedExecutionProgram.schedule_duration_s second) in
  times ← sample_times duration_s;
  distances ← mapM (separation_at first second) times;
  let '(minimum, closest_s, conflict_times) :=
    foldl (consider_sample required_separation_m) (S754_infinity false, f0, []) (zip times distances) in
  Ret (_Prediction.mk minimum closest_s (py_min fltb conflict_times) (py_max fltb conflict_times)).

Definition predict_program_minimum_separation (first second : AcceptedExecutionProgram.t) :
    outcome (float * float) :=
  prediction ← _prediction first second (flit 1 1000);
  Ret (_Prediction.minimum_separation_m prediction, _Prediction.closest_approach_s prediction).

Definition trajectory_schedule_window (program : AcceptedExecutionProgram.t) : outcome (float * float) :=
  op ← first_trajectory program;
  Ret (TrajectoryView.starts_at_s op, TrajectoryView.ends_at_s op).

(** ** Conflicts *)

Definition _tube (conflict_id : string) (program : AcceptedExecutionProgram.t)
    (starts_at_s ends_at_s uncertainty_m : float) : outcome TrajectoryTubeReservation.t :=
  let middle_s := fdiv_ieee (fadd starts_at_s ends_at_s) (float_of_Z 2) in
  positions ← mapM (_program_position program) [starts_at_s; middle_s; ends_at_s];
  let low (c : Vector3 -> float) := fsub (least (c <$> positions)) uncertainty_m in
  let high (c : Vector3 -> float) := fadd (greatest (c <$> positions)) uncertainty_m in
  let tube := TrajectoryTubeReservation.mk
      ("tube-" +:+ conflict_id +:+ "-" +:+ AcceptedExecutionProgram.role_id program)
      (AcceptedExecutionProgram.role_id program) starts_at_s ends_at_s
      (mkVector3 (low v_x) (low v_y) (low v_z)) (mkVector3 (high v_x) (high v_y) (high v_z))
      uncertainty_m in
  checked "TrajectoryTubeReservation" (TrajectoryTubeReservation_valid tube) tube.

(** [value or other] of an optional number; zero counts as absent. *)
Definition py_or (value : option float) (other : float) : float :=
  match value with
  | Some x => if feqb x f0 then other else x
  | None => other
  end.

(** The interval of the conflict *)
Definition conflict_window (prediction : _Prediction.t) : float * float :=
  let start_s := py_or (_Prediction.conflict_start_s prediction)
                   (_Prediction.closest_approach_s prediction) in
  let end_s := py_or (_Prediction.conflict_end_s prediction) (fadd start_s PREDICTION_STEP_S) in
  (start_s, if fleb end_s start_s then fadd start_s PREDICTION_STEP_S else end_s).

Definition _conflict_contract (mission_id : string) (role_ids : string * string)
    (first second : AcceptedExecutionProgram.t) (prediction : _Prediction.t)
    (warning_separation_m required_separation_m uncertainty_m : float) : outcome PredictedConflict.t :=
  let '(start_s, end_s) := conflict_window prediction in
  let conflict_id := "conflict-" +:+ str_take 20 (canonical_sha256
      (JList [JStr mission_id; pair_json JStr role_ids; JFloat start_s; JFloat end_s])) in
  first_tube ← _tube conflict_id first start_s end_s uncertainty_m;
  second_tube ← _tube conflict_id second start_s end_s uncertainty_m;
  let c := PredictedConflict.mk conflict_id role_ids start_s end_s
      (_Prediction.closest_approach_s prediction) (_Prediction.minimum_separation_m prediction)
      required_separation_m warning_separation_m uncertainty_m (first_tube, second_tube) in
  checked "PredictedConflict" (PredictedConflict_valid c) c.

(** ** Transformed programs *)

Definition with_schedule (o : ExecutionOperation.t) (n : Z) (s e : float) : ExecutionOperation.t :=
  match o with
  | ExecutionOperation.Takeoff _ _ _ h => ExecutionOperation.Takeoff n s e h
  | ExecutionOperation.GroundWait _ _ _ => ExecutionOperation.GroundWait n s e
  | ExecutionOperation.Hold _ _ _ => ExecutionOperation.Hold n s e
  | ExecutionOperation.Trajectory _ _ _ sha t => ExecutionOperation.Trajectory n s e sha t
  | ExecutionOperation.Land _ _ _ h goal => ExecutionOperation.Land n s e h goal
  end.

Definition _rebuild_program (original : AcceptedExecutionProgram.t)
    (operations : list ExecutionOperation.t) : outcome AcceptedExecutionProgram.t :=
  final ← some_or IndexError (last operations);
  let duration_s := ExecutionOperation.ends_at_s final in
  let p := AcceptedExecutionProgram.mk (AcceptedExecutionProgram.program_id original +:+ "-resolved")
      (AcceptedExecutionProgram.mission_source_sha256 original)
      (AcceptedExecutionProgram.role_id original) (AcceptedExecutionProgram.vehicle_id original)
      operations
      ((fun op => TimeParameterizedTrajectory.route_sha256 (TrajectoryView.trajectory op))
         <$> omap view_trajectory operations)
      duration_s (AcceptedExecutionProgram.contingency_reserve_s original)
      (AcceptedExecutionProgram.recovery_reserve_s original)
      (fadd (fadd duration_s (AcceptedExecutionProgram.contingency_reserve_s original))
         (AcceptedExecutionProgram.recovery_reserve_s original))
      (AcceptedExecutionProgram.clock original) in
  checked "AcceptedExecutionProgram" (AcceptedExecutionProgram_check p) p.

(** The operations from [shift_from] on start and end [delay_s] later; all are
    numbered again. *)
Definition shift_operations (shift_from : nat) (delay_s : float)
    (operations : list ExecutionOperation.t) : list ExecutionOperation.t :=
  imap (fun index o =>
          let n := Z.of_nat index + 1 in
          if (shift_from <=? index)%nat
          then with_schedule o n (fadd (ExecutionOperation.starts_at_s o) delay_s)
                 (fadd (ExecutionOperation.ends_at_s o) delay_s)
          else with_schedule o n (ExecutionOperation.starts_at_s o) (ExecutionOperation.ends_at_s o))
    operations.

Definition is_trajectory (o : ExecutionOperation.t) : bool := is_some (view_trajectory o).
Definition is_hold (o : ExecutionOperation.t) : bool :=
  match o with ExecutionOperation.Hold _ _ _ => true | _ => false end.

(** The operations before the first trajectory, it, and those after it. *)
Fixpoint split_trajectory (before operations : list ExecutionOperation.t) :
    option (list ExecutionOperation.t * ExecutionOperation.t * list ExecutionOperation.t) :=
  match operations with
  | [] => None
  | o :: rest =>
      if is_trajectory o then Some (before, o, rest) else split_trajectory (before ++ [o]) rest
  end.

Definition new_operation (model : string) (o : ExecutionOperation.t) : outcome ExecutionOperation.t :=
  checked model (ExecutionOperation_valid o) o.

(** The hold before the trajectory is made longer, or a new one is put there. *)
Definition _delay_before_trajectory (program : AcceptedExecutionProgram.t) (delay_s : float) :
    outcome AcceptedExecutionProgram.t :=
  parts ← some_or StopIteration (split_trajectory [] (AcceptedExecutionProgram.operations program));
  let '(before, trajectory, rest) := parts in
  held ← match last before with
         | Some hold =>
             if is_hold hold
             then Ret (removelast before
                       ++ [with_schedule hold (ExecutionOperation.sequence hold)
                             (ExecutionOperation.starts_at_s hold)
                             (fadd (ExecutionOperation.ends_at_s hold) delay_s)])
             else
               hold ← new_operation "HoldExecutionOperation"
                        (ExecutionOperation.Hold (ExecutionOperation.sequence trajectory)
                           (ExecutionOperation.starts_at_s trajectory)
                           (fadd (ExecutionOperation.starts_at_s trajectory) delay_s));
               Ret (before ++ [hold])
         | None =>
             hold ← new_operation "HoldExecutionOperation"
                      (ExecutionOperation.Hold (ExecutionOperation.sequence trajectory)
                         (ExecutionOperation.starts_at_s trajectory)
                         (fadd (ExecutionOperation.starts_at_s trajectory) delay_s));
             Ret (before ++ [hold])
         end;
  _rebuild_program program (shift_operations (length held) delay_s (held ++ trajectory :: rest)).

Definition _delay_before_launch (program : AcceptedExecutionProgram.t) (delay_s : float) :
    outcome AcceptedExecutionProgram.t :=
  if fleb delay_s f0 then Ret program
  else
    operations ← match AcceptedExecutionProgram.operations program with
                 | [] => Raise IndexError
                 | ExecutionOperation.GroundWait n s e :: rest =>
                     Ret (ExecutionOperation.GroundWait n s (fadd e delay_s) :: rest)
                 | operations =>
                     wait ← new_operation "GroundWaitExecutionOperation"
                              (ExecutionOperation.GroundWait 1 f0 delay_s);
                     Ret (wait :: operations)
                 end;
    match operations with
    | wait :: rest =>
        _rebuild_program program
          (wait :: imap (fun index o =>
                           with_schedule o (Z.of_nat index + 2)
                             (fadd (ExecutionOperation.starts_at_s o) delay_s)
                             (fadd (ExecutionOperation.ends_at_s o) delay_s)) rest)
    | [] => Raise IndexError
    end.

Definition delay_program_before_trajectory (program : AcceptedExecutionProgram.t) (delay_s : float) :
    outcome AcceptedExecutionProgram.t := _delay_before_launch program delay_s.

Definition _scale (value : Vector3) (factor : float) : Vector3 :=
  mkVector3 (fmul (v_x value) factor) (fmul (v_y value) factor) (fmul (v_z value) factor).

Definition set_points (id_suffix : string) (route_sha256 : string) (points : list TrajectoryPoint.t)
    (t : TimeParameterizedTrajectory.t) : TimeParameterizedTrajectory.t :=
  TimeParameterizedTrajectory.mk (TimeParameterizedTrajectory.trajectory_id t +:+ id_suffix)
    (TimeParameterizedTrajectory.role_id t) (TimeParameterizedTrajectory.vehicle_id t) route_sha256
    points (TimeParameterizedTrajectory.declared_stop_sequences t)
    (TimeParameterizedTrajectory.completion_position_tolerance_m t)
    (TimeParameterizedTrajectory.completion_velocity_tolerance_m_s t).

Definition retime_point (factor : float) (p : TrajectoryPoint.t) : outcome TrajectoryPoint.t :=
  inverse ← py_div f1 factor;
  square ← py_square factor;
  inverse_square ← py_div f1 square;
  yaw_rate ← py_div (TrajectoryPoint.yaw_rate_rad_s p) factor;
  Ret (TrajectoryPoint.mk (TrajectoryPoint.sequence p) (fmul (TrajectoryPoint.time_from_start_s p) factor)
         (TrajectoryPoint.position_m p) (_scale (TrajectoryPoint.velocity_m_s p) inverse)
         (_scale (TrajectoryPoint.acceleration_m_s2 p) inverse_square)
         (TrajectoryPoint.yaw_rad p) yaw_rate).

Definition retime_trajectory (factor : float) (t : TimeParameterizedTrajectory.t) :
    outcome TimeParameterizedTrajectory.t :=
  points ← mapM (retime_point factor) (TimeParameterizedTrajectory.points t);
  Ret (set_points "-retimed" (TimeParameterizedTrajectory.route_sha256 t) points t).

(** The loop over the operations, with the time added so far. *)
Fixpoint retime_operations (factor added_s : float) (operations : list ExecutionOperation.t) :
    outcome (list ExecutionOperation.t) :=
  match operations with
  | [] => Ret []
  | ExecutionOperation.Trajectory n s e _ t :: rest =>
      updated ← retime_trajectory factor t;
      let duration_s := trajectory_duration_s updated in
      later ← retime_operations factor (fadd added_s (fsub duration_s (fsub e s))) rest;
      Ret (ExecutionOperation.Trajectory n (fadd s added_s) (fadd (fadd s added_s) duration_s)
             (trajectory_sha256 updated) updated :: later)
  | o :: rest =>
      later ← retime_operations factor added_s rest;
      Ret (with_schedule o (ExecutionOperation.sequence o)
             (fadd (ExecutionOperation.starts_at_s o) added_s)
             (fadd (ExecutionOperation.ends_at_s o) added_s) :: later)
  end.

Definition _retime_program (program : AcceptedExecutionProgram.t) (factor : float) :
    outcome AcceptedExecutionProgram.t :=
  operations ← retime_operations factor f0 (AcceptedExecutionProgram.operations program);
  _rebuild_program program operations.

(** A bump over the middle of a trajectory: its value, velocity, acceleration. *)
Definition _plateau_bump (phase duration_s : float) : outcome (float * float * float) :=
  let lit := float_of_Z in
  let ramp := flit 25 100 in
  if fleb ramp phase && fleb phase (fsub f1 ramp) then Ret (f1, f0, f0)
  else
    let descending := fltb (fsub f1 ramp) phase in
    let u := if descending then fdiv_ieee (fsub f1 phase) ramp else fdiv_ieee phase ramp in
    let u := py_fmax f0 (py_fmin f1 u) in
    u2 ← py_pow u (lit 2);
    u3 ← py_pow u (lit 3);
    u4 ← py_pow u (lit 4);
    u5 ← py_pow u (lit 5);
    let value := fadd (fsub (fmul (lit 10) u3) (fmul (lit 15) u4)) (fmul (lit 6) u5) in
    let first_u := fadd (fsub (fmul (lit 30) u2) (fmul (lit 60) u3)) (fmul (lit 30) u4) in
    let second_u := fadd (fsub (fmul (lit 60) u) (fmul (lit 180) u2)) (fmul (lit 120) u3) in
    let direction := if descending then fneg f1 else f1 in
    velocity ← py_div (fdiv_ieee (fmul direction first_u) ramp) duration_s;
    ramp2 ← py_pow ramp (lit 2);
    duration2 ← py_pow duration_s (lit 2);
    quotient ← py_div second_u ramp2;
    acceleration ← py_div quotient duration2;
    Ret (value, velocity, acceleration).

(** The bump of a vertical offset: a squared sine. *)
Definition sine_bump (phase duration_s : float) : outcome (float * float * float) :=
  let lit := float_of_Z in
  s ← py_sin (fmul math_pi phase);
  bump ← py_pow s (lit 2);
  s2 ← py_sin (fmul (fmul (lit 2) math_pi) phase);
  velocity ← py_div (fmul math_pi s2) duration_s;
  pi2 ← py_pow math_pi (lit 2);
  c2 ← py_cos (fmul (fmul (lit 2) math_pi) phase);
  duration2 ← py_pow duration_s (lit 2);
  acceleration ← py_div (fmul (fmul (lit 2) pi2) c2) duration2;
  Ret (bump, velocity, acceleration).

(** [y] and [z] of a vector, moved by a bump *)
Definition bumped (v : Vector3) (horizontal_m vertical_m bump : float) : Vector3 :=
  mkVector3 (v_x v) (fadd (v_y v) (fmul horizontal_m bump)) (fadd (v_z v) (fmul vertical_m bump)).

Definition offset_point (horizontal_m vertical_m duration_s : float) (p : TrajectoryPoint.t) :
    outcome TrajectoryPoint.t :=
  phase ← py_div (TrajectoryPoint.time_from_start_s p) duration_s;
  bump ← (if feqb horizontal_m f0 then sine_bump phase duration_s else _plateau_bump phase duration_s);
  Ret (TrajectoryPoint.mk (TrajectoryPoint.sequence p) (TrajectoryPoint.time_from_start_s p)
         (bumped (TrajectoryPoint.position_m p) horizontal_m vertical_m bump.1.1)
         (bumped (TrajectoryPoint.velocity_m_s p) horizontal_m vertical_m bump.1.2)
         (bumped (TrajectoryPoint.acceleration_m_s2 p) horizontal_m vertical_m bump.2)
         (TrajectoryPoint.yaw_rad p) (TrajectoryPoint.yaw_rate_rad_s p)).

Definition offset_trajectory (horizontal_m vertical_m : float) (t : TimeParameterizedTrajectory.t) :
    outcome TimeParameterizedTrajectory.t :=
  points ← mapM (offset_point horizontal_m vertical_m (trajectory_duration_s t))
             (TimeParameterizedTrajectory.points t);
  Ret (set_points "-offset"
         (canonical_sha256 (JList [JStr (TimeParameterizedTrajectory.route_sha256 t);
                                   JFloat horizontal_m; JFloat vertical_m])) points t).

Definition offset_operation (horizontal_m vertical_m : float) (o : ExecutionOperation.t) :
    outcome ExecutionOperation.t :=
  match o with
  | ExecutionOperation.Trajectory n s e _ t =>
      updated ← offset_trajectory horizontal_m vertical_m t;
      Ret (ExecutionOperation.Trajectory n s e (trajectory_sha256 updated) updated)
  | _ => Ret o
  end.

Definition _offset_program (program : AcceptedExecutionProgram.t) (horizontal_m vertical_m : float) :
    outcome AcceptedExecutionProgram.t :=
  operations ← mapM (offset_operation horizontal_m vertical_m)
                 (AcceptedExecutionProgram.operations program);
  _rebuild_program program operations.

(** ** Admission against the policy *)

(** The condition of [_program_admissible] on one setpoint *)
Definition exceeds_policy (policy : SafetyPolicy.t) (s : TrajectorySetpoint.t) : outcome bool :=
  let position := TrajectorySetpoint.position_m s in
  let velocity := TrajectorySetpoint.velocity_m_s s in
  if negb (contains (SafetyPolicy.flight_volume policy) position)
     || fltb (SafetyPolicy.max_altitude_m policy) (v_z position)
     || fltb (SafetyPolicy.max_horizontal_speed_m_s policy) (c_hypot (v_x velocity) (v_y velocity))
     || fltb (SafetyPolicy.max_vertical_speed_m_s policy) (fabs (v_z velocity))
  then Ret true
  else
    acceleration ← v_length (TrajectorySetpoint.acceleration_m_s2 s);
    Ret (fltb (SafetyPolicy.max_acceleration_m_s2 policy) acceleration).

Fixpoint samples_admissible (policy : SafetyPolicy.t) (t : TimeParameterizedTrajectory.t)
    (times : list float) : outcome bool :=
  match times with
  | [] => Ret true
  | time_s :: rest =>
      setpoint ← sample_trajectory t time_s;
      exceeds ← exceeds_policy policy setpoint;
      if exceeds : bool then Ret false else samples_admissible policy t rest
  end.

Fixpoint operations_admissible (policy : SafetyPolicy.t) (ops : list TrajectoryView.t) : outcome bool :=
  match ops with
  | [] => Ret true
  | op :: rest =>
      let t := TrajectoryView.trajectory op in
      times ← sample_times (trajectory_duration_s t);
      ok ← samples_admissible policy t times;
      if ok : bool then operations_admissible policy rest else Ret false
  end.

Definition _program_admissible (program : AcceptedExecutionProgram.t) (policy : SafetyPolicy.t) :
    outcome bool := operations_admissible policy (_trajectory_operations program).

(** ** Candidates

    A candidate comes with the programs it would fly. *)

Notation programs := (list AcceptedExecutionProgram.t).

Definition has_role (role_id : string) (p : AcceptedExecutionProgram.t) : bool :=
  String.eqb (AcceptedExecutionProgram.role_id p) role_id.

(** [tuple(changed if item.role_id == role_id else item for item in programs)] *)
Definition replace_role (role_id : string) (changed : AcceptedExecutionProgram.t) (l : programs) : programs :=
  (fun item => if has_role role_id item then changed else item) <$> l.

(** [next(item for item in programs if item.role_id == role_id)] *)
Definition program_of (role_id : string) (l : programs) : outcome AcceptedExecutionProgram.t :=
  some_or StopIteration (find_first (has_role role_id) l).

(** [_prediction(programs[0], programs[1], required)] *)
Definition predict_pair (l : programs) (required_separation_m : float) : outcome _Prediction.t :=
  match l with
  | first :: second :: _ => _prediction first second required_separation_m
  | _ => Raise IndexError
  end.

(** A transformed fleet that is far enough apart *)
Definition separated (required_separation_m : float) (prediction : _Prediction.t) : bool :=
  fleb required_separation_m (_Prediction.minimum_separation_m prediction).

Definition new_candidate (c : ResolutionCandidate.t) : outcome ResolutionCandidate.t :=
  checked "ResolutionCandidate" (ResolutionCandidate_valid c) c.

Definition minimum_of (p : option _Prediction.t) : option float :=
  _Prediction.minimum_separation_m <$> p.

Section candidates.
Context (l : programs) (precedence_role_id held_role_id : string) (required_separation_m : float)
  (policy : SafetyPolicy.t).

(** [schedule_duration_s <= policy.max_mission_duration_s] *)
Definition short_enough (p : AcceptedExecutionProgram.t) : bool :=
  fleb (AcceptedExecutionProgram.schedule_duration_s p) (SafetyPolicy.max_mission_duration_s policy).

Definition _staging_candidate : outcome (programs * ResolutionCandidate.t) :=
  let by_role := dict_of AcceptedExecutionProgram.role_id id l in
  precedence ← some_or KeyError (dict_get precedence_role_id by_role);
  precedence_trajectory ← first_trajectory precedence;
  held ← some_or KeyError (dict_get held_role_id by_role);
  held_trajectory ← first_trajectory held;
  let delay_s := py_fmax f0 (fadd (fsub (TrajectoryView.ends_at_s precedence_trajectory)
                                        (TrajectoryView.starts_at_s held_trajectory))
                                  STAGING_RELEASE_BUFFER_S) in
  delayed ← _delay_before_trajectory held delay_s;
  let transformed := replace_role held_role_id delayed l in
  prediction ← predict_pair transformed required_separation_m;
  let feasible := separated required_separation_m prediction && short_enough delayed in
  staging_point ← first_position (TrajectoryView.trajectory held_trajectory);
  candidate ← new_candidate
    (ResolutionCandidate.mk ConflictResolutionStrategy.STAGING_HOLD feasible (Some precedence_role_id)
       (Some held_role_id) (Some staging_point) delay_s None None None
       (Some (_Prediction.minimum_separation_m prediction)) delay_s f0
       (if feasible then Some (program_sha256 delayed) else None)
       (if feasible
        then "precedence role clears the conflict while the held role remains at an admitted "
             +:+ "staging point outside the required separation tube"
        else "staging delay does not satisfy separation or mission duration"));
  Ret (transformed, candidate).

(** The first factor that separates the roles in time *)
Fixpoint find_retiming (factors : list float) : outcome (option (float * programs * _Prediction.t)) :=
  match factors with
  | [] => Ret None
  | factor :: rest =>
      original ← program_of held_role_id l;
      retimed ← _retime_program original factor;
      let transformed := replace_role held_role_id retimed l in
      prediction ← predict_pair transformed required_separation_m;
      if separated required_separation_m prediction && short_enough retimed
      then Ret (Some (factor, transformed, prediction))
      else find_retiming rest
  end.

Definition retiming_factors : list float :=
  [flit 125 100; flit 15 10; flit 175 100; float_of_Z 2; flit 25 10; float_of_Z 3; flit 35 10; float_of_Z 4].

(** [best] of a search, and the digest and the added time of its program *)
Definition best_of (found : option (float * programs * _Prediction.t)) : programs :=
  match found with Some (_, best, _) => best | None => l end.

Definition digest_of (found : option (float * programs * _Prediction.t)) : outcome (option string) :=
  match found with
  | Some (_, best, _) => selected ← program_of held_role_id best; Ret (Some (program_sha256 selected))
  | None => Ret None
  end.

Definition _retiming_candidate : outcome (programs * ResolutionCandidate.t) :=
  found ← find_retiming retiming_factors;
  let feasible := is_some found in
  added_duration ← match found with
                   | Some (_, best, _) =>
                       selected ← program_of held_role_id best;
                       original ← program_of held_role_id l;
                       Ret (fsub (AcceptedExecutionProgram.schedule_duration_s selected)
                              (AcceptedExecutionProgram.schedule_duration_s original))
                   | None => Ret f0
                   end;
  digest ← digest_of found;
  candidate ← new_candidate
    (ResolutionCandidate.mk ConflictResolutionStrategy.SPEED_RETIMING feasible (Some precedence_role_id)
       (Some held_role_id) None f0 ((fun f => f.1.1) <$> found) None None
       (minimum_of (snd <$> found)) added_duration f0 digest
       (if feasible then "continuous trajectory timing separates the closest-approach instants"
        else "bounded continuous retiming cannot retain the required separation"));
  Ret (best_of found, candidate).

(** The first lateral offset that is admissible and separates the roles *)
Fixpoint find_detour (original : AcceptedExecutionProgram.t) (offsets : list float) :
    outcome (option (float * programs * _Prediction.t)) :=
  match offsets with
  | [] => Ret None
  | offset_m :: rest =>
      changed ← _offset_program original offset_m f0;
      admissible ← _program_admissible changed policy;
      if negb admissible then find_detour original rest
      else
        let transformed := replace_role held_role_id changed l in
        prediction ← predict_pair transformed required_separation_m;
        if separated required_separation_m prediction
        then Ret (Some (offset_m, transformed, prediction))
        else find_detour original rest
  end.

Definition detour_offsets : list float :=
  [required_separation_m; fneg required_separation_m; flit 12 10; fneg (flit 12 10); flit 15 10;
   fneg (flit 15 10)].

Definition _horizontal_candidate : outcome (programs * ResolutionCandidate.t) :=
  original ← program_of held_role_id l;
  found ← find_detour original detour_offsets;
  let feasible := is_some found in
  digest ← digest_of found;
  candidate ← new_candidate
    (ResolutionCandidate.mk ConflictResolutionStrategy.HORIZONTAL_DETOUR feasible (Some precedence_role_id)
       (Some held_role_id) None f0 None ((fun f => f.1.1) <$> found) None
       (minimum_of (snd <$> found)) f0
       (match found with
        | Some (offset_m, _, _) =>
            if feqb offset_m f0 then f0 else fmul (fabs offset_m) (float_of_Z 2)
        | None => f0
        end) digest
       (if feasible then "smooth in-volume lateral bump separates the crossing trajectories"
        else "bounded horizontal detour does not satisfy separation inside the volume"));
  Ret (best_of found, candidate).

Definition _vertical_candidate : outcome (programs * ResolutionCandidate.t) :=
  original ← program_of held_role_id l;
  shifted ← _offset_program original f0 required_separation_m;
  inside ← _program_admissible shifted policy;
  let transformed := replace_role held_role_id shifted l in
  prediction ← (if inside : bool then Some <$> predict_pair transformed required_separation_m else Ret None);
  let feasible := match prediction with
                  | Some prediction => separated required_separation_m prediction
                  | None => false
                  end in
  candidate ← new_candidate
    (ResolutionCandidate.mk ConflictResolutionStrategy.VERTICAL_SEPARATION feasible
       (Some precedence_role_id) (Some held_role_id) None f0 None None (Some required_separation_m)
       (minimum_of prediction) f0 f0 (if feasible then Some (program_sha256 shifted) else None)
       (if feasible then "vertical layer fits the flight volume and retains the required margin"
        else "required vertical layer exceeds altitude, flight-volume, or uncertainty bounds"));
  Ret (if feasible then transformed else l, candidate).

(** The first pair of a factor and an offset that is admissible and separates the
    roles: the two loops with their breaks. *)
Fixpoint find_combined (original : AcceptedExecutionProgram.t) (choices : list (float * float)) :
    outcome (option (float * float * programs * _Prediction.t)) :=
  match choices with
  | [] => Ret None
  | (factor, offset_m) :: rest =>
      retimed ← _retime_program original factor;
      changed ← _offset_program retimed f0 offset_m;
      admissible ← _program_admissible changed policy;
      if negb admissible then find_combined original rest
      else
        let transformed := replace_role held_role_id changed l in
        prediction ← predict_pair transformed required_separation_m;
        if separated required_separation_m prediction
        then Ret (Some (factor, offset_m, transformed, prediction))
        else find_combined original rest
  end.

Definition combined_choices : list (float * float) :=
  factor ← [flit 15 10; float_of_Z 2; flit 25 10; float_of_Z 3; flit 325 100];
  offset_m ← [flit 2 10; flit 4 10; flit 6 10];
  [(factor, offset_m)].

Definition _combined_candidate : outcome (programs * ResolutionCandidate.t) :=
  original ← program_of held_role_id l;
  found ← find_combined original combined_choices;
  let feasible := is_some found in
  let best := match found with Some (_, _, best, _) => best | None => l end in
  let selected := default original (find_first (has_role held_role_id) best) in
  candidate ← new_candidate
    (ResolutionCandidate.mk ConflictResolutionStrategy.COMBINED_RETIMING_VERTICAL feasible
       (Some precedence_role_id) (Some held_role_id) None f0 ((fun f => f.1.1.1) <$> found) None
       ((fun f => f.1.1.2) <$> found) (minimum_of (snd <$> found))
       (if feasible then fsub (AcceptedExecutionProgram.schedule_duration_s selected)
                              (AcceptedExecutionProgram.schedule_duration_s original) else f0)
       f0 (if feasible then Some (program_sha256 selected) else None)
       (if feasible then "bounded retiming and vertical offset jointly retain the required margin"
        else "bounded retiming and vertical combinations do not fit all hard constraints"));
  Ret (best, candidate).

(** The candidate of a strategy *)
Definition candidate_of (strategy : ConflictResolutionStrategy.t) :
    outcome (programs * ResolutionCandidate.t) :=
  match strategy with
  | ConflictResolutionStrategy.STAGING_HOLD => _staging_candidate
  | ConflictResolutionStrategy.SPEED_RETIMING => _retiming_candidate
  | ConflictResolutionStrategy.HORIZONTAL_DETOUR => _horizontal_candidate
  | ConflictResolutionStrategy.VERTICAL_SEPARATION => _vertical_candidate
  | ConflictResolutionStrategy.COMBINED_RETIMING_VERTICAL => _combined_candidate
  end.
End candidates.

(** ** The plan *)

Definition new_plan (p : FleetDeconflictionPlan.t) : outcome FleetDeconflictionPlan.t :=
  checked "FleetDeconflictionPlan" (FleetDeconflictionPlan_valid p) p.

Definition _blocked_plan (mission_id : string) (candidates : list ResolutionCandidate.t) (reason : string)
    (conflict : option PredictedConflict.t) : outcome FleetDeconflictionPlan.t :=
  candidates ← match candidates with
               | [] =>
                   c ← new_candidate
                     (ResolutionCandidate.mk ConflictResolutionStrategy.STAGING_HOLD false None None None
                        f0 None None None None f0 f0 None reason);
                   Ret [c]
               | _ => Ret candidates
               end;
  let deconfliction_id := "deconfliction-"
    +:+ str_take 20 (canonical_sha256 (JList [JStr mission_id; JStr reason])) in
  let payload := JObj [
    ("deconfliction_id", JStr deconfliction_id);
    ("status", deconfliction_status_json DeconflictionStatus.BLOCKED);
    ("conflict", json_opt PredictedConflict_dump conflict);
    ("candidates", json_list ResolutionCandidate_dump candidates)] in
  new_plan (FleetDeconflictionPlan.mk deconfliction_id DeconflictionStatus.BLOCKED conflict candidates
              None None [] (canonical_sha256 payload)).

Definition not_required_plan (mission_id : string) (role_ids : string * string) (l : programs) :
    outcome FleetDeconflictionPlan.t :=
  let deconfliction_id := "deconfliction-"
    +:+ str_take 20 (canonical_sha256 (JList [JStr mission_id; pair_json JStr role_ids])) in
  let payload := JObj [
    ("deconfliction_id", JStr deconfliction_id);
    ("status", deconfliction_status_json DeconflictionStatus.NOT_REQUIRED);
    ("candidates", JList []);
    ("selected_program_sha256s", json_list JStr (program_sha256 <$> l))] in
  new_plan (FleetDeconflictionPlan.mk deconfliction_id DeconflictionStatus.NOT_REQUIRED None [] None None
              (program_sha256 <$> l) (canonical_sha256 payload)).

Definition resolved_plan (mission_id : string) (conflict : PredictedConflict.t)
    (candidates : list ResolutionCandidate.t) (index : nat) (selected : ResolutionCandidate.t)
    (l : programs) : outcome FleetDeconflictionPlan.t :=
  let deconfliction_id := "deconfliction-"
    +:+ str_take 20 (canonical_sha256 (JList [JStr mission_id; PredictedConflict_dump conflict])) in
  let payload := JObj [
    ("deconfliction_id", JStr deconfliction_id);
    ("status", deconfliction_status_json DeconflictionStatus.RESOLVED);
    ("conflict", PredictedConflict_dump conflict);
    ("candidates", json_list ResolutionCandidate_dump candidates);
    ("selected_strategy", strategy_json (ResolutionCandidate.strategy selected));
    ("selected_candidate_index", JInt (Z.of_nat index));
    ("selected_program_sha256s", json_list JStr (program_sha256 <$> l))] in
  new_plan (FleetDeconflictionPlan.mk deconfliction_id DeconflictionStatus.RESOLVED (Some conflict)
              candidates (Some (ResolutionCandidate.strategy selected)) (Some (Z.of_nat index))
              (program_sha256 <$> l) (canonical_sha256 payload)).

(** The strategies, in the order in which they are tried *)
Definition all_strategies : list ConflictResolutionStrategy.t :=
  [ConflictResolutionStrategy.STAGING_HOLD; ConflictResolutionStrategy.SPEED_RETIMING;
   ConflictResolutionStrategy.HORIZONTAL_DETOUR; ConflictResolutionStrategy.VERTICAL_SEPARATION;
   ConflictResolutionStrategy.COMBINED_RETIMING_VERTICAL].

(** [next(index for index, item in enumerate(candidates) if item.feasible)] *)
Definition selected_candidate (tried : list (programs * ResolutionCandidate.t)) :
    option (nat * (programs * ResolutionCandidate.t)) :=
  find_first (fun item => ResolutionCandidate.feasible item.2.2) (imap pair tried).

(** [min(role_ids, key=lambda role_id: (-priority, role_id))] of two roles *)
Definition precedence_of (first second : DeploymentTaskDefinition.t) : string * string :=
  let a := DeploymentTaskDefinition.task_id first in
  let b := DeploymentTaskDefinition.task_id second in
  let p := DeploymentTaskDefinition.priority in
  if (p first <? p second) || ((p first =? p second) && str_ltb b a) then (b, a) else (a, b).

(** The resolution of a predicted conflict *)
Definition resolve_conflict (mission_id : string) (l : programs) (precedence held : string)
    (required : float) (policy : SafetyPolicy.t) (allowed : list ConflictResolutionStrategy.t)
    (conflict : PredictedConflict.t) : outcome (programs * FleetDeconflictionPlan.t) :=
  tried ← mapM (candidate_of l precedence held required policy)
            (filter (fun strategy => strategy ∈ allowed) all_strategies);
  match selected_candidate tried with
  | None =>
      plan ← _blocked_plan mission_id (snd <$> tried)
               "no deterministic two-drone resolution candidate is feasible" (Some conflict);
      Ret (l, plan)
  | Some (index, (selected_programs, selected)) =>
      plan ← resolved_plan mission_id conflict (snd <$> tried) index selected selected_programs;
      Ret (selected_programs, plan)
  end.

(** The tasks of a type, by their identity: [{task.task_id: task for ...}] *)
Definition tasks_of (task_type : string) (deployment : DeploymentManifest.t) :
    dict DeploymentTaskDefinition.t :=
  dict_of DeploymentTaskDefinition.task_id id
    (filter (fun task => DeploymentTaskDefinition.task_type task = task_type)
       (DeploymentManifest.tasks deployment)).

Definition one_trajectory (p : AcceptedExecutionProgram.t) : bool :=
  (length (_trajectory_operations p) =? 1)%nat.

Definition plan_crossing_deconfliction (mission_id : string) (deployment : DeploymentManifest.t)
    (l : programs) (policy : SafetyPolicy.t) (allowed : list ConflictResolutionStrategy.t) :
    outcome (programs * option FleetDeconflictionPlan.t) :=
  let crossing_tasks := tasks_of "crossing-route" deployment in
  match py_sorted (fun a b => str_ltb a.1 b.1) crossing_tasks with
  | [(first_role, first_task); (second_role, second_task)] =>
      let by_role := dict_of AcceptedExecutionProgram.role_id id l in
      let blocked reason := plan ← _blocked_plan mission_id [] reason None; Ret (l, Some plan) in
      if negb (bool_decide (list_to_set [first_role; second_role] =@{gset string}
                            list_to_set (dict_keys by_role)))
      then blocked "crossing roles do not have static accepted execution programs"
      else
        first ← some_or KeyError (dict_get first_role by_role);
        second ← some_or KeyError (dict_get second_role by_role);
        if negb (one_trajectory first && one_trajectory second)
        then blocked "crossing deconfliction requires one continuous trajectory per role"
        else
          let warning := FleetConstraints.warning_separation_m (DeploymentManifest.constraints deployment) in
          let required := fadd warning DEFAULT_POSITION_UNCERTAINTY_M in
          predicted ← _prediction first second required;
          if separated required predicted
          then plan ← not_required_plan mission_id (first_role, second_role) l; Ret (l, Some plan)
          else
            conflict ← _conflict_contract mission_id (first_role, second_role) first second predicted
                         warning required DEFAULT_POSITION_UNCERTAINTY_M;
            let '(precedence, held) := precedence_of first_task second_task in
            result ← resolve_conflict mission_id l precedence held required policy allowed conflict;
            Ret (result.1, Some result.2)
  | _ => Ret (l, None)
  end.
End deconfliction.
