(* ===== verification/Multidrone.v ===== *)
(** * Schedules of three and more roles ([planning/multidrone.py])

    The joint schedule of roles whose routes conflict: every order of precedence
    is turned into launch delays, and the best feasible one is selected. *)

From S2P Require Import Prelude Float64 Effects Contracts Artifacts Trajectory Safety.
From S2P Require Import PlanContracts Routes Deconfliction.

(** ** Contracts *)

Module MultiDronePlanningStatus.
Inductive t := NOT_REQUIRED | RESOLVED | BLOCKED.
End MultiDronePlanningStatus.
#[export] Instance MultiDronePlanningStatus_eq_dec : EqDecision MultiDronePlanningStatus.t.
Proof. solve_decision. Defined.
Definition MultiDronePlanningStatus_value (v : MultiDronePlanningStatus.t) : string :=
  match v with
  | MultiDronePlanningStatus.NOT_REQUIRED => "NOT_REQUIRED"
  | MultiDronePlanningStatus.RESOLVED => "RESOLVED"
  | MultiDronePlanningStatus.BLOCKED => "BLOCKED"
  end.

Module MultiDroneResolutionStrategy.
Inductive t := EXACT_ENUMERATION_STAGING | PRIORITY_GREEDY_STAGING.
End MultiDroneResolutionStrategy.
#[export] Instance MultiDroneResolutionStrategy_eq_dec : EqDecision MultiDroneResolutionStrategy.t.
Proof. solve_decision. Defined.
Definition MultiDroneResolutionStrategy_value (v : MultiDroneResolutionStrategy.t) : string :=
  match v with
  | MultiDroneResolutionStrategy.EXACT_ENUMERATION_STAGING => "EXACT_ENUMERATION_STAGING"
  | MultiDroneResolutionStrategy.PRIORITY_GREEDY_STAGING => "PRIORITY_GREEDY_STAGING"
  end.

Definition multi_status_json (s : MultiDronePlanningStatus.t) : json :=
  JStr (MultiDronePlanningStatus_value s).
Definition multi_strategy_json (s : MultiDroneResolutionStrategy.t) : json :=
  JStr (MultiDroneResolutionStrategy_value s).

Module MultiDronePairConflict.
Record t := mk {
  conflict_id : string;
  role_ids : string * string;
  predicted_minimum_separation_m : float;
  closest_approach_s : float;
  required_separation_m : float;
}.
End MultiDronePairConflict.

Definition MultiDronePairConflict_valid (r : MultiDronePairConflict.t) : bool :=
  is_identifier (MultiDronePairConflict.conflict_id r)
  && is_identifier (fst (MultiDronePairConflict.role_ids r))
  && is_identifier (snd (MultiDronePairConflict.role_ids r))
  && ge0 (MultiDronePairConflict.predicted_minimum_separation_m r)
  && ge0 (MultiDronePairConflict.closest_approach_s r)
  && gt0 (MultiDronePairConflict.required_separation_m r).

Definition MultiDronePairConflict_dump (r : MultiDronePairConflict.t) : json := JObj [
  ("conflict_id", JStr (MultiDronePairConflict.conflict_id r));
  ("role_ids", (pair_json JStr) (MultiDronePairConflict.role_ids r));
  ("predicted_minimum_separation_m", JFloat (MultiDronePairConflict.predicted_minimum_separation_m r));
  ("closest_approach_s", JFloat (MultiDronePairConflict.closest_approach_s r));
  ("required_separation_m", JFloat (MultiDronePairConflict.required_separation_m r))].

Module MultiDroneScheduleCandidate.
Record t := mk {
  candidate_id : string;
  strategy : MultiDroneResolutionStrategy.t;
  precedence_order : list string;
  planned_hold_s_by_role : dict float;
  feasible : bool;
  predicted_minimum_separation_m : option float;
  maximum_wait_s : float;
  total_wait_s : float;
  fairness_wait_spread_s : float;
  priority_inversion_penalty : Z;
  starved_role_ids : list string;
  execution_program_sha256s : list string;
  reason : string;
}.
End MultiDroneScheduleCandidate.

Definition MultiDroneScheduleCandidate_valid (r : MultiDroneScheduleCandidate.t) : bool :=
  is_identifier (MultiDroneScheduleCandidate.candidate_id r)
  && forallb is_identifier (MultiDroneScheduleCandidate.precedence_order r)
  && forallb is_identifier (dict_keys (MultiDroneScheduleCandidate.planned_hold_s_by_role r))
  && opt_ok ge0 (MultiDroneScheduleCandidate.predicted_minimum_separation_m r)
  && ge0 (MultiDroneScheduleCandidate.maximum_wait_s r)
  && ge0 (MultiDroneScheduleCandidate.total_wait_s r)
  && ge0 (MultiDroneScheduleCandidate.fairness_wait_spread_s r)
  && (0 <=? (MultiDroneScheduleCandidate.priority_inversion_penalty r))
  && forallb is_identifier (MultiDroneScheduleCandidate.starved_role_ids r)
  && forallb is_sha256 (MultiDroneScheduleCandidate.execution_program_sha256s r).

Definition MultiDroneScheduleCandidate_dump (r : MultiDroneScheduleCandidate.t) : json := JObj [
  ("candidate_id", JStr (MultiDroneScheduleCandidate.candidate_id r));
  ("strategy", multi_strategy_json (MultiDroneScheduleCandidate.strategy r));
  ("precedence_order", (json_list JStr) (MultiDroneScheduleCandidate.precedence_order r));
  ("planned_hold_s_by_role", (dict_json JFloat) (MultiDroneScheduleCandidate.planned_hold_s_by_role r));
  ("feasible", JBool (MultiDroneScheduleCandidate.feasible r));
  ("predicted_minimum_separation_m", (json_opt JFloat) (MultiDroneScheduleCandidate.predicted_minimum_separation_m r));
  ("maximum_wait_s", JFloat (MultiDroneScheduleCandidate.maximum_wait_s r));
  ("total_wait_s", JFloat (MultiDroneScheduleCandidate.total_wait_s r));
  ("fairness_wait_spread_s", JFloat (MultiDroneScheduleCandidate.fairness_wait_spread_s r));
  ("priority_inversion_penalty", JInt (MultiDroneScheduleCandidate.priority_inversion_penalty r));
  ("starved_role_ids", (json_list JStr) (MultiDroneScheduleCandidate.starved_role_ids r));
  ("execution_program_sha256s", (json_list JStr) (MultiDroneScheduleCandidate.execution_program_sha256s r));
  ("reason", JStr (MultiDroneScheduleCandidate.reason r))].

Module MultiDroneConflictPlan.
Record t := mk {
  deconfliction_id : string;
  status : MultiDronePlanningStatus.t;
  role_ids : list string;
  conflicts : list MultiDronePairConflict.t;
  candidates : list MultiDroneScheduleCandidate.t;
  selected_strategy : option MultiDroneResolutionStrategy.t;
  selected_candidate_index : option Z;
  selected_program_sha256s : list string;
  exact_enumeration_limit : Z;
  starvation_bound_s : float;
  deadlock_detected : bool;
  optimality_limitation : string;
  plan_sha256 : string;
}.
End MultiDroneConflictPlan.

Definition MultiDroneConflictPlan_valid (r : MultiDroneConflictPlan.t) : bool :=
  is_identifier (MultiDroneConflictPlan.deconfliction_id r)
  && forallb is_identifier (MultiDroneConflictPlan.role_ids r)
  && opt_ok (fun x => (0 <=? x)) (MultiDroneConflictPlan.selected_candidate_index r)
  && forallb is_sha256 (MultiDroneConflictPlan.selected_program_sha256s r)
  && (2 <=? (MultiDroneConflictPlan.exact_enumeration_limit r))
  && gt0 (MultiDroneConflictPlan.starvation_bound_s r)
  && is_sha256 (MultiDroneConflictPlan.plan_sha256 r).

Definition MultiDroneConflictPlan_dump (r : MultiDroneConflictPlan.t) : json := JObj [
  ("schema_version", JInt 1);
  ("deconfliction_id", JStr (MultiDroneConflictPlan.deconfliction_id r));
  ("status", multi_status_json (MultiDroneConflictPlan.status r));
  ("role_ids", (json_list JStr) (MultiDroneConflictPlan.role_ids r));
  ("conflicts", (json_list MultiDronePairConflict_dump) (MultiDroneConflictPlan.conflicts r));
  ("candidates", (json_list MultiDroneScheduleCandidate_dump) (MultiDroneConflictPlan.candidates r));
  ("selected_strategy", (json_opt multi_strategy_json) (MultiDroneConflictPlan.selected_strategy r));
  ("selected_candidate_index", (json_opt JInt) (MultiDroneConflictPlan.selected_candidate_index r));
  ("selected_program_sha256s", (json_list JStr) (MultiDroneConflictPlan.selected_program_sha256s r));
  ("exact_enumeration_limit", JInt (MultiDroneConflictPlan.exact_enumeration_limit r));
  ("starvation_bound_s", JFloat (MultiDroneConflictPlan.starvation_bound_s r));
  ("deadlock_detected", JBool (MultiDroneConflictPlan.deadlock_detected r));
  ("deadlock_recovery", JStr "LAND_ALL");
  ("optimality_limitation", JStr (MultiDroneConflictPlan.optimality_limitation r));
  ("plan_sha256", JStr (MultiDroneConflictPlan.plan_sha256 r))].

(** [canonical_payload], without its own digest *)
Definition MultiDroneConflictPlan_json (r : MultiDroneConflictPlan.t) : json := JObj [
  ("schema_version", JInt 1);
  ("deconfliction_id", JStr (MultiDroneConflictPlan.deconfliction_id r));
  ("status", multi_status_json (MultiDroneConflictPlan.status r));
  ("role_ids", (json_list JStr) (MultiDroneConflictPlan.role_ids r));
  ("conflicts", (json_list MultiDronePairConflict_dump) (MultiDroneConflictPlan.conflicts r));
  ("candidates", (json_list MultiDroneScheduleCandidate_dump) (MultiDroneConflictPlan.candidates r));
  ("selected_strategy", (json_opt multi_strategy_json) (MultiDroneConflictPlan.selected_strategy r));
  ("selected_candidate_index", (json_opt JInt) (MultiDroneConflictPlan.selected_candidate_index r));
  ("selected_program_sha256s", (json_list JStr) (MultiDroneConflictPlan.selected_program_sha256s r));
  ("exact_enumeration_limit", JInt (MultiDroneConflictPlan.exact_enumeration_limit r));
  ("starvation_bound_s", JFloat (MultiDroneConflictPlan.starvation_bound_s r));
  ("deadlock_detected", JBool (MultiDroneConflictPlan.deadlock_detected r));
  ("deadlock_recovery", JStr "LAND_ALL");
  ("optimality_limitation", JStr (MultiDroneConflictPlan.optimality_limitation r))].


(** ** Orders *)

(** Every element of a list with the others, in order. *)
Fixpoint picks {A} (before l : list A) : list (A * list A) :=
  match l with
  | [] => []
  | a :: rest => (a, before ++ rest) :: picks (before ++ [a]) rest
  end.

(** [itertools.permutations], in its order; [n] is the length. *)
Fixpoint orders_of {A} (n : nat) (l : list A) : list (list A) :=
  match n with
  | O => [[]]
  | S n' => pick ← picks [] l; cons pick.1 <$> orders_of n' pick.2
  end.

Definition permutations {A} (l : list A) : list (list A) := orders_of (length l) l.

(** The pairs of an element and a later one *)
Fixpoint later_pairs {A} (l : list A) : list (A * A) :=
  match l with
  | [] => []
  | a :: rest => (pair a <$> rest) ++ later_pairs rest
  end.

(** The order of tuples of strings *)
Fixpoint strings_ltb (a b : list string) : bool :=
  match a, b with
  | _, [] => false
  | [], _ :: _ => true
  | x :: a', y :: b' => if String.eqb x y then strings_ltb a' b' else str_ltb x y
  end.

(** A tuple that starts with an integer *)
Definition lex_Z_ltb {B} (ltb2 : B -> B -> bool) (p q : Z * B) : bool :=
  if p.1 =? q.1 then ltb2 p.2 q.2 else p.1 <? q.1.

(** The key by which the feasible schedules are compared *)
Notation schedule_key := (Z * (float * (float * (float * list string))))%type.

Definition key_of_candidate (c : MultiDroneScheduleCandidate.t) : schedule_key :=
  (MultiDroneScheduleCandidate.priority_inversion_penalty c,
   (MultiDroneScheduleCandidate.maximum_wait_s c,
    (MultiDroneScheduleCandidate.total_wait_s c,
     (MultiDroneScheduleCandidate.fairness_wait_spread_s c,
      MultiDroneScheduleCandidate.precedence_order c)))).

Definition schedule_ltb : schedule_key -> schedule_key -> bool :=
  lex_Z_ltb (lex_ltb (lex_ltb (lex_ltb strings_ltb))).

Section multidrone.
Context `{LM : Libm} `{DG : Digest}.

(** ** Conflicts and schedules *)

Definition _pair_conflict (mission_id : string) (first second : AcceptedExecutionProgram.t)
    (required_separation_m : float) : outcome (option MultiDronePairConflict.t) :=
  predicted ← predict_program_minimum_separation first second;
  let '(minimum, closest_s) := predicted in
  if fleb required_separation_m minimum then Ret None
  else
    let a := AcceptedExecutionProgram.role_id first in
    let b := AcceptedExecutionProgram.role_id second in
    let role_ids := if str_ltb b a then (b, a) else (a, b) in
    let c := MultiDronePairConflict.mk
        ("multi-conflict-" +:+ str_take 20 (canonical_sha256
           (JList [JStr mission_id; pair_json JStr role_ids; JFloat closest_s])))
        role_ids minimum closest_s required_separation_m in
    Some <$> checked "MultiDronePairConflict" (MultiDronePairConflict_valid c) c.

(** The programs scheduled so far, their waits, and the time at which the latest
    of them is clear. *)
Notation schedule := (dict AcceptedExecutionProgram.t * dict float * float)%type.

Definition schedule_role (base_programs : dict AcceptedExecutionProgram.t) (role_index : nat)
    (role_id : string) (state : schedule) : outcome schedule :=
  let '(scheduled, waits, latest_clear_s) := state in
  program ← some_or KeyError (dict_get role_id base_programs);
  window ← trajectory_schedule_window program;
  let wait_s := if (role_index =? 0)%nat then f0
                else py_fmax f0 (fadd (fsub latest_clear_s window.1) STAGING_RELEASE_BUFFER_S) in
  selected ← (if feqb wait_s f0 then Ret program else delay_program_before_trajectory program wait_s);
  selected_window ← trajectory_schedule_window selected;
  Ret (dict_set role_id selected scheduled, dict_set role_id wait_s waits,
       py_fmax latest_clear_s selected_window.2).

Fixpoint schedule_roles (base_programs : dict AcceptedExecutionProgram.t) (role_index : nat)
    (order : list string) (state : schedule) : outcome schedule :=
  match order with
  | [] => Ret state
  | role_id :: rest =>
      state' ← schedule_role base_programs role_index role_id state;
      schedule_roles base_programs (S role_index) rest state'
  end.

(** [scheduled[a], scheduled[b]] *)
Definition pair_separation (scheduled : dict AcceptedExecutionProgram.t) (pair : string * string) :
    outcome float :=
  a ← some_or KeyError (dict_get pair.1 scheduled);
  b ← some_or KeyError (dict_get pair.2 scheduled);
  predicted ← predict_program_minimum_separation a b;
  Ret predicted.1.

Definition inversion (priorities : dict Z) (pair : string * string) : outcome Z :=
  later ← some_or KeyError (dict_get pair.2 priorities);
  earlier ← some_or KeyError (dict_get pair.1 priorities);
  Ret (Z.max 0 (later - earlier)).

Definition _schedule_candidate (candidate_index : nat) (order : list string)
    (strategy : MultiDroneResolutionStrategy.t) (base_programs : dict AcceptedExecutionProgram.t)
    (priorities : dict Z) (required_separation_m starvation_bound_s : float) (policy : SafetyPolicy.t) :
    outcome (list AcceptedExecutionProgram.t * MultiDroneScheduleCandidate.t) :=
  state ← schedule_roles base_programs 0 order ([], [], f0);
  let '(scheduled, waits, _) := state in
  separations ← mapM (pair_separation scheduled) (later_pairs order);
  let minimum := foldl py_fmin (S754_infinity false) separations in
  let max_wait := default f0 (py_max fltb (dict_values waits)) in
  let min_wait := default f0 (py_min fltb (dict_values waits)) in
  let starved := py_sorted str_ltb
      (dict_keys (filter (fun item => fltb starvation_bound_s item.2 = true) waits)) in
  let duration_exceeded := existsb (fun program =>
      fltb (SafetyPolicy.max_mission_duration_s policy)
        (AcceptedExecutionProgram.schedule_duration_s program)) (dict_values scheduled) in
  penalties ← mapM (inversion priorities) (later_pairs order);
  let feasible := fleb required_separation_m minimum && bool_decide (starved = [])
                  && negb duration_exceeded in
  ordered_programs ← mapM (fun role_id => some_or KeyError (dict_get role_id scheduled))
                       (py_sorted str_ltb (dict_keys scheduled));
  let c := MultiDroneScheduleCandidate.mk ("multi-candidate-" +:+ pretty (Z.of_nat candidate_index + 1))
      strategy order waits feasible (Some minimum) max_wait (py_sum (dict_values waits))
      (fsub max_wait min_wait) (foldr Z.add 0 penalties) starved (program_sha256 <$> ordered_programs)
      (if feasible
       then "joint conflict graph schedule satisfies separation, duration, and starvation bounds"
       else "joint schedule violates separation, duration, or starvation bounds") in
  c ← checked "MultiDroneScheduleCandidate" (MultiDroneScheduleCandidate_valid c) c;
  Ret (ordered_programs, c).

(** ** The plan *)

Definition multi_plan_id (document : json) : string :=
  "multi-plan-" +:+ str_take 20 (canonical_sha256 document).

(** The keyword arguments of a plan; its digest is that of the fields given. *)
Definition multi_plan (deconfliction_id : string) (status : MultiDronePlanningStatus.t)
    (role_ids : list string) (conflicts : list MultiDronePairConflict.t)
    (candidates : list MultiDroneScheduleCandidate.t)
    (selected : option (nat * MultiDroneResolutionStrategy.t)) (selected_program_sha256s : list string)
    (exact_enumeration_limit : Z) (starvation_bound_s : float) (deadlock_detected : bool)
    (optimality_limitation : string) : outcome MultiDroneConflictPlan.t :=
  let payload := JObj
    ([("deconfliction_id", JStr deconfliction_id); ("status", multi_status_json status);
      ("role_ids", json_list JStr role_ids);
      ("conflicts", json_list MultiDronePairConflict_dump conflicts);
      ("candidates", json_list MultiDroneScheduleCandidate_dump candidates)]
     ++ match selected with
        | Some (index, strategy) =>
            [("selected_strategy", multi_strategy_json strategy);
             ("selected_candidate_index", JInt (Z.of_nat index))]
        | None => []
        end
     ++ [("selected_program_sha256s", json_list JStr selected_program_sha256s);
         ("exact_enumeration_limit", JInt exact_enumeration_limit);
         ("starvation_bound_s", JFloat starvation_bound_s);
         ("deadlock_detected", JBool deadlock_detected);
         ("optimality_limitation", JStr optimality_limitation)]) in
  let p := MultiDroneConflictPlan.mk deconfliction_id status role_ids conflicts candidates
      (snd <$> selected) (Z.of_nat ∘ fst <$> selected) selected_program_sha256s exact_enumeration_limit
      starvation_bound_s deadlock_detected optimality_limitation (canonical_sha256 payload) in
  checked "MultiDroneConflictPlan" (MultiDroneConflictPlan_valid p) p.

Definition multi_blocked_plan (mission_id : string) (role_ids : list string)
    (conflicts : list MultiDronePairConflict.t) (candidates : list MultiDroneScheduleCandidate.t)
    (starvation_bound_s : float) (exact_enumeration_limit : Z) (reason : string) :
    outcome MultiDroneConflictPlan.t :=
  multi_plan (multi_plan_id (JList [JStr mission_id; JStr reason])) MultiDronePlanningStatus.BLOCKED
    role_ids conflicts candidates None [] exact_enumeration_limit starvation_bound_s true reason.

(** The strategy, the orders it tries and what it does not promise *)
Definition orders_to_try (role_ids : list string) (priorities : dict Z) (exact_enumeration_limit : Z) :
    MultiDroneResolutionStrategy.t * list (list string) * string :=
  if Z.of_nat (length role_ids) <=? exact_enumeration_limit
  then (MultiDroneResolutionStrategy.EXACT_ENUMERATION_STAGING, permutations role_ids,
        "globally minimum candidate under the bounded full-route staging model; "
        +:+ "not a global optimum over arbitrary continuous trajectories")
  else (MultiDroneResolutionStrategy.PRIORITY_GREEDY_STAGING,
        [py_sorted (fun a b => lex_Z_ltb str_ltb (- default 0 (dict_get a priorities), a)
                                 (- default 0 (dict_get b priorities), b)) role_ids],
        "deterministic O(n^2) priority-greedy full-route staging; no general "
        +:+ "optimality guarantee").

(** The best of the feasible schedules, with its index *)
Definition select_schedule
    (tried : list (list AcceptedExecutionProgram.t * MultiDroneScheduleCandidate.t)) :
    option (nat * (list AcceptedExecutionProgram.t * MultiDroneScheduleCandidate.t)) :=
  py_min (fun a b => schedule_ltb (key_of_candidate a.2.2) (key_of_candidate b.2.2))
    (filter (fun item => MultiDroneScheduleCandidate.feasible item.2.2 = true) (imap pair tried)).

(** The joint schedule of roles that conflict *)
Definition resolve_schedule (mission_id : string) (programs : list AcceptedExecutionProgram.t)
    (role_ids : list string) (by_role : dict AcceptedExecutionProgram.t) (priorities : dict Z)
    (conflicts : list MultiDronePairConflict.t) (required starvation_bound_s : float)
    (policy : SafetyPolicy.t) (exact_enumeration_limit : Z) :
    outcome (list AcceptedExecutionProgram.t * MultiDroneConflictPlan.t) :=
  let '(strategy, orders, limitation) := orders_to_try role_ids priorities exact_enumeration_limit in
  tried ← mapM (fun item : nat * list string =>
                  _schedule_candidate item.1 item.2 strategy by_role priorities required
                    starvation_bound_s policy) (imap pair orders);
  match select_schedule tried with
  | None =>
      plan ← multi_blocked_plan mission_id role_ids conflicts (snd <$> tried) starvation_bound_s
               exact_enumeration_limit
               "joint schedule has deadlock or exceeds the starvation/duration bound";
      Ret (programs, plan)
  | Some (index, (selected_programs, selected)) =>
      plan ← multi_plan
               (multi_plan_id (JList [JStr mission_id; json_list MultiDronePairConflict_dump conflicts]))
               MultiDronePlanningStatus.RESOLVED role_ids conflicts (snd <$> tried)
               (Some (index, MultiDroneScheduleCandidate.strategy selected))
               (program_sha256 <$> selected_programs) exact_enumeration_limit starvation_bound_s false
               limitation;
      Ret (selected_programs, plan)
  end.

Definition starvation_bound (policy : SafetyPolicy.t) : float :=
  py_fmin (float_of_Z 90) (fdiv_ieee (SafetyPolicy.max_mission_duration_s policy) (float_of_Z 2)).

Definition plan_multi_drone_conflicts (mission_id : string) (deployment : DeploymentManifest.t)
    (programs : list AcceptedExecutionProgram.t) (policy : SafetyPolicy.t)
    (exact_enumeration_limit : Z) :
    outcome (list AcceptedExecutionProgram.t * option MultiDroneConflictPlan.t) :=
  let task_by_role := tasks_of "multi-conflict-route" deployment in
  if (length task_by_role <? 3)%nat then Ret (programs, None)
  else
    let role_ids := py_sorted str_ltb (dict_keys task_by_role) in
    let by_role := dict_of AcceptedExecutionProgram.role_id id programs in
    let starvation_bound_s := starvation_bound policy in
    if negb (bool_decide (list_to_set role_ids =@{gset string} list_to_set (dict_keys by_role)))
    then
      plan ← multi_blocked_plan mission_id role_ids [] [] starvation_bound_s exact_enumeration_limit
               "multi-conflict roles do not have static accepted programs";
      Ret (programs, Some plan)
    else
      let required := fadd (FleetConstraints.warning_separation_m (DeploymentManifest.constraints deployment))
                        DEFAULT_POSITION_UNCERTAINTY_M in
      found ← mapM (fun pair : string * string =>
                      a ← some_or KeyError (dict_get pair.1 by_role);
                      b ← some_or KeyError (dict_get pair.2 by_role);
                      _pair_conflict mission_id a b required) (later_pairs role_ids);
      match omap id found with
      | [] =>
          plan ← multi_plan (multi_plan_id (JList [JStr mission_id; json_list JStr role_ids]))
                   MultiDronePlanningStatus.NOT_REQUIRED role_ids [] [] None
                   (program_sha256 <$> programs) exact_enumeration_limit starvation_bound_s false
                   "no conflict resolution was required";
          Ret (programs, Some plan)
      | conflicts =>
          let priorities := (fun item => (item.1, DeploymentTaskDefinition.priority item.2)) <$> task_by_role in
          result ← resolve_schedule mission_id programs role_ids by_role priorities conflicts required
                     starvation_bound_s policy exact_enumeration_limit;
          Ret (result.1, Some result.2)
      end.
End multidrone.
