(* ===== verification/Conflicts.v ===== *)
(** * Correctness of deconfliction ([planning/deconfliction.py], [planning/multidrone.py])

    A fleet that a deconfliction plan accepts keeps its separation at every sample
    of the prediction; a plan that is blocked changes nothing; the selection is
    the first feasible candidate for two roles and the best schedule for more. *)

From S2P Require Import Prelude Float64 Effects Contracts Artifacts Trajectory Safety.
From S2P Require Import PlanContracts Routes Deconfliction Multidrone.

Section prediction.
Context `{LM : Libm} `{DG : Digest}.

Implicit Types (a b p : AcceptedExecutionProgram.t) (l : list AcceptedExecutionProgram.t).

(** ** Predictions *)

(** The distances of two programs at the sample times of their prediction are not
    below a bound. *)
Definition keeps_separation (required : float) a b : Prop :=
  exists times,
    sample_times (py_fmax (AcceptedExecutionProgram.schedule_duration_s a)
                    (AcceptedExecutionProgram.schedule_duration_s b)) = Ret times /\
    Forall (fun t => exists d, separation_at a b t = Ret d /\ fltb d required = false) times.

(** The running minimum only goes down, and no sample is below it. *)
Lemma consider_sample_minimum required samples state :
  is_nan state.1.1 = false ->
  let final := foldl (consider_sample required) state samples in
  is_nan final.1.1 = false /\ fltb state.1.1 final.1.1 = false /\
  Forall (fun sample => fltb sample.2 final.1.1 = false) samples.
Proof.
  revert state. induction samples as [|[t d] samples IH]; intros [[m c] ts]; simpl.
  { intros Hm. split_and!; [done|apply fltb_irrefl|constructor]. }
  intros Hm. set (s' := consider_sample required (m, c, ts) (t, d)).
  assert (Hs' : s'.1.1 = if fltb d m then d else m) by (subst s'; simpl; by destruct (fltb d m)).
  destruct (IH s') as (Hn & Hle & Hs); [rewrite Hs'; destruct (fltb d m) eqn:Hd; [|done]|].
  { by destruct (fltb_not_nan _ _ Hd). }
  change (foldl _ _ _) with (foldl (consider_sample required) s' samples).
  generalize dependent (foldl (consider_sample required) s' samples). intros final Hn Hle Hs.
  rewrite Hs' in Hle. clear IH Hs'. split_and!; [done| |constructor; [simpl|done]];
    clear Hs; destruct (fltb d m) eqn:Hd; fsolve.
Qed.

(** A prediction that is separated keeps the separation at every sample. *)
Lemma prediction_separated bound required a b prediction :
  _prediction a b bound = Ret prediction ->
  separated required prediction = true -> keeps_separation required a b.
Proof.
  intros (times & Ht & E)%bind_Ret Hsep. apply bind_Ret in E as (distances & Hd & E).
  exists times. split; [done|]. apply mapM_Ret in Hd.
  destruct (consider_sample_minimum bound (zip times distances) (S754_infinity false, f0, []))
    as (_ & _ & Hmin); [done|].
  destruct (foldl _ _ _) as [[minimum closest] conflicts]. injection E as <-.
  unfold separated in Hsep. simpl in *. clear Ht.
  induction Hd as [|t d times distances Htd _ IH]; [constructor|].
  apply Forall_cons in Hmin as [Hm Hmin]. constructor; [|by apply IH].
  exists d. split; [done|]. simpl in Hm. clear IH Htd. fsolve.
Qed.

Lemma predict_pair_separated l required prediction :
  predict_pair l required = Ret prediction -> separated required prediction = true ->
  exists a b rest, l = a :: b :: rest /\ keeps_separation required a b.
Proof.
  destruct l as [|a [|b rest]]; try done. simpl. intros E Hs.
  exists a, b, rest. split; [done|]. by eapply prediction_separated.
Qed.
End prediction.

(** ** Transformed programs *)

Section candidates.
Context `{LM : Libm} `{DG : Digest}.

Implicit Types (a b p q original changed : AcceptedExecutionProgram.t)
  (l : list AcceptedExecutionProgram.t).

(** [q] is [p] with other operations; its constructor has checked it. *)
Definition version_of p q : Prop :=
  AcceptedExecutionProgram.role_id q = AcceptedExecutionProgram.role_id p /\
  AcceptedExecutionProgram.vehicle_id q = AcceptedExecutionProgram.vehicle_id p /\
  AcceptedExecutionProgram.mission_source_sha256 q = AcceptedExecutionProgram.mission_source_sha256 p /\
  AcceptedExecutionProgram_check q = true.

Lemma rebuild_version p operations q : _rebuild_program p operations = Ret q -> version_of p q.
Proof. intros (final & _ & E)%bind_Ret. by apply checked_Ret in E as [Hv <-]. Qed.

Lemma delay_version p delay_s q : _delay_before_trajectory p delay_s = Ret q -> version_of p q.
Proof.
  intros ([[before trajectory] rest] & _ & E)%bind_Ret. apply bind_Ret in E as (held & _ & E).
  by apply rebuild_version in E.
Qed.

Lemma retime_version p factor q : _retime_program p factor = Ret q -> version_of p q.
Proof. intros (operations & _ & E)%bind_Ret. by apply rebuild_version in E. Qed.

Lemma offset_version p horizontal vertical q : _offset_program p horizontal vertical = Ret q -> version_of p q.
Proof. intros (operations & _ & E)%bind_Ret. by apply rebuild_version in E. Qed.

Lemma version_trans p q r : version_of p q -> version_of q r -> version_of p r.
Proof. unfold version_of. intros (-> & -> & -> & _) (-> & -> & -> & ?). done. Qed.

(** One program of [l] is replaced by a version of itself, and the first two
    programs of the result keep their separation. *)
Definition resolves l (held : string) (required : float) changed l' : Prop :=
  l' = replace_role held changed l /\
  (exists original, original ∈ l /\ AcceptedExecutionProgram.role_id original = held /\
     version_of original changed) /\
  exists a b rest, l' = a :: b :: rest /\ keeps_separation required a b.

Lemma program_of_Ret role l p :
  program_of role l = Ret p -> p ∈ l /\ AcceptedExecutionProgram.role_id p = role.
Proof.
  unfold program_of. destruct (find_first _ _) eqn:E; [|done]. intros [= <-].
  apply find_first_Some in E as [Hin Hr%String.eqb_eq]. done.
Qed.

(** The body that the searches share: the transformed fleet is separated. *)
Lemma resolves_intro l held required original changed prediction :
  original ∈ l -> AcceptedExecutionProgram.role_id original = held -> version_of original changed ->
  predict_pair (replace_role held changed l) required = Ret prediction ->
  separated required prediction = true ->
  resolves l held required changed (replace_role held changed l).
Proof.
  intros Hin Hr Hv Hp Hs. split; [done|]. split; [by exists original|].
  by eapply predict_pair_separated.
Qed.

(** ** The five candidates *)

(** What a feasible candidate of a strategy promises of the changed program. *)
Definition bounded (policy : SafetyPolicy.t) (strategy : ConflictResolutionStrategy.t) changed : Prop :=
  match strategy with
  | ConflictResolutionStrategy.STAGING_HOLD | ConflictResolutionStrategy.SPEED_RETIMING =>
      short_enough policy changed = true
  | _ => _program_admissible changed policy = Ret true
  end.

Section strategies.
Context (l : list AcceptedExecutionProgram.t) (precedence held : string) (required : float)
  (policy : SafetyPolicy.t).

Definition sound (strategy : ConflictResolutionStrategy.t)
    (result : list AcceptedExecutionProgram.t * ResolutionCandidate.t) : Prop :=
  ResolutionCandidate.strategy result.2 = strategy /\
  (ResolutionCandidate.feasible result.2 = true ->
   exists changed, resolves l held required changed result.1 /\ bounded policy strategy changed).

Lemma staging_sound result :
  _staging_candidate l precedence held required policy = Ret result ->
  sound ConflictResolutionStrategy.STAGING_HOLD result.
Proof.
  intros (first & _ & E)%bind_Ret. apply bind_Ret in E as (window & _ & E).
  apply bind_Ret in E as (original & Ho & E). apply bind_Ret in E as (held_window & _ & E).
  cbv zeta in E. apply bind_Ret in E as (delayed & Hd & E). apply bind_Ret in E as (prediction & Hp & E).
  apply bind_Ret in E as (point & _ & E). apply bind_Ret in E as (c & Hc & E). injection E as <-.
  apply checked_Ret in Hc as [_ <-]. split; [done|]. intros [Hs Hl]%andb_true_iff.
  exists delayed. split; [|done]. apply (resolves_intro _ _ _ original _ prediction); try done.
  - destruct (dict_get held _) as [x|] eqn:Hg; [|done]. injection Ho as <-.
    by apply dict_of_values in Hg as (y & Hy & _ & <-).
  - destruct (dict_get held _) as [x|] eqn:Hg; [|done]. injection Ho as <-.
    by apply dict_of_values in Hg as (y & _ & <- & <-).
  - by eapply delay_version.
Qed.

Lemma find_retiming_sound factors found :
  find_retiming l held required policy factors = Ret (Some found) ->
  exists changed, resolves l held required changed found.1.2 /\ short_enough policy changed = true.
Proof.
  induction factors as [|factor factors IH]; simpl; [done|].
  intros (original & Ho & E)%bind_Ret. apply bind_Ret in E as (changed & Hc & E).
  apply bind_Ret in E as (prediction & Hp & E). destruct (_ && _) eqn:Hs; [|by apply IH].
  injection E as <-. apply andb_true_iff in Hs as [Hs Hl]. exists changed. split; [|done].
  apply program_of_Ret in Ho as [Hin Hr].
  apply (resolves_intro _ _ _ original _ prediction); try done. by eapply retime_version.
Qed.

Lemma retiming_sound result :
  _retiming_candidate l precedence held required policy = Ret result ->
  sound ConflictResolutionStrategy.SPEED_RETIMING result.
Proof.
  intros (found & Hf & E)%bind_Ret. cbv zeta in E. apply bind_Ret in E as (added & _ & E).
  apply bind_Ret in E as (digest & _ & E). apply bind_Ret in E as (c & Hc & E). injection E as <-.
  apply checked_Ret in Hc as [_ <-]. split; [done|]. simpl. intros Hs.
  destruct found as [[[factor best] prediction]|]; [|done]. by apply find_retiming_sound in Hf.
Qed.

Lemma find_detour_sound original offsets found :
  original ∈ l -> AcceptedExecutionProgram.role_id original = held ->
  find_detour l held required policy original offsets = Ret (Some found) ->
  exists changed, resolves l held required changed found.1.2 /\
    _program_admissible changed policy = Ret true.
Proof.
  intros Hin Hr. induction offsets as [|offset offsets IH]; simpl; [done|].
  intros (changed & Hc & E)%bind_Ret. apply bind_Ret in E as ([] & Ha & E); simpl in E; [|by apply IH].
  apply bind_Ret in E as (prediction & Hp & E). destruct (separated _ _) eqn:Hs; [|by apply IH].
  injection E as <-. exists changed. split; [|done].
  apply (resolves_intro _ _ _ original _ prediction); try done. by eapply offset_version.
Qed.

Lemma horizontal_sound result :
  _horizontal_candidate l precedence held required policy = Ret result ->
  sound ConflictResolutionStrategy.HORIZONTAL_DETOUR result.
Proof.
  intros (original & [Hin Hr]%program_of_Ret & E)%bind_Ret. apply bind_Ret in E as (found & Hf & E).
  cbv zeta in E. apply bind_Ret in E as (digest & _ & E). apply bind_Ret in E as (c & Hc & E).
  injection E as <-. apply checked_Ret in Hc as [_ <-]. split; [done|]. simpl. intros Hs.
  destruct found as [[[offset best] prediction]|]; [|done]. by apply (find_detour_sound original) in Hf.
Qed.

Lemma vertical_sound result :
  _vertical_candidate l precedence held required policy = Ret result ->
  sound ConflictResolutionStrategy.VERTICAL_SEPARATION result.
Proof.
  intros (original & [Hin Hr]%program_of_Ret & E)%bind_Ret. apply bind_Ret in E as (shifted & Hs & E).
  apply bind_Ret in E as (inside & Ha & E). cbv zeta in E. apply bind_Ret in E as (prediction & Hp & E).
  apply bind_Ret in E as (c & Hc & E). injection E as <-. apply checked_Ret in Hc as [_ <-].
  split; [done|]. simpl. destruct prediction as [prediction|]; [|done]. intros Hsep. rewrite Hsep.
  destruct inside; [|done]. apply fmap_Ret in Hp as (x & Hp & [= ->]).
  exists shifted. split; [|done].
  apply (resolves_intro _ _ _ original _ prediction); try done. by eapply offset_version.
Qed.

Lemma find_combined_sound original choices found :
  original ∈ l -> AcceptedExecutionProgram.role_id original = held ->
  find_combined l held required policy original choices = Ret (Some found) ->
  exists changed, resolves l held required changed found.1.2 /\
    _program_admissible changed policy = Ret true.
Proof.
  intros Hin Hr. induction choices as [|[factor offset] choices IH]; simpl; [done|].
  intros (retimed & Ht & E)%bind_Ret. apply bind_Ret in E as (changed & Hc & E).
  apply bind_Ret in E as ([] & Ha & E); simpl in E; [|by apply IH].
  apply bind_Ret in E as (prediction & Hp & E). destruct (separated _ _) eqn:Hs; [|by apply IH].
  injection E as <-. exists changed. split; [|done].
  apply (resolves_intro _ _ _ original _ prediction); try done.
  eapply version_trans; [by eapply retime_version|by eapply offset_version].
Qed.

Lemma combined_sound result :
  _combined_candidate l precedence held required policy = Ret result ->
  sound ConflictResolutionStrategy.COMBINED_RETIMING_VERTICAL result.
Proof.
  intros (original & [Hin Hr]%program_of_Ret & E)%bind_Ret. apply bind_Ret in E as (found & Hf & E).
  cbv zeta in E. apply bind_Ret in E as (c & Hc & E).
  injection E as <-. apply checked_Ret in Hc as [_ <-]. split; [done|]. simpl. intros Hs.
  destruct found as [[[[factor offset] best] prediction]|]; [|done].
  by apply (find_combined_sound original) in Hf.
Qed.

Lemma candidate_sound strategy result :
  candidate_of l precedence held required policy strategy = Ret result -> sound strategy result.
Proof.
  destruct strategy; simpl.
  - apply staging_sound.
  - apply retiming_sound.
  - apply horizontal_sound.
  - apply vertical_sound.
  - apply combined_sound.
Qed.
End strategies.
End candidates.

(** ** The plan for two crossing roles *)

Lemma find_first_index {A} (f : A -> bool) (l : list A) k i a :
  find_first (fun item => f item.2) (imap (fun j => pair (k + j)%nat) l) = Some (i, a) ->
  exists j, i = (k + j)%nat /\ l !! j = Some a /\ f a = true /\ Forall (fun x => f x = false) (take j l).
Proof.
  revert k. induction l as [|x l IH]; intros k; [done|]. cbn. rewrite Nat.add_0_r.
  destruct (f x) eqn:Hx.
  - intros [= <- <-]. exists 0%nat. split_and!; [lia|done|done|constructor].
  - intros E. destruct (IH (S k)) as (j & -> & Hj & Hf & Ha).
    { rewrite <-E. f_equal. apply imap_ext. intros m y _. simpl. by rewrite <-Nat.add_succ_r. }
    exists (S j). split_and!; [lia|done|done|by constructor].
Qed.

Lemma find_first_none_index {A} (f : A -> bool) (l : list A) :
  find_first (fun item => f item.2) (imap pair l) = None -> Forall (fun x => f x = false) l.
Proof.
  rewrite find_first_None. intros H. apply Forall_forall. intros x Hx.
  apply list_elem_of_lookup in Hx as [i Hi]. rewrite Forall_forall in H. apply (H (i, x)).
  apply list_elem_of_lookup. exists i. by rewrite list_lookup_imap, Hi.
Qed.

Section crossing.
Context `{LM : Libm} `{DG : Digest}.

Implicit Types (l : list AcceptedExecutionProgram.t) (plan : FleetDeconflictionPlan.t)
  (policy : SafetyPolicy.t).

(** The separation that the planner requires *)
Definition required_separation (deployment : DeploymentManifest.t) : float :=
  fadd (FleetConstraints.warning_separation_m (DeploymentManifest.constraints deployment))
    DEFAULT_POSITION_UNCERTAINTY_M.

(** The plan selects the first feasible one of its candidates. *)
Definition selects_first plan (strategy : ConflictResolutionStrategy.t) : Prop :=
  exists i c, FleetDeconflictionPlan.candidates plan !! i = Some c /\
    ResolutionCandidate.feasible c = true /\ ResolutionCandidate.strategy c = strategy /\
    Forall (fun c' => ResolutionCandidate.feasible c' = false) (take i (FleetDeconflictionPlan.candidates plan)) /\
    FleetDeconflictionPlan.selected_candidate_index plan = Some (Z.of_nat i) /\
    FleetDeconflictionPlan.selected_strategy plan = Some strategy.

Definition names_programs plan l : Prop :=
  FleetDeconflictionPlan.selected_program_sha256s plan = program_sha256 <$> l.

Definition infeasible plan : Prop :=
  Forall (fun c => ResolutionCandidate.feasible c = false) (FleetDeconflictionPlan.candidates plan).

(** What a plan and the programs that come with it promise. *)
Definition plan_keeps_promise required policy (allowed : list ConflictResolutionStrategy.t) l l' plan : Prop :=
  match FleetDeconflictionPlan.status plan with
  | DeconflictionStatus.NOT_REQUIRED =>
      l' = l /\ names_programs plan l /\
      exists a b, a ∈ l /\ b ∈ l /\
        AcceptedExecutionProgram.role_id a <> AcceptedExecutionProgram.role_id b /\
        keeps_separation required a b
  | DeconflictionStatus.RESOLVED =>
      exists held changed strategy,
        resolves l held required changed l' /\ bounded policy strategy changed /\
        strategy ∈ allowed /\ selects_first plan strategy /\ names_programs plan l'
  | DeconflictionStatus.BLOCKED => l' = l /\ infeasible plan
  end.

Lemma blocked_plan_Ret mission candidates reason conflict plan :
  _blocked_plan mission candidates reason conflict = Ret plan ->
  Forall (fun c => ResolutionCandidate.feasible c = false) candidates ->
  FleetDeconflictionPlan.status plan = DeconflictionStatus.BLOCKED /\ infeasible plan.
Proof.
  intros (candidates' & Hc & E)%bind_Ret Hf. apply checked_Ret in E as [_ <-]. split; [done|].
  unfold infeasible. simpl. destruct candidates as [|c cs]; [|by injection Hc as <-].
  apply bind_Ret in Hc as (c & Hc & [= <-]). apply checked_Ret in Hc as [_ <-]. by repeat constructor.
Qed.

Lemma resolve_conflict_sound mission l precedence held required policy allowed conflict l' plan :
  resolve_conflict mission l precedence held required policy allowed conflict = Ret (l', plan) ->
  plan_keeps_promise required policy allowed l l' plan.
Proof.
  intros (tried & Ht & E)%bind_Ret. apply mapM_Ret in Ht.
  destruct (selected_candidate tried) as [[index [selected c]]|] eqn:Hsel.
  - apply bind_Ret in E as (p & Hp & [= <- <-]). apply checked_Ret in Hp as [_ <-].
    apply (find_first_index (fun x => ResolutionCandidate.feasible x.2) tried 0%nat) in Hsel
      as (j & -> & Hj & Hf & Hearlier).
    destruct (Forall2_lookup_r _ _ _ _ _ Ht Hj) as (strategy & Hs & Hc).
    assert (Hallowed : strategy ∈ allowed).
    { apply list_elem_of_lookup_2, list_elem_of_filter in Hs as [? _]. done. }
    apply candidate_sound in Hc as [Hstrategy Hsound]. simpl in *.
    destruct (Hsound Hf) as (changed & Hres & Hb).
    exists held, changed, strategy. repeat (split; [done|]). split; [|done].
    exists j, c. cbn. rewrite list_lookup_fmap, Hj, Hstrategy. repeat (split; [done|]).
    split; [|done]. rewrite <-fmap_take. by apply Forall_fmap.
  - apply bind_Ret in E as (p & Hp & [= <- <-]).
    apply blocked_plan_Ret in Hp as [Hstatus Hin].
    + unfold plan_keeps_promise. by rewrite Hstatus.
    + apply Forall_fmap. exact (find_first_none_index (fun x => ResolutionCandidate.feasible x.2) _ Hsel).
Qed.

Lemma crossing_plan_sound mission deployment l policy allowed l' plan :
  plan_crossing_deconfliction mission deployment l policy allowed = Ret (l', Some plan) ->
  plan_keeps_promise (required_separation deployment) policy allowed l l' plan.
Proof.
  unfold plan_crossing_deconfliction. destruct (py_sorted _ _) as [|[r1 t1] [|[r2 t2] [|]]] eqn:Hroles;
    try done. cbv zeta.
  assert (Hne : r1 <> r2).
  { intros ->. pose proof (dict_of_wf DeploymentTaskDefinition.task_id id
      (filter (fun task => DeploymentTaskDefinition.task_type task = "crossing-route")
         (DeploymentManifest.tasks deployment))) as Hwf.
    unfold dict_wf, dict_keys in Hwf. fold (tasks_of "crossing-route" deployment) in Hwf.
    rewrite <-(py_sorted_perm (fun a b => str_ltb a.1 b.1)) in Hwf. rewrite Hroles in Hwf.
    by apply NoDup_cons in Hwf as [[]%not_elem_of_cons _]. }
  assert (Hblocked : forall reason,
    (plan ← _blocked_plan mission [] reason None; Ret (l, Some plan)) = Ret (l', Some plan) ->
    plan_keeps_promise (required_separation deployment) policy allowed l l' plan).
  { intros reason (p & Hp & [= <- <-])%bind_Ret. apply blocked_plan_Ret in Hp as [Hs Hi]; [|constructor].
    unfold plan_keeps_promise. by rewrite Hs. }
  case_bool_decide; simpl; [|by apply Hblocked].
  intros (first & H1 & E)%bind_Ret. apply bind_Ret in E as (second & H2 & E).
  destruct (one_trajectory first && one_trajectory second); simpl in E; [|by eapply Hblocked].
  apply bind_Ret in E as (predicted & Hp & E).
  destruct (separated _ predicted) eqn:Hs.
  - apply bind_Ret in E as (p & Hplan & [= <- <-]). apply checked_Ret in Hplan as [_ <-].
    split; [done|]. split; [done|]. exists first, second.
    destruct (dict_get r1 _) eqn:G1; [injection H1 as ->|done].
    destruct (dict_get r2 _) eqn:G2; [injection H2 as ->|done].
    apply dict_of_values in G1 as (x & Hx & Hr1 & <-), G2 as (y & Hy & Hr2 & <-).
    unfold id in *. split_and!; [done|done|congruence|by eapply prediction_separated].
  - apply bind_Ret in E as (conflict & _ & E). destruct (precedence_of t1 t2) as [precedence held].
    apply bind_Ret in E as ([l2 p] & Hr & [= <- <-]). by apply resolve_conflict_sound in Hr.
Qed.

(** C28: a deconfliction plan for two crossing roles keeps its promise. When it is
    not required, the two programs keep the required separation (the warning
    distance and the position uncertainty) at every sample of the prediction and
    nothing is changed; when it is resolved, one program is replaced by a version
    of itself with the same role, vehicle and source, the fleet keeps the required
    separation at every sample, the change obeys the bound of its strategy, and the
    strategy is an allowed one and the first feasible of the candidates; when it is
    blocked, nothing is changed and no candidate is feasible. *)
Theorem crossing_plan_is_sound mission deployment l policy allowed l' plan :
  plan_crossing_deconfliction mission deployment l policy allowed = Ret (l', Some plan) ->
  plan_keeps_promise (required_separation deployment) policy allowed l l' plan.
Proof. apply crossing_plan_sound. Qed.
End crossing.

(** ** Orders of precedence *)

Lemma elem_of_picks {A} before (l : list A) a rest :
  (a, rest) ∈ picks before l <-> exists l1 l2, l = l1 ++ a :: l2 /\ rest = before ++ l1 ++ l2.
Proof.
  revert before. induction l as [|x l IH]; intros before; simpl.
  { split; [by intros ?%not_elem_of_nil|]. intros (l1 & l2 & Hl & _). by destruct l1. }
  rewrite elem_of_cons, IH. split.
  - intros [[= -> ->]|(l1 & l2 & -> & ->)]; [by exists [], l|].
    exists (x :: l1), l2. split; [done|]. by rewrite <-app_assoc.
  - intros (l1 & l2 & Hl & ->). destruct l1 as [|y l1]; simplify_eq/=; [by left|].
    right. exists l1, l2. split; [done|]. by rewrite <-app_assoc.
Qed.

Lemma elem_of_orders {A} n (l o : list A) : length l = n -> (o ∈ orders_of n l <-> o ≡ₚ l).
Proof.
  revert l o. induction n as [|n IH]; intros l o Hn; simpl.
  { destruct l; [|done]. rewrite list_elem_of_singleton. split; [by intros ->|apply Permutation_nil_r]. }
  rewrite list_elem_of_bind. split.
  - intros ([a rest] & Ho & Hp). apply elem_of_picks in Hp as (l1 & l2 & -> & ->). simpl in Ho.
    apply list_elem_of_fmap in Ho as (o' & -> & Ho'). apply IH in Ho'.
    + rewrite Ho'. by rewrite Permutation_middle.
    + rewrite length_app in *. simpl in Hn. lia.
  - intros Ho. destruct o as [|a o'].
    { apply Permutation_length in Ho. simpl in Ho. lia. }
    assert (Hin : a ∈ l) by (rewrite <-Ho; left).
    apply list_elem_of_split in Hin as (l1 & l2 & ->). exists (a, l1 ++ l2). simpl. split.
    + apply list_elem_of_fmap. exists o'. split; [done|]. apply IH.
      * rewrite length_app in *. simpl in Hn. lia.
      * rewrite <-Permutation_middle in Ho. by apply Permutation_cons_inv in Ho.
    + apply elem_of_picks. by exists l1, l2.
Qed.

(** The enumeration tries every order. *)
Lemma elem_of_permutations {A} (l o : list A) : o ∈ permutations l <-> o ≡ₚ l.
Proof. by apply elem_of_orders. Qed.

(** ** The order of schedules *)

(** The laws of an order on the elements of a predicate *)
Record order_on {A} (P : A -> Prop) (lt : A -> A -> bool) : Prop := {
  oo_irrefl : forall x, P x -> lt x x = false;
  oo_neg_trans : forall x y z, P x -> P y -> P z -> lt x y = false -> lt y z = false -> lt x z = false;
  oo_asym : forall x y, P x -> P y -> lt x y = true -> lt y x = false;
}.

Lemma order_on_least {A} (P : A -> Prop) lt (l : list A) m x :
  order_on P lt -> Forall P l -> py_min lt l = Some m -> x ∈ l -> lt x m = false.
Proof. intros []. by apply (py_min_le lt P). Qed.

Lemma order_on_key {A B} (key : A -> B) (P : B -> Prop) lt :
  order_on P lt -> order_on (fun x => P (key x)) (fun x y => lt (key x) (key y)).
Proof. intros [H1 H2 H3]. split; eauto. Qed.

Lemma strings_order : order_on (fun _ => True) strings_ltb.
Proof.
  split.
  - intros x _. induction x as [|a x IH]; [done|]. simpl. by rewrite String.eqb_refl.
  - intros x y z _ _ _. revert y z. induction x as [|a x IH]; intros [|b y] [|c z]; simpl; try done.
    destruct (String.eqb_spec a b) as [Hab|Hab], (String.eqb_spec b c) as [Hbc|Hbc],
      (String.eqb_spec a c) as [Hac|Hac]; subst; try done; eauto.
    + intros H1 H2. by destruct Hab; apply str_ltb_total.
    + apply wo_neg_trans.
  - intros x y _ _. revert y. induction x as [|a x IH]; intros [|b y]; simpl; try done.
    destruct (String.eqb_spec a b) as [->|Hab].
    + rewrite String.eqb_refl. apply IH.
    + intros H. destruct (String.eqb_spec b a); [done|].
      apply not_true_iff_false. intros H'. pose proof (str_ltb_trans _ _ _ H H') as Ha.
      by rewrite str_ltb_irrefl in Ha.
Qed.

Lemma lex_Z_order {B} (P : B -> Prop) lt : order_on P lt -> order_on (fun p => P p.2) (lex_Z_ltb lt).
Proof.
  intros [H1 H2 H3]. unfold lex_Z_ltb. split.
  - intros [a b] Hb. simpl. rewrite Z.eqb_refl. by apply H1.
  - intros [a x] [b y] [c z]; simpl. intros Hx Hy Hz.
    destruct (Z.eqb_spec a b), (Z.eqb_spec b c), (Z.eqb_spec a c); subst; rewrite ?Z.ltb_ge; try lia;
      eauto; intros; lia.
  - intros [a x] [b y]; simpl. intros Hx Hy.
    destruct (Z.eqb_spec a b) as [->|]; [rewrite Z.eqb_refl; by apply H3|].
    destruct (Z.eqb_spec b a); [lia|]. rewrite Z.ltb_lt, Z.ltb_ge. lia.
Qed.

Lemma lex_float_order {B} (P : B -> Prop) lt :
  order_on P lt -> order_on (fun p => is_nan p.1 = false /\ P p.2) (lex_ltb lt).
Proof.
  intros [H1 H2 H3].
  assert (Hspec : forall p q : float * B, is_nan p.1 = false -> is_nan q.1 = false ->
    lex_ltb lt p q = true <-> key_lt (fkey p.1) (fkey q.1) \/ (fkey p.1 = fkey q.1 /\ lt p.2 q.2 = true)).
  { intros p q Hp Hq. unfold lex_ltb. pose proof (feqb_spec p.1 q.1) as He.
    pose proof (fltb_spec p.1 q.1) as Hl. destruct (feqb p.1 q.1).
    - destruct He as [He _]. destruct (He eq_refl) as (_ & _ & ->).
      destruct (fkey q.1) as [[a b] c]. unfold key_lt. intuition lia.
    - rewrite Hl. split; [intuition|]. intros [H|[H _]]; [done|].
      destruct He as [_ He]. by discriminate (He (conj Hp (conj Hq H))). }
  split.
  - intros p [Hp HP]. apply not_true_iff_false. rewrite Hspec by done. rewrite H1 by done.
    destruct (fkey p.1) as [[??]?]. unfold key_lt. intuition (try lia; done).
  - intros p q r [Hp HP] [Hq HQ] [Hr HR]. rewrite <-!not_true_iff_false, !Hspec by done.
    intros N1 N2 N3.
    destruct (lt p.2 q.2) eqn:E1, (lt q.2 r.2) eqn:E2, (lt p.2 r.2) eqn:E3;
      try (pose proof (H2 _ _ _ HP HQ HR E1 E2));
      destruct (fkey p.1) as [[a b] c], (fkey q.1) as [[a' b'] c'], (fkey r.1) as [[a2 b2] c2];
      unfold key_lt in *; rewrite ?pair_equal_spec in *; intuition (try congruence; try lia).
  - intros p q [Hp HP] [Hq HQ]. rewrite <-not_true_iff_false, !Hspec by done.
    intros [H|[Hk H]] [H'|[Hk' H']].
    1-3: destruct (fkey p.1) as [[??]?], (fkey q.1) as [[??]?]; unfold key_lt in *; simplify_eq; lia.
    by rewrite (H3 _ _ HP HQ H) in H'.
Qed.

(** Schedules whose waits are numbers are ordered by their keys. *)
Definition proper_key (k : schedule_key) : Prop :=
  is_nan k.2.1 = false /\ is_nan k.2.2.1 = false /\ is_nan k.2.2.2.1 = false /\ True.

Lemma schedule_order : order_on proper_key schedule_ltb.
Proof.
  exact (lex_Z_order _ _ (lex_float_order _ _ (lex_float_order _ _ (lex_float_order _ _ strings_order)))).
Qed.

Lemma ge0_not_nan x : ge0 x = true -> is_nan x = false.
Proof. by intros [_ ?]%fleb_not_nan. Qed.

Lemma candidate_key_proper c : MultiDroneScheduleCandidate_valid c = true -> proper_key (key_of_candidate c).
Proof.
  unfold MultiDroneScheduleCandidate_valid. intros Hv. bool_to_prop. unfold proper_key. simpl.
  repeat split; by apply ge0_not_nan.
Qed.

(** ** Joint schedules *)

Section schedules.
Context `{LM : Libm} `{DG : Digest}.

Implicit Types (a b p q : AcceptedExecutionProgram.t) (l : list AcceptedExecutionProgram.t)
  (policy : SafetyPolicy.t) (scheduled : list (string * AcceptedExecutionProgram.t)).

(** The same operation, under another number and later by a delay *)
Definition moved_by (delay_s : float) (n : Z) (o o' : ExecutionOperation.t) : Prop :=
  ExecutionOperation.sequence o' = n /\
  ExecutionOperation.starts_at_s o' = fadd (ExecutionOperation.starts_at_s o) delay_s /\
  ExecutionOperation.ends_at_s o' = fadd (ExecutionOperation.ends_at_s o) delay_s /\
  match o, o' with
  | ExecutionOperation.Takeoff _ _ _ h, ExecutionOperation.Takeoff _ _ _ h' => h' = h
  | ExecutionOperation.GroundWait _ _ _, ExecutionOperation.GroundWait _ _ _ => True
  | ExecutionOperation.Hold _ _ _, ExecutionOperation.Hold _ _ _ => True
  | ExecutionOperation.Trajectory _ _ _ sha t, ExecutionOperation.Trajectory _ _ _ sha' t' => sha' = sha /\ t' = t
  | ExecutionOperation.Land _ _ _ h goal, ExecutionOperation.Land _ _ _ h' goal' => h' = h /\ goal' = goal
  | _, _ => False
  end.

(** [q] is [p] after a wait on the ground: the wait that [p] begins with made longer, or
    a new one, and then the other operations, numbered from two and later by the wait. *)
Definition delayed_by (delay_s : float) p q : Prop :=
  version_of p q /\
  AcceptedExecutionProgram.contingency_reserve_s q = AcceptedExecutionProgram.contingency_reserve_s p /\
  AcceptedExecutionProgram.recovery_reserve_s q = AcceptedExecutionProgram.recovery_reserve_s p /\
  AcceptedExecutionProgram.clock q = AcceptedExecutionProgram.clock p /\
  (exists final, last (AcceptedExecutionProgram.operations q) = Some final /\
     AcceptedExecutionProgram.schedule_duration_s q = ExecutionOperation.ends_at_s final) /\
  exists wait rest moved, AcceptedExecutionProgram.operations q = wait :: moved /\
    ((exists n s e, AcceptedExecutionProgram.operations p = ExecutionOperation.GroundWait n s e :: rest /\
        wait = ExecutionOperation.GroundWait n s (fadd e delay_s)) \/
     (AcceptedExecutionProgram.operations p = rest /\ wait = ExecutionOperation.GroundWait 1 f0 delay_s)) /\
    length moved = length rest /\
    forall i o o', rest !! i = Some o -> moved !! i = Some o' -> moved_by delay_s (Z.of_nat i + 2) o o'.

(** A program flown after a wait *)
Definition flown_after (wait_s : float) p q : Prop :=
  (feqb wait_s f0 = true /\ q = p) \/ (fltb f0 wait_s = true /\ delayed_by wait_s p q).

Lemma with_schedule_moved o n delay_s :
  moved_by delay_s n o (with_schedule o n (fadd (ExecutionOperation.starts_at_s o) delay_s)
                          (fadd (ExecutionOperation.ends_at_s o) delay_s)).
Proof. by destruct o. Qed.

Lemma rebuild_delayed p delay_s wait rest q :
  _rebuild_program p (wait :: imap (fun index o => with_schedule o (Z.of_nat index + 2)
      (fadd (ExecutionOperation.starts_at_s o) delay_s) (fadd (ExecutionOperation.ends_at_s o) delay_s)) rest)
    = Ret q ->
  ((exists n s e, AcceptedExecutionProgram.operations p = ExecutionOperation.GroundWait n s e :: rest /\
      wait = ExecutionOperation.GroundWait n s (fadd e delay_s)) \/
   (AcceptedExecutionProgram.operations p = rest /\ wait = ExecutionOperation.GroundWait 1 f0 delay_s)) ->
  delayed_by delay_s p q.
Proof.
  intros E Hwait. pose proof (rebuild_version _ _ _ E) as Hv.
  apply bind_Ret in E as (final & Hf%some_or_Ret & E). apply checked_Ret in E as [_ <-].
  split; [exact Hv|]. cbn. repeat (split; [done|]). split; [by exists final|].
  eexists wait, rest, _. split; [done|]. split; [done|]. split; [apply length_imap|].
  intros i o o' Ho. rewrite list_lookup_imap, Ho. intros [= <-]. apply with_schedule_moved.
Qed.

Lemma launch_delayed p delay_s q :
  fltb f0 delay_s = true -> delay_program_before_trajectory p delay_s = Ret q -> delayed_by delay_s p q.
Proof.
  intros Hd. unfold delay_program_before_trajectory, _delay_before_launch.
  destruct (fleb delay_s f0) eqn:Hle.
  { pose proof (fltb_fleb_trans _ _ _ Hd Hle) as H. by rewrite fltb_irrefl in H. }
  intros (operations & Hops & E)%bind_Ret. destruct operations as [|wait rest]; [done|].
  apply rebuild_delayed in E; [done|].
  destruct (AcceptedExecutionProgram.operations p) as [|[] ops]; [done|..].
  all: first [ by injection Hops as <- <-; left; eexists _, _, _
             | apply bind_Ret in Hops as (w & [_ <-]%checked_Ret & [= <- <-]); by right ].
Qed.

(** Every entry of a schedule is the program of its role, flown after its wait. *)
Definition scheduled_ok l scheduled (waits : dict float) : Prop :=
  dict_wf scheduled /\
  forall role p, dict_get role scheduled = Some p ->
    AcceptedExecutionProgram.role_id p = role /\
    exists original wait_s, original ∈ l /\ AcceptedExecutionProgram.role_id original = role /\
      dict_get role waits = Some wait_s /\ flown_after wait_s original p.

Lemma schedule_role_ok l index role scheduled waits clear state' :
  schedule_role (dict_of AcceptedExecutionProgram.role_id id l) index role (scheduled, waits, clear)
    = Ret state' ->
  scheduled_ok l scheduled waits ->
  scheduled_ok l state'.1.1 state'.1.2 /\
  (forall r, r ∈ dict_keys state'.1.1 <-> r = role \/ r ∈ dict_keys scheduled).
Proof.
  intros (p & Hp & E)%bind_Ret [Hwf Hok]. apply bind_Ret in E as (window & _ & E). cbv zeta in E.
  apply bind_Ret in E as (q & Hq & E). apply bind_Ret in E as (window' & _ & [= <-]).
  destruct (dict_get role _) as [x|] eqn:Hg; [injection Hp as ->|done].
  apply dict_of_values in Hg as (y & Hy & Hr & Hid). unfold id in Hid. subst p.
  set (wait_s := if (index =? 0)%nat then f0 else _) in *.
  assert (Hsign : feqb wait_s f0 = true \/ fltb f0 wait_s = true).
  { subst wait_s. destruct (index =? 0)%nat; [by left|]. unfold py_fmax. destruct (fltb f0 _) eqn:Hw; [by right|by left]. }
  assert (Hv : flown_after wait_s y q).
  { destruct (feqb wait_s f0) eqn:Hz; [injection Hq as <-; by left|].
    destruct Hsign as [?|Hpos]; [done|]. right. split; [done|]. by apply launch_delayed. }
  clearbody wait_s. cbn [fst snd]. split; [split|].
  - by apply dict_set_wf.
  - intros r p. rewrite !dict_get_set. case_decide as Hrr; [|by apply Hok]. intros [= <-]. subst r.
    split; [|by exists y, wait_s]. destruct Hv as [[_ ->]|(_ & (-> & _) & _)]; done.
  - intros r. apply elem_of_dict_keys_set.
Qed.

Lemma schedule_roles_ok l index order state state' :
  schedule_roles (dict_of AcceptedExecutionProgram.role_id id l) index order state = Ret state' ->
  scheduled_ok l state.1.1 state.1.2 ->
  scheduled_ok l state'.1.1 state'.1.2 /\
  (forall r, r ∈ dict_keys state'.1.1 <-> r ∈ order \/ r ∈ dict_keys state.1.1).
Proof.
  revert index state. induction order as [|role order IH]; intros index state E Hok; simpl in E.
  { injection E as <-. split; [done|]. set_solver. }
  apply bind_Ret in E as (mid & Hmid & E). destruct state as [[scheduled waits] clear].
  apply schedule_role_ok in Hmid as [Hok' Hk]; [|done]. apply IH in E as [Hok'' Hk']; [|done].
  split; [done|]. intros r. rewrite Hk', Hk. set_solver.
Qed.

(** The least of the separations is a number, and no separation is below it. *)
Lemma least_separation (xs : list float) m :
  is_nan m = false -> Forall (fun x => is_nan x = false) xs ->
  let least := foldl py_fmin m xs in
  is_nan least = false /\ fleb least m = true /\ Forall (fun x => fleb least x = true) xs.
Proof.
  revert m. induction xs as [|x xs IH]; intros m Hm; simpl.
  { intros _. split_and!; [done|by apply fleb_refl|constructor]. }
  intros [Hx Hxs]%Forall_cons.
  assert (Hn : is_nan (py_fmin m x) = false) by (unfold py_fmin; by case_match).
  destruct (IH _ Hn Hxs) as (Hl & Hle & Hall). split_and!; [done| |constructor; [|done]].
  - eapply fleb_trans; [exact Hle|]. by apply py_fmin_le_l.
  - eapply fleb_trans; [exact Hle|]. unfold py_fmin. case_match; [by apply fleb_refl|]. fsolve.
Qed.

Lemma predicted_minimum a b m :
  predict_program_minimum_separation a b = Ret m ->
  is_nan m.1 = false /\ (forall required, fleb required m.1 = true -> keeps_separation required a b).
Proof.
  intros (prediction & Hp & [= <-])%bind_Ret. simpl. split.
  - unfold _prediction in Hp. apply bind_Ret in Hp as (times & _ & Hp).
    apply bind_Ret in Hp as (distances & _ & Hp).
    destruct (consider_sample_minimum (flit 1 1000) (zip times distances) (S754_infinity false, f0, []))
      as (Hn & _); [done|].
    destruct (foldl _ _ _) as [[minimum closest] conflicts]. by injection Hp as <-.
  - intros required Hr. by eapply prediction_separated.
Qed.

(** What a feasible schedule promises. *)
Definition schedule_keeps l (order : list string) (required starvation : float) policy
    scheduled_programs (c : MultiDroneScheduleCandidate.t) : Prop :=
  AcceptedExecutionProgram.role_id <$> scheduled_programs ≡ₚ order /\
  Forall (fun p => exists original wait_s, original ∈ l /\
            AcceptedExecutionProgram.role_id original = AcceptedExecutionProgram.role_id p /\
            dict_get (AcceptedExecutionProgram.role_id p)
              (MultiDroneScheduleCandidate.planned_hold_s_by_role c) = Some wait_s /\
            flown_after wait_s original p /\ fltb starvation wait_s = false) scheduled_programs /\
  Forall (fun pair => exists a b, a ∈ scheduled_programs /\ b ∈ scheduled_programs /\
            AcceptedExecutionProgram.role_id a = pair.1 /\ AcceptedExecutionProgram.role_id b = pair.2 /\
            keeps_separation required a b) (later_pairs order) /\
  Forall (fun p => fltb (SafetyPolicy.max_mission_duration_s policy)
                     (AcceptedExecutionProgram.schedule_duration_s p) = false) scheduled_programs.

(** The programs of a schedule, sorted by role *)
Lemma scheduled_programs_roles l scheduled waits keys ps :
  scheduled_ok l scheduled waits ->
  mapM (fun role_id => some_or KeyError (dict_get role_id scheduled)) keys = Ret ps ->
  AcceptedExecutionProgram.role_id <$> ps = keys /\
  Forall (fun p => p ∈ dict_values scheduled /\
            dict_get (AcceptedExecutionProgram.role_id p) scheduled = Some p) ps.
Proof.
  intros [_ Hok] Hm%mapM_Ret. induction Hm as [|role p keys ps Hp _ (IH1 & IH2)]; [done|].
  apply some_or_Ret in Hp. pose proof (Hok _ _ Hp) as [Hr _].
  split; [rewrite fmap_cons; by f_equal|constructor; [|done]]. rewrite Hr.
  split; [by eapply dict_get_values|done].
Qed.

Lemma schedule_candidate_sound l index order strategy priorities required starvation policy ps c :
  NoDup order ->
  _schedule_candidate index order strategy (dict_of AcceptedExecutionProgram.role_id id l) priorities
    required starvation policy = Ret (ps, c) ->
  MultiDroneScheduleCandidate_valid c = true /\
  MultiDroneScheduleCandidate.precedence_order c = order /\
  MultiDroneScheduleCandidate.strategy c = strategy /\
  (MultiDroneScheduleCandidate.feasible c = true ->
   schedule_keeps l order required starvation policy ps c).
Proof.
  intros Hnd E. unfold _schedule_candidate in E.
  apply bind_Ret in E as ([[scheduled waits] clear] & Hs & E).
  apply bind_Ret in E as (separations & Hsep & E). cbv zeta in E.
  apply bind_Ret in E as (penalties & _ & E). apply bind_Ret in E as (ordered & Ho & E).
  apply bind_Ret in E as (c' & Hc & [= <- <-]). apply checked_Ret in Hc as [Hv <-].
  apply schedule_roles_ok in Hs as [Hok Hkeys]; [|by split; [constructor|]]. simpl in Hok, Hkeys.
  pose proof (scheduled_programs_roles _ _ _ _ _ Hok Ho) as (Hroles & Hvalues).
  assert (Hperm : dict_keys scheduled ≡ₚ order).
  { apply NoDup_Permutation; [apply Hok|done|]. intros r. rewrite Hkeys.
    split; [|by left]. intros [?|[]%not_elem_of_nil]. done. }
  split_and!; [done|done|done|]. simpl. intros Hf. rewrite !andb_true_iff in Hf.
  destruct Hf as [[Hmin Hst%bool_decide_eq_true] Hdur%negb_true_iff].
  assert (Hbound : forall item, item ∈ waits -> fltb starvation item.2 = false).
  { intros item Hitem. apply not_true_iff_false. intros Hlt.
    assert (Hin : item.1 ∈ py_sorted str_ltb (dict_keys
              (filter (fun item => fltb starvation item.2 = true) waits))).
    { rewrite elem_of_py_sorted. apply list_elem_of_fmap. exists item. split; [done|].
      apply list_elem_of_filter. done. }
    rewrite Hst in Hin. by apply not_elem_of_nil in Hin. }
  split; [by rewrite Hroles, py_sorted_perm|]. split; [|split].
  - eapply Forall_impl; [exact Hvalues|]. intros p [_ Hp]. simpl.
    destruct (proj2 Hok _ _ Hp) as (_ & original & wait_s & Hin & Hr & Hw & Hfl).
    exists original, wait_s. split_and!; try done. exact (Hbound _ (dict_get_elem _ _ _ Hw)).
  - apply mapM_Ret in Hsep. apply Forall_forall. intros pair Hpair.
    apply list_elem_of_lookup in Hpair as [i Hi].
    destruct (Forall2_lookup_l _ _ _ _ _ Hsep Hi) as (x & Hx & Hpx).
    assert (Hnan : Forall (fun x => is_nan x = false) separations).
    { apply Forall_forall. intros y Hy. apply list_elem_of_lookup in Hy as [j Hj].
      destruct (Forall2_lookup_r _ _ _ _ _ Hsep Hj) as (pr & _ & Hpr).
      unfold pair_separation in Hpr. apply bind_Ret in Hpr as (a & _ & Hpr).
      apply bind_Ret in Hpr as (b & _ & Hpr). apply bind_Ret in Hpr as (m & Hm & [= <-]).
      by apply predicted_minimum in Hm as [? _]. }
    destruct (least_separation separations (S754_infinity false)) as (_ & _ & Hall); [done|done|].
    rewrite Forall_forall in Hall. pose proof (Hall x (list_elem_of_lookup_2 _ _ _ Hx)) as Hle.
    unfold pair_separation in Hpx. apply bind_Ret in Hpx as (a & Ha%some_or_Ret & Hpx).
    apply bind_Ret in Hpx as (b & Hb%some_or_Ret & Hpx). apply bind_Ret in Hpx as (m & Hm & [= <-]).
    assert (Hin : forall r p, dict_get r scheduled = Some p -> p ∈ ordered).
    { intros r p Hg. apply mapM_Ret in Ho.
      assert (Hr : r ∈ py_sorted str_ltb (dict_keys scheduled)).
      { rewrite elem_of_py_sorted. apply dec_stable. intros Hn. apply dict_get_None in Hn. congruence. }
      destruct (Forall2_elem_l _ _ _ _ Ho Hr) as (q & Hq & Hgq%some_or_Ret). congruence. }
    exists a, b. split_and!; [by eapply Hin|by eapply Hin|by apply Hok|by apply Hok|].
    apply predicted_minimum in Hm as [_ Hkeep]. apply Hkeep. by eapply fleb_trans.
  - eapply Forall_impl; [exact Hvalues|]. intros p [Hp _]. exact (existsb_false _ _ p Hdur Hp).
Qed.
End schedules.

(** ** The plan for three and more roles *)

Section multidrone.
Context `{LM : Libm} `{DG : Digest}.

Implicit Types (l : list AcceptedExecutionProgram.t) (plan : MultiDroneConflictPlan.t) (policy : SafetyPolicy.t).

Lemma multi_plan_Ret id status roles conflicts candidates selected shas limit starvation deadlock text plan :
  multi_plan id status roles conflicts candidates selected shas limit starvation deadlock text = Ret plan ->
  MultiDroneConflictPlan.status plan = status /\ MultiDroneConflictPlan.role_ids plan = roles /\
  MultiDroneConflictPlan.candidates plan = candidates /\
  MultiDroneConflictPlan.selected_candidate_index plan = Z.of_nat ∘ fst <$> selected /\
  MultiDroneConflictPlan.selected_program_sha256s plan = shas /\
  MultiDroneConflictPlan.deadlock_detected plan = deadlock.
Proof. intros E. by apply checked_Ret in E as [_ <-]. Qed.

Lemma orders_permute role_ids priorities limit strategy orders text o :
  orders_to_try role_ids priorities limit = (strategy, orders, text) -> o ∈ orders -> o ≡ₚ role_ids.
Proof.
  unfold orders_to_try. case_match; intros [= <- <- <-].
  - apply elem_of_permutations.
  - intros ->%list_elem_of_singleton. apply py_sorted_perm.
Qed.

(** The selected schedule is a candidate, feasible, and none is better. *)
Definition selects_best plan (i : nat) (c : MultiDroneScheduleCandidate.t) : Prop :=
  MultiDroneConflictPlan.candidates plan !! i = Some c /\
  MultiDroneScheduleCandidate.feasible c = true /\
  MultiDroneConflictPlan.selected_candidate_index plan = Some (Z.of_nat i) /\
  forall c', c' ∈ MultiDroneConflictPlan.candidates plan ->
    MultiDroneScheduleCandidate.feasible c' = true ->
    schedule_ltb (key_of_candidate c') (key_of_candidate c) = false.

Definition multi_plan_keeps_promise required starvation policy l l' plan : Prop :=
  match MultiDroneConflictPlan.status plan with
  | MultiDronePlanningStatus.NOT_REQUIRED =>
      l' = l /\ MultiDroneConflictPlan.deadlock_detected plan = false /\
      Forall (fun pair => exists a b, a ∈ l /\ b ∈ l /\
                AcceptedExecutionProgram.role_id a = pair.1 /\ AcceptedExecutionProgram.role_id b = pair.2 /\
                keeps_separation required a b) (later_pairs (MultiDroneConflictPlan.role_ids plan))
  | MultiDronePlanningStatus.RESOLVED =>
      MultiDroneConflictPlan.deadlock_detected plan = false /\
      MultiDroneConflictPlan.selected_program_sha256s plan = program_sha256 <$> l' /\
      exists i c, selects_best plan i c /\
        MultiDroneScheduleCandidate.precedence_order c ≡ₚ MultiDroneConflictPlan.role_ids plan /\
        schedule_keeps l (MultiDroneScheduleCandidate.precedence_order c) required starvation policy l' c
  | MultiDronePlanningStatus.BLOCKED =>
      l' = l /\ MultiDroneConflictPlan.deadlock_detected plan = true /\
      Forall (fun c => MultiDroneScheduleCandidate.feasible c = false) (MultiDroneConflictPlan.candidates plan)
  end.

Lemma imap_pair_lookup {A} (tried : list A) i x : (i, x) ∈ imap pair tried -> tried !! i = Some x.
Proof.
  intros [j Hj]%list_elem_of_lookup. rewrite list_lookup_imap in Hj.
  destruct (tried !! j) eqn:E; [|done]. by injection Hj as <- <-.
Qed.

Lemma select_schedule_best tried i ps c :
  Forall (fun x : list AcceptedExecutionProgram.t * _ => MultiDroneScheduleCandidate_valid x.2 = true) tried ->
  select_schedule tried = Some (i, (ps, c)) ->
  tried !! i = Some (ps, c) /\ MultiDroneScheduleCandidate.feasible c = true /\
  forall x, x ∈ tried -> MultiDroneScheduleCandidate.feasible x.2 = true ->
    schedule_ltb (key_of_candidate x.2) (key_of_candidate c) = false.
Proof.
  intros Hv Hsel. unfold select_schedule in Hsel.
  pose proof (py_min_elem _ _ _ Hsel) as Hin. apply list_elem_of_filter in Hin as [Hf Hin].
  split; [by apply imap_pair_lookup|]. split; [done|]. intros x Hx Hfx.
  apply list_elem_of_lookup in Hx as [j Hj].
  apply (order_on_least _ _ _ _ (j, x)
           (order_on_key (fun item => key_of_candidate item.2.2) _ _ schedule_order)) in Hsel; [done| |].
  - apply Forall_forall. intros [k y] Hy. apply list_elem_of_filter in Hy as [_ Hy].
    apply imap_pair_lookup, list_elem_of_lookup_2 in Hy. rewrite Forall_forall in Hv.
    by apply candidate_key_proper, Hv.
  - apply list_elem_of_filter. split; [done|]. apply list_elem_of_lookup. exists j.
    by rewrite list_lookup_imap, Hj.
Qed.

Lemma select_schedule_none tried :
  select_schedule tried = None ->
  Forall (fun x : list AcceptedExecutionProgram.t * _ => MultiDroneScheduleCandidate.feasible x.2 = false) tried.
Proof.
  unfold select_schedule. rewrite py_min_None. intros Hnil. apply Forall_forall. intros x Hx.
  apply not_true_iff_false. intros Hf. apply list_elem_of_lookup in Hx as [i Hi].
  assert (Hin : (i, x) ∈ filter (fun item : nat * (list AcceptedExecutionProgram.t * _) =>
             MultiDroneScheduleCandidate.feasible item.2.2 = true) (imap pair tried)).
  { apply list_elem_of_filter. split; [done|]. apply list_elem_of_lookup. exists i.
    by rewrite list_lookup_imap, Hi. }
  rewrite Hnil in Hin. by apply not_elem_of_nil in Hin.
Qed.

Lemma resolve_schedule_sound mission l role_ids priorities conflicts required starvation policy limit l' plan :
  NoDup role_ids ->
  resolve_schedule mission l role_ids (dict_of AcceptedExecutionProgram.role_id id l) priorities conflicts
    required starvation policy limit = Ret (l', plan) ->
  multi_plan_keeps_promise required starvation policy l l' plan /\
  MultiDroneConflictPlan.role_ids plan = role_ids /\
  (Z.of_nat (length role_ids) <= limit ->
   forall order, order ≡ₚ role_ids ->
     exists c, c ∈ MultiDroneConflictPlan.candidates plan /\
       MultiDroneScheduleCandidate.precedence_order c = order).
Proof.
  intros Hnd E. unfold resolve_schedule in E.
  destruct (orders_to_try _ _ _) as [[strategy orders] text] eqn:Hord.
  apply bind_Ret in E as (tried & Ht & E). apply mapM_Ret in Ht.
  assert (Hsound : forall i ps c, tried !! i = Some (ps, c) ->
    exists order, orders !! i = Some order /\ order ≡ₚ role_ids /\
      MultiDroneScheduleCandidate_valid c = true /\
      MultiDroneScheduleCandidate.precedence_order c = order /\
      (MultiDroneScheduleCandidate.feasible c = true ->
       schedule_keeps l order required starvation policy ps c)).
  { intros i ps c Hi. destruct (Forall2_lookup_r _ _ _ _ _ Ht Hi) as ([j order] & Hj & Hc).
    rewrite list_lookup_imap in Hj. destruct (orders !! i) as [o|] eqn:Ho; [|done].
    injection Hj as <- <-. pose proof (orders_permute _ _ _ _ _ _ o Hord (list_elem_of_lookup_2 _ _ _ Ho)) as Hp.
    apply schedule_candidate_sound in Hc as (Hv & Hpo & _ & Hk); [|by rewrite Hp]. by exists o. }
  assert (Hvalid : Forall (fun x : list AcceptedExecutionProgram.t * _ =>
                      MultiDroneScheduleCandidate_valid x.2 = true) tried).
  { apply Forall_forall. intros [ps c] [i Hi]%list_elem_of_lookup.
    by destruct (Hsound _ _ _ Hi) as (o & _ & _ & ? & _). }
  assert (Hexact : Z.of_nat (length role_ids) <= limit -> forall order, order ≡ₚ role_ids ->
    exists c, c ∈ (snd <$> tried) /\ MultiDroneScheduleCandidate.precedence_order c = order).
  { intros Hlim order Ho. unfold orders_to_try in Hord.
    rewrite (proj2 (Z.leb_le _ _) Hlim) in Hord. injection Hord as _ <- _.
    apply elem_of_permutations, list_elem_of_lookup in Ho as [i Hi].
    destruct (Forall2_lookup_l _ _ _ i (i, order) Ht) as ([ps c] & Hc & _).
    { by rewrite list_lookup_imap, Hi. }
    exists c. split; [apply list_elem_of_fmap; exists (ps, c); split; [done|by eapply list_elem_of_lookup_2]|].
    destruct (Hsound _ _ _ Hc) as (o & Ho & _ & _ & Hpo & _). congruence. }
  destruct (select_schedule tried) as [[i [ps c]]|] eqn:Hsel.
  - apply bind_Ret in E as (p & Hp & [= <- <-]).
    apply multi_plan_Ret in Hp as (Hs & Hr & Hc & Hi & Hn & Hd).
    apply select_schedule_best in Hsel as (Hlook & Hf & Hbest); [|done].
    destruct (Hsound _ _ _ Hlook) as (o & _ & Hperm & _ & Hpo & Hk).
    split; [|by rewrite Hr, Hc]. unfold multi_plan_keeps_promise. rewrite Hs.
    split; [done|]. split; [done|]. exists i, c. rewrite Hpo, Hr. split; [|by auto].
    unfold selects_best. rewrite Hc, Hi, list_lookup_fmap, Hlook. repeat (split; [done|]).
    intros c' (x & -> & Hx)%list_elem_of_fmap. by apply Hbest.
  - apply bind_Ret in E as (p & Hp & [= <- <-]).
    apply multi_plan_Ret in Hp as (Hs & Hr & Hc & _ & _ & Hd).
    split; [|by rewrite Hr, Hc]. unfold multi_plan_keeps_promise. rewrite Hs, Hc.
    split; [done|]. split; [done|]. apply Forall_fmap. by apply select_schedule_none.
Qed.

(** Pairs without a conflict keep their separation. *)
Lemma no_conflicts_separated mission l required roles found :
  mapM (fun pair : string * string =>
          a ← some_or KeyError (dict_get pair.1 (dict_of AcceptedExecutionProgram.role_id id l));
          b ← some_or KeyError (dict_get pair.2 (dict_of AcceptedExecutionProgram.role_id id l));
          _pair_conflict mission a b required) roles = Ret found ->
  omap id found = [] ->
  Forall (fun pair => exists a b, a ∈ l /\ b ∈ l /\
            AcceptedExecutionProgram.role_id a = pair.1 /\ AcceptedExecutionProgram.role_id b = pair.2 /\
            keeps_separation required a b) roles.
Proof.
  intros Hm%mapM_Ret. induction Hm as [|pair o roles found Hp _ IH]; [constructor|].
  cbn. destruct o as [conflict|]; [done|]. intros Hnil. constructor; [|by apply IH].
  apply bind_Ret in Hp as (a & Ha%some_or_Ret & Hp). apply bind_Ret in Hp as (b & Hb%some_or_Ret & Hp).
  apply dict_of_values in Ha as (x & Hx & Hrx & Hidx), Hb as (y & Hy & Hry & Hidy).
  unfold id in Hidx, Hidy. subst a b. exists x, y. repeat (split; [done|]).
  apply bind_Ret in Hp as ([m closest] & Hpred & Hp). apply predicted_minimum in Hpred as [_ Hkeep].
  apply Hkeep. simpl in *. destruct (fleb required m); [done|].
  by apply fmap_Ret in Hp as (? & _ & ?).
Qed.

Lemma multi_plan_sound mission deployment l policy limit l' plan :
  plan_multi_drone_conflicts mission deployment l policy limit = Ret (l', Some plan) ->
  multi_plan_keeps_promise (required_separation deployment) (starvation_bound policy) policy l l' plan /\
  (MultiDroneConflictPlan.status plan = MultiDronePlanningStatus.RESOLVED ->
   Z.of_nat (length (MultiDroneConflictPlan.role_ids plan)) <= limit ->
   forall order, order ≡ₚ MultiDroneConflictPlan.role_ids plan ->
     exists c, c ∈ MultiDroneConflictPlan.candidates plan /\
       MultiDroneScheduleCandidate.precedence_order c = order).
Proof.
  unfold plan_multi_drone_conflicts. case_match; [done|]. cbv zeta.
  case_bool_decide; simpl.
  2:{ intros (p & Hp & [= <- <-])%bind_Ret. apply multi_plan_Ret in Hp as (Hs & Hr & Hc & _ & _ & Hd).
      unfold multi_plan_keeps_promise. rewrite Hs, Hc. by repeat split. }
  intros (found & Hf & E)%bind_Ret. destruct (omap id found) as [|conflict conflicts] eqn:Hconf.
  - apply bind_Ret in E as (p & Hp & [= <- <-]). apply multi_plan_Ret in Hp as (Hs & Hr & Hc & _ & _ & Hd).
    unfold multi_plan_keeps_promise. rewrite Hs, Hr. split; [|done]. split; [done|]. split; [done|].
    by eapply no_conflicts_separated.
  - apply bind_Ret in E as ([l2 p] & Hr & [= <- <-]).
    assert (Hnd : NoDup (py_sorted str_ltb (dict_keys (tasks_of "multi-conflict-route" deployment)))).
    { rewrite py_sorted_perm. apply dict_of_wf. }
    apply resolve_schedule_sound in Hr as (Hk & Hroles & Hex); [|done]. split; [done|].
    intros _. rewrite Hroles. done.
Qed.

(** C29: a joint schedule keeps its promise. When the plan is resolved, the fleet has
    exactly the conflicting roles; each is flown by its own program, unchanged when its
    recorded wait is zero and otherwise after exactly that wait on the ground: its first
    ground wait is longer by it, or a new one lasts as long, and every other operation is
    the original one, in order, with both its times later by the wait. No such wait is
    longer than the starvation bound and no program exceeds the mission duration; any two
    of the programs keep the required separation at every sample of the prediction; and
    the selected order is feasible with none better. When it is not required, every two
    programs keep the separation already; when it is blocked, nothing is changed, no
    candidate is feasible and the deadlock is reported. *)
Theorem multi_drone_plan_is_sound mission deployment l policy limit l' plan :
  plan_multi_drone_conflicts mission deployment l policy limit = Ret (l', Some plan) ->
  multi_plan_keeps_promise (required_separation deployment) (starvation_bound policy) policy l l' plan.
Proof. intros E. by apply multi_plan_sound in E as [? _]. Qed.

(** C30: the exact enumeration is optimal. When the number of roles is within the
    limit, every order of precedence is among the candidates of a resolved plan,
    and no feasible order is better than the selected one by the penalty for
    priority inversions, then the longest wait, the total wait, the spread of the
    waits and the order itself. *)
Theorem exact_enumeration_is_optimal mission deployment l policy limit l' plan order :
  plan_multi_drone_conflicts mission deployment l policy limit = Ret (l', Some plan) ->
  MultiDroneConflictPlan.status plan = MultiDronePlanningStatus.RESOLVED ->
  Z.of_nat (length (MultiDroneConflictPlan.role_ids plan)) <= limit ->
  order ≡ₚ MultiDroneConflictPlan.role_ids plan ->
  exists i selected c,
    selects_best plan i selected /\ c ∈ MultiDroneConflictPlan.candidates plan /\
    MultiDroneScheduleCandidate.precedence_order c = order /\
    (MultiDroneScheduleCandidate.feasible c = true ->
     schedule_ltb (key_of_candidate c) (key_of_candidate selected) = false).
Proof.
  intros E Hs Hlim Ho. apply multi_plan_sound in E as [Hk Hex].
  destruct (Hex Hs Hlim order Ho) as (c & Hc & Hpo). unfold multi_plan_keeps_promise in Hk.
  rewrite Hs in Hk. destruct Hk as (_ & _ & i & selected & Hsel & _).
  exists i, selected, c. split; [done|]. split; [done|]. split; [done|]. intros Hf. by apply Hsel.
Qed.
End multidrone.

(** ** Concrete fleets *)

Module Examples.
#[local] Existing Instance example_digest.
#[local] Existing Instance example_libm.

Definition zeros : string := "0000000000000000000000000000000000000000000000000000000000000000".

(** The duration of a flight, four prediction steps *)
Definition short : float := flit 8 100.

Definition place (x y : Z) : Vector3 := mkVector3 (float_of_Z x) (float_of_Z y) f1.

Definition stop_at (n : Z) (time : float) (position : Vector3) : TrajectoryPoint.t :=
  TrajectoryPoint.mk n time position Vector3_zero Vector3_zero f0 f0.

(** A role that flies a straight line in four prediction steps. *)
Definition line (role : string) (from to : Vector3) : AcceptedExecutionProgram.t :=
  let t := TimeParameterizedTrajectory.mk "line" role ("cf-" +:+ role) zeros
             [stop_at 1 f0 from; stop_at 2 short to] [1; 2] short short in
  AcceptedExecutionProgram.mk ("program-" +:+ role) zeros role ("cf-" +:+ role)
    [ExecutionOperation.Trajectory 1 f0 short zeros t] [zeros] short f1 f1 (fadd (fadd short f1) f1)
    ExecutionClockContract_default.

Definition east : AcceptedExecutionProgram.t := line "east" (place (-1) 0) (place 1 0).
Definition north : AcceptedExecutionProgram.t := line "north" (place 0 (-1)) (place 0 1).
Definition west : AcceptedExecutionProgram.t := line "west" (place 3 0) (place 0 0).

Definition task (task_type role : string) (priority : Z) : DeploymentTaskDefinition.t :=
  DeploymentTaskDefinition.mk role task_type "zone" priority "mission" (JObj []) ∅ f100 f1 f1 f1.

(** The warning distance is thirty centimetres. *)
Definition deployment (task_type : string) (roles : list (string * Z)) : DeploymentManifest.t :=
  DeploymentManifest.mk "deployment" [] [] ((fun r => task task_type r.1 r.2) <$> roles)
    (FleetConstraints.mk (flit 3 10) (flit 1 10) f1 FleetFailurePolicy.HOLD_ALL) []
    (CompletionPolicy.mk true false).

(** A policy that only bounds the duration of a mission *)
Definition policy (duration : float) : SafetyPolicy.t :=
  let big := float_of_Z 100000 in
  SafetyPolicy.mk big big big big big duration f1 f1 f1 f1 f1 f1 f1 f1 f1
    (FlightVolume.mk (mkVector3 (fneg f100) (fneg f100) (fneg f100)) (mkVector3 f100 f100 f100)).

Definition crossing (duration : float) (allowed : list ConflictResolutionStrategy.t) :
    outcome (list AcceptedExecutionProgram.t * option FleetDeconflictionPlan.t) :=
  plan_crossing_deconfliction "mission" (deployment "crossing-route" [("east", 2); ("north", 1)])
    [east; north] (policy duration) allowed.

(** The two lines meet in the middle; the one of lower priority waits. *)
Definition staged : outcome (list AcceptedExecutionProgram.t * option FleetDeconflictionPlan.t) :=
  crossing f100 [ConflictResolutionStrategy.STAGING_HOLD].

Definition resolved_crossing (o : outcome (list AcceptedExecutionProgram.t * option FleetDeconflictionPlan.t)) : bool :=
  match o with
  | Ret (_, Some plan) => FleetDeconflictionPlan.status plan ≟ DeconflictionStatus.RESOLVED
  | _ => false
  end.

Lemma crossing_witness :
  exists l plan, staged = Ret (l, Some plan) /\
    FleetDeconflictionPlan.status plan = DeconflictionStatus.RESOLVED /\
    plan_keeps_promise (required_separation (deployment "crossing-route" [("east", 2); ("north", 1)]))
      (policy f100) [ConflictResolutionStrategy.STAGING_HOLD] [east; north] l plan.
Proof.
  assert (H : resolved_crossing staged = true) by (vm_compute; reflexivity).
  destruct staged as [[l [plan|]]|e] eqn:E; [|discriminate H|discriminate H].
  exists l, plan. split; [reflexivity|]. split.
  - simpl in H. apply bool_decide_eq_true in H. exact H.
  - apply (crossing_plan_is_sound "mission" _ _ _ _ _ _ E).
Defined.

(** A mission may last as long as the two flights do: the combination of a
    retiming and a vertical offset is accepted although it lasts longer. *)
Example combined_exceeds_duration :
  match crossing short [ConflictResolutionStrategy.COMBINED_RETIMING_VERTICAL] with
  | Ret (l, Some plan) =>
      FleetDeconflictionPlan.status plan = DeconflictionStatus.RESOLVED /\
      existsb (fun p => fltb (SafetyPolicy.max_mission_duration_s (policy short))
                          (AcceptedExecutionProgram.schedule_duration_s p)) l = true
  | _ => False
  end.
Proof. vm_compute. done. Qed.

(** One vehicle stays, the other comes nearer from thirty centimetres: they are in
    conflict from the start, but the conflict is said to begin at its closest. *)
Definition near (x : Z) : Vector3 := mkVector3 (flit x 10) f0 f1.

Example conflict_from_the_start_is_late :
  match _prediction (line "still" (near 0) (near 0)) (line "near" (near 3) (near 1)) (flit 35 100) with
  | Ret prediction =>
      _Prediction.conflict_start_s prediction = Some f0 /\
      fltb f0 (conflict_window prediction).1 = true
  | Raise _ => False
  end.
Proof. vm_compute. done. Qed.

(** *** Three roles *)

Definition three : DeploymentManifest.t :=
  deployment "multi-conflict-route" [("east", 3); ("north", 2); ("west", 1)].

Definition joint : outcome (list AcceptedExecutionProgram.t * option MultiDroneConflictPlan.t) :=
  plan_multi_drone_conflicts "mission" three [east; north; west] (policy f100) 4.

Definition resolved_jointly
    (o : outcome (list AcceptedExecutionProgram.t * option MultiDroneConflictPlan.t)) : bool :=
  match o with
  | Ret (_, Some plan) =>
      (MultiDroneConflictPlan.status plan ≟ MultiDronePlanningStatus.RESOLVED)
      && (MultiDroneConflictPlan.role_ids plan ≟ ["east"; "north"; "west"])
  | _ => false
  end.

Lemma joint_witness :
  exists l plan, joint = Ret (l, Some plan) /\
    MultiDroneConflictPlan.status plan = MultiDronePlanningStatus.RESOLVED /\
    multi_plan_keeps_promise (required_separation three) (starvation_bound (policy f100)) (policy f100)
      [east; north; west] l plan.
Proof.
  assert (H : resolved_jointly joint = true) by (vm_compute; reflexivity).
  destruct joint as [[l [plan|]]|e] eqn:E; [|discriminate H|discriminate H].
  exists l, plan. split; [reflexivity|]. split.
  - apply andb_true_iff in H. exact (bool_decide_eq_true_1 _ (proj1 H)).
  - unfold joint in E. apply (multi_drone_plan_is_sound "mission" three [east; north; west] (policy f100) 4 l plan E).
Defined.

Lemma optimal_witness :
  exists l plan i selected, joint = Ret (l, Some plan) /\ selects_best plan i selected.
Proof.
  assert (H : resolved_jointly joint = true) by (vm_compute; reflexivity).
  destruct joint as [[l [plan|]]|e] eqn:E; [|discriminate H|discriminate H].
  apply andb_true_iff in H. destruct H as [Hs Hr].
  apply bool_decide_eq_true_1 in Hs. apply bool_decide_eq_true_1 in Hr.
  unfold joint in E.
  assert (Hlen : Z.of_nat (length (MultiDroneConflictPlan.role_ids plan)) <= 4)
    by (rewrite Hr; vm_compute; discriminate).
  destruct (exact_enumeration_is_optimal "mission" three [east; north; west] (policy f100) 4 l plan
              (MultiDroneConflictPlan.role_ids plan) E Hs Hlen (Permutation_refl _))
    as (i & selected & c & Hsel & _).
  exists l, plan, i, selected. split; [reflexivity|exact Hsel].
Defined.

(** A role that only hovers has no trajectory: the joint schedule fails with an
    index error instead of a plan that is blocked. *)
Definition hovering : AcceptedExecutionProgram.t :=
  AcceptedExecutionProgram.mk "program-west" zeros "west" "cf-west"
    [ExecutionOperation.Takeoff 1 f0 f1 f1; ExecutionOperation.Hold 2 f1 (float_of_Z 2)] []
    (float_of_Z 2) f1 f1 (float_of_Z 4) ExecutionClockContract_default.

Example hovering_role_is_an_index_error :
  AcceptedExecutionProgram_valid hovering = true /\
  plan_multi_drone_conflicts "mission" three [east; north; hovering] (policy f100) 4 = Raise IndexError.
Proof. vm_compute. done. Qed.
End Examples.
