(* ===== verification/MissionPlans.v ===== *)
(** * Mission plans ([missions/planning.py], [planning/approval.py])

    The admission of a mission: every role is compiled into a timed plan whose
    targets, dynamics and duration are checked, the plan is routed, programmed and
    deconflicted, and its findings decide whether it is approved; the approval an
    operator gives binds the identities of the plan. *)

From S2P Require Import Prelude Float64 Effects Contracts Artifacts Trajectory Safety.
From S2P Require Import PlanContracts Routes Intents Planning Scripts Deconfliction Multidrone.

(** ** Contracts *)

Module MissionPlanStatus.
Inductive t := APPROVED | REQUIRES_CONFIRMATION | BLOCKED.
End MissionPlanStatus.
#[export] Instance MissionPlanStatus_eq_dec : EqDecision MissionPlanStatus.t.
Proof. solve_decision. Defined.
Definition MissionPlanStatus_value (v : MissionPlanStatus.t) : string :=
  match v with
  | MissionPlanStatus.APPROVED => "APPROVED"
  | MissionPlanStatus.REQUIRES_CONFIRMATION => "REQUIRES_CONFIRMATION"
  | MissionPlanStatus.BLOCKED => "BLOCKED"
  end.

Module MissionPlanSeverity.
Inductive t := INFO | WARNING | BLOCKER.
End MissionPlanSeverity.
#[export] Instance MissionPlanSeverity_eq_dec : EqDecision MissionPlanSeverity.t.
Proof. solve_decision. Defined.
Definition MissionPlanSeverity_value (v : MissionPlanSeverity.t) : string :=
  match v with
  | MissionPlanSeverity.INFO => "INFO"
  | MissionPlanSeverity.WARNING => "WARNING"
  | MissionPlanSeverity.BLOCKER => "BLOCKER"
  end.

Module MissionPlanFidelity.
Inductive t := EXACT_ROLE | STATIC_BOUNDS | PREPARED_RESERVE.
End MissionPlanFidelity.
#[export] Instance MissionPlanFidelity_eq_dec : EqDecision MissionPlanFidelity.t.
Proof. solve_decision. Defined.
Definition MissionPlanFidelity_value (v : MissionPlanFidelity.t) : string :=
  match v with
  | MissionPlanFidelity.EXACT_ROLE => "EXACT_ROLE"
  | MissionPlanFidelity.STATIC_BOUNDS => "STATIC_BOUNDS"
  | MissionPlanFidelity.PREPARED_RESERVE => "PREPARED_RESERVE"
  end.

Module PlanningObstacle.
Record t := mk {
  obstacle_id : string;
  minimum_m : Vector3;
  maximum_m : Vector3;
}.
End PlanningObstacle.

Definition PlanningObstacle_valid (r : PlanningObstacle.t) : bool :=
  is_identifier (PlanningObstacle.obstacle_id r)
  && fleb (v_x (PlanningObstacle.minimum_m r)) (v_x (PlanningObstacle.maximum_m r)) && fleb (v_y (PlanningObstacle.minimum_m r)) (v_y (PlanningObstacle.maximum_m r)) && fleb (v_z (PlanningObstacle.minimum_m r)) (v_z (PlanningObstacle.maximum_m r)).

Definition PlanningObstacle_dump (r : PlanningObstacle.t) : json := JObj [
  ("obstacle_id", JStr (PlanningObstacle.obstacle_id r));
  ("minimum_m", vector_json (PlanningObstacle.minimum_m r));
  ("maximum_m", vector_json (PlanningObstacle.maximum_m r))].

Module MissionPlanFinding.
Record t := mk {
  code : string;
  severity : MissionPlanSeverity.t;
  message : string;
  role_id : option string;
  step_sequence : option Z;
  requires_confirmation : bool;
  details : dict json;
}.
End MissionPlanFinding.

Definition MissionPlanFinding_valid (r : MissionPlanFinding.t) : bool :=
  is_identifier (MissionPlanFinding.code r)
  && text_len 1 500 (MissionPlanFinding.message r)
  && opt_ok is_identifier (MissionPlanFinding.role_id r)
  && opt_ok (fun x => (1 <=? x)) (MissionPlanFinding.step_sequence r).

Definition MissionPlanFinding_dump (r : MissionPlanFinding.t) : json := JObj [
  ("code", JStr (MissionPlanFinding.code r));
  ("severity", JStr (MissionPlanSeverity_value (MissionPlanFinding.severity r)));
  ("message", JStr (MissionPlanFinding.message r));
  ("role_id", (json_opt JStr) (MissionPlanFinding.role_id r));
  ("step_sequence", (json_opt JInt) (MissionPlanFinding.step_sequence r));
  ("requires_confirmation", JBool (MissionPlanFinding.requires_confirmation r));
  ("details", (dict_json id) (MissionPlanFinding.details r))].

Module MissionPlanWaypoint.
Record t := mk {
  sequence : Z;
  action : string;
  starts_at_s : float;
  ends_at_s : float;
  start_m : Vector3;
  end_m : Vector3;
  start_yaw_rad : float;
  end_yaw_rad : float;
}.
End MissionPlanWaypoint.

Definition MissionPlanWaypoint_valid (r : MissionPlanWaypoint.t) : bool :=
  (1 <=? (MissionPlanWaypoint.sequence r))
  && is_identifier (MissionPlanWaypoint.action r)
  && ge0 (MissionPlanWaypoint.starts_at_s r)
  && ge0 (MissionPlanWaypoint.ends_at_s r).

Definition MissionPlanWaypoint_dump (r : MissionPlanWaypoint.t) : json := JObj [
  ("sequence", JInt (MissionPlanWaypoint.sequence r));
  ("action", JStr (MissionPlanWaypoint.action r));
  ("starts_at_s", JFloat (MissionPlanWaypoint.starts_at_s r));
  ("ends_at_s", JFloat (MissionPlanWaypoint.ends_at_s r));
  ("start_m", vector_json (MissionPlanWaypoint.start_m r));
  ("end_m", vector_json (MissionPlanWaypoint.end_m r));
  ("start_yaw_rad", JFloat (MissionPlanWaypoint.start_yaw_rad r));
  ("end_yaw_rad", JFloat (MissionPlanWaypoint.end_yaw_rad r))].

Module MissionRolePlan.
Record t := mk {
  role_id : string;
  vehicle_id : string;
  initial_role : InitialFleetRole.t;
  home_m : Vector3;
  start_m : Vector3;
  existing_vehicle : bool;
  observed_battery_percent : option float;
  minimum_battery_percent : option float;
  preview_fidelity : MissionPlanFidelity.t;
  planned_commands : list ScriptStep.t;
  waypoints : list MissionPlanWaypoint.t;
  planned_duration_s : float;
  planned_distance_m : float;
  maximum_altitude_m : float;
}.
End MissionRolePlan.

Definition MissionRolePlan_valid (r : MissionRolePlan.t) : bool :=
  is_identifier (MissionRolePlan.role_id r)
  && is_identifier (MissionRolePlan.vehicle_id r)
  && opt_ok (fun x => ge0 x && fleb x f100) (MissionRolePlan.observed_battery_percent r)
  && opt_ok (fun x => ge0 x && fleb x (float_of_Z 200)) (MissionRolePlan.minimum_battery_percent r)
  && ge0 (MissionRolePlan.planned_duration_s r)
  && ge0 (MissionRolePlan.planned_distance_m r).

Definition MissionRolePlan_dump (r : MissionRolePlan.t) : json := JObj [
  ("role_id", JStr (MissionRolePlan.role_id r));
  ("vehicle_id", JStr (MissionRolePlan.vehicle_id r));
  ("initial_role", JStr (initial_role_value (MissionRolePlan.initial_role r)));
  ("home_m", vector_json (MissionRolePlan.home_m r));
  ("start_m", vector_json (MissionRolePlan.start_m r));
  ("existing_vehicle", JBool (MissionRolePlan.existing_vehicle r));
  ("observed_battery_percent", (json_opt JFloat) (MissionRolePlan.observed_battery_percent r));
  ("minimum_battery_percent", (json_opt JFloat) (MissionRolePlan.minimum_battery_percent r));
  ("preview_fidelity", JStr (MissionPlanFidelity_value (MissionRolePlan.preview_fidelity r)));
  ("planned_commands", (json_list ScriptStep_dump) (MissionRolePlan.planned_commands r));
  ("waypoints", (json_list MissionPlanWaypoint_dump) (MissionRolePlan.waypoints r));
  ("planned_duration_s", JFloat (MissionRolePlan.planned_duration_s r));
  ("planned_distance_m", JFloat (MissionRolePlan.planned_distance_m r));
  ("maximum_altitude_m", JFloat (MissionRolePlan.maximum_altitude_m r))].

Module MissionSafetySnapshot.
Record t := mk {
  policy_sha256 : string;
  flight_volume_minimum_m : Vector3;
  flight_volume_maximum_m : Vector3;
  max_altitude_m : float;
  max_horizontal_speed_m_s : float;
  max_vertical_speed_m_s : float;
  max_acceleration_m_s2 : float;
  max_yaw_rate_rad_s : float;
  max_mission_duration_s : float;
  minimum_takeoff_battery_percent : float;
  warning_separation_m : float;
  critical_separation_m : float;
  observation_freshness_s : float;
}.
End MissionSafetySnapshot.

Definition MissionSafetySnapshot_valid (r : MissionSafetySnapshot.t) : bool :=
  is_sha256 (MissionSafetySnapshot.policy_sha256 r)
  && gt0 (MissionSafetySnapshot.max_altitude_m r)
  && gt0 (MissionSafetySnapshot.max_horizontal_speed_m_s r)
  && gt0 (MissionSafetySnapshot.max_vertical_speed_m_s r)
  && gt0 (MissionSafetySnapshot.max_acceleration_m_s2 r)
  && gt0 (MissionSafetySnapshot.max_yaw_rate_rad_s r)
  && gt0 (MissionSafetySnapshot.max_mission_duration_s r)
  && ge0 (MissionSafetySnapshot.minimum_takeoff_battery_percent r)
  && fleb (MissionSafetySnapshot.minimum_takeoff_battery_percent r) f100
  && gt0 (MissionSafetySnapshot.warning_separation_m r)
  && gt0 (MissionSafetySnapshot.critical_separation_m r)
  && gt0 (MissionSafetySnapshot.observation_freshness_s r).

Definition MissionSafetySnapshot_dump (r : MissionSafetySnapshot.t) : json := JObj [
  ("policy_sha256", JStr (MissionSafetySnapshot.policy_sha256 r));
  ("flight_volume_minimum_m", vector_json (MissionSafetySnapshot.flight_volume_minimum_m r));
  ("flight_volume_maximum_m", vector_json (MissionSafetySnapshot.flight_volume_maximum_m r));
  ("max_altitude_m", JFloat (MissionSafetySnapshot.max_altitude_m r));
  ("max_horizontal_speed_m_s", JFloat (MissionSafetySnapshot.max_horizontal_speed_m_s r));
  ("max_vertical_speed_m_s", JFloat (MissionSafetySnapshot.max_vertical_speed_m_s r));
  ("max_acceleration_m_s2", JFloat (MissionSafetySnapshot.max_acceleration_m_s2 r));
  ("max_yaw_rate_rad_s", JFloat (MissionSafetySnapshot.max_yaw_rate_rad_s r));
  ("max_mission_duration_s", JFloat (MissionSafetySnapshot.max_mission_duration_s r));
  ("minimum_takeoff_battery_percent", JFloat (MissionSafetySnapshot.minimum_takeoff_battery_percent r));
  ("warning_separation_m", JFloat (MissionSafetySnapshot.warning_separation_m r));
  ("critical_separation_m", JFloat (MissionSafetySnapshot.critical_separation_m r));
  ("observation_freshness_s", JFloat (MissionSafetySnapshot.observation_freshness_s r))].

(** [FleetDeconflictionPlan | MultiDroneConflictPlan] *)
Module DeconflictionPlan.
Inductive t :=
| Crossing (plan : FleetDeconflictionPlan.t)
| Joint (plan : MultiDroneConflictPlan.t).
End DeconflictionPlan.

Definition DeconflictionPlan_dump (p : DeconflictionPlan.t) : json :=
  match p with
  | DeconflictionPlan.Crossing plan => FleetDeconflictionPlan_dump plan
  | DeconflictionPlan.Joint plan => MultiDroneConflictPlan_dump plan
  end.

(** [canonical_payload] *)
Definition DeconflictionPlan_json (p : DeconflictionPlan.t) : json :=
  match p with
  | DeconflictionPlan.Crossing plan => FleetDeconflictionPlan_json plan
  | DeconflictionPlan.Joint plan => MultiDroneConflictPlan_json plan
  end.

Definition is_blocked (p : DeconflictionPlan.t) : bool :=
  match p with
  | DeconflictionPlan.Crossing plan => FleetDeconflictionPlan.status plan ≟ DeconflictionStatus.BLOCKED
  | DeconflictionPlan.Joint plan => MultiDroneConflictPlan.status plan ≟ MultiDronePlanningStatus.BLOCKED
  end.

Definition deconfliction_sha256 (p : DeconflictionPlan.t) : string :=
  match p with
  | DeconflictionPlan.Crossing plan => FleetDeconflictionPlan.plan_sha256 plan
  | DeconflictionPlan.Joint plan => MultiDroneConflictPlan.plan_sha256 plan
  end.

Module MissionPlanReceipt.
Record t := mk {
  plan_id : string;
  mission_id : string;
  mission_source_sha256 : string;
  package_schema_version : Z;
  deployment_sha256 : string;
  status : MissionPlanStatus.t;
  roles : list MissionRolePlan.t;
  execution_programs : list AcceptedExecutionProgram.t;
  deconfliction : option DeconflictionPlan.t;
  safety : MissionSafetySnapshot.t;
  findings : list MissionPlanFinding.t;
  planning : PlanningBundle.t;
}.
End MissionPlanReceipt.

Definition MissionPlanReceipt_valid (r : MissionPlanReceipt.t) : bool :=
  is_identifier (MissionPlanReceipt.plan_id r)
  && is_identifier (MissionPlanReceipt.mission_id r)
  && is_sha256 (MissionPlanReceipt.mission_source_sha256 r)
  && (((MissionPlanReceipt.package_schema_version r) =? 1) || ((MissionPlanReceipt.package_schema_version r) =? 2))
  && is_sha256 (MissionPlanReceipt.deployment_sha256 r).

Definition MissionPlanReceipt_dump (r : MissionPlanReceipt.t) : json := JObj [
  ("schema_version", JInt 1);
  ("plan_id", JStr (MissionPlanReceipt.plan_id r));
  ("mission_id", JStr (MissionPlanReceipt.mission_id r));
  ("mission_source_sha256", JStr (MissionPlanReceipt.mission_source_sha256 r));
  ("package_schema_version", JInt (MissionPlanReceipt.package_schema_version r));
  ("deployment_sha256", JStr (MissionPlanReceipt.deployment_sha256 r));
  ("status", JStr (MissionPlanStatus_value (MissionPlanReceipt.status r)));
  ("roles", (json_list MissionRolePlan_dump) (MissionPlanReceipt.roles r));
  ("execution_programs", (json_list program_json) (MissionPlanReceipt.execution_programs r));
  ("deconfliction", (json_opt DeconflictionPlan_dump) (MissionPlanReceipt.deconfliction r));
  ("safety", MissionSafetySnapshot_dump (MissionPlanReceipt.safety r));
  ("findings", (json_list MissionPlanFinding_dump) (MissionPlanReceipt.findings r));
  ("planning", PlanningBundle_dump (MissionPlanReceipt.planning r))].


(** ** Findings *)

Definition new_finding (code : string) (severity : MissionPlanSeverity.t) (message : string)
    (role_id : option string) (step_sequence : option Z) (requires_confirmation : bool)
    (details : dict json) : outcome MissionPlanFinding.t :=
  let f := MissionPlanFinding.mk code severity message role_id step_sequence requires_confirmation details in
  checked "MissionPlanFinding" (MissionPlanFinding_valid f) f.

Definition _blocker (code message role_id : string) (step_sequence : option Z) (details : dict json) :
    outcome MissionPlanFinding.t :=
  new_finding code MissionPlanSeverity.BLOCKER message (Some role_id) step_sequence false details.

Definition _dynamics_blocker (code message role_id : string) (step_sequence : Z)
    (observed limit : float) : outcome MissionPlanFinding.t :=
  _blocker code message role_id (Some step_sequence)
    [("planned_value", JFloat observed); ("policy_limit", JFloat limit)].

Definition _warning (code message role_id : string) (requires_confirmation : bool) (details : dict json) :
    outcome MissionPlanFinding.t :=
  new_finding code MissionPlanSeverity.WARNING message (Some role_id) None requires_confirmation details.

(** [if b: findings.append(finding)] *)
Definition found (b : bool) (finding : outcome MissionPlanFinding.t) : outcome (list MissionPlanFinding.t) :=
  if b then f ← finding; Ret [f] else Ret [].

(** The findings of a sequence of tests, in their order *)
Definition all_found (l : list (outcome (list MissionPlanFinding.t))) : outcome (list MissionPlanFinding.t) :=
  mjoin <$> mapM id l.

Definition _point_details (point : Vector3) : dict json :=
  [("x_m", JFloat (v_x point)); ("y_m", JFloat (v_y point)); ("z_m", JFloat (v_z point))].

Definition severity_order (s : MissionPlanSeverity.t) : Z :=
  match s with
  | MissionPlanSeverity.BLOCKER => 0
  | MissionPlanSeverity.WARNING => 1
  | MissionPlanSeverity.INFO => 2
  end.

(** [_finding_sort_key] and the order of its tuples *)
Definition _finding_sort_key (f : MissionPlanFinding.t) : Z * string * string * Z :=
  (severity_order (MissionPlanFinding.severity f), default "" (MissionPlanFinding.role_id f),
   MissionPlanFinding.code f, default 0 (MissionPlanFinding.step_sequence f)).

Definition key_ltb (a b : Z * string * string * Z) : bool :=
  let '(s1, r1, c1, n1) := a in
  let '(s2, r2, c2, n2) := b in
  if negb (s1 =? s2) then s1 <? s2
  else if negb (String.eqb r1 r2) then str_ltb r1 r2
  else if negb (String.eqb c1 c2) then str_ltb c1 c2
  else n1 <? n2.

Definition finding_ltb (a b : MissionPlanFinding.t) : bool :=
  key_ltb (_finding_sort_key a) (_finding_sort_key b).

Definition is_blocker (f : MissionPlanFinding.t) : bool :=
  MissionPlanFinding.severity f ≟ MissionPlanSeverity.BLOCKER.

Definition _plan_status (findings : list MissionPlanFinding.t) : MissionPlanStatus.t :=
  if existsb is_blocker findings then MissionPlanStatus.BLOCKED
  else if existsb MissionPlanFinding.requires_confirmation findings
  then MissionPlanStatus.REQUIRES_CONFIRMATION
  else MissionPlanStatus.APPROVED.

(** ** The plan of a role *)

(** [_segment_intersects_box]; the loop over the axes is the one of the routes. *)
Definition _segment_intersects_box (start end_ minimum maximum : Vector3) : bool :=
  slabs [(v_x start, v_x end_, v_x minimum, v_x maximum); (v_y start, v_y end_, v_y minimum, v_y maximum);
         (v_z start, v_z end_, v_z minimum, v_z maximum)] f0 f1.

(** The variables of the loop over the commands *)
Module Progress.
Record t := mk {
  position : Vector3;
  yaw : float;
  elapsed_s : float;
  distance_m : float;
  maximum_altitude_m : float;
  waypoints : list MissionPlanWaypoint.t;
  findings : list MissionPlanFinding.t;
}.
End Progress.

Section roles.
Context `{TX : PyText} `{LM : Libm}.

Definition _step_duration (command : ScriptStep.t) : outcome float :=
  if dict_mem "duration_s" (ScriptStep.arguments command)
  then float_at "duration_s" (ScriptStep.arguments command)
  else if String.eqb (ScriptStep.action command) "observe"
  then float_or "timeout_s" (flit 5 10) (ScriptStep.arguments command)
  else Ret f0.

(** The two quantities of a takeoff that the policy bounds *)
Definition takeoff_dynamics (arguments : dict argument) : outcome (float * float) :=
  height ← float_at "height_m" arguments;
  duration ← float_at "duration_s" arguments;
  vertical_speed ← py_div (fmul (flit 15 10) height) duration;
  duration_squared ← py_square duration;
  acceleration ← py_div (fmul (float_of_Z 6) height) duration_squared;
  Ret (vertical_speed, acceleration).

Definition _check_takeoff_dynamics (role_id : string) (sequence : Z) (arguments : dict argument)
    (policy : SafetyPolicy.t) : outcome (list MissionPlanFinding.t) :=
  '(vertical_speed, acceleration) ← takeoff_dynamics arguments;
  all_found
    [found (fltb (SafetyPolicy.max_vertical_speed_m_s policy) vertical_speed)
       (_dynamics_blocker "TAKEOFF_VERTICAL_SPEED_EXCEEDS_POLICY"
          "planned takeoff vertical speed exceeds policy" role_id sequence vertical_speed
          (SafetyPolicy.max_vertical_speed_m_s policy));
     found (fltb (SafetyPolicy.max_acceleration_m_s2 policy) acceleration)
       (_dynamics_blocker "TAKEOFF_ACCELERATION_EXCEEDS_POLICY"
          "planned takeoff acceleration exceeds policy" role_id sequence acceleration
          (SafetyPolicy.max_acceleration_m_s2 policy))].

(** The four quantities of a move that the policy bounds *)
Definition move_dynamics (arguments : dict argument) : outcome (float * float * float * float) :=
  duration ← float_at "duration_s" arguments;
  x ← float_or "x_m" f0 arguments;
  y ← float_or "y_m" f0 arguments;
  let horizontal := c_hypot x y in
  z ← float_or "z_m" f0 arguments;
  let vertical := fabs z in
  horizontal_squared ← py_square horizontal;
  vertical_squared ← py_square vertical;
  distance ← py_sqrt (fadd horizontal_squared vertical_squared);
  horizontal_speed ← py_div (fmul (flit 15 10) horizontal) duration;
  vertical_speed ← py_div (fmul (flit 15 10) vertical) duration;
  duration_squared ← py_square duration;
  acceleration ← py_div (fmul (float_of_Z 6) distance) duration_squared;
  yaw ← float_or "yaw_rad" f0 arguments;
  yaw_rate ← py_div (fmul (flit 15 10) (fabs yaw)) duration;
  Ret (horizontal_speed, vertical_speed, acceleration, yaw_rate).

Definition _check_move_dynamics (role_id : string) (sequence : Z) (arguments : dict argument)
    (policy : SafetyPolicy.t) : outcome (list MissionPlanFinding.t) :=
  '(horizontal_speed, vertical_speed, acceleration, yaw_rate) ← move_dynamics arguments;
  let check code message observed limit :=
    found (fltb limit observed) (_dynamics_blocker code message role_id sequence observed limit) in
  all_found
    [check "HORIZONTAL_SPEED_EXCEEDS_POLICY" "planned horizontal speed exceeds policy"
       horizontal_speed (SafetyPolicy.max_horizontal_speed_m_s policy);
     check "VERTICAL_SPEED_EXCEEDS_POLICY" "planned vertical speed exceeds policy"
       vertical_speed (SafetyPolicy.max_vertical_speed_m_s policy);
     check "ACCELERATION_EXCEEDS_POLICY" "planned move acceleration exceeds policy"
       acceleration (SafetyPolicy.max_acceleration_m_s2 policy);
     check "YAW_RATE_EXCEEDS_POLICY" "planned yaw rate exceeds policy"
       yaw_rate (SafetyPolicy.max_yaw_rate_rad_s policy)].

(** The displacement of a move, turned by the heading when it is in the body frame *)
Definition displacement (yaw : float) (arguments : dict argument) : outcome (float * float) :=
  dx ← float_or "x_m" f0 arguments;
  dy ← float_or "y_m" f0 arguments;
  if String.eqb (default "home" (str_of_argument <$> dict_get "frame" arguments)) "body" then
    c1 ← py_cos yaw;
    s1 ← py_sin yaw;
    s2 ← py_sin yaw;
    c2 ← py_cos yaw;
    Ret (fsub (fmul dx c1) (fmul dy s1), fadd (fmul dx s2) (fmul dy c2))
  else Ret (dx, dy).

(** The branches of a command: the position and heading after it, with the findings
    of its dynamics *)
Definition command_target (role_id : string) (sequence : Z) (policy : SafetyPolicy.t)
    (position : Vector3) (yaw : float) (command : ScriptStep.t) :
    outcome (Vector3 * float * list MissionPlanFinding.t) :=
  let arguments := ScriptStep.arguments command in
  if String.eqb (ScriptStep.action command) "takeoff" then
    height ← float_at "height_m" arguments;
    fs ← _check_takeoff_dynamics role_id sequence arguments policy;
    Ret (mkVector3 (v_x position) (v_y position) height, yaw, fs)
  else if String.eqb (ScriptStep.action command) "move_relative" then
    '(dx, dy) ← displacement yaw arguments;
    dz ← float_or "z_m" f0 arguments;
    dyaw ← float_or "yaw_rad" f0 arguments;
    fs ← _check_move_dynamics role_id sequence arguments policy;
    Ret (mkVector3 (fadd (v_x position) dx) (fadd (v_y position) dy) (fadd (v_z position) dz),
         fadd yaw dyaw, fs)
  else if String.eqb (ScriptStep.action command) "land" then
    Ret (mkVector3 (v_x position) (v_y position) f0, yaw, [])
  else Ret (position, yaw, []).

(** The target is inside the flight volume and below the highest altitude. *)
Definition admissible_target (policy : SafetyPolicy.t) (position : Vector3) : bool :=
  Safety.contains (SafetyPolicy.flight_volume policy) position
  && negb (fltb (SafetyPolicy.max_altitude_m policy) (v_z position)).

Definition target_findings (role_id : string) (sequence : Z) (policy : SafetyPolicy.t)
    (obstacles : list PlanningObstacle.t) (start position : Vector3) (step_distance : float) :
    outcome (list MissionPlanFinding.t) :=
  all_found
    (found (negb (admissible_target policy position))
       (_blocker "TARGET_OUTSIDE_FLIGHT_VOLUME"
          "a planned command target is outside the configured safety envelope" role_id (Some sequence)
          (_point_details position ++ [("max_altitude_m", JFloat (SafetyPolicy.max_altitude_m policy))]))
     :: ((fun obstacle =>
            found (fltb f0 step_distance
                   && _segment_intersects_box start position (PlanningObstacle.minimum_m obstacle)
                        (PlanningObstacle.maximum_m obstacle))
              (_blocker "ROUTE_INTERSECTS_OBSTACLE"
                 "a planned command segment intersects configured obstacle geometry" role_id
                 (Some sequence) [("obstacle_id", JStr (PlanningObstacle.obstacle_id obstacle))]))
         <$> obstacles)).

(** The body of the loop over the commands *)
Definition plan_command (role_id : string) (policy : SafetyPolicy.t)
    (obstacles : list PlanningObstacle.t) (p : Progress.t) (sequence : Z) (command : ScriptStep.t) :
    outcome Progress.t :=
  duration ← _step_duration command;
  '(position, yaw, dynamics) ← command_target role_id sequence policy (Progress.position p)
                                 (Progress.yaw p) command;
  let elapsed := fadd (Progress.elapsed_s p) duration in
  step_distance ← v_distance (Progress.position p) position;
  let waypoint := MissionPlanWaypoint.mk sequence (ScriptStep.action command) (fsub elapsed duration)
                    elapsed (Progress.position p) position (Progress.yaw p) yaw in
  waypoint ← checked "MissionPlanWaypoint" (MissionPlanWaypoint_valid waypoint) waypoint;
  targets ← target_findings role_id sequence policy obstacles (Progress.position p) position step_distance;
  Ret (Progress.mk position yaw elapsed (fadd (Progress.distance_m p) step_distance)
         (py_fmax (Progress.maximum_altitude_m p) (v_z position))
         (Progress.waypoints p ++ [waypoint]) (Progress.findings p ++ dynamics ++ targets)).

Fixpoint plan_commands (role_id : string) (policy : SafetyPolicy.t)
    (obstacles : list PlanningObstacle.t) (p : Progress.t) (sequence : Z)
    (commands : list ScriptStep.t) : outcome Progress.t :=
  match commands with
  | [] => Ret p
  | command :: rest =>
      p' ← plan_command role_id policy obstacles p sequence command;
      plan_commands role_id policy obstacles p' (sequence + 1) rest
  end.

Definition below (observed limit : option float) : bool :=
  match observed, limit with
  | Some o, Some l => fltb o l
  | _, _ => false
  end.

(** The findings of the whole role *)
Definition role_findings (role_id : string) (policy : SafetyPolicy.t) (elapsed_s : float)
    (observed minimum : option float) : outcome (list MissionPlanFinding.t) :=
  let takeoff_minimum := SafetyPolicy.minimum_takeoff_battery_percent policy in
  all_found
    [found (fltb (SafetyPolicy.max_mission_duration_s policy) elapsed_s)
       (_blocker "MISSION_DURATION_EXCEEDS_POLICY"
          "the planned role duration exceeds the configured mission limit" role_id None
          [("planned_duration_s", JFloat elapsed_s);
           ("maximum_duration_s", JFloat (SafetyPolicy.max_mission_duration_s policy))]);
     found (below observed minimum)
       (_warning "BATTERY_BELOW_PLANNED_REQUIREMENT"
          "observed battery is below the task energy estimate plus margin" role_id true
          [("observed_battery_percent", json_opt JFloat observed);
           ("minimum_battery_percent", json_opt JFloat minimum)]);
     found (below observed (Some takeoff_minimum))
       (_warning "BATTERY_BELOW_TAKEOFF_MINIMUM"
          "observed battery is below the safety policy takeoff minimum" role_id true
          [("observed_battery_percent", json_opt JFloat observed);
           ("minimum_takeoff_battery_percent", JFloat takeoff_minimum)])].

Definition _compile_role (role_id vehicle_id : string) (home start : Vector3) (existing_vehicle : bool)
    (observed minimum : option float) (commands : list ScriptStep.t) (fidelity : MissionPlanFidelity.t)
    (policy : SafetyPolicy.t) (obstacles : list PlanningObstacle.t) :
    outcome (MissionRolePlan.t * list MissionPlanFinding.t) :=
  first ← found (negb (Safety.contains (SafetyPolicy.flight_volume policy) start))
            (_blocker "START_OUTSIDE_FLIGHT_VOLUME"
               "the planned start position is outside the configured safety volume" role_id None
               (_point_details start));
  p ← plan_commands role_id policy obstacles (Progress.mk start f0 f0 f0 (v_z start) [] first) 1 commands;
  last ← role_findings role_id policy (Progress.elapsed_s p) observed minimum;
  let plan := MissionRolePlan.mk role_id vehicle_id InitialFleetRole.ACTIVE home start existing_vehicle
                observed minimum fidelity commands (Progress.waypoints p) (Progress.elapsed_s p)
                (Progress.distance_m p) (Progress.maximum_altitude_m p) in
  plan ← checked "MissionRolePlan" (MissionRolePlan_valid plan) plan;
  Ret (plan, Progress.findings p ++ last).

Definition _declared_role_id (record : MissionFileRecord.t) (vehicle_id : string) : option string :=
  MissionRoleSpec.role_id <$>
    find_first (fun r => String.eqb (MissionRoleSpec.logical_vehicle_id r) vehicle_id)
      (MissionFileRecord.roles record).

Definition start_distance (pair : MissionRolePlan.t * MissionRolePlan.t) : outcome float :=
  v_distance (MissionRolePlan.start_m pair.1) (MissionRolePlan.start_m pair.2).

Definition separation_finding (constraints : FleetConstraints.t)
    (pair : MissionRolePlan.t * MissionRolePlan.t) : outcome (list MissionPlanFinding.t) :=
  distance_m ← start_distance pair;
  let details := [("first_role_id", JStr (MissionRolePlan.role_id pair.1));
                  ("second_role_id", JStr (MissionRolePlan.role_id pair.2));
                  ("distance_m", JFloat distance_m)] in
  if fleb distance_m (FleetConstraints.critical_separation_m constraints)
  then found true (_blocker "STARTING_SEPARATION_CRITICAL"
                     "planned member starts violate critical separation"
                     (MissionRolePlan.role_id pair.1) None details)
  else found (fleb distance_m (FleetConstraints.warning_separation_m constraints))
         (_warning "STARTING_SEPARATION_WARNING" "planned member starts are inside warning separation"
            (MissionRolePlan.role_id pair.1) false details).

Definition _starting_separation_findings (roles : list MissionRolePlan.t) (deployment : DeploymentManifest.t) :
    outcome (list MissionPlanFinding.t) :=
  all_found (separation_finding (DeploymentManifest.constraints deployment) <$> later_pairs roles).
End roles.

(** ** Execution programs *)

Section programs.
Context `{LM : Libm} `{DG : Digest}.

Definition v_minus (a b : Vector3) : Vector3 :=
  mkVector3 (fsub (v_x a) (v_x b)) (fsub (v_y a) (v_y b)) (fsub (v_z a) (v_z b)).
Definition dot (a b : Vector3) : float :=
  fadd (fadd (fmul (v_x a) (v_x b)) (fmul (v_y a) (v_y b))) (fmul (v_z a) (v_z b)).
Definition v_div (a : Vector3) (d : float) : outcome Vector3 :=
  x ← py_div (v_x a) d;
  y ← py_div (v_y a) d;
  z ← py_div (v_z a) d;
  Ret (mkVector3 x y z).

(** One sample of the trajectory: time, position and heading *)
Definition sample := (float * Vector3 * float)%type.

(** The velocity and yaw rate at a point with its neighbours, and whether it stops *)
Definition interior_motion (previous here following : sample) : outcome (Vector3 * float * bool) :=
  let '(previous_s, previous_m, previous_yaw) := previous in
  let '(_, position, _) := here in
  let '(following_s, following_m, following_yaw) := following in
  if fleb (dot (v_minus position previous_m) (v_minus following_m position)) f0
  then Ret (Vector3_zero, f0, true)
  else
    let duration_s := fsub following_s previous_s in
    velocity ← v_div (v_minus following_m previous_m) duration_s;
    yaw_rate ← py_div (fsub following_yaw previous_yaw) duration_s;
    Ret (velocity, yaw_rate, false).

(** The body of the loop over the positions; the first and the last one stop. *)
Definition point_motion (samples : list sample) (index : nat) : outcome (Vector3 * float * bool) :=
  if (index =? 0)%nat || (index =? length samples - 1)%nat then Ret (Vector3_zero, f0, true)
  else
    here ← some_or IndexError (samples !! index);
    previous ← some_or IndexError (samples !! (index - 1)%nat);
    following ← some_or IndexError (samples !! (index + 1)%nat);
    interior_motion previous here following.

Definition samples_of (first : MissionPlanWaypoint.t) (movement : list MissionPlanWaypoint.t) : list sample :=
  (f0, MissionPlanWaypoint.start_m first, MissionPlanWaypoint.start_yaw_rad first)
  :: ((fun w => (fsub (MissionPlanWaypoint.ends_at_s w) (MissionPlanWaypoint.starts_at_s first),
                 MissionPlanWaypoint.end_m w, MissionPlanWaypoint.end_yaw_rad w)) <$> movement).

(** [sorted(stops)] of the sequences of the points that stop *)
Definition stop_sequences (motions : list (Vector3 * float * bool)) : list Z :=
  (fun item => Z.of_nat item.1 + 1) <$> filter (fun item => item.2.2 = true) (imap pair motions).

Definition new_point (sequence : Z) (s : sample) (motion : Vector3 * float * bool) :
    outcome TrajectoryPoint.t :=
  let point := TrajectoryPoint.mk sequence s.1.1 s.1.2 motion.1.1 Vector3_zero s.2 motion.1.2 in
  checked "TrajectoryPoint" (TrajectoryPoint_valid point) point.

Definition _compile_continuous_trajectory (record : MissionFileRecord.t) (role : MissionRolePlan.t)
    (first : MissionPlanWaypoint.t) (movement : list MissionPlanWaypoint.t) :
    outcome TimeParameterizedTrajectory.t :=
  let samples := samples_of first movement in
  motions ← mapM (point_motion samples) (seq 0 (length samples));
  let stops := stop_sequences motions in
  let route_sha256 := canonical_sha256 (JObj [
    ("mission_source_sha256", JStr (MissionFileRecord.source_sha256 record));
    ("role_id", JStr (MissionRolePlan.role_id role));
    ("vehicle_id", JStr (MissionRolePlan.vehicle_id role));
    ("times", json_list (fun s : sample => JFloat s.1.1) samples);
    ("positions", json_list (fun s : sample => vector_json s.1.2) samples);
    ("yaws", json_list (fun s : sample => JFloat s.2) samples);
    ("declared_stop_sequences", json_list JInt stops)]) in
  points ← mapM (fun item : nat * (sample * (Vector3 * float * bool)) =>
                   new_point (Z.of_nat item.1 + 1) item.2.1 item.2.2) (imap pair (zip samples motions));
  TimeParameterizedTrajectory_new
    (TimeParameterizedTrajectory.mk ("trajectory-" +:+ str_take 24 route_sha256)
       (MissionRolePlan.role_id role) (MissionRolePlan.vehicle_id role) route_sha256 points stops
       (flit 8 100) (flit 5 100)).

Definition landing_goal (record : MissionFileRecord.t) (role : MissionRolePlan.t)
    (w : MissionPlanWaypoint.t) : outcome LandingGoalRegion.t :=
  let payload := JObj [
    ("mission_source_sha256", JStr (MissionFileRecord.source_sha256 record));
    ("role_id", JStr (MissionRolePlan.role_id role));
    ("vehicle_id", JStr (MissionRolePlan.vehicle_id role));
    ("landing_target_m", vector_json (MissionPlanWaypoint.end_m w));
    ("approach_point_m", vector_json (MissionPlanWaypoint.start_m w))] in
  let goal := LandingGoalRegion.mk ("landing-goal-" +:+ str_take 20 (canonical_sha256 payload))
      (MissionRolePlan.role_id role) (MissionRolePlan.vehicle_id role)
      (MissionPlanWaypoint.end_m w) (MissionPlanWaypoint.start_m w) (flit 10 100) (flit 8 100)
      (flit 8 100) 2 f1 GoalFailureAction.ABORT_AND_LAND None in
  checked "LandingGoalRegion" (LandingGoalRegion_valid goal) goal.

Definition is_move (w : MissionPlanWaypoint.t) : bool :=
  String.eqb (MissionPlanWaypoint.action w) "move_relative".

(** The longest prefix of moves, and the rest *)
Fixpoint split_moves (waypoints : list MissionPlanWaypoint.t) :
    list MissionPlanWaypoint.t * list MissionPlanWaypoint.t :=
  match waypoints with
  | w :: rest => if is_move w then let '(moves, after) := split_moves rest in (w :: moves, after)
                 else ([], waypoints)
  | [] => ([], [])
  end.

(** The operation of the first waypoint, which takes the moves after a move along *)
Definition compile_operation (record : MissionFileRecord.t) (role : MissionRolePlan.t) (sequence : Z)
    (w : MissionPlanWaypoint.t) (moves : list MissionPlanWaypoint.t) : outcome ExecutionOperation.t :=
  let starts := MissionPlanWaypoint.starts_at_s w in
  let ends := MissionPlanWaypoint.ends_at_s w in
  if String.eqb (MissionPlanWaypoint.action w) "takeoff" then
    new_operation "TakeoffExecutionOperation"
      (ExecutionOperation.Takeoff sequence starts ends (v_z (MissionPlanWaypoint.end_m w)))
  else if String.eqb (MissionPlanWaypoint.action w) "hover" then
    new_operation "HoldExecutionOperation" (ExecutionOperation.Hold sequence starts ends)
  else if String.eqb (MissionPlanWaypoint.action w) "land" then
    goal ← landing_goal record role w;
    new_operation "LandExecutionOperation"
      (ExecutionOperation.Land sequence starts ends (v_z (MissionPlanWaypoint.end_m w)) (Some goal))
  else
    trajectory ← _compile_continuous_trajectory record role w (w :: moves);
    new_operation "TrajectoryExecutionOperation"
      (ExecutionOperation.Trajectory sequence starts
         (MissionPlanWaypoint.ends_at_s (default w (last moves))) (trajectory_sha256 trajectory) trajectory).

(** [not any(waypoint.action not in {...})] *)
Definition is_static (w : MissionPlanWaypoint.t) : bool :=
  MissionPlanWaypoint.action w ∈? ["takeoff"; "hover"; "move_relative"; "land"].

Definition is_single (w : MissionPlanWaypoint.t) : bool :=
  MissionPlanWaypoint.action w ∈? ["takeoff"; "hover"; "land"].

(** [while index < len(role.waypoints)]: every round takes at least one waypoint, so
    their number is fuel enough. *)
Fixpoint compile_operations (fuel : nat) (record : MissionFileRecord.t) (role : MissionRolePlan.t)
    (sequence : Z) (waypoints : list MissionPlanWaypoint.t) : outcome (list ExecutionOperation.t) :=
  match waypoints with
  | [] => Ret []
  | w :: rest =>
      match fuel with
      | O => Raise (OtherError "out of fuel")
      | S fuel =>
          let '(moves, after) := if is_single w then ([], rest) else split_moves rest in
          operation ← compile_operation record role sequence w moves;
          operations ← compile_operations fuel record role (sequence + 1) after;
          Ret (operation :: operations)
      end
  end.

Definition _compile_execution_program (record : MissionFileRecord.t) (role : MissionRolePlan.t) :
    outcome (option AcceptedExecutionProgram.t) :=
  let waypoints := MissionRolePlan.waypoints role in
  if (MissionRolePlan.initial_role role ≠? InitialFleetRole.ACTIVE) || bool_decide (waypoints = [])
  then Ret None
  else if negb (forallb is_static waypoints) then Ret None
  else
    operations ← compile_operations (length waypoints) record role 1 waypoints;
    let duration := MissionRolePlan.planned_duration_s role in
    let contingency_s := py_fmax (float_of_Z 2) (fmul duration (flit 20 100)) in
    let recovery_s := float_of_Z 10 in
    let payload := JObj [
      ("mission_source_sha256", JStr (MissionFileRecord.source_sha256 record));
      ("role_id", JStr (MissionRolePlan.role_id role));
      ("vehicle_id", JStr (MissionRolePlan.vehicle_id role));
      ("operations", json_list operation_json operations);
      ("schedule_duration_s", JFloat duration);
      ("contingency_reserve_s", JFloat contingency_s);
      ("recovery_reserve_s", JFloat recovery_s)] in
    let program := AcceptedExecutionProgram.mk
        ("execution-program-" +:+ str_take 20 (canonical_sha256 payload))
        (MissionFileRecord.source_sha256 record) (MissionRolePlan.role_id role)
        (MissionRolePlan.vehicle_id role) operations
        ((fun st => TimeParameterizedTrajectory.route_sha256 st.2) <$> program_trajectories operations)
        duration contingency_s recovery_s (fadd (fadd duration contingency_s) recovery_s)
        ExecutionClockContract_default in
    program ← checked "AcceptedExecutionProgram" (AcceptedExecutionProgram_check program) program;
    Ret (Some program).
End programs.

(** ** The mission plan ([build_mission_plan]) *)

(** What the plan of a fleet member depends on *)
Module Request.
Record t := mk {
  record : MissionFileRecord.t;
  deployment : DeploymentManifest.t;
  assignments : dict string;
  policy : SafetyPolicy.t;
  start_positions : dict Vector3;
  observed_batteries : dict float;
  existing_vehicle_ids : gset string;
  obstacles : list PlanningObstacle.t;
}.
End Request.

Section build.
Context `{TX : PyText} `{LM : Libm} `{DG : Digest} `{MW : MissionWorker}.

Definition identities_match (r : Request.t) : bool :=
  let tasks := DeploymentTaskDefinition.task_id <$> DeploymentManifest.tasks (Request.deployment r) in
  let vehicles := FleetMemberDefinition.vehicle_id <$>
      filter (fun m => (FleetMemberDefinition.initial_role m ≟ InitialFleetRole.ACTIVE) = true)
        (DeploymentManifest.fleet (Request.deployment r)) in
  let assigned := dict_values (Request.assignments r) in
  bool_decide (list_to_set (dict_keys (Request.assignments r)) =@{gset string} list_to_set tasks)
  && bool_decide (list_to_set assigned =@{gset string} list_to_set vehicles)
  && bool_decide (length (remove_dups assigned) = length (Request.assignments r)).

(** [{vehicle_id: role_id for role_id, vehicle_id in assignments.items()}] *)
Definition roles_by_vehicle (assignments : dict string) : dict string := dict_of snd fst assignments.

Definition role_of (r : Request.t) (vehicle_id : string) : string :=
  match dict_get vehicle_id (roles_by_vehicle (Request.assignments r)) with
  | Some role_id => role_id
  | None => match _declared_role_id (Request.record r) vehicle_id with
            | Some role_id => if String.eqb role_id "" then vehicle_id else role_id
            | None => vehicle_id
            end
  end.

Definition preflight_warning (code message role_id : string) : outcome MissionPlanFinding.t :=
  _warning code message role_id false [("preflight_observation_required", JBool true)].

(** The body of the loop over the members *)
Definition plan_member (r : Request.t) (member : FleetMemberDefinition.t) :
    outcome (MissionRolePlan.t * list MissionPlanFinding.t) :=
  let vehicle_id := FleetMemberDefinition.vehicle_id member in
  let home := FleetMemberDefinition.home member in
  let role_id := role_of r vehicle_id in
  let start := default home (dict_get vehicle_id (Request.start_positions r)) in
  let battery := dict_get vehicle_id (Request.observed_batteries r) in
  let existing := bool_decide (vehicle_id ∈ Request.existing_vehicle_ids r) in
  warnings ← all_found
    [found (existing && negb (dict_mem vehicle_id (Request.start_positions r)))
       (preflight_warning "START_POSITION_UNAVAILABLE"
          "current position is unavailable; declared home is only a proposed start and preparation must observe the vehicle before execution"
          role_id);
     found (existing && is_none battery)
       (preflight_warning "BATTERY_OBSERVATION_UNAVAILABLE"
          "current battery is unavailable and must be observed during mandatory preflight before execution"
          role_id)];
  if FleetMemberDefinition.initial_role member ≟ InitialFleetRole.RESERVE then
    let plan := MissionRolePlan.mk role_id vehicle_id InitialFleetRole.RESERVE home start existing battery
                  None MissionPlanFidelity.PREPARED_RESERVE [] [] f0 f0 (v_z start) in
    plan ← checked "MissionRolePlan" (MissionRolePlan_valid plan) plan;
    Ret (plan, warnings)
  else
    commands ← preview_isolated_mission_role (Request.record r) role_id;
    let task := dict_get role_id (dict_of DeploymentTaskDefinition.task_id id
                                    (DeploymentManifest.tasks (Request.deployment r))) in
    let minimum := (fun t => fadd (DeploymentTaskDefinition.estimated_energy_percent t)
                               (DeploymentTaskDefinition.energy_margin_percent t)) <$> task in
    '(plan, findings) ← _compile_role role_id vehicle_id home start existing battery minimum commands
                         MissionPlanFidelity.EXACT_ROLE (Request.policy r) (Request.obstacles r);
    Ret (plan, warnings ++ findings).

Definition member_ltb (a b : FleetMemberDefinition.t) : bool :=
  str_ltb (FleetMemberDefinition.vehicle_id a) (FleetMemberDefinition.vehicle_id b).

Definition plan_members (r : Request.t) : outcome (list (MissionRolePlan.t * list MissionPlanFinding.t)) :=
  mapM (plan_member r) (py_sorted member_ltb (DeploymentManifest.fleet (Request.deployment r))).

Definition route_input (role : MissionRolePlan.t) : outcome OperationalRouteInput.t :=
  let input := OperationalRouteInput.mk (MissionRolePlan.role_id role) (MissionRolePlan.vehicle_id role)
      (MissionRolePlan.initial_role role) (MissionRolePlan.start_m role)
      (MissionPlanWaypoint.end_m <$> MissionRolePlan.waypoints role)
      (MissionRolePlan.planned_duration_s role) in
  checked "OperationalRouteInput" (OperationalRouteInput_valid input) input.

Definition route_obstacle (o : PlanningObstacle.t) : outcome RouteObstacle.t :=
  let obstacle := RouteObstacle.mk (PlanningObstacle.obstacle_id o) (PlanningObstacle.minimum_m o)
                    (PlanningObstacle.maximum_m o) in
  checked "RouteObstacle" (RouteObstacle_valid obstacle) obstacle.

Definition plan_routes (r : Request.t) (roles : list MissionRolePlan.t) : outcome PlanningBundle.t :=
  inputs ← mapM route_input roles;
  obstacles ← mapM route_obstacle (Request.obstacles r);
  compile_operational_planning_bundle (MissionFileRecord.mission_id (Request.record r))
    (Request.deployment r) inputs (Request.policy r) obstacles.

Definition route_finding (route : RoutePlanArtifact.t) : outcome (list MissionPlanFinding.t) :=
  found (RoutePlanArtifact.status route ≟ RoutePlanStatus.BLOCKED)
    (_blocker "ROUTE_PLANNER_BLOCKED"
       "the selected route planner could not produce an admissible bounded route"
       (RoutePlanArtifact.role_id route) None
       [("findings", JStr (String.concat "," (RoutePlanArtifact.findings route)))]).

Definition safety_snapshot (policy : SafetyPolicy.t) (constraints : FleetConstraints.t) :
    outcome MissionSafetySnapshot.t :=
  let snapshot := MissionSafetySnapshot.mk (canonical_sha256 (SafetyPolicy_dump policy))
      (FlightVolume.minimum_m (SafetyPolicy.flight_volume policy))
      (FlightVolume.maximum_m (SafetyPolicy.flight_volume policy))
      (SafetyPolicy.max_altitude_m policy) (SafetyPolicy.max_horizontal_speed_m_s policy)
      (SafetyPolicy.max_vertical_speed_m_s policy) (SafetyPolicy.max_acceleration_m_s2 policy)
      (SafetyPolicy.max_yaw_rate_rad_s policy) (SafetyPolicy.max_mission_duration_s policy)
      (SafetyPolicy.minimum_takeoff_battery_percent policy)
      (FleetConstraints.warning_separation_m constraints)
      (FleetConstraints.critical_separation_m constraints)
      (FleetConstraints.observation_freshness_s constraints) in
  checked "MissionSafetySnapshot" (MissionSafetySnapshot_valid snapshot) snapshot.

(** [ConflictResolutionStrategy(item)] *)
Definition strategy_of (item : string) : outcome ConflictResolutionStrategy.t :=
  some_or (ValueError "not a valid ConflictResolutionStrategy")
    (find_first (fun s => String.eqb (ConflictResolutionStrategy_value s) item) all_strategies).

Definition allowed_strategies (record : MissionFileRecord.t) : outcome (list ConflictResolutionStrategy.t) :=
  match MissionFileRecord.package record with
  | Some package => mapM strategy_of (MissionPackageV2.deconfliction_strategies package)
  | None => Ret all_strategies
  end.

(** The programs after deconfliction, with the plan that resolved the conflicts *)
Definition deconflict (r : Request.t) (programs : list AcceptedExecutionProgram.t) :
    outcome (list AcceptedExecutionProgram.t * option DeconflictionPlan.t) :=
  let mission_id := MissionFileRecord.mission_id (Request.record r) in
  allowed ← allowed_strategies (Request.record r);
  crossing ← plan_crossing_deconfliction mission_id (Request.deployment r) programs
               (Request.policy r) allowed;
  match crossing.2 return outcome (list AcceptedExecutionProgram.t * option DeconflictionPlan.t) with
  | Some plan => Ret (crossing.1, Some (DeconflictionPlan.Crossing plan))
  | None =>
      joint ← plan_multi_drone_conflicts mission_id (Request.deployment r) crossing.1
                (Request.policy r) 4;
      Ret (joint.1, (DeconflictionPlan.Joint <$> (joint.2 : option MultiDroneConflictPlan.t)))
  end.

Definition deconfliction_finding (plan : option DeconflictionPlan.t) : outcome (list MissionPlanFinding.t) :=
  match plan with
  | Some plan =>
      found (is_blocked plan)
        (_blocker "PREDICTIVE_DECONFLICTION_BLOCKED"
           "no admitted fleet conflict resolution satisfies the hard constraints" "fleet" None
           [("deconfliction_plan_sha256", JStr (deconfliction_sha256 plan))])
  | None => Ret []
  end.

(** The receipt of a plan, whose identity is taken of its contents *)
Definition new_receipt (r : Request.t) (roles : list MissionRolePlan.t)
    (programs : list AcceptedExecutionProgram.t) (deconfliction : option DeconflictionPlan.t)
    (safety : MissionSafetySnapshot.t) (findings : list MissionPlanFinding.t) (planning : PlanningBundle.t) :
    outcome MissionPlanReceipt.t :=
  let record := Request.record r in
  let deployment_sha256 := DeploymentManifest_sha256 (Request.deployment r) in
  let status := _plan_status findings in
  let payload := JObj [
    ("mission_id", JStr (MissionFileRecord.mission_id record));
    ("source_sha256", JStr (MissionFileRecord.source_sha256 record));
    ("package_schema_version", JInt (MissionFileRecord.package_schema_version record));
    ("deployment_sha256", JStr deployment_sha256);
    ("roles", json_list MissionRolePlan_dump roles);
    ("execution_programs", json_list program_json programs);
    ("deconfliction", json_opt DeconflictionPlan_json deconfliction);
    ("safety", MissionSafetySnapshot_dump safety);
    ("findings", json_list MissionPlanFinding_dump findings);
    ("status", JStr (MissionPlanStatus_value status));
    ("planning", PlanningBundle_json planning)] in
  let receipt := MissionPlanReceipt.mk ("mission-plan-" +:+ str_take 24 (canonical_sha256 payload))
      (MissionFileRecord.mission_id record) (MissionFileRecord.source_sha256 record)
      (MissionFileRecord.package_schema_version record) deployment_sha256 status roles programs
      deconfliction safety findings planning in
  checked "MissionPlanReceipt" (MissionPlanReceipt_valid receipt) receipt.

Definition build_mission_plan (r : Request.t) : outcome MissionPlanReceipt.t :=
  if negb (identities_match r)
  then Err IDENTITY_MISMATCH "mission planning assignments do not match active deployment tasks"
  else
    members ← plan_members r;
    let roles := members.*1 in
    planning ← plan_routes r roles;
    blocked_routes ← all_found (route_finding <$> PlanningBundle.route_plans planning);
    separations ← _starting_separation_findings roles (Request.deployment r);
    safety ← safety_snapshot (Request.policy r) (DeploymentManifest.constraints (Request.deployment r));
    programs ← mapM (_compile_execution_program (Request.record r)) roles;
    deconflicted ← deconflict r (omap id programs);
    blocked_conflict ← deconfliction_finding deconflicted.2;
    let findings := py_sorted finding_ltb
        (mjoin members.*2 ++ blocked_routes ++ separations ++ blocked_conflict) in
    new_receipt r roles deconflicted.1 deconflicted.2 safety findings planning.
End build.

(** ** Approvals ([planning/approval.py]) *)

Module MissionPlanApproval.
Record t := mk {
  approval_id : string;
  mission_id : string;
  plan_id : string;
  plan_sha256 : string;
  safety_case_sha256 : string;
  mission_source_sha256 : string;
  deployment_sha256 : string;
  plugin_manifest_sha256s : list string;
  operator_client_id : string;
  acknowledged_finding_codes : gset string;
  created_at_monotonic_s : float;
  expires_at_monotonic_s : float;
  approval_sha256 : string;
}.
End MissionPlanApproval.

Definition MissionPlanApproval_valid (r : MissionPlanApproval.t) : bool :=
  is_identifier (MissionPlanApproval.approval_id r)
  && is_identifier (MissionPlanApproval.mission_id r)
  && is_identifier (MissionPlanApproval.plan_id r)
  && is_sha256 (MissionPlanApproval.plan_sha256 r)
  && is_sha256 (MissionPlanApproval.safety_case_sha256 r)
  && is_sha256 (MissionPlanApproval.mission_source_sha256 r)
  && is_sha256 (MissionPlanApproval.deployment_sha256 r)
  && forallb is_sha256 (MissionPlanApproval.plugin_manifest_sha256s r)
  && is_identifier (MissionPlanApproval.operator_client_id r)
  && forallb is_identifier (elements (MissionPlanApproval.acknowledged_finding_codes r))
  && ge0 (MissionPlanApproval.created_at_monotonic_s r)
  && gt0 (MissionPlanApproval.expires_at_monotonic_s r)
  && is_sha256 (MissionPlanApproval.approval_sha256 r).

Definition MissionPlanApproval_dump (r : MissionPlanApproval.t) : json := JObj [
  ("schema_version", JInt 1);
  ("approval_id", JStr (MissionPlanApproval.approval_id r));
  ("mission_id", JStr (MissionPlanApproval.mission_id r));
  ("plan_id", JStr (MissionPlanApproval.plan_id r));
  ("plan_sha256", JStr (MissionPlanApproval.plan_sha256 r));
  ("safety_case_sha256", JStr (MissionPlanApproval.safety_case_sha256 r));
  ("mission_source_sha256", JStr (MissionPlanApproval.mission_source_sha256 r));
  ("deployment_sha256", JStr (MissionPlanApproval.deployment_sha256 r));
  ("plugin_manifest_sha256s", (json_list JStr) (MissionPlanApproval.plugin_manifest_sha256s r));
  ("operator_client_id", JStr (MissionPlanApproval.operator_client_id r));
  ("acknowledged_finding_codes", strings_json (MissionPlanApproval.acknowledged_finding_codes r));
  ("created_at_monotonic_s", JFloat (MissionPlanApproval.created_at_monotonic_s r));
  ("expires_at_monotonic_s", JFloat (MissionPlanApproval.expires_at_monotonic_s r));
  ("approval_sha256", JStr (MissionPlanApproval.approval_sha256 r))].

Section approval.
Context `{DG : Digest}.

(** [plan.sha256] *)
Definition MissionPlanReceipt_sha256 (plan : MissionPlanReceipt.t) : string :=
  canonical_sha256 (MissionPlanReceipt_dump plan).

Definition plan_safety_case (plan : MissionPlanReceipt.t) : string :=
  SafetyCaseReceipt.safety_case_sha256 (PlanningBundle.safety_case (MissionPlanReceipt.planning plan)).

(** [tuple(sorted(item.manifest_sha256 for item in plan.planning.plugin_selections))] *)
Definition plan_manifests (plan : MissionPlanReceipt.t) : list string :=
  py_sorted str_ltb
    (PluginSelection.manifest_sha256 <$> PlanningBundle.plugin_selections (MissionPlanReceipt.planning plan)).

Definition MissionPlanApproval_create (plan : MissionPlanReceipt.t) (operator_client_id : string)
    (acknowledged_finding_codes : gset string) (now_monotonic_s validity_s : float) :
    outcome MissionPlanApproval.t :=
  let expires := fadd now_monotonic_s validity_s in
  let digest := canonical_sha256 (JObj [
    ("mission_id", JStr (MissionPlanReceipt.mission_id plan));
    ("plan_id", JStr (MissionPlanReceipt.plan_id plan));
    ("plan_sha256", JStr (MissionPlanReceipt_sha256 plan));
    ("safety_case_sha256", JStr (plan_safety_case plan));
    ("mission_source_sha256", JStr (MissionPlanReceipt.mission_source_sha256 plan));
    ("deployment_sha256", JStr (MissionPlanReceipt.deployment_sha256 plan));
    ("plugin_manifest_sha256s", json_list JStr (plan_manifests plan));
    ("operator_client_id", JStr operator_client_id);
    ("acknowledged_finding_codes", strings_json acknowledged_finding_codes);
    ("created_at_monotonic_s", JFloat now_monotonic_s);
    ("expires_at_monotonic_s", JFloat expires)]) in
  let approval := MissionPlanApproval.mk ("approval-" +:+ str_take 24 digest)
      (MissionPlanReceipt.mission_id plan) (MissionPlanReceipt.plan_id plan)
      (MissionPlanReceipt_sha256 plan) (plan_safety_case plan)
      (MissionPlanReceipt.mission_source_sha256 plan) (MissionPlanReceipt.deployment_sha256 plan)
      (plan_manifests plan) operator_client_id acknowledged_finding_codes now_monotonic_s expires digest in
  checked "MissionPlanApproval" (MissionPlanApproval_valid approval) approval.

Definition mismatch_reasons (a : MissionPlanApproval.t) (plan : MissionPlanReceipt.t)
    (operator_client_id : string) (now_monotonic_s : float) : list string :=
  let unless (ok : bool) reason := if ok then [] else [reason] in
  unless (negb (fltb (MissionPlanApproval.expires_at_monotonic_s a) now_monotonic_s)) "approval expired"
  ++ unless (String.eqb (MissionPlanApproval.operator_client_id a) operator_client_id)
       "approval belongs to another operator client"
  ++ unless (String.eqb (MissionPlanApproval.mission_id a) (MissionPlanReceipt.mission_id plan))
       "mission identity changed"
  ++ unless (String.eqb (MissionPlanApproval.plan_id a) (MissionPlanReceipt.plan_id plan)
             && String.eqb (MissionPlanApproval.plan_sha256 a) (MissionPlanReceipt_sha256 plan))
       "mission plan changed"
  ++ unless (String.eqb (MissionPlanApproval.safety_case_sha256 a) (plan_safety_case plan))
       "safety case changed"
  ++ unless (String.eqb (MissionPlanApproval.mission_source_sha256 a)
               (MissionPlanReceipt.mission_source_sha256 plan)) "mission source changed"
  ++ unless (String.eqb (MissionPlanApproval.deployment_sha256 a) (MissionPlanReceipt.deployment_sha256 plan))
       "deployment changed"
  ++ unless (MissionPlanApproval.plugin_manifest_sha256s a ≟ plan_manifests plan) "selected plugin changed".
End approval.
