(* ===== verification/Admission.v ===== *)
(** * Guarantees of the admission of missions

    Theorems about [MissionPlans]: a plan that is not blocked is admissible for every
    role, for every pair of roles and for the whole fleet; a role plan is a
    continuous path that follows its commands; the compiled program covers every
    waypoint; an approval holds for its plan only. *)

From S2P Require Import Prelude Float64 Effects Contracts Artifacts Trajectory Safety.
From S2P Require Import PlanContracts Routes Envelope Intents Planning Scripts Deconfliction Multidrone Conflicts.
From S2P Require Import MissionPlans.

(** ** Findings

    A list of findings is quiet when none of them blocks the plan. *)
Definition quiet (fs : list MissionPlanFinding.t) : Prop := Forall (fun f => is_blocker f = false) fs.

Lemma quiet_app fs gs : quiet (fs ++ gs) <-> quiet fs /\ quiet gs.
Proof. apply Forall_app. Qed.

Lemma quiet_mjoin fss : quiet (mjoin fss) <-> Forall quiet fss.
Proof.
  unfold quiet. induction fss as [|fs fss IH]; simpl; [by split|].
  by rewrite Forall_app, Forall_cons, IH.
Qed.

Lemma unblocked_quiet fs : _plan_status fs <> MissionPlanStatus.BLOCKED <-> quiet fs.
Proof.
  unfold _plan_status, quiet. rewrite Forall_forall. split.
  - intros H f Hf. destruct (existsb is_blocker fs) eqn:E; [done|]. by eapply existsb_false.
  - intros H. destruct (existsb is_blocker fs) eqn:E; [|by case_match].
    apply existsb_exists in E as (f & Hf%list_elem_of_In & Hb). by rewrite (H f Hf) in Hb.
Qed.

(** A test that appends a blocker did not succeed when the result is quiet. *)
Lemma found_quiet b code message role step details fs :
  found b (_blocker code message role step details) = Ret fs -> quiet fs -> b = false.
Proof.
  unfold found. destruct b; [|done]. intros (f & Hf & [= <-])%bind_Ret Hq.
  apply checked_Ret in Hf as [_ <-]. by apply Forall_cons in Hq as [? _].
Qed.

Lemma all_found_quiet l fs :
  all_found l = Ret fs -> quiet fs -> Forall (fun o => exists gs, o = Ret gs /\ quiet gs) l.
Proof.
  intros (fss & Hm & <-)%fmap_Ret Hq%quiet_mjoin. apply mapM_Ret in Hm.
  induction Hm as [|o gs l fss Ho _ IH]; constructor.
  - apply Forall_cons in Hq as [Hq _]. by exists gs.
  - apply IH. by apply Forall_cons in Hq as [_ ?].
Qed.

(** ** The plan of a role *)

Section roles.
Context `{TX : PyText} `{LM : Libm}.
Context (role_id : string) (policy : SafetyPolicy.t) (obstacles : list PlanningObstacle.t).

(** The peaks of speed and acceleration of the smooth profile over a distance *)
Definition peak_speed_is (distance duration v : float) : Prop :=
  py_div (fmul (flit 15 10) distance) duration = Ret v.

Definition peak_acceleration_is (distance duration a : float) : Prop :=
  exists square, py_square duration = Ret square /\ py_div (fmul (float_of_Z 6) distance) square = Ret a.

Definition takeoff_obeys (arguments : dict argument) : Prop :=
  exists height duration v a,
    float_at "height_m" arguments = Ret height /\ float_at "duration_s" arguments = Ret duration /\
    peak_speed_is height duration v /\ fltb (SafetyPolicy.max_vertical_speed_m_s policy) v = false /\
    peak_acceleration_is height duration a /\ fltb (SafetyPolicy.max_acceleration_m_s2 policy) a = false.

(** The length of a move is that of the hypotenuse of its horizontal and vertical parts. *)
Definition move_obeys (arguments : dict argument) : Prop :=
  exists x y z yaw duration horizontal_squared vertical_squared distance h v a rate,
    float_or "x_m" f0 arguments = Ret x /\ float_or "y_m" f0 arguments = Ret y /\
    float_or "z_m" f0 arguments = Ret z /\ float_or "yaw_rad" f0 arguments = Ret yaw /\
    float_at "duration_s" arguments = Ret duration /\
    py_square (c_hypot x y) = Ret horizontal_squared /\ py_square (fabs z) = Ret vertical_squared /\
    py_sqrt (fadd horizontal_squared vertical_squared) = Ret distance /\
    peak_speed_is (c_hypot x y) duration h /\ fltb (SafetyPolicy.max_horizontal_speed_m_s policy) h = false /\
    peak_speed_is (fabs z) duration v /\ fltb (SafetyPolicy.max_vertical_speed_m_s policy) v = false /\
    peak_acceleration_is distance duration a /\ fltb (SafetyPolicy.max_acceleration_m_s2 policy) a = false /\
    peak_speed_is (fabs yaw) duration rate /\ fltb (SafetyPolicy.max_yaw_rate_rad_s policy) rate = false.

(** The speeds and accelerations of a command obey the policy. *)
Definition within_dynamics (command : ScriptStep.t) : Prop :=
  (ScriptStep.action command = "takeoff" -> takeoff_obeys (ScriptStep.arguments command)) /\
  (ScriptStep.action command = "move_relative" -> move_obeys (ScriptStep.arguments command)).

(** The leg of a waypoint, unless it stays in place, passes by every obstacle. *)
Definition clear_of_obstacles (w : MissionPlanWaypoint.t) : Prop :=
  exists d, distance_is (MissionPlanWaypoint.start_m w) (MissionPlanWaypoint.end_m w) d /\
    (fltb f0 d = true ->
     Forall (fun o => leg_misses (MissionPlanWaypoint.start_m w) (MissionPlanWaypoint.end_m w)
                        (PlanningObstacle.minimum_m o) (PlanningObstacle.maximum_m o)) obstacles).

Definition waypoint_ok (command : ScriptStep.t) (w : MissionPlanWaypoint.t) : Prop :=
  in_volume (SafetyPolicy.flight_volume policy) (MissionPlanWaypoint.end_m w) /\
  fltb (SafetyPolicy.max_altitude_m policy) (v_z (MissionPlanWaypoint.end_m w)) = false /\
  clear_of_obstacles w /\ within_dynamics command.

(** Where a command leads from a position and a heading *)
Inductive leads (position : Vector3) (yaw : float) (command : ScriptStep.t) : Vector3 -> float -> Prop :=
| leads_up height :
    ScriptStep.action command = "takeoff" -> float_at "height_m" (ScriptStep.arguments command) = Ret height ->
    leads position yaw command (mkVector3 (v_x position) (v_y position) height) yaw
| leads_aside x y z dx dy turn :
    ScriptStep.action command = "move_relative" ->
    float_or "x_m" f0 (ScriptStep.arguments command) = Ret x ->
    float_or "y_m" f0 (ScriptStep.arguments command) = Ret y ->
    float_or "z_m" f0 (ScriptStep.arguments command) = Ret z ->
    float_or "yaw_rad" f0 (ScriptStep.arguments command) = Ret turn ->
    (str_of_argument <$> dict_get "frame" (ScriptStep.arguments command) <> Some "body" -> dx = x /\ dy = y) ->
    (str_of_argument <$> dict_get "frame" (ScriptStep.arguments command) = Some "body" ->
     exists c s, py_cos yaw = Ret c /\ py_sin yaw = Ret s /\
       dx = fsub (fmul x c) (fmul y s) /\ dy = fadd (fmul x s) (fmul y c)) ->
    leads position yaw command
      (mkVector3 (fadd (v_x position) dx) (fadd (v_y position) dy) (fadd (v_z position) z)) (fadd yaw turn)
| leads_down :
    ScriptStep.action command = "land" ->
    leads position yaw command (mkVector3 (v_x position) (v_y position) f0) yaw
| leads_nowhere :
    ScriptStep.action command ∉ ["takeoff"; "move_relative"; "land"] ->
    leads position yaw command position yaw.

(** How long a command takes: its duration, half a second or the bound for an
    observation without one, and no time otherwise *)
Definition takes (command : ScriptStep.t) (duration : float) : Prop :=
  let given := is_some (dict_get "duration_s" (ScriptStep.arguments command)) in
  (given = true -> float_at "duration_s" (ScriptStep.arguments command) = Ret duration) /\
  (given = false -> ScriptStep.action command = "observe" ->
   float_or "timeout_s" (flit 5 10) (ScriptStep.arguments command) = Ret duration) /\
  (given = false -> ScriptStep.action command <> "observe" -> duration = f0).

(** The waypoint of a command from a position, a heading and a time. It ends the
    duration of the command later, and its start is computed back from its end: the
    given time up to the rounding of one addition and one subtraction. *)
Definition waypoint_of (sequence : Z) (position : Vector3) (yaw elapsed : float)
    (command : ScriptStep.t) (w : MissionPlanWaypoint.t) : Prop :=
  MissionPlanWaypoint_valid w = true /\
  MissionPlanWaypoint.sequence w = sequence /\
  MissionPlanWaypoint.action w = ScriptStep.action command /\
  MissionPlanWaypoint.start_m w = position /\ MissionPlanWaypoint.start_yaw_rad w = yaw /\
  leads position yaw command (MissionPlanWaypoint.end_m w) (MissionPlanWaypoint.end_yaw_rad w) /\
  exists duration, takes command duration /\
    MissionPlanWaypoint.ends_at_s w = fadd elapsed duration /\
    MissionPlanWaypoint.starts_at_s w = fsub (fadd elapsed duration) duration.

(** The waypoints follow the commands, each from where the one before it ended. *)
Fixpoint follows (sequence : Z) (position : Vector3) (yaw elapsed : float)
    (commands : list ScriptStep.t) (ws : list MissionPlanWaypoint.t) : Prop :=
  match commands, ws with
  | [], [] => True
  | c :: cs, w :: ws' =>
      waypoint_of sequence position yaw elapsed c w /\
      follows (sequence + 1) (MissionPlanWaypoint.end_m w) (MissionPlanWaypoint.end_yaw_rad w)
        (MissionPlanWaypoint.ends_at_s w) cs ws'
  | _, _ => False
  end.

Lemma takeoff_quiet sequence arguments fs :
  _check_takeoff_dynamics role_id sequence arguments policy = Ret fs -> quiet fs -> takeoff_obeys arguments.
Proof.
  intros ([vs acc] & Hd & Ha)%bind_Ret Hq.
  pose proof (all_found_quiet _ _ Ha Hq) as [(g1 & H1 & Q1) [(g2 & H2 & Q2) _]%Forall_cons]%Forall_cons.
  apply found_quiet in H1, H2; [|done..].
  apply bind_Ret in Hd as (height & Hh & Hd). apply bind_Ret in Hd as (duration & Hdur & Hd).
  apply bind_Ret in Hd as (v & Hv & Hd). apply bind_Ret in Hd as (square & Hsq & Hd).
  apply bind_Ret in Hd as (a & Hacc & [= <- <-]). exists height, duration, v, a.
  repeat (split; [done|]). split; [by exists square|done].
Qed.

Lemma move_quiet sequence arguments fs :
  _check_move_dynamics role_id sequence arguments policy = Ret fs -> quiet fs -> move_obeys arguments.
Proof.
  intros ([[[hs vs] acc] yr] & Hd & Ha)%bind_Ret Hq.
  pose proof (all_found_quiet _ _ Ha Hq) as H.
  apply Forall_cons in H as [(g1 & H1 & Q1) [(g2 & H2 & Q2) [(g3 & H3 & Q3) [(g4 & H4 & Q4) _]%Forall_cons]%Forall_cons]%Forall_cons].
  apply found_quiet in H1, H2, H3, H4; [|done..].
  apply bind_Ret in Hd as (duration & Hdur & Hd). apply bind_Ret in Hd as (x & Hx & Hd).
  apply bind_Ret in Hd as (y & Hy & Hd). cbv zeta in Hd. apply bind_Ret in Hd as (z & Hz & Hd).
  apply bind_Ret in Hd as (h2 & Hh2 & Hd). apply bind_Ret in Hd as (v2 & Hv2 & Hd).
  apply bind_Ret in Hd as (distance & Hdist & Hd). apply bind_Ret in Hd as (h & Hh & Hd).
  apply bind_Ret in Hd as (v & Hv & Hd). apply bind_Ret in Hd as (square & Hsq & Hd).
  apply bind_Ret in Hd as (a & Hacc & Hd). apply bind_Ret in Hd as (yaw & Hyaw & Hd).
  apply bind_Ret in Hd as (rate & Hrate & [= <- <- <- <-]).
  exists x, y, z, yaw, duration, h2, v2, distance, h, v, a, rate.
  repeat (split; [done|]). split; [by exists square|done].
Qed.

(** The branches of the code lead where the command does. *)
Lemma command_target_leads sequence position yaw command target yaw' fs :
  command_target role_id sequence policy position yaw command = Ret (target, yaw', fs) ->
  leads position yaw command target yaw'.
Proof.
  unfold command_target. cbv zeta. destruct (String.eqb_spec (ScriptStep.action command) "takeoff") as [E|N1].
  { intros (h & Hh & H)%bind_Ret. apply bind_Ret in H as (gs & _ & [= <- <- _]). by constructor. }
  destruct (String.eqb_spec (ScriptStep.action command) "move_relative") as [E|N2].
  { intros ([dx dy] & Hxy & H)%bind_Ret. apply bind_Ret in H as (dz & Hz & H).
    apply bind_Ret in H as (turn & Ht & H). apply bind_Ret in H as (gs & _ & [= <- <- _]).
    apply bind_Ret in Hxy as (x & Hx & Hxy). apply bind_Ret in Hxy as (y & Hy & Hxy).
    set (frame := str_of_argument <$> dict_get "frame" (ScriptStep.arguments command)) in *.
    apply (leads_aside _ _ _ x y); try done; fold frame; intros Hframe.
    - destruct (String.eqb_spec (default "home" frame) "body") as [Hb|_]; [|by injection Hxy as <- <-].
      destruct frame; simpl in Hb; congruence.
    - rewrite Hframe in Hxy. simpl in Hxy. apply bind_Ret in Hxy as (c & Hc & Hxy).
      apply bind_Ret in Hxy as (s & Hs & Hxy). rewrite Hs, Hc in Hxy. injection Hxy as <- <-. by exists c, s. }
  destruct (String.eqb_spec (ScriptStep.action command) "land") as [E|N3]; intros [= <- <- _].
  - by constructor.
  - constructor. rewrite !not_elem_of_cons. split_and!; [done..|apply not_elem_of_nil].
Qed.

Lemma step_duration_takes command duration :
  _step_duration command = Ret duration -> takes command duration.
Proof.
  unfold _step_duration, takes, dict_mem. cbv zeta. destruct (is_some (dict_get _ _)); [done|].
  destruct (String.eqb_spec (ScriptStep.action command) "observe"); [done|]. by intros [= <-].
Qed.

Lemma command_target_quiet sequence position yaw command target yaw' fs :
  command_target role_id sequence policy position yaw command = Ret (target, yaw', fs) -> quiet fs ->
  within_dynamics command.
Proof.
  unfold command_target. intros H Hq. split; intros Ha; rewrite Ha in H; simpl in H.
  - apply bind_Ret in H as (h & _ & H). apply bind_Ret in H as (gs & Hg & [= _ _ <-]).
    by eapply takeoff_quiet.
  - apply bind_Ret in H as ([dx dy] & _ & H). apply bind_Ret in H as (dz & _ & H).
    apply bind_Ret in H as (dyaw & _ & H). apply bind_Ret in H as (gs & Hg & [= _ _ <-]).
    by eapply move_quiet.
Qed.

Lemma obstacle_misses a b o :
  _segment_intersects_box a b (PlanningObstacle.minimum_m o) (PlanningObstacle.maximum_m o) = false <->
  leg_misses a b (PlanningObstacle.minimum_m o) (PlanningObstacle.maximum_m o).
Proof. apply (slabs_exact _ _ _ _ axes); reflexivity. Qed.

Lemma target_quiet sequence start position d fs :
  target_findings role_id sequence policy obstacles start position d = Ret fs -> quiet fs ->
  in_volume (SafetyPolicy.flight_volume policy) position /\
  fltb (SafetyPolicy.max_altitude_m policy) (v_z position) = false /\
  (fltb f0 d = true ->
   Forall (fun o => leg_misses start position (PlanningObstacle.minimum_m o) (PlanningObstacle.maximum_m o))
     obstacles).
Proof.
  intros Ha Hq. pose proof (all_found_quiet _ _ Ha Hq) as [(g & Hg & Hgq) Ho]%Forall_cons.
  apply found_quiet, negb_false_iff in Hg; [|done]. unfold admissible_target in Hg.
  apply andb_true_iff in Hg as [Hin%contains_in_volume Hz%negb_true_iff]. split_and!; [done|done|].
  intros Hd. rewrite Forall_fmap in Ho. eapply Forall_impl; [exact Ho|]. intros o (gs & Hgs & Hgsq).
  apply found_quiet in Hgs; [|done]. rewrite Hd in Hgs. by apply obstacle_misses.
Qed.

Lemma plan_command_Ret p sequence command p' :
  plan_command role_id policy obstacles p sequence command = Ret p' ->
  exists w fs,
    Progress.waypoints p' = Progress.waypoints p ++ [w] /\
    Progress.findings p' = Progress.findings p ++ fs /\
    waypoint_of sequence (Progress.position p) (Progress.yaw p) (Progress.elapsed_s p) command w /\
    Progress.position p' = MissionPlanWaypoint.end_m w /\
    Progress.yaw p' = MissionPlanWaypoint.end_yaw_rad w /\
    Progress.elapsed_s p' = MissionPlanWaypoint.ends_at_s w /\
    (quiet fs -> waypoint_ok command w).
Proof.
  intros (duration & Hd & E)%bind_Ret.
  apply bind_Ret in E as ([[position yaw] dynamics] & Ht & E). cbv zeta in E.
  apply bind_Ret in E as (d & Hdist & E). apply bind_Ret in E as (w & Hw & E).
  apply checked_Ret in Hw as [Hv <-]. apply bind_Ret in E as (targets & Htar & [= <-]).
  eexists _, (dynamics ++ targets). split; [done|]. split; [done|]. split.
  { unfold waypoint_of. simpl. repeat (split; [done|]). split; [by eapply command_target_leads|].
    exists duration. by split; [apply step_duration_takes|]. }
  simpl. repeat (split; [done|]). intros [Q1 Q2]%quiet_app.
  apply target_quiet in Htar as (? & ? & ?); [|done]. repeat (split; [done|]).
  split; [exists d; by rewrite <- v_distance_is|]. by eapply command_target_quiet.
Qed.

Lemma plan_commands_Ret p sequence commands p' :
  plan_commands role_id policy obstacles p sequence commands = Ret p' ->
  exists ws fs,
    Progress.waypoints p' = Progress.waypoints p ++ ws /\
    Progress.findings p' = Progress.findings p ++ fs /\
    follows sequence (Progress.position p) (Progress.yaw p) (Progress.elapsed_s p) commands ws /\
    Progress.elapsed_s p' = default (Progress.elapsed_s p) (MissionPlanWaypoint.ends_at_s <$> last ws) /\
    (quiet fs -> Forall2 waypoint_ok commands ws).
Proof.
  revert p sequence. induction commands as [|c cs IH]; simpl; intros p sequence.
  { intros [= <-]. exists [], []. rewrite !app_nil_r. by split_and!. }
  intros (p1 & H1 & H2)%bind_Ret.
  apply plan_command_Ret in H1 as (w & fs & Hw & Hf & Hof & Hp & Hy & He & Hok).
  apply IH in H2 as (ws & gs & Hw2 & Hf2 & Hfol & He2 & Hok2).
  exists (w :: ws), (fs ++ gs). rewrite Hw2, Hw, Hf2, Hf, <-!app_assoc.
  split; [done|]. split; [done|]. split; [by rewrite <-Hp, <-Hy, <-He|]. split.
  - rewrite He2, He, last_cons. by destruct (last ws).
  - intros [Q1 Q2]%quiet_app. constructor; auto.
Qed.

Lemma fmax_bounds a b z : fltb a z = false -> fltb (py_fmax a b) z = false.
Proof.
  unfold py_fmax. destruct (fltb a b) eqn:Hab; [|done]. intros Hz.
  destruct (fltb b z) eqn:Hbz; [|done]. by rewrite (fltb_trans _ _ _ Hab Hbz) in Hz.
Qed.

Lemma fmax_above a b : fltb (py_fmax a b) b = false.
Proof. unfold py_fmax. destruct (fltb a b) eqn:Hab; [apply fltb_irrefl|done]. Qed.

(** Every altitude of the path is at most the recorded maximum. *)
Lemma plan_commands_altitude p sequence commands p' :
  plan_commands role_id policy obstacles p sequence commands = Ret p' ->
  (forall z, fltb (Progress.maximum_altitude_m p) z = false ->
             fltb (Progress.maximum_altitude_m p') z = false) /\
  (Forall (fun w => fltb (Progress.maximum_altitude_m p) (v_z (MissionPlanWaypoint.end_m w)) = false)
     (Progress.waypoints p) ->
   Forall (fun w => fltb (Progress.maximum_altitude_m p') (v_z (MissionPlanWaypoint.end_m w)) = false)
     (Progress.waypoints p')).
Proof.
  revert p sequence. induction commands as [|c cs IH]; simpl; intros p sequence; [by intros [= <-]|].
  intros (p1 & H1 & H2)%bind_Ret. apply IH in H2 as [Hz Hws].
  assert (Hmax : Progress.maximum_altitude_m p1
                 = py_fmax (Progress.maximum_altitude_m p) (v_z (Progress.position p1))).
  { apply bind_Ret in H1 as (duration & _ & E). apply bind_Ret in E as ([[position yaw] fs] & _ & E).
    apply bind_Ret in E as (d & _ & E). apply bind_Ret in E as (w & _ & E).
    by apply bind_Ret in E as (gs & _ & [= <-]). }
  apply plan_command_Ret in H1 as (w & fs & Hw & _ & _ & Hp & _).
  split; [intros z ?; apply Hz; rewrite Hmax; by apply fmax_bounds|].
  intros Hall. apply Hws. rewrite Hw, Hmax. apply Forall_app. split.
  - eapply Forall_impl; [exact Hall|]. intros v. apply fmax_bounds.
  - constructor; [|done]. rewrite <-Hp. apply fmax_above.
Qed.

(** What a role plan promises of its commands *)
Definition follows_commands (start : Vector3) (commands : list ScriptStep.t) (plan : MissionRolePlan.t) : Prop :=
  MissionRolePlan.start_m plan = start /\ MissionRolePlan.planned_commands plan = commands /\
  follows 1 start f0 f0 commands (MissionRolePlan.waypoints plan) /\
  MissionRolePlan.planned_duration_s plan
    = default f0 (MissionPlanWaypoint.ends_at_s <$> last (MissionRolePlan.waypoints plan)) /\
  Forall (fun z => fltb (MissionRolePlan.maximum_altitude_m plan) z = false)
    (v_z start :: (v_z ∘ MissionPlanWaypoint.end_m <$> MissionRolePlan.waypoints plan)).

(** What it promises when none of its findings blocks *)
Definition role_admissible (plan : MissionRolePlan.t) : Prop :=
  in_volume (SafetyPolicy.flight_volume policy) (MissionRolePlan.start_m plan) /\
  Forall2 waypoint_ok (MissionRolePlan.planned_commands plan) (MissionRolePlan.waypoints plan) /\
  fltb (SafetyPolicy.max_mission_duration_s policy) (MissionRolePlan.planned_duration_s plan) = false.

Lemma compile_role_Ret vehicle_id home start existing observed minimum commands fidelity plan fs :
  _compile_role role_id vehicle_id home start existing observed minimum commands fidelity policy obstacles
    = Ret (plan, fs) ->
  MissionRolePlan.role_id plan = role_id /\ MissionRolePlan.vehicle_id plan = vehicle_id /\
  MissionRolePlan.initial_role plan = InitialFleetRole.ACTIVE /\
  follows_commands start commands plan /\ (quiet fs -> role_admissible plan).
Proof.
  intros (first & Hfirst & E)%bind_Ret. apply bind_Ret in E as (p & Hp & E).
  apply bind_Ret in E as (lasts & Hlast & E). apply bind_Ret in E as (plan' & Hplan & [= <- <-]).
  apply checked_Ret in Hplan as [_ <-]. simpl.
  pose proof (plan_commands_altitude _ _ _ _ Hp) as [Hz Hws].
  apply plan_commands_Ret in Hp as (ws & gs & Hw & Hf & Hfol & He & Hok). simpl in *.
  repeat (split; [done|]). split.
  - unfold follows_commands. simpl. rewrite Hw, He. repeat (split; [done|]). constructor.
    + apply Hz, fltb_irrefl.
    + apply Forall_fmap. rewrite <-Hw. by apply Hws.
  - rewrite Hf. intros [[Q1 Q2]%quiet_app Q3]%quiet_app. unfold role_admissible. simpl. split.
    + by eapply contains_in_volume, negb_false_iff, found_quiet.
    + rewrite Hw. split; [by apply Hok|].
      pose proof (all_found_quiet _ _ Hlast Q3) as [(g & Hg & Hgq) _]%Forall_cons.
      by eapply found_quiet.
Qed.
End roles.

(** ** The mission plan *)

Section build.
Context `{TX : PyText} `{LM : Libm} `{DG : Digest} `{MW : MissionWorker}.
Context (r : Request.t).

(** A planned member: a reserve only waits; any other member follows the recorded
    commands of its role. *)
Definition role_planned (plan : MissionRolePlan.t) : Prop :=
  (MissionRolePlan.initial_role plan = InitialFleetRole.RESERVE /\
   MissionRolePlan.planned_commands plan = [] /\ MissionRolePlan.waypoints plan = []) \/
  (MissionRolePlan.initial_role plan = InitialFleetRole.ACTIVE /\
   exists commands,
     preview_isolated_mission_role (Request.record r) (MissionRolePlan.role_id plan) = Ret commands /\
     follows_commands (MissionRolePlan.start_m plan) commands plan).

Definition role_is_admissible (plan : MissionRolePlan.t) : Prop :=
  MissionRolePlan.initial_role plan = InitialFleetRole.ACTIVE ->
  role_admissible (Request.policy r) (Request.obstacles r) plan.

Lemma plan_member_Ret member plan fs :
  plan_member r member = Ret (plan, fs) ->
  MissionRolePlan.vehicle_id plan = FleetMemberDefinition.vehicle_id member /\
  role_planned plan /\ (quiet fs -> role_is_admissible plan).
Proof.
  intros (ws & _ & E)%bind_Ret. case_bool_decide as Hr.
  - apply bind_Ret in E as (p & Hp & [= <- <-]). apply checked_Ret in Hp as [_ <-]. simpl.
    split; [done|]. split; [by left|]. by intros _ [=].
  - apply bind_Ret in E as (commands & Hc & E). cbv zeta in E.
    apply bind_Ret in E as ([p gs] & Hp & [= <- <-]).
    apply compile_role_Ret in Hp as (Hid & Hv & Ha & Hf & Hq).
    pose proof Hf as (Hs & _). split; [done|]. split.
    + right. split; [done|]. exists commands. by rewrite Hid, Hs.
    + intros [_ Q]%quiet_app _. by apply Hq.
Qed.

Lemma plan_members_Ret members :
  plan_members r = Ret members ->
  MissionRolePlan.vehicle_id <$> members.*1
    = FleetMemberDefinition.vehicle_id <$> py_sorted member_ltb (DeploymentManifest.fleet (Request.deployment r)) /\
  Forall role_planned members.*1 /\ (Forall quiet members.*2 -> Forall role_is_admissible members.*1).
Proof.
  intros Hm%mapM_Ret. induction Hm as [|m [plan fs] ms l Hp _ (IH1 & IH2 & IH3)]; simpl; [done|].
  apply plan_member_Ret in Hp as (Hv & Hpl & Hq). split; [by f_equal|]. split; [by constructor|].
  intros [Q1 Q2]%Forall_cons. constructor; auto.
Qed.

(** Two starts are further apart than the critical separation. *)
Definition starts_apart (pair : MissionRolePlan.t * MissionRolePlan.t) : Prop :=
  exists d, distance_is (MissionRolePlan.start_m pair.1) (MissionRolePlan.start_m pair.2) d /\
    fleb d (FleetConstraints.critical_separation_m (DeploymentManifest.constraints (Request.deployment r)))
      = false.

Lemma separation_quiet roles fs :
  _starting_separation_findings roles (Request.deployment r) = Ret fs -> quiet fs ->
  Forall starts_apart (later_pairs roles).
Proof.
  intros Ha Hq. pose proof (all_found_quiet _ _ Ha Hq) as H. rewrite Forall_fmap in H.
  eapply Forall_impl; [exact H|]. intros pair (gs & Hg & Hgq).
  apply bind_Ret in Hg as (d & Hd & Hg). exists d. split; [by apply v_distance_is|].
  cbv zeta in Hg. destruct (fleb d _) eqn:Hc; [|done]. by apply found_quiet in Hg.
Qed.

Lemma routes_quiet (routes : list RoutePlanArtifact.t) fs :
  all_found (route_finding <$> routes) = Ret fs -> quiet fs ->
  Forall (fun route => RoutePlanArtifact.status route <> RoutePlanStatus.BLOCKED) routes.
Proof.
  intros Ha Hq. pose proof (all_found_quiet _ _ Ha Hq) as H. rewrite Forall_fmap in H.
  eapply Forall_impl; [exact H|]. intros route (gs & Hg & Hgq).
  apply found_quiet in Hg; [|done]. by apply bool_decide_eq_false in Hg.
Qed.

(** What the deconfliction of the programs keeps *)
Definition deconfliction_kept (l l' : list AcceptedExecutionProgram.t) (plan : option DeconflictionPlan.t) : Prop :=
  match plan with
  | Some (DeconflictionPlan.Crossing plan) =>
      exists allowed, allowed_strategies (Request.record r) = Ret allowed /\
        plan_keeps_promise (required_separation (Request.deployment r)) (Request.policy r) allowed l l' plan
  | Some (DeconflictionPlan.Joint plan) =>
      multi_plan_keeps_promise (required_separation (Request.deployment r))
        (starvation_bound (Request.policy r)) (Request.policy r) l l' plan
  | None => l' = l
  end.

Lemma no_crossing_plan mission l allowed l' :
  plan_crossing_deconfliction mission (Request.deployment r) l (Request.policy r) allowed = Ret (l', None) ->
  l' = l.
Proof.
  unfold plan_crossing_deconfliction. cbv zeta. destruct (py_sorted _ _) as [|[] [|[] []]]; try congruence.
  case_match; [by intros (? & _ & [=])%bind_Ret|].
  intros (a & _ & E)%bind_Ret. apply bind_Ret in E as (b & _ & E).
  case_match; [by apply bind_Ret in E as (? & _ & [=])|].
  apply bind_Ret in E as (p & _ & E). case_match; [by apply bind_Ret in E as (? & _ & [=])|].
  apply bind_Ret in E as (c & _ & E). destruct (precedence_of _ _).
  by apply bind_Ret in E as (? & _ & [=]).
Qed.

Lemma no_joint_plan mission l l' :
  plan_multi_drone_conflicts mission (Request.deployment r) l (Request.policy r) 4 = Ret (l', None) -> l' = l.
Proof.
  unfold plan_multi_drone_conflicts. cbv zeta. case_match; [congruence|].
  case_match; [by intros (? & _ & [=])%bind_Ret|].
  intros (found & _ & E)%bind_Ret. destruct (omap id found);
    by apply bind_Ret in E as (? & _ & [=]).
Qed.

Lemma deconflict_kept l l' plan : deconflict r l = Ret (l', plan) -> deconfliction_kept l l' plan.
Proof.
  intros (allowed & Ha & E)%bind_Ret. apply bind_Ret in E as ([lc [crossing|]] & Hc & E); simpl in E.
  - injection E as <- <-. exists allowed. split; [done|]. by eapply crossing_plan_sound.
  - apply no_crossing_plan in Hc as ->. apply bind_Ret in E as ([lj joint] & Hj & [= <- <-]). simpl.
    destruct joint as [joint|]; [|by eapply no_joint_plan]. simpl. by apply multi_plan_sound in Hj as [? _].
Qed.

(** The receipt is made of the parts the plan computed. *)
Lemma build_Ret receipt :
  build_mission_plan r = Ret receipt ->
  exists members findings programs,
    identities_match r = true /\ plan_members r = Ret members /\
    MissionPlanReceipt.roles receipt = members.*1 /\
    mapM (_compile_execution_program (Request.record r)) members.*1 = Ret programs /\
    deconfliction_kept (omap id programs) (MissionPlanReceipt.execution_programs receipt)
      (MissionPlanReceipt.deconfliction receipt) /\
    MissionPlanReceipt.findings receipt = py_sorted finding_ltb (mjoin members.*2 ++ findings) /\
    MissionPlanReceipt.status receipt = _plan_status (MissionPlanReceipt.findings receipt) /\
    (quiet findings ->
     Forall (fun route => RoutePlanArtifact.status route <> RoutePlanStatus.BLOCKED)
       (PlanningBundle.route_plans (MissionPlanReceipt.planning receipt)) /\
     Forall starts_apart (later_pairs members.*1) /\
     opt_ok (fun p => negb (is_blocked p)) (MissionPlanReceipt.deconfliction receipt) = true).
Proof.
  unfold build_mission_plan. destruct (identities_match r) eqn:Hid; simpl; [|done].
  intros (members & Hm & E)%bind_Ret. cbv zeta in E. apply bind_Ret in E as (planning & _ & E).
  apply bind_Ret in E as (blocked & Hb & E). apply bind_Ret in E as (separations & Hsep & E).
  apply bind_Ret in E as (safety & _ & E). apply bind_Ret in E as (programs & Hp & E).
  apply bind_Ret in E as ([l' plan] & Hd & E). apply bind_Ret in E as (conflict & Hconf & E).
  apply checked_Ret in E as [_ <-]. simpl in *.
  exists members, (blocked ++ separations ++ conflict), programs.
  repeat (split; [done|]). split; [by apply deconflict_kept|]. repeat (split; [done|]).
  intros [Q1 [Q2 Q3]%quiet_app]%quiet_app. split; [by eapply routes_quiet|].
  split; [by eapply separation_quiet|]. destruct plan as [plan|]; [|done]. simpl in *.
  apply found_quiet in Hconf; [|done]. by rewrite Hconf.
Qed.


(** C21: a mission plan that is not blocked is admissible. Every role that flies starts
    in the flight volume; every target lies in it, along every axis, and not above the
    highest altitude; every leg misses every obstacle, because it runs beside the box or
    leaves it along one axis before it has entered it along another; the peak speeds
    (1.5 distance / duration), accelerations (6 distance / duration squared) and yaw
    rates of its commands obey the policy, and so does its duration. Every two members
    start further apart than the critical separation; no route is blocked; and the
    programs are the ones compiled from the roles, changed only as a deconfliction plan
    that is not blocked changes them, with the separation it promises. *)
Theorem unblocked_plan_is_admissible receipt :
  build_mission_plan r = Ret receipt ->
  MissionPlanReceipt.status receipt <> MissionPlanStatus.BLOCKED ->
  Forall role_is_admissible (MissionPlanReceipt.roles receipt) /\
  Forall starts_apart (later_pairs (MissionPlanReceipt.roles receipt)) /\
  Forall (fun route => RoutePlanArtifact.status route <> RoutePlanStatus.BLOCKED)
    (PlanningBundle.route_plans (MissionPlanReceipt.planning receipt)) /\
  opt_ok (fun p => negb (is_blocked p)) (MissionPlanReceipt.deconfliction receipt) = true /\
  exists programs,
    mapM (_compile_execution_program (Request.record r)) (MissionPlanReceipt.roles receipt) = Ret programs /\
    deconfliction_kept (omap id programs) (MissionPlanReceipt.execution_programs receipt)
      (MissionPlanReceipt.deconfliction receipt).
Proof.
  intros (members & fs & programs & _ & Hm & -> & Hp & Hd & Hf & Hs & Hq)%build_Ret Hok.
  rewrite Hs, Hf in Hok. apply unblocked_quiet in Hok. unfold quiet in Hok. rewrite py_sorted_perm in Hok.
  apply quiet_app in Hok as [Q1%quiet_mjoin Q2]. destruct (Hq Q2) as (Hr & Hsep & Hb).
  apply plan_members_Ret in Hm as (_ & _ & Hm). repeat (split; [by auto|]). by exists programs.
Qed.
End build.

(** ** Execution programs *)

Section programs.
Context `{LM : Libm} `{DG : Digest}.
Context (record : MissionFileRecord.t) (role : MissionRolePlan.t).

(** The loop over the waypoints without a bound on its rounds *)
Inductive compiles : Z -> list MissionPlanWaypoint.t -> outcome (list ExecutionOperation.t) -> Prop :=
| compiles_done sequence : compiles sequence [] (Ret [])
| compiles_raise sequence w rest moves after e :
    (if is_single w then ([], rest) else split_moves rest) = (moves, after) ->
    compile_operation record role sequence w moves = Raise e ->
    compiles sequence (w :: rest) (Raise e)
| compiles_step sequence w rest moves after operation result :
    (if is_single w then ([], rest) else split_moves rest) = (moves, after) ->
    compile_operation record role sequence w moves = Ret operation ->
    compiles (sequence + 1) after result ->
    compiles sequence (w :: rest) (operations ← result; Ret (operation :: operations)).

Lemma split_moves_app ws moves after :
  split_moves ws = (moves, after) -> ws = moves ++ after /\ Forall (fun w => is_move w = true) moves.
Proof.
  revert moves after. induction ws as [|w ws IH]; simpl; intros moves after; [by intros [= <- <-]|].
  destruct (is_move w) eqn:Hw; [|by intros [= <- <-]]. destruct (split_moves ws) as [ms af].
  intros [= <- <-]. destruct (IH _ _ eq_refl) as [-> ?]. split; [done|by constructor].
Qed.

(** What a round takes: the waypoint with the moves after it *)
Lemma group_app w rest moves after :
  (if is_single w then ([], rest) else split_moves rest) = (moves, after) ->
  rest = moves ++ after /\ Forall (fun v => is_move v = true) moves /\
  (is_single w = true -> moves = []).
Proof.
  destruct (is_single w); [by intros [= <- <-]|]. intros [-> ?]%split_moves_app. done.
Qed.

Lemma compilation_spec fuel sequence ws :
  (length ws <= fuel)%nat -> compiles sequence ws (compile_operations fuel record role sequence ws).
Proof.
  revert sequence ws. induction fuel as [|fuel IH]; intros sequence [|w rest] Hlen; simpl in *; try lia;
    try constructor.
  destruct (if is_single w then _ else _) as [moves after] eqn:Hg.
  pose proof (group_app _ _ _ _ Hg) as (-> & _). rewrite length_app in Hlen.
  destruct (compile_operation record role sequence w moves) as [operation|e] eqn:Ho.
  - eapply compiles_step; [exact Hg|exact Ho|]. apply IH. lia.
  - by eapply compiles_raise.
Qed.

(** The loop that compiles the waypoints of a role ends. With as many rounds as there
    are waypoints the bounded loop computes exactly what the unbounded one does, whether
    it returns or raises, so the bound is never reached. *)
Theorem compilation_ends fuel sequence ws :
  (length ws <= fuel)%nat -> compiles sequence ws (compile_operations fuel record role sequence ws).
Proof. apply compilation_spec. Qed.

(** The trajectory through the targets of consecutive moves *)
Definition flies_through (w : MissionPlanWaypoint.t) (ws : list MissionPlanWaypoint.t)
    (t : TimeParameterizedTrajectory.t) : Prop :=
  let points := TimeParameterizedTrajectory.points t in
  TimeParameterizedTrajectory.role_id t = MissionRolePlan.role_id role /\
  TimeParameterizedTrajectory.vehicle_id t = MissionRolePlan.vehicle_id role /\
  TrajectoryPoint.position_m <$> points
    = MissionPlanWaypoint.start_m w :: (MissionPlanWaypoint.end_m <$> ws) /\
  TrajectoryPoint.yaw_rad <$> points
    = MissionPlanWaypoint.start_yaw_rad w :: (MissionPlanWaypoint.end_yaw_rad <$> ws) /\
  TrajectoryPoint.time_from_start_s <$> points
    = f0 :: ((fun v => fsub (MissionPlanWaypoint.ends_at_s v) (MissionPlanWaypoint.starts_at_s w)) <$> ws) /\
  (forall i point, points !! i = Some point -> i = 0%nat \/ S i = length points ->
     TrajectoryPoint.velocity_m_s point = Vector3_zero /\ TrajectoryPoint.yaw_rate_rad_s point = f0).

Lemma Forall2_map {A B C} (f : A -> C) (g : B -> C) l k :
  Forall2 (fun a b => f a = g b) l k -> f <$> l = g <$> k.
Proof. induction 1; simpl; [done|]. by f_equal. Qed.

Lemma imap_pair_fmap {A B} (f : A -> B) (l : list A) : (fun item => f item.2) <$> imap pair l = f <$> l.
Proof. rewrite fmap_imap. by rewrite <-(imap_const f). Qed.

Lemma new_points samples motions points :
  length motions = length samples ->
  mapM (fun item : nat * (sample * (Vector3 * float * bool)) =>
          new_point (Z.of_nat item.1 + 1) item.2.1 item.2.2) (imap pair (zip samples motions)) = Ret points ->
  TrajectoryPoint.position_m <$> points = (fun s : sample => s.1.2) <$> samples /\
  TrajectoryPoint.yaw_rad <$> points = (fun s : sample => s.2) <$> samples /\
  TrajectoryPoint.time_from_start_s <$> points = (fun s : sample => s.1.1) <$> samples /\
  (fun p => (TrajectoryPoint.velocity_m_s p, TrajectoryPoint.yaw_rate_rad_s p)) <$> points = motions.*1.
Proof.
  intros Hlen Hm%mapM_Ret.
  assert (Hp : Forall2 (fun (item : nat * (sample * (Vector3 * float * bool))) p =>
    item.2.1 = (TrajectoryPoint.time_from_start_s p, TrajectoryPoint.position_m p, TrajectoryPoint.yaw_rad p) /\
    item.2.2.1 = (TrajectoryPoint.velocity_m_s p, TrajectoryPoint.yaw_rate_rad_s p))
    (imap pair (zip samples motions)) points).
  { eapply Forall2_impl; [exact Hm|]. intros [n [[[time position] yaw] [[velocity rate] stop]]] p Hp.
    by apply checked_Ret in Hp as [_ <-]. }
  assert (Hproj : forall (B : Type) (f : sample -> B) (g : TrajectoryPoint.t -> B),
    (forall s p, s = (TrajectoryPoint.time_from_start_s p, TrajectoryPoint.position_m p,
                      TrajectoryPoint.yaw_rad p) -> f s = g p) -> g <$> points = f <$> samples).
  { intros B f g Hfg. rewrite <-(Forall2_map (fun item => f item.2.1) g _ _
      (Forall2_impl _ _ _ _ Hp (fun item p H => Hfg _ _ (proj1 H)))).
    rewrite (imap_pair_fmap (fun sm => f sm.1)).
    by rewrite <-(fst_zip samples motions) at 2 by lia; rewrite <-list_fmap_compose. }
  repeat split; [apply Hproj; by intros s p ->..|].
  symmetry. rewrite <-(Forall2_map (fun item => item.2.2.1) _ _ _
    (Forall2_impl _ _ _ _ Hp (fun item p H => proj2 H))).
  rewrite (imap_pair_fmap (fun sm => sm.2.1)).
  by rewrite <-(snd_zip samples motions) at 1 by lia; rewrite <-list_fmap_compose.
Qed.

Lemma trajectory_new_Ret t t' : TimeParameterizedTrajectory_new t = Ret t' -> t' = t.
Proof.
  unfold TimeParameterizedTrajectory_new, in_validator. case_match; [|done].
  destruct (mapM _ _) as [l|e]; simpl; [congruence|]. by destruct e.
Qed.

Lemma continuous_trajectory_flies w ws t :
  _compile_continuous_trajectory record role w ws = Ret t -> flies_through w ws t.
Proof.
  intros (motions & Hm & E)%bind_Ret. cbv zeta in E. apply bind_Ret in E as (points & Hp & E).
  apply trajectory_new_Ret in E as ->. pose proof (mapM_Ret _ _ _ Hm) as Hmot.
  pose proof (Forall2_length _ _ _ Hmot) as Hlen. rewrite length_seq in Hlen.
  apply new_points in Hp as (Hpos & Hyaw & Htime & Hvel); [|done].
  unfold flies_through. simpl. rewrite Hpos, Hyaw, Htime. unfold samples_of. simpl.
  rewrite <-!list_fmap_compose. repeat (split; [done|]).
  intros i point Hi Hends.
  assert (Hn : length points = length (samples_of w ws)).
  { rewrite <-(length_fmap TrajectoryPoint.position_m points), Hpos. apply length_fmap. }
  assert (Hvi : (fun p => (TrajectoryPoint.velocity_m_s p, TrajectoryPoint.yaw_rate_rad_s p)) <$> points !! i
                = motions.*1 !! i) by (by rewrite <-Hvel, list_lookup_fmap).
  rewrite Hi, list_lookup_fmap in Hvi. destruct (motions !! i) as [motion|] eqn:Hmi; [|done].
  assert (Hsi : seq 0 (length (samples_of w ws)) !! i = Some i).
  { apply lookup_seq. apply lookup_lt_Some in Hi. lia. }
  pose proof (Forall2_lookup_lr _ _ _ _ _ _ Hmot Hsi Hmi) as Hpm. unfold point_motion in Hpm.
  rewrite (proj2 (orb_true_iff _ _)) in Hpm.
  - injection Hpm as <-. by injection Hvi as -> ->.
  - rewrite !Nat.eqb_eq. lia.
Qed.

(** An operation flies a group of waypoints. *)
Definition flies_group (ws : list MissionPlanWaypoint.t) (operation : ExecutionOperation.t) : Prop :=
  match ws with
  | [] => False
  | w :: moves =>
      ExecutionOperation.starts_at_s operation = MissionPlanWaypoint.starts_at_s w /\
      ExecutionOperation.ends_at_s operation = MissionPlanWaypoint.ends_at_s (default w (last moves)) /\
      match operation with
      | ExecutionOperation.Takeoff _ _ _ height =>
          MissionPlanWaypoint.action w = "takeoff" /\ moves = [] /\
          height = v_z (MissionPlanWaypoint.end_m w)
      | ExecutionOperation.Hold _ _ _ => MissionPlanWaypoint.action w = "hover" /\ moves = []
      | ExecutionOperation.Land _ _ _ height (Some goal) =>
          MissionPlanWaypoint.action w = "land" /\ moves = [] /\
          height = v_z (MissionPlanWaypoint.end_m w) /\
          LandingGoalRegion.landing_target_m goal = MissionPlanWaypoint.end_m w /\
          LandingGoalRegion.approach_point_m goal = MissionPlanWaypoint.start_m w /\
          LandingGoalRegion_valid goal = true
      | ExecutionOperation.Trajectory _ _ _ sha trajectory =>
          Forall (fun v => is_move v = true) ws /\ sha = trajectory_sha256 trajectory /\
          flies_through w ws trajectory
      | _ => False
      end
  end.

Lemma static_move w : is_static w = true -> is_single w = false -> is_move w = true.
Proof.
  unfold is_static, is_single, is_move. rewrite bool_decide_eq_true, bool_decide_eq_false, String.eqb_eq.
  set_solver.
Qed.

Lemma compile_operation_flies sequence w moves rest after operation :
  is_static w = true ->
  (if is_single w then ([], rest) else split_moves rest) = (moves, after) ->
  compile_operation record role sequence w moves = Ret operation ->
  ExecutionOperation.sequence operation = sequence /\ flies_group (w :: moves) operation.
Proof.
  intros Hst Hg Ho. apply group_app in Hg as (_ & Hmoves & Hsingle). unfold compile_operation in Ho.
  pose proof (static_move w Hst) as Hmove. unfold is_single in *.
  destruct (String.eqb_spec (MissionPlanWaypoint.action w) "takeoff") as [E|Nt];
    [|destruct (String.eqb_spec (MissionPlanWaypoint.action w) "hover") as [E|Nh];
      [|destruct (String.eqb_spec (MissionPlanWaypoint.action w) "land") as [E|Nl]]]; cbv zeta in Ho.
  - rewrite E in Hsingle. apply checked_Ret in Ho as [_ <-]. rewrite (Hsingle eq_refl). done.
  - rewrite E in Hsingle. apply checked_Ret in Ho as [_ <-]. rewrite (Hsingle eq_refl). done.
  - rewrite E in Hsingle. apply bind_Ret in Ho as (goal & Hgoal & Ho).
    apply checked_Ret in Ho as [_ <-]. apply checked_Ret in Hgoal as [Hv <-].
    rewrite (Hsingle eq_refl). simpl. done.
  - apply bind_Ret in Ho as (trajectory & Ht & Ho). apply checked_Ret in Ho as [_ <-].
    split; [done|]. repeat (split; [done|]). split; [|by split; [|apply continuous_trajectory_flies]].
    constructor; [|done]. apply Hmove. apply bool_decide_eq_false. set_solver.
Qed.

Lemma compiles_groups sequence ws result operations :
  compiles sequence ws result -> result = Ret operations -> Forall (fun w => is_static w = true) ws ->
  exists groups, mjoin groups = ws /\ Forall2 flies_group groups operations /\
    ExecutionOperation.sequence <$> operations = (fun i => sequence + Z.of_nat i) <$> seq 0 (length operations).
Proof.
  intros Hc. revert operations.
  induction Hc as [|? ? ? ? ? ? Hg Ho|sequence w rest moves after operation result Hg Ho Hc IH];
    intros operations; [intros [= <-] _; by exists []|done|].
  intros (ops & Hops & [= <-])%bind_Ret [Hw Hrest]%Forall_cons.
  pose proof (group_app _ _ _ _ Hg) as (-> & _).
  destruct (IH _ Hops) as (groups & Hj & Hf & Hs); [by apply Forall_app in Hrest as [_ ?]|].
  apply (compile_operation_flies _ _ _ _ _ _ Hw Hg) in Ho as [Hseq Hfl].
  exists ((w :: moves) :: groups). simpl. split; [by rewrite <-Hj|]. split; [by constructor|].
  rewrite Hseq. f_equal; [lia|]. transitivity (ExecutionOperation.sequence <$> ops); [done|].
  rewrite Hs, <-(fmap_S_seq 0), <-list_fmap_compose. apply list_fmap_ext. intros i x _. simpl. lia.
Qed.

(** C23: the execution program of a role covers its plan. It is a valid program whose
    operations, numbered from one, fly consecutive groups of the waypoints that together
    are all of them, in order and at their planned times: a takeoff, a hover and a
    landing fly one waypoint, with the landing region around the target under its
    approach; a run of moves is one trajectory with the digest of its contents that
    starts where the first move does, passes through every target with its heading at
    its time, and stands still at both ends. *)
Theorem program_covers_every_waypoint program :
  _compile_execution_program record role = Ret (Some program) ->
  AcceptedExecutionProgram_check program = true /\
  AcceptedExecutionProgram.schedule_duration_s program = MissionRolePlan.planned_duration_s role /\
  exists groups,
    mjoin groups = MissionRolePlan.waypoints role /\
    Forall2 flies_group groups (AcceptedExecutionProgram.operations program) /\
    ExecutionOperation.sequence <$> AcceptedExecutionProgram.operations program
      = one_to (length (AcceptedExecutionProgram.operations program)).
Proof.
  unfold _compile_execution_program. cbv zeta. case_match; [done|].
  destruct (forallb is_static _) eqn:Hst; cbn [negb]; [|done].
  intros (operations & Hops & E)%bind_Ret. apply bind_Ret in E as (p & Hp & [= <-]).
  apply checked_Ret in Hp as [Hv <-]. split; [exact Hv|]. clear Hv.
  cbn [AcceptedExecutionProgram.schedule_duration_s AcceptedExecutionProgram.operations].
  split; [done|]. pose proof (compilation_spec (length (MissionRolePlan.waypoints role)) 1
                (MissionRolePlan.waypoints role) (Nat.le_refl _)) as Hc.
  destruct (compiles_groups _ _ _ _ Hc Hops) as (groups & Hj & Hf & Hs).
  { apply Forall_forall. intros w Hw. by apply (proj1 (forallb_forall _ _) Hst), list_elem_of_In. }
  exists groups. split; [done|]. split; [done|]. rewrite Hs. unfold one_to.
  rewrite <-(fmap_S_seq 0), <-list_fmap_compose. apply list_fmap_ext. intros i x _. simpl. lia.
Qed.
End programs.

(** ** Approvals *)

Section approval.
Context `{DG : Digest}.

(** The identities an approval is bound to *)
Definition same_identities (plan plan' : MissionPlanReceipt.t) : Prop :=
  MissionPlanReceipt.mission_id plan = MissionPlanReceipt.mission_id plan' /\
  MissionPlanReceipt.plan_id plan = MissionPlanReceipt.plan_id plan' /\
  MissionPlanReceipt_sha256 plan = MissionPlanReceipt_sha256 plan' /\
  plan_safety_case plan = plan_safety_case plan' /\
  MissionPlanReceipt.mission_source_sha256 plan = MissionPlanReceipt.mission_source_sha256 plan' /\
  MissionPlanReceipt.deployment_sha256 plan = MissionPlanReceipt.deployment_sha256 plan' /\
  plan_manifests plan = plan_manifests plan'.

Lemma reasons_nil (ok : bool) (reason : string) (rest : list string) :
  (if ok then [] else [reason]) ++ rest = [] <-> ok = true /\ rest = [].
Proof. destruct ok; simpl; [|by split; [|intros []]]. naive_solver. Qed.

(** C24: an approval holds for the plan it was given for and for no other. An approval an
    operator created for a plan has no mismatch against a plan exactly when it has not
    expired, the same operator asks, and the mission, the plan with its digest, the safety
    case, the source, the deployment and the selected plugins are the approved ones; in
    particular it holds for its own plan until it expires. *)
Theorem approval_holds_for_its_plan plan operator codes now validity approval plan' operator' now' :
  MissionPlanApproval_create plan operator codes now validity = Ret approval ->
  mismatch_reasons approval plan' operator' now' = [] <->
  fltb (fadd now validity) now' = false /\ operator = operator' /\ same_identities plan plan'.
Proof.
  intros [_ <-]%checked_Ret. unfold mismatch_reasons, same_identities. cbn -[fltb fadd].
  rewrite !reasons_nil, negb_true_iff, !andb_true_iff, !String.eqb_eq.
  case_bool_decide as Hm; naive_solver.
Qed.
End approval.

(** ** Concrete missions *)

Module Examples.
#[local] Existing Instance example_digest.
#[local] Existing Instance example_libm.
#[local] Existing Instance example_text.

Definition zeros : string := "0000000000000000000000000000000000000000000000000000000000000000".

Definition action (name : string) (arguments : list (string * json)) : json :=
  JObj [("action", JStr name); ("arguments", JObj arguments)].
Definition seconds (n : Z) : string * json := ("duration_s", JInt n).

(** A worker that records the same actions for every role *)
Definition recording (actions : list json) : MissionWorker := fun _ _ =>
  Exited 0 (Some (JObj [("ok", JBool true); ("source_sha256", JStr zeros); ("steps", JList actions)])) "".

Definition metres (tenths : Z) : json := JFloat (flit tenths 10).

(** Up, to the side in two moves that keep the direction, and down *)
Definition survey : list json :=
  [action "takeoff" [("height_m", metres 5); seconds 3];
   action "move_relative" [("x_m", metres 4); seconds 3];
   action "move_relative" [("x_m", metres 3); ("y_m", metres 3); seconds 3];
   action "hover" [seconds 2];
   action "land" [seconds 3]].

Definition record : MissionFileRecord.t :=
  MissionFileRecord.mk "py-survey" "Survey" "survey.py" zeros "" "bounded-python-1" MissionTier.LINEAR []
    8 0 (float_of_Z 14) false 1 [] None false.

Definition member (name : string) (x : Z) (role : InitialFleetRole.t) : FleetMemberDefinition.t :=
  FleetMemberDefinition.mk name name (mkVector3 (flit x 10) (fneg f1) f0) role true ∅.

Definition deployment (fleet : list FleetMemberDefinition.t) : DeploymentManifest.t :=
  DeploymentManifest.mk "lab" fleet [] [DeploymentTaskDefinition.mk "scout" "survey" "zone" 1 "py-survey"
      (JObj []) ∅ f100 f1 (float_of_Z 20) (float_of_Z 10)]
    (FleetConstraints.mk (flit 5 10) (flit 3 10) f1 FleetFailurePolicy.HOLD_ALL) []
    (CompletionPolicy.mk true false).

Definition pair_of_drones : list FleetMemberDefinition.t :=
  [member "cf1" 0 InitialFleetRole.ACTIVE; member "cf2" (-10) InitialFleetRole.RESERVE].

Definition request (fleet : list FleetMemberDefinition.t) (obstacles : list PlanningObstacle.t) : Request.t :=
  Request.mk record (deployment fleet) [("scout", "cf1")] SafetyPolicy_default [] [("cf1", float_of_Z 90)] ∅ obstacles.

Definition build (actions : list json) (fleet : list FleetMemberDefinition.t)
    (obstacles : list PlanningObstacle.t) : outcome MissionPlanReceipt.t :=
  build_mission_plan (MW := recording actions) (request fleet obstacles).

Definition status_of (o : outcome MissionPlanReceipt.t) : outcome MissionPlanStatus.t :=
  MissionPlanReceipt.status <$> o.
Definition codes_of (o : outcome MissionPlanReceipt.t) : outcome (list string) :=
  (fun plan => MissionPlanFinding.code <$> MissionPlanReceipt.findings plan) <$> o.

Definition accepted : outcome MissionPlanReceipt.t := build survey pair_of_drones [].

Example survey_is_approved : status_of accepted = Ret MissionPlanStatus.APPROVED.
Proof. vm_compute. reflexivity. Qed.

(** A wall across the first move *)
Definition wall : PlanningObstacle.t :=
  PlanningObstacle.mk "wall" (mkVector3 (flit 1 10) (fneg f100) f0) (mkVector3 (flit 2 10) f100 f1).

Example wall_is_found :
  codes_of (build survey pair_of_drones [wall])
    = Ret ["ROUTE_INTERSECTS_OBSTACLE"; "ROUTE_PLANNER_BLOCKED"].
Proof. vm_compute. reflexivity. Qed.

(** A vehicle that a move has put on the ground has nothing to descend: the plan is not
    blocked with a finding, the construction of its landing region fails. *)
Definition touchdown : list json :=
  [action "takeoff" [("height_m", metres 5); seconds 3];
   action "move_relative" [("x_m", metres 1); ("z_m", metres (-5)); seconds 9];
   action "land" [seconds 3]].

Example landing_on_the_ground_is_an_error :
  status_of (build touchdown pair_of_drones []) = Raise (ValidationError "LandingGoalRegion").
Proof. vm_compute. reflexivity. Qed.

(** A member that the deployment leaves unassigned is planned as an active role that
    flies the mission. *)
Definition unassigned : list FleetMemberDefinition.t :=
  [member "cf1" 0 InitialFleetRole.ACTIVE; member "cf2" (-10) InitialFleetRole.UNASSIGNED].

Example unassigned_member_is_flown :
  status_of (build survey unassigned []) = Ret MissionPlanStatus.APPROVED /\
  (fun plan => (fun role => (MissionRolePlan.vehicle_id role, MissionRolePlan.initial_role role))
     <$> MissionPlanReceipt.roles plan)
    <$> build survey unassigned []
  = Ret [("cf1", InitialFleetRole.ACTIVE); ("cf2", InitialFleetRole.ACTIVE)].
Proof. vm_compute. split; reflexivity. Qed.

(** *** The theorems on them *)


Definition is_approved (o : outcome MissionPlanReceipt.t) : bool :=
  match o with Ret plan => MissionPlanReceipt.status plan ≟ MissionPlanStatus.APPROVED | Raise _ => false end.

Lemma admissible_witness :
  exists plan, accepted = Ret plan /\
    Forall (role_is_admissible (request pair_of_drones [])) (MissionPlanReceipt.roles plan).
Proof.
  assert (H : is_approved accepted = true) by (vm_compute; reflexivity).
  destruct accepted as [plan|e] eqn:E; [|discriminate H]. exists plan. split; [reflexivity|].
  unfold accepted, build in E. unfold is_approved in H. apply bool_decide_eq_true_1 in H.
  assert (Hb : MissionPlanReceipt.status plan <> MissionPlanStatus.BLOCKED) by (rewrite H; discriminate).
  apply (unblocked_plan_is_admissible (MW := recording survey) (request pair_of_drones []) plan E Hb).
Defined.

(** The role plan of the scout *)
Definition scout : outcome MissionRolePlan.t :=
  plan ← accepted; first_or IndexError (MissionPlanReceipt.roles plan).

Definition scout_program : outcome (option AcceptedExecutionProgram.t) :=
  role ← scout; _compile_execution_program record role.

Definition is_program (o : outcome (option AcceptedExecutionProgram.t)) : bool :=
  match o with Ret (Some _) => true | _ => false end.

Lemma program_witness :
  exists role program, scout = Ret role /\
    _compile_execution_program record role = Ret (Some program) /\
    AcceptedExecutionProgram_check program = true.
Proof.
  assert (H : is_program scout_program = true) by (vm_compute; reflexivity).
  unfold scout_program in H. destruct scout as [role|e]; [|discriminate H]. cbn [mbind outcome_bind] in H.
  destruct (_compile_execution_program record role) as [[program|]|e] eqn:E;
    [|discriminate H|discriminate H].
  exists role, program. split; [reflexivity|]. split; [exact E|].
  apply (program_covers_every_waypoint record role program E).
Defined.

Lemma compilation_witness :
  exists role, scout = Ret role /\
    compiles record role 1 (MissionRolePlan.waypoints role)
      (compile_operations 5 record role 1 (MissionRolePlan.waypoints role)).
Proof.
  assert (H : match scout with Ret role => (length (MissionRolePlan.waypoints role) <=? 5)%nat | _ => false end
              = true) by (vm_compute; reflexivity).
  destruct scout as [role|e]; [|discriminate H]. exists role. split; [reflexivity|].
  apply (compilation_ends record role 5 1 (MissionRolePlan.waypoints role)). exact (proj1 (Nat.leb_le _ _) H).
Defined.

Definition approval : outcome MissionPlanApproval.t :=
  plan ← accepted; MissionPlanApproval_create plan "operator" ∅ f1 (float_of_Z 300).

Lemma approval_witness :
  exists plan approval, accepted = Ret plan /\
    MissionPlanApproval_create plan "operator" ∅ f1 (float_of_Z 300) = Ret approval /\
    mismatch_reasons approval plan "operator" f100 = [].
Proof.
  assert (H : is_ret approval = true) by (vm_compute; reflexivity).
  unfold approval in H. destruct accepted as [plan|e]; [|discriminate H]. cbn [mbind outcome_bind] in H.
  destruct (MissionPlanApproval_create plan "operator" ∅ f1 (float_of_Z 300)) as [a|e] eqn:E; [|discriminate H].
  exists plan, a. split; [reflexivity|]. split; [exact E|].
  apply (approval_holds_for_its_plan plan "operator" ∅ f1 (float_of_Z 300) a plan "operator" f100 E).
  split; [vm_compute; reflexivity|]. split; [reflexivity|]. repeat split; reflexivity.
Defined.
End Examples.
