(* ===== verification/Routing.v ===== *)
(** * Correctness of route planning ([planning/registry.py], [builtins.py], [safety.py])

    What the registry resolves, what a route that is ready promises, how fleet
    policies order roles, and which recoveries the safety kernel admits. *)

From S2P Require Import Prelude Float64 Effects Contracts Artifacts Safety Zones PlanContracts.
From S2P Require Import Routes Trajectory Envelope Planning.

(** ** The registry *)

Section registry.
Context `{Plugin P}.

Implicit Types (reg : PluginRegistry.t P) (ps : list P) (p : P).

Definition entry p : plugin_key * P := (key_of p, p).

Lemma get_plugin_entries key ps p :
  get_plugin key (entry <$> ps) = Some p -> p ∈ ps /\ key_of p = key.
Proof.
  unfold get_plugin. destruct (find_first _ _) as [[k q]|] eqn:E; [|done].
  intros [= <-]. apply find_first_Some in E as [Hin Hk%bool_decide_eq_true].
  apply list_elem_of_fmap in Hin as (x & [= -> ->] & Hx). done.
Qed.

Lemma get_plugin_None key ps :
  get_plugin key (entry <$> ps) = None <-> key ∉ key_of <$> ps.
Proof.
  unfold get_plugin. rewrite fmap_None, find_first_None, Forall_fmap, Forall_forall.
  rewrite list_elem_of_fmap. split.
  - intros Hf (x & -> & Hx). by specialize (Hf x Hx); apply bool_decide_eq_false in Hf.
  - intros Hn x Hx. apply bool_decide_eq_false. intros <-. apply Hn. by exists x.
Qed.

(** In a registry without duplicates every plug-in is found under its key. *)
Lemma get_plugin_found ps p :
  NoDup (key_of <$> ps) -> p ∈ ps -> get_plugin (key_of p) (entry <$> ps) = Some p.
Proof.
  intros Hnd Hp. destruct (get_plugin _ _) as [q|] eqn:E.
  - apply get_plugin_entries in E as [Hq Hk]. f_equal.
    apply list_elem_of_lookup in Hp as [i Hi], Hq as [j Hj].
    assert (i = j) as <-; [|congruence].
    eapply NoDup_lookup; [exact Hnd|..]; rewrite list_lookup_fmap; [by rewrite Hi|].
    rewrite Hj. simpl. by rewrite Hk.
  - exfalso. apply get_plugin_None in E. apply E. apply list_elem_of_fmap. by exists p.
Qed.

(** The registries that [register] builds. *)
Definition registered kind ps reg : Prop :=
  reg = PluginRegistry.mk P kind (entry <$> ps) /\ NoDup (key_of <$> ps) /\
  Forall (fun p => PluginManifest.kind (manifest_of p) = kind) ps.

Lemma register_plugin_registered kind ps p reg reg' :
  registered kind ps reg -> register_plugin p reg = Ret reg' -> registered kind (ps ++ [p]) reg'.
Proof.
  intros (-> & Hnd & Hk) E. unfold register_plugin in E. simpl in E.
  case_bool_decide as Hkind; [|done]. simpl in E.
  destruct (get_plugin _ _) eqn:Hg; [done|]. simpl in E. injection E as <-.
  apply get_plugin_None in Hg. split_and!.
  - by rewrite fmap_app.
  - rewrite fmap_app. apply NoDup_app. split_and!; [done| |apply NoDup_singleton].
    intros k Hin Hk'. apply list_elem_of_singleton in Hk' as ->. done.
  - apply Forall_app. by rewrite Forall_singleton.
Qed.

Lemma register_all_registered kind ps qs reg reg' :
  registered kind ps reg -> register_all qs reg = Ret reg' -> registered kind (ps ++ qs) reg'.
Proof.
  revert ps reg. induction qs as [|q qs IH]; intros ps reg Hr E; simpl in E.
  - injection E as <-. by rewrite app_nil_r.
  - destruct (register_plugin q reg) as [reg1|] eqn:Hq; [|done]. cbn [mbind outcome_bind] in E.
    replace (ps ++ q :: qs) with ((ps ++ [q]) ++ qs) by by rewrite <-app_assoc.
    eapply IH; [|exact E]. by eapply register_plugin_registered.
Qed.

Lemma PluginRegistry_new_registered kind ps reg :
  PluginRegistry_new kind ps = Ret reg -> registered kind ps reg.
Proof. intros E. apply (register_all_registered kind [] ps) in E; [done|]. by repeat constructor. Qed.

Lemma resolve_Ret plugin_id version capabilities qualified reg p :
  resolve plugin_id version capabilities qualified reg = Ret p <->
  get_plugin (plugin_id, version) (PluginRegistry._plugins reg) = Some p /\
  capabilities ⊆ PluginManifest.capabilities (manifest_of p) /\
  (qualified = true -> PluginManifest.qualification (manifest_of p) = QualificationState.QUALIFIED).
Proof.
  unfold resolve. destruct (get_plugin _ _) as [q|]; [|by split; [|intros [??]]].
  case_bool_decide as Hc; simpl.
  - destruct qualified; simpl.
    + case_bool_decide as Hq; simpl; split; try (intros [= ->]; by auto); try by intros ([= ->] & ? & ?).
      intros ([= ->] & _ & Hq'). by destruct Hq; apply Hq'.
    + split; [by intros [= ->]|by intros ([= ->] & _)].
  - split; [done|]. by intros ([= ->] & ? & _).
Qed.

(** A registry resolves exactly what was registered. Of a registry built from
    a list of plug-ins, [resolve] returns a plug-in if and only if it is one of
    the list, carries the requested identifier and version, provides every
    required capability and, when qualification is required, is qualified; and
    every plug-in of the registry has the kind of the registry. *)
Theorem registry_resolves_exactly kind ps reg plugin_id version capabilities qualified p :
  PluginRegistry_new kind ps = Ret reg ->
  (resolve plugin_id version capabilities qualified reg = Ret p <->
   p ∈ ps /\
   PluginManifest.plugin_id (manifest_of p) = plugin_id /\
   PluginManifest.implementation_version (manifest_of p) = version /\
   capabilities ⊆ PluginManifest.capabilities (manifest_of p) /\
   (qualified = true -> PluginManifest.qualification (manifest_of p) = QualificationState.QUALIFIED)) /\
  Forall (fun q => PluginManifest.kind (manifest_of q) = kind) ps.
Proof.
  intros (-> & Hnd & Hk)%PluginRegistry_new_registered. split; [|done]. rewrite resolve_Ret. simpl. split.
  - intros ([Hin Hkey]%get_plugin_entries & Hc & Hq). unfold key_of in Hkey. by simplify_eq.
  - intros (Hin & <- & <- & Hc & Hq). split_and!; [|done..]. by apply (get_plugin_found ps p).
Qed.
End registry.

(** ** Routes *)

Section routes.
Context `{LM : Libm} `{DG : Digest}.

Implicit Types (request : RoutePlanRequest.t) (route : RoutePlanArtifact.t).

(** The points a route visits. *)
Definition visited route : list Vector3 := RouteWaypoint.position_m <$> RoutePlanArtifact.waypoints route.

Definition inside request : Vector3 -> Prop :=
  in_box (RoutePlanRequest.flight_volume_minimum_m request) (RoutePlanRequest.flight_volume_maximum_m request).

(** A leg passes by every obstacle. *)
Definition leg_clear request (a b : Vector3) : Prop :=
  Forall (fun o => leg_misses a b (RouteObstacle.minimum_m o) (RouteObstacle.maximum_m o))
    (RoutePlanRequest.obstacles request).

(** A route is inside the flight volume and no leg of it meets an obstacle. *)
Definition clear_path request (points : list Vector3) : Prop :=
  Forall (inside request) points /\
  forall i a b, points !! i = Some a -> points !! S i = Some b -> leg_clear request a b.

(** The corridor of a route, which the later routes have to respect: a box around its
    waypoints, half the separation away from them, for the duration of the route. *)
Definition has_corridor request route : Prop :=
  exists corridor, RoutePlanArtifact.reservations route = [corridor] /\
    TemporalReservation.role_id corridor = RoutePlanRequest.role_id request /\
    TemporalReservation.starts_at_s corridor = f0 /\
    TemporalReservation.ends_at_s corridor = py_fmax (RoutePlanArtifact.expected_duration_s route) (flit 1 1000) /\
    box_around (visited route) (fdiv_ieee (RoutePlanRequest.minimum_separation_m request) (float_of_Z 2))
      (TemporalReservation.minimum_m corridor) (TemporalReservation.maximum_m corridor).

Definition respects (existings currents : list TemporalReservation.t) : Prop :=
  forall current existing, current ∈ currents -> existing ∈ existings -> corridors_apart current existing.

Lemma inside_volume_box request q : _inside_volume q request = true <-> inside request q.
Proof.
  unfold _inside_volume, inside. rewrite !andb_true_iff. split; [by intros [[[] []] []]; split|].
  by intros [[] [] []].
Qed.

Lemma leg_clear_spec request a b :
  existsb (_segment_intersects_box a b) (RoutePlanRequest.obstacles request) = false <-> leg_clear request a b.
Proof.
  unfold leg_clear. induction (RoutePlanRequest.obstacles request) as [|o os IH]; simpl; [by split|].
  by rewrite orb_false_iff, Forall_cons, segment_intersects_box_misses, IH.
Qed.

Lemma not_obstructed request points i a b :
  obstructed request points = false -> points !! i = Some a -> points !! S i = Some b ->
  leg_clear request a b.
Proof.
  intros Ho Ha Hb. apply leg_clear_spec. unfold obstructed in Ho.
  assert (Hleg : (a, b) ∈ zip points (tail points)).
  { apply list_elem_of_lookup. exists i. apply lookup_zip_Some. split; [done|].
    by destruct points. }
  exact (existsb_false _ _ (a, b) Ho Hleg).
Qed.


(** The extreme coordinates of points without a NaN *)
Lemma least_spec l :
  l <> [] -> Forall (fun x => is_nan x = false) l ->
  least l ∈ l /\ forall x, x ∈ l -> fleb (least l) x = true.
Proof.
  intros Hne Hn. unfold least. destruct (py_min fltb l) as [m|] eqn:E; [|by apply py_min_None in E].
  simpl. pose proof (py_min_elem _ _ _ E) as Hm. split; [done|]. intros x Hx.
  rewrite Forall_forall in Hn. apply fltb_false; [by apply Hn..|].
  eapply (py_min_le fltb (fun x => is_nan x = false)); [| | |by apply Forall_forall|exact E|done]; eauto using fltb_irrefl, fltb_neg_trans, fltb_asym.
Qed.

Lemma greatest_spec l :
  l <> [] -> Forall (fun x => is_nan x = false) l ->
  greatest l ∈ l /\ forall x, x ∈ l -> fleb x (greatest l) = true.
Proof.
  intros Hne Hn. unfold greatest. destruct (py_max fltb l) as [m|] eqn:E; [|by apply py_max_None in E].
  simpl. pose proof (py_max_elem _ _ _ E) as Hm. split; [done|]. intros x Hx.
  rewrite Forall_forall in Hn. apply fltb_false; [by apply Hn..|].
  eapply (py_max_ge fltb (fun x => is_nan x = false)); [| | |by apply Forall_forall|exact E|done]; eauto using fltb_irrefl, fltb_neg_trans, fltb_asym.
Qed.

Lemma inside_not_nan request c q : c ∈ axes -> inside request q -> is_nan (c q) = false.
Proof.
  unfold axes. rewrite !elem_of_cons. intros [->|[->|[->|[]%not_elem_of_nil]]] [[H _] [H' _] [H'' _]];
    by eapply fleb_not_nan.
Qed.

Lemma reservation_around request waypoints duration corridor :
  _reservation request waypoints duration = Ret corridor ->
  waypoints <> [] -> Forall (inside request) (RouteWaypoint.position_m <$> waypoints) ->
  TemporalReservation.role_id corridor = RoutePlanRequest.role_id request /\
  TemporalReservation.starts_at_s corridor = f0 /\
  TemporalReservation.ends_at_s corridor = py_fmax duration (flit 1 1000) /\
  box_around (RouteWaypoint.position_m <$> waypoints)
    (fdiv_ieee (RoutePlanRequest.minimum_separation_m request) (float_of_Z 2))
    (TemporalReservation.minimum_m corridor) (TemporalReservation.maximum_m corridor).
Proof.
  intros [_ <-]%checked_Ret Hne Hin. simpl. split_and!; [done..|]. intros c Hc.
  set (l := (fun w => c (RouteWaypoint.position_m w)) <$> waypoints).
  assert (Hl : l <> []) by (by intros ?%fmap_nil_inv).
  assert (Hn : Forall (fun x => is_nan x = false) l).
  { apply Forall_fmap. rewrite Forall_fmap in Hin. eapply Forall_impl; [exact Hin|].
    intros w Hw. by eapply inside_not_nan. }
  destruct (least_spec l Hl Hn) as [(a & Ha & Hain)%list_elem_of_fmap Hle].
  destruct (greatest_spec l Hl Hn) as [(b & Hb & Hbin)%list_elem_of_fmap Hge].
  exists (RouteWaypoint.position_m a), (RouteWaypoint.position_m b). rewrite <- Ha, <- Hb.
  split_and!; [by apply list_elem_of_fmap_2|by apply list_elem_of_fmap_2| | |].
  - subst l. unfold axes in Hc. rewrite !elem_of_cons in Hc. by destruct Hc as [->|[->|[->|[]%not_elem_of_nil]]].
  - subst l. unfold axes in Hc. rewrite !elem_of_cons in Hc. by destruct Hc as [->|[->|[->|[]%not_elem_of_nil]]].
  - intros q (w & -> & Hw)%list_elem_of_fmap.
    assert (c (RouteWaypoint.position_m w) ∈ l) by (apply list_elem_of_fmap; by exists w). auto.
Qed.

Lemma fly_legs_Ret request previous targets index elapsed length_m legs :
  fly_legs request previous targets index elapsed length_m = Ret legs ->
  RouteWaypoint.position_m <$> legs.1.1 = targets /\
  RouteWaypoint.sequence <$> legs.1.1 = Z.of_nat <$> seq index (length targets) /\
  Forall (fun w => fltb (RouteWaypoint.departure_s w) (RouteWaypoint.arrival_s w) = false) legs.1.1.
Proof.
  revert previous index elapsed length_m legs.
  induction targets as [|target rest IH]; intros previous index elapsed length_m legs E; simpl in E.
  { by injection E as <-. }
  apply bind_Ret in E as (segment & _ & E). apply bind_Ret in E as (travel & _ & E).
  apply bind_Ret in E as (w & Hw & E). apply bind_Ret in E as (more & Hmore & E).
  injection E as <-. apply IH in Hmore as (Hp & Hs & Hf).
  apply checked_Ret in Hw as [Hv <-]. unfold RouteWaypoint_valid in Hv. bool_to_prop.
  cbn. split_and!; [by f_equal|by f_equal|by constructor].
Qed.

Lemma route_artifact_Ret manifest request status waypoints reservations length_m duration limitations
    findings route :
  _route_artifact manifest request status waypoints reservations length_m duration limitations findings
  = Ret route ->
  RoutePlanArtifact.status route = status /\ RoutePlanArtifact.waypoints route = waypoints /\
  RoutePlanArtifact.reservations route = reservations /\
  RoutePlanArtifact.expected_duration_s route = duration /\
  RoutePlanArtifact.request_id route = RoutePlanRequest.request_id request /\
  RoutePlanArtifact.role_id route = RoutePlanRequest.role_id request.
Proof.
  intros (planner & _ & E)%bind_Ret. by apply checked_Ret in E as [_ <-].
Qed.

Lemma blocked_Ret manifest request finding route :
  _blocked manifest request finding = Ret route -> RoutePlanArtifact.status route = RoutePlanStatus.BLOCKED.
Proof. by intros (? & _)%route_artifact_Ret. Qed.


(** What every ready polyline promises. *)
Definition admissible request route : Prop :=
  head (visited route) = Some (RoutePlanRequest.start_m request) /\
  clear_path request (visited route) /\
  RouteWaypoint.sequence <$> RoutePlanArtifact.waypoints route
    = Z.of_nat <$> seq 0 (length (visited route)) /\
  Forall (fun w => fltb (RouteWaypoint.departure_s w) (RouteWaypoint.arrival_s w) = false)
    (RoutePlanArtifact.waypoints route) /\
  fltb (RoutePlanRequest.maximum_duration_s request) (RoutePlanArtifact.expected_duration_s route) = false /\
  has_corridor request route.

Lemma polyline_READY manifest request targets respecting route :
  _plan_polyline manifest request targets respecting = Ret route ->
  RoutePlanArtifact.status route = RoutePlanStatus.READY ->
  visited route = RoutePlanRequest.start_m request :: targets /\ admissible request route /\
  (respecting = true ->
     respects (RoutePlanRequest.existing_reservations request) (RoutePlanArtifact.reservations route)).
Proof.
  intros E Hready. unfold _plan_polyline in E.
  destruct (existsb _ (_ :: targets)) eqn:Hin; [apply blocked_Ret in E; congruence|].
  destruct (obstructed _ _) eqn:Hob; [apply blocked_Ret in E; congruence|].
  apply bind_Ret in E as (first & Hfirst & E). apply bind_Ret in E as ([[flown elapsed] len] & Hlegs & E).
  destruct (fltb _ elapsed) eqn:Hdur; [apply blocked_Ret in E; congruence|].
  apply bind_Ret in E as (corridor & Hc & E).
  destruct (respecting && _) eqn:Hres; [apply blocked_Ret in E; congruence|].
  apply route_artifact_Ret in E as (_ & Hw & Hr & Hd & _).
  apply fly_legs_Ret in Hlegs as (Hp & Hs & Ht). simpl in Hp, Hs, Ht.
  apply checked_Ret in Hfirst as [Hv <-].
  assert (Hvis : visited route = RoutePlanRequest.start_m request :: targets).
  { unfold visited. rewrite Hw, fmap_cons. by f_equal. }
  assert (Hbox : Forall (inside request) (RoutePlanRequest.start_m request :: targets)).
  { apply Forall_forall. intros x Hx. apply inside_volume_box, negb_false_iff.
    exact (existsb_false _ _ x Hin Hx). }
  split; [done|]. split.
  - unfold admissible. rewrite Hvis. split_and!; [done|split|..].
    + done.
    + intros i a b. by apply not_obstructed.
    + rewrite Hw, fmap_cons, Hs. done.
    + rewrite Hw. constructor; [|done]. unfold RouteWaypoint_valid in Hv. by bool_to_prop.
    + by rewrite Hd.
    + exists corridor. rewrite Hr, Hd. split; [done|].
      rewrite <- Hp in Hbox. apply reservation_around in Hc as (? & ? & ? & Haround); [|done|exact Hbox].
      split_and!; [done..|]. rewrite Hvis, <- Hp. exact Haround.
  - intros ->. simpl in Hres. rewrite Hr. intros c e ->%list_elem_of_singleton He.
    apply reservations_conflict_apart. exact (existsb_false _ _ e Hres He).
Qed.




Definition held_route (shift_s : float) (base route : RoutePlanArtifact.t) : Prop :=
  RoutePlanArtifact.waypoints route
    = TemporalRoutePlanner.shift_waypoint shift_s <$> RoutePlanArtifact.waypoints base /\
  RoutePlanArtifact.reservations route
    = TemporalRoutePlanner.shift_reservation shift_s <$> RoutePlanArtifact.reservations base.

(** A ready route of the temporal planner is the direct route, held for a time.
    It visits the same points, in the flight volume and clear of obstacles; the
    hold is the one computed from the conflicts of the direct route and no longer
    than the request allows; and the waypoints and the corridor are those of the
    direct route, later by the hold. *)
Theorem temporal_route_is_held_direct_route request route :
  RoutePlanner.plan temporal_planner request = Ret route ->
  RoutePlanArtifact.status route = RoutePlanStatus.READY ->
  visited route = RoutePlanRequest.start_m request :: positions request /\
  clear_path request (visited route) /\
  exists base,
    _plan_polyline TemporalRoutePlanner.manifest request (positions request) false = Ret base /\
    admissible request base /\
    let shift_s := TemporalRoutePlanner.shift (RoutePlanArtifact.reservations base)
                     (RoutePlanRequest.existing_reservations request) in
    fltb (RoutePlanRequest.maximum_hold_s request) shift_s = false /\
    (route = base \/ fleb shift_s f0 = false /\ held_route shift_s base route).
Proof.
  simpl. unfold TemporalRoutePlanner.plan. intros (base & Hb & E)%bind_Ret Hready.
  case_bool_decide as Hblocked; [congruence|].
  assert (Hbase : RoutePlanArtifact.status base = RoutePlanStatus.READY)
    by (by destruct (RoutePlanArtifact.status base)).
  destruct (polyline_READY _ _ _ _ _ Hb Hbase) as (Hv & Ha & _). cbv zeta in E.
  destruct (fltb _ (TemporalRoutePlanner.shift _ _)) eqn:Hm; [apply blocked_Ret in E; congruence|].
  destruct (fleb _ f0) eqn:Hz.
  - injection E as <-. split_and!; [done|apply Ha|]. exists base. split_and!; auto.
  - apply route_artifact_Ret in E as (_ & Hw & Hr & _).
    assert (Hvis : visited route = visited base).
    { unfold visited. rewrite Hw, <-list_fmap_compose. by apply list_fmap_ext; intros. }
    rewrite Hvis. split_and!; [done|apply Ha|]. exists base. split_and!; auto.
    right. split; [done|]. by split.
Qed.
End routes.

(** ** Fleet policies *)

Section policies.
Context `{DG : Digest}.

Implicit Types (request : FleetPolicyRequest.t) (decision : FleetPolicyDecision.t).

Lemma arrange_launch request active order held reasons :
  py_ordered str_ltb active ->
  DeterministicFleetPolicy.arrange request active = (order, held, reasons) ->
  order = active /\
  held = if String.eqb (FleetPolicyRequest.policy_capability request) "crossing-route"
            && (1 <? Z.of_nat (length active)) then tail active else [].
Proof.
  intros Ho. unfold DeterministicFleetPolicy.arrange.
  repeat case_match; intros [= <- <- <-]; simplify_eq/=; auto.
  all: by rewrite ?(py_sorted_ordered str_ltb) by done.
Qed.

(** A fleet policy launches the active roles and only those. Its launch order
    is the active roles in lexical order, its reserves are the reserve roles in
    lexical order, and it holds a role only for a crossing of several roles, where
    exactly the first role of the order is free to go. *)
Theorem fleet_policy_orders_roles manifest request decision :
  DeterministicFleetPolicy.decide manifest request = Ret decision ->
  FleetPolicyDecision.launch_order decision ≡ₚ FleetPolicyRequest.active_role_ids request /\
  py_ordered str_ltb (FleetPolicyDecision.launch_order decision) /\
  FleetPolicyDecision.active_role_ids decision = FleetPolicyDecision.launch_order decision /\
  FleetPolicyDecision.reserve_role_ids decision ≡ₚ FleetPolicyRequest.reserve_role_ids request /\
  FleetPolicyDecision.held_role_ids decision
    = (if String.eqb (FleetPolicyRequest.policy_capability request) "crossing-route"
          && (1 <? Z.of_nat (length (FleetPolicyDecision.launch_order decision)))
       then tail (FleetPolicyDecision.launch_order decision) else []) /\
  FleetPolicyRequest.policy_capability request ∈ PluginManifest.capabilities manifest.
Proof.
  unfold DeterministicFleetPolicy.decide. intros E. cbv zeta in E.
  pose proof (py_sorted_is_ordered str_ltb
                (FleetPolicyRequest.active_role_ids request)) as Ho.
  destruct (DeterministicFleetPolicy.arrange _ _) as [[order held] reasons] eqn:Ha.
  apply arrange_launch in Ha as [-> ->]; [|done].
  apply bind_Ret in E as (policy & Hp & E). apply checked_Ret in E as [_ <-]. simpl.
  split_and!; auto using py_sorted_perm.
  unfold from_manifest in Hp. case_bool_decide as Hc; [|done]. set_solver.
Qed.
End policies.

(** ** Recoveries *)

Section recoveries.
Context `{DG : Digest}.

Implicit Types (request : RecoveryRequest.t) (proposal : RecoveryProposal.t)
  (declaration : MissionSafetyDeclaration.t).

(** What the kernel requires of a proposal. *)
Definition admissible_recovery declaration request proposal : Prop :=
  RecoveryProposal.request_id proposal = RecoveryRequest.request_id request /\
  RecoveryProposal.role_id proposal = RecoveryRequest.role_id request /\
  RecoveryProposal.vehicle_id proposal = RecoveryRequest.vehicle_id request /\
  RecoveryProposal.action proposal ∈ RecoveryRequest.available_actions request /\
  RecoveryProposal.action proposal ∈ MissionSafetyDeclaration.allowed_recovery_actions declaration /\
  RecoveryRequest.authority_current request = true /\
  RecoveryRequest.observation_current request = true.

Lemma unless_nil (b : bool) (r : string) : (if b then [] else [r]) = [] <-> b = true.
Proof. by destruct b. Qed.

Lemma recovery_reasons_nil declaration request proposal :
  recovery_reasons declaration request proposal = [] <-> admissible_recovery declaration request proposal.
Proof.
  unfold recovery_reasons, admissible_recovery.
  rewrite !app_nil, !unless_nil, andb_true_iff, !String.eqb_eq, !bool_decide_eq_true. tauto.
Qed.

(** The safety kernel admits exactly the declared recoveries. When it returns
    an admission, the proposal is authorised if and only if it answers this
    request for this role and vehicle, its action is available and declared by the
    mission, and authority and observation are current; the admission names the
    action and the digest of the proposal; and it returns one whenever the
    mission tightens the policy and the digests are digests. *)
Theorem recovery_admission_is_exact policy declaration request proposal :
  (forall admission,
     authorize_recovery policy declaration request proposal = Ret admission ->
     (SafetyAdmission.authorized admission = true <-> admissible_recovery declaration request proposal) /\
     SafetyAdmission.action admission = RecoveryProposal.action proposal /\
     SafetyAdmission.proposal_sha256 admission = RecoveryProposal.proposal_sha256 proposal) /\
  (forall effective,
     tighten policy (MissionSafetyDeclaration.policy_override declaration) = Ret effective ->
     is_sha256 (canonical_sha256 (SafetyPolicy_dump effective)) = true ->
     RecoveryProposal_valid proposal = true ->
     returned (authorize_recovery policy declaration request proposal)).
Proof.
  unfold authorize_recovery. split.
  - intros admission (effective & _ & E)%bind_Ret. apply checked_Ret in E as [_ <-].
    cbn -[recovery_reasons]. by rewrite bool_decide_eq_true, recovery_reasons_nil.
  - intros effective -> Hd Hv. cbn. unfold checked, SafetyAdmission_valid. cbn. rewrite Hd.
    unfold RecoveryProposal_valid in Hv. apply andb_true_iff in Hv as [_ ->]. by eexists.
Qed.

(** A built-in strategy proposes only what is available. A proposal of it
    answers a request of its trigger, for the role and vehicle of the request, with
    the preferred action when that is available and with the fallback otherwise,
    and the action it proposes is available. With a current authority and a current
    observation the kernel therefore admits it if and only if the mission declares
    the action. *)
Theorem proposed_recoveries_are_available (self : DeterministicRecoveryStrategy.t) request proposal
    declaration :
  DeterministicRecoveryStrategy.propose self request = Ret proposal ->
  RecoveryRequest.trigger request = DeterministicRecoveryStrategy.trigger self /\
  RecoveryProposal.action proposal ∈ RecoveryRequest.available_actions request /\
  RecoveryProposal.action proposal
    = (if DeterministicRecoveryStrategy.preferred_action self ∈? RecoveryRequest.available_actions request
       then DeterministicRecoveryStrategy.preferred_action self
       else DeterministicRecoveryStrategy.fallback self) /\
  (RecoveryRequest.authority_current request = true ->
   RecoveryRequest.observation_current request = true ->
   (admissible_recovery declaration request proposal <->
    RecoveryProposal.action proposal ∈ MissionSafetyDeclaration.allowed_recovery_actions declaration)).
Proof.
  intros E. unfold DeterministicRecoveryStrategy.propose in E.
  case_bool_decide as Ht; [|done]. cbv zeta in E.
  case_bool_decide as Ha; [|done]. apply bind_Ret in E as (strategy & _ & E).
  apply checked_Ret in E as [_ <-].
  split_and!; [done|done|done|]. intros Hau Hob. unfold admissible_recovery. cbn in *. tauto.
Qed.
End recoveries.

(** ** Concrete requests *)

Module Examples.
#[local] Existing Instance example_digest.
#[local] Existing Instance example_libm.

Definition point (x y z : Z) : Vector3 := mkVector3 (float_of_Z x) (float_of_Z y) (float_of_Z z).

(** A flight of three metres along the x axis in a volume of ten metres. *)
Definition request (capability : RouteCapability.t) (role : string) (obstacles : list RouteObstacle.t)
    (reservations : list TemporalReservation.t) (hold : Z) : RoutePlanRequest.t :=
  RoutePlanRequest.mk ("route-" +:+ role) role capability (point 0 0 1)
    [RouteTarget.mk (point 3 0 1) (float_of_Z hold)] None None (flit 25 100)
    (point (-10) (-10) 0) (point 10 10 10) obstacles reservations f1 (float_of_Z 60) f1 f1
    (float_of_Z 30) None.

Definition box : RouteObstacle.t := RouteObstacle.mk "box" (point 1 (-1) 0) (point 2 1 2).


Definition blocked_route : outcome RoutePlanArtifact.t :=
  RoutePlanner.plan direct_planner (request RouteCapability.DIRECT "scout" [box] [] 2).

(** The box stands in the way. *)
Example obstacle_blocks :
  match blocked_route with
  | Ret route => RoutePlanArtifact.findings route
  | Raise _ => []
  end = ["ROUTE_INTERSECTS_OBSTACLE"].
Proof. vm_compute. reflexivity. Qed.


Definition corridors (o : outcome RoutePlanArtifact.t) : list TemporalReservation.t :=
  match o with Ret route => RoutePlanArtifact.reservations route | Raise _ => [] end.

(** Three roles share a corridor: the first stays for ten seconds, the second is
    held until it has left, and the third is held as well. *)
Definition first_route : outcome RoutePlanArtifact.t :=
  RoutePlanner.plan temporal_planner (request RouteCapability.TEMPORAL_SEPARATION "first" [] [] 7).
Definition second_route : outcome RoutePlanArtifact.t :=
  RoutePlanner.plan temporal_planner (request RouteCapability.TEMPORAL_SEPARATION "second" [] (corridors first_route) 2).
Definition third_request : RoutePlanRequest.t :=
  request RouteCapability.TEMPORAL_SEPARATION "third" [] (corridors first_route ++ corridors second_route) 5.
Definition third_route : outcome RoutePlanArtifact.t := RoutePlanner.plan temporal_planner third_request.

Lemma held_witness :
  exists route, third_route = Ret route /\ clear_path third_request (visited route).
Proof.
  destruct third_route as [route|e] eqn:E; [|exfalso; vm_compute in E; discriminate E].
  exists route. split; [reflexivity|].
  apply (temporal_route_is_held_direct_route third_request route E).
  assert (H : match third_route with Ret r => RoutePlanArtifact.status r | Raise _ => RoutePlanStatus.BLOCKED end
              = RoutePlanStatus.READY) by (vm_compute; reflexivity).
  rewrite E in H. exact H.
Defined.

Lemma registry_witness :
  exists reg, default_route_planner_registry = Ret reg /\
    resolve "route.zone" "1.0.0" {["ZONE"]} true reg = Ret zone_planner.
Proof.
  assert (H : is_ret default_route_planner_registry = true) by (vm_compute; reflexivity).
  destruct default_route_planner_registry as [reg|e] eqn:E; [clear H|discriminate H].
  exists reg. split; [reflexivity|].
  apply (registry_resolves_exactly PluginKind.ROUTE_PLANNER
           [direct_planner; zone_planner; coverage_planner; temporal_planner] reg
           "route.zone" "1.0.0" {["ZONE"]} true zone_planner E).
  split; [right; left|]. split; [reflexivity|]. split; [reflexivity|]. split; [|intros _; reflexivity].
  apply (bool_decide_eq_true_1 _). vm_compute. reflexivity.
Defined.

(** The third route is ready, but its corridor conflicts with the corridor of the
    second: the hold clears the corridors that the route meets before the hold, and
    the held corridor is not compared again. *)
Example held_routes_may_conflict :
  match third_route with Ret route => RoutePlanArtifact.status route | Raise _ => RoutePlanStatus.BLOCKED end
    = RoutePlanStatus.READY /\
  existsb (fun current => existsb (_reservations_conflict current)
                            (RoutePlanRequest.existing_reservations third_request))
    (corridors third_route) = true.
Proof. vm_compute. done. Qed.

(** ** Policies and recoveries *)

Definition crossing : FleetPolicyRequest.t :=
  FleetPolicyRequest.mk "policy" "mission" "crossing-route" ["b"; "a"; "c"] ["b"; "a"] ["c"] [] f1 f1.

Lemma policy_witness :
  exists decision, FleetPolicy.decide (fleet_policy "crossing-route") crossing = Ret decision /\
    FleetPolicyDecision.launch_order decision ≡ₚ ["b"; "a"].
Proof.
  destruct (FleetPolicy.decide (fleet_policy "crossing-route") crossing) as [decision|e] eqn:E;
    [|exfalso; vm_compute in E; discriminate E].
  exists decision. split; [reflexivity|].
  apply (fleet_policy_orders_roles (FleetPolicy.manifest (fleet_policy "crossing-route")) crossing decision E).
Defined.

Definition low_battery : RecoveryRequest.t :=
  RecoveryRequest.mk "recovery" "mission" RecoveryTrigger.LOW_BATTERY "scout" "vehicle-1"
    {[RecoveryAction.LAND; RecoveryAction.HOLD]} true true (Some 1) f1.

Definition battery_strategy : DeterministicRecoveryStrategy.t :=
  DeterministicRecoveryStrategy.mk
    (_manifest "recovery.low-battery" PluginKind.RECOVERY_STRATEGY {["LOW_BATTERY"]} ∅)
    RecoveryTrigger.LOW_BATTERY RecoveryAction.HANDOVER RecoveryAction.LAND.

Definition landing_declared : MissionSafetyDeclaration.t :=
  MissionSafetyDeclaration.mk "safety" no_override ∅ [] {[RecoveryAction.LAND]}.

(** No handover is available, so the strategy proposes to land. *)
Lemma proposal_witness :
  exists proposal, DeterministicRecoveryStrategy.propose battery_strategy low_battery = Ret proposal /\
    RecoveryProposal.action proposal = RecoveryAction.LAND /\
    admissible_recovery landing_declared low_battery proposal.
Proof.
  destruct (DeterministicRecoveryStrategy.propose battery_strategy low_battery) as [proposal|e] eqn:E;
    [|exfalso; vm_compute in E; discriminate E].
  destruct (proposed_recoveries_are_available battery_strategy low_battery proposal landing_declared E)
    as (_ & _ & Ha & H).
  assert (Hland : RecoveryProposal.action proposal = RecoveryAction.LAND)
    by (rewrite Ha; vm_compute; reflexivity).
  exists proposal. split; [reflexivity|]. split; [exact Hland|].
  apply (H eq_refl eq_refl). rewrite Hland. apply (bool_decide_eq_true_1 _). vm_compute. reflexivity.
Defined.
End Examples.
