(* ===== verification/Telemetry.v ===== *)
(** * Telemetry ([domain/telemetry.py])

    The observation a vehicle adapter reports: sensor readings, the vehicle's
    own view of its state, and the envelope that gives the source clock and the
    sequence number of a sample.  A [valid] test has the field constraints and
    the validators of the model. *)

From S2P Require Import Prelude Float64 Effects Contracts.

Module LocalizationSource.
Inductive t := NONE | FLOW | LIGHTHOUSE | LOCO | MOTION_CAPTURE | SIMULATED.
End LocalizationSource.

Module RangeStatus.
Inductive t := VALID | NO_HIT | CLIPPED | STALE | UNAVAILABLE.
End RangeStatus.

Module FlowStatus.
Inductive t := VALID | DEGRADED | STALE | UNAVAILABLE.
End FlowStatus.

Module RangeReadings.
Record t := mk {
  front_m : option float;
  back_m : option float;
  left_m : option float;
  right_m : option float;
  up_m : option float;
  down_m : option float;
  max_range_m : float;
  statuses : dict RangeStatus.t;
  source_timestamp_s : option float;
}.
End RangeReadings.

Definition RangeReadings_valid (r : RangeReadings.t) : bool :=
  opt_ok ge0 (RangeReadings.front_m r) && opt_ok ge0 (RangeReadings.back_m r)
  && opt_ok ge0 (RangeReadings.left_m r) && opt_ok ge0 (RangeReadings.right_m r)
  && opt_ok ge0 (RangeReadings.up_m r) && opt_ok ge0 (RangeReadings.down_m r)
  && gt0 (RangeReadings.max_range_m r) && opt_ok ge0 (RangeReadings.source_timestamp_s r).

Module FlowReading.
Record t := mk {
  velocity_body_m_s : option Vector3;
  ground_distance_m : option float;
  quality_percent : float;
  status : FlowStatus.t;
  source_timestamp_s : option float;
}.
End FlowReading.

Definition FlowReading_valid (r : FlowReading.t) : bool :=
  opt_ok ge0 (FlowReading.ground_distance_m r) && is_percentage (FlowReading.quality_percent r)
  && opt_ok ge0 (FlowReading.source_timestamp_s r).

Module ImuReading.
Record t := mk {
  acceleration_body_m_s2 : Vector3;
  angular_velocity_body_rad_s : Vector3;
  source_timestamp_s : option float;
}.
End ImuReading.

Definition ImuReading_valid (r : ImuReading.t) : bool := opt_ok ge0 (ImuReading.source_timestamp_s r).

(** A Hamilton quaternion in explicit w, x, y, z order. *)
Module QuaternionAttitude.
Record t := mk { w : float; x : float; y : float; z : float }.
End QuaternionAttitude.

(** [finite_nonzero] *)
Definition QuaternionAttitude_valid (q : QuaternionAttitude.t) : bool :=
  let components := [QuaternionAttitude.w q; QuaternionAttitude.x q;
                     QuaternionAttitude.y q; QuaternionAttitude.z q] in
  forallb is_finite components
  && negb (fleb (py_sum ((fun value => fmul value value) <$> components))
                (flit 1 1000000000000000000000000)).

Module EstimatorReading.
Record t := mk {
  position_variance_m2 : option Vector3;
  converged : option bool;
  quality_metric_id : option string;
}.
End EstimatorReading.

(** [variance_is_nonnegative] *)
Definition EstimatorReading_valid (e : EstimatorReading.t) : bool :=
  opt_ok (fun v => negb (existsb (fun value => fltb value f0 || negb (is_finite value))
                           [v_x v; v_y v; v_z v]))
    (EstimatorReading.position_variance_m2 e).

Module MotorReading.
Record t := mk {
  motor_id : string;
  command_percent : float;
  requested_thrust_n : option float;
  applied_pwm_percent : option float;
  motor_voltage_v : option float;
  thrust_n : float;
  available_thrust_n : option float;
  current_a : float;
  saturated : bool;
  health_percent : float;
  faulted : bool;
}.
End MotorReading.

Definition MotorReading_valid (m : MotorReading.t) : bool :=
  (MotorReading.motor_id m ∈? ["M1"; "M2"; "M3"; "M4"])
  && is_percentage (MotorReading.command_percent m)
  && opt_ok ge0 (MotorReading.requested_thrust_n m)
  && opt_ok is_percentage (MotorReading.applied_pwm_percent m)
  && opt_ok ge0 (MotorReading.motor_voltage_v m)
  && ge0 (MotorReading.thrust_n m) && opt_ok ge0 (MotorReading.available_thrust_n m)
  && ge0 (MotorReading.current_a m) && is_percentage (MotorReading.health_percent m).

(** [readings] has exactly four entries. *)
Module MotorTelemetry.
Record t := mk {
  model_id : string;
  model_version : string;
  readings : MotorReading.t * MotorReading.t * MotorReading.t * MotorReading.t;
}.
End MotorTelemetry.

Module TransportReading.
Record t := mk {
  kind : string;
  source_class : string;
  delivery_quality_percent : option float;
  latency_ms : option float;
  packet_loss_percent : option float;
}.
End TransportReading.

Definition TransportReading_valid (r : TransportReading.t) : bool :=
  (TransportReading.kind r ∈? ["physical_radio"; "modeled_transport"; "replay"])
  && (TransportReading.source_class r ∈? ["MEASURED_REAL"; "SIMULATED_MODEL"; "REPLAYED"])
  && opt_ok is_percentage (TransportReading.delivery_quality_percent r)
  && opt_ok ge0 (TransportReading.latency_ms r)
  && opt_ok is_percentage (TransportReading.packet_loss_percent r).

Module VehicleTelemetry.
Record t := mk {
  state : VehicleState.t;
  armed : bool;
  flying : bool;
  position_m : option Vector3;
  ground_truth_position_m : option Vector3;
  velocity_m_s : option Vector3;
  attitude : option EulerAttitude;
  quaternion : option QuaternionAttitude.t;
  frame : option CoordinateFrame.t;
  position_is_estimate : option bool;
  localization_source : option LocalizationSource.t;
  localization_quality_percent : option float;
  battery_percent : option float;
  battery_open_circuit_voltage_v : option float;
  battery_voltage_v : option float;
  battery_current_a : option float;
  battery_cutoff_active : option bool;
  battery_cutoff_reason : option string;
  powertrain_current_limited : option bool;
  link_quality_percent : option float;
  link_latency_ms : option float;
  packet_loss_percent : option float;
  transport : option TransportReading.t;
  capabilities : option VehicleCapabilities;
  imu : option ImuReading.t;
  estimator : option EstimatorReading.t;
  flow : option FlowReading.t;
  ranges : option RangeReadings.t;
  motors : option MotorTelemetry.t;
  faults : list string;
}.
End VehicleTelemetry.

(** Field constraints and [spatial_values_require_frame]. *)
Definition VehicleTelemetry_valid (v : VehicleTelemetry.t) : bool :=
  opt_ok is_percentage (VehicleTelemetry.localization_quality_percent v)
  && opt_ok is_percentage (VehicleTelemetry.battery_percent v)
  && opt_ok ge0 (VehicleTelemetry.battery_open_circuit_voltage_v v)
  && opt_ok ge0 (VehicleTelemetry.battery_voltage_v v)
  && opt_ok (fun r => r ∈? ["DEPLETED"; "UNDERVOLTAGE"; "INVALID_CELL_STATE"])
       (VehicleTelemetry.battery_cutoff_reason v)
  && opt_ok is_percentage (VehicleTelemetry.link_quality_percent v)
  && opt_ok ge0 (VehicleTelemetry.link_latency_ms v)
  && opt_ok is_percentage (VehicleTelemetry.packet_loss_percent v)
  && negb ((is_some (VehicleTelemetry.position_m v)
            || is_some (VehicleTelemetry.ground_truth_position_m v)
            || is_some (VehicleTelemetry.velocity_m_s v)
            || is_some (VehicleTelemetry.attitude v)
            || is_some (VehicleTelemetry.quaternion v))
           && is_none (VehicleTelemetry.frame v))
  && negb (is_none (VehicleTelemetry.position_m v)
           && is_some (VehicleTelemetry.position_is_estimate v)).

Module TelemetryEnvelope.
Record t := mk {
  vehicle_id : string;
  sequence : Z;
  source_timestamp_s : float;
  received_timestamp_s : float;
  simulation_timestamp_s : option float;
  replay_timestamp_s : option float;
  source_clock_id : string;
  source_clock_epoch : Z;
  telemetry : VehicleTelemetry.t;
}.
End TelemetryEnvelope.

(** Field constraints and [receive_time_is_ordered]. *)
Definition TelemetryEnvelope_valid (e : TelemetryEnvelope.t) : bool :=
  is_identifier (TelemetryEnvelope.vehicle_id e) && (0 <=? TelemetryEnvelope.sequence e)
  && ge0 (TelemetryEnvelope.source_timestamp_s e) && ge0 (TelemetryEnvelope.received_timestamp_s e)
  && opt_ok ge0 (TelemetryEnvelope.simulation_timestamp_s e)
  && opt_ok ge0 (TelemetryEnvelope.replay_timestamp_s e)
  && is_identifier (TelemetryEnvelope.source_clock_id e)
  && (0 <=? TelemetryEnvelope.source_clock_epoch e)
  && VehicleTelemetry_valid (TelemetryEnvelope.telemetry e)
  && negb (fltb (TelemetryEnvelope.received_timestamp_s e)
                (TelemetryEnvelope.source_timestamp_s e)).
