(* ===== verification/Missions.v ===== *)
(** * Mission records ([missions/models.py]) and run bindings ([domain/simulation.py])

    The results and snapshots of a mission run, the identity a run is bound to
    at its adapter, and the records of a change of fleet authority.
    [dict[str, Any]] values are JSON documents, instants are POSIX times. *)

From S2P Require Import Prelude Float64 Effects Contracts Artifacts.

(** ** Run bindings and authority transitions ([domain/simulation.py]) *)

Module MissionRunBinding.
Record t := mk {
  mission_run_id : string;
  mission_source_sha256 : option string;
  run_identity_sha256 : option string;
  model_id : option string;
  model_version : option string;
  model_configuration_sha256 : option string;
  scenario_id : option string;
  scenario_configuration_sha256 : option string;
  fleet_session_id : option string;
  fleet_run_id : option string;
  deployment_sha256 : option string;
  task_id : option string;
  task_lease_generation : option Z;
  backend_namespace : option string;
  preparation_state : option string;
}.
End MissionRunBinding.

Definition MissionRunBinding_valid (b : MissionRunBinding.t) : bool :=
  is_identifier (MissionRunBinding.mission_run_id b)
  && opt_ok is_sha256 (MissionRunBinding.mission_source_sha256 b)
  && opt_ok is_sha256 (MissionRunBinding.run_identity_sha256 b)
  && opt_ok is_identifier (MissionRunBinding.model_id b)
  && opt_ok is_sha256 (MissionRunBinding.model_configuration_sha256 b)
  && opt_ok is_identifier (MissionRunBinding.scenario_id b)
  && opt_ok is_sha256 (MissionRunBinding.scenario_configuration_sha256 b)
  && opt_ok is_identifier (MissionRunBinding.fleet_session_id b)
  && opt_ok is_identifier (MissionRunBinding.fleet_run_id b)
  && opt_ok is_sha256 (MissionRunBinding.deployment_sha256 b)
  && opt_ok is_identifier (MissionRunBinding.task_id b)
  && opt_ok (fun g => 1 <=? g) (MissionRunBinding.task_lease_generation b)
  && opt_ok (text_len 1 500) (MissionRunBinding.backend_namespace b)
  && opt_ok (String.eqb "READY") (MissionRunBinding.preparation_state b).

Module FleetAuthorityTransition.
Record t := mk {
  transition_id : string;
  sequence : Z;
  vehicle_id : string;
  mission_run_id : string;
  fleet_session_id : string;
  fleet_run_id : string;
  deployment_sha256 : string;
  expected_task_id : string;
  expected_task_lease_generation : Z;
  next_task_id : string;
  next_task_lease_generation : Z;
  reason_code : string;
  authorization_sha256 : string;
}.
End FleetAuthorityTransition.

(** Field constraints and [changes_authority] *)
Definition FleetAuthorityTransition_valid (r : FleetAuthorityTransition.t) : bool :=
  is_identifier (FleetAuthorityTransition.transition_id r)
  && (1 <=? FleetAuthorityTransition.sequence r)
  && is_identifier (FleetAuthorityTransition.vehicle_id r)
  && is_identifier (FleetAuthorityTransition.mission_run_id r)
  && is_identifier (FleetAuthorityTransition.fleet_session_id r)
  && is_identifier (FleetAuthorityTransition.fleet_run_id r)
  && is_sha256 (FleetAuthorityTransition.deployment_sha256 r)
  && is_identifier (FleetAuthorityTransition.expected_task_id r)
  && (1 <=? FleetAuthorityTransition.expected_task_lease_generation r)
  && is_identifier (FleetAuthorityTransition.next_task_id r)
  && (1 <=? FleetAuthorityTransition.next_task_lease_generation r)
  && is_identifier (FleetAuthorityTransition.reason_code r)
  && is_sha256 (FleetAuthorityTransition.authorization_sha256 r)
  && negb (String.eqb (FleetAuthorityTransition.expected_task_id r)
             (FleetAuthorityTransition.next_task_id r)
           && (FleetAuthorityTransition.expected_task_lease_generation r
               =? FleetAuthorityTransition.next_task_lease_generation r)).

Definition FleetAuthorityTransition_json (r : FleetAuthorityTransition.t) : json := JObj [
  ("schema_version", JInt 1);
  ("transition_id", JStr (FleetAuthorityTransition.transition_id r));
  ("sequence", JInt (FleetAuthorityTransition.sequence r));
  ("vehicle_id", JStr (FleetAuthorityTransition.vehicle_id r));
  ("mission_run_id", JStr (FleetAuthorityTransition.mission_run_id r));
  ("fleet_session_id", JStr (FleetAuthorityTransition.fleet_session_id r));
  ("fleet_run_id", JStr (FleetAuthorityTransition.fleet_run_id r));
  ("deployment_sha256", JStr (FleetAuthorityTransition.deployment_sha256 r));
  ("expected_task_id", JStr (FleetAuthorityTransition.expected_task_id r));
  ("expected_task_lease_generation", JInt (FleetAuthorityTransition.expected_task_lease_generation r));
  ("next_task_id", JStr (FleetAuthorityTransition.next_task_id r));
  ("next_task_lease_generation", JInt (FleetAuthorityTransition.next_task_lease_generation r));
  ("reason_code", JStr (FleetAuthorityTransition.reason_code r));
  ("authorization_sha256", JStr (FleetAuthorityTransition.authorization_sha256 r))].

Definition FleetAuthorityTransition_sha256 `{Digest} (r : FleetAuthorityTransition.t) : string :=
  canonical_sha256 (FleetAuthorityTransition_json r).

Definition MissionRunBinding_json (r : MissionRunBinding.t) : json := JObj [
  ("mission_run_id", JStr (MissionRunBinding.mission_run_id r));
  ("mission_source_sha256", json_opt JStr (MissionRunBinding.mission_source_sha256 r));
  ("run_identity_sha256", json_opt JStr (MissionRunBinding.run_identity_sha256 r));
  ("model_id", json_opt JStr (MissionRunBinding.model_id r));
  ("model_version", json_opt JStr (MissionRunBinding.model_version r));
  ("model_configuration_sha256", json_opt JStr (MissionRunBinding.model_configuration_sha256 r));
  ("scenario_id", json_opt JStr (MissionRunBinding.scenario_id r));
  ("scenario_configuration_sha256", json_opt JStr (MissionRunBinding.scenario_configuration_sha256 r));
  ("fleet_session_id", json_opt JStr (MissionRunBinding.fleet_session_id r));
  ("fleet_run_id", json_opt JStr (MissionRunBinding.fleet_run_id r));
  ("deployment_sha256", json_opt JStr (MissionRunBinding.deployment_sha256 r));
  ("task_id", json_opt JStr (MissionRunBinding.task_id r));
  ("task_lease_generation", json_opt JInt (MissionRunBinding.task_lease_generation r));
  ("backend_namespace", json_opt JStr (MissionRunBinding.backend_namespace r));
  ("preparation_state", json_opt JStr (MissionRunBinding.preparation_state r))].

Module FleetAuthorityTransitionReceipt.
Record t := mk {
  transition_id : string;
  sequence : Z;
  vehicle_id : string;
  mission_run_id : string;
  fleet_session_id : string;
  fleet_run_id : string;
  deployment_sha256 : string;
  previous_task_id : string;
  previous_task_lease_generation : Z;
  current_task_id : string;
  current_task_lease_generation : Z;
  reason_code : string;
  authorization_sha256 : string;
  previous_binding_sha256 : string;
  current_binding_sha256 : string;
  transition_sha256 : string;
}.
End FleetAuthorityTransitionReceipt.

Definition FleetAuthorityTransitionReceipt_valid (r : FleetAuthorityTransitionReceipt.t) : bool :=
  is_identifier (FleetAuthorityTransitionReceipt.transition_id r)
  && (1 <=? FleetAuthorityTransitionReceipt.sequence r)
  && is_identifier (FleetAuthorityTransitionReceipt.vehicle_id r)
  && is_identifier (FleetAuthorityTransitionReceipt.mission_run_id r)
  && is_identifier (FleetAuthorityTransitionReceipt.fleet_session_id r)
  && is_identifier (FleetAuthorityTransitionReceipt.fleet_run_id r)
  && is_sha256 (FleetAuthorityTransitionReceipt.deployment_sha256 r)
  && is_identifier (FleetAuthorityTransitionReceipt.previous_task_id r)
  && (1 <=? FleetAuthorityTransitionReceipt.previous_task_lease_generation r)
  && is_identifier (FleetAuthorityTransitionReceipt.current_task_id r)
  && (1 <=? FleetAuthorityTransitionReceipt.current_task_lease_generation r)
  && is_identifier (FleetAuthorityTransitionReceipt.reason_code r)
  && is_sha256 (FleetAuthorityTransitionReceipt.authorization_sha256 r)
  && is_sha256 (FleetAuthorityTransitionReceipt.previous_binding_sha256 r)
  && is_sha256 (FleetAuthorityTransitionReceipt.current_binding_sha256 r)
  && is_sha256 (FleetAuthorityTransitionReceipt.transition_sha256 r).

(** ** Missions ([missions/models.py]) *)

Module MissionStatus.
Inductive t := SUCCEEDED | ABORTED | FAILED.
End MissionStatus.
#[export] Instance MissionStatus_eq_dec : EqDecision MissionStatus.t.
Proof. solve_decision. Defined.

Module MissionPhase.
Inductive t :=
| VALIDATING | CLAIMING_CONTROL | CONNECTING | PREFLIGHT | ARMING | TAKING_OFF | EXECUTING
| LANDING | CLEANUP | COMPLETE.
End MissionPhase.
#[export] Instance MissionPhase_eq_dec : EqDecision MissionPhase.t.
Proof. solve_decision. Defined.

Module MissionMetadata.
Record t := mk {
  mission_id : string;
  mission_version : string;
  name : string;
  description : string;
  required_capabilities : capability_set;
  parameter_schema : list (string * json);
  presets : list (string * list (string * json));
  source_kind : string;
  source_filename : option string;
  source_sha256 : option string;
  planned_commands : list (list (string * json));
  package_schema_version : Z;
  logical_roles : list (list (string * json));
}.
End MissionMetadata.

Module MissionRunEvent.
Record t := mk {
  mission_run_id : string;
  sequence : Z;
  phase : MissionPhase.t;
  timestamp_monotonic_s : float;
  message : string;
}.
End MissionRunEvent.

Module MissionResult.
Record t := mk {
  mission_run_id : string;
  mission_execution_id : option string;
  mission_id : string;
  mission_name : option string;
  mission_version : string;
  vehicle_id : string;
  mode : OperatingMode.t;
  status : MissionStatus.t;
  reason_code : string;
  message : string;
  configuration_hash : string;
  mission_source_sha256 : option string;
  mission_runtime_id : string;
  mission_runtime_version : string;
  vehicle_adapter : string;
  backend_role : string;
  authority_class : string;
  repository_commit : option string;
  repository_dirty : bool;
  physics_model_id : option string;
  physics_model_version : option string;
  physics_configuration_sha256 : option string;
  scenario_id : option string;
  scenario_schema_version : option string;
  scenario_configuration_sha256 : option string;
  simulation_seed : option Z;
  simulation_fixed_step_s : option float;
  initial_state_sha256 : option string;
  run_identity_sha256 : option string;
  accepted_plan_id : option string;
  accepted_plan_sha256 : option string;
  execution_program_id : option string;
  execution_program_sha256 : option string;
  accepted_trajectory_sha256s : list string;
  execution_clock_policy : option string;
  parameters : list (string * json);
  started_at_monotonic_s : float;
  finished_at_monotonic_s : float;
  started_at_utc : float;
  events : list MissionRunEvent.t;
  normalized_intent_trace : list (list (string * json));
  observations_read : list (list (string * json));
  fleet_authority_transitions : list FleetAuthorityTransitionReceipt.t;
  goal_captures : list (list (string * json));
}.
End MissionResult.

Module MissionRunSnapshot.
Record t := mk {
  mission_run_id : string;
  mission_execution_id : option string;
  mission_id : string;
  mission_name : option string;
  mission_version : string;
  vehicle_id : string;
  mode : OperatingMode.t;
  phase : MissionPhase.t;
  configuration_hash : string;
  mission_source_sha256 : option string;
  mission_runtime_id : string;
  mission_runtime_version : string;
  vehicle_adapter : string;
  backend_role : string;
  authority_class : string;
  repository_commit : option string;
  repository_dirty : bool;
  physics_model_id : option string;
  physics_model_version : option string;
  physics_configuration_sha256 : option string;
  scenario_id : option string;
  scenario_schema_version : option string;
  scenario_configuration_sha256 : option string;
  simulation_seed : option Z;
  simulation_fixed_step_s : option float;
  initial_state_sha256 : option string;
  run_identity_sha256 : option string;
  accepted_plan_id : option string;
  accepted_plan_sha256 : option string;
  execution_program_id : option string;
  execution_program_sha256 : option string;
  accepted_trajectory_sha256s : list string;
  execution_clock_policy : option string;
  parameters : list (string * json);
  started_at_monotonic_s : float;
  cancellation_requested : bool;
  result : option MissionResult.t;
  normalized_intent_trace : list (list (string * json));
  observations_read : list (list (string * json));
  goal_captures : list (list (string * json));
}.
End MissionRunSnapshot.
