(* ===== verification/Authority.v ===== *)
(** * Command authority of a mission run ([missions/authority.py], [simulation/vehicle.py])

    A mission run that belongs to a fleet commands its vehicle under a task
    lease.  [MissionFleetAuthority] holds the binding of that lease and
    serialises, with two locks, the commands that use it and the transition that
    hands the vehicle another lease; the simulated vehicle checks each command
    against its own copy of the binding.

    Every coroutine of the class is cut at its awaits into atomic sections; a
    section is a computation on the authority that says where the task goes
    next.  [step] interleaves any number of tasks, cancellations included; the
    adapter is an interface. *)

From S2P Require Import Prelude Float64 Effects Contracts Artifacts Trajectory Safety Commands.
From S2P Require Import Missions.

Notation Transition := FleetAuthorityTransition.t.
Notation Receipt := FleetAuthorityTransitionReceipt.t.

(** ** [asyncio.Lock]

    The library's lock: a flag and the futures of the tasks that wait, oldest
    first.  A future that was cancelled stays in the list until its task runs. *)
Module Future.
Inductive t := Pending | Woken | Cancelled | WokenCancelled.

(** [future.done()] *)
Definition done (f : t) : bool := match f with Pending => false | _ => true end.

(** [future.cancelled()] *)
Definition cancelled (f : t) : bool := match f with Cancelled => true | _ => false end.

(** The task is cancelled while it waits for the future. *)
Definition cancel (f : t) : t :=
  match f with Pending => Cancelled | Woken => WokenCancelled | _ => f end.
End Future.

#[export] Instance Future_eq_dec : EqDecision Future.t.
Proof. solve_decision. Defined.

Module Lock.
Record t := mk { locked : bool; waiters : list (nat * Future.t) }.

Definition new : t := mk false [].

Definition wake_up_first (l : t) : t :=
  match waiters l with
  | (i, f) :: ws => mk (locked l) ((i, if Future.done f then f else Future.Woken) :: ws)
  | [] => l
  end.

(** The start of [acquire] by task [i]: the lock is taken at once, or the task
    queues. *)
Definition acquire (i : nat) (l : t) : bool * t :=
  if negb (locked l) && forallb (fun w => Future.cancelled w.2) (waiters l)
  then (true, mk true (waiters l))
  else (false, mk (locked l) (waiters l ++ [(i, Future.Pending)])).

(** [self._waiters.remove(fut)] *)
Definition remove (i : nat) (l : t) : t :=
  mk (locked l) (filter (fun w => w.1 <> i) (waiters l)).

(** The rest of [acquire] when the future has its result. *)
Definition granted (i : nat) (l : t) : t := mk true (waiters (remove i l)).

(** ... and when the wait raises [CancelledError]. *)
Definition abandon (i : nat) (l : t) : t :=
  let l' := remove i l in if locked l' then l' else wake_up_first l'.

Definition release (l : t) : outcome t :=
  if locked l then Ret (wake_up_first (mk false (waiters l)))
  else Raise (OtherError "RuntimeError").

Definition future_of (i : nat) (l : t) : option Future.t :=
  snd <$> find_first (fun w => (w.1 =? i)%nat) (waiters l).

Definition cancel_waiter (i : nat) (l : t) : t :=
  mk (locked l)
    ((fun w => if (w.1 =? i)%nat then (w.1, Future.cancel w.2) else w) <$> waiters l).
End Lock.

(** ** [MissionFleetAuthority] *)

Module MissionFleetAuthority.
Record t := mk {
  _binding : option FleetCommandBinding.t;
  _guard : Lock.t;
  _health_guard : Lock.t;
  _receipts : list Receipt;
}.

Definition set_binding (b : option FleetCommandBinding.t) (a : t) : t :=
  mk b (_guard a) (_health_guard a) (_receipts a).
Definition set_guard (l : Lock.t) (a : t) : t :=
  mk (_binding a) l (_health_guard a) (_receipts a).
Definition set_health_guard (l : Lock.t) (a : t) : t :=
  mk (_binding a) (_guard a) l (_receipts a).
Definition set_receipts (l : list Receipt) (a : t) : t :=
  mk (_binding a) (_guard a) (_health_guard a) l.
End MissionFleetAuthority.
Notation Authority := MissionFleetAuthority.t.

Definition MissionFleetAuthority_new (binding : option FleetCommandBinding.t) : Authority :=
  MissionFleetAuthority.mk binding Lock.new Lock.new [].

Definition current_binding (self : Authority) : option FleetCommandBinding.t :=
  MissionFleetAuthority._binding self.
Definition receipts (self : Authority) : list Receipt := MissionFleetAuthority._receipts self.

Inductive task_call := CallExecute | CallEvaluateHealth | CallTransition (transition : Transition).

(** Where a task stands: it waits for a lock, runs the caller's operation on a
    binding, waits for the adapter, or has ended. *)
Inductive phase :=
| Called (call : task_call)
| ExecuteWaits
| ExecuteRuns (binding : option FleetCommandBinding.t)
| HealthWaits
| HealthRuns (binding : option FleetCommandBinding.t)
| TransitionWaits (transition : Transition)
| TransitionWaitsHealth (transition : Transition)
| TransitionAsks (transition : Transition) (binding : FleetCommandBinding.t)
| Done (result : outcome (option Receipt)).

(** The two locks of the authority. *)
Inductive guard := Guard | HealthGuard.

Definition lock_of (g : guard) (a : Authority) : Lock.t :=
  match g with
  | Guard => MissionFleetAuthority._guard a
  | HealthGuard => MissionFleetAuthority._health_guard a
  end.

Definition set_lock (g : guard) (l : Lock.t) : Authority -> Authority :=
  match g with
  | Guard => MissionFleetAuthority.set_guard l
  | HealthGuard => MissionFleetAuthority.set_health_guard l
  end.

Definition acquire (g : guard) (i : nat) : M Authority bool :=
  self ← get;
  let '(taken, l) := Lock.acquire i (lock_of g self) in
  _ ← modify (set_lock g l);
  mret taken.

Definition update_lock (g : guard) (f : Lock.t -> Lock.t) : M Authority unit :=
  modify (fun self => set_lock g (f (lock_of g self)) self).

Definition release (g : guard) : M Authority unit :=
  self ← get;
  l ← lift (Lock.release (lock_of g self));
  modify (set_lock g l).

(** *** [execute] and [evaluate_health] *)

Definition operation_starts (g : guard) : M Authority phase :=
  self ← get;
  mret (match g with
        | Guard => ExecuteRuns (MissionFleetAuthority._binding self)
        | HealthGuard => HealthRuns (MissionFleetAuthority._binding self)
        end).

Definition execute (i : nat) : M Authority phase :=
  taken ← acquire Guard i;
  if taken : bool then operation_starts Guard else mret ExecuteWaits.

Definition evaluate_health (i : nat) : M Authority phase :=
  taken ← acquire HealthGuard i;
  if taken : bool then operation_starts HealthGuard else mret HealthWaits.

(** The end of the [async with] block, with the outcome of its body. *)
Definition leave (g : guard) (result : outcome (option Receipt)) : M Authority phase :=
  _ ← release g;
  mret (Done result).

(** *** [transition] *)

Definition lease_matches (binding : FleetCommandBinding.t) (transition : Transition) : bool :=
  String.eqb (FleetCommandBinding.fleet_session_id binding)
             (FleetAuthorityTransition.fleet_session_id transition)
  && String.eqb (FleetCommandBinding.fleet_run_id binding)
                (FleetAuthorityTransition.fleet_run_id transition)
  && String.eqb (FleetCommandBinding.deployment_sha256 binding)
                (FleetAuthorityTransition.deployment_sha256 transition)
  && String.eqb (FleetCommandBinding.task_id binding)
                (FleetAuthorityTransition.expected_task_id transition)
  && (FleetCommandBinding.task_lease_generation binding
      =? FleetAuthorityTransition.expected_task_lease_generation transition).

Definition receipt_matches (receipt : Receipt) (transition : Transition) : bool :=
  String.eqb (FleetAuthorityTransitionReceipt.current_task_id receipt)
             (FleetAuthorityTransition.next_task_id transition)
  && (FleetAuthorityTransitionReceipt.current_task_lease_generation receipt
      =? FleetAuthorityTransition.next_task_lease_generation transition).

(** [binding.model_copy(update={...})] *)
Definition move_lease (binding : FleetCommandBinding.t) (task_id : string) (generation : Z) :
    FleetCommandBinding.t :=
  {| FleetCommandBinding.fleet_session_id := FleetCommandBinding.fleet_session_id binding;
     FleetCommandBinding.fleet_run_id := FleetCommandBinding.fleet_run_id binding;
     FleetCommandBinding.deployment_sha256 := FleetCommandBinding.deployment_sha256 binding;
     FleetCommandBinding.task_id := task_id;
     FleetCommandBinding.task_lease_generation := generation;
     FleetCommandBinding.backend_namespace := FleetCommandBinding.backend_namespace binding |}.

Definition leave_both (result : outcome (option Receipt)) : M Authority phase :=
  _ ← release HealthGuard;
  leave Guard result.

(** Both locks are held. *)
Definition authorize_transition (transition : Transition) : M Authority phase :=
  self ← get;
  match MissionFleetAuthority._binding self with
  | None =>
      leave_both (Err MODE_NOT_AUTHORIZED "mission run has no fleet authority to transition")
  | Some binding =>
      if negb (lease_matches binding transition) then
        leave_both (Err MODE_NOT_AUTHORIZED
                      "mission command context does not own the expected task lease")
      else mret (TransitionAsks transition binding)
  end.

(** [_guard] is held. *)
Definition transition_continues (i : nat) (transition : Transition) : M Authority phase :=
  taken ← acquire HealthGuard i;
  if taken : bool then authorize_transition transition
  else mret (TransitionWaitsHealth transition).

Definition transition_starts (i : nat) (transition : Transition) : M Authority phase :=
  taken ← acquire Guard i;
  if taken : bool then transition_continues i transition else mret (TransitionWaits transition).

(** The adapter has answered. *)
Definition transition_answered (transition : Transition) (binding : FleetCommandBinding.t)
    (answer : outcome Receipt) : M Authority phase :=
  match answer with
  | Raise e => leave_both (Raise e)
  | Ret receipt =>
      if negb (receipt_matches receipt transition) then
        leave_both (Err IDENTITY_MISMATCH
                      "adapter authority receipt does not match the requested task lease")
      else
        _ ← modify (MissionFleetAuthority.set_binding
              (Some (move_lease binding
                       (FleetAuthorityTransitionReceipt.current_task_id receipt)
                       (FleetAuthorityTransitionReceipt.current_task_lease_generation receipt))));
        _ ← modify (fun self => MissionFleetAuthority.set_receipts
                                  (MissionFleetAuthority._receipts self ++ [receipt]) self);
        leave_both (Ret (Some receipt))
  end.

(** *** The sections of a task *)

Definition start (i : nat) (c : task_call) : M Authority phase :=
  match c with
  | CallExecute => execute i
  | CallEvaluateHealth => evaluate_health i
  | CallTransition transition => transition_starts i transition
  end.

(** The lock a task waits for. *)
Definition waits_for (ph : phase) : option guard :=
  match ph with
  | ExecuteWaits | TransitionWaits _ => Some Guard
  | HealthWaits | TransitionWaitsHealth _ => Some HealthGuard
  | _ => None
  end.

(** A task that was waiting has the lock. *)
Definition lock_granted (i : nat) (ph : phase) : M Authority phase :=
  match ph with
  | ExecuteWaits => _ ← update_lock Guard (Lock.granted i); operation_starts Guard
  | HealthWaits => _ ← update_lock HealthGuard (Lock.granted i); operation_starts HealthGuard
  | TransitionWaits transition =>
      _ ← update_lock Guard (Lock.granted i);
      transition_continues i transition
  | TransitionWaitsHealth transition =>
      _ ← update_lock HealthGuard (Lock.granted i);
      authorize_transition transition
  | _ => mret ph
  end.

(** A task is cancelled while it waits. *)
Definition wait_cancelled (i : nat) (ph : phase) : M Authority phase :=
  match ph with
  | ExecuteWaits | TransitionWaits _ =>
      _ ← update_lock Guard (Lock.abandon i);
      mret (Done (Raise CancelledError))
  | HealthWaits =>
      _ ← update_lock HealthGuard (Lock.abandon i);
      mret (Done (Raise CancelledError))
  | TransitionWaitsHealth _ =>
      _ ← update_lock HealthGuard (Lock.abandon i);
      leave Guard (Raise CancelledError)
  | _ => mret ph
  end.

(** The operation of a caller ends. *)
Definition operation_ends (ph : phase) (result : outcome unit) : M Authority phase :=
  let result' := match result with Ret _ => Ret None | Raise e => Raise e end in
  match ph with
  | ExecuteRuns _ => leave Guard result'
  | HealthRuns _ => leave HealthGuard result'
  | _ => mret ph
  end.

(** A section that raises ends its task. *)
Definition settle (o : outcome phase) : phase :=
  match o with Ret ph => ph | Raise e => Done (Raise e) end.

(** ** The adapter ([vehicles/base.py], [simulation/vehicle.py]) *)

(** What the authority asks of an adapter. *)
Class AuthorityAdapter (A : Type) := {
  adapter_transition : Transition -> M A Receipt;
}.

(** The default of [Vehicle]: no in-run transitions. *)
Definition unsupported_transition {A} (transition : Transition) : M A Receipt :=
  raise (CrazySwarmError MODE_NOT_AUTHORIZED
    "vehicle adapter does not support in-run fleet authority transitions").

(** The part of [SimulatedVehicle] that concerns the run it is bound to. *)
Module SimulatedRun.
Record t := mk {
  vehicle_id : string;
  _state : VehicleState.t;
  _armed : bool;
  _flying : bool;
  _binding : option MissionRunBinding.t;
  _authority_transition_sequence : Z;
  _authority_transition_receipts : list Receipt;
}.

Definition set_bound (b : option MissionRunBinding.t) (n : Z) (l : list Receipt) (v : t) : t :=
  mk (vehicle_id v) (_state v) (_armed v) (_flying v) b n l.
End SimulatedRun.
Notation SimRun := SimulatedRun.t.

(** [current != binding], field by field *)
#[export] Instance MissionRunBinding_eq_dec : EqDecision MissionRunBinding.t.
Proof. solve_decision. Defined.

Definition bind_run (binding : MissionRunBinding.t) : M SimRun unit :=
  self ← get;
  let rebind :=
    _ ← raise_if (negb (SimulatedRun._state self ∈? [VehicleState.DISCONNECTED; VehicleState.READY])
                  || SimulatedRun._armed self || SimulatedRun._flying self)
          (CrazySwarmError INVALID_STATE
             "a new mission run can bind only while the simulator is safe and idle");
    modify (SimulatedRun.set_bound (Some binding) 0 []) in
  match SimulatedRun._binding self with
  | Some current =>
      if String.eqb (MissionRunBinding.mission_run_id current)
                    (MissionRunBinding.mission_run_id binding)
      then raise_if (current ≠? binding)
             (CrazySwarmError MODE_NOT_AUTHORIZED
                "same-run authority changes require an explicit fleet transition")
      else rebind
  | None => rebind
  end.

Definition move_run_lease (b : MissionRunBinding.t) (task : string) (generation : Z) :
    MissionRunBinding.t :=
  {| MissionRunBinding.mission_run_id := MissionRunBinding.mission_run_id b;
     MissionRunBinding.mission_source_sha256 := MissionRunBinding.mission_source_sha256 b;
     MissionRunBinding.run_identity_sha256 := MissionRunBinding.run_identity_sha256 b;
     MissionRunBinding.model_id := MissionRunBinding.model_id b;
     MissionRunBinding.model_version := MissionRunBinding.model_version b;
     MissionRunBinding.model_configuration_sha256 := MissionRunBinding.model_configuration_sha256 b;
     MissionRunBinding.scenario_id := MissionRunBinding.scenario_id b;
     MissionRunBinding.scenario_configuration_sha256 :=
       MissionRunBinding.scenario_configuration_sha256 b;
     MissionRunBinding.fleet_session_id := MissionRunBinding.fleet_session_id b;
     MissionRunBinding.fleet_run_id := MissionRunBinding.fleet_run_id b;
     MissionRunBinding.deployment_sha256 := MissionRunBinding.deployment_sha256 b;
     MissionRunBinding.task_id := Some task;
     MissionRunBinding.task_lease_generation := Some generation;
     MissionRunBinding.backend_namespace := MissionRunBinding.backend_namespace b;
     MissionRunBinding.preparation_state := MissionRunBinding.preparation_state b |}.

(** [requested_identity == actual_identity] of [transition_fleet_authority] *)
Definition same_run (vehicle_id : string) (b : MissionRunBinding.t) (transition : Transition) :
    bool :=
  String.eqb (FleetAuthorityTransition.vehicle_id transition) vehicle_id
  && String.eqb (FleetAuthorityTransition.mission_run_id transition)
                (MissionRunBinding.mission_run_id b)
  && (Some (FleetAuthorityTransition.fleet_session_id transition)
      ≟ MissionRunBinding.fleet_session_id b)
  && (Some (FleetAuthorityTransition.fleet_run_id transition) ≟ MissionRunBinding.fleet_run_id b)
  && (Some (FleetAuthorityTransition.deployment_sha256 transition)
      ≟ MissionRunBinding.deployment_sha256 b).

(** [_validate_run_binding]: the commands that need no run. *)
Definition unbound_safety_override (command : CommandEnvelope.t) : bool :=
  is_none (CommandEnvelope.mission_run_id command)
  && is_none (CommandEnvelope.fleet command)
  && (((CommandEnvelope.source command ≟ CommandSource.SUPERVISOR)
       && match CommandEnvelope.payload command with
          | CommandPayload.StopAndHoldCommand | CommandPayload.Land _ | CommandPayload.AbortCommand _
          | CommandPayload.EmergencyStopCommand _ => true
          | _ => false
          end)
      || ((CommandEnvelope.source command ≟ CommandSource.MISSION)
          && match CommandEnvelope.payload command with
             | CommandPayload.DisarmCommand => true
             | _ => false
             end)).

Definition fleet_matches (fleet : FleetCommandBinding.t) (b : MissionRunBinding.t) : bool :=
  (Some (FleetCommandBinding.fleet_session_id fleet) ≟ MissionRunBinding.fleet_session_id b)
  && (Some (FleetCommandBinding.fleet_run_id fleet) ≟ MissionRunBinding.fleet_run_id b)
  && (Some (FleetCommandBinding.deployment_sha256 fleet) ≟ MissionRunBinding.deployment_sha256 b)
  && (Some (FleetCommandBinding.task_id fleet) ≟ MissionRunBinding.task_id b)
  && (Some (FleetCommandBinding.task_lease_generation fleet)
      ≟ MissionRunBinding.task_lease_generation b).

Definition validate_run_binding (command : CommandEnvelope.t) : M SimRun unit :=
  self ← get;
  match SimulatedRun._binding self with
  | None => mret tt
  | Some b =>
      if CommandEnvelope.mission_run_id command ≠? Some (MissionRunBinding.mission_run_id b) then
        if unbound_safety_override command then mret tt
        else raise (CrazySwarmError IDENTITY_MISMATCH "simulator mission run mismatch")
      else
        match MissionRunBinding.fleet_session_id b, CommandEnvelope.fleet command with
        | None, Some _ => raise (CrazySwarmError IDENTITY_MISMATCH "unexpected fleet binding")
        | None, None => mret tt
        | Some _, None => raise (CrazySwarmError IDENTITY_MISMATCH "simulator fleet run mismatch")
        | Some _, Some fleet =>
            raise_if (negb (fleet_matches fleet b))
              (CrazySwarmError IDENTITY_MISMATCH "simulator fleet run mismatch")
        end
  end.

Section simulated.
Context `{DG : Digest}.

Definition new_receipt (vehicle_id : string) (b : MissionRunBinding.t)
    (next : MissionRunBinding.t) (transition : Transition) : Receipt :=
  {| FleetAuthorityTransitionReceipt.transition_id :=
       FleetAuthorityTransition.transition_id transition;
     FleetAuthorityTransitionReceipt.sequence := FleetAuthorityTransition.sequence transition;
     FleetAuthorityTransitionReceipt.vehicle_id := vehicle_id;
     FleetAuthorityTransitionReceipt.mission_run_id := MissionRunBinding.mission_run_id b;
     FleetAuthorityTransitionReceipt.fleet_session_id :=
       default "" (MissionRunBinding.fleet_session_id b);
     FleetAuthorityTransitionReceipt.fleet_run_id :=
       FleetAuthorityTransition.fleet_run_id transition;
     FleetAuthorityTransitionReceipt.deployment_sha256 :=
       FleetAuthorityTransition.deployment_sha256 transition;
     FleetAuthorityTransitionReceipt.previous_task_id :=
       FleetAuthorityTransition.expected_task_id transition;
     FleetAuthorityTransitionReceipt.previous_task_lease_generation :=
       FleetAuthorityTransition.expected_task_lease_generation transition;
     FleetAuthorityTransitionReceipt.current_task_id :=
       FleetAuthorityTransition.next_task_id transition;
     FleetAuthorityTransitionReceipt.current_task_lease_generation :=
       FleetAuthorityTransition.next_task_lease_generation transition;
     FleetAuthorityTransitionReceipt.reason_code := FleetAuthorityTransition.reason_code transition;
     FleetAuthorityTransitionReceipt.authorization_sha256 :=
       FleetAuthorityTransition.authorization_sha256 transition;
     FleetAuthorityTransitionReceipt.previous_binding_sha256 :=
       canonical_sha256 (MissionRunBinding_json b);
     FleetAuthorityTransitionReceipt.current_binding_sha256 :=
       canonical_sha256 (MissionRunBinding_json next);
     FleetAuthorityTransitionReceipt.transition_sha256 :=
       FleetAuthorityTransition_sha256 transition |}.

(** [SimulatedVehicle.transition_fleet_authority] *)
Definition transition_fleet_authority (transition : Transition) : M SimRun Receipt :=
  self ← get;
  match SimulatedRun._binding self with
  | None =>
      raise (CrazySwarmError MODE_NOT_AUTHORIZED
               "simulator has no fleet-bound mission authority to transition")
  | Some binding =>
      _ ← raise_if (is_none (MissionRunBinding.fleet_session_id binding))
            (CrazySwarmError MODE_NOT_AUTHORIZED
               "simulator has no fleet-bound mission authority to transition");
      _ ← raise_if (SimulatedRun._state self
                    ∈? [VehicleState.DISCONNECTED; VehicleState.EMERGENCY])
            (CrazySwarmError INVALID_STATE
               "fleet authority cannot transition while the simulator is unavailable");
      _ ← raise_if (negb (same_run (SimulatedRun.vehicle_id self) binding transition))
            (CrazySwarmError IDENTITY_MISMATCH
               "fleet authority transition identity does not match the bound run");
      _ ← raise_if ((Some (FleetAuthorityTransition.expected_task_id transition)
                     ≠? MissionRunBinding.task_id binding)
                    || (Some (FleetAuthorityTransition.expected_task_lease_generation transition)
                        ≠? MissionRunBinding.task_lease_generation binding))
            (CrazySwarmError MODE_NOT_AUTHORIZED
               "fleet authority transition does not own the current task lease");
      let expected_sequence := SimulatedRun._authority_transition_sequence self + 1 in
      _ ← raise_if (negb (FleetAuthorityTransition.sequence transition =? expected_sequence))
            (CrazySwarmError MODE_NOT_AUTHORIZED
               "fleet authority transition sequence is not the next expected value");
      let next_binding :=
        move_run_lease binding (FleetAuthorityTransition.next_task_id transition)
          (FleetAuthorityTransition.next_task_lease_generation transition) in
      let receipt := new_receipt (SimulatedRun.vehicle_id self) binding next_binding transition in
      _ ← validated "FleetAuthorityTransitionReceipt"
            (FleetAuthorityTransitionReceipt_valid receipt) tt;
      _ ← modify (fun self =>
            SimulatedRun.set_bound (Some next_binding) (FleetAuthorityTransition.sequence transition)
              (SimulatedRun._authority_transition_receipts self ++ [receipt]) self);
      mret receipt
  end.

#[export] Instance simulated_adapter : AuthorityAdapter SimRun := {
  adapter_transition := transition_fleet_authority;
}.
End simulated.

(** ** Interleavings of the tasks that share an authority *)

Section system.
Context {A : Type} `{AuthorityAdapter A}.

(** What else happens to the adapter: commands, telemetry, its physics. *)
Context (adapter_moves : A -> A -> Prop).

Record system := mkSystem { authority : Authority; adapter : A; tasks : list phase }.

(** The section [m] of task [i] ran. *)
Definition ran (i : nat) (m : M Authority phase) (sys : system) : system :=
  mkSystem (exec m (authority sys) 0%nat) (adapter sys)
    (<[i := settle (run m (authority sys) 0%nat)]> (tasks sys)).

(** The adapter answers task [i]: its coroutine returns, raises, or is
    interrupted by a cancellation before it changed anything. *)
Definition answered (i : nat) (transition : Transition) (binding : FleetCommandBinding.t)
    (sys : system) : system :=
  let sys' := mkSystem (authority sys) (exec (adapter_transition transition) (adapter sys) 0%nat)
                (tasks sys) in
  ran i (transition_answered transition binding
           (run (adapter_transition transition) (adapter sys) 0%nat)) sys'.

Inductive step : system -> system -> Prop :=
| step_call a ad ts c : step (mkSystem a ad ts) (mkSystem a ad (ts ++ [Called c]))
| step_start sys i c : tasks sys !! i = Some (Called c) -> step sys (ran i (start i c) sys)
| step_granted sys i ph g :
    tasks sys !! i = Some ph -> waits_for ph = Some g ->
    Lock.future_of i (lock_of g (authority sys)) = Some Future.Woken ->
    step sys (ran i (lock_granted i ph) sys)
| step_cancel a ad ts i ph g :
    ts !! i = Some ph -> waits_for ph = Some g ->
    step (mkSystem a ad ts)
      (mkSystem (set_lock g (Lock.cancel_waiter i (lock_of g a)) a) ad ts)
| step_cancelled sys i ph g f :
    tasks sys !! i = Some ph -> waits_for ph = Some g ->
    Lock.future_of i (lock_of g (authority sys)) = Some f ->
    f = Future.Cancelled \/ f = Future.WokenCancelled ->
    step sys (ran i (wait_cancelled i ph) sys)
| step_ends sys i ph result b :
    tasks sys !! i = Some ph -> ph = ExecuteRuns b \/ ph = HealthRuns b ->
    step sys (ran i (operation_ends ph result) sys)
| step_answered sys i transition binding :
    tasks sys !! i = Some (TransitionAsks transition binding) ->
    step sys (answered i transition binding sys)
| step_interrupted sys i transition binding :
    tasks sys !! i = Some (TransitionAsks transition binding) ->
    step sys (ran i (transition_answered transition binding (Raise CancelledError)) sys)
| step_adapter a ad ad' ts :
    adapter_moves ad ad' -> step (mkSystem a ad ts) (mkSystem a ad' ts).

Context (initial : Authority -> A -> Prop).

Inductive reachable : system -> Prop :=
| reach_initial a ad : initial a ad -> reachable (mkSystem a ad [])
| reach_step sys sys' : reachable sys -> step sys sys' -> reachable sys'.
End system.
Arguments system A : clear implicits.
