(* ===== verification/Exclusion.v ===== *)
(** * Command authority: theorems

    The lock is exclusive and loses no wake-up; with it an operation runs on the
    binding that is current for as long as it runs, transitions exclude
    operations, and the lease of the authority and that of the simulated vehicle
    move in step. *)

From S2P Require Import Prelude Float64 Effects Contracts Artifacts Trajectory Safety Commands.
From S2P Require Import Missions Authority.

(** ** The lock *)

Definition was_woken (f : Future.t) : bool :=
  match f with Future.Woken | Future.WokenCancelled => true | _ => false end.

(** [l] is owned by [o], and [W] wait for it.  Only the oldest waiter can have
    been woken, and only while the lock is free; a free lock with waiters has one
    that can run. *)
Record consistent (l : Lock.t) (o : option nat) (W : gset nat) : Prop := {
  c_owner : Lock.locked l = is_some o;
  c_waiters : list_to_set (Lock.waiters l).*1 = W;
  c_once : NoDup (Lock.waiters l).*1;
  c_tail : Forall (fun w => was_woken w.2 = false) (tail (Lock.waiters l));
  c_head : match Lock.waiters l with
           | w :: _ => if Lock.locked l then was_woken w.2 = false else w.2 <> Future.Pending
           | [] => True
           end;
}.

Lemma consistent_new : consistent Lock.new None ∅.
Proof. by split; try done; simpl; apply NoDup_nil_2. Qed.

(** The futures of the queue, all but the first of which were not woken. *)
Lemma consistent_locked l i W ws :
  consistent l (Some i) W -> Lock.waiters l = ws -> Forall (fun w => was_woken w.2 = false) ws.
Proof.
  intros [Ho _ _ Ht Hh] <-. rewrite Ho in Hh. destruct (Lock.waiters l) as [|w ws]; [constructor|].
  simpl in *. by constructor.
Qed.

Lemma Forall_filter {X} (P Q : X -> Prop) `{!forall x, Decision (Q x)} l :
  Forall P l -> Forall P (filter Q l).
Proof. rewrite !Forall_forall. intros HP x [_ Hx]%list_elem_of_filter. by apply HP. Qed.

Lemma Forall_tail {X} (P : X -> Prop) l : Forall P l -> Forall P (tail l).
Proof. by destruct 1. Qed.

(** A queue of which nobody was woken, under a lock that is taken. *)
Lemma consistent_taken ws i :
  NoDup ws.*1 -> Forall (fun w => was_woken w.2 = false) ws ->
  consistent (Lock.mk true ws) (Some i) (list_to_set ws.*1).
Proof.
  intros Hn Hf. split; try done; simpl; [by apply Forall_tail|]. by destruct Hf.
Qed.

(** Waking the first of such a queue frees the lock. *)
Lemma consistent_woken ws :
  NoDup ws.*1 -> Forall (fun w => was_woken w.2 = false) (tail ws) ->
  consistent (Lock.wake_up_first (Lock.mk false ws)) None (list_to_set ws.*1).
Proof.
  intros Hn Ht. unfold Lock.wake_up_first. simpl.
  destruct ws as [|[j f] ws]; split; try done. simpl. by destruct f.
Qed.

Lemma acquire_consistent i l o W :
  consistent l o W -> i ∉ W ->
  match Lock.acquire i l with
  | (true, l') => o = None /\ consistent l' (Some i) W
  | (false, l') => consistent l' o ({[i]} ∪ W)
  end.
Proof.
  intros [Ho Hw Hn Ht Hh] Hi. unfold Lock.acquire.
  destruct (negb (Lock.locked l) && forallb _ _) eqn:E.
  - bool_to_prop. rewrite H in Ho. destruct o; [done|]. split; [done|]. rewrite <- Hw.
    apply consistent_taken; [done|]. apply Forall_forall. intros w Hin.
    rewrite forallb_forall in H0. apply list_elem_of_In, H0 in Hin. by destruct (w.2).
  - assert (Hni : i ∉ (Lock.waiters l).*1) by (rewrite <- Hw in Hi; set_solver).
    split; simpl.
    + done.
    + rewrite fmap_app, list_to_set_app_L, Hw. set_solver.
    + rewrite fmap_app. apply NoDup_app. split_and!; [done|set_solver|apply NoDup_singleton].
    + destruct (Lock.waiters l) as [|w ws]; simpl; [constructor|].
      apply Forall_app. split; [done|]. by repeat constructor.
    + destruct (Lock.waiters l) as [|w ws]; simpl; [|done].
      destruct (Lock.locked l); [done|]. by simpl in E.
Qed.

(** Removing a waiter from the queue. *)
Lemma remove_keys i (ws : list (nat * Future.t)) :
  list_to_set (filter (fun w => w.1 <> i) ws).*1 = (list_to_set ws.*1 : gset nat) ∖ {[i]}.
Proof.
  apply set_eq. intros j. rewrite elem_of_difference, !elem_of_list_to_set, !list_elem_of_fmap.
  setoid_rewrite list_elem_of_filter. set_solver.
Qed.

Lemma remove_NoDup i (ws : list (nat * Future.t)) :
  NoDup ws.*1 -> NoDup (filter (fun w => w.1 <> i) ws).*1.
Proof. intros H. eapply sublist_NoDup; [exact H|]. apply fmap_sublist, sublist_filter. Qed.

Lemma remove_tail i (P : nat * Future.t -> Prop) ws :
  Forall P (tail ws) -> Forall P (tail (filter (fun w => w.1 <> i) ws)).
Proof.
  destruct ws as [|w ws]; [done|]. simpl. intros H.
  rewrite filter_cons. case_decide; simpl.
  - by apply Forall_filter.
  - apply Forall_tail. by apply Forall_filter.
Qed.

Lemma future_of_head i f ws :
  snd <$> find_first (fun w => (w.1 =? i)%nat) ws = Some f -> was_woken f = true ->
  Forall (fun w => was_woken w.2 = false) (tail ws) ->
  exists ws', ws = (i, f) :: ws'.
Proof.
  intros (w & Hw & ->)%fmap_Some Hf Ht. apply find_first_Some in Hw as [Hin Hi%Nat.eqb_eq].
  destruct ws as [|w' ws]; [set_solver|]. apply elem_of_cons in Hin as [->|Hin].
  - exists ws. destruct w' as [j g]. by simpl in Hi; subst.
  - simpl in Ht. rewrite Forall_forall in Ht. specialize (Ht _ Hin). congruence.
Qed.

Lemma granted_consistent i l o W :
  consistent l o W -> Lock.future_of i l = Some Future.Woken ->
  o = None /\ consistent (Lock.granted i l) (Some i) (W ∖ {[i]}).
Proof.
  intros [Ho Hw Hn Ht Hh] Hf. unfold Lock.future_of in Hf.
  destruct (future_of_head i _ _ Hf eq_refl Ht) as [ws Hws].
  rewrite Hws in Hh, Ht. simpl in Hh, Ht.
  destruct (Lock.locked l); [done|]. destruct o; [done|]. split; [done|].
  unfold Lock.granted, Lock.remove. simpl. rewrite <- Hw, <- remove_keys.
  apply consistent_taken; [by apply remove_NoDup|].
  rewrite Hws, filter_cons. simpl. rewrite decide_False by auto. by apply Forall_filter.
Qed.

Lemma abandon_consistent i l o W :
  consistent l o W -> consistent (Lock.abandon i l) o (W ∖ {[i]}).
Proof.
  intros Hc. pose proof Hc as [Ho Hw Hn Ht Hh]. unfold Lock.abandon.
  rewrite <- Hw, <- remove_keys. simpl. destruct (Lock.locked l) eqn:El.
  - destruct o as [j|]; [|done]. unfold Lock.remove. rewrite El.
    apply consistent_taken; [by apply remove_NoDup|].
    apply Forall_filter. by apply (consistent_locked l j W).
  - destruct o as [j|]; [done|]. unfold Lock.remove. rewrite El.
    apply consistent_woken; [by apply remove_NoDup|by apply remove_tail].
Qed.

Lemma release_consistent l i W :
  consistent l (Some i) W -> exists l', Lock.release l = Ret l' /\ consistent l' None W.
Proof.
  intros Hc. pose proof Hc as [Ho Hw Hn Ht Hh]. unfold Lock.release. rewrite Ho. simpl.
  eexists. split; [done|]. rewrite <- Hw. by apply consistent_woken.
Qed.

Lemma cancel_consistent i l o W : consistent l o W -> consistent (Lock.cancel_waiter i l) o W.
Proof.
  intros [Ho Hw Hn Ht Hh]. unfold Lock.cancel_waiter.
  set (c := fun w : nat * Future.t => if (w.1 =? i)%nat then (w.1, Future.cancel w.2) else w).
  assert (Hk : forall ws, (c <$> ws).*1 = ws.*1).
  { induction ws as [|[j f] ws IH]; [done|]. rewrite !fmap_cons, IH. f_equal. unfold c. simpl.
    by destruct (j =? i)%nat. }
  assert (Hc : forall w, was_woken (c w).2 = was_woken w.2).
  { intros [j f]. unfold c. simpl. destruct (j =? i)%nat; [|done]. by destruct f. }
  split; simpl; rewrite ?Hk; [done..| |].
  - rewrite <- fmap_tail. apply Forall_fmap. eapply Forall_impl; [exact Ht|].
    intros w Hf. unfold compose. by rewrite Hc.
  - destruct (Lock.waiters l) as [|w ws]; [done|]. simpl. destruct (Lock.locked l); [by rewrite Hc|].
    destruct w as [j f]. unfold c. simpl. destruct (j =? i)%nat; [|done]. by destruct f.
Qed.

(** ** Who owns the locks *)

#[export] Instance guard_eq_dec : EqDecision guard.
Proof. solve_decision. Defined.

Definition holds (g : guard) (ph : phase) : bool :=
  match ph, g with
  | ExecuteRuns _, Guard | TransitionWaitsHealth _, Guard | HealthRuns _, HealthGuard
  | TransitionAsks _ _, _ => true
  | _, _ => false
  end.

(** The binding a task uses is the current one. *)
Definition phase_ok (a : Authority) (ph : phase) : Prop :=
  match ph with
  | ExecuteRuns b | HealthRuns b => b = current_binding a
  | TransitionAsks transition b =>
      current_binding a = Some b /\ lease_matches b transition = true
  | _ => True
  end.

Definition owners : Type := guard -> option nat.
Definition queues : Type := guard -> gset nat.
Definition set_at {X} (g : guard) (x : X) (f : guard -> X) : guard -> X :=
  fun g' => if decide (g' = g) then x else f g'.

Definition locks_ok (a : Authority) (own : owners) (W : queues) : Prop :=
  forall g, consistent (lock_of g a) (own g) (W g).

Definition fits (a : Authority) (own : owners) (W : queues) (i : nat) (ph : phase) : Prop :=
  (forall g, own g = Some i <-> holds g ph = true) /\
  (forall g, i ∈ W g <-> waits_for ph = Some g) /\
  phase_ok a ph.

(** Everything but the locks is as it was. *)
Definition same_lease (a a' : Authority) : Prop :=
  current_binding a' = current_binding a /\ receipts a' = receipts a.

Lemma locks_ok_set g l a own W o Wg :
  locks_ok a own W -> consistent l o Wg -> locks_ok (set_lock g l a) (set_at g o own) (set_at g Wg W).
Proof.
  intros Ha Hl g'. unfold set_at. case_decide as E; [subst; by destruct g|].
  specialize (Ha g'). by destruct g, g'.
Qed.

Lemma same_lease_set g l a : same_lease a (set_lock g l a).
Proof. by destruct g. Qed.

Section rules.
Context (i : nat) (own : owners) (W : queues).

Lemma wp_acquire g (Q : outcome bool -> Authority -> nat -> Prop) a n :
  locks_ok a own W -> i ∉ W g ->
  (forall a', same_lease a a' -> own g = None -> locks_ok a' (set_at g (Some i) own) (set_at g (W g) W) ->
     Q (Ret true) a' n) ->
  (forall a', same_lease a a' -> locks_ok a' (set_at g (own g) own) (set_at g ({[i]} ∪ W g) W) ->
     Q (Ret false) a' n) ->
  wp (acquire g i) Q a n.
Proof.
  intros Ha Hi Ht Hf. unfold acquire. wp_go.
  pose proof (acquire_consistent i _ _ _ (Ha g) Hi) as H.
  destruct (Lock.acquire i (lock_of g a)) as [[] l]; wp_go.
  - destruct H as [Ho Hl]. apply Ht; [apply same_lease_set|done|by apply locks_ok_set].
  - apply Hf; [apply same_lease_set|by apply locks_ok_set].
Qed.

Lemma wp_release g (Q : outcome unit -> Authority -> nat -> Prop) a n :
  locks_ok a own W -> own g = Some i ->
  (forall a', same_lease a a' -> locks_ok a' (set_at g None own) (set_at g (W g) W) ->
     Q (Ret tt) a' n) ->
  wp (release g) Q a n.
Proof.
  intros Ha Ho HQ. unfold release. pose proof (Ha g) as Hg. rewrite Ho in Hg.
  apply release_consistent in Hg as (l & Hl & Hc). wp_go. rewrite Hl. wp_go.
  apply HQ; [apply same_lease_set|by apply locks_ok_set].
Qed.

Lemma wp_granted g (Q : outcome unit -> Authority -> nat -> Prop) a n :
  locks_ok a own W -> Lock.future_of i (lock_of g a) = Some Future.Woken ->
  (forall a', same_lease a a' -> own g = None ->
     locks_ok a' (set_at g (Some i) own) (set_at g (W g ∖ {[i]}) W) -> Q (Ret tt) a' n) ->
  wp (update_lock g (Lock.granted i)) Q a n.
Proof.
  intros Ha Hf HQ. unfold update_lock. wp_go.
  destruct (granted_consistent i _ _ _ (Ha g) Hf) as [Ho Hc].
  apply HQ; [apply same_lease_set|done|by apply locks_ok_set].
Qed.

Lemma wp_abandon g (Q : outcome unit -> Authority -> nat -> Prop) a n :
  locks_ok a own W ->
  (forall a', same_lease a a' -> locks_ok a' (set_at g (own g) own) (set_at g (W g ∖ {[i]}) W) ->
     Q (Ret tt) a' n) ->
  wp (update_lock g (Lock.abandon i)) Q a n.
Proof.
  intros Ha HQ. unfold update_lock. wp_go.
  apply HQ; [apply same_lease_set|by apply locks_ok_set, abandon_consistent].
Qed.
End rules.

(** A section of task [i]: where it goes, and that nobody else's place changes. *)
Definition ends_well (i : nat) (own : owners) (W : queues) (change : Authority -> Authority -> Prop)
    (a : Authority) (o : outcome phase) (a' : Authority) : Prop :=
  exists ph own' W',
    o = Ret ph /\ locks_ok a' own' W' /\ fits a' own' W' i ph /\ change a a' /\
    (forall j g, j <> i -> (own' g = Some j <-> own g = Some j) /\ (j ∈ W' g <-> j ∈ W g)).

Definition section_ok (change : Authority -> Authority -> Prop) (i : nat) (a : Authority)
    (own : owners) (W : queues) (m : M Authority phase) : Prop :=
  wp m (fun o a' _ => ends_well i own W change a o a') a 0%nat.

#[export] Instance same_lease_preorder : PreOrder same_lease.
Proof. split; [by intros a|]. intros a b c [H1 H2] [H3 H4]. split; congruence. Qed.

(** The places of task [i] and of the others, lock by lock. *)
Ltac places :=
  unfold set_at; intros; repeat match goal with g : guard |- _ => destruct g end;
  repeat (case_decide; try done); simpl in *; naive_solver set_solver.

Ltac section_ends :=
  eexists _, _, _; split_and!;
  [reflexivity|eassumption| | |];
  [split_and!; [places|places|] | | places].

(** A section that came from [a] to [a1] goes on from there. *)
Lemma section_from i a own W a1 own1 W1 (m : M Authority phase) n :
  same_lease a a1 ->
  (forall j g, j <> i -> (own1 g = Some j <-> own g = Some j) /\ (j ∈ W1 g <-> j ∈ W g)) ->
  wp m (fun o a' _ => ends_well i own1 W1 same_lease a1 o a') a1 n ->
  wp m (fun o a' _ => ends_well i own W same_lease a o a') a1 n.
Proof.
  intros Hs Hj Hm. eapply wp_mono; [exact Hm|].
  intros o a' n' (ph & own' & W' & ? & ? & ? & Hs' & Hj'). exists ph, own', W'.
  split_and!; [done..|by etrans|]. intros j g Hne. destruct (Hj j g Hne), (Hj' j g Hne). naive_solver.
Qed.

Section sections.
Context (i : nat).
Notation ends own W a m :=
  (wp m (fun o a' _ => ends_well i own W same_lease a o a') a 0%nat) (only parsing).

Lemma leave_ok g a own W result :
  locks_ok a own W -> own g = Some i -> (forall g', g' <> g -> own g' <> Some i) ->
  (forall g', i ∉ W g') -> ends own W a (leave g result).
Proof.
  intros Ha Ho Hn Hw. unfold leave. wp_go. eapply wp_release; [done..|]. intros a1 Hs Ha1. wp_go.
  pose proof (Hn Guard). pose proof (Hn HealthGuard). pose proof (Hw Guard). pose proof (Hw HealthGuard).
  section_ends; done.
Qed.

Lemma leave_both_ok a own W result :
  locks_ok a own W -> (forall g, own g = Some i) -> (forall g, i ∉ W g) ->
  ends own W a (leave_both result).
Proof.
  intros Ha Ho Hw. pose proof (Hw Guard). pose proof (Hw HealthGuard).
  pose proof (Ho Guard) as Ho1. pose proof (Ho HealthGuard) as Ho2.
  unfold leave_both. wp_go. eapply wp_release; [done..|]. intros a1 Hs Ha1.
  eapply section_from; [done| |eapply leave_ok; [done|..]]; places.
Qed.

Lemma authorize_ok transition a own W :
  locks_ok a own W -> (forall g, own g = Some i) -> (forall g, i ∉ W g) ->
  ends own W a (authorize_transition transition).
Proof.
  intros Ha Ho Hw. pose proof (Hw Guard). pose proof (Hw HealthGuard).
  pose proof (Ho Guard) as Ho1. pose proof (Ho HealthGuard) as Ho2.
  unfold authorize_transition. wp_go.
  destruct (MissionFleetAuthority._binding a) as [b|] eqn:Hb; [|by apply leave_both_ok].
  wp_go; [by apply leave_both_ok|]. bool_to_prop. section_ends; done.
Qed.

Lemma continues_ok transition a own W :
  locks_ok a own W -> own Guard = Some i -> own HealthGuard <> Some i -> (forall g, i ∉ W g) ->
  ends own W a (transition_continues i transition).
Proof.
  intros Ha Ho Ho2 Hw. pose proof (Hw Guard). pose proof (Hw HealthGuard).
  unfold transition_continues. wp_go. eapply wp_acquire; [done..| |]; intros a1 Hs; intros; wp_go.
  - eapply section_from; [done| |eapply authorize_ok; [done|..]]; places.
  - section_ends; done.
Qed.

Context (a : Authority) (own : owners) (W : queues).
Context (Ha : locks_ok a own W).
Notation section m := (ends own W a m) (only parsing).

(** What the place of task [i] says about each lock. *)
Ltac unpack :=
  intros (Ho & Hw & Hok); pose proof (Ho Guard); pose proof (Ho HealthGuard);
  pose proof (Hw Guard); pose proof (Hw HealthGuard).

Lemma start_ok c : fits a own W i (Called c) -> section (start i c).
Proof.
  unpack. destruct c as [| |transition]; simpl.
  - unfold execute. wp_go.
    eapply wp_acquire; [done|naive_solver|..]; intros a1 Hs; intros; wp_go; section_ends; done.
  - unfold evaluate_health. wp_go.
    eapply wp_acquire; [done|naive_solver|..]; intros a1 Hs; intros; wp_go; section_ends; done.
  - unfold transition_starts. wp_go.
    eapply wp_acquire; [done|naive_solver|..]; intros a1 Hs; intros; wp_go; [|section_ends; done].
    eapply section_from; [done| |eapply continues_ok; [done|..]]; places.
Qed.

Lemma granted_ok ph g :
  fits a own W i ph -> waits_for ph = Some g ->
  Lock.future_of i (lock_of g a) = Some Future.Woken -> section (lock_granted i ph).
Proof.
  unpack. intros Hg Hf.
  destruct ph; simplify_eq/=; wp_go; (eapply wp_granted; [done|done|]);
    intros a1 Hs Hn Ha1; wp_go.
  - section_ends; done.
  - section_ends; done.
  - eapply section_from; [done| |eapply continues_ok; [done|..]]; places.
  - eapply section_from; [done| |eapply authorize_ok; [done|..]]; places.
Qed.

Lemma cancelled_ok ph g :
  fits a own W i ph -> waits_for ph = Some g -> section (wait_cancelled i ph).
Proof.
  unpack. intros Hg.
  destruct ph; simplify_eq/=; wp_go; (eapply wp_abandon; [done|]); intros a1 Hs Ha1; wp_go;
    try (section_ends; done).
  eapply section_from; [done| |eapply leave_ok; [done|..]]; places.
Qed.

Lemma ends_ok ph result :
  fits a own W i ph -> section (operation_ends ph result).
Proof.
  unpack. destruct ph; simpl; wp_go; try (eapply leave_ok; [done|places..]);
    (eexists _, own, W; split_and!; [done|done| |done|done]; split_and!; done).
Qed.
End sections.

(** The lease moves to the one the receipt names. *)
Definition moved (transition : Transition) (b : FleetCommandBinding.t) (receipt : Receipt)
    (a a' : Authority) : Prop :=
  receipt_matches receipt transition = true /\
  current_binding a' =
    Some (move_lease b (FleetAuthorityTransitionReceipt.current_task_id receipt)
            (FleetAuthorityTransitionReceipt.current_task_lease_generation receipt)) /\
  receipts a' = receipts a ++ [receipt].

Definition answer_change transition b (answer : outcome Receipt) (a a' : Authority) : Prop :=
  match answer with
  | Ret receipt =>
      if receipt_matches receipt transition then moved transition b receipt a a' else same_lease a a'
  | Raise _ => same_lease a a'
  end.

Lemma ends_well_impl i own W (R R' : Authority -> Authority -> Prop) a a1 o a' :
  (R a1 a' -> R' a a') -> ends_well i own W R a1 o a' -> ends_well i own W R' a o a'.
Proof. intros H (ph & own' & W' & ? & ? & ? & ? & ?). exists ph, own', W'. split_and!; auto. Qed.

Lemma answered_ok i a own W transition b answer :
  locks_ok a own W -> fits a own W i (TransitionAsks transition b) ->
  wp (transition_answered transition b answer)
     (fun o a' _ => ends_well i own W (answer_change transition b answer) a o a') a 0%nat.
Proof.
  intros Ha (Ho & Hw & Hb & Hl).
  assert (Ho' : forall g, own g = Some i) by (intros g; apply Ho; by destruct g).
  assert (Hw' : forall g, i ∉ W g) by (intros g Hg; by apply Hw in Hg).
  unfold transition_answered, answer_change. destruct answer as [receipt|e].
  2: { eapply wp_mono; [by apply leave_both_ok|]. intros o a' n'. by apply ends_well_impl. }
  destruct (receipt_matches receipt transition) eqn:E; wp_go; try done.
  2: { eapply wp_mono; [by apply leave_both_ok|]. intros o a' n'. by apply ends_well_impl. }
  eapply wp_mono; [by eapply leave_both_ok|].
  intros o a' n'. apply ends_well_impl. intros [H1 H2]. by split_and!.
Qed.

(** ** The invariant of the system *)

Section system_invariant.
Context {A : Type} `{!AuthorityAdapter A}.
Context (adapter_moves : A -> A -> Prop) (initial : Authority -> A -> Prop).
Context (initial_new : forall a ad, initial a ad -> exists b, a = MissionFleetAuthority_new b).

Definition inv (sys : system A) : Prop :=
  exists own W,
    locks_ok (authority sys) own W /\
    (forall i ph, tasks sys !! i = Some ph -> fits (authority sys) own W i ph) /\
    (forall i g, own g = Some i \/ i ∈ W g -> (i < length (tasks sys))%nat).

(** What a step does to the lease and to the adapter. *)
Inductive effect (sys sys' : system A) : Prop :=
| no_effect :
    same_lease (authority sys) (authority sys') -> adapter sys' = adapter sys -> effect sys sys'
| adapter_effect :
    authority sys' = authority sys -> adapter_moves (adapter sys) (adapter sys') -> effect sys sys'
| transition_effect transition b :
    current_binding (authority sys) = Some b -> lease_matches b transition = true ->
    adapter sys' = exec (adapter_transition transition) (adapter sys) 0%nat ->
    answer_change transition b (run (adapter_transition transition) (adapter sys) 0%nat)
      (authority sys) (authority sys') ->
    effect sys sys'.

(** The section of one task keeps the invariant: the others keep their places,
    and their bindings unless the task owns both locks. *)
Lemma ran_inv i ph m own W (sys : system A) change :
  locks_ok (authority sys) own W ->
  (forall j ph, tasks sys !! j = Some ph -> fits (authority sys) own W j ph) ->
  (forall j g, own g = Some j \/ j ∈ W g -> (j < length (tasks sys))%nat) ->
  tasks sys !! i = Some ph ->
  (forall a a', change a a' -> same_lease a a' \/ forall g, own g = Some i) ->
  wp m (fun o a' _ => ends_well i own W change (authority sys) o a') (authority sys) 0%nat ->
  inv (ran i m sys) /\ change (authority sys) (authority (ran i m sys)).
Proof.
  intros Ha Hf Hlen Hi Hch (ph' & own' & W' & Hr & Ha' & Hf' & Hc & Hj)%wp_run.
  split; [|done]. exists own', W'. unfold ran. rewrite Hr. simpl.
  pose proof (lookup_lt_Some _ _ _ Hi) as Hlt.
  split_and!; [done| |].
  - intros j phj [(<- & <- & _)|[Hne Hjl]]%list_lookup_insert_Some; [done|].
    destruct (Hf _ _ Hjl) as (Hoj & Hwj & Hokj). split_and!.
    + intros g. rewrite <- Hoj. by apply Hj.
    + intros g. rewrite <- Hwj. by apply Hj.
    + destruct (Hch _ _ Hc) as [[Hb _]|Hall].
      * destruct phj; simpl in *; congruence.
      * assert (Hn : forall g, holds g phj <> true).
        { intros g Hg. apply Hoj in Hg. rewrite Hall in Hg. congruence. }
        pose proof (Hn Guard). pose proof (Hn HealthGuard). by destruct phj.
  - intros j g Hjg. rewrite length_insert.
    destruct (decide (j = i)) as [->|Hne]; [done|]. apply (Hlen j g).
    destruct (Hj j g Hne). naive_solver.
Qed.

Lemma step_inv (sys sys' : system A) :
  step adapter_moves sys sys' -> inv sys -> inv sys' /\ effect sys sys'.
Proof.
  intros Hs (own & W & Ha & Hf & Hlen).
  assert (Hsame : forall i a a', same_lease a a' -> same_lease a a' \/ forall g, own g = Some i) by auto.
  destruct Hs as [a ad ts c|s0 i c Hi|s0 i ph g Hi Hg Hw|a ad ts i ph g Hi Hg
                 |s0 i ph g f Hi Hg Hw Hfut|s0 i ph result b Hi Hb|s0 i tr b Hi|s0 i tr b Hi
                 |a ad ad' ts Hm].
  - split; [|by apply no_effect]. exists own, W. simpl in *. split_and!; [done| |].
    + intros j ph [Hl|[Hge Hl]]%lookup_app_Some; [by apply Hf|].
      apply list_lookup_singleton_Some in Hl as [Hl <-].
      assert (Hno : forall g, own g <> Some j /\ j ∉ W g)
        by (intros g; split; intros ?; enough (j < length ts)%nat by lia; apply (Hlen j g); auto).
      split_and!; [|..|done]; intros g; specialize (Hno g); naive_solver.
    + intros j g Hjg. rewrite length_app. specialize (Hlen j g Hjg). simpl. lia.
  - destruct (ran_inv i (Called c) (start i c) own W s0 same_lease) as [? ?]; auto.
    { apply start_ok; auto. }
    split; [done|]. by apply no_effect.
  - destruct (ran_inv i ph (lock_granted i ph) own W s0 same_lease) as [? ?]; auto.
    { eapply granted_ok; eauto. }
    split; [done|]. by apply no_effect.
  - simpl in *. split; [|apply no_effect; [apply same_lease_set|done]].
    exists own, W. simpl. split_and!; [| |done].
    + intros g'. destruct (decide (g' = g)) as [->|Hne].
      * pose proof (cancel_consistent i _ _ _ (Ha g)). by destruct g.
      * specialize (Ha g'). by destruct g, g'.
    + intros j phj Hj. destruct (Hf j phj Hj) as (? & ? & Hok). split_and!; [done..|].
      by destruct g, phj.
  - destruct (ran_inv i ph (wait_cancelled i ph) own W s0 same_lease) as [? ?]; auto.
    { eapply cancelled_ok; eauto. }
    split; [done|]. by apply no_effect.
  - destruct (ran_inv i ph (operation_ends ph result) own W s0 same_lease) as [? ?]; auto.
    { apply ends_ok; auto. }
    split; [done|]. by apply no_effect.
  - destruct (Hf _ _ Hi) as (Ho & Hw & Hb & Hl).
    unfold answered. set (ans := run (adapter_transition tr) (adapter s0) 0%nat).
    edestruct (ran_inv i (TransitionAsks tr b) (transition_answered tr b ans) own W
                (mkSystem (authority s0) (exec (adapter_transition tr) (adapter s0) 0%nat) (tasks s0))
                (answer_change tr b ans)) as [? ?]; auto.
    { intros ???. right. intros g. apply Ho. by destruct g. }
    { apply answered_ok; auto. }
    split; [done|]. by eapply transition_effect.
  - destruct (ran_inv i (TransitionAsks tr b) (transition_answered tr b (Raise CancelledError)) own W s0
                (answer_change tr b (Raise CancelledError))) as [? ?]; auto.
    { apply answered_ok; auto. }
    split; [done|]. by apply no_effect.
  - split; [by exists own, W|]. by apply adapter_effect.
Qed.

Lemma reachable_inv (sys : system A) : reachable adapter_moves initial sys -> inv sys.
Proof.
  induction 1 as [a ad Hi|sys sys' _ IH Hs]; [|by eapply step_inv].
  destruct (initial_new _ _ Hi) as [b ->].
  exists (fun _ => None), (fun _ => ∅). split_and!; simpl; [intros []; apply consistent_new|done|].
  set_solver.
Qed.

(** Rule induction with the effect of each step. *)
Lemma reachable_effect (P : system A -> Prop) :
  (forall a ad, initial a ad -> P (mkSystem a ad [])) ->
  (forall sys sys', P sys -> effect sys sys' -> P sys') ->
  forall sys, reachable adapter_moves initial sys -> P sys.
Proof.
  intros Hi He sys Hr. induction Hr as [a ad Ha|sys sys' Hr IH Hs]; [by apply Hi|].
  apply (He sys); [done|]. apply step_inv; [done|by apply reachable_inv].
Qed.
End system_invariant.

(** ** Exclusion *)

Section exclusion.
Context {A : Type} `{!AuthorityAdapter A}.
Context (adapter_moves : A -> A -> Prop) (initial : Authority -> A -> Prop).
Context (initial_new : forall a ad, initial a ad -> exists b, a = MissionFleetAuthority_new b).
Notation reachable := (reachable adapter_moves initial).

Lemma holds_unique (sys : system A) i j g phi phj :
  inv sys -> tasks sys !! i = Some phi -> tasks sys !! j = Some phj ->
  holds g phi = true -> holds g phj = true -> i = j.
Proof.
  intros (own & W & _ & Hf & _) Hi Hj Hgi Hgj.
  apply (Hf _ _ Hi) in Hgi. apply (Hf _ _ Hj) in Hgj. congruence.
Qed.

Lemma phase_is_ok (sys : system A) i ph :
  inv sys -> tasks sys !! i = Some ph -> phase_ok (authority sys) ph.
Proof. intros (own & W & _ & Hf & _) Hi. by apply (Hf _ _ Hi). Qed.

(** C15: an operation runs on an indivisible binding. However commands, health
    checks, transitions and cancellations interleave, the binding an operation was
    given is the current one for as long as it runs, at most one command and one
    health check run at a time, and while a transition waits for the adapter
    nothing else runs and the lease it expects is the current one. *)
Theorem operations_run_on_current_binding (sys : system A) :
  reachable sys ->
  (forall i b, tasks sys !! i = Some (ExecuteRuns b) \/ tasks sys !! i = Some (HealthRuns b) ->
     b = current_binding (authority sys)) /\
  (forall i j b c, tasks sys !! i = Some (ExecuteRuns b) -> tasks sys !! j = Some (ExecuteRuns c) ->
     i = j) /\
  (forall i j b c, tasks sys !! i = Some (HealthRuns b) -> tasks sys !! j = Some (HealthRuns c) ->
     i = j) /\
  (forall i transition b, tasks sys !! i = Some (TransitionAsks transition b) ->
     current_binding (authority sys) = Some b /\ lease_matches b transition = true /\
     forall j ph, tasks sys !! j = Some ph -> holds Guard ph || holds HealthGuard ph = true -> j = i).
Proof.
  intros Hi%reachable_inv; [|done]. split_and!.
  - intros i b [H|H]; exact (phase_is_ok _ _ _ Hi H).
  - intros i j b c Hb Hc. by apply (holds_unique sys i j Guard _ _ Hi Hb Hc).
  - intros i j b c Hb Hc. by apply (holds_unique sys i j HealthGuard _ _ Hi Hb Hc).
  - intros i tr b Ht. destruct (phase_is_ok _ _ _ Hi Ht). split_and!; [done..|].
    intros j ph Hj [Hg|Hg]%orb_true_iff;
      [by apply (holds_unique sys j i Guard _ _ Hi Hj Ht)
      |by apply (holds_unique sys j i HealthGuard _ _ Hi Hj Ht)].
Qed.

(** A task that does not wait for another task. *)
Definition can_run (a : Authority) (i : nat) (ph : phase) : Prop :=
  match waits_for ph with
  | Some g => exists f, Lock.future_of i (lock_of g a) = Some f /\ f <> Future.Pending
  | None => match ph with Done _ => False | _ => True end
  end.

(** The first waiter of a free lock can run. *)
Lemma free_lock_runs (sys : system A) own W g i :
  locks_ok (authority sys) own W ->
  (forall i ph, tasks sys !! i = Some ph -> fits (authority sys) own W i ph) ->
  (forall i g, own g = Some i \/ i ∈ W g -> (i < length (tasks sys))%nat) ->
  own g = None -> i ∈ W g -> exists j ph, tasks sys !! j = Some ph /\ can_run (authority sys) j ph.
Proof.
  intros Ha Hf Hlen Hg Hi. destruct (Ha g) as [Ho Hw _ _ Hh]. rewrite Hg in Ho. simpl in Ho.
  rewrite Ho in Hh. destruct (Lock.waiters (lock_of g (authority sys))) as [|[j f] ws] eqn:E.
  { rewrite <- Hw in Hi. simpl in Hi. set_solver. }
  assert (Hj : j ∈ W g) by (rewrite <- Hw; simpl; set_solver).
  destruct (lookup_lt_is_Some_2 (tasks sys) j) as [ph Hph]; [by apply (Hlen j g); right|].
  exists j, ph. split; [done|]. unfold can_run. apply (Hf _ _ Hph) in Hj. rewrite Hj.
  exists f. split; [|done]. unfold Lock.future_of. rewrite E. simpl. by rewrite Nat.eqb_refl.
Qed.

(** C17: the two locks cannot deadlock. Whatever happened before, cancellations of
    waiting tasks included, as long as a task has not ended some task can go on:
    it runs an operation, waits for the adapter, or has been woken. *)
Theorem authority_never_deadlocks (sys : system A) i ph :
  reachable sys -> tasks sys !! i = Some ph -> (forall r, ph <> Done r) ->
  exists j ph', tasks sys !! j = Some ph' /\ can_run (authority sys) j ph'.
Proof.
  intros (own & W & Ha & Hf & Hlen)%reachable_inv Hi Hd; [|done].
  assert (Howner : forall g j, own g = Some j -> exists phj, tasks sys !! j = Some phj /\ holds g phj = true).
  { intros g j Hj. destruct (lookup_lt_is_Some_2 (tasks sys) j) as [phj Hph]; [by apply (Hlen j g); left|].
    exists phj. split; [done|]. by apply (Hf _ _ Hph). }
  destruct (waits_for ph) as [g|] eqn:Hg; [|exists i, ph; split; [done|]; unfold can_run; rewrite Hg; destruct ph; try done; by edestruct Hd].
  apply (Hf _ _ Hi) in Hg.
  destruct (own g) as [j|] eqn:Hj; [|by eapply free_lock_runs].
  destruct (Howner _ _ Hj) as (phj & Hphj & Hh).
  destruct (waits_for phj) as [g'|] eqn:Hg'; [|exists j, phj; split; [done|]; unfold can_run; rewrite Hg'; by destruct g, phj; simpl in *].
  assert (g' = HealthGuard) as -> by (destruct g, phj; naive_solver).
  apply (Hf _ _ Hphj) in Hg'.
  destruct (own HealthGuard) as [k|] eqn:Hk; [|by eapply free_lock_runs].
  destruct (Howner _ _ Hk) as (phk & Hphk & Hhk).
  exists k, phk. split; [done|]. unfold can_run. by destruct phk; simpl in *.
Qed.
End exclusion.

(** ** The leases of the authority and of the simulated vehicle *)

(** A lease is a task and a generation. *)
Definition previous_lease (r : Receipt) : string * Z :=
  (FleetAuthorityTransitionReceipt.previous_task_id r,
   FleetAuthorityTransitionReceipt.previous_task_lease_generation r).
Definition current_lease (r : Receipt) : string * Z :=
  (FleetAuthorityTransitionReceipt.current_task_id r,
   FleetAuthorityTransitionReceipt.current_task_lease_generation r).
Definition lease_of (b : FleetCommandBinding.t) : string * Z :=
  (FleetCommandBinding.task_id b, FleetCommandBinding.task_lease_generation b).

(** The receipts lead from one lease to the other. *)
Fixpoint leads (from : string * Z) (rs : list Receipt) (to : string * Z) : Prop :=
  match rs with
  | [] => from = to
  | r :: rs => previous_lease r = from /\ leads (current_lease r) rs to
  end.

Lemma leads_snoc from rs r :
  leads from rs (previous_lease r) -> leads from (rs ++ [r]) (current_lease r).
Proof. revert from. induction rs as [|r' rs IH]; intros from; simpl; naive_solver. Qed.

Section lockstep.
Context `{DG : Digest}.

(** The vehicle flies and is commanded, but nobody else binds it. *)
Definition vehicle_moves (v v' : SimRun) : Prop :=
  SimulatedRun.vehicle_id v' = SimulatedRun.vehicle_id v /\
  SimulatedRun._binding v' = SimulatedRun._binding v /\
  SimulatedRun._authority_transition_sequence v' = SimulatedRun._authority_transition_sequence v /\
  SimulatedRun._authority_transition_receipts v' = SimulatedRun._authority_transition_receipts v.

(** The run [rb] was just bound to the vehicle, under the binding [fb]. *)
Definition run_starts (fb : FleetCommandBinding.t) (rb : MissionRunBinding.t) (a : Authority)
    (v : SimRun) : Prop :=
  a = MissionFleetAuthority_new (Some fb) /\ SimulatedRun._binding v = Some rb /\
  fleet_matches fb rb = true /\
  SimulatedRun._authority_transition_sequence v = 0 /\
  SimulatedRun._authority_transition_receipts v = [].

Record in_step (fb : FleetCommandBinding.t) (rb : MissionRunBinding.t) (a : Authority) (v : SimRun)
    (b : FleetCommandBinding.t) (r : MissionRunBinding.t) : Prop := {
  step_binding : current_binding a = Some b;
  step_run : SimulatedRun._binding v = Some r;
  step_agree : fleet_matches b r = true;
  step_run_id : MissionRunBinding.mission_run_id r = MissionRunBinding.mission_run_id rb;
  step_receipts : SimulatedRun._authority_transition_receipts v = receipts a;
  step_count : SimulatedRun._authority_transition_sequence v = Z.of_nat (length (receipts a));
  step_numbers : FleetAuthorityTransitionReceipt.sequence <$> receipts a =
                 seqZ 1 (Z.of_nat (length (receipts a)));
  step_leads : leads (lease_of fb) (receipts a) (lease_of b);
}.

(** A transition the vehicle accepts. *)
Lemma transition_accepted tr v n receipt v' n' :
  transition_fleet_authority tr v n = (Ret receipt, v', n') ->
  exists r, SimulatedRun._binding v = Some r /\
    let r' := move_run_lease r (FleetAuthorityTransition.next_task_id tr)
                (FleetAuthorityTransition.next_task_lease_generation tr) in
    receipt = new_receipt (SimulatedRun.vehicle_id v) r r' tr /\
    FleetAuthorityTransition.sequence tr = SimulatedRun._authority_transition_sequence v + 1 /\
    v' = SimulatedRun.set_bound (Some r') (FleetAuthorityTransition.sequence tr)
           (SimulatedRun._authority_transition_receipts v ++ [receipt]) v.
Proof.
  revert receipt v' n'.
  enough (H : wp (transition_fleet_authority tr)
    (fun o v' _ => match o with
       | Ret receipt => exists r, SimulatedRun._binding v = Some r /\
           let r' := move_run_lease r (FleetAuthorityTransition.next_task_id tr)
                       (FleetAuthorityTransition.next_task_lease_generation tr) in
           receipt = new_receipt (SimulatedRun.vehicle_id v) r r' tr /\
           FleetAuthorityTransition.sequence tr = SimulatedRun._authority_transition_sequence v + 1 /\
           v' = SimulatedRun.set_bound (Some r') (FleetAuthorityTransition.sequence tr)
                  (SimulatedRun._authority_transition_receipts v ++ [receipt]) v
       | Raise _ => True
       end) v n).
  { intros receipt v' n' E. unfold wp in H. by rewrite E in H. }
  unfold transition_fleet_authority. wp_go.
  destruct (SimulatedRun._binding v) as [r|]; wp_go; try done.
  bool_to_prop. eauto 10.
Qed.

(** A transition the vehicle refuses changes nothing. *)
Lemma transition_refused tr v n e v' n' :
  transition_fleet_authority tr v n = (Raise e, v', n') -> v' = v.
Proof.
  revert v' n'.
  enough (H : wp (transition_fleet_authority tr)
    (fun o v' _ => match o with Raise _ => v' = v | Ret _ => True end) v n).
  { intros v' n' E. unfold wp in H. by rewrite E in H. }
  unfold transition_fleet_authority. wp_go.
  destruct (SimulatedRun._binding v) as [r|]; wp_go; done.
Qed.

Lemma fleet_matches_true b r :
  fleet_matches b r = true <->
  MissionRunBinding.fleet_session_id r = Some (FleetCommandBinding.fleet_session_id b) /\
  MissionRunBinding.fleet_run_id r = Some (FleetCommandBinding.fleet_run_id b) /\
  MissionRunBinding.deployment_sha256 r = Some (FleetCommandBinding.deployment_sha256 b) /\
  MissionRunBinding.task_id r = Some (FleetCommandBinding.task_id b) /\
  MissionRunBinding.task_lease_generation r = Some (FleetCommandBinding.task_lease_generation b).
Proof.
  unfold fleet_matches. rewrite !andb_true_iff, !bool_decide_eq_true. naive_solver.
Qed.

Lemma lease_matches_lease b tr :
  lease_matches b tr = true ->
  lease_of b = (FleetAuthorityTransition.expected_task_id tr,
                FleetAuthorityTransition.expected_task_lease_generation tr).
Proof. unfold lease_matches, lease_of. intros H. bool_to_prop. congruence. Qed.

Context (fb : FleetCommandBinding.t) (rb : MissionRunBinding.t).
Definition keeps_step (sys : system SimRun) : Prop :=
  exists b r, in_step fb rb (authority sys) (adapter sys) b r.

Lemma effect_in_step sys sys' :
  keeps_step sys -> effect vehicle_moves sys sys' -> keeps_step sys'.
Proof.
  intros (b & r & Hb). destruct 1 as [[H1 H2] Ha|Ha (Hi & H1 & H2 & H3)|tr b' H1 Hl Ha Hc].
  - exists b, r. rewrite Ha. destruct Hb; split; congruence.
  - exists b, r. rewrite Ha. destruct Hb; split; congruence.
  - unfold keeps_step. rewrite Ha. unfold run, exec in *. simpl in *.
    destruct (transition_fleet_authority tr (adapter sys) 0%nat) as [[[receipt|e] v] n] eqn:E; simpl in *.
    + apply transition_accepted in E as (r0 & Hr0 & Hrec & Hseq & ->).
      destruct Hb as [B1 B2 B3 B4 B5 B6 B7 B8].
      assert (b' = b) as -> by congruence. assert (r0 = r) as -> by congruence.
      assert (receipt_matches receipt tr = true) as Hm.
      { rewrite Hrec. unfold receipt_matches. simpl. by rewrite String.eqb_refl, Z.eqb_refl. }
      unfold answer_change in Hc. rewrite Hm in Hc. destruct Hc as (_ & C1 & C2).
      eexists _, _. split; [exact C1|reflexivity|..].
      * rewrite Hrec. apply fleet_matches_true. apply fleet_matches_true in B3. simpl. naive_solver.
      * done.
      * simpl. congruence.
      * simpl. rewrite C2, length_app. simpl. lia.
      * rewrite C2, fmap_app, length_app, Nat2Z.inj_add, seqZ_app by lia. f_equal; [done|].
        rewrite (seqZ_cons _ (Z.of_nat _)) by (simpl; lia). rewrite Hrec. simpl. f_equal. lia.
      * rewrite C2. change (lease_of (move_lease b _ _)) with (current_lease receipt).
        apply leads_snoc. replace (previous_lease receipt) with (lease_of b); [done|].
        rewrite (lease_matches_lease _ _ Hl). by rewrite Hrec.
    + apply transition_refused in E as ->. destruct Hc as [C1 C2].
      exists b, r. destruct Hb; split; congruence.
Qed.

Lemma run_starts_new a v : run_starts fb rb a v -> exists b, a = MissionFleetAuthority_new b.
Proof. intros [-> _]. by eexists. Qed.

Lemma reachable_in_step sys : reachable vehicle_moves (run_starts fb rb) sys -> keeps_step sys.
Proof.
  revert sys. apply (reachable_effect vehicle_moves _ run_starts_new); [|apply effect_in_step].
  intros a v (-> & H1 & H2 & H3 & H4). exists fb, rb. by split.
Qed.

(** C16: the lease of a mission run moves in step with the one its simulated vehicle
    accepts. From the binding of the run on, under every interleaving of commands,
    health checks and transitions, the two agree on session, run, deployment, task
    and generation; both list the same receipts, which are numbered from one and
    lead from the first lease to the current one. *)
Theorem leases_move_in_step sys :
  reachable vehicle_moves (run_starts fb rb) sys ->
  exists b r,
    current_binding (authority sys) = Some b /\ SimulatedRun._binding (adapter sys) = Some r /\
    fleet_matches b r = true /\
    MissionRunBinding.mission_run_id r = MissionRunBinding.mission_run_id rb /\
    SimulatedRun._authority_transition_receipts (adapter sys) = receipts (authority sys) /\
    FleetAuthorityTransitionReceipt.sequence <$> receipts (authority sys) =
      seqZ 1 (Z.of_nat (length (receipts (authority sys)))) /\
    leads (lease_of fb) (receipts (authority sys)) (lease_of b).
Proof.
  intros (b & r & [H1 H2 H3 H4 H5 H6 H7 H8])%reachable_in_step. by exists b, r.
Qed.

(** A command that an operation issues under its binding is never refused for its
    run or its lease while the operation runs; a command of the run under any
    other session, run, deployment, task or generation is refused with
    [IDENTITY_MISMATCH], before it has any effect. *)
Theorem operations_command_under_their_lease sys i b command f n :
  reachable vehicle_moves (run_starts fb rb) sys ->
  tasks sys !! i = Some (ExecuteRuns b) \/ tasks sys !! i = Some (HealthRuns b) ->
  CommandEnvelope.mission_run_id command = Some (MissionRunBinding.mission_run_id rb) ->
  CommandEnvelope.fleet command = Some f ->
  exists b', b = Some b' /\
    validate_run_binding command (adapter sys) n =
      (if decide (FleetCommandBinding.fleet_session_id f = FleetCommandBinding.fleet_session_id b' /\
                  FleetCommandBinding.fleet_run_id f = FleetCommandBinding.fleet_run_id b' /\
                  FleetCommandBinding.deployment_sha256 f = FleetCommandBinding.deployment_sha256 b' /\
                  lease_of f = lease_of b')
       then Ret tt
       else Err IDENTITY_MISMATCH "simulator fleet run mismatch", adapter sys, n).
Proof.
  intros Hr Hi Hid Hf. pose proof (reachable_in_step _ Hr) as (b' & r & [H1 H2 H3 H4 _ _ _ _]).
  pose proof (reachable_inv _ _ run_starts_new _ Hr) as Hinv.
  assert (b = Some b') as ->.
  { rewrite <- H1. destruct Hi as [Hi|Hi]; exact (phase_is_ok _ _ _ Hinv Hi). }
  exists b'. split; [done|]. apply fleet_matches_true in H3 as (E1 & E2 & E3 & E4 & E5).
  unfold validate_run_binding, get, mbind, M_bind. rewrite H2, Hid, H4, bool_decide_true by done.
  simpl. rewrite Hf, E1. unfold raise_if. case_decide as D.
  - destruct D as (D1 & D2 & D3 & [= D4 D5]).
    replace (fleet_matches f r) with true; [done|]. symmetry. apply fleet_matches_true.
    split_and!; congruence.
  - destruct (fleet_matches f r) eqn:E; [|done]. destruct D.
    apply fleet_matches_true in E as (F1 & F2 & F3 & F4 & F5). unfold lease_of.
    split_and!; [..|f_equal]; congruence.
Qed.
End lockstep.

(** ** Concrete runs *)

Module Examples.
#[local] Existing Instance example_digest.

Definition sha : string := "aaaaaaaaaaaaaaaaaaaaaaaaaaaaaaaaaaaaaaaaaaaaaaaaaaaaaaaaaaaaaaaa".

Definition first_binding : FleetCommandBinding.t :=
  FleetCommandBinding.mk "session-1" "fleet-run-1" sha "task-a" 1 "sim".

Definition run_binding : MissionRunBinding.t :=
  MissionRunBinding.mk "run-1" None None None None None None None (Some "session-1")
    (Some "fleet-run-1") (Some sha) (Some "task-a") (Some 1) (Some "sim") (Some "READY").

Definition hand_over : Transition :=
  FleetAuthorityTransition.mk "transition-1" 1 "cf-1" "run-1" "session-1" "fleet-run-1" sha
    "task-a" 1 "task-b" 4 "HANDOVER" sha.

Definition vehicle : SimRun :=
  SimulatedRun.mk "cf-1" VehicleState.FLYING true true (Some run_binding) 0 [].

Definition bound : system SimRun := mkSystem (MissionFleetAuthority_new (Some first_binding)) vehicle [].

Definition called (c : task_call) (sys : system SimRun) : system SimRun :=
  let i := length (tasks sys) in
  ran i (start i c) (mkSystem (authority sys) (adapter sys) (tasks sys ++ [Called c])).

Definition ended (i : nat) (sys : system SimRun) : system SimRun :=
  match tasks sys !! i with
  | Some ph => ran i (operation_ends ph (Ret tt)) sys
  | None => sys
  end.

Definition woken (i : nat) (sys : system SimRun) : system SimRun :=
  match tasks sys !! i with
  | Some ph => ran i (lock_granted i ph) sys
  | None => sys
  end.

(** A command and a health check run; a transition waits for both; it moves the
    lease; the next command runs under the new one. *)
Definition waiting : system SimRun :=
  called (CallTransition hand_over) (called CallEvaluateHealth (called CallExecute bound)).
Definition half_way : system SimRun := woken 2 (ended 0 waiting).
Definition asking : system SimRun := woken 2 (ended 1 half_way).
Definition handed_over : system SimRun := answered 2 hand_over first_binding asking.
Definition resumed : system SimRun := called CallExecute handed_over.

Notation reach := (reachable vehicle_moves (run_starts first_binding run_binding)).

Lemma reach_bound : reach bound.
Proof. apply reach_initial. by split_and!. Qed.

Lemma reach_called c sys : reach sys -> reach (called c sys).
Proof.
  destruct sys as [a v ts]. intros Hr. unfold called.
  eapply reach_step; [eapply reach_step; [exact Hr|]|].
  - apply step_call.
  - apply step_start. simpl. by rewrite lookup_app_r, Nat.sub_diag by done.
Qed.

Lemma reach_ended i sys b :
  reach sys -> tasks sys !! i = Some (ExecuteRuns b) \/ tasks sys !! i = Some (HealthRuns b) ->
  reach (ended i sys).
Proof.
  intros Hr Hi. unfold ended.
  destruct Hi as [Hi|Hi]; rewrite Hi; (eapply reach_step; [exact Hr|]);
    eapply step_ends; eauto.
Qed.

Lemma reach_woken i sys ph g :
  reach sys -> tasks sys !! i = Some ph -> waits_for ph = Some g ->
  Lock.future_of i (lock_of g (authority sys)) = Some Future.Woken -> reach (woken i sys).
Proof.
  intros Hr Hi Hg Hf. unfold woken. rewrite Hi. eapply reach_step; [exact Hr|].
  by eapply step_granted.
Qed.

Lemma reach_waiting : reach waiting.
Proof. unfold waiting. do 3 apply reach_called. apply reach_bound. Qed.

Lemma reach_half_way : reach half_way.
Proof.
  eapply (reach_woken 2 _ (TransitionWaits hand_over) Guard); [|vm_compute; reflexivity..].
  eapply (reach_ended 0); [apply reach_waiting|left; vm_compute; reflexivity].
Qed.

Lemma reach_asking : reach asking.
Proof.
  eapply (reach_woken 2 _ (TransitionWaitsHealth hand_over) HealthGuard); [|vm_compute; reflexivity..].
  eapply (reach_ended 1); [apply reach_half_way|right; vm_compute; reflexivity].
Qed.

Lemma reach_resumed : reach resumed.
Proof.
  apply reach_called. eapply reach_step; [apply reach_asking|].
  apply step_answered. vm_compute. reflexivity.
Qed.

(** A health check runs beside a command, and the transition waits for both. *)
Example waiting_tasks :
  tasks waiting = [ExecuteRuns (Some first_binding); HealthRuns (Some first_binding);
                   TransitionWaits hand_over].
Proof. vm_compute. reflexivity. Qed.

(** The lease has moved, and the next command runs under it. *)
Example resumed_lease :
  lease_of <$> current_binding (authority resumed) = Some ("task-b", 4) /\
  tasks resumed !! 3%nat = Some (ExecuteRuns (current_binding (authority resumed))).
Proof. vm_compute. by split. Qed.

Definition new_authority a (v : SimRun) : run_starts first_binding run_binding a v ->
    exists b, a = MissionFleetAuthority_new b := run_starts_new first_binding run_binding a v.

Lemma exclusion_witness :
  current_binding (authority asking) = Some first_binding /\
  lease_matches first_binding hand_over = true /\
  forall j ph, tasks asking !! j = Some ph -> holds Guard ph || holds HealthGuard ph = true -> j = 2%nat.
Proof.
  destruct (operations_run_on_current_binding vehicle_moves _ new_authority asking reach_asking)
    as (_ & _ & _ & H).
  apply (H 2%nat hand_over first_binding). vm_compute. reflexivity.
Defined.

Lemma deadlock_witness :
  exists j ph, tasks half_way !! j = Some ph /\ can_run (authority half_way) j ph.
Proof.
  apply (authority_never_deadlocks vehicle_moves _ new_authority half_way 2%nat
           (TransitionWaitsHealth hand_over) reach_half_way);
    [vm_compute; reflexivity|intros r H; discriminate H].
Defined.

Lemma lockstep_witness :
  exists b r,
    current_binding (authority resumed) = Some b /\ SimulatedRun._binding (adapter resumed) = Some r /\
    fleet_matches b r = true /\
    MissionRunBinding.mission_run_id r = MissionRunBinding.mission_run_id run_binding /\
    SimulatedRun._authority_transition_receipts (adapter resumed) = receipts (authority resumed) /\
    FleetAuthorityTransitionReceipt.sequence <$> receipts (authority resumed) =
      seqZ 1 (Z.of_nat (length (receipts (authority resumed)))) /\
    leads (lease_of first_binding) (receipts (authority resumed)) (lease_of b).
Proof. apply leases_move_in_step, reach_resumed. Defined.

(** A command under the lease the vehicle no longer accepts. *)
Definition stale_command : CommandEnvelope.t :=
  CommandEnvelope.mk "cf-1" "cmd-7" (Some "run-1") (Some first_binding) f0 CommandSource.MISSION
    OperatingMode.SIM (CommandPayload.HoverCommand f1).

Lemma command_witness :
  exists b', current_binding (authority resumed) = Some b' /\
    validate_run_binding stale_command (adapter resumed) 0%nat =
      (Err IDENTITY_MISMATCH "simulator fleet run mismatch", adapter resumed, 0%nat).
Proof.
  destruct (operations_command_under_their_lease first_binding run_binding resumed 3
              (current_binding (authority resumed)) stale_command first_binding 0%nat reach_resumed)
    as (b' & H1 & H2); [left; vm_compute; reflexivity|reflexivity|reflexivity|].
  exists b'. split; [exact H1|]. rewrite H2.
  assert (E : Some (lease_of b') = Some ("task-b", 4))
    by (transitivity (lease_of <$> current_binding (authority resumed));
        [rewrite H1; reflexivity|apply resumed_lease]).
  rewrite decide_False; [reflexivity|]. intros (_ & _ & _ & D).
  rewrite <- D in E. discriminate E.
Defined.
End Examples.
