(* ===== verification/Coroutines.v ===== *)
(** * Coroutines

    The translation of [async] Python.  A coroutine runs synchronously from one
    suspension to the next; at an [await] it gives up control, and other
    coroutines of the event loop may run and change the shared objects before
    it is resumed with a result or an exception.

    A coroutine is a tree of atomic steps on the shared state and of awaits of
    requests to the environment (the adapter, a timer).  [advance] runs one up
    to its next suspension, [reachable] interleaves any number of them with an
    environment that answers a request with any result or exception, a timeout
    and a cancellation included, at any time.

    [cok c Q s n] is the program logic of coroutines: started from the state
    [s], the coroutine keeps the invariant at every suspension, whatever the
    others do meanwhile as long as they keep it too and only move the state
    along [ext], and ends in an outcome and a state of [Q]. *)

From S2P Require Import Prelude Float64 Effects.

Section coroutine.
Context {S : Type} {req : Type -> Type}.

(** [req B] is a request that is answered with a [B]. *)
Inductive co (A : Type) : Type :=
| Finish (o : outcome A)
| Atom {B : Type} (m : M S B) (k : outcome B -> co A)
| Await {B : Type} (q : req B) (k : outcome B -> co A).
#[global] Arguments Finish {A} o.
#[global] Arguments Atom {A B} m k.
#[global] Arguments Await {A B} q k.

(** Run [c], then what its outcome says. *)
Fixpoint co_then {A B} (c : co A) (K : outcome A -> co B) : co B :=
  match c with
  | Finish o => K o
  | Atom m k => Atom m (fun o => co_then (k o) K)
  | Await q k => Await q (fun r => co_then (k r) K)
  end.

#[global] Instance co_ret : MRet co := fun A a => Finish (Ret a).
#[global] Instance co_bind : MBind co := fun A B f c =>
  co_then c (fun o => match o with Ret a => f a | Raise e => Finish (Raise e) end).

(** A synchronous piece of code, and [await]. *)
Definition sync {A} (m : M S A) : co A := Atom m Finish.
Definition await {A} (q : req A) : co A := Await q Finish.
Definition co_raise {A} (e : exn) : co A := Finish (Raise e).

(** [try: c except <catches>: h e] *)
Definition co_try {A} (c : co A) (catches : exn -> bool) (h : exn -> co A) : co A :=
  co_then c (fun o => match o with
                      | Raise e => if catches e then h e else Finish (Raise e)
                      | Ret a => Finish (Ret a)
                      end).

(** [try: c finally: f] *)
Definition co_finally {A} (c : co A) (f : co unit) : co A :=
  co_then c (fun o => co_then f (fun o' => match o' with
                                           | Ret _ => Finish o
                                           | Raise e => Finish (Raise e)
                                           end)).

(** [for x in l: body x] *)
Fixpoint co_for_each {X} (l : list X) (body : X -> co unit) : co unit :=
  match l with
  | [] => mret tt
  | x :: l' => _ ← body x; co_for_each l' body
  end.

Definition discard {A} (c : co A) : co unit := _ ← c; mret tt.

(** Run up to the next suspension or to the end. *)
Fixpoint advance {A} (c : co A) (s : S) (n : nat) : co A * S * nat :=
  match c with
  | Atom m k => match m s n with (o, s', n') => advance (k o) s' n' end
  | _ => (c, s, n)
  end.

(** The outcome of a coroutine that has ended. *)
Definition finished {A} (c : co A) : option (outcome A) :=
  match c with Finish o => Some o | _ => None end.

(** ** Interleavings *)

Record system := mkSystem { shared : S; readings : nat; coroutines : list (co unit) }.

Section interleaving.
Context (init : S -> Prop) (api : co unit -> Prop) (env : S -> S -> Prop).

Inductive reachable : system -> Prop :=
| reach_init s n : init s -> reachable (mkSystem s n [])
| reach_call s n ts c c' s' n' :
    reachable (mkSystem s n ts) -> api c -> advance c s n = (c', s', n') ->
    reachable (mkSystem s' n' (ts ++ [c']))
| reach_resume s n ts i B (q : req B) k r c' s' n' :
    reachable (mkSystem s n ts) -> ts !! i = Some (Await q k) -> advance (k r) s n = (c', s', n') ->
    reachable (mkSystem s' n' (<[i := c']> ts))
| reach_env s n ts s' n' :
    reachable (mkSystem s n ts) -> env s s' -> (n <= n')%nat -> reachable (mkSystem s' n' ts).
End interleaving.

(** The steps as functions: start a coroutine, resume the [i]-th with the answer
    of an environment [r] to its request. *)
Definition call (c : co unit) (sys : system) : system :=
  match advance c (shared sys) (readings sys) with
  | (c', s', n') => mkSystem s' n' (coroutines sys ++ [c'])
  end.

Definition resume (i : nat) (r : forall B, req B -> outcome B) (sys : system) : system :=
  match coroutines sys !! i with
  | Some (Await q k) =>
      match advance (k (r _ q)) (shared sys) (readings sys) with
      | (c', s', n') => mkSystem s' n' (<[i := c']> (coroutines sys))
      end
  | _ => sys
  end.

Lemma reachable_call (init : S -> Prop) (api : co unit -> Prop) env c sys :
  reachable init api env sys -> api c -> reachable init api env (call c sys).
Proof.
  destruct sys as [s n ts]. intros Hr Hc. unfold call. simpl.
  destruct (advance c s n) as [[c' s'] n'] eqn:E. by eapply reach_call.
Qed.

Lemma reachable_resume (init : S -> Prop) (api : co unit -> Prop) env i r sys :
  reachable init api env sys -> reachable init api env (resume i r sys).
Proof.
  destruct sys as [s n ts]. intros Hr. unfold resume. simpl.
  destruct (ts !! i) as [[|?|? q k]|] eqn:Hi; try done.
  destruct (advance _ s n) as [[c' s'] n'] eqn:E. by eapply reach_resume.
Qed.

(** ** Program logic *)
Section logic.
Context (I : S -> Prop) (ext : S -> S -> Prop) `{!PreOrder ext}.

(** [anchor] is the state at the last suspension. *)
Fixpoint cwp {A} (c : co A) (Q : outcome A -> S -> nat -> Prop) (anchor s : S) (n : nat) : Prop :=
  match c with
  | Finish o => I s /\ ext anchor s /\ Q o s n
  | Atom m k => cwp (k (m s n).1.1) Q anchor (m s n).1.2 (m s n).2
  | Await q k => I s /\ ext anchor s /\ forall r s' n', I s' -> ext s s' -> cwp (k r) Q s' s' n'
  end.

Definition cok {A} (c : co A) (Q : outcome A -> S -> nat -> Prop) (s : S) (n : nat) : Prop :=
  cwp c Q s s n.

Lemma cwp_anchor {A} (c : co A) Q b anchor s n :
  ext b anchor -> cwp c Q anchor s n -> cwp c Q b s n.
Proof.
  intros Hb. revert s n. induction c as [o|B m k IH|B q k IH]; simpl; intros s n.
  - intros (? & ? & ?). split_and!; [done|by etrans|done].
  - apply IH.
  - intros (? & ? & ?). split_and!; [done|by etrans|done].
Qed.

Lemma cwp_mono {A} (c : co A) (Q Q' : outcome A -> S -> nat -> Prop) b anchor s n :
  ext b anchor -> cwp c Q anchor s n ->
  (forall o s' n', I s' -> ext b s' -> Q o s' n' -> Q' o s' n') -> cwp c Q' anchor s n.
Proof.
  intros Hb Hc HQ. revert anchor s n Hb Hc.
  induction c as [o|B m k IH|B q k IH]; simpl; intros anchor s n Hb.
  - intros (? & ? & ?). split_and!; [done..|]. apply HQ; [done|by etrans|done].
  - by apply IH.
  - intros (? & ? & H). split_and!; [done..|]. intros r s' n' HI Hs. apply IH; [|by apply H].
    etrans; [exact Hb|]. by etrans.
Qed.

Lemma cok_mono {A} (c : co A) (Q Q' : outcome A -> S -> nat -> Prop) s n :
  cok c Q s n -> (forall o s' n', I s' -> ext s s' -> Q o s' n' -> Q' o s' n') -> cok c Q' s n.
Proof. intros. by apply (cwp_mono _ Q _ s). Qed.

(** Sequencing: the continuation starts in a state that satisfies the
    invariant, after the state of the start. *)
Lemma cok_then {A B} (c : co A) (K : outcome A -> co B) (Q : outcome B -> S -> nat -> Prop) s n :
  cok c (fun o s' n' => I s' -> ext s s' -> cok (K o) Q s' n') s n -> cok (co_then c K) Q s n.
Proof.
  intros Hc.
  assert (H : cwp c (fun o s' n' => cok (K o) Q s' n') s s n).
  { eapply (cwp_mono _ _ _ s); [done|exact Hc|]. auto. }
  clear Hc. revert H. unfold cok. generalize s at 1 3 as anchor. revert s n.
  induction c as [o|B' m k IH|B' q k IH]; simpl; intros s n anchor.
  - intros (? & ? & ?). by apply (cwp_anchor _ _ _ s).
  - apply IH.
  - intros (? & ? & H). split_and!; [done..|]. intros r s' n' HI Hs. by apply IH, H.
Qed.

Lemma cok_sync {A} (m : M S A) (Q : outcome A -> S -> nat -> Prop) s n :
  wp m (fun o s' n' => I s' /\ ext s s' /\ Q o s' n') s n -> cok (sync m) Q s n.
Proof. done. Qed.

Lemma cok_await {A} (q : req A) (Q : outcome A -> S -> nat -> Prop) s n :
  I s -> (forall r s' n', I s' -> ext s s' -> Q r s' n') -> cok (await q) Q s n.
Proof. intros HI HQ. split_and!; [done..|]. intros r s' n' HI' Hs. split_and!; [done..|auto]. Qed.

Lemma cok_finish {A} o (Q : outcome A -> S -> nat -> Prop) s n :
  I s -> Q o s n -> cok (Finish o) Q s n.
Proof. intros. by split_and!. Qed.

Lemma cok_for_each {X} (l : list X) (body : X -> co unit) s n :
  I s -> (forall x s n, I s -> cok (body x) (fun _ _ _ => True) s n) ->
  cok (co_for_each l body) (fun _ _ _ => True) s n.
Proof.
  intros HI Hb. revert s n HI. induction l as [|x l IH]; intros s n HI; simpl.
  - by apply cok_finish.
  - apply cok_then. eapply cok_mono; [by apply Hb|]. intros [[]|e] s' n' ??? _ _; [by apply IH|].
    by apply cok_finish.
Qed.

(** Coroutines that keep the invariant, whatever they return. *)
Notation anything := (fun _ _ _ => True).
Definition keeps {A} (c : co A) : Prop := forall s n, I s -> cok c anything s n.

(** The continuation may use what the first part established. *)
Lemma cok_then_from {A B} (c : co A) (K : outcome A -> co B) (P : outcome A -> S -> Prop) s n :
  cok c (fun o s' _ => P o s') s n ->
  (forall o s' n', I s' -> ext s s' -> P o s' -> cok (K o) anything s' n') ->
  cok (co_then c K) anything s n.
Proof.
  intros Hc HK. apply cok_then. eapply cok_mono; [exact Hc|]. intros o s' n' ??? _ _. auto.
Qed.

(** The same after a synchronous piece of code. *)
Lemma cok_sync_from {A B} (m : M S A) (f : A -> co B) (P : A -> S -> Prop) s n :
  wp m (fun o s' _ => I s' /\ ext s s' /\ forall a, o = Ret a -> P a s') s n ->
  (forall a s' n', I s' -> ext s s' -> P a s' -> cok (f a) anything s' n') ->
  cok (sync m ≫= f) anything s n.
Proof.
  intros Hm Hf. apply (cok_then_from _ _ (fun o s' => forall a, o = Ret a -> P a s')).
  - by apply cok_sync.
  - intros [a|e] s' n' HI Hs HP; [by apply Hf; auto|by apply cok_finish].
Qed.

Lemma keeps_finish {A} (o : outcome A) : keeps (Finish o).
Proof. intros s n HI. by apply cok_finish. Qed.

Lemma keeps_await {A} (q : req A) : keeps (await q).
Proof. intros s n HI. by apply cok_await. Qed.

Lemma keeps_then {A B} (c : co A) (K : outcome A -> co B) :
  keeps c -> (forall o, keeps (K o)) -> keeps (co_then c K).
Proof.
  intros Hc HK s n HI. apply (cok_then_from c K (fun _ _ => True)); [by apply Hc|].
  intros. by apply HK.
Qed.

Lemma keeps_bind {A B} (c : co A) (f : A -> co B) :
  keeps c -> (forall a, keeps (f a)) -> keeps (c ≫= f).
Proof. intros Hc Hf. apply keeps_then; [done|]. intros [a|e]; [apply Hf|apply keeps_finish]. Qed.

Lemma keeps_finally {A} (c : co A) f : keeps c -> keeps f -> keeps (co_finally c f).
Proof.
  intros Hc Hf. apply keeps_then; [done|]. intros o. apply keeps_then; [done|].
  intros [?|?]; apply keeps_finish.
Qed.

Lemma keeps_for_each {X} (l : list X) (body : X -> co unit) :
  (forall x, keeps (body x)) -> keeps (co_for_each l body).
Proof. intros Hb s n HI. by apply cok_for_each. Qed.

Lemma cok_advance {A} (c : co A) Q anchor s n c' s' n' :
  cwp c Q anchor s n -> advance c s n = (c', s', n') ->
  I s' /\ ext anchor s' /\ cwp c' Q anchor s' n'.
Proof.
  revert s n. induction c as [o|B m k IH|B q k IH]; simpl; intros s n.
  - intros (? & ? & ?) [= <- <- <-]. by split_and!.
  - intros H. destruct (m s n) as [[o t] l] eqn:E. simpl in H. by apply IH.
  - intros (? & ? & ?) [= <- <- <-]. by split_and!.
Qed.

(** A suspended coroutine is fine in every later state. *)
Definition pending (c : co unit) (s : S) : Prop :=
  match c with
  | Await q k => forall r s' n', I s' -> ext s s' -> cok (k r) (fun _ _ _ => True) s' n'
  | _ => True
  end.

Lemma pending_ext c s s' : ext s s' -> pending c s -> pending c s'.
Proof. destruct c; simpl; try done. intros Hs H r t n' HI Ht. apply H; [done|by etrans]. Qed.

Lemma pending_of_cwp c anchor s n : cwp c (fun _ _ _ => True) anchor s n -> pending c s.
Proof. destruct c; simpl; try done. by intros (_ & _ & H). Qed.

(** Every interleaving of coroutines that are fine keeps the invariant. *)
Lemma reachable_invariant (init : S -> Prop) (api : co unit -> Prop) (env : S -> S -> Prop) sys :
  (forall s, init s -> I s) ->
  (forall c s n, api c -> I s -> cok c (fun _ _ _ => True) s n) ->
  (forall s s', env s s' -> I s -> I s' /\ ext s s') ->
  reachable init api env sys ->
  I (shared sys) /\ Forall (fun c => pending c (shared sys)) (coroutines sys).
Proof.
  intros Hinit Hapi Henv.
  induction 1 as [s n Hs|s n ts c c' s' n' _ [HI Hts] Hc Ha|s n ts i B q k r c' s' n' _ [HI Hts] Hi Ha
                 |s n ts s' n' _ [HI Hts] He Hn]; simpl in *.
  - by split; [apply Hinit|].
  - destruct (cok_advance _ _ _ _ _ _ _ _ (Hapi c s n Hc HI) Ha) as (HI' & Hs' & Hw).
    split; [done|]. apply Forall_app. split.
    + eapply Forall_impl; [exact Hts|]. intros t. by apply pending_ext.
    + apply Forall_singleton. by eapply pending_of_cwp.
  - pose proof (Forall_lookup_1 _ _ _ _ Hts Hi r s n HI ltac:(done)) as Hk.
    destruct (cok_advance _ _ _ _ _ _ _ _ Hk Ha) as (HI' & Hs' & Hw).
    split; [done|]. apply Forall_insert.
    + eapply Forall_impl; [exact Hts|]. intros t. by apply pending_ext.
    + by eapply pending_of_cwp.
  - destruct (Henv _ _ He HI) as [HI' Hs']. split; [done|].
    eapply Forall_impl; [exact Hts|]. intros t. by apply pending_ext.
Qed.
End logic.
End coroutine.
#[global] Arguments co S req A : clear implicits.
#[global] Arguments system S req : clear implicits.

(** ** What a coroutine asks of the environment

    [asks G c s n]: whatever the others do meanwhile, [c] makes a request only in a
    state in which [G] allows it. *)
Section requests.
Context {S : Type} {req : Type -> Type} (I : S -> Prop) (ext : S -> S -> Prop).
Context (G : forall B, req B -> S -> Prop).

Fixpoint asks {A} (c : co S req A) (s : S) (n : nat) : Prop :=
  match c with
  | Finish _ => True
  | Atom m k => asks (k (m s n).1.1) (m s n).1.2 (m s n).2
  | Await q k => G _ q s /\ forall r s' n', I s' -> ext s s' -> asks (k r) s' n'
  end.

(** A coroutine all of whose requests are always allowed. *)
Fixpoint free {A} (c : co S req A) : Prop :=
  match c with
  | Finish _ => True
  | Atom m k => forall o, free (k o)
  | Await q k => (forall s, G _ q s) /\ forall r, free (k r)
  end.

Lemma free_asks {A} (c : co S req A) s n : free c -> asks c s n.
Proof.
  revert s n. induction c as [o|B m k IH|B q k IH]; simpl; intros s n Hc; [done|by apply IH|].
  split; [apply Hc|]. intros r s' n' _ _. by apply IH, Hc.
Qed.

Lemma free_then {A B} (c : co S req A) (K : outcome A -> co S req B) :
  free c -> (forall o, free (K o)) -> free (co_then c K).
Proof.
  intros Hc HK. induction c as [o|B' m k IH|B' q k IH]; simpl in *; [apply HK|intros o; by apply IH|].
  split; [apply Hc|]. intros r. apply IH, Hc.
Qed.

Lemma free_bind {A B} (c : co S req A) (f : A -> co S req B) :
  free c -> (forall a, free (f a)) -> free (c ≫= f).
Proof. intros Hc Hf. apply free_then; [done|]. by intros [a|e]. Qed.

Lemma free_for_each {X} (l : list X) (body : X -> co S req unit) :
  (forall x, free (body x)) -> free (co_for_each l body).
Proof. intros Hb. induction l as [|x l IH]; [done|]. apply free_bind; [apply Hb|done]. Qed.

(** Sequencing, in the states the first part leaves. *)
Lemma asks_then `{!PreOrder ext} {A B} (c : co S req A) (K : outcome A -> co S req B) s n :
  asks c s n -> cok I ext c (fun o s' n' => asks (K o) s' n') s n -> asks (co_then c K) s n.
Proof.
  unfold cok. generalize s at 2 as anchor. intros anchor. revert anchor s n.
  induction c as [o|B' m k IH|B' q k IH]; simpl; intros anchor s n.
  - by intros _ (_ & _ & ?).
  - apply IH.
  - intros [Hq Hr] (_ & _ & Hk). split; [done|]. intros r s' n' HI Hs.
    eapply IH; [by apply Hr|by apply Hk].
Qed.

Lemma asks_bind `{!PreOrder ext} {A B} (c : co S req A) (f : A -> co S req B) s n :
  asks c s n -> cok I ext c (fun o s' n' => forall a, o = Ret a -> asks (f a) s' n') s n ->
  asks (c ≫= f) s n.
Proof.
  intros Hc Hf. apply asks_then; [done|]. eapply cok_mono; [apply _|exact Hf|].
  intros [a|e] s' n' _ _ H; [by apply H|done].
Qed.

Lemma asks_advance {A} (c : co S req A) s n c' s' n' :
  asks c s n -> advance c s n = (c', s', n') -> asks c' s' n'.
Proof.
  revert s n. induction c as [o|B m k IH|B q k IH]; simpl; intros s n; [by intros _ [= <- <- <-]| |].
  - destruct (m s n) as [[o t] l]. apply IH.
  - by intros H [= <- <- <-].
Qed.

(** A suspended coroutine will only ask in order. *)
Definition will_ask (s : S) (c : co S req unit) : Prop :=
  match c with
  | Await q k => forall r s' n', I s' -> ext s s' -> asks (k r) s' n'
  | _ => True
  end.

Lemma will_ask_of c s n : asks c s n -> will_ask s c.
Proof. destruct c; simpl; [done..|]. by intros [_ H]. Qed.

Lemma will_ask_ext `{!PreOrder ext} c s s' : ext s s' -> will_ask s c -> will_ask s' c.
Proof. destruct c; simpl; try done. intros Hs H r t n' HI Ht. apply H; [done|by etrans]. Qed.

(** The coroutine [i] runs up to its next suspension: it is new or resumed. *)
Inductive runs (api : co S req unit -> Prop) : system S req -> nat -> system S req -> Prop :=
| runs_call s n ts c c' s' n' :
    api c -> advance c s n = (c', s', n') ->
    runs api (mkSystem s n ts) (length ts) (mkSystem s' n' (ts ++ [c']))
| runs_resume s n ts i B (q : req B) k r c' s' n' :
    ts !! i = Some (Await q k) -> advance (k r) s n = (c', s', n') ->
    runs api (mkSystem s n ts) i (mkSystem s' n' (<[i := c']> ts)).

(** In every interleaving a request is allowed in the state in which it is made. *)
Section reachable.
Context `{!PreOrder ext} (init : S -> Prop) (api : co S req unit -> Prop) (env : S -> S -> Prop).
Context (Hinit : forall s, init s -> I s)
  (Hkeeps : forall c s n, api c -> I s -> cok I ext c (fun _ _ _ => True) s n)
  (Henv : forall s s', env s s' -> I s -> I s' /\ ext s s')
  (Hasks : forall c s n, api c -> I s -> asks c s n).

Lemma runs_ask sys i sys' :
  reachable init api env sys -> runs api sys i sys' ->
  Forall (will_ask (shared sys)) (coroutines sys) ->
  ext (shared sys) (shared sys') /\ exists c, coroutines sys' !! i = Some c /\
    asks c (shared sys') (readings sys').
Proof.
  intros [HI Hp]%(reachable_invariant I ext) Hr Hts; try done.
  destruct Hr as [s n ts c c' s' n' Hc Ha|s n ts i B q k r c' s' n' Hi Ha]; simpl in *.
  - destruct (cok_advance _ _ _ _ _ _ _ _ _ _ (Hkeeps c s n Hc HI) Ha) as (_ & Hs & _).
    split; [done|]. exists c'. rewrite list_lookup_middle by done. split; [done|].
    eapply asks_advance; [|exact Ha]. by apply Hasks.
  - pose proof (Forall_lookup_1 _ _ _ _ Hp Hi r s n HI ltac:(done)) as Hk.
    destruct (cok_advance _ _ _ _ _ _ _ _ _ _ Hk Ha) as (_ & Hs & _).
    split; [done|]. exists c'. rewrite list_lookup_insert_eq by by eapply lookup_lt_Some.
    split; [done|]. eapply asks_advance; [|exact Ha].
    by apply (Forall_lookup_1 _ _ _ _ Hts Hi).
Qed.

Lemma reachable_will_ask sys :
  reachable init api env sys -> Forall (will_ask (shared sys)) (coroutines sys).
Proof.
  induction 1 as [s n Hs|s n ts c c' s' n' Hr IH Hc Ha|s n ts i B q k r c' s' n' Hr IH Hi Ha
                 |s n ts s' n' Hr IH He Hn]; simpl in *.
  - done.
  - destruct (runs_ask _ _ _ Hr (runs_call api _ _ _ _ _ _ _ Hc Ha) IH) as (Hs & d & Hd & Hq).
    simpl in *. rewrite list_lookup_middle in Hd by done. injection Hd as <-. apply Forall_app. split.
    + eapply Forall_impl; [exact IH|]. intros t. by apply will_ask_ext.
    + apply Forall_singleton. by eapply will_ask_of.
  - destruct (runs_ask _ _ _ Hr (runs_resume api _ _ _ _ _ _ _ r _ _ _ Hi Ha) IH) as (Hs & d & Hd & Hq).
    simpl in *. rewrite list_lookup_insert_eq in Hd by by eapply lookup_lt_Some. injection Hd as <-.
    apply Forall_insert; [|by eapply will_ask_of].
    eapply Forall_impl; [exact IH|]. intros t. by apply will_ask_ext.
  - apply (reachable_invariant I ext) in Hr as [HI _]; try done. destruct (Henv _ _ He HI) as [_ Hs].
    eapply Forall_impl; [exact IH|]. intros t. by apply will_ask_ext.
Qed.

Lemma reachable_asks sys i sys' B (q : req B) k :
  reachable init api env sys -> runs api sys i sys' ->
  coroutines sys' !! i = Some (Await q k) -> G _ q (shared sys').
Proof.
  intros Hr Hs Hi. destruct (runs_ask _ _ _ Hr Hs (reachable_will_ask _ Hr)) as (_ & c & Hc & Hq).
  rewrite Hi in Hc. injection Hc as <-. apply Hq.
Qed.
End reachable.
End requests.

(** A resumption, as a function. *)
Lemma runs_resumed {S req} (api : co S req unit -> Prop) i r sys :
  (exists B (q : req B) k, coroutines sys !! i = Some (Await q k)) -> runs api sys i (resume i r sys).
Proof.
  destruct sys as [s n ts]. simpl. intros (B & q & k & Hi). unfold resume. simpl. rewrite Hi.
  destruct (advance _ s n) as [[c' s'] n'] eqn:E. by eapply runs_resume.
Qed.

(** ** Coroutines of an attribute

    A coroutine of the object [T] that is the attribute [pi] of [S]. *)
Section zoom.
Context {S T : Type} {req : Type -> Type} (pi : S -> T) (upd : T -> S -> S).

Fixpoint co_zoom {A} (c : co T req A) : co S req A :=
  match c with
  | Finish o => Finish o
  | Atom m k => Atom (zoom pi upd m) (fun o => co_zoom (k o))
  | Await q k => Await q (fun r => co_zoom (k r))
  end.

(** What the coroutine guarantees of the attribute it guarantees of the object,
    whose other attributes it does not touch. *)
Context (I : T -> Prop) (ext : T -> T -> Prop) (R : S -> Prop) (E : S -> S -> Prop).
Context `{!PreOrder E}.
Context (pi_upd : forall t s, pi (upd t s) = t) (R_upd : forall t s, R s -> R (upd t s))
  (E_upd : forall t s, E s (upd t s)).

Definition at_attribute (s : S) : Prop := I (pi s) /\ R s.
Definition along_attribute (s s' : S) : Prop := ext (pi s) (pi s') /\ E s s'.

#[export] Instance along_attribute_preorder `{!PreOrder ext} : PreOrder along_attribute.
Proof.
  split; [by intros s; split|]. intros s1 s2 s3 [? ?] [? ?]. split; by etrans.
Qed.

Lemma cwp_zoom {A} (c : co T req A) Q anchor s n :
  R s -> E anchor s -> cwp I ext c Q (pi anchor) (pi s) n ->
  cwp at_attribute along_attribute (co_zoom c) (fun o s' n' => Q o (pi s') n') anchor s n.
Proof.
  revert anchor s n. induction c as [o|B m k IH|B q k IH]; simpl; intros anchor s n HR HE Hc.
  - destruct Hc as (? & ? & ?). by split_and!.
  - unfold zoom. destruct (m (pi s) n) as [[o t] n'] eqn:Em. simpl in *.
    apply IH; [by apply R_upd|by etrans|]. by rewrite pi_upd.
  - destruct Hc as (? & ? & Hk). split_and!; [done..|]. intros r s' n' [HI' HR'] [Hx HE'].
    apply IH; [done|done|]. by apply Hk.
Qed.

Lemma cok_zoom {A} (c : co T req A) Q s n :
  R s -> cok I ext c Q (pi s) n ->
  cok at_attribute along_attribute (co_zoom c) (fun o s' n' => Q o (pi s') n') s n.
Proof. intros HR Hc. by apply cwp_zoom. Qed.
End zoom.

(** ** Requests of a larger environment

    A coroutine whose requests are some of those another component makes. *)
Section inject.
Context {S : Type} {req req' : Type -> Type} (inj : forall B, req B -> req' B).

Fixpoint co_inject {A} (c : co S req A) : co S req' A :=
  match c with
  | Finish o => Finish o
  | Atom m k => Atom m (fun o => co_inject (k o))
  | Await q k => Await (inj _ q) (fun r => co_inject (k r))
  end.

Lemma cwp_inject I ext {A} (c : co S req A) Q anchor s n :
  cwp I ext c Q anchor s n -> cwp I ext (co_inject c) Q anchor s n.
Proof.
  revert anchor s n. induction c as [o|B m k IH|B q k IH]; simpl; intros anchor s n; [done|auto|].
  intros (? & ? & Hk). split_and!; [done..|]. intros r s' n' HI Hs. by apply IH, Hk.
Qed.

Lemma cok_inject I ext {A} (c : co S req A) Q s n : cok I ext c Q s n -> cok I ext (co_inject c) Q s n.
Proof. apply cwp_inject. Qed.
End inject.
