(* ===== verification/Supervisor.v ===== *)
(** * The safety supervisor ([safety/supervisor.py])

    The one component that commands vehicles.  It keeps a session per vehicle
    (state machine, telemetry, preflight, control lease, the command in
    execution), hands out control leases, runs preflights, sends commands to the
    adapter, and takes a vehicle down when its health degrades.

    The session objects live in [objects]; a method's [session] variable is an
    index into it, because a coroutine keeps its reference across an [await],
    after which the registry [sessions] may have changed.  The synchronous
    methods are computations of [M], the [async] ones coroutines ([co]) that are
    interleaved as [Coroutines] describes.  [details] of events are display
    values and left out. *)

From S2P Require Import Prelude Float64 Effects Contracts Artifacts Trajectory.
From S2P Require Import Safety Telemetry Commands Coroutines.

(** ** The adapter ([vehicles/base.py]) *)

(** The properties of an adapter are constant; its coroutines are requests to
    the environment.  [address] is the identity of the object, what [is]
    compares. *)
Module Vehicle.
Record t := mk {
  address : nat;
  identity : VehicleIdentity;
  capabilities : VehicleCapabilities;
  backend_profile : VehicleBackendProfile;
}.
End Vehicle.

Definition vehicle_name (v : Vehicle.t) : string := identity_vehicle_id (Vehicle.identity v).

(** What a coroutine of the supervisor waits for.  A timeout of [None] waits
    without limit. *)
Inductive request : Type -> Type :=
| ConnectVehicle (v : Vehicle.t) (timeout_s : float) : request unit
| DisconnectVehicle (v : Vehicle.t) (timeout_s : float) : request unit
| Snapshot (v : Vehicle.t) (timeout_s : option float) : request TelemetryEnvelope.t
| Execute (v : Vehicle.t) (task : Z) (command : CommandEnvelope.t) (timeout_s : float) :
    request CommandAcknowledgement.t
| CancelAndJoin (task : Z) : request CommandAcknowledgement.t
| Sleep0 : request unit.

(** The calls of an audit sink ([safety/audit.py]). *)
Inductive Notification :=
| command_sent (command : CommandEnvelope.t)
| command_acknowledged (acknowledgement : CommandAcknowledgement.t)
| safety_event (event : SafetyEvent.t)
| telemetry_received (telemetry : TelemetryEnvelope.t).

(** ** State *)

Module VehicleSession.
Record t := mk {
  vehicle : Vehicle.t;
  state : VehicleState.t;
  telemetry : option TelemetryEnvelope.t;
  telemetry_received_at_monotonic_s : option float;
  preflight : option PreflightReport.t;
  lease : option ControlLease.t;
  active_execute_task : option Z;
  active_command_payload : option CommandPayload.t;
  command_interruption_error : option exn;
  safety_interruption_pending : bool;
}.

Definition set_state (v : VehicleState.t) (r : t) : t :=
  {| vehicle := vehicle r; state := v; telemetry := telemetry r;
     telemetry_received_at_monotonic_s := telemetry_received_at_monotonic_s r; preflight :=
     preflight r; lease := lease r; active_execute_task := active_execute_task r;
     active_command_payload := active_command_payload r; command_interruption_error :=
     command_interruption_error r; safety_interruption_pending := safety_interruption_pending r |}.
Definition set_telemetry (v : option TelemetryEnvelope.t) (r : t) : t :=
  {| vehicle := vehicle r; state := state r; telemetry := v; telemetry_received_at_monotonic_s :=
     telemetry_received_at_monotonic_s r; preflight := preflight r; lease := lease r;
     active_execute_task := active_execute_task r; active_command_payload :=
     active_command_payload r; command_interruption_error := command_interruption_error r;
     safety_interruption_pending := safety_interruption_pending r |}.
Definition set_telemetry_received_at_monotonic_s (v : option float) (r : t) : t :=
  {| vehicle := vehicle r; state := state r; telemetry := telemetry r;
     telemetry_received_at_monotonic_s := v; preflight := preflight r; lease := lease r;
     active_execute_task := active_execute_task r; active_command_payload :=
     active_command_payload r; command_interruption_error := command_interruption_error r;
     safety_interruption_pending := safety_interruption_pending r |}.
Definition set_preflight (v : option PreflightReport.t) (r : t) : t :=
  {| vehicle := vehicle r; state := state r; telemetry := telemetry r;
     telemetry_received_at_monotonic_s := telemetry_received_at_monotonic_s r; preflight := v;
     lease := lease r; active_execute_task := active_execute_task r; active_command_payload :=
     active_command_payload r; command_interruption_error := command_interruption_error r;
     safety_interruption_pending := safety_interruption_pending r |}.
Definition set_lease (v : option ControlLease.t) (r : t) : t :=
  {| vehicle := vehicle r; state := state r; telemetry := telemetry r;
     telemetry_received_at_monotonic_s := telemetry_received_at_monotonic_s r; preflight :=
     preflight r; lease := v; active_execute_task := active_execute_task r;
     active_command_payload := active_command_payload r; command_interruption_error :=
     command_interruption_error r; safety_interruption_pending := safety_interruption_pending r |}.
Definition set_active_execute_task (v : option Z) (r : t) : t :=
  {| vehicle := vehicle r; state := state r; telemetry := telemetry r;
     telemetry_received_at_monotonic_s := telemetry_received_at_monotonic_s r; preflight :=
     preflight r; lease := lease r; active_execute_task := v; active_command_payload :=
     active_command_payload r; command_interruption_error := command_interruption_error r;
     safety_interruption_pending := safety_interruption_pending r |}.
Definition set_active_command_payload (v : option CommandPayload.t) (r : t) : t :=
  {| vehicle := vehicle r; state := state r; telemetry := telemetry r;
     telemetry_received_at_monotonic_s := telemetry_received_at_monotonic_s r; preflight :=
     preflight r; lease := lease r; active_execute_task := active_execute_task r;
     active_command_payload := v; command_interruption_error := command_interruption_error r;
     safety_interruption_pending := safety_interruption_pending r |}.
Definition set_command_interruption_error (v : option exn) (r : t) : t :=
  {| vehicle := vehicle r; state := state r; telemetry := telemetry r;
     telemetry_received_at_monotonic_s := telemetry_received_at_monotonic_s r; preflight :=
     preflight r; lease := lease r; active_execute_task := active_execute_task r;
     active_command_payload := active_command_payload r; command_interruption_error := v;
     safety_interruption_pending := safety_interruption_pending r |}.
Definition set_safety_interruption_pending (v : bool) (r : t) : t :=
  {| vehicle := vehicle r; state := state r; telemetry := telemetry r;
     telemetry_received_at_monotonic_s := telemetry_received_at_monotonic_s r; preflight :=
     preflight r; lease := lease r; active_execute_task := active_execute_task r;
     active_command_payload := active_command_payload r; command_interruption_error :=
     command_interruption_error r; safety_interruption_pending := v |}.
End VehicleSession.


(** [VehicleSession(vehicle=vehicle)] *)
Definition VehicleSession_new (v : Vehicle.t) : VehicleSession.t :=
  VehicleSession.mk v VehicleState.DISCONNECTED None None None None None None None false.

(** [objects] are the session objects ever created, [sessions] the registry,
    [notified] the calls made to the audit sinks (name and value), and
    [done_tasks] the command tasks the event loop has seen end. *)
Module SafetySupervisor.
Record t := mk {
  policy : SafetyPolicy.t;
  mode : OperatingMode.t;
  objects : list VehicleSession.t;
  sessions : dict nat;
  live_authorizations : dict LiveModeAuthorization.t;
  command_sequence : Z;
  event_sequence : Z;
  events : list SafetyEvent.t;
  audit_sinks : list string;
  notified : list (string * Notification);
  done_tasks : list Z;
}.

Definition set_mode (v : OperatingMode.t) (r : t) : t :=
  {| policy := policy r; mode := v; objects := objects r; sessions := sessions r;
     live_authorizations := live_authorizations r; command_sequence := command_sequence r;
     event_sequence := event_sequence r; events := events r; audit_sinks := audit_sinks r;
     notified := notified r; done_tasks := done_tasks r |}.
Definition set_objects (v : list VehicleSession.t) (r : t) : t :=
  {| policy := policy r; mode := mode r; objects := v; sessions := sessions r;
     live_authorizations := live_authorizations r; command_sequence := command_sequence r;
     event_sequence := event_sequence r; events := events r; audit_sinks := audit_sinks r;
     notified := notified r; done_tasks := done_tasks r |}.
Definition set_sessions (v : dict nat) (r : t) : t :=
  {| policy := policy r; mode := mode r; objects := objects r; sessions := v; live_authorizations
     := live_authorizations r; command_sequence := command_sequence r; event_sequence :=
     event_sequence r; events := events r; audit_sinks := audit_sinks r; notified := notified r;
     done_tasks := done_tasks r |}.
Definition set_live_authorizations (v : dict LiveModeAuthorization.t) (r : t) : t :=
  {| policy := policy r; mode := mode r; objects := objects r; sessions := sessions r;
     live_authorizations := v; command_sequence := command_sequence r; event_sequence :=
     event_sequence r; events := events r; audit_sinks := audit_sinks r; notified := notified r;
     done_tasks := done_tasks r |}.
Definition set_command_sequence (v : Z) (r : t) : t :=
  {| policy := policy r; mode := mode r; objects := objects r; sessions := sessions r;
     live_authorizations := live_authorizations r; command_sequence := v; event_sequence :=
     event_sequence r; events := events r; audit_sinks := audit_sinks r; notified := notified r;
     done_tasks := done_tasks r |}.
Definition set_event_sequence (v : Z) (r : t) : t :=
  {| policy := policy r; mode := mode r; objects := objects r; sessions := sessions r;
     live_authorizations := live_authorizations r; command_sequence := command_sequence r;
     event_sequence := v; events := events r; audit_sinks := audit_sinks r; notified := notified
     r; done_tasks := done_tasks r |}.
Definition set_events (v : list SafetyEvent.t) (r : t) : t :=
  {| policy := policy r; mode := mode r; objects := objects r; sessions := sessions r;
     live_authorizations := live_authorizations r; command_sequence := command_sequence r;
     event_sequence := event_sequence r; events := v; audit_sinks := audit_sinks r; notified :=
     notified r; done_tasks := done_tasks r |}.
Definition set_audit_sinks (v : list string) (r : t) : t :=
  {| policy := policy r; mode := mode r; objects := objects r; sessions := sessions r;
     live_authorizations := live_authorizations r; command_sequence := command_sequence r;
     event_sequence := event_sequence r; events := events r; audit_sinks := v; notified :=
     notified r; done_tasks := done_tasks r |}.
Definition set_notified (v : list (string * Notification)) (r : t) : t :=
  {| policy := policy r; mode := mode r; objects := objects r; sessions := sessions r;
     live_authorizations := live_authorizations r; command_sequence := command_sequence r;
     event_sequence := event_sequence r; events := events r; audit_sinks := audit_sinks r;
     notified := v; done_tasks := done_tasks r |}.
Definition set_done_tasks (v : list Z) (r : t) : t :=
  {| policy := policy r; mode := mode r; objects := objects r; sessions := sessions r;
     live_authorizations := live_authorizations r; command_sequence := command_sequence r;
     event_sequence := event_sequence r; events := events r; audit_sinks := audit_sinks r;
     notified := notified r; done_tasks := v |}.
End SafetySupervisor.


Notation Sup := SafetySupervisor.t.
Notation session_ref := nat (only parsing).
Notation coro A := (co Sup request A).

(** [SafetySupervisor(policy, audit_sinks=...)] *)
Definition SafetySupervisor_new (p : SafetyPolicy.t) (sinks : list string) : Sup :=
  SafetySupervisor.mk p OperatingMode.SIM [] [] [] 0 0 [] sinks [] [].

(** [f"cmd-{n}"] *)
Definition command_name (n : Z) : string := "cmd-" +:+ pretty n.

Section supervisor.
Context `{CK : Clock} `{LM : Libm} `{DG : Digest}.

(** ** Access to the objects *)

Definition deref (a : session_ref) : M Sup VehicleSession.t :=
  s ← get;
  match SafetySupervisor.objects s !! a with
  | Some x => mret x
  | None => raise (OtherError "dangling session")
  end.

Definition assign_session (f : VehicleSession.t -> VehicleSession.t) (a : session_ref) : M Sup unit :=
  modify (fun s => SafetySupervisor.set_objects (alter f a (SafetySupervisor.objects s)) s).

(** [_notify]: an exception of a sink is swallowed, so a call never fails. *)
Definition notify (n : Notification) : M Sup unit :=
  modify (fun s => SafetySupervisor.set_notified
    (SafetySupervisor.notified s ++ ((fun sink => (sink, n)) <$> SafetySupervisor.audit_sinks s)) s).

(** [add_audit_sink] *)
Definition add_audit_sink (sink : string) : M Sup unit :=
  modify (fun s => SafetySupervisor.set_audit_sinks (SafetySupervisor.audit_sinks s ++ [sink]) s).

(** [_event] *)
Definition log_event (vehicle_id event_type message : string) (source : CommandSource.t)
    (from_state to_state : option VehicleState.t) (command_id : option string) : M Sup unit :=
  s ← get;
  now ← read_clock;
  let event := SafetyEvent.mk (SafetySupervisor.event_sequence s) now vehicle_id event_type source
                 message from_state to_state command_id in
  _ ← validated "SafetyEvent" (SafetyEvent_valid event) tt;
  _ ← modify (fun s => SafetySupervisor.set_events (SafetySupervisor.events s ++ [event]) s);
  _ ← modify (fun s => SafetySupervisor.set_event_sequence
                         (SafetySupervisor.event_sequence s + 1) s);
  notify (safety_event event).

Definition event (vehicle_id event_type message : string) : M Sup unit :=
  log_event vehicle_id event_type message CommandSource.SUPERVISOR None None None.

(** [session] *)
Definition session (vehicle_id : string) : M Sup session_ref :=
  s ← get;
  match dict_get vehicle_id (SafetySupervisor.sessions s) with
  | Some a => mret a
  | None => raise (CrazySwarmError IDENTITY_MISMATCH ("unknown vehicle: " +:+ vehicle_id))
  end.

(** [_now] *)
Definition now_or (value : option float) : M Sup float :=
  match value with Some v => mret v | None => read_clock end.

(** [_next_command_sequence] *)
Definition next_command_sequence : M Sup Z :=
  s ← get;
  let value := SafetySupervisor.command_sequence s in
  _ ← modify (SafetySupervisor.set_command_sequence (value + 1));
  mret value.

(** [_transition] *)
Definition transition (vehicle_id : string) (target : VehicleState.t) (source : CommandSource.t) :
    M Sup unit :=
  a ← session vehicle_id;
  x ← deref a;
  let current := VehicleSession.state x in
  _ ← lift (require_transition current target);
  _ ← assign_session (VehicleSession.set_state target) a;
  log_event vehicle_id "STATE_TRANSITION"
    (VehicleState_value current +:+ " -> " +:+ VehicleState_value target) source
    (Some current) (Some target) None.

(** [_is_armed_or_flying] *)
Definition is_armed_or_flying (x : VehicleSession.t) : bool :=
  match VehicleSession.telemetry x with
  | Some e => VehicleTelemetry.armed (TelemetryEnvelope.telemetry e)
              || VehicleTelemetry.flying (TelemetryEnvelope.telemetry e)
  | None => false
  end.

(** ** Registry and modes *)

Definition register_vehicle (v : Vehicle.t) : M Sup unit :=
  s ← get;
  let vehicle_id := vehicle_name v in
  _ ← raise_if (dict_mem vehicle_id (SafetySupervisor.sessions s))
        (CrazySwarmError IDENTITY_MISMATCH "vehicle ID is already registered");
  _ ← modify (fun s =>
        SafetySupervisor.set_sessions
          (dict_set vehicle_id (length (SafetySupervisor.objects s)) (SafetySupervisor.sessions s))
          (SafetySupervisor.set_objects
             (SafetySupervisor.objects s ++ [VehicleSession_new v]) s));
  event vehicle_id "VEHICLE_REGISTERED" "vehicle registered".

Definition unregister_vehicle (vehicle_id : string) : M Sup Vehicle.t :=
  a ← session vehicle_id;
  x ← deref a;
  _ ← raise_if ((VehicleSession.state x ≠? VehicleState.DISCONNECTED)
                || is_some (VehicleSession.lease x)
                || is_some (VehicleSession.active_execute_task x)
                || is_armed_or_flying x)
        (CrazySwarmError INVALID_STATE
           "vehicle must be disconnected and unowned before unregistering");
  _ ← event vehicle_id "VEHICLE_UNREGISTERED" "vehicle unregistered";
  _ ← modify (fun s => SafetySupervisor.set_live_authorizations
        (dict_del vehicle_id (SafetySupervisor.live_authorizations s)) s);
  _ ← modify (fun s => SafetySupervisor.set_sessions
        (dict_del vehicle_id (SafetySupervisor.sessions s)) s);
  mret (VehicleSession.vehicle x).

(** The objects the registry refers to. *)
Definition registered (s : Sup) : list VehicleSession.t :=
  omap (fun a => SafetySupervisor.objects s !! a) (dict_values (SafetySupervisor.sessions s)).

Definition real_mode (m : OperatingMode.t) : bool :=
  match m with OperatingMode.LIVE | OperatingMode.SHADOW => true | _ => false end.

(** The branch of [set_mode] for LIVE and SHADOW. *)
Definition authorize_mode (mode : OperatingMode.t)
    (authorization : option LiveModeAuthorization.t) : M Sup unit :=
  match authorization with
  | Some auth =>
      _ ← raise_if (negb (LiveModeAuthorization.confirmed auth)
                    || (LiveModeAuthorization.mode auth ≠? mode))
            (CrazySwarmError MODE_NOT_AUTHORIZED
               (OperatingMode_value mode +:+ " requires explicit operator authorization"));
      a ← session (LiveModeAuthorization.vehicle_id auth);
      x ← deref a;
      _ ← raise_if (authority (Vehicle.backend_profile (VehicleSession.vehicle x))
                    ≠? AuthorityClass.PHYSICAL)
            (CrazySwarmError MODE_NOT_AUTHORIZED
               "only a physical backend can authorize real-flight mode");
      modify (fun s => SafetySupervisor.set_live_authorizations
        (dict_set (LiveModeAuthorization.vehicle_id auth) auth
           (SafetySupervisor.live_authorizations s)) s)
  | None =>
      raise (CrazySwarmError MODE_NOT_AUTHORIZED
        (OperatingMode_value mode +:+ " requires explicit operator authorization"))
  end.

Definition set_mode (mode : OperatingMode.t) (authorization : option LiveModeAuthorization.t) :
    M Sup unit :=
  s ← get;
  _ ← raise_if (existsb is_armed_or_flying (registered s))
        (CrazySwarmError MODE_NOT_AUTHORIZED "cannot change mode while armed");
  _ ← (if real_mode mode then authorize_mode mode authorization else mret tt);
  _ ← modify (SafetySupervisor.set_mode mode);
  s ← get;
  for_each (dict_keys (SafetySupervisor.sessions s)) (fun vehicle_id =>
    event vehicle_id "MODE_CHANGED" ("mode changed to " +:+ OperatingMode_value mode)).

(** ** Control leases *)

(** [_require_owner] *)
Definition require_owner (a : session_ref) (owner_id : string) (now_s : float)
    (allow_expired : bool) : M Sup unit :=
  x ← deref a;
  match VehicleSession.lease x with
  | None => raise (CrazySwarmError MODE_NOT_AUTHORIZED "control ownership is required")
  | Some l =>
      _ ← raise_if (negb (String.eqb (ControlLease.owner_id l) owner_id))
            (CrazySwarmError MODE_NOT_AUTHORIZED "control ownership is required");
      raise_if (negb allow_expired && fleb (ControlLease.expires_at_monotonic_s l) now_s)
        (CrazySwarmError MODE_NOT_AUTHORIZED "control lease has expired")
  end.

(** [ControlLease(...)] *)
Definition new_lease (owner_id : string) (expires : float) : M Sup ControlLease.t :=
  let l := ControlLease.mk owner_id expires in
  validated "ControlLease" (ControlLease_valid l) l.

Definition claim_control (vehicle_id owner_id : string) (now_s : option float) : M Sup unit :=
  a ← session vehicle_id;
  now ← now_or now_s;
  x ← deref a;
  s ← get;
  _ ← raise_if (match VehicleSession.lease x with
                | Some l => fltb now (ControlLease.expires_at_monotonic_s l)
                            && negb (String.eqb (ControlLease.owner_id l) owner_id)
                | None => false
                end)
        (CrazySwarmError MODE_NOT_AUTHORIZED "vehicle has another owner");
  l ← new_lease owner_id
        (fadd now (SafetyPolicy.control_lease_timeout_s (SafetySupervisor.policy s)));
  _ ← assign_session (VehicleSession.set_lease (Some l)) a;
  event vehicle_id "CONTROL_CLAIMED" ("control claimed by " +:+ owner_id).

Definition renew_control (vehicle_id owner_id : string) (now_s : option float) : M Sup unit :=
  a ← session vehicle_id;
  now ← now_or now_s;
  _ ← require_owner a owner_id now false;
  x ← deref a;
  s ← get;
  match VehicleSession.lease x with
  | None => raise AssertionError
  | Some l =>
      l' ← new_lease owner_id
             (py_fmax (ControlLease.expires_at_monotonic_s l)
                (fadd now (SafetyPolicy.control_lease_timeout_s (SafetySupervisor.policy s))));
      assign_session (VehicleSession.set_lease (Some l')) a
  end.

(** [session.lease.model_copy(update={"expires_at_monotonic_s": max(..., e)})] if
    there is a lease. *)
Definition extend_lease (a : session_ref) (grace : float -> float) : M Sup unit :=
  x ← deref a;
  match VehicleSession.lease x with
  | None => mret tt
  | Some l =>
      now ← read_clock;
      assign_session (VehicleSession.set_lease (Some (ControlLease.mk (ControlLease.owner_id l)
        (py_fmax (ControlLease.expires_at_monotonic_s l) (grace now))))) a
  end.

(** ** Telemetry *)

(** The tests of [receive_telemetry] after which a sample is dropped. *)
Definition is_stale_sample (previous telemetry : TelemetryEnvelope.t) : bool :=
  String.eqb (TelemetryEnvelope.source_clock_id telemetry)
             (TelemetryEnvelope.source_clock_id previous)
  && ((TelemetryEnvelope.source_clock_epoch telemetry
       <? TelemetryEnvelope.source_clock_epoch previous)
      || ((TelemetryEnvelope.source_clock_epoch telemetry
           =? TelemetryEnvelope.source_clock_epoch previous)
          && ((TelemetryEnvelope.sequence telemetry <? TelemetryEnvelope.sequence previous)
              || fltb (TelemetryEnvelope.source_timestamp_s telemetry)
                      (TelemetryEnvelope.source_timestamp_s previous)
              || ((TelemetryEnvelope.sequence telemetry =? TelemetryEnvelope.sequence previous)
                  && feqb (TelemetryEnvelope.source_timestamp_s telemetry)
                          (TelemetryEnvelope.source_timestamp_s previous))))).

Definition receive_telemetry (telemetry : TelemetryEnvelope.t) : M Sup unit :=
  a ← session (TelemetryEnvelope.vehicle_id telemetry);
  x ← deref a;
  _ ← raise_if (negb (String.eqb (TelemetryEnvelope.vehicle_id telemetry)
                                 (vehicle_name (VehicleSession.vehicle x))))
        (CrazySwarmError IDENTITY_MISMATCH "telemetry identity mismatch");
  if match VehicleSession.telemetry x with
     | Some previous => is_stale_sample previous telemetry
     | None => false
     end
  then mret tt
  else
    _ ← assign_session (VehicleSession.set_telemetry (Some telemetry)) a;
    now ← read_clock;
    _ ← assign_session (VehicleSession.set_telemetry_received_at_monotonic_s (Some now)) a;
    notify (telemetry_received telemetry).

(** [_transport_quality] *)
Definition transport_quality (data : VehicleTelemetry.t) : option float :=
  match VehicleTelemetry.link_quality_percent data with
  | Some q => Some q
  | None =>
      match VehicleTelemetry.transport data with
      | Some r => TransportReading.delivery_quality_percent r
      | None => None
      end
  end.

(** [_simulation_low_battery_override] *)
Definition simulation_low_battery_override (a : session_ref) (requested : bool) : M Sup bool :=
  if requested
  then
    x ← deref a;
    s ← get;
    _ ← raise_if ((SafetySupervisor.mode s ≠? OperatingMode.SIM)
                  || (authority (Vehicle.backend_profile (VehicleSession.vehicle x))
                      ≠? AuthorityClass.SIMULATION))
          (CrazySwarmError MODE_NOT_AUTHORIZED
             ("low-battery risk override is available only for simulation authority in SIM mode"));
    mret true
  else mret false.

(** ** Health *)

Definition action_rank (a : RecoveryAction.t) : Z :=
  match a with
  | RecoveryAction.NONE => 0
  | RecoveryAction.REJECT_NEW_COMMANDS => 1
  | RecoveryAction.ABORT_AND_LAND => 2
  | RecoveryAction.EMERGENCY_STOP => 3
  end.

(** [_highest_action] *)
Definition highest_action (issues : list HealthIssue.t) : RecoveryAction.t :=
  default RecoveryAction.NONE
    (py_max (fun a b => action_rank a <? action_rank b) (HealthIssue.action <$> issues)).

(** [if b: issues.append(HealthIssue(...))] *)
Definition issue_if (b : bool) (code message : string) (action : RecoveryAction.t) :
    list HealthIssue.t :=
  if b then [HealthIssue.mk code message action] else [].

(** [x is None or x < minimum] *)
Definition none_or_below (x : option float) (minimum : float) : bool :=
  match x with None => true | Some v => fltb v minimum end.

(** The issues of a session, in the order the code appends them. *)
Definition health_issues (p : SafetyPolicy.t) (x : VehicleSession.t) (now : float)
    (low_battery_override : bool) : list HealthIssue.t :=
  let up := airborne (VehicleSession.state x) in
  let reject_or_abort :=
    if up then RecoveryAction.ABORT_AND_LAND else RecoveryAction.REJECT_NEW_COMMANDS in
  match VehicleSession.telemetry x, VehicleSession.telemetry_received_at_monotonic_s x with
  | Some e, Some received =>
      let age := fsub now received in
      let telemetry := TelemetryEnvelope.telemetry e in
      issue_if (fltb (SafetyPolicy.telemetry_timeout_s p) age)
        (ErrorCode_value TELEMETRY_STALE) ("telemetry is stale by " +:+ format_3f age +:+ "s")
        reject_or_abort
      ++ issue_if ((VehicleTelemetry.state telemetry ≟ VehicleState.DISCONNECTED) && up)
           (ErrorCode_value LINK_LOST) "vehicle disconnected while airborne"
           RecoveryAction.EMERGENCY_STOP
      ++ match VehicleTelemetry.battery_percent telemetry with
         | None => issue_if true "BATTERY_UNAVAILABLE" "battery observation is unavailable"
                     reject_or_abort
         | Some b => issue_if (fleb b (SafetyPolicy.critical_battery_percent p)
                               && negb low_battery_override)
                       (ErrorCode_value CRITICAL_BATTERY) "battery is critical" reject_or_abort
         end
      ++ issue_if (none_or_below (transport_quality telemetry)
                     (SafetyPolicy.minimum_link_quality_percent p))
           (if is_none (transport_quality telemetry) then "TRANSPORT_QUALITY_UNAVAILABLE"
            else "TRANSPORT_QUALITY_LOW")
           "command transport quality does not meet policy" reject_or_abort
      ++ issue_if (none_or_below (VehicleTelemetry.localization_quality_percent telemetry)
                     (SafetyPolicy.minimum_localization_quality_percent p))
           (ErrorCode_value LOCALIZATION_INVALID) "localization quality is below policy"
           reject_or_abort
      ++ issue_if (match VehicleTelemetry.position_m telemetry with
                   | None => true
                   | Some q => negb (contains (SafetyPolicy.flight_volume p) q)
                   end)
           (ErrorCode_value GEOFENCE_BREACH) "estimated position is outside policy volume"
           reject_or_abort
      ++ issue_if (up && (is_none (VehicleTelemetry.imu telemetry)
                          || is_none (VehicleTelemetry.flow telemetry)))
           "REQUIRED_SENSOR_UNAVAILABLE"
           "IMU/Flow data required by the active profile is unavailable"
           RecoveryAction.EMERGENCY_STOP
  | _, _ => issue_if true "NO_TELEMETRY" "no telemetry has been received" reject_or_abort
  end.

Definition evaluate_health (vehicle_id : string) (now_s : option float)
    (allow_simulation_low_battery : bool) : M Sup HealthAssessment.t :=
  a ← session vehicle_id;
  low_battery_override ← simulation_low_battery_override a allow_simulation_low_battery;
  now ← now_or now_s;
  x ← deref a;
  s ← get;
  let issues := health_issues (SafetySupervisor.policy s) x now low_battery_override in
  let assessment :=
    HealthAssessment.mk vehicle_id (bool_decide (length issues = 0%nat)) (highest_action issues)
      issues in
  validated "HealthAssessment" (is_identifier vehicle_id) assessment.

(** ** Preflight *)

Definition positioning : capability_set :=
  {[VehicleCapability.RELATIVE_POSITIONING; VehicleCapability.GLOBAL_POSITIONING]}.

(** The last check: the selected mode has command authority. *)
Definition real_authorized (s : Sup) (x : VehicleSession.t) : bool :=
  let auth := authority (Vehicle.backend_profile (VehicleSession.vehicle x)) in
  ((auth ≟ AuthorityClass.SIMULATION) && (SafetySupervisor.mode s ≟ OperatingMode.SIM))
  || ((auth ≟ AuthorityClass.PHYSICAL) && real_mode (SafetySupervisor.mode s)
      && dict_mem (vehicle_name (VehicleSession.vehicle x))
           (SafetySupervisor.live_authorizations s)).

(** [x is not None and x >= minimum] *)
Definition at_least (x : option float) (minimum : float) : bool :=
  match x with Some v => fleb minimum v | None => false end.

(** [_preflight_checks] *)
Definition preflight_checks (s : Sup) (x : VehicleSession.t) (telemetry : TelemetryEnvelope.t)
    (required : capability_set) (allow_low_battery : bool) : list PreflightCheck.t :=
  let p := SafetySupervisor.policy s in
  let data := TelemetryEnvelope.telemetry telemetry in
  let positioning_required := negb (bool_decide (required ∩ positioning = ∅)) in
  [PreflightCheck.mk "IDENTITY"
     (String.eqb (TelemetryEnvelope.vehicle_id telemetry)
                 (vehicle_name (VehicleSession.vehicle x)))
     "telemetry identity matches selected vehicle";
   PreflightCheck.mk "STATE_READY" (VehicleSession.state x ≟ VehicleState.READY)
     "vehicle is connected and ready";
   PreflightCheck.mk "CAPABILITIES"
     (supports (Vehicle.capabilities (VehicleSession.vehicle x)) required)
     "required capabilities are present";
   PreflightCheck.mk "BATTERY"
     (match VehicleTelemetry.battery_percent data with
      | Some b => fleb (SafetyPolicy.minimum_takeoff_battery_percent p) b || allow_low_battery
      | None => false
      end)
     (if allow_low_battery
         && match VehicleTelemetry.battery_percent data with
            | Some b => fltb b (SafetyPolicy.minimum_takeoff_battery_percent p)
            | None => false
            end
      then "confirmed Fast Sim low-battery risk override" else "battery meets takeoff policy");
   PreflightCheck.mk "COMMAND_TRANSPORT"
     (at_least (transport_quality data) (SafetyPolicy.minimum_link_quality_percent p))
     "command transport quality meets policy";
   PreflightCheck.mk "GEOFENCE"
     (match VehicleTelemetry.position_m data with
      | Some q => contains (SafetyPolicy.flight_volume p) q
      | None => false
      end) "estimated position is inside configured flight volume";
   PreflightCheck.mk "NO_CRITICAL_FAULT"
     (negb ("CRITICAL_BATTERY" ∈? VehicleTelemetry.faults data) || allow_low_battery)
     (if allow_low_battery && ("CRITICAL_BATTERY" ∈? VehicleTelemetry.faults data)
      then "confirmed Fast Sim low-battery fault override" else "no critical fault is active");
   PreflightCheck.mk "LOCALIZATION"
     (negb positioning_required
      || at_least (VehicleTelemetry.localization_quality_percent data)
           (SafetyPolicy.minimum_localization_quality_percent p))
     "localization meets required capability policy"]
  ++ (if positioning_required
      then [PreflightCheck.mk "POSITIONING_SENSORS"
              (is_some (VehicleTelemetry.imu data) && is_some (VehicleTelemetry.flow data))
              "IMU and Flow observations are available"]
      else [])
  ++ (if VehicleCapability.RANGE_SENSING ∈? required
      then [PreflightCheck.mk "RANGE_SENSORS" (is_some (VehicleTelemetry.ranges data))
              "canonical range observations are available"]
      else [])
  ++ [PreflightCheck.mk "COMMAND_AUTHORITY" (real_authorized s x)
        "selected mode has command authority for this vehicle"].

(** [_require_preflight] *)
Definition preflight_is_valid (s : Sup) (x : VehicleSession.t) (owner_id report_id : string)
    (now_s : float) : bool :=
  match VehicleSession.preflight x with
  | None => false
  | Some report =>
      String.eqb (PreflightReport.report_id report) report_id
      && String.eqb (PreflightReport.operator_id report) owner_id
      && (PreflightReport.mode report ≟ SafetySupervisor.mode s)
      && PreflightReport.approved report
      && negb (fltb (PreflightReport.expires_at_monotonic_s report) now_s)
  end.

Definition require_preflight (a : session_ref) (owner_id report_id : string) (now_s : float) :
    M Sup unit :=
  x ← deref a;
  s ← get;
  raise_if (negb (preflight_is_valid s x owner_id report_id now_s))
    (CrazySwarmError PREFLIGHT_FAILED "valid preflight is required").

(** [_require_real_authority] *)
Definition require_real_authority (a : session_ref) : M Sup unit :=
  x ← deref a;
  s ← get;
  match authority (Vehicle.backend_profile (VehicleSession.vehicle x)) with
  | AuthorityClass.SIMULATION =>
      raise_if (SafetySupervisor.mode s ≠? OperatingMode.SIM)
        (CrazySwarmError MODE_NOT_AUTHORIZED "simulation authority can only be armed in SIM mode")
  | AuthorityClass.OBSERVATION_ONLY =>
      raise (CrazySwarmError MODE_NOT_AUTHORIZED "observation-only backend cannot be armed")
  | AuthorityClass.PHYSICAL =>
      _ ← raise_if (negb (real_mode (SafetySupervisor.mode s)))
            (CrazySwarmError MODE_NOT_AUTHORIZED "real vehicle requires LIVE or SHADOW mode");
      raise_if (negb (dict_mem (vehicle_name (VehicleSession.vehicle x))
                        (SafetySupervisor.live_authorizations s)))
        (CrazySwarmError MODE_NOT_AUTHORIZED "real mode is not authorized")
  end.

(** [_require_command_ready] *)
Definition require_command_ready (a : session_ref) (owner_id : string) : M Sup unit :=
  now ← read_clock;
  _ ← require_owner a owner_id now false;
  _ ← require_real_authority a;
  x ← deref a;
  match VehicleSession.telemetry x with
  | Some e =>
      _ ← raise_if (VehicleSession.state x ≠? VehicleState.READY)
            (CrazySwarmError INVALID_STATE "vehicle is not ready");
      raise_if (negb (VehicleTelemetry.armed (TelemetryEnvelope.telemetry e)))
        (CrazySwarmError INVALID_STATE "vehicle is not armed")
  | None => raise (CrazySwarmError INVALID_STATE "vehicle is not ready")
  end.

(** [_require_flying] *)
Definition require_flying (a : session_ref) (owner_id : string) : M Sup unit :=
  now ← read_clock;
  _ ← require_owner a owner_id now false;
  x ← deref a;
  raise_if (VehicleSession.state x ≠? VehicleState.FLYING)
    (CrazySwarmError INVALID_STATE "vehicle is not flying").

(** ** Validation of motion against the policy *)

Definition invalid_if (b : bool) (code : ErrorCode) (message : string) : outcome unit :=
  if b then Err code message else Ret tt.

(** [_validate_takeoff] *)
Definition validate_takeoff (p : SafetyPolicy.t) (height_m duration_s : float) : outcome unit :=
  _ ← invalid_if (fleb height_m f0 || fltb (SafetyPolicy.max_altitude_m p) height_m)
        INVALID_COMMAND "takeoff height exceeds policy";
  _ ← invalid_if (fleb duration_s f0 || fltb (SafetyPolicy.max_mission_duration_s p) duration_s)
        INVALID_COMMAND "takeoff duration exceeds policy";
  speed ← py_div (fmul (flit 15 10) height_m) duration_s;
  _ ← invalid_if (fltb (SafetyPolicy.max_vertical_speed_m_s p) speed)
        INVALID_COMMAND "takeoff vertical speed exceeds policy";
  d2 ← py_square duration_s;
  acceleration ← py_div (fmul (float_of_Z 6) height_m) d2;
  invalid_if (fltb (SafetyPolicy.max_acceleration_m_s2 p) acceleration)
    INVALID_COMMAND "takeoff acceleration exceeds policy".

(** The displacement of a relative move in the home frame. *)
Definition move_offset (data : VehicleTelemetry.t) (c : MoveRelativeCommand.t) :
    outcome (float * float) :=
  if MoveRelativeCommand.frame c ≟ CoordinateFrame.BODY
  then
    match VehicleTelemetry.attitude data with
    | None => Err LOCALIZATION_INVALID "body-frame move requires a current attitude observation"
    | Some attitude =>
        let yaw := yaw_rad attitude in
        cx ← py_cos yaw;
        sx ← py_sin yaw;
        Ret (fsub (fmul (MoveRelativeCommand.x_m c) cx) (fmul (MoveRelativeCommand.y_m c) sx),
             fadd (fmul (MoveRelativeCommand.x_m c) sx) (fmul (MoveRelativeCommand.y_m c) cx))
    end
  else Ret (MoveRelativeCommand.x_m c, MoveRelativeCommand.y_m c).

(** [_validate_relative_move].  [session.telemetry] is cast, not checked, so an
    absent envelope is an attribute error. *)
Definition validate_relative_move (p : SafetyPolicy.t) (telemetry : option TelemetryEnvelope.t)
    (c : MoveRelativeCommand.t) : outcome unit :=
  let duration_s := MoveRelativeCommand.duration_s c in
  let speed_of (x : float) := py_div (fmul (flit 15 10) x) duration_s in
  _ ← invalid_if (fltb (SafetyPolicy.max_mission_duration_s p) duration_s)
        INVALID_COMMAND "move duration exceeds policy";
  let horizontal := c_hypot (MoveRelativeCommand.x_m c) (MoveRelativeCommand.y_m c) in
  horizontal_speed ← speed_of horizontal;
  _ ← invalid_if (fltb (SafetyPolicy.max_horizontal_speed_m_s p) horizontal_speed)
        INVALID_COMMAND "horizontal speed exceeds policy";
  vertical_speed ← speed_of (fabs (MoveRelativeCommand.z_m c));
  _ ← invalid_if (fltb (SafetyPolicy.max_vertical_speed_m_s p) vertical_speed)
        INVALID_COMMAND "vertical speed exceeds policy";
  h2 ← py_square horizontal;
  z2 ← py_square (MoveRelativeCommand.z_m c);
  distance ← py_sqrt (fadd h2 z2);
  d2 ← py_square duration_s;
  acceleration ← py_div (fmul (float_of_Z 6) distance) d2;
  _ ← invalid_if (fltb (SafetyPolicy.max_acceleration_m_s2 p) acceleration)
        INVALID_COMMAND "acceleration exceeds policy";
  yaw_rate ← speed_of (fabs (MoveRelativeCommand.yaw_rad c));
  _ ← invalid_if (fltb (SafetyPolicy.max_yaw_rate_rad_s p) yaw_rate)
        INVALID_COMMAND "yaw rate exceeds policy";
  match telemetry with
  | None => Raise (OtherError "AttributeError")
  | Some e =>
      let data := TelemetryEnvelope.telemetry e in
      match VehicleTelemetry.position_m data with
      | None => Err LOCALIZATION_INVALID "relative move requires a current position observation"
      | Some position =>
          offset ← move_offset data c;
          let target := mkVector3 (fadd (v_x position) offset.1) (fadd (v_y position) offset.2)
                          (fadd (v_z position) (MoveRelativeCommand.z_m c)) in
          invalid_if (negb (contains (SafetyPolicy.flight_volume p) target))
            GEOFENCE_BREACH "move target exceeds policy volume"
      end
  end.

(** The loop body over the points of a trajectory. *)
Definition check_point (p : SafetyPolicy.t) (q : TrajectoryPoint.t) : outcome unit :=
  _ ← invalid_if (negb (contains (SafetyPolicy.flight_volume p) (TrajectoryPoint.position_m q))
                  || fltb (SafetyPolicy.max_altitude_m p) (v_z (TrajectoryPoint.position_m q)))
        GEOFENCE_BREACH "accepted trajectory leaves the configured flight volume";
  let v := TrajectoryPoint.velocity_m_s q in
  _ ← invalid_if (fltb (SafetyPolicy.max_horizontal_speed_m_s p) (c_hypot (v_x v) (v_y v)))
        INVALID_COMMAND "trajectory horizontal speed exceeds policy";
  _ ← invalid_if (fltb (SafetyPolicy.max_vertical_speed_m_s p) (fabs (v_z v)))
        INVALID_COMMAND "trajectory vertical speed exceeds policy";
  acceleration ← v_length (TrajectoryPoint.acceleration_m_s2 q);
  _ ← invalid_if (fltb (SafetyPolicy.max_acceleration_m_s2 p) acceleration)
        INVALID_COMMAND "trajectory acceleration exceeds policy";
  invalid_if (fltb (SafetyPolicy.max_yaw_rate_rad_s p) (fabs (TrajectoryPoint.yaw_rate_rad_s q)))
    INVALID_COMMAND "trajectory yaw rate exceeds policy".

(** The limits a setpoint of the spline exceeds. *)
Definition exceeds_dynamics (p : SafetyPolicy.t) (setpoint : TrajectorySetpoint.t) : outcome bool :=
  let v := TrajectorySetpoint.velocity_m_s setpoint in
  if fltb (SafetyPolicy.max_horizontal_speed_m_s p) (c_hypot (v_x v) (v_y v))
     || fltb (SafetyPolicy.max_vertical_speed_m_s p) (fabs (v_z v))
  then Ret true
  else
    acceleration ← v_length (TrajectorySetpoint.acceleration_m_s2 setpoint);
    Ret (fltb (SafetyPolicy.max_acceleration_m_s2 p) acceleration
         || fltb (SafetyPolicy.max_yaw_rate_rad_s p)
                 (fabs (TrajectorySetpoint.yaw_rate_rad_s setpoint))).

(** [previous.time_from_start_s + duration_s * sample_index / 20.0] *)
Definition sample_time (previous current : TrajectoryPoint.t) (sample_index : Z) : float :=
  let duration_s := fsub (TrajectoryPoint.time_from_start_s current)
                         (TrajectoryPoint.time_from_start_s previous) in
  fadd (TrajectoryPoint.time_from_start_s previous)
       (fdiv_ieee (fmul duration_s (float_of_Z sample_index)) (float_of_Z 20)).

(** The body of the inner loop over the 19 inner samples of a segment. *)
Definition check_sample (p : SafetyPolicy.t) (previous current : TrajectoryPoint.t)
    (sample_index : Z) : outcome unit :=
  setpoint ← sample_trajectory_segment previous current
               (sample_time previous current sample_index);
  _ ← invalid_if (negb (contains (SafetyPolicy.flight_volume p)
                          (TrajectorySetpoint.position_m setpoint)))
        GEOFENCE_BREACH "accepted trajectory spline leaves the configured flight volume";
  exceeded ← exceeds_dynamics p setpoint;
  invalid_if exceeded INVALID_COMMAND
    "accepted trajectory spline exceeds a dynamics policy limit".

(** [range(1, 20)] *)
Definition sample_indices : list Z := one_to 19.

(** [_validate_trajectory] *)
Definition validate_trajectory (p : SafetyPolicy.t) (telemetry : option TelemetryEnvelope.t)
    (c : ExecuteTrajectoryCommand.t) : outcome unit :=
  let trajectory := ExecuteTrajectoryCommand.trajectory c in
  let points := TimeParameterizedTrajectory.points trajectory in
  _ ← invalid_if (fltb (SafetyPolicy.max_mission_duration_s p) (trajectory_duration_s trajectory))
        INVALID_COMMAND "trajectory duration exceeds mission policy";
  match telemetry with
  | None => Raise (OtherError "AttributeError")
  | Some e =>
      match VehicleTelemetry.position_m (TelemetryEnvelope.telemetry e), head points with
      | None, _ =>
          Err LOCALIZATION_INVALID "absolute trajectory requires a current position observation"
      | Some _, None => Raise (OtherError "IndexError")
      | Some position, Some first =>
          start_error ← v_distance (TrajectoryPoint.position_m first) position;
          _ ← invalid_if
                (fltb (py_fmax (flit 15 100)
                         (fmul (TimeParameterizedTrajectory.completion_position_tolerance_m
                                  trajectory) (float_of_Z 2))) start_error)
                LOCALIZATION_INVALID
                "accepted trajectory start does not match the observed vehicle position";
          _ ← mapM (check_point p) points;
          _ ← mapM (fun pc => mapM (check_sample p pc.1 pc.2) sample_indices) (adjacent points);
          Ret tt
      end
  end.

(** ** Coroutines: telemetry and command transport *)

Definition is_TimeoutError (e : exn) : bool := e ≟ TimeoutError.
Definition is_cancelled (e : exn) : bool := e ≟ CancelledError.

(** [await asyncio.wait_for(session.vehicle.snapshot(), timeout)] *)
Definition snapshot (a : session_ref) (timeout_s : option float) : coro TelemetryEnvelope.t :=
  x ← sync (deref a);
  await (Snapshot (VehicleSession.vehicle x) timeout_s).

Definition command_timeout : M Sup float :=
  s ← get; mret (SafetyPolicy.command_timeout_s (SafetySupervisor.policy s)).

(** [_refresh] *)
Definition refresh (a : session_ref) : coro TelemetryEnvelope.t :=
  timeout_s ← sync command_timeout;
  telemetry ← snapshot a (Some timeout_s);
  _ ← sync (receive_telemetry telemetry);
  mret telemetry.

(** The state [_reconcile_terminal_adapter_state] adopts for a reported one. *)
Definition reconciled_state (current reported : VehicleState.t) : option VehicleState.t :=
  if negb (terminal reported) then None
  else
    let adopt target := if current ≟ target then None else Some target in
    if can_transition current reported then adopt reported
    else if (reported ≠? VehicleState.DISCONNECTED)
            || negb (can_transition current VehicleState.FAULT) then None
    else adopt VehicleState.FAULT.

(** Its synchronous part, once a snapshot arrived. *)
Definition adopt_terminal_state (a : session_ref) (telemetry : TelemetryEnvelope.t) : M Sup unit :=
  x ← deref a;
  if negb (String.eqb (TelemetryEnvelope.vehicle_id telemetry)
                      (vehicle_name (VehicleSession.vehicle x)))
  then mret tt
  else
    _ ← receive_telemetry telemetry;
    x ← deref a;
    match reconciled_state (VehicleSession.state x)
            (VehicleTelemetry.state (TelemetryEnvelope.telemetry telemetry)) with
    | None => mret tt
    | Some target =>
        transition (vehicle_name (VehicleSession.vehicle x)) target CommandSource.SUPERVISOR
    end.

(** [_reconcile_terminal_adapter_state] *)
Definition reconcile (a : session_ref) : coro unit :=
  timeout_s ← sync command_timeout;
  telemetry ← co_try (t ← snapshot a (Some timeout_s); mret (Some t))
                (fun e => is_CrazySwarmError e || is_TimeoutError e) (fun _ => mret None);
  match telemetry with
  | None => mret tt
  | Some t => sync (adopt_terminal_state a t)
  end.

(** [reconcile_terminal_adapter_state] *)
Definition reconcile_terminal_adapter_state (vehicle_id : string) : coro unit :=
  a ← sync (session vehicle_id);
  reconcile a.

(** [_interrupt_active_command].  The task of a command is never the current
    task: it runs a coroutine of the adapter. *)
Definition interrupt_active_command (a : session_ref) (error : exn) : coro unit :=
  task ← sync (
    x ← deref a;
    s ← get;
    match VehicleSession.active_execute_task x with
    | None => mret None
    | Some task =>
        if task ∈? SafetySupervisor.done_tasks s then mret None
        else
          _ ← assign_session (VehicleSession.set_command_interruption_error (Some error)) a;
          mret (Some task)
    end);
  match task with
  | None => mret tt
  | Some task =>
      _ ← co_try (discard (await (CancelAndJoin task)))
            (fun e => is_cancelled e || is_CrazySwarmError e) (fun _ => mret tt);
      await Sleep0
  end.

(** The trajectory or motion duration that a blocking backend takes as expected
    work; commands without one have none. *)
Definition requested_duration (payload : CommandPayload.t) : option float :=
  match payload with
  | CommandPayload.TakeoffCommand _ d _ => Some d
  | CommandPayload.HoverCommand d => Some d
  | CommandPayload.MoveRelative m => Some (MoveRelativeCommand.duration_s m)
  | CommandPayload.ExecuteTrajectory c =>
      Some (trajectory_duration_s (ExecuteTrajectoryCommand.trajectory c))
  | CommandPayload.Land l => Some (LandCommand.duration_s l)
  | _ => None
  end.

Definition send_timeout (p : SafetyPolicy.t) (v : Vehicle.t) (payload : CommandPayload.t) : float :=
  let timeout_s := SafetyPolicy.command_timeout_s p in
  if supports_duration_aware_timeout (Vehicle.backend_profile v)
  then
    match requested_duration payload with
    | Some d => fadd timeout_s (fadd (fmul d (flit 125 100)) f1)
    | None => timeout_s
    end
  else timeout_s.

(** The constructor of a payload. *)
Definition new_payload (p : CommandPayload.t) : M Sup CommandPayload.t :=
  validated (CommandKind_value (CommandPayload.kind p)) (CommandPayload_valid p) p.

(** [_send] up to the await: the envelope, its record in the log, the lease
    extension and the task of the adapter.  The command sequence identifies the
    task, as in its name. *)
Definition begin_send (a : session_ref) (payload : CommandPayload.t) (source : CommandSource.t)
    (mission_run_id : option string) (fleet_binding : option FleetCommandBinding.t) :
    M Sup (Z * CommandEnvelope.t * float) :=
  n ← next_command_sequence;
  let command_id := command_name n in
  x ← deref a;
  s ← get;
  now ← read_clock;
  let envelope := CommandEnvelope.mk (vehicle_name (VehicleSession.vehicle x)) command_id
                    mission_run_id fleet_binding now source (SafetySupervisor.mode s) payload in
  _ ← validated "CommandEnvelope" (CommandEnvelope_valid envelope) tt;
  _ ← notify (command_sent envelope);
  _ ← log_event (vehicle_name (VehicleSession.vehicle x)) "COMMAND_SENT"
        (CommandKind_value (CommandPayload.kind payload)) source None None (Some command_id);
  let p := SafetySupervisor.policy s in
  let timeout_s := send_timeout p (VehicleSession.vehicle x) payload in
  _ ← extend_lease a (fun now =>
        fadd (fadd now timeout_s) (SafetyPolicy.control_lease_timeout_s p));
  _ ← assign_session (fun x => VehicleSession.set_active_command_payload (Some payload)
                                 (VehicleSession.set_active_execute_task (Some n) x)) a;
  mret (n, envelope, timeout_s).

(** The [finally] of the inner [try]: only the command that is still the active
    one is cleared. *)
Definition clear_active (a : session_ref) (task : Z) : M Sup unit :=
  x ← deref a;
  if VehicleSession.active_execute_task x ≟ Some task
  then assign_session (fun x => VehicleSession.set_active_command_payload None
                                  (VehicleSession.set_active_execute_task None x)) a
  else mret tt.

(** [except asyncio.CancelledError]: an interruption of the supervisor becomes
    its error, any other cancellation goes on. *)
Definition on_cancelled (a : session_ref) : M Sup CommandAcknowledgement.t :=
  x ← deref a;
  _ ← assign_session (VehicleSession.set_command_interruption_error None) a;
  match VehicleSession.command_interruption_error x with
  | Some interruption =>
      _ ← assign_session (VehicleSession.set_safety_interruption_pending true) a;
      raise interruption
  | None => raise CancelledError
  end.

Definition await_execution (a : session_ref) (task : Z) (envelope : CommandEnvelope.t)
    (timeout_s : float) : coro CommandAcknowledgement.t :=
  co_finally
    (x ← sync (deref a);
     co_try (await (Execute (VehicleSession.vehicle x) task envelope timeout_s)) is_cancelled
       (fun _ => sync (on_cancelled a)))
    (sync (clear_active a task)).

(** [_send] after a completed command. *)
Definition finish_send (a : session_ref) (acknowledgement : CommandAcknowledgement.t)
    (envelope : CommandEnvelope.t) : M Sup CommandAcknowledgement.t :=
  _ ← raise_if (CommandAcknowledgement.status acknowledgement ≠? AcknowledgementStatus.COMPLETED)
        (CrazySwarmError INVALID_COMMAND
           (if falsy (CommandAcknowledgement.message acknowledgement)
            then "adapter rejected command"
            else default "" (CommandAcknowledgement.message acknowledgement)));
  s ← get;
  _ ← extend_lease a (fun now =>
        fadd now (SafetyPolicy.control_lease_timeout_s (SafetySupervisor.policy s)));
  _ ← notify (command_acknowledged acknowledgement);
  x ← deref a;
  _ ← log_event (vehicle_name (VehicleSession.vehicle x)) "COMMAND_COMPLETED"
        (CommandKind_value (CommandPayload.kind (CommandEnvelope.payload envelope)))
        (CommandEnvelope.source envelope) None None (Some (CommandEnvelope.command_id envelope));
  mret acknowledgement.

(** [_send] *)
Definition send (a : session_ref) (payload : CommandPayload.t) (source : CommandSource.t)
    (mission_run_id : option string) (fleet_binding : option FleetCommandBinding.t) :
    coro CommandAcknowledgement.t :=
  started ← sync (begin_send a payload source mission_run_id fleet_binding);
  let '(task, envelope, timeout_s) := started in
  acknowledgement ←
    co_try (await_execution a task envelope timeout_s)
      (fun e => is_CrazySwarmError e || is_TimeoutError e)
      (fun e =>
         if is_CrazySwarmError e
         then _ ← reconcile a; co_raise e
         else sync (
           x ← deref a;
           _ ← log_event (vehicle_name (VehicleSession.vehicle x)) "COMMAND_TIMEOUT"
                 (CommandKind_value (CommandPayload.kind payload)) source None None
                 (Some (CommandEnvelope.command_id envelope));
           raise (CrazySwarmError COMMAND_TIMEOUT "command timed out")));
  sync (finish_send a acknowledgement envelope).

(** ** Coroutines: connection, preflight and arming *)

Definition connect (vehicle_id : string) : coro TelemetryEnvelope.t :=
  a ← sync (session vehicle_id);
  _ ← sync (transition vehicle_id VehicleState.CONNECTING CommandSource.SUPERVISOR);
  telemetry ←
    co_try
      (x ← sync (deref a);
       timeout_s ← sync command_timeout;
       _ ← await (ConnectVehicle (VehicleSession.vehicle x) timeout_s);
       refresh a)
      is_Exception
      (fun e =>
         _ ← sync (transition vehicle_id VehicleState.FAULT CommandSource.SUPERVISOR);
         co_raise (if is_TimeoutError e
                   then CrazySwarmError COMMAND_TIMEOUT "connection timed out" else e));
  _ ← sync (transition vehicle_id
              (VehicleTelemetry.state (TelemetryEnvelope.telemetry telemetry))
              CommandSource.SUPERVISOR);
  mret telemetry.

Definition is_coming_down (s : VehicleState.t) : bool :=
  match s with VehicleState.LANDING | VehicleState.ABORTING => true | _ => false end.

(** The reconciliation of [disconnect] from an observed, identity-checked
    landed sample. *)
Definition adopt_landed (a : session_ref) (vehicle_id : string)
    (telemetry : TelemetryEnvelope.t) : M Sup unit :=
  _ ← raise_if (negb (String.eqb (TelemetryEnvelope.vehicle_id telemetry) vehicle_id))
        (CrazySwarmError IDENTITY_MISMATCH "disconnect snapshot identity mismatch");
  _ ← receive_telemetry telemetry;
  let sample := TelemetryEnvelope.telemetry telemetry in
  _ ← (if (VehicleTelemetry.state sample ≟ VehicleState.READY)
          && negb (VehicleTelemetry.armed sample) && negb (VehicleTelemetry.flying sample)
       then transition vehicle_id VehicleState.READY CommandSource.SUPERVISOR
       else mret tt);
  x ← deref a;
  raise_if (is_coming_down (VehicleSession.state x))
    (CrazySwarmError INVALID_STATE
       "landing and disarm completion must be observed before disconnect").

Definition disconnect (vehicle_id : string) (owner_id : option string) : coro unit :=
  a ← sync (session vehicle_id);
  x ← sync (deref a);
  _ ← sync (match owner_id with
            | Some owner =>
                if is_some (VehicleSession.lease x)
                then now ← read_clock; require_owner a owner now false
                else mret tt
            | None => mret tt
            end);
  timeout_s ← sync command_timeout;
  _ ← (if is_coming_down (VehicleSession.state x)
       then telemetry ← snapshot a (Some timeout_s);
            sync (adopt_landed a vehicle_id telemetry)
       else mret tt);
  x ← sync (deref a);
  _ ← sync (raise_if (is_armed_or_flying x)
              (CrazySwarmError INVALID_STATE "land and disarm before disconnect"));
  _ ← await (DisconnectVehicle (VehicleSession.vehicle x) timeout_s);
  _ ← sync (transition vehicle_id VehicleState.DISCONNECTED CommandSource.SUPERVISOR);
  telemetry ← snapshot a None;
  sync (
    _ ← assign_session (VehicleSession.set_telemetry (Some telemetry)) a;
    now ← read_clock;
    assign_session (fun x =>
      VehicleSession.set_preflight None (VehicleSession.set_lease None
        (VehicleSession.set_telemetry_received_at_monotonic_s (Some now) x))) a).

(** [preflight] after the refresh. *)
Definition record_preflight (a : session_ref) (vehicle_id owner_id : string) (now : float)
    (required : capability_set) (low_battery_override : bool) (telemetry : TelemetryEnvelope.t) :
    M Sup PreflightReport.t :=
  x ← deref a;
  s ← get;
  let checks := preflight_checks s x telemetry required low_battery_override in
  let approved := forallb PreflightCheck.passed checks in
  n ← next_command_sequence;
  let report :=
    PreflightReport.mk ("preflight-" +:+ vehicle_id +:+ "-" +:+ pretty n) vehicle_id
      (SafetySupervisor.mode s) owner_id now
      (fadd now (SafetyPolicy.preflight_valid_s (SafetySupervisor.policy s))) approved checks in
  _ ← validated "PreflightReport" (PreflightReport_valid report) tt;
  _ ← assign_session (VehicleSession.set_preflight (Some report)) a;
  _ ← event vehicle_id "PREFLIGHT_COMPLETED"
        (if approved then "preflight passed" else "preflight failed");
  mret report.

Definition preflight (vehicle_id owner_id : string) (required : capability_set)
    (now_s : option float) (allow_simulation_low_battery : bool) : coro PreflightReport.t :=
  started ← sync (
    a ← session vehicle_id;
    now ← now_or now_s;
    _ ← require_owner a owner_id now false;
    low_battery_override ← simulation_low_battery_override a allow_simulation_low_battery;
    mret (a, now, low_battery_override));
  let '(a, now, low_battery_override) := started in
  telemetry ← refresh a;
  sync (record_preflight a vehicle_id owner_id now required low_battery_override telemetry).

(** The [except Exception] of [arm] and [takeoff]. *)
Definition fail_to_fault (a : session_ref) (vehicle_id : string) : M Sup unit :=
  x ← deref a;
  if VehicleSession.safety_interruption_pending x
  then assign_session (VehicleSession.set_safety_interruption_pending false) a
  else if negb (terminal (VehicleSession.state x))
       then transition vehicle_id VehicleState.FAULT CommandSource.SUPERVISOR
       else mret tt.

(** [try: send; refresh; check except Exception: ... raise] of [arm] and
    [takeoff]. *)
Definition send_and_confirm (a : session_ref) (vehicle_id : string) (payload : CommandPayload.t)
    (source : CommandSource.t) (mission_run_id : option string)
    (fleet_binding : option FleetCommandBinding.t)
    (confirmed : VehicleTelemetry.t -> bool) (error : exn) : coro CommandAcknowledgement.t :=
  co_try
    (payload ← sync (new_payload payload);
     acknowledgement ← send a payload source mission_run_id fleet_binding;
     telemetry ← refresh a;
     _ ← sync (raise_if (negb (confirmed (TelemetryEnvelope.telemetry telemetry))) error);
     mret acknowledgement)
    is_Exception
    (fun e => _ ← sync (fail_to_fault a vehicle_id); co_raise e).

(** The guards of [arm]. *)
Definition begin_arm (vehicle_id owner_id report_id : string) (now_s : option float)
    (source : CommandSource.t) : M Sup session_ref :=
  a ← session vehicle_id;
  now ← now_or now_s;
  _ ← require_owner a owner_id now false;
  _ ← require_preflight a owner_id report_id now;
  _ ← require_real_authority a;
  _ ← transition vehicle_id VehicleState.ARMING source;
  mret a.

Definition arm (vehicle_id owner_id report_id : string) (now_s : option float)
    (source : CommandSource.t) (mission_run_id : option string)
    (fleet_binding : option FleetCommandBinding.t) : coro CommandAcknowledgement.t :=
  a ← sync (begin_arm vehicle_id owner_id report_id now_s source);
  acknowledgement ←
    send_and_confirm a vehicle_id CommandPayload.ArmCommand source mission_run_id fleet_binding
      VehicleTelemetry.armed (CrazySwarmError PREFLIGHT_FAILED "adapter did not report armed");
  _ ← sync (transition vehicle_id VehicleState.READY CommandSource.SUPERVISOR);
  mret acknowledgement.

(** [await self._send(...); await self._refresh(session)] *)
Definition send_and_refresh (a : session_ref) (payload : CommandPayload.t)
    (source : CommandSource.t) (mission_run_id : option string)
    (fleet_binding : option FleetCommandBinding.t) : coro CommandAcknowledgement.t :=
  payload ← sync (new_payload payload);
  acknowledgement ← send a payload source mission_run_id fleet_binding;
  _ ← refresh a;
  mret acknowledgement.

Definition begin_disarm (vehicle_id owner_id : string) : M Sup session_ref :=
  a ← session vehicle_id;
  now ← read_clock;
  _ ← require_owner a owner_id now false;
  x ← deref a;
  _ ← raise_if (VehicleSession.state x ≠? VehicleState.READY)
        (CrazySwarmError INVALID_STATE "vehicle must be ready to disarm");
  mret a.

Definition disarm (vehicle_id owner_id : string) (source : CommandSource.t)
    (mission_run_id : option string) (fleet_binding : option FleetCommandBinding.t) :
    coro CommandAcknowledgement.t :=
  a ← sync (begin_disarm vehicle_id owner_id);
  send_and_refresh a CommandPayload.DisarmCommand source mission_run_id fleet_binding.

(** ** Coroutines: flight *)

Definition begin_takeoff (vehicle_id owner_id : string) (height_m duration_s : float)
    (source : CommandSource.t) : M Sup session_ref :=
  a ← session vehicle_id;
  _ ← require_command_ready a owner_id;
  s ← get;
  _ ← lift (validate_takeoff (SafetySupervisor.policy s) height_m duration_s);
  _ ← transition vehicle_id VehicleState.TAKING_OFF source;
  mret a.

Definition takeoff (vehicle_id owner_id : string) (height_m duration_s : float)
    (source : CommandSource.t) (mission_run_id : option string)
    (fleet_binding : option FleetCommandBinding.t) : coro CommandAcknowledgement.t :=
  a ← sync (begin_takeoff vehicle_id owner_id height_m duration_s source);
  acknowledgement ←
    send_and_confirm a vehicle_id (CommandPayload.TakeoffCommand height_m duration_s None) source
      mission_run_id fleet_binding VehicleTelemetry.flying
      (CrazySwarmError INVALID_STATE "adapter did not report flying");
  _ ← sync (transition vehicle_id VehicleState.FLYING CommandSource.SUPERVISOR);
  mret acknowledgement.

Definition begin_hover (vehicle_id owner_id : string) (duration_s : float) : M Sup session_ref :=
  a ← session vehicle_id;
  _ ← require_flying a owner_id;
  s ← get;
  _ ← raise_if (fleb duration_s f0
                || fltb (SafetyPolicy.max_mission_duration_s (SafetySupervisor.policy s)) duration_s)
        (CrazySwarmError INVALID_COMMAND "hover duration exceeds policy");
  mret a.

Definition hover (vehicle_id owner_id : string) (duration_s : float) (source : CommandSource.t)
    (mission_run_id : option string) (fleet_binding : option FleetCommandBinding.t) :
    coro CommandAcknowledgement.t :=
  a ← sync (begin_hover vehicle_id owner_id duration_s);
  send_and_refresh a (CommandPayload.HoverCommand duration_s) source mission_run_id fleet_binding.

Definition begin_move (vehicle_id owner_id : string) (command : MoveRelativeCommand.t) :
    M Sup session_ref :=
  a ← session vehicle_id;
  _ ← require_flying a owner_id;
  x ← deref a;
  s ← get;
  _ ← lift (validate_relative_move (SafetySupervisor.policy s) (VehicleSession.telemetry x) command);
  mret a.

(** The command was constructed by the caller. *)
Definition move_relative (vehicle_id owner_id : string) (command : MoveRelativeCommand.t)
    (source : CommandSource.t) (mission_run_id : option string)
    (fleet_binding : option FleetCommandBinding.t) : coro CommandAcknowledgement.t :=
  a ← sync (begin_move vehicle_id owner_id command);
  acknowledgement ← send a (CommandPayload.MoveRelative command) source mission_run_id fleet_binding;
  _ ← refresh a;
  mret acknowledgement.

Definition validate_trajectory_command (vehicle_id owner_id : string)
    (command : ExecuteTrajectoryCommand.t) : M Sup unit :=
  a ← session vehicle_id;
  _ ← require_flying a owner_id;
  x ← deref a;
  _ ← raise_if (negb (VehicleCapability.TIME_PARAMETERIZED_TRAJECTORY
                      ∈? features (Vehicle.capabilities (VehicleSession.vehicle x))))
        (CrazySwarmError PREFLIGHT_FAILED
           "vehicle backend does not declare time-parameterized trajectory support");
  s ← get;
  lift (validate_trajectory (SafetySupervisor.policy s) (VehicleSession.telemetry x) command).

Definition execute_trajectory (vehicle_id owner_id : string)
    (command : ExecuteTrajectoryCommand.t) (source : CommandSource.t)
    (mission_run_id : option string) (fleet_binding : option FleetCommandBinding.t) :
    coro CommandAcknowledgement.t :=
  a ← sync (_ ← validate_trajectory_command vehicle_id owner_id command; session vehicle_id);
  acknowledgement ←
    send a (CommandPayload.ExecuteTrajectory command) source mission_run_id fleet_binding;
  _ ← refresh a;
  mret acknowledgement.

Definition replace_trajectory (vehicle_id owner_id : string)
    (command : ExecuteTrajectoryCommand.t) (reason : string)
    (mission_run_id : option string) (fleet_binding : option FleetCommandBinding.t) :
    coro CommandAcknowledgement.t :=
  a ← sync (a ← session vehicle_id; _ ← require_flying a owner_id; mret a);
  _ ← interrupt_active_command a
        (CrazySwarmError INVALID_STATE
           ("active trajectory superseded by accepted replacement: " +:+ reason));
  execute_trajectory vehicle_id owner_id command CommandSource.SUPERVISOR mission_run_id
    fleet_binding.

(** [if isinstance(session.active_command_payload, ExecuteTrajectoryCommand):
    await self._interrupt_active_command(...)] *)
Definition interrupt_trajectory (a : session_ref) (message : string) : coro unit :=
  x ← sync (deref a);
  match VehicleSession.active_command_payload x with
  | Some (CommandPayload.ExecuteTrajectory _) =>
      interrupt_active_command a (CrazySwarmError INVALID_STATE message)
  | _ => mret tt
  end.

Definition stop_and_hold (vehicle_id owner_id : string) (source : CommandSource.t)
    (mission_run_id : option string) (fleet_binding : option FleetCommandBinding.t) :
    coro CommandAcknowledgement.t :=
  a ← sync (a ← session vehicle_id; _ ← require_flying a owner_id; mret a);
  _ ← interrupt_trajectory a "active trajectory paused by stop-and-hold authority";
  send_and_refresh a CommandPayload.StopAndHoldCommand source mission_run_id fleet_binding.

(** ** Coroutines: bringing a vehicle down *)

Definition begin_land (vehicle_id owner_id : string) (target_position_m : option Vector3) :
    M Sup session_ref :=
  a ← session vehicle_id;
  _ ← require_flying a owner_id;
  s ← get;
  _ ← raise_if (match target_position_m with
                | Some q => negb (contains (SafetyPolicy.flight_volume (SafetySupervisor.policy s)) q)
                | None => false
                end)
        (CrazySwarmError GEOFENCE_BREACH "landing target is outside the admitted flight volume");
  mret a.

Definition land (vehicle_id owner_id : string) (duration_s : float)
    (target_position_m : option Vector3) (goal_region : option LandingGoalRegion.t)
    (source : CommandSource.t) (mission_run_id : option string)
    (fleet_binding : option FleetCommandBinding.t) : coro CommandAcknowledgement.t :=
  a ← sync (begin_land vehicle_id owner_id target_position_m);
  _ ← interrupt_trajectory a "active trajectory superseded by landing authority";
  payload ← sync (
    _ ← transition vehicle_id VehicleState.LANDING source;
    new_payload (CommandPayload.Land
      (LandCommand.mk (match target_position_m with Some q => v_z q | None => f0 end)
         target_position_m goal_region duration_s)));
  acknowledgement ← send a payload source mission_run_id fleet_binding;
  _ ← refresh a;
  _ ← sync (transition vehicle_id VehicleState.READY CommandSource.SUPERVISOR);
  mret acknowledgement.

Definition emergency_stop (vehicle_id owner_id reason : string) (allow_expired_owner : bool)
    (mission_run_id : option string) (fleet_binding : option FleetCommandBinding.t) :
    coro CommandAcknowledgement.t :=
  a ← sync (
    a ← session vehicle_id;
    now ← read_clock;
    _ ← require_owner a owner_id now allow_expired_owner;
    mret a);
  _ ← interrupt_active_command a (CrazySwarmError EMERGENCY_STOPPED reason);
  payload ← sync (
    _ ← transition vehicle_id VehicleState.EMERGENCY CommandSource.SUPERVISOR;
    new_payload (CommandPayload.EmergencyStopCommand reason));
  acknowledgement ← send a payload CommandSource.SUPERVISOR mission_run_id fleet_binding;
  _ ← sync (log_event vehicle_id "EMERGENCY_STOP" reason CommandSource.SUPERVISOR None None
              (Some (CommandAcknowledgement.command_id acknowledgement)));
  _ ← refresh a;
  mret acknowledgement.

(** [if error.code is ErrorCode.TELEMETRY_STALE] *)
Definition is_telemetry_stale (e : exn) : bool :=
  match e with CrazySwarmError c _ => c ≟ TELEMETRY_STALE | _ => false end.

(** The escalation of [abort_and_land] when its completion cannot be
    observed: an emergency stop whose own error is suppressed. *)
Definition escalate (vehicle_id owner_id : string) : coro unit :=
  co_try
    (discard (emergency_stop vehicle_id owner_id "abort completion could not be observed" true
                None None))
    is_CrazySwarmError (fun _ => mret tt).

Definition begin_abort (vehicle_id owner_id : string) (allow_expired_owner : bool) :
    M Sup session_ref :=
  a ← session vehicle_id;
  now ← read_clock;
  _ ← require_owner a owner_id now allow_expired_owner;
  x ← deref a;
  _ ← raise_if (negb (airborne (VehicleSession.state x)))
        (CrazySwarmError INVALID_STATE "vehicle is not in an abortable state");
  mret a.

Definition abort_and_land (vehicle_id owner_id reason : string) (allow_expired_owner : bool)
    (mission_run_id : option string) (fleet_binding : option FleetCommandBinding.t) :
    coro CommandAcknowledgement.t :=
  a ← sync (begin_abort vehicle_id owner_id allow_expired_owner);
  _ ← interrupt_active_command a
        (CrazySwarmError INVALID_STATE ("active command superseded by abort: " +:+ reason));
  payload ← sync (
    _ ← transition vehicle_id VehicleState.ABORTING CommandSource.SUPERVISOR;
    new_payload (CommandPayload.AbortCommand reason));
  acknowledgement ← send a payload CommandSource.SUPERVISOR mission_run_id fleet_binding;
  _ ← sync (transition vehicle_id VehicleState.LANDING CommandSource.SUPERVISOR);
  _ ← co_try (discard (refresh a)) is_CrazySwarmError
        (fun e =>
           _ ← (if is_telemetry_stale e then escalate vehicle_id owner_id else mret tt);
           co_raise e);
  _ ← sync (transition vehicle_id VehicleState.READY CommandSource.SUPERVISOR);
  mret acknowledgement.

(** ** Coroutines: leases and health *)

Definition release_control (vehicle_id owner_id : string) (allow_expired_owner : bool) : coro unit :=
  started ← sync (
    a ← session vehicle_id;
    now ← read_clock;
    _ ← require_owner a owner_id now allow_expired_owner;
    x ← deref a;
    mret (a, airborne (VehicleSession.state x)));
  let '(a, up) := started in
  _ ← (if (up : bool)
       then discard (abort_and_land vehicle_id owner_id "control owner released" false None None)
       else mret tt);
  sync (
    _ ← assign_session (VehicleSession.set_lease None) a;
    event vehicle_id "CONTROL_RELEASED" ("control released by " +:+ owner_id)).

(** The iteration over a dictionary checks at every step that its size has not
    changed. *)
Definition check_iteration (size : nat) : M Sup unit :=
  s ← get;
  raise_if (negb (length (SafetySupervisor.sessions s) =? size)%nat) (OtherError "RuntimeError").

(** The body of the loop of [expire_control_leases]. *)
Definition expire_lease (now : float) (vehicle_id : string) (a : session_ref) : coro unit :=
  x ← sync (deref a);
  match VehicleSession.lease x with
  | None => mret tt
  | Some l =>
      if fltb now (ControlLease.expires_at_monotonic_s l) then mret tt
      else
        let owner_id := ControlLease.owner_id l in
        _ ← (if airborne (VehicleSession.state x)
             then discard (abort_and_land vehicle_id owner_id "control lease expired" true None None)
             else mret tt);
        sync (
          _ ← assign_session (VehicleSession.set_lease None) a;
          event vehicle_id "CONTROL_EXPIRED" ("control lease expired for " +:+ owner_id))
  end.

Definition expire_control_leases (now_s : option float) : coro unit :=
  started ← sync (now ← now_or now_s; s ← get; mret (now, SafetySupervisor.sessions s));
  let '(now, items) := started in
  _ ← co_for_each items (fun item =>
        _ ← sync (check_iteration (length items));
        expire_lease now item.1 item.2);
  sync (check_iteration (length items)).

(** The first issue of an assessment that asks for an action. *)
Definition first_issue (h : HealthAssessment.t) : outcome HealthIssue.t :=
  match HealthAssessment.issues h with
  | i :: _ => Ret i
  | [] => Raise (OtherError "IndexError")
  end.

Definition enforce_health (vehicle_id owner_id : string) (now_s : option float)
    (mission_run_id : option string) (fleet_binding : option FleetCommandBinding.t)
    (allow_simulation_low_battery : bool) : coro HealthAssessment.t :=
  assessment ← sync (evaluate_health vehicle_id now_s allow_simulation_low_battery);
  _ ← match HealthAssessment.action assessment with
      | RecoveryAction.ABORT_AND_LAND =>
          started ← sync (a ← session vehicle_id; i ← lift (first_issue assessment); mret (a, i));
          let '(a, i) := started in
          _ ← interrupt_active_command a
                (CrazySwarmError LOCALIZATION_INVALID (HealthIssue.message i));
          discard (abort_and_land vehicle_id owner_id (HealthIssue.code i) true mission_run_id
                     fleet_binding)
      | RecoveryAction.EMERGENCY_STOP =>
          started ← sync (a ← session vehicle_id; i ← lift (first_issue assessment); mret (a, i));
          let '(a, i) := started in
          _ ← interrupt_active_command a (CrazySwarmError LINK_LOST (HealthIssue.message i));
          discard (emergency_stop vehicle_id owner_id (HealthIssue.code i) true mission_run_id
                     fleet_binding)
      | _ => mret tt
      end;
  mret assessment.

Definition refresh_and_enforce_health (vehicle_id owner_id : string)
    (mission_run_id : option string) (fleet_binding : option FleetCommandBinding.t)
    (allow_simulation_low_battery : bool) : coro HealthAssessment.t :=
  a ← sync (session vehicle_id);
  _ ← refresh a;
  enforce_health vehicle_id owner_id None mission_run_id fleet_binding
    allow_simulation_low_battery.

(** [observe] after the sample arrived. *)
Definition record_observation (a : session_ref) (vehicle_id : string)
    (telemetry : TelemetryEnvelope.t) : M Sup (TelemetryEnvelope.t * option float) :=
  _ ← receive_telemetry telemetry;
  x ← deref a;
  _ ← raise_if (negb (String.eqb (TelemetryEnvelope.vehicle_id telemetry) vehicle_id))
        (CrazySwarmError IDENTITY_MISMATCH "observation identity mismatch");
  mret (telemetry, VehicleSession.telemetry_received_at_monotonic_s x).

Definition observe (vehicle_id owner_id : string) (timeout_s : float) :
    coro (TelemetryEnvelope.t * option float) :=
  a ← sync (
    s ← get;
    _ ← raise_if (fleb timeout_s f0
                  || fltb (SafetyPolicy.command_timeout_s (SafetySupervisor.policy s)) timeout_s)
          (CrazySwarmError INVALID_COMMAND "invalid observation timeout");
    a ← session vehicle_id;
    now ← read_clock;
    _ ← require_owner a owner_id now false;
    mret a);
  telemetry ← co_try (snapshot a (Some timeout_s)) is_TimeoutError
                (fun _ => co_raise (CrazySwarmError TELEMETRY_STALE
                                      "mission observation timed out"));
  sync (record_observation a vehicle_id telemetry).
End supervisor.
