(* ===== verification/Preparation.v ===== *)
(** * Fleet preparation ([fleet/preparation.py], [fleet/backends.py])

    The steps between a deployment contract and a mission: discover the vehicles
    of the backend and bind their identities, connect them through the safety
    supervisor, observe them, run the preflights, and refuse to start until all
    required vehicles are ready.  Each vehicle has a lifecycle record, each step
    leaves an event.

    A preparation owns no vehicle: it is one more client of the supervisor, whose
    coroutines it awaits.  The supervisor is an attribute of the state, its
    operations are run on that attribute ([zoom], [co_zoom]), and other clients
    may use it at every suspension.  [details] of events and errors are display
    values and left out. *)

From S2P Require Import Prelude Float64 Effects Contracts Artifacts Trajectory.
From S2P Require Import Safety Telemetry Commands Coroutines Supervisor.

(** ** The vehicles of a backend ([fleet/backends.py]) *)

(** [VehicleBuilder], a callback of the caller *)
Notation VehicleBuilder := (FleetMemberDefinition.t -> string -> outcome Vehicle.t) (only parsing).

Module BackendVehicleFactory.
Record t := mk { _builders : list (ExecutionBackend.t * VehicleBuilder) }.
End BackendVehicleFactory.

Definition BackendVehicleFactory_new : BackendVehicleFactory.t := BackendVehicleFactory.mk [].

(** [self._builders[backend] = builder]; the order of the dictionary is not
    observed. *)
Definition register (backend : ExecutionBackend.t) (builder : VehicleBuilder)
    (self : BackendVehicleFactory.t) : BackendVehicleFactory.t :=
  BackendVehicleFactory.mk
    ((backend, builder)
     :: filter (fun b => b.1 <> backend) (BackendVehicleFactory._builders self)).

(** The vehicle of a member; an optional member without a binding is skipped. *)
Definition build_member (binding : BackendBindingProfile.t) (builder : VehicleBuilder)
    (member : FleetMemberDefinition.t) : outcome (list Vehicle.t) :=
  match Artifacts.binding binding (FleetMemberDefinition.vehicle_id member) with
  | Ret selected =>
      v ← builder member (BackendVehicleBinding.backend_identifier selected);
      Ret [v]
  | Raise e =>
      if is_CrazySwarmError e && negb (FleetMemberDefinition.required member) then Ret []
      else Raise e
  end.

Definition build (deployment : DeploymentManifest.t) (binding : BackendBindingProfile.t)
    (self : BackendVehicleFactory.t) : outcome (list Vehicle.t) :=
  _ ← validate_for binding deployment;
  match find_first (fun b => b.1 ≟ BackendBindingProfile.backend binding)
                   (BackendVehicleFactory._builders self) with
  | None =>
      Err INVALID_STATE ("backend requires an explicit external discovery/factory: "
                         +:+ backend_value (BackendBindingProfile.backend binding))
  | Some (_, builder) =>
      vehicles ← mapM (build_member binding builder) (DeploymentManifest.fleet deployment);
      Ret (concat vehicles)
  end.

(** ** Lifecycle records and events ([fleet/preparation.py]) *)

Module RegistrationState.
Inductive t := DECLARED | DISCOVERED | IDENTITY_BOUND | VERIFIED.
End RegistrationState.
#[export] Instance RegistrationState_eq_dec : EqDecision RegistrationState.t.
Proof. solve_decision. Defined.

Definition RegistrationState_value (s : RegistrationState.t) : string :=
  match s with
  | RegistrationState.DECLARED => "DECLARED"
  | RegistrationState.DISCOVERED => "DISCOVERED"
  | RegistrationState.IDENTITY_BOUND => "IDENTITY_BOUND"
  | RegistrationState.VERIFIED => "VERIFIED"
  end.

Module ConnectionState.
Inductive t := DISCONNECTED | CONNECTING | READY | FAULT.
End ConnectionState.
#[export] Instance ConnectionState_eq_dec : EqDecision ConnectionState.t.
Proof. solve_decision. Defined.

Definition ConnectionState_value (s : ConnectionState.t) : string :=
  match s with
  | ConnectionState.DISCONNECTED => "DISCONNECTED"
  | ConnectionState.CONNECTING => "CONNECTING"
  | ConnectionState.READY => "READY"
  | ConnectionState.FAULT => "FAULT"
  end.

Module MissionRoleState.
Inductive t := UNASSIGNED | ACTIVE | RESERVE | HANDOVER | RETURNING | DOCKED | CHARGING.
End MissionRoleState.
#[export] Instance MissionRoleState_eq_dec : EqDecision MissionRoleState.t.
Proof. solve_decision. Defined.

Definition MissionRoleState_value (s : MissionRoleState.t) : string :=
  match s with
  | MissionRoleState.UNASSIGNED => "UNASSIGNED"
  | MissionRoleState.ACTIVE => "ACTIVE"
  | MissionRoleState.RESERVE => "RESERVE"
  | MissionRoleState.HANDOVER => "HANDOVER"
  | MissionRoleState.RETURNING => "RETURNING"
  | MissionRoleState.DOCKED => "DOCKED"
  | MissionRoleState.CHARGING => "CHARGING"
  end.

Module ObservationState.
Inductive t := NOT_OBSERVED | CURRENT | STALE | COMPLETED_SNAPSHOT.
End ObservationState.
#[export] Instance ObservationState_eq_dec : EqDecision ObservationState.t.
Proof. solve_decision. Defined.

Definition ObservationState_value (s : ObservationState.t) : string :=
  match s with
  | ObservationState.NOT_OBSERVED => "NOT_OBSERVED"
  | ObservationState.CURRENT => "CURRENT"
  | ObservationState.STALE => "STALE"
  | ObservationState.COMPLETED_SNAPSHOT => "COMPLETED_SNAPSHOT"
  end.

Module ExecutionSessionStatus.
Inductive t := DECLARED | PREPARING | OBSERVING | READY | FAULT | CLOSED.
End ExecutionSessionStatus.
#[export] Instance ExecutionSessionStatus_eq_dec : EqDecision ExecutionSessionStatus.t.
Proof. solve_decision. Defined.

Module FleetVehicleLifecycle.
Record t := mk {
  vehicle_id : string;
  configured_home : Vector3;
  registration : RegistrationState.t;
  connection : ConnectionState.t;
  mission_role : MissionRoleState.t;
  observation : ObservationState.t;
  latest_telemetry : option TelemetryEnvelope.t;
  observed_at_monotonic_s : option float;
  preflight_approved : bool;
  readiness_samples : Z;
  readiness_reason : string;
  fault_reason : option string;
}.

Definition set_registration (v : RegistrationState.t) (r : t) : t :=
  mk (vehicle_id r) (configured_home r) v (connection r) (mission_role r) (observation r)
    (latest_telemetry r) (observed_at_monotonic_s r) (preflight_approved r)
    (readiness_samples r) (readiness_reason r) (fault_reason r).
Definition set_connection (v : ConnectionState.t) (r : t) : t :=
  mk (vehicle_id r) (configured_home r) (registration r) v (mission_role r) (observation r)
    (latest_telemetry r) (observed_at_monotonic_s r) (preflight_approved r)
    (readiness_samples r) (readiness_reason r) (fault_reason r).
Definition set_observation (v : ObservationState.t) (r : t) : t :=
  mk (vehicle_id r) (configured_home r) (registration r) (connection r) (mission_role r) v
    (latest_telemetry r) (observed_at_monotonic_s r) (preflight_approved r)
    (readiness_samples r) (readiness_reason r) (fault_reason r).
Definition set_latest_telemetry (v : option TelemetryEnvelope.t) (r : t) : t :=
  mk (vehicle_id r) (configured_home r) (registration r) (connection r) (mission_role r)
    (observation r) v (observed_at_monotonic_s r) (preflight_approved r) (readiness_samples r)
    (readiness_reason r) (fault_reason r).
Definition set_observed_at_monotonic_s (v : option float) (r : t) : t :=
  mk (vehicle_id r) (configured_home r) (registration r) (connection r) (mission_role r)
    (observation r) (latest_telemetry r) v (preflight_approved r) (readiness_samples r)
    (readiness_reason r) (fault_reason r).
Definition set_preflight_approved (v : bool) (r : t) : t :=
  mk (vehicle_id r) (configured_home r) (registration r) (connection r) (mission_role r)
    (observation r) (latest_telemetry r) (observed_at_monotonic_s r) v (readiness_samples r)
    (readiness_reason r) (fault_reason r).
Definition set_readiness_samples (v : Z) (r : t) : t :=
  mk (vehicle_id r) (configured_home r) (registration r) (connection r) (mission_role r)
    (observation r) (latest_telemetry r) (observed_at_monotonic_s r) (preflight_approved r) v
    (readiness_reason r) (fault_reason r).
Definition set_readiness_reason (v : string) (r : t) : t :=
  mk (vehicle_id r) (configured_home r) (registration r) (connection r) (mission_role r)
    (observation r) (latest_telemetry r) (observed_at_monotonic_s r) (preflight_approved r)
    (readiness_samples r) v (fault_reason r).
Definition set_fault_reason (v : option string) (r : t) : t :=
  mk (vehicle_id r) (configured_home r) (registration r) (connection r) (mission_role r)
    (observation r) (latest_telemetry r) (observed_at_monotonic_s r) (preflight_approved r)
    (readiness_samples r) (readiness_reason r) v.
End FleetVehicleLifecycle.

(** [FleetVehicleLifecycle(vehicle_id=..., configured_home=..., mission_role=...)] *)
Definition FleetVehicleLifecycle_new (vehicle_id : string) (home : Vector3)
    (role : MissionRoleState.t) : FleetVehicleLifecycle.t :=
  FleetVehicleLifecycle.mk vehicle_id home RegistrationState.DECLARED ConnectionState.DISCONNECTED
    role ObservationState.NOT_OBSERVED None None false 0 "WAITING_FOR_CONNECTION" None.

Module PreparationEvent.
Record t := mk {
  execution_session_id : string;
  deployment_sha256 : string;
  binding_sha256 : string;
  sequence : Z;
  vehicle_id : string;
  event_type : string;
  timestamp_monotonic_s : float;
  registration : RegistrationState.t;
  connection : ConnectionState.t;
  mission_role : MissionRoleState.t;
  observation : ObservationState.t;
}.
End PreparationEvent.

Definition PreparationEvent_valid (e : PreparationEvent.t) : bool :=
  is_identifier (PreparationEvent.execution_session_id e)
  && is_sha256 (PreparationEvent.deployment_sha256 e)
  && is_sha256 (PreparationEvent.binding_sha256 e)
  && (1 <=? PreparationEvent.sequence e)
  && is_identifier (PreparationEvent.vehicle_id e)
  && is_identifier (PreparationEvent.event_type e)
  && ge0 (PreparationEvent.timestamp_monotonic_s e).

Module FleetPreflightReport.
Record t := mk {
  execution_session_id : string;
  approved : bool;
  required_vehicle_ids : list string;
  reports : list PreflightReport.t;
  failed_vehicle_ids : list string;
}.
End FleetPreflightReport.

Definition FleetPreflightReport_valid (r : FleetPreflightReport.t) : bool :=
  is_identifier (FleetPreflightReport.execution_session_id r)
  && forallb is_identifier (FleetPreflightReport.required_vehicle_ids r)
  && forallb is_identifier (FleetPreflightReport.failed_vehicle_ids r).

Module ExecutionSessionRecord.
Record t := mk {
  execution_session_id : string;
  deployment_id : string;
  deployment_sha256 : string;
  binding_sha256 : string;
  backend : ExecutionBackend.t;
  status : ExecutionSessionStatus.t;
  created_at_monotonic_s : float;
  observation_started_at_monotonic_s : option float;
  vehicles : list FleetVehicleLifecycle.t;
  preflight : option FleetPreflightReport.t;
  events : list PreparationEvent.t;
}.
End ExecutionSessionRecord.

Definition ExecutionSessionRecord_valid (r : ExecutionSessionRecord.t) : bool :=
  is_identifier (ExecutionSessionRecord.execution_session_id r)
  && is_identifier (ExecutionSessionRecord.deployment_id r)
  && is_sha256 (ExecutionSessionRecord.deployment_sha256 r)
  && is_sha256 (ExecutionSessionRecord.binding_sha256 r)
  && ge0 (ExecutionSessionRecord.created_at_monotonic_s r)
  && opt_ok ge0 (ExecutionSessionRecord.observation_started_at_monotonic_s r).

(** [_mission_role] *)
Definition mission_role (role : InitialFleetRole.t) : MissionRoleState.t :=
  match role with
  | InitialFleetRole.ACTIVE => MissionRoleState.ACTIVE
  | InitialFleetRole.RESERVE => MissionRoleState.RESERVE
  | InitialFleetRole.UNASSIGNED => MissionRoleState.UNASSIGNED
  end.

(** ** State *)

Module FleetPreparation.
Record t := mk {
  deployment : DeploymentManifest.t;
  binding : BackendBindingProfile.t;
  supervisor : Sup;
  execution_session_id : string;
  _vehicles : dict Vehicle.t;
  _records : dict FleetVehicleLifecycle.t;
  _events : list PreparationEvent.t;
  _status : ExecutionSessionStatus.t;
  _created_at : float;
  _observation_started_at : option float;
  _preflight : option FleetPreflightReport.t;
}.

Definition set_supervisor (v : Sup) (r : t) : t :=
  mk (deployment r) (binding r) v (execution_session_id r) (_vehicles r) (_records r)
    (_events r) (_status r) (_created_at r) (_observation_started_at r) (_preflight r).
Definition set_vehicles (v : dict Vehicle.t) (r : t) : t :=
  mk (deployment r) (binding r) (supervisor r) (execution_session_id r) v (_records r)
    (_events r) (_status r) (_created_at r) (_observation_started_at r) (_preflight r).
Definition set_records (v : dict FleetVehicleLifecycle.t) (r : t) : t :=
  mk (deployment r) (binding r) (supervisor r) (execution_session_id r) (_vehicles r) v
    (_events r) (_status r) (_created_at r) (_observation_started_at r) (_preflight r).
Definition set_events (v : list PreparationEvent.t) (r : t) : t :=
  mk (deployment r) (binding r) (supervisor r) (execution_session_id r) (_vehicles r)
    (_records r) v (_status r) (_created_at r) (_observation_started_at r) (_preflight r).
Definition set_status (v : ExecutionSessionStatus.t) (r : t) : t :=
  mk (deployment r) (binding r) (supervisor r) (execution_session_id r) (_vehicles r)
    (_records r) (_events r) v (_created_at r) (_observation_started_at r) (_preflight r).
Definition set_observation_started_at (v : option float) (r : t) : t :=
  mk (deployment r) (binding r) (supervisor r) (execution_session_id r) (_vehicles r)
    (_records r) (_events r) (_status r) (_created_at r) v (_preflight r).
Definition set_preflight (v : option FleetPreflightReport.t) (r : t) : t :=
  mk (deployment r) (binding r) (supervisor r) (execution_session_id r) (_vehicles r)
    (_records r) (_events r) (_status r) (_created_at r) (_observation_started_at r) v.
End FleetPreparation.
Notation Prep := FleetPreparation.t.
Notation prep A := (co Prep request A).

(** [sorted(set(l))] *)
Definition sorted_set (l : list string) : list string := py_sorted str_ltb (remove_dups l).
(** [sorted(d)] *)
Definition sorted_keys {V} (d : dict V) : list string := py_sorted str_ltb (dict_keys d).

Section preparation.
Context `{CK : Clock} `{LM : Libm} `{DG : Digest}.

(** [f"{type(error).__name__}: {error}"] *)
Context (error_text : exn -> string).

(** ** The supervisor as an attribute *)

Definition on_supervisor {A} (m : M Sup A) : M Prep A :=
  zoom FleetPreparation.supervisor FleetPreparation.set_supervisor m.
Definition via_supervisor {A} (c : coro A) : prep A :=
  co_zoom FleetPreparation.supervisor FleetPreparation.set_supervisor c.

(** ** Records and events *)

(** [vehicle] *)
Definition vehicle (vehicle_id : string) : M Prep FleetVehicleLifecycle.t :=
  self ← get;
  match dict_get vehicle_id (FleetPreparation._records self) with
  | Some lifecycle => mret lifecycle
  | None => raise (CrazySwarmError IDENTITY_MISMATCH ("vehicle is not declared: " +:+ vehicle_id))
  end.

(** [self._records[vehicle_id] = lifecycle] *)
Definition set_record (vehicle_id : string) (lifecycle : FleetVehicleLifecycle.t) : M Prep unit :=
  modify (fun self => FleetPreparation.set_records
                        (dict_set vehicle_id lifecycle (FleetPreparation._records self)) self).

Definition set_status (status : ExecutionSessionStatus.t) : M Prep unit :=
  modify (FleetPreparation.set_status status).

(** [self._events.append(PreparationEvent(...))] *)
Definition append_event (vehicle_id event_type : string) (registration : RegistrationState.t)
    (connection : ConnectionState.t) (role : MissionRoleState.t)
    (observation : ObservationState.t) : M Prep unit :=
  self ← get;
  now ← read_clock;
  let event := PreparationEvent.mk (FleetPreparation.execution_session_id self)
      (DeploymentManifest_sha256 (FleetPreparation.deployment self))
      (BackendBindingProfile_sha256 (FleetPreparation.binding self))
      (Z.of_nat (length (FleetPreparation._events self)) + 1) vehicle_id event_type now
      registration connection role observation in
  _ ← validated "PreparationEvent" (PreparationEvent_valid event) tt;
  modify (fun self => FleetPreparation.set_events (FleetPreparation._events self ++ [event]) self).

(** [_emit] *)
Definition emit (vehicle_id event_type : string) : M Prep unit :=
  lifecycle ← vehicle vehicle_id;
  append_event vehicle_id event_type (FleetVehicleLifecycle.registration lifecycle)
    (FleetVehicleLifecycle.connection lifecycle) (FleetVehicleLifecycle.mission_role lifecycle)
    (FleetVehicleLifecycle.observation lifecycle).

(** [_emit_external_failure] *)
Definition emit_external_failure (vehicle_id : string) : M Prep unit :=
  append_event vehicle_id "IDENTITY_VERIFICATION_FAILED" RegistrationState.DISCOVERED
    ConnectionState.DISCONNECTED MissionRoleState.UNASSIGNED ObservationState.NOT_OBSERVED.

(** [FleetPreparation(...)], with the attributes it starts from. *)
Definition FleetPreparation_init (execution_session_id : string) (deployment : DeploymentManifest.t)
    (binding : BackendBindingProfile.t) : M Prep unit :=
  _ ← lift (validate_for binding deployment);
  _ ← validated "FleetVehicleLifecycle"
        (forallb (fun m => is_identifier (FleetMemberDefinition.vehicle_id m))
           (DeploymentManifest.fleet deployment)) tt;
  let records := dict_of FleetMemberDefinition.vehicle_id
      (fun m => FleetVehicleLifecycle_new (FleetMemberDefinition.vehicle_id m)
                  (FleetMemberDefinition.home m)
                  (mission_role (FleetMemberDefinition.initial_role m)))
      (DeploymentManifest.fleet deployment) in
  now ← read_clock;
  _ ← modify (fun self =>
        FleetPreparation.mk deployment binding (FleetPreparation.supervisor self)
          execution_session_id [] records [] ExecutionSessionStatus.DECLARED now None None);
  for_each (sorted_keys records) (fun vehicle_id => emit vehicle_id "PLACEHOLDER_DECLARED").

(** [record] *)
Definition record : M Prep ExecutionSessionRecord.t :=
  self ← get;
  vehicles ← lift (mapM (fun key =>
      match dict_get key (FleetPreparation._records self) with
      | Some lifecycle => Ret lifecycle
      | None => Raise (OtherError "KeyError")
      end) (sorted_keys (FleetPreparation._records self)));
  let r := ExecutionSessionRecord.mk (FleetPreparation.execution_session_id self)
      (DeploymentManifest.deployment_id (FleetPreparation.deployment self))
      (DeploymentManifest_sha256 (FleetPreparation.deployment self))
      (BackendBindingProfile_sha256 (FleetPreparation.binding self))
      (BackendBindingProfile.backend (FleetPreparation.binding self))
      (FleetPreparation._status self) (FleetPreparation._created_at self)
      (FleetPreparation._observation_started_at self) vehicles
      (FleetPreparation._preflight self) (FleetPreparation._events self) in
  validated "ExecutionSessionRecord" (ExecutionSessionRecord_valid r) r.

(** ** Discovery *)

(** [_validate_backend_role] *)
Definition expected_role (backend : ExecutionBackend.t) : BackendRole.t :=
  match backend with
  | ExecutionBackend.FAST_SIM => BackendRole.FAST_SIM
  | ExecutionBackend.MOCK_ISAAC | ExecutionBackend.ISAAC => BackendRole.ISAAC_SIM
  | ExecutionBackend.CRAZYFLIE => BackendRole.REAL_CRAZYFLIE
  end.

Definition validate_backend_role (v : Vehicle.t) : M Prep unit :=
  self ← get;
  raise_if (role (Vehicle.backend_profile v)
            ≠? expected_role (BackendBindingProfile.backend (FleetPreparation.binding self)))
    (CrazySwarmError IDENTITY_MISMATCH "adapter backend role does not match binding profile").

(** [self._status = FAULT], the failure event, and the error. *)
Definition identity_fault {A} (vehicle_id : string) (e : exn) : M Prep A :=
  _ ← set_status ExecutionSessionStatus.FAULT;
  _ ← emit vehicle_id "IDENTITY_VERIFICATION_FAILED";
  raise e.

(** The vehicle registered under the identity, or the registration of this one. *)
Definition registered_or_register (v : Vehicle.t) : M Prep (option Vehicle.t) :=
  try_except
    (on_supervisor (a ← session (vehicle_name v); x ← deref a;
                 mret (Some (VehicleSession.vehicle x))))
    is_CrazySwarmError
    (fun _ => _ ← on_supervisor (register_vehicle v); mret None).

(** The body of the loop of [discover]. *)
Definition discover_vehicle (v : Vehicle.t) : M Prep unit :=
  let vehicle_id := vehicle_name v in
  self ← get;
  selected ← lift (Artifacts.binding (FleetPreparation.binding self) vehicle_id);
  record0 ← vehicle vehicle_id;
  let record := FleetVehicleLifecycle.set_registration RegistrationState.DISCOVERED record0 in
  _ ← set_record vehicle_id record;
  _ ← emit vehicle_id "VEHICLE_DISCOVERED";
  _ ← (if negb (String.eqb (BackendVehicleBinding.expected_vehicle_id selected) vehicle_id)
       then identity_fault vehicle_id
              (CrazySwarmError IDENTITY_MISMATCH "cross-bound vehicle identity")
       else mret tt);
  _ ← set_record vehicle_id
        (FleetVehicleLifecycle.set_registration RegistrationState.IDENTITY_BOUND record);
  _ ← emit vehicle_id "IDENTITY_BOUND";
  _ ← try_except (validate_backend_role v) is_CrazySwarmError (identity_fault vehicle_id);
  registered ← registered_or_register v;
  _ ← match registered with
      | Some other =>
          if negb (Vehicle.address other =? Vehicle.address v)%nat
          then identity_fault vehicle_id
                 (CrazySwarmError IDENTITY_MISMATCH
                    "a different adapter already owns the logical vehicle identity")
          else mret tt
      | None => mret tt
      end;
  _ ← modify (fun self => FleetPreparation.set_vehicles
                (dict_set vehicle_id v (FleetPreparation._vehicles self)) self);
  lifecycle ← vehicle vehicle_id;
  _ ← set_record vehicle_id
        (FleetVehicleLifecycle.set_registration RegistrationState.VERIFIED lifecycle);
  emit vehicle_id "IDENTITY_VERIFIED".

Definition vehicle_name_ltb (v w : Vehicle.t) : bool := str_ltb (vehicle_name v) (vehicle_name w).

Definition discover (vehicles : list Vehicle.t) : M Prep ExecutionSessionRecord.t :=
  self ← get;
  let observed_ids := vehicle_name <$> vehicles in
  let duplicate_ids :=
    py_sorted str_ltb (filter (fun id => (1 < count_if (String.eqb id) observed_ids)%Z)
                         (remove_dups observed_ids)) in
  let declared_ids := dict_keys (FleetPreparation._records self) in
  let unexpected := sorted_set (filter (fun id => id ∉ declared_ids) observed_ids) in
  let missing := sorted_set (filter (fun id => id ∉ observed_ids)
                               (required_vehicle_ids (FleetPreparation.deployment self))) in
  if negb (bool_decide (duplicate_ids = [])) || negb (bool_decide (unexpected = []))
     || negb (bool_decide (missing = []))
  then
    _ ← for_each missing (fun id => emit id "IDENTITY_VERIFICATION_FAILED");
    _ ← for_each (if bool_decide (unexpected = []) then duplicate_ids else unexpected)
          emit_external_failure;
    _ ← set_status ExecutionSessionStatus.FAULT;
    raise (CrazySwarmError IDENTITY_MISMATCH "discovered fleet does not match declared identities")
  else
    _ ← for_each (py_sorted vehicle_name_ltb vehicles) discover_vehicle;
    record.

Definition initialize_backend (factory : BackendVehicleFactory.t) : M Prep ExecutionSessionRecord.t :=
  self ← get;
  _ ← raise_if (FleetPreparation._status self ≠? ExecutionSessionStatus.DECLARED)
        (CrazySwarmError INVALID_STATE "backend is already initialized");
  _ ← set_status ExecutionSessionStatus.PREPARING;
  vehicles ← lift (build (FleetPreparation.deployment self) (FleetPreparation.binding self) factory);
  _ ← discover vehicles;
  record.

(** ** Connection *)

(** Before the connection of a vehicle: [None] if its identity is not verified. *)
Definition connection_starts (vehicle_id : string) : M Prep bool :=
  lifecycle ← vehicle vehicle_id;
  if FleetVehicleLifecycle.registration lifecycle ≠? RegistrationState.VERIFIED then mret false
  else
    _ ← set_record vehicle_id
          (FleetVehicleLifecycle.set_fault_reason None
             (FleetVehicleLifecycle.set_connection ConnectionState.CONNECTING lifecycle));
    _ ← emit vehicle_id "CONNECTION_STARTED";
    mret true.

Definition connection_failed (vehicle_id : string) (e : exn) : M Prep unit :=
  lifecycle ← vehicle vehicle_id;
  _ ← set_record vehicle_id
        (FleetVehicleLifecycle.set_fault_reason (Some (error_text e))
           (FleetVehicleLifecycle.set_connection ConnectionState.FAULT lifecycle));
  emit vehicle_id "CONNECTION_FAILED".

Definition connection_ready (vehicle_id : string) (telemetry : TelemetryEnvelope.t) : M Prep unit :=
  lifecycle ← vehicle vehicle_id;
  _ ← set_record vehicle_id
        (FleetVehicleLifecycle.set_readiness_reason "WAITING_FOR_FRESH_TELEMETRY"
           (FleetVehicleLifecycle.set_latest_telemetry (Some telemetry)
              (FleetVehicleLifecycle.set_connection ConnectionState.READY lifecycle)));
  emit vehicle_id "CONNECTION_READY".

(** The loop of [connect_all]; [failures] are the vehicles that failed. *)
Fixpoint connect_each (allow_partial : bool) (vehicle_ids failures : list string) :
    prep (list string) :=
  match vehicle_ids with
  | [] => mret failures
  | vehicle_id :: rest =>
      verified ← sync (connection_starts vehicle_id);
      if negb verified then connect_each allow_partial rest failures
      else
        failed ← co_then (via_supervisor (connect vehicle_id))
          (fun o => match o with
                    | Raise e =>
                        if is_Exception e
                        then _ ← sync (connection_failed vehicle_id e); mret true
                        else co_raise e
                    | Ret telemetry =>
                        _ ← sync (connection_ready vehicle_id telemetry); mret false
                    end);
        if failed : bool
        then if allow_partial then connect_each allow_partial rest (vehicle_id :: failures)
             else mret (vehicle_id :: failures)
        else connect_each allow_partial rest failures
  end.

Definition connect_all (allow_partial : bool) : prep ExecutionSessionRecord.t :=
  self ← sync get;
  failures ← connect_each allow_partial (sorted_keys (FleetPreparation._vehicles self)) [];
  sync (
    self ← get;
    _ ← (if existsb (fun id => id ∈? failures)
              (required_vehicle_ids (FleetPreparation.deployment self))
         then
           _ ← set_status ExecutionSessionStatus.FAULT;
           raise_if (negb allow_partial)
             (CrazySwarmError PREFLIGHT_FAILED "required fleet connection failed")
         else mret tt);
    record).

(** ** Observation *)

Definition observation_failed (vehicle_id : string) (lifecycle : FleetVehicleLifecycle.t) (e : exn) :
    M Prep unit :=
  _ ← set_record vehicle_id
        (FleetVehicleLifecycle.set_fault_reason (Some (error_text e))
           (FleetVehicleLifecycle.set_readiness_reason "TELEMETRY_SOURCE_FAILED"
              (FleetVehicleLifecycle.set_observation ObservationState.STALE lifecycle)));
  emit vehicle_id "OBSERVATION_FAILED".

Definition observation_current (vehicle_id : string) (lifecycle : FleetVehicleLifecycle.t)
    (telemetry : TelemetryEnvelope.t) : M Prep unit :=
  now ← read_clock;
  _ ← set_record vehicle_id
        (FleetVehicleLifecycle.set_fault_reason None
           (FleetVehicleLifecycle.set_readiness_reason "STABILIZING_TELEMETRY"
              (FleetVehicleLifecycle.set_observed_at_monotonic_s (Some now)
                 (FleetVehicleLifecycle.set_latest_telemetry (Some telemetry)
                    (FleetVehicleLifecycle.set_observation ObservationState.CURRENT lifecycle)))));
  emit vehicle_id "TELEMETRY_OBSERVED".

(** [self._vehicles[vehicle_id]] *)
Definition adapter (vehicle_id : string) : M Prep Vehicle.t :=
  self ← get;
  match dict_get vehicle_id (FleetPreparation._vehicles self) with
  | Some v => mret v
  | None => raise (OtherError "KeyError")
  end.

(** The body of the [try] of [refresh_observations]. *)
Definition observe_vehicle (vehicle_id : string) : prep TelemetryEnvelope.t :=
  v ← sync (adapter vehicle_id);
  telemetry ← await (Snapshot v None);
  sync (
    _ ← raise_if (negb (String.eqb (TelemetryEnvelope.vehicle_id telemetry) vehicle_id))
          (CrazySwarmError IDENTITY_MISMATCH "observation identity mismatch");
    _ ← on_supervisor (receive_telemetry telemetry);
    mret telemetry).

Definition refresh_vehicle (vehicle_id : string) : prep unit :=
  lifecycle ← sync (vehicle vehicle_id);
  if FleetVehicleLifecycle.connection lifecycle ≠? ConnectionState.READY then mret tt
  else
    co_then (observe_vehicle vehicle_id)
      (fun o => match o with
                | Raise e =>
                    if is_Exception e then sync (observation_failed vehicle_id lifecycle e)
                    else co_raise e
                | Ret telemetry => sync (observation_current vehicle_id lifecycle telemetry)
                end).

Definition refresh_observations : prep ExecutionSessionRecord.t :=
  self ← sync (
    self ← get;
    _ ← raise_if (is_none (FleetPreparation._observation_started_at self))
          (CrazySwarmError INVALID_STATE "observation session has not started");
    mret self);
  _ ← co_for_each (sorted_keys (FleetPreparation._vehicles self)) refresh_vehicle;
  sync record.

Definition start_observation : prep ExecutionSessionRecord.t :=
  _ ← sync (
    self ← get;
    _ ← raise_if (is_some (FleetPreparation._observation_started_at self))
          (CrazySwarmError INVALID_STATE "observation session already started");
    now ← read_clock;
    _ ← modify (FleetPreparation.set_observation_started_at (Some now));
    set_status ExecutionSessionStatus.OBSERVING);
  _ ← refresh_observations;
  sync record.

(** *** [stabilize_observations] *)

(** A source sample: clock, epoch, timestamp. *)
Notation marker := (string * Z * float)%type.

Definition marker_eqb (a b : marker) : bool :=
  String.eqb a.1.1 b.1.1 && (a.1.2 =? b.1.2) && feqb a.2 b.2.

(** [set.add] *)
Definition add_marker (m : marker) (l : list marker) : list marker :=
  if existsb (marker_eqb m) l then l else l ++ [m].

Definition marker_of (telemetry : TelemetryEnvelope.t) : marker :=
  (TelemetryEnvelope.source_clock_id telemetry, TelemetryEnvelope.source_clock_epoch telemetry,
   TelemetryEnvelope.source_timestamp_s telemetry).

Definition operational (vehicle_id : string) (telemetry : TelemetryEnvelope.t) : bool :=
  let sample := TelemetryEnvelope.telemetry telemetry in
  String.eqb (TelemetryEnvelope.vehicle_id telemetry) vehicle_id
  && (VehicleTelemetry.state sample ≟ VehicleState.READY)
  && is_some (VehicleTelemetry.position_m sample)
  && is_some (VehicleTelemetry.battery_percent sample)
  && is_some (VehicleTelemetry.localization_quality_percent sample).

(** The body of the inner loop, with the markers it leaves. *)
Definition note_sample (required : Z) (vehicle_id : string) (markers : dict (list marker)) :
    M Prep (dict (list marker)) :=
  lifecycle ← vehicle vehicle_id;
  match FleetVehicleLifecycle.latest_telemetry lifecycle with
  | None => mret markers
  | Some telemetry =>
      if FleetVehicleLifecycle.connection lifecycle ≠? ConnectionState.READY then mret markers
      else if negb (operational vehicle_id telemetry) then
        _ ← set_record vehicle_id
              (FleetVehicleLifecycle.set_readiness_reason "WAITING_FOR_VALID_OPERATIONAL_FIELDS"
                 lifecycle);
        mret markers
      else
        match dict_get vehicle_id markers with
        | None => raise (OtherError "KeyError")
        | Some noted =>
            let noted' := add_marker (marker_of telemetry) noted in
            let count := Z.of_nat (length noted') in
            _ ← set_record vehicle_id
                  (FleetVehicleLifecycle.set_readiness_reason
                     (if required <=? count then "TELEMETRY_STABLE" else "STABILIZING_TELEMETRY")
                     (FleetVehicleLifecycle.set_readiness_samples count lifecycle));
            mret (dict_set vehicle_id noted' markers)
        end
  end.

Fixpoint note_samples (required : Z) (vehicle_ids : list string) (markers : dict (list marker)) :
    M Prep (dict (list marker)) :=
  match vehicle_ids with
  | [] => mret markers
  | vehicle_id :: rest =>
      markers' ← note_sample required vehicle_id markers;
      note_samples required rest markers'
  end.

(** [len(markers.get(vehicle_id, set()))] *)
Definition samples (markers : dict (list marker)) (vehicle_id : string) : Z :=
  Z.of_nat (length (default [] (dict_get vehicle_id markers))).

(** After the last attempt. *)
Definition readiness_window_failed (required : Z) (markers : dict (list marker)) :
    M Prep ExecutionSessionRecord.t :=
  self ← get;
  let waiting := sorted_set (filter (fun id => samples markers id < required)
                               (required_vehicle_ids (FleetPreparation.deployment self))) in
  _ ← for_each waiting (fun vehicle_id =>
        lifecycle ← vehicle vehicle_id;
        _ ← set_record vehicle_id
              (FleetVehicleLifecycle.set_readiness_reason "INSUFFICIENT_DISTINCT_SOURCE_SAMPLES"
                 (FleetVehicleLifecycle.set_observation ObservationState.STALE lifecycle));
        emit vehicle_id "READINESS_WINDOW_FAILED");
  _ ← set_status ExecutionSessionStatus.FAULT;
  raise (CrazySwarmError TELEMETRY_STALE "fleet telemetry did not satisfy the readiness window").

(** One pass after a refresh: the markers, and whether every required vehicle
    has enough of them. *)
Definition samples_noted (required : Z) (markers : dict (list marker)) :
    M Prep (dict (list marker) * bool) :=
  self ← get;
  markers' ← note_samples required (sorted_keys (FleetPreparation._vehicles self)) markers;
  self ← get;
  mret (markers', forallb (fun id => required <=? samples markers' id)
                    (required_vehicle_ids (FleetPreparation.deployment self))).

Definition telemetry_stabilized : M Prep ExecutionSessionRecord.t :=
  self ← get;
  _ ← for_each (sorted_set (required_vehicle_ids (FleetPreparation.deployment self)))
        (fun vehicle_id => emit vehicle_id "TELEMETRY_STABILIZED");
  record.

Fixpoint stabilize (required : Z) (attempts : nat) (markers : dict (list marker)) :
    prep ExecutionSessionRecord.t :=
  match attempts with
  | O => sync (readiness_window_failed required markers)
  | S attempts' =>
      _ ← refresh_observations;
      noted ← sync (samples_noted required markers);
      if noted.2 : bool then sync telemetry_stabilized
      else
        _ ← await Sleep0;
        stabilize required attempts' noted.1
  end.

Definition readiness_window_starts (required_distinct_samples maximum_attempts : Z) :
    M Prep (dict (list marker)) :=
  _ ← raise_if ((required_distinct_samples <? 1) || (maximum_attempts <? required_distinct_samples))
        (ValueError "invalid observation readiness window");
  self ← get;
  mret ((fun kv => (kv.1, [])) <$> FleetPreparation._vehicles self).

Definition stabilize_observations (required_distinct_samples maximum_attempts : Z) :
    prep ExecutionSessionRecord.t :=
  markers ← sync (readiness_window_starts required_distinct_samples maximum_attempts);
  stabilize required_distinct_samples (Z.to_nat maximum_attempts) markers.

(** *** [mark_stale_observations] *)

Definition is_stale (now freshness_s : float) (lifecycle : FleetVehicleLifecycle.t) : bool :=
  (FleetVehicleLifecycle.observation lifecycle ≟ ObservationState.CURRENT)
  && match FleetVehicleLifecycle.observed_at_monotonic_s lifecycle with
     | Some observed_at => fltb freshness_s (fsub now observed_at)
     | None => false
     end.

Definition mark_stale (now : float) (item : string * FleetVehicleLifecycle.t) : M Prep unit :=
  self ← get;
  if is_stale now (FleetConstraints.observation_freshness_s
                     (DeploymentManifest.constraints (FleetPreparation.deployment self))) item.2
  then
    _ ← set_record item.1
          (FleetVehicleLifecycle.set_readiness_reason "TELEMETRY_STALE"
             (FleetVehicleLifecycle.set_observation ObservationState.STALE item.2));
    emit item.1 "OBSERVATION_STALE"
  else mret tt.

Definition mark_stale_observations (now_s : option float) : M Prep ExecutionSessionRecord.t :=
  now ← match now_s with Some t => mret t | None => read_clock end;
  self ← get;
  _ ← for_each (FleetPreparation._records self) (mark_stale now);
  record.

(** ** Preflight *)

Definition prepared (lifecycle : FleetVehicleLifecycle.t) : bool :=
  (FleetVehicleLifecycle.registration lifecycle ≟ RegistrationState.VERIFIED)
  && (FleetVehicleLifecycle.connection lifecycle ≟ ConnectionState.READY)
  && (FleetVehicleLifecycle.observation lifecycle ≟ ObservationState.CURRENT).

Definition preflight_noted (vehicle_id : string) (lifecycle : FleetVehicleLifecycle.t)
    (approved : bool) : M Prep unit :=
  _ ← set_record vehicle_id
        (FleetVehicleLifecycle.set_readiness_reason
           (if approved then "READY" else "PREFLIGHT_REJECTED")
           (FleetVehicleLifecycle.set_preflight_approved approved lifecycle));
  emit vehicle_id (if approved then "PREFLIGHT_APPROVED" else "PREFLIGHT_REJECTED").

(** The [try] of [run_preflight] and its [finally]. *)
Definition preflight_vehicle (owner_id : string) (member : FleetMemberDefinition.t)
    (lifecycle : FleetVehicleLifecycle.t) (allow_simulation_low_battery : bool) :
    prep PreflightReport.t :=
  let vehicle_id := FleetMemberDefinition.vehicle_id member in
  co_finally
    (report ← via_supervisor (preflight vehicle_id owner_id
                 (FleetMemberDefinition.required_capabilities member ∪ {[VehicleCapability.ARMING]})
                 None allow_simulation_low_battery);
     _ ← sync (preflight_noted vehicle_id lifecycle (PreflightReport.approved report));
     mret report)
    (via_supervisor (release_control vehicle_id owner_id false)).

(** The loop of [run_preflight]; [reports] and [failed] grow at the end. *)
Fixpoint preflight_each (owner_id : string) (allow_simulation_low_battery : bool)
    (members : list FleetMemberDefinition.t) (reports : list PreflightReport.t)
    (failed : list string) : prep (list PreflightReport.t * list string) :=
  match members with
  | [] => mret (reports, failed)
  | member :: rest =>
      let vehicle_id := FleetMemberDefinition.vehicle_id member in
      lifecycle ← sync (vehicle vehicle_id);
      if negb (prepared lifecycle)
      then preflight_each owner_id allow_simulation_low_battery rest reports
             (if FleetMemberDefinition.required member then failed ++ [vehicle_id] else failed)
      else
        _ ← sync (on_supervisor (claim_control vehicle_id owner_id None));
        report ← preflight_vehicle owner_id member lifecycle allow_simulation_low_battery;
        preflight_each owner_id allow_simulation_low_battery rest (reports ++ [report])
          (if FleetMemberDefinition.required member && negb (PreflightReport.approved report)
           then failed ++ [vehicle_id] else failed)
  end.

Definition preflight_finished (reports : list PreflightReport.t) (failed : list string) :
    M Prep FleetPreflightReport.t :=
  self ← get;
  let required := required_vehicle_ids (FleetPreparation.deployment self) in
  let approved_ids := PreflightReport.vehicle_id <$>
                      filter (fun r => PreflightReport.approved r = true) reports in
  let approved := bool_decide (failed = []) && forallb (fun id => id ∈? approved_ids) required in
  let report := FleetPreflightReport.mk (FleetPreparation.execution_session_id self) approved
                  required reports (sorted_set failed) in
  _ ← validated "FleetPreflightReport" (FleetPreflightReport_valid report) tt;
  _ ← modify (FleetPreparation.set_preflight (Some report));
  _ ← set_status (if approved then ExecutionSessionStatus.READY else ExecutionSessionStatus.FAULT);
  mret report.

Definition run_preflight (allow_simulation_low_battery : bool) : prep FleetPreflightReport.t :=
  self ← sync get;
  result ← preflight_each ("prepare:" +:+ FleetPreparation.execution_session_id self)
             allow_simulation_low_battery
             (DeploymentManifest.fleet (FleetPreparation.deployment self)) [] [];
  sync (preflight_finished result.1 result.2).

(** ** The start of a mission *)

Definition require_ready : M Prep unit :=
  _ ← mark_stale_observations None;
  self ← get;
  let required := required_vehicle_ids (FleetPreparation.deployment self) in
  let unready := filter (fun l => (FleetVehicleLifecycle.vehicle_id l ∈? required)
                                  && (negb (prepared l)
                                      || negb (FleetVehicleLifecycle.preflight_approved l)) = true)
                   (dict_values (FleetPreparation._records self)) in
  raise_if (match FleetPreparation._preflight self with
            | Some p => negb (FleetPreflightReport.approved p)
            | None => true
            end || negb (bool_decide (length unready = 0%nat)))
    (CrazySwarmError PREFLIGHT_FAILED "required fleet is not prepared and ready").

(** ** Recovery and the end *)

Definition retry_starts (vehicle_id : string) (lifecycle : FleetVehicleLifecycle.t) : M Prep unit :=
  _ ← set_record vehicle_id
        (FleetVehicleLifecycle.set_fault_reason None
           (FleetVehicleLifecycle.set_readiness_reason "WAITING_FOR_CONNECTION"
              (FleetVehicleLifecycle.set_readiness_samples 0
                 (FleetVehicleLifecycle.set_preflight_approved false
                    (FleetVehicleLifecycle.set_observation ObservationState.NOT_OBSERVED
                       (FleetVehicleLifecycle.set_connection ConnectionState.CONNECTING
                          lifecycle))))));
  emit vehicle_id "CONNECTION_RETRY".

Definition retry_connected (vehicle_id : string) (telemetry : TelemetryEnvelope.t) :
    M Prep bool :=
  lifecycle ← vehicle vehicle_id;
  _ ← set_record vehicle_id
        (FleetVehicleLifecycle.set_latest_telemetry (Some telemetry)
           (FleetVehicleLifecycle.set_connection ConnectionState.READY lifecycle));
  _ ← emit vehicle_id "CONNECTION_READY";
  self ← get;
  mret (is_some (FleetPreparation._observation_started_at self)).

Definition retry_vehicle (vehicle_id : string) : prep FleetVehicleLifecycle.t :=
  started ← sync (
    lifecycle ← vehicle vehicle_id;
    _ ← raise_if (FleetVehicleLifecycle.registration lifecycle ≠? RegistrationState.VERIFIED)
          (CrazySwarmError IDENTITY_MISMATCH "vehicle identity is not verified");
    state ← on_supervisor (a ← session vehicle_id; x ← deref a; mret (VehicleSession.state x));
    mret (lifecycle, state));
  _ ← (if started.2 ≟ VehicleState.FAULT then via_supervisor (disconnect vehicle_id None)
       else mret tt);
  _ ← sync (retry_starts vehicle_id started.1);
  telemetry ← via_supervisor (connect vehicle_id);
  observing ← sync (retry_connected vehicle_id telemetry);
  _ ← (if observing : bool then discard refresh_observations else mret tt);
  sync (vehicle vehicle_id).

Definition disconnected_safe (vehicle_id : string) : M Prep unit :=
  lifecycle ← vehicle vehicle_id;
  let observation := if is_some (FleetVehicleLifecycle.latest_telemetry lifecycle)
                     then ObservationState.COMPLETED_SNAPSHOT else ObservationState.NOT_OBSERVED in
  _ ← set_record vehicle_id
        (FleetVehicleLifecycle.set_readiness_reason "TERMINAL_SNAPSHOT"
           (FleetVehicleLifecycle.set_preflight_approved false
              (FleetVehicleLifecycle.set_observation observation
                 (FleetVehicleLifecycle.set_connection ConnectionState.DISCONNECTED lifecycle))));
  emit vehicle_id "DISCONNECTED_SAFE".

Definition disconnect_vehicle (vehicle_id : string) : prep unit :=
  state ← sync (on_supervisor (a ← session vehicle_id; x ← deref a; mret (VehicleSession.state x)));
  if state ≟ VehicleState.DISCONNECTED then mret tt
  else
    _ ← via_supervisor (disconnect vehicle_id None);
    sync (disconnected_safe vehicle_id).

Definition disconnect_all_safe : prep ExecutionSessionRecord.t :=
  self ← sync get;
  _ ← co_for_each (sorted_keys (FleetPreparation._vehicles self)) disconnect_vehicle;
  sync (_ ← set_status ExecutionSessionStatus.CLOSED; record).
End preparation.

(** ** The trace for comparisons between backends *)

Module TraceEntry.
Record t := mk {
  vehicle_id : string;
  event_type : string;
  registration : string;
  connection : string;
  mission_role : string;
  observation : string;
}.
End TraceEntry.

Definition normalized_trace (self : Prep) : list TraceEntry.t :=
  (fun event =>
     TraceEntry.mk (PreparationEvent.vehicle_id event) (PreparationEvent.event_type event)
       (RegistrationState_value (PreparationEvent.registration event))
       (ConnectionState_value (PreparationEvent.connection event))
       (MissionRoleState_value (PreparationEvent.mission_role event))
       (ObservationState_value (PreparationEvent.observation event)))
  <$> FleetPreparation._events self.
