(* ===== verification/Observability.v ===== *)
(** * Evidence: events, fan-out and replay ([observability/events.py],
    [observability/bus.py], [observability/replay.py], [observability/bridge.py])

    Everything the system does is published as evidence events.  The bus hands
    each event to the bounded buffer of every subscriber that wants it, without
    ever waiting for one: a slow subscriber loses its oldest events.  The bridge
    turns the notifications of the supervisor into events; the replay clock
    plays recorded events back in their order.

    Subscriptions are objects with an identity, kept in a store and referred to
    by index; the bus holds the set of references. *)

From S2P Require Import Prelude Float64 Effects Contracts Artifacts Safety Telemetry Commands.
From S2P Require Import Missions Coroutines Supervisor.

(** ** Events ([observability/events.py]) *)

Module EvidenceKind.
Inductive t :=
| TELEMETRY | COMMAND | ACKNOWLEDGEMENT | STATE | FAULT | OPERATOR_ACTION
| MISSION_STARTED | MISSION_EVENT | MISSION_RESULT.
End EvidenceKind.
#[export] Instance EvidenceKind_eq_dec : EqDecision EvidenceKind.t.
Proof. solve_decision. Defined.

(** [EvidencePayload], the union discriminated by [payload_type] *)
Module EvidencePayload.
Inductive t :=
| TelemetryPayload (telemetry : TelemetryEnvelope.t)
| CommandPayload (command : CommandEnvelope.t)
| AcknowledgementPayload (acknowledgement : CommandAcknowledgement.t)
| StatePayload (event : SafetyEvent.t)
| FaultPayload (code message : string)
| OperatorActionPayload (client_id action request_id : string)
| MissionStartedPayload (run : MissionRunSnapshot.t) (software_version : string)
    (configuration_schema_version : Z)
| MissionEventPayload (event : MissionRunEvent.t)
| MissionResultPayload (result : MissionResult.t).
End EvidencePayload.

(** [payload_type] *)
Definition event_kind_for_payload (p : EvidencePayload.t) : EvidenceKind.t :=
  match p with
  | EvidencePayload.TelemetryPayload _ => EvidenceKind.TELEMETRY
  | EvidencePayload.CommandPayload _ => EvidenceKind.COMMAND
  | EvidencePayload.AcknowledgementPayload _ => EvidenceKind.ACKNOWLEDGEMENT
  | EvidencePayload.StatePayload _ => EvidenceKind.STATE
  | EvidencePayload.FaultPayload _ _ => EvidenceKind.FAULT
  | EvidencePayload.OperatorActionPayload _ _ _ => EvidenceKind.OPERATOR_ACTION
  | EvidencePayload.MissionStartedPayload _ _ _ => EvidenceKind.MISSION_STARTED
  | EvidencePayload.MissionEventPayload _ => EvidenceKind.MISSION_EVENT
  | EvidencePayload.MissionResultPayload _ => EvidenceKind.MISSION_RESULT
  end.

(** The constraints of the fields the payload models add. *)
Definition EvidencePayload_valid (p : EvidencePayload.t) : bool :=
  match p with
  | EvidencePayload.OperatorActionPayload client_id _ request_id =>
      is_identifier client_id && is_identifier request_id
  | EvidencePayload.MissionStartedPayload _ _ version => 1 <=? version
  | _ => true
  end.

(** [recorded_at_utc] is the POSIX time of the stamp, what [timestamp()] gives. *)
Module EvidenceEvent.
Record t := mk {
  event_id : string;
  sequence : Z;
  kind : EvidenceKind.t;
  vehicle_id : string;
  run_id : string;
  mode : OperatingMode.t;
  source : string;
  source_timestamp_s : float;
  received_timestamp_s : float;
  recorded_at_utc : float;
  unit : string;
  frame : option CoordinateFrame.t;
  payload : EvidencePayload.t;
}.

(** [model_copy(update={"sequence": ...})] *)
Definition set_sequence (n : Z) (e : t) : t :=
  {| event_id := event_id e; sequence := n; kind := kind e; vehicle_id := vehicle_id e;
     run_id := run_id e; mode := mode e; source := source e;
     source_timestamp_s := source_timestamp_s e; received_timestamp_s := received_timestamp_s e;
     recorded_at_utc := recorded_at_utc e; unit := unit e; frame := frame e;
     payload := payload e |}.
End EvidenceEvent.

Definition EvidenceEvent_valid (e : EvidenceEvent.t) : bool :=
  is_identifier (EvidenceEvent.event_id e) && (0 <=? EvidenceEvent.sequence e)
  && is_identifier (EvidenceEvent.vehicle_id e) && is_identifier (EvidenceEvent.run_id e)
  && is_identifier (EvidenceEvent.source e)
  && ge0 (EvidenceEvent.source_timestamp_s e) && ge0 (EvidenceEvent.received_timestamp_s e)
  && (1 <=? str_len (EvidenceEvent.unit e))
  && EvidencePayload_valid (EvidenceEvent.payload e).

Module BusStats.
Record t := mk { published_events : Z; subscriber_count : Z; dropped_events : Z }.
End BusStats.

(** ** [asyncio.Queue]

    The synchronous operations of the library's queue; [get] waits until
    [get_nowait] succeeds. *)
Module Queue.
Record t := mk {
  maxsize : Z;
  items : list EvidenceEvent.t;
  unfinished_tasks : Z;
}.

Definition full (q : t) : bool :=
  (0 <? maxsize q) && (maxsize q <=? Z.of_nat (length (items q))).

Definition put_nowait (e : EvidenceEvent.t) (q : t) : outcome t :=
  if full q then Raise (OtherError "QueueFull")
  else Ret (mk (maxsize q) (items q ++ [e]) (unfinished_tasks q + 1)).

Definition get_nowait (q : t) : outcome (EvidenceEvent.t * t) :=
  match items q with
  | [] => Raise (OtherError "QueueEmpty")
  | e :: rest => Ret (e, mk (maxsize q) rest (unfinished_tasks q))
  end.

Definition task_done (q : t) : outcome t :=
  if unfinished_tasks q <=? 0 then Raise (ValueError "task_done() called too many times")
  else Ret (mk (maxsize q) (items q) (unfinished_tasks q - 1)).
End Queue.

Definition is_QueueEmpty (e : exn) : bool := e ≟ OtherError "QueueEmpty".

(** ** The bus ([observability/bus.py]) *)

Module TelemetrySubscription.
Record t := mk {
  queue : Queue.t;
  kinds : option (list EvidenceKind.t);
  vehicle_ids : option (list string);
  minimum_telemetry_interval_s : float;
  dropped_events : Z;
  _last_telemetry_at : dict float;
  _closed : bool;
}.

Definition set_queue (q : Queue.t) (s : t) : t :=
  mk q (kinds s) (vehicle_ids s) (minimum_telemetry_interval_s s) (dropped_events s)
    (_last_telemetry_at s) (_closed s).
Definition set_dropped_events (n : Z) (s : t) : t :=
  mk (queue s) (kinds s) (vehicle_ids s) (minimum_telemetry_interval_s s) n
    (_last_telemetry_at s) (_closed s).
Definition set_last_telemetry_at (d : dict float) (s : t) : t :=
  mk (queue s) (kinds s) (vehicle_ids s) (minimum_telemetry_interval_s s) (dropped_events s) d
    (_closed s).
Definition set_closed (b : bool) (s : t) : t :=
  mk (queue s) (kinds s) (vehicle_ids s) (minimum_telemetry_interval_s s) (dropped_events s)
    (_last_telemetry_at s) b.
End TelemetrySubscription.

(** [objects] are the subscriptions ever created. *)
Module TelemetryBus.
Record t := mk {
  objects : list TelemetrySubscription.t;
  _sequence : Z;
  _subscriptions : list nat;
  _published_events : Z;
  _dropped_events : Z;
}.

Definition set_objects (l : list TelemetrySubscription.t) (b : t) : t :=
  mk l (_sequence b) (_subscriptions b) (_published_events b) (_dropped_events b).
Definition set_sequence (n : Z) (b : t) : t :=
  mk (objects b) n (_subscriptions b) (_published_events b) (_dropped_events b).
Definition set_subscriptions (l : list nat) (b : t) : t :=
  mk (objects b) (_sequence b) l (_published_events b) (_dropped_events b).
Definition set_published_events (n : Z) (b : t) : t :=
  mk (objects b) (_sequence b) (_subscriptions b) n (_dropped_events b).
Definition set_dropped_events (n : Z) (b : t) : t :=
  mk (objects b) (_sequence b) (_subscriptions b) (_published_events b) n.
End TelemetryBus.

Notation Bus := TelemetryBus.t.
Notation sub_ref := nat (only parsing).

Definition TelemetryBus_new : Bus := TelemetryBus.mk [] 0 [] 0 0.

(** [accepts]: the answer, and the subscription with the time it remembers. *)
Definition accepts (event : EvidenceEvent.t) (self : TelemetrySubscription.t) :
    bool * TelemetrySubscription.t :=
  if TelemetrySubscription._closed self then (false, self)
  else if match TelemetrySubscription.kinds self with
          | Some kinds => negb (EvidenceEvent.kind event ∈? kinds)
          | None => false
          end then (false, self)
  else if match TelemetrySubscription.vehicle_ids self with
          | Some ids => negb (EvidenceEvent.vehicle_id event ∈? ids)
          | None => false
          end then (false, self)
  else if (EvidenceEvent.kind event ≟ EvidenceKind.TELEMETRY)
          && fltb f0 (TelemetrySubscription.minimum_telemetry_interval_s self)
  then
    if match dict_get (EvidenceEvent.vehicle_id event)
               (TelemetrySubscription._last_telemetry_at self) with
       | Some previous => fltb (fsub (EvidenceEvent.received_timestamp_s event) previous)
                            (TelemetrySubscription.minimum_telemetry_interval_s self)
       | None => false
       end
    then (false, self)
    else (true, TelemetrySubscription.set_last_telemetry_at
                  (dict_set (EvidenceEvent.vehicle_id event)
                     (EvidenceEvent.received_timestamp_s event)
                     (TelemetrySubscription._last_telemetry_at self)) self)
  else (true, self).

(** Access to a subscription. *)
Definition sub_deref (a : sub_ref) : M Bus TelemetrySubscription.t :=
  b ← get;
  match TelemetryBus.objects b !! a with
  | Some x => mret x
  | None => raise (OtherError "dangling subscription")
  end.

Definition sub_assign (f : TelemetrySubscription.t -> TelemetrySubscription.t) (a : sub_ref) :
    M Bus unit :=
  modify (fun b => TelemetryBus.set_objects (alter f a (TelemetryBus.objects b)) b).

(** An operation of the subscription's queue. *)
Definition with_queue {A} (f : Queue.t -> outcome (A * Queue.t)) (a : sub_ref) : M Bus A :=
  x ← sub_deref a;
  r ← lift (f (TelemetrySubscription.queue x));
  _ ← sub_assign (TelemetrySubscription.set_queue r.2) a;
  mret r.1.

Definition queue_get_nowait : sub_ref -> M Bus EvidenceEvent.t := with_queue Queue.get_nowait.
Definition queue_task_done : sub_ref -> M Bus unit :=
  with_queue (fun q => q' ← Queue.task_done q; Ret (tt, q')).
Definition queue_put_nowait (e : EvidenceEvent.t) : sub_ref -> M Bus unit :=
  with_queue (fun q => q' ← Queue.put_nowait e q; Ret (tt, q')).

(** [TelemetrySubscription.get_nowait]; [get] waits for an event first. *)
Definition get_nowait (a : sub_ref) : M Bus EvidenceEvent.t :=
  event ← queue_get_nowait a;
  _ ← queue_task_done a;
  mret event.

Definition unsubscribe (a : sub_ref) : M Bus unit :=
  modify (fun b => TelemetryBus.set_subscriptions
                     (filter (fun c => c <> a) (TelemetryBus._subscriptions b)) b).

(** [TelemetrySubscription.close] *)
Definition close (a : sub_ref) : M Bus unit :=
  x ← sub_deref a;
  if TelemetrySubscription._closed x then mret tt
  else
    _ ← sub_assign (TelemetrySubscription.set_closed true) a;
    unsubscribe a.

Definition subscribe (buffer_size : Z) (max_telemetry_rate_hz : option float)
    (kinds : option (list EvidenceKind.t)) (vehicle_ids : option (list string)) :
    M Bus sub_ref :=
  _ ← raise_if (buffer_size <=? 0) (ValueError "buffer_size must be positive");
  _ ← raise_if (match max_telemetry_rate_hz with Some r => fleb r f0 | None => false end)
        (ValueError "max_telemetry_rate_hz must be positive");
  interval ← lift (match max_telemetry_rate_hz with
                   | None => Ret f0
                   | Some r => py_div f1 r
                   end);
  b ← get;
  let a := length (TelemetryBus.objects b) in
  let x := TelemetrySubscription.mk (Queue.mk buffer_size [] 0) kinds vehicle_ids interval 0 [] false in
  _ ← modify (fun b => TelemetryBus.set_subscriptions (TelemetryBus._subscriptions b ++ [a])
                         (TelemetryBus.set_objects (TelemetryBus.objects b ++ [x]) b));
  mret a.

(** The body of the loop of [publish_nowait]. *)
Definition deliver (sequenced : EvidenceEvent.t) (a : sub_ref) : M Bus unit :=
  x ← sub_deref a;
  let '(accepted, x') := accepts sequenced x in
  _ ← sub_assign (fun _ => x') a;
  if accepted : bool then
    _ ← (if Queue.full (TelemetrySubscription.queue x') then
           _ ← try_except (_ ← queue_get_nowait a; queue_task_done a) is_QueueEmpty
                 (fun _ => mret tt);
           _ ← sub_assign (fun x => TelemetrySubscription.set_dropped_events
                                      (TelemetrySubscription.dropped_events x + 1) x) a;
           modify (fun b => TelemetryBus.set_dropped_events
                              (TelemetryBus._dropped_events b + 1) b)
         else mret tt);
    queue_put_nowait sequenced a
  else mret tt.

Definition publish_nowait (event : EvidenceEvent.t) : M Bus EvidenceEvent.t :=
  _ ← modify (fun b => TelemetryBus.set_sequence (TelemetryBus._sequence b + 1) b);
  b ← get;
  let sequenced := EvidenceEvent.set_sequence (TelemetryBus._sequence b) event in
  _ ← modify (fun b => TelemetryBus.set_published_events (TelemetryBus._published_events b + 1) b);
  _ ← for_each (TelemetryBus._subscriptions b) (deliver sequenced);
  mret sequenced.

Definition stats (b : Bus) : BusStats.t :=
  BusStats.mk (TelemetryBus._published_events b)
    (Z.of_nat (length (TelemetryBus._subscriptions b))) (TelemetryBus._dropped_events b).

(** ** Replay ([observability/replay.py]) *)

Module ReplayClock.
Record t := mk {
  events : list EvidenceEvent.t;
  speed : float;
  index : nat;
  paused : bool;
}.
End ReplayClock.
Notation Replay := ReplayClock.t.

Definition event_sequence_ltb (e1 e2 : EvidenceEvent.t) : bool :=
  EvidenceEvent.sequence e1 <? EvidenceEvent.sequence e2.

Definition ReplayClock_init (events : list EvidenceEvent.t) (speed : float) : outcome Replay :=
  if fleb speed f0 then Raise (ValueError "replay speed must be positive")
  else Ret (ReplayClock.mk (py_sorted event_sequence_ltb events) speed 0 false).

Definition timeline_s (e : EvidenceEvent.t) : float := EvidenceEvent.recorded_at_utc e.

(** [now_s]; [self.events[...]] is in range whenever it is read. *)
Definition now_s (self : Replay) : outcome float :=
  let events := ReplayClock.events self in
  match events with
  | [] => Ret f0
  | _ =>
      let i := if (ReplayClock.index self =? 0)%nat then 0%nat
               else Nat.min (ReplayClock.index self - 1) (length events - 1) in
      match events !! i with
      | Some e => Ret (timeline_s e)
      | None => Raise (OtherError "IndexError")
      end
  end.

Definition pause : M Replay unit :=
  modify (fun self => ReplayClock.mk (ReplayClock.events self) (ReplayClock.speed self)
                        (ReplayClock.index self) true).
Definition resume : M Replay unit :=
  modify (fun self => ReplayClock.mk (ReplayClock.events self) (ReplayClock.speed self)
                        (ReplayClock.index self) false).

Definition set_speed (speed : float) : M Replay unit :=
  _ ← raise_if (fleb speed f0) (ValueError "replay speed must be positive");
  modify (fun self => ReplayClock.mk (ReplayClock.events self) speed (ReplayClock.index self)
                        (ReplayClock.paused self)).

(** [next((index for index, event in enumerate(events) if ...), len(events))] *)
Fixpoint first_index (p : EvidenceEvent.t -> bool) (l : list EvidenceEvent.t) : nat :=
  match l with
  | [] => 0
  | e :: l' => if p e then 0 else S (first_index p l')
  end%nat.

Definition seek (timestamp_s : float) : M Replay unit :=
  _ ← raise_if (fltb timestamp_s f0) (ValueError "replay timestamp cannot be negative");
  modify (fun self =>
    ReplayClock.mk (ReplayClock.events self) (ReplayClock.speed self)
      (first_index (fun e => fleb timestamp_s (timeline_s e)) (ReplayClock.events self))
      (ReplayClock.paused self)).

Definition step : M Replay (option EvidenceEvent.t) :=
  self ← get;
  if (length (ReplayClock.events self) <=? ReplayClock.index self)%nat then mret None
  else
    match ReplayClock.events self !! ReplayClock.index self with
    | None => raise (OtherError "IndexError")
    | Some event =>
        _ ← put (ReplayClock.mk (ReplayClock.events self) (ReplayClock.speed self)
                   (ReplayClock.index self + 1) (ReplayClock.paused self));
        mret (Some event)
    end.

(** ** The bridge ([observability/bridge.py]) *)

(** [uuid.uuid4().hex] and [datetime.now(UTC)], read like the clock. *)
Class Wall := {
  uuid_hex : nat -> string;
  utc_now : nat -> float;
}.

Definition read_uuid {S} `{Wall} : M S string := fun s n => (Ret (uuid_hex n), s, Datatypes.S n).
Definition read_utc {S} `{Wall} : M S float := fun s n => (Ret (utc_now n), s, Datatypes.S n).

Definition CommandSource_value (s : CommandSource.t) : string :=
  match s with
  | CommandSource.CLI => "CLI" | CommandSource.UI => "UI" | CommandSource.MISSION => "MISSION"
  | CommandSource.SUPERVISOR => "SUPERVISOR" | CommandSource.TEST => "TEST"
  end.

(** [str.lower] and [sub in s] on ASCII *)
Fixpoint py_lower (s : string) : string :=
  match s with
  | EmptyString => EmptyString
  | String c s' =>
      String (if between 65 90 c then Ascii.ascii_of_N (Ascii.N_of_ascii c + 32) else c) (py_lower s')
  end.

Definition str_contains (sub s : string) : bool := is_some (String.index 0 sub s).

Module EvidenceBridge.
Record t := mk {
  bus : Bus;
  configuration_schema_version : Z;
  _system_run_id : string;
  _active_runs : dict string;
  _commands : dict (string * OperatingMode.t);
}.

Definition set_bus (b : Bus) (r : t) : t :=
  mk b (configuration_schema_version r) (_system_run_id r) (_active_runs r) (_commands r).
Definition set_active_runs (d : dict string) (r : t) : t :=
  mk (bus r) (configuration_schema_version r) (_system_run_id r) d (_commands r).
Definition set_commands (d : dict (string * OperatingMode.t)) (r : t) : t :=
  mk (bus r) (configuration_schema_version r) (_system_run_id r) (_active_runs r) d.
End EvidenceBridge.
Notation Bridge := EvidenceBridge.t.

Section bridge.
Context `{CK : Clock} `{WL : Wall}.

(** [__version__] of the package *)
Context (software_version : string).

Definition EvidenceBridge_init (bus : Bus) (configuration_schema_version : Z) : M unit Bridge :=
  id ← read_uuid;
  mret (EvidenceBridge.mk bus configuration_schema_version ("system-" +:+ id) [] []).

Definition run_for_vehicle (self : Bridge) (vehicle_id : string) : string :=
  default (EvidenceBridge._system_run_id self)
    (dict_get vehicle_id (EvidenceBridge._active_runs self)).

Definition vehicle_for_run (self : Bridge) (run_id : string) : string :=
  match find_first (fun kv => String.eqb kv.2 run_id) (EvidenceBridge._active_runs self) with
  | Some (vehicle_id, _) => vehicle_id
  | None => "system"
  end.

(** [_publish] *)
Definition publish (vehicle_id run_id : string) (mode : OperatingMode.t) (source : string)
    (timestamp_s : float) (unit : string) (frame : option CoordinateFrame.t)
    (payload : EvidencePayload.t) (received_timestamp_s : option float) :
    M Bridge EvidenceEvent.t :=
  id ← read_uuid;
  received ← match received_timestamp_s with Some t => mret t | None => read_clock end;
  recorded ← read_utc;
  let event := EvidenceEvent.mk ("evt-" +:+ id) 0 (event_kind_for_payload payload) vehicle_id run_id
                 mode source timestamp_s received recorded unit frame payload in
  _ ← validated "EvidenceEvent" (EvidenceEvent_valid event) tt;
  zoom EvidenceBridge.bus EvidenceBridge.set_bus (publish_nowait event).

(** The callbacks take the value of [mode_provider()]. *)

Definition mission_started (mode_now : OperatingMode.t) (run : MissionRunSnapshot.t) :
    M Bridge unit :=
  _ ← modify (fun self => EvidenceBridge.set_active_runs
        (dict_set (MissionRunSnapshot.vehicle_id run) (MissionRunSnapshot.mission_run_id run)
           (EvidenceBridge._active_runs self)) self);
  self ← get;
  _ ← publish (MissionRunSnapshot.vehicle_id run) (MissionRunSnapshot.mission_run_id run)
        (MissionRunSnapshot.mode run) "mission-runner"
        (MissionRunSnapshot.started_at_monotonic_s run) "event" (Some CoordinateFrame.WORLD)
        (EvidencePayload.MissionStartedPayload run software_version
           (EvidenceBridge.configuration_schema_version self)) None;
  mret tt.

Definition mission_event (mode_now : OperatingMode.t) (event : MissionRunEvent.t) :
    M Bridge unit :=
  self ← get;
  _ ← publish (vehicle_for_run self (MissionRunEvent.mission_run_id event))
        (MissionRunEvent.mission_run_id event) mode_now "mission-runner"
        (MissionRunEvent.timestamp_monotonic_s event) "event" (Some CoordinateFrame.WORLD)
        (EvidencePayload.MissionEventPayload event) None;
  mret tt.

Definition mission_finished (mode_now : OperatingMode.t) (result : MissionResult.t) :
    M Bridge unit :=
  _ ← publish (MissionResult.vehicle_id result) (MissionResult.mission_run_id result)
        (MissionResult.mode result) "mission-runner"
        (MissionResult.finished_at_monotonic_s result) "event" (Some CoordinateFrame.WORLD)
        (EvidencePayload.MissionResultPayload result) None;
  modify (fun self => EvidenceBridge.set_active_runs
    (dict_del (MissionResult.vehicle_id result) (EvidenceBridge._active_runs self)) self).

(** [command.mission_run_id or self._run_for_vehicle(...)] *)
Definition command_run (self : Bridge) (command : CommandEnvelope.t) : string :=
  if falsy (CommandEnvelope.mission_run_id command)
  then run_for_vehicle self (CommandEnvelope.vehicle_id command)
  else default "" (CommandEnvelope.mission_run_id command).

Definition bridge_command_sent (mode_now : OperatingMode.t) (command : CommandEnvelope.t) :
    M Bridge unit :=
  self ← get;
  let run_id := command_run self command in
  _ ← modify (fun self => EvidenceBridge.set_commands
        (dict_set (CommandEnvelope.command_id command) (run_id, CommandEnvelope.mode command)
           (EvidenceBridge._commands self)) self);
  _ ← publish (CommandEnvelope.vehicle_id command) run_id (CommandEnvelope.mode command)
        (py_lower (CommandSource_value (CommandEnvelope.source command)))
        (CommandEnvelope.issued_at_monotonic_s command) "command" (Some CoordinateFrame.WORLD)
        (EvidencePayload.CommandPayload command) None;
  mret tt.

Definition bridge_command_acknowledged (mode_now : OperatingMode.t)
    (acknowledgement : CommandAcknowledgement.t) : M Bridge unit :=
  self ← get;
  let '(run_id, mode) :=
    default (run_for_vehicle self (CommandAcknowledgement.vehicle_id acknowledgement), mode_now)
      (dict_get (CommandAcknowledgement.command_id acknowledgement)
         (EvidenceBridge._commands self)) in
  _ ← publish (CommandAcknowledgement.vehicle_id acknowledgement) run_id mode "vehicle-adapter"
        (CommandAcknowledgement.received_at_monotonic_s acknowledgement) "acknowledgement"
        (Some CoordinateFrame.WORLD) (EvidencePayload.AcknowledgementPayload acknowledgement) None;
  mret tt.

(** The condition of the second event of [safety_event]. *)
Definition is_fault (event : SafetyEvent.t) : bool :=
  (match SafetyEvent.to_state event with
   | Some s => s ∈? [VehicleState.FAULT; VehicleState.EMERGENCY]
   | None => false
   end)
  || existsb (fun marker => str_contains marker (SafetyEvent.event_type event))
       ["FAULT"; "TIMEOUT"; "EXPIRED"].

Definition bridge_safety_event (mode_now : OperatingMode.t) (event : SafetyEvent.t) :
    M Bridge unit :=
  self ← get;
  let run_id := run_for_vehicle self (SafetyEvent.vehicle_id event) in
  _ ← publish (SafetyEvent.vehicle_id event) run_id mode_now
        (py_lower (CommandSource_value (SafetyEvent.source event)))
        (SafetyEvent.timestamp_monotonic_s event) "event" (Some CoordinateFrame.WORLD)
        (EvidencePayload.StatePayload event) None;
  if is_fault event then
    _ ← publish (SafetyEvent.vehicle_id event) run_id mode_now "safety-supervisor"
          (SafetyEvent.timestamp_monotonic_s event) "fault" (Some CoordinateFrame.WORLD)
          (EvidencePayload.FaultPayload (SafetyEvent.event_type event) (SafetyEvent.message event))
          None;
    mret tt
  else mret tt.

Definition bridge_telemetry_received (mode_now : OperatingMode.t) (telemetry : TelemetryEnvelope.t) :
    M Bridge unit :=
  self ← get;
  _ ← publish (TelemetryEnvelope.vehicle_id telemetry)
        (run_for_vehicle self (TelemetryEnvelope.vehicle_id telemetry)) mode_now "vehicle-adapter"
        (TelemetryEnvelope.source_timestamp_s telemetry) "SI"
        (VehicleTelemetry.frame (TelemetryEnvelope.telemetry telemetry))
        (EvidencePayload.TelemetryPayload telemetry)
        (Some (TelemetryEnvelope.received_timestamp_s telemetry));
  mret tt.

Definition operator_action (mode_now : OperatingMode.t)
    (vehicle_id client_id request_id action : string) : M Bridge unit :=
  now ← read_clock;
  self ← get;
  payload ← validated "OperatorActionPayload" (is_identifier client_id && is_identifier request_id)
              (EvidencePayload.OperatorActionPayload client_id action request_id);
  _ ← publish vehicle_id (run_for_vehicle self vehicle_id) mode_now "operator" now "action"
        (Some CoordinateFrame.WORLD) payload None;
  mret tt.

(** The bridge as an audit sink of the supervisor. *)
Definition bridge_notified (mode_now : OperatingMode.t) (n : Notification) : M Bridge unit :=
  match n with
  | command_sent c => bridge_command_sent mode_now c
  | command_acknowledged a => bridge_command_acknowledged mode_now a
  | safety_event e => bridge_safety_event mode_now e
  | telemetry_received t => bridge_telemetry_received mode_now t
  end.
End bridge.
