(* ===== verification/Evidence.v ===== *)
(** * What the evidence pipeline promises

    The bus against its specification, a history per subscriber; the replay
    clock; and the bridge, which files what the supervisor notifies. *)

From S2P Require Import Prelude Float64 Effects Contracts Artifacts Safety Telemetry Commands.
From S2P Require Import Coroutines Supervisor Observability.

(** ** Delivery as a function *)

(** The subscription after an event was offered to it, and whether that cost it
    its oldest event. *)
Definition offered (e : EvidenceEvent.t) (x : TelemetrySubscription.t) : TelemetrySubscription.t :=
  let '(accepted, x') := accepts e x in
  let q := TelemetrySubscription.queue x' in
  if negb accepted then x'
  else if Queue.full q then
    TelemetrySubscription.set_queue
      (Queue.mk (Queue.maxsize q) (tail (Queue.items q) ++ [e]) (Queue.unfinished_tasks q))
      (TelemetrySubscription.set_dropped_events (TelemetrySubscription.dropped_events x' + 1) x')
  else
    TelemetrySubscription.set_queue
      (Queue.mk (Queue.maxsize q) (Queue.items q ++ [e]) (Queue.unfinished_tasks q + 1)) x'.

Definition overflows (e : EvidenceEvent.t) (x : TelemetrySubscription.t) : bool :=
  (accepts e x).1 && Queue.full (TelemetrySubscription.queue x).

Definition delivered (e : EvidenceEvent.t) (b : Bus) (a : sub_ref) : Bus :=
  match TelemetryBus.objects b !! a with
  | Some x =>
      TelemetryBus.set_dropped_events
        (TelemetryBus._dropped_events b + (if overflows e x then 1 else 0))
        (TelemetryBus.set_objects (<[a := offered e x]> (TelemetryBus.objects b)) b)
  | None => b
  end.

(** What delivery relies on: the buffer has room for something, and every event
    in it is still to be marked as done. *)
Definition queue_ok (q : Queue.t) : Prop :=
  0 < Queue.maxsize q /\ Z.of_nat (length (Queue.items q)) <= Queue.maxsize q /\
  Z.of_nat (length (Queue.items q)) <= Queue.unfinished_tasks q.

Lemma accepts_keeps e x :
  TelemetrySubscription.queue (accepts e x).2 = TelemetrySubscription.queue x /\
  TelemetrySubscription.dropped_events (accepts e x).2 = TelemetrySubscription.dropped_events x /\
  TelemetrySubscription.minimum_telemetry_interval_s (accepts e x).2 =
    TelemetrySubscription.minimum_telemetry_interval_s x.
Proof. unfold accepts. repeat case_match; done. Qed.

Lemma list_alter_insert {A} (f : A -> A) (l : list A) a x :
  l !! a = Some x -> alter f a l = <[a := f x]> l.
Proof.
  intros Hx. apply list_eq. intros i. destruct (decide (i = a)) as [->|Hne].
  - rewrite list_lookup_alter_eq, list_lookup_insert_eq, Hx; [done|by eapply lookup_lt_Some].
  - by rewrite list_lookup_alter_ne, list_lookup_insert_ne.
Qed.

Lemma list_alter_of_insert {A} (f : A -> A) (l : list A) a x :
  alter f a (<[a := x]> l) = <[a := f x]> l.
Proof.
  destruct (decide (a < length l)%nat) as [Ha|Ha].
  - rewrite (list_alter_insert f _ a x) by (by apply list_lookup_insert_eq).
    apply list_insert_insert_eq.
  - rewrite !list_insert_ge by lia. apply list_eq. intros i.
    destruct (decide (a = i)) as [<-|]; [|by rewrite list_lookup_alter_ne].
    by rewrite list_lookup_alter_eq, lookup_ge_None_2 by lia.
Qed.

Lemma full_spec q : queue_ok q -> Queue.full q = true ->
  Z.of_nat (length (Queue.items q)) = Queue.maxsize q.
Proof.
  unfold Queue.full, queue_ok. destruct (Z.ltb_spec 0 (Queue.maxsize q)), (Z.leb_spec (Queue.maxsize q)
    (Z.of_nat (length (Queue.items q)))); simpl; lia || done.
Qed.

Lemma full_false q : queue_ok q -> Queue.full q = false ->
  Z.of_nat (length (Queue.items q)) < Queue.maxsize q.
Proof.
  unfold Queue.full, queue_ok. destruct (Z.ltb_spec 0 (Queue.maxsize q)), (Z.leb_spec (Queue.maxsize q)
    (Z.of_nat (length (Queue.items q)))); simpl; lia || done.
Qed.

Lemma deliver_run e a b n x :
  TelemetryBus.objects b !! a = Some x -> queue_ok (TelemetrySubscription.queue x) ->
  deliver e a b n = (Ret tt, delivered e b a, n).
Proof.
  intros Hx Hok. destruct (accepts_keeps e x) as (Hq & Hd & _).
  unfold delivered, overflows, offered. rewrite Hx. unfold deliver, sub_deref, sub_assign.
  destruct b as [objects sequence subscriptions published dropped]. simpl in Hx.
  unfold mbind, M_bind, get, modify, mret, M_ret. simpl. rewrite Hx.
  destruct (accepts e x) as [accepted x'] eqn:Hacc. simpl in *. rewrite <- Hq in *.
  rewrite (list_alter_insert _ _ _ _ Hx).
  assert (Ha : (a < length objects)%nat) by by eapply lookup_lt_Some.
  destruct accepted; simpl; [|by rewrite Z.add_0_r].
  unfold with_queue, queue_get_nowait, queue_put_nowait, queue_task_done, try_except, with_queue,
    sub_deref, sub_assign, lift, mbind, M_bind, get, modify, mret, M_ret.
  destruct (Queue.full (TelemetrySubscription.queue x')) eqn:Hf; simpl.
  - rewrite list_lookup_insert_eq by done. unfold Queue.get_nowait.
    pose proof (full_spec _ Hok Hf) as Hlen. destruct Hok as (Hpos & Hle & Hun).
    destruct (Queue.items (TelemetrySubscription.queue x')) as [|e0 rest] eqn:Hi; simpl in *; [lia|].
    rewrite list_alter_of_insert, list_lookup_insert_eq by done. simpl.
    unfold Queue.task_done. simpl.
    destruct (Z.leb_spec (Queue.unfinished_tasks (TelemetrySubscription.queue x')) 0); [lia|]. simpl.
    rewrite !list_alter_of_insert, list_lookup_insert_eq by done. simpl.
    unfold Queue.put_nowait, Queue.full. simpl.
    destruct (Z.leb_spec (Queue.maxsize (TelemetrySubscription.queue x')) (Z.of_nat (length rest))); [lia|].
    rewrite andb_false_r. simpl. rewrite list_alter_of_insert.
    unfold TelemetrySubscription.set_queue, TelemetrySubscription.set_dropped_events. simpl.
    by rewrite Z.sub_add.
  - rewrite list_lookup_insert_eq by done. unfold Queue.put_nowait. rewrite Hf. simpl.
    by rewrite list_alter_of_insert, Z.add_0_r.
Qed.

Lemma offered_queue_ok e x :
  queue_ok (TelemetrySubscription.queue x) -> queue_ok (TelemetrySubscription.queue (offered e x)).
Proof.
  destruct (accepts_keeps e x) as (Hq & _). unfold offered.
  destruct (accepts e x) as [accepted x'] eqn:Hacc. simpl in Hq. rewrite <- Hq. intros Hok.
  destruct accepted; simpl; [|done].
  destruct (Queue.full _) eqn:Hf; simpl; unfold queue_ok; simpl.
  - pose proof (full_spec _ Hok Hf). destruct Hok as (? & ? & ?).
    destruct (Queue.items _); simpl in *; [|rewrite length_app; simpl]; lia.
  - pose proof (full_false _ Hok Hf). destruct Hok as (? & ? & ?). rewrite length_app. simpl. lia.
Qed.

Definition queues_ok (b : Bus) : Prop :=
  forall a x, TelemetryBus.objects b !! a = Some x -> queue_ok (TelemetrySubscription.queue x).

Lemma delivered_lookup e b a c :
  TelemetryBus.objects (delivered e b a) !! c =
  if decide (c = a) then offered e <$> (TelemetryBus.objects b !! c)
  else TelemetryBus.objects b !! c.
Proof.
  unfold delivered. destruct (TelemetryBus.objects b !! a) as [x|] eqn:Hx; simpl.
  - case_decide as Hc; [subst c; rewrite Hx; simpl; apply list_lookup_insert_eq; by eapply lookup_lt_Some|].
    by rewrite list_lookup_insert_ne.
  - case_decide as Hc; [subst c; by rewrite Hx|done].
Qed.

Lemma delivered_queues_ok e b a : queues_ok b -> queues_ok (delivered e b a).
Proof.
  intros Hb c x. rewrite delivered_lookup. case_decide; [|apply Hb].
  destruct (TelemetryBus.objects b !! c) as [y|] eqn:Hy; [|done]. intros [= <-].
  by apply offered_queue_ok, (Hb c).
Qed.

Lemma deliver_all e l b n :
  queues_ok b -> Forall (fun a => is_Some (TelemetryBus.objects b !! a)) l ->
  for_each l (deliver e) b n = (Ret tt, foldl (delivered e) b l, n).
Proof.
  revert b. induction l as [|a l IH]; intros b Hb Hl; simpl; [done|].
  apply Forall_cons in Hl as [[x Hx] Hl]. unfold mbind, M_bind.
  rewrite (deliver_run e a b n x Hx (Hb a x Hx)). apply IH.
  - by apply delivered_queues_ok.
  - eapply Forall_impl; [exact Hl|]. intros c Hc. simpl in Hc. rewrite delivered_lookup.
    case_decide; [by apply fmap_is_Some|done].
Qed.

(** Delivering to several subscribers changes each of them once. *)
Lemma delivered_all_lookup e l b c :
  NoDup l ->
  TelemetryBus.objects (foldl (delivered e) b l) !! c =
  if decide (c ∈ l) then offered e <$> (TelemetryBus.objects b !! c)
  else TelemetryBus.objects b !! c.
Proof.
  revert b. induction l as [|a l IH]; intros b Hl; simpl; [done|].
  apply NoDup_cons in Hl as [Ha Hl]. rewrite IH, delivered_lookup by done.
  destruct (decide (c = a)) as [->|Hne].
  - rewrite decide_False by done. by rewrite decide_True by (by left).
  - destruct (decide (c ∈ l)) as [Hc|Hc].
    + by rewrite decide_True by (by right).
    + by rewrite decide_False by (by rewrite elem_of_cons; intros [?|?]).
Qed.

Lemma delivered_all_length e l b :
  length (TelemetryBus.objects (foldl (delivered e) b l)) = length (TelemetryBus.objects b).
Proof.
  revert b. induction l as [|a l IH]; intros b; simpl; [done|]. rewrite IH. unfold delivered.
  destruct (_ !! a); simpl; [apply length_insert|done].
Qed.

(** The events lost by all subscribers together. *)
Fixpoint total_dropped (l : list TelemetrySubscription.t) : Z :=
  match l with
  | [] => 0
  | x :: l' => TelemetrySubscription.dropped_events x + total_dropped l'
  end.

Lemma total_dropped_insert l a x y :
  l !! a = Some x ->
  total_dropped (<[a := y]> l) =
  total_dropped l + TelemetrySubscription.dropped_events y - TelemetrySubscription.dropped_events x.
Proof.
  revert a. induction l as [|z l IH]; intros [|a]; simpl; try done.
  - intros [= <-]. lia.
  - intros Hx. rewrite (IH a Hx). lia.
Qed.

Lemma offered_dropped e x :
  TelemetrySubscription.dropped_events (offered e x) =
  TelemetrySubscription.dropped_events x + (if overflows e x then 1 else 0).
Proof.
  destruct (accepts_keeps e x) as (Hq & Hd & _). unfold offered, overflows.
  destruct (accepts e x) as [accepted x']. simpl in *. rewrite <- Hq, <- Hd.
  destruct accepted; simpl; [|lia]. destruct (Queue.full _); simpl; lia.
Qed.

Lemma delivered_all_stats e l b :
  let b' := foldl (delivered e) b l in
  TelemetryBus._sequence b' = TelemetryBus._sequence b /\
  TelemetryBus._subscriptions b' = TelemetryBus._subscriptions b /\
  TelemetryBus._published_events b' = TelemetryBus._published_events b /\
  TelemetryBus._dropped_events b' - total_dropped (TelemetryBus.objects b') =
    TelemetryBus._dropped_events b - total_dropped (TelemetryBus.objects b).
Proof.
  simpl. revert b. induction l as [|a l IH]; intros b; simpl; [by split_and!|].
  destruct (IH (delivered e b a)) as (-> & -> & -> & ->). unfold delivered.
  destruct (TelemetryBus.objects b !! a) as [x|] eqn:Hx; simpl; [|by split_and!].
  split_and!; [done..|]. rewrite (total_dropped_insert _ _ _ _ Hx), offered_dropped. lia.
Qed.

(** ** Publishing *)

(** The number an event gets, and the bus after it was published. *)
Definition numbered (b : Bus) (e : EvidenceEvent.t) : EvidenceEvent.t :=
  EvidenceEvent.set_sequence (TelemetryBus._sequence b + 1) e.

Definition published (b : Bus) (e : EvidenceEvent.t) : Bus :=
  foldl (delivered (numbered b e))
    (TelemetryBus.set_published_events (TelemetryBus._published_events b + 1)
       (TelemetryBus.set_sequence (TelemetryBus._sequence b + 1) b))
    (TelemetryBus._subscriptions b).

Definition subscriptions_ok (b : Bus) : Prop :=
  NoDup (TelemetryBus._subscriptions b) /\
  Forall (fun a => is_Some (TelemetryBus.objects b !! a)) (TelemetryBus._subscriptions b).

Lemma publish_run b e n :
  queues_ok b -> subscriptions_ok b ->
  publish_nowait e b n = (Ret (numbered b e), published b e, n).
Proof.
  intros Hq [_ Hs]. unfold publish_nowait, mbind, M_bind, modify, get, mret, M_ret. simpl.
  by rewrite deliver_all.
Qed.

(** ** Histories

    What a subscriber was given ([seen]: the events its subscription accepted)
    and what it took out of its queue ([taken]). *)
Definition history := sub_ref -> list EvidenceEvent.t.

Definition hist_app (h : history) (a : sub_ref) (l : list EvidenceEvent.t) : history :=
  fun c => if decide (c = a) then h c ++ l else h c.

(** Does the subscription [a] accept the event that is about to be published? *)
Definition takes (b : Bus) (e : EvidenceEvent.t) (a : sub_ref) : bool :=
  (a ∈? TelemetryBus._subscriptions b)
  && match TelemetryBus.objects b !! a with Some x => (accepts (numbered b e) x).1 | None => false end.

(** The runs of the bus: producers publish, clients subscribe, read and leave. A
    client that takes an event from the queue directly, as the recorder does,
    marks it as done later. *)
Inductive observed : Bus -> history -> history -> Prop :=
| obs_new : observed TelemetryBus_new (fun _ => []) (fun _ => [])
| obs_subscribe b seen taken size rate kinds ids :
    observed b seen taken ->
    observed (exec (subscribe size rate kinds ids) b 0) seen taken
| obs_publish b seen taken e :
    observed b seen taken ->
    observed (exec (publish_nowait e) b 0)
      (fun a => seen a ++ (if takes b e a then [numbered b e] else [])) taken
| obs_get b seen taken a e :
    observed b seen taken -> run (get_nowait a) b 0 = Ret e ->
    observed (exec (get_nowait a) b 0) seen (hist_app taken a [e])
| obs_queue_get b seen taken a e :
    observed b seen taken -> run (queue_get_nowait a) b 0 = Ret e ->
    observed (exec (queue_get_nowait a) b 0) seen (hist_app taken a [e])
| obs_task_done b seen taken a x :
    observed b seen taken -> TelemetryBus.objects b !! a = Some x ->
    Z.of_nat (length (Queue.items (TelemetrySubscription.queue x)))
      < Queue.unfinished_tasks (TelemetrySubscription.queue x) ->
    observed (exec (queue_task_done a) b 0) seen taken
| obs_close b seen taken a :
    observed b seen taken -> observed (exec (close a) b 0) seen taken.

(** ** The invariant of the bus *)

(** A subscription against its history: the queue is the newest part of what it
    accepted; of the older part the client took some events in order, the others
    were dropped, and only when more than a full buffer was accepted. *)
Definition history_ok (x : TelemetrySubscription.t) (seen taken : list EvidenceEvent.t) : Prop :=
  exists gone,
    seen = gone ++ Queue.items (TelemetrySubscription.queue x) /\
    taken `sublist_of` gone /\
    Z.of_nat (length gone) = Z.of_nat (length taken) + TelemetrySubscription.dropped_events x /\
    0 <= TelemetrySubscription.dropped_events x /\
    (0 < TelemetrySubscription.dropped_events x ->
     Queue.maxsize (TelemetrySubscription.queue x) < Z.of_nat (length seen)) /\
    queue_ok (TelemetrySubscription.queue x).

(** The times of receipt of a vehicle's telemetry in a history. *)
Definition telemetry_times (v : string) (l : list EvidenceEvent.t) : list float :=
  omap (fun e => if (EvidenceEvent.kind e ≟ EvidenceKind.TELEMETRY)
                    && String.eqb (EvidenceEvent.vehicle_id e) v
                 then Some (EvidenceEvent.received_timestamp_s e) else None) l.

Definition spaced (interval : float) (l : list float) : Prop :=
  forall i t1 t2, l !! i = Some t1 -> l !! S i = Some t2 -> fltb (fsub t2 t1) interval = false.

Definition rate_ok (x : TelemetrySubscription.t) (seen : list EvidenceEvent.t) : Prop :=
  fltb f0 (TelemetrySubscription.minimum_telemetry_interval_s x) = true ->
  forall v, dict_get v (TelemetrySubscription._last_telemetry_at x) = last (telemetry_times v seen) /\
    spaced (TelemetrySubscription.minimum_telemetry_interval_s x) (telemetry_times v seen).

Lemma spaced_snoc interval l t :
  spaced interval l ->
  (forall u, last l = Some u -> fltb (fsub t u) interval = false) -> spaced interval (l ++ [t]).
Proof.
  intros Hl Ht i t1 t2 H1 H2.
  apply lookup_snoc_Some in H2 as [[Hi H2]|[Hi <-]].
  - rewrite lookup_app_l in H1 by lia. by eapply Hl.
  - rewrite lookup_app_l in H1 by lia. apply Ht. rewrite last_lookup.
    by replace (pred (length l)) with i by lia.
Qed.

Lemma telemetry_times_snoc v l e :
  telemetry_times v (l ++ [e]) =
  telemetry_times v l ++
    (if (EvidenceEvent.kind e ≟ EvidenceKind.TELEMETRY) && String.eqb (EvidenceEvent.vehicle_id e) v
     then [EvidenceEvent.received_timestamp_s e] else []).
Proof. unfold telemetry_times. rewrite omap_app. f_equal. simpl. by destruct (_ && _). Qed.

Lemma offered_history e x seen taken :
  history_ok x seen taken ->
  history_ok (offered e x) (seen ++ (if (accepts e x).1 then [e] else [])) taken.
Proof.
  destruct (accepts_keeps e x) as (Hq & Hd & _).
  intros (gone & Hseen & Hsub & Hlen & Hpos & Hlost & Hok).
  pose proof (offered_queue_ok e x Hok) as Hok'. revert Hok'. unfold offered.
  destruct (accepts e x) as [accepted x'] eqn:Hacc. simpl in *. rewrite <- Hq, <- ?Hd in *.
  destruct accepted; simpl; intros Hok'.
  - destruct (Queue.full _) eqn:Hf; simpl in *.
    + pose proof (full_spec _ Hok Hf) as Hfull.
      destruct (Queue.items (TelemetrySubscription.queue x')) as [|e0 rest] eqn:Hi; simpl in *.
      { exfalso. destruct Hok as (? & _). lia. }
      exists (gone ++ [e0]). simpl. rewrite Hseen, !length_app in *. simpl in *. split_and!; try lia.
      * by rewrite <- !app_assoc.
      * by apply sublist_inserts_r.
      * done.
    + exists gone. simpl. rewrite Hseen, !length_app in *. simpl in *.
      split_and!; try done; [by rewrite app_assoc|lia].
  - rewrite app_nil_r. exists gone. rewrite Hd in *. by split_and!.
Qed.

Lemma offered_rate e x seen :
  rate_ok x seen -> rate_ok (offered e x) (seen ++ (if (accepts e x).1 then [e] else [])).
Proof.
  intros Hr Hi.
  assert (Hi' : TelemetrySubscription.minimum_telemetry_interval_s (offered e x) =
                TelemetrySubscription.minimum_telemetry_interval_s x /\
                TelemetrySubscription._last_telemetry_at (offered e x) =
                TelemetrySubscription._last_telemetry_at (accepts e x).2).
  { destruct (accepts_keeps e x) as (_ & _ & Hk). unfold offered.
    destruct (accepts e x) as [[] x']; simpl in *; [|done]. by destruct (Queue.full _). }
  destruct Hi' as [Hi1 Hi2]. rewrite Hi1 in *. rewrite Hi2. clear Hi1 Hi2. intros v.
  destruct (Hr Hi v) as [Hl Hs]. unfold accepts. rewrite Hi, andb_true_r.
  destruct (TelemetrySubscription._closed x); simpl; [by rewrite app_nil_r|].
  destruct (match TelemetrySubscription.kinds x with Some _ => _ | None => _ end);
    simpl; [by rewrite app_nil_r|].
  destruct (match TelemetrySubscription.vehicle_ids x with Some _ => _ | None => _ end);
    simpl; [by rewrite app_nil_r|].
  destruct (EvidenceEvent.kind e ≟ EvidenceKind.TELEMETRY) eqn:Hk; simpl.
  2: { rewrite telemetry_times_snoc, Hk. simpl. by rewrite app_nil_r. }
  destruct (match dict_get (EvidenceEvent.vehicle_id e) _ with Some _ => _ | None => _ end) eqn:Hp;
    simpl; [by rewrite app_nil_r|].
  rewrite telemetry_times_snoc, Hk. simpl.
  destruct (String.eqb_spec (EvidenceEvent.vehicle_id e) v) as [<-|Hne].
  - rewrite dict_get_set_eq, last_snoc. split; [done|]. apply spaced_snoc; [done|].
    intros u Hu. rewrite Hl, Hu in Hp. done.
  - rewrite dict_get_set_ne, app_nil_r by congruence. done.
Qed.

Record bus_ok (b : Bus) (seen taken : history) : Prop := {
  bo_subscriptions : subscriptions_ok b;
  bo_count : TelemetryBus._published_events b = TelemetryBus._sequence b /\
    0 <= TelemetryBus._sequence b;
  bo_dropped : TelemetryBus._dropped_events b = total_dropped (TelemetryBus.objects b);
  bo_history : forall a x, TelemetryBus.objects b !! a = Some x ->
    history_ok x (seen a) (taken a) /\ rate_ok x (seen a);
  bo_unborn : forall a, TelemetryBus.objects b !! a = None -> seen a = [] /\ taken a = [];
  bo_numbers : forall a, StronglySorted Z.lt (EvidenceEvent.sequence <$> seen a) /\
    Forall (fun e => EvidenceEvent.sequence e <= TelemetryBus._sequence b) (seen a);
}.

Lemma bus_queues_ok b seen taken : bus_ok b seen taken -> queues_ok b.
Proof. intros Hb a x Hx. destruct (bo_history _ _ _ Hb a x Hx) as [(g & _ & _ & _ & _ & _ & H) _]. done. Qed.

Lemma sorted_snoc (l : list Z) z :
  StronglySorted Z.lt l -> Forall (fun y => y < z) l -> StronglySorted Z.lt (l ++ [z]).
Proof.
  induction 1 as [|y l Hl IH Hy]; simpl; intros Hz; [repeat constructor|].
  apply Forall_cons in Hz as [Hz Hz']. constructor; [by apply IH|].
  apply Forall_app. split; [done|]. by constructor.
Qed.

Lemma publish_bus_ok b seen taken e :
  bus_ok b seen taken ->
  bus_ok (published b e) (fun a => seen a ++ (if takes b e a then [numbered b e] else [])) taken.
Proof.
  intros Hb. destruct (delivered_all_stats (numbered b e) (TelemetryBus._subscriptions b)
    (TelemetryBus.set_published_events (TelemetryBus._published_events b + 1)
       (TelemetryBus.set_sequence (TelemetryBus._sequence b + 1) b))) as (Hs & Hsub & Hp & Hd).
  destruct Hb as [[Hnd Hall] [Hc Hc0] Hdrop Hh Hn Hnum]. simpl in *.
  assert (Hlook : forall c, TelemetryBus.objects (published b e) !! c =
    if decide (c ∈ TelemetryBus._subscriptions b)
    then offered (numbered b e) <$> (TelemetryBus.objects b !! c) else TelemetryBus.objects b !! c).
  { intros c. unfold published. by rewrite delivered_all_lookup. }
  fold (published b e) in *. split.
  - unfold subscriptions_ok. rewrite Hsub. split; [done|]. eapply Forall_impl; [exact Hall|].
    intros c Hc'. simpl in Hc'. rewrite Hlook. case_decide; [by apply fmap_is_Some|done].
  - rewrite Hs, Hp, Hc. lia.
  - lia.
  - intros a x. rewrite Hlook. unfold takes. case_decide as Ha.
    + rewrite bool_decide_eq_true_2 by done. destruct (TelemetryBus.objects b !! a) as [y|] eqn:Hy; [|done].
      simpl. intros [= <-]. destruct (Hh a y Hy) as [H1 H2]. split.
      * by apply offered_history.
      * by apply offered_rate.
    + rewrite bool_decide_eq_false_2 by done. simpl. rewrite app_nil_r. apply Hh.
  - intros a. rewrite Hlook. unfold takes. case_decide as Ha.
    + destruct (TelemetryBus.objects b !! a) as [y|] eqn:Hy; [done|]. intros _.
      rewrite andb_false_r, app_nil_r. by apply Hn.
    + rewrite bool_decide_eq_false_2 by done. simpl. rewrite app_nil_r. apply Hn.
  - intros a. rewrite Hs. destruct (Hnum a) as [H1 H2].
    assert (H2' : Forall (fun e => EvidenceEvent.sequence e < TelemetryBus._sequence b + 1) (seen a)).
    { eapply Forall_impl; [exact H2|]. simpl. lia. }
    destruct (takes b e a).
    + rewrite fmap_app. simpl. split.
      * apply sorted_snoc; [done|]. by apply Forall_fmap.
      * apply Forall_app. split; [|repeat constructor; simpl; lia].
        eapply Forall_impl; [exact H2'|]. simpl. lia.
    + rewrite app_nil_r. split; [done|]. eapply Forall_impl; [exact H2'|]. simpl. lia.
Qed.

(** A client's operation on one subscription. *)
Lemma bus_ok_update b seen taken a x y l :
  bus_ok b seen taken -> TelemetryBus.objects b !! a = Some x ->
  TelemetrySubscription.dropped_events y = TelemetrySubscription.dropped_events x ->
  (history_ok x (seen a) (taken a) -> history_ok y (seen a) (taken a ++ l)) ->
  (rate_ok x (seen a) -> rate_ok y (seen a)) ->
  bus_ok (TelemetryBus.set_objects (<[a := y]> (TelemetryBus.objects b)) b) seen (hist_app taken a l).
Proof.
  intros [[Hnd Hall] Hc Hdrop Hh Hn Hnum] Hx Hd Hhist Hrate.
  assert (Hlen : (a < length (TelemetryBus.objects b))%nat) by by eapply lookup_lt_Some.
  split; simpl; try done.
  - split; [done|]. simpl. eapply Forall_impl; [exact Hall|]. intros c Hc'. simpl in Hc'.
    destruct (decide (c = a)) as [->|]; [by rewrite list_lookup_insert_eq|by rewrite list_lookup_insert_ne].
  - rewrite (total_dropped_insert _ _ _ _ Hx). lia.
  - intros c z. unfold hist_app. case_decide as Hca.
    + subst c. rewrite list_lookup_insert_eq by done. intros [= <-].
      destruct (Hh a x Hx). by split; [apply Hhist|apply Hrate].
    + rewrite list_lookup_insert_ne by done. apply Hh.
  - intros c. unfold hist_app. case_decide as Hca.
    + subst c. by rewrite list_lookup_insert_eq.
    + rewrite list_lookup_insert_ne by done. apply Hn.
Qed.

Lemma hist_app_nil h a c : hist_app h a [] c = h c.
Proof. unfold hist_app. case_decide; [by rewrite app_nil_r|done]. Qed.

(** Only the values of the histories matter. *)
Lemma bus_ok_ext b seen taken taken' :
  (forall c, taken' c = taken c) -> bus_ok b seen taken -> bus_ok b seen taken'.
Proof.
  intros Heq [H1 H2 H3 H4 H5 H6]. split; try done.
  - intros a x Hx. rewrite Heq. by apply H4.
  - intros a Ha. rewrite Heq. by apply H5.
Qed.

(** Running a queue operation. *)
Lemma with_queue_run {A} (f : Queue.t -> outcome (A * Queue.t)) a b n x :
  TelemetryBus.objects b !! a = Some x ->
  with_queue f a b n =
  match f (TelemetrySubscription.queue x) with
  | Ret (r, q) => (Ret r, TelemetryBus.set_objects
                     (<[a := TelemetrySubscription.set_queue q x]> (TelemetryBus.objects b)) b, n)
  | Raise e => (Raise e, b, n)
  end.
Proof.
  intros Hx. unfold with_queue, sub_deref, sub_assign, lift, mbind, M_bind, get, modify, mret, M_ret.
  simpl. rewrite Hx. destruct (f _) as [[r q]|e]; simpl; [|done]. by erewrite list_alter_insert.
Qed.

Lemma with_queue_dangling {A} (f : Queue.t -> outcome (A * Queue.t)) a b n :
  TelemetryBus.objects b !! a = None ->
  with_queue f a b n = (Raise (OtherError "dangling subscription"), b, n).
Proof.
  intros Hx. unfold with_queue, sub_deref, mbind, M_bind, get. simpl. by rewrite Hx.
Qed.

Lemma queue_get_ok b seen taken a e :
  bus_ok b seen taken -> run (queue_get_nowait a) b 0 = Ret e ->
  bus_ok (exec (queue_get_nowait a) b 0) seen (hist_app taken a [e]).
Proof.
  intros Hb. unfold run, exec, queue_get_nowait.
  destruct (TelemetryBus.objects b !! a) as [x|] eqn:Hx;
    [rewrite (with_queue_run _ a b _ x Hx)|by rewrite with_queue_dangling].
  unfold Queue.get_nowait. destruct (Queue.items _) as [|e0 rest] eqn:Hi; simpl; [done|].
  intros [= ->]. eapply bus_ok_update; [done..| |].
  - intros (gone & Hseen & Hsub & Hlen & Hpos & Hlost & Hok). rewrite Hi in *. exists (gone ++ [e]).
    simpl. rewrite !length_app. simpl. split_and!; try lia; try done.
    + by rewrite <- app_assoc.
    + by apply sublist_app.
    + unfold queue_ok in *. rewrite Hi in Hok. simpl in *. lia.
  - done.
Qed.

Lemma task_done_ok b seen taken a x :
  bus_ok b seen taken -> TelemetryBus.objects b !! a = Some x ->
  Z.of_nat (length (Queue.items (TelemetrySubscription.queue x)))
    < Queue.unfinished_tasks (TelemetrySubscription.queue x) ->
  run (queue_task_done a) b 0 = Ret tt /\ bus_ok (exec (queue_task_done a) b 0) seen taken.
Proof.
  intros Hb Hx Hlt. unfold run, exec, queue_task_done. rewrite (with_queue_run _ a b _ x Hx).
  unfold Queue.task_done. destruct (Z.leb_spec (Queue.unfinished_tasks (TelemetrySubscription.queue x)) 0);
    [lia|]. simpl. split; [done|].
  eapply bus_ok_ext; [intros c; symmetry; apply (hist_app_nil taken a)|].
  eapply bus_ok_update; [done..| |done].
  intros (gone & Hseen & Hsub & Hlen & Hpos & Hlost & Hok). exists gone. rewrite app_nil_r. simpl.
  split_and!; try done. unfold queue_ok in *. simpl. lia.
Qed.

(** Taking an event leaves it to be marked as done. *)
Lemma queue_get_pending b seen taken a e :
  bus_ok b seen taken -> run (queue_get_nowait a) b 0 = Ret e ->
  exists x, TelemetryBus.objects (exec (queue_get_nowait a) b 0) !! a = Some x /\
    Z.of_nat (length (Queue.items (TelemetrySubscription.queue x)))
      < Queue.unfinished_tasks (TelemetrySubscription.queue x).
Proof.
  intros Hb. pose proof (bus_queues_ok _ _ _ Hb) as Hq. unfold run, exec, queue_get_nowait.
  destruct (TelemetryBus.objects b !! a) as [x|] eqn:Hx;
    [rewrite (with_queue_run _ a b _ x Hx)|by rewrite with_queue_dangling].
  destruct (Hq a x Hx) as (_ & _ & Hun). unfold Queue.get_nowait.
  destruct (Queue.items _) as [|e0 rest] eqn:Hi; simpl; [done|]. intros _.
  rewrite list_lookup_insert_eq by by eapply lookup_lt_Some. eexists. split; [done|]. simpl in *. lia.
Qed.

Lemma get_nowait_ok b seen taken a e :
  bus_ok b seen taken -> run (get_nowait a) b 0 = Ret e ->
  bus_ok (exec (get_nowait a) b 0) seen (hist_app taken a [e]).
Proof.
  intros Hb. unfold get_nowait, run, exec, mbind, M_bind.
  pose proof (queue_get_ok b seen taken a) as Hget. pose proof (queue_get_pending b seen taken a) as Hpend.
  unfold run, exec in *. assert (Hn : (queue_get_nowait a b 0%nat).2 = 0%nat).
  { unfold queue_get_nowait. destruct (TelemetryBus.objects b !! a) as [x|] eqn:Hx;
      [rewrite (with_queue_run _ a b _ x Hx); by destruct (Queue.get_nowait _) as [[]|]
      |by rewrite with_queue_dangling]. }
  destruct (queue_get_nowait a b 0%nat) as [[[e'|e'] b'] n'] eqn:Hg; simpl in *; [|done]. subst n'.
  specialize (Hget e' Hb eq_refl). destruct (Hpend e' Hb eq_refl) as (x & Hx & Hlt).
  destruct (task_done_ok b' seen _ a x Hget Hx Hlt) as [H1 H2]. unfold run, exec in *.
  destruct (queue_task_done a b' 0%nat) as [[[[]|?] b''] n'']; simpl in *; [|done]. by intros [= <-].
Qed.

Lemma close_ok b seen taken a :
  bus_ok b seen taken -> bus_ok (exec (close a) b 0) seen taken.
Proof.
  intros Hb. unfold exec, close, sub_deref, mbind, M_bind, get. simpl.
  destruct (TelemetryBus.objects b !! a) as [x|] eqn:Hx; simpl; [|done].
  destruct (TelemetrySubscription._closed x); simpl; [done|].
  rewrite (list_alter_insert _ _ _ _ Hx).
  assert (Hb' : bus_ok (TelemetryBus.set_objects
    (<[a := TelemetrySubscription.set_closed true x]> (TelemetryBus.objects b)) b) seen taken).
  { eapply bus_ok_ext; [intros c; symmetry; apply (hist_app_nil taken a)|].
    eapply bus_ok_update; [done..| |done]. rewrite app_nil_r. done. }
  destruct Hb' as [[Hnd Hall] Hc Hdrop Hh Hn Hnum]. split; try done. split; simpl in *.
  - by apply NoDup_filter.
  - apply Forall_forall. intros c Hc'%list_elem_of_filter. rewrite Forall_forall in Hall. apply Hall, Hc'.
Qed.

Lemma subscribe_ok b seen taken size rate kinds ids :
  bus_ok b seen taken -> bus_ok (exec (subscribe size rate kinds ids) b 0) seen taken.
Proof.
  intros Hb. unfold exec, subscribe, raise_if, lift, get, modify, mbind, M_bind, raise, mret, M_ret.
  destruct (size <=? 0) eqn:Hsize; simpl; [done|]. bool_to_prop.
  destruct (match rate with Some r => fleb r f0 | None => false end); simpl; [done|].
  destruct (match rate with Some r => py_div f1 r | None => Ret f0 end) as [interval|]; simpl; [|done].
  destruct Hb as [[Hnd Hall] Hc Hdrop Hh Hn Hnum].
  assert (Hlook : forall a y, TelemetryBus.objects b !! a = Some y ->
    (TelemetryBus.objects b ++ [TelemetrySubscription.mk (Queue.mk size [] 0) kinds ids interval 0 [] false])
      !! a = Some y) by (intros a y Hy; by apply lookup_app_l_Some).
  split; simpl; try done.
  - split; simpl.
    + apply NoDup_app. split_and!; [done| |repeat constructor; set_solver].
      intros a Ha. rewrite Forall_forall in Hall. destruct (Hall a Ha) as [y Hy%lookup_lt_Some].
      rewrite list_elem_of_singleton. lia.
    + apply Forall_app. split.
      * eapply Forall_impl; [exact Hall|]. intros a [y Hy]. exists y. by apply Hlook.
      * constructor; [|done]. rewrite lookup_app_r, Nat.sub_diag by lia. by eexists.
  - rewrite Hdrop. clear. induction (TelemetryBus.objects b) as [|x l IH]; simpl; lia.
  - intros a x [[_ Hx]|[-> Hx]]%lookup_snoc_Some.
    + by apply Hh.
    + destruct (Hn (length (TelemetryBus.objects b))) as [-> ->]; [by apply lookup_ge_None_2|].
      subst x. split.
      * exists []. simpl. split_and!; try done. split; simpl; lia.
      * intros _ v. split; [done|]. by intros i t1 t2.
  - intros a Ha. apply Hn. apply lookup_ge_None. apply lookup_ge_None in Ha.
    rewrite length_app in Ha. lia.
Qed.

Lemma observed_ok b seen taken : observed b seen taken -> bus_ok b seen taken.
Proof.
  induction 1 as [|b seen taken size rate kinds ids _ IH|b seen taken e _ IH|b seen taken a e _ IH He
                 |b seen taken a e _ IH He|b seen taken a x _ IH Hx Hlt|b seen taken a _ IH].
  - split; [by split; [apply NoDup_nil_2|apply Forall_nil_2]|done|done|by intros [|?] ?|done|].
    intros a. split; [apply SSorted_nil|apply Forall_nil_2].
  - by apply subscribe_ok.
  - unfold exec. rewrite publish_run; [by apply publish_bus_ok|by eapply bus_queues_ok|apply IH].
  - by apply get_nowait_ok.
  - by apply queue_get_ok.
  - by eapply task_done_ok.
  - by apply close_ok.
Qed.

(** C40: the bus refines a lossy channel with a bounded buffer for each subscriber,
    whatever the others do. What a subscription accepted is numbered upwards; its
    queue is the newest part of it, within the size of the buffer; from the older
    part the client took events in their order, and every event it did not take
    is counted as dropped, which happens only when more events were accepted
    than the buffer holds. The counters of the bus are the totals. *)
Theorem bus_delivers b seen taken a x :
  observed b seen taken -> TelemetryBus.objects b !! a = Some x ->
  (exists gone, seen a = gone ++ Queue.items (TelemetrySubscription.queue x) /\
     taken a `sublist_of` gone /\
     Z.of_nat (length gone) = Z.of_nat (length (taken a)) + TelemetrySubscription.dropped_events x) /\
  Z.of_nat (length (Queue.items (TelemetrySubscription.queue x)))
    <= Queue.maxsize (TelemetrySubscription.queue x) /\
  (Z.of_nat (length (seen a)) <= Queue.maxsize (TelemetrySubscription.queue x) ->
   TelemetrySubscription.dropped_events x = 0) /\
  StronglySorted Z.lt (EvidenceEvent.sequence <$> seen a) /\
  BusStats.dropped_events (stats b) = total_dropped (TelemetryBus.objects b).
Proof.
  intros Hb%observed_ok Hx.
  destruct (bo_history _ _ _ Hb a x Hx) as [(g & H1 & H2 & H3 & H4 & H5 & (H6 & H7 & _)) _].
  split_and!; [by exists g|done| |apply Hb|apply Hb]. lia.
Qed.

(** Publishing never waits, fails or loses an event: whatever the subscribers
    do, it returns the event under the next number, and every open subscription
    that wants the event has it at the end of its queue. *)
Theorem publish_reaches_subscribers b seen taken e :
  observed b seen taken ->
  run (publish_nowait e) b 0 = Ret (numbered b e) /\
  forall a x, a ∈ TelemetryBus._subscriptions b -> TelemetryBus.objects b !! a = Some x ->
    (accepts (numbered b e) x).1 = true ->
    exists y, TelemetryBus.objects (exec (publish_nowait e) b 0) !! a = Some y /\
      last (Queue.items (TelemetrySubscription.queue y)) = Some (numbered b e).
Proof.
  intros Hb%observed_ok. unfold run, exec.
  rewrite publish_run; [|by eapply bus_queues_ok|apply Hb]. split; [done|]. intros a x Ha Hx Hacc.
  simpl. unfold published. rewrite delivered_all_lookup by apply Hb. rewrite decide_True by done. simpl.
  rewrite Hx. simpl. eexists. split; [done|]. unfold offered.
  destruct (accepts (numbered b e) x) as [[] x']; simpl in *; [|done].
  destruct (Queue.full _); simpl; apply last_snoc.
Qed.

(** The rate limit of a subscription holds for each vehicle by itself: of two
    successive telemetry events of a vehicle that a rate-limited subscription
    accepted, the second was not received less than the interval after the
    first. *)
Theorem telemetry_rate_is_limited b seen taken a x v i t1 t2 :
  observed b seen taken -> TelemetryBus.objects b !! a = Some x ->
  fltb f0 (TelemetrySubscription.minimum_telemetry_interval_s x) = true ->
  telemetry_times v (seen a) !! i = Some t1 -> telemetry_times v (seen a) !! S i = Some t2 ->
  fltb (fsub t2 t1) (TelemetrySubscription.minimum_telemetry_interval_s x) = false.
Proof.
  intros Hb%observed_ok Hx Hi. destruct (bo_history _ _ _ Hb a x Hx) as [_ Hr].
  destruct (Hr Hi v) as [_ Hs]. apply Hs.
Qed.

(** ** Replay *)

#[export] Instance event_sequence_order : WeakOrder event_sequence_ltb.
Proof. apply (key_order EvidenceEvent.sequence Z.ltb). Qed.

(** Step up to [k] times, as the stream does, until the recording ends. *)
Fixpoint play (k : nat) : M Replay (list EvidenceEvent.t) :=
  match k with
  | O => mret []
  | S k =>
      r ← step;
      match r with
      | None => mret []
      | Some e => rest ← play k; mret (e :: rest)
      end
  end.

Lemma play_run k c n :
  (length (ReplayClock.events c) - ReplayClock.index c <= k)%nat ->
  run (play k) c n = Ret (drop (ReplayClock.index c) (ReplayClock.events c)).
Proof.
  revert c n. unfold run. induction k as [|k IH]; intros c n Hk; simpl.
  - rewrite drop_ge by lia. done.
  - unfold step, mbind, M_bind, get, put, mret, M_ret. simpl.
    destruct (Nat.leb_spec (length (ReplayClock.events c)) (ReplayClock.index c)); simpl.
    + by rewrite drop_ge.
    + destruct (lookup_lt_is_Some_2 (ReplayClock.events c) (ReplayClock.index c)) as [e He]; [done|].
      rewrite He. simpl.
      specialize (IH (ReplayClock.mk (ReplayClock.events c) (ReplayClock.speed c)
                        (ReplayClock.index c + 1) (ReplayClock.paused c)) n). simpl in IH.
      destruct (play k _ n) as [[[l|?] s] m]; simpl in *; specialize (IH ltac:(lia)); [|done].
      injection IH as ->. by rewrite Nat.add_1_r, (drop_S _ _ _ He).
Qed.

Lemma first_index_spec p l :
  Forall (fun e => p e = false) (take (first_index p l) l) /\
  forall e, head (drop (first_index p l) l) = Some e -> p e = true.
Proof.
  induction l as [|e l [IH1 IH2]]; simpl; [done|]. destruct (p e) eqn:Hp; simpl.
  - split; [done|]. by intros ? [= <-].
  - split; [by constructor|done].
Qed.

Lemma sequences_ordered l :
  py_ordered event_sequence_ltb l ->
  StronglySorted (fun e1 e2 => EvidenceEvent.sequence e1 <= EvidenceEvent.sequence e2) l.
Proof.
  induction 1 as [|e l _ IH He]; [apply SSorted_nil|]. apply SSorted_cons; [done|].
  eapply Forall_impl; [exact He|]. intros e'. unfold event_sequence_ltb. by rewrite Z.ltb_ge.
Qed.

(** A replay plays the recording it was given: after a seek, stepping returns
    exactly the events from the first one at or after the time on, in the order of
    their numbers and each once, and then reports the end; the events it skipped
    are all earlier. *)
Theorem replay_plays_recording events speed c t k n :
  ReplayClock_init events speed = Ret c -> fltb t f0 = false ->
  (length events <= k)%nat ->
  exists skipped played,
    run (_ ← seek t; play k) c n = Ret played /\
    skipped ++ played ≡ₚ events /\
    StronglySorted (fun e1 e2 => EvidenceEvent.sequence e1 <= EvidenceEvent.sequence e2)
      (skipped ++ played) /\
    Forall (fun e => fleb t (timeline_s e) = false) skipped /\
    (forall e, head played = Some e -> fleb t (timeline_s e) = true).
Proof.
  unfold ReplayClock_init. destruct (fleb speed f0); [done|]. intros [= <-] Ht Hk.
  set (l := py_sorted event_sequence_ltb events).
  assert (Hperm : l ≡ₚ events) by apply py_sorted_perm.
  set (i := first_index (fun e => fleb t (timeline_s e)) l).
  exists (take i l), (drop i l). rewrite take_drop. split_and!.
  - unfold run, seek, mbind, M_bind, raise_if. rewrite Ht. simpl.
    apply (play_run k (ReplayClock.mk l speed i false) n). simpl. rewrite Hperm. lia.
  - done.
  - assert (Ho : py_ordered event_sequence_ltb l) by (apply py_sorted_is_ordered; apply _).
    by apply sequences_ordered.
  - apply first_index_spec.
  - apply first_index_spec.
Qed.

(** ** The bridge *)

Section bridge_facts.
Context `{CK : Clock} `{WL : Wall} (version : string).

(** The commands a callback other than [command_sent] knows are unchanged. *)
Definition keeps_commands (s s' : Bridge) : Prop :=
  EvidenceBridge._commands s' = EvidenceBridge._commands s.

#[local] Instance keeps_commands_preorder : PreOrder keeps_commands.
Proof. split; [by intros s|]. intros s1 s2 s3 H1 H2. unfold keeps_commands in *. congruence. Qed.

Lemma publish_keeps v r m src t u f p rt : steps keeps_commands (publish v r m src t u f p rt).
Proof.
  unfold publish. apply steps_bind; [apply _|by intros s n|]. intros id.
  apply steps_bind; [apply _|destruct rt; steps_go; by intros s n|]. intros received.
  apply steps_bind; [apply _|by intros s n|]. intros recorded.
  apply steps_bind; [apply _|by apply steps_validated; apply _|]. intros _.
  intros s n. apply wp_zoom. by unfold wp.
Qed.

Lemma sent_is_known mode_now c s n :
  wp (bridge_command_sent mode_now c) (fun _ s' _ =>
    dict_get (CommandEnvelope.command_id c) (EvidenceBridge._commands s') =
    Some (command_run s c, CommandEnvelope.mode c)) s n.
Proof.
  unfold bridge_command_sent. wp_rule. wp_rule. wp_rule. wp_rule. wp_rule.
  eapply wp_mono; [apply publish_keeps|]. unfold keeps_commands.
  intros [?|?] s2 n2 Hk; [wp_rule|]; rewrite Hk; apply dict_get_set_eq.
Qed.

(** An acknowledgement is filed with its command: it is published under the run
    and the mode of the command it answers, even when the run has ended or the mode
    has changed in between, as long as no other command with the same identity
    was sent. *)
Theorem acknowledgement_files_with_command mode1 mode2 c a s n s' n' :
  keeps_commands (exec (bridge_command_sent mode1 c) s n) s' ->
  CommandAcknowledgement.command_id a = CommandEnvelope.command_id c ->
  bridge_command_acknowledged mode2 a s' n' =
  (_ ← publish (CommandAcknowledgement.vehicle_id a) (command_run s c) (CommandEnvelope.mode c)
         "vehicle-adapter" (CommandAcknowledgement.received_at_monotonic_s a) "acknowledgement"
         (Some CoordinateFrame.WORLD) (EvidencePayload.AcknowledgementPayload a) None;
   mret tt) s' n'.
Proof.
  intros Hk Hid.
  assert (Hc : dict_get (CommandEnvelope.command_id c) (EvidenceBridge._commands s') =
               Some (command_run s c, CommandEnvelope.mode c)) by (rewrite Hk; apply sent_is_known).
  unfold bridge_command_acknowledged. unfold mbind at 1, M_bind at 1, get. cbv beta iota.
  by rewrite Hid, Hc.
Qed.
End bridge_facts.

(** ** A run *)
Module Examples.

Definition fault_event (vehicle_id : string) (at_s : Z) : EvidenceEvent.t :=
  EvidenceEvent.mk "evt-1" 0 EvidenceKind.TELEMETRY vehicle_id "run-1" OperatingMode.SIM
    "vehicle-adapter" (float_of_Z at_s) (float_of_Z at_s) (float_of_Z at_s) "SI" None
    (EvidencePayload.FaultPayload "TEST" "fixture").

(** One subscriber with room for two events and at most one telemetry event a
    second and vehicle. *)
Definition b1 : Bus := exec (subscribe 2 (Some f1) None None) TelemetryBus_new 0.
Definition b2 : Bus := exec (publish_nowait (fault_event "cf-1" 10)) b1 0.
Definition b3 : Bus := exec (publish_nowait (fault_event "cf-2" 10)) b2 0.
Definition b4 : Bus := exec (publish_nowait (fault_event "cf-1" 11)) b3 0.
Definition b5 : Bus := exec (get_nowait 0) b4 0.

Definition seen5 : history := fun a =>
  ((([] ++ (if takes b1 (fault_event "cf-1" 10) a then [numbered b1 (fault_event "cf-1" 10)] else []))
    ++ (if takes b2 (fault_event "cf-2" 10) a then [numbered b2 (fault_event "cf-2" 10)] else []))
    ++ (if takes b3 (fault_event "cf-1" 11) a then [numbered b3 (fault_event "cf-1" 11)] else [])).
Definition taken5 : history := hist_app (fun _ => []) 0%nat [numbered b2 (fault_event "cf-2" 10)].

Lemma observed4 : observed b4 seen5 (fun _ => []).
Proof. do 3 apply obs_publish. apply obs_subscribe, obs_new. Qed.

Lemma observed5 : observed b5 seen5 taken5.
Proof. apply obs_get; [apply observed4|vm_compute; reflexivity]. Qed.

(** The oldest event was lost, the next one taken, and one is waiting. *)
Example slow_subscriber :
  (fun x => (TelemetrySubscription.dropped_events x,
             EvidenceEvent.sequence <$> Queue.items (TelemetrySubscription.queue x)))
    <$> (TelemetryBus.objects b5 !! 0%nat) = Some (1, [3]).
Proof. vm_compute. reflexivity. Qed.

Lemma bus_witness : exists x,
  TelemetryBus.objects b5 !! 0%nat = Some x /\
  (exists gone, seen5 0%nat = gone ++ Queue.items (TelemetrySubscription.queue x) /\
     taken5 0%nat `sublist_of` gone /\
     Z.of_nat (length gone) = Z.of_nat (length (taken5 0%nat)) + TelemetrySubscription.dropped_events x).
Proof.
  destruct (TelemetryBus.objects b5 !! 0%nat) as [x|] eqn:Hx; [|vm_compute in Hx; discriminate].
  exists x. split; [reflexivity|].
  exact (proj1 (bus_delivers b5 seen5 taken5 0%nat x observed5 Hx)).
Defined.

Lemma publish_witness :
  run (publish_nowait (fault_event "cf-1" 13)) b5 0 = Ret (numbered b5 (fault_event "cf-1" 13)).
Proof. exact (proj1 (publish_reaches_subscribers b5 seen5 taken5 (fault_event "cf-1" 13) observed5)). Defined.

Lemma rate_witness :
  telemetry_times "cf-1" (seen5 0%nat) = [float_of_Z 10; float_of_Z 11] /\
  fltb (fsub (float_of_Z 11) (float_of_Z 10)) f1 = false.
Proof.
  split; [vm_compute; reflexivity|].
  destruct (TelemetryBus.objects b5 !! 0%nat) as [x|] eqn:Hx; [|vm_compute in Hx; discriminate].
  assert (Hi : TelemetrySubscription.minimum_telemetry_interval_s x = f1).
  { vm_compute in Hx. injection Hx as <-. vm_compute. reflexivity. }
  rewrite <- Hi.
  apply (telemetry_rate_is_limited b5 seen5 taken5 0%nat x "cf-1" 0%nat (float_of_Z 10) (float_of_Z 11)
           observed5 Hx); [rewrite Hi|..]; vm_compute; reflexivity.
Defined.

Definition recording : list EvidenceEvent.t :=
  [EvidenceEvent.set_sequence 3 (fault_event "cf-1" 12);
   EvidenceEvent.set_sequence 1 (fault_event "cf-1" 10);
   EvidenceEvent.set_sequence 2 (fault_event "cf-1" 11)].

Lemma playback_witness : exists c skipped played,
  ReplayClock_init recording f1 = Ret c /\
  run (_ ← seek (float_of_Z 11); play 3) c 0 = Ret played /\
  skipped ++ played ≡ₚ recording /\ EvidenceEvent.sequence <$> played = [2; 3].
Proof.
  destruct (ReplayClock_init recording f1) as [c|] eqn:Hc; [|vm_compute in Hc; discriminate].
  destruct (replay_plays_recording recording f1 c (float_of_Z 11) 3 0 Hc) as (skipped & played & Hr & Hp & _);
    [vm_compute; reflexivity|simpl; lia|].
  exists c, skipped, played. split; [reflexivity|]. split; [exact Hr|]. split; [exact Hp|].
  vm_compute in Hc. injection Hc as <-. vm_compute in Hr. injection Hr as <-. vm_compute. reflexivity.
Defined.

Definition example_wall : Wall := {| uuid_hex := fun _ => "0a1b"; utc_now := fun n => float_of_Z (Z.of_nat n) |}.

Definition hold_command : CommandEnvelope.t :=
  CommandEnvelope.mk "cf-1" "cmd-7" (Some "run-1") None (float_of_Z 5) CommandSource.MISSION
    OperatingMode.SIM CommandPayload.StopAndHoldCommand.
Definition hold_done : CommandAcknowledgement.t :=
  CommandAcknowledgement.mk "cf-1" "cmd-7" AcknowledgementStatus.COMPLETED (float_of_Z 6)
    (Some (float_of_Z 6)) None None.
Definition bridge0 : Bridge := EvidenceBridge.mk b1 1 "system-0" [] [].
Definition bridge1 : Bridge :=
  exec (@bridge_command_sent example_clock example_wall OperatingMode.SIM hold_command) bridge0 0.

Lemma acknowledgement_witness :
  @bridge_command_acknowledged example_clock example_wall OperatingMode.LIVE hold_done bridge1 9%nat =
  (_ ← @publish example_clock example_wall "cf-1" "run-1" OperatingMode.SIM "vehicle-adapter"
         (float_of_Z 6) "acknowledgement" (Some CoordinateFrame.WORLD)
         (EvidencePayload.AcknowledgementPayload hold_done) None;
   mret tt) bridge1 9%nat.
Proof.
  apply (@acknowledgement_files_with_command example_clock example_wall OperatingMode.SIM
           OperatingMode.LIVE hold_command hold_done bridge0 0 bridge1 9); reflexivity.
Defined.
End Examples.
