(* ===== verification/Supervision.v ===== *)
(** * Safety of the supervisor

    The invariant of the safety supervisor under every interleaving of its
    coroutines with each other and with the adapters, and the theorems that
    follow from it and from the guards of its operations. *)

From S2P Require Import Prelude Float64 Effects Contracts Artifacts Trajectory.
From S2P Require Import Safety Telemetry Commands Coroutines Supervisor.

(** The readings of [time.monotonic()] are not negative. *)
Class ClockNonneg `{Clock} : Prop := clock_nonneg : forall n, ge0 (monotonic n) = true.

(** ** What the event log says *)

Definition is_transition (e : SafetyEvent.t) : bool :=
  String.eqb (SafetyEvent.event_type e) "STATE_TRANSITION".

Definition is_command (e : SafetyEvent.t) : bool :=
  String.eqb (SafetyEvent.event_type e) "COMMAND_SENT".

(** The state of a vehicle after an event and after a log. *)
Definition log_step (vehicle_id : string) (s : VehicleState.t) (e : SafetyEvent.t) :
    VehicleState.t :=
  if is_transition e && String.eqb (SafetyEvent.vehicle_id e) vehicle_id
  then default s (SafetyEvent.to_state e) else s.

Definition log_state (vehicle_id : string) (l : list SafetyEvent.t) : VehicleState.t :=
  foldl (log_step vehicle_id) VehicleState.DISCONNECTED l.

(** The state a vehicle has to be in when a command is sent to it.  For
    [STOP_AND_HOLD] there is none: it is sent after a suspension that the guard
    is not repeated after. *)
Definition sendable (k : CommandKind.t) (s : VehicleState.t) : bool :=
  match k with
  | CommandKind.ARM => s ≟ VehicleState.ARMING
  | CommandKind.DISARM => s ≟ VehicleState.READY
  | CommandKind.TAKEOFF => s ≟ VehicleState.TAKING_OFF
  | CommandKind.HOVER | CommandKind.MOVE_RELATIVE | CommandKind.EXECUTE_TRAJECTORY =>
      s ≟ VehicleState.FLYING
  | CommandKind.STOP_AND_HOLD => true
  | CommandKind.LAND => s ≟ VehicleState.LANDING
  | CommandKind.ABORT => s ≟ VehicleState.ABORTING
  | CommandKind.EMERGENCY_STOP => s ≟ VehicleState.EMERGENCY
  | CommandKind.CONNECT | CommandKind.DISCONNECT => false
  end.

(** An event fits the log before it. *)
Definition event_ok (before : list SafetyEvent.t) (e : SafetyEvent.t) : Prop :=
  SafetyEvent.sequence e = Z.of_nat (length before) /\
  (is_transition e = true -> exists t,
     SafetyEvent.from_state e = Some (log_state (SafetyEvent.vehicle_id e) before) /\
     SafetyEvent.to_state e = Some t /\
     can_transition (log_state (SafetyEvent.vehicle_id e) before) t = true) /\
  (is_command e = true -> exists k,
     SafetyEvent.message e = CommandKind_value k /\
     sendable k (log_state (SafetyEvent.vehicle_id e) before) = true).

Definition log_ok (l : list SafetyEvent.t) : Prop :=
  forall l1 e l2, l = l1 ++ e :: l2 -> event_ok l1 e.

(** The identities of the commands sent. *)
Definition sent_ids (l : list SafetyEvent.t) : list string :=
  omap (fun e => if is_command e then SafetyEvent.command_id e else None) l.

Lemma log_state_snoc v l e : log_state v (l ++ [e]) = log_step v (log_state v l) e.
Proof. unfold log_state. by rewrite foldl_app. Qed.

Lemma log_ok_nil : log_ok [].
Proof. by intros [|? ?] e l2. Qed.

Lemma log_ok_snoc l e : log_ok l -> event_ok l e -> log_ok (l ++ [e]).
Proof.
  intros Hl He l1 e' l2. destruct l2 as [|e2 l2 _] using rev_ind.
  - intros [-> [= ->]]%app_inj_tail. done.
  - rewrite app_comm_cons, app_assoc. intros [-> [= ->]]%app_inj_tail. by eapply Hl.
Qed.

Lemma sent_ids_snoc l e :
  sent_ids (l ++ [e]) =
  sent_ids l ++ (if is_command e then option_list (SafetyEvent.command_id e) else []).
Proof.
  unfold sent_ids. rewrite omap_app. f_equal. simpl. destruct (is_command e); [|done].
  by destruct (SafetyEvent.command_id e).
Qed.

(** ** The invariant *)

Definition vehicle_at (a : session_ref) (s : Sup) : option Vehicle.t :=
  VehicleSession.vehicle <$> (SafetySupervisor.objects s !! a).

Definition state_at (a : session_ref) (s : Sup) : option VehicleState.t :=
  VehicleSession.state <$> (SafetySupervisor.objects s !! a).

(** The reference [a] is to a session of the vehicle. *)
Definition refers (a : session_ref) (vehicle_id : string) (s : Sup) : Prop :=
  exists v, vehicle_at a s = Some v /\ vehicle_name v = vehicle_id.

Record invariant (s : Sup) : Prop := {
  inv_sequence : SafetySupervisor.event_sequence s = Z.of_nat (length (SafetySupervisor.events s));
  inv_log : log_ok (SafetySupervisor.events s);
  inv_commands : NoDup (sent_ids (SafetySupervisor.events s));
  inv_issued : 0 <= SafetySupervisor.command_sequence s /\
    forall id, id ∈ sent_ids (SafetySupervisor.events s) -> exists n,
      id = command_name n /\ 0 <= n < SafetySupervisor.command_sequence s;
  inv_registry : dict_wf (SafetySupervisor.sessions s);
  inv_sessions : forall v a, dict_get v (SafetySupervisor.sessions s) = Some a ->
    refers a v s /\ state_at a s = Some (log_state v (SafetySupervisor.events s));
  inv_absent : forall v, dict_get v (SafetySupervisor.sessions s) = None ->
    log_state v (SafetySupervisor.events s) = VehicleState.DISCONNECTED;
  inv_names : forall a v, vehicle_at a s = Some v -> is_identifier (vehicle_name v) = true;
}.

(** What every step of the supervisor keeps: the log grows, the objects keep
    their vehicle, the policy stays. *)
Record ext (s s' : Sup) : Prop := {
  ext_log : exists l, SafetySupervisor.events s' = SafetySupervisor.events s ++ l;
  ext_objects : forall a v, vehicle_at a s = Some v -> vehicle_at a s' = Some v;
  ext_policy : SafetySupervisor.policy s' = SafetySupervisor.policy s;
}.

#[export] Instance ext_preorder : PreOrder ext.
Proof.
  split.
  - intros s. split; [exists []; by rewrite app_nil_r|done|done].
  - intros s1 s2 s3 [[l1 H1] Ho1 Hp1] [[l2 H2] Ho2 Hp2]. split.
    + exists (l1 ++ l2). by rewrite H2, H1, app_assoc.
    + auto.
    + congruence.
Qed.

Lemma refers_ext a v s s' : refers a v s -> ext s s' -> refers a v s'.
Proof. intros (x & Hx & Hv) He. exists x. split; [by eapply ext_objects|done]. Qed.

(** A quiet step changes neither the log nor the registry nor what the
    objects say about vehicles and states. *)
Record quiet (s s' : Sup) : Prop := {
  quiet_events : SafetySupervisor.events s' = SafetySupervisor.events s;
  quiet_sequence : SafetySupervisor.event_sequence s' = SafetySupervisor.event_sequence s;
  quiet_sessions : SafetySupervisor.sessions s' = SafetySupervisor.sessions s;
  quiet_vehicle : forall a, vehicle_at a s' = vehicle_at a s;
  quiet_state : forall a, state_at a s' = state_at a s;
  quiet_policy : SafetySupervisor.policy s' = SafetySupervisor.policy s;
  quiet_commands : SafetySupervisor.command_sequence s <= SafetySupervisor.command_sequence s';
}.

#[export] Instance quiet_preorder : PreOrder quiet.
Proof.
  split.
  - by intros s.
  - intros s1 s2 s3 [] []. split; try congruence; lia.
Qed.

Lemma quiet_invariant s s' : quiet s s' -> invariant s -> invariant s'.
Proof.
  intros [He Hq Hs Hv Hst Hp Hc] [I1 I2 I3 [I4 I4'] I5 I6 I7 I8].
  split; rewrite ?He, ?Hq, ?Hs; try done.
  - split; [lia|]. intros id Hid. destruct (I4' id Hid) as (n & -> & ?). exists n. split; [done|lia].
  - intros v a Ha. destruct (I6 v a Ha) as [(x & Hx & Hn) Hst']. rewrite Hst. split; [|done].
    exists x. by rewrite Hv.
  - intros a v. rewrite Hv. apply I8.
Qed.

Lemma quiet_ext s s' : quiet s s' -> ext s s'.
Proof.
  intros [He Hq Hs Hv Hst Hp Hc]. split; [exists []; by rewrite app_nil_r|by intros; rewrite Hv|done].
Qed.

Section supervision.
Context `{CK : Clock} `{CN : !ClockNonneg} `{LM : Libm} `{DG : Digest}.

(** ** Quiet operations *)

Lemma alter_quiet (f : VehicleSession.t -> VehicleSession.t) a s :
  (forall x, VehicleSession.vehicle (f x) = VehicleSession.vehicle x) ->
  (forall x, VehicleSession.state (f x) = VehicleSession.state x) ->
  quiet s (SafetySupervisor.set_objects (alter f a (SafetySupervisor.objects s)) s).
Proof.
  intros Hv Hs. split; try done; intros b; unfold vehicle_at, state_at; simpl;
    (destruct (decide (a = b)) as [->|Hne];
     [rewrite list_lookup_alter_eq|by rewrite list_lookup_alter_ne]);
    destruct (SafetySupervisor.objects s !! b); simpl; by rewrite ?Hv, ?Hs.
Qed.

Lemma assign_session_quiet (f : VehicleSession.t -> VehicleSession.t) a :
  (forall x, VehicleSession.vehicle (f x) = VehicleSession.vehicle x) ->
  (forall x, VehicleSession.state (f x) = VehicleSession.state x) ->
  steps quiet (assign_session f a).
Proof. intros. apply steps_modify. intros s. by apply alter_quiet. Qed.

Lemma modify_quiet (f : Sup -> Sup) : (forall s, quiet s (f s)) -> steps quiet (modify f).
Proof. apply steps_modify. Qed.
End supervision.

#[export] Hint Extern 1 (steps quiet (assign_session _ _)) =>
  apply assign_session_quiet; intros []; reflexivity : steps.

Section operations.
Context `{CK : Clock} `{CN : !ClockNonneg} `{LM : Libm} `{DG : Digest}.

Lemma deref_quiet a : steps quiet (deref a).
Proof. unfold deref. steps_go. Qed.
Lemma notify_quiet n : steps quiet (notify n).
Proof. unfold notify. apply steps_modify. by intros s. Qed.
Lemma session_quiet v : steps quiet (session v).
Proof. unfold session. steps_go. Qed.
Lemma now_or_quiet v : steps quiet (now_or v).
Proof. unfold now_or. steps_go. Qed.
Lemma next_command_sequence_quiet : steps quiet next_command_sequence.
Proof.
  intros s n. unfold next_command_sequence. wp_go. split; try done. simpl. lia.
Qed.
#[local] Hint Resolve deref_quiet notify_quiet session_quiet now_or_quiet
  next_command_sequence_quiet : steps.

Lemma require_owner_quiet a o n b : steps quiet (require_owner a o n b).
Proof. unfold require_owner. steps_go. Qed.
Lemma new_lease_quiet o e : steps quiet (new_lease o e).
Proof. unfold new_lease. steps_go. Qed.
Lemma extend_lease_quiet a g : steps quiet (extend_lease a g).
Proof. unfold extend_lease. steps_go. Qed.
Lemma receive_telemetry_quiet t : steps quiet (receive_telemetry t).
Proof. unfold receive_telemetry. steps_go. Qed.
Lemma simulation_low_battery_override_quiet a b : steps quiet (simulation_low_battery_override a b).
Proof. unfold simulation_low_battery_override. steps_go. Qed.
#[local] Hint Resolve require_owner_quiet new_lease_quiet extend_lease_quiet
  receive_telemetry_quiet simulation_low_battery_override_quiet : steps.

Lemma renew_control_quiet v o n : steps quiet (renew_control v o n).
Proof. unfold renew_control. steps_go. Qed.
Lemma evaluate_health_quiet v n b : steps quiet (evaluate_health v n b).
Proof. unfold evaluate_health. steps_go. Qed.
Lemma require_preflight_quiet a o r n : steps quiet (require_preflight a o r n).
Proof. unfold require_preflight. steps_go. Qed.
Lemma require_real_authority_quiet a : steps quiet (require_real_authority a).
Proof. unfold require_real_authority. steps_go. Qed.
#[local] Hint Resolve require_real_authority_quiet : steps.
Lemma require_command_ready_quiet a o : steps quiet (require_command_ready a o).
Proof. unfold require_command_ready. steps_go. Qed.
Lemma require_flying_quiet a o : steps quiet (require_flying a o).
Proof. unfold require_flying. steps_go. Qed.
Lemma new_payload_quiet p : steps quiet (new_payload p).
Proof. unfold new_payload. steps_go. Qed.
Lemma command_timeout_quiet : steps quiet command_timeout.
Proof. unfold command_timeout. steps_go. Qed.
Lemma clear_active_quiet a t : steps quiet (clear_active a t).
Proof. unfold clear_active. steps_go. Qed.
Lemma on_cancelled_quiet a : steps quiet (on_cancelled a).
Proof. unfold on_cancelled. steps_go. Qed.
Lemma check_iteration_quiet n : steps quiet (check_iteration n).
Proof. unfold check_iteration. steps_go. Qed.
End operations.

#[export] Hint Resolve deref_quiet notify_quiet session_quiet now_or_quiet
  next_command_sequence_quiet require_owner_quiet new_lease_quiet extend_lease_quiet
  receive_telemetry_quiet simulation_low_battery_override_quiet renew_control_quiet
  evaluate_health_quiet require_preflight_quiet require_real_authority_quiet
  require_command_ready_quiet require_flying_quiet new_payload_quiet command_timeout_quiet
  clear_active_quiet on_cancelled_quiet check_iteration_quiet : steps.

(** ** Operations that write the log *)

(** [s'] is [s] with the event [e] appended. *)
Record pushed (e : SafetyEvent.t) (s s' : Sup) : Prop := {
  pushed_events : SafetySupervisor.events s' = SafetySupervisor.events s ++ [e];
  pushed_sequence : SafetySupervisor.event_sequence s' = SafetySupervisor.event_sequence s + 1;
  pushed_sessions : SafetySupervisor.sessions s' = SafetySupervisor.sessions s;
  pushed_vehicle : forall a, vehicle_at a s' = vehicle_at a s;
  pushed_policy : SafetySupervisor.policy s' = SafetySupervisor.policy s;
  pushed_commands : SafetySupervisor.command_sequence s' = SafetySupervisor.command_sequence s;
}.

Lemma pushed_ext e s s' : pushed e s s' -> ext s s'.
Proof. intros [He _ _ Hv Hp _]. split; [by exists [e]|by intros; rewrite Hv|done]. Qed.

(** A command event has a new identity. *)
Definition fresh_command (e : SafetyEvent.t) (s : Sup) : Prop :=
  is_command e = true -> exists n,
    SafetyEvent.command_id e = Some (command_name n) /\
    0 <= n < SafetySupervisor.command_sequence s /\
    command_name n ∉ sent_ids (SafetySupervisor.events s).

Lemma pushed_invariant e s s' :
  invariant s -> pushed e s s' -> event_ok (SafetySupervisor.events s) e -> fresh_command e s ->
  (forall v a, dict_get v (SafetySupervisor.sessions s) = Some a ->
     state_at a s' = Some (log_step v (log_state v (SafetySupervisor.events s)) e)) ->
  (forall v, dict_get v (SafetySupervisor.sessions s) = None ->
     log_step v VehicleState.DISCONNECTED e = VehicleState.DISCONNECTED) ->
  invariant s'.
Proof.
  intros [I1 I2 I3 [I4 I4'] I5 I6 I7 I8] [He Hq Hs Hv Hp Hc] Hok Hf Hst Habs.
  assert (Hsent : sent_ids (SafetySupervisor.events s') = sent_ids (SafetySupervisor.events s) \/
    exists n, sent_ids (SafetySupervisor.events s') = sent_ids (SafetySupervisor.events s) ++ [command_name n]
      /\ 0 <= n < SafetySupervisor.command_sequence s
      /\ command_name n ∉ sent_ids (SafetySupervisor.events s)).
  { rewrite He, sent_ids_snoc. unfold fresh_command in Hf. destruct (is_command e).
    - destruct Hf as (n & -> & Hn & Hfr); [done|]. right. by exists n.
    - left. by rewrite app_nil_r. }
  split.
  - rewrite Hq, He, I1, length_app. simpl. lia.
  - rewrite He. by apply log_ok_snoc.
  - destruct Hsent as [->|(n & -> & _ & Hfr)]; [done|]. apply NoDup_app. split_and!; [done| |].
    + intros id Hid ->%list_elem_of_singleton. done.
    + apply NoDup_singleton.
  - rewrite Hc. split; [done|]. destruct Hsent as [->|(n & -> & Hn & _)]; [done|].
    intros id [Hid|Hid]%elem_of_app; [by apply I4'|].
    apply list_elem_of_singleton in Hid as ->. by exists n.
  - by rewrite Hs.
  - intros v a. rewrite Hs. intros Ha. destruct (I6 v a Ha) as [(x & Hx & Hn) _]. split.
    + exists x. by rewrite Hv.
    + rewrite He, log_state_snoc. by apply Hst.
  - intros v. rewrite Hs, He, log_state_snoc. intros Ha. rewrite (I7 v Ha). by apply Habs.
  - intros a v. rewrite Hv. apply I8.
Qed.

(** What an operation guarantees from a state of the invariant. *)
Definition safe {A} (m : M Sup A) (Q : outcome A -> Sup -> Prop) (s : Sup) (n : nat) : Prop :=
  wp m (fun o s' _ => invariant s' /\ ext s s' /\ Q o s') s n.

Notation any := (fun _ _ => True).

Lemma safe_mono {A} (m : M Sup A) Q Q' s n :
  safe m Q s n -> (forall o s', invariant s' -> ext s s' -> Q o s' -> Q' o s') -> safe m Q' s n.
Proof.
  unfold safe. intros Hm HQ. eapply wp_mono; [exact Hm|]. intros o s' n' (HI & He & H).
  split_and!; auto.
Qed.

Lemma safe_bind {A B} (m : M Sup A) (f : A -> M Sup B) Q s n :
  safe m (fun o s' => invariant s' -> ext s s' ->
            match o with
            | Ret a => forall n', safe (f a) Q s' n'
            | Raise e => Q (Raise e) s'
            end) s n ->
  safe (m ≫= f) Q s n.
Proof.
  unfold safe. intros Hm. apply wp_bind. eapply wp_mono; [exact Hm|].
  intros [a|e] s' n' (HI & He & H).
  - eapply wp_mono; [by apply (H HI He)|]. intros o s2 n2 (? & ? & ?). split_and!; [done|by etrans|done].
  - split_and!; [done|done|by apply H].
Qed.

Lemma safe_quiet {A} (m : M Sup A) s n :
  steps quiet m -> invariant s -> safe m any s n.
Proof.
  intros Hm HI. eapply wp_mono; [apply Hm|]. cbv beta. intros o s' n' Hq.
  split_and!; [by eapply quiet_invariant|by apply quiet_ext|done].
Qed.

(** A quiet operation with what its symbolic execution shows. *)
Lemma safe_quiet_wp {A} (m : M Sup A) (Q : outcome A -> Sup -> Prop) s n :
  steps quiet m -> invariant s -> wp m (fun o s' _ => Q o s') s n -> safe m Q s n.
Proof.
  intros Hm HI HQ. eapply wp_mono; [apply wp_and; [apply Hm|exact HQ]|]. cbv beta.
  intros o s' n' [Hq H].
  split_and!; [by eapply quiet_invariant|by apply quiet_ext|done].
Qed.

Lemma safe_ret {A} (a : A) (Q : outcome A -> Sup -> Prop) s n :
  invariant s -> Q (Ret a) s -> safe (mret a) Q s n.
Proof. intros. by apply wp_ret. Qed.

Lemma safe_raise {A} e (Q : outcome A -> Sup -> Prop) s n :
  invariant s -> Q (Raise e) s -> safe (raise e) Q s n.
Proof. intros. by apply wp_raise. Qed.

Section log.
Context `{CK : Clock} `{CN : !ClockNonneg}.

Lemma wp_log_event vid et msg src f t cid s n :
  wp (log_event vid et msg src f t cid) (fun o s' _ =>
    let e := SafetyEvent.mk (SafetySupervisor.event_sequence s) (monotonic n) vid et src msg f t cid in
    (SafetyEvent_valid e = false /\ o = Raise (ValidationError "SafetyEvent") /\ s' = s) \/
    (o = Ret tt /\ pushed e s s' /\ forall a, state_at a s' = state_at a s)) s n.
Proof.
  unfold log_event, notify. wp_go; [left; done|]. right. split_and!; [done|by split|done].
Qed.

(** An event that is neither a transition nor a command changes no state. *)
Definition same_states (s s' : Sup) : Prop :=
  SafetySupervisor.sessions s' = SafetySupervisor.sessions s /\
  forall v, log_state v (SafetySupervisor.events s') = log_state v (SafetySupervisor.events s).

Lemma log_event_safe vid et msg src f t cid s n :
  invariant s -> et <> "STATE_TRANSITION" -> et <> "COMMAND_SENT" ->
  safe (log_event vid et msg src f t cid) (fun _ => same_states s) s n.
Proof.
  intros HI H1 H2. eapply wp_mono; [apply wp_log_event|]. cbv zeta.
  set (e := SafetyEvent.mk _ _ _ _ _ _ _ _ _).
  assert (Ht : is_transition e = false) by by apply String.eqb_neq.
  assert (Hc : is_command e = false) by by apply String.eqb_neq.
  assert (Hstep : forall v x, log_step v x e = x) by (intros; unfold log_step; by rewrite Ht).
  intros o s' n' [(_ & _ & ->)|(_ & Hp & Hst)]; [by split_and!|].
  split_and!; [|by eapply pushed_ext|].
  2: { split; [by eapply pushed_sessions|]. intros v.
       by rewrite (pushed_events e s s' Hp), log_state_snoc, Hstep. }
  eapply (pushed_invariant e); [done..| | | |].
  - split_and!; [apply HI|by rewrite Ht|by rewrite Hc].
  - unfold fresh_command. by rewrite Hc.
  - intros v a Ha. rewrite Hst, Hstep. by apply HI.
  - intros v _. apply Hstep.
Qed.

Lemma event_safe vid et msg s n :
  invariant s -> et <> "STATE_TRANSITION" -> et <> "COMMAND_SENT" ->
  safe (event vid et msg) (fun _ => same_states s) s n.
Proof. intros. unfold event. by apply log_event_safe. Qed.

(** The registry and the log agree on the state. *)
Lemma registered_state v a s :
  invariant s -> dict_get v (SafetySupervisor.sessions s) = Some a ->
  exists x, SafetySupervisor.objects s !! a = Some x /\
    VehicleSession.state x = log_state v (SafetySupervisor.events s) /\
    vehicle_name (VehicleSession.vehicle x) = v.
Proof.
  intros HI Ha. destruct (inv_sessions s HI v a Ha) as [(veh & Hv & Hn) Hs].
  unfold vehicle_at, state_at in *. destruct (SafetySupervisor.objects s !! a) as [x|]; [|done].
  simplify_eq/=. by exists x.
Qed.

(** Two vehicles have different sessions. *)
Lemma registered_inj v w a s :
  invariant s -> dict_get v (SafetySupervisor.sessions s) = Some a ->
  dict_get w (SafetySupervisor.sessions s) = Some a -> v = w.
Proof.
  intros HI Hv Hw.
  destruct (registered_state v a s HI Hv) as (x & Hx & _ & <-).
  destruct (registered_state w a s HI Hw) as (y & Hy & _ & <-). congruence.
Qed.

Lemma state_at_assign a b x f s :
  SafetySupervisor.objects s !! a = Some x ->
  state_at b (SafetySupervisor.set_objects (alter f a (SafetySupervisor.objects s)) s)
  = if decide (a = b) then Some (VehicleSession.state (f x)) else state_at b s.
Proof.
  intros Hx. unfold state_at. simpl. case_decide as E.
  - subst b. by rewrite list_lookup_alter_eq, Hx.
  - by rewrite list_lookup_alter_ne.
Qed.

Lemma vehicle_at_assign a b x target s :
  SafetySupervisor.objects s !! a = Some x ->
  vehicle_at b (SafetySupervisor.set_objects
    (alter (VehicleSession.set_state target) a (SafetySupervisor.objects s)) s) = vehicle_at b s.
Proof.
  intros Hx. unfold vehicle_at. simpl. destruct (decide (a = b)) as [->|].
  - by rewrite list_lookup_alter_eq, Hx.
  - by rewrite list_lookup_alter_ne.
Qed.
End log.

Lemma wp_session v (Q : outcome session_ref -> Sup -> nat -> Prop) s n :
  (forall a, dict_get v (SafetySupervisor.sessions s) = Some a -> Q (Ret a) s n) ->
  (dict_get v (SafetySupervisor.sessions s) = None ->
   Q (Raise (CrazySwarmError IDENTITY_MISMATCH ("unknown vehicle: " +:+ v))) s n) ->
  wp (session v) Q s n.
Proof. intros H1 H2. unfold session. wp_go. case_match; wp_go; auto. Qed.

Lemma wp_deref a (Q : outcome VehicleSession.t -> Sup -> nat -> Prop) s n :
  (forall x, SafetySupervisor.objects s !! a = Some x -> Q (Ret x) s n) ->
  (SafetySupervisor.objects s !! a = None -> Q (Raise (OtherError "dangling session")) s n) ->
  wp (deref a) Q s n.
Proof. intros H1 H2. unfold deref. wp_go. case_match; wp_go; auto. Qed.

Lemma wp_assign_session f a (Q : outcome unit -> Sup -> nat -> Prop) s n :
  Q (Ret tt) (SafetySupervisor.set_objects (alter f a (SafetySupervisor.objects s)) s) n ->
  wp (assign_session f a) Q s n.
Proof. done. Qed.

Ltac wp_hook ::=
  lazymatch goal with
  | |- wp (session _) _ _ _ => apply wp_session; [intros ?a ?Ha|intros ?]
  | |- wp (deref _) _ _ _ => apply wp_deref; [intros ?x ?Hx|intros ?]
  | |- wp (assign_session _ _) _ _ _ => apply wp_assign_session
  end.

Section transitions.
Context `{CK : Clock} `{CN : !ClockNonneg}.

Lemma transition_event_valid s n v src msg f t :
  invariant s -> is_identifier v = true ->
  SafetyEvent_valid (SafetyEvent.mk (SafetySupervisor.event_sequence s) (monotonic n) v
    "STATE_TRANSITION" src msg f t None) = true.
Proof.
  intros HI Hv. unfold SafetyEvent_valid. simpl. rewrite Hv, (clock_nonneg n).
  rewrite (inv_sequence s HI). by rewrite (proj2 (Z.leb_le _ _)) by lia.
Qed.

Lemma transition_safe v t src s n :
  invariant s ->
  safe (transition v t src) (fun o s' => o = Ret tt ->
    log_state v (SafetySupervisor.events s') = t /\
    is_Some (dict_get v (SafetySupervisor.sessions s'))) s n.
Proof.
  intros HI. unfold safe, transition. wp_go; [|by split_and!..].
  destruct (registered_state v a s HI Ha) as (y & Hy & Hst & Hn). rewrite Hx in Hy. simplify_eq.
  destruct (require_transition_spec (VehicleSession.state y) t) as [[Hok ->]|[_ [msg ->]]];
    [|by split_and!].
  wp_go.
  set (s1 := SafetySupervisor.set_objects _ s).
  eapply wp_mono; [apply wp_log_event|]. cbv zeta.
  assert (Hid : is_identifier (vehicle_name (VehicleSession.vehicle y)) = true).
  { apply (inv_names s HI a). unfold vehicle_at. by rewrite Hx. }
  change (SafetySupervisor.event_sequence s1) with (SafetySupervisor.event_sequence s).
  intros o s' n' [(Hinv & _)|(-> & Hp & Hs')].
  { by rewrite transition_event_valid in Hinv. }
  set (e := SafetyEvent.mk _ _ _ _ _ _ _ _ _) in *.
  set (v := vehicle_name (VehicleSession.vehicle y)) in *.
  assert (Hp' : pushed e s s').
  { destruct Hp. split; try done. intros b. rewrite pushed_vehicle0. by eapply vehicle_at_assign. }
  assert (Hlog : forall w, log_step w (log_state w (SafetySupervisor.events s)) e
                 = if decide (w = v) then t else log_state w (SafetySupervisor.events s)).
  { intros w. unfold log_step. simpl. case_decide as E.
    - subst w. by rewrite String.eqb_refl.
    - by rewrite (proj2 (String.eqb_neq v w)) by congruence. }
  split_and!; [|by eapply pushed_ext|].
  - eapply (pushed_invariant e); [done..| | | |].
    + split_and!; [apply (inv_sequence s HI)| |done]. intros _. exists t. simpl.
      rewrite <- Hst. by split_and!.
    + done.
    + intros w b Hb. rewrite Hs'. unfold s1. rewrite (state_at_assign a b y), Hlog by done. simpl.
      case_decide as E1; case_decide as E2; subst; try done.
      * by destruct E2; eapply registered_inj.
      * by simplify_eq.
      * by apply HI.
    + intros w Hw. rewrite <- (inv_absent s HI w Hw), Hlog. case_decide; [|done]. congruence.
  - intros _. rewrite (pushed_events e s s' Hp'), log_state_snoc, Hlog, decide_True by done.
    rewrite (pushed_sessions e s s' Hp'), Ha. by split.
Qed.

Lemma register_vehicle_safe v s n :
  invariant s -> is_identifier (vehicle_name v) = true -> safe (register_vehicle v) any s n.
Proof.
  intros HI Hid. unfold safe, register_vehicle. wp_go; [by split_and!|].
  set (s1 := SafetySupervisor.set_sessions _ _).
  assert (Hnone : dict_get (vehicle_name v) (SafetySupervisor.sessions s) = None).
  { unfold dict_mem in *. by destruct (dict_get _ _). }
  assert (Hobj : forall a x, SafetySupervisor.objects s !! a = Some x ->
                 SafetySupervisor.objects s1 !! a = Some x).
  { intros a x Hx. simpl. by apply lookup_app_l_Some. }
  assert (Hnew : SafetySupervisor.objects s1 !! length (SafetySupervisor.objects s)
                 = Some (VehicleSession_new v)).
  { simpl. by apply list_lookup_middle. }
  assert (HI1 : invariant s1).
  { destruct HI as [I1 I2 I3 I4 I5 I6 I7 I8]. split; try done; simpl.
    - by apply dict_set_wf.
    - intros w a. rewrite dict_get_set. case_decide as E.
      + subst w. intros [= <-]. unfold refers, vehicle_at, state_at. rewrite Hnew. simpl.
        split; [by eexists|]. by rewrite I7.
      + intros Ha. destruct (I6 w a Ha) as [(u & Hu & Hn) Hst].
        unfold refers, vehicle_at, state_at in *.
        destruct (SafetySupervisor.objects s !! a) as [x|] eqn:Hx; [|done].
        rewrite (Hobj a x Hx). split; [by eexists|done].
    - intros w. rewrite dict_get_set. case_decide; [done|]. apply I7.
    - intros a u. unfold vehicle_at.
      destruct (SafetySupervisor.objects s !! a) as [x|] eqn:Hx.
      + rewrite (Hobj a x Hx). intros. apply (I8 a). unfold vehicle_at. by rewrite Hx.
      + apply lookup_ge_None in Hx. simpl.
        destruct (decide (a = length (SafetySupervisor.objects s))) as [->|].
        * rewrite list_lookup_middle by done. by intros [= <-].
        * rewrite lookup_ge_None_2; [done|]. rewrite length_app. simpl. lia. }
  assert (He : ext s s1).
  { split; [exists []; by rewrite app_nil_r| |done]. intros a u. unfold vehicle_at.
    destruct (SafetySupervisor.objects s !! a) as [x|] eqn:Hx; [|done]. by rewrite (Hobj a x Hx). }
  eapply wp_mono; [by apply event_safe|]. intros o s' n' (? & ? & _).
  split_and!; [done|by etrans|done].
Qed.

Lemma unregister_vehicle_safe v s n : invariant s -> safe (unregister_vehicle v) any s n.
Proof.
  intros HI. unfold safe, unregister_vehicle. wp_go; try by split_and!.
  destruct (registered_state v a s HI Ha) as (y & Hy & Hst & Hn). rewrite Hx in Hy. simplify_eq.
  bool_to_prop.
  eapply wp_mono; [by apply event_safe|]. intros [[]|e] s1 n1 (HI1 & He1 & Hs1 & Hl1); [|by split_and!].
  wp_go. set (v := vehicle_name (VehicleSession.vehicle y)) in *.
  split_and!; [|by destruct He1|done].
  assert (Hv : log_state v (SafetySupervisor.events s) = VehicleState.DISCONNECTED).
  { by rewrite <- Hst. }
  destruct HI1 as [I1 I2 I3 I4 I5 I6 I7 I8]. split; try done; simpl.
  - by apply dict_del_wf.
  - intros w b. rewrite dict_del_get. case_decide; [done|]. apply I6.
  - intros w. rewrite dict_del_get. case_decide as E; [|apply I7]. subst w. by rewrite Hl1.
Qed.
End transitions.

Lemma wp_next_command_sequence (Q : outcome Z -> Sup -> nat -> Prop) s n :
  Q (Ret (SafetySupervisor.command_sequence s))
    (SafetySupervisor.set_command_sequence (SafetySupervisor.command_sequence s + 1) s) n ->
  wp next_command_sequence Q s n.
Proof. done. Qed.

Lemma wp_notify v (Q : outcome unit -> Sup -> nat -> Prop) s n :
  Q (Ret tt) (SafetySupervisor.set_notified (SafetySupervisor.notified s ++
    ((fun sink => (sink, v)) <$> SafetySupervisor.audit_sinks s)) s) n -> wp (notify v) Q s n.
Proof. done. Qed.

Lemma command_name_inj m n : command_name m = command_name n -> m = n.
Proof. unfold command_name. intros [= H]. by apply (inj pretty). Qed.

(** The number of a command that was not issued yet is new. *)
Lemma unissued s n :
  invariant s -> SafetySupervisor.command_sequence s <= n ->
  command_name n ∉ sent_ids (SafetySupervisor.events s).
Proof.
  intros HI Hn Hin. destruct (inv_issued s HI) as [_ H].
  destruct (H _ Hin) as (m & Hm%command_name_inj & ?). lia.
Qed.

Section sending.
Context `{CK : Clock} `{CN : !ClockNonneg} `{LM : Libm} `{DG : Digest}.

(** The record of a command: it is sendable and its identity is new. *)
Lemma command_event_safe v k src c s n :
  invariant s -> sendable k (log_state v (SafetySupervisor.events s)) = true ->
  0 <= c < SafetySupervisor.command_sequence s ->
  command_name c ∉ sent_ids (SafetySupervisor.events s) ->
  safe (log_event v "COMMAND_SENT" (CommandKind_value k) src None None (Some (command_name c)))
    any s n.
Proof.
  intros HI Hk Hc Hf. eapply wp_mono; [apply wp_log_event|]. cbv zeta.
  set (e := SafetyEvent.mk _ _ _ _ _ _ _ _ _).
  assert (Hstep : forall w x, log_step w x e = x) by done.
  intros o s' n' [(_ & _ & ->)|(_ & Hp & Hst)]; [by split_and!|].
  split_and!; [|by eapply pushed_ext|done].
  eapply (pushed_invariant e); [done..| | | |].
  - split_and!; [apply (inv_sequence s HI)|done|]. intros _. by exists k.
  - intros _. by exists c.
  - intros w b Hb. rewrite Hst, Hstep. by apply (inv_sessions s HI).
  - intros w _. apply Hstep.
Qed.

Lemma begin_send_safe a v payload src run fleet s n :
  invariant s -> refers a v s ->
  sendable (CommandPayload.kind payload) (log_state v (SafetySupervisor.events s)) = true ->
  safe (begin_send a payload src run fleet) any s n.
Proof.
  intros HI (u & Hu & Hn) Hk. unfold safe, begin_send.
  apply wp_bind, wp_next_command_sequence.
  set (s1 := SafetySupervisor.set_command_sequence _ s).
  pose proof (inv_issued s HI) as [Hpos _].
  assert (Hq : quiet s s1) by (split; try done; simpl; lia).
  assert (HI1 : invariant s1) by by eapply quiet_invariant.
  assert (He1 : ext s s1) by by apply quiet_ext.
  wp_go; try by split_and!.
  assert (Hname : vehicle_name (VehicleSession.vehicle x) = v).
  { unfold vehicle_at in Hu. simpl in Hx. rewrite Hx in Hu. by simplify_eq/=. }
  rewrite Hname. apply wp_notify.
  set (s2 := SafetySupervisor.set_notified _ s1).
  assert (Hq2 : quiet s1 s2) by by split.
  assert (HI2 : invariant s2) by by eapply quiet_invariant.
  apply wp_bind. eapply wp_mono.
  { apply (command_event_safe v (CommandPayload.kind payload)); [done|done|simpl; lia|].
    by apply (unissued s). }
  intros [[]|e] s3 n3 (HI3 & He3 & _).
  - assert (He : ext s s3) by (etrans; [exact He1|]; etrans; [by apply quiet_ext|done]).
    apply wp_bind. eapply wp_mono; [apply extend_lease_quiet|]. cbv beta.
    intros [[]|e] s4 n4 Hq4.
    + wp_go. assert (Hq5 : quiet s3 (SafetySupervisor.set_objects (alter (fun x =>
          VehicleSession.set_active_command_payload (Some payload)
          (VehicleSession.set_active_execute_task (Some (SafetySupervisor.command_sequence s)) x)) a
          (SafetySupervisor.objects s4)) s4)).
      { etrans; [exact Hq4|]. by apply alter_quiet. }
      split_and!; [by eapply quiet_invariant|etrans; [exact He|by apply quiet_ext]|done].
    + split_and!; [by eapply quiet_invariant|etrans; [exact He|by apply quiet_ext]|done].
  - split_and!; [done| |done]. etrans; [exact He1|]. etrans; [by apply quiet_ext|done].
Qed.
End sending.

(** ** Operations that are safe in every state *)

Definition Safe {A} (m : M Sup A) : Prop := forall s n, invariant s -> safe m any s n.

Lemma Safe_bind {A B} (m : M Sup A) (f : A -> M Sup B) :
  Safe m -> (forall a, Safe (f a)) -> Safe (m ≫= f).
Proof.
  intros Hm Hf s n HI. apply safe_bind. eapply safe_mono; [by apply Hm|].
  intros [a|e] s' ?????; [|done]. intros n'. by apply Hf.
Qed.

Lemma Safe_quiet {A} (m : M Sup A) : steps quiet m -> Safe m.
Proof. intros Hm s n HI. by apply safe_quiet. Qed.

Lemma Safe_for_each {A} (l : list A) (body : A -> M Sup unit) :
  (forall x, Safe (body x)) -> Safe (for_each l body).
Proof.
  intros Hb. induction l as [|x l IH]; simpl; [apply Safe_quiet; steps_go|].
  apply Safe_bind; [done|]. by intros _.
Qed.

Create HintDb safe discriminated.
Ltac safe_go :=
  cbv zeta;
  repeat (first
    [ solve [eauto with safe]
    | solve [apply Safe_quiet; steps_go]
    | lazymatch goal with
      | |- forall _, _ => intros ?
      | |- Safe (mbind _ _) => apply Safe_bind; [|intros ?]
      | |- Safe (for_each _ _) => apply Safe_for_each; intros ?
      | |- Safe (match ?x with _ => _ end) => destruct x
      end ]).

Section safe_operations.
Context `{CK : Clock} `{CN : !ClockNonneg} `{LM : Libm} `{DG : Digest}.

Lemma Safe_event vid et msg :
  et <> "STATE_TRANSITION" -> et <> "COMMAND_SENT" -> Safe (event vid et msg).
Proof. intros H1 H2 s n HI. eapply safe_mono; [by apply event_safe|done]. Qed.

Lemma Safe_log_event vid et msg src f t cid :
  et <> "STATE_TRANSITION" -> et <> "COMMAND_SENT" -> Safe (log_event vid et msg src f t cid).
Proof. intros H1 H2 s n HI. eapply safe_mono; [by apply log_event_safe|done]. Qed.

Lemma Safe_transition v t src : Safe (transition v t src).
Proof. intros s n HI. eapply safe_mono; [by apply transition_safe|done]. Qed.
#[local] Hint Resolve Safe_transition : safe.
#[local] Hint Extern 1 (Safe (event _ _ _)) => apply Safe_event; discriminate : safe.
#[local] Hint Extern 1 (Safe (log_event _ _ _ _ _ _ _)) => apply Safe_log_event; discriminate : safe.

Lemma Safe_authorize_mode m auth : Safe (authorize_mode m auth).
Proof. unfold authorize_mode. apply Safe_quiet. steps_go. Qed.
#[local] Hint Resolve Safe_authorize_mode : safe.

Lemma Safe_set_mode m auth : Safe (set_mode m auth).
Proof.
  unfold set_mode. safe_go.
Qed.

Lemma Safe_claim_control v o n : Safe (claim_control v o n).
Proof. unfold claim_control. safe_go. Qed.
Lemma Safe_adopt_terminal_state a t : Safe (adopt_terminal_state a t).
Proof. unfold adopt_terminal_state. safe_go. Qed.
Lemma Safe_adopt_landed a v t : Safe (adopt_landed a v t).
Proof. unfold adopt_landed. safe_go. Qed.
Lemma Safe_fail_to_fault a v : Safe (fail_to_fault a v).
Proof. unfold fail_to_fault. safe_go. Qed.
Lemma Safe_record_preflight a v o n r b t : Safe (record_preflight a v o n r b t).
Proof. unfold record_preflight. safe_go. Qed.
Lemma Safe_finish_send a k e : Safe (finish_send a k e).
Proof. unfold finish_send. safe_go. Qed.
Lemma Safe_record_observation a v t : Safe (record_observation a v t).
Proof. unfold record_observation. safe_go. Qed.
Lemma Safe_add_audit_sink sink : Safe (add_audit_sink sink).
Proof. apply Safe_quiet, steps_modify. by split. Qed.
Lemma Safe_unregister_vehicle v : Safe (unregister_vehicle v).
Proof. intros s n HI. by apply unregister_vehicle_safe. Qed.
End safe_operations.

#[export] Hint Resolve Safe_transition Safe_set_mode Safe_claim_control Safe_adopt_terminal_state
  Safe_adopt_landed Safe_fail_to_fault Safe_record_preflight Safe_finish_send
  Safe_record_observation Safe_add_audit_sink Safe_unregister_vehicle : safe.
#[export] Hint Extern 1 (Safe (event _ _ _)) => apply Safe_event; discriminate : safe.
#[export] Hint Extern 1 (Safe (log_event _ _ _ _ _ _ _)) =>
  apply Safe_log_event; discriminate : safe.

(** ** Coroutines *)

Notation ok := (cok (req := request) invariant ext).
Notation any3 := (fun _ _ _ => True).

Section coroutine_rules.
Context {A B : Type}.
Implicit Types (c : coro A) (Q : outcome B -> Sup -> nat -> Prop).

Lemma ok_sync (m : M Sup A) (Q : outcome A -> Sup -> Prop) s n :
  safe m Q s n -> ok (sync m) (fun o s' _ => Q o s') s n.
Proof. intros H. by apply cok_sync. Qed.

Lemma ok_bind c (f : A -> coro B) Q s n :
  ok c (fun o s' n' => invariant s' -> ext s s' ->
          match o with Ret a => ok (f a) Q s' n' | Raise e => Q (Raise e) s' n' end) s n ->
  ok (c ≫= f) Q s n.
Proof.
  intros Hc. apply (cok_then invariant ext). eapply cok_mono; [apply _|exact Hc|].
  intros [a|e] s' n' HI He H _ _; [by apply H|]. apply cok_finish; [apply _|done|by apply H].
Qed.

(** Sequencing when nothing is recorded about the first part. *)
Lemma ok_bind_any c (f : A -> coro B) s n :
  ok c any3 s n ->
  (forall a s' n', invariant s' -> ext s s' -> ok (f a) any3 s' n') -> ok (c ≫= f) any3 s n.
Proof.
  intros Hc Hf. apply ok_bind. eapply cok_mono; [apply _|exact Hc|]. intros [a|e] s' n' ??? _ _; auto.
Qed.

(** A synchronous guard with what it establishes. *)
Lemma ok_guard (m : M Sup A) (P : A -> Sup -> Prop) (f : A -> coro B) s n :
  safe m (fun o s' => forall a, o = Ret a -> P a s') s n ->
  (forall a s' n', invariant s' -> ext s s' -> P a s' -> ok (f a) any3 s' n') ->
  ok (sync m ≫= f) any3 s n.
Proof.
  intros Hm Hf. apply ok_bind. eapply cok_mono; [apply _|by apply ok_sync|]. cbv beta.
  intros [a|e] s' n' HI He H _ _; [|done]. apply Hf; auto.
Qed.

Lemma ok_try_any c catches (h : exn -> coro A) s n :
  ok c any3 s n ->
  (forall e s' n', invariant s' -> ext s s' -> ok (h e) any3 s' n') ->
  ok (co_try c catches h) any3 s n.
Proof.
  intros Hc Hh. apply (cok_then invariant ext). eapply cok_mono; [apply _|exact Hc|].
  intros [a|e] s' n' ??? _ _; [by apply cok_finish; [apply _|..]|].
  destruct (catches e); [by apply Hh|]. by apply cok_finish; [apply _|..].
Qed.
End coroutine_rules.

(** Coroutines that keep the invariant from every state. *)
Definition Ok {A} (c : coro A) : Prop := forall s n, invariant s -> ok c any3 s n.

Lemma Ok_finish {A} (o : outcome A) : Ok (Finish o).
Proof. intros s n HI. by apply cok_finish; [apply _|..]. Qed.

Lemma Ok_ret {A} (a : A) : Ok (mret a).
Proof. apply Ok_finish. Qed.

Lemma Ok_raise {A} e : Ok (co_raise e : coro A).
Proof. apply Ok_finish. Qed.

Lemma Ok_sync {A} (m : M Sup A) : Safe m -> Ok (sync m).
Proof. intros Hm s n HI. eapply cok_mono; [apply _|by apply ok_sync, Hm|done]. Qed.

Lemma Ok_await {A} (q : request A) : Ok (await q).
Proof. intros s n HI. by apply cok_await; [apply _|..]. Qed.

Lemma Ok_bind {A B} (c : coro A) (f : A -> coro B) : Ok c -> (forall a, Ok (f a)) -> Ok (c ≫= f).
Proof. intros Hc Hf s n HI. apply ok_bind_any; [by apply Hc|]. intros. by apply Hf. Qed.

Lemma Ok_try {A} (c : coro A) catches h :
  Ok c -> (forall e, Ok (h e)) -> Ok (co_try c catches h).
Proof. intros Hc Hh s n HI. apply ok_try_any; [by apply Hc|]. intros. by apply Hh. Qed.

Lemma Ok_finally {A} (c : coro A) f : Ok c -> Ok f -> Ok (co_finally c f).
Proof.
  intros Hc Hf s n HI. apply (cok_then invariant ext). eapply cok_mono; [apply _|by apply Hc|].
  intros o s' n' ??? _ _. apply (cok_then invariant ext). eapply cok_mono; [apply _|by apply Hf|].
  intros [?|?] s2 n2 ??? _ _; by apply cok_finish; [apply _|..].
Qed.

Lemma Ok_discard {A} (c : coro A) : Ok c -> Ok (discard c).
Proof. intros Hc. apply Ok_bind; [done|]. intros _. apply Ok_ret. Qed.

Lemma Ok_for_each {X} (l : list X) (body : X -> coro unit) :
  (forall x, Ok (body x)) -> Ok (co_for_each l body).
Proof. intros Hb s n HI. apply cok_for_each; [apply _|done|]. intros. by apply Hb. Qed.

(** [Ok c] by the structure of [c]. *)
Create HintDb coroutines discriminated.
Ltac ok_go :=
  cbv zeta;
  repeat (first
    [ solve [eauto with coroutines]
    | lazymatch goal with
      | |- forall _, _ => intros ?
      | |- Ok (mret _) => apply Ok_ret
      | |- Ok (Finish _) => apply Ok_finish
      | |- Ok (co_raise _) => apply Ok_raise
      | |- Ok (await _) => apply Ok_await
      | |- Ok (sync _) => apply Ok_sync; solve [safe_go]
      | |- Ok (mbind _ _) => apply Ok_bind; [|intros ?]
      | |- Ok (co_try _ _ _) => apply Ok_try; [|intros ?]
      | |- Ok (co_finally _ _) => apply Ok_finally
      | |- Ok (discard _) => apply Ok_discard
      | |- Ok (co_for_each _ _) => apply Ok_for_each; intros ?
      | |- Ok (match ?x with _ => _ end) => destruct x
      end ]).

(** The command of this kind may be sent over the session reference. *)
Definition ready (a : session_ref) (k : CommandKind.t) (s : Sup) : Prop :=
  exists v, refers a v s /\ sendable k (log_state v (SafetySupervisor.events s)) = true.

Lemma ready_quiet a k s s' : quiet s s' -> ready a k s -> ready a k s'.
Proof.
  intros Hq (v & Hv & Hk). exists v. split; [eapply refers_ext; [done|by apply quiet_ext]|].
  by rewrite (quiet_events s s' Hq).
Qed.

Section coroutines.
Context `{CK : Clock} `{CN : !ClockNonneg} `{LM : Libm} `{DG : Digest}.

Lemma Ok_snapshot a t : Ok (snapshot a t).
Proof. unfold snapshot. ok_go. Qed.
#[local] Hint Resolve Ok_snapshot : coroutines.
Lemma Ok_refresh a : Ok (refresh a).
Proof. unfold refresh. ok_go. Qed.
Lemma Ok_reconcile a : Ok (reconcile a).
Proof. unfold reconcile. ok_go. Qed.
#[local] Hint Resolve Ok_refresh Ok_reconcile : coroutines.
Lemma Ok_interrupt a e : Ok (interrupt_active_command a e).
Proof. unfold interrupt_active_command. ok_go. Qed.
#[local] Hint Resolve Ok_interrupt : coroutines.
Lemma Ok_interrupt_trajectory a m : Ok (interrupt_trajectory a m).
Proof. unfold interrupt_trajectory. ok_go. Qed.
Lemma Ok_await_execution a t e x : Ok (await_execution a t e x).
Proof. unfold await_execution. ok_go. Qed.
#[local] Hint Resolve Ok_interrupt_trajectory Ok_await_execution : coroutines.

Lemma send_ok a payload src run fleet s n :
  invariant s -> ready a (CommandPayload.kind payload) s -> ok (send a payload src run fleet) any3 s n.
Proof.
  intros HI (v & Hv & Hk). unfold send. apply ok_bind_any.
  { eapply cok_mono; [apply _|by apply ok_sync, (begin_send_safe a v)|done]. }
  intros [[task envelope] timeout_s] s' n' HI' _. revert s' n' HI'.
  match goal with |- forall s n, invariant s -> ok ?c any3 s n => change (Ok c) end.
  ok_go.
Qed.
End coroutines.
#[export] Hint Resolve Ok_snapshot Ok_refresh Ok_reconcile Ok_interrupt Ok_interrupt_trajectory
  Ok_await_execution : coroutines.

(** ** What the guards establish *)

(** The session's lease belongs to the owner and, unless an expired owner is
    allowed, has not expired. *)
Definition holds_lease (x : VehicleSession.t) (owner_id : string) (now : float)
    (allow_expired : bool) : Prop :=
  exists l, VehicleSession.lease x = Some l /\ ControlLease.owner_id l = owner_id /\
    (allow_expired = true \/ fleb (ControlLease.expires_at_monotonic_s l) now = false).

Section guards.
Context `{CK : Clock} `{LM : Libm} `{DG : Digest}.

Lemma wp_require_owner a o now b (Q : outcome unit -> Sup -> nat -> Prop) s n :
  (forall x, SafetySupervisor.objects s !! a = Some x -> holds_lease x o now b -> Q (Ret tt) s n) ->
  (forall e, Q (Raise e) s n) -> wp (require_owner a o now b) Q s n.
Proof.
  intros H1 H2. unfold require_owner. wp_go; [|done].
  destruct (VehicleSession.lease x) as [l|] eqn:Hl; wp_go; try done.
  apply (H1 x Hx). exists l. bool_to_prop. destruct b; naive_solver.
Qed.

Lemma wp_require_flying a o (Q : outcome unit -> Sup -> nat -> Prop) s n :
  (forall x, SafetySupervisor.objects s !! a = Some x -> holds_lease x o (monotonic n) false ->
     VehicleSession.state x = VehicleState.FLYING -> Q (Ret tt) s (S n)) ->
  (forall e, Q (Raise e) s (S n)) -> wp (require_flying a o) Q s n.
Proof.
  intros H1 H2. unfold require_flying. wp_go. apply wp_require_owner; [|done].
  intros x Hx Hl. wp_go; try done. rewrite Hx in Hx0. simplify_eq. bool_to_prop. by apply (H1 x0).
Qed.

(** Authority over the vehicle in the current mode. *)
Definition has_authority (s : Sup) (x : VehicleSession.t) : Prop := real_authorized s x = true.

Lemma wp_require_real_authority a (Q : outcome unit -> Sup -> nat -> Prop) s n :
  (forall x, SafetySupervisor.objects s !! a = Some x -> has_authority s x -> Q (Ret tt) s n) ->
  (forall e, Q (Raise e) s n) -> wp (require_real_authority a) Q s n.
Proof.
  intros H1 H2. unfold require_real_authority. wp_go; [|done].
  destruct (authority _) eqn:Ha; wp_go; try done; bool_to_prop; apply (H1 x Hx);
    unfold has_authority, real_authorized; rewrite Ha; simpl.
  - by rewrite bool_decide_eq_true_2.
  - by match goal with H1 : real_mode _ = true, H2 : dict_mem _ _ = true |- _ => rewrite H1, H2 end.
Qed.

Lemma wp_require_command_ready a o (Q : outcome unit -> Sup -> nat -> Prop) s n :
  (forall x e, SafetySupervisor.objects s !! a = Some x -> holds_lease x o (monotonic n) false ->
     has_authority s x -> VehicleSession.state x = VehicleState.READY ->
     VehicleSession.telemetry x = Some e ->
     VehicleTelemetry.armed (TelemetryEnvelope.telemetry e) = true -> Q (Ret tt) s (S n)) ->
  (forall e, Q (Raise e) s (S n)) -> wp (require_command_ready a o) Q s n.
Proof.
  intros H1 H2. unfold require_command_ready. wp_go. apply wp_require_owner; [|done].
  intros x Hx Hl. wp_go. apply wp_require_real_authority; [|done].
  intros y Hy Ha. wp_go; [|done].
  match goal with H : SafetySupervisor.objects s !! a = Some ?z |- context [VehicleSession.telemetry ?z] =>
    destruct (VehicleSession.telemetry z) eqn:?; [|by wp_go] end.
  wp_go; try done. bool_to_prop. rewrite Hx in *. simplify_eq. by eapply H1.
Qed.

Lemma wp_require_preflight a o r now (Q : outcome unit -> Sup -> nat -> Prop) s n :
  (forall x, SafetySupervisor.objects s !! a = Some x ->
     preflight_is_valid s x o r now = true -> Q (Ret tt) s n) ->
  (forall e, Q (Raise e) s n) -> wp (require_preflight a o r now) Q s n.
Proof. intros H1 H2. unfold require_preflight. wp_go; try done. bool_to_prop. by apply (H1 x). Qed.

Lemma wp_now_or v (Q : outcome float -> Sup -> nat -> Prop) s n :
  Q (Ret (default (monotonic n) v)) s (match v with Some _ => n | None => S n end) ->
  wp (now_or v) Q s n.
Proof. by destruct v. Qed.
End guards.

Ltac wp_hook ::=
  lazymatch goal with
  | |- wp (session _) _ _ _ => apply wp_session; [intros ?a ?Ha|intros ?]
  | |- wp (deref _) _ _ _ => apply wp_deref; [intros ?x ?Hx|intros ?]
  | |- wp (assign_session _ _) _ _ _ => apply wp_assign_session
  | |- wp (now_or _) _ _ _ => apply wp_now_or
  | |- wp (require_owner _ _ _ _) _ _ _ => apply wp_require_owner; [intros ?x ?Hx ?Hl|intros ?]
  | |- wp (require_flying _ _) _ _ _ => apply wp_require_flying; [intros ?x ?Hx ?Hl ?Hf|intros ?]
  | |- wp (require_preflight _ _ _ _) _ _ _ =>
      apply wp_require_preflight; [intros ?x ?Hx ?Hp|intros ?]
  | |- wp (require_real_authority _) _ _ _ =>
      apply wp_require_real_authority; [intros ?x ?Hx ?Hr|intros ?]
  | |- wp (require_command_ready _ _) _ _ _ =>
      apply wp_require_command_ready; [intros ?x ?e ?Hx ?Hl ?Hr ?Hs ?He ?Ha|intros ?]
  end.

(** ** Every coroutine of the supervisor keeps the invariant *)

Section api.
Context `{CK : Clock} `{CN : !ClockNonneg} `{LM : Libm} `{DG : Digest}.

Lemma registered_refers v a s :
  invariant s -> dict_get v (SafetySupervisor.sessions s) = Some a -> refers a v s.
Proof. intros HI Ha. by apply (inv_sessions s HI). Qed.

(** A registered session in a state is ready for what may be sent in it. *)
Lemma registered_ready v a x k s :
  invariant s -> dict_get v (SafetySupervisor.sessions s) = Some a ->
  SafetySupervisor.objects s !! a = Some x -> sendable k (VehicleSession.state x) = true ->
  ready a k s.
Proof.
  intros HI Ha Hx Hk. exists v. split; [by apply registered_refers|].
  destruct (registered_state v a s HI Ha) as (y & Hy & <- & _). by simplify_eq.
Qed.

(** A guard that only reads and returns a session that is ready. *)
Lemma reads_ready (m : M Sup session_ref) k s n :
  invariant s ->
  wp m (fun o s' _ => s' = s /\ forall a, o = Ret a -> exists v x,
    dict_get v (SafetySupervisor.sessions s) = Some a /\
    SafetySupervisor.objects s !! a = Some x /\
    sendable k (VehicleSession.state x) = true) s n ->
  safe m (fun o s' => forall a, o = Ret a -> ready a k s') s n.
Proof.
  intros HI Hm. eapply wp_mono; [exact Hm|]. intros o s' _ [-> H]. split_and!; [done..|].
  intros a Ha. destruct (H a Ha) as (v & x & Hv & Hx & Hk). by eapply registered_ready.
Qed.

(** A guard that only reads and returns the session of the vehicle. *)
Lemma reads_refers (m : M Sup session_ref) v s n :
  invariant s ->
  wp m (fun o s' _ => s' = s /\ forall a, o = Ret a ->
    dict_get v (SafetySupervisor.sessions s) = Some a) s n ->
  safe m (fun o s' => forall a, o = Ret a -> refers a v s') s n.
Proof.
  intros HI Hm. eapply wp_mono; [exact Hm|]. intros o s' _ [-> H]. split_and!; [done..|].
  intros a Ha. by apply registered_refers; [|apply H].
Qed.

(** A transition into a state makes the command of the state ready. *)
Lemma transition_ready v a t k src s n :
  invariant s -> refers a v s -> sendable k t = true ->
  safe (transition v t src) (fun o s' => o = Ret tt -> ready a k s') s n.
Proof.
  intros HI Hr Hk. eapply safe_mono; [by apply transition_safe|]. intros o s' _ He H Ho.
  exists v. split; [by eapply refers_ext|]. by rewrite (proj1 (H Ho)).
Qed.

(** The transition of a command, then its payload. *)
Lemma transition_payload v a t src p s n :
  invariant s -> refers a v s -> sendable (CommandPayload.kind p) t = true ->
  safe (_ ← transition v t src; new_payload p)
    (fun o s' => forall q, o = Ret q -> ready a (CommandPayload.kind q) s') s n.
Proof.
  intros HI Hr Hk. apply safe_bind. eapply safe_mono; [by eapply transition_ready|].
  intros [[]|e] s' HI' _ H _ _; [|done]. intros n'. unfold new_payload, validated.
  destruct (CommandPayload_valid p).
  - apply safe_ret; [done|]. intros q [= <-]. by apply H.
  - by apply safe_raise.
Qed.

Lemma send_then_Ok {B} a p src run fleet (f : CommandAcknowledgement.t -> coro B) s n :
  invariant s -> ready a (CommandPayload.kind p) s -> (forall k, Ok (f k)) ->
  ok (send a p src run fleet ≫= f) any3 s n.
Proof. intros HI Hr Hf. apply ok_bind_any; [by apply send_ok|]. intros. by apply Hf. Qed.

Lemma send_and_refresh_ok a p src run fleet s n :
  invariant s -> ready a (CommandPayload.kind p) s ->
  ok (send_and_refresh a p src run fleet) any3 s n.
Proof.
  intros HI Hr. unfold send_and_refresh.
  eapply (ok_guard _ (fun q s' => ready a (CommandPayload.kind q) s')).
  - apply safe_quiet_wp; [apply new_payload_quiet|done|]. unfold new_payload. wp_go; [done|].
    by intros q [= <-].
  - intros q s' n' HI' _ Hq. apply send_then_Ok; [done|done|]. ok_go.
Qed.

Lemma send_and_confirm_ok a v p src run fleet conf err s n :
  invariant s -> ready a (CommandPayload.kind p) s ->
  ok (send_and_confirm a v p src run fleet conf err) any3 s n.
Proof.
  intros HI Hr. unfold send_and_confirm. apply ok_try_any.
  - eapply (ok_guard _ (fun q s' => ready a (CommandPayload.kind q) s')).
    + apply safe_quiet_wp; [apply new_payload_quiet|done|]. unfold new_payload. wp_go; [done|].
      by intros q [= <-].
    + intros q s' n' HI' _ Hq. apply send_then_Ok; [done|done|]. ok_go.
  - intros e s' n' HI' _. revert s' n' HI'.
    match goal with |- forall s n, invariant s -> ok ?c any3 s n => change (Ok c) end. ok_go.
Qed.

(** [arm] and [takeoff]: a guarded transition, the command, the final state. *)
Lemma begin_arm_ready v o r now src s n :
  invariant s ->
  safe (begin_arm v o r now src)
    (fun out s' => forall a, out = Ret a -> ready a CommandKind.ARM s') s n.
Proof.
  intros HI. unfold safe, begin_arm. wp_go; try by split_and!.
  eapply wp_mono; [apply (transition_ready v a _ CommandKind.ARM); [done|by apply registered_refers|done]|].
  intros [[]|e] s' n' (HI' & He & H); wp_go; split_and!; try done.
  intros b [= <-]. by apply H.
Qed.

Lemma begin_takeoff_ready v o h d src s n :
  invariant s ->
  safe (begin_takeoff v o h d src)
    (fun out s' => forall a, out = Ret a -> ready a CommandKind.TAKEOFF s') s n.
Proof.
  intros HI. unfold safe, begin_takeoff. wp_go; try by split_and!.
  destruct (validate_takeoff _ _ _) as [[]|]; [|by split_and!]. wp_go.
  eapply wp_mono; [apply (transition_ready v a _ CommandKind.TAKEOFF); [done|by apply registered_refers|done]|].
  intros [[]|e'] s' n' (HI' & He' & H); wp_go; split_and!; try done.
  intros b [= <-]. by apply H.
Qed.

Lemma Ok_arm v o r now src run fleet : Ok (arm v o r now src run fleet).
Proof.
  intros s n HI. unfold arm. eapply ok_guard; [by apply begin_arm_ready|].
  intros a s' n' HI' _ Hr. apply ok_bind_any; [by apply send_and_confirm_ok|].
  intros k s2 n2 HI2 _. revert s2 n2 HI2.
  match goal with |- forall s n, invariant s -> ok ?c any3 s n => change (Ok c) end. ok_go.
Qed.

Lemma Ok_takeoff v o h d src run fleet : Ok (takeoff v o h d src run fleet).
Proof.
  intros s n HI. unfold takeoff. eapply ok_guard; [by apply begin_takeoff_ready|].
  intros a s' n' HI' _ Hr. apply ok_bind_any; [by apply send_and_confirm_ok|].
  intros k s2 n2 HI2 _. revert s2 n2 HI2.
  match goal with |- forall s n, invariant s -> ok ?c any3 s n => change (Ok c) end. ok_go.
Qed.

Lemma Ok_disarm v o src run fleet : Ok (disarm v o src run fleet).
Proof.
  intros s n HI. unfold disarm. eapply ok_guard.
  - apply (reads_ready _ CommandKind.DISARM); [done|]. unfold begin_disarm.
    wp_go; split_and!; try done. intros b [= <-]. bool_to_prop. exists v, x0. split_and!; [done..|].
    simpl. by apply bool_decide_eq_true.
  - intros. by apply send_and_refresh_ok.
Qed.

Lemma Ok_hover v o d src run fleet : Ok (hover v o d src run fleet).
Proof.
  intros s n HI. unfold hover. eapply ok_guard.
  - apply (reads_ready _ CommandKind.HOVER); [done|]. unfold begin_hover.
    wp_go; split_and!; try done. intros b [= <-]. exists v, x. split_and!; [done..|].
    simpl. by apply bool_decide_eq_true.
  - intros. by apply send_and_refresh_ok.
Qed.

Lemma Ok_move_relative v o c src run fleet : Ok (move_relative v o c src run fleet).
Proof.
  intros s n HI. unfold move_relative. eapply ok_guard.
  - apply (reads_ready _ CommandKind.MOVE_RELATIVE); [done|]. unfold begin_move.
    wp_go; try by split_and!. destruct (validate_relative_move _ _ _) as [[]|]; [|by split_and!].
    wp_go. split; [done|]. intros b [= <-]. exists v, x. split_and!; [done..|].
    simpl. by apply bool_decide_eq_true.
  - intros. apply send_then_Ok; [done|done|]. ok_go.
Qed.

Lemma Ok_execute_trajectory v o c src run fleet : Ok (execute_trajectory v o c src run fleet).
Proof.
  intros s n HI. unfold execute_trajectory. eapply ok_guard.
  - apply (reads_ready _ CommandKind.EXECUTE_TRAJECTORY); [done|]. unfold validate_trajectory_command.
    wp_go; try by split_and!. destruct (validate_trajectory _ _ _) as [[]|]; [|by split_and!].
    wp_go; [|by split_and!]. split; [done|]. intros b [= <-]. simplify_eq. exists v, x.
    split_and!; [done..|]. simpl. by apply bool_decide_eq_true.
  - intros. apply send_then_Ok; [done|done|]. ok_go.
Qed.
End api.
#[export] Hint Resolve Ok_arm Ok_takeoff Ok_disarm Ok_hover Ok_move_relative Ok_execute_trajectory
  : coroutines.

Section api_landing.
Context `{CK : Clock} `{CN : !ClockNonneg} `{LM : Libm} `{DG : Digest}.

(** After a suspension the reference still is to the vehicle. *)
Lemma Ok_interrupted {B} a v (c : coro unit) (f : unit -> coro B) s n :
  Ok c -> invariant s -> refers a v s ->
  (forall s' n', invariant s' -> refers a v s' -> ok (f tt) any3 s' n') -> ok (c ≫= f) any3 s n.
Proof.
  intros Hc HI Hr Hf. apply ok_bind_any; [by apply Hc|]. intros [] s' n' HI' He.
  apply Hf; [done|]. by eapply refers_ext.
Qed.

Lemma refers_guard {B} (m : M Sup session_ref) v (f : session_ref -> coro B) s n :
  invariant s ->
  wp m (fun o s' _ => s' = s /\ forall a, o = Ret a ->
    dict_get v (SafetySupervisor.sessions s) = Some a) s n ->
  (forall a s' n', invariant s' -> refers a v s' -> ok (f a) any3 s' n') ->
  ok (sync m ≫= f) any3 s n.
Proof.
  intros HI Hm Hf. eapply ok_guard; [by apply (reads_refers _ v)|]. intros. by apply Hf.
Qed.

Lemma Ok_replace_trajectory v o c reason run fleet :
  Ok (replace_trajectory v o c reason run fleet).
Proof. unfold replace_trajectory. ok_go. Qed.

Lemma Ok_stop_and_hold v o src run fleet : Ok (stop_and_hold v o src run fleet).
Proof.
  intros s n HI. unfold stop_and_hold. apply (refers_guard _ v); [done| |].
  - wp_go; try by split. split; [done|]. by intros b [= <-].
  - intros a s' n' HI' Hr. apply (Ok_interrupted a v); [apply Ok_interrupt_trajectory|done|done|].
    intros s2 n2 HI2 Hr2. apply send_and_refresh_ok; [done|]. by exists v.
Qed.

Lemma Ok_land v o d target goal src run fleet : Ok (land v o d target goal src run fleet).
Proof.
  intros s n HI. unfold land. apply (refers_guard _ v); [done| |].
  - unfold begin_land. wp_go; try by split. split; [done|]. by intros b [= <-].
  - intros a s' n' HI' Hr. apply (Ok_interrupted a v); [apply Ok_interrupt_trajectory|done|done|].
    intros s2 n2 HI2 Hr2. eapply ok_guard; [by apply (transition_payload v a)|].
    intros q s3 n3 HI3 _ Hq. apply send_then_Ok; [done|done|]. ok_go.
Qed.

Lemma Ok_emergency_stop v o reason b run fleet : Ok (emergency_stop v o reason b run fleet).
Proof.
  intros s n HI. unfold emergency_stop. apply (refers_guard _ v); [done| |].
  - wp_go; try by split. split; [done|]. by intros c [= <-].
  - intros a s' n' HI' Hr. apply (Ok_interrupted a v); [apply Ok_interrupt|done|done|].
    intros s2 n2 HI2 Hr2. eapply ok_guard; [by apply (transition_payload v a)|].
    intros q s3 n3 HI3 _ Hq. apply send_then_Ok; [done|done|]. ok_go.
Qed.
#[local] Hint Resolve Ok_emergency_stop : coroutines.

Lemma Ok_escalate v o : Ok (escalate v o).
Proof. unfold escalate. ok_go. Qed.
#[local] Hint Resolve Ok_escalate : coroutines.

Lemma Ok_abort_and_land v o reason b run fleet : Ok (abort_and_land v o reason b run fleet).
Proof.
  intros s n HI. unfold abort_and_land. apply (refers_guard _ v); [done| |].
  - unfold begin_abort. wp_go; try by split. split; [done|]. by intros c [= <-].
  - intros a s' n' HI' Hr. apply (Ok_interrupted a v); [apply Ok_interrupt|done|done|].
    intros s2 n2 HI2 Hr2. eapply ok_guard; [by apply (transition_payload v a)|].
    intros q s3 n3 HI3 _ Hq. apply send_then_Ok; [done|done|]. ok_go.
Qed.
#[local] Hint Resolve Ok_abort_and_land : coroutines.

Lemma Ok_release_control v o b : Ok (release_control v o b).
Proof. unfold release_control. ok_go. Qed.
Lemma Ok_expire_lease now v a : Ok (expire_lease now v a).
Proof. unfold expire_lease. ok_go. Qed.
#[local] Hint Resolve Ok_expire_lease : coroutines.
Lemma Ok_expire_control_leases now : Ok (expire_control_leases now).
Proof. unfold expire_control_leases. ok_go. Qed.
Lemma Ok_enforce_health v o now run fleet b : Ok (enforce_health v o now run fleet b).
Proof. unfold enforce_health. ok_go. Qed.
#[local] Hint Resolve Ok_enforce_health : coroutines.
Lemma Ok_refresh_and_enforce_health v o run fleet b :
  Ok (refresh_and_enforce_health v o run fleet b).
Proof. unfold refresh_and_enforce_health. ok_go. Qed.
Lemma Ok_observe v o t : Ok (observe v o t).
Proof. unfold observe. ok_go. Qed.
Lemma Ok_connect v : Ok (connect v).
Proof. unfold connect. ok_go. Qed.
Lemma Ok_disconnect v o : Ok (disconnect v o).
Proof. unfold disconnect. ok_go. Qed.
Lemma Ok_preflight v o r now b : Ok (preflight v o r now b).
Proof. unfold preflight. ok_go. Qed.
Lemma Ok_reconcile_terminal_adapter_state v : Ok (reconcile_terminal_adapter_state v).
Proof. unfold reconcile_terminal_adapter_state. ok_go. Qed.
End api_landing.

(** ** Interleavings of the supervisor *)

(** The public methods, with any arguments; the identity of a registered
    vehicle was validated when it was constructed. *)
Inductive api `{CK : Clock} `{LM : Libm} `{DG : Digest} : coro unit -> Prop :=
| api_add_audit_sink sink : api (discard (sync (add_audit_sink sink)))
| api_register v :
    VehicleIdentity_valid (Vehicle.identity v) = true -> api (discard (sync (register_vehicle v)))
| api_unregister v : api (discard (sync (unregister_vehicle v)))
| api_set_mode m auth : api (discard (sync (set_mode m auth)))
| api_claim v o now : api (discard (sync (claim_control v o now)))
| api_renew v o now : api (discard (sync (renew_control v o now)))
| api_release v o b : api (discard (release_control v o b))
| api_expire now : api (expire_control_leases now)
| api_connect v : api (discard (connect v))
| api_disconnect v o : api (disconnect v o)
| api_preflight v o r now b : api (discard (preflight v o r now b))
| api_arm v o r now src run fleet : api (discard (arm v o r now src run fleet))
| api_disarm v o src run fleet : api (discard (disarm v o src run fleet))
| api_takeoff v o h d src run fleet : api (discard (takeoff v o h d src run fleet))
| api_hover v o d src run fleet : api (discard (hover v o d src run fleet))
| api_move v o c src run fleet : api (discard (move_relative v o c src run fleet))
| api_execute v o c src run fleet : api (discard (execute_trajectory v o c src run fleet))
| api_validate v o c : api (discard (sync (validate_trajectory_command v o c)))
| api_replace v o c reason run fleet : api (discard (replace_trajectory v o c reason run fleet))
| api_stop_and_hold v o src run fleet : api (discard (stop_and_hold v o src run fleet))
| api_land v o d t g src run fleet : api (discard (land v o d t g src run fleet))
| api_abort v o reason b run fleet : api (discard (abort_and_land v o reason b run fleet))
| api_emergency v o reason b run fleet : api (discard (emergency_stop v o reason b run fleet))
| api_evaluate v now b : api (discard (sync (evaluate_health v now b)))
| api_enforce v o now run fleet b : api (discard (enforce_health v o now run fleet b))
| api_refresh_enforce v o run fleet b :
    api (discard (refresh_and_enforce_health v o run fleet b))
| api_observe v o t : api (discard (observe v o t))
| api_receive t : api (discard (sync (receive_telemetry t)))
| api_reconcile v : api (reconcile_terminal_adapter_state v).

(** A new supervisor, and what the event loop does by itself: the task of a
    command ends. *)
Definition initial (s : Sup) : Prop := exists p sinks, s = SafetySupervisor_new p sinks.

Definition environment (s s' : Sup) : Prop :=
  exists task, s' = SafetySupervisor.set_done_tasks (SafetySupervisor.done_tasks s ++ [task]) s.

Lemma initial_invariant s : initial s -> invariant s.
Proof.
  intros (p & sinks & ->). split; try done.
  - apply log_ok_nil.
  - constructor.
  - split; [done|]. intros id Hid. by apply elem_of_nil in Hid.
  - constructor.
Qed.

Lemma environment_quiet s s' : environment s s' -> quiet s s'.
Proof. intros [task ->]. by split. Qed.

Section reachability.
Context `{CK : Clock} `{CN : !ClockNonneg} `{LM : Libm} `{DG : Digest}.

Notation supervised := (reachable initial api environment).

Lemma Ok_api c : api c -> Ok c.
Proof.
  intros [] ; try apply Ok_discard;
    first [ apply Ok_sync; solve [eauto with safe | apply Safe_quiet; eauto with steps] | idtac ].
  - apply Ok_sync. intros s n HI. apply register_vehicle_safe; [done|].
    unfold VehicleIdentity_valid in *. bool_to_prop. done.
  - apply Ok_release_control.
  - apply Ok_expire_control_leases.
  - apply Ok_connect.
  - apply Ok_disconnect.
  - apply Ok_preflight.
  - apply Ok_arm.
  - apply Ok_disarm.
  - apply Ok_takeoff.
  - apply Ok_hover.
  - apply Ok_move_relative.
  - apply Ok_execute_trajectory.
  - apply Ok_sync, Safe_quiet. unfold validate_trajectory_command. steps_go.
  - apply Ok_replace_trajectory.
  - apply Ok_stop_and_hold.
  - apply Ok_land.
  - apply Ok_abort_and_land.
  - apply Ok_emergency_stop.
  - apply Ok_enforce_health.
  - apply Ok_refresh_and_enforce_health.
  - apply Ok_observe.
  - apply Ok_reconcile_terminal_adapter_state.
Qed.

Lemma supervised_invariant sys : supervised sys -> invariant (shared sys).
Proof.
  intros Hr. eapply (reachable_invariant invariant ext) in Hr; [by destruct Hr|..].
  - apply initial_invariant.
  - intros c s n Hc HI. by apply Ok_api.
  - intros s s' Hq%environment_quiet HI. split; [by eapply quiet_invariant|by apply quiet_ext].
Qed.
End reachability.
Notation supervised := (reachable initial api environment).
