(* ===== verification/Guarantees.v ===== *)
(** * Guarantees of the supervisor

    What an operator can rely on: the theorems about the safety supervisor, the
    counterexamples to what its operations are meant to do, and concrete runs
    at which the theorems apply. *)

From S2P Require Import Prelude Float64 Effects Contracts Artifacts Trajectory Envelope.
From S2P Require Import Safety Telemetry Commands Coroutines Supervisor Supervision.

(** ** Under every interleaving *)

(** The states a vehicle was put in, in the order of the log. *)
Definition transitions (v : string) (l : list SafetyEvent.t) : list VehicleState.t :=
  omap (fun e => if is_transition e && String.eqb (SafetyEvent.vehicle_id e) v
                 then SafetyEvent.to_state e else None) l.

Lemma transitions_snoc v l e :
  transitions v (l ++ [e]) = transitions v l ++
    (if is_transition e && String.eqb (SafetyEvent.vehicle_id e) v
     then option_list (SafetyEvent.to_state e) else []).
Proof.
  unfold transitions. rewrite omap_app. f_equal. simpl. destruct (_ && _); [|done].
  by destruct (SafetyEvent.to_state e).
Qed.

Lemma path_snoc s l t u : path s l t -> can_transition t u = true -> path s (l ++ [u]) u.
Proof.
  induction 1 as [s|s s' l t Hs Hp IH]; intros Hu; simpl.
  - apply path_step; [done|]. apply path_end.
  - apply path_step; [done|]. by apply IH.
Qed.

Lemma log_ok_prefix l e : log_ok (l ++ [e]) -> log_ok l /\ event_ok l e.
Proof.
  intros H. split; [|by eapply H].
  intros l1 e' l2 ->. apply (H l1 e' (l2 ++ [e])). by rewrite <- app_assoc.
Qed.

Lemma log_path v l : log_ok l -> path VehicleState.DISCONNECTED (transitions v l) (log_state v l).
Proof.
  induction l as [|e l IH] using rev_ind; intros Hl; [apply path_end|].
  apply log_ok_prefix in Hl as [Hl (_ & Ht & _)]. rewrite transitions_snoc, log_state_snoc.
  unfold log_step. destruct (is_transition e); simpl; [|rewrite app_nil_r; by apply IH].
  destruct (String.eqb_spec (SafetyEvent.vehicle_id e) v) as [<-|]; [|rewrite app_nil_r; by apply IH].
  destruct (Ht eq_refl) as (t & _ & -> & Hc). simpl. eapply path_snoc; [by apply IH|done].
Qed.

Section interleavings.
Context `{CK : Clock} `{CN : !ClockNonneg} `{LM : Libm} `{DG : Digest}.

(** C1: However the coroutines of the supervisor interleave with each other and
    with the adapters, whose answers, failures, timeouts and cancellations come
    in any order, the states a vehicle is put in form a path of the vehicle state
    machine from DISCONNECTED, the log records each of its steps, and the state
    the supervisor holds for a registered vehicle is the one at its end. *)
Theorem vehicle_follows_state_machine sys v :
  supervised sys ->
  path VehicleState.DISCONNECTED
    (transitions v (SafetySupervisor.events (shared sys)))
    (log_state v (SafetySupervisor.events (shared sys))) /\
  forall a, dict_get v (SafetySupervisor.sessions (shared sys)) = Some a ->
    state_at a (shared sys) = Some (log_state v (SafetySupervisor.events (shared sys))).
Proof.
  intros HI%supervised_invariant. split.
  - apply log_path, HI.
  - intros a Ha. by apply (inv_sessions _ HI).
Qed.

(** C2: Under every interleaving, a command other than stop-and-hold is sent to a
    vehicle only while the vehicle is in the state the command belongs to: arm
    in ARMING, disarm in READY, takeoff in TAKING_OFF, hover, relative moves and
    trajectories in FLYING, land in LANDING, abort in ABORTING and the emergency
    stop in EMERGENCY; connect and disconnect are never sent as commands. *)
Theorem commands_fit_state sys l1 e l2 :
  supervised sys -> SafetySupervisor.events (shared sys) = l1 ++ e :: l2 ->
  is_command e = true ->
  exists k, SafetyEvent.message e = CommandKind_value k /\
    sendable k (log_state (SafetyEvent.vehicle_id e) l1) = true.
Proof. intros HI%supervised_invariant Hl Hc. by apply (inv_log _ HI l1 e l2 Hl). Qed.

(** Under every interleaving, the event log is numbered without gaps from
    zero, and no two commands ever sent share a command identity. *)
Theorem log_numbers_and_command_ids sys :
  supervised sys ->
  (forall i e, SafetySupervisor.events (shared sys) !! i = Some e ->
     SafetyEvent.sequence e = Z.of_nat i) /\
  NoDup (sent_ids (SafetySupervisor.events (shared sys))).
Proof.
  intros HI%supervised_invariant. split; [|apply HI].
  intros i e Hi. pose proof (take_drop_middle _ _ _ Hi) as Hl.
  destruct (inv_log _ HI _ _ _ (eq_sym Hl)) as [-> _].
  rewrite length_take_le; [done|]. apply lookup_lt_Some in Hi. lia.
Qed.
End interleavings.

(** ** Guards *)

(** A coroutine that is suspended has got past its guards. *)
Definition suspended {A} (c : coro A) : bool :=
  match c with Await _ _ => true | _ => false end.

(** What holds of the state whenever a coroutine, run from [s], is suspended. *)
Definition suspends_if {A} (c : coro A) (P : Prop) (s : Sup) (n : nat) : Prop :=
  suspended (advance c s n).1.1 = true -> P.

Lemma suspends_finish {A} (o : outcome A) P s n : suspends_if (Finish o : coro A) P s n.
Proof. done. Qed.

(** If the guard [m] raises, the coroutine ends; if it returns, [P] holds. *)
Lemma suspends_guard {A B} (m : M Sup A) (f : A -> coro B) (P : Prop) s n :
  wp m (fun o _ _ => forall a, o = Ret a -> P) s n -> suspends_if (sync m ≫= f) P s n.
Proof.
  unfold wp, suspends_if. simpl. destruct (m s n) as [[[a|e] s'] n']; simpl; [|done].
  intros H _. by apply (H a).
Qed.

Section guarantees.
Context `{CK : Clock} `{LM : Libm} `{DG : Digest}.

(** The mode selected has authority over the vehicle: a simulated one in SIM, a
    physical one in a live mode, once it has been authorised. *)
Definition has_authority (s : Sup) (x : VehicleSession.t) : Prop :=
  match authority (Vehicle.backend_profile (VehicleSession.vehicle x)) with
  | AuthorityClass.SIMULATION => SafetySupervisor.mode s = OperatingMode.SIM
  | AuthorityClass.PHYSICAL =>
      SafetySupervisor.mode s ∈ [OperatingMode.LIVE; OperatingMode.SHADOW] /\
      is_Some (dict_get (vehicle_name (VehicleSession.vehicle x)) (SafetySupervisor.live_authorizations s))
  | _ => False
  end.

Lemma real_authorized_has s x : real_authorized s x = true -> has_authority s x.
Proof.
  unfold real_authorized, has_authority, dict_mem.
  destruct (authority _), (SafetySupervisor.mode s); simpl; try done; intros H;
    (split; [set_solver|]); by destruct (dict_get _ _).
Qed.

(** A coroutine that raises, or is suspended, before it could return. *)
Definition no_return {A} (c : coro A) (s : Sup) (n : nat) : Prop :=
  suspended (advance c s n).1.1 = false -> exists e, (advance c s n).1.1 = Finish (Raise e).

Lemma no_return_raise {A} e s n : no_return (Finish (Raise e) : coro A) s n.
Proof. intros _. by exists e. Qed.

Lemma no_return_await {A B} (q : request B) (k : outcome B -> coro A) s n : no_return (Await q k) s n.
Proof. done. Qed.

Lemma no_return_then {A B} (c : coro A) (K : outcome A -> coro B) s n :
  no_return c s n -> (forall e s n, no_return (K (Raise e)) s n) -> no_return (co_then c K) s n.
Proof.
  intros Hc HK. revert s n Hc. induction c as [o|B' m k IH|B' q k IH]; simpl; intros s n Hc.
  - destruct (Hc eq_refl) as [e [= ->]]. apply HK.
  - unfold no_return in *. simpl in *. destruct (m s n) as [[o s'] n'] eqn:E. by apply IH.
  - done.
Qed.

Lemma no_return_bind {A B} (c : coro A) (f : A -> coro B) s n : no_return c s n -> no_return (c ≫= f) s n.
Proof. intros Hc. apply no_return_then; [done|]. intros. apply no_return_raise. Qed.

Lemma no_return_sync {A B} (m : M Sup A) (f : A -> coro B) s n :
  (forall a s n, no_return (f a) s n) -> no_return (sync m ≫= f) s n.
Proof.
  intros Hf. unfold no_return. simpl. destruct (m s n) as [[[a|e] s'] n']; [apply Hf|apply no_return_raise].
Qed.

Lemma no_return_always {A B} (c : coro A) (K : outcome A -> coro B) s n :
  (forall o s n, no_return (K o) s n) -> no_return (co_then c K) s n.
Proof.
  intros HK. revert s n. induction c as [o|B' m k IH|B' q k IH]; simpl; intros s n; [apply HK| |done].
  unfold no_return in *. simpl. destruct (m s n) as [[o s'] n']. by apply IH.
Qed.

Lemma no_return_failing {A} (m : M Sup A) s n :
  wp m (fun o _ _ => exists e, o = Raise e) s n -> no_return (sync m) s n.
Proof. unfold wp, no_return. simpl. destruct (m s n) as [[o s'] n']. simpl. intros [e ->] _. by exists e. Qed.

Lemma no_return_execution a task envelope timeout s n : no_return (await_execution a task envelope timeout) s n.
Proof.
  apply no_return_then.
  - apply no_return_sync. intros x s1 n1. apply no_return_await.
  - intros e s1 n1. apply no_return_always. intros [[]|e'] s2 n2; apply no_return_raise.
Qed.

Lemma no_return_send a p src run fleet s n : no_return (send a p src run fleet) s n.
Proof.
  apply no_return_sync. intros [[task envelope] timeout] s1 n1. apply no_return_bind, no_return_then.
  - apply no_return_execution.
  - intros e s2 n2. destruct (_ || _); [|apply no_return_raise]. destruct (is_CrazySwarmError e).
    + apply no_return_always. intros [?|?] s3 n3; apply no_return_raise.
    + apply no_return_failing. do 2 (apply wp_bind; eapply wp_mono; [apply wp_true|];
        intros [?|?] ? ? _; [|by eexists]). apply wp_raise. by eexists.
Qed.

Lemma no_return_send_and_confirm a v p src run fleet confirmed e s n :
  no_return (send_and_confirm a v p src run fleet confirmed e) s n.
Proof.
  unfold send_and_confirm, co_try. apply no_return_then.
  - apply no_return_sync. intros p' s1 n1. apply no_return_bind, no_return_send.
  - intros e' s1 n1. destruct (is_Exception e'); [|apply no_return_raise].
    apply no_return_sync. intros [] s2 n2. apply no_return_raise.
Qed.

(** C11: [arm] reaches the adapter only if the vehicle is registered, the caller
    holds a control lease that has not expired, the preflight named by the
    caller was made by the same operator in the mode still selected, was
    approved and has not expired, and the mode has authority over the vehicle;
    otherwise it raises before it asks the adapter for anything. *)
Theorem arm_requires_preflight v owner report now src run fleet s n :
  let c := (advance (arm v owner report now src run fleet) s n).1.1 in
  (suspended c = true ->
   exists a x r, dict_get v (SafetySupervisor.sessions s) = Some a /\
    SafetySupervisor.objects s !! a = Some x /\
    holds_lease x owner (default (monotonic n) now) false /\
    VehicleSession.preflight x = Some r /\ PreflightReport.report_id r = report /\
    PreflightReport.operator_id r = owner /\ PreflightReport.approved r = true /\
    PreflightReport.mode r = SafetySupervisor.mode s /\
    fltb (PreflightReport.expires_at_monotonic_s r) (default (monotonic n) now) = false /\
    has_authority s x) /\
  (suspended c = false -> exists e, c = Finish (Raise e)).
Proof.
  cbv zeta. split.
  - apply suspends_guard. unfold begin_arm. wp_go; try done.
    eapply wp_mono; [apply wp_true|]. intros [[]|e] s' n' _; [|done]. wp_go. intros _ _.
    unfold preflight_is_valid in *. destruct (VehicleSession.preflight x0) as [r|] eqn:Hr0; [|done].
    bool_to_prop. simplify_eq. eexists a, _, r. split_and!; try done. by apply real_authorized_has.
  - apply no_return_sync. intros a s1 n1. apply no_return_bind, no_return_send_and_confirm.
Qed.

(** The operations that fly, each with the vehicle and the owner. *)
Inductive flight_operation (v owner : string) : coro CommandAcknowledgement.t -> Prop :=
| flight_hover d src run fleet : flight_operation v owner (hover v owner d src run fleet)
| flight_move c src run fleet : flight_operation v owner (move_relative v owner c src run fleet)
| flight_execute c src run fleet :
    flight_operation v owner (execute_trajectory v owner c src run fleet)
| flight_replace c reason run fleet :
    flight_operation v owner (replace_trajectory v owner c reason run fleet)
| flight_hold src run fleet : flight_operation v owner (stop_and_hold v owner src run fleet)
| flight_land d t g src run fleet : flight_operation v owner (land v owner d t g src run fleet).

(** C12: Hovering, a relative move, a trajectory or its replacement, stop-and-hold
    and landing get past their guards only for a registered vehicle that is
    FLYING and whose control lease belongs to the caller and has not expired at
    the clock reading of the call. *)
Theorem flight_needs_live_lease v owner c s n :
  flight_operation v owner c -> suspended (advance c s n).1.1 = true ->
  exists a x, dict_get v (SafetySupervisor.sessions s) = Some a /\
    SafetySupervisor.objects s !! a = Some x /\
    holds_lease x owner (monotonic n) false /\ VehicleSession.state x = VehicleState.FLYING.
Proof.
  intros []; apply suspends_guard;
    unfold begin_hover, begin_move, begin_land, validate_trajectory_command; wp_go; try done;
    try (destruct (validate_relative_move _ _ _) as [[]|]; [|done]; wp_go);
    try (destruct (validate_trajectory _ _ _) as [[]|]; [|done]; wp_go; try done);
    intros _ _; by exists a, x.
Qed.

Lemma validate_takeoff_Ret p h d :
  validate_takeoff p h d = Ret tt ->
  fleb h f0 = false /\ fltb (SafetyPolicy.max_altitude_m p) h = false /\
  fleb d f0 = false /\ fltb (SafetyPolicy.max_mission_duration_s p) d = false.
Proof.
  unfold validate_takeoff, invalid_if.
  destruct (fleb h f0) eqn:?, (fltb (SafetyPolicy.max_altitude_m p) h) eqn:?; try done.
  destruct (fleb d f0) eqn:?, (fltb (SafetyPolicy.max_mission_duration_s p) d) eqn:?; done.
Qed.

(** A payload that fails its validation ends [send_and_confirm] before anything
    is sent. *)
Lemma send_and_confirm_payload {B} a v p src run fleet conf err
    (f : CommandAcknowledgement.t -> coro B) s n :
  suspended (advance (send_and_confirm a v p src run fleet conf err ≫= f) s n).1.1 = true ->
  CommandPayload_valid p = true.
Proof.
  destruct (CommandPayload_valid p) eqn:E; [done|].
  unfold send_and_confirm, new_payload, validated. rewrite E. simpl.
  destruct (fail_to_fault a v s n) as [[[[]|e] s'] n']; done.
Qed.

(** [takeoff] reaches the adapter only for a registered vehicle in READY
    whose last telemetry says it is armed, with an unexpired lease of the caller
    and authority in the selected mode, and with a height and a duration that
    are positive and within the policy; in every other case it raises without a
    command. *)
Theorem takeoff_guards v owner h d src run fleet s n :
  suspended (advance (takeoff v owner h d src run fleet) s n).1.1 = true ->
  exists a x e, dict_get v (SafetySupervisor.sessions s) = Some a /\
    SafetySupervisor.objects s !! a = Some x /\
    holds_lease x owner (monotonic n) false /\ real_authorized s x = true /\
    VehicleSession.state x = VehicleState.READY /\ VehicleSession.telemetry x = Some e /\
    VehicleTelemetry.armed (TelemetryEnvelope.telemetry e) = true /\
    fltb f0 h = true /\ fltb (SafetyPolicy.max_altitude_m (SafetySupervisor.policy s)) h = false /\
    fltb f0 d = true /\
    fltb (SafetyPolicy.max_mission_duration_s (SafetySupervisor.policy s)) d = false.
Proof.
  intros Hs.
  assert (Hp : CommandPayload_valid (CommandPayload.TakeoffCommand h d None) = true).
  { revert Hs. unfold takeoff. simpl.
    destruct (begin_takeoff v owner h d src s n) as [[[a|e] s'] n']; [|done].
    apply send_and_confirm_payload. }
  simpl in Hp. apply andb_true_iff in Hp as [Hh Hd]. revert Hs.
  apply suspends_guard. unfold begin_takeoff. wp_go; try done.
  destruct (validate_takeoff _ h d) as [[]|] eqn:Hv; [|done].
  destruct (validate_takeoff_Ret _ _ _ Hv) as (? & ? & ? & ?). wp_go.
  eapply wp_mono; [apply wp_true|]. intros [[]|e'] s' n' _; [|done]. wp_go. intros _ _.
  by exists a, x, e.
Qed.

(** ** Motion inside the envelope *)

Lemma invalid_if_Ret b c m : invalid_if b c m = Ret tt -> b = false.
Proof. by destruct b. Qed.

(** What is flown at one instant: inside the volume, within the limits of motion. *)
Definition sample_in_envelope (p : SafetyPolicy.t) (q : TrajectorySetpoint.t) : Prop :=
  in_volume (SafetyPolicy.flight_volume p) (TrajectorySetpoint.position_m q) /\
  motion_within p (TrajectorySetpoint.velocity_m_s q) (TrajectorySetpoint.acceleration_m_s2 q)
    (TrajectorySetpoint.yaw_rate_rad_s q).

Definition point_in_envelope (p : SafetyPolicy.t) (q : TrajectoryPoint.t) : Prop :=
  in_volume (SafetyPolicy.flight_volume p) (TrajectoryPoint.position_m q) /\
  fltb (SafetyPolicy.max_altitude_m p) (v_z (TrajectoryPoint.position_m q)) = false /\
  motion_within p (TrajectoryPoint.velocity_m_s q) (TrajectoryPoint.acceleration_m_s2 q)
    (TrajectoryPoint.yaw_rate_rad_s q).

Lemma check_sample_Ret p a b i :
  check_sample p a b i = Ret tt -> exists q,
    sample_trajectory_segment a b (sample_time a b i) = Ret q /\ sample_in_envelope p q.
Proof.
  unfold check_sample. destruct (sample_trajectory_segment _ _ _) as [q|]; [|done]. simpl.
  unfold invalid_if at 1. destruct (negb _) eqn:Hc; [done|]. simpl.
  destruct (exceeds_dynamics p q) as [[]|] eqn:He; [done| |done]. intros _.
  exists q. split; [done|]. split; [by apply contains_in_volume, negb_false_iff|].
  unfold exceeds_dynamics in He. destruct (_ || _) eqn:Ho in He; [done|]. apply orb_false_iff in Ho as [Hh Hv].
  apply bind_Ret in He as (l & Hl%v_length_is & [= [Ha Hy]%orb_false_iff]). split; try done. by exists l.
Qed.

Lemma check_point_Ret p q : check_point p q = Ret tt -> point_in_envelope p q.
Proof.
  unfold check_point. intros ([] & Hi & H)%bind_Ret.
  apply invalid_if_Ret, orb_false_iff in Hi as [Hc%negb_false_iff%contains_in_volume Hz].
  apply bind_Ret in H as ([] & Hh%invalid_if_Ret & H). apply bind_Ret in H as ([] & Hv%invalid_if_Ret & H).
  apply bind_Ret in H as (l & Hl%v_length_is & H). apply bind_Ret in H as ([] & Ha%invalid_if_Ret & H).
  apply invalid_if_Ret in H. split_and!; try done. split; try done. by exists l.
Qed.

Lemma mapM_unit_Ret {A} (f : A -> outcome unit) l x :
  (exists ys, mapM f l = Ret ys) -> x ∈ l -> f x = Ret tt.
Proof.
  intros [ys Hm%mapM_Ret] Hx. apply list_elem_of_lookup in Hx as [i Hi].
  destruct (Forall2_lookup_l _ _ _ _ _ Hm Hi) as ([] & _ & H). exact H.
Qed.

(** C13: A trajectory command that the supervisor admits lasts no longer than the
    policy allows and starts where the vehicle was observed (within 15 cm or twice
    the completion tolerance). Every point of it lies inside the flight volume, not
    above the maximum altitude, and moves within the limits of horizontal and
    vertical speed, acceleration and yaw rate; on every segment, so does each of the
    19 inner samples of the interpolating spline, the altitude limit apart, which is
    checked of the points only. *)
Theorem admitted_trajectory_stays_in_envelope p telemetry c :
  validate_trajectory p telemetry c = Ret tt ->
  let t := ExecuteTrajectoryCommand.trajectory c in
  let points := TimeParameterizedTrajectory.points t in
  let at_ q := TrajectoryPoint.time_from_start_s q in
  (forall q, last points = Some q -> fltb (SafetyPolicy.max_mission_duration_s p) (at_ q) = false) /\
  (exists e position first d, telemetry = Some e /\
     VehicleTelemetry.position_m (TelemetryEnvelope.telemetry e) = Some position /\
     head points = Some first /\ distance_is (TrajectoryPoint.position_m first) position d /\
     fltb (py_fmax (flit 15 100)
             (fmul (TimeParameterizedTrajectory.completion_position_tolerance_m t)
                (float_of_Z 2))) d = false) /\
  (forall q, q ∈ points -> point_in_envelope p q) /\
  (forall j a b i, points !! j = Some a -> points !! S j = Some b -> 1 <= i <= 19 ->
     exists q, sample_trajectory_segment a b
         (fadd (at_ a) (fdiv_ieee (fmul (fsub (at_ b) (at_ a)) (float_of_Z i)) (float_of_Z 20))) = Ret q /\
       sample_in_envelope p q).
Proof.
  unfold validate_trajectory. cbv zeta. unfold invalid_if at 1.
  destruct (fltb _ _) eqn:Hd; [done|]. cbn [mbind outcome_bind].
  destruct telemetry as [e|]; [|done].
  destruct (VehicleTelemetry.position_m _) as [position|] eqn:Hpos; [|done].
  destruct (head _) as [first|] eqn:Hf; [|done].
  destruct (v_distance _ _) as [d|] eqn:Hv; [|done]. cbn [mbind outcome_bind].
  unfold invalid_if at 1. destruct (fltb (py_fmax _ _) _) eqn:Hs; [done|]. cbn [mbind outcome_bind].
  destruct (mapM (check_point p) _) as [us|] eqn:Hm; [|done]. cbn [mbind outcome_bind].
  destruct (mapM _ (adjacent _)) as [vs|] eqn:Ha; [|done]. intros _. split_and!.
  - intros q Hq. unfold trajectory_duration_s, last_time in Hd. by rewrite Hq in Hd.
  - exists e, position, first, d. by rewrite <- v_distance_is.
  - intros q Hq. apply check_point_Ret. eapply mapM_unit_Ret; [by exists us|done].
  - intros j a b i Hja Hjb Hi. apply mapM_Ret in Ha.
    destruct (Forall2_lookup_l _ _ _ j (a, b) Ha) as (ws & _ & Hw).
    { unfold adjacent. rewrite lookup_zip_with, Hja. simpl. by rewrite lookup_tail, Hjb. }
    simpl in Hw. apply check_sample_Ret. apply (mapM_unit_Ret (check_sample p a b) sample_indices); [by exists ws|].
    unfold sample_indices, one_to. apply list_elem_of_fmap. exists (Z.to_nat i).
    split; [lia|]. apply elem_of_seq. lia.
Qed.
End guarantees.

(** ** Health *)

(** The transport quality: the reading of the link, or else that of the transport. *)
Definition quality_of (t : VehicleTelemetry.t) (q : float) : Prop :=
  VehicleTelemetry.link_quality_percent t = Some q \/
  VehicleTelemetry.link_quality_percent t = None /\ exists r, VehicleTelemetry.transport t = Some r /\
    TransportReading.delivery_quality_percent r = Some q.

Lemma quality_of_spec t q : transport_quality t = Some q <-> quality_of t q.
Proof.
  unfold transport_quality, quality_of. destruct (VehicleTelemetry.link_quality_percent t); [naive_solver|].
  destruct (VehicleTelemetry.transport t); naive_solver.
Qed.

Definition in_the_air (x : VehicleSession.t) : Prop :=
  VehicleSession.state x ∈ [VehicleState.TAKING_OFF; VehicleState.FLYING; VehicleState.RETURNING].

Lemma airborne_spec x : airborne (VehicleSession.state x) = true <-> in_the_air x.
Proof. unfold in_the_air. destruct (VehicleSession.state x); simpl; split; try done; set_solver. Qed.

(** A session that nothing is wrong with. *)
Definition observed_healthy (p : SafetyPolicy.t) (x : VehicleSession.t) (now : float)
    (override : bool) : Prop :=
  let up := in_the_air x in
  exists e received,
    VehicleSession.telemetry x = Some e /\
    VehicleSession.telemetry_received_at_monotonic_s x = Some received /\
    let t := TelemetryEnvelope.telemetry e in
    fltb (SafetyPolicy.telemetry_timeout_s p) (fsub now received) = false /\
    (up -> VehicleTelemetry.state t <> VehicleState.DISCONNECTED) /\
    (exists b, VehicleTelemetry.battery_percent t = Some b /\
       (fleb b (SafetyPolicy.critical_battery_percent p) = false \/ override = true)) /\
    (exists link, quality_of t link /\
       fltb link (SafetyPolicy.minimum_link_quality_percent p) = false) /\
    (exists loc, VehicleTelemetry.localization_quality_percent t = Some loc /\
       fltb loc (SafetyPolicy.minimum_localization_quality_percent p) = false) /\
    (exists q, VehicleTelemetry.position_m t = Some q /\ in_volume (SafetyPolicy.flight_volume p) q) /\
    (up -> is_Some (VehicleTelemetry.imu t) /\ is_Some (VehicleTelemetry.flow t)).

(** What makes the supervisor stop the motors of a vehicle in the air. *)
Definition needs_emergency_stop (x : VehicleSession.t) : Prop :=
  in_the_air x /\
  exists e received, VehicleSession.telemetry x = Some e /\
    VehicleSession.telemetry_received_at_monotonic_s x = Some received /\
    (VehicleTelemetry.state (TelemetryEnvelope.telemetry e) = VehicleState.DISCONNECTED \/
     VehicleTelemetry.imu (TelemetryEnvelope.telemetry e) = None \/
     VehicleTelemetry.flow (TelemetryEnvelope.telemetry e) = None).

Lemma issue_if_nil b c m a : issue_if b c m a = [] <-> b = false.
Proof. by destruct b. Qed.

Lemma issue_if_elem b c m a i : i ∈ issue_if b c m a <-> b = true /\ i = HealthIssue.mk c m a.
Proof. destruct b; simpl; set_solver. Qed.

Lemma none_or_below_false x m :
  none_or_below x m = false <-> exists v, x = Some v /\ fltb v m = false.
Proof. destruct x; simpl; naive_solver. Qed.

Lemma is_none_true {A} (o : option A) : is_none o = true <-> o = None.
Proof. unfold is_none. destruct o; naive_solver. Qed.

Lemma is_none_false {A} (o : option A) : is_none o = false <-> is_Some o.
Proof. unfold is_none. destruct o; naive_solver. Qed.

Lemma health_issues_nil p x now ov : health_issues p x now ov = [] <-> observed_healthy p x now ov.
Proof.
  unfold health_issues, observed_healthy. cbv zeta.
  destruct (VehicleSession.telemetry x) as [e|]; [|split; [done|naive_solver]].
  destruct (VehicleSession.telemetry_received_at_monotonic_s x) as [r|]; [|split; [done|naive_solver]].
  set (t := TelemetryEnvelope.telemetry e).
  transitivity (fltb (SafetyPolicy.telemetry_timeout_s p) (fsub now r) = false /\
    (in_the_air x -> VehicleTelemetry.state t <> VehicleState.DISCONNECTED) /\
    (exists b, VehicleTelemetry.battery_percent t = Some b /\
       (fleb b (SafetyPolicy.critical_battery_percent p) = false \/ ov = true)) /\
    (exists link, quality_of t link /\
       fltb link (SafetyPolicy.minimum_link_quality_percent p) = false) /\
    (exists loc, VehicleTelemetry.localization_quality_percent t = Some loc /\
       fltb loc (SafetyPolicy.minimum_localization_quality_percent p) = false) /\
    (exists q, VehicleTelemetry.position_m t = Some q /\ in_volume (SafetyPolicy.flight_volume p) q) /\
    (in_the_air x -> is_Some (VehicleTelemetry.imu t) /\ is_Some (VehicleTelemetry.flow t))).
  2: { split; [by intros H; exists e, r|]. by intros (? & ? & [= <-] & [= <-] & H). }
  rewrite !app_nil, !issue_if_nil.
  repeat match goal with |- _ /\ _ <-> _ /\ _ => apply Morphisms_Prop.and_iff_morphism end.
  - done.
  - rewrite andb_false_iff, bool_decide_eq_false, <- airborne_spec.
    destruct (airborne _); naive_solver.
  - destruct (VehicleTelemetry.battery_percent t) as [b|].
    + rewrite issue_if_nil, andb_false_iff, negb_false_iff. naive_solver.
    + rewrite issue_if_nil. naive_solver.
  - rewrite none_or_below_false. by setoid_rewrite quality_of_spec.
  - apply none_or_below_false.
  - destruct (VehicleTelemetry.position_m t) as [q|]; [|naive_solver].
    rewrite negb_false_iff, contains_in_volume. naive_solver.
  - rewrite andb_false_iff, orb_false_iff, !is_none_false, <- airborne_spec.
    destruct (airborne _); naive_solver.
Qed.

Lemma highest_action_elem issues :
  issues <> [] -> exists i, i ∈ issues /\ HealthIssue.action i = highest_action issues.
Proof.
  intros Hne. unfold highest_action.
  destruct (py_max _ _) as [a|] eqn:E.
  - apply py_max_elem, list_elem_of_fmap in E as (i & -> & Hi). by exists i.
  - apply py_max_None, fmap_nil_inv in E. done.
Qed.

Lemma highest_action_ge issues i :
  i ∈ issues -> action_rank (HealthIssue.action i) <= action_rank (highest_action issues).
Proof.
  intros Hi. unfold highest_action. destruct (py_max _ _) as [a|] eqn:E.
  - simpl. assert (H : (action_rank a <? action_rank (HealthIssue.action i)) = false).
    { eapply (py_max_ge (fun a b => action_rank a <? action_rank b) (fun _ => True)); [| | |by apply Forall_true|exact E|].
      - intros. apply Z.ltb_irrefl.
      - intros x y z _ _ _. rewrite !Z.ltb_ge. lia.
      - intros x y _ _. rewrite Z.ltb_ge, Z.ltb_lt. lia.
      - apply list_elem_of_fmap. by exists i. }
    apply Z.ltb_ge in H. lia.
  - apply py_max_None, fmap_nil_inv in E. subst. by apply elem_of_nil in Hi.
Qed.

(** The action of each issue. *)
Lemma health_issue_action p x now ov i :
  i ∈ health_issues p x now ov ->
  (HealthIssue.action i = RecoveryAction.EMERGENCY_STOP /\ needs_emergency_stop x) \/
  HealthIssue.action i = (if airborne (VehicleSession.state x) then RecoveryAction.ABORT_AND_LAND
                          else RecoveryAction.REJECT_NEW_COMMANDS).
Proof.
  unfold health_issues, needs_emergency_stop. rewrite <- airborne_spec. cbv zeta.
  destruct (VehicleSession.telemetry x) as [e|];
    [|intros [_ ->]%issue_if_elem; by right].
  destruct (VehicleSession.telemetry_received_at_monotonic_s x) as [r|];
    [|intros [_ ->]%issue_if_elem; by right].
  destruct (VehicleTelemetry.battery_percent _);
    rewrite !elem_of_app, !issue_if_elem;
    intros [[_ ->]|[[Hb ->]|[[_ ->]|[[_ ->]|[[_ ->]|[[_ ->]|[Hb ->]]]]]]]; simpl; try (by right);
    apply andb_true_iff in Hb as [Hb1 Hb2]; left; (split; [done|]);
    try apply orb_true_iff in Hb2; rewrite ?is_none_true in Hb2; bool_to_prop;
    (split; [done|]); exists e, r; naive_solver.
Qed.

Lemma health_emergency p x now ov :
  needs_emergency_stop x -> exists i, i ∈ health_issues p x now ov /\
    HealthIssue.action i = RecoveryAction.EMERGENCY_STOP.
Proof.
  intros (Hup%airborne_spec & e & r & He & Hr & Hbad). unfold health_issues. rewrite He, Hr, Hup. cbv zeta.
  destruct Hbad as [Hd|Hs].
  - eexists. split; [|shelve]. apply elem_of_app. right. apply elem_of_app. left.
    rewrite Hd. apply issue_if_elem. by split.
    Unshelve. done.
  - eexists. split; [|shelve]. do 6 (apply elem_of_app; right). apply issue_if_elem. simpl.
    split; [|done]. apply orb_true_iff. by rewrite !is_none_true.
    Unshelve. done.
Qed.

(** The emergency stop is the highest action precisely when it is needed. *)
Lemma emergency_is_highest p x now ov :
  highest_action (health_issues p x now ov) = RecoveryAction.EMERGENCY_STOP <-> needs_emergency_stop x.
Proof.
  split.
  - intros Hact. destruct (decide (health_issues p x now ov = [])) as [He|Hne]; [by rewrite He in Hact|].
    destruct (highest_action_elem _ Hne) as (i & Hi & Hai).
    destruct (health_issue_action _ _ _ _ i Hi) as [[_ ?]|He]; [done|].
    destruct (airborne _); congruence.
  - intros Hneed. destruct (health_emergency p x now ov Hneed) as (i & Hi & Hai).
    pose proof (highest_action_ge _ i Hi) as Hge. rewrite Hai in Hge.
    by destruct (highest_action _); simpl in Hge.
Qed.

Section health.
Context `{CK : Clock} `{LM : Libm} `{DG : Digest}.

(** C14: The health assessment of a registered vehicle is exact. It is taken at the
    time given, or else at one reading of the clock, and under the low-battery
    override asked for, which is refused outside SIM mode and simulation authority.
    The vehicle is healthy precisely if telemetry has arrived within the timeout,
    battery, transport and localization meet the policy, the position lies in the
    flight volume and, in the air, the link is up and the IMU and flow sensors
    report. The action is NONE precisely when healthy, the rejection of new commands
    for an unhealthy vehicle on the ground, abort-and-land for one in the air, and
    an emergency stop precisely for a vehicle in the air that reports DISCONNECTED
    or misses a sensor. *)
Theorem health_assessment_is_exact v now allow s n h :
  run (evaluate_health v now allow) s n = Ret h ->
  exists a x, dict_get v (SafetySupervisor.sessions s) = Some a /\
    SafetySupervisor.objects s !! a = Some x /\
    (allow = true -> SafetySupervisor.mode s = OperatingMode.SIM /\
       authority (Vehicle.backend_profile (VehicleSession.vehicle x)) = AuthorityClass.SIMULATION) /\
    (HealthAssessment.healthy h = true <->
       observed_healthy (SafetySupervisor.policy s) x (default (monotonic n) now) allow) /\
    (HealthAssessment.action h = RecoveryAction.NONE <-> HealthAssessment.healthy h = true) /\
    (HealthAssessment.action h = RecoveryAction.EMERGENCY_STOP <-> needs_emergency_stop x) /\
    (HealthAssessment.healthy h = false -> ~ needs_emergency_stop x ->
     (in_the_air x -> HealthAssessment.action h = RecoveryAction.ABORT_AND_LAND) /\
     (~ in_the_air x -> HealthAssessment.action h = RecoveryAction.REJECT_NEW_COMMANDS)).
Proof.
  by_returned. unfold evaluate_health. wp_go; [|done].
  eapply (wp_mono _ (fun o s' n' => s' = s /\ n' = n /\ forall ov, o = Ret ov -> ov = allow /\
    (allow = true -> exists x, SafetySupervisor.objects s !! a = Some x /\
    SafetySupervisor.mode s = OperatingMode.SIM /\
    authority (Vehicle.backend_profile (VehicleSession.vehicle x)) = AuthorityClass.SIMULATION))).
  { unfold simulation_low_battery_override. destruct allow; wp_go; try by split.
    - split_and!; [done|done|]. intros _ [= <-]. split; [done|]. intros _. exists x.
      match goal with H : _ = false |- _ => apply orb_false_iff in H as [H1 H2] end.
      by bool_to_prop.
    - split_and!; [done|done|]. by intros _ [= <-]. }
  intros [ov|e] s' n' (-> & -> & Hov); [|done]. destruct (Hov ov eq_refl) as [-> Hsim]. wp_go; try done.
  intros h' [= <-]. exists a, x.
  set (issues := health_issues _ x _ allow).
  assert (Hn : bool_decide (length issues = 0%nat) = true <-> issues = []).
  { rewrite bool_decide_eq_true. by destruct issues. }
  assert (Hemergency : highest_action issues = RecoveryAction.EMERGENCY_STOP <-> needs_emergency_stop x)
    by apply emergency_is_highest.
  simpl. split_and!; [done|done| | | |done|].
  - intros Hallow. destruct (Hsim Hallow) as (y & Hy & ? & ?). naive_solver.
  - rewrite Hn. apply health_issues_nil.
  - rewrite Hn. split; [|by intros ->]. intros Hact. destruct (decide (issues = [])) as [|Hne]; [done|].
    destruct (highest_action_elem issues Hne) as (i & Hi & Hai).
    destruct (health_issue_action _ _ _ _ i Hi) as [[He _]|He]; [congruence|].
    destruct (airborne _); congruence.
  - intros Hu Hcalm. rewrite <- airborne_spec. destruct (decide (issues = [])) as [He|Hnil]; [by rewrite He in Hu|].
    destruct (highest_action_elem issues Hnil) as (i & Hi & Hai).
    destruct (health_issue_action _ _ _ _ i Hi) as [[? ?]|He]; [done|].
    rewrite <- Hai, He. destruct (airborne _); naive_solver.
Qed.
End health.

(** ** Telemetry, preflight and leases *)

(** A sample that advances the source clock, against one of the same clock. *)
Definition newer (telemetry previous : TelemetryEnvelope.t) : Prop :=
  TelemetryEnvelope.source_clock_epoch previous < TelemetryEnvelope.source_clock_epoch telemetry \/
  (TelemetryEnvelope.source_clock_epoch previous = TelemetryEnvelope.source_clock_epoch telemetry /\
   TelemetryEnvelope.sequence previous <= TelemetryEnvelope.sequence telemetry /\
   fltb (TelemetryEnvelope.source_timestamp_s telemetry)
        (TelemetryEnvelope.source_timestamp_s previous) = false /\
   (TelemetryEnvelope.sequence previous < TelemetryEnvelope.sequence telemetry \/
    feqb (TelemetryEnvelope.source_timestamp_s telemetry)
         (TelemetryEnvelope.source_timestamp_s previous) = false)).

Definition same_clock (e e' : TelemetryEnvelope.t) : Prop :=
  TelemetryEnvelope.source_clock_id e = TelemetryEnvelope.source_clock_id e'.

Lemma fresh_sample previous e :
  is_stale_sample previous e = false -> same_clock e previous -> newer e previous.
Proof.
  unfold is_stale_sample, same_clock, newer. intros H Hc.
  rewrite (proj2 (String.eqb_eq _ _) Hc) in H. simpl in H. bool_to_prop.
  destruct (fltb _ _), (feqb _ _); simpl in *; rewrite ?andb_true_r, ?andb_false_r, ?orb_true_r,
    ?orb_false_r in *; intuition (bool_to_prop; try done; try lia).
  all: destruct (Z.ltb_spec (TelemetryEnvelope.source_clock_epoch previous)
                   (TelemetryEnvelope.source_clock_epoch e)); [by left|right].
  all: intuition (try lia; try done).
Qed.

Lemma stale_sample previous e :
  is_stale_sample previous e = true -> same_clock e previous /\ ~ newer e previous.
Proof.
  unfold is_stale_sample, same_clock, newer. intros H. bool_to_prop. split; [done|].
  destruct (fltb _ _), (feqb _ _); simpl in *; intuition (bool_to_prop; intuition (try done; try lia)).
Qed.

(** A statement about the final state of a run that returns, as a [wp]. *)
Ltac by_exec :=
  cbv zeta;
  lazymatch goal with
  | |- run ?m ?s ?n = ?o -> ?G =>
      let G' := eval pattern (exec m s n) in G in
      lazymatch G' with
      | ?P _ =>
          change (run m s n = o -> P (exec m s n));
          apply (proj1 (wp_run m (fun o' s' _ => o' = o -> P s') s n)); cbv beta
      end
  end.

Section ingestion.
Context `{CK : Clock} `{LM : Libm} `{DG : Digest}.

(** Ingesting a telemetry sample never moves a vehicle's telemetry back and
    never renews its freshness without new information: a sample of the same
    source clock that does not advance epoch, sequence and timestamp leaves the
    supervisor unchanged; any other sample becomes the session's telemetry with
    the current reading of the monotonic clock as its time of receipt, and no
    other session is touched. *)
Theorem telemetry_never_goes_back e s n :
  run (receive_telemetry e) s n = Ret tt ->
  let s' := exec (receive_telemetry e) s n in
  exists a x, dict_get (TelemetryEnvelope.vehicle_id e) (SafetySupervisor.sessions s) = Some a /\
    SafetySupervisor.objects s !! a = Some x /\
    vehicle_name (VehicleSession.vehicle x) = TelemetryEnvelope.vehicle_id e /\
    ((s' = s /\ exists previous, VehicleSession.telemetry x = Some previous /\
        same_clock e previous /\ ~ newer e previous) \/
     ((forall previous, VehicleSession.telemetry x = Some previous -> same_clock e previous ->
         newer e previous) /\
      (forall b, SafetySupervisor.objects s' !! b =
         if decide (b = a)
         then Some (VehicleSession.set_telemetry_received_at_monotonic_s (Some (monotonic n))
                      (VehicleSession.set_telemetry (Some e) x))
         else SafetySupervisor.objects s !! b))).
Proof.
  by_exec.
  unfold receive_telemetry. wp_go; try done; bool_to_prop; intros _; exists a, x;
    (split_and!; [done|done|done|]).
  - left. split; [done|]. destruct (VehicleSession.telemetry x) as [previous|]; [|done].
    exists previous. split; [done|]. by apply stale_sample.
  - right. split.
    + intros previous Hp Hc. rewrite Hp in *. by apply fresh_sample.
    + intros b. unfold notify. simpl. case_decide as E.
      * subst b. by rewrite !list_lookup_alter_eq, Hx.
      * by rewrite !list_lookup_alter_ne by done.
Qed.

(** [claim_control] is exclusive: it succeeds only if no other owner holds
    an unexpired lease of the vehicle, and then the caller holds the lease until
    the policy's lease timeout from now, and nothing else of any session has
    changed. *)
Theorem claim_is_exclusive v owner now s n :
  run (claim_control v owner now) s n = Ret tt ->
  let s' := exec (claim_control v owner now) s n in
  let t := default (monotonic n) now in
  exists a x, dict_get v (SafetySupervisor.sessions s) = Some a /\
    SafetySupervisor.objects s !! a = Some x /\
    (forall l, VehicleSession.lease x = Some l ->
       fltb t (ControlLease.expires_at_monotonic_s l) = true -> ControlLease.owner_id l = owner) /\
    (forall b, SafetySupervisor.objects s' !! b =
       if decide (b = a)
       then Some (VehicleSession.set_lease (Some (ControlLease.mk owner
              (fadd t (SafetyPolicy.control_lease_timeout_s (SafetySupervisor.policy s))))) x)
       else SafetySupervisor.objects s !! b).
Proof.
  by_exec.
  unfold claim_control, new_lease. wp_go; try done.
  unfold event, log_event, notify. wp_go; [done|]. intros _. exists a, x. split_and!; [done|done| |].
  - intros l Hl Ht. rewrite Hl, Ht in *. simpl in *. by bool_to_prop.
  - intros b. simpl. case_decide as E.
    + subst b. by rewrite list_lookup_alter_eq, Hx.
    + by rewrite list_lookup_alter_ne by done.
Qed.

(** What all checks of a preflight together say. *)
Definition preflight_conditions (s : Sup) (x : VehicleSession.t) (e : TelemetryEnvelope.t)
    (required : capability_set) (override : bool) : Prop :=
  let p := SafetySupervisor.policy s in
  let t := TelemetryEnvelope.telemetry e in
  TelemetryEnvelope.vehicle_id e = vehicle_name (VehicleSession.vehicle x) /\
  VehicleSession.state x = VehicleState.READY /\
  required ⊆ features (Vehicle.capabilities (VehicleSession.vehicle x)) /\
  (exists b, VehicleTelemetry.battery_percent t = Some b /\
     (fleb (SafetyPolicy.minimum_takeoff_battery_percent p) b = true \/ override = true)) /\
  at_least (transport_quality t) (SafetyPolicy.minimum_link_quality_percent p) = true /\
  (exists q, VehicleTelemetry.position_m t = Some q /\
     contains (SafetyPolicy.flight_volume p) q = true) /\
  ("CRITICAL_BATTERY" ∉ VehicleTelemetry.faults t \/ override = true) /\
  (required ∩ positioning <> ∅ ->
     at_least (VehicleTelemetry.localization_quality_percent t)
       (SafetyPolicy.minimum_localization_quality_percent p) = true /\
     is_some (VehicleTelemetry.imu t) = true /\ is_some (VehicleTelemetry.flow t) = true) /\
  (VehicleCapability.RANGE_SENSING ∈ required -> is_some (VehicleTelemetry.ranges t) = true) /\
  real_authorized s x = true.

Lemma preflight_checks_pass s x e required override :
  forallb PreflightCheck.passed (preflight_checks s x e required override) = true ->
  preflight_conditions s x e required override.
Proof.
  unfold preflight_checks, preflight_conditions, supports. cbv zeta.
  rewrite !forallb_app. intros H. apply andb_true_iff in H as [H1 H].
  apply andb_true_iff in H as [H2 H]. apply andb_true_iff in H as [H3 H4].
  simpl in H1, H4. rewrite !andb_true_r in *.
  apply andb_true_iff in H1 as [Hid H1]. apply andb_true_iff in H1 as [Hst H1].
  apply andb_true_iff in H1 as [Hcap H1]. apply andb_true_iff in H1 as [Hbat H1].
  apply andb_true_iff in H1 as [Htr H1]. apply andb_true_iff in H1 as [Hgeo H1].
  apply andb_true_iff in H1 as [Hfault Hloc].
  split_and!.
  - by apply String.eqb_eq.
  - by apply bool_decide_eq_true in Hst.
  - by apply bool_decide_eq_true in Hcap.
  - destruct (VehicleTelemetry.battery_percent _) as [b|]; [|done]. exists b. split; [done|].
    by apply orb_true_iff.
  - done.
  - destruct (VehicleTelemetry.position_m _) as [q|]; [|done]. by exists q.
  - apply orb_true_iff in Hfault as [Hf|Hf]; [|by right]. left.
    by apply negb_true_iff, bool_decide_eq_false in Hf.
  - intros Hpos. rewrite bool_decide_eq_false_2 in Hloc, H2 by done. simpl in *.
    rewrite andb_true_r in H2. by apply andb_true_iff in H2 as [].
  - intros Hr. rewrite bool_decide_eq_true_2 in H3 by done. simpl in H3. by rewrite andb_true_r in H3.
  - done.
Qed.

(** An approved preflight means what it says: the telemetry is the vehicle's
    own, the vehicle is READY with every required capability, its battery meets
    the takeoff minimum and no critical battery fault is reported (or the
    simulation override was given), transport quality and position meet the
    policy, localization quality, IMU and flow are there when positioning is
    required and ranges when range sensing is, and the mode has authority over
    the vehicle; the report carries the mode and the operator it was made for
    and expires the policy's validity after the time given. *)
Theorem approved_preflight_means a v owner now required override e s n r :
  run (record_preflight a v owner now required override e) s n = Ret r ->
  PreflightReport.approved r = true ->
  exists x, SafetySupervisor.objects s !! a = Some x /\
    preflight_conditions s x e required override /\
    PreflightReport.mode r = SafetySupervisor.mode s /\ PreflightReport.operator_id r = owner /\
    PreflightReport.expires_at_monotonic_s r
    = fadd now (SafetyPolicy.preflight_valid_s (SafetySupervisor.policy s)).
Proof.
  by_returned. unfold record_preflight, event, log_event, notify.
  apply wp_bind, wp_deref; [|done]. intros x Hx. apply wp_bind, wp_get. cbv zeta.
  apply wp_bind, wp_next_command_sequence.
  wp_go; try done. intros r' [= <-] Happ. exists x. split_and!; try done.
  by apply preflight_checks_pass.
Qed.
End ingestion.

(** A report identity has at most 96 characters, so no vehicle whose name, which
    may have 96, has more than 85 ever gets a preflight report. *)
Lemma preflight_bounds_vehicle_id `{Clock} a v owner now required override e s n r :
  run (record_preflight a v owner now required override e) s n = Ret r -> str_len v <= 85.
Proof.
  by_returned. unfold record_preflight.
  apply wp_bind, wp_deref; [|done]. intros x Hx. apply wp_bind, wp_get. cbv zeta.
  apply wp_bind, wp_next_command_sequence. wp_go; [done|].
  eapply wp_mono; [apply wp_true|]. intros [[]|e'] s' n' _; [|done]. wp_go. intros _ _.
  match goal with H : PreflightReport_valid _ = true |- _ =>
    unfold PreflightReport_valid in H; bool_to_prop end.
  match goal with H : is_identifier (PreflightReport.report_id _) = true |- _ =>
    simpl in H; rewrite andb_true_iff in H; destruct H as [_ H]; apply Z.leb_le in H; rename H into Hlen end.
  assert (Happ : forall x y, str_len (x +:+ y) = str_len x + str_len y).
  { intros y z. unfold str_len. rewrite <- Nat2Z.inj_add. f_equal.
    induction y as [|c y IH]; simpl; [done|]. by rewrite IH. }
  change (str_len ("preflight-" +:+ v +:+ "-" +:+ pretty (SafetySupervisor.command_sequence s)) <= 96)
    in Hlen.
  rewrite !Happ in Hlen. change (str_len "preflight-") with 10 in Hlen. change (str_len "-") with 1 in Hlen.
  assert (0 <= str_len (pretty (SafetySupervisor.command_sequence s))) by (unfold str_len; lia). lia.
Qed.

(** ** Concrete runs *)

Module Examples.
(** A clock that ticks every tenth of a second for its first thousand readings. *)
Definition ticks : Clock := fun n => flit (1000 + Z.of_nat (Nat.min n 999)) 10.
#[export] Existing Instance ticks.
#[export] Existing Instance example_libm.
#[export] Existing Instance example_digest.

#[export] Instance ticks_nonneg : ClockNonneg.
Proof.
  intros n. unfold monotonic, ticks.
  assert (H : forallb (fun k => ge0 (flit (1000 + Z.of_nat k) 10)) (seq 0 1000) = true)
    by (vm_compute; reflexivity).
  rewrite forallb_forall in H. apply H, in_seq. lia.
Qed.

Definition profile : VehicleBackendProfile := {|
  role := BackendRole.FAST_SIM;
  authority := AuthorityClass.SIMULATION;
  clock_policy := SourceClockPolicy.ACCELERATED_OR_REALTIME;
  command_completion := CommandCompletionMode.BLOCKING_COMPLETION;
  supports_duration_aware_timeout := true;
  supports_source_clock_reset := true;
  supports_parameters := false;
  recommended_watchdog_period_s := flit 2 100;
|}.

Definition drone : Vehicle.t := {|
  Vehicle.address := 0%nat;
  Vehicle.identity := Build_VehicleIdentity "cf-1" "Scout" "fast-sim" None None;
  Vehicle.capabilities := Build_VehicleCapabilities
    {[VehicleCapability.ARMING; VehicleCapability.TIME_PARAMETERIZED_TRAJECTORY]} [];
  Vehicle.backend_profile := profile;
|}.

(** A sample of the adapter: state, armed and flying at 30 cm above the origin,
    with everything the policy asks for. *)
Definition sample (n : Z) (state : VehicleState.t) (armed flying : bool) : TelemetryEnvelope.t := {|
  TelemetryEnvelope.vehicle_id := "cf-1";
  TelemetryEnvelope.sequence := n;
  TelemetryEnvelope.source_timestamp_s := float_of_Z n;
  TelemetryEnvelope.received_timestamp_s := float_of_Z n;
  TelemetryEnvelope.simulation_timestamp_s := None;
  TelemetryEnvelope.replay_timestamp_s := None;
  TelemetryEnvelope.source_clock_id := "adapter-monotonic";
  TelemetryEnvelope.source_clock_epoch := 0;
  TelemetryEnvelope.telemetry := {|
    VehicleTelemetry.state := state;
    VehicleTelemetry.armed := armed;
    VehicleTelemetry.flying := flying;
    VehicleTelemetry.position_m := Some (mkVector3 f0 f0 (flit 3 10));
    VehicleTelemetry.ground_truth_position_m := None;
    VehicleTelemetry.velocity_m_s := None;
    VehicleTelemetry.attitude := None;
    VehicleTelemetry.quaternion := None;
    VehicleTelemetry.frame := Some CoordinateFrame.WORLD;
    VehicleTelemetry.position_is_estimate := Some true;
    VehicleTelemetry.localization_source := None;
    VehicleTelemetry.localization_quality_percent := Some (float_of_Z 95);
    VehicleTelemetry.battery_percent := Some (float_of_Z 80);
    VehicleTelemetry.battery_open_circuit_voltage_v := None;
    VehicleTelemetry.battery_voltage_v := None;
    VehicleTelemetry.battery_current_a := None;
    VehicleTelemetry.battery_cutoff_active := None;
    VehicleTelemetry.battery_cutoff_reason := None;
    VehicleTelemetry.powertrain_current_limited := None;
    VehicleTelemetry.link_quality_percent := Some (float_of_Z 99);
    VehicleTelemetry.link_latency_ms := None;
    VehicleTelemetry.packet_loss_percent := None;
    VehicleTelemetry.transport := None;
    VehicleTelemetry.capabilities := None;
    VehicleTelemetry.imu := Some (ImuReading.mk Vector3_zero Vector3_zero None);
    VehicleTelemetry.estimator := None;
    VehicleTelemetry.flow := Some (FlowReading.mk None None f100 FlowStatus.VALID None);
    VehicleTelemetry.ranges := None;
    VehicleTelemetry.motors := None;
    VehicleTelemetry.faults := [];
  |};
|}.

(** An adapter that completes every command and reports the given sample; the
    commands of a cancelled task end with a cancellation. *)
Definition done_ack (e : CommandEnvelope.t) : CommandAcknowledgement.t :=
  CommandAcknowledgement.mk (CommandEnvelope.vehicle_id e) (CommandEnvelope.command_id e)
    AcknowledgementStatus.COMPLETED f0 (Some f0) None None.

Definition obey (e : TelemetryEnvelope.t) (B : Type) (q : request B) : outcome B :=
  match q in request B return outcome B with
  | ConnectVehicle _ _ | DisconnectVehicle _ _ | Sleep0 => Ret tt
  | Snapshot _ _ => Ret e
  | Execute _ _ command _ => Ret (done_ack command)
  | CancelAndJoin _ => Raise CancelledError
  end.

Definition cancel (B : Type) (q : request B) : outcome B := Raise CancelledError.

Definition ready_sample := sample 1 VehicleState.READY false false.
Definition armed_sample := sample 2 VehicleState.READY true false.
Definition flying_sample := sample 3 VehicleState.FLYING true true.

(** Register, claim control, connect. *)
Definition connected : system Sup request :=
  resume 2 (obey ready_sample) (resume 2 (obey ready_sample)
    (call (discard (connect "cf-1"))
      (call (discard (sync (claim_control "cf-1" "op" None)))
        (call (discard (sync (register_vehicle drone)))
          (mkSystem (SafetySupervisor_new SafetyPolicy_default ["audit"]) 0 []))))).

(** A preflight. *)
Definition checked : system Sup request :=
  resume 3 (obey ready_sample)
    (call (discard (preflight "cf-1" "op" {[VehicleCapability.ARMING]} None false)) connected).

Definition report_name := "preflight-cf-1-0".

(** Arm and take off. *)
Definition armed : system Sup request :=
  resume 4 (obey armed_sample) (resume 4 (obey armed_sample)
    (call (discard (arm "cf-1" "op" report_name None CommandSource.UI None None)) checked)).

Definition flying : system Sup request :=
  resume 5 (obey flying_sample) (resume 5 (obey flying_sample)
    (call (discard (takeoff "cf-1" "op" (flit 3 10) (float_of_Z 4) CommandSource.UI None None))
       armed)).

(** A trajectory in execution. *)
Definition trajectory_command : ExecuteTrajectoryCommand.t :=
  ExecuteTrajectoryCommand.mk "plan-1" Trajectory.Examples.zeros Trajectory.Examples.zeros
    (trajectory_sha256 Trajectory.Examples.trajectory) Trajectory.Examples.zeros
    Trajectory.Examples.trajectory.

Definition executing : system Sup request :=
  call (discard (execute_trajectory "cf-1" "op" trajectory_command CommandSource.UI None None)) flying.

(** While it is in execution the emergency stop is called, which cancels its
    task, then stop-and-hold, whose guard still sees FLYING. The task ends, and
    the event loop resumes the waiting coroutines in the order they came. *)
Definition raced : system Sup request :=
  let r := obey flying_sample in
  resume 8 r (resume 7 r (resume 8 r (resume 7 r
    (resume 6 cancel
      (call (discard (stop_and_hold "cf-1" "op" CommandSource.UI None None))
        (call (discard (emergency_stop "cf-1" "op" "operator" false None None)) executing)))))).

(** An emergency stop whose reason has 501 characters. *)
Definition long_reason : string := String.concat "" (replicate 501 "x").

Definition unstopped : system Sup request :=
  call (discard (emergency_stop "cf-1" "op" long_reason false None None)) flying.

Definition unlanded : system Sup request :=
  call (discard (abort_and_land "cf-1" "op" long_reason false None None)) flying.

(** These systems are reachable. *)
Ltac reach h :=
  lazymatch goal with
  | |- reachable _ _ _ (resume _ _ _) => apply reachable_resume
  | |- reachable _ _ _ (call _ _) => apply reachable_call; [|exact h]
  end.

Lemma connected_reachable : supervised connected.
Proof.
  unfold connected. do 2 reach tt. reach (api_connect "cf-1").
  reach (api_claim "cf-1" "op" None). reach (api_register drone eq_refl).
  apply reach_init. by eexists _, _.
Qed.

Lemma checked_reachable : supervised checked.
Proof.
  unfold checked. reach tt. reach (api_preflight "cf-1" "op" {[VehicleCapability.ARMING]} None false).
  apply connected_reachable.
Qed.

Lemma armed_reachable : supervised armed.
Proof.
  unfold armed. do 2 reach tt. reach (api_arm "cf-1" "op" report_name None CommandSource.UI None None).
  apply checked_reachable.
Qed.

Lemma flying_reachable : supervised flying.
Proof.
  unfold flying. do 2 reach tt.
  reach (api_takeoff "cf-1" "op" (flit 3 10) (float_of_Z 4) CommandSource.UI None None).
  apply armed_reachable.
Qed.

Lemma raced_reachable : supervised raced.
Proof.
  unfold raced, executing. cbv zeta. do 5 reach tt.
  reach (api_stop_and_hold "cf-1" "op" CommandSource.UI None None).
  reach (api_emergency "cf-1" "op" "operator" false None None).
  reach (api_execute "cf-1" "op" trajectory_command CommandSource.UI None None).
  apply flying_reachable.
Qed.

Lemma unstopped_reachable : supervised unstopped.
Proof.
  unfold unstopped. reach (api_emergency "cf-1" "op" long_reason false None None).
  apply flying_reachable.
Qed.

Lemma unlanded_reachable : supervised unlanded.
Proof.
  unfold unlanded. reach (api_abort "cf-1" "op" long_reason false None None).
  apply flying_reachable.
Qed.

(** The vehicle of the run flies. *)
Example flying_state :
  state_at 0 (shared flying) = Some VehicleState.FLYING /\
  transitions "cf-1" (SafetySupervisor.events (shared flying))
  = [VehicleState.CONNECTING; VehicleState.READY; VehicleState.ARMING; VehicleState.READY;
     VehicleState.TAKING_OFF; VehicleState.FLYING].
Proof. vm_compute. done. Qed.

(** Stop-and-hold checks that the vehicle is flying before it waits for the
    interrupted trajectory, and not after: in a reachable run in which an
    emergency stop is waiting for the same trajectory, the stop-and-hold command
    is sent to the adapter when the vehicle is in EMERGENCY. *)
Theorem stop_and_hold_races_emergency :
  supervised raced /\
  exists l1 e l2, SafetySupervisor.events (shared raced) = l1 ++ e :: l2 /\
    is_command e = true /\ SafetyEvent.message e = CommandKind_value CommandKind.STOP_AND_HOLD /\
    log_state "cf-1" l1 = VehicleState.EMERGENCY.
Proof.
  split; [apply raced_reachable|].
  set (l := SafetySupervisor.events (shared raced)). vm_compute in l.
  exists (take 16 l), (default (SafetyEvent.mk 0 f0 "" "" CommandSource.UI "" None None None) (l !! 16%nat)), (drop 17 l).
  split_and!; vm_compute; reflexivity.
Qed.

(** An emergency stop with a reason of more than 500 characters puts the
    vehicle in EMERGENCY and then fails to construct its command: no emergency
    stop reaches the adapter of the flying vehicle. *)
Theorem long_reason_loses_emergency_stop :
  supervised unstopped /\
  state_at 0 (shared unstopped) = Some VehicleState.EMERGENCY /\
  finished <$> last (coroutines unstopped) = Some (Some (Raise (ValidationError "emergency_stop"))) /\
  Forall (fun e => is_command e = true -> SafetyEvent.message e <> "emergency_stop")
    (SafetySupervisor.events (shared unstopped)).
Proof.
  split; [apply unstopped_reachable|].
  split_and!; [vm_compute; reflexivity|vm_compute; reflexivity|].
  apply Forall_forall. intros e He Hc Hm.
  assert (H : forallb (fun e => negb (is_command e && String.eqb (SafetyEvent.message e) "emergency_stop"))
    (SafetySupervisor.events (shared unstopped)) = true) by (vm_compute; reflexivity).
  rewrite forallb_forall in H. specialize (H e (proj1 (list_elem_of_In _ _) He)).
  by rewrite Hc, Hm in H.
Qed.

(** The same of an abort: the vehicle is ABORTING, from where no further abort is
    permitted, and was not told to. *)
Example long_reason_loses_abort :
  supervised unlanded /\
  state_at 0 (shared unlanded) = Some VehicleState.ABORTING /\
  finished <$> last (coroutines unlanded) = Some (Some (Raise (ValidationError "abort"))) /\
  existsb (fun e => String.eqb (SafetyEvent.message e) "abort")
    (SafetySupervisor.events (shared unlanded)) = false.
Proof. split; [apply unlanded_reachable|]. vm_compute. done. Qed.

(** ** Witnesses *)

Lemma state_machine_witness :
  path VehicleState.DISCONNECTED
    [VehicleState.CONNECTING; VehicleState.READY; VehicleState.ARMING; VehicleState.READY;
     VehicleState.TAKING_OFF; VehicleState.FLYING] VehicleState.FLYING /\
  state_at 0 (shared flying) = Some VehicleState.FLYING.
Proof.
  destruct (vehicle_follows_state_machine flying "cf-1" flying_reachable) as [Hp Hs]. split.
  - vm_compute in Hp. exact Hp.
  - rewrite (Hs 0%nat); [vm_compute; reflexivity|vm_compute; reflexivity].
Defined.

(** The event at a position of the log of a run. *)
Definition event_at (i : nat) (sys : system Sup request) : SafetyEvent.t :=
  default (SafetyEvent.mk 0 f0 "" "" CommandSource.UI "" None None None)
    (SafetySupervisor.events (shared sys) !! i).

Lemma commands_witness :
  exists k, SafetyEvent.message (event_at 10 flying) = CommandKind_value k /\
    sendable k (log_state (SafetyEvent.vehicle_id (event_at 10 flying))
      (take 10 (SafetySupervisor.events (shared flying)))) = true.
Proof.
  apply (commands_fit_state flying (take 10 (SafetySupervisor.events (shared flying)))
           (event_at 10 flying) (drop 11 (SafetySupervisor.events (shared flying))) flying_reachable);
    vm_compute; reflexivity.
Defined.

Lemma log_witness :
  sent_ids (SafetySupervisor.events (shared flying)) = ["cmd-1"; "cmd-2"] /\
  NoDup (sent_ids (SafetySupervisor.events (shared flying))).
Proof.
  split; [vm_compute; reflexivity|]. apply (log_numbers_and_command_ids flying flying_reachable).
Defined.

Definition s_checked : Sup := shared checked.
Definition s_armed : Sup := shared armed.
Definition s_flying : Sup := shared flying.

Lemma arm_witness :
  exists a x r, dict_get "cf-1" (SafetySupervisor.sessions s_checked) = Some a /\
    SafetySupervisor.objects s_checked !! a = Some x /\
    holds_lease x "op" (default (monotonic 20) None) false /\
    VehicleSession.preflight x = Some r /\ PreflightReport.report_id r = report_name /\
    PreflightReport.operator_id r = "op" /\ PreflightReport.approved r = true /\
    PreflightReport.mode r = SafetySupervisor.mode s_checked /\
    fltb (PreflightReport.expires_at_monotonic_s r) (default (monotonic 20) None) = false /\
    has_authority s_checked x.
Proof.
  apply (proj1 (arm_requires_preflight "cf-1" "op" report_name None CommandSource.UI None None s_checked 20)).
  vm_compute. reflexivity.
Defined.

Lemma flight_witness :
  exists a x, dict_get "cf-1" (SafetySupervisor.sessions s_flying) = Some a /\
    SafetySupervisor.objects s_flying !! a = Some x /\
    holds_lease x "op" (monotonic 30) false /\ VehicleSession.state x = VehicleState.FLYING.
Proof.
  apply (flight_needs_live_lease "cf-1" "op" (hover "cf-1" "op" f1 CommandSource.UI None None)).
  - apply flight_hover.
  - vm_compute. reflexivity.
Defined.

Lemma takeoff_witness :
  exists a x e, dict_get "cf-1" (SafetySupervisor.sessions s_armed) = Some a /\
    SafetySupervisor.objects s_armed !! a = Some x /\
    holds_lease x "op" (monotonic 25) false /\ real_authorized s_armed x = true /\
    VehicleSession.state x = VehicleState.READY /\ VehicleSession.telemetry x = Some e /\
    VehicleTelemetry.armed (TelemetryEnvelope.telemetry e) = true /\
    fltb f0 (flit 3 10) = true /\
    fltb (SafetyPolicy.max_altitude_m (SafetySupervisor.policy s_armed)) (flit 3 10) = false /\
    fltb f0 (float_of_Z 4) = true /\
    fltb (SafetyPolicy.max_mission_duration_s (SafetySupervisor.policy s_armed)) (float_of_Z 4) = false.
Proof.
  apply (takeoff_guards "cf-1" "op" (flit 3 10) (float_of_Z 4) CommandSource.UI None None s_armed 25).
  vm_compute. reflexivity.
Defined.

Lemma trajectory_witness :
  validate_trajectory SafetyPolicy_default (Some flying_sample) trajectory_command = Ret tt /\
  forall q, q ∈ TimeParameterizedTrajectory.points Trajectory.Examples.trajectory ->
    point_in_envelope SafetyPolicy_default q.
Proof.
  split; [vm_compute; reflexivity|].
  apply (admitted_trajectory_stays_in_envelope SafetyPolicy_default (Some flying_sample)
           trajectory_command).
  vm_compute. reflexivity.
Defined.

Lemma health_witness :
  exists h, run (evaluate_health "cf-1" None true) s_flying 30 = Ret h /\
    exists a x, dict_get "cf-1" (SafetySupervisor.sessions s_flying) = Some a /\
    SafetySupervisor.objects s_flying !! a = Some x /\
    (true = true -> SafetySupervisor.mode s_flying = OperatingMode.SIM /\
       authority (Vehicle.backend_profile (VehicleSession.vehicle x)) = AuthorityClass.SIMULATION) /\
    (HealthAssessment.healthy h = true <->
       observed_healthy (SafetySupervisor.policy s_flying) x (default (monotonic 30) None) true) /\
    (HealthAssessment.action h = RecoveryAction.NONE <-> HealthAssessment.healthy h = true) /\
    (HealthAssessment.action h = RecoveryAction.EMERGENCY_STOP <-> needs_emergency_stop x) /\
    (HealthAssessment.healthy h = false -> ~ needs_emergency_stop x ->
     (in_the_air x -> HealthAssessment.action h = RecoveryAction.ABORT_AND_LAND) /\
     (~ in_the_air x -> HealthAssessment.action h = RecoveryAction.REJECT_NEW_COMMANDS)).
Proof.
  eexists. split; [vm_compute; reflexivity|].
  apply (health_assessment_is_exact "cf-1" None true s_flying 30). vm_compute. reflexivity.
Defined.

Lemma telemetry_witness :
  exists a x, dict_get "cf-1" (SafetySupervisor.sessions s_flying) = Some a /\
    SafetySupervisor.objects s_flying !! a = Some x /\
    vehicle_name (VehicleSession.vehicle x) = "cf-1" /\
    ((exec (receive_telemetry armed_sample) s_flying 30 = s_flying /\
      exists previous, VehicleSession.telemetry x = Some previous /\
        same_clock armed_sample previous /\ ~ newer armed_sample previous) \/
     ((forall previous, VehicleSession.telemetry x = Some previous ->
         same_clock armed_sample previous -> newer armed_sample previous) /\
      (forall b, SafetySupervisor.objects (exec (receive_telemetry armed_sample) s_flying 30) !! b =
         if decide (b = a)
         then Some (VehicleSession.set_telemetry_received_at_monotonic_s (Some (monotonic 30))
                      (VehicleSession.set_telemetry (Some armed_sample) x))
         else SafetySupervisor.objects s_flying !! b))).
Proof. apply (telemetry_never_goes_back armed_sample s_flying 30). vm_compute. reflexivity. Defined.

Lemma claim_witness :
  exists a x, dict_get "cf-1" (SafetySupervisor.sessions s_flying) = Some a /\
    SafetySupervisor.objects s_flying !! a = Some x /\
    (forall l, VehicleSession.lease x = Some l ->
       fltb (float_of_Z 900) (ControlLease.expires_at_monotonic_s l) = true ->
       ControlLease.owner_id l = "relief") /\
    (forall b, SafetySupervisor.objects
         (exec (claim_control "cf-1" "relief" (Some (float_of_Z 900))) s_flying 30) !! b =
       if decide (b = a)
       then Some (VehicleSession.set_lease (Some (ControlLease.mk "relief"
              (fadd (float_of_Z 900)
                 (SafetyPolicy.control_lease_timeout_s (SafetySupervisor.policy s_flying))))) x)
       else SafetySupervisor.objects s_flying !! b).
Proof.
  apply (claim_is_exclusive "cf-1" "relief" (Some (float_of_Z 900)) s_flying 30).
  vm_compute. reflexivity.
Defined.

Lemma preflight_witness :
  exists r x, run (record_preflight 0 "cf-1" "op" (float_of_Z 101) {[VehicleCapability.ARMING]}
      false ready_sample) (shared connected) 9 = Ret r /\
    SafetySupervisor.objects (shared connected) !! 0%nat = Some x /\
    preflight_conditions (shared connected) x ready_sample {[VehicleCapability.ARMING]} false /\
    PreflightReport.mode r = SafetySupervisor.mode (shared connected) /\
    PreflightReport.operator_id r = "op".
Proof.
  assert (H : exists r, run (record_preflight 0 "cf-1" "op" (float_of_Z 101)
      {[VehicleCapability.ARMING]} false ready_sample) (shared connected) 9 = Ret r /\
      PreflightReport.approved r = true).
  { eexists. split; [vm_compute; reflexivity|vm_compute; reflexivity]. }
  destruct H as (r & Hr & Ha).
  destruct (approved_preflight_means 0 "cf-1" "op" (float_of_Z 101) {[VehicleCapability.ARMING]}
              false ready_sample (shared connected) 9 r Hr Ha) as (x & H1 & H2 & H3 & H4 & _).
  exists r, x. exact (conj Hr (conj H1 (conj H2 (conj H3 H4)))).
Defined.
End Examples.
