(* ===== verification/Readiness.v ===== *)
(** * Fleet preparation: theorems

    The preparation is a client of the supervisor: its coroutines and those of
    any other client interleave, and both the invariant of the supervisor and
    that of the preparation hold at every await.  From the latter follow what a
    start may rely on and what the events say. *)

From S2P Require Import Prelude Float64 Effects Contracts Artifacts Trajectory.
From S2P Require Import Safety Telemetry Commands Coroutines Supervisor Preparation Supervision Guarantees.

(** ** The invariant *)

(** What holds of every lifecycle record that was ever written: a verified
    vehicle is bound, a ready one has reported, a current one was observed. *)
Record lifecycle_ok (vehicles : dict Vehicle.t) (k : string) (r : FleetVehicleLifecycle.t) : Prop := {
  lc_name : FleetVehicleLifecycle.vehicle_id r = k;
  lc_verified : FleetVehicleLifecycle.registration r = RegistrationState.VERIFIED ->
    is_Some (dict_get k vehicles);
  lc_ready : FleetVehicleLifecycle.connection r = ConnectionState.READY ->
    is_Some (FleetVehicleLifecycle.latest_telemetry r);
  lc_current : FleetVehicleLifecycle.observation r = ObservationState.CURRENT ->
    is_Some (FleetVehicleLifecycle.latest_telemetry r) /\
    is_Some (FleetVehicleLifecycle.observed_at_monotonic_s r);
}.

Section invariant.
Context `{CK : Clock} `{DG : Digest}.

(** A bound vehicle has the role of the backend and the identity of its binding. *)
Definition vehicle_ok (s : Prep) (k : string) (v : Vehicle.t) : Prop :=
  vehicle_name v = k /\
  role (Vehicle.backend_profile v) =
    expected_role (BackendBindingProfile.backend (FleetPreparation.binding s)) /\
  exists selected, Artifacts.binding (FleetPreparation.binding s) k = Ret selected /\
    BackendVehicleBinding.expected_vehicle_id selected = k.

Definition event_fits (s : Prep) (e : PreparationEvent.t) : Prop :=
  PreparationEvent.execution_session_id e = FleetPreparation.execution_session_id s /\
  PreparationEvent.deployment_sha256 e = DeploymentManifest_sha256 (FleetPreparation.deployment s) /\
  PreparationEvent.binding_sha256 e = BackendBindingProfile_sha256 (FleetPreparation.binding s).

Record prep_ok (s : Prep) : Prop := {
  po_records : dict_wf (FleetPreparation._records s);
  po_lifecycle : forall k r, dict_get k (FleetPreparation._records s) = Some r ->
    lifecycle_ok (FleetPreparation._vehicles s) k r;
  po_required : forall id, id ∈ required_vehicle_ids (FleetPreparation.deployment s) ->
    is_Some (dict_get id (FleetPreparation._records s));
  po_vehicles : forall k v, dict_get k (FleetPreparation._vehicles s) = Some v -> vehicle_ok s k v;
  po_numbers : PreparationEvent.sequence <$> FleetPreparation._events s =
    seqZ 1 (Z.of_nat (length (FleetPreparation._events s)));
  po_events : Forall (event_fits s) (FleetPreparation._events s);
  po_preflight : forall p, FleetPreparation._preflight s = Some p ->
    FleetPreflightReport.approved p = true ->
    forall id, id ∈ required_vehicle_ids (FleetPreparation.deployment s) ->
    exists r, r ∈ FleetPreflightReport.reports p /\ PreflightReport.vehicle_id r = id /\
      PreflightReport.approved r = true;
}.

(** What never changes, and what only grows. *)
Record prep_ext (s s' : Prep) : Prop := {
  pe_deployment : FleetPreparation.deployment s' = FleetPreparation.deployment s;
  pe_binding : FleetPreparation.binding s' = FleetPreparation.binding s;
  pe_session : FleetPreparation.execution_session_id s' = FleetPreparation.execution_session_id s;
  pe_vehicles : forall k, is_Some (dict_get k (FleetPreparation._vehicles s)) ->
    is_Some (dict_get k (FleetPreparation._vehicles s'));
  pe_records : forall k, is_Some (dict_get k (FleetPreparation._records s)) ->
    is_Some (dict_get k (FleetPreparation._records s'));
}.

#[export] Instance prep_ext_preorder : PreOrder prep_ext.
Proof. split; [by intros s; split|]. intros s1 s2 s3 [] []. split; try congruence; auto. Qed.

Definition good : Prep -> Prop := at_attribute FleetPreparation.supervisor invariant prep_ok.
Definition along : Prep -> Prep -> Prop :=
  along_attribute FleetPreparation.supervisor ext prep_ext.

#[export] Instance along_preorder : PreOrder along.
Proof. apply (along_attribute_preorder _ ext prep_ext). Qed.

Lemma lifecycle_along s s' k r : along s s' -> lifecycle_ok (FleetPreparation._vehicles s) k r ->
  lifecycle_ok (FleetPreparation._vehicles s') k r.
Proof.
  intros [_ [_ _ _ Hv _]] [Hn Hr Hc Ho]. split; [done|intros ?; by apply Hv, Hr|done|done].
Qed.

(** A step that keeps the invariant. *)
Definition kept (s s' : Prep) : Prop := good s -> good s' /\ along s s'.

#[export] Instance kept_preorder : PreOrder kept.
Proof.
  split; [by intros s; split|]. intros s1 s2 s3 H12 H23 H1. destruct (H12 H1) as [H2 A12].
  destruct (H23 H2). split; [done|]. by etrans.
Qed.

(** ** Steps of the state *)

Lemma set_supervisor_ok t s : prep_ok s -> prep_ok (FleetPreparation.set_supervisor t s).
Proof. intros []. by split. Qed.

Lemma set_supervisor_ext t s : prep_ext s (FleetPreparation.set_supervisor t s).
Proof. by split. Qed.

Lemma on_supervisor_kept {A} (m : M Sup A) : Safe m -> steps kept (on_supervisor m).
Proof.
  intros Hm s n. unfold on_supervisor. apply wp_zoom. unfold wp, kept. intros [HI HR].
  destruct (Hm _ n HI) as (HI' & He & _).
  split; (split; [done|]); [by apply set_supervisor_ok|by apply set_supervisor_ext].
Qed.

Lemma kept_status x s : kept s (FleetPreparation.set_status x s).
Proof. intros [HI []]. by split; split. Qed.

Lemma kept_observation x s : kept s (FleetPreparation.set_observation_started_at x s).
Proof. intros [HI []]. by split; split. Qed.

Lemma kept_record k r s : lifecycle_ok (FleetPreparation._vehicles s) k r ->
  kept s (FleetPreparation.set_records (dict_set k r (FleetPreparation._records s)) s).
Proof.
  intros Hr [HI [H1 H2 H3 H4 H5 H6 H7]]. split; split; try done.
  - split; simpl; try done.
    + by apply dict_set_wf.
    + intros k' r'. rewrite dict_get_set. case_decide as E; [|apply H2].
      by intros [= <-]; subst.
    + intros id Hid. rewrite dict_get_set. case_decide; [done|]. by apply H3.
  - split; simpl; try done. intros k'. rewrite dict_get_set. by case_decide.
Qed.

Lemma kept_event e s :
  PreparationEvent.sequence e = Z.of_nat (length (FleetPreparation._events s)) + 1 ->
  event_fits s e ->
  kept s (FleetPreparation.set_events (FleetPreparation._events s ++ [e]) s).
Proof.
  intros Hn He [HI [H1 H2 H3 H4 H5 H6 H7]]. split; split; try done; split; simpl; try done.
  - rewrite fmap_app, H5, length_app, Nat2Z.inj_add, seqZ_app by lia. f_equal.
    rewrite (seqZ_cons _ (Z.of_nat _)) by (simpl; lia). simpl. f_equal. lia.
  - apply Forall_app. split; [done|]. by apply Forall_singleton.
Qed.

Lemma kept_vehicle k v s : vehicle_ok s k v ->
  kept s (FleetPreparation.set_vehicles (dict_set k v (FleetPreparation._vehicles s)) s).
Proof.
  intros Hv [HI [H1 H2 H3 H4 H5 H6 H7]].
  assert (Hg : forall k', is_Some (dict_get k' (FleetPreparation._vehicles s)) ->
    is_Some (dict_get k' (dict_set k v (FleetPreparation._vehicles s)))).
  { intros k'. rewrite dict_get_set. by case_decide. }
  split; split; try done; split; simpl; try done.
  - intros k' r Hr. destruct (H2 k' r Hr) as [Hn Hrg Hc Ho]. split; simpl; auto.
  - intros k' v'. rewrite dict_get_set. case_decide as E; [|apply H4].
    by intros [= <-]; subst.
Qed.

Lemma append_event_kept id t rg c ro o : steps kept (append_event id t rg c ro o).
Proof.
  intros s n. unfold append_event. wp_go; [done|]. by apply kept_event.
Qed.

Lemma vehicle_kept k : steps kept (vehicle k).
Proof. unfold vehicle. steps_go. Qed.

Lemma set_status_kept x : steps kept (set_status x).
Proof. unfold set_status. apply steps_modify. intros s. apply kept_status. Qed.

Lemma record_kept : steps kept record.
Proof. unfold record. steps_go. Qed.
End invariant.

#[export] Hint Resolve append_event_kept vehicle_kept set_status_kept record_kept : steps.

(** ** Operations *)

(** Changes of a record that keep it consistent. *)
Definition sound_change (f : FleetVehicleLifecycle.t -> FleetVehicleLifecycle.t) : Prop :=
  forall vehicles k r, lifecycle_ok vehicles k r -> lifecycle_ok vehicles k (f r).

Ltac sound := intros ? ? ? [? ? ? ?]; split; simpl; try done; naive_solver.

Section operations.
Context `{CK : Clock} `{CN : !ClockNonneg} `{LM : Libm} `{DG : Digest}.
Context (error_text : exn -> string).

Lemma emit_kept k t : steps kept (emit k t).
Proof. unfold emit. steps_go. Qed.
Lemma emit_external_failure_kept k : steps kept (emit_external_failure k).
Proof. unfold emit_external_failure. steps_go. Qed.
#[local] Hint Resolve emit_kept emit_external_failure_kept : steps.

Lemma wp_vehicle k (Q : outcome FleetVehicleLifecycle.t -> Prep -> nat -> Prop) s n :
  (forall r, dict_get k (FleetPreparation._records s) = Some r -> Q (Ret r) s n) ->
  (forall e, Q (Raise e) s n) -> wp (vehicle k) Q s n.
Proof. intros H1 H2. unfold vehicle. wp_go. destruct (dict_get _ _) eqn:E; wp_go; auto. Qed.

Lemma wp_set_record k r (Q : outcome unit -> Prep -> nat -> Prop) s n :
  Q (Ret tt) (FleetPreparation.set_records (dict_set k r (FleetPreparation._records s)) s) n ->
  wp (set_record k r) Q s n.
Proof. done. Qed.

(** A record that was consistent when it was read is written after a change. *)
Lemma write_kept {A} k r f (rest : M Prep A) :
  sound_change f -> steps kept rest ->
  forall s n, lifecycle_ok (FleetPreparation._vehicles s) k r ->
  wp (_ ← set_record k (f r); rest) (fun _ s' _ => kept s s') s n.
Proof.
  intros Hf Hm s n Hr. apply wp_bind, wp_set_record. eapply wp_mono; [apply Hm|].
  intros o s' n' Hk. etrans; [|exact Hk]. by apply kept_record, Hf.
Qed.

(** The record is read, changed and written in one go. *)
Lemma update_kept {A} k f (rest : FleetVehicleLifecycle.t -> M Prep A) :
  sound_change f -> (forall r, steps kept (rest r)) ->
  steps kept (r ← vehicle k; _ ← set_record k (f r); rest r).
Proof.
  intros Hf Hm s n. apply wp_bind, wp_vehicle; [|by intros e].
  intros r Hr. intros Hg. eapply write_kept; [done|apply Hm| |done]. by apply Hg.
Qed.

Lemma connection_starts_kept k : steps kept (connection_starts k).
Proof.
  intros s n. unfold connection_starts. apply wp_bind, wp_vehicle; [|by intros e].
  intros r Hr. apply wp_if; intros Hv; [by apply wp_ret|]. intros Hg.
  eapply (write_kept k r (fun r => FleetVehicleLifecycle.set_fault_reason None
            (FleetVehicleLifecycle.set_connection ConnectionState.CONNECTING r)));
    [sound|steps_go|by apply Hg|done].
Qed.

Lemma connection_failed_kept k e : steps kept (connection_failed error_text k e).
Proof.
  apply (update_kept k (fun r => FleetVehicleLifecycle.set_fault_reason (Some (error_text e))
           (FleetVehicleLifecycle.set_connection ConnectionState.FAULT r))); [sound|steps_go].
Qed.

Lemma connection_ready_kept k t : steps kept (connection_ready k t).
Proof.
  apply (update_kept k (fun r => FleetVehicleLifecycle.set_readiness_reason "WAITING_FOR_FRESH_TELEMETRY"
           (FleetVehicleLifecycle.set_latest_telemetry (Some t)
             (FleetVehicleLifecycle.set_connection ConnectionState.READY r)))); [sound|steps_go].
Qed.

Lemma retry_connected_kept k t : steps kept (retry_connected k t).
Proof.
  apply (update_kept k (fun r => FleetVehicleLifecycle.set_latest_telemetry (Some t)
           (FleetVehicleLifecycle.set_connection ConnectionState.READY r))); [sound|].
  intros r. apply steps_bind; [apply _|steps_go|]. intros _. steps_go.
Qed.

Lemma disconnected_safe_kept k : steps kept (disconnected_safe k).
Proof.
  apply (update_kept k (fun r => FleetVehicleLifecycle.set_readiness_reason "TERMINAL_SNAPSHOT"
           (FleetVehicleLifecycle.set_preflight_approved false
             (FleetVehicleLifecycle.set_observation
               (if is_some (FleetVehicleLifecycle.latest_telemetry r)
                then ObservationState.COMPLETED_SNAPSHOT else ObservationState.NOT_OBSERVED)
               (FleetVehicleLifecycle.set_connection ConnectionState.DISCONNECTED r)))));
    [|steps_go].
  intros vehicles k' r [? ? ? ?]. split; simpl; try done. by destruct (is_some _).
Qed.

Lemma readiness_window_failed_kept q m : steps kept (readiness_window_failed q m).
Proof.
  unfold readiness_window_failed. apply steps_bind; [apply _|steps_go|]. intros self.
  cbv zeta. apply steps_bind; [apply _| |intros _; steps_go].
  apply steps_for_each; [apply _|]. intros k.
  apply (update_kept k (fun r => FleetVehicleLifecycle.set_readiness_reason
           "INSUFFICIENT_DISTINCT_SOURCE_SAMPLES"
           (FleetVehicleLifecycle.set_observation ObservationState.STALE r))); [sound|steps_go].
Qed.

Lemma note_sample_kept q k m : steps kept (note_sample q k m).
Proof.
  intros s n. unfold note_sample. apply wp_bind, wp_vehicle; [|by intros e]. intros r Hr.
  destruct (FleetVehicleLifecycle.latest_telemetry r) as [t|]; [|by apply wp_ret].
  apply wp_if; intros _; [by apply wp_ret|]. apply wp_if; intros _.
  - intros Hg. eapply (write_kept k r (FleetVehicleLifecycle.set_readiness_reason _));
      [sound|steps_go|by apply Hg|done].
  - destruct (dict_get k m); [|by apply wp_raise]. cbv zeta. intros Hg.
    eapply (write_kept k r (fun r => FleetVehicleLifecycle.set_readiness_reason _
              (FleetVehicleLifecycle.set_readiness_samples _ r)));
      [sound|steps_go|by apply Hg|done].
Qed.
#[local] Hint Resolve note_sample_kept : steps.

Lemma note_samples_kept q l m : steps kept (note_samples q l m).
Proof. revert m. induction l as [|k l IH]; intros m; simpl; steps_go. Qed.
#[local] Hint Resolve note_samples_kept : steps.

Lemma samples_noted_kept q m : steps kept (samples_noted q m).
Proof. unfold samples_noted. steps_go. Qed.
Lemma telemetry_stabilized_kept : steps kept telemetry_stabilized.
Proof. unfold telemetry_stabilized. steps_go. Qed.
Lemma readiness_window_starts_kept q m : steps kept (readiness_window_starts q m).
Proof. unfold readiness_window_starts. steps_go. Qed.
Lemma adapter_kept k : steps kept (adapter k).
Proof. unfold adapter. steps_go. Qed.
Lemma validate_backend_role_kept v : steps kept (validate_backend_role v).
Proof. unfold validate_backend_role. steps_go. Qed.
Lemma identity_fault_kept {A} k e : steps kept (identity_fault k e : M Prep A).
Proof. unfold identity_fault. steps_go. Qed.
End operations.

#[export] Hint Resolve emit_kept emit_external_failure_kept connection_starts_kept
  connection_failed_kept connection_ready_kept retry_connected_kept disconnected_safe_kept
  readiness_window_failed_kept samples_noted_kept telemetry_stabilized_kept
  readiness_window_starts_kept adapter_kept validate_backend_role_kept identity_fault_kept : steps.

(** ** Discovery *)

Section discovery.
Context `{CK : Clock} `{CN : !ClockNonneg} `{LM : Libm} `{DG : Digest}.

(** The supervisor has a session of the vehicle under its identity. *)
Definition has_session (t : Sup) (k : string) (w : Vehicle.t) : Prop :=
  exists a, dict_get k (SafetySupervisor.sessions t) = Some a /\ vehicle_at a t = Some w.

Lemma registers v t n :
  wp (register_vehicle v) (fun o t' _ =>
    (forall k w, has_session t k w -> has_session t' k w) /\
    (o = Ret tt -> has_session t' (vehicle_name v) v)) t n.
Proof.
  unfold register_vehicle. wp_go; [by split|].
  assert (Hnone : dict_get (vehicle_name v) (SafetySupervisor.sessions t) = None).
  { unfold dict_mem in *. by destruct (dict_get _ _). }
  unfold event. eapply wp_mono; [apply wp_log_event|]. cbv zeta. intros o t' n' Ht.
  set (t1 := SafetySupervisor.set_sessions _ _) in *.
  assert (Hs : SafetySupervisor.sessions t' = SafetySupervisor.sessions t1).
  { destruct Ht as [(_ & _ & ->)|(_ & Hp & _)]; [done|]. by eapply pushed_sessions. }
  assert (Hv : forall a, vehicle_at a t' = vehicle_at a t1).
  { destruct Ht as [(_ & _ & ->)|(_ & Hp & _)]; [done|]. by eapply pushed_vehicle. }
  split.
  - intros k w (a & Ha & Hw). exists a. rewrite Hs, Hv. simpl. split.
    + rewrite dict_get_set_ne; [done|]. intros ->. congruence.
    + unfold vehicle_at in *. simpl.
      destruct (SafetySupervisor.objects t !! a) eqn:E; [|done]. by rewrite (lookup_app_l_Some _ _ _ _ E).
  - intros ->. exists (length (SafetySupervisor.objects t)). rewrite Hs, Hv. simpl.
    rewrite dict_get_set_eq. split; [done|]. unfold vehicle_at. simpl.
    by rewrite list_lookup_middle.
Qed.

Lemma registered_or_register_ok v s n :
  is_identifier (vehicle_name v) = true ->
  wp (registered_or_register v) (fun o s' _ =>
    kept s s' /\ s' = FleetPreparation.set_supervisor (FleetPreparation.supervisor s') s /\
    (forall k w, has_session (FleetPreparation.supervisor s) k w ->
                 has_session (FleetPreparation.supervisor s') k w) /\
    match o with
    | Ret (Some w) => has_session (FleetPreparation.supervisor s') (vehicle_name v) w
    | Ret None => has_session (FleetPreparation.supervisor s') (vehicle_name v) v
    | Raise _ => True
    end) s n.
Proof.
  intros Hid. unfold registered_or_register, on_supervisor.
  assert (Hkept : forall t', (invariant (FleetPreparation.supervisor s) ->
      invariant t' /\ ext (FleetPreparation.supervisor s) t') ->
      kept s (FleetPreparation.set_supervisor t' s)).
  { intros t' Ht [HI HR]. destruct (Ht HI). split; (split; [done|]);
      [by apply set_supervisor_ok|by apply set_supervisor_ext]. }
  wp_go.
  - split_and!; [by apply Hkept|done|done|]. exists a. unfold vehicle_at. simpl. by rewrite Hx.
  - split_and!; [by apply Hkept|done|done|done].
  - cbn [is_CrazySwarmError]. wp_go.
    pose proof (registers v (FleetPreparation.supervisor s) n) as Hreg.
    pose proof (fun HI => register_vehicle_safe v (FleetPreparation.supervisor s) n HI Hid) as Hsafe.
    unfold safe, wp in *. simpl in *.
    destruct (register_vehicle v (FleetPreparation.supervisor s) n) as [[o t'] n'].
    simpl in *. destruct Hreg as [Hold Hnew].
    assert (Hk : kept s (FleetPreparation.set_supervisor t'
                   (FleetPreparation.set_supervisor (FleetPreparation.supervisor s) s))).
    { apply (Hkept t'). intros HI. by destruct (Hsafe HI) as (? & ? & _). }
    destruct o as [[]|e]; simpl; split_and!; auto.
Qed.

(** Sequencing, with what the first part left. *)
Lemma kept_bind {A B} (m : M Prep A) (f : A -> M Prep B) (P : A -> Prep -> Prop) s n :
  good s ->
  wp m (fun o s' _ => kept s s' /\ forall a, o = Ret a -> good s' -> along s s' -> P a s') s n ->
  (forall a s' n', good s' -> along s s' -> P a s' -> wp (f a) (fun _ s'' _ => kept s' s'') s' n') ->
  wp (m ≫= f) (fun _ s' _ => kept s s') s n.
Proof.
  intros Hg Hm Hf. apply wp_bind. eapply wp_mono; [exact Hm|]. intros o s' n' [Hk HP].
  destruct (Hk Hg) as [Hg' Ha]. destruct o as [a|e]; [|done].
  eapply wp_mono; [apply (Hf a s' n'); auto|]. intros o s'' n'' Hk'. by etrans.
Qed.

Lemma kept_bind_any {A B} (m : M Prep A) (f : A -> M Prep B) s n :
  good s -> steps kept m ->
  (forall a s' n', good s' -> along s s' -> wp (f a) (fun _ s'' _ => kept s' s'') s' n') ->
  wp (m ≫= f) (fun _ s' _ => kept s s') s n.
Proof.
  intros Hg Hm Hf. apply (kept_bind m f (fun _ _ => True)); [done| |auto].
  eapply wp_mono; [apply Hm|]. auto.
Qed.

Lemma kept_set_record k r f s n :
  sound_change f -> lifecycle_ok (FleetPreparation._vehicles s) k r ->
  wp (set_record k (f r)) (fun _ s' _ => kept s s') s n.
Proof. intros Hf Hr. apply wp_set_record. by apply kept_record, Hf. Qed.

Lemma kept_write {B} k r f (g : unit -> M Prep B) s n :
  good s -> sound_change f -> lifecycle_ok (FleetPreparation._vehicles s) k r ->
  (forall s' n', good s' -> along s s' -> wp (g tt) (fun _ s'' _ => kept s' s'') s' n') ->
  wp (set_record k (f r) ≫= g) (fun _ s' _ => kept s s') s n.
Proof.
  intros Hg Hf Hr Hm. apply (kept_bind _ _ (fun _ _ => True)); [done| |intros []; auto].
  eapply wp_mono; [by apply kept_set_record|]. auto.
Qed.

Lemma sound_registration x :
  x <> RegistrationState.VERIFIED -> sound_change (FleetVehicleLifecycle.set_registration x).
Proof. intros Hx. sound. Qed.

Lemma identity_fault_raises {A} k e (Q : outcome A -> Prep -> nat -> Prop) s n :
  (forall e' s' n', kept s s' -> Q (Raise e') s' n') -> wp (identity_fault k e) Q s n.
Proof.
  intros HQ. assert (H : wp (identity_fault k e : M Prep A)
    (fun o s' _ => kept s s' /\ exists e', o = Raise e') s n).
  { apply wp_and; [apply identity_fault_kept|]. unfold identity_fault, set_status. wp_go.
    eapply wp_mono; [apply wp_true|]. intros [[]|e'] s' n' _; wp_go; by eexists. }
  eapply wp_mono; [exact H|]. intros o s' n' [Hk [e' ->]]. by apply HQ.
Qed.

(** What the checks of a discovered vehicle establish. *)
Lemma role_checked v k (Q : outcome unit -> Prep -> nat -> Prop) s n :
  (role (Vehicle.backend_profile v) =
     expected_role (BackendBindingProfile.backend (FleetPreparation.binding s)) -> Q (Ret tt) s n) ->
  (forall e s' n', kept s s' -> Q (Raise e) s' n') ->
  wp (try_except (validate_backend_role v) is_CrazySwarmError (identity_fault k)) Q s n.
Proof.
  intros H1 H2. unfold validate_backend_role. wp_go.
  - cbn [is_CrazySwarmError]. by apply identity_fault_raises.
  - apply H1. by bool_to_prop.
Qed.

Lemma discover_vehicle_kept v :
  is_identifier (vehicle_name v) = true -> steps kept (discover_vehicle v).
Proof.
  intros Hid s n.
  enough (H : good s -> wp (discover_vehicle v) (fun _ s' _ => kept s s') s n).
  { intros Hg. by apply H. }
  intros Hg. unfold discover_vehicle. cbv zeta. set (k := vehicle_name v) in *.
  wp_rule. wp_rule. cbv beta iota. wp_rule. wp_rule. cbv beta iota.
  destruct (Artifacts.binding _ _) as [selected|e] eqn:Hsel; [|done].
  apply wp_bind, wp_vehicle; [|done]. intros r0 Hr0.
  assert (Hl : lifecycle_ok (FleetPreparation._vehicles s) k r0) by by apply Hg.
  apply kept_write; [done|by apply sound_registration|done|]. intros s1 n1 Hg1 A1.
  apply kept_bind_any; [done|apply emit_kept|]. intros _ s2 n2 Hg2 A2.
  apply (kept_bind _ _ (fun _ _ => BackendVehicleBinding.expected_vehicle_id selected = k)); [done| |].
  { apply wp_if; intros E; [by apply identity_fault_raises|]. bool_to_prop. by apply wp_ret. }
  intros _ s3 n3 Hg3 A3 Hexp.
  assert (A03 : along s s3) by (etrans; [exact A1|]; by etrans).
  apply (kept_write k (FleetVehicleLifecycle.set_registration RegistrationState.DISCOVERED r0)
           (FleetVehicleLifecycle.set_registration RegistrationState.IDENTITY_BOUND));
    [done|by apply sound_registration| |].
  { apply (sound_registration RegistrationState.DISCOVERED); [done|]. by eapply lifecycle_along. }
  intros s4 n4 Hg4 A4. apply kept_bind_any; [done|apply emit_kept|]. intros _ s5 n5 Hg5 A5.
  apply (kept_bind _ _ (fun _ s => role (Vehicle.backend_profile v) =
           expected_role (BackendBindingProfile.backend (FleetPreparation.binding s)))); [done| |].
  { apply role_checked; [by auto|by auto]. }
  intros _ s6 n6 Hg6 A6 Hrole.
  apply kept_bind_any; [done| |].
  { intros s' n'. eapply wp_mono; [by apply registered_or_register_ok|]. by intros ? ? ? [? _]. }
  intros reg s7 n7 Hg7 A7. apply kept_bind_any; [done| |].
  { destruct reg; [|steps_go]. case_match; [|steps_go]. intros s' n'. by apply identity_fault_kept. }
  intros _ s8 n8 Hg8 A8.
  assert (A68 : along s6 s8) by by etrans.
  assert (A08 : along s s8) by (etrans; [exact A03|]; etrans; [exact A4|]; etrans; [exact A5|]; by etrans).
  apply (kept_bind _ _ (fun _ s => is_Some (dict_get k (FleetPreparation._vehicles s)))); [done| |].
  { apply wp_modify. split; [|intros; simpl; by rewrite dict_get_set_eq].
    apply kept_vehicle. destruct A68 as [_ [_ Eb _ _ _]], A08 as [_ [_ Eb0 _ _ _]].
    split_and!; [done|by rewrite Eb|]. exists selected. by rewrite Eb0. }
  intros _ s9 n9 Hg9 A9 Hin. apply wp_bind, wp_vehicle; [|done]. intros r1 Hr1.
  apply wp_bind, wp_set_record. eapply wp_mono; [apply emit_kept|]. intros o s' n' Hk.
  etrans; [|exact Hk]. apply kept_record.
  assert (Hl1 : lifecycle_ok (FleetPreparation._vehicles s9) k r1) by by apply Hg9.
  by destruct Hl1; split.
Qed.

Lemma discover_kept vs :
  Forall (fun v => is_identifier (vehicle_name v) = true) vs -> steps kept (discover vs).
Proof.
  intros Hvs. unfold discover. apply steps_bind; [apply _|steps_go|]. intros self. cbv zeta.
  destruct (_ || _); [steps_go|]. apply steps_bind; [apply _| |intros _; steps_go].
  apply steps_for_each_in; [apply _|]. intros v. rewrite py_sorted_perm. intros Hv.
  apply discover_vehicle_kept. by apply (proj1 (Forall_forall _ _) Hvs).
Qed.

Lemma initialize_backend_kept factory :
  (forall d b vs, build d b factory = Ret vs ->
     Forall (fun v => is_identifier (vehicle_name v) = true) vs) ->
  steps kept (initialize_backend factory).
Proof.
  intros Hf. unfold initialize_backend. do 3 (apply steps_bind; [apply _|steps_go|intros ?]).
  destruct (build _ _ _) as [vs|e] eqn:E; [|by intros s n].
  intros s n. apply wp_bind, wp_lift.
  apply (steps_bind kept); [by eapply discover_kept, Hf|]. intros _. steps_go.
Qed.
End discovery.

#[export] Hint Resolve discover_kept : steps.

(** ** Staleness, preflight, start *)

Section readiness.
Context `{CK : Clock} `{CN : !ClockNonneg} `{LM : Libm} `{DG : Digest}.

(** The record of a vehicle whose observation is stale. *)
Definition marked (r : FleetVehicleLifecycle.t) : FleetVehicleLifecycle.t :=
  FleetVehicleLifecycle.set_readiness_reason "TELEMETRY_STALE"
    (FleetVehicleLifecycle.set_observation ObservationState.STALE r).

Lemma marked_sound : sound_change marked.
Proof. sound. Qed.

Definition freshness (s : Prep) : float :=
  FleetConstraints.observation_freshness_s
    (DeploymentManifest.constraints (FleetPreparation.deployment s)).

(** The records after a pass over [items]. *)
Definition mark_records (now fresh : float) (items d : dict FleetVehicleLifecycle.t) :
    dict FleetVehicleLifecycle.t :=
  foldl (fun d item => if is_stale now fresh item.2 then dict_set item.1 (marked item.2) d else d)
    d items.

Lemma mark_records_cons now fresh item items d :
  mark_records now fresh (item :: items) d =
  mark_records now fresh items
    (if is_stale now fresh item.2 then dict_set item.1 (marked item.2) d else d).
Proof. done. Qed.

(** [s'] differs from [s] in the records, which are [d], and in the events. *)
Definition only_records (d : dict FleetVehicleLifecycle.t) (s s' : Prep) : Prop :=
  exists es, s' = FleetPreparation.set_events es (FleetPreparation.set_records d s).

Lemma emit_frame k t s n :
  wp (emit k t) (fun _ s' _ => only_records (FleetPreparation._records s) s s') s n.
Proof.
  unfold emit. apply wp_bind, wp_vehicle; [intros r Hr|intros e; exists (FleetPreparation._events s); by destruct s].
  unfold append_event. wp_go; [exists (FleetPreparation._events s); by destruct s|].
  eexists. by destruct s.
Qed.

Lemma mark_stale_run now item s n :
  good s -> lifecycle_ok (FleetPreparation._vehicles s) item.1 item.2 ->
  wp (mark_stale now item) (fun o s' _ =>
    good s' /\ along s s' /\ (o = Ret tt -> only_records
      (if is_stale now (freshness s) item.2
       then dict_set item.1 (marked item.2) (FleetPreparation._records s)
       else FleetPreparation._records s) s s')) s n.
Proof.
  intros Hg Hl. unfold mark_stale. wp_go; unfold freshness.
  - rewrite H. apply wp_set_record.
    set (s1 := FleetPreparation.set_records (dict_set item.1 (marked item.2)
      (FleetPreparation._records s)) s).
    assert (Hk1 : kept s s1) by by apply kept_record, marked_sound.
    destruct (Hk1 Hg) as [Hg1 A1].
    eapply wp_mono; [exact (wp_and _ _ _ _ _ (emit_kept item.1 _ s1 n) (emit_frame item.1 _ s1 n))|].
    intros o s' n' [Hk [es ->]]. destruct (Hk Hg1) as [Hg' A']. split_and!; [done|by etrans|].
    intros _. by exists es.
  - rewrite H. split_and!; [done..|]. intros _. exists (FleetPreparation._events s). by destruct s.
Qed.

Lemma mark_each_run now items s n :
  good s -> Forall (fun item => lifecycle_ok (FleetPreparation._vehicles s) item.1 item.2) items ->
  wp (for_each items (mark_stale now)) (fun o s' _ =>
    good s' /\ along s s' /\ (o = Ret tt ->
      only_records (mark_records now (freshness s) items (FleetPreparation._records s)) s s')) s n.
Proof.
  revert s n. induction items as [|item items IH]; intros s n Hg Hl; simpl.
  - split_and!; [done..|]. intros _. exists (FleetPreparation._events s). by destruct s.
  - apply Forall_cons in Hl as [Hx Hl]. apply wp_bind. eapply wp_mono; [by apply mark_stale_run|].
    intros [[]|e] s1 n1 (Hg1 & A1 & Hr1); [|by split_and!].
    eapply wp_mono.
    { apply IH; [done|]. eapply Forall_impl; [exact Hl|]. intros i. by apply lifecycle_along. }
    intros o s' n' (Hg' & A' & Hr'). split_and!; [done|by etrans|]. intros Ho.
    destruct Hr1 as [es1 ->]; [done|]. destruct (Hr' Ho) as [es ->]. exists es. done.
Qed.

(** Every record is the old one, marked if it was stale. *)
Lemma mark_records_get now fresh items d k r :
  NoDup items.*1 -> (k, r) ∈ items -> dict_get k d = Some r ->
  dict_get k (mark_records now fresh items d) = Some (if is_stale now fresh r then marked r else r).
Proof.
  revert d. induction items as [|[k0 r0] items IH]; intros d Hn Hin Hd; [set_solver|].
  rewrite mark_records_cons. simpl. apply NoDup_cons in Hn as [Hk0 Hn].
  apply elem_of_cons in Hin as [[= <- <-]|Hin].
  - assert (Hsame : forall items d, k ∉ items.*1 ->
      dict_get k (mark_records now fresh items d) = dict_get k d).
    { clear. induction items as [|[k1 r1] items IH]; intros d Hk; [done|].
      rewrite mark_records_cons. simpl. rewrite IH by set_solver. case_match; [|done]. apply dict_get_set_ne. set_solver. }
    rewrite Hsame by done. destruct (is_stale now fresh r); [by rewrite dict_get_set_eq|done].
  - apply IH; [done|done|]. destruct (is_stale now fresh r0); [|done].
    rewrite dict_get_set_ne; [done|]. intros ->. apply Hk0, list_elem_of_fmap. by exists (k0, r).
Qed.

(** A marked record is not stale any more. *)
Lemma marked_fresh now fresh r :
  FleetVehicleLifecycle.observation (if is_stale now fresh r then marked r else r) = ObservationState.CURRENT ->
  is_stale now fresh r = false.
Proof. by destruct (is_stale now fresh r). Qed.

Lemma records_forall s :
  good s ->
  Forall (fun item => lifecycle_ok (FleetPreparation._vehicles s) item.1 item.2)
    (FleetPreparation._records s).
Proof.
  intros [_ Hp]. apply Forall_forall. intros [k r] Hin. apply (po_lifecycle s Hp).
  apply dict_elem_get; [apply Hp|done].
Qed.

Lemma mark_stale_observations_kept now : steps kept (mark_stale_observations now).
Proof.
  intros s n. unfold mark_stale_observations.
  enough (H : forall t n, wp (self ← get; _ ← for_each (FleetPreparation._records self) (mark_stale t); record)
     (fun _ s' _ => kept s s') s n).
  { destruct now; apply wp_bind; [apply wp_ret|apply wp_read_clock]; apply H. }
  clear n. intros t n. wp_rule. wp_rule. cbv beta iota. apply wp_bind.
  assert (Hm : good s -> wp (for_each (FleetPreparation._records s) (mark_stale t))
                 (fun _ s' _ => good s' /\ along s s') s n).
  { intros Hg. eapply wp_mono; [apply mark_each_run; [done|by apply records_forall]|]. naive_solver. }
  unfold wp in *. destruct (for_each _ _ s n) as [[[[]|e] s1] n1]; simpl in *; [|done].
  intros Hg. destruct (Hm Hg) as [Hg1 A1].
  destruct (record_kept s1 n1 Hg1). split; [done|]. by etrans.
Qed.

Lemma require_ready_kept : steps kept require_ready.
Proof.
  unfold require_ready. apply steps_bind; [apply _|apply mark_stale_observations_kept|].
  intros _. steps_go.
Qed.

Lemma preflight_finished_kept reports failed : steps kept (preflight_finished reports failed).
Proof.
  intros s n. unfold preflight_finished, set_status. wp_go; [done|]. intros Hg.
  set (p := FleetPreflightReport.mk _ _ _ _ _) in *.
  enough (Hk : kept s (FleetPreparation.set_preflight (Some p) s)).
  { destruct (Hk Hg) as [Hg1 A1]. destruct (kept_status (if FleetPreflightReport.approved p
      then ExecutionSessionStatus.READY else ExecutionSessionStatus.FAULT) _ Hg1) as [Hg2 A2].
    split; [done|]. by etrans. }
  intros [HI [H1 H2 H3 H4 H5 H6 H7]]. split; split; try done. split; simpl; try done.
  intros p' [= <-] Ha id Hid. simpl in Ha. bool_to_prop. rewrite forallb_forall in H8.
  apply list_elem_of_In, H8 in Hid. bool_to_prop.
  apply list_elem_of_fmap in Hid as (r & -> & Hr). apply list_elem_of_filter in Hr as [? ?].
  by exists r.
Qed.
End readiness.

#[export] Hint Resolve mark_stale_observations_kept require_ready_kept preflight_finished_kept : steps.

(** ** Coroutines *)

Notation PKeeps := (keeps (req := request) good along).
Notation pok c s n := (cok (req := request) good along c (fun _ _ _ => True) s n) (only parsing).

Section coroutines.
Context `{CK : Clock} `{CN : !ClockNonneg} `{LM : Libm} `{DG : Digest}.
Context (error_text : exn -> string).

Lemma PKeeps_sync {A} (m : M Prep A) : steps kept m -> PKeeps (sync m).
Proof.
  intros Hm s n Hg. apply cok_sync. eapply wp_mono; [apply Hm|]. intros o s' n' Hk.
  destruct (Hk Hg). by split_and!.
Qed.

Lemma PKeeps_via {A} (c : coro A) : Ok c -> PKeeps (via_supervisor c).
Proof.
  intros Hc s n [HI HR]. unfold via_supervisor.
  eapply cok_mono; [apply _|apply cok_zoom; [apply _|done|..|done|by apply Hc]|done].
  - intros t s'. apply set_supervisor_ok.
  - intros t s'. apply set_supervisor_ext.
Qed.

(** A record that is read at the start may be written much later. *)
Lemma pok_read_record {B} k (f : FleetVehicleLifecycle.t -> prep B) s n :
  good s ->
  (forall r s' n', good s' -> lifecycle_ok (FleetPreparation._vehicles s') k r -> pok (f r) s' n') ->
  pok (sync (vehicle k) ≫= f) s n.
Proof.
  intros Hg Hf. apply (cok_sync_from _ _ _ _ (fun r s => lifecycle_ok (FleetPreparation._vehicles s) k r)).
  - apply wp_vehicle; [|intros e; by split_and!]. intros r Hr. split_and!; [done..|]. intros ? [= <-]. by apply Hg.
  - auto.
Qed.

(** Writing a record that was consistent when it was read. *)
Lemma pok_write {A} k r f (rest : M Prep A) s n :
  sound_change f -> steps kept rest -> good s ->
  lifecycle_ok (FleetPreparation._vehicles s) k r ->
  pok (sync (_ ← set_record k (f r); rest)) s n.
Proof.
  intros Hf Hm Hg Hr. apply cok_sync. eapply wp_mono; [by eapply write_kept|].
  intros o s' n' Hk. destruct (Hk Hg). by split_and!.
Qed.

Lemma observation_current_ok k t r s n :
  good s -> lifecycle_ok (FleetPreparation._vehicles s) k r ->
  pok (sync (observation_current k r t)) s n.
Proof.
  intros Hg Hr. apply cok_sync. unfold observation_current. wp_rule. wp_rule.
  eapply wp_mono.
  { apply (write_kept k r (fun r => FleetVehicleLifecycle.set_fault_reason None
      (FleetVehicleLifecycle.set_readiness_reason "STABILIZING_TELEMETRY"
        (FleetVehicleLifecycle.set_observed_at_monotonic_s (Some (monotonic n))
          (FleetVehicleLifecycle.set_latest_telemetry (Some t)
            (FleetVehicleLifecycle.set_observation ObservationState.CURRENT r))))));
      [|apply emit_kept|exact Hr].
    intros ? ? ? [? ? ? ?]. by split. }
  intros o s' n' Hk. destruct (Hk Hg). by split_and!.
Qed.

Lemma observation_failed_ok k e r s n :
  good s -> lifecycle_ok (FleetPreparation._vehicles s) k r ->
  pok (sync (observation_failed error_text k r e)) s n.
Proof.
  intros Hg Hr. unfold observation_failed.
  apply (pok_write k r (fun r => FleetVehicleLifecycle.set_fault_reason (Some (error_text e))
    (FleetVehicleLifecycle.set_readiness_reason "TELEMETRY_SOURCE_FAILED"
      (FleetVehicleLifecycle.set_observation ObservationState.STALE r)))); [sound|steps_go|done..].
Qed.

Lemma observe_vehicle_keeps k : PKeeps (observe_vehicle k).
Proof.
  unfold observe_vehicle. apply keeps_bind; [apply _|apply PKeeps_sync; steps_go|]. intros v.
  apply keeps_bind; [apply _|apply keeps_await; apply _|]. intros t.
  apply PKeeps_sync. apply steps_bind; [apply _|steps_go|]. intros _.
  apply steps_bind; [apply _| |intros _; steps_go].
  apply on_supervisor_kept, Safe_quiet. steps_go.
Qed.

Lemma refresh_vehicle_keeps k : PKeeps (refresh_vehicle error_text k).
Proof.
  intros s n Hg. unfold refresh_vehicle. apply pok_read_record; [done|]. intros r s1 n1 Hg1 Hr.
  destruct (_ ≠? _); [by apply cok_finish; [apply _|..]|].
  apply (cok_then_from _ _ _ _ (fun _ s => lifecycle_ok (FleetPreparation._vehicles s) k r)).
  - eapply cok_mono; [apply _|by apply observe_vehicle_keeps|]. intros o s2 n2 _ A _.
    by eapply lifecycle_along.
  - intros [t|e] s2 n2 Hg2 _ Hr2; [by apply observation_current_ok|].
    destruct (is_Exception e); [by apply observation_failed_ok|by apply cok_finish; [apply _|..]].
Qed.

Lemma refresh_observations_keeps : PKeeps (refresh_observations error_text).
Proof.
  unfold refresh_observations. apply keeps_bind; [apply _|apply PKeeps_sync; steps_go|]. intros self.
  apply keeps_bind; [apply _| |intros _; apply PKeeps_sync; steps_go].
  apply keeps_for_each; [apply _|]. intros k. apply refresh_vehicle_keeps.
Qed.

(** [PKeeps c] by the structure of [c]. *)
Ltac prep_go :=
  cbv zeta;
  repeat (first
    [ done
    | apply refresh_observations_keeps
    | lazymatch goal with
      | |- forall _, _ => intros ?
      | |- keeps _ _ (mret _) => apply keeps_finish; apply _
      | |- keeps _ _ (co_raise _) => apply keeps_finish; apply _
      | |- keeps _ _ (await _) => apply keeps_await; apply _
      | |- keeps _ _ (sync _) => apply PKeeps_sync; solve [steps_go]
      | |- keeps _ _ (via_supervisor _) => apply PKeeps_via; solve [eauto with coroutines]
      | |- keeps _ _ (mbind _ _) => apply keeps_bind; [apply _| |intros ?]
      | |- keeps _ _ (discard _) => apply keeps_bind; [apply _| |intros ?]
      | |- keeps _ _ (co_then _ _) => apply keeps_then; [apply _| |intros ?]
      | |- keeps _ _ (co_finally _ _) => apply keeps_finally; [apply _|..]
      | |- keeps _ _ (co_for_each _ _) => apply keeps_for_each; [apply _|intros ?]
      | |- keeps _ _ (match ?x with _ => _ end) => destruct x
      end ]).
#[local] Hint Resolve Ok_connect Ok_disconnect Ok_preflight Ok_release_control : coroutines.

Lemma start_observation_keeps : PKeeps (start_observation error_text).
Proof.
  unfold start_observation. prep_go. apply PKeeps_sync. steps_go. apply kept_observation.
Qed.

Lemma connect_each_keeps allow ids failures : PKeeps (connect_each error_text allow ids failures).
Proof.
  revert failures. induction ids as [|k ids IH]; intros failures; cbn [connect_each];
    prep_go; apply IH.
Qed.

Lemma connect_all_keeps allow : PKeeps (connect_all error_text allow).
Proof. unfold connect_all. prep_go. apply connect_each_keeps. Qed.

Lemma stabilize_keeps q attempts m : PKeeps (stabilize error_text q attempts m).
Proof. revert m. induction attempts as [|k IH]; intros m; cbn [stabilize]; prep_go. Qed.

Lemma stabilize_observations_keeps q m : PKeeps (stabilize_observations error_text q m).
Proof. unfold stabilize_observations. prep_go. apply stabilize_keeps. Qed.

Lemma preflight_vehicle_keeps o m r b s n :
  good s -> lifecycle_ok (FleetPreparation._vehicles s) (FleetMemberDefinition.vehicle_id m) r ->
  pok (preflight_vehicle o m r b) s n.
Proof.
  intros Hg Hr. unfold preflight_vehicle, co_finally. cbv zeta.
  apply (cok_then_from _ _ _ _ (fun _ _ => True)).
  2: { intros o' s1 n1 Hg1 _ _. revert s1 n1 Hg1.
       match goal with |- forall s n, good s -> cok _ _ ?c _ s n => change (PKeeps c) end. prep_go;
       apply keeps_finish; apply _. }
  apply (cok_then_from _ _ _ _ (fun _ s => lifecycle_ok (FleetPreparation._vehicles s)
           (FleetMemberDefinition.vehicle_id m) r)).
  { eapply cok_mono; [apply _|by apply PKeeps_via; [apply Ok_preflight|]|]. intros. by eapply lifecycle_along. }
  intros [rep|e] s1 n1 Hg1 _ Hr1; [|by apply cok_finish; [apply _|..]].
  apply (cok_then_from _ _ _ _ (fun _ _ => True)).
  - apply (pok_write _ r (fun r => FleetVehicleLifecycle.set_readiness_reason _
      (FleetVehicleLifecycle.set_preflight_approved _ r))); [sound|steps_go|done..].
  - intros [?|?] s2 n2 Hg2 _ _; by apply cok_finish; [apply _|..].
Qed.

Lemma preflight_each_keeps o b ms reports failed :
  PKeeps (preflight_each o b ms reports failed).
Proof.
  revert reports failed. induction ms as [|m ms IH]; intros reports failed; cbn [preflight_each];
    [prep_go|].
  intros s n Hg. apply pok_read_record; [done|]. intros r s1 n1 Hg1 Hr.
  destruct (negb (prepared r)); [by apply IH|].
  apply (cok_sync_from _ _ _ _ (fun _ s => lifecycle_ok (FleetPreparation._vehicles s)
           (FleetMemberDefinition.vehicle_id m) r)).
  { eapply wp_mono; [apply on_supervisor_kept, Safe_claim_control|]. intros o' s2 n2 Hk.
    destruct (Hk Hg1). split_and!; [done..|]. intros _ _. by eapply lifecycle_along. }
  intros _ s2 n2 Hg2 _ Hr2. apply (cok_then_from _ _ _ _ (fun _ _ => True)).
  - by apply preflight_vehicle_keeps.
  - intros [rep|e] s3 n3 Hg3 _ _; [by apply IH|by apply cok_finish; [apply _|..]].
Qed.

Lemma run_preflight_keeps b : PKeeps (run_preflight b).
Proof. unfold run_preflight. prep_go. apply preflight_each_keeps. Qed.

Lemma session_state_kept k :
  steps kept (on_supervisor (a ← session k; x ← deref a; mret (VehicleSession.state x))).
Proof. apply on_supervisor_kept, Safe_quiet. steps_go. Qed.
#[local] Hint Resolve session_state_kept : steps.

Lemma disconnect_all_safe_keeps : PKeeps disconnect_all_safe.
Proof. unfold disconnect_all_safe, disconnect_vehicle. prep_go. Qed.

Lemma retry_vehicle_keeps k : PKeeps (retry_vehicle error_text k).
Proof.
  intros s n Hg. unfold retry_vehicle.
  apply (cok_sync_from _ _ _ _ (fun p s => lifecycle_ok (FleetPreparation._vehicles s) k p.1)).
  { apply wp_bind, wp_vehicle; [|intros e; by split_and!]. intros r Hr.
    eapply wp_mono.
    { apply (wp_and _ (fun _ s' _ => kept s s') (fun o _ _ => forall p, o = Ret p -> p.1 = r)).
      - match goal with |- wp ?m _ ?s ?n => refine ((_ : steps kept m) s n) end. steps_go.
      - unfold on_supervisor. wp_go; try done. by intros p [= <-]. }
    intros o s' n' [Hk Hp]. destruct (Hk Hg) as [Hg' A]. split_and!; [done..|].
    intros p ->. rewrite (Hp p); [|done]. eapply lifecycle_along; [done|]. by apply Hg. }
  intros [r state] s1 n1 Hg1 _ Hr1. apply (cok_then_from _ _ _ _
    (fun _ s => lifecycle_ok (FleetPreparation._vehicles s) k r)).
  { assert (Hd : PKeeps (if state ≟ VehicleState.FAULT then via_supervisor (disconnect k None) else mret tt)) by prep_go.
    eapply cok_mono; [apply _|by apply Hd|]. intros. by eapply lifecycle_along. }
  intros [[]|e] s2 n2 Hg2 _ Hr2; [|by apply cok_finish; [apply _|..]].
  apply (cok_then_from _ _ _ _ (fun _ _ => True)).
  - apply (pok_write k r (fun r => FleetVehicleLifecycle.set_fault_reason None
      (FleetVehicleLifecycle.set_readiness_reason "WAITING_FOR_CONNECTION"
        (FleetVehicleLifecycle.set_readiness_samples 0
          (FleetVehicleLifecycle.set_preflight_approved false
            (FleetVehicleLifecycle.set_observation ObservationState.NOT_OBSERVED
              (FleetVehicleLifecycle.set_connection ConnectionState.CONNECTING r)))))));
      [sound|steps_go|done..].
  - intros o s3 n3 Hg3 _ _. revert s3 n3 Hg3.
    match goal with |- forall s n, good s -> cok _ _ ?c _ s n => change (PKeeps c) end. prep_go.
Qed.
End coroutines.

(** ** What a discovery binds *)

Section identities.
Context `{CK : Clock} `{CN : !ClockNonneg} `{LM : Libm} `{DG : Digest}.

(** What an operation on other vehicles leaves of this one. *)
Definition elsewhere (k : string) (s s' : Prep) : Prop :=
  dict_get k (FleetPreparation._records s') = dict_get k (FleetPreparation._records s) /\
  dict_get k (FleetPreparation._vehicles s') = dict_get k (FleetPreparation._vehicles s) /\
  forall w, has_session (FleetPreparation.supervisor s) k w ->
            has_session (FleetPreparation.supervisor s') k w.

#[export] Instance elsewhere_preorder k : PreOrder (elsewhere k).
Proof.
  split; [by intros s|]. intros s1 s2 s3 (H1 & H2 & H3) (H4 & H5 & H6).
  split_and!; [congruence..|]. auto.
Qed.

Lemma emit_elsewhere k j t : steps (elsewhere k) (emit j t).
Proof. intros s n. eapply wp_mono; [apply emit_frame|]. by intros o s' n' [es ->]. Qed.

Lemma set_record_elsewhere k j r : j <> k -> steps (elsewhere k) (set_record j r).
Proof. intros Hj s n. apply wp_set_record. split_and!; [by apply dict_get_set_ne|done|done]. Qed.

Lemma set_status_elsewhere k x : steps (elsewhere k) (set_status x).
Proof. by intros s n. Qed.

Lemma vehicle_elsewhere k j : steps (elsewhere k) (vehicle j).
Proof. unfold vehicle. steps_go. Qed.

Lemma register_elsewhere k v :
  is_identifier (vehicle_name v) = true -> steps (elsewhere k) (registered_or_register v).
Proof.
  intros Hid s n. eapply wp_mono; [by apply registered_or_register_ok|].
  intros o s' n' (_ & Hs & Hk & _). rewrite Hs. split_and!; [done|done|]. intros w Hw. by apply Hk.
Qed.

#[local] Hint Resolve emit_elsewhere set_record_elsewhere set_status_elsewhere vehicle_elsewhere
  register_elsewhere : steps.

Lemma identity_fault_elsewhere {A} k j e : steps (elsewhere k) (identity_fault j e : M Prep A).
Proof. unfold identity_fault. steps_go. Qed.
#[local] Hint Resolve identity_fault_elsewhere : steps.

Lemma discover_vehicle_elsewhere k v :
  vehicle_name v <> k -> is_identifier (vehicle_name v) = true ->
  steps (elsewhere k) (discover_vehicle v).
Proof.
  intros Hk Hid. unfold discover_vehicle, validate_backend_role. cbv zeta.
  assert (Hrole : steps (elsewhere k) (try_except (validate_backend_role v) is_CrazySwarmError
    (identity_fault (vehicle_name v)))).
  { intros s n. unfold validate_backend_role. wp_go; [|by split_and!]. apply identity_fault_elsewhere. }
  unfold validate_backend_role in Hrole. steps_go.
  split_and!; [done|by apply dict_get_set_ne|done].
Qed.

(** The vehicle is verified and is the one bound here and registered there. *)
Definition bound_as (s : Prep) (v : Vehicle.t) : Prop :=
  (exists r, dict_get (vehicle_name v) (FleetPreparation._records s) = Some r /\
     FleetVehicleLifecycle.registration r = RegistrationState.VERIFIED) /\
  dict_get (vehicle_name v) (FleetPreparation._vehicles s) = Some v /\
  exists w, has_session (FleetPreparation.supervisor s) (vehicle_name v) w /\
    Vehicle.address w = Vehicle.address v.

Lemma bound_elsewhere v s s' : elsewhere (vehicle_name v) s s' -> bound_as s v -> bound_as s' v.
Proof.
  intros (Hr & Hv & Hs) (H1 & H2 & w & Hw & Ha). split_and!; [by rewrite Hr|congruence|].
  exists w. auto.
Qed.

(** A statement whose outcome does not matter for what follows. *)
Lemma wp_skip {A B} (m : M Prep A) (f : A -> M Prep B) (P : Prep -> Prop) s n :
  (forall a s n, wp (f a) (fun o s' _ => forall b, o = Ret b -> P s') s n) ->
  wp (m ≫= f) (fun o s' _ => forall b, o = Ret b -> P s') s n.
Proof. intros Hf. apply wp_bind. eapply wp_mono; [apply wp_true|]. intros [a|e] s' n' _; [apply Hf|done]. Qed.

Lemma discover_vehicle_binds v s n :
  is_identifier (vehicle_name v) = true ->
  wp (discover_vehicle v) (fun o s' _ => forall x, o = Ret x -> bound_as s' v) s n.
Proof.
  intros Hid. unfold discover_vehicle. cbv zeta. do 9 (apply wp_skip; intros ? ? ?).
  apply wp_bind. eapply wp_mono; [by apply registered_or_register_ok|].
  intros [reg|e] t1 m1 (_ & _ & _ & Hreg); [|done].
  assert (Hs : wp match reg with
      | Some other => if negb (Vehicle.address other =? Vehicle.address v)%nat
          then identity_fault (vehicle_name v) (CrazySwarmError IDENTITY_MISMATCH
                 "a different adapter already owns the logical vehicle identity")
          else mret tt
      | None => mret tt end
    (fun o s' _ => forall x, o = Ret x -> exists w,
       has_session (FleetPreparation.supervisor s') (vehicle_name v) w /\
       Vehicle.address w = Vehicle.address v) t1 m1).
  { destruct reg as [w|]; [|apply wp_ret; by exists v]. apply wp_if; intros E.
    - by apply identity_fault_raises.
    - apply wp_ret. intros _ _. exists w. split; [done|]. apply negb_false_iff in E. by apply Nat.eqb_eq. }
  apply wp_bind. eapply wp_mono; [exact Hs|]. intros [u|e] t2 m2 Hw; [|done].
  destruct (Hw u eq_refl) as (w & Hw1 & Hw2). apply wp_bind, wp_modify. apply wp_bind, wp_vehicle; [|done].
  intros r Hr. apply wp_bind, wp_set_record. eapply wp_mono; [apply emit_frame|].
  intros o s' n' [es ->] x _. split_and!; simpl.
  - eexists. by rewrite dict_get_set_eq.
  - by rewrite dict_get_set_eq.
  - by exists w.
Qed.

Lemma discover_each_binds vs s n :
  Forall (fun v => is_identifier (vehicle_name v) = true) vs -> NoDup (vehicle_name <$> vs) ->
  wp (for_each vs discover_vehicle) (fun o s' _ => forall x, o = Ret x ->
    forall v, v ∈ vs -> bound_as s' v) s n.
Proof.
  intros Hvs Hnd. revert s n. induction Hvs as [|v vs Hid Hvs IH]; intros s n; simpl.
  { intros x _ v Hv. by apply elem_of_nil in Hv. }
  apply NoDup_cons in Hnd as [Hv Hnd].
  apply wp_bind. eapply wp_mono; [by apply discover_vehicle_binds|].
  intros [u|e] s3 n3 Hb; [|done]. specialize (Hb u eq_refl).
  assert (Hrest : wp (for_each vs discover_vehicle) (fun _ s' _ => elsewhere (vehicle_name v) s3 s') s3 n3).
  { match goal with |- wp ?m _ ?s ?n => refine ((_ : steps (elsewhere (vehicle_name v)) m) s n) end.
    apply (steps_for_each_in); [apply _|]. intros w Hw. apply discover_vehicle_elsewhere.
    - intros E. apply Hv. rewrite <- E. by apply list_elem_of_fmap_2.
    - by apply (proj1 (Forall_forall _ _) Hvs). }
  eapply wp_mono; [exact (wp_and _ _ _ _ _ (IH Hnd s3 n3) Hrest)|].
  intros o s2 n2 [H1 H2] x Hx w [->|Hw]%elem_of_cons; [by eapply bound_elsewhere|by eapply H1].
Qed.

(** The discovered vehicles are those that were declared. *)
Definition fleet_matches (s : Prep) (vs : list Vehicle.t) : Prop :=
  NoDup (vehicle_name <$> vs) /\
  (forall id, id ∈ vehicle_name <$> vs -> id ∈ dict_keys (FleetPreparation._records s)) /\
  (forall id, id ∈ required_vehicle_ids (FleetPreparation.deployment s) -> id ∈ vehicle_name <$> vs).

Lemma py_sorted_empty (ltb : string -> string -> bool) l : py_sorted ltb l = [] <-> l = [].
Proof.
  split; [|by intros ->]. intros E. apply Permutation_nil_r. rewrite <- E. symmetry. apply py_sorted_perm.
Qed.

Lemma sorted_set_empty l : sorted_set l = [] <-> forall x, x ∉ l.
Proof.
  unfold sorted_set. rewrite py_sorted_empty. split.
  - intros E x. rewrite <- elem_of_remove_dups, E. apply not_elem_of_nil.
  - intros E. destruct (remove_dups l) as [|y l'] eqn:F; [done|]. exfalso. apply (E y).
    rewrite <- elem_of_remove_dups, F. left.
Qed.

Lemma sorted_missing (k l : list string) :
  sorted_set (filter (fun id => id ∉ k) l) = [] <-> forall x, x ∈ l -> x ∈ k.
Proof.
  rewrite sorted_set_empty. setoid_rewrite list_elem_of_filter. split; intros H x; [|naive_solver].
  intros Hx. destruct (decide (x ∈ k)); naive_solver.
Qed.

Lemma repeated_empty (l : list string) :
  py_sorted str_ltb (filter (fun id => (1 < count_if (String.eqb id) l)%Z) (remove_dups l)) = []
  <-> NoDup l.
Proof.
  rewrite py_sorted_empty, filter_empty, <- count_no_repetition. setoid_rewrite elem_of_remove_dups.
  split; intros H x Hx; specialize (H x Hx); lia.
Qed.

(** Events change the log alone, and only an invalid one raises. *)
Definition logged_from (s : Prep) : outcome unit -> Prep -> nat -> Prop :=
  wp_ok (fun _ s' _ => only_records (FleetPreparation._records s) s s')
    (fun e s' _ => only_records (FleetPreparation._records s) s s' /\
                   e = ValidationError "PreparationEvent").

Lemma append_event_logs id t rg c ro o s n : wp (append_event id t rg c ro o) (logged_from s) s n.
Proof.
  unfold append_event. wp_go; unfold only_records, wp_ok, logged_from.
  - split; [|done]. exists (FleetPreparation._events s). by destruct s.
  - eexists. by destruct s.
Qed.

Lemma emit_logs k t s n :
  is_Some (dict_get k (FleetPreparation._records s)) -> wp (emit k t) (logged_from s) s n.
Proof.
  intros [r Hr]. unfold emit, vehicle. wp_rule. wp_rule. wp_rule. rewrite Hr. wp_rule. cbv beta iota.
  apply append_event_logs.
Qed.

Lemma logs_each ids (body : string -> M Prep unit) s n :
  (forall k s1 n, k ∈ ids -> FleetPreparation._records s1 = FleetPreparation._records s ->
     wp (body k) (logged_from s1) s1 n) ->
  wp (for_each ids body) (logged_from s) s n.
Proof.
  intros Hb. apply (wp_for_each (fun s' _ => only_records (FleetPreparation._records s) s s')).
  { exists (FleetPreparation._events s). by destruct s. }
  intros k s1 n1 Hk [es ->]. eapply wp_mono; [by apply Hb|].
  intros [[]|e] s2 n2; [intros [es2 ->]|intros [[es2 ->] ->]]; simpl; [|split; [|done]]; by eexists.
Qed.

Lemma record_frame s n : wp record (fun _ s' _ => s' = s) s n.
Proof.
  unfold record. wp_rule. wp_rule. cbv beta iota. wp_rule. wp_rule.
  destruct (mapM _ _); [|done]. cbv beta iota zeta. wp_go; done.
Qed.

End identities.

(** ** Interleavings of a preparation with the clients of its supervisor *)

Section interleaving.
Context `{CK : Clock} `{CN : !ClockNonneg} `{LM : Libm} `{DG : Digest}.
Context (error_text : exn -> string).

Definition valid_vehicles (vs : list Vehicle.t) : Prop :=
  Forall (fun v => is_identifier (vehicle_name v) = true) vs.

(** The public methods, with any arguments, and whatever else uses the supervisor;
    identities were validated when they were constructed. *)
Inductive prep_api : prep unit -> Prop :=
| prep_initialize factory :
    (forall d b vs, build d b factory = Ret vs -> valid_vehicles vs) ->
    prep_api (discard (sync (initialize_backend factory)))
| prep_discover vs : valid_vehicles vs -> prep_api (discard (sync (discover vs)))
| prep_connect allow : prep_api (discard (connect_all error_text allow))
| prep_start_observation : prep_api (discard (start_observation error_text))
| prep_refresh : prep_api (discard (refresh_observations error_text))
| prep_stabilize q m : prep_api (discard (stabilize_observations error_text q m))
| prep_mark_stale now : prep_api (discard (sync (mark_stale_observations now)))
| prep_preflight b : prep_api (discard (run_preflight b))
| prep_require_ready : prep_api (sync require_ready)
| prep_retry k : prep_api (discard (retry_vehicle error_text k))
| prep_disconnect : prep_api (discard disconnect_all_safe)
| prep_client c : api c -> prep_api (via_supervisor c).

(** A new preparation for a supervisor with a past. *)
Definition prep_initial (s : Prep) : Prop :=
  exists session_id deployment binding s0 n n' sys,
    supervised sys /\ FleetPreparation.supervisor s0 = shared sys /\
    FleetPreparation_init session_id deployment binding s0 n = (Ret tt, s, n').

Definition prep_environment (s s' : Prep) : Prop :=
  exists t, environment (FleetPreparation.supervisor s) t /\
    s' = FleetPreparation.set_supervisor t s.

Notation preparing := (reachable prep_initial prep_api prep_environment).

Lemma prep_initial_good s : prep_initial s -> good s.
Proof.
  intros (sid & d & b & s0 & n & n' & sys & Hsys%supervised_invariant & Hs0 & Hinit).
  rewrite <- Hs0 in Hsys.
  enough (H : wp (FleetPreparation_init sid d b) (fun o s _ => o = Ret tt -> good s) s0 n).
  { unfold wp in H. rewrite Hinit in H. by apply H. }
  unfold FleetPreparation_init. wp_rule. wp_rule. destruct (validate_for b d) as [[]|e]; [|done].
  cbv beta iota. wp_go; [done|].
  set (s1 := FleetPreparation.mk _ _ _ _ _ _ _ _ _ _ _).
  assert (Hg : good s1).
  { split; [done|]. split; simpl; try done.
    - apply dict_of_wf.
    - intros k r (m & Hm & <- & <-)%dict_of_values. by split.
    - intros id (m & -> & [_ Hm]%list_elem_of_filter)%list_elem_of_fmap.
      apply (dict_of_get FleetMemberDefinition.vehicle_id _ _ _ Hm). }
  eapply wp_mono.
  { match goal with |- wp ?m _ ?s ?n => refine ((_ : steps kept m) s n) end.
    apply steps_for_each; [apply _|]. intros k. apply emit_kept. }
  intros o s' n2 Hk _. by apply Hk.
Qed.

Lemma prep_api_keeps c : prep_api c -> PKeeps c.
Proof.
  assert (Hd : forall A (c : prep A), PKeeps c -> PKeeps (discard c)).
  { intros A c' Hc. apply keeps_bind; [apply _|done|]. intros _. apply keeps_finish. apply _. }
  destruct 1; try apply Hd.
  - by apply PKeeps_sync, initialize_backend_kept.
  - by apply PKeeps_sync, discover_kept.
  - apply connect_all_keeps.
  - apply start_observation_keeps.
  - apply refresh_observations_keeps.
  - apply stabilize_observations_keeps.
  - apply PKeeps_sync, mark_stale_observations_kept.
  - apply run_preflight_keeps.
  - apply PKeeps_sync, require_ready_kept.
  - apply retry_vehicle_keeps.
  - apply disconnect_all_safe_keeps.
  - by apply PKeeps_via, Ok_api.
Qed.

Lemma preparing_good sys : preparing sys -> good (shared sys).
Proof.
  intros Hr. eapply (reachable_invariant good along) in Hr; [by destruct Hr|..].
  - apply prep_initial_good.
  - intros c s n Hc Hg. by apply prep_api_keeps.
  - intros s s' (t & Hq%environment_quiet & ->) [HI HR]. split; split.
    + by eapply quiet_invariant.
    + by apply set_supervisor_ok.
    + by apply quiet_ext.
    + apply set_supervisor_ext.
Qed.

(** Preparing a fleet is safe. Whatever the operations of a preparation and of
    the other clients of its supervisor do meanwhile, the state of every vehicle is
    the one its log of allowed transitions leads to, and no command was sent
    outside the state it belongs to or under an identity that was used before. *)
Theorem preparation_keeps_supervisor_safe sys :
  preparing sys ->
  log_ok (SafetySupervisor.events (FleetPreparation.supervisor (shared sys))) /\
  NoDup (sent_ids (SafetySupervisor.events (FleetPreparation.supervisor (shared sys)))) /\
  forall v a, dict_get v (SafetySupervisor.sessions (FleetPreparation.supervisor (shared sys))) = Some a ->
    refers a v (FleetPreparation.supervisor (shared sys)) /\
    state_at a (FleetPreparation.supervisor (shared sys)) =
      Some (log_state v (SafetySupervisor.events (FleetPreparation.supervisor (shared sys)))).
Proof. intros [HI _]%preparing_good. split_and!; [apply HI|apply HI|apply (inv_sessions _ HI)]. Qed.

(** The events of a preparation are numbered from one without gaps and carry
    its session and the digests of its deployment and binding. *)
Theorem preparation_events_are_numbered sys :
  preparing sys ->
  PreparationEvent.sequence <$> FleetPreparation._events (shared sys) =
    seqZ 1 (Z.of_nat (length (FleetPreparation._events (shared sys)))) /\
  Forall (event_fits (shared sys)) (FleetPreparation._events (shared sys)).
Proof. intros [_ HR]%preparing_good. split; apply HR. Qed.

(** What a start may rely on for a required vehicle. *)
Definition ready_to_start (s : Prep) (now : float) (id : string) : Prop :=
  (exists r observed_at, dict_get id (FleetPreparation._records s) = Some r /\
     FleetVehicleLifecycle.registration r = RegistrationState.VERIFIED /\
     FleetVehicleLifecycle.connection r = ConnectionState.READY /\
     FleetVehicleLifecycle.observation r = ObservationState.CURRENT /\
     FleetVehicleLifecycle.preflight_approved r = true /\
     is_Some (FleetVehicleLifecycle.latest_telemetry r) /\
     FleetVehicleLifecycle.observed_at_monotonic_s r = Some observed_at /\
     fltb (freshness s) (fsub now observed_at) = false) /\
  (exists v, dict_get id (FleetPreparation._vehicles s) = Some v /\ vehicle_ok s id v) /\
  (exists p r, FleetPreparation._preflight s = Some p /\ r ∈ FleetPreflightReport.reports p /\
     PreflightReport.vehicle_id r = id /\ PreflightReport.approved r = true).

(** What a completed pass over the records left. *)
Lemma marked_records s n s' n' r0 :
  good s -> mark_stale_observations None s n = (Ret r0, s', n') ->
  good s' /\ along s s' /\ FleetPreparation._preflight s' = FleetPreparation._preflight s /\
  forall k r, dict_get k (FleetPreparation._records s') = Some r ->
    exists r1, dict_get k (FleetPreparation._records s) = Some r1 /\
      r = (if is_stale (monotonic n) (freshness s) r1 then marked r1 else r1).
Proof.
  intros Hg E.
  enough (H : wp (mark_stale_observations None) (fun o s' _ => forall r0, o = Ret r0 ->
    good s' /\ along s s' /\ FleetPreparation._preflight s' = FleetPreparation._preflight s /\
    forall k r, dict_get k (FleetPreparation._records s') = Some r ->
    exists r1, dict_get k (FleetPreparation._records s) = Some r1 /\
      r = (if is_stale (monotonic n) (freshness s) r1 then marked r1 else r1)) s n).
  { unfold wp in H. rewrite E in H. by eapply H. }
  unfold mark_stale_observations. wp_rule. wp_rule. cbv beta iota. wp_rule. wp_rule. cbv beta iota.
  apply wp_bind. eapply wp_mono; [apply mark_each_run; [done|by apply records_forall]|].
  intros [[]|e] s1 n1 (Hg1 & A1 & Hr); [|done]. destruct Hr as [es ->]; [done|].
  eapply wp_mono; [apply record_frame|]. intros o s2 n2 -> r _.
  split_and!; [done|done|done|]. simpl. intros k r' Hk.
  destruct (dict_get k (FleetPreparation._records s)) as [r1|] eqn:E1.
  - pose proof (mark_records_get (monotonic n) (freshness s) (FleetPreparation._records s)
      (FleetPreparation._records s) k r1) as Hm.
    rewrite Hm in Hk; [|apply Hg|by apply dict_get_elem|done]. exists r1. by simplify_eq.
  - exfalso. revert Hk. apply dict_get_None in E1. clear -E1.
    enough (H : forall items d, k ∉ dict_keys items -> dict_get k d = None ->
      dict_get k (mark_records (monotonic n) (freshness s) items d) <> Some r').
    { apply H; [done|by apply dict_get_None]. }
    induction items as [|[k1 r1] items IH]; intros d Hk Hd; [unfold mark_records; simpl; by rewrite Hd|].
    rewrite mark_records_cons. simpl in *. apply not_elem_of_cons in Hk as [Hk1 Hk].
    apply IH; [done|]. case_match; [|done]. by rewrite dict_get_set_ne.
Qed.

(** C18: a start is granted only to a fleet that is ready. In every reachable state,
    [require_ready] returns only if each required vehicle is verified, connected,
    observed within the freshness of the deployment, approved by its preflight,
    bound to an adapter of the role of the backend under the identity of its
    binding, and covered by an approved report of the fleet preflight. *)
Theorem start_needs_ready_fleet sys n s' n' :
  preparing sys -> require_ready (shared sys) n = (Ret tt, s', n') ->
  forall id, id ∈ required_vehicle_ids (FleetPreparation.deployment (shared sys)) ->
  ready_to_start s' (monotonic n) id.
Proof.
  intros Hg%preparing_good E id Hid. unfold require_ready, mbind, M_bind, get in E.
  destruct (mark_stale_observations None (shared sys) n) as [[[r0|e] s1] n1] eqn:E1; [|done].
  destruct (marked_records _ _ _ _ _ Hg E1) as ([HI1 HR1] & [_ A1] & Hp & Hrec).
  unfold raise_if in E. destruct (_ || _) eqn:Ec; [done|]. injection E as <- <-. bool_to_prop.
  rewrite <- (pe_deployment _ _ A1) in Hid. rename H into Hpf, H0 into Hun.
  destruct (po_required s1 HR1 id Hid) as [r Hr].
  pose proof (po_lifecycle s1 HR1 id r Hr) as [Hname Hver Hcon Hobs].
  assert (Hready : prepared r && FleetVehicleLifecycle.preflight_approved r = true).
  { destruct (prepared r && FleetVehicleLifecycle.preflight_approved r) eqn:F; [done|].
    enough (Hin : r ∈ filter (fun l => (FleetVehicleLifecycle.vehicle_id l
        ∈? required_vehicle_ids (FleetPreparation.deployment s1)) && (negb (prepared l)
        || negb (FleetVehicleLifecycle.preflight_approved l)) = true)
        (dict_values (FleetPreparation._records s1))).
    { destruct (filter _ _); [set_solver|done]. }
    apply list_elem_of_filter. split; [|by eapply dict_get_values].
    rewrite Hname, bool_decide_true by done. simpl. by destruct (prepared r); simpl in *; [rewrite F|]. }
  unfold prepared in Hready. bool_to_prop.
  destruct (Hobs H1) as [Htel [o Ho]]. destruct (Hver H) as [v Hv].
  split_and!.
  - exists r, o. split_and!; try done. destruct (Hrec id r Hr) as (r1 & _ & Hr1).
    assert (Hst : is_stale (monotonic n) (freshness (shared sys)) r1 = false).
    { apply marked_fresh. by rewrite <- Hr1. }
    rewrite Hst in Hr1. subst r1. unfold is_stale in Hst.
    rewrite Ho, H1, bool_decide_true in Hst by done. simpl in Hst.
    unfold freshness in *. by rewrite (pe_deployment _ _ A1).
  - exists v. split; [done|]. by apply (po_vehicles s1 HR1).
  - destruct (FleetPreparation._preflight s1) as [p|] eqn:Ep; [|done]. bool_to_prop.
    destruct (po_preflight s1 HR1 p Ep Hpf id Hid) as (rep & ? & ? & ?). by exists p, rep.
Qed.
(** C19: a discovery binds the declared fleet or nothing. If the discovered vehicles
    repeat an identity, have one that was not declared or lack a required one, it
    raises and leaves the records, the vehicles and the supervisor as they were;
    if it returns, each of them is verified, has the role of the backend and the
    identity of its binding, and is the adapter the supervisor drives under it. *)
Theorem discovery_binds_declared_fleet sys vs n o s' n' :
  preparing sys -> valid_vehicles vs ->
  discover vs (shared sys) n = (o, s', n') ->
  (~ fleet_matches (shared sys) vs ->
     FleetPreparation._records s' = FleetPreparation._records (shared sys) /\
     FleetPreparation._vehicles s' = FleetPreparation._vehicles (shared sys) /\
     FleetPreparation.supervisor s' = FleetPreparation.supervisor (shared sys) /\
     (o = Raise (ValidationError "PreparationEvent") \/
      o = Raise (CrazySwarmError IDENTITY_MISMATCH
                   "discovered fleet does not match declared identities") /\
      FleetPreparation._status s' = ExecutionSessionStatus.FAULT)) /\
  (forall r, o = Ret r -> fleet_matches (shared sys) vs /\
     forall v, v ∈ vs -> bound_as s' v /\ vehicle_ok s' (vehicle_name v) v).
Proof.
  intros Hg%preparing_good Hvs Hd. set (s := shared sys) in *.
  assert (Hkept : kept s s').
  { pose proof (discover_kept vs Hvs s n) as H. unfold wp in H. by rewrite Hd in H. }
  enough (H : wp (discover vs) (fun o s' _ =>
    (~ fleet_matches s vs ->
     FleetPreparation._records s' = FleetPreparation._records s /\
     FleetPreparation._vehicles s' = FleetPreparation._vehicles s /\
     FleetPreparation.supervisor s' = FleetPreparation.supervisor s /\
     (o = Raise (ValidationError "PreparationEvent") \/
      o = Raise (CrazySwarmError IDENTITY_MISMATCH
                   "discovered fleet does not match declared identities") /\
      FleetPreparation._status s' = ExecutionSessionStatus.FAULT)) /\
    (forall r, o = Ret r -> fleet_matches s vs /\ forall v, v ∈ vs -> bound_as s' v)) s n).
  { unfold wp in H. rewrite Hd in H. destruct H as [H1 H2]. split; [done|].
    intros r Hr. destruct (H2 r Hr) as [Hm Hb]. split; [done|]. intros v Hv. split; [by apply Hb|].
    destruct (Hkept Hg) as [[_ HR] _]. apply (po_vehicles _ HR). by apply Hb. }
  clear Hd Hkept o s' n'. unfold discover. wp_rule. wp_rule. cbv beta iota zeta.
  assert (Hm : fleet_matches s vs <->
    negb (bool_decide (py_sorted str_ltb (filter (fun id =>
       (1 < count_if (String.eqb id) (vehicle_name <$> vs))%Z) (remove_dups (vehicle_name <$> vs))) = []))
    || negb (bool_decide (sorted_set (filter (fun id => id ∉ dict_keys (FleetPreparation._records s))
         (vehicle_name <$> vs)) = []))
    || negb (bool_decide (sorted_set (filter (fun id => id ∉ vehicle_name <$> vs)
         (required_vehicle_ids (FleetPreparation.deployment s))) = [])) = false).
  { rewrite !orb_false_iff, !negb_false_iff, !bool_decide_eq_true, repeated_empty, !sorted_missing.
    unfold fleet_matches. tauto. }
  destruct (_ || _).
  - apply wp_bind. eapply wp_mono.
    { apply logs_each. intros k s1 n1 Hk Hs1. apply emit_logs. rewrite Hs1. unfold sorted_set in Hk.
      rewrite elem_of_py_sorted, elem_of_remove_dups, list_elem_of_filter in Hk.
      destruct Hg as [_ HR]. apply (po_required s HR), Hk. }
    intros [[]|e] s1 n1; [intros [es ->]|intros [[es ->] ->]; split; [|done]; intros _; split_and!; [done..|by left]]. apply wp_bind. eapply wp_mono.
    { apply logs_each. intros k s2 n2 _ _. unfold emit_external_failure. apply append_event_logs. }
    intros [[]|e] s2 n2; [intros [es2 ->]|intros [[es2 ->] ->]; split; [|done]; intros _; split_and!; [done..|by left]]. wp_go. split; [|done].
    intros _. split_and!; [done..|]. by right.
  - destruct Hm as [_ Hm]. specialize (Hm eq_refl). apply wp_bind. eapply wp_mono.
    { apply discover_each_binds; [by rewrite py_sorted_perm|]. rewrite py_sorted_perm. apply Hm. }
    intros [u|e] s1 n1 Hb; [|by split].
    eapply wp_mono; [apply record_frame|]. intros o s' n' ->. split; [done|].
    intros r _. split; [done|]. intros v Hv. apply (Hb u eq_refl). by rewrite elem_of_py_sorted.
Qed.
End interleaving.

(** ** Concrete runs *)

Module Examples.
Import Guarantees.Examples.

(** One required vehicle, of the fast simulation. *)
Definition lab : DeploymentManifest.t := {|
  DeploymentManifest.deployment_id := "lab";
  DeploymentManifest.fleet :=
    [FleetMemberDefinition.mk "cf-1" "Scout" Vector3_zero InitialFleetRole.ACTIVE true ∅];
  DeploymentManifest.zones := [ZoneDefinition.mk "zone-a" (ZoneGeometry.mk Vector3_zero Artifacts.Examples.corner)];
  DeploymentManifest.tasks :=
    [DeploymentTaskDefinition.mk "t1" "SURVEY" "zone-a" 1 "hover" (JObj []) ∅ f100 f1 f1 f1];
  DeploymentManifest.constraints := FleetConstraints.mk f100 f1 f1 FleetFailurePolicy.HOLD_ALL;
  DeploymentManifest.docks := [];
  DeploymentManifest.completion_policy := CompletionPolicy.mk true false |}.

Definition simulated : BackendBindingProfile.t := {|
  BackendBindingProfile.binding_id := "sim";
  BackendBindingProfile.backend := ExecutionBackend.FAST_SIM;
  BackendBindingProfile.vehicles := [BackendVehicleBinding.mk "cf-1" "sim://1" "cf-1" false];
  BackendBindingProfile.backend_options := [] |}.

(** The class of an error. *)
Definition error_text (e : exn) : string :=
  match e with CrazySwarmError _ m => m | _ => "error" end.

Definition new_supervisor : Sup := SafetySupervisor_new SafetyPolicy_default ["audit"].

(** A preparation of this fleet, before and after its constructor. *)
Definition blank : Prep :=
  FleetPreparation.mk lab simulated new_supervisor "prep-1" [] [] [] ExecutionSessionStatus.DECLARED f0 None None.
Definition declared : system Prep request :=
  match FleetPreparation_init "prep-1" lab simulated blank 0%nat with
  | (_, s, n) => mkSystem s n []
  end.

Definition answer (k : Z) := obey (sample k VehicleState.READY false false).

Definition discovered : system Prep request := call (discard (sync (discover [drone]))) declared.
Definition joined : system Prep request :=
  resume 1 (answer 1) (resume 1 (answer 1) (call (discard (connect_all error_text false)) discovered)).
Definition observed : system Prep request :=
  resume 2 (answer 2) (call (discard (start_observation error_text)) joined).
Definition approved : system Prep request :=
  resume 3 (answer 3) (call (discard (run_preflight false)) observed).

(** A refresh has read the record of the vehicle and waits for its snapshot when
    [disconnect_all_safe] closes the session; then the snapshot arrives. *)
Definition racing : system Prep request :=
  call (discard (refresh_observations error_text)) approved.
Definition closed : system Prep request :=
  resume 5 (answer 4) (resume 5 (answer 4) (call (discard disconnect_all_safe) racing)).
Definition reopened : system Prep request := resume 4 (answer 4) closed.

(** A window of one sample whose only observation fails. *)
Definition lost (B : Type) (q : request B) : outcome B := Raise (OtherError "TimeoutError").
Definition unobserved : system Prep request :=
  resume 4 lost (resume 4 lost (call (discard (stabilize_observations error_text 1 1)) joined)).
Definition windowed : system Prep request :=
  resume 3 lost (call (discard (stabilize_observations error_text 1 1)) observed).

Notation preparing := (reachable prep_initial (prep_api error_text) prep_environment).

Ltac reach h :=
  lazymatch goal with
  | |- reachable _ _ _ (resume _ _ _) => apply reachable_resume
  | |- reachable _ _ _ (call _ _) => apply reachable_call; [|exact h]
  end.

Lemma drone_valid : valid_vehicles [drone].
Proof. by repeat constructor. Qed.

Lemma declared_reachable : preparing declared.
Proof.
  unfold declared. destruct (FleetPreparation_init _ _ _ _ _) as [[o s] n] eqn:E. apply reach_init.
  exists "prep-1", lab, simulated, blank, 0%nat, n, (mkSystem new_supervisor 0 []). split_and!.
  - apply reach_init. by eexists _, _.
  - done.
  - vm_compute in E. vm_compute. by destruct o as [[]|e].
Qed.

Lemma observed_reachable : preparing observed.
Proof.
  unfold observed, joined, discovered. reach tt. reach (prep_start_observation error_text). do 2 reach tt.
  reach (prep_connect error_text false). reach (prep_discover error_text [drone] drone_valid).
  apply declared_reachable.
Qed.

Lemma approved_reachable : preparing approved.
Proof. unfold approved. reach tt. reach (prep_preflight error_text false). apply observed_reachable. Qed.

Lemma reopened_reachable : preparing reopened.
Proof.
  unfold reopened, closed, racing. do 3 reach tt. reach (prep_disconnect error_text).
  reach (prep_refresh error_text). apply approved_reachable.
Qed.

(** The refresh writes the record it read before the vehicle was disconnected: in
    a reachable run the session is closed and the vehicle disconnected, and a start
    is granted. *)
Theorem closed_fleet_may_start :
  preparing reopened /\
  FleetPreparation._status (shared reopened) = ExecutionSessionStatus.CLOSED /\
  state_at 0 (FleetPreparation.supervisor (shared reopened)) = Some VehicleState.DISCONNECTED /\
  (require_ready (shared reopened) (readings reopened)).1.1 = Ret tt.
Proof. split; [apply reopened_reachable|]. vm_compute. done. Qed.

(** The window counts the sample of the last successful observation when the
    observation failed: the readiness is TELEMETRY_STABLE and the observation STALE. *)
Example failed_observation_is_stable :
  finished <$> last (coroutines windowed) = Some (Some (Ret tt)) /\
  (fun kv => (FleetVehicleLifecycle.observation kv.2, FleetVehicleLifecycle.readiness_reason kv.2)) <$>
    FleetPreparation._records (shared windowed) = [(ObservationState.STALE, "TELEMETRY_STABLE")].
Proof. vm_compute. done. Qed.

Lemma start_witness :
  (require_ready (shared approved) (readings approved)).1.1 = Ret tt /\
  ready_to_start (require_ready (shared approved) (readings approved)).1.2
    (monotonic (readings approved)) "cf-1".
Proof.
  destruct (require_ready (shared approved) (readings approved)) as [[o s'] n'] eqn:E.
  assert (Ho : o = Ret tt).
  { change ((o, s', n').1.1 = Ret tt). rewrite <- E. vm_compute. reflexivity. }
  subst o. split; [reflexivity|].
  apply (start_needs_ready_fleet error_text approved (readings approved) s' n' approved_reachable E).
  vm_compute. left.
Defined.

Lemma discovery_witness :
  (discover [drone] (shared declared) (readings declared)).1.1 <> Raise CancelledError /\
  bound_as (discover [drone] (shared declared) (readings declared)).1.2 drone.
Proof.
  destruct (discover [drone] (shared declared) (readings declared)) as [[o s'] n'] eqn:E.
  destruct (discovery_binds_declared_fleet error_text declared [drone] (readings declared) o s' n'
              declared_reachable drone_valid E) as [_ H].
  assert (Ho : exists r, o = Ret r).
  { assert (Hx : match (o, s', n').1.1 with Ret _ => True | Raise _ => False end).
    { rewrite <- E. vm_compute. exact I. }
    clear E H. destruct o as [r|e]; [by exists r|destruct Hx]. }
  destruct Ho as [r ->]. split; [discriminate|]. apply (H r eq_refl). left.
Defined.

Lemma preparation_safe_witness :
  log_ok (SafetySupervisor.events (FleetPreparation.supervisor (shared approved))) /\
  state_at 0 (FleetPreparation.supervisor (shared approved)) = Some VehicleState.READY.
Proof.
  destruct (preparation_keeps_supervisor_safe error_text approved approved_reachable) as (H & _ & _).
  split; [exact H|vm_compute; reflexivity].
Defined.

Lemma preparation_events_witness :
  PreparationEvent.sequence <$> FleetPreparation._events (shared approved) = seqZ 1 8.
Proof.
  rewrite (proj1 (preparation_events_are_numbered error_text approved approved_reachable)).
  vm_compute. reflexivity.
Defined.
End Examples.
