(* ===== verification/Metrics.v ===== *)
(** * Fleet metrics ([fleet/metrics.py])

    The collector records timestamped events of a fleet run; the report derives
    from them coverage gaps, latencies, handover, dock and fault timings, rates
    and counts.  Of the [details] of an event only [stage] is read, as a text;
    the rest are display values and left out. *)

From S2P Require Import Prelude Float64 Effects Contracts Artifacts.

Module FleetMetricKind.
Inductive t :=
| TASK_DECLARED | TASK_ASSIGNED | LEASE_ISSUED | HANDOVER_DECISION | REPLACEMENT_LAUNCHED
| TAKEOVER_CONFIRMED | OUTGOING_RELEASED | HANDOVER_COMPLETED | COVERAGE_GAP_STARTED
| COVERAGE_GAP_ENDED | SEPARATION_OBSERVED | ENERGY_MARGIN | DOCK_QUEUED | DOCK_ATTEMPT
| DOCK_CHARGING | DOCK_READY | FAULT_DETECTED | RECOVERY_COMMAND | STABILIZED | REASSIGNED
| DROP_COUNT | TELEMETRY_SAMPLE | COMMAND_SENT | COMMAND_ACKNOWLEDGED | POSITION_QUALITY.
End FleetMetricKind.
#[export] Instance FleetMetricKind_eq_dec : EqDecision FleetMetricKind.t.
Proof. solve_decision. Defined.

Module FleetMetricEvent.
Record t := mk {
  sequence : Z;
  kind : FleetMetricKind.t;
  timestamp_s : float;
  correlation_id : string;
  vehicle_id : option string;
  task_id : option string;
  value : option float;
  count : option Z;
  stage : option string;
}.
End FleetMetricEvent.

Definition FleetMetricEvent_valid (e : FleetMetricEvent.t) : bool :=
  (1 <=? FleetMetricEvent.sequence e) && ge0 (FleetMetricEvent.timestamp_s e)
  && is_identifier (FleetMetricEvent.correlation_id e)
  && opt_ok is_identifier (FleetMetricEvent.vehicle_id e)
  && opt_ok is_identifier (FleetMetricEvent.task_id e)
  && opt_ok (fun c => 0 <=? c) (FleetMetricEvent.count e).

Module HandoverTiming.
Record t := mk {
  handover_id : string;
  decision_to_launch_s : option float;
  decision_to_takeover_s : option float;
  takeover_to_release_s : option float;
  total_handover_s : option float;
}.
End HandoverTiming.

Definition HandoverTiming_valid (r : HandoverTiming.t) : bool :=
  is_identifier (HandoverTiming.handover_id r) && opt_ok ge0 (HandoverTiming.decision_to_launch_s r)
  && opt_ok ge0 (HandoverTiming.decision_to_takeover_s r)
  && opt_ok ge0 (HandoverTiming.takeover_to_release_s r)
  && opt_ok ge0 (HandoverTiming.total_handover_s r).

Definition HandoverTiming_dump (r : HandoverTiming.t) : json := JObj [
  ("handover_id", JStr (HandoverTiming.handover_id r));
  ("decision_to_launch_s", json_opt JFloat (HandoverTiming.decision_to_launch_s r));
  ("decision_to_takeover_s", json_opt JFloat (HandoverTiming.decision_to_takeover_s r));
  ("takeover_to_release_s", json_opt JFloat (HandoverTiming.takeover_to_release_s r));
  ("total_handover_s", json_opt JFloat (HandoverTiming.total_handover_s r))].

Module FaultRecoveryTiming.
Record t := mk {
  fault_id : string;
  detection_to_command_s : option float;
  detection_to_stabilization_s : option float;
  detection_to_reassignment_s : option float;
}.
End FaultRecoveryTiming.

Definition FaultRecoveryTiming_valid (r : FaultRecoveryTiming.t) : bool :=
  is_identifier (FaultRecoveryTiming.fault_id r)
  && opt_ok ge0 (FaultRecoveryTiming.detection_to_command_s r)
  && opt_ok ge0 (FaultRecoveryTiming.detection_to_stabilization_s r)
  && opt_ok ge0 (FaultRecoveryTiming.detection_to_reassignment_s r).

Definition FaultRecoveryTiming_dump (r : FaultRecoveryTiming.t) : json := JObj [
  ("fault_id", JStr (FaultRecoveryTiming.fault_id r));
  ("detection_to_command_s", json_opt JFloat (FaultRecoveryTiming.detection_to_command_s r));
  ("detection_to_stabilization_s",
   json_opt JFloat (FaultRecoveryTiming.detection_to_stabilization_s r));
  ("detection_to_reassignment_s",
   json_opt JFloat (FaultRecoveryTiming.detection_to_reassignment_s r))].

Module DockTiming.
Record t := mk {
  reservation_id : string;
  queue_time_s : float;
  attempts : Z;
  modeled_charge_time_s : float;
  total_ready_time_s : float;
}.
End DockTiming.

Definition DockTiming_valid (r : DockTiming.t) : bool :=
  is_identifier (DockTiming.reservation_id r) && ge0 (DockTiming.queue_time_s r)
  && (0 <=? DockTiming.attempts r) && ge0 (DockTiming.modeled_charge_time_s r)
  && ge0 (DockTiming.total_ready_time_s r).

Definition DockTiming_dump (r : DockTiming.t) : json := JObj [
  ("reservation_id", JStr (DockTiming.reservation_id r));
  ("queue_time_s", JFloat (DockTiming.queue_time_s r));
  ("attempts", JInt (DockTiming.attempts r));
  ("modeled_charge_time_s", JFloat (DockTiming.modeled_charge_time_s r));
  ("total_ready_time_s", JFloat (DockTiming.total_ready_time_s r))].

Module EnergyMarginMetric.
Record t := mk {
  correlation_id : string;
  vehicle_id : option string;
  stage : string;
  margin_percent : float;
}.
End EnergyMarginMetric.

Definition EnergyMarginMetric_valid (r : EnergyMarginMetric.t) : bool :=
  is_identifier (EnergyMarginMetric.correlation_id r)
  && opt_ok is_identifier (EnergyMarginMetric.vehicle_id r).

Definition EnergyMarginMetric_dump (r : EnergyMarginMetric.t) : json := JObj [
  ("correlation_id", JStr (EnergyMarginMetric.correlation_id r));
  ("vehicle_id", json_opt JStr (EnergyMarginMetric.vehicle_id r));
  ("stage", JStr (EnergyMarginMetric.stage r));
  ("margin_percent", JFloat (EnergyMarginMetric.margin_percent r))].

Module FleetMetricsReport.
Record t := mk {
  duration_s : float;
  coverage_gap_duration_s : float;
  coverage_gap_percent : float;
  mission_availability_percent : float;
  minimum_separation_m : option float;
  warning_separation_violations : Z;
  critical_separation_violations : Z;
  task_assignment_latency_s : dict float;
  ownership_lease_latency_s : dict float;
  handovers : list HandoverTiming.t;
  energy_margins : list EnergyMarginMetric.t;
  docks : list DockTiming.t;
  faults : list FaultRecoveryTiming.t;
  drop_counts : dict Z;
  telemetry_update_rate_hz : dict float;
  command_latency_ms : dict float;
  mean_position_quality_percent : dict float;
  event_count : Z;
  normalized_metrics_sha256 : string;
}.
End FleetMetricsReport.

Definition FleetMetricsReport_valid (r : FleetMetricsReport.t) : bool :=
  ge0 (FleetMetricsReport.duration_s r) && ge0 (FleetMetricsReport.coverage_gap_duration_s r)
  && is_percentage (FleetMetricsReport.coverage_gap_percent r)
  && is_percentage (FleetMetricsReport.mission_availability_percent r)
  && opt_ok ge0 (FleetMetricsReport.minimum_separation_m r)
  && (0 <=? FleetMetricsReport.warning_separation_violations r)
  && (0 <=? FleetMetricsReport.critical_separation_violations r)
  && forallb is_identifier (dict_keys (FleetMetricsReport.task_assignment_latency_s r))
  && forallb is_identifier (dict_keys (FleetMetricsReport.ownership_lease_latency_s r))
  && forallb is_identifier (dict_keys (FleetMetricsReport.drop_counts r))
  && forallb is_identifier (dict_keys (FleetMetricsReport.telemetry_update_rate_hz r))
  && forallb is_identifier (dict_keys (FleetMetricsReport.command_latency_ms r))
  && forallb is_identifier (dict_keys (FleetMetricsReport.mean_position_quality_percent r))
  && (0 <=? FleetMetricsReport.event_count r)
  && is_sha256 (FleetMetricsReport.normalized_metrics_sha256 r).

Module FleetMetricsCollector.
Record t := mk {
  started_at_s : float;
  required_coverage_roles : Z;
  warning_separation_m : float;
  critical_separation_m : float;
  _events : list FleetMetricEvent.t;
}.
Definition set_events (v : list FleetMetricEvent.t) (r : t) : t :=
  mk (started_at_s r) (required_coverage_roles r) (warning_separation_m r)
    (critical_separation_m r) v.
End FleetMetricsCollector.
Notation collector := FleetMetricsCollector.t.

Definition FleetMetricsCollector_new (started_at_s : float) (required_coverage_roles : Z)
    (warning_separation_m critical_separation_m : float) : outcome collector :=
  if fltb started_at_s f0 || (required_coverage_roles <? 1)
  then Raise (ValueError "metrics clock and required coverage roles must be valid")
  else Ret (FleetMetricsCollector.mk started_at_s required_coverage_roles warning_separation_m
              critical_separation_m []).

(** [record] *)
Definition record_metric (kind : FleetMetricKind.t) (timestamp_s : float) (correlation_id : string)
    (vehicle_id task_id : option string) (value : option float) (count : option Z)
    (stage : option string) : M collector FleetMetricEvent.t :=
  self ← get;
  let event := FleetMetricEvent.mk
      (Z.of_nat (length (FleetMetricsCollector._events self)) + 1) kind timestamp_s
      correlation_id vehicle_id task_id value count stage in
  _ ← validated "FleetMetricEvent" (FleetMetricEvent_valid event) tt;
  _ ← modify (FleetMetricsCollector.set_events (FleetMetricsCollector._events self ++ [event]));
  mret event.

(** ** Derived quantities *)

Definition of_kind (kind : FleetMetricKind.t) (e : FleetMetricEvent.t) : bool :=
  FleetMetricEvent.kind e ≟ kind.

(** [sorted(events, key=lambda item: (item.timestamp_s, item.sequence))] *)
Definition metric_ltb (a b : FleetMetricEvent.t) : bool :=
  lex_ltb Z.ltb (FleetMetricEvent.timestamp_s a, FleetMetricEvent.sequence a)
    (FleetMetricEvent.timestamp_s b, FleetMetricEvent.sequence b).

(** [d.setdefault(k, v)] *)
Definition dict_setdefault {V} (k : string) (v : V) (d : dict V) : dict V :=
  if dict_mem k d then d else dict_set k v d.

(** [dict(sorted(d.items()))]: the keys of a dictionary are distinct. *)
Definition sorted_items {V} (d : dict V) : dict V :=
  py_sorted (fun a b => str_ltb a.1 b.1) d.

(** [_interval_total]: the intervals still open, and the total so far. *)
Definition interval_step (start_kind end_kind : FleetMetricKind.t)
    (acc : dict float * float) (event : FleetMetricEvent.t) : dict float * float :=
  let '(opened, total) := acc in
  let key := FleetMetricEvent.correlation_id event in
  if of_kind start_kind event
  then (dict_setdefault key (FleetMetricEvent.timestamp_s event) opened, total)
  else match dict_get key opened with
       | Some start =>
           if of_kind end_kind event
           then (dict_del key opened,
                 fadd total (py_fmax f0 (fsub (FleetMetricEvent.timestamp_s event) start)))
           else acc
       | None => acc
       end.

Definition _interval_total (events : list FleetMetricEvent.t) (start_kind end_kind : FleetMetricKind.t)
    (ended_at_s : float) : float :=
  let '(opened, total) := foldl (interval_step start_kind end_kind) ([], f0) events in
  fadd total (py_sum ((fun start => py_fmax f0 (fsub ended_at_s start)) <$> dict_values opened)).

Definition latency_step (start_kind end_kind : FleetMetricKind.t)
    (acc : dict float * dict float) (event : FleetMetricEvent.t) : dict float * dict float :=
  let '(started, result) := acc in
  let key := FleetMetricEvent.correlation_id event in
  if of_kind start_kind event
  then (dict_setdefault key (FleetMetricEvent.timestamp_s event) started, result)
  else match dict_get key started with
       | Some start =>
           if of_kind end_kind event
           then (started,
                 dict_set key (py_fmax f0 (fsub (FleetMetricEvent.timestamp_s event) start)) result)
           else acc
       | None => acc
       end.

Definition _latencies (events : list FleetMetricEvent.t) (start_kind end_kind : FleetMetricKind.t) :
    dict float :=
  sorted_items (foldl (latency_step start_kind end_kind) ([], []) events).2.

Definition HANDOVER_KINDS : list FleetMetricKind.t :=
  [FleetMetricKind.HANDOVER_DECISION; FleetMetricKind.REPLACEMENT_LAUNCHED;
   FleetMetricKind.TAKEOVER_CONFIRMED; FleetMetricKind.OUTGOING_RELEASED;
   FleetMetricKind.HANDOVER_COMPLETED].
Definition FAULT_KINDS : list FleetMetricKind.t :=
  [FleetMetricKind.FAULT_DETECTED; FleetMetricKind.RECOVERY_COMMAND; FleetMetricKind.STABILIZED;
   FleetMetricKind.REASSIGNED].
Definition DOCK_KINDS : list FleetMetricKind.t :=
  [FleetMetricKind.DOCK_QUEUED; FleetMetricKind.DOCK_ATTEMPT; FleetMetricKind.DOCK_CHARGING;
   FleetMetricKind.DOCK_READY].

Definition _is_handover (e : FleetMetricEvent.t) : bool := FleetMetricEvent.kind e ∈? HANDOVER_KINDS.
Definition _is_fault (e : FleetMetricEvent.t) : bool := FleetMetricEvent.kind e ∈? FAULT_KINDS.
Definition _is_dock (e : FleetMetricEvent.t) : bool := FleetMetricEvent.kind e ∈? DOCK_KINDS.

(** [selected[key].append(event)] of a [defaultdict(list)] *)
Definition dict_append {V} (k : string) (v : V) (d : dict (list V)) : dict (list V) :=
  dict_set k (default [] (dict_get k d) ++ [v]) d.

Definition _group (events : list FleetMetricEvent.t) (predicate : FleetMetricEvent.t -> bool) :
    dict (list FleetMetricEvent.t) :=
  foldl (fun d e => if predicate e then dict_append (FleetMetricEvent.correlation_id e) e d else d)
    [] events.

(** [{item.kind: item.timestamp_s for item in events}.get(kind)] *)
Definition time_of (kind : FleetMetricKind.t) (events : list FleetMetricEvent.t) : option float :=
  FleetMetricEvent.timestamp_s <$> last (filter (fun e => of_kind kind e = true) events).

Definition _delta (start end_ : option float) : option float :=
  match start, end_ with
  | Some s, Some e => Some (py_fmax f0 (fsub e s))
  | _, _ => None
  end.

Definition _handover_timing (item : string * list FleetMetricEvent.t) : outcome HandoverTiming.t :=
  let times kind := time_of kind item.2 in
  let decision := times FleetMetricKind.HANDOVER_DECISION in
  let takeover := times FleetMetricKind.TAKEOVER_CONFIRMED in
  let r := HandoverTiming.mk item.1
      (_delta decision (times FleetMetricKind.REPLACEMENT_LAUNCHED)) (_delta decision takeover)
      (_delta takeover (times FleetMetricKind.OUTGOING_RELEASED))
      (_delta decision (times FleetMetricKind.HANDOVER_COMPLETED)) in
  checked "HandoverTiming" (HandoverTiming_valid r) r.

Definition _fault_timing (item : string * list FleetMetricEvent.t) : outcome FaultRecoveryTiming.t :=
  let times kind := time_of kind item.2 in
  let detected := times FleetMetricKind.FAULT_DETECTED in
  let r := FaultRecoveryTiming.mk item.1
      (_delta detected (times FleetMetricKind.RECOVERY_COMMAND))
      (_delta detected (times FleetMetricKind.STABILIZED))
      (_delta detected (times FleetMetricKind.REASSIGNED)) in
  checked "FaultRecoveryTiming" (FaultRecoveryTiming_valid r) r.

(** [x or 0.0] *)
Definition float_or_zero (x : option float) : float :=
  match x with Some v => if feqb v f0 then f0 else v | None => f0 end.

Definition _dock_timing (item : string * list FleetMetricEvent.t) : outcome DockTiming.t :=
  let times kind := time_of kind item.2 in
  let queued := times FleetMetricKind.DOCK_QUEUED in
  let ready := times FleetMetricKind.DOCK_READY in
  let r := DockTiming.mk item.1
      (float_or_zero (_delta queued (times FleetMetricKind.DOCK_ATTEMPT)))
      (count_if (of_kind FleetMetricKind.DOCK_ATTEMPT) item.2)
      (float_or_zero (_delta (times FleetMetricKind.DOCK_CHARGING) ready))
      (float_or_zero (_delta queued ready)) in
  checked "DockTiming" (DockTiming_valid r) r.

Definition energy_margin (e : FleetMetricEvent.t) : list (outcome EnergyMarginMetric.t) :=
  match FleetMetricEvent.value e with
  | Some v =>
      if of_kind FleetMetricKind.ENERGY_MARGIN e then
        let r := EnergyMarginMetric.mk (FleetMetricEvent.correlation_id e)
            (FleetMetricEvent.vehicle_id e) (default "unknown" (FleetMetricEvent.stage e)) v in
        [checked "EnergyMarginMetric" (EnergyMarginMetric_valid r) r]
      else []
  | None => []
  end.

(** [event.vehicle_id or event.correlation_id] *)
Definition source_key (e : FleetMetricEvent.t) : string :=
  match FleetMetricEvent.vehicle_id e with
  | Some v => if String.eqb v "" then FleetMetricEvent.correlation_id e else v
  | None => FleetMetricEvent.correlation_id e
  end.

Definition add_drops (d : dict Z) (e : FleetMetricEvent.t) : dict Z :=
  if of_kind FleetMetricKind.DROP_COUNT e then
    let key := FleetMetricEvent.correlation_id e in
    dict_set key (default 0 (dict_get key d) + default 0 (FleetMetricEvent.count e)) d
  else d.

Definition add_sample (d : dict (list float)) (e : FleetMetricEvent.t) : dict (list float) :=
  if of_kind FleetMetricKind.TELEMETRY_SAMPLE e
  then dict_append (source_key e) (FleetMetricEvent.timestamp_s e) d else d.

Definition update_rate (item : string * list float) : outcome (dict float) :=
  let ordered := py_sorted fltb item.2 in
  final ← some_or IndexError (last ordered);
  initial ← first_or IndexError ordered;
  let span := fsub final initial in
  let n := Z.of_nat (length ordered) in
  if (1 <? n) && fltb f0 span
  then rate ← py_div (float_of_Z (n - 1)) span; Ret [(item.1, rate)]
  else Ret [].

Definition _update_rates (events : list FleetMetricEvent.t) : outcome (dict float) :=
  rates ← mapM update_rate (foldl add_sample [] events);
  Ret (sorted_items (concat rates)).

Definition add_value (kind : FleetMetricKind.t) (d : dict (list float)) (e : FleetMetricEvent.t) :
    dict (list float) :=
  match FleetMetricEvent.value e with
  | Some v => if of_kind kind e then dict_append (source_key e) v d else d
  | None => d
  end.

Definition mean_value (item : string * list float) : outcome (dict float) :=
  if bool_decide (item.2 = []) then Ret []
  else mean ← py_div (py_sum item.2) (float_of_Z (Z.of_nat (length item.2)));
       Ret [(item.1, mean)].

Definition _mean_values (events : list FleetMetricEvent.t) (kind : FleetMetricKind.t) :
    outcome (dict float) :=
  means ← mapM mean_value (sorted_items (foldl (add_value kind) [] events));
  Ret (concat means).

Definition separation_values (events : list FleetMetricEvent.t) : list float :=
  omap (fun e => if of_kind FleetMetricKind.SEPARATION_OBSERVED e
                 then FleetMetricEvent.value e else None) events.

Definition floats_json (d : dict float) : json := JObj ((fun kv => (kv.1, JFloat kv.2)) <$> d).

(** [gap_percent] *)
Definition gap_percent_of (role_time gaps : float) : outcome float :=
  percent ← (if fleb role_time f0 then Ret f0
             else q ← py_div gaps role_time; Ret (fmul q f100));
  Ret (py_fmin f100 percent).

Section report.
Context `{DG : Digest}.

Definition report (ended_at_s : float) (self : collector) : outcome FleetMetricsReport.t :=
  let duration := py_fmax f0 (fsub ended_at_s (FleetMetricsCollector.started_at_s self)) in
  let ordered := py_sorted metric_ltb (FleetMetricsCollector._events self) in
  let gaps := _interval_total ordered FleetMetricKind.COVERAGE_GAP_STARTED
                FleetMetricKind.COVERAGE_GAP_ENDED ended_at_s in
  let role_time := fmul duration
                     (float_of_Z (FleetMetricsCollector.required_coverage_roles self)) in
  gap_percent ← gap_percent_of role_time gaps;
  let separation := separation_values ordered in
  let assignment := _latencies ordered FleetMetricKind.TASK_DECLARED FleetMetricKind.TASK_ASSIGNED in
  let leases := _latencies ordered FleetMetricKind.TASK_DECLARED FleetMetricKind.LEASE_ISSUED in
  handovers ← mapM _handover_timing (sorted_items (_group ordered _is_handover));
  faults ← mapM _fault_timing (sorted_items (_group ordered _is_fault));
  docks ← mapM _dock_timing (sorted_items (_group ordered _is_dock));
  energy ← mapM id (mjoin (energy_margin <$> ordered));
  let drop_counts := sorted_items (foldl add_drops [] ordered) in
  update_rates ← _update_rates ordered;
  let command_latency := (fun kv => (kv.1, fmul kv.2 (float_of_Z 1000))) <$>
      _latencies ordered FleetMetricKind.COMMAND_SENT FleetMetricKind.COMMAND_ACKNOWLEDGED in
  position_quality ← _mean_values ordered FleetMetricKind.POSITION_QUALITY;
  let minimum := py_min fltb separation in
  let critical := FleetMetricsCollector.critical_separation_m self in
  let warnings := count_if (fun v => fleb v (FleetMetricsCollector.warning_separation_m self)
                                     && fltb critical v) separation in
  let criticals := count_if (fun v => fleb v critical) separation in
  let normalized := JObj [
    ("duration_s", JFloat (py_round duration 6));
    ("coverage_gap_duration_s", JFloat (py_round gaps 6));
    ("coverage_gap_percent", JFloat (py_round gap_percent 6));
    ("minimum_separation_m", json_opt (fun v => JFloat (py_round v 6)) minimum);
    ("warning", JInt warnings); ("critical", JInt criticals);
    ("assignment", floats_json assignment); ("leases", floats_json leases);
    ("handovers", JList (HandoverTiming_dump <$> handovers));
    ("energy", JList (EnergyMarginMetric_dump <$> energy));
    ("docks", JList (DockTiming_dump <$> docks));
    ("faults", JList (FaultRecoveryTiming_dump <$> faults));
    ("drops", JObj ((fun kv => (kv.1, JInt kv.2)) <$> drop_counts));
    ("update_rates", floats_json update_rates);
    ("command_latency_ms", floats_json command_latency);
    ("position_quality", floats_json position_quality)] in
  let r := FleetMetricsReport.mk duration gaps gap_percent (fsub f100 gap_percent) minimum warnings
      criticals assignment leases handovers energy docks faults drop_counts update_rates
      command_latency position_quality (Z.of_nat (length ordered)) (canonical_sha256 normalized) in
  checked "FleetMetricsReport" (FleetMetricsReport_valid r) r.
End report.
