(* ===== verification/Fleet.v ===== *)
(** * Fleet coordinator: data and state ([fleet/coordinator.py], [missions/coordination.py])

    The records of a fleet run, the command gate its missions share with it, and
    the attributes of [FleetCoordinator].

    The coordinator runs one mission per task through the mission runner, on the
    vehicles a preparation made ready.  It holds the preparation, and with it the
    supervisor they share; the missions run beside it as tasks of the event loop
    and are known here by the arguments they were started with and, once they
    have ended, their outcome.  The [details] of events are display values and
    left out. *)

From S2P Require Import Prelude Float64 Effects Contracts Artifacts.
From S2P Require Import Tasks Persistent Docks Zones Safety PlanContracts Routes Intents.
From S2P Require Import Trajectory Planning Telemetry Commands Missions Authority.
From S2P Require Import Deconfliction Multidrone Coroutines Supervisor Preparation Metrics.

(** ** The command gate ([missions/coordination.py])

    An [asyncio.Event] is its flag. *)

Module MissionCommandGate.
Record t := mk {
  _permitted : dict bool;
  _blocked : dict bool;
  _reasons : dict string;
}.
End MissionCommandGate.
Notation Gate := MissionCommandGate.t.

Definition MissionCommandGate_new (vehicle_ids : list string) : Gate :=
  MissionCommandGate.mk (dict_of id (fun _ => true) vehicle_ids)
    (dict_of id (fun _ => false) vehicle_ids) [].

(** [_require_vehicle] *)
Definition require_vehicle (vehicle_id : string) : M Gate unit :=
  self ← get;
  raise_if (negb (dict_mem vehicle_id (MissionCommandGate._permitted self))) KeyError.

(** The flags of a vehicle, and the reason it is held for. *)
Definition set_flags (vehicle_id : string) (permitted blocked : bool) (self : Gate) : Gate :=
  MissionCommandGate.mk (dict_set vehicle_id permitted (MissionCommandGate._permitted self))
    (dict_set vehicle_id blocked (MissionCommandGate._blocked self))
    (MissionCommandGate._reasons self).

Definition hold (vehicle_id reason : string) : M Gate unit :=
  _ ← require_vehicle vehicle_id;
  _ ← modify (fun self => MissionCommandGate.mk (MissionCommandGate._permitted self)
                (MissionCommandGate._blocked self)
                (dict_set vehicle_id reason (MissionCommandGate._reasons self)));
  modify (set_flags vehicle_id false false).

Definition release (vehicle_id : string) : M Gate unit :=
  _ ← require_vehicle vehicle_id;
  _ ← modify (fun self => MissionCommandGate.mk (MissionCommandGate._permitted self)
                (MissionCommandGate._blocked self)
                (dict_del vehicle_id (MissionCommandGate._reasons self)));
  modify (set_flags vehicle_id true false).

Definition release_all : M Gate unit :=
  self ← get;
  for_each (dict_keys (MissionCommandGate._permitted self)) release.

Definition held (vehicle_id : string) : M Gate bool :=
  _ ← require_vehicle vehicle_id;
  self ← get;
  mret (negb (default false (dict_get vehicle_id (MissionCommandGate._permitted self)))).

Definition gate_reason (vehicle_id : string) : M Gate (option string) :=
  _ ← require_vehicle vehicle_id;
  self ← get;
  mret (dict_get vehicle_id (MissionCommandGate._reasons self)).

(** The two halves of [wait_for_permission], before and after its await of
    [permitted], which a mission runs. *)
Definition permission_asked (vehicle_id : string) : M Gate unit :=
  _ ← require_vehicle vehicle_id;
  self ← get;
  if default false (dict_get vehicle_id (MissionCommandGate._permitted self)) then mret tt
  else modify (set_flags vehicle_id false true).

Definition permission_given (vehicle_id : string) : M Gate unit :=
  modify (fun self => MissionCommandGate.mk (MissionCommandGate._permitted self)
            (dict_set vehicle_id false (MissionCommandGate._blocked self))
            (MissionCommandGate._reasons self)).

(** ** Records ([fleet/coordinator.py]) *)

Module FleetStatus.
Inductive t := SUCCEEDED | DEGRADED | ABORTED | FAILED.
End FleetStatus.
#[export] Instance FleetStatus_eq_dec : EqDecision FleetStatus.t.
Proof. solve_decision. Defined.

Definition FleetStatus_value (s : FleetStatus.t) : string :=
  match s with
  | FleetStatus.SUCCEEDED => "SUCCEEDED"
  | FleetStatus.DEGRADED => "DEGRADED"
  | FleetStatus.ABORTED => "ABORTED"
  | FleetStatus.FAILED => "FAILED"
  end.

Module SeparationLevel.
Inductive t := CLEAR | WARNING | CRITICAL.
End SeparationLevel.
#[export] Instance SeparationLevel_eq_dec : EqDecision SeparationLevel.t.
Proof. solve_decision. Defined.

Definition SeparationLevel_value (s : SeparationLevel.t) : string :=
  match s with
  | SeparationLevel.CLEAR => "CLEAR"
  | SeparationLevel.WARNING => "WARNING"
  | SeparationLevel.CRITICAL => "CRITICAL"
  end.

Definition CROSSING_SEPARATION_POLICY_ID : string := "crossing-warning-hold-critical-abort-v2".
Definition GENERIC_SEPARATION_POLICY_ID : string := "warning-abort-later-vehicle-v1".
Definition LEADER_LOSS_POLICY_ID : string := "leader-loss-land-follower-v1".
Definition FOLLOWER_LOSS_POLICY_ID : string := "follower-loss-land-leader-v1".
Definition LEADER_FOLLOWER_TRACKING_POLICY_ID : string := "leader-follower-global-offset-v1".
Definition COORDINATION_INTERVENTION_BOUND_S : float := flit 25 100.
Definition CROSSING_RELEASE_MARGIN_M : float := flit 2 10.
Definition MAX_COORDINATION_OBSERVATIONS : Z := 2000.

Module FleetEvent.
Record t := mk {
  fleet_session_id : string;
  fleet_run_id : string;
  deployment_sha256 : string;
  sequence : Z;
  event_type : string;
  timestamp_monotonic_s : float;
  vehicle_id : option string;
  task_id : option string;
}.
End FleetEvent.

Definition FleetEvent_valid (e : FleetEvent.t) : bool :=
  is_identifier (FleetEvent.fleet_session_id e) && is_identifier (FleetEvent.fleet_run_id e)
  && is_sha256 (FleetEvent.deployment_sha256 e) && (1 <=? FleetEvent.sequence e)
  && is_identifier (FleetEvent.event_type e) && ge0 (FleetEvent.timestamp_monotonic_s e)
  && opt_ok is_identifier (FleetEvent.vehicle_id e)
  && opt_ok is_identifier (FleetEvent.task_id e).

Module SeparationObservation.
Record t := mk {
  fleet_session_id : string;
  fleet_run_id : string;
  first_vehicle_id : string;
  second_vehicle_id : string;
  distance_m : float;
  level : SeparationLevel.t;
  action : string;
  policy_id : string;
  first_source_clock_id : string;
  first_source_clock_epoch : Z;
  first_source_sequence : Z;
  second_source_clock_id : string;
  second_source_clock_epoch : Z;
  second_source_sequence : Z;
  intervention_latency_s : option float;
  timestamp_monotonic_s : float;
}.
End SeparationObservation.

Definition SeparationObservation_valid (o : SeparationObservation.t) : bool :=
  is_identifier (SeparationObservation.fleet_session_id o)
  && is_identifier (SeparationObservation.fleet_run_id o)
  && is_identifier (SeparationObservation.first_vehicle_id o)
  && is_identifier (SeparationObservation.second_vehicle_id o)
  && ge0 (SeparationObservation.distance_m o)
  && is_identifier (SeparationObservation.policy_id o)
  && is_identifier (SeparationObservation.first_source_clock_id o)
  && (0 <=? SeparationObservation.first_source_clock_epoch o)
  && (0 <=? SeparationObservation.first_source_sequence o)
  && is_identifier (SeparationObservation.second_source_clock_id o)
  && (0 <=? SeparationObservation.second_source_clock_epoch o)
  && (0 <=? SeparationObservation.second_source_sequence o)
  && opt_ok ge0 (SeparationObservation.intervention_latency_s o)
  && ge0 (SeparationObservation.timestamp_monotonic_s o).

Module LeaderFollowerObservation.
Record t := mk {
  fleet_session_id : string;
  fleet_run_id : string;
  leader_vehicle_id : string;
  follower_vehicle_id : string;
  expected_offset_m : Vector3;
  expected_follower_position_m : Vector3;
  observed_offset_m : Vector3;
  relative_velocity_m_s : Vector3;
  tracking_error_m : float;
  speed_error_m_s : float;
  separation_m : float;
  boundary_margin_m : float;
  leader_source_clock_id : string;
  leader_source_clock_epoch : Z;
  leader_source_sequence : Z;
  follower_source_clock_id : string;
  follower_source_clock_epoch : Z;
  follower_source_sequence : Z;
  timestamp_monotonic_s : float;
}.
End LeaderFollowerObservation.

Definition LeaderFollowerObservation_valid (o : LeaderFollowerObservation.t) : bool :=
  is_identifier (LeaderFollowerObservation.fleet_session_id o)
  && is_identifier (LeaderFollowerObservation.fleet_run_id o)
  && is_identifier (LeaderFollowerObservation.leader_vehicle_id o)
  && is_identifier (LeaderFollowerObservation.follower_vehicle_id o)
  && ge0 (LeaderFollowerObservation.tracking_error_m o)
  && ge0 (LeaderFollowerObservation.speed_error_m_s o)
  && ge0 (LeaderFollowerObservation.separation_m o)
  && ge0 (LeaderFollowerObservation.boundary_margin_m o)
  && is_identifier (LeaderFollowerObservation.leader_source_clock_id o)
  && (0 <=? LeaderFollowerObservation.leader_source_clock_epoch o)
  && (0 <=? LeaderFollowerObservation.leader_source_sequence o)
  && is_identifier (LeaderFollowerObservation.follower_source_clock_id o)
  && (0 <=? LeaderFollowerObservation.follower_source_clock_epoch o)
  && (0 <=? LeaderFollowerObservation.follower_source_sequence o)
  && ge0 (LeaderFollowerObservation.timestamp_monotonic_s o).

Module FleetChildResult.
Record t := mk {
  task_id : string;
  vehicle_id : string;
  lease_generation : Z;
  mission_result : MissionResult.t;
}.
End FleetChildResult.

Definition FleetChildResult_valid (r : FleetChildResult.t) : bool :=
  is_identifier (FleetChildResult.task_id r) && is_identifier (FleetChildResult.vehicle_id r)
  && (1 <=? FleetChildResult.lease_generation r).

Module FleetResult.
Record t := mk {
  fleet_session_id : string;
  fleet_run_id : string;
  fleet_identity_sha256 : string;
  deployment_sha256 : string;
  status : FleetStatus.t;
  reason_code : string;
  message : string;
  child_results : list FleetChildResult.t;
  tasks : list TaskRecord.t;
  minimum_separation_m : option float;
  warning_violations : Z;
  critical_violations : Z;
  separation_observations : list SeparationObservation.t;
  leader_follower_observations : list LeaderFollowerObservation.t;
  leader_loss_intervention_latency_s : option float;
  coordination_policy_ids : list string;
  events : list FleetEvent.t;
  normalized_trace : list json;
  normalized_outcome_sha256 : string;
  persistent_coverage : option PersistentCoverageResult.t;
  dock_snapshots : list DockSnapshot.t;
  metrics : option FleetMetricsReport.t;
  authority_transitions : list Receipt;
  deconfliction_plan_sha256 : option string;
  selected_deconfliction_strategy : option string;
  nominal_deconfliction_executed : option bool;
}.
End FleetResult.

Definition FleetResult_valid (r : FleetResult.t) : bool :=
  is_identifier (FleetResult.fleet_session_id r) && is_identifier (FleetResult.fleet_run_id r)
  && is_sha256 (FleetResult.fleet_identity_sha256 r) && is_sha256 (FleetResult.deployment_sha256 r)
  && is_identifier (FleetResult.reason_code r)
  && opt_ok ge0 (FleetResult.minimum_separation_m r)
  && (0 <=? FleetResult.warning_violations r) && (0 <=? FleetResult.critical_violations r)
  && opt_ok ge0 (FleetResult.leader_loss_intervention_latency_s r)
  && forallb is_identifier (FleetResult.coordination_policy_ids r)
  && is_sha256 (FleetResult.normalized_outcome_sha256 r)
  && opt_ok is_sha256 (FleetResult.deconfliction_plan_sha256 r)
  && opt_ok is_identifier (FleetResult.selected_deconfliction_strategy r).

(** ** The mission runner, as far as the coordinator sees it ([missions/runner.py])

    [_tasks] maps a run to the task of the event loop that executes it. *)

Module MissionRunner.
Record t := mk {
  _runs : dict MissionRunSnapshot.t;
  _cancel_events : dict bool;
  _tasks : dict nat;
  _authorities : dict Authority;
  _authority_receipts : dict (list Receipt);
}.
Definition set_runs (v : dict MissionRunSnapshot.t) (r : t) : t :=
  mk v (_cancel_events r) (_tasks r) (_authorities r) (_authority_receipts r).
Definition set_cancel_events (v : dict bool) (r : t) : t :=
  mk (_runs r) v (_tasks r) (_authorities r) (_authority_receipts r).
End MissionRunner.

Definition get_run (mission_run_id : string) (self : MissionRunner.t) :
    outcome MissionRunSnapshot.t :=
  some_or (CrazySwarmError INVALID_COMMAND ("unknown mission run: " +:+ mission_run_id))
    (dict_get mission_run_id (MissionRunner._runs self)).

Definition current_fleet_binding (mission_run_id : string) (self : MissionRunner.t) :
    outcome (option FleetCommandBinding.t) :=
  authority ← some_or (CrazySwarmError INVALID_STATE
                         ("mission run has no active command authority: " +:+ mission_run_id))
                (dict_get mission_run_id (MissionRunner._authorities self));
  Ret (MissionFleetAuthority._binding authority).

Definition authority_receipts (mission_run_id : string) (self : MissionRunner.t) : list Receipt :=
  match dict_get mission_run_id (MissionRunner._authorities self) with
  | Some authority => MissionFleetAuthority._receipts authority
  | None => default [] (dict_get mission_run_id (MissionRunner._authority_receipts self))
  end.

(** [snapshot.model_copy(update={"cancellation_requested": True})] *)
Definition set_cancellation_requested (s : MissionRunSnapshot.t) : MissionRunSnapshot.t :=
  match s with
  | MissionRunSnapshot.mk a1 a2 a3 a4 a5 a6 a7 a8 a9 a10 a11 a12 a13 a14 a15 a16 a17 a18 a19 a20
      a21 a22 a23 a24 a25 a26 a27 a28 a29 a30 a31 a32 a33 a34 a35 _ a37 a38 a39 a40 =>
      MissionRunSnapshot.mk a1 a2 a3 a4 a5 a6 a7 a8 a9 a10 a11 a12 a13 a14 a15 a16 a17 a18 a19 a20
        a21 a22 a23 a24 a25 a26 a27 a28 a29 a30 a31 a32 a33 a34 a35 true a37 a38 a39 a40
  end.

(** [cancel].  No section of the runner under its lock awaits anything, so the
    lock is free whenever a coroutine runs, and taking it does not suspend.  The
    caller is not the task of the run.  [Some task] says which task of the event
    loop is to be cancelled. *)
Definition cancel_run (mission_run_id : string) : M MissionRunner.t (option nat) :=
  self ← get;
  snapshot ← lift (get_run mission_run_id self);
  if is_some (MissionRunSnapshot.result snapshot)
     || MissionRunSnapshot.cancellation_requested snapshot
  then mret None
  else
    _ ← raise_if (negb (dict_mem mission_run_id (MissionRunner._cancel_events self))) KeyError;
    _ ← modify (fun self => MissionRunner.set_cancel_events
                  (dict_set mission_run_id true (MissionRunner._cancel_events self)) self);
    _ ← modify (fun self => MissionRunner.set_runs
                  (dict_set mission_run_id (set_cancellation_requested snapshot)
                     (MissionRunner._runs self)) self);
    mret (dict_get mission_run_id (MissionRunner._tasks self)).

(** ** State *)

(** The arguments of [mission_runner.run]. *)
Module MissionArguments.
Record t := mk {
  mission_id : string;
  vehicle_id : string;
  parameters : json;
  mission_run_id : string;
  fleet_binding : FleetCommandBinding.t;
  mission_role_id : string;
  command_gate : bool;
  require_prepared : bool;
  allow_simulation_low_battery : bool;
  accepted_plan_id : option string;
  accepted_plan_sha256 : option string;
  accepted_execution_program : option AcceptedExecutionProgram.t;
}.
End MissionArguments.

(** [asyncio.create_task(mission_runner.run(...))]: its arguments, whether it
    was asked to cancel, and its outcome once it is done. *)
Module MissionTask.
Record t := mk {
  arguments : MissionArguments.t;
  cancel_requested : bool;
  ended : option (outcome MissionResult.t);
}.
End MissionTask.

(** [task.done()] *)
Definition task_done (t : MissionTask.t) : bool := is_some (MissionTask.ended t).
(** [task.cancel()] *)
Definition task_cancel (t : MissionTask.t) : MissionTask.t :=
  if task_done t then t else MissionTask.mk (MissionTask.arguments t) true (MissionTask.ended t).
(** [task.result()] of a task that is done and returned *)
Definition task_result (t : MissionTask.t) : option MissionResult.t :=
  match MissionTask.ended t with Some (Ret r) => Some r | _ => None end.

(** [FleetDeconflictionPlan | MultiDroneConflictPlan] *)
Notation DeconflictionPlan := (FleetDeconflictionPlan.t + MultiDroneConflictPlan.t)%type.

(** The attributes the constructor fixes are in [setup].  [mission_tasks] are the
    tasks ever created for missions, a task is its index; the tasks that confirm
    crossing holds are numbered by [_hold_tasks_created].  [tasks] is the ledger of
    the persistent coordinator if there is one, else [_ledger]. *)
Module FleetSetup.
Record t := mk {
  identity : FleetSessionIdentity.t;
  deployment : DeploymentManifest.t;
  policy_decision : option FleetPolicyDecision.t;
  planning_bundle : option PlanningBundle.t;
  accepted_plan_id : option string;
  accepted_plan_sha256 : option string;
  accepted_execution_programs : dict AcceptedExecutionProgram.t;
  deconfliction_plan : option DeconflictionPlan;
  monitor_period_s : float;
  _crossing_task_ids : gset string;
  _leader_follower_task_ids : option (string * string);
}.

End FleetSetup.

Module FleetCoordinator.
Record t := mk {
  setup : FleetSetup.t;
  preparation : Prep;
  mission_runner : MissionRunner.t;
  mission_tasks : list MissionTask.t;
  _persistent : option PersistentCoverageCoordinator.t;
  _ledger : TaskLedger.t;
  _events : list FleetEvent.t;
  _children : dict nat;
  _child_runs : dict string;
  _bindings : dict FleetCommandBinding.t;
  _separation : list SeparationObservation.t;
  _intervened_pairs : gset (string * string);
  _coordination_policy_ids : gset string;
  _command_gate : option MissionCommandGate.t;
  _crossing_holds : gmap (string * string) string;
  _crossing_hold_tasks : gmap (string * string) nat;
  _crossing_confirmed_pairs : gset (string * string);
  _critical_pairs : gset (string * string);
  _hold_tasks_created : nat;
  _leader_follower_observations : list LeaderFollowerObservation.t;
  _last_leader_follower_sources : option (Z * Z);
  _leader_loss_policy_applied : bool;
  _follower_loss_policy_applied : bool;
  _leader_loss_intervention_latency_s : option float;
  _allow_simulation_low_battery : bool;
  _handover_children : dict nat;
  _handover_runs : dict string;
  _handover_bindings : dict FleetCommandBinding.t;
  _handover_vehicle_ids : dict string;
  _child_vehicle_ids : dict string;
  _active_handover_id : option string;
  _persistent_result : option PersistentCoverageResult.t;
  _authority_transitions : list Receipt;
  _dock_manager : option DockManager.t;
  _metrics : option collector;
}.

Definition set_preparation (v : Prep) (r : t) : t :=
  mk (setup r) v (mission_runner r) (mission_tasks r) (_persistent r) (_ledger r) (_events
    r) (_children r) (_child_runs r) (_bindings r) (_separation r) (_intervened_pairs r)
    (_coordination_policy_ids r) (_command_gate r) (_crossing_holds r) (_crossing_hold_tasks
    r) (_crossing_confirmed_pairs r) (_critical_pairs r) (_hold_tasks_created r)
    (_leader_follower_observations r) (_last_leader_follower_sources r)
    (_leader_loss_policy_applied r) (_follower_loss_policy_applied r)
    (_leader_loss_intervention_latency_s r) (_allow_simulation_low_battery r)
    (_handover_children r) (_handover_runs r) (_handover_bindings r) (_handover_vehicle_ids
    r) (_child_vehicle_ids r) (_active_handover_id r) (_persistent_result r)
    (_authority_transitions r) (_dock_manager r) (_metrics r).
Definition set_mission_runner (v : MissionRunner.t) (r : t) : t :=
  mk (setup r) (preparation r) v (mission_tasks r) (_persistent r) (_ledger r) (_events r)
    (_children r) (_child_runs r) (_bindings r) (_separation r) (_intervened_pairs r)
    (_coordination_policy_ids r) (_command_gate r) (_crossing_holds r) (_crossing_hold_tasks
    r) (_crossing_confirmed_pairs r) (_critical_pairs r) (_hold_tasks_created r)
    (_leader_follower_observations r) (_last_leader_follower_sources r)
    (_leader_loss_policy_applied r) (_follower_loss_policy_applied r)
    (_leader_loss_intervention_latency_s r) (_allow_simulation_low_battery r)
    (_handover_children r) (_handover_runs r) (_handover_bindings r) (_handover_vehicle_ids
    r) (_child_vehicle_ids r) (_active_handover_id r) (_persistent_result r)
    (_authority_transitions r) (_dock_manager r) (_metrics r).
Definition set_mission_tasks (v : list MissionTask.t) (r : t) : t :=
  mk (setup r) (preparation r) (mission_runner r) v (_persistent r) (_ledger r) (_events r)
    (_children r) (_child_runs r) (_bindings r) (_separation r) (_intervened_pairs r)
    (_coordination_policy_ids r) (_command_gate r) (_crossing_holds r) (_crossing_hold_tasks
    r) (_crossing_confirmed_pairs r) (_critical_pairs r) (_hold_tasks_created r)
    (_leader_follower_observations r) (_last_leader_follower_sources r)
    (_leader_loss_policy_applied r) (_follower_loss_policy_applied r)
    (_leader_loss_intervention_latency_s r) (_allow_simulation_low_battery r)
    (_handover_children r) (_handover_runs r) (_handover_bindings r) (_handover_vehicle_ids
    r) (_child_vehicle_ids r) (_active_handover_id r) (_persistent_result r)
    (_authority_transitions r) (_dock_manager r) (_metrics r).
Definition set_persistent (v : option PersistentCoverageCoordinator.t) (r : t) : t :=
  mk (setup r) (preparation r) (mission_runner r) (mission_tasks r) v (_ledger r) (_events
    r) (_children r) (_child_runs r) (_bindings r) (_separation r) (_intervened_pairs r)
    (_coordination_policy_ids r) (_command_gate r) (_crossing_holds r) (_crossing_hold_tasks
    r) (_crossing_confirmed_pairs r) (_critical_pairs r) (_hold_tasks_created r)
    (_leader_follower_observations r) (_last_leader_follower_sources r)
    (_leader_loss_policy_applied r) (_follower_loss_policy_applied r)
    (_leader_loss_intervention_latency_s r) (_allow_simulation_low_battery r)
    (_handover_children r) (_handover_runs r) (_handover_bindings r) (_handover_vehicle_ids
    r) (_child_vehicle_ids r) (_active_handover_id r) (_persistent_result r)
    (_authority_transitions r) (_dock_manager r) (_metrics r).
Definition set_ledger (v : TaskLedger.t) (r : t) : t :=
  mk (setup r) (preparation r) (mission_runner r) (mission_tasks r) (_persistent r) v
    (_events r) (_children r) (_child_runs r) (_bindings r) (_separation r)
    (_intervened_pairs r) (_coordination_policy_ids r) (_command_gate r) (_crossing_holds r)
    (_crossing_hold_tasks r) (_crossing_confirmed_pairs r) (_critical_pairs r)
    (_hold_tasks_created r) (_leader_follower_observations r) (_last_leader_follower_sources
    r) (_leader_loss_policy_applied r) (_follower_loss_policy_applied r)
    (_leader_loss_intervention_latency_s r) (_allow_simulation_low_battery r)
    (_handover_children r) (_handover_runs r) (_handover_bindings r) (_handover_vehicle_ids
    r) (_child_vehicle_ids r) (_active_handover_id r) (_persistent_result r)
    (_authority_transitions r) (_dock_manager r) (_metrics r).
Definition set_events (v : list FleetEvent.t) (r : t) : t :=
  mk (setup r) (preparation r) (mission_runner r) (mission_tasks r) (_persistent r) (_ledger
    r) v (_children r) (_child_runs r) (_bindings r) (_separation r) (_intervened_pairs r)
    (_coordination_policy_ids r) (_command_gate r) (_crossing_holds r) (_crossing_hold_tasks
    r) (_crossing_confirmed_pairs r) (_critical_pairs r) (_hold_tasks_created r)
    (_leader_follower_observations r) (_last_leader_follower_sources r)
    (_leader_loss_policy_applied r) (_follower_loss_policy_applied r)
    (_leader_loss_intervention_latency_s r) (_allow_simulation_low_battery r)
    (_handover_children r) (_handover_runs r) (_handover_bindings r) (_handover_vehicle_ids
    r) (_child_vehicle_ids r) (_active_handover_id r) (_persistent_result r)
    (_authority_transitions r) (_dock_manager r) (_metrics r).
Definition set_children (v : dict nat) (r : t) : t :=
  mk (setup r) (preparation r) (mission_runner r) (mission_tasks r) (_persistent r) (_ledger
    r) (_events r) v (_child_runs r) (_bindings r) (_separation r) (_intervened_pairs r)
    (_coordination_policy_ids r) (_command_gate r) (_crossing_holds r) (_crossing_hold_tasks
    r) (_crossing_confirmed_pairs r) (_critical_pairs r) (_hold_tasks_created r)
    (_leader_follower_observations r) (_last_leader_follower_sources r)
    (_leader_loss_policy_applied r) (_follower_loss_policy_applied r)
    (_leader_loss_intervention_latency_s r) (_allow_simulation_low_battery r)
    (_handover_children r) (_handover_runs r) (_handover_bindings r) (_handover_vehicle_ids
    r) (_child_vehicle_ids r) (_active_handover_id r) (_persistent_result r)
    (_authority_transitions r) (_dock_manager r) (_metrics r).
Definition set_child_runs (v : dict string) (r : t) : t :=
  mk (setup r) (preparation r) (mission_runner r) (mission_tasks r) (_persistent r) (_ledger
    r) (_events r) (_children r) v (_bindings r) (_separation r) (_intervened_pairs r)
    (_coordination_policy_ids r) (_command_gate r) (_crossing_holds r) (_crossing_hold_tasks
    r) (_crossing_confirmed_pairs r) (_critical_pairs r) (_hold_tasks_created r)
    (_leader_follower_observations r) (_last_leader_follower_sources r)
    (_leader_loss_policy_applied r) (_follower_loss_policy_applied r)
    (_leader_loss_intervention_latency_s r) (_allow_simulation_low_battery r)
    (_handover_children r) (_handover_runs r) (_handover_bindings r) (_handover_vehicle_ids
    r) (_child_vehicle_ids r) (_active_handover_id r) (_persistent_result r)
    (_authority_transitions r) (_dock_manager r) (_metrics r).
Definition set_bindings (v : dict FleetCommandBinding.t) (r : t) : t :=
  mk (setup r) (preparation r) (mission_runner r) (mission_tasks r) (_persistent r) (_ledger
    r) (_events r) (_children r) (_child_runs r) v (_separation r) (_intervened_pairs r)
    (_coordination_policy_ids r) (_command_gate r) (_crossing_holds r) (_crossing_hold_tasks
    r) (_crossing_confirmed_pairs r) (_critical_pairs r) (_hold_tasks_created r)
    (_leader_follower_observations r) (_last_leader_follower_sources r)
    (_leader_loss_policy_applied r) (_follower_loss_policy_applied r)
    (_leader_loss_intervention_latency_s r) (_allow_simulation_low_battery r)
    (_handover_children r) (_handover_runs r) (_handover_bindings r) (_handover_vehicle_ids
    r) (_child_vehicle_ids r) (_active_handover_id r) (_persistent_result r)
    (_authority_transitions r) (_dock_manager r) (_metrics r).
Definition set_separation (v : list SeparationObservation.t) (r : t) : t :=
  mk (setup r) (preparation r) (mission_runner r) (mission_tasks r) (_persistent r) (_ledger
    r) (_events r) (_children r) (_child_runs r) (_bindings r) v (_intervened_pairs r)
    (_coordination_policy_ids r) (_command_gate r) (_crossing_holds r) (_crossing_hold_tasks
    r) (_crossing_confirmed_pairs r) (_critical_pairs r) (_hold_tasks_created r)
    (_leader_follower_observations r) (_last_leader_follower_sources r)
    (_leader_loss_policy_applied r) (_follower_loss_policy_applied r)
    (_leader_loss_intervention_latency_s r) (_allow_simulation_low_battery r)
    (_handover_children r) (_handover_runs r) (_handover_bindings r) (_handover_vehicle_ids
    r) (_child_vehicle_ids r) (_active_handover_id r) (_persistent_result r)
    (_authority_transitions r) (_dock_manager r) (_metrics r).
Definition set_intervened_pairs (v : gset (string * string)) (r : t) : t :=
  mk (setup r) (preparation r) (mission_runner r) (mission_tasks r) (_persistent r) (_ledger
    r) (_events r) (_children r) (_child_runs r) (_bindings r) (_separation r) v
    (_coordination_policy_ids r) (_command_gate r) (_crossing_holds r) (_crossing_hold_tasks
    r) (_crossing_confirmed_pairs r) (_critical_pairs r) (_hold_tasks_created r)
    (_leader_follower_observations r) (_last_leader_follower_sources r)
    (_leader_loss_policy_applied r) (_follower_loss_policy_applied r)
    (_leader_loss_intervention_latency_s r) (_allow_simulation_low_battery r)
    (_handover_children r) (_handover_runs r) (_handover_bindings r) (_handover_vehicle_ids
    r) (_child_vehicle_ids r) (_active_handover_id r) (_persistent_result r)
    (_authority_transitions r) (_dock_manager r) (_metrics r).
Definition set_coordination_policy_ids (v : gset string) (r : t) : t :=
  mk (setup r) (preparation r) (mission_runner r) (mission_tasks r) (_persistent r) (_ledger
    r) (_events r) (_children r) (_child_runs r) (_bindings r) (_separation r)
    (_intervened_pairs r) v (_command_gate r) (_crossing_holds r) (_crossing_hold_tasks r)
    (_crossing_confirmed_pairs r) (_critical_pairs r) (_hold_tasks_created r)
    (_leader_follower_observations r) (_last_leader_follower_sources r)
    (_leader_loss_policy_applied r) (_follower_loss_policy_applied r)
    (_leader_loss_intervention_latency_s r) (_allow_simulation_low_battery r)
    (_handover_children r) (_handover_runs r) (_handover_bindings r) (_handover_vehicle_ids
    r) (_child_vehicle_ids r) (_active_handover_id r) (_persistent_result r)
    (_authority_transitions r) (_dock_manager r) (_metrics r).
Definition set_command_gate (v : option MissionCommandGate.t) (r : t) : t :=
  mk (setup r) (preparation r) (mission_runner r) (mission_tasks r) (_persistent r) (_ledger
    r) (_events r) (_children r) (_child_runs r) (_bindings r) (_separation r)
    (_intervened_pairs r) (_coordination_policy_ids r) v (_crossing_holds r)
    (_crossing_hold_tasks r) (_crossing_confirmed_pairs r) (_critical_pairs r)
    (_hold_tasks_created r) (_leader_follower_observations r) (_last_leader_follower_sources
    r) (_leader_loss_policy_applied r) (_follower_loss_policy_applied r)
    (_leader_loss_intervention_latency_s r) (_allow_simulation_low_battery r)
    (_handover_children r) (_handover_runs r) (_handover_bindings r) (_handover_vehicle_ids
    r) (_child_vehicle_ids r) (_active_handover_id r) (_persistent_result r)
    (_authority_transitions r) (_dock_manager r) (_metrics r).
Definition set_crossing_holds (v : gmap (string * string) string) (r : t) : t :=
  mk (setup r) (preparation r) (mission_runner r) (mission_tasks r) (_persistent r) (_ledger
    r) (_events r) (_children r) (_child_runs r) (_bindings r) (_separation r)
    (_intervened_pairs r) (_coordination_policy_ids r) (_command_gate r) v
    (_crossing_hold_tasks r) (_crossing_confirmed_pairs r) (_critical_pairs r)
    (_hold_tasks_created r) (_leader_follower_observations r) (_last_leader_follower_sources
    r) (_leader_loss_policy_applied r) (_follower_loss_policy_applied r)
    (_leader_loss_intervention_latency_s r) (_allow_simulation_low_battery r)
    (_handover_children r) (_handover_runs r) (_handover_bindings r) (_handover_vehicle_ids
    r) (_child_vehicle_ids r) (_active_handover_id r) (_persistent_result r)
    (_authority_transitions r) (_dock_manager r) (_metrics r).
Definition set_crossing_hold_tasks (v : gmap (string * string) nat) (r : t) : t :=
  mk (setup r) (preparation r) (mission_runner r) (mission_tasks r) (_persistent r) (_ledger
    r) (_events r) (_children r) (_child_runs r) (_bindings r) (_separation r)
    (_intervened_pairs r) (_coordination_policy_ids r) (_command_gate r) (_crossing_holds r)
    v (_crossing_confirmed_pairs r) (_critical_pairs r) (_hold_tasks_created r)
    (_leader_follower_observations r) (_last_leader_follower_sources r)
    (_leader_loss_policy_applied r) (_follower_loss_policy_applied r)
    (_leader_loss_intervention_latency_s r) (_allow_simulation_low_battery r)
    (_handover_children r) (_handover_runs r) (_handover_bindings r) (_handover_vehicle_ids
    r) (_child_vehicle_ids r) (_active_handover_id r) (_persistent_result r)
    (_authority_transitions r) (_dock_manager r) (_metrics r).
Definition set_crossing_confirmed_pairs (v : gset (string * string)) (r : t) : t :=
  mk (setup r) (preparation r) (mission_runner r) (mission_tasks r) (_persistent r) (_ledger
    r) (_events r) (_children r) (_child_runs r) (_bindings r) (_separation r)
    (_intervened_pairs r) (_coordination_policy_ids r) (_command_gate r) (_crossing_holds r)
    (_crossing_hold_tasks r) v (_critical_pairs r) (_hold_tasks_created r)
    (_leader_follower_observations r) (_last_leader_follower_sources r)
    (_leader_loss_policy_applied r) (_follower_loss_policy_applied r)
    (_leader_loss_intervention_latency_s r) (_allow_simulation_low_battery r)
    (_handover_children r) (_handover_runs r) (_handover_bindings r) (_handover_vehicle_ids
    r) (_child_vehicle_ids r) (_active_handover_id r) (_persistent_result r)
    (_authority_transitions r) (_dock_manager r) (_metrics r).
Definition set_critical_pairs (v : gset (string * string)) (r : t) : t :=
  mk (setup r) (preparation r) (mission_runner r) (mission_tasks r) (_persistent r) (_ledger
    r) (_events r) (_children r) (_child_runs r) (_bindings r) (_separation r)
    (_intervened_pairs r) (_coordination_policy_ids r) (_command_gate r) (_crossing_holds r)
    (_crossing_hold_tasks r) (_crossing_confirmed_pairs r) v (_hold_tasks_created r)
    (_leader_follower_observations r) (_last_leader_follower_sources r)
    (_leader_loss_policy_applied r) (_follower_loss_policy_applied r)
    (_leader_loss_intervention_latency_s r) (_allow_simulation_low_battery r)
    (_handover_children r) (_handover_runs r) (_handover_bindings r) (_handover_vehicle_ids
    r) (_child_vehicle_ids r) (_active_handover_id r) (_persistent_result r)
    (_authority_transitions r) (_dock_manager r) (_metrics r).
Definition set_hold_tasks_created (v : nat) (r : t) : t :=
  mk (setup r) (preparation r) (mission_runner r) (mission_tasks r) (_persistent r) (_ledger
    r) (_events r) (_children r) (_child_runs r) (_bindings r) (_separation r)
    (_intervened_pairs r) (_coordination_policy_ids r) (_command_gate r) (_crossing_holds r)
    (_crossing_hold_tasks r) (_crossing_confirmed_pairs r) (_critical_pairs r) v
    (_leader_follower_observations r) (_last_leader_follower_sources r)
    (_leader_loss_policy_applied r) (_follower_loss_policy_applied r)
    (_leader_loss_intervention_latency_s r) (_allow_simulation_low_battery r)
    (_handover_children r) (_handover_runs r) (_handover_bindings r) (_handover_vehicle_ids
    r) (_child_vehicle_ids r) (_active_handover_id r) (_persistent_result r)
    (_authority_transitions r) (_dock_manager r) (_metrics r).
Definition set_leader_follower_observations (v : list LeaderFollowerObservation.t) (r : t) : t :=
  mk (setup r) (preparation r) (mission_runner r) (mission_tasks r) (_persistent r) (_ledger
    r) (_events r) (_children r) (_child_runs r) (_bindings r) (_separation r)
    (_intervened_pairs r) (_coordination_policy_ids r) (_command_gate r) (_crossing_holds r)
    (_crossing_hold_tasks r) (_crossing_confirmed_pairs r) (_critical_pairs r)
    (_hold_tasks_created r) v (_last_leader_follower_sources r) (_leader_loss_policy_applied
    r) (_follower_loss_policy_applied r) (_leader_loss_intervention_latency_s r)
    (_allow_simulation_low_battery r) (_handover_children r) (_handover_runs r)
    (_handover_bindings r) (_handover_vehicle_ids r) (_child_vehicle_ids r)
    (_active_handover_id r) (_persistent_result r) (_authority_transitions r) (_dock_manager
    r) (_metrics r).
Definition set_last_leader_follower_sources (v : option (Z * Z)) (r : t) : t :=
  mk (setup r) (preparation r) (mission_runner r) (mission_tasks r) (_persistent r) (_ledger
    r) (_events r) (_children r) (_child_runs r) (_bindings r) (_separation r)
    (_intervened_pairs r) (_coordination_policy_ids r) (_command_gate r) (_crossing_holds r)
    (_crossing_hold_tasks r) (_crossing_confirmed_pairs r) (_critical_pairs r)
    (_hold_tasks_created r) (_leader_follower_observations r) v (_leader_loss_policy_applied
    r) (_follower_loss_policy_applied r) (_leader_loss_intervention_latency_s r)
    (_allow_simulation_low_battery r) (_handover_children r) (_handover_runs r)
    (_handover_bindings r) (_handover_vehicle_ids r) (_child_vehicle_ids r)
    (_active_handover_id r) (_persistent_result r) (_authority_transitions r) (_dock_manager
    r) (_metrics r).
Definition set_leader_loss_policy_applied (v : bool) (r : t) : t :=
  mk (setup r) (preparation r) (mission_runner r) (mission_tasks r) (_persistent r) (_ledger
    r) (_events r) (_children r) (_child_runs r) (_bindings r) (_separation r)
    (_intervened_pairs r) (_coordination_policy_ids r) (_command_gate r) (_crossing_holds r)
    (_crossing_hold_tasks r) (_crossing_confirmed_pairs r) (_critical_pairs r)
    (_hold_tasks_created r) (_leader_follower_observations r) (_last_leader_follower_sources
    r) v (_follower_loss_policy_applied r) (_leader_loss_intervention_latency_s r)
    (_allow_simulation_low_battery r) (_handover_children r) (_handover_runs r)
    (_handover_bindings r) (_handover_vehicle_ids r) (_child_vehicle_ids r)
    (_active_handover_id r) (_persistent_result r) (_authority_transitions r) (_dock_manager
    r) (_metrics r).
Definition set_follower_loss_policy_applied (v : bool) (r : t) : t :=
  mk (setup r) (preparation r) (mission_runner r) (mission_tasks r) (_persistent r) (_ledger
    r) (_events r) (_children r) (_child_runs r) (_bindings r) (_separation r)
    (_intervened_pairs r) (_coordination_policy_ids r) (_command_gate r) (_crossing_holds r)
    (_crossing_hold_tasks r) (_crossing_confirmed_pairs r) (_critical_pairs r)
    (_hold_tasks_created r) (_leader_follower_observations r) (_last_leader_follower_sources
    r) (_leader_loss_policy_applied r) v (_leader_loss_intervention_latency_s r)
    (_allow_simulation_low_battery r) (_handover_children r) (_handover_runs r)
    (_handover_bindings r) (_handover_vehicle_ids r) (_child_vehicle_ids r)
    (_active_handover_id r) (_persistent_result r) (_authority_transitions r) (_dock_manager
    r) (_metrics r).
Definition set_leader_loss_intervention_latency_s (v : option float) (r : t) : t :=
  mk (setup r) (preparation r) (mission_runner r) (mission_tasks r) (_persistent r) (_ledger
    r) (_events r) (_children r) (_child_runs r) (_bindings r) (_separation r)
    (_intervened_pairs r) (_coordination_policy_ids r) (_command_gate r) (_crossing_holds r)
    (_crossing_hold_tasks r) (_crossing_confirmed_pairs r) (_critical_pairs r)
    (_hold_tasks_created r) (_leader_follower_observations r) (_last_leader_follower_sources
    r) (_leader_loss_policy_applied r) (_follower_loss_policy_applied r) v
    (_allow_simulation_low_battery r) (_handover_children r) (_handover_runs r)
    (_handover_bindings r) (_handover_vehicle_ids r) (_child_vehicle_ids r)
    (_active_handover_id r) (_persistent_result r) (_authority_transitions r) (_dock_manager
    r) (_metrics r).
Definition set_allow_simulation_low_battery (v : bool) (r : t) : t :=
  mk (setup r) (preparation r) (mission_runner r) (mission_tasks r) (_persistent r) (_ledger
    r) (_events r) (_children r) (_child_runs r) (_bindings r) (_separation r)
    (_intervened_pairs r) (_coordination_policy_ids r) (_command_gate r) (_crossing_holds r)
    (_crossing_hold_tasks r) (_crossing_confirmed_pairs r) (_critical_pairs r)
    (_hold_tasks_created r) (_leader_follower_observations r) (_last_leader_follower_sources
    r) (_leader_loss_policy_applied r) (_follower_loss_policy_applied r)
    (_leader_loss_intervention_latency_s r) v (_handover_children r) (_handover_runs r)
    (_handover_bindings r) (_handover_vehicle_ids r) (_child_vehicle_ids r)
    (_active_handover_id r) (_persistent_result r) (_authority_transitions r) (_dock_manager
    r) (_metrics r).
Definition set_handover_children (v : dict nat) (r : t) : t :=
  mk (setup r) (preparation r) (mission_runner r) (mission_tasks r) (_persistent r) (_ledger
    r) (_events r) (_children r) (_child_runs r) (_bindings r) (_separation r)
    (_intervened_pairs r) (_coordination_policy_ids r) (_command_gate r) (_crossing_holds r)
    (_crossing_hold_tasks r) (_crossing_confirmed_pairs r) (_critical_pairs r)
    (_hold_tasks_created r) (_leader_follower_observations r) (_last_leader_follower_sources
    r) (_leader_loss_policy_applied r) (_follower_loss_policy_applied r)
    (_leader_loss_intervention_latency_s r) (_allow_simulation_low_battery r) v
    (_handover_runs r) (_handover_bindings r) (_handover_vehicle_ids r) (_child_vehicle_ids
    r) (_active_handover_id r) (_persistent_result r) (_authority_transitions r)
    (_dock_manager r) (_metrics r).
Definition set_handover_runs (v : dict string) (r : t) : t :=
  mk (setup r) (preparation r) (mission_runner r) (mission_tasks r) (_persistent r) (_ledger
    r) (_events r) (_children r) (_child_runs r) (_bindings r) (_separation r)
    (_intervened_pairs r) (_coordination_policy_ids r) (_command_gate r) (_crossing_holds r)
    (_crossing_hold_tasks r) (_crossing_confirmed_pairs r) (_critical_pairs r)
    (_hold_tasks_created r) (_leader_follower_observations r) (_last_leader_follower_sources
    r) (_leader_loss_policy_applied r) (_follower_loss_policy_applied r)
    (_leader_loss_intervention_latency_s r) (_allow_simulation_low_battery r)
    (_handover_children r) v (_handover_bindings r) (_handover_vehicle_ids r)
    (_child_vehicle_ids r) (_active_handover_id r) (_persistent_result r)
    (_authority_transitions r) (_dock_manager r) (_metrics r).
Definition set_handover_bindings (v : dict FleetCommandBinding.t) (r : t) : t :=
  mk (setup r) (preparation r) (mission_runner r) (mission_tasks r) (_persistent r) (_ledger
    r) (_events r) (_children r) (_child_runs r) (_bindings r) (_separation r)
    (_intervened_pairs r) (_coordination_policy_ids r) (_command_gate r) (_crossing_holds r)
    (_crossing_hold_tasks r) (_crossing_confirmed_pairs r) (_critical_pairs r)
    (_hold_tasks_created r) (_leader_follower_observations r) (_last_leader_follower_sources
    r) (_leader_loss_policy_applied r) (_follower_loss_policy_applied r)
    (_leader_loss_intervention_latency_s r) (_allow_simulation_low_battery r)
    (_handover_children r) (_handover_runs r) v (_handover_vehicle_ids r)
    (_child_vehicle_ids r) (_active_handover_id r) (_persistent_result r)
    (_authority_transitions r) (_dock_manager r) (_metrics r).
Definition set_handover_vehicle_ids (v : dict string) (r : t) : t :=
  mk (setup r) (preparation r) (mission_runner r) (mission_tasks r) (_persistent r) (_ledger
    r) (_events r) (_children r) (_child_runs r) (_bindings r) (_separation r)
    (_intervened_pairs r) (_coordination_policy_ids r) (_command_gate r) (_crossing_holds r)
    (_crossing_hold_tasks r) (_crossing_confirmed_pairs r) (_critical_pairs r)
    (_hold_tasks_created r) (_leader_follower_observations r) (_last_leader_follower_sources
    r) (_leader_loss_policy_applied r) (_follower_loss_policy_applied r)
    (_leader_loss_intervention_latency_s r) (_allow_simulation_low_battery r)
    (_handover_children r) (_handover_runs r) (_handover_bindings r) v (_child_vehicle_ids
    r) (_active_handover_id r) (_persistent_result r) (_authority_transitions r)
    (_dock_manager r) (_metrics r).
Definition set_child_vehicle_ids (v : dict string) (r : t) : t :=
  mk (setup r) (preparation r) (mission_runner r) (mission_tasks r) (_persistent r) (_ledger
    r) (_events r) (_children r) (_child_runs r) (_bindings r) (_separation r)
    (_intervened_pairs r) (_coordination_policy_ids r) (_command_gate r) (_crossing_holds r)
    (_crossing_hold_tasks r) (_crossing_confirmed_pairs r) (_critical_pairs r)
    (_hold_tasks_created r) (_leader_follower_observations r) (_last_leader_follower_sources
    r) (_leader_loss_policy_applied r) (_follower_loss_policy_applied r)
    (_leader_loss_intervention_latency_s r) (_allow_simulation_low_battery r)
    (_handover_children r) (_handover_runs r) (_handover_bindings r) (_handover_vehicle_ids
    r) v (_active_handover_id r) (_persistent_result r) (_authority_transitions r)
    (_dock_manager r) (_metrics r).
Definition set_active_handover_id (v : option string) (r : t) : t :=
  mk (setup r) (preparation r) (mission_runner r) (mission_tasks r) (_persistent r) (_ledger
    r) (_events r) (_children r) (_child_runs r) (_bindings r) (_separation r)
    (_intervened_pairs r) (_coordination_policy_ids r) (_command_gate r) (_crossing_holds r)
    (_crossing_hold_tasks r) (_crossing_confirmed_pairs r) (_critical_pairs r)
    (_hold_tasks_created r) (_leader_follower_observations r) (_last_leader_follower_sources
    r) (_leader_loss_policy_applied r) (_follower_loss_policy_applied r)
    (_leader_loss_intervention_latency_s r) (_allow_simulation_low_battery r)
    (_handover_children r) (_handover_runs r) (_handover_bindings r) (_handover_vehicle_ids
    r) (_child_vehicle_ids r) v (_persistent_result r) (_authority_transitions r)
    (_dock_manager r) (_metrics r).
Definition set_persistent_result (v : option PersistentCoverageResult.t) (r : t) : t :=
  mk (setup r) (preparation r) (mission_runner r) (mission_tasks r) (_persistent r) (_ledger
    r) (_events r) (_children r) (_child_runs r) (_bindings r) (_separation r)
    (_intervened_pairs r) (_coordination_policy_ids r) (_command_gate r) (_crossing_holds r)
    (_crossing_hold_tasks r) (_crossing_confirmed_pairs r) (_critical_pairs r)
    (_hold_tasks_created r) (_leader_follower_observations r) (_last_leader_follower_sources
    r) (_leader_loss_policy_applied r) (_follower_loss_policy_applied r)
    (_leader_loss_intervention_latency_s r) (_allow_simulation_low_battery r)
    (_handover_children r) (_handover_runs r) (_handover_bindings r) (_handover_vehicle_ids
    r) (_child_vehicle_ids r) (_active_handover_id r) v (_authority_transitions r)
    (_dock_manager r) (_metrics r).
Definition set_authority_transitions (v : list Receipt) (r : t) : t :=
  mk (setup r) (preparation r) (mission_runner r) (mission_tasks r) (_persistent r) (_ledger
    r) (_events r) (_children r) (_child_runs r) (_bindings r) (_separation r)
    (_intervened_pairs r) (_coordination_policy_ids r) (_command_gate r) (_crossing_holds r)
    (_crossing_hold_tasks r) (_crossing_confirmed_pairs r) (_critical_pairs r)
    (_hold_tasks_created r) (_leader_follower_observations r) (_last_leader_follower_sources
    r) (_leader_loss_policy_applied r) (_follower_loss_policy_applied r)
    (_leader_loss_intervention_latency_s r) (_allow_simulation_low_battery r)
    (_handover_children r) (_handover_runs r) (_handover_bindings r) (_handover_vehicle_ids
    r) (_child_vehicle_ids r) (_active_handover_id r) (_persistent_result r) v
    (_dock_manager r) (_metrics r).
Definition set_dock_manager (v : option DockManager.t) (r : t) : t :=
  mk (setup r) (preparation r) (mission_runner r) (mission_tasks r) (_persistent r) (_ledger
    r) (_events r) (_children r) (_child_runs r) (_bindings r) (_separation r)
    (_intervened_pairs r) (_coordination_policy_ids r) (_command_gate r) (_crossing_holds r)
    (_crossing_hold_tasks r) (_crossing_confirmed_pairs r) (_critical_pairs r)
    (_hold_tasks_created r) (_leader_follower_observations r) (_last_leader_follower_sources
    r) (_leader_loss_policy_applied r) (_follower_loss_policy_applied r)
    (_leader_loss_intervention_latency_s r) (_allow_simulation_low_battery r)
    (_handover_children r) (_handover_runs r) (_handover_bindings r) (_handover_vehicle_ids
    r) (_child_vehicle_ids r) (_active_handover_id r) (_persistent_result r)
    (_authority_transitions r) v (_metrics r).
Definition set_metrics (v : option collector) (r : t) : t :=
  mk (setup r) (preparation r) (mission_runner r) (mission_tasks r) (_persistent r) (_ledger
    r) (_events r) (_children r) (_child_runs r) (_bindings r) (_separation r)
    (_intervened_pairs r) (_coordination_policy_ids r) (_command_gate r) (_crossing_holds r)
    (_crossing_hold_tasks r) (_crossing_confirmed_pairs r) (_critical_pairs r)
    (_hold_tasks_created r) (_leader_follower_observations r) (_last_leader_follower_sources
    r) (_leader_loss_policy_applied r) (_follower_loss_policy_applied r)
    (_leader_loss_intervention_latency_s r) (_allow_simulation_low_battery r)
    (_handover_children r) (_handover_runs r) (_handover_bindings r) (_handover_vehicle_ids
    r) (_child_vehicle_ids r) (_active_handover_id r) (_persistent_result r)
    (_authority_transitions r) (_dock_manager r) v.
End FleetCoordinator.
Notation Fleet := FleetCoordinator.t.

(** What a coroutine of the coordinator waits for: what the supervisor waits for,
    a timer, a mission, a transition of the authority of a mission, a task that
    confirms a hold, and the gate.  [Forever] is the rest of a polling loop whose
    rounds are used up: it is never answered, only cancelled. *)
Inductive frequest : Type -> Type :=
| OfVehicle {B : Type} (q : request B) : frequest B
| Pause (seconds : float) : frequest unit
| MissionEnded (task : nat) : frequest unit
| MissionsEnded (tasks : list nat) : frequest unit
| TransitionAuthority (mission_run_id : string) (transition : Transition) : frequest Receipt
| HoldEnded (task : nat) : frequest unit
| HoldsEnded (tasks : list nat) : frequest unit
| GateBlocked (vehicle_id : string) (timeout_s : float) : frequest unit
| Forever : frequest Empty_set.

Notation fleet A := (co Fleet frequest A).

Definition forever {A} : fleet A :=
  Await Forever (fun r : outcome Empty_set =>
                   match r with
                   | Ret x => match x with end
                   | Raise e => Finish (Raise e)
                   end).

(** Run on an attribute that may be [None]. *)
Definition zoom_some {S T A} (pi : S -> option T) (upd : option T -> S -> S) (e : exn) (m : M T A) :
    M S A := fun s n =>
  match pi s with
  | Some t => match m t n with (o, t', n') => (o, upd (Some t') s, n') end
  | None => (Raise e, s, n)
  end.

(** [self.tasks] *)
Definition tasks (self : Fleet) : TaskLedger.t :=
  match FleetCoordinator._persistent self with
  | Some p => PersistentCoverageCoordinator.tasks p
  | None => FleetCoordinator._ledger self
  end.
Definition set_tasks (v : TaskLedger.t) (self : Fleet) : Fleet :=
  match FleetCoordinator._persistent self with
  | Some p => FleetCoordinator.set_persistent (Some (PersistentCoverageCoordinator.set_tasks v p)) self
  | None => FleetCoordinator.set_ledger v self
  end.

(** [self.supervisor], which is the one of the preparation *)
Definition fleet_supervisor (self : Fleet) : Sup :=
  FleetPreparation.supervisor (FleetCoordinator.preparation self).

Definition on_preparation {A} (m : M Prep A) : M Fleet A :=
  zoom FleetCoordinator.preparation FleetCoordinator.set_preparation m.
Definition on_supervisor {A} (m : M Sup A) : M Fleet A :=
  on_preparation (Preparation.on_supervisor m).
Definition on_tasks {A} (m : M TaskLedger.t A) : M Fleet A := zoom tasks set_tasks m.
Definition on_persistent {A} (m : M PersistentCoverageCoordinator.t A) : M Fleet A :=
  zoom_some FleetCoordinator._persistent FleetCoordinator.set_persistent AssertionError m.
Definition on_docks {A} (m : M DockManager.t A) : M Fleet A :=
  zoom_some FleetCoordinator._dock_manager FleetCoordinator.set_dock_manager AssertionError m.
Definition on_runner {A} (m : M MissionRunner.t A) : M Fleet A :=
  zoom FleetCoordinator.mission_runner FleetCoordinator.set_mission_runner m.
(** [_require_crossing_command_gate] *)
Definition on_gate {A} (m : M Gate A) : M Fleet A :=
  zoom_some FleetCoordinator._command_gate FleetCoordinator.set_command_gate
    (CrazySwarmError INVALID_STATE "crossing separation policy has no mission command gate") m.

Definition via_supervisor {A} (c : coro A) : fleet A :=
  co_inject (@OfVehicle)
    (co_zoom FleetCoordinator.preparation FleetCoordinator.set_preparation
       (Preparation.via_supervisor c)).
