(* ===== verification/Coordinator.v ===== *)
(** * Fleet coordinator: operations ([fleet/coordinator.py])

    Assignment, launch, separation, crossing holds, leader and follower
    policies, failure policies, cleanup, result and the run of a fleet without
    persistent coverage.

    Operations that never suspend are computations on the attributes, the others
    coroutines.  A polling loop runs as long as the world lets it; [rounds] bounds
    its rounds, after which it stays suspended ([forever]), so what holds for
    every bound holds for the loop. *)

From S2P Require Import Prelude Float64 Effects Contracts Artifacts.
From S2P Require Import Tasks Persistent Docks Zones Safety PlanContracts Routes Intents.
From S2P Require Import Trajectory Planning Telemetry Commands Missions Authority.
From S2P Require Import Deconfliction Multidrone Coroutines Supervisor Preparation Metrics Fleet.

Notation setup := FleetCoordinator.setup.
Notation deployment_of self := (FleetSetup.deployment (FleetCoordinator.setup self)).
Notation constraints_of self := (DeploymentManifest.constraints (deployment_of self)).
Notation identity_of self := (FleetSetup.identity (FleetCoordinator.setup self)).
Notation session_of self := (FleetSessionIdentity.fleet_session_id (identity_of self)).
Notation run_of self := (FleetSessionIdentity.fleet_run_id (identity_of self)).
Notation policy_of self := (SafetySupervisor.policy (fleet_supervisor self)).

Definition airborne_states : list VehicleState.t :=
  [VehicleState.ARMING; VehicleState.TAKING_OFF; VehicleState.FLYING; VehicleState.RETURNING;
   VehicleState.LANDING].

Definition has_code (code : ErrorCode) (e : exn) : bool :=
  match e with CrazySwarmError c _ => c ≟ code | _ => false end.

(** [except CrazySwarmError as error: if error.code is IDENTITY_MISMATCH: raise] *)
Definition recoverable (e : exn) : bool := is_CrazySwarmError e && negb (has_code IDENTITY_MISMATCH e).

(** [task_type.startswith(prefix)] *)
Definition starts_with (prefix s : string) : bool := String.prefix prefix s.

(** [state.value] and [status.value] *)
Definition TaskState_value (s : TaskState.t) : string :=
  match s with
  | TaskState.DECLARED => "DECLARED"
  | TaskState.ASSIGNED => "ASSIGNED"
  | TaskState.IN_PROGRESS => "IN_PROGRESS"
  | TaskState.PAUSED => "PAUSED"
  | TaskState.RETRY_PENDING => "RETRY_PENDING"
  | TaskState.COMPLETED => "COMPLETED"
  | TaskState.ABORTED => "ABORTED"
  end.

Definition MissionStatus_value (s : MissionStatus.t) : string :=
  match s with
  | MissionStatus.SUCCEEDED => "SUCCEEDED"
  | MissionStatus.ABORTED => "ABORTED"
  | MissionStatus.FAILED => "FAILED"
  end.

(** What the coordinator knows of a pair before it acts. *)
Module PairView.
Record t := mk {
  first : string;
  second : string;
  first_sample : TelemetryEnvelope.t;
  second_sample : TelemetryEnvelope.t;
  distance : float;
  level : SeparationLevel.t;
  policy_id : string;
}.
End PairView.

Inductive PairDecision := Intervene | Release | Observe.

Section coordinator.
Context `{CK : Clock} `{LM : Libm} `{DG : Digest}.

(** ** Events and metrics *)

(** [_emit] *)
Definition emit (event_type : string) (vehicle_id task_id : option string) : M Fleet unit :=
  self ← get;
  now ← read_clock;
  let event := FleetEvent.mk (session_of self) (run_of self)
      (DeploymentManifest_sha256 (deployment_of self))
      (Z.of_nat (length (FleetCoordinator._events self)) + 1) event_type now vehicle_id task_id in
  _ ← validated "FleetEvent" (FleetEvent_valid event) tt;
  modify (FleetCoordinator.set_events (FleetCoordinator._events self ++ [event])).

(** [_metric] *)
Definition metric (kind : FleetMetricKind.t) (correlation_id : string)
    (vehicle_id task_id : option string) (value : option float) (stage : option string) :
    M Fleet unit :=
  self ← get;
  if is_none (FleetCoordinator._metrics self) then mret tt
  else
    now ← read_clock;
    _ ← zoom_some FleetCoordinator._metrics FleetCoordinator.set_metrics AssertionError
          (record_metric kind now correlation_id vehicle_id task_id value None stage);
    mret tt.

(** ** Vehicles and missions *)

Definition session_state (vehicle_id : string) : M Fleet VehicleState.t :=
  on_supervisor (a ← session vehicle_id; x ← deref a; mret (VehicleSession.state x)).

(** [self.supervisor.session(vehicle_id).vehicle], a vehicle whose identity is verified *)
Definition verified_vehicle (vehicle_id : string) : M Fleet Vehicle.t :=
  lifecycle ← on_preparation (vehicle vehicle_id);
  _ ← raise_if (FleetVehicleLifecycle.registration lifecycle ≠? RegistrationState.VERIFIED)
        (CrazySwarmError IDENTITY_MISMATCH "vehicle identity is not verified");
  on_supervisor (a ← session vehicle_id; x ← deref a; mret (VehicleSession.vehicle x)).

Definition observed (vehicle_id : string) (telemetry : TelemetryEnvelope.t) :
    M Fleet TelemetryEnvelope.t :=
  _ ← raise_if (negb (String.eqb (TelemetryEnvelope.vehicle_id telemetry) vehicle_id))
        (CrazySwarmError IDENTITY_MISMATCH "fleet observation was cross-routed");
  _ ← on_supervisor (receive_telemetry telemetry);
  mret telemetry.

Definition observation_for (vehicle_id : string) : fleet TelemetryEnvelope.t :=
  v ← sync (verified_vehicle vehicle_id);
  telemetry ← await (OfVehicle (Snapshot v None));
  sync (observed vehicle_id telemetry).

(** [self._children[task_id]] and its state *)
Definition item_of {A} (d : Fleet -> dict A) (key : string) : M Fleet A :=
  self ← get; lift (some_or KeyError (dict_get key (d self))).
Definition mission_task (task : nat) : M Fleet MissionTask.t :=
  self ← get; lift (some_or KeyError (FleetCoordinator.mission_tasks self !! task)).
Definition is_done (task : nat) : M Fleet bool := t ← mission_task task; mret (task_done t).

(** The undone test of a task, without effects. *)
Definition undone (self : Fleet) (task : nat) : bool :=
  match FleetCoordinator.mission_tasks self !! task with
  | Some t => negb (task_done t)
  | None => false
  end.

(** [await child] *)
Definition await_mission (task : nat) : fleet MissionResult.t :=
  t ← sync (mission_task task);
  match MissionTask.ended t with
  | Some o => Finish o
  | None =>
      _ ← await (MissionEnded task);
      t ← sync (mission_task task);
      match MissionTask.ended t with
      | Some o => Finish o
      | None => co_raise (OtherError "InvalidStateError")
      end
  end.

(** [asyncio.create_task(...)] *)
Definition create_mission_task (arguments : MissionArguments.t) : M Fleet nat :=
  self ← get;
  let created := FleetCoordinator.mission_tasks self in
  _ ← modify (FleetCoordinator.set_mission_tasks
                (created ++ [MissionTask.mk arguments false None]));
  mret (length created).

(** [task.cancel()] *)
Definition cancel_task (task : nat) : M Fleet unit :=
  modify (fun self => FleetCoordinator.set_mission_tasks
            (alter task_cancel task (FleetCoordinator.mission_tasks self)) self).

(** [await self.mission_runner.cancel(run_id)] *)
Definition cancel_mission (mission_run_id : string) : M Fleet unit :=
  task ← on_runner (cancel_run mission_run_id);
  match task with Some i => cancel_task i | None => mret tt end.

(** [self.mission_runner.get_run(run_id).phase] *)
Definition phase_of (mission_run_id : string) : M Fleet MissionPhase.t :=
  self ← get;
  snapshot ← lift (get_run mission_run_id (FleetCoordinator.mission_runner self));
  mret (MissionRunSnapshot.phase snapshot).

(** *** [abort_vehicle] *)

(** The body of the loop over the tasks of the vehicle. *)
Definition abort_task (vehicle_id : string) (task_id : string) : M Fleet unit :=
  self ← get;
  _ ← match dict_get task_id (FleetCoordinator._child_runs self) with
      | Some run_id => cancel_mission run_id
      | None => mret tt
      end;
  emit "VEHICLE_ABORT_REQUESTED" (Some vehicle_id) (Some task_id).

(** The body of the loop over [_handover_runs]. *)
Definition abort_handover (vehicle_id : string) (item : string * string) : M Fleet unit :=
  let '(handover_id, run_id) := item in
  child ← item_of FleetCoordinator._handover_children handover_id;
  binding ← item_of FleetCoordinator._handover_bindings handover_id;
  owner ← item_of FleetCoordinator._handover_vehicle_ids handover_id;
  done ← is_done child;
  if String.eqb owner vehicle_id && negb done then
    _ ← cancel_mission run_id;
    emit "VEHICLE_ABORT_REQUESTED" (Some vehicle_id) (Some (FleetCommandBinding.task_id binding))
  else mret tt.

(** The tasks of the vehicle whose mission is not done; a task without a child
    raises. *)
Fixpoint active_tasks (vehicle_id : string) (items : dict string) : M Fleet (list string) :=
  match items with
  | [] => mret []
  | (task_id, child_vehicle_id) :: rest =>
      if String.eqb child_vehicle_id vehicle_id then
        child ← item_of FleetCoordinator._children task_id;
        done ← is_done child;
        more ← active_tasks vehicle_id rest;
        mret (if done : bool then more else task_id :: more)
      else active_tasks vehicle_id rest
  end.

Definition abort_vehicle (vehicle_id : string) : M Fleet unit :=
  self ← get;
  task_ids ← active_tasks vehicle_id (FleetCoordinator._child_vehicle_ids self);
  _ ← for_each task_ids (abort_task vehicle_id);
  self ← get;
  for_each (FleetCoordinator._handover_runs self) (abort_handover vehicle_id).

(** ** Assignment and launch *)

Definition _validate_assignments (assignments : dict string) : M Fleet unit :=
  self ← get;
  let declared_tasks := DeploymentTaskDefinition.task_id <$> DeploymentManifest.tasks (deployment_of self) in
  let declared_vehicles :=
    FleetMemberDefinition.vehicle_id <$> DeploymentManifest.fleet (deployment_of self) in
  let vehicles := dict_values assignments in
  let unknown_tasks := filter (fun t => t ∉ declared_tasks) (dict_keys assignments) in
  let unknown_vehicles := filter (fun v => v ∉ declared_vehicles) vehicles in
  let duplicated_vehicles := filter (fun v => (1 < count_if (String.eqb v) vehicles)%Z) vehicles in
  let missing_tasks := filter (fun t => t ∉ dict_keys assignments) declared_tasks in
  raise_if (negb (bool_decide (unknown_tasks = [])) || negb (bool_decide (unknown_vehicles = []))
            || negb (bool_decide (duplicated_vehicles = []))
            || (CompletionPolicy.require_all_tasks
                  (DeploymentManifest.completion_policy (deployment_of self))
                && negb (bool_decide (missing_tasks = []))))
    (CrazySwarmError INVALID_COMMAND "fleet task assignments do not match the deployment").

(** [set(l)] *)
Definition string_set (l : list string) : gset string := list_to_set l.

Definition _policy_launch_order (assignments : dict string) : M Fleet (list string) :=
  self ← get;
  match FleetSetup.policy_decision (setup self) with
  | None => mret (sorted_keys assignments)
  | Some decision =>
      let roles := string_set (dict_keys assignments) in
      _ ← raise_if (negb (bool_decide (string_set (FleetPolicyDecision.active_role_ids decision) = roles))
                    || negb (bool_decide (string_set (FleetPolicyDecision.launch_order decision) = roles)))
            (CrazySwarmError IDENTITY_MISMATCH
               "fleet assignments do not match the accepted policy decision");
      mret (FleetPolicyDecision.launch_order decision)
  end.

(** The body of the loop of [run] that assigns the tasks. *)
Definition assign_task (assignments : dict string) (task_id : string) : M Fleet unit :=
  vehicle_id ← lift (some_or KeyError (dict_get task_id assignments));
  lifecycle ← on_preparation (vehicle vehicle_id);
  let battery := (FleetVehicleLifecycle.latest_telemetry lifecycle) ≫=
                   (fun e => VehicleTelemetry.battery_percent (TelemetryEnvelope.telemetry e)) in
  capabilities ← on_supervisor (a ← session vehicle_id; x ← deref a;
                                mret (features (Vehicle.capabilities (VehicleSession.vehicle x))));
  self ← get;
  _ ← on_tasks (Tasks.assign task_id vehicle_id capabilities battery
                  (FleetCoordinator._allow_simulation_low_battery self) None);
  emit "TASK_ASSIGNED" (Some vehicle_id) (Some task_id).

(** [hash[:24]] *)
Definition first24 (s : string) : string := String.substring 0 24 s.

Definition new_binding (vehicle_id task_id : string) (generation : Z) : M Fleet FleetCommandBinding.t :=
  self ← get;
  selected ← lift (Artifacts.binding (FleetPreparation.binding (FleetCoordinator.preparation self))
                     vehicle_id);
  let b := FleetCommandBinding.mk (session_of self) (run_of self)
      (DeploymentManifest_sha256 (deployment_of self)) task_id generation
      (BackendVehicleBinding.backend_identifier selected) in
  validated "FleetCommandBinding" (FleetCommandBinding_valid b) b.

(** [d[key] = value] of an attribute *)
Definition set_item {A} (upd : dict A -> Fleet -> Fleet) (d : Fleet -> dict A) (key : string)
    (value : A) : M Fleet unit :=
  modify (fun self => upd (dict_set key value (d self)) self).

Definition _start_child (task_id : string) : M Fleet unit :=
  record0 ← on_tasks (Tasks.record task_id);
  match TaskRecord.owner_vehicle_id record0, TaskRecord.lease record0 with
  | Some vehicle_id, Some lease =>
      self ← get;
      let generation := TaskLease.generation lease in
      let child_run_id := "child-" +:+ first24 (canonical_sha256
          (JList [JStr (run_of self); JStr task_id; JInt generation])) in
      binding ← new_binding vehicle_id task_id generation;
      _ ← on_tasks (Tasks.start task_id vehicle_id child_run_id generation None);
      _ ← set_item FleetCoordinator.set_child_runs FleetCoordinator._child_runs task_id child_run_id;
      _ ← set_item FleetCoordinator.set_bindings FleetCoordinator._bindings task_id binding;
      _ ← set_item FleetCoordinator.set_child_vehicle_ids FleetCoordinator._child_vehicle_ids
            task_id vehicle_id;
      let program := dict_get task_id (FleetSetup.accepted_execution_programs (setup self)) in
      let definition := TaskRecord.definition record0 in
      child ← create_mission_task (MissionArguments.mk
                (DeploymentTaskDefinition.mission_id definition) vehicle_id
                (DeploymentTaskDefinition.mission_parameters definition) child_run_id binding task_id
                (is_some (FleetCoordinator._command_gate self)) true
                (FleetCoordinator._allow_simulation_low_battery self)
                (if is_some program then FleetSetup.accepted_plan_id (setup self) else None)
                (if is_some program then FleetSetup.accepted_plan_sha256 (setup self) else None)
                program);
      _ ← set_item FleetCoordinator.set_children FleetCoordinator._children task_id child;
      emit "CHILD_START_REQUESTED" (Some vehicle_id) (Some task_id)
  | _, _ => raise (CrazySwarmError INVALID_STATE "assigned task has no current lease")
  end.

Definition launched_phases : list MissionPhase.t :=
  [MissionPhase.TAKING_OFF; MissionPhase.EXECUTING; MissionPhase.LANDING; MissionPhase.COMPLETE].

(** The condition of the loop and its body up to the sleep: whether to stop. *)
Definition launch_checked (run_id : string) (child : nat) : M Fleet bool :=
  done ← is_done child;
  if done : bool then mret true
  else
    try_except (phase ← phase_of run_id; mret (phase ∈? launched_phases)) is_CrazySwarmError
      (fun _ => mret false).

Fixpoint await_launch (rounds : nat) (run_id : string) (child : nat) : fleet unit :=
  match rounds with
  | O => forever
  | S rounds' =>
      stop ← sync (launch_checked run_id child);
      if stop : bool then mret tt
      else _ ← await (Pause f0); await_launch rounds' run_id child
  end.

Definition _await_sequential_launch_checkpoint (rounds : nat) (task_id : string) : fleet unit :=
  run_id ← sync (item_of FleetCoordinator._child_runs task_id);
  child ← sync (item_of FleetCoordinator._children task_id);
  _ ← await_launch rounds run_id child;
  sync (emit "SEQUENTIAL_LAUNCH_CHECKPOINT" None (Some task_id)).

(** ** Separation *)

Definition _distance (first second : Vector3) : outcome float := v_distance first second.

Definition _separation_level (constraints : FleetConstraints.t) (distance_m : float) :
    SeparationLevel.t :=
  if fleb distance_m (FleetConstraints.critical_separation_m constraints)
  then SeparationLevel.CRITICAL
  else if fleb distance_m (FleetConstraints.warning_separation_m constraints)
  then SeparationLevel.WARNING
  else SeparationLevel.CLEAR.

Definition _separation_policy_id (first second : string) (self : Fleet) : string :=
  let pair_task_ids := string_set (fst <$> filter (fun kv => kv.2 ∈ [first; second])
                                             (FleetCoordinator._child_vehicle_ids self)) in
  let crossing := FleetSetup._crossing_task_ids (setup self) in
  if negb (bool_decide (crossing = ∅)) && bool_decide (pair_task_ids = crossing)
  then CROSSING_SEPARATION_POLICY_ID
  else GENERIC_SEPARATION_POLICY_ID.

(** *** Crossing holds *)

(** [_request_crossing_hold] *)
Definition _request_crossing_hold (pair : string * string) (vehicle_id reason : string) :
    M Fleet string :=
  _ ← on_gate (hold vehicle_id reason);
  _ ← modify (fun self => FleetCoordinator.set_crossing_holds
                (<[pair := vehicle_id]> (FleetCoordinator._crossing_holds self)) self);
  _ ← modify (fun self => FleetCoordinator.set_crossing_hold_tasks
                (<[pair := FleetCoordinator._hold_tasks_created self]>
                   (FleetCoordinator._crossing_hold_tasks self)) self);
  _ ← modify (fun self => FleetCoordinator.set_hold_tasks_created
                (S (FleetCoordinator._hold_tasks_created self)) self);
  mret ("HOLD_REQUESTED_" +:+ vehicle_id).

(** The end of the task that confirms the hold of the pair, if it is another task
    than [me]: it leaves the table and is cancelled and awaited. *)
Definition end_hold_task (me : option nat) (pair : string * string) : fleet unit :=
  self ← sync (self ← get;
               _ ← modify (FleetCoordinator.set_crossing_hold_tasks
                             (delete pair (FleetCoordinator._crossing_hold_tasks self)));
               mret self);
  match FleetCoordinator._crossing_hold_tasks self !! pair with
  | Some task =>
      if bool_decide (me = Some task) then mret tt
      else co_try (await (HoldEnded task)) is_cancelled (fun _ => mret tt)
  | None => mret tt
  end.

(** [self._crossing_holds.pop(pair, None)] and the end of the confirmation *)
Definition pop_hold (pair : string * string) : M Fleet (option string) :=
  self ← get;
  _ ← modify (FleetCoordinator.set_crossing_holds (delete pair (FleetCoordinator._crossing_holds self)));
  _ ← modify (fun self => FleetCoordinator.set_crossing_confirmed_pairs
                (FleetCoordinator._crossing_confirmed_pairs self ∖ {[pair]}) self);
  mret (FleetCoordinator._crossing_holds self !! pair).

Definition _release_crossing_hold (me : option nat) (pair : string * string) : fleet string :=
  vehicle_id ← sync (
    self ← get;
    vehicle_id ← lift (some_or KeyError (FleetCoordinator._crossing_holds self !! pair));
    _ ← pop_hold pair;
    mret vehicle_id);
  _ ← end_hold_task me pair;
  sync (_ ← on_gate (release vehicle_id); mret ("RELEASE_" +:+ vehicle_id)).

Definition _abort_crossing_pair (me : option nat) (pair : string * string) (active : list string) :
    fleet unit :=
  _ ← end_hold_task me pair;
  sync (
    held_vehicle ← pop_hold pair;
    self ← get;
    _ ← match held_vehicle with
        | Some v => if is_some (FleetCoordinator._command_gate self) then on_gate (release v) else mret tt
        | None => mret tt
        end;
    for_each (py_sorted str_ltb active) abort_vehicle).

(** [self.mission_runner.current_fleet_binding(run_id)], which must be there *)
Definition serialized_binding (run_id message : string) : M Fleet FleetCommandBinding.t :=
  self ← get;
  binding ← lift (current_fleet_binding run_id (FleetCoordinator.mission_runner self));
  lift (some_or (CrazySwarmError IDENTITY_MISMATCH message) binding).

Definition hold_lost : string := "crossing hold lost its serialized fleet command binding".

(** The child mission of the vehicle, its run and its binding. *)
Definition held_mission (vehicle_id : string) : M Fleet (string * string * FleetCommandBinding.t) :=
  self ← get;
  task ← lift (some_or (CrazySwarmError IDENTITY_MISMATCH
                          "crossing hold vehicle has no child mission task")
                 (find_first (fun kv => String.eqb kv.2 vehicle_id)
                    (FleetCoordinator._child_vehicle_ids self)));
  run_id ← item_of FleetCoordinator._child_runs task.1;
  binding ← serialized_binding run_id hold_lost;
  mret (task.1, run_id, binding).

Definition command_hold (vehicle_id run_id : string) (binding : FleetCommandBinding.t) : fleet unit :=
  discard (via_supervisor (stop_and_hold vehicle_id ("mission:" +:+ run_id) CommandSource.SUPERVISOR
                             (Some run_id) (Some binding))).

(** One round of the loop that refreshes the hold, after its sleep: the binding to
    command with, if the vehicle is still held and flying. *)
Definition refresh_due (vehicle_id run_id : string) : M Fleet (option FleetCommandBinding.t) :=
  h ← on_gate (held vehicle_id);
  state ← (if h : bool then session_state vehicle_id else mret VehicleState.FLYING);
  if negb h || (state ≠? VehicleState.FLYING) then mret None
  else binding ← serialized_binding run_id hold_lost; mret (Some binding).

Fixpoint refresh_hold (rounds : nat) (vehicle_id run_id : string) (period : float) : fleet unit :=
  match rounds with
  | O => forever
  | S rounds' =>
      h ← sync (on_gate (held vehicle_id));
      if negb h then mret tt
      else
        _ ← await (Pause period);
        due ← sync (refresh_due vehicle_id run_id);
        _ ← match due with
            | Some binding => command_hold vehicle_id run_id binding
            | None => mret tt
            end;
        refresh_hold rounds' vehicle_id run_id period
  end.

(** The [try] of [_confirm_crossing_hold]. *)
Definition confirm_hold (rounds : nat) (pair : string * string) (vehicle_id : string) : fleet unit :=
  _ ← sync (on_gate (require_vehicle vehicle_id));
  _ ← await (GateBlocked vehicle_id (float_of_Z 2));
  mission ← sync (held_mission vehicle_id);
  let '(task_id, run_id, binding) := mission in
  _ ← command_hold vehicle_id run_id binding;
  period ← sync (
    _ ← modify (fun self => FleetCoordinator.set_crossing_confirmed_pairs
                  (FleetCoordinator._crossing_confirmed_pairs self ∪ {[pair]}) self);
    _ ← emit "SEPARATION_HOLD_CONFIRMED" (Some vehicle_id) (Some task_id);
    self ← get;
    mret (py_fmin (flit 25 100)
            (fdiv_ieee (FleetConstraints.observation_freshness_s (constraints_of self))
               (float_of_Z 3))));
  refresh_hold rounds vehicle_id run_id period.

(** [me] is the task that runs it. *)
Definition _confirm_crossing_hold (rounds : nat) (me : nat) (pair : string * string)
    (vehicle_id : string) : fleet unit :=
  _ ← sync (on_gate (mret tt));
  co_try (confirm_hold rounds pair vehicle_id)
    (fun e => (e ≟ TimeoutError) || is_CrazySwarmError e)
    (fun _ =>
       _ ← sync (emit "SEPARATION_HOLD_FAILED" (Some vehicle_id) None);
       _abort_crossing_pair (Some me) pair [pair.1; pair.2]).

(** *** Intervention *)

(** The vehicles of a pair that are airborne. *)
Definition active_of_pair (first second : string) : M Fleet (list string) :=
  s1 ← session_state first;
  s2 ← session_state second;
  mret ((if s1 ∈? airborne_states then [first] else [])
        ++ (if s2 ∈? airborne_states then [second] else [])).

Definition ordered_pair (first second : string) : string * string :=
  if str_ltb second first then (second, first) else (first, second).

Definition _separation_intervention (first second : string) (level : SeparationLevel.t)
    (policy_id : string) : fleet string :=
  active ← sync (active_of_pair first second);
  match py_max str_ltb active with
  | None => mret "BLOCK_LAUNCH"
  | Some victim =>
      if String.eqb policy_id CROSSING_SEPARATION_POLICY_ID then
        let pair := ordered_pair first second in
        if level ≟ SeparationLevel.WARNING
        then sync (_request_crossing_hold pair victim "WARNING_CROSSING_SEPARATION")
        else
          _ ← _abort_crossing_pair None pair active;
          mret ("ABORT_PAIR_" +:+ String.concat "_" (py_sorted str_ltb active))
      else sync (_ ← abort_vehicle victim; mret ("ABORT_" +:+ victim))
  end.

(** [should_intervene] and [should_release] *)
Definition should_intervene (self : Fleet) (pair : string * string) (level : SeparationLevel.t)
    (crossing : bool) : bool :=
  ((level ≠? SeparationLevel.CLEAR) && negb (pair ∈? FleetCoordinator._intervened_pairs self))
  || (crossing && (level ≟ SeparationLevel.CRITICAL)
      && negb (pair ∈? FleetCoordinator._critical_pairs self)).

Definition should_release (self : Fleet) (pair : string * string) (level : SeparationLevel.t)
    (crossing : bool) (distance : float) : bool :=
  crossing && (level ≟ SeparationLevel.CLEAR)
  && is_some (FleetCoordinator._crossing_holds self !! pair)
  && (pair ∈? FleetCoordinator._crossing_confirmed_pairs self)
  && fleb (fadd (FleetConstraints.warning_separation_m (constraints_of self))
                CROSSING_RELEASE_MARGIN_M) distance.

Definition pair_of (v : PairView.t) : string * string := (PairView.first v, PairView.second v).
Definition crossing_pair (v : PairView.t) : bool :=
  String.eqb (PairView.policy_id v) CROSSING_SEPARATION_POLICY_ID.

Definition position_of (e : TelemetryEnvelope.t) : option Vector3 :=
  VehicleTelemetry.position_m (TelemetryEnvelope.telemetry e).

Definition view_pair (samples : dict TelemetryEnvelope.t) (pair : string * string) :
    M Fleet (option PairView.t) :=
  first_sample ← lift (some_or KeyError (dict_get pair.1 samples));
  second_sample ← lift (some_or KeyError (dict_get pair.2 samples));
  match position_of first_sample, position_of second_sample with
  | Some p, Some q =>
      distance ← lift (_distance p q);
      self ← get;
      mret (Some (PairView.mk pair.1 pair.2 first_sample second_sample distance
                    (_separation_level (constraints_of self) distance)
                    (_separation_policy_id pair.1 pair.2 self)))
  | _, _ => mret None
  end.

(** After an intervention, which started at [detected_at_s]. *)
Definition intervention_noted (v : PairView.t) (detected_at_s : float) : M Fleet float :=
  now ← read_clock;
  _ ← modify (fun self => FleetCoordinator.set_intervened_pairs
                (FleetCoordinator._intervened_pairs self ∪ {[pair_of v]}) self);
  _ ← (if PairView.level v ≟ SeparationLevel.CRITICAL
       then modify (fun self => FleetCoordinator.set_critical_pairs
                      (FleetCoordinator._critical_pairs self ∪ {[pair_of v]}) self)
       else mret tt);
  _ ← modify (fun self => FleetCoordinator.set_coordination_policy_ids
                (FleetCoordinator._coordination_policy_ids self ∪ {[PairView.policy_id v]}) self);
  mret (fsub now detected_at_s).

Definition release_noted (v : PairView.t) (detected_at_s : float) : M Fleet float :=
  now ← read_clock;
  _ ← modify (fun self => FleetCoordinator.set_intervened_pairs
                (FleetCoordinator._intervened_pairs self ∖ {[pair_of v]}) self);
  mret (fsub now detected_at_s).

Definition decide_pair (v : PairView.t) : M Fleet (PairDecision * float) :=
  self ← get;
  let pair := pair_of v in
  if should_intervene self pair (PairView.level v) (crossing_pair v)
  then now ← read_clock; mret (Intervene, now)
  else if should_release self pair (PairView.level v) (crossing_pair v) (PairView.distance v)
  then now ← read_clock; mret (Release, now)
  else mret (Observe, f0).

(** The action taken for a pair, and its latency. *)
Definition act_on_pair (v : PairView.t) : fleet (string * option float) :=
  decision ← sync (decide_pair v);
  match decision.1 with
  | Intervene =>
      action ← _separation_intervention (PairView.first v) (PairView.second v) (PairView.level v)
                 (PairView.policy_id v);
      latency ← sync (intervention_noted v decision.2);
      mret (action, Some latency)
  | Release =>
      action ← _release_crossing_hold None (pair_of v);
      latency ← sync (release_noted v decision.2);
      mret (action, Some latency)
  | Observe => mret ("NONE", None)
  end.

Definition note_observation (v : PairView.t) (action : string) (latency : option float) :
    M Fleet SeparationObservation.t :=
  self ← get;
  now ← read_clock;
  let fs := PairView.first_sample v in
  let ss := PairView.second_sample v in
  let o := SeparationObservation.mk (session_of self) (run_of self) (PairView.first v)
      (PairView.second v) (PairView.distance v) (PairView.level v) action (PairView.policy_id v)
      (TelemetryEnvelope.source_clock_id fs) (TelemetryEnvelope.source_clock_epoch fs)
      (TelemetryEnvelope.sequence fs) (TelemetryEnvelope.source_clock_id ss)
      (TelemetryEnvelope.source_clock_epoch ss) (TelemetryEnvelope.sequence ss) latency now in
  _ ← validated "SeparationObservation" (SeparationObservation_valid o) tt;
  _ ← modify (fun self => FleetCoordinator.set_separation
                (FleetCoordinator._separation self ++ [o]) self);
  _ ← metric FleetMetricKind.SEPARATION_OBSERVED (PairView.first v +:+ ":" +:+ PairView.second v)
        None None (Some (PairView.distance v)) None;
  _ ← (if String.eqb action "NONE" then mret tt
       else emit (if starts_with "RELEASE_" action then "SEPARATION_RELEASED"
                  else "SEPARATION_INTERVENTION") (Some (PairView.second v)) None);
  mret o.

(** The pairs in order: the observations made, and whether a launch is blocked. *)
Fixpoint observe_pairs (samples : dict TelemetryEnvelope.t) (remaining : list (string * string))
    (observations : list SeparationObservation.t) (launch_blocked : bool) :
    fleet (list SeparationObservation.t * bool) :=
  match remaining with
  | [] => mret (observations, launch_blocked)
  | p :: rest =>
      view ← sync (view_pair samples p);
      match view with
      | None => observe_pairs samples rest observations launch_blocked
      | Some v =>
          acted ← act_on_pair v;
          o ← sync (note_observation v acted.1 acted.2);
          observe_pairs samples rest (observations ++ [o])
            (launch_blocked || String.eqb acted.1 "BLOCK_LAUNCH")
      end
  end.

(** The vehicle could not be observed. *)
Definition observation_unavailable (vehicle_id : string) : M Fleet unit :=
  _ ← emit "FLEET_OBSERVATION_UNAVAILABLE" (Some vehicle_id) None;
  metric FleetMetricKind.FAULT_DETECTED vehicle_id (Some vehicle_id) None None None.

(** The samples with a position, of the members that are airborne or of all. *)
Fixpoint separation_samples (active_only : bool) (members : list FleetMemberDefinition.t)
    (samples : dict TelemetryEnvelope.t) : fleet (dict TelemetryEnvelope.t) :=
  match members with
  | [] => mret samples
  | member :: rest =>
      let vehicle_id := FleetMemberDefinition.vehicle_id member in
      state ← sync (session_state vehicle_id);
      if active_only && negb (state ∈? airborne_states)
      then separation_samples active_only rest samples
      else
        sample ← co_try (t ← observation_for vehicle_id; mret (Some t)) recoverable
                   (fun _ => _ ← sync (observation_unavailable vehicle_id); mret None);
        separation_samples active_only rest
          (match sample with
           | Some t => if is_some (position_of t) then dict_set vehicle_id t samples else samples
           | None => samples
           end)
  end.

Definition enforce_separation (active_only : bool) : fleet (list SeparationObservation.t) :=
  self ← sync get;
  samples ← separation_samples active_only (DeploymentManifest.fleet (deployment_of self)) [];
  observed ← observe_pairs samples (Persistent.pairs (sorted_keys samples)) [] false;
  if observed.2 : bool
  then co_raise (CrazySwarmError PREFLIGHT_FAILED
                   "warning or critical separation prevents fleet launch")
  else mret observed.1.

(** ** Freshness *)

Definition observation_stale (now : float) (x : VehicleSession.t) (constraints : FleetConstraints.t) :
    bool :=
  match VehicleSession.telemetry_received_at_monotonic_s x with
  | None => true
  | Some received => fltb (FleetConstraints.observation_freshness_s constraints) (fsub now received)
  end.

(** The body of the loop of [_enforce_freshness]. *)
Definition enforce_fresh (now : float) (item : string * nat) : M Fleet unit :=
  let '(task_id, child) := item in
  done ← is_done child;
  if done : bool then mret tt
  else
    record0 ← on_tasks (Tasks.record task_id);
    match TaskRecord.owner_vehicle_id record0 with
    | None => mret tt
    | Some vehicle_id =>
        x ← on_supervisor (a ← session vehicle_id; deref a);
        self ← get;
        if observation_stale now x (constraints_of self) then
          _ ← abort_vehicle vehicle_id;
          emit "STALE_MEMBER_ABORTED" (Some vehicle_id) (Some task_id)
        else mret tt
    end.

Definition _enforce_freshness : M Fleet unit :=
  now ← read_clock;
  self ← get;
  for_each (FleetCoordinator._children self) (enforce_fresh now).

(** ** Recovery proposals *)

Definition _record_recovery_proposal (trigger : RecoveryTrigger.t) (task_id vehicle_id : string)
    (available_actions : gset PlanContracts.RecoveryAction.t) (observation_current : bool) :
    M Fleet unit :=
  self ← get;
  match FleetSetup.planning_bundle (setup self) with
  | None => mret tt
  | Some planning =>
      registry ← lift default_recovery_registry;
      strategy ← lift (resolve ("recovery." +:+ string_map lower_dashed (RecoveryTrigger_value trigger))
                         "1.0.0" ∅ true registry);
      task_record ← on_tasks (Tasks.record task_id);
      let request := RecoveryRequest.mk
          ("recovery-" +:+ run_of self +:+ "-"
           +:+ pretty (Z.of_nat (length (FleetCoordinator._events self)) + 1))
          (run_of self) trigger task_id vehicle_id available_actions observation_current
          (bool_decide (TaskRecord.owner_vehicle_id task_record = Some vehicle_id))
          (Some (TaskRecord.lease_generation task_record)) COORDINATION_INTERVENTION_BOUND_S in
      _ ← validated "RecoveryRequest" (RecoveryRequest_valid request) tt;
      proposal ← lift (RecoveryStrategy.propose strategy request);
      admission ← lift (authorize_recovery (policy_of self)
          (MissionIntent.safety_declaration (PlanningBundle.mission_intent planning))
          request proposal);
      _ ← emit "RECOVERY_PROPOSAL_EVALUATED" (Some vehicle_id) (Some task_id);
      raise_if (negb (SafetyAdmission.authorized admission))
        (CrazySwarmError PREFLIGHT_FAILED "Safety Kernel rejected the selected recovery proposal")
  end.

(** ** Leader and follower *)

Definition task_owner (task_id : string) : M Fleet (option string) :=
  record0 ← on_tasks (Tasks.record task_id); mret (TaskRecord.owner_vehicle_id record0).

Definition abort_owner (owner : option string) : M Fleet unit :=
  match owner with Some v => abort_vehicle v | None => mret tt end.

Definition add_policy_id (policy_id : string) : M Fleet unit :=
  modify (fun self => FleetCoordinator.set_coordination_policy_ids
            (FleetCoordinator._coordination_policy_ids self ∪ {[policy_id]}) self).

Definition _apply_leader_loss_policy : M Fleet unit :=
  self ← get;
  match FleetSetup._leader_follower_task_ids (setup self) with
  | None => mret tt
  | Some (leader_task_id, follower_task_id) =>
      if FleetCoordinator._leader_loss_policy_applied self then mret tt
      else
        _ ← modify (FleetCoordinator.set_leader_loss_policy_applied true);
        _ ← add_policy_id LEADER_LOSS_POLICY_ID;
        detected_at_s ← read_clock;
        leader ← task_owner leader_task_id;
        follower ← task_owner follower_task_id;
        _ ← emit "LEADER_LOSS_DETECTED" leader (Some leader_task_id);
        _ ← match follower with
            | Some v => _record_recovery_proposal RecoveryTrigger.LEADER_LOSS follower_task_id v
                          {[PlanContracts.RecoveryAction.LAND;
                            PlanContracts.RecoveryAction.ABORT_AND_LAND]} true
            | None => mret tt
            end;
        _ ← abort_owner follower;
        _ ← abort_owner leader;
        now ← read_clock;
        _ ← modify (FleetCoordinator.set_leader_loss_intervention_latency_s
                      (Some (fsub now detected_at_s)));
        emit "LEADER_LOSS_POLICY_APPLIED" follower (Some follower_task_id)
  end.

Definition _apply_follower_loss_policy : M Fleet unit :=
  self ← get;
  match FleetSetup._leader_follower_task_ids (setup self) with
  | None => mret tt
  | Some (leader_task_id, follower_task_id) =>
      if FleetCoordinator._follower_loss_policy_applied self then mret tt
      else
        _ ← modify (FleetCoordinator.set_follower_loss_policy_applied true);
        _ ← add_policy_id FOLLOWER_LOSS_POLICY_ID;
        _ ← read_clock;
        leader ← task_owner leader_task_id;
        follower ← task_owner follower_task_id;
        _ ← emit "FOLLOWER_LOSS_DETECTED" follower (Some follower_task_id);
        _ ← abort_owner leader;
        _ ← abort_owner follower;
        _ ← read_clock;
        emit "FOLLOWER_LOSS_POLICY_APPLIED" leader (Some leader_task_id)
  end.

Definition ended_phases : list MissionPhase.t := [MissionPhase.CLEANUP; MissionPhase.COMPLETE].

(** [with suppress(CrazySwarmError): phase = ...; if phase in {...}: return] *)
Definition mission_over (run_id : option string) : M Fleet bool :=
  match run_id with
  | Some r => try_except (phase ← phase_of r; mret (phase ∈? ended_phases)) is_CrazySwarmError
                (fun _ => mret false)
  | None => mret false
  end.

(** The reason the sample itself is a loss, in the order of the checks. *)
Definition sample_loss (policy : SafetyPolicy.t) (telemetry : VehicleTelemetry.t) : option string :=
  let state := VehicleTelemetry.state telemetry in
  if state ≟ VehicleState.DISCONNECTED then Some (ErrorCode_value LINK_LOST)
  else if state ∈? [VehicleState.FAULT; VehicleState.EMERGENCY]
  then Some ("TERMINAL_STATE_" +:+ VehicleState_value state)
  else if match VehicleTelemetry.localization_quality_percent telemetry with
          | None => true
          | Some q => fltb q (SafetyPolicy.minimum_localization_quality_percent policy)
          end
  then Some (ErrorCode_value LOCALIZATION_INVALID)
  else match VehicleTelemetry.position_m telemetry with
       | None => Some "POSITION_UNAVAILABLE"
       | Some p => if Safety.contains (SafetyPolicy.flight_volume policy) p then None
                   else Some (ErrorCode_value GEOFENCE_BREACH)
       end.

(** The last check: the sample is too old for the supervisor. *)
Definition reception_loss (vehicle_id : string) : M Fleet (option string) :=
  received ← on_supervisor (a ← session vehicle_id; x ← deref a;
                            mret (VehicleSession.telemetry_received_at_monotonic_s x));
  match received with
  | None => mret (Some (ErrorCode_value TELEMETRY_STALE))
  | Some r =>
      now ← read_clock;
      self ← get;
      mret (if fltb (FleetConstraints.observation_freshness_s (constraints_of self)) (fsub now r)
            then Some (ErrorCode_value TELEMETRY_STALE) else None)
  end.

(** After the observation. *)
Definition sample_assessed (child : nat) (run_id : option string) (vehicle_id : string)
    (sample : TelemetryEnvelope.t) : M Fleet (option TelemetryEnvelope.t * option string) :=
  done ← is_done child;
  over ← (if done : bool then mret true else mission_over run_id);
  if over : bool then mret (None, None)
  else
    self ← get;
    reason ← match sample_loss (policy_of self) (TelemetryEnvelope.telemetry sample) with
             | Some reason => mret (Some reason)
             | None => reception_loss vehicle_id
             end;
    mret (Some sample, reason).

Definition error_value (e : exn) : string :=
  match e with CrazySwarmError code _ => ErrorCode_value code | _ => "" end.

(** The child of the task and its run, unless its mission is over. *)
Definition mission_watched (task_id : string) : M Fleet (option (nat * option string)) :=
  self ← get;
  match dict_get task_id (FleetCoordinator._children self) with
  | None => mret None
  | Some child =>
      done ← is_done child;
      let run_id := dict_get task_id (FleetCoordinator._child_runs self) in
      over ← (if done : bool then mret true else mission_over run_id);
      mret (if over : bool then None else Some (child, run_id))
  end.

Definition _coordination_observation (task_id vehicle_id : string) :
    fleet (option TelemetryEnvelope.t * option string) :=
  watched ← sync (mission_watched task_id);
  match watched with
  | None => mret (None, None)
  | Some (child, run_id) =>
      sample ← co_try (t ← observation_for vehicle_id; mret (inl t)) recoverable
                 (fun e => mret (inr (error_value e)));
      match sample with
      | inr reason => mret (None, Some reason)
      | inl t => sync (sample_assessed child run_id vehicle_id t)
      end
  end.

Definition _coordination_loss_requires_recovery (task_id : string) : M Fleet bool :=
  self ← get;
  match dict_get task_id (FleetCoordinator._children self) with
  | None => mret false
  | Some child =>
      done ← is_done child;
      if done : bool then mret false
      else match dict_get task_id (FleetCoordinator._child_runs self) with
           | None => mret true
           | Some run_id =>
               try_except (phase ← phase_of run_id; mret (negb (phase ∈? ended_phases)))
                 is_CrazySwarmError (fun _ => mret true)
           end
  end.

(** [_boundary_margin] *)
Definition _boundary_margin (position : Vector3) (policy : SafetyPolicy.t) : float :=
  let volume := SafetyPolicy.flight_volume policy in
  let lo := FlightVolume.minimum_m volume in
  let hi := FlightVolume.maximum_m volume in
  py_fmax f0 (py_min_from fltb (fsub (v_x position) (v_x lo))
    [fsub (v_x hi) (v_x position); fsub (v_y position) (v_y lo); fsub (v_y hi) (v_y position);
     fsub (v_z position) (v_z lo); fsub (v_z hi) (v_z position)]).

(** The observation of a pair of current samples, unless it was made already. *)
Definition note_formation (leader follower : string)
    (leader_sample follower_sample : TelemetryEnvelope.t) : M Fleet unit :=
  self ← get;
  match position_of leader_sample, position_of follower_sample with
  | Some leader_position, Some follower_position =>
      let sources := (TelemetryEnvelope.sequence leader_sample,
                      TelemetryEnvelope.sequence follower_sample) in
      if bool_decide (FleetCoordinator._last_leader_follower_sources self = Some sources)
         || (MAX_COORDINATION_OBSERVATIONS
             <=? Z.of_nat (length (FleetCoordinator._leader_follower_observations self)))
      then mret tt
      else
        _ ← modify (FleetCoordinator.set_last_leader_follower_sources (Some sources));
        leader_member ← lift (Artifacts.member (deployment_of self) leader);
        follower_member ← lift (Artifacts.member (deployment_of self) follower);
        let expected := v_subtract (FleetMemberDefinition.home follower_member)
                          (FleetMemberDefinition.home leader_member) in
        a ← lift (assess_leader_follower leader_position follower_position expected
                    (VehicleTelemetry.velocity_m_s (TelemetryEnvelope.telemetry leader_sample))
                    (VehicleTelemetry.velocity_m_s (TelemetryEnvelope.telemetry follower_sample)));
        now ← read_clock;
        let o := LeaderFollowerObservation.mk (session_of self) (run_of self) leader follower expected
            (LeaderFollowerAssessment.expected_follower_position_m a)
            (LeaderFollowerAssessment.observed_offset_m a)
            (LeaderFollowerAssessment.relative_velocity_m_s a)
            (LeaderFollowerAssessment.tracking_error_m a)
            (LeaderFollowerAssessment.speed_error_m_s a) (LeaderFollowerAssessment.separation_m a)
            (py_fmin (_boundary_margin leader_position (policy_of self))
                     (_boundary_margin follower_position (policy_of self)))
            (TelemetryEnvelope.source_clock_id leader_sample)
            (TelemetryEnvelope.source_clock_epoch leader_sample)
            (TelemetryEnvelope.sequence leader_sample)
            (TelemetryEnvelope.source_clock_id follower_sample)
            (TelemetryEnvelope.source_clock_epoch follower_sample)
            (TelemetryEnvelope.sequence follower_sample) now in
        _ ← validated "LeaderFollowerObservation" (LeaderFollowerObservation_valid o) tt;
        modify (fun self => FleetCoordinator.set_leader_follower_observations
                  (FleetCoordinator._leader_follower_observations self ++ [o]) self)
  | _, _ => mret tt
  end.

(** Who leads and who follows, unless a loss policy was applied or a task has no
    owner. *)
Definition formation : M Fleet (option (string * string * string * string)) :=
  self ← get;
  match FleetSetup._leader_follower_task_ids (setup self) with
  | None => mret None
  | Some (leader_task, follower_task) =>
      if FleetCoordinator._leader_loss_policy_applied self
         || FleetCoordinator._follower_loss_policy_applied self then mret None
      else
        leader ← task_owner leader_task;
        follower ← task_owner follower_task;
        match leader, follower with
        | Some l, Some f => mret (Some (leader_task, follower_task, l, f))
        | _, _ => mret None
        end
  end.

(** What follows from the two observations. *)
Definition formation_assessed (leader_task follower_task leader follower : string)
    (leader_observed follower_observed : option TelemetryEnvelope.t * option string) :
    M Fleet unit :=
  leader_lost ← (if is_some leader_observed.2 then _coordination_loss_requires_recovery leader_task
                 else mret false);
  if leader_lost : bool then _apply_leader_loss_policy
  else
    follower_lost ← (if is_some follower_observed.2
                     then _coordination_loss_requires_recovery follower_task else mret false);
    if follower_lost : bool then _apply_follower_loss_policy
    else match leader_observed.1, follower_observed.1 with
         | Some ls, Some fs => note_formation leader follower ls fs
         | _, _ => mret tt
         end.

Definition _monitor_leader_follower : fleet unit :=
  who ← sync formation;
  match who with
  | None => mret tt
  | Some (leader_task, follower_task, leader, follower) =>
      leader_observed ← _coordination_observation leader_task leader;
      follower_observed ← _coordination_observation follower_task follower;
      sync (formation_assessed leader_task follower_task leader follower
              leader_observed follower_observed)
  end.

(** ** The end of a mission *)

(** [for task_id, child in self._children.items()] with awaits in the body: an
    insertion meanwhile is an error of the language. *)
Fixpoint children_from (fuel size index : nat) (body : string * nat -> fleet unit) : fleet unit :=
  match fuel with
  | O => mret tt
  | S fuel' =>
      item ← sync (self ← get;
                   let items := FleetCoordinator._children self in
                   _ ← raise_if (negb (length items =? size)%nat) (OtherError "RuntimeError");
                   mret (items !! index));
      match item with
      | None => mret tt
      | Some i => _ ← body i; children_from fuel' size (S index) body
      end
  end.

Definition for_children (body : string * nat -> fleet unit) : fleet unit :=
  self ← sync get;
  let size := length (FleetCoordinator._children self) in
  children_from (S size) size 0 body.

(** The peer a failure policy applies to: its vehicle and its run. *)
Definition policy_peer (failed_task_id : string) (item : string * nat) :
    M Fleet (option (string * string)) :=
  let '(task_id, child) := item in
  if String.eqb task_id failed_task_id then mret None
  else
    done ← is_done child;
    if done : bool then mret None
    else
      owner ← task_owner task_id;
      self ← get;
      mret (match owner, dict_get task_id (FleetCoordinator._child_runs self) with
            | Some vehicle_id, Some run_id => Some (vehicle_id, run_id)
            | _, _ => None
            end).

(** [HOLD_ALL] for one peer: hold it where it flies. *)
Definition hold_peer (task_id vehicle_id run_id : string) : fleet unit :=
  state ← sync (session_state vehicle_id);
  _ ← (if state ≟ VehicleState.FLYING
       then co_try (binding ← sync (item_of FleetCoordinator._bindings task_id);
                    command_hold vehicle_id run_id binding)
              is_CrazySwarmError (fun _ => mret tt)
       else mret tt);
  sync (emit "PEER_POLICY_HOLD" (Some vehicle_id) (Some task_id)).

Definition apply_to_peer (policy : FleetFailurePolicy.t) (failed_task_id : string)
    (item : string * nat) : fleet unit :=
  peer ← sync (policy_peer failed_task_id item);
  match peer with
  | None => mret tt
  | Some (vehicle_id, run_id) =>
      _ ← (if policy ≟ FleetFailurePolicy.HOLD_ALL then hold_peer item.1 vehicle_id run_id
           else sync (emit "PEER_POLICY_LAND" (Some vehicle_id) (Some item.1)));
      sync (cancel_mission run_id)
  end.

Definition _apply_child_failure_policy (failed_task_id : string) : fleet unit :=
  self ← sync get;
  let policy := FleetConstraints.child_failure_policy (constraints_of self) in
  if policy ≟ FleetFailurePolicy.CONTINUE_HEALTHY
  then sync (emit "PEER_POLICY_CONTINUE" None (Some failed_task_id))
  else for_children (apply_to_peer policy failed_task_id).

(** The ledger after the end of a mission, and the event to emit. *)
Definition settle_task (task_id vehicle_id : string) (record0 : TaskRecord.t) (lease : TaskLease.t)
    (result : MissionResult.t) : M Fleet string :=
  let generation := TaskLease.generation lease in
  match MissionResult.status result with
  | MissionStatus.SUCCEEDED =>
      _ ← on_tasks (update_progress task_id vehicle_id generation
            (DeploymentTaskDefinition.completion_progress_percent (TaskRecord.definition record0)) None);
      _ ← on_tasks (Tasks.complete task_id vehicle_id generation "completion criteria met" None);
      mret "TASK_COMPLETED"
  | MissionStatus.ABORTED =>
      _ ← on_tasks (Tasks.abort task_id (MissionResult.reason_code result));
      mret "TASK_ABORTED"
  | MissionStatus.FAILED =>
      _ ← on_tasks (Tasks.retry task_id (MissionResult.reason_code result));
      mret "TASK_RETRY_REQUIRED"
  end.

(** The loss policy a failed leader or follower triggers. *)
Definition formation_failed (task_id : string) : M Fleet unit :=
  self ← get;
  match FleetSetup._leader_follower_task_ids (setup self) with
  | Some (leader_task, follower_task) =>
      if String.eqb task_id leader_task && negb (FleetCoordinator._follower_loss_policy_applied self)
      then _apply_leader_loss_policy
      else if String.eqb task_id follower_task && negb (FleetCoordinator._leader_loss_policy_applied self)
      then _apply_follower_loss_policy
      else mret tt
  | None => mret tt
  end.

(** Everything of [_finish_task] before the failure policy, which applies if the
    mission did not succeed. *)
Definition task_finished (task_id : string) (result : MissionResult.t) : M Fleet bool :=
  record0 ← on_tasks (Tasks.record task_id);
  match TaskRecord.owner_vehicle_id record0, TaskRecord.lease record0 with
  | Some vehicle_id, Some lease =>
      event_type ← settle_task task_id vehicle_id record0 lease result;
      _ ← emit event_type (Some vehicle_id) (Some task_id);
      if MissionResult.status result ≟ MissionStatus.SUCCEEDED then mret false
      else _ ← formation_failed task_id; mret true
  | _, _ => mret false
  end.

Definition _finish_task (task_id : string) (result : MissionResult.t) : fleet unit :=
  failed ← sync (task_finished task_id result);
  if failed : bool then _apply_child_failure_policy task_id else mret tt.

(** ** Monitoring *)

(** One child of the loop of [_monitor_children]: whether it is still pending. *)
Definition renew_child (task_id : string) : M Fleet (option nat) :=
  child ← item_of FleetCoordinator._children task_id;
  record0 ← on_tasks (Tasks.record task_id);
  done ← is_done child;
  if done : bool then mret (Some child)
  else
    _ ← match TaskRecord.owner_vehicle_id record0, TaskRecord.lease record0 with
        | Some owner, Some lease =>
            _ ← on_tasks (Tasks.renew task_id owner (TaskLease.generation lease) None); mret tt
        | _, _ => mret tt
        end;
    mret None.

(** The children in order; the tasks that stay pending. *)
Fixpoint monitor_tasks (task_ids : list string) (pending : list string) : fleet (list string) :=
  match task_ids with
  | [] => mret pending
  | task_id :: rest =>
      done ← sync (renew_child task_id);
      match done with
      | None => monitor_tasks rest pending
      | Some child =>
          result ← await_mission child;
          _ ← _finish_task task_id result;
          monitor_tasks rest (filter (fun t => t <> task_id) pending)
      end
  end.

Definition poll_period (self : Fleet) : float :=
  if negb (bool_decide (FleetSetup._crossing_task_ids (setup self) = ∅))
     || is_some (FleetSetup._leader_follower_task_ids (setup self))
  then f0 else FleetSetup.monitor_period_s (setup self).

Fixpoint monitor_rounds (rounds : nat) (pending : list string) : fleet unit :=
  match pending with
  | [] => mret tt
  | _ =>
      match rounds with
      | O => forever
      | S rounds' =>
          _ ← enforce_separation true;
          _ ← _monitor_leader_follower;
          _ ← sync _enforce_freshness;
          pending' ← monitor_tasks (py_sorted str_ltb pending) pending;
          self ← sync get;
          _ ← (if bool_decide (pending' = []) then mret tt else await (Pause (poll_period self)));
          monitor_rounds rounds' pending'
      end
  end.

Definition _monitor_children (rounds : nat) : fleet unit :=
  self ← sync get;
  monitor_rounds rounds (dict_keys (FleetCoordinator._children self)).

(** ** Cleanup *)

Definition transitional_states : list VehicleState.t :=
  airborne_states ++ [VehicleState.ABORTING].

(** The last dictionary of the two [update]s, by vehicle. *)
Definition command_contexts : M Fleet (dict (string * FleetCommandBinding.t)) :=
  self ← get;
  children ← lift (mapM (fun kv : string * string =>
      vehicle_id ← some_or KeyError (dict_get kv.1 (FleetCoordinator._child_vehicle_ids self));
      binding ← some_or KeyError (dict_get kv.1 (FleetCoordinator._bindings self));
      Ret (vehicle_id, (kv.2, binding))) (FleetCoordinator._child_runs self));
  handovers ← lift (mapM (fun kv : string * string =>
      vehicle_id ← some_or KeyError (dict_get kv.1 (FleetCoordinator._handover_vehicle_ids self));
      binding ← some_or KeyError (dict_get kv.1 (FleetCoordinator._handover_bindings self));
      Ret (vehicle_id, (kv.2, binding))) (FleetCoordinator._handover_runs self));
  mret (dict_of fst snd (children ++ handovers)).

(** The supervised stop of one vehicle: the error that is left, if any. *)
Definition stop_member (a : nat) (vehicle_id owner_id mission_run_id reason : string)
    (binding : FleetCommandBinding.t) : fleet (option exn) :=
  stop_error ← co_try
    (_ ← via_supervisor (emergency_stop vehicle_id owner_id ("bounded fleet cleanup: " +:+ reason) true
                           (Some mission_run_id) (Some binding)); mret None)
    recoverable (fun e => mret (Some e));
  owned ← sync (x ← on_supervisor (deref a);
                mret (match VehicleSession.lease x with
                      | Some l => String.eqb (ControlLease.owner_id l) owner_id
                      | None => false
                      end));
  if owned : bool
  then co_try (_ ← via_supervisor (release_control vehicle_id owner_id true); mret stop_error)
         recoverable (fun e => mret (match stop_error with Some _ => stop_error | None => Some e end))
  else mret stop_error.

(** What the vehicle was last seen as, or the last telemetry of its session. *)
Definition cleanup_observation (a : nat) (vehicle_id task_id : string) :
    fleet (option TelemetryEnvelope.t) :=
  co_try (t ← observation_for vehicle_id; mret (Some t)) recoverable
    (fun _ => sync (
       x ← on_supervisor (deref a);
       _ ← emit "BOUNDED_CLEANUP_OBSERVATION_UNAVAILABLE" (Some vehicle_id) (Some task_id);
       mret (VehicleSession.telemetry x))).

Definition settled (x : VehicleSession.t) (telemetry : option TelemetryEnvelope.t) : bool :=
  negb (VehicleSession.state x ∈? transitional_states)
  && match telemetry with
     | Some e => negb (VehicleTelemetry.armed (TelemetryEnvelope.telemetry e))
                 && negb (VehicleTelemetry.flying (TelemetryEnvelope.telemetry e))
     | None => false
     end.

(** The owner to stop the vehicle as, unless it is settled. *)
Definition cleanup_owner (a : nat) (vehicle_id : string) (telemetry : option TelemetryEnvelope.t) :
    M Fleet (option string) :=
  x ← on_supervisor (deref a);
  if settled x telemetry then mret None
  else
    self ← get;
    match VehicleSession.lease x with
    | Some l => mret (Some (ControlLease.owner_id l))
    | None =>
        let owner_id := "fleet-cleanup:" +:+ run_of self in
        _ ← on_supervisor (claim_control vehicle_id owner_id None);
        mret (Some owner_id)
    end.

Definition settle_member (reason : string)
    (item : string * (string * FleetCommandBinding.t)) : fleet unit :=
  let '(vehicle_id, (mission_run_id, binding)) := item in
  let task_id := FleetCommandBinding.task_id binding in
  a ← sync (on_supervisor (session vehicle_id));
  telemetry ← cleanup_observation a vehicle_id task_id;
  owner ← sync (cleanup_owner a vehicle_id telemetry);
  match owner with
  | None => mret tt
  | Some owner_id =>
      error ← stop_member a vehicle_id owner_id mission_run_id reason binding;
      sync (emit (if is_some error then "BOUNDED_CLEANUP_UNCONFIRMED"
                  else "BOUNDED_CLEANUP_STABILIZED") (Some vehicle_id) (Some task_id))
  end.

Definition _settle_interrupted_members (reason : string) : fleet unit :=
  contexts ← sync command_contexts;
  co_for_each (sorted_items contexts) (settle_member reason).

(** The crossing holds, once their tasks have ended. *)
Definition clear_holds : M Fleet unit :=
  _ ← modify (FleetCoordinator.set_crossing_hold_tasks ∅);
  _ ← modify (FleetCoordinator.set_crossing_holds ∅);
  _ ← modify (FleetCoordinator.set_crossing_confirmed_pairs ∅);
  self ← get;
  if is_some (FleetCoordinator._command_gate self) then on_gate release_all else mret tt.

(** A child that is not done is cancelled unless its vehicle lands. *)
Definition cancel_child (item : string * nat) : M Fleet unit :=
  let '(task_id, child) := item in
  done ← is_done child;
  if done : bool then mret tt
  else
    vehicle_id ← item_of FleetCoordinator._child_vehicle_ids task_id;
    state ← session_state vehicle_id;
    if state ≟ VehicleState.LANDING then mret tt
    else
      self ← get;
      match dict_get task_id (FleetCoordinator._child_runs self) with
      | Some run_id => cancel_mission run_id
      | None => mret tt
      end.

Definition cancel_handover_child (item : string * nat) : M Fleet unit :=
  let '(handover_id, child) := item in
  done ← is_done child;
  if done : bool then mret tt
  else
    vehicle_id ← item_of FleetCoordinator._handover_vehicle_ids handover_id;
    state ← session_state vehicle_id;
    if state ≟ VehicleState.LANDING then mret tt else cancel_task child.

(** [await asyncio.gather(..., return_exceptions=True)] if there is a task *)
Definition gather_missions (children : Fleet -> dict nat) : fleet unit :=
  self ← sync get;
  if bool_decide (children self = []) then mret tt
  else await (MissionsEnded (dict_values (children self))).

(** The tasks that are left are aborted. *)
Definition abort_tasks (reason : string) : M Fleet unit :=
  self ← get;
  for_each (records (tasks self)) (fun r =>
    if TaskRecord.state r ∈? [TaskState.COMPLETED; TaskState.ABORTED] then mret tt
    else _ ← on_tasks (Tasks.abort (DeploymentTaskDefinition.task_id (TaskRecord.definition r)) reason);
         mret tt).

Definition _cancel_all (reason : string) : fleet unit :=
  self ← sync get;
  let holds := snd <$> map_to_list (FleetCoordinator._crossing_hold_tasks self) in
  _ ← (if bool_decide (holds = []) then mret tt else await (HoldsEnded holds));
  _ ← sync (_ ← clear_holds;
            self ← get;
            for_each (FleetCoordinator._children self) cancel_child);
  _ ← gather_missions FleetCoordinator._children;
  _ ← sync (self ← get; for_each (FleetCoordinator._handover_children self) cancel_handover_child);
  _ ← gather_missions FleetCoordinator._handover_children;
  _ ← _settle_interrupted_members reason;
  sync (abort_tasks reason).

(** [cancel] *)
Definition cancel_fleet (reason : string) : fleet unit := _cancel_all reason.

(** [all(child.done() for child in children.values())] *)
Definition all_done (children : dict nat) : M Fleet bool :=
  self ← get; mret (forallb (fun c => negb (undone self c)) (dict_values children)).

Definition shutdown (reason : string) : fleet unit :=
  ended ← sync (self ← get;
                c ← all_done (FleetCoordinator._children self);
                h ← all_done (FleetCoordinator._handover_children self);
                mret (c && h));
  if ended : bool then mret tt else _cancel_all reason.

(** ** Results *)

Definition child_result (task_id : string) (generation : Z) (result : MissionResult.t) :
    outcome FleetChildResult.t :=
  let r := FleetChildResult.mk task_id (MissionResult.vehicle_id result) generation result in
  checked "FleetChildResult" (FleetChildResult_valid r) r.

(** The result of one child, if it returned. *)
Definition ended_child (self : Fleet) (child : nat) : option MissionResult.t :=
  FleetCoordinator.mission_tasks self !! child ≫= task_result.

Definition ended_task (self : Fleet) (task_id : string) : outcome (list FleetChildResult.t) :=
  child ← some_or KeyError (dict_get task_id (FleetCoordinator._children self));
  match ended_child self child with
  | None => Ret []
  | Some result =>
      binding ← some_or KeyError (dict_get task_id (FleetCoordinator._bindings self));
      r ← child_result task_id (FleetCommandBinding.task_lease_generation binding) result;
      Ret [r]
  end.

Definition ended_handover (self : Fleet) (handover_id : string) : outcome (list FleetChildResult.t) :=
  child ← some_or KeyError (dict_get handover_id (FleetCoordinator._handover_children self));
  match ended_child self child with
  | None => Ret []
  | Some result =>
      binding ← some_or KeyError (dict_get handover_id (FleetCoordinator._handover_bindings self));
      r ← child_result (FleetCommandBinding.task_id binding)
            (FleetCommandBinding.task_lease_generation binding) result;
      Ret [r]
  end.

Definition _child_results (self : Fleet) : outcome (list FleetChildResult.t) :=
  children ← mapM (ended_task self) (sorted_keys (FleetCoordinator._children self));
  handovers ← mapM (ended_handover self) (sorted_keys (FleetCoordinator._handover_children self));
  Ret (concat children ++ concat handovers).

Definition event_trace (e : FleetEvent.t) : json := JObj [
  ("kind", JStr "fleet_event"); ("event_type", JStr (FleetEvent.event_type e));
  ("vehicle_id", json_opt JStr (FleetEvent.vehicle_id e));
  ("task_id", json_opt JStr (FleetEvent.task_id e))].

Definition task_trace (r : TaskRecord.t) : json := JObj [
  ("kind", JStr "task_terminal");
  ("task_id", JStr (DeploymentTaskDefinition.task_id (TaskRecord.definition r)));
  ("vehicle_id", json_opt JStr (TaskRecord.owner_vehicle_id r));
  ("state", JStr (TaskState_value (TaskRecord.state r)));
  ("progress_percent", JFloat (TaskRecord.progress_percent r));
  ("lease_generation", JInt (TaskRecord.lease_generation r))].

Definition child_trace (c : FleetChildResult.t) : json := JObj [
  ("kind", JStr "child_terminal"); ("task_id", JStr (FleetChildResult.task_id c));
  ("vehicle_id", JStr (FleetChildResult.vehicle_id c));
  ("status", JStr (MissionStatus_value (MissionResult.status (FleetChildResult.mission_result c))));
  ("reason_code", JStr (MissionResult.reason_code (FleetChildResult.mission_result c)))].

Definition _normalized_trace (status : FleetStatus.t) (self : Fleet) : outcome (list json) :=
  children ← _child_results self;
  Ret ((event_trace <$> FleetCoordinator._events self)
       ++ (task_trace <$> records (tasks self))
       ++ (child_trace <$> children)
       ++ [JObj [("kind", JStr "fleet_terminal"); ("status", JStr (FleetStatus_value status))]]).

Definition succeeded (c : FleetChildResult.t) : bool :=
  MissionResult.status (FleetChildResult.mission_result c) ≟ MissionStatus.SUCCEEDED.

(** Of the two kinds of plan: the value of its status, its programs and digest, and
    the value of its strategy. *)
Definition plan_status (p : DeconflictionPlan) : string :=
  match p with
  | inl p => DeconflictionStatus_value (FleetDeconflictionPlan.status p)
  | inr p => MultiDronePlanningStatus_value (MultiDroneConflictPlan.status p)
  end.
Definition plan_programs (p : DeconflictionPlan) : list string :=
  match p with
  | inl p => FleetDeconflictionPlan.selected_program_sha256s p
  | inr p => MultiDroneConflictPlan.selected_program_sha256s p
  end.
Definition plan_sha256_of (p : DeconflictionPlan) : string :=
  match p with
  | inl p => FleetDeconflictionPlan.plan_sha256 p
  | inr p => MultiDroneConflictPlan.plan_sha256 p
  end.
Definition plan_strategy (p : DeconflictionPlan) : option string :=
  match p with
  | inl p => ConflictResolutionStrategy_value <$> FleetDeconflictionPlan.selected_strategy p
  | inr p => MultiDroneResolutionStrategy_value <$> MultiDroneConflictPlan.selected_strategy p
  end.

Definition _nominal_deconfliction_executed (plan : option DeconflictionPlan)
    (child_results : list FleetChildResult.t) : option bool :=
  match plan with
  | None => None
  | Some p =>
      if String.eqb (plan_status p) "NOT_REQUIRED" then None
      else if negb (String.eqb (plan_status p) "RESOLVED") then Some false
      else
        let observed_hashes := py_sorted str_ltb (omap (fun c =>
              MissionResult.execution_program_sha256 (FleetChildResult.mission_result c))
              child_results) in
        Some (bool_decide (observed_hashes = py_sorted str_ltb (plan_programs p))
              && (length child_results =? length (plan_programs p))%nat
              && forallb succeeded child_results)
  end.

(** [tuple(self._dock_manager.snapshot(dock_id) for dock_id in sorted(...))] *)
Fixpoint snapshots (dock_ids : list string) : M DockManager.t (list DockSnapshot.t) :=
  match dock_ids with
  | [] => mret []
  | dock_id :: rest =>
      s ← Docks.snapshot dock_id;
      more ← snapshots rest;
      mret (s :: more)
  end.

Definition dock_snapshots : M Fleet (list DockSnapshot.t) :=
  self ← get;
  match FleetCoordinator._dock_manager self with
  | None => mret []
  | Some d => on_docks (snapshots (sorted_keys (DockManager.definitions d)))
  end.

Definition metrics_report : M Fleet (option FleetMetricsReport.t) :=
  self ← get;
  match FleetCoordinator._metrics self with
  | None => mret None
  | Some c => now ← read_clock; r ← lift (report now c); mret (Some r)
  end.

Definition at_level (level : SeparationLevel.t) (o : SeparationObservation.t) : bool :=
  SeparationObservation.level o ≟ level.

(** [_result] *)
Definition fleet_result (status : FleetStatus.t) (reason_code message : string) :
    M Fleet FleetResult.t :=
  self ← get;
  normalized ← lift (_normalized_trace status self);
  child_results ← lift (_child_results self);
  docks ← dock_snapshots;
  metrics ← metrics_report;
  let separation := FleetCoordinator._separation self in
  let plan := FleetSetup.deconfliction_plan (setup self) in
  let r := FleetResult.mk (session_of self) (run_of self) (FleetSessionIdentity_sha256 (identity_of self))
      (DeploymentManifest_sha256 (deployment_of self)) status reason_code message child_results
      (records (tasks self)) (py_min fltb (SeparationObservation.distance_m <$> separation))
      (count_if (at_level SeparationLevel.WARNING) separation)
      (count_if (at_level SeparationLevel.CRITICAL) separation) separation
      (FleetCoordinator._leader_follower_observations self)
      (FleetCoordinator._leader_loss_intervention_latency_s self)
      (py_sorted str_ltb (elements (FleetCoordinator._coordination_policy_ids self)))
      (FleetCoordinator._events self) normalized (canonical_sha256 (JList normalized))
      (FleetCoordinator._persistent_result self) docks metrics
      (FleetCoordinator._authority_transitions self) (plan_sha256_of <$> plan) (plan ≫= plan_strategy)
      (_nominal_deconfliction_executed plan child_results) in
  validated "FleetResult" (FleetResult_valid r) r.

(** ** [run], without persistent coverage *)

(** The status, reason and message of a run whose missions have ended. *)
Definition classify (records : list TaskRecord.t) (child_results : list FleetChildResult.t) :
    FleetStatus.t * (string * string) :=
  let completed (r : TaskRecord.t) := TaskRecord.state r ≟ TaskState.COMPLETED in
  if forallb succeeded child_results && forallb completed records
  then (FleetStatus.SUCCEEDED, ("FLEET_COMPLETED", "all required fleet tasks completed"))
  else if existsb completed records
  then (FleetStatus.DEGRADED,
        ("FLEET_PARTIAL", "healthy fleet members completed while another member stopped"))
  else if existsb (fun c => MissionResult.status (FleetChildResult.mission_result c)
                            ≟ MissionStatus.ABORTED) child_results
  then (FleetStatus.ABORTED, ("FLEET_ABORTED", "fleet tasks were aborted"))
  else (FleetStatus.FAILED, ("FLEET_CHILD_FAILED", "fleet task execution failed")).

Definition ground_first (task_id : string) (self : Fleet) : M Fleet bool :=
  match dict_get task_id (FleetSetup.accepted_execution_programs (setup self)) with
  | Some program =>
      first ← lift (first_or IndexError (AcceptedExecutionProgram.operations program));
      mret (match first with ExecutionOperation.GroundWait _ _ _ => true | _ => false end)
  | None => mret false
  end.

(** The body of the loop that starts the children. *)
Definition launch_task (rounds : nat) (task_id : string) : fleet unit :=
  waits ← sync (_ ← _start_child task_id; self ← get; ground_first task_id self);
  if waits : bool then mret tt else _await_sequential_launch_checkpoint rounds task_id.

(** Everything before the first mission starts. *)
Definition prepare_launch (assignments : dict string) (launch_order : list string) : fleet unit :=
  _ ← sync (_ ← on_preparation require_ready; _validate_assignments assignments);
  _ ← enforce_separation false;
  sync (for_each launch_order (assign_task assignments)).

(** The [try] of [run]. *)
Definition fly (rounds : nat) (assignments : dict string) (launch_order : list string) : fleet unit :=
  _ ← prepare_launch assignments launch_order;
  _ ← co_for_each launch_order (launch_task rounds);
  _monitor_children rounds.

Definition error_message (e : exn) : string :=
  match e with CrazySwarmError _ message => message | _ => "" end.

(** The handler of [run]. *)
Definition fleet_failed (reason : string) (e : exn) : fleet FleetResult.t :=
  _ ← sync (emit "FLEET_FAILED" None None);
  _ ← _cancel_all reason;
  sync (fleet_result FleetStatus.FAILED (error_value e) (error_message e)).

Definition fleet_terminal : M Fleet FleetResult.t :=
  self ← get;
  child_results ← lift (_child_results self);
  let '(status, (reason, message)) := classify (records (tasks self)) child_results in
  _ ← emit "FLEET_TERMINAL" None None;
  fleet_result status reason message.

Definition run_tasks (rounds : nat) (assignments : dict string) (launch_order : list string) :
    fleet FleetResult.t :=
  co_then (fly rounds assignments launch_order)
    (fun o => match o with
              | Raise e => if is_CrazySwarmError e then fleet_failed "fleet coordination failed" e
                           else co_raise e
              | Ret _ => sync fleet_terminal
              end).

(** ** Construction *)

Definition is_persistent (d : DeploymentManifest.t) : bool :=
  (3 <=? length (DeploymentManifest.fleet d))%nat && (2 <=? length (DeploymentManifest.tasks d))%nat
  && existsb (fun m => FleetMemberDefinition.initial_role m ≟ InitialFleetRole.RESERVE)
       (DeploymentManifest.fleet d)
  && forallb (fun t => String.eqb (DeploymentTaskDefinition.task_type t) "persistent-zone-coverage")
       (DeploymentManifest.tasks d).

Definition tasks_of_type (p : string -> bool) (d : DeploymentManifest.t) : list string :=
  DeploymentTaskDefinition.task_id <$>
    filter (fun t => p (DeploymentTaskDefinition.task_type t) = true) (DeploymentManifest.tasks d).

Definition crossing_tasks (d : DeploymentManifest.t) : gset string :=
  let ids := tasks_of_type (starts_with "crossing-route") d in
  if (2 <=? length ids)%nat then string_set ids else ∅.

Definition leader_follower_tasks (d : DeploymentManifest.t) : option (string * string) :=
  match tasks_of_type (String.eqb "leader-route") d, tasks_of_type (String.eqb "follower-route") d with
  | [leader], [follower] => Some (leader, follower)
  | _, _ => None
  end.

Definition initial_policy_ids (d : DeploymentManifest.t) : gset string :=
  (if bool_decide (crossing_tasks d = ∅) then ∅ else {[CROSSING_SEPARATION_POLICY_ID]})
  ∪ (if is_some (leader_follower_tasks d)
     then {[LEADER_FOLLOWER_TRACKING_POLICY_ID; LEADER_LOSS_POLICY_ID; FOLLOWER_LOSS_POLICY_ID]}
     else ∅).

(** Objects without attributes, on which the constructors of the ledger and of the
    persistent coordinator run. *)
Definition blank_ledger : TaskLedger.t := TaskLedger.mk "" "" "" f0 [] 0.
Definition blank_coverage (d : DeploymentManifest.t) : PersistentCoverageCoordinator.t :=
  PersistentCoverageCoordinator.mk d blank_ledger [] [] 0 [].

(** [DockDefinition(dock_id="abstract-coverage-dock", capacity=1)] *)
Definition abstract_dock : DockDefinition.t :=
  DockDefinition.mk "abstract-coverage-dock" 1 "modeled-charge-v1" (float_of_Z 10).

Definition initial_docks (d : DeploymentManifest.t) : outcome (option DockManager.t) :=
  if is_persistent d then
    m ← DockManager_init (if bool_decide (DeploymentManifest.docks d = []) then [abstract_dock]
                          else DeploymentManifest.docks d) (float_of_Z 120) 2 8;
    Ret (Some m)
  else Ret None.

Definition initial_metrics (d : DeploymentManifest.t) : M Fleet (option collector) :=
  if is_persistent d then
    now ← read_clock;
    c ← lift (FleetMetricsCollector_new now (Z.of_nat (length (DeploymentManifest.tasks d)))
                (FleetConstraints.warning_separation_m (DeploymentManifest.constraints d))
                (FleetConstraints.critical_separation_m (DeploymentManifest.constraints d)));
    mret (Some c)
  else mret None.

(** The ledger, in the persistent coordinator if there is one. *)
Definition initial_ledger (task_lease_duration_s : float) : M Fleet unit :=
  self ← get;
  let d := deployment_of self in
  if is_persistent d then
    _ ← modify (FleetCoordinator.set_persistent (Some (blank_coverage d)));
    on_persistent (PersistentCoverageCoordinator_init (session_of self) (run_of self) d
                     (py_fmax task_lease_duration_s (float_of_Z 120)))
  else
    _ ← modify (FleetCoordinator.set_persistent None);
    on_tasks (TaskLedger_init (session_of self) (run_of self) (DeploymentManifest_sha256 d)
                (DeploymentManifest.tasks d) task_lease_duration_s).

(** [FleetCoordinator(...)]: from the preparation, the runner and the tasks that
    exist already, and the arguments. *)
Definition FleetCoordinator_init (identity : FleetSessionIdentity.t) (d : DeploymentManifest.t)
    (policy_decision : option FleetPolicyDecision.t) (planning_bundle : option PlanningBundle.t)
    (accepted_plan_id accepted_plan_sha256 : option string)
    (accepted_execution_programs : dict AcceptedExecutionProgram.t)
    (deconfliction_plan : option DeconflictionPlan)
    (task_lease_duration_s monitor_period_s : float) : M Fleet unit :=
  self ← get;
  _ ← raise_if (negb (String.eqb (FleetSessionIdentity.deployment_sha256 identity)
                        (DeploymentManifest_sha256 d)))
        (CrazySwarmError IDENTITY_MISMATCH "fleet deployment hash mismatch");
  _ ← raise_if (negb (String.eqb (FleetSessionIdentity.fleet_session_id identity)
                        (FleetPreparation.execution_session_id (FleetCoordinator.preparation self))))
        (CrazySwarmError IDENTITY_MISMATCH "fleet execution session mismatch");
  _ ← raise_if (fleb monitor_period_s f0) (ValueError "fleet monitor period must be positive");
  let decision := match policy_decision with
                  | Some p => Some p
                  | None => PlanningBundle.fleet_policy_decision <$> planning_bundle
                  end in
  let s := FleetSetup.mk identity d decision planning_bundle accepted_plan_id accepted_plan_sha256
      accepted_execution_programs deconfliction_plan monitor_period_s (crossing_tasks d)
      (leader_follower_tasks d) in
  let gate := if bool_decide (crossing_tasks d = ∅) then None
              else Some (MissionCommandGate_new
                           (FleetMemberDefinition.vehicle_id <$> DeploymentManifest.fleet d)) in
  _ ← put (FleetCoordinator.mk s (FleetCoordinator.preparation self)
        (FleetCoordinator.mission_runner self) (FleetCoordinator.mission_tasks self) None blank_ledger
        [] [] [] [] [] ∅ (initial_policy_ids d) gate ∅ ∅ ∅ ∅ 0 [] None false false None false
        [] [] [] [] [] None None [] None None);
  _ ← initial_ledger task_lease_duration_s;
  docks ← lift (initial_docks d);
  _ ← modify (FleetCoordinator.set_dock_manager docks);
  metrics ← initial_metrics d;
  _ ← modify (FleetCoordinator.set_metrics metrics);
  _ ← for_each (DeploymentTaskDefinition.task_id <$> DeploymentManifest.tasks d)
        (fun task_id => metric FleetMetricKind.TASK_DECLARED task_id None (Some task_id) None None);
  emit "FLEET_SESSION_CREATED" None None.
End coordinator.
