(* ===== verification/Rotation.v ===== *)
(** * Fleet coordinator: persistent coverage ([fleet/coordinator.py])

    The run of a fleet that keeps its zones covered: the allocation from
    telemetry, the watch over batteries, and the handover of a task to a reserve,
    in which the outgoing vehicle gives up its authority before the incoming one
    gets it; then the abstract docking of the outgoing vehicle, and [run] itself. *)

From S2P Require Import Prelude Float64 Effects Contracts Artifacts.
From S2P Require Import Tasks Persistent Docks Zones Safety PlanContracts Routes Intents.
From S2P Require Import Trajectory Planning Telemetry Commands Missions Authority.
From S2P Require Import Deconfliction Multidrone Coroutines Supervisor Preparation Metrics Fleet.
From S2P Require Import Coordinator.

Section rotation.
Context `{CK : Clock} `{LM : Libm} `{DG : Digest}.

(** ** Geometry *)

Definition _point_segment_distance (point start end_ : Vector3) : outcome float :=
  let segment := v_subtract end_ start in
  let relative := v_subtract point start in
  x ← py_square (v_x segment);
  y ← py_square (v_y segment);
  z ← py_square (v_z segment);
  let length_squared := fadd (fadd x y) z in
  if fleb length_squared f0 then _distance point start
  else
    projection ← py_div (fadd (fadd (fmul (v_x relative) (v_x segment))
                                    (fmul (v_y relative) (v_y segment)))
                              (fmul (v_z relative) (v_z segment))) length_squared;
    let ratio := py_fmax f0 (py_fmin f1 projection) in
    _distance point (mkVector3 (fadd (v_x start) (fmul (v_x segment) ratio))
                               (fadd (v_y start) (fmul (v_y segment) ratio))
                               (fadd (v_z start) (fmul (v_z segment) ratio))).

(** [v.model_copy(update={"z": z})] *)
Definition with_z (v : Vector3) (z : float) : Vector3 := mkVector3 (v_x v) (v_y v) z.

Definition _safe_move_duration (policy : SafetyPolicy.t) (distance_m : float) : outcome float :=
  if fleb distance_m f0 then Ret f1
  else
    speed_duration ← py_div (fmul (flit 15 10) distance_m)
                       (fmul (SafetyPolicy.max_horizontal_speed_m_s policy) (flit 8 10));
    quotient ← py_div (fmul (float_of_Z 6) distance_m)
                 (fmul (SafetyPolicy.max_acceleration_m_s2 policy) (flit 8 10));
    acceleration_duration ← py_sqrt quotient;
    Ret (py_fmin (float_of_Z 30) (py_max_from fltb f1 [speed_duration; acceleration_duration])).

(** The points around the center of the zone, one clearance away. *)
Definition staging_options (center : Vector3) (clearance : float) : list Vector3 :=
  [mkVector3 (v_x center) (fsub (v_y center) clearance) (v_z center);
   mkVector3 (v_x center) (fadd (v_y center) clearance) (v_z center);
   mkVector3 (fsub (v_x center) clearance) (v_y center) (v_z center);
   mkVector3 (fadd (v_x center) clearance) (v_y center) (v_z center)].

(** The least distance of the active vehicles from the way to a point. *)
Definition staging_clearance (active : list Vector3) (path_start point : Vector3) : outcome float :=
  distances ← mapM (fun a => _point_segment_distance a path_start point) active;
  Ret (default (S754_infinity false) (py_min fltb distances)).

Definition takeover_points (policy : SafetyPolicy.t) (d : DeploymentManifest.t)
    (definition : DeploymentTaskDefinition.t) (candidates : list CoverageCandidate.t) :
    outcome (Vector3 * Vector3) :=
  zone ← some_or StopIteration
    (find_first (fun z => String.eqb (ZoneDefinition.zone_id z)
                            (DeploymentTaskDefinition.zone_id definition))
       (DeploymentManifest.zones d));
  let center := with_z (center_m (ZoneDefinition.geometry zone)) (flit 3 10) in
  let clearance := fadd (FleetConstraints.warning_separation_m (DeploymentManifest.constraints d))
                     (flit 1 10) in
  let usable := filter (fun p => Safety.contains (SafetyPolicy.flight_volume policy) p = true)
                  (staging_options center clearance) in
  if bool_decide (usable = [])
  then Err GEOFENCE_BREACH "no safe takeover staging point fits the configured flight volume"
  else
    let available st := filter (fun c => CoverageCandidate.state c = st
                                         /\ CoverageCandidate.available c = true) candidates in
    let active := CoverageCandidate.position_m <$> available CoverageVehicleState.ACTIVE in
    let path_start := match available CoverageVehicleState.HANDOVER with
                      | reserve :: _ => with_z (CoverageCandidate.position_m reserve) (v_z center)
                      | [] => center
                      end in
    keys ← mapM (staging_clearance active path_start) usable;
    staging ← some_or (ValueError "max() arg is an empty sequence")
                (py_max (fun a b => fltb a.1 b.1) (zip keys usable));
    Ret (staging.2, center).

Definition _takeover_points (task_id : string) (candidates : list CoverageCandidate.t) :
    M Fleet (Vector3 * Vector3) :=
  record0 ← on_tasks (Tasks.record task_id);
  self ← get;
  lift (takeover_points (policy_of self) (deployment_of self) (TaskRecord.definition record0) candidates).

(** ** Candidates *)

(** [self._persistent.vehicle_states[vehicle_id]] *)
Definition coverage_state (vehicle_id : string) : M Fleet CoverageVehicleState.t :=
  on_persistent (p ← get;
                 lift (some_or KeyError
                         (dict_get vehicle_id (PersistentCoverageCoordinator.vehicle_states p)))).

Definition new_candidate (c : CoverageCandidate.t) : M Fleet CoverageCandidate.t :=
  validated "CoverageCandidate" (CoverageCandidate_valid c) c.

(** A vehicle that was never observed. *)
Definition absent_candidate (member : FleetMemberDefinition.t) (x : VehicleSession.t) :
    M Fleet CoverageCandidate.t :=
  let vehicle_id := FleetMemberDefinition.vehicle_id member in
  state ← coverage_state vehicle_id;
  c ← new_candidate (CoverageCandidate.mk vehicle_id
        (features (Vehicle.capabilities (VehicleSession.vehicle x))) f0
        (FleetMemberDefinition.home member) state false false false);
  _ ← emit "FLEET_OBSERVATION_UNAVAILABLE" (Some vehicle_id) None;
  mret c.

(** [fresh] and [available] *)
Definition candidate_fresh (failed : bool) (now : float) (x : VehicleSession.t)
    (constraints : FleetConstraints.t) : bool :=
  negb failed
  && match VehicleSession.telemetry_received_at_monotonic_s x with
     | Some received => fleb (fsub now received) (FleetConstraints.observation_freshness_s constraints)
     | None => false
     end.

Definition candidate_available (failed fresh : bool) (data : VehicleTelemetry.t) (x : VehicleSession.t)
    (policy : SafetyPolicy.t) : bool :=
  negb failed && fresh && is_some (VehicleTelemetry.position_m data)
  && is_some (VehicleTelemetry.battery_percent data)
  && match VehicleTelemetry.localization_quality_percent data with
     | Some q => fleb (SafetyPolicy.minimum_localization_quality_percent policy) q
     | None => false
     end
  && negb (VehicleSession.state x ∈? [VehicleState.DISCONNECTED; VehicleState.EMERGENCY]).

(** A vehicle with a sample, which is the last one of its session if the
    observation [failed]. *)
Definition observed_candidate (now : float) (failed : bool) (member : FleetMemberDefinition.t)
    (x : VehicleSession.t) (e : TelemetryEnvelope.t) : M Fleet CoverageCandidate.t :=
  let vehicle_id := FleetMemberDefinition.vehicle_id member in
  let data := TelemetryEnvelope.telemetry e in
  self ← get;
  let fresh := candidate_fresh failed now x (constraints_of self) in
  let battery := default f0 (VehicleTelemetry.battery_percent data) in
  state ← coverage_state vehicle_id;
  c ← new_candidate (CoverageCandidate.mk vehicle_id
        (features (Vehicle.capabilities (VehicleSession.vehicle x))) battery
        (default (FleetMemberDefinition.home member) (VehicleTelemetry.position_m data)) state
        (negb failed && (VehicleSession.state x ≠? VehicleState.DISCONNECTED)
         && (VehicleTelemetry.state data ≠? VehicleState.DISCONNECTED))
        (VehicleTelemetry.armed data)
        (candidate_available failed fresh data x (policy_of self)));
  _ ← (if failed then
         _ ← emit "FLEET_OBSERVATION_UNAVAILABLE" (Some vehicle_id) None;
         metric FleetMetricKind.FAULT_DETECTED vehicle_id (Some vehicle_id) None None None
       else mret tt);
  _ ← metric FleetMetricKind.TELEMETRY_SAMPLE vehicle_id (Some vehicle_id) None (Some battery) None;
  _ ← match VehicleTelemetry.localization_quality_percent data with
      | Some q => metric FleetMetricKind.POSITION_QUALITY vehicle_id (Some vehicle_id) None (Some q) None
      | None => mret tt
      end;
  mret c.

Definition coverage_candidate (now : float) (member : FleetMemberDefinition.t) :
    fleet CoverageCandidate.t :=
  let vehicle_id := FleetMemberDefinition.vehicle_id member in
  a ← sync (on_supervisor (session vehicle_id));
  observed ← co_try (t ← observation_for vehicle_id; mret (Some t)) recoverable (fun _ => mret None);
  sync (
    x ← on_supervisor (deref a);
    match observed, VehicleSession.telemetry x with
    | Some t, _ => observed_candidate now false member x t
    | None, Some t => observed_candidate now true member x t
    | None, None => absent_candidate member x
    end).

Fixpoint coverage_candidates (now : float) (members : list FleetMemberDefinition.t)
    (values : list CoverageCandidate.t) : fleet (list CoverageCandidate.t) :=
  match members with
  | [] => mret values
  | member :: rest =>
      c ← coverage_candidate now member;
      coverage_candidates now rest (values ++ [c])
  end.

Definition _coverage_candidates : fleet (list CoverageCandidate.t) :=
  start ← sync (_ ← on_persistent (mret tt); now ← read_clock; self ← get; mret (now, deployment_of self));
  coverage_candidates start.1 (DeploymentManifest.fleet start.2) [].

Definition candidate_of (vehicle_id : string) (candidates : list CoverageCandidate.t) :
    outcome CoverageCandidate.t :=
  some_or KeyError (find_first (fun c => String.eqb (CoverageCandidate.vehicle_id c) vehicle_id)
                      candidates).

(** ** Allocation *)

(** [d1 == d2] *)
Definition dict_eqb (d1 d2 : dict string) : bool :=
  (length d1 =? length d2)%nat
  && forallb (fun kv => bool_decide (dict_get kv.1 d2 = Some kv.2)) d1.

Definition note_allocation (d : AllocationDecision.t) : M Fleet unit :=
  let task_id := AllocationDecision.task_id d in
  let vehicle_id := AllocationDecision.vehicle_id d in
  record0 ← on_tasks (Tasks.record task_id);
  _ ← emit "TASK_ASSIGNED" (Some vehicle_id) (Some task_id);
  _ ← metric FleetMetricKind.TASK_ASSIGNED task_id (Some vehicle_id) (Some task_id) None None;
  _ ← metric FleetMetricKind.LEASE_ISSUED task_id (Some vehicle_id) (Some task_id) None None;
  metric FleetMetricKind.ENERGY_MARGIN ("initial-" +:+ task_id) (Some vehicle_id) (Some task_id)
    (Some (fsub (AllocationDecision.observed_battery_percent d)
             (required_energy (TaskRecord.definition record0)))) (Some "initial-allocation").

Definition allocate_fleet (assignments : dict string) (candidates : list CoverageCandidate.t) :
    M Fleet unit :=
  self ← get;
  decisions ← on_persistent (allocate_initial candidates
                (FleetCoordinator._allow_simulation_low_battery self) (Some assignments) None);
  _ ← raise_if (negb (dict_eqb (dict_of AllocationDecision.task_id AllocationDecision.vehicle_id decisions)
                        assignments))
        (CrazySwarmError IDENTITY_MISMATCH
           "telemetry-derived coverage allocation changed the mission plan");
  for_each decisions note_allocation.

(** ** The rotation trigger *)

(** [(battery, task, vehicle)] tuples in order *)
Definition trigger_ltb (a b : float * (string * string)) : bool :=
  lex_ltb (fun p q => str_ltb p.1 q.1 || (String.eqb p.1 q.1 && str_ltb p.2 q.2)) a b.

(** The body of the loop over the records: the trigger it adds. *)
Definition watch_task (candidates : list CoverageCandidate.t) (r : TaskRecord.t) :
    M Fleet (list (float * (string * string))) :=
  let task_id := DeploymentTaskDefinition.task_id (TaskRecord.definition r) in
  self ← get;
  match TaskRecord.owner_vehicle_id r, dict_get task_id (FleetCoordinator._children self) with
  | Some vehicle_id, Some child =>
      done ← is_done child;
      if done : bool then mret []
      else
        candidate ← lift (candidate_of vehicle_id candidates);
        let threshold := py_fmin f100 (fadd (required_energy (TaskRecord.definition r)) (float_of_Z 5)) in
        _ ← match TaskRecord.lease r with
            | Some lease =>
                _ ← on_tasks (renew task_id vehicle_id (TaskLease.generation lease) None); mret tt
            | None => mret tt
            end;
        mret (if CoverageCandidate.armed candidate
                 && fleb (CoverageCandidate.battery_percent candidate) threshold
              then [(CoverageCandidate.battery_percent candidate, (task_id, vehicle_id))] else [])
  | _, _ => mret []
  end.

Fixpoint watch_tasks (candidates : list CoverageCandidate.t) (rs : list TaskRecord.t) :
    M Fleet (list (float * (string * string))) :=
  match rs with
  | [] => mret []
  | r :: rest =>
      here ← watch_task candidates r;
      more ← watch_tasks candidates rest;
      mret (here ++ more)
  end.

Definition any_undone (children : Fleet -> dict nat) : M Fleet bool :=
  self ← get; mret (existsb (undone self) (dict_values (children self))).

Fixpoint _wait_for_rotation_trigger (rounds : nat) : fleet (option (float * (string * string))) :=
  flying ← sync (any_undone FleetCoordinator._children);
  if negb flying then mret None
  else match rounds with
       | O => forever
       | S rounds' =>
           _ ← enforce_separation true;
           candidates ← _coverage_candidates;
           triggered ← sync (self ← get; watch_tasks candidates (records (tasks self)));
           match py_min trigger_ltb triggered with
           | Some t => mret (Some t)
           | None =>
               self ← sync get;
               _ ← await (Pause (FleetSetup.monitor_period_s (FleetCoordinator.setup self)));
               _wait_for_rotation_trigger rounds'
           end
       end.

(** ** Waiting with separation *)

Definition pause : fleet unit :=
  self ← sync get; await (Pause (FleetSetup.monitor_period_s (FleetCoordinator.setup self))).

Definition reached (target : Vector3) (tolerance_m : float) (t : TelemetryEnvelope.t) : outcome bool :=
  match position_of t with
  | None => Ret false
  | Some p =>
      if VehicleTelemetry.flying (TelemetryEnvelope.telemetry t)
      then distance ← _distance p target; Ret (fleb distance tolerance_m)
      else Ret false
  end.

Fixpoint _wait_for_position (rounds : nat) (vehicle_id : string) (target : Vector3) (child : nat)
    (tolerance_m : float) : fleet unit :=
  done ← sync (is_done child);
  if done : bool then
    _ ← await_mission child;
    co_raise (CrazySwarmError INVALID_STATE
                "reserve maneuver ended before reaching its confirmed position")
  else match rounds with
       | O => forever
       | S rounds' =>
           _ ← enforce_separation true;
           telemetry ← observation_for vehicle_id;
           there ← sync (lift (reached target tolerance_m telemetry));
           if there : bool then mret tt
           else _ ← pause; _wait_for_position rounds' vehicle_id target child tolerance_m
       end.

Fixpoint _await_child_with_separation (rounds : nat) (child : nat) : fleet MissionResult.t :=
  done ← sync (is_done child);
  if done : bool then await_mission child
  else match rounds with
       | O => forever
       | S rounds' =>
           _ ← enforce_separation true;
           _ ← pause;
           _await_child_with_separation rounds' child
       end.

Fixpoint await_children (rounds : nat) : fleet unit :=
  flying ← sync (any_undone FleetCoordinator._children);
  if negb flying then mret tt
  else match rounds with
       | O => forever
       | S rounds' =>
           _ ← enforce_separation true;
           _ ← pause;
           await_children rounds'
       end.

(** ** The handover of a task to a reserve *)

(** What [_execute_persistent_handover] knows once the reserve has been launched. *)
Definition zone_binding (vehicle_id task_id : string) : M Fleet FleetCommandBinding.t :=
  new_binding vehicle_id ("staging-" +:+ task_id) 1.

Definition takeover_parameters (policy : SafetyPolicy.t) (position staging zone_center home : Vector3) :
    outcome json :=
  staging_distance ← _distance position staging;
  takeover_distance ← _distance staging zone_center;
  return_distance ← _distance zone_center home;
  staging_duration ← _safe_move_duration policy staging_distance;
  takeover_duration ← _safe_move_duration policy takeover_distance;
  return_duration ← _safe_move_duration policy return_distance;
  Ret (JObj [
    ("height_m", JFloat (v_z zone_center));
    ("staging_x_m", JFloat (fsub (v_x staging) (v_x position)));
    ("staging_y_m", JFloat (fsub (v_y staging) (v_y position)));
    ("staging_move_duration_s", JFloat staging_duration);
    ("staging_hold_s", JFloat (float_of_Z 30));
    ("takeover_x_m", JFloat (fsub (v_x zone_center) (v_x staging)));
    ("takeover_y_m", JFloat (fsub (v_y zone_center) (v_y staging)));
    ("takeover_move_duration_s", JFloat takeover_duration);
    ("coverage_hold_s", JFloat (float_of_Z 10));
    ("return_x_m", JFloat (fsub (v_x home) (v_x zone_center)));
    ("return_y_m", JFloat (fsub (v_y home) (v_y zone_center)));
    ("return_move_duration_s", JFloat return_duration)]).

(** The mission of the reserve. *)
Definition reserve_mission (task_id incoming_vehicle_id incoming_run_id : string) (parameters : json)
    (staging_binding : FleetCommandBinding.t) : MissionArguments.t :=
  MissionArguments.mk "fleet-reserve-takeover" incoming_vehicle_id parameters incoming_run_id
    staging_binding task_id false true false None None None.

Record launched := mkLaunched {
  la_run_id : string;
  la_child : nat;
  la_binding : FleetCommandBinding.t;
  la_staging : Vector3;
  la_center : Vector3;
}.

Definition launch_reserve (h : HandoverRecord.t) (incoming_vehicle_id : string)
    (candidates : list CoverageCandidate.t) : M Fleet launched :=
  let task_id := HandoverRecord.task_id h in
  let handover_id := HandoverRecord.handover_id h in
  incoming ← lift (candidate_of incoming_vehicle_id candidates);
  points ← _takeover_points task_id candidates;
  self ← get;
  let '(staging, zone_center) := points in
  let incoming_run_id := "handover-" +:+ first24 (canonical_sha256
        (JList [JStr (run_of self); JStr handover_id; JStr incoming_vehicle_id])) in
  staging_binding ← zone_binding incoming_vehicle_id task_id;
  home ← lift (member (deployment_of self) incoming_vehicle_id);
  parameters ← lift (takeover_parameters (policy_of self) (CoverageCandidate.position_m incoming)
                       staging zone_center (FleetMemberDefinition.home home));
  child ← create_mission_task
            (reserve_mission task_id incoming_vehicle_id incoming_run_id parameters staging_binding);
  _ ← set_item FleetCoordinator.set_handover_children FleetCoordinator._handover_children handover_id child;
  _ ← set_item FleetCoordinator.set_handover_runs FleetCoordinator._handover_runs handover_id
        incoming_run_id;
  _ ← set_item FleetCoordinator.set_handover_bindings FleetCoordinator._handover_bindings handover_id
        staging_binding;
  _ ← set_item FleetCoordinator.set_handover_vehicle_ids FleetCoordinator._handover_vehicle_ids
        handover_id incoming_vehicle_id;
  mret (mkLaunched incoming_run_id child staging_binding staging zone_center).

(** [self._metric(kind, correlation_id=handover.handover_id, ...)] *)
Definition handover_metric (h : HandoverRecord.t) (kind : FleetMetricKind.t) (vehicle_id : option string) :
    M Fleet unit :=
  metric kind (HandoverRecord.handover_id h) vehicle_id (Some (HandoverRecord.task_id h)) None None.

(** *** Authority *)

(** The request that moves the mission [run_id] from the authority [binding] to
    the next task and generation. *)
Definition authority_request (prefix : string) (h : HandoverRecord.t) (vehicle_id run_id : string)
    (binding : FleetCommandBinding.t) (next_task_id : string) (next_generation : Z)
    (reason_code authorization : string) : M Fleet Transition :=
  self ← get;
  let t := FleetAuthorityTransition.mk (prefix +:+ HandoverRecord.handover_id h)
      (Z.of_nat (length (authority_receipts run_id (FleetCoordinator.mission_runner self))) + 1)
      vehicle_id run_id (session_of self) (run_of self) (DeploymentManifest_sha256 (deployment_of self))
      (FleetCommandBinding.task_id binding) (FleetCommandBinding.task_lease_generation binding)
      next_task_id next_generation reason_code authorization in
  validated "FleetAuthorityTransition" (FleetAuthorityTransition_valid t) t.

(** The transition, its receipt and the authority the mission has afterwards. *)
Definition transfer_authority (run_id : string) (t : Transition) : fleet unit :=
  receipt ← await (TransitionAuthority run_id t);
  sync (modify (fun self => FleetCoordinator.set_authority_transitions
                  (FleetCoordinator._authority_transitions self ++ [receipt]) self)).

Definition revoke_outgoing (h pending : HandoverRecord.t) : fleet unit :=
  let task_id := HandoverRecord.task_id h in
  let outgoing_vehicle_id := HandoverRecord.outgoing_vehicle_id h in
  outgoing_run_id ← sync (item_of FleetCoordinator._child_runs task_id);
  t ← sync (
    outgoing_binding ← item_of FleetCoordinator._bindings task_id;
    authority_request "revoke-" h outgoing_vehicle_id outgoing_run_id outgoing_binding
      ("return-" +:+ task_id) 1 "TAKEOVER_READY_REVOKE_OUTGOING" (normalized_sha256 pending));
  _ ← transfer_authority outgoing_run_id t;
  sync (
    _ ← handover_metric h FleetMetricKind.RECOVERY_COMMAND (Some outgoing_vehicle_id);
    current_outgoing ← serialized_binding outgoing_run_id "outgoing authority disappeared";
    set_item FleetCoordinator.set_bindings FleetCoordinator._bindings task_id current_outgoing).

(** The lease of the task moves to the reserve. *)
Definition take_over (h : HandoverRecord.t) (incoming_vehicle_id incoming_run_id : string)
    (candidates : list CoverageCandidate.t) : M Fleet (HandoverRecord.t * Z * HandoverRecord.t) :=
  let task_id := HandoverRecord.task_id h in
  let handover_id := HandoverRecord.handover_id h in
  confirmed ← on_persistent (confirm_takeover handover_id candidates None);
  match HandoverRecord.incoming_lease_generation confirmed with
  | Some 2%Z =>
      _ ← on_tasks (Tasks.start task_id incoming_vehicle_id incoming_run_id 2 None);
      completed_handover ← on_persistent (release_outgoing handover_id
                             "takeover confirmed; outgoing released to return" None);
      _ ← emit "TAKEOVER_CONFIRMED" (Some incoming_vehicle_id) (Some task_id);
      _ ← handover_metric h FleetMetricKind.TAKEOVER_CONFIRMED (Some incoming_vehicle_id);
      _ ← handover_metric h FleetMetricKind.REASSIGNED (Some incoming_vehicle_id);
      _ ← handover_metric h FleetMetricKind.OUTGOING_RELEASED
            (Some (HandoverRecord.outgoing_vehicle_id h));
      _ ← handover_metric h FleetMetricKind.COVERAGE_GAP_STARTED None;
      mret (confirmed, 2%Z, completed_handover)
  | _ => raise (CrazySwarmError IDENTITY_MISMATCH
                  "first reserve takeover did not issue lease generation 2")
  end.

Definition grant_incoming (h confirmed : HandoverRecord.t) (generation : Z)
    (incoming_vehicle_id : string) (la : launched) : fleet unit :=
  t ← sync (authority_request "grant-" h incoming_vehicle_id (la_run_id la) (la_binding la)
              (HandoverRecord.task_id h) generation "ATOMIC_TAKEOVER_CONFIRMED"
              (normalized_sha256 confirmed));
  _ ← transfer_authority (la_run_id la) t;
  sync (
    current_incoming ← serialized_binding (la_run_id la) "incoming authority disappeared";
    set_item FleetCoordinator.set_handover_bindings FleetCoordinator._handover_bindings
      (HandoverRecord.handover_id h) current_incoming).

(** *** The dock *)

(** The reservation of the outgoing vehicle, if there are docks. *)
Definition reserve_dock (completed_handover : HandoverRecord.t) : fleet (option string) :=
  let outgoing_vehicle_id := HandoverRecord.outgoing_vehicle_id completed_handover in
  self ← sync get;
  match FleetCoordinator._dock_manager self with
  | None => mret None
  | Some _ =>
      candidates ← _coverage_candidates;
      sync (
        outgoing ← lift (some_or (OtherError "RuntimeError")
                           (find_first (fun c => String.eqb (CoverageCandidate.vehicle_id c)
                                                   outgoing_vehicle_id) candidates));
        r ← on_docks (reserve_after_handover completed_handover
                        (Some (CoverageCandidate.battery_percent outgoing)) None);
        _ ← metric FleetMetricKind.DOCK_QUEUED (DockReservation.reservation_id r)
              (Some outgoing_vehicle_id) None None None;
        mret (Some (DockReservation.reservation_id r)))
  end.

Definition modeled_contact (data : VehicleTelemetry.t) : bool :=
  let landing_position := match VehicleTelemetry.ground_truth_position_m data with
                          | Some p => Some p
                          | None => VehicleTelemetry.position_m data
                          end in
  match landing_position with
  | Some p => fleb (v_z p) (flit 1 100) && negb (VehicleTelemetry.armed data)
              && negb (VehicleTelemetry.flying data)
  | None => false
  end.

(** The requests of an attempt to dock, before the vehicle is observed. *)
Definition attempt_dock (reservation_id outgoing_vehicle_id : string) : M Fleet unit :=
  _ ← on_docks (Docks.transition reservation_id DockOperationState.APPROACH_REQUESTED
                  "Fast Sim outgoing vehicle is landed at its declared home" None);
  _ ← on_docks (Docks.transition reservation_id DockOperationState.DOCK_ATTEMPT
                  "abstract software dock attempt" None);
  metric FleetMetricKind.DOCK_ATTEMPT reservation_id (Some outgoing_vehicle_id) None None None.

(** The landing and the charge the sample shows; the state of a reservation whose
    charge was not confirmed. *)
Definition settle_dock (reservation_id outgoing_vehicle_id : string) (telemetry : TelemetryEnvelope.t) :
    M Fleet (option DockOperationState.t) :=
  let data := TelemetryEnvelope.telemetry telemetry in
  let contact := modeled_contact data in
  _ ← on_docks (confirm_modeled_landing reservation_id contact None);
  charging ← on_docks (confirm_modeled_charging reservation_id
               (contact && negb ("SENSOR_FAILURE" ∈? VehicleTelemetry.faults data)) None);
  if DockReservation.state charging ∈? [DockOperationState.RETRY_PENDING; DockOperationState.FAILED]
  then
    _ ← emit "DOCK_CHARGING_CONFIRMATION_FAILED" (Some outgoing_vehicle_id) None;
    _ ← metric FleetMetricKind.FAULT_DETECTED reservation_id (Some outgoing_vehicle_id) None None None;
    mret (Some (DockReservation.state charging))
  else
    _ ← metric FleetMetricKind.DOCK_CHARGING reservation_id (Some outgoing_vehicle_id) None None None;
    match DockReservation.estimated_ready_at_monotonic_s charging with
    | None => raise (CrazySwarmError INVALID_STATE
                       "modeled charging confirmation did not provide a ready time")
    | Some ready =>
        _ ← on_docks (update_modeled_charge reservation_id (Some (fadd ready f1)));
        _ ← metric FleetMetricKind.DOCK_READY reservation_id (Some outgoing_vehicle_id) None None None;
        mret None
    end.

Fixpoint dock_attempts (rounds : nat) (reservation_id outgoing_vehicle_id : string)
    (state : DockOperationState.t) : fleet unit :=
  if state ∈? [DockOperationState.RETURN_TO_DOCK_AREA; DockOperationState.RETRY_PENDING] then
    match rounds with
    | O => forever
    | S rounds' =>
        _ ← sync (attempt_dock reservation_id outgoing_vehicle_id);
        telemetry ← observation_for outgoing_vehicle_id;
        again ← sync (settle_dock reservation_id outgoing_vehicle_id telemetry);
        match again with
        | Some state' => dock_attempts rounds' reservation_id outgoing_vehicle_id state'
        | None => mret tt
        end
    end
  else mret tt.

Definition _complete_abstract_dock (rounds : nat) (reservation_id outgoing_vehicle_id : string) :
    fleet unit :=
  r ← sync (on_docks (reservation reservation_id));
  if DockReservation.state r ≟ DockOperationState.QUEUED then
    sync (
      _ ← emit "DOCK_WAITING_FOR_CAPACITY" (Some outgoing_vehicle_id) None;
      metric FleetMetricKind.FAULT_DETECTED reservation_id (Some outgoing_vehicle_id) None None None)
  else dock_attempts rounds reservation_id outgoing_vehicle_id (DockReservation.state r).

Definition _handover_dock_is_ready : M Fleet bool :=
  docks ← dock_snapshots;
  let reservations := docks ≫= DockSnapshot.reservations in
  mret (negb (bool_decide (reservations = []))
        && forallb (fun r => DockReservation.state r ≟ DockOperationState.READY) reservations).
(** *** [_execute_persistent_handover] *)

(** The reserve has reached its staging point. *)
Definition replacement_ready (h : HandoverRecord.t) (incoming_vehicle_id : string) :
    fleet HandoverRecord.t :=
  let task_id := HandoverRecord.task_id h in
  _ ← sync (
    _ ← emit "REPLACEMENT_LAUNCHED" (Some incoming_vehicle_id) (Some task_id);
    handover_metric h FleetMetricKind.REPLACEMENT_LAUNCHED (Some incoming_vehicle_id));
  candidates ← _coverage_candidates;
  sync (
    pending ← on_persistent (confirm_replacement_ready (HandoverRecord.handover_id h) candidates None);
    _ ← on_persistent (Persistent.enforce_separation candidates);
    _ ← emit "TAKEOVER_POSITION_CONFIRMED" (Some incoming_vehicle_id) (Some task_id);
    mret pending).

(** The outgoing vehicle has landed and disarmed. *)
Definition outgoing_landed (rounds : nat) (h : HandoverRecord.t) : fleet unit :=
  let task_id := HandoverRecord.task_id h in
  let outgoing_vehicle_id := HandoverRecord.outgoing_vehicle_id h in
  child ← sync (item_of FleetCoordinator._children task_id);
  outgoing_result ← _await_child_with_separation rounds child;
  _ ← sync (raise_if (MissionResult.status outgoing_result ≠? MissionStatus.SUCCEEDED)
        (CrazySwarmError INVALID_STATE
           "outgoing vehicle did not reach a safe landed state after revocation"));
  outgoing_telemetry ← observation_for outgoing_vehicle_id;
  sync (
    let data := TelemetryEnvelope.telemetry outgoing_telemetry in
    state ← session_state outgoing_vehicle_id;
    _ ← raise_if (VehicleTelemetry.armed data || VehicleTelemetry.flying data
                  || (state ≠? VehicleState.READY))
          (CrazySwarmError INVALID_STATE "outgoing vehicle did not confirm landed and disarmed");
    _ ← emit "OUTGOING_RETURNED_AND_LANDED" (Some outgoing_vehicle_id) (Some task_id);
    handover_metric h FleetMetricKind.STABILIZED (Some outgoing_vehicle_id)).

(** [await asyncio.gather(...)]: the results in order. *)
Definition gather_results (children : dict nat) : fleet (list (string * MissionResult.t)) :=
  _ ← await (MissionsEnded (dict_values children));
  (fix go items := match items with
                   | [] => mret []
                   | (task_id, child) :: rest =>
                       result ← await_mission child;
                       more ← go rest;
                       mret ((task_id, result) :: more)
                   end) children.

(** The other tasks of the fleet are finished, then the task handed over. *)
Definition finish_others (task_id : string) : fleet unit :=
  self ← sync get;
  results ← gather_results (FleetCoordinator._children self);
  co_for_each results (fun item =>
    if String.eqb item.1 task_id then mret tt else _finish_task item.1 item.2).

Definition finish_incoming (task_id incoming_vehicle_id : string) (generation : Z)
    (incoming_result : MissionResult.t) : M Fleet unit :=
  incoming_record ← on_tasks (Tasks.record task_id);
  if MissionResult.status incoming_result ≟ MissionStatus.SUCCEEDED then
    _ ← on_tasks (update_progress task_id incoming_vehicle_id generation
          (DeploymentTaskDefinition.completion_progress_percent (TaskRecord.definition incoming_record))
          None);
    _ ← on_tasks (Tasks.complete task_id incoming_vehicle_id generation "completion criteria met" None);
    mret tt
  else
    _ ← on_tasks (Tasks.abort task_id (MissionResult.reason_code incoming_result));
    mret tt.

(** From the confirmed takeover to the end. *)
Definition complete_handover (rounds : nat) (h confirmed completed_handover : HandoverRecord.t)
    (generation : Z) (incoming_vehicle_id : string) (la : launched) : fleet unit :=
  let task_id := HandoverRecord.task_id h in
  dock_reservation ← reserve_dock completed_handover;
  _ ← outgoing_landed rounds h;
  _ ← grant_incoming h confirmed generation incoming_vehicle_id la;
  _ ← _wait_for_position rounds incoming_vehicle_id (la_center la) (la_child la) (flit 15 100);
  _ ← sync (handover_metric h FleetMetricKind.COVERAGE_GAP_ENDED None);
  _ ← await_children rounds;
  _ ← finish_others task_id;
  incoming_result ← await_mission (la_child la);
  _ ← sync (finish_incoming task_id incoming_vehicle_id generation incoming_result);
  self ← sync get;
  _ ← match dock_reservation with
      | Some reservation_id =>
          if is_some (FleetCoordinator._dock_manager self)
          then _complete_abstract_dock rounds reservation_id (HandoverRecord.outgoing_vehicle_id h)
          else mret tt
      | None => mret tt
      end;
  sync (handover_metric h FleetMetricKind.HANDOVER_COMPLETED (Some incoming_vehicle_id)).

Definition _execute_persistent_handover (rounds : nat) (h : HandoverRecord.t) : fleet unit :=
  match HandoverRecord.incoming_vehicle_id h with
  | None => co_raise (CrazySwarmError INVALID_STATE "handover has no selected reserve")
  | Some incoming_vehicle_id =>
      candidates ← _coverage_candidates;
      la ← sync (launch_reserve h incoming_vehicle_id candidates);
      _ ← _wait_for_position rounds incoming_vehicle_id (la_staging la) (la_child la) (flit 12 100);
      pending ← replacement_ready h incoming_vehicle_id;
      _ ← revoke_outgoing h pending;
      candidates ← _coverage_candidates;
      taken ← sync (take_over h incoming_vehicle_id (la_run_id la) candidates);
      let '(confirmed, generation, completed_handover) := taken in
      complete_handover rounds h confirmed completed_handover generation incoming_vehicle_id la
  end.

(** [_fail_active_handover] *)
Definition _fail_active_handover (e : exn) : M Fleet unit :=
  self ← get;
  match FleetCoordinator._persistent self, FleetCoordinator._active_handover_id self with
  | Some _, Some active_handover_id =>
      h ← on_persistent (handover active_handover_id);
      if HandoverRecord.phase h ∈? [HandoverPhase.DEGRADED; HandoverPhase.FAILED] then mret tt
      else
        let reason := error_value e +:+ ": " +:+ error_message e in
        _ ← (if HandoverRecord.takeover_confirmed h || (HandoverRecord.phase h ≟ HandoverPhase.COMPLETED)
             then on_persistent (fail_handover (HandoverRecord.handover_id h) reason None)
             else on_persistent (terminate_handover (HandoverRecord.handover_id h) reason true None));
        handover_metric h FleetMetricKind.FAULT_DETECTED (HandoverRecord.incoming_vehicle_id h)
  | _, _ => mret tt
  end.

(** ** [_run_persistent] *)

Definition note_persistent_result : M Fleet unit :=
  r ← on_persistent result;
  modify (FleetCoordinator.set_persistent_result (Some r)).

(** Everything before the watch: the allocation is the one planned, and every task
    is started in the order of the identities. *)
Definition launch_coverage (rounds : nat) (assignments : dict string) : fleet unit :=
  _ ← sync (_ ← on_preparation require_ready; _validate_assignments assignments);
  _ ← enforce_separation false;
  candidates ← _coverage_candidates;
  _ ← sync (allocate_fleet assignments candidates);
  co_for_each (sorted_keys assignments) (fun task_id =>
    _ ← sync (_start_child task_id);
    _await_sequential_launch_checkpoint rounds task_id).

(** The status of a run without a rotation. *)
Definition classify_coverage (records : list TaskRecord.t) (child_results : list FleetChildResult.t) :
    FleetStatus.t * (string * string) :=
  let completed (r : TaskRecord.t) := TaskRecord.state r ≟ TaskState.COMPLETED in
  if forallb completed records && forallb succeeded child_results
  then (FleetStatus.SUCCEEDED, ("FLEET_COMPLETED_NO_ROTATION",
          "persistent coverage tasks completed without a rotation trigger"))
  else if existsb completed records
  then (FleetStatus.DEGRADED,
        ("FLEET_PARTIAL", "healthy coverage member completed after peer failure"))
  else if existsb (fun c => MissionResult.status (FleetChildResult.mission_result c)
                            ≟ MissionStatus.ABORTED) child_results
  then (FleetStatus.ABORTED,
        ("FLEET_ABORTED", "persistent coverage tasks were cancelled and stabilized"))
  else (FleetStatus.FAILED,
        ("FLEET_CHILD_FAILED", "persistent coverage children failed before rotation")).

Definition no_rotation (rounds : nat) : fleet FleetResult.t :=
  _ ← _monitor_children rounds;
  sync (
    _ ← note_persistent_result;
    self ← get;
    child_results ← lift (_child_results self);
    let '(status, (reason, message)) := classify_coverage (records (tasks self)) child_results in
    _ ← emit "FLEET_TERMINAL" None None;
    fleet_result status reason message).

(** The decision for a trigger. *)
Definition decide_handover (task_id outgoing_vehicle_id : string) (observed_battery : float)
    (candidates : list CoverageCandidate.t) : M Fleet HandoverRecord.t :=
  h ← on_persistent (begin_handover task_id "LOW_ENERGY_MARGIN" candidates None);
  _ ← modify (FleetCoordinator.set_active_handover_id (Some (HandoverRecord.handover_id h)));
  let note kind value stage := metric kind (HandoverRecord.handover_id h) (Some outgoing_vehicle_id)
                                 (Some task_id) value stage in
  _ ← emit "HANDOVER_DECISION" (Some outgoing_vehicle_id) (Some task_id);
  _ ← note FleetMetricKind.HANDOVER_DECISION None None;
  _ ← note FleetMetricKind.FAULT_DETECTED (Some observed_battery) None;
  triggered_task ← on_tasks (Tasks.record task_id);
  _ ← note FleetMetricKind.ENERGY_MARGIN
        (Some (fsub (fsub observed_battery
                 (DeploymentTaskDefinition.estimated_energy_percent (TaskRecord.definition triggered_task)))
                 (DeploymentTaskDefinition.energy_margin_percent (TaskRecord.definition triggered_task))))
        (Some "handover-trigger");
  mret h.

Definition no_reserve (rounds : nat) (h : HandoverRecord.t) (outgoing_vehicle_id : string) :
    fleet FleetResult.t :=
  _ ← sync (handover_metric h FleetMetricKind.FAULT_DETECTED (Some outgoing_vehicle_id));
  _ ← _monitor_children rounds;
  sync (
    _ ← note_persistent_result;
    _ ← emit "FLEET_TERMINAL" None None;
    fleet_result FleetStatus.DEGRADED "NO_SERVICEABLE_RESERVE"
      "low energy was detected but no serviceable reserve was available").

(** The result after the handover. *)
Definition handover_result : M Fleet FleetResult.t :=
  _ ← note_persistent_result;
  self ← get;
  child_results ← lift (_child_results self);
  dock_ready ← _handover_dock_is_ready;
  let done := forallb succeeded child_results
              && forallb (fun r => TaskRecord.state r ≟ TaskState.COMPLETED) (records (tasks self))
              && dock_ready in
  _ ← emit "FLEET_TERMINAL" None None;
  if done : bool
  then fleet_result FleetStatus.SUCCEEDED "PERSISTENT_HANDOVER_COMPLETED"
         "telemetry-triggered reserve handover completed"
  else fleet_result FleetStatus.FAILED "PERSISTENT_HANDOVER_FAILED"
         "persistent handover did not reach a safe completed state".

Definition rotate (rounds : nat) (task_id outgoing_vehicle_id : string) (observed_battery : float) :
    fleet FleetResult.t :=
  _ ← sync (_record_recovery_proposal RecoveryTrigger.LOW_BATTERY task_id outgoing_vehicle_id
              {[PlanContracts.RecoveryAction.HANDOVER; PlanContracts.RecoveryAction.LAND]} true);
  candidates ← _coverage_candidates;
  h ← sync (decide_handover task_id outgoing_vehicle_id observed_battery candidates);
  if HandoverRecord.phase h ≟ HandoverPhase.DEGRADED
  then no_reserve rounds h outgoing_vehicle_id
  else
    _ ← _execute_persistent_handover rounds h;
    sync handover_result.

(** The [try]. *)
Definition cover (rounds : nat) (assignments : dict string) : fleet FleetResult.t :=
  _ ← launch_coverage rounds assignments;
  trigger ← _wait_for_rotation_trigger rounds;
  match trigger with
  | None => no_rotation rounds
  | Some (observed_battery, (task_id, outgoing_vehicle_id)) =>
      rotate rounds task_id outgoing_vehicle_id observed_battery
  end.

(** The handler. *)
Definition coverage_failed (e : exn) : fleet FleetResult.t :=
  _ ← sync (_ ← _fail_active_handover e; emit "FLEET_FAILED" None None);
  _ ← _cancel_all "persistent coverage coordination failed";
  sync (_ ← note_persistent_result;
        fleet_result FleetStatus.FAILED (error_value e) (error_message e)).

Definition _run_persistent (rounds : nat) (assignments : dict string) : fleet FleetResult.t :=
  co_try (cover rounds assignments) is_CrazySwarmError coverage_failed.

(** ** [run] *)

Definition run (rounds : nat) (assignments : dict string) (allow_simulation_low_battery : bool) :
    fleet FleetResult.t :=
  prepared ← sync (
    _ ← modify (FleetCoordinator.set_allow_simulation_low_battery allow_simulation_low_battery);
    launch_order ← _policy_launch_order assignments;
    self ← get;
    mret (launch_order, is_some (FleetCoordinator._persistent self)));
  if prepared.2 : bool then _run_persistent rounds assignments
  else run_tasks rounds assignments prepared.1.
End rotation.
