(* ===== verification/Coordination.v ===== *)
(** * Fleet coordinator: theorems

    The coordinator is a client of the preparation, of its supervisor, of the task
    ledger and of the dock manager.  Its run, the tasks that confirm crossing
    holds, the requests of an operator and everything else that happens to the
    missions interleave; what each component promises still holds at every await,
    and so do the tables in which the coordinator keeps its missions. *)

From S2P Require Import Prelude Float64 Effects Contracts Artifacts.
From S2P Require Import Tasks Persistent Docks Zones Safety PlanContracts Routes Intents.
From S2P Require Import Trajectory Planning Telemetry Commands Missions Authority.
From S2P Require Import Deconfliction Multidrone Coroutines Supervisor Preparation.
From S2P Require Import Supervision Guarantees Readiness Metrics Fleet Coordinator Rotation.

Notation args := MissionTask.arguments.

Section invariant.
Context `{CK : Clock} `{CN : !ClockNonneg} `{LM : Libm} `{DG : Digest}.

(** ** The invariant *)

Definition fleet_event_fits (s : Fleet) (e : FleetEvent.t) : Prop :=
  FleetEvent.fleet_session_id e = session_of s /\ FleetEvent.fleet_run_id e = run_of s /\
  FleetEvent.deployment_sha256 e = DeploymentManifest_sha256 (deployment_of s).

(** A mission runs under an authority of this fleet run, for the task it flies or
    for the approach of a reserve to that task, and needs a prepared vehicle. *)
Definition mission_fits (s : Fleet) (t : MissionTask.t) : Prop :=
  let b := MissionArguments.fleet_binding (args t) in
  let role := MissionArguments.mission_role_id (args t) in
  MissionArguments.require_prepared (args t) = true /\
  FleetCommandBinding_valid b = true /\
  FleetCommandBinding.fleet_session_id b = session_of s /\
  FleetCommandBinding.fleet_run_id b = run_of s /\
  FleetCommandBinding.deployment_sha256 b = DeploymentManifest_sha256 (deployment_of s) /\
  (FleetCommandBinding.task_id b = role \/
   FleetCommandBinding.task_id b = "staging-" +:+ role /\
   FleetCommandBinding.task_lease_generation b = 1).

(** The tables that keep the missions of one kind by key. *)
Record tables_ok (missions : list MissionTask.t) (children : dict nat) (runs vehicles : dict string)
    (bindings : dict FleetCommandBinding.t) : Prop := {
  tb_child : forall k i, dict_get k children = Some i ->
    exists t, missions !! i = Some t /\
      dict_get k runs = Some (MissionArguments.mission_run_id (args t)) /\
      dict_get k vehicles = Some (MissionArguments.vehicle_id (args t)) /\
      is_Some (dict_get k bindings);
  tb_runs : forall k, is_Some (dict_get k runs) -> is_Some (dict_get k children);
  tb_vehicles : forall k, is_Some (dict_get k vehicles) -> is_Some (dict_get k children);
}.

(** The children of a task fly for that task. *)
Definition flown_for_tasks (missions : list MissionTask.t) (children : dict nat) : Prop :=
  forall k i, dict_get k children = Some i -> exists t, missions !! i = Some t /\
    FleetCommandBinding.task_id (MissionArguments.fleet_binding (args t)) = k.

Record fleet_ok (s : Fleet) : Prop := {
  fo_coverage : forall p, FleetCoordinator._persistent s = Some p -> coordinator_ok p;
  fo_ledger : ledger_ok (tasks s);
  fo_docks : forall m, FleetCoordinator._dock_manager s = Some m -> manager_ok m;
  fo_numbers : FleetEvent.sequence <$> FleetCoordinator._events s =
    seqZ 1 (Z.of_nat (length (FleetCoordinator._events s)));
  fo_events : Forall (fleet_event_fits s) (FleetCoordinator._events s);
  fo_missions : Forall (mission_fits s) (FleetCoordinator.mission_tasks s);
  fo_children : tables_ok (FleetCoordinator.mission_tasks s) (FleetCoordinator._children s)
    (FleetCoordinator._child_runs s) (FleetCoordinator._child_vehicle_ids s)
    (FleetCoordinator._bindings s);
  fo_handovers : tables_ok (FleetCoordinator.mission_tasks s) (FleetCoordinator._handover_children s)
    (FleetCoordinator._handover_runs s) (FleetCoordinator._handover_vehicle_ids s)
    (FleetCoordinator._handover_bindings s);
  fo_flown : flown_for_tasks (FleetCoordinator.mission_tasks s) (FleetCoordinator._children s);
}.

(** What happens to the missions: new ones start, those there are keep their
    arguments and end at most once. *)
Definition missions_evolve (l l' : list MissionTask.t) : Prop :=
  forall i t, l !! i = Some t -> exists t', l' !! i = Some t' /\ args t' = args t /\
    forall o, MissionTask.ended t = Some o -> MissionTask.ended t' = Some o.

#[export] Instance missions_evolve_preorder : PreOrder missions_evolve.
Proof.
  split; [by intros l i t Ht; exists t|]. intros l1 l2 l3 H12 H23 i t Ht.
  destruct (H12 i t Ht) as (t2 & H2 & E2 & D2). destruct (H23 i t2 H2) as (t3 & H3 & E3 & D3).
  exists t3. split_and!; [done|congruence|auto].
Qed.

(** What happens to the handovers of the persistent coordinator, if there is one. *)
Definition coverage_along (o o' : option PersistentCoverageCoordinator.t) : Prop :=
  forall p, o = Some p -> exists p', o' = Some p' /\ coverage_kept p p'.

#[export] Instance coverage_along_preorder : PreOrder coverage_along.
Proof.
  split; [by intros o p Hp; exists p|]. intros o1 o2 o3 H12 H23 p Hp.
  destruct (H12 p Hp) as (p2 & Hp2 & K12). destruct (H23 p2 Hp2) as (p3 & Hp3 & K23).
  exists p3. split; [done|]. by etrans.
Qed.

(** What never changes, and what only grows. *)
Record fleet_ext (s s' : Fleet) : Prop := {
  fe_setup : setup s' = setup s;
  fe_persistent : is_some (FleetCoordinator._persistent s') = is_some (FleetCoordinator._persistent s);
  fe_tasks : ledger_steps (tasks s) (tasks s');
  fe_coverage : coverage_along (FleetCoordinator._persistent s) (FleetCoordinator._persistent s');
  fe_missions : missions_evolve (FleetCoordinator.mission_tasks s) (FleetCoordinator.mission_tasks s');
  fe_receipts : FleetCoordinator._authority_transitions s
    `prefix_of` FleetCoordinator._authority_transitions s';
}.

#[export] Instance fleet_ext_preorder : PreOrder fleet_ext.
Proof.
  split; [intros s; split; done|]. intros s1 s2 s3 [] [].
  split; [congruence|congruence|..]; by etrans.
Qed.

Definition fleet_good : Fleet -> Prop := at_attribute FleetCoordinator.preparation good fleet_ok.
Definition fleet_along : Fleet -> Fleet -> Prop :=
  along_attribute FleetCoordinator.preparation along fleet_ext.

#[export] Instance fleet_along_preorder : PreOrder fleet_along.
Proof. apply (along_attribute_preorder _ along fleet_ext). Qed.

(** A step that keeps the invariant. *)
Definition fleet_kept (s s' : Fleet) : Prop := fleet_good s -> fleet_good s' /\ fleet_along s s'.

#[export] Instance fleet_kept_preorder : PreOrder fleet_kept.
Proof.
  split; [by intros s; split|]. intros s1 s2 s3 H12 H23 H1. destruct (H12 H1) as [H2 A12].
  destruct (H23 H2). split; [done|]. by etrans.
Qed.

(** ** Steps of the state *)

Lemma tables_evolve l l' children runs vehicles bindings :
  missions_evolve l l' -> tables_ok l children runs vehicles bindings ->
  tables_ok l' children runs vehicles bindings.
Proof.
  intros Hl [H1 H2 H3]. split; [|done..]. intros k i Hi.
  destruct (H1 k i Hi) as (t & Ht & Hr & Hv & Hb). destruct (Hl i t Ht) as (t' & Ht' & E & _).
  exists t'. by rewrite E.
Qed.

Lemma flown_evolve l l' children :
  missions_evolve l l' -> flown_for_tasks l children -> flown_for_tasks l' children.
Proof.
  intros Hl H k i Hi. destruct (H k i Hi) as (t & Ht & Hb).
  destruct (Hl i t Ht) as (t' & Ht' & E & _). exists t'. by rewrite E.
Qed.

Lemma set_preparation_ok t s : fleet_ok s -> fleet_ok (FleetCoordinator.set_preparation t s).
Proof. by intros []. Qed.

Lemma set_preparation_ext t s : fleet_ext s (FleetCoordinator.set_preparation t s).
Proof. by split. Qed.

(** A step of the attributes of [fleet_ok] only. *)
Lemma kept_parts s s' :
  FleetCoordinator.preparation s' = FleetCoordinator.preparation s ->
  (fleet_ok s -> fleet_ok s' /\ fleet_ext s s') -> fleet_kept s s'.
Proof.
  intros Hp H [HG HR]. destruct (H HR). split; (split; [|done]); by rewrite Hp.
Qed.

Lemma on_preparation_kept {A} (m : M Prep A) : steps kept m -> steps fleet_kept (on_preparation m).
Proof.
  intros Hm s n. unfold on_preparation. apply wp_zoom. eapply wp_mono; [apply Hm|].
  intros o t n' Hk [HG HR]. destruct (Hk HG).
  split; (split; [done|]); [by apply set_preparation_ok|by apply set_preparation_ext].
Qed.

Lemma on_supervisor_safe {A} (m : M Sup A) : Safe m -> steps fleet_kept (on_supervisor m).
Proof. intros Hm. by apply on_preparation_kept, on_supervisor_kept. Qed.

Lemma on_supervisor_quiet {A} (m : M Sup A) : steps quiet m -> steps fleet_kept (on_supervisor m).
Proof. intros Hm. by apply on_supervisor_safe, Safe_quiet. Qed.

Lemma wp_zoom_some {S T A} (pi : S -> option T) upd e (m : M T A)
    (Q : outcome A -> S -> nat -> Prop) s n :
  (pi s = None -> Q (Raise e) s n) ->
  (forall t, pi s = Some t -> wp m (fun o t' n' => Q o (upd (Some t') s) n') t n) ->
  wp (zoom_some pi upd e m) Q s n.
Proof.
  intros H1 H2. unfold wp, zoom_some in *. destruct (pi s) as [t|]; [|by apply H1].
  specialize (H2 t eq_refl). by destruct (m t n) as [[? ?] ?].
Qed.

Lemma set_tasks_get l s : tasks (set_tasks l s) = l.
Proof. unfold tasks, set_tasks. destruct (FleetCoordinator._persistent s) eqn:E; simpl; by rewrite ?E. Qed.

(** A call of the ledger, the one of the persistent coordinator if there is one. *)
Definition Ledger {A} (m : M TaskLedger.t A) : Prop := steps ledger_steps m.

Lemma kept_tasks l s : ledger_steps (tasks s) l -> fleet_kept s (set_tasks l s).
Proof.
  intros Hl. apply kept_parts; [unfold set_tasks; by destruct (FleetCoordinator._persistent s)|].
  intros [H1 H2 H3 H4 H5 H6 H7 H8 H9]. pose proof (ledger_steps_ok _ _ Hl H2) as Hok.
  pose proof (set_tasks_get l s) as Hg.
  split; split; rewrite ?Hg; try done;
    unfold set_tasks in *; destruct (FleetCoordinator._persistent s) as [p|] eqn:E; simpl; rewrite ?E; try done.
  all: unfold tasks in Hl; rewrite E in Hl;
    assert (Hstep : coordinator_step p (PersistentCoverageCoordinator.set_tasks l p))
      by (split; simpl; [done|done|constructor|lia]).
  - intros ? [= <-]. by eapply coordinator_step_ok; [|by apply H1].
  - intros ? [= <-]. eexists. split; [done|]. apply coordinator_step_kept; [done|by apply H1].
Qed.

Lemma on_tasks_kept {A} (m : M TaskLedger.t A) : Ledger m -> steps fleet_kept (on_tasks m).
Proof.
  intros Hm s n. unfold on_tasks. apply wp_zoom. eapply wp_mono; [apply Hm|].
  intros o l n' Hl. by apply kept_tasks.
Qed.

(** Calls of the ledger, from their common contract. *)
Lemma wp_undiscard {S A} (m : M S A) (P : S -> Prop) s n :
  wp (_ ← m; mret tt) (fun _ s' _ => P s') s n -> wp m (fun _ s' _ => P s') s n.
Proof. unfold wp, mbind, M_bind. by destruct (m s n) as [[[a|e] s'] n']. Qed.

Lemma Ledger_perform c : Ledger (perform c).
Proof.
  intros l n. eapply wp_mono; [apply perform_post|]. intros o l' n' [Hrel _].
  by eapply ledger_rel_steps.
Qed.

Lemma Ledger_call {A} c (m : M TaskLedger.t A) : perform c = (_ ← m; mret tt) -> Ledger m.
Proof. intros E l n. apply wp_undiscard. rewrite <- E. apply Ledger_perform. Qed.

Lemma Ledger_assign t v caps b a now : Ledger (Tasks.assign t v caps b a now).
Proof. by apply (Ledger_call (CallAssign t v caps b a now)). Qed.
Lemma Ledger_start t v c g now : Ledger (Tasks.start t v c g now).
Proof. by apply (Ledger_call (CallStart t v c g now)). Qed.
Lemma Ledger_renew t v g now : Ledger (Tasks.renew t v g now).
Proof. by apply (Ledger_call (CallRenew t v g now)). Qed.
Lemma Ledger_progress t v g p now : Ledger (update_progress t v g p now).
Proof. by apply (Ledger_call (CallProgress t v g p now)). Qed.
Lemma Ledger_retry t why : Ledger (Tasks.retry t why).
Proof. by apply (Ledger_call (CallRetry t why)). Qed.
Lemma Ledger_complete t v g why now : Ledger (Tasks.complete t v g why now).
Proof. by apply (Ledger_call (CallComplete t v g why now)). Qed.
Lemma Ledger_abort t why : Ledger (Tasks.abort t why).
Proof. by apply (Ledger_call (CallAbort t why)). Qed.
Lemma Ledger_record t : Ledger (Tasks.record t).
Proof. intros l n. by apply wp_record. Qed.

(** An operation of the persistent coordinator. *)
Definition Coverage {A} (m : M PersistentCoverageCoordinator.t A) : Prop :=
  forall p n, coordinator_ok p -> wp m (fun _ p' _ => coordinator_step p p') p n.

Lemma kept_coverage p p' s :
  FleetCoordinator._persistent s = Some p -> coordinator_step p p' ->
  fleet_kept s (FleetCoordinator.set_persistent (Some p') s).
Proof.
  intros E Hstep. apply kept_parts; [done|]. intros [H1 H2 H3 H4 H5 H6 H7 H8 H9].
  pose proof (coordinator_step_ok _ _ Hstep (H1 p E)) as Hok.
  split; split; simpl; try done.
  - by intros ? [= <-].
  - apply Hok.
  - by rewrite E.
  - unfold tasks. rewrite E. simpl. apply Hstep.
  - intros q Hq. exists p'. split; [done|]. assert (q = p) as -> by congruence.
    apply coordinator_step_kept; [done|by apply H1].
Qed.

Lemma on_persistent_kept {A} (m : M PersistentCoverageCoordinator.t A) :
  Coverage m -> steps fleet_kept (on_persistent m).
Proof.
  intros Hm s n. unfold on_persistent. apply wp_zoom_some; [done|]. intros p Hp.
  unfold wp. intros HG. destruct (m p n) as [[o p'] n'] eqn:Em. simpl.
  assert (Hstep : coordinator_step p p').
  { destruct HG as [_ HR]. pose proof (Hm p n (fo_coverage s HR p Hp)) as H. unfold wp in H.
    by rewrite Em in H. }
  by apply (kept_coverage p p' s Hp Hstep).
Qed.

Lemma Coverage_operate op : Coverage (operate op).
Proof. intros p n Hok. by apply operate_step. Qed.

Lemma Coverage_call {A} op (m : M PersistentCoverageCoordinator.t A) :
  operate op = (_ ← m; mret tt) -> Coverage m.
Proof.
  intros E p n Hok. apply wp_undiscard. rewrite <- E. by apply Coverage_operate.
Qed.

Lemma Coverage_allocate c a pr now : Coverage (allocate_initial c a pr now).
Proof. by apply (Coverage_call (OpAllocate c a pr now)). Qed.
Lemma Coverage_begin t why c now : Coverage (begin_handover t why c now).
Proof. by apply (Coverage_call (OpBegin t why c now)). Qed.
Lemma Coverage_ready i c now : Coverage (confirm_replacement_ready i c now).
Proof. by apply (Coverage_call (OpReady i c now)). Qed.
Lemma Coverage_takeover i c now : Coverage (confirm_takeover i c now).
Proof. by apply (Coverage_call (OpTakeover i c now)). Qed.
Lemma Coverage_release i why now : Coverage (release_outgoing i why now).
Proof. by apply (Coverage_call (OpRelease i why now)). Qed.
Lemma Coverage_terminate i why f now : Coverage (terminate_handover i why f now).
Proof. by apply (Coverage_call (OpTerminate i why f now)). Qed.
Lemma Coverage_fail i why now : Coverage (fail_handover i why now).
Proof. by apply (Coverage_call (OpFail i why now)). Qed.
Lemma Coverage_separation c : Coverage (Persistent.enforce_separation c).
Proof. by apply (Coverage_call (OpSeparation c)). Qed.
Lemma Coverage_result : Coverage result.
Proof. by apply (Coverage_call OpResult). Qed.
Lemma Coverage_handover i : Coverage (handover i).
Proof.
  intros p n Hok. unfold handover.
  assert (coordinator_step p p) by (split; [done|done|constructor|lia]).
  wp_go. by destruct (dict_get _ _); wp_go.
Qed.

Lemma Coverage_ret {A} (a : A) : Coverage (mret a).
Proof. intros p n Hok. wp_rule. split; [done|done|constructor|lia]. Qed.

(** An operation of the dock manager. *)
Definition Dock {A} (m : M DockManager.t A) : Prop :=
  forall d n, manager_ok d -> wp m (fun _ d' _ => manager_ok d') d n.

Lemma on_docks_kept {A} (m : M DockManager.t A) : Dock m -> steps fleet_kept (on_docks m).
Proof.
  intros Hm s n. unfold on_docks. apply wp_zoom_some; [done|]. intros d Hd.
  unfold wp. destruct (m d n) as [[o d'] n'] eqn:Em. simpl.
  apply kept_parts; [done|]. intros [H1 H2 H3 H4 H5 H6 H7 H8 H9].
  pose proof (Hm d n (H3 d Hd)) as H. unfold wp in H. rewrite Em in H.
  split; split; try done. simpl. by intros ? [= <-].
Qed.

Lemma Dock_call {A} c (m : M DockManager.t A) : dock_perform c = (_ ← m; mret tt) -> Dock m.
Proof.
  intros E d n Hok. apply wp_undiscard. rewrite <- E. eapply wp_mono; [by apply dock_perform_rel|].
  intros o d' n' Hrel. exact (manager_rel_ok _ _ Hrel Hok).
Qed.

Lemma Dock_reserve_after h b now : Dock (reserve_after_handover h b now).
Proof. by apply (Dock_call (DockReserveAfter h b now)). Qed.
Lemma Dock_transition i t why now : Dock (Docks.transition i t why now).
Proof. by apply (Dock_call (DockTransition i t why now)). Qed.
Lemma Dock_landing i c now : Dock (confirm_modeled_landing i c now).
Proof. by apply (Dock_call (DockLanding i c now)). Qed.
Lemma Dock_charging i c now : Dock (confirm_modeled_charging i c now).
Proof. by apply (Dock_call (DockCharging i c now)). Qed.
Lemma Dock_update i now : Dock (update_modeled_charge i now).
Proof. by apply (Dock_call (DockUpdate i now)). Qed.
Lemma Dock_reservation i : Dock (reservation i).
Proof. intros d n Hok. unfold reservation. wp_go. by destruct (dict_get _ _); wp_go. Qed.
Lemma Dock_snapshots ids : Dock (snapshots ids).
Proof.
  induction ids as [|i ids IH]; intros d n Hok; simpl; [by wp_rule|].
  apply wp_bind, wp_snapshot. intros [x|e]; [|done]. apply wp_bind.
  eapply wp_mono; [by apply IH|]. intros [l|e] d' n' Hd; [by wp_rule|done].
Qed.

(** ** Attributes of the coordinator itself *)

Lemma kept_event_appended e s :
  FleetEvent.sequence e = Z.of_nat (length (FleetCoordinator._events s)) + 1 ->
  fleet_event_fits s e ->
  fleet_kept s (FleetCoordinator.set_events (FleetCoordinator._events s ++ [e]) s).
Proof.
  intros Hn He. apply kept_parts; [done|]. intros [H1 H2 H3 H4 H5 H6 H7 H8 H9].
  split; split; simpl; try done.
  - rewrite fmap_app, H4, length_app, Nat2Z.inj_add, seqZ_app by lia. f_equal.
    rewrite (seqZ_cons _ (Z.of_nat _)) by (simpl; lia). simpl. f_equal. lia.
  - apply Forall_app. split; [done|]. by apply Forall_singleton.
Qed.

Lemma fleet_emit_kept t v k : steps fleet_kept (emit t v k).
Proof. intros s n. unfold emit. wp_go; [done|]. by apply kept_event_appended. Qed.

Lemma metric_kept kind c v t x st : steps fleet_kept (metric kind c v t x st).
Proof.
  intros s n. unfold metric. wp_go; [done|]. apply wp_zoom_some; [done|]. intros r _.
  unfold wp. destruct (record_metric _ _ _ _ _ _ _ _ r _) as [[[a|e] r'] n']; simpl;
    (apply kept_parts; [done|]; intros []; by split; split).
Qed.

Lemma on_gate_kept {A} (m : M Gate A) : steps fleet_kept (on_gate m).
Proof.
  intros s n. unfold on_gate. apply wp_zoom_some; [done|]. intros g _. unfold wp.
  destruct (m g n) as [[o g'] n']. simpl. apply kept_parts; [done|]. intros []; by split; split.
Qed.

Lemma on_runner_kept {A} (m : M MissionRunner.t A) : steps fleet_kept (on_runner m).
Proof.
  intros s n. unfold on_runner. apply wp_zoom. unfold wp.
  destruct (m _ n) as [[o g'] n']. simpl. apply kept_parts; [done|]. intros []; by split; split.
Qed.

(** The missions move on, and nothing else. *)
Lemma kept_missions l s :
  missions_evolve (FleetCoordinator.mission_tasks s) l ->
  (Forall (mission_fits s) (FleetCoordinator.mission_tasks s) -> Forall (mission_fits s) l) ->
  fleet_kept s (FleetCoordinator.set_mission_tasks l s).
Proof.
  intros Hl Hf. apply kept_parts; [done|]. intros [H1 H2 H3 H4 H5 H6 H7 H8 H9].
  split; split; simpl; try done; [by apply Hf|by eapply tables_evolve..|by eapply flown_evolve].
Qed.

Lemma evolve_alter (f : MissionTask.t -> MissionTask.t) i l :
  (forall t, args (f t) = args t) ->
  (forall t o, MissionTask.ended t = Some o -> MissionTask.ended (f t) = Some o) ->
  missions_evolve l (alter f i l).
Proof.
  intros Ha He j t Ht. destruct (decide (i = j)) as [->|Hne].
  - exists (f t). rewrite list_lookup_alter_eq, Ht. split_and!; [done|done|]. intros o. apply He.
  - exists t. by rewrite list_lookup_alter_ne.
Qed.

Lemma fits_alter s f i l :
  (forall t, args (f t) = args t) -> Forall (mission_fits s) l -> Forall (mission_fits s) (alter f i l).
Proof.
  intros Ha. rewrite !Forall_lookup. intros H j t Hj. destruct (decide (i = j)) as [->|Hne].
  - rewrite list_lookup_alter_eq in Hj. apply fmap_Some in Hj as (t0 & Ht0 & ->).
    unfold mission_fits. rewrite Ha. by apply (H j).
  - rewrite list_lookup_alter_ne in Hj by done. by apply (H j).
Qed.

Lemma cancel_task_kept i : steps fleet_kept (cancel_task i).
Proof.
  unfold cancel_task. apply steps_modify. intros s.
  assert (Ha : forall t, args (task_cancel t) = args t) by (intros t; unfold task_cancel; by destruct (task_done t)).
  apply kept_missions; [|by apply fits_alter].
  apply evolve_alter; [done|]. intros t o Ho. unfold task_cancel, task_done. by rewrite Ho.
Qed.


Lemma receipt_kept r s : fleet_kept s
  (FleetCoordinator.set_authority_transitions (FleetCoordinator._authority_transitions s ++ [r]) s).
Proof.
  apply kept_parts; [done|]. intros []. split; split; try done. by eexists.
Qed.

Lemma binding_kept k b :
  steps fleet_kept (set_item FleetCoordinator.set_bindings FleetCoordinator._bindings k b).
Proof.
  unfold set_item. apply steps_modify. intros s. apply kept_parts; [done|].
  intros [H1 H2 H3 H4 H5 H6 [T1 T2 T3] H8 H9]. split; split; try done. split; simpl; [|done..].
  intros k' i Hi. destruct (T1 k' i Hi) as (t & ? & ? & ? & ?). exists t. split_and!; try done.
  rewrite dict_get_set. by case_decide.
Qed.

Lemma handover_binding_kept k b : steps fleet_kept
  (set_item FleetCoordinator.set_handover_bindings FleetCoordinator._handover_bindings k b).
Proof.
  unfold set_item. apply steps_modify. intros s. apply kept_parts; [done|].
  intros [H1 H2 H3 H4 H5 H6 H7 [T1 T2 T3] H9]. split; split; try done. split; simpl; [|done..].
  intros k' i Hi. destruct (T1 k' i Hi) as (t & ? & ? & ? & ?). exists t. split_and!; try done.
  rewrite dict_get_set. by case_decide.
Qed.

(** *** A new mission *)

Lemma tables_started l t k b children runs vehicles bindings :
  tables_ok l children runs vehicles bindings ->
  tables_ok (l ++ [t]) (dict_set k (length l) children)
    (dict_set k (MissionArguments.mission_run_id (args t)) runs)
    (dict_set k (MissionArguments.vehicle_id (args t)) vehicles) (dict_set k b bindings).
Proof.
  intros [H1 H2 H3]. split.
  - intros k' i. rewrite !dict_get_set. case_decide.
    + intros [= <-]. exists t. by rewrite list_lookup_middle.
    + intros Hi. destruct (H1 k' i Hi) as (t' & Ht & ? & ? & ?). exists t'.
      split_and!; [|done..]. by apply lookup_app_l_Some.
  - intros k'. rewrite !dict_get_set. case_decide; [done|apply H2].
  - intros k'. rewrite !dict_get_set. case_decide; [done|apply H3].
Qed.

Lemma evolve_started l t : missions_evolve l (l ++ [t]).
Proof. intros i u Hu. exists u. split_and!; [by apply lookup_app_l_Some|done..]. Qed.

Lemma flown_started l t k children :
  FleetCommandBinding.task_id (MissionArguments.fleet_binding (args t)) = k ->
  flown_for_tasks l children -> flown_for_tasks (l ++ [t]) (dict_set k (length l) children).
Proof.
  intros Hk H k' i. rewrite dict_get_set. case_decide.
  - intros [= <-]. exists t. rewrite list_lookup_middle; [by subst|done].
  - intros (u & Hu & Hb)%H. exists u. split; [by apply lookup_app_l_Some|done].
Qed.

Lemma kept_child_started k a b s :
  mission_fits s (MissionTask.mk a false None) ->
  FleetCommandBinding.task_id (MissionArguments.fleet_binding a) = k ->
  fleet_kept s (s
    |> FleetCoordinator.set_child_runs
         (dict_set k (MissionArguments.mission_run_id a) (FleetCoordinator._child_runs s))
    |> FleetCoordinator.set_bindings (dict_set k b (FleetCoordinator._bindings s))
    |> FleetCoordinator.set_child_vehicle_ids
         (dict_set k (MissionArguments.vehicle_id a) (FleetCoordinator._child_vehicle_ids s))
    |> FleetCoordinator.set_mission_tasks
         (FleetCoordinator.mission_tasks s ++ [MissionTask.mk a false None])
    |> FleetCoordinator.set_children
         (dict_set k (length (FleetCoordinator.mission_tasks s)) (FleetCoordinator._children s))).
Proof.
  intros Hf Hk. apply kept_parts; [done|]. intros [H1 H2 H3 H4 H5 H6 H7 H8 H9]. split; split; simpl; try done.
  - apply Forall_app. split; [done|]. by apply Forall_singleton.
  - by apply (tables_started _ (MissionTask.mk a false None)).
  - eapply tables_evolve; [|done]. apply evolve_started.
  - by apply flown_started.
  - apply evolve_started.
Qed.

Lemma kept_handover_started k a b s :
  mission_fits s (MissionTask.mk a false None) ->
  fleet_kept s (s
    |> FleetCoordinator.set_mission_tasks
         (FleetCoordinator.mission_tasks s ++ [MissionTask.mk a false None])
    |> FleetCoordinator.set_handover_children
         (dict_set k (length (FleetCoordinator.mission_tasks s)) (FleetCoordinator._handover_children s))
    |> FleetCoordinator.set_handover_runs
         (dict_set k (MissionArguments.mission_run_id a) (FleetCoordinator._handover_runs s))
    |> FleetCoordinator.set_handover_bindings (dict_set k b (FleetCoordinator._handover_bindings s))
    |> FleetCoordinator.set_handover_vehicle_ids
         (dict_set k (MissionArguments.vehicle_id a) (FleetCoordinator._handover_vehicle_ids s))).
Proof.
  intros Hf. apply kept_parts; [done|]. intros [H1 H2 H3 H4 H5 H6 H7 H8 H9]. split; split; simpl; try done.
  - apply Forall_app. split; [done|]. by apply Forall_singleton.
  - eapply tables_evolve; [|done]. apply evolve_started.
  - by apply (tables_started _ (MissionTask.mk a false None)).
  - eapply flown_evolve; [|done]. apply evolve_started.
  - apply evolve_started.
Qed.
End invariant.

(** An attribute the invariant does not mention. *)
Ltac unmentioned := apply kept_parts; [done|]; let H := fresh in intros H; destruct H; by split; split.

#[export] Hint Extern 5 (fleet_kept _ _) => solve [unmentioned | apply receipt_kept] : steps.
#[export] Hint Resolve fleet_emit_kept metric_kept on_gate_kept on_runner_kept cancel_task_kept
  binding_kept handover_binding_kept on_preparation_kept on_tasks_kept on_persistent_kept on_docks_kept
  on_supervisor_safe
  Ledger_assign Ledger_start Ledger_renew Ledger_progress Ledger_retry Ledger_complete Ledger_abort
  Ledger_record
  Coverage_allocate Coverage_begin Coverage_ready Coverage_takeover Coverage_release
  Coverage_terminate Coverage_fail Coverage_separation Coverage_result Coverage_handover Coverage_ret
  Dock_reserve_after Dock_transition Dock_landing Dock_charging Dock_update Dock_reservation
  Dock_snapshots Safe_claim_control : steps.

(** ** Operations *)

#[export] Hint Constants Opaque : steps.
#[export] Hint Extern 6 (steps fleet_kept (on_supervisor _)) =>
  apply on_supervisor_quiet; solve [steps_go] : steps.

Section operations.
Context `{CK : Clock} `{CN : !ClockNonneg} `{LM : Libm} `{DG : Digest}.

Lemma item_of_kept {A} (d : Fleet -> dict A) k : steps fleet_kept (item_of d k).
Proof. unfold item_of. steps_go. Qed.
Lemma fleet_session_state_kept v : steps fleet_kept (session_state v).
Proof. unfold session_state. steps_go. Qed.
Lemma verified_vehicle_kept v : steps fleet_kept (verified_vehicle v).
Proof. unfold verified_vehicle. steps_go. Qed.
Lemma observed_kept v t : steps fleet_kept (observed v t).
Proof. unfold observed. steps_go. Qed.
Lemma mission_task_kept i : steps fleet_kept (mission_task i).
Proof. unfold mission_task. steps_go. Qed.
#[local] Hint Resolve mission_task_kept item_of_kept fleet_session_state_kept : steps.
Lemma is_done_kept i : steps fleet_kept (is_done i).
Proof. unfold is_done. steps_go. Qed.
#[local] Hint Resolve is_done_kept : steps.
Lemma cancel_mission_kept r : steps fleet_kept (cancel_mission r).
Proof. unfold cancel_mission. steps_go. Qed.
Lemma phase_of_kept r : steps fleet_kept (phase_of r).
Proof. unfold phase_of. steps_go. Qed.
#[local] Hint Resolve cancel_mission_kept phase_of_kept : steps.
Lemma active_tasks_kept v items : steps fleet_kept (active_tasks v items).
Proof. induction items as [|[] ? IH]; simpl; steps_go. Qed.
#[local] Hint Resolve active_tasks_kept : steps.
Lemma abort_vehicle_kept v : steps fleet_kept (abort_vehicle v).
Proof. unfold abort_vehicle, abort_task, abort_handover. steps_go. Qed.
#[local] Hint Resolve abort_vehicle_kept : steps.
Lemma validate_assignments_kept a : steps fleet_kept (_validate_assignments a).
Proof. unfold _validate_assignments. steps_go. Qed.
Lemma policy_launch_order_kept a : steps fleet_kept (_policy_launch_order a).
Proof. unfold _policy_launch_order. steps_go. Qed.
Lemma assign_task_kept a t : steps fleet_kept (assign_task a t).
Proof. unfold assign_task. steps_go. Qed.
Lemma launch_checked_kept r c : steps fleet_kept (launch_checked r c).
Proof. unfold launch_checked. steps_go. Qed.

(** *** Separation *)
Lemma request_hold_kept p v r : steps fleet_kept (_request_crossing_hold p v r).
Proof. unfold _request_crossing_hold. steps_go. Qed.
Lemma pop_hold_kept p : steps fleet_kept (pop_hold p).
Proof. unfold pop_hold. steps_go. Qed.
Lemma serialized_binding_kept r m : steps fleet_kept (serialized_binding r m).
Proof. unfold serialized_binding. steps_go. Qed.
#[local] Hint Resolve request_hold_kept pop_hold_kept serialized_binding_kept : steps.
Lemma held_mission_kept v : steps fleet_kept (held_mission v).
Proof. unfold held_mission. steps_go. Qed.
Lemma refresh_due_kept v r : steps fleet_kept (refresh_due v r).
Proof. unfold refresh_due. steps_go. Qed.
Lemma active_of_pair_kept a b : steps fleet_kept (active_of_pair a b).
Proof. unfold active_of_pair. steps_go. Qed.
Lemma view_pair_kept l p : steps fleet_kept (view_pair l p).
Proof. unfold view_pair. steps_go. Qed.
Lemma intervention_noted_kept v t : steps fleet_kept (intervention_noted v t).
Proof. unfold intervention_noted. steps_go. Qed.
Lemma release_noted_kept v t : steps fleet_kept (release_noted v t).
Proof. unfold release_noted. steps_go. Qed.
Lemma decide_pair_kept v : steps fleet_kept (decide_pair v).
Proof. unfold decide_pair. steps_go. Qed.
Lemma note_observation_kept v a l : steps fleet_kept (note_observation v a l).
Proof. unfold note_observation. steps_go. Qed.
Lemma observation_unavailable_kept v : steps fleet_kept (observation_unavailable v).
Proof. unfold observation_unavailable. steps_go. Qed.
Lemma enforce_freshness_kept : steps fleet_kept _enforce_freshness.
Proof. unfold _enforce_freshness, enforce_fresh. steps_go. Qed.
Lemma recovery_proposal_kept t k v a o : steps fleet_kept (_record_recovery_proposal t k v a o).
Proof. unfold _record_recovery_proposal. steps_go. Qed.
#[local] Hint Resolve recovery_proposal_kept : steps.

(** *** Leader and follower *)
Lemma task_owner_kept t : steps fleet_kept (task_owner t).
Proof. unfold task_owner. steps_go. Qed.
Lemma abort_owner_kept o : steps fleet_kept (abort_owner o).
Proof. unfold abort_owner. steps_go. Qed.
Lemma add_policy_id_kept p : steps fleet_kept (add_policy_id p).
Proof. unfold add_policy_id. steps_go. Qed.
#[local] Hint Resolve task_owner_kept abort_owner_kept add_policy_id_kept : steps.
Lemma leader_loss_kept : steps fleet_kept _apply_leader_loss_policy.
Proof. unfold _apply_leader_loss_policy. steps_go. Qed.
Lemma follower_loss_kept : steps fleet_kept _apply_follower_loss_policy.
Proof. unfold _apply_follower_loss_policy. steps_go. Qed.
#[local] Hint Resolve leader_loss_kept follower_loss_kept : steps.
Lemma mission_over_kept r : steps fleet_kept (mission_over r).
Proof. unfold mission_over. steps_go. Qed.
Lemma reception_loss_kept v : steps fleet_kept (reception_loss v).
Proof. unfold reception_loss. steps_go. Qed.
#[local] Hint Resolve mission_over_kept reception_loss_kept : steps.
Lemma sample_assessed_kept c r v t : steps fleet_kept (sample_assessed c r v t).
Proof. unfold sample_assessed. steps_go. Qed.
Lemma mission_watched_kept t : steps fleet_kept (mission_watched t).
Proof. unfold mission_watched. steps_go. Qed.
Lemma requires_recovery_kept t : steps fleet_kept (_coordination_loss_requires_recovery t).
Proof. unfold _coordination_loss_requires_recovery. steps_go. Qed.
Lemma note_formation_kept l f ls fs : steps fleet_kept (note_formation l f ls fs).
Proof. unfold note_formation. steps_go. Qed.
#[local] Hint Resolve requires_recovery_kept note_formation_kept : steps.
Lemma formation_kept : steps fleet_kept formation.
Proof. unfold formation. steps_go. destruct a0, a1; steps_go. Qed.
Lemma formation_assessed_kept a b c d e f : steps fleet_kept (formation_assessed a b c d e f).
Proof. unfold formation_assessed. steps_go. Qed.

(** *** The end of a mission *)
Lemma policy_peer_kept t i : steps fleet_kept (policy_peer t i).
Proof. destruct i as [k c]. unfold policy_peer. steps_go. Qed.
Lemma settle_task_kept t v r l m : steps fleet_kept (settle_task t v r l m).
Proof. unfold settle_task. cbv zeta. destruct (MissionResult.status m); steps_go. Qed.
Lemma formation_failed_kept t : steps fleet_kept (formation_failed t).
Proof. unfold formation_failed. steps_go. Qed.
#[local] Hint Resolve settle_task_kept formation_failed_kept : steps.
Lemma task_finished_kept t m : steps fleet_kept (task_finished t m).
Proof. unfold task_finished. steps_go. Qed.
Lemma renew_child_kept t : steps fleet_kept (renew_child t).
Proof. unfold renew_child. steps_go. Qed.

(** *** Cleanup and result *)
Lemma command_contexts_kept : steps fleet_kept command_contexts.
Proof. unfold command_contexts. steps_go. Qed.
Lemma cleanup_owner_kept a v t : steps fleet_kept (cleanup_owner a v t).
Proof. unfold cleanup_owner. steps_go. Qed.
Lemma clear_holds_kept : steps fleet_kept clear_holds.
Proof. unfold clear_holds. steps_go. Qed.
Lemma cancel_child_kept i : steps fleet_kept (cancel_child i).
Proof. destruct i. unfold cancel_child. steps_go. Qed.
Lemma cancel_handover_child_kept i : steps fleet_kept (cancel_handover_child i).
Proof. destruct i. unfold cancel_handover_child. steps_go. Qed.
Lemma abort_tasks_kept r : steps fleet_kept (abort_tasks r).
Proof. unfold abort_tasks. steps_go. Qed.
Lemma all_done_kept c : steps fleet_kept (all_done c).
Proof. unfold all_done. steps_go. Qed.
Lemma dock_snapshots_kept : steps fleet_kept dock_snapshots.
Proof. unfold dock_snapshots. steps_go. Qed.
Lemma metrics_report_kept : steps fleet_kept metrics_report.
Proof. unfold metrics_report. steps_go. Qed.
#[local] Hint Resolve dock_snapshots_kept metrics_report_kept : steps.
Lemma fleet_result_kept st r m : steps fleet_kept (fleet_result st r m).
Proof. unfold fleet_result. steps_go_opaque. Qed.
#[local] Hint Resolve fleet_result_kept : steps.
Lemma fleet_terminal_kept : steps fleet_kept fleet_terminal.
Proof. unfold fleet_terminal. steps_go. Qed.
Lemma ground_first_kept t s : steps fleet_kept (ground_first t s).
Proof. unfold ground_first. steps_go. Qed.

(** *** Launch *)

Lemma wp_new_binding v t g (Q : outcome FleetCommandBinding.t -> Fleet -> nat -> Prop) s n :
  (forall b, FleetCommandBinding_valid b = true -> FleetCommandBinding.fleet_session_id b = session_of s ->
     FleetCommandBinding.fleet_run_id b = run_of s ->
     FleetCommandBinding.deployment_sha256 b = DeploymentManifest_sha256 (deployment_of s) ->
     FleetCommandBinding.task_id b = t -> FleetCommandBinding.task_lease_generation b = g ->
     Q (Ret b) s n) ->
  (forall e, Q (Raise e) s n) -> wp (new_binding v t g) Q s n.
Proof.
  intros H1 H2. unfold new_binding. wp_rule. wp_rule. cbv beta iota. wp_rule. wp_rule.
  destruct (Artifacts.binding _ _) as [selected|e]; [|apply H2]. cbv beta iota zeta.
  wp_rule; [apply H2|]. by apply H1.
Qed.

Lemma set_tasks_setup l s : setup (set_tasks l s) = setup s.
Proof. unfold set_tasks. by destruct (FleetCoordinator._persistent s). Qed.

(** Sequencing, with what the first part left. *)
Lemma wp_kept_bind {A B} (m : M Fleet A) (f : A -> M Fleet B) s n :
  wp m (fun o s' n' => fleet_kept s s' /\
          forall a, o = Ret a -> wp (f a) (fun _ s'' _ => fleet_kept s' s'') s' n') s n ->
  wp (m ≫= f) (fun _ s' _ => fleet_kept s s') s n.
Proof.
  intros H. apply wp_bind. eapply wp_mono; [exact H|]. intros [a|e] s' n' [Hk Hf]; [|done].
  eapply wp_mono; [by apply Hf|]. intros o s'' n'' Hk'. by etrans.
Qed.

(** After steps that leave the setup alone. *)
Lemma on_tasks_framed {A} (m : M TaskLedger.t A) s n : Ledger m ->
  wp (on_tasks m) (fun _ s' _ => fleet_kept s s' /\ setup s' = setup s) s n.
Proof.
  intros Hm. unfold on_tasks. apply wp_zoom. eapply wp_mono; [apply Hm|]. intros o l n' Hl.
  split; [by apply kept_tasks|apply set_tasks_setup].
Qed.

Lemma start_child_kept t : steps fleet_kept (_start_child t).
Proof.
  intros s n. unfold _start_child. apply wp_kept_bind.
  eapply wp_mono; [apply on_tasks_kept, Ledger_record|]. intros o s0 n0 Hk0. split; [done|].
  intros record0 _. destruct (TaskRecord.owner_vehicle_id record0) as [v|]; [|by wp_rule].
  destruct (TaskRecord.lease record0) as [lease|]; [|by wp_rule].
  wp_rule. wp_rule. cbv beta iota zeta. apply wp_bind, wp_new_binding; [|done].
  intros b H1 H2 H3 H4 H5 H6. apply wp_kept_bind.
  eapply wp_mono; [apply on_tasks_framed, Ledger_start|]. intros o1 s1 n1 [Hk1 Hs1]. split; [done|].
  intros r _. unfold set_item. do 3 (wp_rule; wp_rule; cbv beta iota).
  unfold create_mission_task at 1. wp_rule. wp_rule. wp_rule. cbv beta iota zeta. wp_rule. wp_rule.
  cbv beta iota. wp_rule. cbv beta iota. wp_rule. wp_rule. cbv beta iota.
  eapply wp_mono; [apply fleet_emit_kept|]. intros o2 s2 n2 Hk2. etrans; [|exact Hk2].
  match goal with |- fleet_kept _ (FleetCoordinator.set_children _ (FleetCoordinator.set_mission_tasks
      (_ ++ [MissionTask.mk ?a _ _]) _)) => refine (kept_child_started t a b s1 _ _) end.
  - unfold mission_fits. simpl. rewrite Hs1. split_and!; [done..|]. by left.
  - done.
Qed.

Lemma takeover_points_framed t l s n :
  wp (_takeover_points t l) (fun _ s' _ => fleet_kept s s' /\ setup s' = setup s) s n.
Proof.
  unfold _takeover_points. apply wp_bind. eapply wp_mono; [apply on_tasks_framed, Ledger_record|].
  intros [r|e] s1 n1 [Hk Hs]; [|done]. wp_go; by split.
Qed.

Lemma launch_reserve_kept h v l : steps fleet_kept (launch_reserve h v l).
Proof.
  intros s n. unfold launch_reserve. cbv zeta. wp_rule. wp_rule.
  destruct (candidate_of v l) as [incoming|e]; [|done]. cbv beta iota. apply wp_kept_bind.
  eapply wp_mono; [apply takeover_points_framed|]. intros o s1 n1 [Hk1 Hs1]. split; [done|].
  intros [staging center] _. wp_rule. wp_rule. cbv beta iota zeta.
  apply wp_bind, wp_new_binding; [|done]. intros b H1 H2 H3 H4 H5 H6.
  wp_rule. wp_rule. destruct (Artifacts.member _ _) as [home|e]; [|done]. cbv beta iota.
  wp_rule. wp_rule. destruct (takeover_parameters _ _ _ _ _) as [parameters|e]; [|done]. cbv beta iota.
  unfold create_mission_task, set_item. wp_rule. wp_rule. wp_rule. cbv beta iota zeta. wp_rule. wp_rule.
  cbv beta iota. wp_rule. cbv beta iota. do 4 (wp_rule; wp_rule; cbv beta iota). wp_rule.
  match goal with |- context [[MissionTask.mk ?a _ _]] =>
    refine (kept_handover_started (HandoverRecord.handover_id h) a b s1 _) end.
  unfold mission_fits. simpl. split_and!; [done..|]. by right.
Qed.

(** *** Rotation *)
Lemma new_candidate_kept c : steps fleet_kept (new_candidate c).
Proof. unfold new_candidate. steps_go. Qed.
Lemma coverage_state_kept v : steps fleet_kept (coverage_state v).
Proof.
  unfold coverage_state. apply on_persistent_kept. intros p n Hok.
  assert (coordinator_step p p) by (split; [done|done|constructor|lia]). wp_go; done.
Qed.
#[local] Hint Resolve new_candidate_kept coverage_state_kept : steps.
Lemma absent_candidate_kept m x : steps fleet_kept (absent_candidate m x).
Proof. unfold absent_candidate. steps_go. Qed.
Lemma observed_candidate_kept now f m x e : steps fleet_kept (observed_candidate now f m x e).
Proof. unfold observed_candidate. steps_go. Qed.
Lemma allocate_fleet_kept a l : steps fleet_kept (allocate_fleet a l).
Proof. unfold allocate_fleet, note_allocation. steps_go. Qed.
Lemma watch_task_kept l r : steps fleet_kept (watch_task l r).
Proof. unfold watch_task. steps_go. Qed.
#[local] Hint Resolve watch_task_kept : steps.
Lemma watch_tasks_kept l rs : steps fleet_kept (watch_tasks l rs).
Proof. induction rs as [|r rs IH]; simpl; steps_go. Qed.
Lemma any_undone_kept c : steps fleet_kept (any_undone c).
Proof. unfold any_undone. steps_go. Qed.
Lemma handover_metric_kept h k v : steps fleet_kept (handover_metric h k v).
Proof. unfold handover_metric. steps_go. Qed.
#[local] Hint Resolve handover_metric_kept : steps.
Lemma authority_request_kept p h v r b t g why a : steps fleet_kept (authority_request p h v r b t g why a).
Proof. unfold authority_request. steps_go. Qed.
Lemma take_over_kept h v r l : steps fleet_kept (take_over h v r l).
Proof. unfold take_over. steps_go. Qed.
Lemma attempt_dock_kept r v : steps fleet_kept (attempt_dock r v).
Proof. unfold attempt_dock. steps_go. Qed.
Lemma settle_dock_kept r v t : steps fleet_kept (settle_dock r v t).
Proof. unfold settle_dock. steps_go. Qed.
Lemma dock_is_ready_kept : steps fleet_kept _handover_dock_is_ready.
Proof. unfold _handover_dock_is_ready. steps_go. Qed.
Lemma finish_incoming_kept t v g m : steps fleet_kept (finish_incoming t v g m).
Proof. unfold finish_incoming. steps_go. Qed.
Lemma fail_active_handover_kept e : steps fleet_kept (_fail_active_handover e).
Proof. unfold _fail_active_handover. steps_go. Qed.
Lemma note_persistent_result_kept : steps fleet_kept note_persistent_result.
Proof. unfold note_persistent_result. steps_go. Qed.
Lemma decide_handover_kept t v b l : steps fleet_kept (decide_handover t v b l).
Proof. unfold decide_handover. steps_go. Qed.
#[local] Hint Resolve note_persistent_result_kept dock_is_ready_kept : steps.
Lemma handover_result_kept : steps fleet_kept handover_result.
Proof. unfold handover_result. steps_go. Qed.
End operations.

#[export] Hint Resolve item_of_kept fleet_session_state_kept verified_vehicle_kept observed_kept
  mission_task_kept is_done_kept cancel_mission_kept phase_of_kept active_tasks_kept
  abort_vehicle_kept validate_assignments_kept policy_launch_order_kept assign_task_kept
  launch_checked_kept request_hold_kept pop_hold_kept serialized_binding_kept held_mission_kept
  refresh_due_kept active_of_pair_kept view_pair_kept intervention_noted_kept release_noted_kept
  decide_pair_kept note_observation_kept observation_unavailable_kept enforce_freshness_kept
  recovery_proposal_kept task_owner_kept abort_owner_kept add_policy_id_kept leader_loss_kept
  follower_loss_kept mission_over_kept reception_loss_kept sample_assessed_kept
  mission_watched_kept requires_recovery_kept note_formation_kept formation_kept
  formation_assessed_kept policy_peer_kept settle_task_kept formation_failed_kept
  task_finished_kept renew_child_kept command_contexts_kept cleanup_owner_kept clear_holds_kept
  cancel_child_kept cancel_handover_child_kept abort_tasks_kept all_done_kept
  dock_snapshots_kept metrics_report_kept fleet_result_kept fleet_terminal_kept
  ground_first_kept start_child_kept launch_reserve_kept new_candidate_kept coverage_state_kept
  absent_candidate_kept observed_candidate_kept allocate_fleet_kept watch_task_kept
  watch_tasks_kept any_undone_kept handover_metric_kept authority_request_kept take_over_kept
  attempt_dock_kept settle_dock_kept dock_is_ready_kept finish_incoming_kept
  fail_active_handover_kept note_persistent_result_kept decide_handover_kept
  handover_result_kept : steps.

(** ** Coroutines *)

Notation FKeeps := (keeps (req := frequest) fleet_good fleet_along).

Section coroutines.
Context `{CK : Clock} `{CN : !ClockNonneg} `{LM : Libm} `{DG : Digest}.

Lemma FKeeps_sync {A} (m : M Fleet A) : steps fleet_kept m -> FKeeps (sync m).
Proof.
  intros Hm s n Hg. apply cok_sync. eapply wp_mono; [apply Hm|]. intros o s' n' Hk.
  destruct (Hk Hg). by split_and!.
Qed.

Lemma FKeeps_via {A} (c : coro A) : Ok c -> FKeeps (via_supervisor c).
Proof.
  intros Hc s n [HI HR]. unfold via_supervisor. apply cok_inject.
  eapply cok_mono; [apply _|apply cok_zoom; [apply _|done|..|done|by apply PKeeps_via]|done].
  - intros t s'. apply set_preparation_ok.
  - intros t s'. apply set_preparation_ext.
Qed.

Lemma FKeeps_forever {A} : FKeeps (forever : fleet A).
Proof. intros s n HI. split_and!; [done..|]. intros [[]|e] s' n' ??. by split_and!. Qed.

Lemma FKeeps_try {A} (c : fleet A) catches h :
  FKeeps c -> (forall e, FKeeps (h e)) -> FKeeps (co_try c catches h).
Proof.
  intros Hc Hh. apply keeps_then; [apply _|done|]. intros [a|e]; [apply keeps_finish; apply _|].
  destruct (catches e); [done|apply keeps_finish; apply _].
Qed.

End coroutines.

(** [FKeeps c] by the structure of [c]. *)
Ltac fleet_go :=
  cbv zeta;
  repeat (first
    [ lazymatch goal with |- keeps _ _ (match ?x with _ => _ end) => destruct x end
    | solve [eauto with fleets nocore]
    | lazymatch goal with
      | |- forall _, _ => intros ?
      | |- keeps _ _ (mret _) => apply keeps_finish; apply _
      | |- keeps _ _ (Finish _) => apply keeps_finish; apply _
      | |- keeps _ _ (co_raise _) => apply keeps_finish; apply _
      | |- keeps _ _ (await _) => apply keeps_await; apply _
      | |- keeps _ _ (sync _) => apply FKeeps_sync; solve [steps_go]
      | |- keeps _ _ (via_supervisor _) => apply FKeeps_via; solve [eauto with coroutines nocore]
      | |- keeps _ _ forever => apply FKeeps_forever
      | |- keeps _ _ (mbind _ _) => apply keeps_bind; [apply _| |intros ?]
      | |- keeps _ _ (discard _) => apply keeps_bind; [apply _| |intros ?]
      | |- keeps _ _ (co_try _ _ _) => apply FKeeps_try; [|intros ?]
      | |- keeps _ _ (co_then _ _) => apply keeps_then; [apply _| |intros ?]
      | |- keeps _ _ (co_for_each _ _) => apply keeps_for_each; [apply _|intros ?]
      end ]).
#[export] Hint Resolve Ok_stop_and_hold Ok_emergency_stop Ok_release_control : coroutines.
Create HintDb fleets discriminated.
#[export] Hint Constants Opaque : fleets.

Section operations_of_run.
Context `{CK : Clock} `{CN : !ClockNonneg} `{LM : Libm} `{DG : Digest}.

Lemma observation_for_keeps v : FKeeps (observation_for v).
Proof. unfold observation_for. fleet_go. Qed.
Lemma await_mission_keeps i : FKeeps (await_mission i).
Proof. unfold await_mission. fleet_go. Qed.
#[local] Hint Resolve observation_for_keeps await_mission_keeps : fleets.

Lemma await_launch_keeps n r c : FKeeps (await_launch n r c).
Proof. induction n as [|n IH]; cbn [await_launch]; fleet_go. Qed.
#[local] Hint Resolve await_launch_keeps : fleets.
Lemma checkpoint_keeps n t : FKeeps (_await_sequential_launch_checkpoint n t).
Proof. unfold _await_sequential_launch_checkpoint. fleet_go. Qed.

(** *** Separation *)
Lemma end_hold_task_keeps me p : FKeeps (end_hold_task me p).
Proof. unfold end_hold_task. fleet_go. Qed.
#[local] Hint Resolve end_hold_task_keeps : fleets.
Lemma release_hold_keeps me p : FKeeps (_release_crossing_hold me p).
Proof. unfold _release_crossing_hold. fleet_go. Qed.
Lemma abort_pair_keeps me p l : FKeeps (_abort_crossing_pair me p l).
Proof. unfold _abort_crossing_pair. fleet_go. Qed.
Lemma command_hold_keeps v r b : FKeeps (command_hold v r b).
Proof. unfold command_hold. fleet_go. Qed.
#[local] Hint Resolve release_hold_keeps abort_pair_keeps command_hold_keeps : fleets.
Lemma refresh_hold_keeps n v r p : FKeeps (refresh_hold n v r p).
Proof. induction n as [|n IH]; cbn [refresh_hold]; fleet_go. Qed.
#[local] Hint Resolve refresh_hold_keeps : fleets.
Lemma confirm_hold_keeps n p v : FKeeps (confirm_hold n p v).
Proof. unfold confirm_hold. fleet_go. Qed.
#[local] Hint Resolve confirm_hold_keeps : fleets.
Lemma confirm_crossing_hold_keeps n me p v : FKeeps (_confirm_crossing_hold n me p v).
Proof. unfold _confirm_crossing_hold. fleet_go. Qed.
Lemma separation_intervention_keeps a b l p : FKeeps (_separation_intervention a b l p).
Proof. unfold _separation_intervention. fleet_go. Qed.
#[local] Hint Resolve separation_intervention_keeps : fleets.
Lemma act_on_pair_keeps v : FKeeps (act_on_pair v).
Proof. unfold act_on_pair. fleet_go. Qed.
#[local] Hint Resolve act_on_pair_keeps : fleets.
Lemma observe_pairs_keeps l ps os b : FKeeps (observe_pairs l ps os b).
Proof. revert os b. induction ps as [|p ps IH]; intros os b; cbn [observe_pairs]; fleet_go. Qed.
Lemma separation_samples_keeps b ms l : FKeeps (separation_samples b ms l).
Proof. revert l. induction ms as [|m ms IH]; intros l; cbn [separation_samples]; fleet_go. Qed.
#[local] Hint Resolve observe_pairs_keeps separation_samples_keeps : fleets.
Lemma enforce_separation_keeps b : FKeeps (enforce_separation b).
Proof. unfold enforce_separation. fleet_go. Qed.
#[local] Hint Resolve enforce_separation_keeps : fleets.

(** *** Monitoring *)
Lemma coordination_observation_keeps t v : FKeeps (_coordination_observation t v).
Proof. unfold _coordination_observation. fleet_go. Qed.
#[local] Hint Resolve coordination_observation_keeps : fleets.
Lemma monitor_leader_follower_keeps : FKeeps _monitor_leader_follower.
Proof. unfold _monitor_leader_follower. fleet_go. Qed.
Lemma for_children_keeps body : (forall i, FKeeps (body i)) -> FKeeps (for_children body).
Proof.
  intros Hb. unfold for_children. apply keeps_bind; [apply _|apply FKeeps_sync; steps_go|].
  intros self. cbv zeta. generalize 0%nat as index.
  generalize (S (length (FleetCoordinator._children self))) as fuel.
  induction fuel as [|fuel IH]; intros index; cbn [children_from]; fleet_go.
Qed.
Lemma apply_to_peer_keeps p t i : FKeeps (apply_to_peer p t i).
Proof. unfold apply_to_peer, hold_peer. fleet_go. Qed.
Lemma failure_policy_keeps t : FKeeps (_apply_child_failure_policy t).
Proof.
  unfold _apply_child_failure_policy. fleet_go. apply for_children_keeps. intros i.
  apply apply_to_peer_keeps.
Qed.
#[local] Hint Resolve monitor_leader_follower_keeps failure_policy_keeps : fleets.
Lemma finish_task_keeps t m : FKeeps (_finish_task t m).
Proof. unfold _finish_task. fleet_go. Qed.
#[local] Hint Resolve finish_task_keeps : fleets.
Lemma monitor_tasks_keeps ts p : FKeeps (monitor_tasks ts p).
Proof. revert p. induction ts as [|t ts IH]; intros p; cbn [monitor_tasks]; fleet_go. Qed.
#[local] Hint Resolve monitor_tasks_keeps : fleets.
Lemma monitor_rounds_keeps n p : FKeeps (monitor_rounds n p).
Proof. revert p. induction n as [|n IH]; intros p; cbn [monitor_rounds]; fleet_go. Qed.
#[local] Hint Resolve monitor_rounds_keeps : fleets.
Lemma monitor_children_keeps n : FKeeps (_monitor_children n).
Proof. unfold _monitor_children. fleet_go. Qed.

(** *** Cleanup *)
Lemma settle_member_keeps r i : FKeeps (settle_member r i).
Proof. unfold settle_member, cleanup_observation, stop_member. fleet_go. Qed.
#[local] Hint Resolve settle_member_keeps : fleets.
Lemma cancel_all_keeps r : FKeeps (_cancel_all r).
Proof. unfold _cancel_all, gather_missions, _settle_interrupted_members. fleet_go. Qed.
#[local] Hint Resolve monitor_children_keeps cancel_all_keeps checkpoint_keeps : fleets.
Lemma shutdown_keeps r : FKeeps (shutdown r).
Proof. unfold shutdown. fleet_go. Qed.

(** *** The run *)
Lemma launch_task_keeps n t : FKeeps (launch_task n t).
Proof. unfold launch_task. fleet_go. Qed.
#[local] Hint Resolve launch_task_keeps : fleets.
Lemma fly_keeps n a l : FKeeps (fly n a l).
Proof. unfold fly, prepare_launch. fleet_go. Qed.
#[local] Hint Resolve fly_keeps : fleets.
Lemma run_tasks_keeps n a l : FKeeps (run_tasks n a l).
Proof. unfold run_tasks, fleet_failed. fleet_go. Qed.

(** *** Rotation *)
Lemma coverage_candidates_keeps now ms l : FKeeps (coverage_candidates now ms l).
Proof.
  revert l. induction ms as [|m ms IH]; intros l; cbn [coverage_candidates];
    unfold coverage_candidate; fleet_go.
Qed.
#[local] Hint Resolve coverage_candidates_keeps : fleets.
Lemma all_candidates_keeps : FKeeps _coverage_candidates.
Proof. unfold _coverage_candidates. fleet_go. Qed.
#[local] Hint Resolve all_candidates_keeps : fleets.
Lemma rotation_trigger_keeps n : FKeeps (_wait_for_rotation_trigger n).
Proof. induction n as [|n IH]; cbn [_wait_for_rotation_trigger]; fleet_go. Qed.
Lemma pause_keeps : FKeeps pause.
Proof. unfold pause. fleet_go. Qed.
#[local] Hint Resolve rotation_trigger_keeps pause_keeps : fleets.
Lemma wait_for_position_keeps n v x c t : FKeeps (_wait_for_position n v x c t).
Proof. induction n as [|n IH]; cbn [_wait_for_position]; fleet_go. Qed.
Lemma await_child_keeps n c : FKeeps (_await_child_with_separation n c).
Proof. induction n as [|n IH]; cbn [_await_child_with_separation]; fleet_go. Qed.
Lemma await_children_keeps n : FKeeps (await_children n).
Proof. induction n as [|n IH]; cbn [await_children]; fleet_go. Qed.
#[local] Hint Resolve wait_for_position_keeps await_child_keeps await_children_keeps : fleets.
Lemma replacement_ready_keeps h v : FKeeps (replacement_ready h v).
Proof. unfold replacement_ready. fleet_go. Qed.
Lemma transfer_authority_keeps r t : FKeeps (transfer_authority r t).
Proof. unfold transfer_authority. fleet_go. Qed.
#[local] Hint Resolve replacement_ready_keeps transfer_authority_keeps : fleets.
Lemma revoke_outgoing_keeps h p : FKeeps (revoke_outgoing h p).
Proof. unfold revoke_outgoing. fleet_go. Qed.
Lemma grant_incoming_keeps h c g v la : FKeeps (grant_incoming h c g v la).
Proof. unfold grant_incoming. fleet_go. Qed.
Lemma reserve_dock_keeps h : FKeeps (reserve_dock h).
Proof. unfold reserve_dock. fleet_go. Qed.
Lemma dock_attempts_keeps n r v x : FKeeps (dock_attempts n r v x).
Proof. revert x. induction n as [|n IH]; intros x; cbn [dock_attempts]; fleet_go. Qed.
#[local] Hint Resolve revoke_outgoing_keeps grant_incoming_keeps reserve_dock_keeps dock_attempts_keeps : fleets.
Lemma abstract_dock_keeps n r v : FKeeps (_complete_abstract_dock n r v).
Proof. unfold _complete_abstract_dock. fleet_go. Qed.
Lemma outgoing_landed_keeps n h : FKeeps (outgoing_landed n h).
Proof. unfold outgoing_landed. fleet_go. Qed.
Lemma gather_results_keeps l : FKeeps (gather_results l).
Proof.
  unfold gather_results. apply keeps_bind; [apply _|apply keeps_await; apply _|]. intros _.
  induction l as [|[t c] l IH]; fleet_go.
Qed.
#[local] Hint Resolve abstract_dock_keeps outgoing_landed_keeps gather_results_keeps : fleets.
Lemma finish_others_keeps t : FKeeps (finish_others t).
Proof. unfold finish_others. fleet_go. Qed.
#[local] Hint Resolve finish_others_keeps : fleets.
Lemma handover_keeps n h : FKeeps (_execute_persistent_handover n h).
Proof. unfold _execute_persistent_handover, complete_handover. fleet_go. Qed.
#[local] Hint Resolve handover_keeps : fleets.
Lemma cover_keeps n a : FKeeps (cover n a).
Proof. unfold cover, launch_coverage, no_rotation, rotate, no_reserve. fleet_go. Qed.
Lemma coverage_failed_keeps e : FKeeps (coverage_failed e).
Proof. unfold coverage_failed. fleet_go. Qed.
#[local] Hint Resolve cover_keeps coverage_failed_keeps run_tasks_keeps : fleets.
Lemma run_keeps n a b : FKeeps (run n a b).
Proof. unfold run, _run_persistent. fleet_go. Qed.
End operations_of_run.

#[export] Hint Resolve observation_for_keeps await_mission_keeps await_launch_keeps
  end_hold_task_keeps release_hold_keeps abort_pair_keeps command_hold_keeps refresh_hold_keeps
  confirm_hold_keeps separation_intervention_keeps act_on_pair_keeps observe_pairs_keeps
  separation_samples_keeps enforce_separation_keeps coordination_observation_keeps
  monitor_leader_follower_keeps failure_policy_keeps finish_task_keeps monitor_tasks_keeps
  monitor_rounds_keeps settle_member_keeps monitor_children_keeps cancel_all_keeps
  checkpoint_keeps launch_task_keeps fly_keeps coverage_candidates_keeps all_candidates_keeps
  rotation_trigger_keeps pause_keeps wait_for_position_keeps await_child_keeps
  await_children_keeps replacement_ready_keeps transfer_authority_keeps revoke_outgoing_keeps
  grant_incoming_keeps reserve_dock_keeps dock_attempts_keeps abstract_dock_keeps
  outgoing_landed_keeps gather_results_keeps finish_others_keeps handover_keeps cover_keeps
  coverage_failed_keeps run_tasks_keeps run_keeps : fleets.

(** *** What a coroutine returns *)

(** A postcondition that says nothing of errors. *)
Notation on_return P := (fun o s _ => forall a, o = Ret a -> P a s).

Section returning.
Context `{CK : Clock} `{CN : !ClockNonneg} `{LM : Libm} `{DG : Digest}.

Lemma ends_raise {A} e (P : A -> Fleet -> Prop) s n : fleet_good s ->
  cok fleet_good fleet_along (Finish (Raise e) : fleet A) (on_return P) s n.
Proof. intros Hg. apply cok_finish; [apply _|done|]. by intros a [=]. Qed.

Lemma ends_bind {A B} (c : fleet A) (f : A -> fleet B) (P : B -> Fleet -> Prop) s n :
  FKeeps c -> fleet_good s ->
  (forall a s n, fleet_good s -> cok fleet_good fleet_along (f a) (on_return P) s n) ->
  cok fleet_good fleet_along (c ≫= f) (on_return P) s n.
Proof.
  intros Hc Hg Hf. apply cok_then; [apply _|]. eapply cok_mono; [apply _|by apply Hc|].
  intros [a|e] s' n' ??? _ _; [by apply Hf|by apply ends_raise].
Qed.

Lemma ends_sync {A} (m : M Fleet A) (P : A -> Fleet -> Prop) s n :
  steps fleet_kept m -> fleet_good s -> wp m (on_return P) s n ->
  cok fleet_good fleet_along (sync m : fleet A) (on_return P) s n.
Proof.
  intros Hk Hg Hm. apply cok_sync. specialize (Hk s n). unfold wp in *.
  destruct (m s n) as [[o s'] n']. destruct (Hk Hg). by split_and!.
Qed.

(** The continuation may use what the first part established. *)
Lemma ends_from {A B} (c : fleet A) (f : A -> fleet B) (P : A -> Fleet -> Prop)
    (Q : B -> Fleet -> Prop) s n :
  cok fleet_good fleet_along c (on_return P) s n ->
  (forall a s' n', fleet_good s' -> fleet_along s s' -> P a s' ->
     cok fleet_good fleet_along (f a) (on_return Q) s' n') ->
  cok fleet_good fleet_along (c ≫= f) (on_return Q) s n.
Proof.
  intros Hc Hf. apply cok_then; [apply _|]. eapply cok_mono; [apply _|exact Hc|].
  intros [a|e] s' n' Hg Hs HP _ _; [by apply Hf; auto|by apply ends_raise].
Qed.

(** The postcondition of a synchronous step may use the invariant. *)
Lemma ends_step {A} (m : M Fleet A) (P : A -> Fleet -> Prop) s n :
  steps fleet_kept m -> fleet_good s ->
  wp m (fun o s' _ => fleet_good s' -> fleet_along s s' -> forall a, o = Ret a -> P a s') s n ->
  cok fleet_good fleet_along (sync m : fleet A) (on_return P) s n.
Proof.
  intros Hk Hg Hm. apply cok_sync. specialize (Hk s n). unfold wp in *.
  destruct (m s n) as [[o s'] n']. destruct (Hk Hg) as [Hg' Ha]. split_and!; [done|done|]. by apply Hm.
Qed.

Lemma ends_after {A B} (c : fleet A) (f : A -> fleet B) (Q : B -> Fleet -> Prop) s n :
  FKeeps c -> fleet_good s ->
  (forall a s' n', fleet_good s' -> fleet_along s s' ->
     cok fleet_good fleet_along (f a) (on_return Q) s' n') ->
  cok fleet_good fleet_along (c ≫= f) (on_return Q) s n.
Proof.
  intros Hc Hg Hf. apply (ends_from c f (fun _ _ => True)); [|auto].
  eapply cok_mono; [apply _|by apply Hc|done].
Qed.
End returning.

(** ** The handover that is kept *)

Section handovers.
Context `{CK : Clock} `{CN : !ClockNonneg} `{LM : Libm} `{DG : Digest}.

(** The handover the coordinator keeps under an identity. *)
Definition stored_handover (id : string) (s : Fleet) : option HandoverRecord.t :=
  p ← FleetCoordinator._persistent s; dict_get id (PersistentCoverageCoordinator._handovers p).

(** What does not change of a handover. *)
Definition same_handover (h h' : HandoverRecord.t) : Prop :=
  HandoverRecord.task_id h' = HandoverRecord.task_id h /\
  HandoverRecord.outgoing_vehicle_id h' = HandoverRecord.outgoing_vehicle_id h /\
  HandoverRecord.outgoing_lease_generation h' = HandoverRecord.outgoing_lease_generation h.

(** The coordinator keeps [h], or what it has become. *)
Definition begun (h : HandoverRecord.t) (s : Fleet) : Prop :=
  exists h', stored_handover (HandoverRecord.handover_id h) s = Some h' /\ same_handover h h'.

Lemma stored_Some id s h :
  stored_handover id s = Some h <-> exists p, FleetCoordinator._persistent s = Some p /\
    dict_get id (PersistentCoverageCoordinator._handovers p) = Some h.
Proof. apply bind_Some. Qed.

Lemma stored_along id s s' h : fleet_along s s' -> stored_handover id s = Some h ->
  exists h', stored_handover id s' = Some h' /\ same_handover h h' /\
    (HandoverRecord.takeover_confirmed h = true -> HandoverRecord.takeover_confirmed h' = true /\
       HandoverRecord.incoming_vehicle_id h' = HandoverRecord.incoming_vehicle_id h).
Proof.
  intros [_ He] (p & Hp & Hh)%stored_Some. destruct (fe_coverage _ _ He p Hp) as (p' & Hp' & Hk).
  destruct (Hk id h Hh) as (h' & Hh' & E1 & E2 & E3 & E4). exists h'.
  split; [apply stored_Some; by exists p'|]. by split_and!.
Qed.

Lemma begun_along h s s' : fleet_along s s' -> begun h s -> begun h s'.
Proof.
  intros Ha (h1 & Hh1 & E1 & E2 & E3). destruct (stored_along _ _ _ _ Ha Hh1) as (h2 & Hh2 & (F1 & F2 & F3) & _).
  exists h2. unfold same_handover. split_and!; [done|congruence..].
Qed.

Lemma stored_ok id s h : fleet_good s -> stored_handover id s = Some h -> handover_ok id h.
Proof.
  intros [_ Hok] (p & Hp & Hh)%stored_Some.
  by apply (hok_each _ (co_handovers _ (fo_coverage _ Hok p Hp))).
Qed.

(** The decision stores its handover. *)
Lemma decision_begun t v b cs s n : fleet_good s ->
  wp (decide_handover t v b cs) (on_return (fun h s' => begun h s')) s n.
Proof.
  intros Hg. unfold decide_handover. apply wp_bind. unfold on_persistent at 1.
  apply wp_zoom_some; [done|]. intros p Hp.
  assert (Hok : coordinator_ok p) by (apply (fo_coverage s); [apply Hg|done]).
  eapply wp_mono; [by apply begin_handover_outcome|]. intros [h|e] p' n1 [Hstep H]; [|done].
  destruct (kept_coverage p p' s Hp Hstep Hg) as [Hg1 _].
  assert (Hb : begun h (FleetCoordinator.set_persistent (Some p') s)).
  { exists h. split; [|done]. apply stored_Some. exists p'. split; [done|]. by apply (H h). }
  clear H Hstep Hok Hp Hg. revert Hg1 Hb. generalize (FleetCoordinator.set_persistent (Some p') s) as s1.
  intros s1 Hg1 Hb. cbv beta iota zeta.
  match goal with |- wp ?m _ _ _ =>
    assert (Hk : forall s2 n2, fleet_good s2 -> begun h s2 ->
      wp m (fun o s' _ => fleet_good s' /\ begun h s' /\ forall h', o = Ret h' -> h' = h) s2 n2) end.
  2: { eapply wp_mono; [by apply Hk|]. intros o s2 n2 (_ & Hb2 & Ho) h' Hh'. by rewrite (Ho h' Hh'). }
  clear s s1 n n1 p p' Hg1 Hb.
  assert (Hstep : forall A (m : M Fleet A) s n, steps fleet_kept m -> fleet_good s -> begun h s ->
    wp m (fun _ s' _ => fleet_good s' /\ begun h s') s n).
  { intros A m s n Hm Hg Hb. eapply wp_mono; [apply Hm|]. intros o s' n' Hk. destruct (Hk Hg) as [Hg' Ha].
    split; [done|]. by eapply begun_along. }
  intros s n Hg Hb.
  do 6 (apply wp_bind; eapply wp_mono; [by apply Hstep; [steps_go|..]|];
    intros [?|?] s3 n3 [Hg3 Hb3]; [clear s n Hg Hb; rename s3 into s, n3 into n, Hg3 into Hg, Hb3 into Hb|done]).
  wp_rule. split_and!; [done..|]. by intros h' [= <-].
Qed.

End handovers.

(** ** Interleavings of a coordinator with everything else *)

Section interleaving.
Context `{CK : Clock} `{CN : !ClockNonneg} `{LM : Libm} `{DG : Digest}.
Context (error_text : exn -> string).

(** The public methods, with any arguments, the tasks that confirm crossing holds,
    and whatever else uses the preparation and its supervisor: the missions do. *)
Inductive fleet_api : fleet unit -> Prop :=
| fleet_run rounds assignments allow : fleet_api (discard (run rounds assignments allow))
| fleet_confirm rounds me pair v : fleet_api (_confirm_crossing_hold rounds me pair v)
| fleet_abort v : fleet_api (sync (abort_vehicle v))
| fleet_cancel reason : fleet_api (cancel_fleet reason)
| fleet_shutdown reason : fleet_api (shutdown reason)
| fleet_observe v : fleet_api (discard (observation_for v))
| fleet_separation active_only : fleet_api (discard (enforce_separation active_only))
| fleet_client c : prep_api error_text c ->
    fleet_api (co_inject (@OfVehicle)
                 (co_zoom FleetCoordinator.preparation FleetCoordinator.set_preparation c)).

(** A new coordinator of a preparation with a past, without missions. *)
Definition fleet_initial (s : Fleet) : Prop :=
  exists identity d decision bundle plan plan_sha programs deconfliction lease period s0 n n' sys,
    reachable prep_initial (prep_api error_text) prep_environment sys /\
    FleetCoordinator.preparation s0 = shared sys /\ FleetCoordinator.mission_tasks s0 = [] /\
    Forall (fun x => DockDefinition_valid x = true) (DeploymentManifest.docks d) /\
    FleetCoordinator_init identity d decision bundle plan plan_sha programs deconfliction lease period
      s0 n = (Ret tt, s, n').

(** A mission ends; the runner and the missions waiting at the gate move on; so does
    the supervisor. *)
Inductive fleet_environment (s : Fleet) : Fleet -> Prop :=
| env_mission i o :
    fleet_environment s (FleetCoordinator.set_mission_tasks
      (alter (fun t => if task_done t then t
                       else MissionTask.mk (args t) (MissionTask.cancel_requested t) (Some o)) i
         (FleetCoordinator.mission_tasks s)) s)
| env_runner r : fleet_environment s (FleetCoordinator.set_mission_runner r s)
| env_gate g : fleet_environment s (FleetCoordinator.set_command_gate g s)
| env_preparation t : prep_environment (FleetCoordinator.preparation s) t ->
    fleet_environment s (FleetCoordinator.set_preparation t s).

Notation coordinating := (reachable fleet_initial fleet_api fleet_environment).

Lemma fleet_api_keeps c : fleet_api c -> FKeeps c.
Proof.
  assert (Hd : forall A (c : fleet A), FKeeps c -> FKeeps (discard c)).
  { intros A c' Hc. apply keeps_bind; [apply _|done|]. intros _. apply keeps_finish. apply _. }
  destruct 1.
  - apply Hd, run_keeps.
  - apply confirm_crossing_hold_keeps.
  - apply FKeeps_sync, abort_vehicle_kept.
  - apply cancel_all_keeps.
  - apply shutdown_keeps.
  - apply Hd, observation_for_keeps.
  - apply Hd, enforce_separation_keeps.
  - intros s n [HI HR]. apply cok_inject.
    eapply cok_mono; [apply _|apply cok_zoom; [apply _|done|..|done|by apply (prep_api_keeps error_text)]|done].
    + intros t s'. apply set_preparation_ok.
    + intros t s'. apply set_preparation_ext.
Qed.

Lemma fleet_environment_kept s s' : fleet_environment s s' -> fleet_kept s s'.
Proof.
  destruct 1 as [i o|r|g|t (u & Hq%environment_quiet & ->)]; [|unmentioned|unmentioned|].
  - set (f := fun t => if task_done t then t
                       else MissionTask.mk (args t) (MissionTask.cancel_requested t) (Some o)).
    assert (Ha : forall t, args (f t) = args t) by (intros t; unfold f; by destruct (task_done t)).
    apply kept_missions; [|by apply fits_alter]. apply evolve_alter; [done|].
    intros t o'. unfold f, task_done. destruct (MissionTask.ended t) eqn:E; simpl; by rewrite ?E.
  - intros [[HI HR] HF]. split; (split; [split|]); try done.
    + by eapply quiet_invariant.
    + by apply set_supervisor_ok.
    + by apply set_preparation_ok.
    + by apply quiet_ext.
Qed.

(** *** A new coordinator *)

Lemma initial_ledger_ok lease s n :
  good (FleetCoordinator.preparation s) ->
  FleetCoordinator._dock_manager s = None -> FleetCoordinator._events s = [] ->
  FleetCoordinator.mission_tasks s = [] ->
  FleetCoordinator._children s = [] -> FleetCoordinator._child_runs s = [] ->
  FleetCoordinator._child_vehicle_ids s = [] -> FleetCoordinator._handover_children s = [] ->
  FleetCoordinator._handover_runs s = [] -> FleetCoordinator._handover_vehicle_ids s = [] ->
  wp (initial_ledger lease) (fun o s' _ => o = Ret tt -> fleet_good s' /\ setup s' = setup s) s n.
Proof.
  intros Hp Hd He Hm C1 C2 C3 K1 K2 K3.
  assert (Hall : forall s', FleetCoordinator.preparation s' = FleetCoordinator.preparation s ->
    FleetCoordinator._dock_manager s' = None -> FleetCoordinator._events s' = [] ->
    FleetCoordinator.mission_tasks s' = [] ->
    FleetCoordinator._children s' = [] -> FleetCoordinator._child_runs s' = [] ->
    FleetCoordinator._child_vehicle_ids s' = [] -> FleetCoordinator._handover_children s' = [] ->
    FleetCoordinator._handover_runs s' = [] -> FleetCoordinator._handover_vehicle_ids s' = [] ->
    (forall p, FleetCoordinator._persistent s' = Some p -> coordinator_ok p) -> ledger_ok (tasks s') ->
    fleet_good s').
  { intros s' E0 Ed E1 E2 E3 E4 E5 E6 E7 E8 Hc Hl. split; [by rewrite E0|].
    split; rewrite ?Ed, ?E1, ?E2, ?E3, ?E4, ?E5, ?E6, ?E7, ?E8; try done.
    all: split; [done|by intros k []|by intros k []]. }
  unfold initial_ledger. wp_rule. wp_rule. cbv beta iota zeta. destruct (is_persistent _).
  - wp_rule. wp_rule. cbv beta iota. unfold on_persistent. apply wp_zoom_some; [by intros _ [=]|]. intros p Hp'. simpl in Hp'.
    unfold wp. destruct (PersistentCoverageCoordinator_init _ _ _ _ p n) as [[o p'] n'] eqn:E.
    simpl. intros ->.
    assert (coordinator_ok p') as Hok.
    { apply (established_ok (p', n')). by do 6 eexists. }
    split; [|done]. apply Hall; try done; [by intros ? [= <-]|apply Hok].
  - wp_rule. wp_rule. cbv beta iota. unfold on_tasks. apply wp_zoom. unfold wp.
    destruct (TaskLedger_init _ _ _ _ _ _ n) as [[o l] n'] eqn:E. simpl. intros ->.
    assert (ledger_ok l) as Hok by (apply (constructed_ok (l, n')); by do 7 eexists).
    split; [|done]. by apply Hall.
Qed.

Lemma initial_docks_ok d o :
  Forall (fun x => DockDefinition_valid x = true) (DeploymentManifest.docks d) ->
  initial_docks d = Ret (Some o) -> manager_ok o.
Proof.
  intros Hv. unfold initial_docks. destruct (is_persistent d); [|done].
  intros (m & Hm & [= <-])%bind_Ret. apply opened_ok. do 4 eexists. split; [|exact Hm].
  destruct (bool_decide _); [|done]. by constructor.
Qed.

Lemma fleet_initial_good s : fleet_initial s -> fleet_good s.
Proof.
  intros (identity & d & decision & bundle & plan & sha & programs & deconf & lease & period & s0 & n
          & n' & sys & Hsys%preparing_good & Hp & Hm & Hdocks & Hinit).
  rewrite <- Hp in Hsys.
  enough (H : wp (FleetCoordinator_init identity d decision bundle plan sha programs deconf lease period)
                (fun o s _ => o = Ret tt -> fleet_good s) s0 n).
  { unfold wp in H. rewrite Hinit in H. by apply H. }
  unfold FleetCoordinator_init. cbv zeta. wp_rule. wp_rule. cbv beta iota.
  wp_rule. wp_rule; [done|]. wp_rule. wp_rule; [done|]. wp_rule. wp_rule; [done|].
  wp_rule. wp_rule. cbv beta iota. apply wp_bind. eapply wp_mono; [by apply initial_ledger_ok|].
  intros [[]|e] s1 n1 Hl; [|done]. destruct (Hl eq_refl) as [Hg1 _]. clear Hl.
  wp_rule. wp_rule. destruct (initial_docks d) as [docks|e] eqn:Ed; [|done]. cbv beta iota.
  wp_rule. wp_rule. cbv beta iota.
  assert (Hg2 : fleet_good (FleetCoordinator.set_dock_manager docks s1)).
  { destruct Hg1 as [HG []]. split; [done|]. split; try done. simpl. intros m ->.
    by eapply initial_docks_ok. }
  match goal with |- wp ?m _ ?s ?n => assert (Hk : steps fleet_kept m) end.
  { assert (Hi : steps fleet_kept (initial_metrics d)).
    { unfold initial_metrics. steps_go. }
    steps_go. }
  eapply wp_mono; [apply Hk|]. intros o s3 n3 H3 _. by apply H3.
Qed.

Lemma coordinating_good sys : coordinating sys -> fleet_good (shared sys).
Proof.
  intros Hr. eapply (reachable_invariant fleet_good fleet_along) in Hr; [by destruct Hr|..].
  - apply fleet_initial_good.
  - intros c s n Hc Hg. by apply fleet_api_keeps.
  - intros s s' He Hg. by apply fleet_environment_kept.
Qed.
End interleaving.
