(* ===== verification/FleetGuarantees.v ===== *)
(** * Fleet coordinator: what a fleet can rely on

    What an abort touches, the invariant of a coordinated fleet spelled out, what the
    status of a report means, and which crossings have a policy of their own. *)

From S2P Require Import Prelude Float64 Effects Contracts Artifacts.
From S2P Require Import Tasks Persistent Docks Zones Safety PlanContracts Routes Intents.
From S2P Require Import Trajectory Planning Telemetry Commands Missions Authority.
From S2P Require Import Deconfliction Multidrone Coroutines Supervisor Preparation.
From S2P Require Import Supervision Guarantees Readiness Metrics Fleet Coordinator Rotation Coordination.

Notation coordinating error_text := (reachable (fleet_initial error_text) (fleet_api error_text) fleet_environment).

(** ** Aborting one vehicle *)

Section abort.
Context `{CK : Clock} `{LM : Libm} `{DG : Digest}.

(** The runs of the vehicle that have not ended: what an abort is about. *)
Definition run_of_vehicle (s : Fleet) (v r : string) : Prop :=
  (exists k i, (k, v) ∈ FleetCoordinator._child_vehicle_ids s /\
     dict_get k (FleetCoordinator._children s) = Some i /\ undone s i = true /\
     dict_get k (FleetCoordinator._child_runs s) = Some r) \/
  (exists k i, (k, r) ∈ FleetCoordinator._handover_runs s /\
     dict_get k (FleetCoordinator._handover_children s) = Some i /\ undone s i = true /\
     dict_get k (FleetCoordinator._handover_vehicle_ids s) = Some v).

(** The run has ended or is asked to end. *)
Definition run_stopped (r : string) (s : Fleet) : Prop :=
  exists x, dict_get r (MissionRunner._runs (FleetCoordinator.mission_runner s)) = Some x /\
    (is_Some (MissionRunSnapshot.result x) \/ MissionRunSnapshot.cancellation_requested x = true).

(** What an abort of [v] may do to the state. *)
Record aborting (v : string) (s s' : Fleet) : Prop := {
  ab_frame : s' = s
    |> FleetCoordinator.set_mission_runner (FleetCoordinator.mission_runner s')
    |> FleetCoordinator.set_mission_tasks (FleetCoordinator.mission_tasks s')
    |> FleetCoordinator.set_events (FleetCoordinator._events s');
  ab_undone : forall i, undone s' i = undone s i;
  ab_runs : forall r, ~ run_of_vehicle s v r ->
    dict_get r (MissionRunner._runs (FleetCoordinator.mission_runner s')) =
      dict_get r (MissionRunner._runs (FleetCoordinator.mission_runner s)) /\
    dict_get r (MissionRunner._cancel_events (FleetCoordinator.mission_runner s')) =
      dict_get r (MissionRunner._cancel_events (FleetCoordinator.mission_runner s));
  ab_tasks : MissionRunner._tasks (FleetCoordinator.mission_runner s') =
    MissionRunner._tasks (FleetCoordinator.mission_runner s);
  ab_missions : forall i, FleetCoordinator.mission_tasks s' !! i = FleetCoordinator.mission_tasks s !! i \/
    FleetCoordinator.mission_tasks s' !! i = task_cancel <$> FleetCoordinator.mission_tasks s !! i /\
    exists r, run_of_vehicle s v r /\
      dict_get r (MissionRunner._tasks (FleetCoordinator.mission_runner s)) = Some i;
}.

Lemma aborting_runs v s s' r : aborting v s s' -> run_of_vehicle s' v r <-> run_of_vehicle s v r.
Proof.
  intros [Hf Hu _ _ _]. unfold run_of_vehicle. setoid_rewrite Hu. by rewrite Hf.
Qed.

#[export] Instance aborting_preorder v : PreOrder (aborting v).
Proof.
  split.
  - intros s. split; try done; [by destruct s|]. by left.
  - intros s1 s2 s3 H12 H23. pose proof (fun r => aborting_runs v s1 s2 r H12) as Hr.
    destruct H12 as [F1 U1 R1 T1 M1], H23 as [F2 U2 R2 T2 M2]. split.
    + rewrite F2 at 1. rewrite F1 at 1. done.
    + intros i. by rewrite U2.
    + intros r Hn. destruct (R1 r Hn) as [<- <-]. apply R2. by rewrite Hr.
    + congruence.
    + intros i. destruct (M2 i) as [->|(-> & r & Hv & Ht)]; [apply M1|].
      destruct (M1 i) as [->|(-> & r' & Hv' & Ht')].
      * right. split; [done|]. exists r. rewrite <- Hr, <- T1. done.
      * right. split; [|by exists r']. rewrite <- option_fmap_compose.
        apply option_fmap_ext. by intros [? ? []].
Qed.

Lemma undone_cancel s l i j :
  undone (FleetCoordinator.set_mission_tasks (alter task_cancel j l) s) i =
  undone (FleetCoordinator.set_mission_tasks l s) i.
Proof.
  unfold undone. simpl. destruct (decide (j = i)) as [->|Hne].
  - rewrite list_lookup_alter_eq. by destruct (l !! i) as [[? ? []]|].
  - by rewrite list_lookup_alter_ne.
Qed.

(** Cancelling a run of the vehicle. *)
Lemma cancel_mission_aborts v r s n :
  run_of_vehicle s v r ->
  wp (cancel_mission r) (fun o s' _ => aborting v s s' /\
    (forall r', run_stopped r' s -> run_stopped r' s') /\ (o = Ret tt -> run_stopped r s')) s n.
Proof.
  intros Hr. unfold cancel_mission. apply wp_bind. unfold on_runner. apply wp_zoom.
  assert (Hself : FleetCoordinator.set_mission_runner (FleetCoordinator.mission_runner s) s = s)
    by by destruct s.
  unfold cancel_run. wp_rule. wp_rule. cbv beta iota. wp_rule. wp_rule.
  destruct (get_run r _) as [x|e] eqn:Ex; cbv beta iota; [|by rewrite Hself].
  apply some_or_Ret in Ex. wp_rule.
  { apply orb_true_iff in H. wp_rule. rewrite Hself. wp_rule. split_and!; [done|done|].
    intros _. exists x. split; [done|]. destruct H as [H|H]; [left|by right].
    by destruct (MissionRunSnapshot.result x). }
  wp_rule. wp_rule; [by rewrite Hself|]. wp_rule. wp_rule. cbv beta iota. wp_rule. wp_rule.
  cbv beta iota. wp_rule. simpl.
  set (runner' := MissionRunner.set_runs _ _). set (s1 := FleetCoordinator.set_mission_runner runner' s).
  assert (Ha : aborting v s s1).
  { split; try done; [|by left]. intros r' Hn. simpl. rewrite !dict_get_set.
    rewrite !decide_False by (intros ->; done). done. }
  assert (Hs : forall r', run_stopped r' s -> run_stopped r' s1).
  { intros r' (y & Hy & Hd). unfold run_stopped. simpl. rewrite dict_get_set. case_decide as E; [|by exists y].
    eexists. split; [done|]. right. by destruct x. }
  assert (Hd : run_stopped r s1).
  { unfold run_stopped. simpl. rewrite dict_get_set_eq. eexists. split; [done|]. right. by destruct x. }
  destruct (dict_get r (MissionRunner._tasks (FleetCoordinator.mission_runner s))) as [i|] eqn:Et; [|by wp_rule].
  unfold cancel_task. wp_rule. split_and!; [|done|done]. etrans; [exact Ha|]. split; try done.
  - intros j. apply undone_cancel.
  - intros j. simpl. destruct (decide (i = j)) as [->|Hne]; [|left; by rewrite list_lookup_alter_ne].
    right. rewrite list_lookup_alter_eq. split; [done|]. exists r. split; [|done].
    by rewrite (aborting_runs v s s1).
Qed.

Lemma emit_aborts v t k x s n :
  wp (emit t k x) (fun _ s' _ => aborting v s s' /\
    (forall r', run_stopped r' s -> run_stopped r' s')) s n.
Proof.
  unfold emit. wp_go; (split; [|done]); [done|]. split; try done. by left.
Qed.

Lemma wp_is_done i (Q : outcome bool -> Fleet -> nat -> Prop) s n :
  (forall b, undone s i = negb b -> Q (Ret b) s n) -> (forall e, Q (Raise e) s n) -> wp (is_done i) Q s n.
Proof.
  intros H1 H2. unfold is_done, mission_task, undone in *.
  wp_rule. wp_rule. wp_rule. wp_rule. cbv beta iota.
  destruct (FleetCoordinator.mission_tasks s !! i) as [t|]; wp_go; [by apply H1|by apply H2].
Qed.

Lemma active_tasks_exact v items s n :
  wp (active_tasks v items) (fun o s' _ => s' = s /\ forall ks, o = Ret ks -> forall k, k ∈ ks <->
    (k, v) ∈ items /\ exists i, dict_get k (FleetCoordinator._children s) = Some i /\ undone s i = true) s n.
Proof.
  revert n. induction items as [|[k w] items IH]; intros n; simpl.
  { wp_rule. split; [done|]. intros ? [= <-] k. set_solver. }
  destruct (String.eqb_spec w v) as [->|Hne].
  2: { eapply wp_mono; [apply IH|]. intros o s' n' [-> H]. split; [done|]. intros ks Hks k'.
       rewrite (H ks Hks). set_solver. }
  unfold item_of. wp_rule. wp_rule. wp_rule. cbv beta iota. wp_rule.
  destruct (dict_get k (FleetCoordinator._children s)) as [i|] eqn:Ei; [|done]. cbv beta iota.
  apply wp_bind, wp_is_done; [|done]. intros b Hb. cbv beta iota. apply wp_bind.
  eapply wp_mono; [apply IH|]. intros [ks|e] s' n' [-> H]; [|done]. specialize (H ks eq_refl).
  wp_rule. split; [done|]. intros ? [= <-] k'. destruct b.
  - rewrite H. split; [set_solver|]. intros [[[= ->]|Hin]%elem_of_cons (j & Hj & Hu)]; [simpl in Hb; congruence|].
    split; [done|]. by exists j.
  - rewrite elem_of_cons, H. split.
    + intros [->|[Hin Hx]]; [|set_solver]. split; [by left|]. by exists i.
    + intros [[[= ->]|Hin]%elem_of_cons Hx]; [by left|by right].
Qed.

Lemma abort_task_aborts v k s s0 n :
  (k, v) ∈ FleetCoordinator._child_vehicle_ids s0 ->
  (exists i, dict_get k (FleetCoordinator._children s0) = Some i /\ undone s0 i = true) ->
  aborting v s0 s ->
  wp (abort_task v k) (fun o s' _ => aborting v s0 s' /\
    (forall r, run_stopped r s -> run_stopped r s') /\
    (o = Ret tt -> forall r, dict_get k (FleetCoordinator._child_runs s0) = Some r -> run_stopped r s')) s n.
Proof.
  intros Hk (i & Hi & Hu) Ha. unfold abort_task. wp_rule. wp_rule. cbv beta iota. apply wp_bind.
  assert (Hc : FleetCoordinator._child_runs s = FleetCoordinator._child_runs s0) by by rewrite (ab_frame v s0 s Ha).
  rewrite Hc. destruct (dict_get k (FleetCoordinator._child_runs s0)) as [r|] eqn:Er.
  - assert (Hr : run_of_vehicle s v r).
    { apply (aborting_runs v s0 s r Ha). left. by exists k, i. }
    eapply wp_mono; [by apply cancel_mission_aborts|]. intros [[]|e] s1 n1 (A1 & S1 & D1).
    2: { split_and!; [by etrans|done|done]. }
    eapply wp_mono; [apply (emit_aborts v)|]. intros o s2 n2 [A2 S2].
    split_and!; [etrans; [exact Ha|]; by etrans|by auto|]. intros _ ? [= <-]. auto.
  - wp_rule. eapply wp_mono; [apply (emit_aborts v)|]. intros o s2 n2 [A2 S2].
    split_and!; [by etrans|done|done].
Qed.

Lemma abort_handover_aborts v k r s s0 n :
  (k, r) ∈ FleetCoordinator._handover_runs s0 -> aborting v s0 s ->
  wp (abort_handover v (k, r)) (fun o s' _ => aborting v s0 s' /\
    (forall r', run_stopped r' s -> run_stopped r' s') /\
    (o = Ret tt -> (exists i, dict_get k (FleetCoordinator._handover_children s0) = Some i /\
                      undone s0 i = true /\
                      dict_get k (FleetCoordinator._handover_vehicle_ids s0) = Some v) ->
                   run_stopped r s')) s n.
Proof.
  intros Hk Ha. unfold abort_handover, item_of. cbv beta iota. do 3 (wp_rule; wp_rule; wp_rule; cbv beta iota; wp_rule;
    match goal with |- match some_or _ ?x with _ => _ end => destruct x eqn:? end; [|done]; cbn [some_or]; cbv beta iota).
  apply wp_bind, wp_is_done; [|done]. intros b Hb. cbv beta iota.
  rewrite (ab_undone v s0 s Ha) in Hb. pose proof (ab_frame v s0 s Ha) as Hf.
  rewrite Hf in Heqo, Heqo0, Heqo1. simpl in Heqo, Heqo0, Heqo1.
  destruct (_ && _)%bool eqn:E.
  - bool_to_prop. subst.
    assert (Hr : run_of_vehicle s v r).
    { apply (aborting_runs v s0 s r Ha). right. exists k, n0. split_and!; try done. }
    apply wp_bind. eapply wp_mono; [by apply cancel_mission_aborts|].
    intros [[]|e] s1 n1 (A1 & S1 & D1); [|split_and!; [by etrans|done|done]].
    eapply wp_mono; [apply (emit_aborts v)|]. intros o s2 n2 [A2 S2].
    split_and!; [etrans; [exact Ha|]; by etrans|by auto|]. auto.
  - wp_rule. split_and!; [done|done|]. intros _ (i & Hi & Hu & Hv). exfalso.
    simplify_eq. rewrite Hu in Hb. destruct b; [done|]. by rewrite String.eqb_refl in E.
Qed.

(** C6: an abort of one vehicle concerns that vehicle only. Whatever its outcome, it
    commands no vehicle and changes neither the ledger nor the docks, the gate or
    the tables; of the runs of the mission runner it touches only those of missions
    of this vehicle that have not ended. If it returns, every such run has ended or
    is asked to. *)
Theorem abort_concerns_one_vehicle v s n :
  aborting v s (exec (abort_vehicle v) s n) /\
  (Effects.run (abort_vehicle v) s n = Ret tt ->
   forall r, run_of_vehicle s v r -> run_stopped r (exec (abort_vehicle v) s n)).
Proof.
  refine (proj1 (wp_run (abort_vehicle v) (fun o s' _ => aborting v s s' /\
    (o = Ret tt -> forall r, run_of_vehicle s v r -> run_stopped r s')) s n) _).
  unfold abort_vehicle. wp_rule. wp_rule. cbv beta iota. apply wp_bind.
  eapply wp_mono; [apply active_tasks_exact|]. intros [ks|e] s0 n0 [-> Hks]; [|done].
  specialize (Hks ks eq_refl). apply wp_bind. eapply wp_mono.
  { apply (wp_for_each_done (aborting v s)
      (fun k s' => forall r, dict_get k (FleetCoordinator._child_runs s) = Some r -> run_stopped r s')); [done|].
    intros k s1 n1 [Hk Hi]%Hks Ha. eapply wp_mono; [by apply abort_task_aborts|].
    intros o s2 n2 (A2 & S2 & D2). split_and!; [done| |done]. intros k' H r Hr. auto. }
  intros [[]|e] s1 n1 (A1 & _ & D1); [|done]. specialize (D1 eq_refl).
  wp_rule. wp_rule. cbv beta iota.
  assert (Hr1 : FleetCoordinator._handover_runs s1 = FleetCoordinator._handover_runs s)
    by by rewrite (ab_frame v s s1 A1).
  rewrite Hr1. eapply wp_mono.
  { apply (wp_for_each_done (fun s' => aborting v s s' /\ forall r, run_stopped r s1 -> run_stopped r s')
      (fun item s' => (exists i, dict_get item.1 (FleetCoordinator._handover_children s) = Some i /\
           undone s i = true /\ dict_get item.1 (FleetCoordinator._handover_vehicle_ids s) = Some v) ->
         run_stopped item.2 s')); [done|].
    intros [k r] s2 n2 Hk [Ha Hs]. eapply wp_mono; [by apply (abort_handover_aborts v k r s2 s)|].
    intros o s3 n3 (A3 & S3 & D3). split_and!; [done|by auto| |done]. intros y H Hy. auto. }
  intros o s2 n2 ([A2 S2] & _ & D2). split; [done|]. intros -> r [(k & i & Hk & Hi & Hu & Hr)|(k & i & Hk & Hi & Hu & Hv)].
  - apply S2, (D1 k); [|done]. apply Hks. split; [done|]. by exists i.
  - apply (D2 eq_refl (k, r) Hk). by exists i.
Qed.
End abort.

(** ** The invariant of a coordinated fleet *)

Section invariant.
Context `{CK : Clock} `{CN : !ClockNonneg} `{LM : Libm} `{DG : Digest}.
Context (error_text : exn -> string).

(** C4: coordinating a fleet keeps what every component promises. Whatever the run of
    the coordinator, the tasks that confirm holds, the requests of an operator, the
    missions and the other clients of the preparation do meanwhile: the log of the
    supervisor stays well-formed, the leases of the ledger consistent, the handovers
    exclusive and the docks within their bounds; the events of the fleet are
    numbered and carry its identity; every mission runs under a binding of this
    fleet run, for its task or the approach to it; and the tables of missions
    agree with each other. *)
Theorem coordination_keeps_every_promise sys :
  coordinating error_text sys ->
  let s := shared sys in
  log_ok (SafetySupervisor.events (fleet_supervisor s)) /\
  ledger_ok (tasks s) /\
  (forall p, FleetCoordinator._persistent s = Some p ->
     handovers_ok (PersistentCoverageCoordinator._handovers p)) /\
  (forall m, FleetCoordinator._dock_manager s = Some m -> docks_ok m (DockManager._reservations m)) /\
  FleetEvent.sequence <$> FleetCoordinator._events s =
    seqZ 1 (Z.of_nat (length (FleetCoordinator._events s))) /\
  Forall (fleet_event_fits s) (FleetCoordinator._events s) /\
  Forall (mission_fits s) (FleetCoordinator.mission_tasks s) /\
  tables_ok (FleetCoordinator.mission_tasks s) (FleetCoordinator._children s)
    (FleetCoordinator._child_runs s) (FleetCoordinator._child_vehicle_ids s)
    (FleetCoordinator._bindings s) /\
  tables_ok (FleetCoordinator.mission_tasks s) (FleetCoordinator._handover_children s)
    (FleetCoordinator._handover_runs s) (FleetCoordinator._handover_vehicle_ids s)
    (FleetCoordinator._handover_bindings s).
Proof.
  intros [[HI _] [H1 H2 H3 H4 H5 H6 H7 H8]]%coordinating_good. split_and!; try done.
  - apply HI.
  - intros p Hp. by apply H1.
  - intros m Hm. by apply H3.
Qed.
End invariant.

(** ** What a run reports *)

Section results.
Context `{CK : Clock} `{CN : !ClockNonneg} `{LM : Libm} `{DG : Digest}.

Definition completed (r : TaskRecord.t) : Prop := TaskRecord.state r = TaskState.COMPLETED.
Definition over (r : TaskRecord.t) : Prop :=
  TaskRecord.state r ∈ [TaskState.COMPLETED; TaskState.ABORTED].
Definition child_status (st : MissionStatus.t) (c : FleetChildResult.t) : Prop :=
  MissionResult.status (FleetChildResult.mission_result c) = st.

#[local] Instance completed_dec r : Decision (completed r).
Proof. unfold completed. apply _. Defined.
#[local] Instance child_status_dec st c : Decision (child_status st c).
Proof. unfold child_status. apply _. Defined.

(** Every dock reservation a result lists is ready, and there is one. *)
Definition docks_ready (docks : list DockSnapshot.t) : Prop :=
  let reservations := docks ≫= DockSnapshot.reservations in
  reservations <> [] /\ Forall (fun d => DockReservation.state d = DockOperationState.READY) reservations.

(** Every task a result lists is completed and every mission it lists succeeded. *)
Definition all_done_in (r : FleetResult.t) : Prop :=
  Forall completed (FleetResult.tasks r) /\
  Forall (child_status MissionStatus.SUCCEEDED) (FleetResult.child_results r).

(** A result lists a handover. *)
Definition lists_handover (r : FleetResult.t) : Prop :=
  exists c h, FleetResult.persistent_coverage r = Some c /\ h ∈ PersistentCoverageResult.handovers c.

(** What the status and the reason of a result say about the tasks, missions, docks and
    handovers that the same result lists. *)
Definition justified (r : FleetResult.t) : Prop :=
  let why := FleetResult.reason_code r in
  match FleetResult.status r with
  | FleetStatus.SUCCEEDED =>
      all_done_in r /\
      (why ∈ ["FLEET_COMPLETED"; "FLEET_COMPLETED_NO_ROTATION"] \/
       why = "PERSISTENT_HANDOVER_COMPLETED" /\ docks_ready (FleetResult.dock_snapshots r))
  | FleetStatus.DEGRADED =>
      why = "FLEET_PARTIAL" /\ Exists completed (FleetResult.tasks r) /\ ~ all_done_in r \/
      why = "NO_SERVICEABLE_RESERVE" /\ lists_handover r
  | FleetStatus.ABORTED =>
      why = "FLEET_ABORTED" /\ Forall (fun t => ~ completed t) (FleetResult.tasks r) /\
      Exists (child_status MissionStatus.ABORTED) (FleetResult.child_results r)
  | FleetStatus.FAILED =>
      why = "FLEET_CHILD_FAILED" /\ Forall (fun t => ~ completed t) (FleetResult.tasks r) /\
        Forall (fun c => ~ child_status MissionStatus.ABORTED c) (FleetResult.child_results r) \/
      why = "PERSISTENT_HANDOVER_FAILED" /\
        ~ (all_done_in r /\ docks_ready (FleetResult.dock_snapshots r)) \/
      (exists code, why = ErrorCode_value code) /\ Forall over (FleetResult.tasks r)
  end.

(** *** What a result is made of *)

(** Reading the docks changes nothing, and takes no reading of the clock. *)
Definition docks_of (s : Fleet) : outcome (list DockSnapshot.t) := (dock_snapshots s 0%nat).1.1.

Lemma snapshot_reads i m n : Docks.snapshot i m n = ((Docks.snapshot i m 0%nat).1.1, m, n).
Proof.
  unfold Docks.snapshot, _definition, get, lift, mbind, M_bind, mret, M_ret, raise. simpl.
  destruct (dict_get i _); [|done]. simpl. by destruct (dict_get i _).
Qed.

Lemma snapshots_read ids m n : snapshots ids m n = ((snapshots ids m 0%nat).1.1, m, n).
Proof.
  revert n. induction ids as [|i ids IH]; intros n; [done|]. simpl. unfold mbind, M_bind.
  rewrite (snapshot_reads i m n), (snapshot_reads i m 0%nat). simpl.
  destruct (Docks.snapshot i m 0%nat) as [[[x|e] ?] ?]; simpl; [|done].
  rewrite (IH n), (IH 0%nat). simpl. by destruct (snapshots ids m 0%nat) as [[[l|e] ?] ?].
Qed.

Lemma dock_snapshots_read s n : dock_snapshots s n = (docks_of s, s, n).
Proof.
  unfold docks_of, dock_snapshots, get, mbind, M_bind. simpl.
  destruct (FleetCoordinator._dock_manager s) as [m|] eqn:E; [|done].
  unfold on_docks, zoom_some. rewrite E, (snapshots_read _ m n), (snapshots_read _ m 0%nat). simpl.
  f_equal. f_equal. destruct s. simpl in *. by subst.
Qed.

Lemma wp_dock_snapshots (Q : outcome (list DockSnapshot.t) -> Fleet -> nat -> Prop) s n :
  Q (docks_of s) s n -> wp dock_snapshots Q s n.
Proof. intros HQ. unfold wp. by rewrite dock_snapshots_read. Qed.

Lemma docks_of_events s e : docks_of (FleetCoordinator.set_events e s) = docks_of s.
Proof.
  unfold docks_of, dock_snapshots, get, mbind, M_bind. simpl.
  destruct (FleetCoordinator._dock_manager s) as [m|] eqn:E; [|done].
  unfold on_docks, zoom_some. simpl. rewrite E. by destruct (snapshots _ m 0%nat) as [[? ?] ?].
Qed.

Lemma wp_fleet_result st why msg s n (P : FleetResult.t -> Prop) :
  (forall r, FleetResult.status r = st -> FleetResult.reason_code r = why ->
     FleetResult.tasks r = records (tasks s) ->
     _child_results s = Ret (FleetResult.child_results r) ->
     docks_of s = Ret (FleetResult.dock_snapshots r) ->
     FleetResult.persistent_coverage r = FleetCoordinator._persistent_result s -> P r) ->
  wp (fleet_result st why msg) (fun o _ _ => forall r, o = Ret r -> P r) s n.
Proof.
  intros HP. unfold fleet_result. wp_rule. wp_rule. cbv beta iota.
  wp_rule. wp_rule. destruct (_normalized_trace st s) as [tr|e]; [|done]. cbv beta iota.
  wp_rule. wp_rule. destruct (_child_results s) as [cs|e] eqn:Ec; [|done]. cbv beta iota.
  apply wp_bind, wp_dock_snapshots. destruct (docks_of s) as [ds|e] eqn:Ed; [|done].
  apply wp_bind. eapply wp_mono; [apply metrics_report_kept|]. intros [m|e] s2 n2 _; [|done].
  cbv zeta. wp_rule; [done|]. intros r [= <-]. by apply HP.
Qed.

Lemma wp_fleet_emit t v k s n (Q : outcome unit -> Fleet -> nat -> Prop) :
  (forall o e n', Q o (FleetCoordinator.set_events (FleetCoordinator._events s ++ e) s) n') ->
  wp (emit t v k) Q s n.
Proof.
  intros HQ. assert (Hs : s = FleetCoordinator.set_events (FleetCoordinator._events s ++ []) s).
  { rewrite app_nil_r. by destruct s. }
  unfold emit. wp_go; [rewrite Hs|]; apply HQ.
Qed.

(** *** The reports without a rotation *)

Lemma forallb_decided {A} (P : A -> Prop) `{!forall x, Decision (P x)} l :
  forallb (fun x => bool_decide (P x)) l = true <-> Forall P l.
Proof.
  rewrite forallb_forall, Forall_forall. setoid_rewrite <- list_elem_of_In.
  by setoid_rewrite bool_decide_eq_true.
Qed.

Lemma existsb_Exists_1 {A} (f : A -> bool) (P : A -> Prop) l :
  (forall x, f x = true -> P x) -> existsb f l = true -> Exists P l.
Proof.
  intros H (x & Hx & Hf)%existsb_exists. apply Exists_exists. exists x.
  split; [by apply list_elem_of_In|by apply H].
Qed.

Lemma existsb_Forall_1 {A} (f : A -> bool) (P : A -> Prop) l :
  (forall x, f x = false -> P x) -> existsb f l = false -> Forall P l.
Proof.
  intros H Hl. apply Forall_forall. intros x Hx. apply H. by eapply existsb_false.
Qed.

(** Both classifications of a run whose missions have ended. *)
Lemma classified (records : list TaskRecord.t) (cs : list FleetChildResult.t) (r : FleetResult.t)
    (a b c d : FleetStatus.t * (string * string)) x :
  (a.1 = FleetStatus.SUCCEEDED /\ a.2.1 ∈ ["FLEET_COMPLETED"; "FLEET_COMPLETED_NO_ROTATION"] /\
   (b.1, b.2.1) = (FleetStatus.DEGRADED, "FLEET_PARTIAL") /\
   (c.1, c.2.1) = (FleetStatus.ABORTED, "FLEET_ABORTED") /\
   (d.1, d.2.1) = (FleetStatus.FAILED, "FLEET_CHILD_FAILED")) ->
  x = (if forallb succeeded cs && forallb (fun t => bool_decide (completed t)) records then a
       else if existsb (fun t => bool_decide (completed t)) records then b
       else if existsb (fun c => bool_decide (child_status MissionStatus.ABORTED c)) cs then c else d) ->
  FleetResult.status r = x.1 -> FleetResult.reason_code r = x.2.1 -> FleetResult.tasks r = records ->
  FleetResult.child_results r = cs -> justified r.
Proof.
  intros (Ha & Ha' & [= Hb Hb'] & [= Hc Hc'] & [= Hd Hd']) Hx Hst Hw Ht Hcs.
  unfold justified, all_done_in. cbv zeta. rewrite Ht, Hcs, Hst, Hw, Hx.
  destruct (_ && _)%bool eqn:E1.
  { rewrite Ha. unfold succeeded in E1. rewrite andb_true_iff, !forallb_decided in E1.
    destruct E1. split; [done|by left]. }
  destruct (existsb _ records) eqn:E2.
  { rewrite Hb. left. split_and!; [done| |].
    - eapply existsb_Exists_1; [|done]. by intros y Hy%bool_decide_eq_true.
    - intros [H1 H2]. apply not_true_iff_false in E1. apply E1, andb_true_iff. unfold succeeded.
      by rewrite !forallb_decided. }
  assert (Forall (fun t => ~ completed t) records).
  { eapply existsb_Forall_1; [|done]. by intros y Hy%bool_decide_eq_false. }
  destruct (existsb _ cs) eqn:E3.
  { rewrite Hc. split_and!; [done..|]. eapply existsb_Exists_1; [|done]. by intros y Hy%bool_decide_eq_true. }
  rewrite Hd. left. split_and!; [done..|]. eapply existsb_Forall_1; [|done]. by intros y Hy%bool_decide_eq_false.
Qed.

Notation reports m := (forall s n, wp m (fun o _ _ => forall r, o = Ret r -> justified r) s n).

Lemma fleet_terminal_reports : reports fleet_terminal.
Proof.
  intros s n. unfold fleet_terminal. wp_rule. wp_rule. cbv beta iota. wp_rule. wp_rule.
  destruct (_child_results s) as [cs|e] eqn:Ec; [|done]. cbv beta iota.
  destruct (classify (records (tasks s)) cs) as [st [why msg]] eqn:E.
  apply wp_bind, wp_fleet_emit. intros [[]|e] ev n'; [|done]. apply wp_fleet_result.
  intros r Hst Hw Ht Hc _ _. change (_child_results s = Ret (FleetResult.child_results r)) in Hc.
  eapply (classified (records (tasks s)) cs r); [|symmetry; exact E|done..|congruence].
  split_and!; try done. by left.
Qed.

Lemma no_rotation_report :
  reports (_ ← note_persistent_result;
    self ← get;
    child_results ← lift (_child_results self);
    let '(status, (reason, message)) := classify_coverage (records (tasks self)) child_results in
    _ ← emit "FLEET_TERMINAL" None None;
    fleet_result status reason message).
Proof.
  intros s0 n0. apply wp_bind. eapply wp_mono; [apply note_persistent_result_kept|].
  intros [[]|e] s n _; [|done]. wp_rule. wp_rule. cbv beta iota. wp_rule. wp_rule.
  destruct (_child_results s) as [cs|e] eqn:Ec; [|done]. cbv beta iota.
  destruct (classify_coverage (records (tasks s)) cs) as [st [why msg]] eqn:E.
  apply wp_bind, wp_fleet_emit. intros [[]|e] ev n'; [|done]. apply wp_fleet_result.
  intros r Hst Hw Ht Hc _ _. change (_child_results s = Ret (FleetResult.child_results r)) in Hc.
  unfold classify_coverage in E. rewrite andb_comm in E.
  eapply (classified (records (tasks s)) cs r); [|symmetry; exact E|done..|congruence].
  split_and!; try done. by right; left.
Qed.

(** The handovers of the coverage are those of the coordinator. *)
Lemma coverage_result_lists p n :
  wp result (on_return (fun c _ => forall id h,
    dict_get id (PersistentCoverageCoordinator._handovers p) = Some h ->
    h ∈ PersistentCoverageResult.handovers c)) p n.
Proof.
  unfold result. wp_rule. wp_rule. cbv beta iota zeta. wp_rule; [done|]. intros c [= <-] id h Hh. simpl.
  apply list_elem_of_omap. exists id. split; [|done]. apply elem_of_py_sorted.
  destruct (decide (id ∈ dict_keys (PersistentCoverageCoordinator._handovers p))) as [|Hn%dict_get_None];
    [done|congruence].
Qed.

Lemma note_lists_handover id h s n : stored_handover id s = Some h ->
  wp note_persistent_result (on_return (fun _ s' => exists c,
    FleetCoordinator._persistent_result s' = Some c /\ h ∈ PersistentCoverageResult.handovers c)) s n.
Proof.
  intros (p & Hp & Hh)%stored_Some. unfold note_persistent_result. apply wp_bind. unfold on_persistent.
  apply wp_zoom_some; [done|]. intros q Hq. assert (q = p) as -> by congruence.
  eapply wp_mono; [apply coverage_result_lists|]. intros [c|e] q' n' Hc; [|done].
  wp_rule. intros a _. exists c. split; [done|]. by eapply Hc.
Qed.

Lemma no_reserve_report id h s0 n0 : stored_handover id s0 = Some h ->
  wp (_ ← note_persistent_result;
      _ ← emit "FLEET_TERMINAL" None None;
      fleet_result FleetStatus.DEGRADED "NO_SERVICEABLE_RESERVE"
        "low energy was detected but no serviceable reserve was available")
    (on_return (fun r _ => justified r)) s0 n0.
Proof.
  intros Hs. apply wp_bind. eapply wp_mono; [by eapply note_lists_handover|].
  intros [[]|e] s n Hc; [|done]. destruct (Hc tt eq_refl) as (c & Hres & Hin).
  apply wp_bind, wp_fleet_emit. intros [[]|e] ev n'; [|done].
  apply wp_fleet_result. intros r Hst Hw _ _ _ Hp. unfold justified. rewrite Hst. cbv zeta. right.
  split; [done|]. exists c, h. by rewrite Hp.
Qed.

Lemma handover_result_reports : reports handover_result.
Proof.
  intros s0 n0. unfold handover_result. apply wp_bind. eapply wp_mono; [apply note_persistent_result_kept|].
  intros [[]|e] s n _; [|done]. wp_rule. wp_rule. cbv beta iota. wp_rule. wp_rule.
  destruct (_child_results s) as [cs|e] eqn:Ec; [|done]. cbv beta iota.
  unfold _handover_dock_is_ready. apply wp_bind, wp_bind, wp_dock_snapshots.
  destruct (docks_of s) as [ds|e] eqn:Ed; [|done]. cbv zeta. wp_rule. cbv beta iota zeta.
  apply wp_bind, wp_fleet_emit. intros [[]|e] ev n2; [|done].
  assert (Hdocks : (negb (bool_decide (ds ≫= DockSnapshot.reservations = []))
     && forallb (fun r => DockReservation.state r ≟ DockOperationState.READY) (ds ≫= DockSnapshot.reservations))%bool
     = true <-> docks_ready ds).
  { unfold docks_ready. by rewrite andb_true_iff, negb_true_iff, bool_decide_eq_false, forallb_decided. }
  assert (Hall : forall r, FleetResult.tasks r = records (tasks s) -> FleetResult.child_results r = cs ->
    (forallb succeeded cs && forallb (fun r => TaskRecord.state r ≟ TaskState.COMPLETED) (records (tasks s)))%bool
      = true <-> all_done_in r).
  { intros r Ht Hc. unfold all_done_in, succeeded. rewrite Ht, Hc, andb_true_iff, !forallb_decided. apply and_comm. }
  match goal with |- context [if ?b then _ else _] => destruct b eqn:E end;
    apply wp_fleet_result; intros r Hst Hw Ht Hc Hd _; unfold justified; rewrite Hst.
  all: change (_child_results s = Ret (FleetResult.child_results r)) in Hc; rewrite docks_of_events in Hd.
  all: assert (FleetResult.child_results r = cs) as Hcs by congruence;
    assert (FleetResult.dock_snapshots r = ds) as Hds by congruence; specialize (Hall r Ht Hcs); cbv zeta; rewrite Hds.
  - apply andb_true_iff in E as [E1 E2]. split; [by apply Hall|]. right. split; [done|by apply Hdocks].
  - right. left. split; [done|]. intros [H1%Hall H2%Hdocks].
    apply not_true_iff_false in E. by apply E, andb_true_iff.
Qed.

(** *** The reports after a cleanup *)

Definition all_over (l : TaskLedger.t) : Prop :=
  forall tid r, dict_get tid (TaskLedger._records l) = Some r -> over r.

Lemma all_over_records l : all_over l -> Forall over (records l).
Proof.
  intros H. apply Forall_forall. intros r (tid & _ & Hr)%list_elem_of_omap. by eapply H.
Qed.

Lemma task_step_over tid r r' : task_step tid r r' -> over r -> over r'.
Proof.
  unfold over. intros Hs Ho.
  assert (Hc : TaskRecord.state r = TaskState.COMPLETED \/ TaskRecord.state r = TaskState.ABORTED) by set_solver.
  unfold leased_states in *.
  destruct Hs; try exact Ho; [..|simpl; set_solver|simpl; set_solver].
  all: exfalso; destruct Hc as [Hc|Hc]; rewrite Hc in *; set_solver.
Qed.

Lemma tasks_over tid r r' : rtc (task_step tid) r r' -> over r -> over r'.
Proof. induction 1; eauto using task_step_over. Qed.

Lemma ledger_rel_over tid l l' t :
  ledger_rel tid l l' ->
  (forall r, dict_get t (TaskLedger._records l) = Some r -> over r) ->
  forall r, dict_get t (TaskLedger._records l') = Some r -> over r.
Proof.
  intros Hrel Ho r' Hr'. destruct (decide (t = tid)) as [->|Hne].
  - destruct (dict_get tid (TaskLedger._records l)) as [r|] eqn:Hr.
    + destruct (rel_task _ _ _ Hrel r Hr) as (r2 & Hr2 & Hsteps). simplify_eq. by eapply tasks_over, Ho.
    + apply dict_get_None in Hr. rewrite <- (rel_keys _ _ _ Hrel) in Hr.
      apply dict_get_None in Hr. congruence.
  - rewrite (rel_others _ _ _ Hrel t Hne) in Hr'. by apply Ho.
Qed.

Definition task_over (tid : string) (l : TaskLedger.t) : Prop :=
  forall r, dict_get tid (TaskLedger._records l) = Some r -> over r.

Lemma ledger_steps_over l l' tid : ledger_steps l l' -> task_over tid l -> task_over tid l'.
Proof.
  induction 1 as [|l1 l2 l3 [t H] _ IH]; [done|]. intros Ho. apply IH.
  intros r. eapply ledger_rel_over; [exact H|exact Ho].
Qed.

Lemma ledger_steps_keys l l' :
  ledger_steps l l' -> dict_keys (TaskLedger._records l') = dict_keys (TaskLedger._records l).
Proof. induction 1 as [|l1 l2 l3 [t H] _ IH]; [done|]. by rewrite IH, (rel_keys _ _ _ H). Qed.

(** An abort leaves its task over. *)
Lemma abort_over tid why l n :
  wp (Tasks.abort tid why) (fun o l' _ => ledger_rel tid l l' /\
    forall r, o = Ret r -> forall r', dict_get tid (TaskLedger._records l') = Some r' -> over r') l n.
Proof.
  assert (Hl : ledger_rel tid l l) by (split; [done..|by intros; eexists]).
  unfold Tasks.abort. apply wp_bind, wp_record; [|by split].
  intros r0 Hr0. destruct (bool_decide _) eqn:E.
  { bool_to_prop. wp_rule. split; [done|]. intros _ _ r' Hr'. by simplify_eq. }
  eapply wp_mono; [eapply store_emit_post; [exact Hr0|..|done]|].
  - bool_to_prop. by apply step_abort.
  - intros o l' n' [[Hrel _] Hret]. split; [done|]. intros r Hr r' Hr'.
    destruct (Hret r Hr) as [Hg (e & He)]. simplify_eq. unfold over. simpl. set_solver.
Qed.

Lemma abort_tasks_over why s n :
  ledger_ok (tasks s) ->
  wp (abort_tasks why) (fun o s' _ => o = Ret tt -> all_over (tasks s')) s n.
Proof.
  intros [_ Hok]. unfold abort_tasks. wp_rule. wp_rule. cbv beta iota.
  set (id_of r := DeploymentTaskDefinition.task_id (TaskRecord.definition r)).
  eapply wp_mono.
  { apply (wp_for_each_done (fun s' => ledger_steps (tasks s) (tasks s'))
             (fun r s' => task_over (id_of r) (tasks s'))); [constructor|].
    intros r s1 n1 (tid & _ & Hr)%list_elem_of_omap Hs. pose proof (ok_definition _ _ (Hok _ _ Hr)) as Hid.
    destruct (bool_decide _) eqn:E.
    - bool_to_prop. wp_rule. split_and!; [done|done|]. intros _. eapply ledger_steps_over; [exact Hs|].
      intros r' Hr'. unfold id_of in Hr'. rewrite Hid in Hr'. by simplify_eq.
    - apply wp_bind. unfold on_tasks. apply wp_zoom. eapply wp_mono; [apply abort_over|].
      intros [r'|e] l' n' [Hrel Ho]; [wp_rule|]; rewrite set_tasks_get;
        (split_and!; [etrans; [exact Hs|by eapply ledger_rel_steps]| |]).
      + intros y. apply ledger_steps_over. by eapply ledger_rel_steps.
      + intros _ r2 Hr2. by apply (Ho r' eq_refl r2).
      + intros y. apply ledger_steps_over. by eapply ledger_rel_steps.
      + done. }
  intros o s' n' (Hs & _ & Hd) Ho tid r' Hr'.
  assert (Hk : tid ∈ dict_keys (TaskLedger._records (tasks s))).
  { rewrite <- (ledger_steps_keys _ _ Hs). destruct (decide (tid ∈ dict_keys (TaskLedger._records (tasks s'))))
      as [|Hn%dict_get_None]; [done|congruence]. }
  destruct (dict_get tid (TaskLedger._records (tasks s))) as [r|] eqn:Hr; [|by apply dict_get_None in Hr].
  pose proof (ok_definition _ _ (Hok _ _ Hr)) as Hid.
  apply (Hd Ho r); [|by unfold id_of; rewrite Hid].
  apply list_elem_of_omap. exists tid. split; [by apply elem_of_py_sorted|done].
Qed.

(** *** The run *)

Definition Reports (c : fleet FleetResult.t) : Prop := forall s n, fleet_good s ->
  cok fleet_good fleet_along c (on_return (fun r _ => justified r)) s n.

Lemma Reports_bind {A} (c : fleet A) f : FKeeps c -> (forall a, Reports (f a)) -> Reports (c ≫= f).
Proof. intros Hc Hf s n Hg. apply ends_bind; [done|done|]. intros a s' n' Hg'. by apply Hf. Qed.

Lemma Reports_sync m : steps fleet_kept m -> reports m -> Reports (sync m).
Proof. intros Hk Hm s n Hg. apply ends_sync; [done|done|]. apply Hm. Qed.

Lemma Reports_raise e : Reports (Finish (Raise e)).
Proof. intros s n Hg. by apply ends_raise. Qed.

Lemma Reports_try c catches h :
  Reports c -> (forall e, catches e = true -> Reports (h e)) -> Reports (co_try c catches h).
Proof.
  intros Hc Hh s n Hg. apply cok_then; [apply _|]. eapply cok_mono; [apply _|by apply Hc|].
  intros [r|e] s' n' ? _ H ? _; [apply cok_finish; [apply _|done|done]|].
  destruct (catches e) eqn:He; [by apply Hh|by apply ends_raise].
Qed.

(** After the cleanup every task is over. *)
Lemma cancel_all_over why s n : fleet_good s ->
  cok fleet_good fleet_along (_cancel_all why) (on_return (fun _ s => all_over (tasks s))) s n.
Proof.
  intros Hg. unfold _cancel_all, gather_missions, _settle_interrupted_members.
  do 7 (apply ends_bind; [by fleet_go|done|]; clear s n Hg; intros ? s n Hg).
  apply ends_sync; [apply abort_tasks_kept|done|].
  eapply wp_mono; [apply abort_tasks_over; by destruct Hg as [_ []]|].
  intros [[]|e] s' n' H ? [= <-]. by apply H.
Qed.

(** The failure reported then. *)
Lemma failure_report e s n : is_CrazySwarmError e = true -> all_over (tasks s) ->
  wp (fleet_result FleetStatus.FAILED (error_value e) (error_message e)) (on_return (fun r _ => justified r)) s n.
Proof.
  intros He Ho. apply wp_fleet_result. intros r Hst Hw Ht _ _ _. unfold justified. cbv zeta. rewrite Hst, Ht, Hw.
  right. right. split; [|by apply all_over_records]. destruct e; try done. by eexists.
Qed.

(** A step keeps what is over. *)
Lemma kept_over s s' : fleet_kept s s' -> fleet_good s -> all_over (tasks s) -> all_over (tasks s').
Proof.
  intros Hk Hg Ho. destruct (Hk Hg) as [_ [_ He]]. intros tid.
  eapply ledger_steps_over; [apply He|exact (Ho tid)].
Qed.

Lemma fleet_failed_reports why e : is_CrazySwarmError e = true -> Reports (fleet_failed why e).
Proof.
  intros He. unfold fleet_failed. apply Reports_bind; [by fleet_go|]. intros _ s n Hg.
  apply cok_then; [apply _|]. eapply cok_mono; [apply _|by apply cancel_all_over|].
  intros [[]|e'] s' n' Hg' _ Ho _ _; [|by apply ends_raise]. specialize (Ho tt eq_refl).
  apply ends_sync; [apply fleet_result_kept|done|].
  by apply failure_report.
Qed.

Lemma coverage_failed_reports e : is_CrazySwarmError e = true -> Reports (coverage_failed e).
Proof.
  intros He. unfold coverage_failed. apply Reports_bind; [by fleet_go|]. intros _ s n Hg.
  apply cok_then; [apply _|]. eapply cok_mono; [apply _|by apply cancel_all_over|].
  intros [[]|e'] s' n' Hg' _ Ho _ _; [|by apply ends_raise]. specialize (Ho tt eq_refl).
  apply ends_sync; [steps_go|done|]. apply wp_bind.
  eapply wp_mono; [apply note_persistent_result_kept|]. intros [[]|e'] s1 n1 Hk; [|done].
  apply failure_report; [done|]. by eapply kept_over.
Qed.

Lemma run_tasks_reports rounds a (order : list string) : Reports (run_tasks rounds a order).
Proof.
  intros s n Hg. apply cok_then; [apply _|]. eapply cok_mono; [apply _|by apply fly_keeps|].
  intros [[]|e] s' n' Hg' _ _ _ _; [|
    destruct (is_CrazySwarmError e) eqn:He; [by apply fleet_failed_reports|by apply ends_raise]].
  by apply (Reports_sync _ fleet_terminal_kept fleet_terminal_reports).
Qed.

(** A handover that is degraded ends in a report that lists one. *)
Lemma no_reserve_reports rounds h v s n :
  fleet_good s -> begun h s ->
  cok fleet_good fleet_along (no_reserve rounds h v) (on_return (fun r _ => justified r)) s n.
Proof.
  intros Hg Hb. unfold no_reserve.
  apply ends_after; [by fleet_go|done|]. intros _ s1 n1 Hg1 A1.
  apply ends_after; [by fleet_go|done|]. intros _ s2 n2 Hg2 A2.
  apply ends_sync; [steps_go|done|].
  destruct (begun_along h s s2) as (h' & Hh' & _); [by etrans|done|]. by eapply no_reserve_report.
Qed.

Lemma rotate_reports rounds t v b : Reports (rotate rounds t v b).
Proof.
  unfold rotate. do 2 (apply Reports_bind; [by fleet_go|]; intros ?). intros s n Hg.
  eapply ends_from; [apply ends_sync; [steps_go|done|by apply decision_begun]|].
  intros h s1 n1 Hg1 _ Hb. destruct (bool_decide _); [by apply no_reserve_reports|].
  revert s1 n1 Hg1 Hb. clear s n Hg. intros s n Hg _. revert s n Hg.
  apply Reports_bind; [by fleet_go|]. intros ?.
  apply Reports_sync; [apply handover_result_kept|apply handover_result_reports].
Qed.

Lemma run_persistent_reports rounds a : Reports (_run_persistent rounds a).
Proof.
  apply Reports_try; [|apply coverage_failed_reports]. unfold cover.
  apply Reports_bind; [by unfold launch_coverage; fleet_go|]. intros _.
  apply Reports_bind; [by fleet_go|]. intros [[b [t v]]|]; [apply rotate_reports|].
  unfold no_rotation. apply Reports_bind; [by fleet_go|]. intros _.
  apply Reports_sync; [steps_go|apply no_rotation_report].
Qed.

(** C5: the status and the reason a run reports are justified by what the same result
    lists, whatever happens meanwhile.  A run that says it succeeded lists only completed
    tasks and missions that succeeded, and after a handover also docks whose reservations
    are all ready, one at least.  A degraded one, if partial, lists a completed task but
    not all done; without a serviceable reserve, it lists a handover.  An aborted one lists
    no completed task and an aborted mission.  A failed one whose children failed lists
    neither of these; one whose handover did not complete lists a task that is not
    completed, a mission that did not succeed, or docks that are not ready; and with the
    code of an error for a reason, it comes after a cleanup and every task it lists is
    completed or aborted. *)
Theorem run_reports_are_justified rounds assignments allow s n :
  fleet_good s ->
  cok fleet_good fleet_along (Rotation.run rounds assignments allow)
    (fun o _ _ => forall r, o = Ret r -> justified r) s n.
Proof.
  revert s n. change (Reports (Rotation.run rounds assignments allow)). unfold Rotation.run.
  apply Reports_bind; [by fleet_go|]. intros [order b].
  destruct b; [apply run_persistent_reports|apply run_tasks_reports].
Qed.
End results.

(** ** The policy of a crossing *)

Section crossing.
Context `{CK : Clock} `{LM : Libm} `{DG : Digest}.

Lemma size_string_set l : (size (string_set l) <= length l)%nat.
Proof.
  unfold string_set. induction l as [|x l IH]; [done|].
  rewrite list_to_set_cons, size_union_alt, size_singleton. simpl.
  pose proof (subseteq_size (list_to_set (C := gset string) l ∖ {[x]}) (list_to_set l)) as Hs.
  specialize (Hs ltac:(set_solver)). lia.
Qed.

Lemma filtered_vehicles (P : string * string -> Prop) `{!forall kv, Decision (P kv)} d :
  NoDup d.*2 -> NoDup (filter P d).*2.
Proof.
  induction d as [|[k v] d IH]; [done|]. intros [Hv Hd]%NoDup_cons. rewrite filter_cons.
  case_decide; [|by apply IH]. simpl. apply NoDup_cons. split; [|by apply IH].
  intros ([k' v'] & Hv' & Hin)%list_elem_of_fmap. simpl in Hv'. subst v'.
  apply list_elem_of_filter in Hin as [_ Hin]. apply Hv, list_elem_of_fmap. by exists (k', v).
Qed.

(** With three crossing tasks, each flown by a vehicle of its own, no pair of vehicles
    is ever subject to the policy of the crossing: the policy, its holds and the gate
    that the deployment has for them serve crossings of exactly two tasks. *)
Theorem crossing_policy_serves_two_tasks s a b :
  NoDup (FleetCoordinator._child_vehicle_ids s).*2 ->
  (3 <= size (FleetSetup._crossing_task_ids (setup s)))%nat ->
  _separation_policy_id a b s = GENERIC_SEPARATION_POLICY_ID.
Proof.
  intros Hnd Hc. unfold _separation_policy_id. cbv zeta.
  destruct (bool_decide (string_set _ = _)) eqn:E; [|by rewrite andb_false_r]. bool_to_prop. exfalso.
  set (l := filter (fun kv => kv.2 ∈ [a; b]) (FleetCoordinator._child_vehicle_ids s)) in E.
  pose proof (size_string_set (fst <$> l)) as Hl. rewrite E, length_fmap in Hl.
  assert (Hsub : l.*2 ⊆+ [a; b]).
  { apply NoDup_submseteq.
    - by apply filtered_vehicles.
    - intros v ([k w] & -> & [Hw _]%list_elem_of_filter)%list_elem_of_fmap. done. }
  apply submseteq_length in Hsub. rewrite length_fmap in Hsub. simpl in Hsub. lia.
Qed.
End crossing.

(** ** Example *)
Module Examples.
Import Readiness.Examples.
Import Guarantees.Examples.

Definition identity : FleetSessionIdentity.t := {|
  FleetSessionIdentity.fleet_session_id := "prep-1";
  FleetSessionIdentity.fleet_run_id := "run-1";
  FleetSessionIdentity.backend := ExecutionBackend.FAST_SIM;
  FleetSessionIdentity.mission_sha256 := "m";
  FleetSessionIdentity.deployment_sha256 := DeploymentManifest_sha256 lab;
  FleetSessionIdentity.binding_sha256 := "b";
  FleetSessionIdentity.model_id := "model";
  FleetSessionIdentity.scenario_id := "scenario";
  FleetSessionIdentity.initial_state_sha256 := "i" |}.

Definition no_runs : MissionRunner.t := MissionRunner.mk [] [] [] [] [].
Definition no_setup : FleetSetup.t := FleetSetup.mk identity lab None None None None [] None f1 ∅ None.

(** The object before its constructor, of a preparation. *)
Definition unmade (p : Prep) : Fleet :=
  FleetCoordinator.mk no_setup p no_runs [] None blank_ledger [] [] [] [] [] ∅ ∅ None ∅ ∅ ∅ ∅ 0 [] None
    false false None false [] [] [] [] [] None None [] None None.

Definition created_from (sys : system Prep request) : outcome unit * Fleet * nat :=
  FleetCoordinator_init identity lab None None None None [] None (float_of_Z 30) f1
    (unmade (shared sys)) (readings sys).

Definition coordinator_of (sys : system Prep request) : system Fleet frequest :=
  match created_from sys with (_, s, n) => mkSystem s n [] end.

Definition created : system Fleet frequest := coordinator_of approved.

(** The answers of the environment: the vehicle obeys, waits end, no authority moves. *)
Definition obliging (k : Z) (B : Type) (q : frequest B) : outcome B :=
  match q with
  | OfVehicle q => answer k _ q
  | Pause _ | MissionEnded _ | MissionsEnded _ | HoldEnded _ | HoldsEnded _ | GateBlocked _ _ => Ret tt
  | TransitionAuthority _ _ => Raise (OtherError "RuntimeError")
  | Forever => Raise CancelledError
  end.

Definition client (c : prep unit) : fleet unit :=
  co_inject (@OfVehicle) (co_zoom FleetCoordinator.preparation FleetCoordinator.set_preparation c).

Definition refreshed : system Fleet frequest :=
  resume 0 (obliging 4) (call (client (discard (refresh_observations error_text))) created).
(** The run takes its first sample, assigns the task and starts its mission; then it
    waits for the mission to leave the ground. *)
Definition launched : system Fleet frequest :=
  resume 1 (obliging 5) (call (discard (Rotation.run 5 [("t1", "cf-1")] false)) refreshed).

(** The mission returns. *)
Definition outcome_of_mission : MissionResult.t :=
  MissionResult.mk "run" None "hover" None "1" "cf-1" OperatingMode.SIM MissionStatus.SUCCEEDED
    "COMPLETED" "done" "c" None "rt" "1" "sim" "sim" "SIM" None false None None None None None None None
    None None None None None None None [] None [] f0 f1 f0 [] [] [] [] [].
Definition flown : system Fleet frequest :=
  mkSystem
    (FleetCoordinator.set_mission_tasks
       (alter (fun t => if task_done t then t
                        else MissionTask.mk (args t) (MissionTask.cancel_requested t)
                               (Some (Ret outcome_of_mission))) 0%nat
          (FleetCoordinator.mission_tasks (shared launched))) (shared launched))
    (readings launched) (coroutines launched).

(** The run sees it, completes the task and reports. *)
Definition reported : system Fleet frequest := resume 1 (obliging 6) flown.

Lemma coordinator_reachable sys s n :
  reachable prep_initial (prep_api error_text) prep_environment sys ->
  created_from sys = (Ret tt, s, n) -> coordinating error_text (mkSystem s n []).
Proof.
  intros Hsys E. apply reach_init. exists identity, lab, None, None, None, None, [], None.
  exists (float_of_Z 30), f1, (unmade (shared sys)), (readings sys), n, sys.
  split_and!; [done|done|done|constructor|exact E].
Qed.

Lemma created_from_approved : (created_from approved).1.1 = Ret tt.
Proof. vm_compute. reflexivity. Qed.

Lemma created_reachable : coordinating error_text created.
Proof.
  unfold created, coordinator_of. pose proof created_from_approved as Ho. revert Ho.
  destruct (created_from approved) as [[o s] n] eqn:E. cbn [fst]. intros ->.
  by apply (coordinator_reachable approved); [apply approved_reachable|].
Qed.

Lemma refreshed_reachable : coordinating error_text refreshed.
Proof.
  apply reachable_resume, reachable_call; [apply created_reachable|].
  apply (fleet_client error_text), (prep_refresh error_text).
Qed.

Lemma flown_reachable : coordinating error_text flown.
Proof.
  unfold flown. eapply reach_env; [|apply (env_mission _ 0 (Ret outcome_of_mission))|done].
  replace (mkSystem _ _ _) with launched by by destruct launched.
  apply reachable_resume, reachable_call; [apply refreshed_reachable|].
  apply (fleet_run error_text 5 [("t1", "cf-1")] false).
Qed.

Lemma reported_reachable : coordinating error_text reported.
Proof. apply reachable_resume, flown_reachable. Qed.

(** A run can do what it is for: in a reachable run of a prepared fleet of one
    vehicle whose mission returns in success, the run assigns the task, starts the
    mission, waits for it, completes the task and ends. *)
Theorem prepared_fleet_completes_its_task :
  coordinating error_text reported /\
  finished <$> coroutines reported !! 1%nat = Some (Some (Ret tt)) /\
  FleetEvent.event_type <$> FleetCoordinator._events (shared reported) =
    ["FLEET_SESSION_CREATED"; "TASK_ASSIGNED"; "CHILD_START_REQUESTED";
     "SEQUENTIAL_LAUNCH_CHECKPOINT"; "TASK_COMPLETED"; "FLEET_TERMINAL"] /\
  TaskRecord.state <$> records (tasks (shared reported)) = [TaskState.COMPLETED].
Proof. split; [apply reported_reachable|]. vm_compute. done. Qed.

(** A cancellation that comes after the mission was created and before its first step,
    in which the runner learns of the run, raises instead of cancelling: the mission
    flies on and its task stays in progress. *)
Definition cancelled : system Fleet frequest := call (cancel_fleet "stop") launched.

Theorem early_cancellation_is_lost :
  coordinating error_text cancelled /\
  (match finished <$> coroutines cancelled !! 2%nat with
   | Some (Some (Raise (CrazySwarmError _ _))) => True
   | _ => False
   end) /\
  MissionTask.cancel_requested <$> FleetCoordinator.mission_tasks (shared cancelled) = [false] /\
  TaskRecord.state <$> records (tasks (shared cancelled)) = [TaskState.IN_PROGRESS].
Proof.
  split; [|vm_compute; done]. apply reachable_call; [|apply (fleet_cancel error_text "stop")].
  apply reachable_resume, reachable_call; [apply refreshed_reachable|].
  apply (fleet_run error_text 5 [("t1", "cf-1")] false).
Qed.

Lemma coordination_witness :
  coordinating error_text reported /\
  Forall (mission_fits (shared reported)) (FleetCoordinator.mission_tasks (shared reported)).
Proof.
  split; [apply reported_reachable|].
  apply (coordination_keeps_every_promise error_text reported reported_reachable).
Defined.

Lemma refreshed_good : fleet_good (shared refreshed).
Proof. apply (coordinating_good error_text), refreshed_reachable. Qed.

Lemma reports_witness :
  fleet_good (shared refreshed) /\
  cok fleet_good fleet_along (Rotation.run 5 [("t1", "cf-1")] false)
    (fun o _ _ => forall r, o = Ret r -> justified r) (shared refreshed) (readings refreshed).
Proof.
  split; [apply refreshed_good|].
  apply (run_reports_are_justified 5 [("t1", "cf-1")] false (shared refreshed) (readings refreshed)).
  apply refreshed_good.
Defined.
End Examples.
