(* ===== verification/Handovers.v ===== *)
(** * Fleet coordinator: how authority over a task changes hands

    Authority over a task moves by requests to the mission runner.  A run asks to
    grant it to a reserve only once the takeover of the handover is confirmed, its
    outgoing vehicle is at rest after a mission of the task that succeeded, and the
    ledger has issued the generation the grant names.  The example covers two zones
    with two of three vehicles up to the grant to the third. *)

From S2P Require Import Prelude Float64 Effects Contracts Artifacts.
From S2P Require Import Tasks Persistent Docks Zones Safety PlanContracts Routes Intents.
From S2P Require Import Trajectory Planning Telemetry Commands Missions Authority.
From S2P Require Import Deconfliction Multidrone Coroutines Supervisor Preparation.
From S2P Require Import Supervision Guarantees Readiness Metrics Fleet Coordinator Rotation Coordination FleetGuarantees.

(** ** The order promised *)

Section order.
Context `{CK : Clock} `{LM : Libm} `{DG : Digest}.

(** The session of the vehicle is in the state [READY]. *)
Definition at_rest (v : string) (s : Fleet) : Prop :=
  exists a x, dict_get v (SafetySupervisor.sessions (fleet_supervisor s)) = Some a /\
    SafetySupervisor.objects (fleet_supervisor s) !! a = Some x /\
    VehicleSession.state x = VehicleState.READY.

(** A mission that was flown under a binding of the task ended in success. *)
Definition flown_home (tid : string) (s : Fleet) : Prop :=
  exists i m r, FleetCoordinator.mission_tasks s !! i = Some m /\
    FleetCommandBinding.task_id (MissionArguments.fleet_binding (args m)) = tid /\
    MissionTask.ended m = Some (Ret r) /\ MissionResult.status r = MissionStatus.SUCCEEDED.

(** The ledger has issued the generation [g] of the task. *)
Definition generation_issued (tid : string) (g : Z) (s : Fleet) : Prop :=
  exists r, dict_get tid (TaskLedger._records (tasks s)) = Some r /\ g <= TaskRecord.lease_generation r.

(** The handover that a request names is the one the coordinator keeps, and it is at the
    point where its reserve may have the task. *)
Record settled_for (h : HandoverRecord.t) (t : Transition) (s : Fleet) : Prop := {
  st_stored : stored_handover (HandoverRecord.handover_id h) s = Some h;
  st_named : FleetAuthorityTransition.transition_id t = "grant-" +:+ HandoverRecord.handover_id h;
  st_confirmed : HandoverRecord.takeover_confirmed h = true;
  st_task : HandoverRecord.task_id h = FleetAuthorityTransition.next_task_id t;
  st_incoming : HandoverRecord.incoming_vehicle_id h = Some (FleetAuthorityTransition.vehicle_id t);
  st_generation : HandoverRecord.incoming_lease_generation h =
    Some (FleetAuthorityTransition.next_task_lease_generation t);
  st_ledger : generation_issued (HandoverRecord.task_id h)
    (FleetAuthorityTransition.next_task_lease_generation t) s;
  st_rest : at_rest (HandoverRecord.outgoing_vehicle_id h) s;
  st_mission : flown_home (HandoverRecord.task_id h) s;
}.

(** A request that grants a task to a reserve. *)
Definition granted_in_order (B : Type) (q : frequest B) (s : Fleet) : Prop :=
  match q with
  | TransitionAuthority _ t =>
      FleetAuthorityTransition.reason_code t = "ATOMIC_TAKEOVER_CONFIRMED" ->
      exists h, settled_for h t s
  | _ => True
  end.
End order.

Notation FFree := (free granted_in_order).
Notation FAsks := (asks fleet_good fleet_along granted_in_order).

(** ** What never grants *)

Section free_parts.
Context `{CK : Clock} `{LM : Libm} `{DG : Digest}.

Lemma free_sync {A} (m : M Fleet A) : FFree (sync m : fleet A).
Proof. by intros o. Qed.

Lemma free_via {A} (c : coro A) : FFree (via_supervisor c).
Proof.
  unfold via_supervisor.
  assert (Hi : forall B (c : co Fleet request B), FFree (co_inject (@OfVehicle) c)).
  { intros B c'. induction c'; simpl; [done|intros ?; auto|]. split; [done|auto]. }
  apply Hi.
Qed.

Lemma free_forever {A} : FFree (forever : fleet A).
Proof. split; [done|]. by intros [[]|e]. Qed.

Lemma free_try {A} (c : fleet A) catches h :
  FFree c -> (forall e, FFree (h e)) -> FFree (co_try c catches h).
Proof. intros Hc Hh. apply free_then; [done|]. intros [a|e]; [done|]. by destruct (catches e). Qed.
End free_parts.

(** [FFree c] by the structure of [c]. *)
Ltac free_go :=
  cbv zeta;
  repeat (first
    [ lazymatch goal with |- free _ (match ?x with _ => _ end) => destruct x end
    | solve [eauto with free nocore]
    | lazymatch goal with
      | |- forall _, _ => intros ?
      | |- free _ (mret _) => exact I
      | |- free _ (Finish _) => exact I
      | |- free _ (co_raise _) => exact I
      | |- free _ (await _) => split; [done|done]
      | |- free _ (sync _) => apply free_sync
      | |- free _ (via_supervisor _) => apply free_via
      | |- free _ forever => apply free_forever
      | |- free _ (mbind _ _) => apply free_bind; [|intros ?]
      | |- free _ (co_try _ _ _) => apply free_try; [|intros ?]
      | |- free _ (co_then _ _) => apply free_then; [|intros ?]
      | |- free _ (co_for_each _ _) => apply free_for_each; intros ?
      end ]).
Create HintDb free discriminated.
#[export] Hint Constants Opaque : free.

Section free_operations.
Context `{CK : Clock} `{LM : Libm} `{DG : Digest}.

Lemma observation_for_free v : FFree (observation_for v).
Proof. unfold observation_for. free_go. Qed.
Lemma await_mission_free i : FFree (await_mission i).
Proof. unfold await_mission. free_go. Qed.
#[local] Hint Resolve observation_for_free await_mission_free : free.
Lemma await_launch_free n r c : FFree (await_launch n r c).
Proof. induction n as [|n IH]; cbn [await_launch]; free_go. Qed.
#[local] Hint Resolve await_launch_free : free.
Lemma checkpoint_free n t : FFree (_await_sequential_launch_checkpoint n t).
Proof. unfold _await_sequential_launch_checkpoint. free_go. Qed.

(** *** Separation *)
Lemma release_hold_free me p : FFree (_release_crossing_hold me p).
Proof. unfold _release_crossing_hold, end_hold_task. free_go. Qed.
Lemma abort_pair_free me p l : FFree (_abort_crossing_pair me p l).
Proof. unfold _abort_crossing_pair, end_hold_task. free_go. Qed.
#[local] Hint Resolve release_hold_free abort_pair_free : free.
Lemma intervention_free a b l p : FFree (_separation_intervention a b l p).
Proof. unfold _separation_intervention. free_go. Qed.
#[local] Hint Resolve intervention_free : free.
Lemma act_on_pair_free v : FFree (act_on_pair v).
Proof. unfold act_on_pair. free_go. Qed.
#[local] Hint Resolve act_on_pair_free : free.
Lemma observe_pairs_free l ps os b : FFree (observe_pairs l ps os b).
Proof. revert os b. induction ps as [|p ps IH]; intros os b; cbn [observe_pairs]; free_go. Qed.
Lemma separation_samples_free b ms l : FFree (separation_samples b ms l).
Proof. revert l. induction ms as [|m ms IH]; intros l; cbn [separation_samples]; free_go. Qed.
#[local] Hint Resolve observe_pairs_free separation_samples_free : free.
Lemma enforce_separation_free b : FFree (enforce_separation b).
Proof. unfold enforce_separation. free_go. Qed.
#[local] Hint Resolve enforce_separation_free : free.

(** *** Monitoring *)
Lemma coordination_observation_free t v : FFree (_coordination_observation t v).
Proof. unfold _coordination_observation. free_go. Qed.
#[local] Hint Resolve coordination_observation_free : free.
Lemma monitor_leader_follower_free : FFree _monitor_leader_follower.
Proof. unfold _monitor_leader_follower. free_go. Qed.
Lemma for_children_free body : (forall i, FFree (body i)) -> FFree (for_children body).
Proof.
  intros Hb. unfold for_children. apply free_bind; [apply free_sync|]. intros self. cbv zeta.
  generalize 0%nat as index. generalize (S (length (FleetCoordinator._children self))) as fuel.
  induction fuel as [|fuel IH]; intros index; cbn [children_from]; free_go.
Qed.
Lemma failure_policy_free t : FFree (_apply_child_failure_policy t).
Proof.
  unfold _apply_child_failure_policy. free_go. apply for_children_free. intros i.
  unfold apply_to_peer, hold_peer, command_hold, discard. free_go.
Qed.
#[local] Hint Resolve monitor_leader_follower_free failure_policy_free : free.
Lemma finish_task_free t m : FFree (_finish_task t m).
Proof. unfold _finish_task. free_go. Qed.
#[local] Hint Resolve finish_task_free : free.
Lemma monitor_tasks_free ts p : FFree (monitor_tasks ts p).
Proof. revert p. induction ts as [|t ts IH]; intros p; cbn [monitor_tasks]; free_go. Qed.
#[local] Hint Resolve monitor_tasks_free : free.
Lemma monitor_rounds_free n p : FFree (monitor_rounds n p).
Proof. revert p. induction n as [|n IH]; intros p; cbn [monitor_rounds]; free_go. Qed.
#[local] Hint Resolve monitor_rounds_free : free.
Lemma monitor_children_free n : FFree (_monitor_children n).
Proof. unfold _monitor_children. free_go. Qed.
#[local] Hint Resolve monitor_children_free checkpoint_free : free.
Lemma cancel_all_free r : FFree (_cancel_all r).
Proof.
  unfold _cancel_all, gather_missions, _settle_interrupted_members, settle_member,
    cleanup_observation, stop_member. free_go.
Qed.
#[local] Hint Resolve cancel_all_free : free.
Lemma run_tasks_free n a l : FFree (run_tasks n a l).
Proof. unfold run_tasks, fly, prepare_launch, launch_task, fleet_failed. free_go. Qed.

(** *** Rotation *)
Lemma coverage_candidates_free now ms l : FFree (coverage_candidates now ms l).
Proof.
  revert l. induction ms as [|m ms IH]; intros l; cbn [coverage_candidates];
    unfold coverage_candidate; free_go.
Qed.
#[local] Hint Resolve coverage_candidates_free : free.
Lemma all_candidates_free : FFree _coverage_candidates.
Proof. unfold _coverage_candidates. free_go. Qed.
Lemma pause_free : FFree pause.
Proof. unfold pause. free_go. Qed.
#[local] Hint Resolve all_candidates_free pause_free : free.
Lemma rotation_trigger_free n : FFree (_wait_for_rotation_trigger n).
Proof. induction n as [|n IH]; cbn [_wait_for_rotation_trigger]; free_go. Qed.
Lemma wait_for_position_free n v x c t : FFree (_wait_for_position n v x c t).
Proof. induction n as [|n IH]; cbn [_wait_for_position]; free_go. Qed.
Lemma await_child_free n c : FFree (_await_child_with_separation n c).
Proof. induction n as [|n IH]; cbn [_await_child_with_separation]; free_go. Qed.
Lemma await_children_free n : FFree (await_children n).
Proof. induction n as [|n IH]; cbn [await_children]; free_go. Qed.
#[local] Hint Resolve rotation_trigger_free wait_for_position_free await_child_free
  await_children_free : free.
Lemma replacement_ready_free h v : FFree (replacement_ready h v).
Proof. unfold replacement_ready. free_go. Qed.
Lemma reserve_dock_free h : FFree (reserve_dock h).
Proof. unfold reserve_dock. free_go. Qed.
Lemma outgoing_landed_free n h : FFree (outgoing_landed n h).
Proof. unfold outgoing_landed. free_go. Qed.
Lemma dock_attempts_free n r v x : FFree (dock_attempts n r v x).
Proof. revert x. induction n as [|n IH]; intros x; cbn [dock_attempts]; free_go. Qed.
#[local] Hint Resolve dock_attempts_free : free.
Lemma abstract_dock_free n r v : FFree (_complete_abstract_dock n r v).
Proof. unfold _complete_abstract_dock. free_go. Qed.
Lemma finish_others_free t : FFree (finish_others t).
Proof.
  unfold finish_others, gather_results. free_go.
  induction (FleetCoordinator._children a) as [|[k c] l IH]; free_go.
Qed.
End free_operations.
#[export] Hint Resolve observation_for_free await_mission_free checkpoint_free enforce_separation_free
  monitor_children_free cancel_all_free run_tasks_free all_candidates_free rotation_trigger_free
  wait_for_position_free await_child_free await_children_free replacement_ready_free
  reserve_dock_free outgoing_landed_free abstract_dock_free finish_others_free : free.

(** ** What holds when the grant is asked for *)

Section settled.
Context `{CK : Clock} `{CN : !ClockNonneg} `{LM : Libm} `{DG : Digest}.

Lemma at_rest_same v s s' :
  FleetCoordinator.preparation s' = FleetCoordinator.preparation s -> at_rest v s -> at_rest v s'.
Proof.
  intros Hp. unfold at_rest, fleet_supervisor. by rewrite Hp.
Qed.

(** The reserve [v] has taken over. *)
Definition taken (h : HandoverRecord.t) (v : string) (s : Fleet) : Prop :=
  exists h', stored_handover (HandoverRecord.handover_id h) s = Some h' /\ same_handover h h' /\
    HandoverRecord.takeover_confirmed h' = true /\ HandoverRecord.incoming_vehicle_id h' = Some v.

Lemma taken_along h v s s' : fleet_along s s' -> taken h v s -> taken h v s'.
Proof.
  intros Ha (h1 & Hh1 & (E1 & E2 & E3) & Hc & Hv).
  destruct (stored_along _ _ _ _ Ha Hh1) as (h2 & Hh2 & (F1 & F2 & F3) & F4). destruct (F4 Hc) as [Hc2 Hv2].
  exists h2. unfold same_handover. split_and!; [done|congruence..].
Qed.

(** *** The generation of the ledger *)

Lemma ledger_steps_generation l l' tid r :
  ledger_steps l l' -> dict_get tid (TaskLedger._records l) = Some r ->
  exists r', dict_get tid (TaskLedger._records l') = Some r' /\
    TaskRecord.lease_generation r <= TaskRecord.lease_generation r'.
Proof.
  intros Hs. revert r. induction Hs as [|l1 l2 l3 [t H] _ IH]; intros r Hr; [by exists r|].
  assert (exists r2, dict_get tid (TaskLedger._records l2) = Some r2 /\
            TaskRecord.lease_generation r <= TaskRecord.lease_generation r2) as (r2 & Hr2 & H2).
  { destruct (decide (tid = t)) as [->|Hne].
    - destruct (rel_task _ _ _ H r Hr) as (r2 & Hr2 & Hsteps). exists r2. split; [done|].
      by eapply generation_mono.
    - exists r. rewrite (rel_others _ _ _ H tid Hne). by split. }
  destruct (IH r2 Hr2) as (r3 & Hr3 & H3). exists r3. split; [done|lia].
Qed.

Lemma generation_issued_along tid g s s' :
  fleet_along s s' -> generation_issued tid g s -> generation_issued tid g s'.
Proof.
  intros [_ He] (r & Hr & Hg). destruct (ledger_steps_generation _ _ _ _ (fe_tasks _ _ He) Hr) as (r' & Hr' & H).
  exists r'. split; [done|lia].
Qed.

Lemma start_generation tid v run g now l n : ledger_ok l ->
  wp (Tasks.start tid v run g now) (fun o l' _ => forall r, o = Ret r ->
    (exists r0, dict_get tid (TaskLedger._records l) = Some r0 /\ TaskRecord.owner_vehicle_id r0 = Some v) /\
    exists r', dict_get tid (TaskLedger._records l') = Some r' /\ g <= TaskRecord.lease_generation r') l n.
Proof.
  intros [_ Hok]. unfold Tasks.start. apply wp_bind, wp_require_lease; [|done].
  intros r0 n' Hr0 Hown. wp_rule. wp_rule; [done|]. eapply wp_mono; [eapply store_emit_post; [exact Hr0| |done]|].
  { bool_to_prop. by apply Tasks.step_start. }
  intros o l' n2 [_ Hret] r Hr. destruct (Hret r Hr) as [Hg (e & He)].
  destruct (Hok _ _ Hr0) as [Hl _ _ _ _ _]. unfold is_current_owner in Hown.
  destruct (TaskRecord.lease r0) as [lease|]; [|done]. bool_to_prop.
  split; [by exists r0|]. exists r. split; [done|]. subst r. simpl. lia.
Qed.

(** What a takeover leaves: the reserve has the task with the generation [g]. *)
Record moved (h : HandoverRecord.t) (v : string) (g : Z) (s : Fleet) : Prop := {
  mv_taken : taken h v s;
  mv_issued : generation_issued (HandoverRecord.task_id h) g s;
  mv_next : g = HandoverRecord.outgoing_lease_generation h + 1;
}.

Lemma moved_along h v g s s' : fleet_along s s' -> moved h v g s -> moved h v g s'.
Proof. intros Ha [? ? ?]. split; [by eapply taken_along|by eapply generation_issued_along|done]. Qed.

(** A step that keeps the invariant keeps that. *)
Lemma moved_kept {A} (m : M Fleet A) h v g s n :
  steps fleet_kept m -> fleet_good s -> moved h v g s ->
  wp m (fun _ s' _ => fleet_good s' /\ moved h v g s') s n.
Proof.
  intros Hm Hg Hi. eapply wp_mono; [apply Hm|]. intros o s' n' Hk. destruct (Hk Hg) as [Hg' Ha].
  split; [done|]. by eapply moved_along.
Qed.

(** The takeover that the persistent coordinator confirms. *)
Lemma takeover_confirmed_stored h cs s n : fleet_good s -> begun h s ->
  wp (on_persistent (confirm_takeover (HandoverRecord.handover_id h) cs None))
    (on_return (fun c s' => fleet_good s' /\ exists v, taken h v s' /\
       HandoverRecord.incoming_lease_generation c = Some (HandoverRecord.outgoing_lease_generation h + 1) /\
       forall r, dict_get (HandoverRecord.task_id h) (TaskLedger._records (tasks s')) = Some r ->
         TaskRecord.owner_vehicle_id r = Some v)) s n.
Proof.
  intros Hg (h1 & Hh1 & E1 & E2 & E3). unfold on_persistent. apply wp_zoom_some; [done|]. intros p Hp.
  assert (Hok : coordinator_ok p) by (apply (fo_coverage s); [apply Hg|done]).
  eapply wp_mono; [by apply confirm_takeover_outcome|]. intros o p' n' [Hstep H] c ->.
  destruct (kept_coverage p p' s Hp Hstep Hg) as [Hg' _]. split; [done|].
  destruct H as [(h0 & Hh0 & _ & Hs) Hst _ (r & v & Hv & Hr & Ho & Hgen & Hinc & _)].
  apply stored_Some in Hh1 as (p1 & Hp1 & Hh1). assert (p1 = p) as -> by congruence.
  assert (h0 = h1) as -> by congruence.
  destruct (handover_step_parties _ _ _ Hs) as (F1 & _ & F2 & F3).
  assert (Hc : stored_handover (HandoverRecord.handover_id h) (FleetCoordinator.set_persistent (Some p') s) = Some c).
  { apply stored_Some. exists p'. by rewrite Hst, dict_get_set_eq. }
  pose proof (ho_generation _ _ (stored_ok _ _ _ Hg' Hc)) as Hgc. rewrite Hinc, Hgen in Hgc.
  exists v. split_and!.
  - exists c. split_and!; [done|unfold same_handover; split_and!; congruence| |done].
    by destruct (HandoverRecord.takeover_confirmed c).
  - rewrite Hinc, Hgen. congruence.
  - intros r1 Hr1. unfold tasks in Hr1. simpl in Hr1. rewrite F1, E1 in Hr. congruence.
Qed.

Lemma take_over_moves h v run cs s n : fleet_good s -> begun h s ->
  wp (take_over h v run cs) (on_return (fun taken s' => moved h v taken.1.2 s')) s n.
Proof.
  intros Hg Hb. unfold take_over. apply wp_bind.
  eapply wp_mono; [by apply takeover_confirmed_stored|]. intros [c|e] s1 n1 Hc; [|done].
  destruct (Hc c eq_refl) as (Hg1 & w & Hw & Hgen & Hown). clear Hc.
  destruct (HandoverRecord.incoming_lease_generation c) as [[|[|[]|]|]|]; try by wp_rule.
  apply wp_bind. unfold on_tasks at 1. apply wp_zoom.
  assert (Hok : ledger_ok (tasks s1)) by by destruct Hg1 as [_ []].
  pose proof (start_generation (HandoverRecord.task_id h) v run 2 None (tasks s1) n1 Hok) as Hst.
  pose proof (Ledger_start (HandoverRecord.task_id h) v run 2 None (tasks s1) n1) as Hl.
  unfold wp in *. destruct (Tasks.start _ _ _ _ _ (tasks s1) n1) as [[[r|e] l'] n2]; simpl in *; [|done].
  destruct (kept_tasks l' s1 Hl Hg1) as [Hg2 A2].
  destruct (Hst r eq_refl) as [(r0 & Hr0 & Hv) Hi]. specialize (Hown r0 Hr0).
  assert (w = v) as -> by congruence.
  assert (Hm : moved h v 2 (set_tasks l' s1)).
  { split; [by eapply taken_along|unfold generation_issued; by rewrite set_tasks_get|congruence]. }
  clear Hst Hl A2 Hi Hown. revert Hg2 Hm. generalize (set_tasks l' s1) as s2. intros s2 Hg2 Hm.
  match goal with |- forall a, (?m s2 n2).1.1 = _ -> _ =>
    change (wp m (on_return (fun taken s' => moved h v taken.1.2 s')) s2 n2) end.
  clear s1 n1 Hw Hg1 Hok l' Hg Hb Hr0. revert s2 n2 Hg2 Hm.
  do 6 (intros s2 n2 Hg2 Hi; apply wp_bind; eapply wp_mono; [by apply moved_kept; [steps_go|..]|];
    intros [?|?] s3 n3 [Hg3 Hi3]; [clear s2 n2 Hg2 Hi; revert s3 n3 Hg3 Hi3|done]).
  intros s2 n2 Hg2 Hi. wp_rule. by intros ? [= <-].
Qed.

(** *** The outgoing vehicle *)

Definition ended_with (i : nat) (r : MissionResult.t) (s : Fleet) : Prop :=
  exists m, FleetCoordinator.mission_tasks s !! i = Some m /\ MissionTask.ended m = Some (Ret r).

Lemma wp_mission_task i s n :
  wp (mission_task i) (fun o s' _ => s' = s /\
    forall m, o = Ret m -> FleetCoordinator.mission_tasks s !! i = Some m) s n.
Proof.
  unfold mission_task. wp_rule. wp_rule. cbv beta iota. wp_rule.
  destruct (FleetCoordinator.mission_tasks s !! i); split; try done. by intros m [= <-].
Qed.

Lemma sync_mission_task i s n : fleet_good s ->
  cok fleet_good fleet_along (sync (mission_task i) : fleet _)
    (on_return (fun m s' => FleetCoordinator.mission_tasks s' !! i = Some m)) s n.
Proof.
  intros Hg. apply ends_sync; [apply mission_task_kept|done|].
  eapply wp_mono; [apply wp_mission_task|]. intros o s' n' [-> H] m Hm. by apply H.
Qed.

Lemma await_mission_ends i s n : fleet_good s ->
  cok fleet_good fleet_along (await_mission i) (on_return (ended_with i)) s n.
Proof.
  intros Hg. unfold await_mission. eapply ends_from; [by apply sync_mission_task|].
  intros m s1 n1 Hg1 _ Hm. destruct (MissionTask.ended m) as [o|] eqn:E.
  { apply cok_finish; [apply _|done|]. intros r ->. by exists m. }
  apply ends_bind; [apply keeps_await; apply _|done|]. intros _ s2 n2 Hg2.
  eapply ends_from; [by apply sync_mission_task|]. intros m2 s3 n3 Hg3 _ Hm3.
  destruct (MissionTask.ended m2) as [o|] eqn:E2; [|by apply ends_raise].
  apply cok_finish; [apply _|done|]. intros r ->. by exists m2.
Qed.

Lemma ends_forever {A} (P : A -> Fleet -> Prop) s n : fleet_good s ->
  cok fleet_good fleet_along (forever : fleet A) (on_return P) s n.
Proof. intros Hg. split_and!; [done|reflexivity|]. intros [[]|e] s' n' Hg' _. by apply ends_raise. Qed.

Lemma await_child_ends rounds i s n : fleet_good s ->
  cok fleet_good fleet_along (_await_child_with_separation rounds i) (on_return (ended_with i)) s n.
Proof.
  revert s n. induction rounds as [|rounds IH]; intros s n Hg; cbn [_await_child_with_separation];
    (apply ends_bind; [fleet_go|done|]); intros [] s1 n1 Hg1; try by apply await_mission_ends.
  - by apply ends_forever.
  - do 2 (apply ends_bind; [fleet_go|done|]; clear s1 n1 Hg1; intros ? s1 n1 Hg1). by apply IH.
Qed.

Lemma ended_with_along i r s s' : fleet_along s s' -> ended_with i r s -> ended_with i r s'.
Proof.
  intros [_ He] (m & Hm & Hr). destruct (fe_missions _ _ He i m Hm) as (m' & Hm' & _ & Hd).
  exists m'. auto.
Qed.

(** *** The session that is read at the end *)

Lemma same_supervisor s :
  FleetCoordinator.set_preparation (FleetPreparation.set_supervisor (fleet_supervisor s)
    (FleetCoordinator.preparation s)) s = s.
Proof. destruct s as [? p]. by destruct p. Qed.

Lemma wp_session_state v s n :
  wp (session_state v) (fun o s' _ => s' = s /\ (o = Ret VehicleState.READY -> at_rest v s)) s n.
Proof.
  unfold session_state, on_supervisor, on_preparation, Preparation.on_supervisor. apply wp_zoom, wp_zoom.
  change (FleetPreparation.supervisor (FleetCoordinator.preparation s)) with (fleet_supervisor s).
  apply wp_bind, wp_session; [|by rewrite same_supervisor]. intros a Ha. cbv beta iota.
  unfold deref. apply wp_bind. wp_rule. wp_rule. cbv beta iota.
  destruct (SafetySupervisor.objects (fleet_supervisor s) !! a) as [x|] eqn:Ex.
  - wp_rule. wp_rule. rewrite same_supervisor. split; [done|]. intros [= Hst]. by exists a, x.
  - wp_rule. by rewrite same_supervisor.
Qed.

Lemma emit_same t v k s n :
  wp (emit t v k) (fun _ s' _ => FleetCoordinator.preparation s' = FleetCoordinator.preparation s) s n.
Proof. unfold emit. by wp_go. Qed.

Lemma metric_same kind c v t x st s n :
  wp (metric kind c v t x st)
    (fun _ s' _ => FleetCoordinator.preparation s' = FleetCoordinator.preparation s) s n.
Proof.
  unfold metric. wp_go; [done|]. apply wp_zoom_some; [done|]. intros r _.
  unfold wp. by destruct (record_metric _ _ _ _ _ _ _ _ r _) as [[[a|e] r'] n'].
Qed.

(** [outgoing_landed] returns with the vehicle at rest after a successful mission. *)
Definition returned_home (h : HandoverRecord.t) (s : Fleet) : Prop :=
  at_rest (HandoverRecord.outgoing_vehicle_id h) s /\ flown_home (HandoverRecord.task_id h) s.

Lemma landing_checked h e s n :
  wp (let data := TelemetryEnvelope.telemetry e in
      state ← session_state (HandoverRecord.outgoing_vehicle_id h);
      _ ← raise_if (VehicleTelemetry.armed data || VehicleTelemetry.flying data
                    || negb (bool_decide (state = VehicleState.READY)))
            (CrazySwarmError INVALID_STATE "outgoing vehicle did not confirm landed and disarmed");
      _ ← emit "OUTGOING_RETURNED_AND_LANDED" (Some (HandoverRecord.outgoing_vehicle_id h))
            (Some (HandoverRecord.task_id h));
      handover_metric h FleetMetricKind.STABILIZED (Some (HandoverRecord.outgoing_vehicle_id h)))
    (fun o s' _ => o = Ret tt -> at_rest (HandoverRecord.outgoing_vehicle_id h) s') s n.
Proof.
  cbv zeta. apply wp_bind. eapply wp_mono; [apply wp_session_state|]. intros [state|e0] s1 n1 [-> Hr]; [|done].
  wp_rule. wp_rule; [done|]. bool_to_prop. subst. specialize (Hr eq_refl). apply wp_bind.
  eapply wp_mono; [apply emit_same|]. intros [[]|e0] s2 n2 H2; [|done].
  unfold handover_metric. eapply wp_mono; [apply metric_same|]. intros o s3 n3 H3 _. eapply at_rest_same; [|exact Hr]. congruence.
Qed.

Lemma item_of_reads {A} (d : Fleet -> dict A) k s n : fleet_good s ->
  cok fleet_good fleet_along (sync (item_of d k) : fleet A)
    (on_return (fun x s' => s' = s /\ dict_get k (d s) = Some x)) s n.
Proof.
  intros Hg. apply ends_sync; [apply item_of_kept|done|]. unfold item_of. wp_rule. wp_rule. cbv beta iota.
  wp_rule. destruct (dict_get k (d s)) as [x|]; [|done]. by intros ? [= <-].
Qed.

Lemma outgoing_landed_returns rounds h s n : fleet_good s ->
  cok fleet_good fleet_along (outgoing_landed rounds h) (on_return (fun _ => returned_home h)) s n.
Proof.
  intros Hg. unfold outgoing_landed. eapply ends_from; [by apply item_of_reads|].
  intros i s1 n1 Hg1 _ [-> Hi]. destruct (fo_flown s (proj2 Hg) _ _ Hi) as (m0 & Hm0 & Hb).
  eapply ends_from; [by apply await_child_ends|].
  intros r s2 n2 Hg2 A2 Hr. eapply (ends_from _ _ (fun _ s' => MissionResult.status r = MissionStatus.SUCCEEDED)).
  { apply ends_sync; [steps_go|done|]. wp_rule; [done|]. intros [] _. by bool_to_prop. }
  intros _ s3 n3 Hg3 A3 Hst. eapply (ends_after _ _ (fun _ => returned_home h)); [apply observation_for_keeps|done|].
  intros e s4 n4 Hg4 A4.
  assert (A24 : fleet_along s2 s4) by by etrans. assert (A04 : fleet_along s s4) by by etrans.
  apply ends_step; [steps_go|done|]. eapply wp_mono; [apply landing_checked|].
  intros o s5 n5 Hrest Hg5 A5 [] Ho. split; [by apply Hrest|].
  apply (ended_with_along _ _ s2 s5) in Hr as (m & Hm & Hr); [|by etrans].
  assert (A05 : fleet_along s s5) by (etrans; [exact A04|exact A5]).
  destruct (fe_missions _ _ (proj2 A05) i m0 Hm0) as (m' & Hm' & Em & _).
  assert (m' = m) as -> by congruence. exists i, m, r. by rewrite Em.
Qed.

(** *** The requests of a handover *)

Lemma asks_after {A B} (c : fleet A) (f : A -> fleet B) s n :
  FFree c -> FKeeps c -> fleet_good s ->
  (forall a s' n', fleet_good s' -> fleet_along s s' -> FAsks (f a) s' n') -> FAsks (c ≫= f) s n.
Proof.
  intros Hc Hk Hg Hf. apply asks_bind; [apply _|by apply free_asks|].
  eapply cok_mono; [apply _|by apply Hk|]. intros o s' n' Hg' Ha _ a _. by apply Hf.
Qed.

Lemma asks_from {A B} (c : fleet A) (f : A -> fleet B) (P : A -> Fleet -> Prop) s n :
  FFree c -> cok fleet_good fleet_along c (on_return P) s n ->
  (forall a s' n', fleet_good s' -> fleet_along s s' -> P a s' -> FAsks (f a) s' n') ->
  FAsks (c ≫= f) s n.
Proof.
  intros Hc Hk Hf. apply asks_bind; [apply _|by apply free_asks|].
  eapply cok_mono; [apply _|exact Hk|]. intros o s' n' Hg' Ha HP a Ho. apply Hf; auto.
Qed.

Lemma wp_authority_request p h v run b task g why auth s n :
  wp (authority_request p h v run b task g why auth)
    (on_return (fun t s' => s' = s /\
       FleetAuthorityTransition.transition_id t = p +:+ HandoverRecord.handover_id h /\
       FleetAuthorityTransition.next_task_id t = task /\
       FleetAuthorityTransition.next_task_lease_generation t = g /\
       FleetAuthorityTransition.vehicle_id t = v /\ FleetAuthorityTransition.reason_code t = why)) s n.
Proof.
  unfold authority_request. wp_rule. wp_rule. cbv beta iota zeta. wp_rule; [done|]. by intros t [= <-].
Qed.

Lemma transfer_authority_asks run t s n :
  granted_in_order _ (TransitionAuthority run t) s -> FAsks (transfer_authority run t) s n.
Proof.
  intros Ht. split; [done|]. intros [r|e] s' n' _ _; [|done]. by apply free_asks, free_sync.
Qed.

Lemma revoke_outgoing_asks h p s n : fleet_good s -> FAsks (revoke_outgoing h p) s n.
Proof.
  intros Hg. unfold revoke_outgoing. apply asks_after; [apply free_sync|apply FKeeps_sync; steps_go|done|].
  intros run s1 n1 Hg1 _.
  eapply (asks_from _ _ (fun t _ => FleetAuthorityTransition.reason_code t = "TAKEOVER_READY_REVOKE_OUTGOING")).
  { apply free_sync. }
  { apply ends_sync; [steps_go|done|]. apply wp_bind. eapply wp_mono; [apply item_of_kept|].
    intros [b|e] s2 n2 _; [|done]. eapply wp_mono; [apply wp_authority_request|].
    intros o s3 n3 H t Ht. by apply H. }
  intros t s2 n2 Hg2 _ Ht. apply asks_bind; [apply _| |].
  - apply transfer_authority_asks. intros Hr. congruence.
  - eapply cok_mono; [apply _|by apply transfer_authority_keeps|]. intros o s3 n3 _ _ _ [] _.
    by apply free_asks, free_sync.
Qed.

(** The state in which the grant may be asked for. *)
Lemma moved_settled h v g t s :
  fleet_good s -> moved h v g s -> returned_home h s ->
  FleetAuthorityTransition.transition_id t = "grant-" +:+ HandoverRecord.handover_id h ->
  FleetAuthorityTransition.next_task_id t = HandoverRecord.task_id h ->
  FleetAuthorityTransition.next_task_lease_generation t = g ->
  FleetAuthorityTransition.vehicle_id t = v -> exists h', settled_for h' t s.
Proof.
  intros Hg [(h' & Hst & (E1 & E2 & E3) & Hc & Hv) Hi Hn] [Hrest Hm] Hid Ht Hgen Hveh.
  pose proof (stored_ok _ _ _ Hg Hst) as Hok. pose proof (ho_id _ _ Hok) as Hid'.
  exists h'. split; rewrite ?Hid', ?E1, ?E2; try congruence.
  rewrite (ho_generation _ _ Hok), Hc. congruence.
Qed.

Lemma grant_incoming_asks h c g v la s n :
  fleet_good s -> moved h v g s -> returned_home h s -> FAsks (grant_incoming h c g v la) s n.
Proof.
  intros Hg Hmv Hh. unfold grant_incoming.
  eapply asks_from; [apply free_sync|apply ends_sync; [steps_go|done|apply wp_authority_request]|].
  intros t s1 n1 Hg1 _ (-> & Hid & Ht & Hgen & Hveh & _). apply asks_bind; [apply _| |].
  - apply transfer_authority_asks. intros _. by eapply moved_settled.
  - eapply cok_mono; [apply _|by apply transfer_authority_keeps|]. intros o s3 n3 _ _ _ [] _.
    by apply free_asks, free_sync.
Qed.

Lemma complete_handover_asks rounds h c d g v la s n :
  fleet_good s -> moved h v g s -> FAsks (complete_handover rounds h c d g v la) s n.
Proof.
  intros Hg Hmv. unfold complete_handover. cbv zeta.
  apply asks_after; [free_go|by fleet_go|done|]. intros dock s1 n1 Hg1 A1.
  eapply asks_from; [free_go|by apply outgoing_landed_returns|]. intros [] s2 n2 Hg2 A2 Hh.
  apply asks_bind; [apply _| |].
  - apply grant_incoming_asks; [done| |done]. eapply moved_along; [|exact Hmv]. by etrans.
  - eapply cok_mono; [apply _|by apply grant_incoming_keeps|]. intros o s3 n3 _ _ _ [] _.
    apply free_asks. free_go.
Qed.

(** Steps after which the handover is still kept. *)
Lemma asks_begun {A B} (c : fleet A) (f : A -> fleet B) h s n :
  FFree c -> FKeeps c -> fleet_good s -> begun h s ->
  (forall a s' n', fleet_good s' -> begun h s' -> FAsks (f a) s' n') -> FAsks (c ≫= f) s n.
Proof.
  intros Hc Hk Hg Hb Hf. apply asks_after; [done..|]. intros a s' n' Hg' Ha.
  apply Hf; [done|]. by eapply begun_along.
Qed.

Lemma handover_asks rounds h s n :
  fleet_good s -> begun h s -> FAsks (_execute_persistent_handover rounds h) s n.
Proof.
  intros Hg Hb. unfold _execute_persistent_handover.
  destruct (HandoverRecord.incoming_vehicle_id h) as [v|]; [|done].
  eapply asks_begun; [free_go|by fleet_go|done..|]. intros cs s1 n1 Hg1 B1.
  eapply asks_begun; [free_go|by fleet_go|done..|]. intros la s2 n2 Hg2 B2.
  eapply asks_begun; [free_go|by fleet_go|done..|]. intros _ s3 n3 Hg3 B3.
  eapply asks_begun; [free_go|by fleet_go|done..|]. intros p s4 n4 Hg4 B4.
  apply asks_bind; [apply _|by apply revoke_outgoing_asks|].
  eapply cok_mono; [apply _|by apply revoke_outgoing_keeps|]. intros o s5 n5 Hg5 A5 _ [] _.
  eapply asks_begun; [free_go|by fleet_go|done|by eapply begun_along|]. intros cs' s6 n6 Hg6 B6.
  eapply asks_from; [apply free_sync|apply ends_sync; [steps_go|done|by apply take_over_moves]|].
  intros [[c g] d] s7 n7 Hg7 _ Hmv. by apply complete_handover_asks.
Qed.

Lemma cover_asks rounds a s n : fleet_good s -> FAsks (cover rounds a) s n.
Proof.
  intros Hg. unfold cover. apply asks_after; [unfold launch_coverage; free_go|by unfold launch_coverage; fleet_go|done|].
  intros _ s1 n1 Hg1 _. apply asks_after; [free_go|by fleet_go|done|]. intros [[b [t v]]|] s2 n2 Hg2 _.
  2: { apply free_asks. unfold no_rotation. free_go. }
  unfold rotate. apply asks_after; [free_go|by fleet_go|done|]. intros _ s3 n3 Hg3 _.
  apply asks_after; [free_go|by fleet_go|done|]. intros cs s4 n4 Hg4 _.
  eapply asks_from; [apply free_sync|apply ends_sync; [steps_go|done|by apply decision_begun]|].
  intros h s5 n5 Hg5 _ Hb.
  destruct (bool_decide _); [apply free_asks; unfold no_reserve; free_go|].
  apply asks_bind; [apply _|by apply handover_asks|]. eapply cok_mono; [apply _|by apply handover_keeps|].
  intros o s6 n6 _ _ _ [] _. by apply free_asks, free_sync.
Qed.

(** A run asks in order, whatever happens meanwhile. *)
Lemma run_asks rounds assignments allow s n :
  fleet_good s -> FAsks (Rotation.run rounds assignments allow) s n.
Proof.
  intros Hg. unfold Rotation.run. apply asks_after; [free_go|by fleet_go|done|].
  intros [order b] s1 n1 Hg1 _. cbn [fst snd]. destruct b; [|apply free_asks; free_go].
  unfold _run_persistent, co_try. apply asks_then; [apply _|by apply cover_asks|].
  eapply cok_mono; [apply _|by apply cover_keeps|]. intros [r|e] s2 n2 _ _ _; [done|].
  destruct (is_CrazySwarmError e); [|done]. apply free_asks. unfold coverage_failed. free_go.
Qed.
End settled.

(** ** Every interleaving *)

Section interleaving.
Context `{CK : Clock} `{CN : !ClockNonneg} `{LM : Libm} `{DG : Digest}.
Context (error_text : exn -> string).

Lemma command_hold_free v r b : FFree (command_hold v r b).
Proof. unfold command_hold, discard. free_go. Qed.
#[local] Hint Resolve command_hold_free release_hold_free abort_pair_free : free.
Lemma refresh_hold_free n v r p : FFree (refresh_hold n v r p).
Proof. induction n as [|n IH]; cbn [refresh_hold]; free_go. Qed.
#[local] Hint Resolve refresh_hold_free : free.
Lemma confirm_hold_free n p v : FFree (confirm_hold n p v).
Proof. unfold confirm_hold. free_go. Qed.
#[local] Hint Resolve confirm_hold_free : free.
Lemma confirm_crossing_hold_free n me p v : FFree (_confirm_crossing_hold n me p v).
Proof. unfold _confirm_crossing_hold. free_go. Qed.

Lemma fleet_api_asks c s n : fleet_api error_text c -> fleet_good s -> FAsks c s n.
Proof.
  assert (Hd : forall A (c : fleet A), FFree c -> FFree (discard c)).
  { intros A c' Hc. apply free_bind; [done|]. by intros a. }
  assert (Hi : forall B (c : co Fleet request B), FFree (co_inject (@OfVehicle) c)).
  { intros B c'. induction c'; simpl; [done|intros ?; auto|]. split; [done|auto]. }
  intros Hc Hg. destruct Hc as [rounds a allow| | | | | | |]; [|apply free_asks..].
  - unfold discard. apply asks_bind; [apply _|by apply run_asks|].
    eapply cok_mono; [apply _|by apply run_keeps|]. done.
  - apply confirm_crossing_hold_free.
  - apply free_sync.
  - apply cancel_all_free.
  - unfold shutdown. free_go.
  - apply Hd, observation_for_free.
  - apply Hd, enforce_separation_free.
  - apply Hi.
Qed.

(** C3: authority over a task is granted in order.  In every interleaving of the runs of
    a coordinator, the tasks that confirm holds, the operator, the missions and the other
    clients of the preparation: whenever a coroutine comes to ask the mission runner to
    grant a task to a reserve, then at that moment the handover the request names is kept
    by the coordinator with its takeover confirmed, and it is this handover that has the
    task, the reserve and the generation of the request; the ledger has issued that
    generation; the session of the outgoing vehicle of this handover is at rest; and a
    mission bound to this task has ended in success. *)
Theorem authority_is_granted_in_order sys i sys' run t k :
  coordinating error_text sys ->
  runs (fleet_api error_text) sys i sys' ->
  coroutines sys' !! i = Some (Await (TransitionAuthority run t) k) ->
  FleetAuthorityTransition.reason_code t = "ATOMIC_TAKEOVER_CONFIRMED" ->
  exists h, settled_for h t (shared sys').
Proof.
  intros Hr Hs Hi.
  apply (reachable_asks fleet_good fleet_along granted_in_order (fleet_initial error_text)
           (fleet_api error_text) fleet_environment) with (sys := sys) (sys' := sys') (i := i) (k := k)
    (q := TransitionAuthority run t); try done.
  - apply fleet_initial_good.
  - intros c s n Hc Hg. by apply (fleet_api_keeps error_text).
  - intros s s' He Hg. by apply fleet_environment_kept.
  - intros c s n. apply fleet_api_asks.
Qed.
End interleaving.

(** ** Example *)
Module Examples.
Import FleetGuarantees.Examples.
Import Readiness.Examples.
Import Guarantees.Examples.

(** Two zones, covered by two of three simulated vehicles; the third is the reserve. *)
Definition home (i : Z) : Vector3 := mkVector3 (float_of_Z i) f0 f0.
Definition vehicles : list (string * (nat * Vector3)) :=
  [("cf-1", (0%nat, home (-1))); ("cf-2", (1%nat, home 1)); ("cf-3", (2%nat, home 0))].

Definition zone (name : string) (x : float) : ZoneDefinition.t :=
  ZoneDefinition.mk name (ZoneGeometry.mk (mkVector3 (fsub x (flit 1 10)) (flit 9 10) f0)
                            (mkVector3 (fadd x (flit 1 10)) (flit 11 10) (flit 6 10))).
Definition coverage_task (name zone_id : string) : DeploymentTaskDefinition.t :=
  DeploymentTaskDefinition.mk name "persistent-zone-coverage" zone_id 1 "cover" (JObj []) ∅ f100
    (float_of_Z 60) (float_of_Z 20) (float_of_Z 10).

Definition field : DeploymentManifest.t := {|
  DeploymentManifest.deployment_id := "field";
  DeploymentManifest.fleet :=
    [FleetMemberDefinition.mk "cf-1" "One" (home (-1)) InitialFleetRole.ACTIVE true ∅;
     FleetMemberDefinition.mk "cf-2" "Two" (home 1) InitialFleetRole.ACTIVE true ∅;
     FleetMemberDefinition.mk "cf-3" "Three" (home 0) InitialFleetRole.RESERVE true ∅];
  DeploymentManifest.zones := [zone "zone-a" (float_of_Z (-1)); zone "zone-b" f1];
  DeploymentManifest.tasks := [coverage_task "t1" "zone-a"; coverage_task "t2" "zone-b"];
  DeploymentManifest.constraints :=
    FleetConstraints.mk (flit 3 10) (flit 1 10) (float_of_Z 60) FleetFailurePolicy.HOLD_ALL;
  DeploymentManifest.docks := [];
  DeploymentManifest.completion_policy := CompletionPolicy.mk true false |}.

Definition simulators : BackendBindingProfile.t := {|
  BackendBindingProfile.binding_id := "sim";
  BackendBindingProfile.backend := ExecutionBackend.FAST_SIM;
  BackendBindingProfile.vehicles :=
    (fun v => BackendVehicleBinding.mk v.1 ("sim://" +:+ v.1) v.1 false) <$> vehicles;
  BackendBindingProfile.backend_options := [] |}.

Definition drones : list Vehicle.t :=
  (fun v => {|
     Vehicle.address := v.2.1;
     Vehicle.identity := Build_VehicleIdentity v.1 v.1 "fast-sim" None None;
     Vehicle.capabilities := Build_VehicleCapabilities
       {[VehicleCapability.ARMING; VehicleCapability.TIME_PARAMETERIZED_TRAJECTORY]} [];
     Vehicle.backend_profile := profile |}) <$> vehicles.

(** A sample of a vehicle. *)
Definition reading (v : string) (n : Z) (position : Vector3) (battery : float) (up : bool) : TelemetryEnvelope.t :=
  let e := sample n VehicleState.READY up up in
  let d := TelemetryEnvelope.telemetry e in
  {| TelemetryEnvelope.vehicle_id := v;
     TelemetryEnvelope.sequence := n;
     TelemetryEnvelope.source_timestamp_s := float_of_Z n;
     TelemetryEnvelope.received_timestamp_s := float_of_Z n;
     TelemetryEnvelope.simulation_timestamp_s := None;
     TelemetryEnvelope.replay_timestamp_s := None;
     TelemetryEnvelope.source_clock_id := TelemetryEnvelope.source_clock_id e;
     TelemetryEnvelope.source_clock_epoch := 0;
     TelemetryEnvelope.telemetry := {|
       VehicleTelemetry.state := VehicleState.READY;
       VehicleTelemetry.armed := up;
       VehicleTelemetry.flying := up;
       VehicleTelemetry.position_m := Some position;
       VehicleTelemetry.ground_truth_position_m := None;
       VehicleTelemetry.velocity_m_s := None;
       VehicleTelemetry.attitude := None;
       VehicleTelemetry.quaternion := None;
       VehicleTelemetry.frame := Some CoordinateFrame.WORLD;
       VehicleTelemetry.position_is_estimate := Some true;
       VehicleTelemetry.localization_source := None;
       VehicleTelemetry.localization_quality_percent := Some (float_of_Z 95);
       VehicleTelemetry.battery_percent := Some battery;
       VehicleTelemetry.battery_open_circuit_voltage_v := None;
       VehicleTelemetry.battery_voltage_v := None;
       VehicleTelemetry.battery_current_a := None;
       VehicleTelemetry.battery_cutoff_active := None;
       VehicleTelemetry.battery_cutoff_reason := None;
       VehicleTelemetry.powertrain_current_limited := None;
       VehicleTelemetry.link_quality_percent := Some (float_of_Z 99);
       VehicleTelemetry.link_latency_ms := None;
       VehicleTelemetry.packet_loss_percent := None;
       VehicleTelemetry.transport := None;
       VehicleTelemetry.capabilities := None;
       VehicleTelemetry.imu := VehicleTelemetry.imu d;
       VehicleTelemetry.estimator := None;
       VehicleTelemetry.flow := VehicleTelemetry.flow d;
       VehicleTelemetry.ranges := None;
       VehicleTelemetry.motors := None;
       VehicleTelemetry.faults := [] |} |}.

(** On the ground, fully charged. *)
Definition home_of (v : string) : Vector3 := default Vector3_zero (snd <$> dict_get v vehicles).
Definition grounded (n : nat) (v : Vehicle.t) : TelemetryEnvelope.t :=
  reading (vehicle_name v) (Z.of_nat n) (home_of (vehicle_name v)) (float_of_Z 90) false.
Definition obedient (look : Vehicle.t -> TelemetryEnvelope.t) (B : Type) (q : request B) : outcome B :=
  match q in request B return outcome B with
  | ConnectVehicle _ _ | DisconnectVehicle _ _ | Sleep0 => Ret tt
  | Snapshot v _ => Ret (look v)
  | Execute _ _ command _ => Ret (done_ack command)
  | CancelAndJoin _ => Raise CancelledError
  end.

(** Resume a coroutine of a preparation until it has ended. *)
Fixpoint prepared_by (fuel i : nat) (sys : system Prep request) : system Prep request :=
  match fuel with
  | O => sys
  | S fuel' => match coroutines sys !! i with
               | Some (Await _ _) => prepared_by fuel' i (resume i (obedient (grounded (readings sys))) sys)
               | _ => sys
               end
  end.

Definition field_declared : system Prep request :=
  match FleetPreparation_init "prep-1" field simulators
          (FleetPreparation.mk field simulators new_supervisor "prep-1" [] [] []
             ExecutionSessionStatus.DECLARED f0 None None) 0%nat with
  | (_, s, n) => mkSystem s n []
  end.
Definition field_ready : system Prep request :=
  prepared_by 20 3 (call (discard (run_preflight false))
    (prepared_by 20 2 (call (discard (start_observation error_text))
      (prepared_by 20 1 (call (discard (connect_all error_text false))
        (call (discard (sync (discover drones))) field_declared)))))).

(** The coordinator of this fleet. *)
Definition field_identity : FleetSessionIdentity.t := {|
  FleetSessionIdentity.fleet_session_id := "prep-1";
  FleetSessionIdentity.fleet_run_id := "run-1";
  FleetSessionIdentity.backend := ExecutionBackend.FAST_SIM;
  FleetSessionIdentity.mission_sha256 := "m";
  FleetSessionIdentity.deployment_sha256 := DeploymentManifest_sha256 field;
  FleetSessionIdentity.binding_sha256 := "b";
  FleetSessionIdentity.model_id := "model";
  FleetSessionIdentity.scenario_id := "scenario";
  FleetSessionIdentity.initial_state_sha256 := "i" |}.

Definition field_created_from (sys : system Prep request) : outcome unit * Fleet * nat :=
  FleetCoordinator_init field_identity field None None None None [] None (float_of_Z 30) f1
    (unmade (shared sys)) (readings sys).
Definition field_created : system Fleet frequest :=
  match field_created_from field_ready with (_, s, n) => mkSystem s n [] end.

(** What the world does between two steps: every mission that was created is executing
    under the authority it was given, and once a takeover is confirmed the outgoing
    vehicle comes home and its mission ends. *)
Definition executing (a : MissionArguments.t) : MissionRunSnapshot.t :=
  MissionRunSnapshot.mk (MissionArguments.mission_run_id a) None (MissionArguments.mission_id a) None "1"
    (MissionArguments.vehicle_id a) OperatingMode.SIM MissionPhase.EXECUTING "c" None "rt" "1" "sim" "sim"
    "SIM" None false None None None None None None None None None None None None None None [] None [] f0
    false None [] [] [].
Definition runner_of (ms : list MissionTask.t) : MissionRunner.t :=
  MissionRunner.mk
    (dict_of (fun m => MissionArguments.mission_run_id (args m)) (fun m => executing (args m)) ms) [] []
    (dict_of (fun m => MissionArguments.mission_run_id (args m))
       (fun m => MissionFleetAuthority_new (Some (MissionArguments.fleet_binding (args m)))) ms) [].
Definition run_on (s : Fleet) : Fleet :=
  FleetCoordinator.set_mission_runner (runner_of (FleetCoordinator.mission_tasks s)) s.

Definition the_handover (s : Fleet) : option HandoverRecord.t :=
  p ← FleetCoordinator._persistent s;
  head (dict_values (PersistentCoverageCoordinator._handovers p)).
Definition confirmed (s : Fleet) : bool :=
  match the_handover s with Some h => HandoverRecord.takeover_confirmed h | None => false end.
Definition end_mission (i : nat) (s : Fleet) : Fleet :=
  FleetCoordinator.set_mission_tasks
    (alter (fun t => if task_done t then t
                     else MissionTask.mk (args t) (MissionTask.cancel_requested t)
                            (Some (Ret outcome_of_mission))) i
       (FleetCoordinator.mission_tasks s)) s.

(** The first vehicle covers its zone with a battery that runs low until the takeover; the
    reserve goes to its staging point as soon as it is chosen. *)
Definition staging : Vector3 := mkVector3 (float_of_Z (-1)) (flit 6 10) (flit 3 10).
Definition seen (s : Fleet) (n : nat) (v : Vehicle.t) : TelemetryEnvelope.t :=
  let name := vehicle_name v in
  let launched := is_some (dict_get "t2" (FleetCoordinator._children s)) in
  let chosen := is_some (the_handover s) in
  if String.eqb name "cf-1" then
    if launched && negb (confirmed s)
    then reading name (Z.of_nat n) (mkVector3 (float_of_Z (-1)) f1 (flit 3 10)) (float_of_Z 31) true
    else reading name (Z.of_nat n) (home_of name) (float_of_Z 90) false
  else if String.eqb name "cf-3" && chosen
  then reading name (Z.of_nat n) staging (float_of_Z 90) true
  else grounded n v.

Definition no_receipt : Receipt :=
  FleetAuthorityTransitionReceipt.mk "revoke" 1 "cf-1" "run" "prep-1" "run-1" "d" "t1" 1 "return-t1" 1
    "TAKEOVER_READY_REVOKE_OUTGOING" "a" "p" "c" "t".

Definition answering (s : Fleet) (n : nat) (B : Type) (q : frequest B) : outcome B :=
  match q with
  | OfVehicle q => obedient (seen s n) _ q
  | Pause _ | MissionEnded _ | MissionsEnded _ | HoldEnded _ | HoldsEnded _ | GateBlocked _ _ => Ret tt
  | TransitionAuthority _ _ => Ret no_receipt
  | Forever => Raise CancelledError
  end.

(** The request for a change of authority a coroutine waits for. *)
Definition asked_transition (c : fleet unit) : option (string * Transition) :=
  match c with
  | Await q _ => match q with TransitionAuthority run t => Some (run, t) | _ => None end
  | _ => None
  end.

Definition move (i : nat) (sys : system Fleet frequest) : system Fleet frequest :=
  resume i (answering (shared sys) (readings sys)) sys.
Definition happen (f : Fleet -> Fleet) (sys : system Fleet frequest) : system Fleet frequest :=
  mkSystem (f (shared sys)) (readings sys) (coroutines sys).
Definition turn (i : nat) (sys : system Fleet frequest) : system Fleet frequest :=
  let sys := happen run_on sys in
  move i (if confirmed (shared sys) then happen (end_mission 0) sys else sys).

(** Any number of turns. *)
Fixpoint turns (fuel i : nat) (sys : system Fleet frequest) : system Fleet frequest :=
  match fuel with O => sys | S fuel' => turns fuel' i (turn i sys) end.

Definition covering : system Fleet frequest :=
  call (discard (Rotation.run 10 [("t1", "cf-1"); ("t2", "cf-2")] false)) field_created.

(** The grant is asked for in the turn after these. *)
Definition landed : system Fleet frequest :=
  happen (end_mission 0) (happen run_on (turns 27 0 covering)).
Definition granting : system Fleet frequest := move 0 landed.

(** *** They are reachable *)

Lemma prepared_by_reachable fuel i sys :
  reachable prep_initial (prep_api error_text) prep_environment sys ->
  reachable prep_initial (prep_api error_text) prep_environment (prepared_by fuel i sys).
Proof.
  revert sys. induction fuel as [|fuel IH]; intros sys Hr; simpl; [done|].
  destruct (coroutines sys !! i) as [[| |]|]; [done|done| |done]. by apply IH, reachable_resume.
Qed.

Lemma drones_valid : valid_vehicles drones.
Proof. by repeat constructor. Qed.

Lemma field_ready_reachable :
  reachable prep_initial (prep_api error_text) prep_environment field_ready.
Proof.
  unfold field_ready. apply prepared_by_reachable, reachable_call; [|exact (prep_preflight error_text false)].
  apply prepared_by_reachable, reachable_call; [|exact (prep_start_observation error_text)].
  apply prepared_by_reachable, reachable_call; [|exact (prep_connect error_text false)].
  apply reachable_call; [|exact (prep_discover error_text drones drones_valid)].
  unfold field_declared. destruct (FleetPreparation_init _ _ _ _ _) as [[o s] n] eqn:E. apply reach_init.
  exists "prep-1", field, simulators, (FleetPreparation.mk field simulators new_supervisor "prep-1" [] [] []
    ExecutionSessionStatus.DECLARED f0 None None), 0%nat, n, (mkSystem new_supervisor 0 []). split_and!.
  - apply reach_init. by eexists _, _.
  - done.
  - vm_compute in E. vm_compute. by destruct o as [[]|e].
Qed.

Lemma field_coordinated sys s n :
  reachable prep_initial (prep_api error_text) prep_environment sys ->
  field_created_from sys = (Ret tt, s, n) -> coordinating error_text (mkSystem s n []).
Proof.
  intros Hsys E. apply reach_init. exists field_identity, field, None, None, None, None, [], None.
  exists (float_of_Z 30), f1, (unmade (shared sys)), (readings sys), n, sys.
  split_and!; [done|done|done|constructor|exact E].
Qed.

Lemma field_created_from_ready : (field_created_from field_ready).1.1 = Ret tt.
Proof. vm_compute. reflexivity. Qed.

Lemma field_created_reachable : coordinating error_text field_created.
Proof.
  unfold field_created. pose proof field_created_from_ready as Ho. revert Ho.
  destruct (field_created_from field_ready) as [[o s] n] eqn:E. cbn [fst]. intros ->.
  by apply (field_coordinated field_ready); [apply field_ready_reachable|].
Qed.

Lemma run_on_reachable sys : coordinating error_text sys -> coordinating error_text (happen run_on sys).
Proof. destruct sys. intros Hr. eapply reach_env; [exact Hr|apply env_runner|done]. Qed.

Lemma end_mission_reachable i sys :
  coordinating error_text sys -> coordinating error_text (happen (end_mission i) sys).
Proof. destruct sys. intros Hr. eapply reach_env; [exact Hr|apply env_mission|done]. Qed.

Lemma turns_reachable fuel i sys :
  coordinating error_text sys -> coordinating error_text (turns fuel i sys).
Proof.
  revert sys. induction fuel as [|fuel IH]; intros sys Hr; simpl; [done|]. apply IH. unfold turn.
  apply reachable_resume. destruct (confirmed _); [apply end_mission_reachable|]; by apply run_on_reachable.
Qed.

Lemma landed_reachable : coordinating error_text landed.
Proof.
  apply end_mission_reachable, run_on_reachable, turns_reachable, reachable_call;
    [apply field_created_reachable|].
  apply (fleet_run error_text 10 [("t1", "cf-1"); ("t2", "cf-2")] false).
Qed.

Lemma awaits_of (c : option (fleet unit)) run t : c ≫= asked_transition = Some (run, t) ->
  exists k, c = Some (Await (TransitionAuthority run t) k).
Proof.
  destruct c as [[| |B q k]|]; try done. simpl. destruct q; try done. intros [= -> ->]. by exists k.
Qed.

(** Does the coroutine wait for something? *)
Definition waiting (c : option (fleet unit)) : bool := match c with Some (Await _ _) => true | _ => false end.

Lemma waiting_of c : waiting c = true -> exists B (q : frequest B) k, c = Some (Await q k).
Proof. destruct c as [[| |B q k]|]; try done. by exists B, q, k. Qed.

(** The reserve is granted the task. *)
Lemma grant_witness :
  exists run t h, (coroutines granting !! 0%nat ≫= asked_transition) = Some (run, t) /\
    FleetAuthorityTransition.vehicle_id t = "cf-3" /\
    FleetAuthorityTransition.next_task_id t = "t1" /\
    FleetAuthorityTransition.next_task_lease_generation t = 2 /\
    settled_for h t (shared granting) /\ HandoverRecord.outgoing_vehicle_id h = "cf-1".
Proof.
  assert (Hreq : exists run t, (coroutines granting !! 0%nat ≫= asked_transition) = Some (run, t) /\
    FleetAuthorityTransition.reason_code t = "ATOMIC_TAKEOVER_CONFIRMED" /\
    FleetAuthorityTransition.transition_id t = "grant-handover-t1-2" /\
    FleetAuthorityTransition.vehicle_id t = "cf-3" /\
    FleetAuthorityTransition.next_task_id t = "t1" /\
    FleetAuthorityTransition.next_task_lease_generation t = 2)
    by (eexists _, _; split_and!; vm_compute; reflexivity).
  destruct Hreq as (run & t & Hq & Hwhy & Hid & Hv & Ht & Hg).
  destruct (awaits_of _ _ _ Hq) as [k Hk].
  assert (Hs : runs (fleet_api error_text) landed 0 granting)
    by (apply runs_resumed, waiting_of; vm_compute; reflexivity).
  destruct (authority_is_granted_in_order error_text landed 0 granting run t k landed_reachable Hs Hk Hwhy)
    as [h Hh].
  exists run, t, h. split_and!; try assumption.
  destruct Hh as [Hst Hn _ _ _ _ _ _ _]. rewrite Hid in Hn.
  apply (inj (String.append "grant-") "handover-t1-2") in Hn. rewrite <- Hn in Hst.
  assert (Ho : HandoverRecord.outgoing_vehicle_id <$> stored_handover "handover-t1-2" (shared granting) = Some "cf-1")
    by (vm_compute; reflexivity).
  rewrite Hst in Ho. by injection Ho.
Defined.
End Examples.
